(* ===== verification/_CoqProject ===== *)
-Q . S2P
Prelude.v
Div64.v
Kstack.v
Kmalloc.v
Pmm.v
Paging.v
Textenc.v
Rtc.v
Sched.v
Interfaces.v
HeapAlloc.v
Keyboard.v
Fd.v
FdProps.v
Elf.v
ElfLoad.v
Space.v
Http.v
HttpProps.v
Dmesg.v
Tty.v
Calc.v
CalcProps.v
Mem.v
Task.v
Proc.v
Disk.v
Fat.v
FatProps.v
FatDir.v
FatWalk.v
FatLayout.v
FatFormat.v
FatFile.v
FatLookup.v
FatEntry.v
FatCreate.v
FatRound.v
Fsck.v
FsckProps.v
Sysvol.v
Fs.v
FsProps.v
Syscall.v
SyscallProps.v
Net.v
Tcp.v
Dhcp.v
Dns.v
NetCalls.v
NetLab.v
NetSum.v
NetLogic.v
NetRing.v
NetUdp.v
TcpProps.v
TcpWire.v
NetSafe.v
NetSafeTcp.v
NetSafeApp.v
NetSafeAll.v
