(* ===== verification/Prelude.v ===== *)
(** * A verification development for EZOS

    EZOS is a small 32-bit x86 kernel in C ([src/kernel/]) with its boot code in
    assembly ([src/boot/]).  This library models the parts of the kernel that
    carry its own core logic as executable definitions and proves what makes
    them correct.  This file holds the generic part: C integers as [Z] with the
    wrap-around written out ([u8] to [u64], [s32], [+!], [-!], [*!]), bit masks,
    C arrays as lists ([aget], [aset]), word memory, little-endian fields, C
    strings, counting and ring buffers, with the tactics [ulia], [btrue],
    [bcase], [ured] and the hint database [cint].

    ** The parts and the files

    - [Div64.v], [kernel/div64.c]: the shift-and-subtract 64-bit division that
      the compiler calls; it equals [Z.div] and [Z.modulo].
    - [Kmalloc.v], [kernel/kmalloc.c]: the heap.  The pool is memory by words, on
      which the pointer code runs; [heap_inv] relates it to a list of blocks.
      Allocation and release keep the invariant, return disjoint buffers, merge
      neighbours, and an overwritten canary is reported.
    - [Pmm.v], [kernel/pmm.c]: the bitmap of physical pages; first fit, exact
      release, reservation from the firmware's memory map.
    - [Paging.v], [kernel/paging.c]: page directory and tables in memory, with
      CR0, CR3 and the TLB; mapping, unmapping, query, the boot-time map; no stale
      translation survives an operation.
    - [Textenc.v], [kernel/textenc.c]: UTF-16 and UTF-8, and the two-row edit
      distance against its recursive definition.
    - [Rtc.v], [kernel/rtc.c]: the clock chip, the calendar, FAT time stamps.
    - [Sched.v], [kernel/task.c]: the task table with the intrusive wait queues,
      the timer, sleeping and waking, the round-robin scheduler.  [schedule] is
      split at [switch_to]; [sleep_begin]/[sleep_end] are the two halves of
      [task_sleep].
    - [Kstack.v], [kernel/stackchk.c]: byte memory and the guard of kernel stacks.
      [Mem.v], [kernel/mem.c]: [memcpy], [memset], [memcmp] on it.
    - [Task.v], [kernel/task.c], [boot/task_switch.asm], [boot/kernel_entry.asm]:
      creation of threads and processes, the frame of a forked child, the
      instructions that pop those frames, and the collection of exit codes.
    - [Space.v] and [Proc.v], [kernel/task.c]: the copy of an address space and its
      release on [Pmm.v] and [Paging.v]; then [task_fork], [process_exit] and
      [task_reap_zombies] on the whole state they touch (record [Proc.proc]: task
      table, descriptors, pages, kernel stacks, image accounts).
    - [Interfaces.v]: the contracts [Allocator] (of the heap) and [FileSys] (of the
      file layer [kernel/fs.h]) against which clients are proved.  [HeapAlloc.v]
      discharges [Allocator] from [Kmalloc.v].
    - [Keyboard.v], [kernel/keyboard.c]: scan codes and the ring of keys, shared
      by the interrupt handler, the USB keyboard and the readers.
    - [Fd.v] and [FdProps.v], [kernel/fd.c]: descriptor tables, files and pipes on
      the two interfaces, the scheduler and the keyboard.  An operation that
      sleeps returns [Sleep] and is run again from its start, as the loop of the C
      code does.
    - [Elf.v] and [ElfLoad.v], [kernel/elf.c]: validation of arbitrary bytes, then
      loading and unloading on [Pmm.v] and [Paging.v].
    - [Http.v] and [HttpProps.v], [kernel/http.c]: the client over the class
      [NetOps], which stands for the calls into [kernel/net.c].
    - [Net.v], [Tcp.v], [Dhcp.v], [Dns.v] and [NetCalls.v], [kernel/net.c]: the network
      stack.  Its programs run in a state monad over all static variables of the
      file; a result [Wild] is an access outside a buffer.  [Net.v] has the monad,
      checksums, ARP, IPv4, ICMP and UDP; [NetCalls.v] the dispatch of frames, the
      timers and the calls.  The card, the clock, the heap and the process table are
      the class [NetEnv], of which [NetLab.v] has an instance.  [NetSum.v]
      (checksums), [NetLogic.v] (rules for the monad), [NetRing.v] (receive rings),
      [NetUdp.v] and [TcpWire.v] (packets from one kernel to another), [TcpProps.v]
      (two connected kernels as a step relation) and [NetSafe.v], [NetSafeTcp.v],
      [NetSafeApp.v], [NetSafeAll.v] (the invariant of all buffers) hold the proofs.
    - [Dmesg.v], [kernel/dmesg.c]: the kernel log.  [Tty.v], [kernel/tty.c]: the
      text console with its history.
    - [Calc.v] and [CalcProps.v], [kernel/calc.c]: the calculator of the shell
      over the class [Double], with binary64 as its instance.
    - [Disk.v]: the class [BlockDev], the contract of [kernel/ata.h] that the file
      systems use, with a disk in memory as its instance.
    - [Fat.v] and [FatDir.v], [kernel/fat.c]: the FAT12/16/32 driver; volumes, table
      entries, clusters, mount and format, then directories, long names, paths and
      files.  [FatProps.v] (entries, allocation, release), [FatWalk.v] (the walk with
      its cycle test), [FatLayout.v] and [FatFormat.v] (format and mount),
      [FatFile.v] (chains as files), [FatLookup.v] (a directory as a list of
      entries), [FatEntry.v] (insertion into its bytes), [FatCreate.v] (finding a
      slot) and [FatRound.v] (creation of a file) hold the proofs.
    - [Fsck.v] and [FsckProps.v], [kernel/fat.c], [kernel/fsck.c]: the consistency
      check of a FAT volume, with its bitmap and its ring of directories.
    - [Sysvol.v], [kernel/sysvol.c]: the read-only volume linked into the kernel;
      [Fs.v] and [FsProps.v], [kernel/fs.c]: mounting, formatting, paths and the
      dispatch of every operation to the system volume or to a driver.  The drivers
      are the class [Drivers], which states on which drive each of them writes; it
      is checked against a small instance.

    - [Syscall.v] and [SyscallProps.v], [kernel/syscall.c]: the check of user pointers
      and the handler of system calls on the state of [Proc.v].

    Each state is a [Record] of the module's static variables, each C function a
    definition of the same name; loops are [Fixpoint]s with fuel, early returns
    the branches of the definition.  Code that runs with interrupts disabled is
    one step; where it gives the processor away the definition is split there.

    ** What the theorems show

    - Invariants and safety: [Kmalloc.kmalloc_sound], [Kmalloc.kfree_sound],
      [Sched.blocked_tasks_queued] (a blocked task is in the queue it names, so
      that no wake-up is lost), [Paging.tlb_never_stale], [FdProps.fd_ops_safe]
      (no operation on descriptors faults or leaks), [ElfLoad.elf_load_confined],
      [Tty.tty_ops_safe].
    - Processes: [Space.fork_space_exact] (the copy maps and contains what the
      parent's space does and shares no page), [Proc.task_fork_exact] (all or
      nothing), [Proc.fork_exit_wait] (fork, exit and wait give every page back and
      deliver the exit code).
    - FAT: [FatFormat.fat_format_exact] (a format makes a well-formed empty volume
      whenever one fits), [FatProps.fat_entries_exact] (the table behind its cache is
      an array), [FatProps.fat_alloc_cluster_exact], [FatProps.fat_free_chain_exact]
      and [FatWalk.fat_dir_walk_exact], which hold for any contents of the table;
      [FatLookup.fat_directory_exact] (lookup and listing on the list of entries)
      and [FatRound.fat_create_file_exact] (a created file is in the directory,
      reads back, and nothing else changes; or the failure has one of three causes).
      [FsckProps.fat_fsck_exact] (a clean report means a consistent volume and the
      other way round) and [FsckProps.fat_fsck_diverges] (it runs forever on a loop of
      directories).  The content of an uninitialised local array is the argument [junk], the time
      stamp [clock].
    - The file system layer: [FsProps.boot_drive_kept] (no sequence of calls changes
      the boot drive unless it is selected), [FsProps.system_volume_kept] (formats
      and file operations cannot touch the system volume), [FsProps.fs_ro_abs_exact]
      (paths), [Sysvol.sysvol_lookup_exact].
    - The network: [NetSafeAll.net_stack_safe] (whatever frames arrive and whatever
      calls are made, no buffer is overrun), [NetUdp.udp_end_to_end] and
      [TcpWire.tcp_segment_end_to_end] (what one kernel sends another accepts, with the
      same contents), [NetUdp.recvfrom_takes_first], [TcpProps.tcp_transfer_reliable]
      (over a network that loses, repeats and reorders, the reader gets a prefix of
      what was sent) and [TcpProps.tcp_transfer_completes].
    - The boundary to user programs: [SyscallProps.user_range_ok_exact] and
      [SyscallProps.syscall_harmless] (no registers make a call fault or write
      memory that the program could not write).
    - Refinement of an abstract specification: [Keyboard.keyboard_refines_queue],
      [Dmesg.dmesg_keeps_latest] (the longest suffix of the lines that fits),
      [Tty.tty_view_refines] (a window over history and screen).
    - Equivalence with a reference: [Textenc.levenshtein_minimal],
      [CalcProps.calc_eval_show] (precedence, associativity and errors of the
      tree), [Div64.udivdi3_umoddi3_exact].
    - Function of every branch: the allocators, paging, timer, ELF validation and
      loading, pipes, task creation, [Task.fork_child_resumes].
    - Round trips: text encodings, the calendar, created files, chunked transfer.
    - Termination and liveness: [HttpProps.http_fetch_terminates],
      [CalcProps.calc_parser_terminates], [FsckProps.fat_fsck_diverges],
      [Sched.round_robin_fair].
    - Bounds: [HttpProps.resolve_redirect_overflow] gives exactly the inputs on
      which a buffer is overrun.

    ** Fuel

    [KM_FUEL] exceeds the number of blocks the pool can hold; [CHAIN_FUEL] is one
    more than the eight tasks; [MARK_FUEL] and [UEFI_FUEL] exceed the pages of the
    pool and the descriptors of the hand-off area; loops over clusters have the
    number of clusters plus two, as in the C code; the eviction loop of the log
    runs at most as often as it has lines; a redirect chain has six requests; the
    calculator needs no more recursion than its text is long.  The theorems state
    these bounds or hold for every fuel above them.  Loops that can really run
    forever (the scaling loops of the calculator's functions, the digits of a
    time stamp in a full buffer) return [None] when their fuel is used up, and
    the theorems say when that is so for every fuel.  A wait of the network stack
    ends by the clock of the environment; its fuel counts the polls, the result
    [Stuck] means that it was too small, and the theorems hold for every fuel.

    ** What is not modelled

    The graphical desktop, games, web view and shell are user interface; the other
    file systems, block drivers and the card's registers are larger parts that are
    left out or are parameters ([FileSys], [BlockDev], [Drivers], [NetEnv]); port input/output, descriptor
    tables, the boot order and the Rust and Zig modules are outside the C logic.
    [kernel/exec.c] is not modelled.  Self-tests
    are programs that print and are left out.  The x87 unit's extra precision is
    not modelled in [Calc.v]. *)

From Stdlib Require Export ZArith Lia Ascii String.
From stdpp Require Export base numbers strings list gmap.
#[global] Open Scope Z_scope.
#[global] Arguments Z.to_nat : simpl never.

(** ** Unsigned and signed C integers, as [Z] with explicit wrap-around *)

Definition u8 (x : Z) : Z := x mod 2 ^ 8.
Definition u16 (x : Z) : Z := x mod 2 ^ 16.
Definition u32 (x : Z) : Z := x mod 2 ^ 32.
Definition u64 (x : Z) : Z := x mod 2 ^ 64.

(** Reinterpretation of a 32-bit pattern as [int32_t]. *)
Definition s32 (x : Z) : Z := let v := u32 x in if v <? 2 ^ 31 then v else v - 2 ^ 32.

Declare Scope c_scope.
Delimit Scope c_scope with c.
Notation "x +! y" := (u32 (x + y)) (at level 50, left associativity) : c_scope.
Notation "x -! y" := (u32 (x - y)) (at level 50, left associativity) : c_scope.
Notation "x *! y" := (u32 (x * y)) (at level 40, left associativity) : c_scope.
Notation "x &! y" := (Z.land x y) (at level 40, left associativity) : c_scope.
Notation "x |! y" := (Z.lor x y) (at level 50, left associativity) : c_scope.
Notation "~! x" := (u32 (Z.lnot x)) (at level 35, right associativity) : c_scope.
#[global] Open Scope c_scope.

Definition is_u8 (x : Z) : Prop := 0 <= x < 2 ^ 8.
Definition is_u16 (x : Z) : Prop := 0 <= x < 2 ^ 16.
Definition is_u32 (x : Z) : Prop := 0 <= x < 2 ^ 32.
Definition is_u64 (x : Z) : Prop := 0 <= x < 2 ^ 64.

(** C truth value of a comparison. *)
Definition b2z (b : bool) : Z := if b then 1 else 0.

(** [ulia]: linear arithmetic with the wrap-around functions unfolded and
    [mod]/[/] turned into Euclidean equations. *)
Ltac unfold_u :=
  unfold is_u8, is_u16, is_u32, is_u64, u8, u16, u32, u64 in *;
  change (2 ^ 8) with 256 in *; change (2 ^ 16) with 65536 in *;
  change (2 ^ 31) with 2147483648 in *;
  change (2 ^ 32) with 4294967296 in *;
  change (2 ^ 64) with 18446744073709551616 in *.
Ltac ulia := unfold_u; Z.to_euclidean_division_equations; lia.

(** [bdestr]: turn every boolean comparison of the context into arithmetic. *)
Ltac btrue :=
  repeat match goal with
  | H : (_ && _)%bool = true |- _ => apply andb_true_iff in H as [? ?]
  | H : (_ || _)%bool = false |- _ => apply orb_false_iff in H as [? ?]
  | H : negb _ = true |- _ => apply negb_true_iff in H
  | H : negb _ = false |- _ => apply negb_false_iff in H
  | H : (_ =? _) = true |- _ => apply Z.eqb_eq in H
  | H : (_ =? _) = false |- _ => apply Z.eqb_neq in H
  | H : (_ <? _) = true |- _ => apply Z.ltb_lt in H
  | H : (_ <? _) = false |- _ => apply Z.ltb_ge in H
  | H : (_ <=? _) = true |- _ => apply Z.leb_le in H
  | H : (_ <=? _) = false |- _ => apply Z.leb_gt in H
  end.

(** [bcase]: case analysis on a boolean comparison that occurs in the goal. *)
Ltac bcase :=
  match goal with
  | |- context [?x =? ?y] => destruct (Z.eqb_spec x y)
  | |- context [?x <? ?y] => destruct (Z.ltb_spec x y)
  | |- context [?x <=? ?y] => destruct (Z.leb_spec x y)
  end.

Lemma u32_small x : is_u32 x -> u32 x = x.
Proof. intros. apply Z.mod_small. exact H. Qed.

Lemma u32_range x : is_u32 (u32 x).
Proof. unfold is_u32, u32. apply Z.mod_pos_bound. lia. Qed.

Lemma u16_range x : is_u16 (u16 x).
Proof. unfold is_u16, u16. apply Z.mod_pos_bound. lia. Qed.

Lemma u8_range x : is_u8 (u8 x).
Proof. unfold is_u8, u8. apply Z.mod_pos_bound. lia. Qed.

Lemma u64_range x : is_u64 (u64 x).
Proof. unfold is_u64, u64. apply Z.mod_pos_bound. lia. Qed.

Lemma u32_idemp x : u32 (u32 x) = u32 x.
Proof. apply u32_small, u32_range. Qed.

Lemma s32_range x : - 2 ^ 31 <= s32 x < 2 ^ 31.
Proof. unfold s32. pose proof (u32_range x). destruct (Z.ltb_spec (u32 x) (2^31)); ulia. Qed.

Lemma s32_small x : - 2 ^ 31 <= x < 2 ^ 31 -> s32 x = x.
Proof. unfold s32. intros. destruct (Z.ltb_spec (u32 x) (2^31)); ulia. Qed.

Create HintDb cint.
#[export] Hint Resolve u8_range u16_range u32_range u64_range : cint.
#[export] Hint Rewrite u32_idemp : cint.

(** [ured]: drop every wrap-around that [lia] shows to be the identity. *)
Ltac ured :=
  repeat match goal with
  | |- context [u32 ?x] => rewrite (u32_small x) by (unfold is_u32 in *; lia)
  end.
Ltac ured_in H :=
  repeat match type of H with
  | context [u32 ?x] => rewrite (u32_small x) in H by (unfold is_u32 in *; lia)
  end.

(** ** Bit masks *)

(** [x & (2^k - 1)] is the remainder, [x & ~(2^k - 1)] the floor multiple. *)
Lemma land_low_mask x k : 0 <= k -> Z.land x (2 ^ k - 1) = x mod 2 ^ k.
Proof. intros. rewrite <- Z.land_ones by lia. f_equal. rewrite Z.ones_equiv. lia. Qed.

Lemma lnot_mask k : 0 <= k <= 32 -> u32 (Z.lnot (2 ^ k - 1)) = 2 ^ 32 - 2 ^ k.
Proof.
  intros. unfold u32, Z.lnot.
  assert (0 < 2 ^ k <= 2 ^ 32) by (split; [lia | apply Z.pow_le_mono_r; lia]).
  symmetry. apply Z.mod_unique with (q := -1); lia.
Qed.

Lemma land_high_mask x k : 0 <= k <= 32 -> is_u32 x ->
  Z.land x (2 ^ 32 - 2 ^ k) = x - x mod 2 ^ k.
Proof.
  intros Hk Hx.
  replace (2 ^ 32 - 2 ^ k) with (Z.shiftl (Z.ones (32 - k)) k).
  2:{ rewrite Z.shiftl_mul_pow2, Z.ones_equiv by lia.
      replace (2 ^ 32) with (2 ^ (32 - k) * 2 ^ k); [lia |].
      rewrite <- Z.pow_add_r by lia. f_equal; lia. }
  assert (E : x - x mod 2 ^ k = Z.shiftl (Z.shiftr x k) k).
  { rewrite Z.shiftl_mul_pow2, Z.shiftr_div_pow2 by lia.
    pose proof (Z.div_mod x (2 ^ k)). lia. }
  rewrite E. apply Z.bits_inj'. intros n Hn.
  rewrite Z.land_spec, !Z.shiftl_spec by lia.
  destruct (Z.ltb_spec n k).
  - rewrite !(Z.testbit_neg_r _ (n - k)) by lia. apply andb_false_r.
  - rewrite Z.shiftr_spec by lia. replace (n - k + k) with n by lia.
    destruct (Z.ltb_spec n 32).
    + rewrite Z.ones_spec_low by lia. apply andb_true_r.
    + rewrite Z.ones_spec_high by lia. rewrite andb_false_r.
      symmetry. rewrite <- (Z.mod_small x (2 ^ 32)) by exact Hx.
      apply Z.mod_pow2_bits_high; lia.
Qed.

Lemma align_down_pow2 x k : 0 <= k <= 32 -> is_u32 x ->
  x &! ~! (2 ^ k - 1) = x - x mod 2 ^ k.
Proof. intros. rewrite lnot_mask by lia. by apply land_high_mask. Qed.

(** The most frequent instances, in the literal form the code uses. *)
Lemma align_down_2 x : is_u32 x -> x &! ~! 1 = x - x mod 2.
Proof. apply (align_down_pow2 x 1). lia. Qed.

Lemma align_down_4 x : is_u32 x -> x &! ~! (4 - 1) = x - x mod 4.
Proof. apply (align_down_pow2 x 2). lia. Qed.

Lemma align_down_16 x : is_u32 x -> x &! ~! (16 - 1) = x - x mod 16.
Proof. apply (align_down_pow2 x 4). lia. Qed.

Lemma land_1 x : x &! 1 = x mod 2.
Proof. apply (land_low_mask x 1). lia. Qed.

Lemma align_down_4096 x : is_u32 x -> x &! ~! (4096 - 1) = x - x mod 4096.
Proof. apply (align_down_pow2 x 12). lia. Qed.

Lemma land_fffff000 x : is_u32 x -> x &! 0xFFFFF000 = x - x mod 4096.
Proof. apply (land_high_mask x 12). lia. Qed.

Lemma land_fff x : x &! 0xFFF = x mod 4096.
Proof. apply (land_low_mask x 12). lia. Qed.

(** Disjoint bit fields add. *)
Lemma lor_low_add a b k : 0 <= k -> a mod 2 ^ k = 0 -> 0 <= b < 2 ^ k ->
  Z.lor a b = a + b.
Proof.
  intros Hk Ha Hb.
  assert (E : Z.land a b = 0).
  { apply Z.bits_inj'. intros n Hn. rewrite Z.land_spec, Z.bits_0.
    destruct (Z.ltb_spec n k).
    - replace (Z.testbit a n) with false; [done |].
      symmetry. rewrite (Z.div_mod a (2 ^ k)) by lia. rewrite Ha, Z.add_0_r, Z.mul_comm.
      apply Z.mul_pow2_bits_low. lia.
    - replace (Z.testbit b n) with false; [apply andb_false_r |].
      symmetry. rewrite <- (Z.mod_small b (2 ^ k)) by lia.
      apply Z.mod_pow2_bits_high. lia. }
  pose proof (Z.add_lor_land a b). lia.
Qed.

(** ** C arrays as lists *)

(** [a[i]] for an index known to be in range; [d] is never observed by the
    theorems, which prove the bounds. *)
Definition aget {A} (d : A) (l : list A) (i : Z) : A := nth (Z.to_nat i) l d.
Definition aset {A} (l : list A) (i : Z) (v : A) : list A := <[Z.to_nat i := v]> l.

Lemma aget_lookup {A} (d : A) l i x : l !! Z.to_nat i = Some x -> aget d l i = x.
Proof. intros H. unfold aget. by apply nth_lookup_Some. Qed.

Lemma lookup_aget {A} (d : A) l i : 0 <= i < Z.of_nat (length l) ->
  l !! Z.to_nat i = Some (aget d l i).
Proof.
  intros H. destruct (lookup_lt_is_Some_2 l (Z.to_nat i)) as [x Hx]; [lia |].
  by rewrite (aget_lookup _ _ _ _ Hx).
Qed.

Lemma aget_aset_eq {A} (d : A) l i v : 0 <= i < Z.of_nat (length l) ->
  aget d (aset l i v) i = v.
Proof. intros. apply aget_lookup. apply list_lookup_insert_eq. lia. Qed.

Lemma aget_aset_ne {A} (d : A) l i j v : 0 <= i -> 0 <= j -> i <> j ->
  aget d (aset l i v) j = aget d l j.
Proof.
  intros. unfold aget, aset. rewrite !nth_lookup, list_lookup_insert_ne by lia. done.
Qed.

Lemma length_aset {A} (l : list A) i v : length (aset l i v) = length l.
Proof. apply length_insert. Qed.
#[export] Hint Rewrite @length_aset : cint.

Lemma head_elem {A} (l : list A) x : head l = Some x -> x ∈ l.
Proof. destruct l; [done |]. intros [= ->]. left. Qed.

(** ** Word-granular memory

    The pool of the heap and the page tables are accessed by 32-bit words at
    4-aligned addresses only, so memory maps such an address to a word. *)
Definition mem_rd (m : gmap Z Z) (a : Z) : Z := default 0 (m !! a).
Definition mem_wr (m : gmap Z Z) (a v : Z) : gmap Z Z := <[a := v]> m.

Lemma mem_rd_wr_eq m a v : mem_rd (mem_wr m a v) a = v.
Proof. unfold mem_rd, mem_wr. by rewrite lookup_insert_eq. Qed.

Lemma mem_rd_wr_ne m a b v : a <> b -> mem_rd (mem_wr m a v) b = mem_rd m b.
Proof. intros. unfold mem_rd, mem_wr. by rewrite lookup_insert_ne. Qed.

Lemma mem_rd_wr m a b v :
  mem_rd (mem_wr m a v) b = if a =? b then v else mem_rd m b.
Proof.
  destruct (Z.eqb_spec a b) as [-> | Hn].
  - apply mem_rd_wr_eq.
  - by apply mem_rd_wr_ne.
Qed.

(** [mem_simp]: resolve every read over writes by address arithmetic. *)
Ltac mem_simp :=
  repeat first
    [ rewrite mem_rd_wr_eq
    | rewrite mem_rd_wr_ne by lia ].

(** ** Little-endian fields of a byte buffer

    A read outside the buffer is [None]. *)
Definition rd8 (l : list Z) (i : Z) : option Z := if i <? 0 then None else l !! Z.to_nat i.
Definition rd16 (l : list Z) (i : Z) : option Z :=
  a ← rd8 l i; b ← rd8 l (i + 1); Some (a + 2 ^ 8 * b).
Definition rd32 (l : list Z) (i : Z) : option Z :=
  a ← rd16 l i; b ← rd16 l (i + 2); Some (a + 2 ^ 16 * b).

Lemma rd8_some l i : Forall is_u8 l -> 0 <= i < Z.of_nat (length l) -> exists v, rd8 l i = Some v /\ is_u8 v.
Proof.
  intros Hl Hi. unfold rd8. destruct (Z.ltb_spec i 0); [lia |].
  destruct (lookup_lt_is_Some_2 l (Z.to_nat i) ltac:(lia)) as [v E]. exists v. split; [done |].
  rewrite Forall_lookup in Hl. by eapply Hl.
Qed.

Lemma rd16_some l i : Forall is_u8 l -> 0 <= i -> i + 2 <= Z.of_nat (length l) ->
  exists v, rd16 l i = Some v /\ is_u16 v.
Proof.
  intros Hl Hi Hn. unfold rd16. destruct (rd8_some l i Hl ltac:(lia)) as (a & -> & Ha).
  destruct (rd8_some l (i + 1) Hl ltac:(lia)) as (b & -> & Hb). cbn. eexists. split; [done |]. ulia.
Qed.

Lemma rd32_some l i : Forall is_u8 l -> 0 <= i -> i + 4 <= Z.of_nat (length l) ->
  exists v, rd32 l i = Some v /\ is_u32 v.
Proof.
  intros Hl Hi Hn. unfold rd32. destruct (rd16_some l i Hl ltac:(lia) ltac:(lia)) as (a & -> & Ha).
  destruct (rd16_some l (i + 2) Hl ltac:(lia) ltac:(lia)) as (b & -> & Hb). cbn. eexists. split; [done |]. ulia.
Qed.

(** ** Byte strings *)

Definition byte_of_ascii (c : ascii) : Z := Z.of_N (N_of_ascii c).

(** The bytes of a C string literal, without the terminating NUL. *)
Fixpoint bytes (s : string) : list Z :=
  match s with
  | EmptyString => []
  | String c s' => byte_of_ascii c :: bytes s'
  end.

(** [strlen]: the bytes before the first NUL (or the end of the buffer). *)
Fixpoint c_strlen (s : list Z) : Z :=
  match s with
  | [] => 0
  | c :: s' => if c =? 0 then 0 else 1 + c_strlen s'
  end.

Definition no_nul (s : list Z) : Prop := Forall (fun c => c <> 0) s.

Lemma c_strlen_range s : 0 <= c_strlen s <= Z.of_nat (length s).
Proof. induction s as [| c s IH]; simpl; [lia |]. destruct (c =? 0); lia. Qed.

Lemma c_strlen_app s t : no_nul s -> c_strlen (s ++ 0 :: t) = Z.of_nat (length s).
Proof.
  induction 1 as [| c s Hc _ IH]; simpl; [done |].
  destruct (Z.eqb_spec c 0); [done |]. rewrite IH. lia.
Qed.

(** ** Counting the members of a finite range that satisfy a test *)

Fixpoint count_if (f : Z -> bool) (k : nat) (i : Z) : Z :=
  match k with O => 0 | S k' => b2z (f i) + count_if f k' (i + 1) end.

Lemma count_if_ext k : forall f g i,
  (forall j, i <= j < i + Z.of_nat k -> g j = f j) -> count_if g k i = count_if f k i.
Proof.
  induction k as [| k IH]; intros f g i H; simpl; [done |].
  rewrite H by lia. f_equal. apply IH. intros. apply H. lia.
Qed.

Lemma count_if_update k : forall f g i p (b : bool), i <= p < i + Z.of_nat k ->
  f p = negb b -> g p = b ->
  (forall j, i <= j < i + Z.of_nat k -> j <> p -> g j = f j) ->
  count_if g k i = count_if f k i + (if b then 1 else -1).
Proof.
  induction k as [| k IH]; intros f g i p b Hp Hold Hnew Hother; [lia |].
  simpl. destruct (Z.eq_dec i p) as [-> | Hne].
  - rewrite Hold, Hnew. rewrite (count_if_ext k f g) by (intros; apply Hother; lia).
    destruct b; simpl; lia.
  - rewrite Hother by lia. rewrite (IH f g (i + 1) p b); auto; try lia.
    intros. apply Hother; lia.
Qed.

Lemma count_if_range k : forall f i, 0 <= count_if f k i <= Z.of_nat k.
Proof.
  induction k as [| k IH]; intros f i; simpl; [lia |].
  specialize (IH f (i + 1)). destruct (f i); simpl; lia.
Qed.

(** A boolean property of a small range is checked by evaluation. *)
Lemma forall_below (n : Z) (P : Z -> bool) :
  forallb P (seqZ 0 n) = true -> forall b, 0 <= b < n -> P b = true.
Proof.
  intros H b Hb. rewrite forallb_forall in H. apply H, list_elem_of_In, elem_of_seqZ. lia.
Qed.

(** The least number with a decidable property. *)
Lemma least_nat (P : nat -> Prop) `{forall n, Decision (P n)} n : P n ->
  exists m, (m <= n)%nat /\ P m /\ forall j, (j < m)%nat -> ~ P j.
Proof.
  induction n as [n IH] using lt_wf_ind. intros Hn. destruct (decide (Exists P (seq 0 n))) as [He | He].
  - apply Exists_exists in He as (j & Hj%elem_of_seq & Pj). destruct (IH j ltac:(lia) Pj) as (m & Hm & Pm & Hmin).
    exists m. split; [lia | done].
  - exists n. split; [done |]. split; [done |]. intros j Hj Pj. apply He, Exists_exists. exists j. split; [apply elem_of_seq; lia | done].
Qed.

(** ** Ring buffers

    The [k] elements of a ring [l] of [N] slots from slot [start] on. *)
Definition ring (l : list Z) (N start k : Z) : list Z :=
  map (fun i => aget 0 l ((start + i) mod N)) (seqZ 0 k).

Lemma length_ring l N start k : 0 <= k -> Z.of_nat (length (ring l N start k)) = k.
Proof. intros. unfold ring. rewrite length_map, length_seqZ. lia. Qed.

Lemma seqZ_shift m j n : map (fun i => j + i) (seqZ m n) = seqZ (j + m) n.
Proof.
  unfold seqZ. rewrite <- list_fmap_compose. apply list_fmap_ext. intros i x _. simpl. lia.
Qed.

Lemma map_seqZ_app {A} (f : Z -> A) a b : 0 <= a -> 0 <= b ->
  map f (seqZ 0 (a + b)) = map f (seqZ 0 a) ++ map (fun i => f (a + i)) (seqZ 0 b).
Proof.
  intros. rewrite seqZ_app, map_app by lia. f_equal. rewrite Z.add_0_l.
  rewrite <- (Z.add_0_r a) at 1. rewrite <- seqZ_shift, map_map. done.
Qed.

Lemma ring_app l N start a b : 0 <= a -> 0 <= b ->
  ring l N start (a + b) = ring l N start a ++ ring l N (start + a) b.
Proof.
  intros. unfold ring. rewrite map_seqZ_app by done. f_equal. apply map_ext. intros i. do 2 f_equal. lia.
Qed.

Lemma ring_mod l N start k : 0 < N -> ring l N (start mod N) k = ring l N start k.
Proof. intros. unfold ring. apply map_ext. intros i. f_equal. by rewrite Zplus_mod_idemp_l. Qed.

Lemma ring_ext l l' N start k : 0 < N ->
  (forall i, 0 <= i < k -> aget 0 l' ((start + i) mod N) = aget 0 l ((start + i) mod N)) ->
  ring l' N start k = ring l N start k.
Proof.
  intros HN H. unfold ring. apply map_ext_in. intros i Hi. apply list_elem_of_In, elem_of_seqZ in Hi. apply H. lia.
Qed.

(** Two slots of the window are different. *)
Lemma ring_slot_ne N start i j : 0 < N -> 0 <= i < N -> 0 <= j < N -> i <> j ->
  (start + i) mod N <> (start + j) mod N.
Proof.
  intros HN Hi Hj Hne E. apply Hne.
  rewrite <- (Z.mod_small i N), <- (Z.mod_small j N) by done.
  replace i with ((start + i) - start) by lia. replace j with ((start + j) - start) by lia.
  rewrite Zminus_mod, E, <- Zminus_mod. done.
Qed.

Lemma ring_push l N start k v : 0 < N -> Z.of_nat (length l) = N -> 0 <= k < N ->
  ring (aset l ((start + k) mod N) v) N start (k + 1) = ring l N start k ++ [v].
Proof.
  intros HN Hl Hk. rewrite ring_app by lia. f_equal.
  - apply ring_ext; [done |]. intros i Hi. pose proof (Z.mod_pos_bound (start + k) N HN).
    pose proof (Z.mod_pos_bound (start + i) N HN). apply aget_aset_ne; [lia | lia |].
    apply ring_slot_ne; lia.
  - change (ring ?l' N (start + k) 1) with [aget 0 l' ((start + k + 0) mod N)]. f_equal. rewrite Z.add_0_r.
    pose proof (Z.mod_pos_bound (start + k) N HN). apply aget_aset_eq. lia.
Qed.

Lemma ring_count_succ N e s : 1 < N -> (e - s) mod N < N - 1 ->
  ((e + 1) mod N - s) mod N = (e - s) mod N + 1.
Proof.
  intros HN H. pose proof (Z.mod_pos_bound (e - s) N ltac:(lia)).
  rewrite Zminus_mod_idemp_l. replace (e + 1 - s) with ((e - s) + 1) by lia.
  rewrite <- Zplus_mod_idemp_l. apply Z.mod_small. lia.
Qed.

Lemma ring_count_pred N e s : 1 < N -> 0 < (e - s) mod N ->
  (e - (s + 1) mod N) mod N = (e - s) mod N - 1.
Proof.
  intros HN H. pose proof (Z.mod_pos_bound (e - s) N ltac:(lia)).
  rewrite Zminus_mod_idemp_r. replace (e - (s + 1)) with ((e - s) - 1) by lia.
  rewrite <- Zminus_mod_idemp_l. apply Z.mod_small. lia.
Qed.

Lemma ring_end N e s : 0 <= e < N -> (s + (e - s) mod N) mod N = e.
Proof.
  intros He. rewrite Zplus_mod_idemp_r. replace (s + (e - s)) with e by lia. by apply Z.mod_small.
Qed.

Lemma ring_pop l N start k : 0 < N -> 0 < k ->
  ring l N start k = aget 0 l (start mod N) :: ring l N ((start + 1) mod N) (k - 1).
Proof.
  intros HN Hk. rewrite ring_mod by done. replace k with (1 + (k - 1)) at 1 by lia. rewrite ring_app by lia.
  change (ring l N start 1) with [aget 0 l ((start + 0) mod N)]. by rewrite Z.add_0_r.
Qed.

(** Writing consecutive slots of a ring. *)
Fixpoint ring_write (l : list Z) (N pos : Z) (d : list Z) : list Z :=
  match d with [] => l | x :: d' => ring_write (aset l (pos mod N) x) N (pos + 1) d' end.

Lemma ring_write_spec d : forall l N start k, 0 < N -> Z.of_nat (length l) = N -> 0 <= k ->
  k + Z.of_nat (length d) <= N ->
  Z.of_nat (length (ring_write l N (start + k) d)) = N /\
  ring (ring_write l N (start + k) d) N start (k + Z.of_nat (length d)) = ring l N start k ++ d.
Proof.
  induction d as [| x d IH]; intros l N start k HN Hl Hk Hd; cbn [ring_write length] in *.
  - rewrite Z.add_0_r, app_nil_r. done.
  - pose proof (Z.mod_pos_bound (start + k) N HN).
    destruct (IH (aset l ((start + k) mod N) x) N start (k + 1) HN ltac:(by rewrite length_aset) ltac:(lia) ltac:(lia)) as [H1 H2].
    rewrite Z.add_assoc in H1, H2. split; [done |].
    replace (k + Z.of_nat (S (length d))) with (k + 1 + Z.of_nat (length d)) by lia. rewrite H2.
    rewrite ring_push by lia. by rewrite <- app_assoc.
Qed.

Lemma ring_write_mod d : forall l N p, 0 < N -> ring_write l N (p mod N) d = ring_write l N p d.
Proof.
  induction d as [| x d IH]; intros l N p HN; cbn [ring_write]; [done |].
  rewrite Z.mod_mod by lia. rewrite <- (IH _ _ (p mod N + 1) HN), <- (IH _ _ (p + 1) HN). by rewrite Zplus_mod_idemp_l.
Qed.

Lemma length_ring_write d : forall l N p, length (ring_write l N p d) = length l.
Proof. induction d as [| x d IH]; intros l N p; cbn [ring_write]; [done |]. rewrite IH. apply length_aset. Qed.

Lemma ring_split l N s k c : 0 <= k <= c ->
  ring l N s k = take (Z.to_nat k) (ring l N s c) /\ ring l N (s + k) (c - k) = drop (Z.to_nat k) (ring l N s c).
Proof.
  intros Hk. assert (E : ring l N s c = ring l N s k ++ ring l N (s + k) (c - k)) by (rewrite <- ring_app by lia; f_equal; lia).
  rewrite E.
  assert (Hl : Z.to_nat k = length (ring l N s k)) by (pose proof (length_ring l N s k); lia).
  rewrite Hl, take_app_length, drop_app_length. done.
Qed.
