(* ===== verification/Div64.v ===== *)
(** * Div64: the 64-bit division helpers ([kernel/div64.c])

    The i686 target has no 64-bit division instruction; the compiler calls
    [__udivdi3], [__umoddi3] and [__udivmoddi4], which share the shift-and-
    subtract routine [udivmod64].  The loops run on machine words: every shift
    and subtraction below wraps at 64 bits, and the theorem shows that no wrap
    ever changes the result. *)

From S2P Require Import Prelude.

(** The normalisation loop: shift the divisor left while it stays below the
    dividend and its top bit is clear.  Returns the divisor and the shift. *)
Fixpoint udiv_normalize (fuel : nat) (num den shift : Z) : Z * Z :=
  match fuel with
  | O => (den, shift)
  | S fuel' =>
      if (shift <? 63) && (Z.land den 0x8000000000000000 =? 0)
         && (u64 (Z.shiftl den 1) <=? num)
      then udiv_normalize fuel' num (u64 (Z.shiftl den 1)) (shift + 1)
      else (den, shift)
  end%bool.

(** The restoring loop [for (; shift >= 0; shift--)], [n] iterations left. *)
Fixpoint udiv_restore (n : nat) (quot num den : Z) : Z * Z :=
  match n with
  | O => (quot, num)
  | S n' =>
      let quot := u64 (Z.shiftl quot 1) in
      if den <=? num
      then udiv_restore n' (Z.lor quot 1) (u64 (num - den)) (Z.shiftr den 1)
      else udiv_restore n' quot num (Z.shiftr den 1)
  end.

(** [udivmod64]: the pair (quotient, [*rem]). *)
Definition udivmod64 (num den : Z) : Z * Z :=
  if den =? 0 then (0, 0)
  else if num <? den then (0, num)
  else
    let '(den', shift) := udiv_normalize 64 num den 0 in
    udiv_restore (Z.to_nat (shift + 1)) 0 num den'.

Definition __udivdi3 (num den : Z) : Z := fst (udivmod64 num den).
Definition __umoddi3 (num den : Z) : Z := snd (udivmod64 num den).
Definition __udivmoddi4 (num den : Z) : Z * Z := udivmod64 num den.

(** ** Correctness *)

Lemma top_bit_clear den : is_u64 den -> Z.land den 0x8000000000000000 = 0 ->
  den < 2 ^ 63.
Proof.
  intros Hd Hz. destruct (Z.lt_ge_cases den (2 ^ 63)) as [| Hge]; [done | exfalso].
  assert (T : Z.testbit (Z.land den (2 ^ 63)) 63 = true).
  { rewrite Z.land_spec, Z.pow2_bits_true, andb_true_r by lia.
    apply Z.testbit_true; [lia |].
    replace (den / 2 ^ 63) with 1; [done |].
    apply Z.div_unique with (r := den - 2 ^ 63); unfold is_u64 in Hd; lia. }
  change (2 ^ 63) with 0x8000000000000000 in T. by rewrite Hz, Z.bits_0 in T.
Qed.

Lemma top_bit_set den : is_u64 den -> Z.land den 0x8000000000000000 <> 0 ->
  2 ^ 63 <= den.
Proof.
  intros Hd Hz. destruct (Z.lt_ge_cases den (2 ^ 63)) as [Hlt |]; [exfalso | done].
  apply Hz. change 0x8000000000000000 with (2 ^ 63). apply Z.bits_inj'. intros n Hn.
  rewrite Z.land_spec, Z.pow2_bits_eqb, Z.bits_0 by lia.
  destruct (Z.eqb_spec 63 n) as [<- |]; [| apply andb_false_r].
  rewrite andb_true_r. apply Z.testbit_false; [lia |].
  rewrite Z.div_small; [done | unfold is_u64 in Hd; lia].
Qed.

(** After normalisation the divisor is [den * 2^shift], not above the
    dividend, and its double is above it: one quotient bit per iteration. *)
Lemma udiv_normalize_spec fuel num den0 s :
  is_u64 num -> 0 < den0 -> 0 <= s <= 63 -> (64 <= Z.of_nat fuel + s) ->
  den0 * 2 ^ s <= num ->
  exists s', udiv_normalize fuel num (den0 * 2 ^ s) s = (den0 * 2 ^ s', s')
    /\ s <= s' <= 63 /\ den0 * 2 ^ s' <= num < 2 * (den0 * 2 ^ s').
Proof.
  intros Hn Hd0. revert s. induction fuel as [| fuel IH]; intros s Hs Hf Hle; [lia |].
  assert (Hd : is_u64 (den0 * 2 ^ s)) by (unfold is_u64 in *; lia).
  assert (Hp : 2 ^ (s + 1) = 2 * 2 ^ s) by (rewrite Z.pow_add_r; lia).
  simpl. destruct (_ && _)%bool eqn:E.
  - btrue.
    assert (den0 * 2 ^ s < 2 ^ 63) by (apply top_bit_clear; auto).
    assert (Esh : u64 (Z.shiftl (den0 * 2 ^ s) 1) = den0 * 2 ^ (s + 1)).
    { rewrite Z.shiftl_mul_pow2 by lia. unfold u64. rewrite Z.mod_small; lia. }
    rewrite Esh in *. destruct (IH (s + 1)) as (s' & E' & ? & ?); [lia.. |].
    exists s'. rewrite E'. repeat split; lia.
  - exists s. split; [done |]. split; [lia |]. split; [lia |].
    unfold is_u64 in Hn.
    destruct (Z.ltb_spec s 63).
    + simpl in E. destruct (Z.eqb_spec (Z.land (den0 * 2 ^ s) 0x8000000000000000) 0) as [Ez | Enz].
      * pose proof (top_bit_clear _ Hd Ez). simpl in E. btrue.
        rewrite Z.shiftl_mul_pow2 in * by lia. unfold u64 in *. rewrite Z.mod_small in *; lia.
      * pose proof (top_bit_set _ Hd Enz). lia.
    + replace s with 63 in * by lia. nia.
Qed.

Lemma udiv_restore_spec d0 n : 0 < d0 -> forall q num d,
  (forall n', n = S n' -> d = d0 * 2 ^ Z.of_nat n') ->
  0 <= num < d0 * 2 ^ Z.of_nat n -> d0 * 2 ^ Z.of_nat n <= 2 ^ 65 ->
  0 <= num < 2 ^ 64 ->
  0 <= q -> (q + 1) * 2 ^ Z.of_nat n <= 2 ^ 64 ->
  udiv_restore n q num d = (q * 2 ^ Z.of_nat n + num / d0, num mod d0).
Proof.
  intros Hd0. induction n as [| n IH]; intros q num d Hd Hnum Hb Hn64 Hq Hqb.
  - simpl in *. rewrite Z.div_small, Z.mod_small by lia. f_equal; lia.
  - rewrite (Hd n eq_refl). rewrite Nat2Z.inj_succ, Z.pow_succ_r in * by lia.
    set (P := 2 ^ Z.of_nat n) in *. assert (0 < P) by (subst P; lia).
    assert (Eq : u64 (Z.shiftl q 1) = 2 * q).
    { rewrite Z.shiftl_mul_pow2 by lia. unfold u64. rewrite Z.mod_small; nia. }
    assert (Hsh : forall n', n = S n' -> Z.shiftr (d0 * P) 1 = d0 * 2 ^ Z.of_nat n').
    { intros n' ->. subst P. rewrite Z.shiftr_div_pow2 by lia.
      rewrite Nat2Z.inj_succ, Z.pow_succ_r by lia.
      replace (d0 * (2 * 2 ^ Z.of_nat n')) with (d0 * 2 ^ Z.of_nat n' * 2 ^ 1) by lia.
      apply Z.div_mul. lia. }
    simpl. rewrite Eq. destruct (Z.leb_spec (d0 * P) num).
    + replace (u64 (num - d0 * P)) with (num - d0 * P)
        by (unfold u64; rewrite Z.mod_small; lia).
      rewrite (lor_low_add _ 1 1) by (try apply Z.mod_mul; lia || (rewrite Z.mul_comm; apply Z.mod_mul; lia)).
      rewrite IH by (auto; nia). fold P.
      replace num with (num - d0 * P + P * d0) at 3 4 by lia.
      rewrite Z.div_add, Z.mod_add by lia. f_equal. lia.
    + rewrite IH by (auto; nia). fold P. f_equal. lia.
Qed.

(** Every quotient and remainder is the mathematical one. *)
Lemma udivmod64_spec num den : is_u64 num -> is_u64 den -> den <> 0 ->
  udivmod64 num den = (num / den, num mod den).
Proof.
  intros Hn Hd Hz. unfold udivmod64, is_u64 in *.
  destruct (Z.eqb_spec den 0); [done |]. destruct (Z.ltb_spec num den).
  - rewrite Z.div_small, Z.mod_small by lia. done.
  - destruct (udiv_normalize_spec 64 num den 0) as (s & E & Hs & Hb); [unfold is_u64; lia.. |].
    replace (den * 2 ^ 0) with den in E by lia. rewrite E.
    assert (Hpow : 2 ^ (s + 1) = 2 * 2 ^ s) by (rewrite Z.pow_add_r; lia).
    assert (2 ^ (s + 1) <= 2 ^ 64) by (apply Z.pow_le_mono_r; lia).
    rewrite (udiv_restore_spec den); try rewrite Z2Nat.id by lia; try lia.
    + f_equal.
    + intros n' Hn'. replace (Z.of_nat n') with s by lia. done.
Qed.

(** The division helpers the compiler calls are exact: for every 64-bit
    dividend and every non-zero 64-bit divisor the quotient and the remainder
    are the Euclidean ones, and a zero divisor yields 0 rather than a trap. *)
Theorem udivdi3_umoddi3_exact (num den : Z) (Hn : is_u64 num) (Hd : is_u64 den) :
  (den <> 0 -> __udivdi3 num den = num / den /\ __umoddi3 num den = num mod den)
  /\ (den = 0 -> __udivmoddi4 num den = (0, 0)).
Proof.
  unfold __udivdi3, __umoddi3, __udivmoddi4. split.
  - intros Hz. by rewrite udivmod64_spec.
  - by intros ->.
Qed.

Lemma udivdi3_umoddi3_exact_witness :
  __udivdi3 0xFFFFFFFFFFFFFFFF 10 = 0xFFFFFFFFFFFFFFFF / 10
  /\ __umoddi3 0xFFFFFFFFFFFFFFFF 10 = 0xFFFFFFFFFFFFFFFF mod 10.
Proof.
  apply (udivdi3_umoddi3_exact 0xFFFFFFFFFFFFFFFF 10); unfold is_u64; lia.
Defined.
