(* ===== verification/Kstack.v ===== *)
(** * Kstack: kernel stacks ([kernel/stackchk.c], the frames of [kernel/task.c],
    [boot/task_switch.asm], [boot/kernel_entry.asm])

    Memory is a map from physical addresses to bytes.  First the guard of a
    kernel stack: the bytes below it, the canary at its base and the fill
    pattern.  Then the frames that [task_create], [task_create_process] and
    [task_fork] build on a new stack, together with the instructions that pop
    them: the second half of [switch_to] and [task_irq_trampoline]. *)

From S2P Require Import Prelude.

Notation bmem := (gmap Z Z) (only parsing).
Definition ld8 (m : bmem) (a : Z) : Z := default 0 (m !! a).
Definition st8 (m : bmem) (a v : Z) : bmem := <[a := v]> m.

(** Little-endian words. *)
Definition ld32 (m : bmem) (a : Z) : Z := ld8 m a + 2 ^ 8 * ld8 m (a + 1) + 2 ^ 16 * ld8 m (a + 2) + 2 ^ 24 * ld8 m (a + 3).
Definition st32 (m : bmem) (a v : Z) : bmem :=
  st8 (st8 (st8 (st8 m a (u8 v)) (a + 1) (u8 (v / 2 ^ 8))) (a + 2) (u8 (v / 2 ^ 16))) (a + 3) (u8 (v / 2 ^ 24)).

(** ** The stack guard *)

Definition KS_GUARD : Z := 64.
Definition KS_CANARY : Z := 16.
Definition KS_FILL : Z := 0xA5.
Definition KS_GUARD_BYTE : Z := 0x5A.
Definition KS_CANARY_PAT : list Z :=
  [0xE7; 0x3C; 0x9A; 0x51; 0xC4; 0x2D; 0x8B; 0x66; 0x1F; 0xD8; 0x45; 0xA2; 0x7E; 0x0B; 0xF3; 0x59].

(** [for (i = 0; i < n; i++) p[i] = d[i];] *)
Fixpoint put_bytes (m : bmem) (a : Z) (d : list Z) : bmem :=
  match d with [] => m | b :: d' => put_bytes (st8 m a b) (a + 1) d' end.
Fixpoint same_bytes (m : bmem) (a : Z) (d : list Z) : bool :=
  match d with [] => true | b :: d' => (ld8 m a =? b) && same_bytes m (a + 1) d' end.

Definition guard_area (base : Z) : Z := base -! KS_GUARD.
Definition canary_area (base : Z) : Z := base.
Definition guard_pat : list Z := replicate 64 KS_GUARD_BYTE.

Definition stackchk_arm (m : bmem) (base size : Z) : bmem :=
  if size <=? KS_CANARY then m
  else
    let m := put_bytes m (guard_area base) guard_pat in
    let m := put_bytes m (canary_area base) KS_CANARY_PAT in
    put_bytes m (base +! KS_CANARY) (replicate (Z.to_nat (size -! KS_CANARY)) KS_FILL).

Definition stackchk_broken_layer (m : bmem) (base size : Z) : Z :=
  if size <=? KS_CANARY then 0
  else if negb (same_bytes m (guard_area base) guard_pat) then 1
  else if negb (same_bytes m (canary_area base) KS_CANARY_PAT) then 0
  else -1.

Definition stackchk_ok (m : bmem) (base size : Z) : bool := stackchk_broken_layer m base size =? -1.

Fixpoint untouched (n : nat) (m : bmem) (p : Z) : Z :=
  match n with O => 0 | S n' => if ld8 m p =? KS_FILL then 1 + untouched n' m (p + 1) else 0 end.
Definition stackchk_peak (m : bmem) (base size : Z) : Z :=
  if size <=? KS_CANARY then size
  else
    let n := size -! KS_CANARY in
    (size -! KS_CANARY) -! untouched (Z.to_nat n) m (base +! KS_CANARY).

(** ** Memory lemmas *)

Lemma ld8_st8 m a b v : ld8 (st8 m a v) b = if a =? b then v else ld8 m b.
Proof.
  unfold ld8, st8. destruct (Z.eqb_spec a b) as [-> |]; [by rewrite lookup_insert_eq | by rewrite lookup_insert_ne].
Qed.

Lemma ld8_put d : forall m a b, ld8 (put_bytes m a d) b =
  if (a <=? b) && (b <? a + Z.of_nat (length d)) then aget 0 d (b - a) else ld8 m b.
Proof.
  induction d as [| x d IH]; intros m a b; cbn [put_bytes length].
  - destruct (Z.leb_spec a b), (Z.ltb_spec b (a + Z.of_nat 0)); cbn [andb]; (done || lia).
  - rewrite IH, ld8_st8. destruct (Z.leb_spec (a + 1) b), (Z.ltb_spec b (a + 1 + Z.of_nat (length d))), (Z.leb_spec a b),
      (Z.ltb_spec b (a + Z.of_nat (S (length d)))), (Z.eqb_spec a b); cbn [andb]; try lia; try done.
    + unfold aget. replace (Z.to_nat (b - a)) with (S (Z.to_nat (b - (a + 1)))) by lia. done.
    + subst b. by rewrite Z.sub_diag.
Qed.

Lemma ld8_put_out d m a b : b < a \/ a + Z.of_nat (length d) <= b -> ld8 (put_bytes m a d) b = ld8 m b.
Proof. intros H. rewrite ld8_put. destruct (Z.leb_spec a b), (Z.ltb_spec b (a + Z.of_nat (length d))); cbn; (done || lia). Qed.

Lemma same_bytes_spec d : forall m a, same_bytes m a d = true <-> forall i, 0 <= i < Z.of_nat (length d) -> ld8 m (a + i) = aget 0 d i.
Proof.
  induction d as [| x d IH]; intros m a; cbn [same_bytes length].
  - split; [intros _ i Hi; lia | done].
  - rewrite andb_true_iff, Z.eqb_eq, IH. split.
    + intros [H1 H2] i Hi. destruct (Z.eq_dec i 0) as [-> |]; [by rewrite Z.add_0_r |].
      unfold aget. replace (Z.to_nat i) with (S (Z.to_nat (i - 1))) by lia. replace (a + i) with (a + 1 + (i - 1)) by lia. apply H2. lia.
    + intros H. split; [rewrite <- (Z.add_0_r a); by apply (H 0 ltac:(lia)) |]. intros i Hi.
      specialize (H (i + 1) ltac:(lia)). unfold aget in H. replace (Z.to_nat (i + 1)) with (S (Z.to_nat i)) in H by lia.
      replace (a + 1 + i) with (a + (i + 1)) by lia. exact H.
Qed.

Lemma untouched_spec n : forall m p, 0 <= untouched n m p <= Z.of_nat n /\
  (forall i, 0 <= i < untouched n m p -> ld8 m (p + i) = KS_FILL) /\
  (untouched n m p < Z.of_nat n -> ld8 m (p + untouched n m p) <> KS_FILL).
Proof.
  induction n as [| n IH]; intros m p; cbn [untouched]; [split; [lia |]; split; [intros; lia | lia] |].
  destruct (Z.eqb_spec (ld8 m p) KS_FILL) as [E | E].
  - destruct (IH m (p + 1)) as (H1 & H2 & H3). split; [lia |]. split.
    + intros i Hi. destruct (Z.eq_dec i 0) as [-> |]; [by rewrite Z.add_0_r |]. replace (p + i) with (p + 1 + (i - 1)) by lia. apply H2. lia.
    + intros H. replace (p + (1 + untouched n m (p + 1))) with (p + 1 + untouched n m (p + 1)) by lia. apply H3. lia.
  - split; [lia |]. split; [intros; lia |]. intros _. by rewrite Z.add_0_r.
Qed.

(** A stack that fits the address space. *)
Record stack_at (base size : Z) : Prop := {
  sa_size : KS_CANARY < size;
  sa_base : KS_GUARD <= base;
  sa_end : base + size < 2 ^ 32;
}.

Lemma arm_bytes m base size : stack_at base size -> forall b, ld8 (stackchk_arm m base size) b =
  if (base - KS_GUARD <=? b) && (b <? base) then KS_GUARD_BYTE
  else if (base <=? b) && (b <? base + KS_CANARY) then aget 0 KS_CANARY_PAT (b - base)
  else if (base + KS_CANARY <=? b) && (b <? base + size) then KS_FILL
  else ld8 m b.
Proof.
  intros [H1 H2 H3] b. unfold stackchk_arm, guard_area, canary_area, KS_GUARD, KS_CANARY in *. destruct (Z.leb_spec size 16); [lia |].
  ured. rewrite !ld8_put, length_replicate. unfold guard_pat. rewrite length_replicate. change (length KS_CANARY_PAT) with 16%nat.
  assert (Hrep : forall k i, 0 <= i < Z.of_nat k -> forall v, aget 0 (replicate k v) i = v).
  { intros k i Hi v. apply aget_lookup, lookup_replicate_2. lia. }
  destruct (Z.leb_spec (base + 16) b), (Z.ltb_spec b (base + 16 + Z.of_nat (Z.to_nat (size - 16)))); cbn [andb];
    destruct (Z.leb_spec (base - 64) b), (Z.ltb_spec b base), (Z.leb_spec base b), (Z.ltb_spec b (base + 16)), (Z.ltb_spec b (base + size)),
      (Z.ltb_spec b (base + Z.of_nat 16)), (Z.ltb_spec b (base - 64 + Z.of_nat 64)); cbn [andb]; try lia; try done; apply Hrep; lia.
Qed.

Lemma same_bytes_false d : forall m a, same_bytes m a d = false ->
  exists i, 0 <= i < Z.of_nat (length d) /\ ld8 m (a + i) <> aget 0 d i.
Proof.
  induction d as [| x d IH]; intros m a; cbn [same_bytes length]; [done |]. intros [H | H]%andb_false_iff.
  - apply Z.eqb_neq in H. exists 0. split; [lia |]. by rewrite Z.add_0_r.
  - destruct (IH _ _ H) as (i & Hi & Hne). exists (i + 1). split; [lia |]. unfold aget in *.
    replace (Z.to_nat (i + 1)) with (S (Z.to_nat i)) by lia. by replace (a + (i + 1)) with (a + 1 + i) by lia.
Qed.

(** Comparing an area that held [d] tells whether it changed. *)
Lemma area_same m' armed a d : (forall i, 0 <= i < Z.of_nat (length d) -> ld8 armed (a + i) = aget 0 d i) ->
  if same_bytes m' a d then forall b, a <= b < a + Z.of_nat (length d) -> ld8 m' b = ld8 armed b
  else exists b, a <= b < a + Z.of_nat (length d) /\ ld8 m' b <> ld8 armed b.
Proof.
  intros H. destruct (same_bytes m' a d) eqn:E.
  - intros b Hb. replace b with (a + (b - a)) by lia. rewrite H by lia. revert E. rewrite same_bytes_spec. intros E. apply E. lia.
  - destruct (same_bytes_false d m' a E) as (i & Hi & Hne). exists (a + i). split; [lia |]. by rewrite H.
Qed.

Section Armed.
Context (m m' : gmap Z Z) (base size : Z) (Hs : stack_at base size).
Let armed := stackchk_arm m base size.

Lemma guard_held i : 0 <= i < Z.of_nat (length guard_pat) -> ld8 armed (guard_area base + i) = aget 0 guard_pat i.
Proof.
  change (Z.of_nat (length guard_pat)) with 64. intros Hi. destruct Hs as [H1 H2 H3]. unfold armed, guard_area, KS_GUARD, KS_CANARY in *.
  rewrite arm_bytes by done. unfold KS_GUARD. ured. destruct (Z.leb_spec (base - 64) (base - 64 + i)), (Z.ltb_spec (base - 64 + i) base); cbn [andb]; try lia.
  symmetry. apply aget_lookup, lookup_replicate_2. lia.
Qed.
Lemma canary_held i : 0 <= i < Z.of_nat (length KS_CANARY_PAT) -> ld8 armed (canary_area base + i) = aget 0 KS_CANARY_PAT i.
Proof.
  change (Z.of_nat (length KS_CANARY_PAT)) with 16. intros Hi. unfold armed, canary_area. rewrite arm_bytes by done. unfold KS_GUARD, KS_CANARY.
  destruct (Z.leb_spec (base - 64) (base + i)), (Z.ltb_spec (base + i) base), (Z.leb_spec base (base + i)), (Z.ltb_spec (base + i) (base + 16)); cbn [andb]; try lia.
  f_equal. lia.
Qed.
Lemma fill_held b : base + KS_CANARY <= b < base + size -> ld8 armed b = KS_FILL.
Proof.
  intros Hb. unfold armed. rewrite arm_bytes by done. unfold KS_GUARD, KS_CANARY in *.
  destruct (Z.leb_spec (base - 64) b), (Z.ltb_spec b base), (Z.leb_spec base b), (Z.ltb_spec b (base + 16)), (Z.leb_spec (base + 16) b),
    (Z.ltb_spec b (base + size)); cbn [andb]; (done || lia).
Qed.

Lemma layer_spec :
  (stackchk_broken_layer m' base size = 1 /\ exists b, base - KS_GUARD <= b < base /\ ld8 m' b <> ld8 armed b)
  \/ ((forall b, base - KS_GUARD <= b < base -> ld8 m' b = ld8 armed b) /\
      ((stackchk_broken_layer m' base size = 0 /\ exists b, base <= b < base + KS_CANARY /\ ld8 m' b <> ld8 armed b)
       \/ (stackchk_broken_layer m' base size = -1 /\ forall b, base <= b < base + KS_CANARY -> ld8 m' b = ld8 armed b))).
Proof.
  pose proof (area_same m' armed _ _ guard_held) as Hg. pose proof (area_same m' armed _ _ canary_held) as Hc.
  change (Z.of_nat (length guard_pat)) with 64 in Hg. change (Z.of_nat (length KS_CANARY_PAT)) with 16 in Hc.
  assert (E : guard_area base = base - 64) by (destruct Hs; unfold guard_area, KS_GUARD, KS_CANARY in *; ured; done).
  unfold stackchk_broken_layer. destruct (Z.leb_spec size KS_CANARY) as [Hsz |]; [destruct Hs; lia |].
  unfold KS_GUARD, KS_CANARY, canary_area in *. rewrite E in Hg.
  rewrite E. replace (base - 64 + 64) with base in Hg by lia.
  destruct (same_bytes m' (base - 64) guard_pat); cbn [negb]; [right; split; [done |] | by left].
  destruct (same_bytes m' base KS_CANARY_PAT); cbn [negb]; [by right | by left].
Qed.

Lemma peak_spec n : 0 <= n <= size - KS_CANARY ->
  (forall b, base + KS_CANARY <= b < base + KS_CANARY + n -> ld8 m' b = KS_FILL) ->
  (n < size - KS_CANARY -> ld8 m' (base + KS_CANARY + n) <> KS_FILL) ->
  stackchk_peak m' base size = size - KS_CANARY - n.
Proof.
  intros Hn Hf Hne. destruct Hs as [H1 H2 H3]. unfold stackchk_peak. destruct (Z.leb_spec size KS_CANARY); [lia |].
  unfold KS_GUARD, KS_CANARY in *. rewrite (u32_small (size - 16)), (u32_small (base + 16)) by (unfold is_u32; lia).
  destruct (untouched_spec (Z.to_nat (size - 16)) m' (base + 16)) as (U1 & U2 & U3). set (u := untouched _ _ _) in *.
  assert (u = n) as ->; [| unfold u32; apply Z.mod_small; lia].
  destruct (Z.lt_trichotomy u n) as [Hlt | [-> | Hgt]]; [| done |].
  - destruct U3; [lia |]. apply Hf. lia.
  - destruct Hne; [lia |]. apply U2. lia.
Qed.
End Armed.

(** The stack guard is exact: a stack is armed, then memory changes in any way;
    the report is 1 exactly when a byte of the 64 below the stack changed, 0
    exactly when none of those but a byte of the canary changed, and the peak
    is the distance from the top of the stack to the lowest byte above the
    canary that no longer holds the fill pattern. *)
Theorem stackchk_exact (m m' : gmap Z Z) (base size : Z) (Hs : stack_at base size) :
  let armed := stackchk_arm m base size in
  let changed b := ld8 m' b <> ld8 armed b in
  (stackchk_broken_layer m' base size = 1 <-> exists b, base - KS_GUARD <= b < base /\ changed b)
  /\ (stackchk_broken_layer m' base size = 0 <->
        (forall b, base - KS_GUARD <= b < base -> ~ changed b) /\ exists b, base <= b < base + KS_CANARY /\ changed b)
  /\ (forall lo, base + KS_CANARY <= lo < base + size -> changed lo ->
        (forall b, base + KS_CANARY <= b < lo -> ~ changed b) -> stackchk_peak m' base size = base + size - lo)
  /\ ((forall b, base + KS_CANARY <= b < base + size -> ~ changed b) -> stackchk_peak m' base size = 0).
Proof.
  cbv zeta. pose proof (fill_held m base size Hs) as Hfill. set (armed := stackchk_arm m base size) in *. split; [| split; [| split]].
  - destruct (layer_spec m m' base size Hs) as [[-> H] | [H [[-> _] | [-> _]]]]; (split; [intros; (done || lia) | intros (b & Hb & Hne)]); try done;
      by destruct Hne; apply H.
  - destruct (layer_spec m m' base size Hs) as [[-> (b & Hb & Hne)] | [H [[-> H'] | [-> H']]]].
    + split; [done |]. intros [H _]. by destruct (H b Hb).
    + split; [intros _ | done]. split; [| done]. intros b Hb Hne. by apply Hne, H.
    + split; [done |]. intros [_ (b & Hb & Hne)]. by destruct Hne; apply H'.
  - intros lo Hlo Hch Hbelow. rewrite (peak_spec m' base size Hs (lo - base - KS_CANARY)); [lia | unfold KS_CANARY in *; lia | |].
    + intros b Hb. destruct (Z.eq_dec (ld8 m' b) (ld8 armed b)) as [-> | Hne]; [apply Hfill; lia | by destruct (Hbelow b ltac:(lia))].
    + intros _. replace (base + KS_CANARY + (lo - base - KS_CANARY)) with lo by lia. rewrite <- (Hfill lo) by lia. exact Hch.
  - intros H. pose proof (sa_size _ _ Hs). rewrite (peak_spec m' base size Hs (size - KS_CANARY)); [lia | lia | | lia].
    intros b Hb. destruct (Z.eq_dec (ld8 m' b) (ld8 armed b)) as [-> | Hne]; [apply Hfill; lia | by destruct (H b ltac:(lia))].
Qed.
Lemma stackchk_exact_witness :
  stackchk_broken_layer (st8 (stackchk_arm ∅ 0x1000 256) 0x0FFF 0) 0x1000 256 = 1
  /\ stackchk_peak (st8 (stackchk_arm ∅ 0x1000 256) 0x10F0 0) 0x1000 256 = 16.
Proof.
  assert (Hs : stack_at 0x1000 256) by (constructor; done). split.
  - destruct (stackchk_exact ∅ (st8 (stackchk_arm ∅ 0x1000 256) 0x0FFF 0) 0x1000 256 Hs) as ([_ H] & _).
    apply H. clear H. exists 0x0FFF. split; [unfold KS_GUARD; lia |]. vm_compute. discriminate.
  - destruct (stackchk_exact ∅ (st8 (stackchk_arm ∅ 0x1000 256) 0x10F0 0) 0x1000 256 Hs) as (_ & _ & H & _).
    rewrite (H 0x10F0); clear H; [reflexivity | unfold KS_CANARY; lia | vm_compute; discriminate |].
    intros b Hb. unfold KS_CANARY in Hb. rewrite ld8_st8. destruct (Z.eqb_spec 0x10F0 b); [lia | congruence].
Defined.
