(* ===== verification/Kmalloc.v ===== *)
(** * Kmalloc: the kernel heap ([kernel/kmalloc.c])

    A static pool cut into 16-byte-granular blocks; free blocks are linked in
    address order through their second word, live blocks carry the request
    size, a header magic and a tail canary.  The model keeps the pool as
    word-granular memory and runs the pointer code on it; [heap_inv] relates
    that memory to a list of blocks, on which the allocator is first-fit with
    splitting and immediate coalescing. *)

From S2P Require Import Prelude.

(** ** Constants *)

Definition KM_POOL_SIZE : Z := 384 * 1024.
Definition KM_ALIGN : Z := 16.
Definition KM_HDR : Z := 16.
Definition KM_TAIL : Z := 4.
Definition KM_MIN_SPLIT : Z := 32.
Definition KM_MAGIC : Z := 0x4B4D4150.
Definition KM_TAIL_MAGIC : Z := 0x5A5A5A5A.
Definition KM_ALLOCATED : Z := 1.

(** ** Header accessors

    A block is the address [b] of its header: [size] at [b], [next] (free) or
    the request size (live) at [b+4], the magic at [b+8]. *)

Definition blk_size (m : gmap Z Z) (b : Z) : Z := mem_rd m b &! ~! KM_ALLOCATED.
Definition blk_is_free (m : gmap Z Z) (b : Z) : bool := Z.land (mem_rd m b) KM_ALLOCATED =? 0.
Definition round_up (v a : Z) : Z := u32 (v + a - 1) &! ~! (a - 1).
Definition km_magic_of (b : Z) : Z := b +! 8.
Definition km_req_of (b : Z) : Z := b +! 4.
Definition km_next_of (b : Z) : Z := b +! 4.
Definition km_tail_of (user req : Z) : Z := user +! round_up req 4.

Definition km_arm (m : gmap Z Z) (b req total : Z) : gmap Z Z :=
  let m := mem_wr m (km_req_of b) req in
  let m := mem_wr m (km_magic_of b) KM_MAGIC in
  let m := mem_wr m (km_tail_of (b +! KM_HDR) req) KM_TAIL_MAGIC in
  mem_wr m b (total |! KM_ALLOCATED).

(** The module's static variables. *)
Record km_state := mk_km {
  km_mem : gmap Z Z;
  km_head : Z;
  km_used_bytes : Z;
}.

(** [kfree] stops the machine on a damaged heap; each stop is a value. *)
Inductive km_panic :=
| PointerOutsideHeap
| DoubleFree
| HeaderSmashed
| CorruptBlockSize
| CorruptRequestSize
| CanaryOutsideBlock
| TailCanarySmashed.

Inductive kfree_result :=
| FreeOk (st : km_state)
| FreePanic (why : km_panic).

(** Every loop over the pool visits a block at most once, and a block has at
    least 16 bytes. *)
Definition KM_FUEL : nat := Z.to_nat (KM_POOL_SIZE / KM_ALIGN + 1).

Section Operations.
Context (km_pool : Z).

Definition kmalloc_init (m : gmap Z Z) : km_state :=
  mk_km (mem_wr (mem_wr m km_pool KM_POOL_SIZE) (km_next_of km_pool) 0) km_pool 0.

(** The body of the first-fit loop once a block [b] is large enough. *)
Definition kmalloc_take (st : km_state) (prev b bs size need : Z) : km_state * Z :=
  let m := km_mem st in
  if KM_MIN_SPLIT <=? bs -! need then
    let rest := b +! need in
    let m := mem_wr m rest (bs -! need) in
    let m := mem_wr m (km_next_of rest) (mem_rd m (km_next_of b)) in
    let m := km_arm m b size need in
    let '(m, head) := if negb (prev =? 0) then (mem_wr m (km_next_of prev) rest, km_head st)
                      else (m, rest) in
    (mk_km m head (km_used_bytes st +! need), b +! KM_HDR)
  else
    let nx := mem_rd m (km_next_of b) in
    let m := km_arm m b size bs in
    let '(m, head) := if negb (prev =? 0) then (mem_wr m (km_next_of prev) nx, km_head st)
                      else (m, nx) in
    (mk_km m head (km_used_bytes st +! bs), b +! KM_HDR).

Fixpoint kmalloc_scan (fuel : nat) (st : km_state) (prev b size need : Z) : km_state * Z :=
  match fuel with
  | O => (st, 0)
  | S fuel' =>
      if b =? 0 then (st, 0)
      else
        let m := km_mem st in
        let continue := kmalloc_scan fuel' st b (mem_rd m (km_next_of b)) size need in
        if negb (blk_is_free m b) then continue
        else if blk_size m b <? need then continue
        else kmalloc_take st prev b (blk_size m b) size need
  end.

(** [kmalloc]: the new state and the returned pointer, 0 for [NULL]. *)
Definition kmalloc (st : km_state) (size : Z) : km_state * Z :=
  if size =? 0 then (st, 0)
  else if KM_POOL_SIZE <? size then (st, 0)
  else
    let need := round_up (size +! KM_HDR +! KM_TAIL) KM_ALIGN in
    kmalloc_scan KM_FUEL st 0 (km_head st) size need.

(** [while (cur && cur < b)]: the free neighbours of [b] in address order. *)
Fixpoint kfree_walk (fuel : nat) (m : gmap Z Z) (prev cur b : Z) : Z * Z :=
  match fuel with
  | O => (prev, cur)
  | S fuel' =>
      if (negb (cur =? 0) && (cur <? b))%bool
      then kfree_walk fuel' m cur (mem_rd m (km_next_of cur)) b
      else (prev, cur)
  end.

(** The checks [kfree] makes before it touches the free list. *)
Definition kfree_check (m : gmap Z Z) (b : Z) : option km_panic :=
  if (b <? km_pool) || (km_pool + KM_POOL_SIZE <=? b) then Some PointerOutsideHeap
  else if blk_is_free m b then Some DoubleFree
  else if negb (mem_rd m (km_magic_of b) =? KM_MAGIC) then Some HeaderSmashed
  else
    let bs := blk_size m b in
    if (bs <? KM_HDR) || (KM_POOL_SIZE <? bs) || (km_pool + KM_POOL_SIZE <? b +! bs)
    then Some CorruptBlockSize
    else
      let req := mem_rd m (km_req_of b) in
      if (req =? 0) || (KM_POOL_SIZE <? req) then Some CorruptRequestSize
      else
        let tail := km_tail_of (b +! KM_HDR) req in
        if b +! bs <? tail +! KM_TAIL then Some CanaryOutsideBlock
        else if negb (mem_rd m tail =? KM_TAIL_MAGIC) then Some TailCanarySmashed
        else None.

(** Linking [b] back between its free neighbours. *)
Definition kfree_insert (m : gmap Z Z) (head prev cur b bs : Z) : gmap Z Z * Z :=
  let m := mem_wr m b bs in
  let m := mem_wr m (km_next_of b) cur in
  if negb (prev =? 0) then (mem_wr m (km_next_of prev) b, head) else (m, b).

(** Merging into the previous free block, then with the next one. *)
Definition kfree_merge (m : gmap Z Z) (prev b bs : Z) : gmap Z Z :=
  let '(m, b) :=
    if (negb (prev =? 0) && (prev +! blk_size m prev =? b))%bool then
      let m := mem_wr m prev (blk_size m prev +! bs) in
      (mem_wr m (km_next_of prev) (mem_rd m (km_next_of b)), prev)
    else (m, b) in
  let nx := mem_rd m (km_next_of b) in
  if (negb (nx =? 0) && (b +! blk_size m b =? nx))%bool then
    let m := mem_wr m b (blk_size m b +! blk_size m nx) in
    mem_wr m (km_next_of b) (mem_rd m (km_next_of nx))
  else m.

Definition kfree (st : km_state) (ptr : Z) : kfree_result :=
  if ptr =? 0 then FreeOk st
  else
    let b := ptr -! KM_HDR in
    match kfree_check (km_mem st) b with
    | Some why => FreePanic why
    | None =>
        let bs := blk_size (km_mem st) b in
        let used := km_used_bytes st -! bs in
        let '(prev, cur) := kfree_walk KM_FUEL (km_mem st) 0 (km_head st) b in
        let '(m, head) := kfree_insert (km_mem st) (km_head st) prev cur b bs in
        FreeOk (mk_km (kfree_merge m prev b bs) head used)
    end.

Definition kmalloc_total : Z := KM_POOL_SIZE.
Definition kmalloc_used (st : km_state) : Z := km_used_bytes st.

(** One block of the audit: is it damaged? *)
Definition audit_block (m : gmap Z Z) (p bs : Z) : bool :=
  if blk_is_free m p then false
  else
    let req := mem_rd m (km_req_of p) in
    let tail := km_tail_of (p +! KM_HDR) req in
    if negb (mem_rd m (km_magic_of p) =? KM_MAGIC) then true
    else if (req =? 0) || (KM_POOL_SIZE <? req) then true
    else if p +! bs <? tail +! KM_TAIL then true
    else negb (mem_rd m tail =? KM_TAIL_MAGIC).

Fixpoint kmalloc_audit_from (fuel : nat) (m : gmap Z Z) (p bad : Z) : Z :=
  match fuel with
  | O => bad
  | S fuel' =>
      if p +! KM_HDR <=? km_pool + KM_POOL_SIZE then
        let bs := blk_size m p in
        if (bs <? KM_HDR) || (KM_POOL_SIZE <? bs) || (km_pool + KM_POOL_SIZE <? p +! bs)
        then bad +! 1
        else kmalloc_audit_from fuel' m (p +! bs) (if audit_block m p bs then bad +! 1 else bad)
      else bad
  end.

Definition kmalloc_audit (st : km_state) : Z := kmalloc_audit_from KM_FUEL (km_mem st) km_pool 0.

Definition kmalloc_repair_tail (st : km_state) (ptr : Z) : km_state :=
  if ptr =? 0 then st
  else
    let b := ptr -! KM_HDR in
    let m := km_mem st in
    if mem_rd m (km_magic_of b) =? KM_MAGIC then
      let req := mem_rd m (km_req_of b) in
      mk_km (mem_wr m (km_tail_of ptr req) KM_TAIL_MAGIC) (km_head st) (km_used_bytes st)
    else st.

Fixpoint largest_free_from (fuel : nat) (m : gmap Z Z) (b max : Z) : Z :=
  match fuel with
  | O => max
  | S fuel' =>
      if b =? 0 then max
      else largest_free_from fuel' m (mem_rd m (km_next_of b))
             (if (blk_is_free m b && (max <? blk_size m b))%bool then blk_size m b else max)
  end.

Definition kmalloc_largest_free (st : km_state) : Z :=
  largest_free_from KM_FUEL (km_mem st) (km_head st) 0.

End Operations.

(** ** Abstract heap: a list of blocks tiling the pool *)

Inductive blk :=
| BFree (sz : Z)
| BUsed (sz req : Z).

Definition bsz (b : blk) : Z := match b with BFree sz => sz | BUsed sz _ => sz end.
Definition is_free_blk (b : blk) : bool := match b with BFree _ => true | _ => false end.

Fixpoint total (bs : list blk) : Z :=
  match bs with [] => 0 | b :: bs' => bsz b + total bs' end.

Fixpoint used_total (bs : list blk) : Z :=
  match bs with
  | [] => 0
  | BFree _ :: bs' => used_total bs'
  | BUsed sz _ :: bs' => sz + used_total bs'
  end.

(** Addresses of the free blocks of [bs] laid out from [a]. *)
Fixpoint free_addrs (a : Z) (bs : list blk) : list Z :=
  match bs with
  | [] => []
  | BFree sz :: bs' => a :: free_addrs (a + sz) bs'
  | BUsed sz _ :: bs' => free_addrs (a + sz) bs'
  end.

(** User pointer and request size of every live block. *)
Fixpoint live_from (a : Z) (bs : list blk) : list (Z * Z) :=
  match bs with
  | [] => []
  | BFree sz :: bs' => live_from (a + sz) bs'
  | BUsed sz req :: bs' => (a + KM_HDR, req) :: live_from (a + sz) bs'
  end.

(** No two adjacent free blocks. *)
Fixpoint coalesced (bs : list blk) : bool :=
  match bs with
  | BFree _ :: ((BFree _ :: _) as bs') => false
  | _ :: bs' => coalesced bs'
  | [] => true
  end.

(** First fit with splitting. *)
Fixpoint abs_malloc (bs : list blk) (size need : Z) : option (list blk * Z) :=
  match bs with
  | [] => None
  | BFree sz :: r =>
      if sz <? need then
        '(r', off) ← abs_malloc r size need; Some (BFree sz :: r', sz + off)
      else if KM_MIN_SPLIT <=? sz - need
      then Some (BUsed need size :: BFree (sz - need) :: r, 0)
      else Some (BUsed sz size :: r, 0)
  | BUsed sz rq :: r =>
      '(r', off) ← abs_malloc r size need; Some (BUsed sz rq :: r', sz + off)
  end.

Definition push_free (sz : Z) (r : list blk) : list blk :=
  match r with BFree n :: r' => BFree (sz + n) :: r' | _ => BFree sz :: r end.

(** Releasing the live block between [pre] and [post]. *)
Definition abs_release (pre : list blk) (sz : Z) (post : list blk) : list blk :=
  match last pre with
  | Some (BFree p) => removelast pre ++ push_free (p + sz) post
  | _ => pre ++ push_free sz post
  end.

(** Space a request occupies: header, user area, canary, rounded to 16. *)
Definition need_of (size : Z) : Z := (size + KM_HDR + KM_TAIL + 15) / 16 * 16.
Definition r4 (req : Z) : Z := (req + 3) / 4 * 4.

Definition blk_ok (b : blk) : Prop :=
  bsz b mod 16 = 0 /\ 32 <= bsz b <= KM_POOL_SIZE /\
  match b with
  | BFree _ => True
  | BUsed sz req => 0 < req <= KM_POOL_SIZE /\ KM_HDR + r4 req + KM_TAIL <= sz
  end.

(** The words a block keeps in memory. *)
Definition blk_mem (m : gmap Z Z) (a : Z) (b : blk) : Prop :=
  match b with
  | BFree sz => mem_rd m a = sz
  | BUsed sz req =>
      mem_rd m a = sz + 1 /\ mem_rd m (a + 4) = req /\ mem_rd m (a + 8) = KM_MAGIC
      /\ mem_rd m (a + KM_HDR + r4 req) = KM_TAIL_MAGIC
  end.

Fixpoint tiles (m : gmap Z Z) (a : Z) (bs : list blk) : Prop :=
  match bs with
  | [] => True
  | b :: bs' => blk_ok b /\ blk_mem m a b /\ tiles m (a + bsz b) bs'
  end.

(** A segment of the free list through the [next] words. *)
Fixpoint lseg (m : gmap Z Z) (h : Z) (l : list Z) (t : Z) : Prop :=
  match l with
  | [] => h = t
  | x :: l' => h = x /\ lseg m (mem_rd m (x + 4)) l' t
  end.

(** *** Layout lemmas *)

Lemma total_app xs ys : total (xs ++ ys) = total xs + total ys.
Proof. induction xs; simpl; lia. Qed.

Lemma used_total_app xs ys : used_total (xs ++ ys) = used_total xs + used_total ys.
Proof. induction xs as [| [] xs IH]; simpl; lia. Qed.

Lemma free_addrs_app a xs ys :
  free_addrs a (xs ++ ys) = free_addrs a xs ++ free_addrs (a + total xs) ys.
Proof.
  revert a. induction xs as [| [sz | sz rq] xs IH]; intros a; simpl.
  - by rewrite Z.add_0_r.
  - rewrite IH. do 2 f_equal. f_equal. lia.
  - rewrite IH. f_equal. f_equal. lia.
Qed.

Lemma live_from_app a xs ys :
  live_from a (xs ++ ys) = live_from a xs ++ live_from (a + total xs) ys.
Proof.
  revert a. induction xs as [| [sz | sz rq] xs IH]; intros a; simpl.
  - by rewrite Z.add_0_r.
  - rewrite IH. do 2 f_equal. lia.
  - rewrite IH. do 2 f_equal. f_equal. lia.
Qed.

Lemma tiles_app m a xs ys :
  tiles m a (xs ++ ys) <-> tiles m a xs /\ tiles m (a + total xs) ys.
Proof.
  revert a. induction xs as [| b xs IH]; intros a; simpl.
  - rewrite Z.add_0_r. tauto.
  - rewrite IH, Z.add_assoc. tauto.
Qed.

Lemma lseg_app m h xs ys t :
  lseg m h (xs ++ ys) t <-> exists x, lseg m h xs x /\ lseg m x ys t.
Proof.
  revert h. induction xs as [| x xs IH]; intros h; simpl.
  - split; [intros H; by exists h | by intros (x & -> & H)].
  - rewrite IH. firstorder.
Qed.

Lemma tiles_total m a bs : tiles m a bs -> 0 <= total bs.
Proof.
  revert a. induction bs as [| b bs IH]; intros a; simpl; [lia |].
  intros (Hok & _ & H). apply IH in H. destruct Hok; lia.
Qed.

Lemma tiles_mod16 m a bs : tiles m a bs -> total bs mod 16 = 0.
Proof.
  revert a. induction bs as [| b bs IH]; intros a; simpl; [done |].
  intros ((Hm & _) & _ & H). apply IH in H. ulia.
Qed.

(** A free block found in the tiling: its header word and its place. *)
Lemma free_addr_in m a bs f : tiles m a bs -> f ∈ free_addrs a bs ->
  exists pre sz post, bs = pre ++ BFree sz :: post /\ f = a + total pre.
Proof.
  revert a. induction bs as [| b bs IH]; intros a Ht Hf; simpl in *; [by apply not_elem_of_nil in Hf |].
  destruct Ht as (_ & _ & Ht). destruct b as [sz | sz rq]; simpl in *.
  - apply elem_of_cons in Hf as [-> | Hf].
    + exists [], sz, bs. split; [done | simpl; lia].
    + destruct (IH _ Ht Hf) as (pre & s & post & -> & ->).
      exists (BFree sz :: pre), s, post. split; [done | simpl; lia].
  - destruct (IH _ Ht Hf) as (pre & s & post & -> & ->).
    exists (BUsed sz rq :: pre), s, post. split; [done | simpl; lia].
Qed.

Lemma free_addr_range m a bs f : tiles m a bs -> f ∈ free_addrs a bs ->
  a <= f /\ f + 32 <= a + total bs.
Proof.
  intros Ht Hf. destruct (free_addr_in _ _ _ _ Ht Hf) as (pre & sz & post & -> & ->).
  apply tiles_app in Ht as [H1 H2]. simpl in H2. destruct H2 as ((Hm & Hs & _) & _ & H3).
  pose proof (tiles_total _ _ _ H1). pose proof (tiles_total _ _ _ H3).
  rewrite total_app. simpl in *. lia.
Qed.

(** *** Frame lemmas: which writes leave the tiling and the links alone *)

Lemma r4_range req : 0 < req -> req <= r4 req < req + 4 /\ r4 req mod 4 = 0.
Proof. unfold r4. intros. split; ulia. Qed.

Lemma blk_mem_frame m a b x v : blk_ok b -> (x < a \/ a + bsz b <= x) ->
  blk_mem m a b -> blk_mem (mem_wr m x v) a b.
Proof.
  unfold blk_ok, blk_mem, KM_HDR, KM_TAIL. destruct b as [sz | sz rq]; simpl;
    intros Hok Hx Hm.
  - rewrite mem_rd_wr_ne by lia. done.
  - destruct Hok as (_ & Hs & Hq & Ht). pose proof (r4_range rq).
    repeat rewrite mem_rd_wr_ne by lia. done.
Qed.

Lemma tiles_frame m a bs x v : tiles m a bs -> (x < a \/ a + total bs <= x) ->
  tiles (mem_wr m x v) a bs.
Proof.
  revert a. induction bs as [| b bs IH]; intros a; simpl; [done |].
  intros (Hok & Hb & Ht) Hx. pose proof (tiles_total _ _ _ Ht).
  assert (0 < bsz b) by (destruct Hok; lia).
  split_and!; [done | apply blk_mem_frame; auto; lia | apply IH; auto; lia].
Qed.

Lemma tiles_link m a bs f v : tiles m a bs -> f ∈ free_addrs a bs ->
  tiles (mem_wr m (f + 4) v) a bs.
Proof.
  intros Ht Hf. destruct (free_addr_in _ _ _ _ Ht Hf) as (pre & sz & post & -> & ->).
  apply tiles_app in Ht as [H1 H2]. apply tiles_app. simpl in *.
  destruct H2 as (Hok & Hm & H3). simpl in *. pose proof (proj1 (proj2 Hok)) as Hs. simpl in Hs.
  split_and!; auto.
  - apply tiles_frame; auto; lia.
  - rewrite mem_rd_wr_ne by lia. done.
  - apply tiles_frame; auto; lia.
Qed.

Lemma lseg_frame m h l t x v : (forall f, f ∈ l -> x <> f + 4) ->
  lseg m h l t -> lseg (mem_wr m x v) h l t.
Proof.
  revert h. induction l as [| y l IH]; intros h Hx; simpl; [done |].
  intros [-> H]. split; [done |]. rewrite mem_rd_wr_ne by (apply Hx; left).
  apply IH; [| done]. intros f Hf. apply Hx. by right.
Qed.

(** Redirecting the last link of a segment. *)
Lemma lseg_relink m h l p t v : (forall f, f ∈ l -> f <> p) ->
  lseg m h (l ++ [p]) t -> lseg (mem_wr m (p + 4) v) h (l ++ [p]) v.
Proof.
  intros Hne H. apply lseg_app in H as (x & H1 & H2). simpl in H2. destruct H2 as [-> _].
  apply lseg_app. exists p. split.
  - apply lseg_frame; [| done]. intros f Hf E. apply (Hne f Hf). lia.
  - simpl. by rewrite mem_rd_wr_eq.
Qed.

(** *** Reading a block header *)

Lemma even_header sz : is_u32 sz -> sz mod 2 = 0 ->
  Z.land sz (~! KM_ALLOCATED) = sz /\ (Z.land sz KM_ALLOCATED =? 0) = true.
Proof.
  intros Hr He. unfold KM_ALLOCATED. split.
  - rewrite align_down_2 by auto. lia.
  - by rewrite land_1, He.
Qed.

Lemma odd_header sz : is_u32 (sz + 1) -> sz mod 2 = 0 ->
  Z.land (sz + 1) (~! KM_ALLOCATED) = sz /\ (Z.land (sz + 1) KM_ALLOCATED =? 0) = false.
Proof.
  intros Hr He. unfold KM_ALLOCATED. split.
  - rewrite align_down_2 by auto. ulia.
  - rewrite land_1. apply Z.eqb_neq. ulia.
Qed.

Lemma blk_ok_size b : blk_ok b -> is_u32 (bsz b) /\ is_u32 (bsz b + 1) /\ bsz b mod 2 = 0.
Proof. unfold blk_ok, is_u32, KM_POOL_SIZE. intros (Hm & Hs & _). ulia. Qed.

Lemma hdr_free m a sz : blk_ok (BFree sz) -> mem_rd m a = sz ->
  blk_size m a = sz /\ blk_is_free m a = true.
Proof.
  intros Hok E. unfold blk_size, blk_is_free. rewrite E.
  apply blk_ok_size in Hok as (? & _ & ?). by apply even_header.
Qed.

Lemma hdr_used m a sz rq : blk_ok (BUsed sz rq) -> mem_rd m a = sz + 1 ->
  blk_size m a = sz /\ blk_is_free m a = false.
Proof.
  intros Hok E. unfold blk_size, blk_is_free. rewrite E.
  apply blk_ok_size in Hok as (_ & ? & ?). by apply odd_header.
Qed.

Lemma round_up4 req : 0 < req <= KM_POOL_SIZE -> round_up req 4 = r4 req.
Proof.
  unfold KM_POOL_SIZE, round_up, r4. intros. rewrite u32_small by (unfold is_u32; lia).
  rewrite align_down_4 by (unfold is_u32; lia). ulia.
Qed.

Lemma round_up16 size : 0 < size <= KM_POOL_SIZE ->
  round_up (size +! KM_HDR +! KM_TAIL) KM_ALIGN = need_of size.
Proof.
  unfold KM_POOL_SIZE, round_up, need_of, KM_HDR, KM_TAIL, KM_ALIGN. intros. ured.
  rewrite align_down_16 by (unfold is_u32; lia). ulia.
Qed.

Lemma need_of_ok size sz : 0 < size <= KM_POOL_SIZE -> need_of size <= sz -> sz mod 16 = 0 ->
  sz <= KM_POOL_SIZE -> blk_ok (BUsed sz size).
Proof.
  unfold need_of, blk_ok, r4, KM_HDR, KM_TAIL. simpl. intros.
  split_and!; auto; unfold KM_POOL_SIZE in *; ulia.
Qed.

Lemma need_of_mod size : need_of size mod 16 = 0.
Proof. unfold need_of. ulia. Qed.

(** [km_arm] writes exactly the four words of a live block. *)
Lemma km_arm_eq m b req total :
  0 < b -> b + total < 2 ^ 32 -> blk_ok (BUsed total req) ->
  km_arm m b req total =
  mem_wr (mem_wr (mem_wr (mem_wr m (b + 4) req) (b + 8) KM_MAGIC)
    (b + KM_HDR + r4 req) KM_TAIL_MAGIC) b (total + 1).
Proof.
  intros Hb Hlim Hok. destruct Hok as (Hm & Hs & Hq & Ht). simpl in *.
  unfold km_arm, km_req_of, km_magic_of, km_tail_of, KM_HDR, KM_TAIL in *.
  rewrite round_up4 by lia. pose proof (r4_range req). ured.
  unfold KM_ALLOCATED. rewrite (lor_low_add total 1 1) by (try lia; ulia). done.
Qed.

Lemma km_arm_mem m b req total :
  0 < b -> b + total < 2 ^ 32 -> blk_ok (BUsed total req) ->
  blk_mem (km_arm m b req total) b (BUsed total req).
Proof.
  intros. rewrite km_arm_eq by auto. destruct H1 as (? & ? & ? & ?). simpl in *.
  pose proof (r4_range req). unfold KM_HDR, KM_TAIL in *.
  split_and!; mem_simp; done.
Qed.

Lemma km_arm_frame m b req total x :
  0 < b -> b + total < 2 ^ 32 -> blk_ok (BUsed total req) ->
  (x < b \/ b + total <= x) -> mem_rd (km_arm m b req total) x = mem_rd m x.
Proof.
  intros. rewrite km_arm_eq by auto. destruct H1 as (? & ? & ? & ?). simpl in *.
  pose proof (r4_range req). unfold KM_HDR, KM_TAIL in *. mem_simp. done.
Qed.

(** *** Agreement of two memories on a range *)

Lemma blk_mem_agree m m' a b : blk_ok b ->
  (forall x, a <= x < a + bsz b -> mem_rd m' x = mem_rd m x) ->
  blk_mem m a b -> blk_mem m' a b.
Proof.
  unfold blk_ok, blk_mem, KM_HDR, KM_TAIL. destruct b as [sz | sz rq]; simpl;
    intros Hok Hx Hm.
  - rewrite Hx by lia. done.
  - destruct Hok as (_ & Hs & Hq & Ht). pose proof (r4_range rq).
    rewrite !Hx by lia. done.
Qed.

Lemma tiles_agree m m' a bs :
  (forall x, a <= x < a + total bs -> mem_rd m' x = mem_rd m x) ->
  tiles m a bs -> tiles m' a bs.
Proof.
  revert a. induction bs as [| b bs IH]; intros a Hx; simpl in *; [done |].
  intros (Hok & Hb & Ht). pose proof (tiles_total _ _ _ Ht).
  assert (0 < bsz b) by (destruct Hok; lia).
  split_and!; [done | apply (blk_mem_agree m); auto; intros; apply Hx; lia |].
  apply IH; auto. intros. apply Hx. lia.
Qed.

Lemma lseg_agree m m' h l t :
  (forall f, f ∈ l -> mem_rd m' (f + 4) = mem_rd m (f + 4)) ->
  lseg m h l t -> lseg m' h l t.
Proof.
  revert h. induction l as [| y l IH]; intros h Hx; simpl; [done |].
  intros [-> H]. split; [done |]. rewrite Hx by left.
  apply IH; [| done]. intros. apply Hx. by right.
Qed.

(** Replacing one block of the tiling by others of the same extent. *)
Lemma tiles_replace m m' a pre x post ys :
  tiles m a (pre ++ x :: post) -> total ys = bsz x ->
  (forall y, (y < a + total pre \/ a + total pre + bsz x <= y) -> mem_rd m' y = mem_rd m y) ->
  tiles m' (a + total pre) ys -> tiles m' a (pre ++ ys ++ post).
Proof.
  intros Ht Hy Hag Hn. apply tiles_app in Ht as [H1 H2]. simpl in H2.
  destruct H2 as (Hok & _ & H3). pose proof (tiles_total _ _ _ H1).
  apply tiles_app. split; [| apply tiles_app; split; [done |]].
  - eapply tiles_agree; [| exact H1]. intros. apply Hag. lia.
  - rewrite Hy. eapply tiles_agree; [| exact H3]. intros. apply Hag.
    destruct Hok. lia.
Qed.

Lemma free_addrs_length m a bs : tiles m a bs -> 32 * Z.of_nat (length (free_addrs a bs)) <= total bs.
Proof.
  revert a. induction bs as [| [sz | sz rq] bs IH]; intros a; simpl; [lia | |];
    intros ((_ & ? & _) & _ & Ht); apply IH in Ht; simpl in *; lia.
Qed.

Lemma free_addrs_lt m a bs f l : tiles m a bs -> free_addrs a bs = f :: l ->
  forall g, g ∈ l -> f + 32 <= g.
Proof.
  revert a. induction bs as [| [sz | sz rq] bs IH]; intros a; simpl; [done | |];
    intros (Hok & _ & Ht) E g Hg.
  - injection E as <- <-. apply (free_addr_range _ _ _ _ Ht) in Hg. destruct Hok. simpl in *. lia.
  - eapply IH; eauto.
Qed.

Lemma free_addrs_nodup m a bs : tiles m a bs -> NoDup (free_addrs a bs).
Proof.
  revert a. induction bs as [| [sz | sz rq] bs IH]; intros a; simpl; [constructor | |];
    intros (Hok & _ & Ht); [constructor |]; eauto.
  intros Hg. apply (free_addr_range _ _ _ _ Ht) in Hg. destruct Hok. simpl in *. lia.
Qed.

(** ** The heap invariant *)

(** The linker's placement of [km_pool]: 16-aligned, above address 0, and one
    header past its end still addressable (the audit computes that address). *)
Definition pool_ok (km_pool : Z) : Prop :=
  0 < km_pool /\ km_pool mod 16 = 0 /\ km_pool + KM_POOL_SIZE + 16 < 2 ^ 32.

(** The pool is tiled and the free list links its free blocks in order. *)
Definition raw_heap (km_pool : Z) (m : gmap Z Z) (head : Z) (bs : list blk) : Prop :=
  tiles m km_pool bs /\ total bs = KM_POOL_SIZE /\ lseg m head (free_addrs km_pool bs) 0.

Record heap_inv (km_pool : Z) (st : km_state) (bs : list blk) : Prop := {
  hi_raw : raw_heap km_pool (km_mem st) (km_head st) bs;
  hi_used : km_used_bytes st = used_total bs;
  hi_coal : coalesced bs = true;
}.

Definition last0 (l : list Z) : Z := default 0 (last l).
Definition hd0 (l : list Z) : Z := default 0 (head l).

Lemma lseg_hd m h l : lseg m h l 0 -> h = hd0 l.
Proof. destruct l; simpl; [done | by intros []]. Qed.

Section Proofs.
Context (km_pool : Z).
Hypothesis Hpool : pool_ok km_pool.

Lemma free_addr_bounds m bs f : tiles m km_pool bs -> total bs = KM_POOL_SIZE ->
  f ∈ free_addrs km_pool bs -> 0 < f /\ f + 32 <= km_pool + KM_POOL_SIZE.
Proof. intros Ht Hs Hf. destruct Hpool as (? & ? & ?). apply (free_addr_range _ _ _ _ Ht) in Hf. lia. Qed.

Lemma free_addr_hdr m bs f : tiles m km_pool bs -> f ∈ free_addrs km_pool bs ->
  exists pre sz post, bs = pre ++ BFree sz :: post /\ f = km_pool + total pre
    /\ blk_size m f = sz /\ blk_is_free m f = true.
Proof.
  intros Ht Hf. destruct (free_addr_in _ _ _ _ Ht Hf) as (pre & sz & post & -> & ->).
  exists pre, sz, post. apply tiles_app in Ht as [_ H2]. simpl in H2.
  destruct H2 as (Hok & Hm & _). destruct (hdr_free _ _ _ Hok Hm) as [-> ->]. done.
Qed.

(** Relinking the predecessor (or the list head) to [g]. *)
Lemma splice m h F G g old bs : tiles m km_pool bs -> total bs = KM_POOL_SIZE ->
  free_addrs km_pool bs = F ++ G -> lseg m h F old -> lseg m g G 0 ->
  exists m' h',
    (if negb (last0 F =? 0) then (mem_wr m (km_next_of (last0 F)) g, h) else (m, g)) = (m', h')
    /\ raw_heap km_pool m' h' bs.
Proof.
  intros Ht Hs HF H1 H2. pose proof (free_addrs_nodup _ _ _ Ht) as Hnd. rewrite HF in Hnd.
  destruct Hpool as (? & ? & ?). unfold last0.
  destruct F as [| p F _] using rev_ind; simpl.
  - exists m, g. split; [done |]. split_and!; auto. by rewrite HF.
  - rewrite last_snoc. simpl.
    assert (Hp : p ∈ free_addrs km_pool bs) by (rewrite HF; set_solver).
    pose proof (free_addr_bounds _ _ _ Ht Hs Hp). unfold km_next_of.
    destruct (Z.eqb_spec p 0); [lia |]. simpl. ured.
    eexists _, _. split; [done |]. split_and!; auto.
    + by apply tiles_link.
    + rewrite HF. apply lseg_app. exists g. apply NoDup_app in Hnd as (Hn1 & Hn2 & Hn3).
      apply NoDup_app in Hn1 as (_ & Hn4 & _). split.
      * eapply lseg_relink; [| exact H1]. intros f Hf ->. apply (Hn4 p Hf). set_solver.
      * apply lseg_frame; [| done]. intros f Hf E. assert (p = f) as -> by lia.
        apply (Hn2 f); set_solver.
Qed.

(** *** Allocation *)

Lemma scan_skip F : forall prev b fuel st G size need,
  lseg (km_mem st) b (F ++ G) 0 ->
  (forall f, f ∈ F -> 0 < f < 2 ^ 32 - 4 /\ blk_is_free (km_mem st) f = true
     /\ blk_size (km_mem st) f < need) ->
  kmalloc_scan (length F + fuel) st prev b size need
  = kmalloc_scan fuel st (default prev (last F)) (hd0 G) size need.
Proof.
  induction F as [| f F IH]; intros prev b fuel st G size need Hl Hf; simpl in *.
  - by rewrite <- (lseg_hd _ _ _ Hl).
  - destruct Hl as [-> Hl]. destruct (Hf f) as (? & Hfr & Hsz); [left |].
    destruct (Z.eqb_spec f 0); [lia |]. rewrite Hfr. simpl.
    destruct (Z.ltb_spec (blk_size (km_mem st) f) need); [| lia].
    unfold km_next_of at 1. ured.
    rewrite (IH _ _ _ _ G); [| exact Hl | intros g Hg; apply Hf; set_solver].
    f_equal. destruct F as [| f' F]; [done |].
    destruct (last (f' :: F)) as [g |] eqn:E; [| by apply last_None in E].
    cbn [last] in *. by rewrite E.
Qed.

Lemma abs_malloc_cases bs size need :
  (abs_malloc bs size need = None /\
     forall pre sz post, bs = pre ++ BFree sz :: post -> sz < need)
  \/ exists pre sz post, bs = pre ++ BFree sz :: post /\ need <= sz
     /\ (forall p s q, pre = p ++ BFree s :: q -> s < need)
     /\ abs_malloc bs size need = Some (pre ++
          (if KM_MIN_SPLIT <=? sz - need then [BUsed need size; BFree (sz - need)]
           else [BUsed sz size]) ++ post, total pre).
Proof.
  induction bs as [| b bs IH]; simpl.
  - left. split; [done |]. by intros [].
  - destruct b as [sz | sz rq].
    + destruct (Z.ltb_spec sz need) as [Hlt | Hge].
      * destruct IH as [(-> & Hn) | (pre & s & post & -> & Hle & Hp & ->)].
        -- left. split; [done |]. intros [| x pre] s post E; simplify_eq/=; eauto.
        -- right. exists (BFree sz :: pre), s, post. simpl. split_and!; auto.
           intros [| x p] s' q E; simplify_eq/=; eauto.
      * right. exists [], sz, bs. simpl. split_and!; auto; [by intros [] |].
        by destruct (KM_MIN_SPLIT <=? sz - need).
    + destruct IH as [(-> & Hn) | (pre & s & post & -> & Hle & Hp & ->)].
      * left. split; [done |]. intros [| x pre] s post E; simplify_eq/=; eauto.
      * right. exists (BUsed sz rq :: pre), s, post. simpl. split_and!; auto.
        intros [| x p] s' q E; simplify_eq/=; eauto.
Qed.

(** Facts about a block in the middle of the tiling. *)
Lemma mid_block m head pre x post : raw_heap km_pool m head (pre ++ x :: post) ->
  let b := km_pool + total pre in
  tiles m km_pool pre /\ blk_ok x /\ blk_mem m b x /\ tiles m (b + bsz x) post
  /\ 0 <= total pre /\ 0 <= total post /\ total pre + bsz x + total post = KM_POOL_SIZE
  /\ km_pool <= b /\ b + bsz x <= km_pool + KM_POOL_SIZE.
Proof.
  intros (Ht & Hs & _). apply tiles_app in Ht as [H1 H2]. simpl in H2.
  destruct H2 as (Hok & Hm & H3). rewrite total_app in Hs. simpl in Hs.
  pose proof (tiles_total _ _ _ H1). pose proof (tiles_total _ _ _ H3).
  simpl. split_and!; auto; lia.
Qed.

Lemma agree_links m m' pre x post h l t :
  tiles m km_pool (pre ++ x :: post) ->
  (forall y, (y < km_pool + total pre \/ km_pool + total pre + bsz x <= y) ->
     mem_rd m' y = mem_rd m y) ->
  (forall f, f ∈ l -> f ∈ free_addrs km_pool pre \/ f ∈ free_addrs (km_pool + total pre + bsz x) post) ->
  lseg m h l t -> lseg m' h l t.
Proof.
  intros Ht Hag Hl. apply lseg_agree. intros f Hf. apply Hag.
  apply tiles_app in Ht as [H1 H2]. simpl in H2. destruct H2 as (_ & _ & H3).
  destruct (Hl f Hf) as [Hin | Hin].
  - apply (free_addr_range _ _ _ _ H1) in Hin. lia.
  - apply (free_addr_range _ _ _ _ H3) in Hin. lia.
Qed.

Definition carve (size need sz : Z) : list blk :=
  if KM_MIN_SPLIT <=? sz - need then [BUsed need size; BFree (sz - need)] else [BUsed sz size].

(** Installing [ys] in place of the free block [BFree sz] when the memory
    changed only inside that block and the predecessor is then relinked. *)
Lemma install m head m1 pre sz post ys g F : 
  raw_heap km_pool m head (pre ++ BFree sz :: post) ->
  let b := km_pool + total pre in
  total ys = sz ->
  (forall y, (y < b \/ b + sz <= y) -> mem_rd m1 y = mem_rd m y) ->
  tiles m1 b ys -> free_addrs b ys = F ->
  lseg m1 g F (mem_rd m (b + 4)) ->
  exists m' h',
    (if negb (last0 (free_addrs km_pool pre) =? 0)
     then (mem_wr m1 (km_next_of (last0 (free_addrs km_pool pre))) g, head) else (m1, g)) = (m', h')
    /\ raw_heap km_pool m' h' (pre ++ ys ++ post).
Proof.
  intros (Ht & Hs & Hl) b Hys Hag Hty HF Hg.
  rewrite free_addrs_app in Hl. simpl in Hl. fold b in Hl.
  apply lseg_app in Hl as (b' & HlF & HlG). simpl in HlG. destruct HlG as [-> HlG].
  assert (Ht' : tiles m1 km_pool (pre ++ ys ++ post)).
  { eapply tiles_replace; [exact Ht | simpl; lia | exact Hag | exact Hty]. }
  eapply (splice _ _ _ (F ++ free_addrs (b + sz) post)); [exact Ht' | | | |].
  - rewrite !total_app in *. simpl in Hs. lia.
  - rewrite !free_addrs_app. fold b. by rewrite HF, Hys.
  - eapply agree_links; [exact Ht | exact Hag | auto | exact HlF].
  - apply lseg_app. eexists. split; [exact Hg |].
    eapply agree_links; [exact Ht | exact Hag | auto | exact HlG].
Qed.

Lemma kmalloc_take_spec st pre sz post size :
  raw_heap km_pool (km_mem st) (km_head st) (pre ++ BFree sz :: post) ->
  0 < size <= KM_POOL_SIZE -> need_of size <= sz ->
  0 <= km_used_bytes st <= KM_POOL_SIZE ->
  exists m' h',
    kmalloc_take st (last0 (free_addrs km_pool pre)) (km_pool + total pre) sz size (need_of size)
    = (mk_km m' h' (km_used_bytes st + used_total (carve size (need_of size) sz)),
       km_pool + total pre + KM_HDR)
    /\ raw_heap km_pool m' h' (pre ++ carve size (need_of size) sz ++ post).
Proof.
  intros Hraw Hsz Hneed Hused. pose proof (mid_block _ _ _ _ _ Hraw) as Hmid.
  destruct Hpool as (Hp0 & Hp16 & Hp32). simpl in Hmid.
  destruct Hmid as (_ & Hok & Hbm & _ & ? & ? & Hsum & Hb1 & Hb2).
  set (b := km_pool + total pre) in *. set (need := need_of size) in *.
  assert (Hn16 : need mod 16 = 0) by apply need_of_mod.
  assert (Hn32 : 32 <= need) by (unfold need, need_of, KM_HDR, KM_TAIL; ulia).
  pose proof (proj1 Hok) as Hm16. simpl in Hm16, Hbm.
  unfold kmalloc_take, carve, KM_MIN_SPLIT, KM_HDR, km_next_of, KM_POOL_SIZE in *. ured.
  destruct (Z.leb_spec 32 (sz - need)) as [Hsplit | Hwhole]; ured.
  - assert (Hok1 : blk_ok (BUsed need size)) by (apply need_of_ok; unfold KM_POOL_SIZE; lia).
    assert (Hok2 : blk_ok (BFree (sz - need))) by (unfold blk_ok, KM_POOL_SIZE; simpl; ulia).
    edestruct (install _ _ (km_arm (mem_wr (mem_wr (km_mem st) (b + need) (sz - need))
        (b + need + 4) (mem_rd (mem_wr (km_mem st) (b + need) (sz - need)) (b + 4))) b size need)
        _ _ _ [BUsed need size; BFree (sz - need)] (b + need) [b + need] Hraw)
      as (m' & h' & E & Hraw'); [simpl; lia | | | done | |].
    + intros y Hy. rewrite km_arm_frame by (auto; lia). fold b in Hy. by mem_simp.
    + fold b. split; [done |]. split; [apply km_arm_mem; auto; lia |].
      simpl. rewrite km_arm_frame by (auto; lia). by mem_simp.
    + simpl. split; [done |]. rewrite km_arm_frame by (auto; lia). by mem_simp.
    + unfold km_next_of in E. rewrite E. exists m', h'. simpl. by rewrite Z.add_0_r.
  - assert (Hok1 : blk_ok (BUsed sz size)) by (apply need_of_ok; unfold KM_POOL_SIZE; lia).
    edestruct (install _ _ (km_arm (km_mem st) b size sz) _ _ _ [BUsed sz size]
        (mem_rd (km_mem st) (b + 4)) [] Hraw)
      as (m' & h' & E & Hraw'); [simpl; lia | | | done | |].
    + intros y Hy. by rewrite km_arm_frame by (auto; lia).
    + fold b. split; [done |]. split; [apply km_arm_mem; auto; lia | done].
    + done.
    + unfold km_next_of in E. rewrite E. exists m', h'. simpl. by rewrite Z.add_0_r.
Qed.

(** *** Coalescing *)

Definition ends_free (xs : list blk) : bool :=
  match last xs with Some b => is_free_blk b | None => false end.
Definition starts_free (xs : list blk) : bool :=
  match head xs with Some b => is_free_blk b | None => false end.

Lemma coalesced_cons b xs :
  coalesced (b :: xs) = (coalesced xs && negb (is_free_blk b && starts_free xs))%bool.
Proof.
  unfold starts_free. destruct b, xs as [| [] xs]; simpl; rewrite ?andb_true_r, ?andb_false_r; done.
Qed.

Lemma coalesced_app xs ys :
  coalesced (xs ++ ys) =
  (coalesced xs && coalesced ys && negb (ends_free xs && starts_free ys))%bool.
Proof.
  induction xs as [| b xs IH]; [simpl; by rewrite andb_true_r |].
  rewrite <- app_comm_cons, !coalesced_cons, IH.
  destruct xs as [| b' xs].
  - unfold ends_free. simpl. by destruct (coalesced ys), (is_free_blk b), (starts_free ys).
  - change (ends_free (b :: b' :: xs)) with (ends_free (b' :: xs)).
    change (starts_free ((b' :: xs) ++ ys)) with (starts_free (b' :: xs)).
    by destruct (coalesced (b' :: xs)), (coalesced ys), (ends_free (b' :: xs)),
      (starts_free ys), (is_free_blk b), (starts_free (b' :: xs)).
Qed.

Lemma coalesced_mid pre b post : coalesced (pre ++ b :: post) = true ->
  coalesced pre = true /\ coalesced post = true
  /\ (is_free_blk b = true -> ends_free pre = false /\ starts_free post = false).
Proof.
  rewrite coalesced_app, coalesced_cons.
  change (starts_free (b :: post)) with (is_free_blk b).
  destruct (coalesced pre), (coalesced post), (is_free_blk b), (ends_free pre),
    (starts_free post); simpl; intros H; try discriminate; auto.
Qed.

Lemma coalesced_intro pre ys post :
  coalesced pre = true -> coalesced ys = true -> coalesced post = true -> ys <> [] ->
  (ends_free pre && starts_free ys = false)%bool ->
  (ends_free ys && starts_free post = false)%bool ->
  coalesced (pre ++ ys ++ post) = true.
Proof.
  intros H1 H2 H3 Hne Ha Hb. rewrite !coalesced_app, H1, H2, H3, Hb. simpl.
  replace (starts_free (ys ++ post)) with (starts_free ys) by (by destruct ys).
  by rewrite Ha.
Qed.

Lemma used_total_range m a bs : tiles m a bs -> 0 <= used_total bs <= total bs.
Proof.
  revert a. induction bs as [| [sz | sz rq] bs IH]; intros a; simpl; [lia | |];
    intros ((_ & ? & _) & _ & Ht); apply IH in Ht; simpl in *; lia.
Qed.

Lemma KM_FUEL_eq : Z.of_nat KM_FUEL = 24577.
Proof. unfold KM_FUEL. rewrite Z2Nat.id; done. Qed.

#[local] Opaque KM_FUEL.

Lemma fuel_enough m h bs : raw_heap km_pool m h bs ->
  (length (free_addrs km_pool bs) < KM_FUEL)%nat.
Proof.
  intros (Ht & Hs & _). apply free_addrs_length in Ht. rewrite Hs in Ht.
  pose proof KM_FUEL_eq. unfold KM_POOL_SIZE in *. lia.
Qed.

(** The concrete allocator computes the abstract first fit. *)
Lemma kmalloc_spec st bs size : heap_inv km_pool st bs -> 0 < size <= KM_POOL_SIZE ->
  match abs_malloc bs size (need_of size) with
  | None => kmalloc st size = (st, 0)
  | Some (bs', off) => exists st',
      kmalloc st size = (st', km_pool + off + KM_HDR) /\ heap_inv km_pool st' bs'
  end.
Proof.
  intros [Hraw Hused Hcoal] Hsz. pose proof (fuel_enough _ _ _ Hraw) as Hfuel.
  pose proof Hraw as (Ht & Hs & Hl). unfold kmalloc.
  destruct (Z.eqb_spec size 0); [lia |]. destruct (Z.ltb_spec KM_POOL_SIZE size); [lia |].
  rewrite round_up16 by lia.
  assert (Hskip : forall F G, free_addrs km_pool bs = F ++ G ->
    (forall f, f ∈ F -> exists sz, blk_size (km_mem st) f = sz /\ sz < need_of size) ->
    kmalloc_scan KM_FUEL st 0 (km_head st) size (need_of size) =
    kmalloc_scan (KM_FUEL - length F) st (last0 F) (hd0 G) size (need_of size)).
  { intros F G HFG Hsmall. replace KM_FUEL with (length F + (KM_FUEL - length F))%nat at 1
      by (rewrite HFG, length_app in Hfuel; lia).
    apply scan_skip; [by rewrite <- HFG |]. intros f Hf.
    assert (Hin : f ∈ free_addrs km_pool bs) by (rewrite HFG; set_solver).
    pose proof (free_addr_bounds _ _ _ Ht Hs Hin). destruct Hpool as (? & ? & ?).
    destruct (free_addr_hdr _ _ _ Ht Hin) as (? & ? & ? & ? & ? & ? & Hfree).
    destruct (Hsmall f Hf) as (sz & Esz & ?). split_and!; auto; lia. }
  destruct (abs_malloc_cases bs size (need_of size)) as
    [(-> & Hnone) | (pre & sz & post & Hbs & Hle & Hpre & ->)].
  - rewrite (Hskip (free_addrs km_pool bs) []); [| by rewrite app_nil_r |].
    + destruct (KM_FUEL - length (free_addrs km_pool bs))%nat eqn:E; [lia | done].
    + intros f Hf. destruct (free_addr_hdr _ _ _ Ht Hf) as (p & s & q & E & _ & Esz & _).
      exists s. split; [done |]. by apply (Hnone p s q).
  - subst bs. destruct (mid_block _ _ _ _ _ Hraw) as (Hp & Hok & Hbm & Hq & ? & ? & ? & ? & ?).
    simpl in *. destruct (hdr_free _ _ _ Hok Hbm) as [Esz Efr].
    rewrite free_addrs_app in *. simpl in *.
    rewrite (Hskip (free_addrs km_pool pre) (km_pool + total pre :: free_addrs (km_pool + total pre + sz) post)); [| done |].
    + rewrite length_app in Hfuel. simpl in Hfuel.
      destruct (KM_FUEL - length (free_addrs km_pool pre))%nat eqn:E; [lia |].
      unfold hd0. simpl.
      destruct Hpool as (? & ? & ?).
      destruct (Z.eqb_spec (km_pool + total pre) 0); [lia |]. rewrite Efr, Esz. simpl.
      destruct (Z.ltb_spec sz (need_of size)); [lia |].
      pose proof (used_total_range _ _ _ Ht). rewrite Hs in *.
      destruct (kmalloc_take_spec st pre sz post size Hraw Hsz Hle) as (m' & h' & -> & Hraw');
        [lia |]. eexists. split; [done |]. constructor; simpl; [exact Hraw' | |].
      * rewrite Hused, !used_total_app. simpl. unfold carve. destruct (_ <=? _); simpl; lia.
      * destruct (coalesced_mid _ _ _ Hcoal) as (? & ? & Hadj).
        destruct (Hadj eq_refl) as [? Hst].
        change (if KM_MIN_SPLIT <=? sz - need_of size then _ else _)
          with (carve size (need_of size) sz).
        apply coalesced_intro; auto; unfold carve; destruct (_ <=? _); simpl; auto;
          rewrite ?andb_false_r; auto; by rewrite Hst.
    + intros f Hf. destruct (free_addr_hdr _ _ _ Hp Hf) as (p & s & q & E & _ & Es & _).
      exists s. split; [done |]. by apply (Hpre p s q).
Qed.

(** *** Release *)

(** A live block's words pass every check of [kfree]. *)
Lemma kfree_check_live m h pre sz rq post :
  raw_heap km_pool m h (pre ++ BUsed sz rq :: post) ->
  kfree_check km_pool m (km_pool + total pre) = None
  /\ blk_size m (km_pool + total pre) = sz.
Proof.
  intros Hraw. destruct (mid_block _ _ _ _ _ Hraw) as (_ & Hok & Hbm & _ & ? & ? & ? & ? & ?).
  destruct Hpool as (? & ? & ?). simpl in *.
  destruct Hbm as (Eh & Er & Em & Et). destruct (hdr_used _ _ _ _ Hok Eh) as [Esz Efr].
  split; [| done]. destruct Hok as (_ & ? & ? & ?). simpl in *. pose proof (r4_range rq).
  unfold kfree_check, km_magic_of, km_req_of, km_tail_of, KM_HDR, KM_TAIL, KM_POOL_SIZE in *.
  rewrite Esz, Efr. ured. rewrite Em, Er. rewrite round_up4 by (unfold KM_POOL_SIZE; lia). ured.
  rewrite Et. repeat (bcase; simpl; try lia); done.
Qed.

Lemma kfree_walk_spec F : forall prev h m G b fuel,
  lseg m h (F ++ G) 0 ->
  (forall f, f ∈ F -> 0 < f < b /\ f < 2 ^ 32 - 4) ->
  (forall g, head G = Some g -> b <= g) ->
  kfree_walk (length F + S fuel) m prev h b = (default prev (last F), hd0 G).
Proof.
  induction F as [| f F IH]; intros prev h m G b fuel Hl HF HG; simpl in *.
  - rewrite (lseg_hd _ _ _ Hl). unfold hd0. destruct G as [| g G]; simpl; [done |].
    specialize (HG g eq_refl). destruct (Z.ltb_spec g b); [lia |]. by rewrite andb_false_r.
  - destruct Hl as [-> Hl]. destruct (HF f) as [? ?]; [left |].
    destruct (Z.eqb_spec f 0); [lia |]. destruct (Z.ltb_spec f b); [simpl | lia].
    unfold km_next_of. ured.
    rewrite (IH _ _ _ G); [| exact Hl | intros g Hg; apply HF; set_solver | done].
    f_equal. destruct F as [| f' F]; [done |].
    destruct (last (f' :: F)) as [g |] eqn:E; [| by apply last_None in E].
    cbn [last] in *. by rewrite E.
Qed.

(** Linking the block back gives the same tiling with the block marked free. *)
Lemma kfree_insert_spec m h pre sz rq post :
  raw_heap km_pool m h (pre ++ BUsed sz rq :: post) ->
  let b := km_pool + total pre in
  exists m' h',
    kfree_insert m h (last0 (free_addrs km_pool pre)) (hd0 (free_addrs (b + sz) post)) b sz
    = (m', h') /\ raw_heap km_pool m' h' (pre ++ BFree sz :: post).
Proof.
  intros Hraw b. destruct (mid_block _ _ _ _ _ Hraw) as (_ & Hok & _ & _ & ? & ? & ? & ? & ?).
  destruct Hpool as (? & ? & ?). simpl in *. subst b. set (b := km_pool + total pre) in *.
  pose proof Hraw as (Ht & Hs & Hl). rewrite free_addrs_app in Hl. simpl in Hl. fold b in Hl.
  apply lseg_app in Hl as (mid & HlF & HlG).
  set (m1 := mem_wr (mem_wr m b sz) (b + 4) (hd0 (free_addrs (b + sz) post))).
  assert (Hsz : 32 <= sz <= KM_POOL_SIZE) by (destruct Hok; simpl in *; lia).
  assert (Hag : forall y, (y < b \/ b + sz <= y) -> mem_rd m1 y = mem_rd m y)
    by (intros; unfold m1; by mem_simp).
  assert (Hok' : blk_ok (BFree sz)) by (unfold blk_ok in *; simpl in *; tauto).
  assert (Ht' : tiles m1 km_pool (pre ++ [BFree sz] ++ post)).
  { eapply tiles_replace; [exact Ht | simpl; lia | exact Hag |]. fold b. simpl.
    split; [exact Hok' | split; [unfold m1; by mem_simp | done]]. }
  destruct (splice m1 h (free_addrs km_pool pre) (b :: free_addrs (b + sz) post) b mid _ Ht')
    as (m' & h' & E & Hraw').
  - rewrite !total_app in *. simpl in *. lia.
  - rewrite free_addrs_app. done.
  - eapply agree_links; [exact Ht | exact Hag | auto | exact HlF].
  - simpl. split; [done |]. rewrite (lseg_hd _ _ _ HlG) in HlG.
    unfold m1 at 2. mem_simp.
    eapply agree_links; [exact Ht | exact Hag | auto | exact HlG].
  - exists m', h'. unfold kfree_insert. unfold KM_POOL_SIZE in *.
    replace (km_next_of b) with (b + 4) by (unfold km_next_of; ured; done). done.
Qed.

(** Absorbing the free block that follows a free block. *)
Lemma merge_raw m h pre x y post :
  raw_heap km_pool m h (pre ++ BFree x :: BFree y :: post) ->
  let a := km_pool + total pre in
  raw_heap km_pool (mem_wr (mem_wr m a (x + y)) (a + 4) (mem_rd m (a + x + 4))) h
    (pre ++ BFree (x + y) :: post).
Proof.
  intros (Ht & Hs & Hl) a. pose proof Ht as Ht0. apply tiles_app in Ht as [H1 H2].
  simpl in H2. fold a in H2. destruct H2 as ((Hx1 & Hx2 & _) & Hxm & (Hy1 & Hy2 & _) & Hym & H3).
  simpl in *. pose proof (tiles_total _ _ _ H1). pose proof (tiles_total _ _ _ H3).
  rewrite total_app in Hs. simpl in Hs.
  rewrite free_addrs_app in Hl. simpl in Hl. fold a in Hl.
  apply lseg_app in Hl as (mid & HlF & HlG). simpl in HlG. destruct HlG as (-> & E & HlG).
  set (m' := mem_wr _ _ _).
  assert (Hag : forall z, (z < a \/ a + x <= z) -> mem_rd m' z = mem_rd m z)
    by (intros; unfold m'; by mem_simp).
  split_and!.
  - apply tiles_app. split; [eapply tiles_agree; [| exact H1]; intros; apply Hag; lia |].
    fold a. simpl. split_and!; [| unfold m'; by mem_simp |].
    { unfold blk_ok. simpl. split_and!; [| lia.. | done].
      rewrite Z.add_mod, Hx1, Hy1 by lia. done. }
    replace (a + (x + y)) with (a + x + y) by lia.
    eapply tiles_agree; [| exact H3]. intros. apply Hag. lia.
  - rewrite total_app. simpl. lia.
  - rewrite free_addrs_app. simpl. fold a. apply lseg_app. exists a. split.
    + eapply lseg_agree; [| exact HlF]. intros f Hf.
      apply (free_addr_range _ _ _ _ H1) in Hf. apply Hag. lia.
    + simpl. split; [done |]. unfold m' at 2. mem_simp.
      replace (a + (x + y)) with (a + x + y) by lia.
      eapply lseg_agree; [| exact HlG]. intros f Hf.
      apply (free_addr_range _ _ _ _ H3) in Hf. apply Hag. lia.
Qed.

Lemma used_first_not_adjacent m a post f : tiles m a post -> starts_free post = false ->
  head (free_addrs a post) = Some f -> a < f.
Proof.
  destruct post as [| [n | s r] post]; simpl; [done | done |].
  intros ((_ & ? & _) & _ & Ht) _ Hf. simpl in *.
  assert (Hin : f ∈ free_addrs (a + s) post) by (by apply head_elem).
  apply (free_addr_range _ _ _ _ Ht) in Hin. lia.
Qed.

(** The second half of [kfree_merge]: absorbing the next free block. *)
Lemma merge_next m h pre x post :
  raw_heap km_pool m h (pre ++ BFree x :: post) ->
  let a := km_pool + total pre in
  let nx := mem_rd m (km_next_of a) in
  raw_heap km_pool
    (if (negb (nx =? 0) && (a +! blk_size m a =? nx))%bool then
       let m := mem_wr m a (blk_size m a +! blk_size m nx) in
       mem_wr m (km_next_of a) (mem_rd m (km_next_of nx))
     else m) h (pre ++ push_free x post).
Proof.
  intros Hraw a nx. destruct (mid_block _ _ _ _ _ Hraw) as (_ & Hok & Hbm & Hpost & ? & ? & ? & ? & ?).
  simpl in *. destruct Hpool as (? & ? & ?). destruct (hdr_free _ _ _ Hok Hbm) as [Esz _].
  subst nx a. set (a := km_pool + total pre) in *. unfold KM_POOL_SIZE in *.
  pose proof (proj1 (proj2 Hok)) as Hx. simpl in Hx.
  assert (Ea : km_next_of a = a + 4) by (unfold km_next_of; by ured).
  rewrite !Ea, Esz. ured.
  assert (Enx : mem_rd m (a + 4) = hd0 (free_addrs (a + x) post)).
  { destruct Hraw as (_ & _ & Hl). rewrite free_addrs_app in Hl. simpl in Hl.
    apply lseg_app in Hl as (mid & _ & HlG). simpl in HlG. destruct HlG as [_ HlG].
    by apply lseg_hd in HlG. }
  rewrite Enx. destruct (starts_free post) eqn:Est.
  - destruct post as [| [y | s r] post]; simpl in *; try done.
    destruct Hpost as (Hoky & Hbmy & Hpost). apply tiles_total in Hpost. destruct (hdr_free _ _ _ Hoky Hbmy) as [Ey _].
    unfold hd0. simpl. rewrite Ey. destruct Hoky as (_ & ? & _). simpl in *.
    destruct (Z.eqb_spec (a + x) 0); [lia |]. rewrite Z.eqb_refl. simpl.
    unfold km_next_of. ured. rewrite mem_rd_wr_ne by lia.
    by apply merge_raw.
  - replace (negb _ && _)%bool with false.
    + by destruct post as [| [y | s r] post].
    + symmetry. apply andb_false_iff. unfold hd0.
      destruct (head (free_addrs (a + x) post)) as [f |] eqn:Ef; simpl; [right | by left].
      pose proof (used_first_not_adjacent _ _ _ _ Hpost Est Ef). apply Z.eqb_neq. lia.
Qed.

Lemma used_last_not_adjacent m a pre f : tiles m a pre -> ends_free pre = false ->
  last (free_addrs a pre) = Some f ->
  exists p sz q, pre = p ++ BFree sz :: q /\ f = a + total p /\ f + sz < a + total pre.
Proof.
  intros Ht Hef Hl. apply last_Some_elem_of in Hl.
  destruct (free_addr_in _ _ _ _ Ht Hl) as (p & sz & q & -> & ->).
  exists p, sz, q. split; [done |]. split; [done |].
  apply tiles_app in Ht as [_ H2]. simpl in H2. destruct H2 as (_ & _ & H3).
  rewrite total_app. simpl. destruct q as [| b q]; simpl in *.
  - unfold ends_free in Hef. by rewrite last_snoc in Hef.
  - destruct H3 as ((_ & ? & _) & _ & H4). apply tiles_total in H4. lia.
Qed.

Lemma kfree_merge_spec m h pre x post :
  raw_heap km_pool m h (pre ++ BFree x :: post) ->
  raw_heap km_pool
    (kfree_merge m (last0 (free_addrs km_pool pre)) (km_pool + total pre) x) h
    (abs_release pre x post).
Proof.
  intros Hraw. destruct (mid_block _ _ _ _ _ Hraw) as (Hpre & Hok & Hbm & _ & ? & ? & ? & ? & ?).
  simpl in *. destruct Hpool as (? & ? & ?).
  unfold kfree_merge, abs_release. destruct (ends_free pre) eqn:Eef.
  - unfold ends_free in Eef. destruct pre as [| [p | s r] pre _] using rev_ind; try done;
      rewrite last_snoc in *; [| done].
    rewrite removelast_last, free_addrs_app, total_app in *. simpl. unfold last0. rewrite last_snoc. simpl.
    rewrite <- app_assoc in Hraw. simpl in Hraw, H, H1, H2, H3.
    destruct (mid_block _ _ _ _ _ Hraw) as (_ & Hokp & Hbmp & _ & ? & _). simpl in *.
    destruct (hdr_free _ _ _ Hokp Hbmp) as [Ep _]. destruct Hokp as (_ & ? & _). simpl in *.
    unfold KM_POOL_SIZE in *. destruct Hok as (_ & ? & _). simpl in *.
    rewrite Ep. ured. rewrite !Z.add_0_r, Z.add_assoc, Z.eqb_refl.
    destruct (Z.eqb_spec (km_pool + total pre) 0); [lia |]. simpl.
    replace (km_next_of (km_pool + total pre)) with (km_pool + total pre + 4)
      by (unfold km_next_of; ured; done).
    replace (km_next_of (km_pool + total pre + p)) with (km_pool + total pre + p + 4)
      by (unfold km_next_of; ured; done).
    rewrite (mem_rd_wr_ne _ _ (km_pool + total pre + p + 4)) by lia.
    apply merge_raw in Hraw. apply merge_next in Hraw. cbv zeta in Hraw.
    replace (km_next_of (km_pool + total pre)) with (km_pool + total pre + 4) in Hraw
      by (unfold km_next_of; ured; done). exact Hraw.
  - replace (negb _ && _)%bool with false.
    + cbv zeta. apply merge_next in Hraw. cbv zeta in Hraw.
      unfold ends_free in Eef. destruct (last pre) as [[p | s r] |]; done.
    + symmetry. apply andb_false_iff. unfold last0.
      destruct (last (free_addrs km_pool pre)) as [f |] eqn:Ef; simpl; [right | by left].
      destruct (used_last_not_adjacent _ _ _ _ Hpre Eef Ef) as (p & s & q & -> & -> & ?).
      apply tiles_app in Hpre as [Hp' H2']. simpl in H2'. destruct H2' as (Hoks & Hbms & _).
      destruct (hdr_free _ _ _ Hoks Hbms) as [-> _]. destruct Hoks as (_ & ? & _). simpl in *.
      pose proof (tiles_total _ _ _ Hp'). destruct Hok as (_ & ? & _). simpl in *.
      unfold KM_POOL_SIZE in *. ured. apply Z.eqb_neq. lia.
Qed.

Lemma used_total_push sz r : used_total (push_free sz r) = used_total r.
Proof. by destruct r as [| [] r]. Qed.

Lemma used_total_release pre sz post :
  used_total (abs_release pre sz post) = used_total pre + used_total post.
Proof.
  unfold abs_release. destruct pre as [| [p | s r] pre _] using rev_ind.
  - simpl. by rewrite used_total_push.
  - rewrite last_snoc, removelast_last, !used_total_app, used_total_push. simpl. lia.
  - rewrite last_snoc, !used_total_app, used_total_push. simpl. lia.
Qed.

Lemma coalesced_push sz r : coalesced r = true -> coalesced (push_free sz r) = true.
Proof.
  destruct r as [| [n | s q] r]; [done | | done]. simpl.
  by destruct r as [| [] r].
Qed.

Lemma coalesced_release pre sz rq post : coalesced (pre ++ BUsed sz rq :: post) = true ->
  coalesced (abs_release pre sz post) = true.
Proof.
  intros H. destruct (coalesced_mid _ _ _ H) as (H1 & H2 & _). unfold abs_release.
  destruct pre as [| [p | s r] pre _] using rev_ind.
  - simpl. by apply coalesced_push.
  - rewrite last_snoc, removelast_last, coalesced_app.
    destruct (coalesced_mid _ _ _ H1) as (H3 & _ & H4). destruct (H4 eq_refl) as [H5 _].
    by rewrite H3, coalesced_push, H5.
  - rewrite last_snoc, coalesced_app, H1, coalesced_push by done.
    unfold ends_free. by rewrite last_snoc.
Qed.

(** The concrete release computes the abstract one and never stops. *)
Lemma kfree_spec st pre sz rq post : heap_inv km_pool st (pre ++ BUsed sz rq :: post) ->
  exists st', kfree km_pool st (km_pool + total pre + KM_HDR) = FreeOk st'
    /\ heap_inv km_pool st' (abs_release pre sz post).
Proof.
  intros [Hraw Hused Hcoal]. pose proof (fuel_enough _ _ _ Hraw) as Hfuel.
  destruct (kfree_check_live _ _ _ _ _ _ Hraw) as [Hchk Esz].
  destruct (mid_block _ _ _ _ _ Hraw) as (Hpre & Hok & Hbm & Hpost & ? & ? & ? & ? & ?).
  pose proof Hraw as (Ht & Hs & Hl). destruct Hpool as (? & ? & ?). simpl in *.
  pose proof (proj1 (proj2 Hok)) as Hszb. simpl in Hszb.
  unfold kfree, KM_HDR, KM_POOL_SIZE in *. set (b := km_pool + total pre) in *.
  destruct (Z.eqb_spec (b + 16) 0); [lia |]. ured.
  replace (b + 16 - 16) with b by lia. rewrite Hchk, Esz.
  rewrite free_addrs_app in Hl, Hfuel. simpl in Hl, Hfuel. fold b in Hl, Hfuel.
  rewrite length_app in Hfuel.
  replace KM_FUEL with (length (free_addrs km_pool pre) +
    S (KM_FUEL - length (free_addrs km_pool pre) - 1))%nat by lia.
  rewrite (kfree_walk_spec _ _ _ _ (free_addrs (b + sz) post) b); [| exact Hl | |].
  - change (default 0 (last (free_addrs km_pool pre))) with (last0 (free_addrs km_pool pre)).
    destruct (kfree_insert_spec _ _ _ _ _ _ Hraw) as (m' & h' & E & Hraw').
    fold b in E. rewrite E. eexists. split; [done |]. constructor; simpl.
    + by apply kfree_merge_spec.
    + rewrite used_total_release. rewrite Hused, used_total_app. simpl.
      pose proof (used_total_range _ _ _ Hpre). pose proof (used_total_range _ _ _ Hpost).
      destruct Hok as (_ & ? & _). simpl in *. ured. lia.
    + by eapply coalesced_release.
  - intros f Hf. apply (free_addr_range _ _ _ _ Hpre) in Hf. fold b in Hf. lia.
  - intros g Hg. apply head_elem, (free_addr_range _ _ _ _ Hpost) in Hg. lia.
Qed.
End Proofs.

(** ** Live allocations *)

Lemma elem_of_live a bs p rq : (p, rq) ∈ live_from a bs <->
  exists pre sz post, bs = pre ++ BUsed sz rq :: post /\ p = a + total pre + KM_HDR.
Proof.
  revert a. induction bs as [| [sz | sz r] bs IH]; intros a; simpl.
  - split; [by intros ?%not_elem_of_nil | by intros ([] & ? & ? & ? & ?)].
  - rewrite IH. split.
    + intros (pre & s & post & -> & ->). exists (BFree sz :: pre), s, post. simpl. split; [done | lia].
    + intros ([| x pre] & s & post & E & ->); simplify_eq/=.
      exists pre, s, post. split; [done | lia].
  - rewrite elem_of_cons, IH. split.
    + intros [[= -> ->] | (pre & s & post & -> & ->)].
      * exists [], sz, bs. simpl. split; [done | lia].
      * exists (BUsed sz r :: pre), s, post. simpl. split; [done | lia].
    + intros ([| x pre] & s & post & E & ->); simplify_eq/=.
      * left. f_equal. lia.
      * right. exists pre, s, post. split; [done | lia].
Qed.

(** A live area, its header and its canary lie inside the tiled range. *)
Lemma live_range m a bs p rq : tiles m a bs -> (p, rq) ∈ live_from a bs ->
  a <= p - KM_HDR /\ 0 < rq /\ p + r4 rq + KM_TAIL <= a + total bs /\ (p - a) mod 16 = 0.
Proof.
  intros Ht Hin. apply elem_of_live in Hin as (pre & sz & post & -> & ->).
  apply tiles_app in Ht as [H1 H2]. simpl in H2. destruct H2 as ((_ & ? & ? & ?) & _ & H3).
  pose proof (tiles_total _ _ _ H1). pose proof (tiles_total _ _ _ H3).
  pose proof (tiles_mod16 _ _ _ H1). rewrite total_app. simpl in *.
  unfold KM_HDR, KM_TAIL in *. split_and!; try lia. ulia.
Qed.

Lemma live_carve a pre size need sz post :
  live_from a (pre ++ carve size need sz ++ post)
  ≡ₚ (a + total pre + KM_HDR, size) :: live_from a (pre ++ BFree sz :: post).
Proof.
  rewrite !live_from_app. unfold carve. destruct (_ <=? _); simpl.
  - replace (a + total pre + (need + (sz - need + 0))) with (a + total pre + sz) by lia.
    replace (a + total pre + need + (sz - need)) with (a + total pre + sz) by lia.
    symmetry. apply Permutation_middle.
  - replace (a + total pre + (sz + 0)) with (a + total pre + sz) by lia.
    symmetry. apply Permutation_middle.
Qed.

Lemma total_push sz r : total (push_free sz r) = sz + total r.
Proof. destruct r as [| [] r]; simpl; lia. Qed.

Lemma live_push a sz r : live_from a (push_free sz r) = live_from (a + sz) r.
Proof. destruct r as [| [n | s q] r]; simpl; [done | f_equal; lia | done]. Qed.

Lemma live_release a pre sz post :
  live_from a (abs_release pre sz post) = live_from a pre ++ live_from (a + total pre + sz) post.
Proof.
  unfold abs_release. destruct pre as [| [p | s r] pre _] using rev_ind.
  - simpl. rewrite live_push. f_equal. lia.
  - rewrite last_snoc, removelast_last, !live_from_app, live_push, total_app. simpl.
    rewrite app_nil_r. do 2 f_equal. lia.
  - rewrite last_snoc, live_from_app, live_push. done.
Qed.

Lemma kmalloc_init_inv km_pool m : pool_ok km_pool ->
  heap_inv km_pool (kmalloc_init km_pool m) [BFree KM_POOL_SIZE].
Proof.
  intros (? & ? & ?). unfold kmalloc_init, km_next_of, KM_POOL_SIZE in *. ured. constructor; [| done..].
  split_and!; simpl; auto.
  - split_and!; auto; [unfold blk_ok; simpl; by split_and! |]. by mem_simp.
  - split; [done |]. by mem_simp.
Qed.

(** The release of the block just carved out gives the old block list back. *)
Lemma carve_release pre size need sz post : coalesced (pre ++ BFree sz :: post) = true ->
  exists s post', carve size need sz ++ post = BUsed s size :: post'
    /\ abs_release pre s post' = pre ++ BFree sz :: post.
Proof.
  intros H. destruct (coalesced_mid _ _ _ H) as (_ & _ & Hadj). destruct (Hadj eq_refl) as [He Hs].
  assert (Hrel : forall s post', push_free s post' = BFree sz :: post ->
            abs_release pre s post' = pre ++ BFree sz :: post).
  { intros s post' E. unfold abs_release, ends_free in *.
    destruct (last pre) as [[p | p r] |]; by rewrite ?E. }
  unfold carve. destruct (_ <=? _); simpl; eexists _, _; (split; [done |]); apply Hrel; simpl.
  - do 2 f_equal. lia.
  - by destruct post as [| [] post].
Qed.

(** ** Properties *)

(** C1. [kmalloc] on a well-formed heap: either it returns [NULL] and leaves
    the heap alone, which happens only for a zero or oversized request or when
    every free block is too small; or it returns a 16-byte aligned area inside
    the pool, disjoint from the header, data and canary of every live
    allocation, and the heap stays well formed with exactly that allocation
    added.  The request sizes range over all 32-bit values. *)
Theorem kmalloc_sound (km_pool : Z) (st : km_state) (bs : list blk) (size : Z)
    (Hpool : pool_ok km_pool) (Hinv : heap_inv km_pool st bs) (Hsize : is_u32 size) :
  let '(st', p) := kmalloc st size in
  (p = 0 /\ st' = st /\
     (size = 0 \/ KM_POOL_SIZE < size \/ forall sz, BFree sz ∈ bs -> sz < need_of size))
  \/ exists bs',
     heap_inv km_pool st' bs'
     /\ live_from km_pool bs' ≡ₚ (p, size) :: live_from km_pool bs
     /\ p mod KM_ALIGN = 0 /\ km_pool < p /\ p + size <= km_pool + KM_POOL_SIZE
     /\ forall q r, (q, r) ∈ live_from km_pool bs ->
          p + size <= q - KM_HDR \/ q + r + KM_TAIL <= p - KM_HDR.
Proof.
  destruct (Z.eq_dec size 0) as [-> | Hz]; [left; auto |].
  destruct (Z.lt_ge_cases KM_POOL_SIZE size) as [Hbig | Hle].
  { unfold kmalloc. destruct (Z.eqb_spec size 0); [done |].
    destruct (Z.ltb_spec KM_POOL_SIZE size); [| lia]. left. auto. }
  assert (Hrange : 0 < size <= KM_POOL_SIZE) by (unfold is_u32 in Hsize; lia).
  pose proof (kmalloc_spec km_pool Hpool st bs size Hinv Hrange) as Hk.
  destruct (abs_malloc_cases bs size (need_of size)) as
    [(E & Hno) | (pre & sz & post & -> & Hfit & _ & E)]; rewrite E in Hk.
  - rewrite Hk. left. split_and!; auto. right. right. intros sz Hin.
    apply list_elem_of_split in Hin as (p & q & ->). by apply (Hno p sz q).
  - destruct Hk as (st' & -> & Hinv'). right. eexists. split; [exact Hinv' |].
    fold (carve size (need_of size) sz) in *.
    destruct (hi_raw _ _ _ Hinv) as (Ht & Hs & _).
    destruct (mid_block _ _ _ _ _ _ (hi_raw _ _ _ Hinv)) as (Hpre & Hok & _ & Hpost & ? & ? & ? & ? & ?).
    destruct Hok as (Hm & ? & _). pose proof (tiles_mod16 _ _ _ Hpre). simpl in *.
    destruct Hpool as (? & ? & ?).
    assert (Hn : size + KM_HDR + KM_TAIL <= need_of size) by (unfold need_of, KM_HDR, KM_TAIL; ulia).
    unfold KM_HDR, KM_TAIL, KM_ALIGN in *. split_and!; try lia; [apply live_carve | ulia |].
    intros q r Hq. rewrite live_from_app in Hq. simpl in Hq.
    apply elem_of_app in Hq as [Hq | Hq].
    + apply (live_range _ _ _ _ _ Hpre) in Hq as (? & ? & ? & _). pose proof (r4_range r).
      unfold KM_HDR, KM_TAIL in *. lia.
    + apply (live_range _ _ _ _ _ Hpost) in Hq as (? & _). unfold KM_HDR in *. lia.
Qed.

(** A concrete placement: the pool at 30 MB, where the linker puts it. *)
Definition POOL_30MB : Z := 0x1E00000.

Lemma pool_30MB_ok : pool_ok POOL_30MB.
Proof. by vm_compute. Qed.

Lemma kmalloc_sound_witness :
  let '(st', p) := kmalloc (kmalloc_init POOL_30MB ∅) 100 in
  (p = 0 /\ st' = kmalloc_init POOL_30MB ∅ /\
     (100 = 0 \/ KM_POOL_SIZE < 100 \/
        forall sz, BFree sz ∈ [BFree KM_POOL_SIZE] -> sz < need_of 100))
  \/ exists bs',
     heap_inv POOL_30MB st' bs'
     /\ live_from POOL_30MB bs' ≡ₚ (p, 100) :: live_from POOL_30MB [BFree KM_POOL_SIZE]
     /\ p mod KM_ALIGN = 0 /\ POOL_30MB < p /\ p + 100 <= POOL_30MB + KM_POOL_SIZE
     /\ forall q r, (q, r) ∈ live_from POOL_30MB [BFree KM_POOL_SIZE] ->
          p + 100 <= q - KM_HDR \/ q + r + KM_TAIL <= p - KM_HDR.
Proof.
  apply (kmalloc_sound POOL_30MB (kmalloc_init POOL_30MB ∅) [BFree KM_POOL_SIZE] 100).
  - exact pool_30MB_ok.
  - apply kmalloc_init_inv, pool_30MB_ok.
  - unfold is_u32; lia.
Defined.

(** C2. [kfree] of any live allocation of a well-formed heap never stops the
    machine, removes exactly that allocation and leaves the heap well formed:
    in particular the released block is merged with free neighbours on both
    sides, since a well-formed heap has no two adjacent free blocks. *)
Theorem kfree_sound (km_pool : Z) (st : km_state) (bs : list blk) (p rq : Z)
    (Hpool : pool_ok km_pool) (Hinv : heap_inv km_pool st bs)
    (Hlive : (p, rq) ∈ live_from km_pool bs) :
  exists st' bs', kfree km_pool st p = FreeOk st' /\ heap_inv km_pool st' bs'
    /\ live_from km_pool bs ≡ₚ (p, rq) :: live_from km_pool bs'.
Proof.
  apply elem_of_live in Hlive as (pre & sz & post & -> & ->).
  destruct (kfree_spec km_pool Hpool _ _ _ _ _ Hinv) as (st' & E & Hinv').
  exists st', (abs_release pre sz post). split_and!; auto.
  rewrite live_release, live_from_app. simpl. symmetry. apply Permutation_middle.
Qed.

Lemma alloc_100_inv : exists bs, heap_inv POOL_30MB (fst (kmalloc (kmalloc_init POOL_30MB ∅) 100)) bs
  /\ (POOL_30MB + 16, 100) ∈ live_from POOL_30MB bs.
Proof.
  pose proof (kmalloc_spec POOL_30MB pool_30MB_ok _ _ 100
                (kmalloc_init_inv POOL_30MB ∅ pool_30MB_ok)) as H.
  destruct H as (st' & -> & Hinv); [unfold KM_POOL_SIZE; lia |].
  eexists. split; [exact Hinv |]. left.
Qed.

Lemma kfree_sound_witness : exists bs,
  (POOL_30MB + 16, 100) ∈ live_from POOL_30MB bs /\
  exists st' bs', kfree POOL_30MB (fst (kmalloc (kmalloc_init POOL_30MB ∅) 100)) (POOL_30MB + 16)
    = FreeOk st' /\ heap_inv POOL_30MB st' bs'
    /\ live_from POOL_30MB bs ≡ₚ (POOL_30MB + 16, 100) :: live_from POOL_30MB bs'.
Proof.
  destruct alloc_100_inv as (bs & Hinv & Hin). exists bs. split; [exact Hin |].
  exact (kfree_sound POOL_30MB _ bs (POOL_30MB + 16) 100 pool_30MB_ok Hinv Hin).
Defined.

(** Allocating and releasing at once is the identity on the heap: the
    block list, hence the free space, the largest free block and every live
    allocation, are what they were before. *)
Theorem kmalloc_kfree_roundtrip (km_pool : Z) (st st1 : km_state) (bs : list blk) (size p : Z)
    (Hpool : pool_ok km_pool) (Hinv : heap_inv km_pool st bs) (Hsize : is_u32 size)
    (Halloc : kmalloc st size = (st1, p)) (Hp : p <> 0) :
  exists st2, kfree km_pool st1 p = FreeOk st2 /\ heap_inv km_pool st2 bs
    /\ kmalloc_used st2 = kmalloc_used st.
Proof.
  assert (Hrange : 0 < size <= KM_POOL_SIZE).
  { unfold kmalloc, is_u32 in *. destruct (Z.eqb_spec size 0); [congruence |].
    destruct (Z.ltb_spec KM_POOL_SIZE size); [congruence | lia]. }
  pose proof (kmalloc_spec km_pool Hpool st bs size Hinv Hrange) as Hk.
  destruct (abs_malloc_cases bs size (need_of size)) as
    [(E & _) | (pre & sz & post & -> & _ & _ & E)]; rewrite E in Hk; [congruence |].
  destruct Hk as (st' & E' & Hinv'). rewrite E' in Halloc. injection Halloc as <- <-.
  fold (carve size (need_of size) sz) in *.
  destruct (carve_release pre size (need_of size) sz post (hi_coal _ _ _ Hinv)) as (s & post' & Ec & Er).
  rewrite Ec in Hinv'. destruct (kfree_spec km_pool Hpool _ _ _ _ _ Hinv') as (st2 & Ek & Hinv2).
  rewrite Er in Hinv2. exists st2. split_and!; auto.
  unfold kmalloc_used. by rewrite (hi_used _ _ _ Hinv2), (hi_used _ _ _ Hinv).
Qed.

Lemma kmalloc_kfree_roundtrip_witness :
  let '(st1, p) := kmalloc (kmalloc_init POOL_30MB ∅) 100 in
  exists st2, kfree POOL_30MB st1 p = FreeOk st2 /\ heap_inv POOL_30MB st2 [BFree KM_POOL_SIZE]
    /\ kmalloc_used st2 = kmalloc_used (kmalloc_init POOL_30MB ∅).
Proof.
  destruct (kmalloc (kmalloc_init POOL_30MB ∅) 100) as [st1 p] eqn:E.
  apply (kmalloc_kfree_roundtrip POOL_30MB (kmalloc_init POOL_30MB ∅) st1 [BFree KM_POOL_SIZE] 100 p).
  - exact pool_30MB_ok.
  - apply kmalloc_init_inv, pool_30MB_ok.
  - unfold is_u32; lia.
  - exact E.
  - assert (Ep : snd (kmalloc (kmalloc_init POOL_30MB ∅) 100) = POOL_30MB + 16) by (vm_compute; reflexivity).
    rewrite E in Ep. simpl in Ep. rewrite Ep. unfold POOL_30MB. lia.
Defined.

(** ** The audit and the canary *)

#[local] Opaque KM_FUEL.

Section Audit.
Context (km_pool : Z).
Hypothesis Hpool : pool_ok km_pool.

Definition in_pool_range (p : Z) : Prop := km_pool <= p /\ p <= km_pool + KM_POOL_SIZE.

(** One audited block: a live one is damaged exactly when its canary is. *)
Lemma audit_block_used m p sz rq : blk_ok (BUsed sz rq) -> km_pool <= p ->
  p + sz <= km_pool + KM_POOL_SIZE ->
  mem_rd m p = sz + 1 -> mem_rd m (p + 4) = rq -> mem_rd m (p + 8) = KM_MAGIC ->
  audit_block m p sz = negb (mem_rd m (p + KM_HDR + r4 rq) =? KM_TAIL_MAGIC).
Proof.
  intros Hok Hp Hlim Eh Er Em. destruct Hpool as (? & ? & ?).
  destruct (hdr_used _ _ _ _ Hok Eh) as [_ Efr].
  destruct Hok as (_ & ? & ? & ?). simpl in *. pose proof (r4_range rq).
  unfold audit_block, km_magic_of, km_req_of, km_tail_of, KM_HDR, KM_TAIL, KM_POOL_SIZE in *.
  rewrite Efr. ured. rewrite Em, Er. rewrite round_up4 by (unfold KM_POOL_SIZE; lia). ured.
  repeat (bcase; simpl; try lia); done.
Qed.

(** One iteration of the audit over a well-sized block. *)
Lemma audit_step m p bad fuel b : blk_ok b -> blk_size m p = bsz b -> km_pool <= p ->
  p + bsz b <= km_pool + KM_POOL_SIZE ->
  kmalloc_audit_from km_pool (S fuel) m p bad =
  kmalloc_audit_from km_pool fuel m (p + bsz b) (if audit_block m p (bsz b) then bad +! 1 else bad).
Proof.
  intros (_ & ? & _) Esz Hp Hlim. destruct Hpool as (? & ? & ?). simpl.
  unfold KM_HDR, KM_POOL_SIZE in *. rewrite Esz. ured. repeat (bcase; simpl; try lia); done.
Qed.

Lemma audit_healthy_seg m bs : forall p bad fuel, tiles m p bs -> km_pool <= p ->
  p + total bs <= km_pool + KM_POOL_SIZE ->
  kmalloc_audit_from km_pool (length bs + fuel) m p bad =
  kmalloc_audit_from km_pool fuel m (p + total bs) bad.
Proof.
  induction bs as [| b bs IH]; intros p bad fuel Ht Hp Hlim;
    cbn [length Nat.add total tiles] in *.
  - by rewrite Z.add_0_r.
  - destruct Ht as (Hok & Hbm & Ht). pose proof (tiles_total _ _ _ Ht).
    assert (E : blk_size m p = bsz b /\ audit_block m p (bsz b) = false).
    { destruct b as [sz | sz rq]; simpl in *.
      - destruct (hdr_free _ _ _ Hok Hbm) as [-> Hf]. unfold audit_block. by rewrite Hf.
      - destruct Hbm as (Eh & Er & Em & Et). destruct (hdr_used _ _ _ _ Hok Eh) as [-> _].
        rewrite (audit_block_used _ _ _ _ Hok) by (auto; lia). by rewrite Et. }
    destruct E as [Esz Eaud].
    rewrite (audit_step _ _ _ _ b Hok Esz), Eaud by lia.
    rewrite IH by (auto; destruct Hok; lia). f_equal. lia.
Qed.

Lemma audit_end m bad fuel : kmalloc_audit_from km_pool (S fuel) m (km_pool + KM_POOL_SIZE) bad = bad.
Proof.
  destruct Hpool as (? & ? & ?). simpl. unfold KM_HDR, KM_POOL_SIZE in *. ured.
  by destruct (Z.leb_spec (km_pool + 384 * 1024 + 16) (km_pool + 384 * 1024)); [lia |].
Qed.

Lemma blocks_length m a bs : tiles m a bs -> 32 * Z.of_nat (length bs) <= total bs.
Proof.
  revert a. induction bs as [| b bs IH]; intros a; simpl; [lia |].
  intros ((_ & ? & _) & _ & Ht). apply IH in Ht. lia.
Qed.

Lemma audit_healthy m h bs : raw_heap km_pool m h bs ->
  kmalloc_audit_from km_pool KM_FUEL m km_pool 0 = 0.
Proof.
  intros (Ht & Hs & _). pose proof (blocks_length _ _ _ Ht). pose proof KM_FUEL_eq.
  rewrite Hs in *. unfold KM_POOL_SIZE in H.
  replace KM_FUEL with (length bs + S (KM_FUEL - length bs - 1))%nat by lia.
  rewrite audit_healthy_seg by (auto; lia). rewrite Hs. apply audit_end.
Qed.

(** After a write over the canary of one live block the audit counts one. *)
Lemma audit_smashed m h pre sz rq post v : raw_heap km_pool m h (pre ++ BUsed sz rq :: post) ->
  v <> KM_TAIL_MAGIC ->
  kmalloc_audit_from km_pool KM_FUEL
    (mem_wr m (km_pool + total pre + KM_HDR + r4 rq) v) km_pool 0 = 1.
Proof.
  intros Hraw Hv. destruct (mid_block _ _ _ _ _ _ Hraw) as (Hpre & Hok & Hbm & Hpost & ? & ? & ? & ? & ?).
  pose proof Hraw as (Ht & Hs & _). simpl in *. set (b := km_pool + total pre) in *.
  set (m' := mem_wr _ _ _). destruct Hbm as (Eh & Er & Em & Et).
  pose proof Hok as (_ & Hsz & Hrq & Hfit). simpl in *. pose proof (r4_range rq).
  unfold KM_HDR, KM_TAIL in *.
  assert (Hpre' : tiles m' km_pool pre) by (apply tiles_frame; auto; right; lia).
  assert (Hpost' : tiles m' (b + sz) post) by (apply tiles_frame; auto; left; lia).
  assert (Eb : audit_block m' b sz = true).
  { rewrite (audit_block_used _ _ _ rq) by (auto; try lia; unfold m'; by mem_simp).
    unfold m', KM_HDR. mem_simp. destruct (Z.eqb_spec v KM_TAIL_MAGIC); done. }
  assert (Esz : blk_size m' b = sz).
  { apply (hdr_used m' b sz rq); auto. unfold m'. by mem_simp. }
  pose proof (blocks_length _ _ _ Ht) as Hlen. rewrite length_app in Hlen. simpl in Hlen.
  rewrite Hs in Hlen. pose proof KM_FUEL_eq. unfold KM_POOL_SIZE in Hlen.
  replace KM_FUEL with (length pre + S (length post + S (KM_FUEL - length pre - length post - 2)))%nat by lia.
  rewrite audit_healthy_seg by (auto; lia). fold b.
  rewrite (audit_step _ _ _ _ (BUsed sz rq) Hok) by (simpl; auto; lia). simpl bsz. rewrite Eb.
  rewrite audit_healthy_seg by (auto; lia).
  replace (b + sz + total post) with (km_pool + KM_POOL_SIZE) by (subst b; lia).
  rewrite audit_end. done.
Qed.
End Audit.

(** Overwriting one word of the pool. *)
Definition poke (st : km_state) (a v : Z) : km_state :=
  mk_km (mem_wr (km_mem st) a v) (km_head st) (km_used_bytes st).

Definition tail_addr (p rq : Z) : Z := p + r4 rq.

(** The canary mechanism.  On a well-formed heap the audit counts no
    damaged block.  If the word after the (4-rounded) user area of any live
    allocation is overwritten with anything but the canary, the audit counts
    exactly one damaged block, [kfree] of that allocation stops the machine
    with the tail-canary message instead of touching the free list, and
    [kmalloc_repair_tail] restores the heap exactly. *)
Theorem heap_overflow_detected (km_pool : Z) (st : km_state) (bs : list blk) (p rq v : Z)
    (Hpool : pool_ok km_pool) (Hinv : heap_inv km_pool st bs)
    (Hlive : (p, rq) ∈ live_from km_pool bs) (Hv : v <> KM_TAIL_MAGIC) :
  kmalloc_audit km_pool st = 0
  /\ kmalloc_audit km_pool (poke st (tail_addr p rq) v) = 1
  /\ kfree km_pool (poke st (tail_addr p rq) v) p = FreePanic TailCanarySmashed
  /\ kmalloc_repair_tail (poke st (tail_addr p rq) v) p = st.
Proof.
  destruct st as [m h u]. pose proof (hi_raw _ _ _ Hinv) as Hraw. simpl in Hraw.
  apply elem_of_live in Hlive as (pre & sz & post & -> & ->).
  unfold kmalloc_audit, poke, tail_addr. simpl.
  split; [by eapply audit_healthy |]. split; [by eapply audit_smashed |].
  destruct (mid_block _ _ _ _ _ _ Hraw) as (_ & Hok & Hbm & _ & ? & ? & ? & ? & ?).
  destruct Hpool as (? & ? & ?). simpl in *. set (b := km_pool + total pre) in *.
  destruct Hbm as (Eh & Er & Em & Et). pose proof Hok as (_ & ? & ? & ?). simpl in *.
  pose proof (r4_range rq). set (m' := mem_wr _ _ _).
  assert (Eh' : mem_rd m' b = sz + 1) by (unfold m', KM_HDR, KM_TAIL in *; by mem_simp).
  assert (Er' : mem_rd m' (b + 4) = rq) by (unfold m', KM_HDR, KM_TAIL in *; by mem_simp).
  assert (Em' : mem_rd m' (b + 8) = KM_MAGIC) by (unfold m', KM_HDR, KM_TAIL in *; by mem_simp).
  assert (Et' : mem_rd m' (b + 16 + r4 rq) = v) by (unfold m', KM_HDR; by mem_simp).
  destruct (hdr_used _ _ _ _ Hok Eh') as [Esz Efr].
  unfold kfree, kmalloc_repair_tail, kfree_check, km_magic_of, km_req_of, km_tail_of. simpl.
  unfold KM_HDR, KM_TAIL, KM_POOL_SIZE in *.
  destruct (Z.eqb_spec (b + 16) 0); [lia |]. ured. replace (b + 16 - 16) with b by lia.
  rewrite Esz, Efr, Em', Er'. rewrite round_up4 by (unfold KM_POOL_SIZE; lia). ured. rewrite Et'.
  split.
  - repeat (bcase; simpl; try lia); done.
  - rewrite Z.eqb_refl. f_equal. unfold m', mem_wr. rewrite insert_insert_eq. apply insert_id.
    unfold mem_rd in Et. destruct (m !! (b + 16 + r4 rq)) as [w |]; simpl in Et; [by rewrite Et | done].
Qed.

Lemma heap_overflow_detected_witness : exists bs,
  (POOL_30MB + 16, 100) ∈ live_from POOL_30MB bs /\
  let st := fst (kmalloc (kmalloc_init POOL_30MB ∅) 100) in
  kmalloc_audit POOL_30MB st = 0
  /\ kmalloc_audit POOL_30MB (poke st (tail_addr (POOL_30MB + 16) 100) 7) = 1
  /\ kfree POOL_30MB (poke st (tail_addr (POOL_30MB + 16) 100) 7) (POOL_30MB + 16)
     = FreePanic TailCanarySmashed
  /\ kmalloc_repair_tail (poke st (tail_addr (POOL_30MB + 16) 100) 7) (POOL_30MB + 16) = st.
Proof.
  destruct alloc_100_inv as (bs & Hinv & Hin). exists bs. split; [exact Hin |].
  apply (heap_overflow_detected POOL_30MB _ bs (POOL_30MB + 16) 100 7 pool_30MB_ok Hinv Hin).
  unfold KM_TAIL_MAGIC. lia.
Defined.

(** The canary is not flush with the user area: for a 5-byte request the first
    three bytes past it are padding that no check looks at. *)
Lemma canary_gap : km_tail_of (POOL_30MB + 16) 5 = POOL_30MB + 16 + 5 + 3.
Proof. reflexivity. Qed.
