(* ===== verification/Pmm.v ===== *)
(** * Pmm: the physical page frame allocator ([kernel/pmm.c])

    A bitmap of 48 words covers the 1536 pages between 10 MB and 16 MB.  The
    model keeps the bitmap as the list of words and every index, size and
    address as a 32-bit integer; the abstraction is the set of used pages. *)

From S2P Require Import Prelude.

Definition PMM_PAGE_SIZE : Z := 4096.
Definition PMM_POOL_START : Z := 0x00A00000.
Definition PMM_POOL_END : Z := 0x01000000.
Definition PMM_POOL_PAGES : Z := (PMM_POOL_END - PMM_POOL_START) / PMM_PAGE_SIZE.
Definition BITS_PER_WORD : Z := 32.
Definition BITMAP_WORDS : Z := (PMM_POOL_PAGES + BITS_PER_WORD - 1) / BITS_PER_WORD.

(** The module's static variables. *)
Record pmm_state := mk_pmm {
  g_bitmap : list Z;
  g_used : Z;
  g_ready : bool;
}.

(** ** Bitmap primitives *)

Definition bit_get (bm : list Z) (i : Z) : Z :=
  Z.land (Z.shiftr (aget 0 bm (i / BITS_PER_WORD)) (i mod BITS_PER_WORD)) 1.
Definition bit_set (bm : list Z) (i : Z) : list Z :=
  aset bm (i / BITS_PER_WORD)
    (aget 0 bm (i / BITS_PER_WORD) |! u32 (Z.shiftl 1 (i mod BITS_PER_WORD))).
Definition bit_clear (bm : list Z) (i : Z) : list Z :=
  aset bm (i / BITS_PER_WORD)
    (aget 0 bm (i / BITS_PER_WORD) &! ~! u32 (Z.shiftl 1 (i mod BITS_PER_WORD))).

Definition in_pool (phys n : Z) : bool :=
  if (phys =? 0) || negb (phys &! (PMM_PAGE_SIZE - 1) =? 0) then false
  else if phys <? PMM_POOL_START then false
  else if n =? 0 then false
  else if PMM_POOL_END <? phys then false
  else if PMM_POOL_END -! phys <? n *! PMM_PAGE_SIZE then false
  else true.

Definition idx_of (phys : Z) : Z := (phys -! PMM_POOL_START) / PMM_PAGE_SIZE.

(** ** Operations *)

Definition pmm_init : pmm_state := mk_pmm (replicate (Z.to_nat BITMAP_WORDS) 0) 0 true.

(** The first-fit scan, [k] iterations before the end of the pool. *)
Fixpoint find_run (k : nat) (bm : list Z) (i run n : Z) : option Z :=
  match k with
  | O => None
  | S k' =>
      if bit_get bm i =? 0 then
        let run := run +! 1 in
        if run =? n then Some (i +! 1 -! n) else find_run k' bm (i +! 1) run n
      else find_run k' bm (i +! 1) 0 n
  end.

(** [for (k = 0; k < n; k++) bit_set(first + k)] and its counterparts. *)
Fixpoint set_run (k : nat) (bm : list Z) (i : Z) : list Z :=
  match k with O => bm | S k' => set_run k' (bit_set bm i) (i +! 1) end.
Fixpoint clear_run (k : nat) (bm : list Z) (i : Z) : list Z :=
  match k with O => bm | S k' => clear_run k' (bit_clear bm i) (i +! 1) end.
Fixpoint all_set (k : nat) (bm : list Z) (i : Z) : bool :=
  match k with O => true | S k' => if bit_get bm i =? 0 then false else all_set k' bm (i +! 1) end.

(** [pmm_alloc_pages]: the new state and the physical address, 0 on failure. *)
Definition pmm_alloc_pages (st : pmm_state) (n : Z) : pmm_state * Z :=
  if negb (g_ready st) || (n =? 0) || (PMM_POOL_PAGES <? n) then (st, 0)
  else
    match find_run (Z.to_nat PMM_POOL_PAGES) (g_bitmap st) 0 0 n with
    | Some first =>
        (mk_pmm (set_run (Z.to_nat n) (g_bitmap st) first) (g_used st +! n) (g_ready st),
         PMM_POOL_START +! first *! PMM_PAGE_SIZE)
    | None => (st, 0)
    end.

Definition pmm_alloc_page (st : pmm_state) : pmm_state * Z := pmm_alloc_pages st 1.

(** [pmm_free_pages]: 0 or -1. *)
Definition pmm_free_pages (st : pmm_state) (phys n : Z) : pmm_state * Z :=
  if negb (g_ready st) || negb (in_pool phys n) then (st, -1)
  else
    let first := idx_of phys in
    if PMM_POOL_PAGES <? first +! n then (st, -1)
    else if all_set (Z.to_nat n) (g_bitmap st) first
    then (mk_pmm (clear_run (Z.to_nat n) (g_bitmap st) first) (g_used st -! n) (g_ready st), 0)
    else (st, -1).

Definition pmm_free_page (st : pmm_state) (phys : Z) : pmm_state * Z := pmm_free_pages st phys 1.

Definition pmm_total_pages : Z := PMM_POOL_PAGES.
Definition pmm_used_pages (st : pmm_state) : Z := g_used st.
Definition pmm_free_count (st : pmm_state) : Z := PMM_POOL_PAGES -! g_used st.

(** ** The UEFI memory map *)

Definition PMM_UEFI_MAGIC_ADDR : Z := 0x5010.
Definition PMM_UEFI_HDR : Z := 0x5020.
Definition PMM_UEFI_DATA : Z := 0x5100.
Definition PMM_UEFI_END : Z := 0x6000.
Definition PMM_UEFI_MAGIC : Z := 0x55454649.
Definition PMM_EFI_LOADER_CODE : Z := 1.
Definition PMM_EFI_BOOT_DATA : Z := 4.
Definition PMM_EFI_CONV : Z := 7.

(** [for (p = s; p < e; p += 4096)]: mark the pages of a firmware range;
    [marked] counts the newly marked ones. *)
Fixpoint mark_range (k : nat) (st : pmm_state) (p e marked : Z) : pmm_state * Z :=
  match k with
  | O => (st, marked)
  | S k' =>
      if p <? e then
        let i := (p -! PMM_POOL_START) / 4096 in
        if bit_get (g_bitmap st) i =? 0
        then mark_range k' (mk_pmm (bit_set (g_bitmap st) i) (g_used st +! 1) (g_ready st))
               (p +! 4096) e (marked +! 1)
        else mark_range k' st (p +! 4096) e marked
      else (st, marked)
  end.

(** The end of a descriptor's range, saturated at 32 bits. *)
Definition uefi_end (start pages : Z) : Z :=
  if 0x100000 <=? pages then 0xFFFFFFFF
  else
    let e := start +! pages *! 4096 in
    if e <? start then 0xFFFFFFFF else e.

(** The pool has [PMM_POOL_PAGES] = 1536 pages, so the marking loop is done
    before this bound. *)
Definition MARK_FUEL : nat := Z.to_nat 1537.

(** One memory descriptor: state, newly marked pages, usable pages. *)
Definition uefi_descriptor (st : pmm_state) (marked usable type start pages : Z)
    : pmm_state * Z * Z :=
  if (PMM_EFI_LOADER_CODE <=? type) && (type <=? PMM_EFI_BOOT_DATA)
  then (st, marked, usable +! pages)
  else if pages =? 0 then (st, marked, usable)
  else if PMM_POOL_END <=? start then (st, marked, usable)
  else
    let e0 := uefi_end start pages in
    if e0 <=? PMM_POOL_START then (st, marked, usable)
    else
      let s := if PMM_POOL_START <? start then start else PMM_POOL_START in
      let e := if e0 <? PMM_POOL_END then e0 else PMM_POOL_END in
      let '(st, marked) := mark_range MARK_FUEL st s e marked in
      (st, marked, usable).

(** [mem32 a] is the 32-bit word the firmware left at physical address [a]. *)
Fixpoint uefi_loop (fuel : nat) (mem32 : Z -> Z) (st : pmm_state)
    (data desc_size map_size off marked usable : Z) : pmm_state * Z * Z :=
  match fuel with
  | O => (st, marked, usable)
  | S fuel' =>
      if off +! desc_size <=? map_size then
        let d := data +! off in
        let '(st, marked, usable) :=
          uefi_descriptor st marked usable (mem32 d) (mem32 (d +! 8)) (mem32 (d +! 24)) in
        uefi_loop fuel' mem32 st data desc_size map_size (off +! desc_size) marked usable
      else (st, marked, usable)
  end.

(** Descriptors are at least 40 bytes apart in a buffer of at most 0xF00. *)
Definition UEFI_FUEL : nat := 100.

(** [pmm_apply_uefi_map]: state, newly marked pages, [*usable_kb]. *)
Definition pmm_apply_uefi_map (mem32 : Z -> Z) (st : pmm_state) : pmm_state * Z * Z :=
  if negb (g_ready st) then (st, 0, 0)
  else if negb (mem32 PMM_UEFI_MAGIC_ADDR =? PMM_UEFI_MAGIC) then (st, 0, 0)
  else
    let map_size := mem32 PMM_UEFI_HDR in
    let desc_size := mem32 (PMM_UEFI_HDR + 4) in
    let data := mem32 (PMM_UEFI_HDR + 12) in
    if (map_size =? 0) || (desc_size <? 40) || (data =? 0) then (st, 0, 0)
    else if (data <? PMM_UEFI_DATA) || (PMM_UEFI_END <=? data) then (st, 0, 0)
    else
      let map_size := if PMM_UEFI_END -! data <? map_size then PMM_UEFI_END -! data else map_size in
      let '(st, marked, usable) := uefi_loop UEFI_FUEL mem32 st data desc_size map_size 0 0 0 in
      (st, marked, usable *! 4).

(** ** Abstraction: the set of used pages *)

Definition page_used (bm : list Z) (i : Z) : bool :=
  Z.testbit (aget 0 bm (i / 32)) (i mod 32).

Definition bm_wf (bm : list Z) : Prop := length bm = 48%nat /\ Forall is_u32 bm.

(** Number of used pages among [i .. i+k-1]. *)
Definition count_used (k : nat) (bm : list Z) (i : Z) : Z := count_if (page_used bm) k i.

Record pmm_inv (st : pmm_state) : Prop := {
  pi_wf : bm_wf (g_bitmap st);
  pi_used : g_used st = count_used 1536 (g_bitmap st) 0;
  pi_ready : g_ready st = true;
}.

Lemma word_u32 bm i : bm_wf bm -> is_u32 (aget 0 bm i).
Proof.
  intros [_ Hw]. unfold aget. destruct (nth_in_or_default (Z.to_nat i) bm 0) as [Hin | ->].
  - rewrite Forall_forall in Hw. apply Hw. by apply list_elem_of_In.
  - unfold is_u32; lia.
Qed.

Lemma bit_get_used bm i : bit_get bm i = b2z (page_used bm i).
Proof.
  unfold bit_get, page_used, BITS_PER_WORD, b2z. rewrite land_1.
  assert (0 <= i mod 32) by (apply Z.mod_pos_bound; lia).
  pose proof (Z.bit0_odd (Z.shiftr (aget 0 bm (i / 32)) (i mod 32))) as Ho.
  rewrite Z.shiftr_spec, Z.add_0_l in Ho by lia. rewrite Ho.
  rewrite Zmod_odd. done.
Qed.

Lemma u32_bit k : 0 <= k < 32 -> u32 (Z.shiftl 1 k) = 2 ^ k.
Proof.
  intros. rewrite Z.shiftl_1_l. apply u32_small. unfold is_u32.
  assert (2 ^ k < 2 ^ 32) by (apply Z.pow_lt_mono_r; lia). lia.
Qed.

Lemma u32_of_bits x : (forall n, 32 <= n -> Z.testbit x n = false) -> 0 <= x -> is_u32 x.
Proof.
  intros H Hx. unfold is_u32. split; [done |].
  destruct (Z.eq_dec x 0) as [-> |]; [lia |].
  apply Z.log2_lt_pow2; [lia |]. destruct (Z.lt_ge_cases (Z.log2 x) 32); [done |].
  specialize (H (Z.log2 x) ltac:(done)). by rewrite Z.bit_log2 in H by lia.
Qed.

Lemma testbit_u32_high x n : is_u32 x -> 32 <= n -> Z.testbit x n = false.
Proof.
  intros Hx Hn. rewrite <- (Z.mod_small x (2 ^ 32)) by exact Hx.
  apply Z.mod_pow2_bits_high. lia.
Qed.

Lemma set_word_u32 w k : is_u32 w -> 0 <= k < 32 -> is_u32 (Z.lor w (2 ^ k)).
Proof.
  intros Hw Hk. apply u32_of_bits.
  - intros n Hn. rewrite Z.lor_spec, (testbit_u32_high w), Z.pow2_bits_false by (auto; lia). done.
  - apply Z.lor_nonneg. unfold is_u32 in Hw. lia.
Qed.

Lemma clear_word_u32 w m : is_u32 w -> is_u32 (Z.land w (u32 m)).
Proof.
  intros Hw. pose proof (u32_range m). apply u32_of_bits.
  - intros n Hn. rewrite Z.land_spec, (testbit_u32_high w) by (auto; lia). done.
  - apply Z.land_nonneg. unfold is_u32 in *. lia.
Qed.

Lemma testbit_lnot_u32 x n : 0 <= n < 32 -> Z.testbit (~! x) n = negb (Z.testbit x n).
Proof. intros. unfold u32. rewrite Z.mod_pow2_bits_low, Z.lnot_spec by lia. done. Qed.

Lemma aset_wf bm i w : bm_wf bm -> is_u32 w -> bm_wf (aset bm i w).
Proof.
  intros [Hl Hw] Hu. split; [by rewrite length_aset |]. by apply Forall_insert.
Qed.

Lemma bit_set_wf bm i : bm_wf bm -> bm_wf (bit_set bm i).
Proof.
  intros H. unfold bit_set, BITS_PER_WORD. assert (0 <= i mod 32 < 32) by (apply Z.mod_pos_bound; lia).
  apply aset_wf; [done |]. rewrite u32_bit by done. apply set_word_u32; [by apply word_u32 | done].
Qed.

Lemma bit_clear_wf bm i : bm_wf bm -> bm_wf (bit_clear bm i).
Proof.
  intros H. apply aset_wf; [done |]. apply clear_word_u32. by apply word_u32.
Qed.

(** Writing one bit changes one page. *)
Lemma page_write bm i j w : bm_wf bm -> 0 <= i < 1536 -> 0 <= j < 1536 ->
  page_used (aset bm (i / 32) w) j =
  if i / 32 =? j / 32 then Z.testbit w (j mod 32) else page_used bm j.
Proof.
  intros [Hl _] Hi Hj. unfold page_used. destruct (Z.eqb_spec (i / 32) (j / 32)) as [-> | Hne].
  - rewrite aget_aset_eq; [done |]. rewrite Hl. ulia.
  - rewrite aget_aset_ne; [done | ulia..].
Qed.

Lemma page_bit_set bm i j : bm_wf bm -> 0 <= i < 1536 -> 0 <= j < 1536 ->
  page_used (bit_set bm i) j = (i =? j) || page_used bm j.
Proof.
  intros Hw Hi Hj. assert (0 <= i mod 32 < 32) by (apply Z.mod_pos_bound; lia).
  unfold bit_set, BITS_PER_WORD. rewrite u32_bit, page_write by done.
  destruct (Z.eqb_spec (i / 32) (j / 32)) as [E | Hne].
  - rewrite Z.lor_spec, Z.pow2_bits_eqb, orb_comm, E by lia. fold (page_used bm j). f_equal.
    destruct (Z.eqb_spec (i mod 32) (j mod 32)), (Z.eqb_spec i j); subst; try done; ulia.
  - destruct (Z.eqb_spec i j); subst; done.
Qed.

Lemma page_bit_clear bm i j : bm_wf bm -> 0 <= i < 1536 -> 0 <= j < 1536 ->
  page_used (bit_clear bm i) j = negb (i =? j) && page_used bm j.
Proof.
  intros Hw Hi Hj. assert (0 <= i mod 32 < 32) by (apply Z.mod_pos_bound; lia).
  assert (0 <= j mod 32 < 32) by (apply Z.mod_pos_bound; lia).
  unfold bit_clear, BITS_PER_WORD. rewrite u32_bit, page_write by done.
  destruct (Z.eqb_spec (i / 32) (j / 32)) as [E | Hne].
  - rewrite Z.land_spec, testbit_lnot_u32, Z.pow2_bits_eqb, andb_comm, E by lia.
    fold (page_used bm j). f_equal. f_equal.
    destruct (Z.eqb_spec (i mod 32) (j mod 32)), (Z.eqb_spec i j); subst; try done; ulia.
  - destruct (Z.eqb_spec i j); subst; done.
Qed.

(** *** Runs of pages *)

Definition free_run (bm : list Z) (f n : Z) : Prop :=
  forall j, f <= j < f + n -> page_used bm j = false.

Definition in_run (f n j : Z) : bool := (f <=? j) && (j <? f + n).

Lemma in_run_S i k j : in_run i (Z.of_nat (S k)) j = ((i =? j) || in_run (i + 1) (Z.of_nat k) j)%bool.
Proof.
  unfold in_run. rewrite Nat2Z.inj_succ.
  destruct (Z.eqb_spec i j), (Z.leb_spec i j), (Z.leb_spec (i + 1) j),
    (Z.ltb_spec j (i + Z.succ (Z.of_nat k))), (Z.ltb_spec j (i + 1 + Z.of_nat k)); try done; lia.
Qed.

Lemma set_run_spec k : forall bm i, bm_wf bm -> 0 <= i -> i + Z.of_nat k <= 1536 ->
  bm_wf (set_run k bm i) /\ forall j, 0 <= j < 1536 ->
    page_used (set_run k bm i) j = (in_run i (Z.of_nat k) j || page_used bm j)%bool.
Proof.
  induction k as [| k IH]; intros bm i Hw Hi Hk; cbn [set_run].
  - split; [done |]. intros j Hj. unfold in_run. rewrite Z.add_0_r.
    destruct (Z.leb_spec i j), (Z.ltb_spec j i); try done; lia.
  - ured. destruct (IH (bit_set bm i) (i + 1)) as [Hw' Hp]; [by apply bit_set_wf | lia.. |].
    split; [done |]. intros j Hj. rewrite Hp, page_bit_set, in_run_S by (auto; lia).
    by destruct (in_run _ _ j), (i =? j), (page_used bm j).
Qed.

Lemma clear_run_spec k : forall bm i, bm_wf bm -> 0 <= i -> i + Z.of_nat k <= 1536 ->
  bm_wf (clear_run k bm i) /\ forall j, 0 <= j < 1536 ->
    page_used (clear_run k bm i) j = (negb (in_run i (Z.of_nat k) j) && page_used bm j)%bool.
Proof.
  induction k as [| k IH]; intros bm i Hw Hi Hk; cbn [clear_run].
  - split; [done |]. intros j Hj. unfold in_run. rewrite Z.add_0_r.
    destruct (Z.leb_spec i j), (Z.ltb_spec j i); try done; lia.
  - ured. destruct (IH (bit_clear bm i) (i + 1)) as [Hw' Hp]; [by apply bit_clear_wf | lia.. |].
    split; [done |]. intros j Hj. rewrite Hp, page_bit_clear, in_run_S by (auto; lia).
    by destruct (in_run _ _ j), (i =? j), (page_used bm j).
Qed.

Lemma all_set_spec k : forall bm i, 0 <= i -> i + Z.of_nat k <= 1536 ->
  all_set k bm i = true <-> forall j, i <= j < i + Z.of_nat k -> page_used bm j = true.
Proof.
  induction k as [| k IH]; intros bm i Hi Hk; cbn [all_set].
  - split; [intros _ j Hj; lia | done].
  - rewrite bit_get_used. ured. destruct (page_used bm i) eqn:Ei; simpl.
    + rewrite IH by lia. split; intros H j Hj.
      * destruct (Z.eq_dec i j) as [<- |]; [done | apply H; lia].
      * apply H; lia.
    + split; [done |]. intros H. rewrite H in Ei by lia. done.
Qed.

Lemma find_run_spec k : forall bm i run n, 0 < n <= 1536 -> 0 <= run < n -> run <= i ->
  i + Z.of_nat k = 1536 -> free_run bm (i - run) run ->
  (forall f, 0 <= f < i - run -> ~ free_run bm f n) ->
  match find_run k bm i run n with
  | Some f => 0 <= f /\ f + n <= 1536 /\ free_run bm f n
      /\ forall f', 0 <= f' < f -> ~ free_run bm f' n
  | None => forall f, 0 <= f -> f + n <= 1536 -> ~ free_run bm f n
  end.
Proof.
  induction k as [| k IH]; intros bm i run n Hn Hrun Hri Hk Hfree Hno; cbn [find_run].
  - intros f Hf Hfn. apply Hno. lia.
  - rewrite bit_get_used. destruct (page_used bm i) eqn:Ei; simpl; ured.
    + apply IH; try lia.
      * intros j Hj. lia.
      * intros f Hf Hr. destruct (Z.lt_ge_cases f (i - run)); [by apply (Hno f ltac:(lia)) |].
        specialize (Hr i). rewrite Ei in Hr. discriminate Hr. lia.
    + assert (Hext : free_run bm (i - run) (run + 1)).
      { intros j Hj. destruct (Z.eq_dec j i) as [-> |]; [done | apply Hfree; lia]. }
      destruct (Z.eqb_spec (run + 1) n) as [<- | Hne].
      * ured. split_and!; try lia.
        -- by replace (i + 1 - (run + 1)) with (i - run) by lia.
        -- intros f' Hf'. apply Hno. lia.
      * apply IH; try lia; replace (i + 1 - (run + 1)) with (i - run) by lia; auto.
Qed.

(** *** Counting *)

Lemma count_used_update k : forall bm bm' i p (b : bool), i <= p < i + Z.of_nat k ->
  page_used bm p = negb b -> page_used bm' p = b ->
  (forall j, i <= j < i + Z.of_nat k -> j <> p -> page_used bm' j = page_used bm j) ->
  count_used k bm' i = count_used k bm i + (if b then 1 else -1).
Proof. intros. unfold count_used. by apply count_if_update with (p := p). Qed.

Lemma count_set_run k : forall bm i, bm_wf bm -> 0 <= i -> i + Z.of_nat k <= 1536 ->
  free_run bm i (Z.of_nat k) ->
  count_used 1536 (set_run k bm i) 0 = count_used 1536 bm 0 + Z.of_nat k.
Proof.
  induction k as [| k IH]; intros bm i Hw Hi Hk Hf; cbn [set_run]; [lia |]. ured.
  rewrite IH; [| by apply bit_set_wf | lia.. |].
  - rewrite (count_used_update 1536 bm (bit_set bm i) 0 i true); [lia | lia | apply Hf; lia | |].
    + rewrite page_bit_set, Z.eqb_refl by (auto; lia). done.
    + intros j Hj Hne. rewrite page_bit_set by (auto; lia). by destruct (Z.eqb_spec i j); [lia |].
  - intros j Hj. rewrite page_bit_set by (auto; lia). destruct (Z.eqb_spec i j); [lia |].
    apply Hf. lia.
Qed.

Lemma count_clear_run k : forall bm i, bm_wf bm -> 0 <= i -> i + Z.of_nat k <= 1536 ->
  (forall j, i <= j < i + Z.of_nat k -> page_used bm j = true) ->
  count_used 1536 (clear_run k bm i) 0 = count_used 1536 bm 0 - Z.of_nat k.
Proof.
  induction k as [| k IH]; intros bm i Hw Hi Hk Hf; cbn [clear_run]; [lia |]. ured.
  rewrite IH; [| by apply bit_clear_wf | lia.. |].
  - rewrite (count_used_update 1536 bm (bit_clear bm i) 0 i false); [lia | lia | apply Hf; lia | |].
    + rewrite page_bit_clear, Z.eqb_refl by (auto; lia). done.
    + intros j Hj Hne. rewrite page_bit_clear by (auto; lia). by destruct (Z.eqb_spec i j); [lia |].
  - intros j Hj. rewrite page_bit_clear by (auto; lia). destruct (Z.eqb_spec i j); [lia |].
    apply Hf. lia.
Qed.

Lemma count_used_range k : forall bm i, 0 <= count_used k bm i <= Z.of_nat k.
Proof. intros. apply count_if_range. Qed.

(** Two well-formed bitmaps with the same used pages are the same words. *)
Lemma bitmap_ext bm bm' : bm_wf bm -> bm_wf bm' ->
  (forall j, 0 <= j < 1536 -> page_used bm j = page_used bm' j) -> bm = bm'.
Proof.
  intros Hw Hw' H. pose proof (proj1 Hw) as Hl. pose proof (proj1 Hw') as Hl'.
  apply (nth_ext _ _ 0 0); [congruence |]. intros i Hi. rewrite Hl in Hi.
  assert (Hg : forall b, nth i b 0 = aget 0 b (Z.of_nat i)) by (intros; unfold aget; by rewrite Nat2Z.id).
  rewrite !Hg. apply Z.bits_inj'. intros n Hn. destruct (Z.lt_ge_cases n 32).
  - specialize (H (32 * Z.of_nat i + n) ltac:(lia)). unfold page_used in H.
    rewrite (Z.mul_comm 32), Z.div_add_l, Z.div_small, Z.add_0_r in H by lia.
    rewrite Z.add_comm, Z.mod_add, Z.mod_small in H by lia. done.
  - rewrite !testbit_u32_high by (auto using word_u32). done.
Qed.

Lemma pmm_init_inv : pmm_inv pmm_init.
Proof.
  constructor; [| by vm_compute | done]. split; [done |].
  apply Forall_replicate. unfold is_u32. lia.
Qed.

#[global] Arguments find_run : simpl never.
#[global] Arguments set_run : simpl never.
#[global] Arguments clear_run : simpl never.
#[global] Arguments all_set : simpl never.
#[global] Arguments count_used : simpl never.

(** *** The range check

    [in_pool] computes [n * PMM_PAGE_SIZE] at 32 bits, which wraps; together
    with the index check of [pmm_free_pages] it is nevertheless exact. *)
Definition range_in_pool (phys n : Z) : Prop :=
  phys mod 4096 = 0 /\ PMM_POOL_START <= phys /\ 0 < n /\ phys + n * 4096 <= PMM_POOL_END.

Lemma in_pool_true phys n : is_u32 phys -> is_u32 n ->
  in_pool phys n = true <->
  phys mod 4096 = 0 /\ PMM_POOL_START <= phys <= PMM_POOL_END /\ 0 < n
  /\ u32 (n * 4096) <= PMM_POOL_END - phys.
Proof.
  unfold in_pool, PMM_POOL_START, PMM_POOL_END, PMM_PAGE_SIZE. intros Hp Hn.
  change (4096 - 1) with 0xFFF. rewrite land_fff. unfold is_u32 in *.
  destruct (Z.eqb_spec phys 0); simpl; [split; [done | lia] |].
  destruct (Z.eqb_spec (phys mod 4096) 0); simpl; [| split; [done | lia]].
  destruct (Z.ltb_spec phys 0xA00000); [split; [done | lia] |].
  destruct (Z.eqb_spec n 0); [split; [done | lia] |].
  destruct (Z.ltb_spec 0x1000000 phys); [split; [done | lia] |]. ured.
  destruct (Z.ltb_spec (0x1000000 - phys) (u32 (n * 4096))); split; try done; lia.
Qed.

Lemma range_check_exact phys n : is_u32 phys -> is_u32 n ->
  (in_pool phys n = true /\ idx_of phys +! n <= PMM_POOL_PAGES) <-> range_in_pool phys n.
Proof.
  intros Hp Hn. rewrite in_pool_true by done. unfold range_in_pool, idx_of, PMM_POOL_PAGES,
    PMM_POOL_START, PMM_POOL_END, PMM_PAGE_SIZE in *.
  change ((0x1000000 - 0xA00000) / 4096) with 1536. unfold is_u32 in *. split.
  - intros [(Hm & Hr & Hn0 & Hw) Hi]. ured_in Hi. split_and!; try lia. ulia.
  - intros (Hm & Hr & Hn0 & Hw). rewrite (u32_small (n * 4096)) by (unfold is_u32; lia).
    rewrite (u32_small (phys - 0xA00000)) by (unfold is_u32; lia).
    rewrite u32_small; unfold is_u32; split_and!; try lia; ulia.
Qed.

(** [in_pool] alone does accept a wrapped size: 2^20 pages from 10 MB. *)
Lemma in_pool_size_wraps : in_pool PMM_POOL_START 0x100000 = true.
Proof. reflexivity. Qed.

(** ** Properties *)

Lemma pmm_alloc_pages_first_fit_spec (st : pmm_state) (n : Z)
    (Hinv : pmm_inv st) (Hn : is_u32 n) :
  let '(st', a) := pmm_alloc_pages st n in
  pmm_inv st' /\
  ((a = 0 /\ st' = st /\
      (n = 0 \/ PMM_POOL_PAGES < n \/
       forall f, 0 <= f -> f + n <= PMM_POOL_PAGES -> ~ free_run (g_bitmap st) f n))
   \/ exists f, a = PMM_POOL_START + f * PMM_PAGE_SIZE /\ 0 <= f /\ f + n <= PMM_POOL_PAGES
      /\ free_run (g_bitmap st) f n
      /\ (forall f', 0 <= f' < f -> ~ free_run (g_bitmap st) f' n)
      /\ g_used st' = g_used st + n
      /\ forall j, 0 <= j < PMM_POOL_PAGES ->
           page_used (g_bitmap st') j = (in_run f n j || page_used (g_bitmap st) j)%bool).
Proof.
  unfold pmm_alloc_pages. destruct Hinv as [Hw Hu Hr]. rewrite Hr. simpl negb.
  change PMM_POOL_PAGES with 1536. unfold is_u32 in Hn.
  destruct (Z.eqb_spec n 0) as [-> |]; cbn [orb]; [split; [done | left; auto] |].
  destruct (Z.ltb_spec 1536 n); [split; [done | left; auto] |].
  assert (Hk : Z.of_nat (Z.to_nat 1536) = 1536) by (apply Z2Nat.id; lia).
  revert Hk. generalize (Z.to_nat 1536). intros k Hk.
  pose proof (find_run_spec k (g_bitmap st) 0 0 n ltac:(lia) ltac:(lia) ltac:(lia) ltac:(lia)
    ltac:(intros j Hj; lia) ltac:(intros j Hj; lia)) as Hf.
  destruct (find_run k (g_bitmap st) 0 0 n) as [f |].
  - destruct Hf as (Hf0 & Hfn & Hfree & Hlow).
    assert (Hnn : Z.of_nat (Z.to_nat n) = n) by (apply Z2Nat.id; lia).
    destruct (set_run_spec (Z.to_nat n) (g_bitmap st) f) as [Hw' Hp]; [done | lia.. |].
    pose proof (count_set_run (Z.to_nat n) (g_bitmap st) f Hw ltac:(lia) ltac:(lia)) as Hc.
    rewrite Hnn in *. specialize (Hc Hfree).
    pose proof (count_used_range 1536 (g_bitmap st) 0).
    pose proof (count_used_range 1536 (set_run (Z.to_nat n) (g_bitmap st) f) 0).
    unfold PMM_POOL_START, PMM_PAGE_SIZE. ured. split.
    + constructor; cbn [g_bitmap g_used g_ready]; [exact Hw' | lia | reflexivity].
    + right. exists f. simpl. split_and!; auto; lia.
  - split; [done |]. left. split_and!; [done.. |]. right. right. exact Hf.
Qed.

(** C3. [pmm_alloc_pages] on a consistent allocator, for every 32-bit [n]:
    if it returns an address then the [n] pages from it are page aligned,
    inside the pool, were all free and are the lowest such run; exactly they
    become used and the counter grows by [n].  If it returns 0 the state is
    unchanged, and then [n] is out of range or no run of [n] free pages
    exists. *)
Theorem pmm_alloc_pages_first_fit (st : pmm_state) (n : Z)
    (Hinv : pmm_inv st) (Hn : is_u32 n) :
  let '(st', a) := pmm_alloc_pages st n in
  pmm_inv st' /\
  ((a = 0 /\ st' = st /\
      (n = 0 \/ PMM_POOL_PAGES < n \/
       forall f, 0 <= f -> f + n <= PMM_POOL_PAGES -> ~ free_run (g_bitmap st) f n))
   \/ exists f, a = PMM_POOL_START + f * PMM_PAGE_SIZE /\ 0 <= f /\ f + n <= PMM_POOL_PAGES
      /\ free_run (g_bitmap st) f n
      /\ (forall f', 0 <= f' < f -> ~ free_run (g_bitmap st) f' n)
      /\ g_used st' = g_used st + n
      /\ forall j, 0 <= j < PMM_POOL_PAGES ->
           page_used (g_bitmap st') j = (in_run f n j || page_used (g_bitmap st) j)%bool).
Proof. by apply pmm_alloc_pages_first_fit_spec. Qed.

Lemma pmm_alloc_pages_first_fit_witness :
  let '(st', a) := pmm_alloc_pages pmm_init 4 in
  pmm_inv st' /\
  ((a = 0 /\ st' = pmm_init /\
      (4 = 0 \/ PMM_POOL_PAGES < 4 \/
       forall f, 0 <= f -> f + 4 <= PMM_POOL_PAGES -> ~ free_run (g_bitmap pmm_init) f 4))
   \/ exists f, a = PMM_POOL_START + f * PMM_PAGE_SIZE /\ 0 <= f /\ f + 4 <= PMM_POOL_PAGES
      /\ free_run (g_bitmap pmm_init) f 4
      /\ (forall f', 0 <= f' < f -> ~ free_run (g_bitmap pmm_init) f' 4)
      /\ g_used st' = g_used pmm_init + 4
      /\ forall j, 0 <= j < PMM_POOL_PAGES ->
           page_used (g_bitmap st') j = (in_run f 4 j || page_used (g_bitmap pmm_init) j)%bool).
Proof.
  apply (pmm_alloc_pages_first_fit pmm_init 4 pmm_init_inv). unfold is_u32; lia.
Defined.

Lemma pmm_free_pages_spec st phys n : pmm_inv st -> is_u32 phys -> is_u32 n ->
  let '(st', rc) := pmm_free_pages st phys n in
  let first := idx_of phys in
  pmm_inv st' /\
  ((rc = 0 /\ range_in_pool phys n
      /\ (forall j, first <= j < first + n -> page_used (g_bitmap st) j = true)
      /\ g_used st' = g_used st - n
      /\ forall j, 0 <= j < PMM_POOL_PAGES ->
           page_used (g_bitmap st') j = (negb (in_run first n j) && page_used (g_bitmap st) j)%bool)
   \/ (rc = -1 /\ st' = st /\
       ~ (range_in_pool phys n
          /\ forall j, first <= j < first + n -> page_used (g_bitmap st) j = true))).
Proof.
  intros Hinv Hp Hn. pose proof (range_check_exact phys n Hp Hn) as Hrc.
  unfold pmm_free_pages. pose proof Hinv as [Hw Hu Hr]. rewrite Hr. simpl negb.
  destruct (in_pool phys n) eqn:Eip; simpl;
    [| split; [done |]; right; split_and!; auto; intros [Hx _]; apply Hrc in Hx; by destruct Hx].
  destruct (Z.ltb_spec PMM_POOL_PAGES (idx_of phys +! n)) as [Hgt | Hle].
  { split; [done |]. right. split_and!; auto. intros [Hx _]. apply Hrc in Hx. lia. }
  assert (Hrange : range_in_pool phys n) by (apply Hrc; auto).
  assert (Hidx : 0 <= idx_of phys /\ idx_of phys + n <= 1536).
  { unfold range_in_pool, idx_of, PMM_POOL_START, PMM_POOL_END, PMM_PAGE_SIZE in *.
    unfold is_u32 in *. ured. ulia. }
  change PMM_POOL_PAGES with 1536 in *. unfold is_u32 in *.
  pose proof (all_set_spec (Z.to_nat n) (g_bitmap st) (idx_of phys)) as Has.
  destruct (all_set _ _ _); rewrite Z2Nat.id in * by (unfold range_in_pool in *; lia).
  - destruct Has as [Has _]; [lia.. |]. specialize (Has eq_refl).
    assert (Hnn : Z.of_nat (Z.to_nat n) = n) by (apply Z2Nat.id; lia).
    destruct (clear_run_spec (Z.to_nat n) (g_bitmap st) (idx_of phys)) as [Hw' Hpg]; [done | lia.. |].
    pose proof (count_clear_run (Z.to_nat n) (g_bitmap st) (idx_of phys) Hw ltac:(lia) ltac:(lia)) as Hc.
    rewrite Hnn in *. specialize (Hc Has).
    pose proof (count_used_range 1536 (g_bitmap st) 0).
    pose proof (count_used_range 1536 (clear_run (Z.to_nat n) (g_bitmap st) (idx_of phys)) 0).
    ured. split; [constructor; cbn [g_bitmap g_used g_ready]; [exact Hw' | lia | reflexivity] |].
    left. simpl. split_and!; auto; lia.
  - split; [done |]. right. split_and!; auto. intros [_ Hall]. apply Has in Hall; [done | lia..].
Qed.

(** [pmm_free_pages] succeeds exactly for a page-aligned range that lies
    in the pool and whose pages are all in use: a range outside the pool, a
    double free and every 32-bit size whose byte count wraps are refused with
    -1 and no change.  On success exactly those pages become free and the
    counter drops by [n]. *)
Theorem pmm_free_pages_exact (st : pmm_state) (phys n : Z)
    (Hinv : pmm_inv st) (Hphys : is_u32 phys) (Hn : is_u32 n) :
  let '(st', rc) := pmm_free_pages st phys n in
  let first := idx_of phys in
  pmm_inv st' /\
  ((rc = 0 /\ range_in_pool phys n
      /\ (forall j, first <= j < first + n -> page_used (g_bitmap st) j = true)
      /\ g_used st' = g_used st - n
      /\ forall j, 0 <= j < PMM_POOL_PAGES ->
           page_used (g_bitmap st') j = (negb (in_run first n j) && page_used (g_bitmap st) j)%bool)
   \/ (rc = -1 /\ st' = st /\
       ~ (range_in_pool phys n
          /\ forall j, first <= j < first + n -> page_used (g_bitmap st) j = true))).
Proof. by apply pmm_free_pages_spec. Qed.

Lemma pmm_free_pages_exact_witness :
  let st := fst (pmm_alloc_pages pmm_init 4) in
  let '(st', rc) := pmm_free_pages st 0xA00000 4 in
  let first := idx_of 0xA00000 in
  pmm_inv st' /\
  ((rc = 0 /\ range_in_pool 0xA00000 4
      /\ (forall j, first <= j < first + 4 -> page_used (g_bitmap st) j = true)
      /\ g_used st' = g_used st - 4
      /\ forall j, 0 <= j < PMM_POOL_PAGES ->
           page_used (g_bitmap st') j = (negb (in_run first 4 j) && page_used (g_bitmap st) j)%bool)
   \/ (rc = -1 /\ st' = st /\
       ~ (range_in_pool 0xA00000 4
          /\ forall j, first <= j < first + 4 -> page_used (g_bitmap st) j = true))).
Proof.
  apply pmm_free_pages_exact; [| unfold is_u32; lia..].
  constructor; [split; [by vm_compute |] | by vm_compute | by vm_compute].
  apply Forall_forall. intros x Hx.
  assert (H : forallb (fun w => (0 <=? w) && (w <? 2 ^ 32)) (g_bitmap (fst (pmm_alloc_pages pmm_init 4))) = true)
    by (vm_compute; reflexivity).
  rewrite forallb_forall in H. apply list_elem_of_In, H in Hx. btrue. unfold is_u32. lia.
Defined.

(** Allocation followed by freeing gives the allocator back word for word. *)
Lemma pmm_alloc_spec st n : pmm_inv st -> is_u32 n ->
  let '(st', a) := pmm_alloc_pages st n in
  pmm_inv st' /\
  (a <> 0 -> exists f, a = PMM_POOL_START + f * PMM_PAGE_SIZE /\ 0 <= f /\ 0 < n
    /\ f + n <= PMM_POOL_PAGES /\ free_run (g_bitmap st) f n /\ g_used st' = g_used st + n
    /\ forall j, 0 <= j < PMM_POOL_PAGES ->
         page_used (g_bitmap st') j = (in_run f n j || page_used (g_bitmap st) j)%bool).
Proof.
  intros Hinv Hn. pose proof (pmm_alloc_pages_first_fit_spec st n Hinv Hn) as H.
  assert (H0 : n = 0 -> snd (pmm_alloc_pages st n) = 0).
  { intros ->. unfold pmm_alloc_pages. by rewrite Z.eqb_refl, orb_true_r. }
  destruct (pmm_alloc_pages st n) as [st' a]. destruct H as [Hi Hcase]. split; [done |].
  intros Ha. destruct Hcase as [(-> & _) | (f & Hf)]; [done |]. exists f.
  destruct Hf as (? & ? & ? & ? & _ & ? & ?). split_and!; auto.
  destruct (Z.eq_dec n 0) as [E |]; [by apply H0 in E | unfold is_u32 in Hn; lia].
Qed.

(** A block of pages that [pmm_alloc_pages] gave out is accepted by
    [pmm_free_pages], and freeing it restores the allocator exactly: every
    bitmap word and the counter. *)
Theorem pmm_alloc_free_roundtrip (st : pmm_state) (n : Z)
    (Hinv : pmm_inv st) (Hn : is_u32 n) :
  let '(st', a) := pmm_alloc_pages st n in
  a <> 0 -> pmm_free_pages st' a n = (st, 0).
Proof.
  pose proof (pmm_alloc_spec st n Hinv Hn) as H.
  destruct (pmm_alloc_pages st n) as [st' a]. destruct H as [Hinv' H]. intros Ha.
  destruct (H Ha) as (f & -> & Hf & Hpos & Hfn & Hfree & Hused & Hpg). clear H.
  unfold PMM_POOL_START, PMM_PAGE_SIZE in *. change PMM_POOL_PAGES with 1536 in *.
  assert (Hpu : is_u32 (0xA00000 + f * 4096)) by (unfold is_u32; lia).
  assert (Hidx : idx_of (0xA00000 + f * 4096) = f).
  { unfold idx_of, PMM_POOL_START, PMM_PAGE_SIZE. rewrite u32_small by (unfold is_u32; lia).
    replace (0xA00000 + f * 4096 - 0xA00000) with (f * 4096) by lia. apply Z.div_mul. lia. }
  pose proof (pmm_free_pages_spec st' _ n Hinv' Hpu Hn) as H. cbv zeta in H. rewrite Hidx in H.
  change PMM_POOL_PAGES with 1536 in H.
  destruct (pmm_free_pages st' _ n) as [st'' rc]. destruct H as [Hinv'' [H | H]].
  - destruct H as (-> & _ & _ & Hu'' & Hpg''). f_equal.
    destruct st as [bm u r], st' as [bm' u' r'], st'' as [bm'' u'' r''].
    destruct Hinv as [Hw _ Hr], Hinv'' as [Hw'' _ Hr'']. simpl in *.
    f_equal; [| lia | congruence]. apply bitmap_ext; auto.
    intros j Hj. rewrite Hpg'', Hpg by lia. unfold free_run in Hfree. unfold in_run.
    destruct (Z.leb_spec f j), (Z.ltb_spec j (f + n)); simpl; try done. rewrite Hfree by lia. done.
  - destruct H as (_ & _ & Hno). exfalso. apply Hno. split.
    + unfold range_in_pool, PMM_POOL_START, PMM_POOL_END. split_and!; try lia. ulia.
    + intros j Hj. rewrite Hpg by lia. unfold in_run.
      destruct (Z.leb_spec f j), (Z.ltb_spec j (f + n)); simpl; try done; lia.
Qed.

Lemma pmm_alloc_free_roundtrip_witness :
  let '(st', a) := pmm_alloc_pages pmm_init 5 in
  a <> 0 -> pmm_free_pages st' a 5 = (pmm_init, 0).
Proof.
  apply (pmm_alloc_free_roundtrip pmm_init 5 pmm_init_inv). unfold is_u32; lia.
Defined.

(** *** The firmware map *)

(** The marking loop from [s] to [e] visits page [j]. *)
Definition run_covers (s e j : Z) : bool :=
  ((s - PMM_POOL_START) / 4096 <=? j) && (PMM_POOL_START + j * 4096 + s mod 4096 <? e).

Lemma run_covers_empty s e j : e <= s -> run_covers s e j = false.
Proof.
  intros H. unfold run_covers, PMM_POOL_START.
  destruct (Z.leb_spec ((s - 0xA00000) / 4096) j); simpl; [| done].
  apply Z.ltb_ge. ulia.
Qed.

(** The page [j] of the pool is one that a reserved descriptor claims. *)
Definition desc_covers (start pages j : Z) : bool :=
  run_covers (Z.max start PMM_POOL_START) (Z.min (start + pages * 4096) PMM_POOL_END) j.

Definition desc_reserves (type start pages j : Z) : bool :=
  negb ((1 <=? type) && (type <=? 4)) && desc_covers start pages j.

Lemma mark_range_spec k : forall st p e marked, pmm_inv st ->
  PMM_POOL_START <= p -> e <= PMM_POOL_END -> e <= p + Z.of_nat k * 4096 -> 0 <= marked ->
  marked + PMM_POOL_PAGES <= 2 ^ 31 + g_used st ->
  let '(st', marked') := mark_range k st p e marked in
  pmm_inv st' /\ marked' - marked = g_used st' - g_used st /\ g_used st <= g_used st' /\
  forall j, 0 <= j < PMM_POOL_PAGES -> page_used (g_bitmap st') j =
    (run_covers p e j || page_used (g_bitmap st) j)%bool.
Proof.
  change PMM_POOL_PAGES with 1536. unfold run_covers, PMM_POOL_START, PMM_POOL_END.
  induction k as [| k IH]; intros st p e marked Hinv Hp He Hk Hm Hmu; cbn [mark_range].
  - split_and!; [done | lia | lia |]. intros j Hj.
    destruct (Z.leb_spec ((p - 0xA00000) / 4096) j), (Z.ltb_spec (0xA00000 + j * 4096 + p mod 4096) e);
      simpl; try done. ulia.
  - destruct (Z.ltb_spec p e) as [Hlt | Hge].
    2:{ split_and!; [done | lia | lia |]. intros j Hj.
        destruct (Z.leb_spec ((p - 0xA00000) / 4096) j),
          (Z.ltb_spec (0xA00000 + j * 4096 + p mod 4096) e); simpl; try done. ulia. }
    unfold PMM_POOL_START. ured. set (i := (p - 0xA00000) / 4096).
    assert (Hi : 0 <= i < 1536) by (unfold i; ulia).
    assert (Hnext : (p + 4096 - 0xA00000) / 4096 = i + 1) by (unfold i; ulia).
    assert (Hmod : (p + 4096) mod 4096 = p mod 4096) by ulia.
    assert (Hlast : 0xA00000 + i * 4096 + p mod 4096 = p) by (unfold i; ulia).
    pose proof Hinv as [Hw Hu Hr]. pose proof (count_used_range 1536 (g_bitmap st) 0) as Hcr.
    rewrite bit_get_used. destruct (page_used (g_bitmap st) i) eqn:Ei; cbn [b2z Z.eqb].
    + specialize (IH st (p + 4096) e marked Hinv ltac:(lia) ltac:(lia) ltac:(lia) Hm Hmu).
      destruct (mark_range k st (p + 4096) e marked) as [st' marked'].
      destruct IH as (Hi' & Hmk & Hmono & Hpg). split_and!; auto. intros j Hj.
      rewrite Hpg, Hnext, Hmod by lia.
      destruct (Z.leb_spec (i + 1) j), (Z.leb_spec i j); simpl; try done; try lia.
      replace j with i by lia. rewrite Ei, orb_true_r. done.
    + assert (Hc : count_used 1536 (bit_set (g_bitmap st) i) 0 = count_used 1536 (g_bitmap st) 0 + 1).
      { rewrite (count_used_update 1536 (g_bitmap st) (bit_set (g_bitmap st) i) 0 i true);
          [lia | lia | done | |].
        - rewrite page_bit_set, Z.eqb_refl by (auto; lia). done.
        - intros j Hj Hne. rewrite page_bit_set by (auto; lia). by destruct (Z.eqb_spec i j); [lia |]. }
      ured. set (st1 := mk_pmm _ _ _).
      assert (Hinv1 : pmm_inv st1)
        by (constructor; cbn [st1 g_bitmap g_used g_ready]; [by apply bit_set_wf | lia | done]).
      specialize (IH st1 (p + 4096) e (marked + 1) Hinv1 ltac:(lia) ltac:(lia) ltac:(lia) ltac:(lia)
        ltac:(cbn [st1 g_used]; lia)).
      destruct (mark_range k st1 (p + 4096) e (marked + 1)) as [st' marked'].
      destruct IH as (Hi' & Hmk & Hmono & Hpg). cbn [st1 g_used g_bitmap] in *.
      split_and!; auto; try lia. intros j Hj. rewrite Hpg, Hnext, Hmod, page_bit_set by (auto; lia).
      destruct (Z.eqb_spec i j) as [<- |]; cbn [orb].
      * rewrite Hlast, orb_true_r. destruct (Z.leb_spec i i), (Z.ltb_spec p e); try done; lia.
      * destruct (Z.leb_spec (i + 1) j), (Z.leb_spec i j); simpl; try done; lia.
Qed.

Lemma MARK_FUEL_eq : Z.of_nat MARK_FUEL = 1537.
Proof. apply Z2Nat.id. lia. Qed.
#[global] Opaque MARK_FUEL.

Lemma uefi_descriptor_spec st marked usable type start pages :
  pmm_inv st -> is_u32 start -> is_u32 pages -> 0 <= marked ->
  marked + PMM_POOL_PAGES <= 2 ^ 31 + g_used st ->
  let '(st', marked', _) := uefi_descriptor st marked usable type start pages in
  pmm_inv st' /\ marked' - marked = g_used st' - g_used st /\ g_used st <= g_used st' /\
  forall j, 0 <= j < PMM_POOL_PAGES -> page_used (g_bitmap st') j =
    (desc_reserves type start pages j || page_used (g_bitmap st) j)%bool.
Proof.
  intros Hinv Hs Hp Hm Hmu.
  assert (Hskip : (forall j, desc_reserves type start pages j = false) ->
    pmm_inv st /\ marked - marked = g_used st - g_used st /\ g_used st <= g_used st /\
    forall j, 0 <= j < PMM_POOL_PAGES -> page_used (g_bitmap st) j =
      (desc_reserves type start pages j || page_used (g_bitmap st) j)%bool).
  { intros H. split_and!; auto; try lia. intros j Hj. by rewrite H. }
  unfold uefi_descriptor, PMM_EFI_LOADER_CODE, PMM_EFI_BOOT_DATA. unfold is_u32 in *.
  destruct ((1 <=? type) && (type <=? 4))%bool eqn:Ety.
  { apply Hskip. intros. unfold desc_reserves. by rewrite Ety. }
  assert (Hres : forall j, desc_reserves type start pages j =
    run_covers (Z.max start PMM_POOL_START) (Z.min (start + pages * 4096) PMM_POOL_END) j)
    by (intros; unfold desc_reserves; by rewrite Ety).
  assert (Hempty : Z.min (start + pages * 4096) PMM_POOL_END <= Z.max start PMM_POOL_START ->
    forall j, desc_reserves type start pages j = false)
    by (intros; rewrite Hres; by apply run_covers_empty).
  assert (PMM_POOL_START = 0xA00000) by done. assert (PMM_POOL_END = 0x1000000) by done.
  destruct (Z.eqb_spec pages 0) as [Hp0 | Hp0]; [apply Hskip, Hempty; lia |].
  destruct (Z.leb_spec PMM_POOL_END start); [apply Hskip, Hempty; lia |].
  assert (He : uefi_end start pages <= start + pages * 4096 /\
    Z.min (start + pages * 4096) PMM_POOL_END = Z.min (uefi_end start pages) PMM_POOL_END).
  { unfold uefi_end. destruct (Z.leb_spec 0x100000 pages); [lia |].
    rewrite (u32_small (pages * 4096)) by (unfold is_u32; lia).
    destruct (Z.ltb_spec (start +! pages * 4096) start); ulia. }
  destruct He as [He1 He]. rewrite He in Hres, Hempty. clear He.
  destruct (Z.leb_spec (uefi_end start pages) PMM_POOL_START); [apply Hskip, Hempty; lia |].
  assert (Hse : (if PMM_POOL_START <? start then start else PMM_POOL_START)
    = Z.max start PMM_POOL_START) by (destruct (Z.ltb_spec PMM_POOL_START start); lia).
  assert (Hee : (if uefi_end start pages <? PMM_POOL_END then uefi_end start pages else PMM_POOL_END)
    = Z.min (uefi_end start pages) PMM_POOL_END)
    by (destruct (Z.ltb_spec (uefi_end start pages) PMM_POOL_END); lia).
  cbv zeta. rewrite Hse, Hee.
  pose proof (mark_range_spec MARK_FUEL st (Z.max start PMM_POOL_START)
    (Z.min (uefi_end start pages) PMM_POOL_END) marked Hinv) as Hmr.
  pose proof MARK_FUEL_eq as Hfuel.
  specialize (Hmr ltac:(lia) ltac:(lia) ltac:(lia) Hm Hmu).
  destruct (mark_range _ st _ _ marked) as [st' marked'].
  destruct Hmr as (? & ? & ? & Hpg). split_and!; auto. intros j Hj. rewrite Hres. by apply Hpg.
Qed.

(** The [k]-th descriptor reserves page [j]. *)
Definition map_reserves (mem32 : Z -> Z) (data desc_size : Z) (k : nat) (j : Z) : bool :=
  let d := data + Z.of_nat k * desc_size in
  desc_reserves (mem32 d) (mem32 (d + 8)) (mem32 (d + 24)) j.

Definition map_usable (mem32 : Z -> Z) (data desc_size : Z) (k : nat) : Z :=
  let d := data + Z.of_nat k * desc_size in
  if (1 <=? mem32 d) && (mem32 d <=? 4) then mem32 (d + 24) else 0.

Lemma uefi_descriptor_usable st marked usable type start pages :
  snd (uefi_descriptor st marked usable type start pages) =
  u32 (usable + if (1 <=? type) && (type <=? 4) then pages else 0) \/
  snd (uefi_descriptor st marked usable type start pages) = usable
  /\ ((1 <=? type) && (type <=? 4))%bool = false.
Proof.
  unfold uefi_descriptor, PMM_EFI_LOADER_CODE, PMM_EFI_BOOT_DATA.
  destruct ((1 <=? type) && (type <=? 4))%bool; [by left | right].
  repeat case_match; by simplify_eq/=.
Qed.

(** Sum of [f k] over [k, k+1, ..., k+m-1]. *)
Fixpoint sum_from (f : nat -> Z) (m k : nat) : Z :=
  match m with O => 0 | S m' => f k + sum_from f m' (S k) end.

Lemma uefi_loop_spec fuel : forall mem32 st data desc_size map_size k marked usable cnt,
  (forall a, is_u32 (mem32 a)) -> pmm_inv st -> is_u32 usable ->
  40 <= desc_size < 2 ^ 32 -> PMM_UEFI_DATA <= data -> data + map_size <= PMM_UEFI_END ->
  Z.of_nat cnt = map_size / desc_size -> (k <= cnt)%nat -> (cnt - k < fuel)%nat ->
  0 <= marked <= g_used st ->
  let '(st', marked', usable') := uefi_loop fuel mem32 st data desc_size map_size
    (Z.of_nat k * desc_size) marked usable in
  pmm_inv st' /\ marked' - marked = g_used st' - g_used st /\ 0 <= marked' <= g_used st' /\
  usable' = u32 (usable + sum_from (map_usable mem32 data desc_size) (cnt - k) k) /\
  forall j, 0 <= j < PMM_POOL_PAGES -> page_used (g_bitmap st') j =
    (existsb (fun k => map_reserves mem32 data desc_size k j) (seq k (cnt - k))
     || page_used (g_bitmap st) j)%bool.
Proof.
  unfold PMM_UEFI_DATA, PMM_UEFI_END.
  induction fuel as [| fuel IH];
    intros mem32 st data ds ms k marked usable cnt Hmem Hinv Hus Hds Hd Hdm Hcnt Hk Hf Hmk; [lia |].
  assert (Hq : Z.of_nat cnt * ds <= ms < Z.of_nat cnt * ds + ds)
    by (rewrite Hcnt; pose proof (Z.div_mod ms ds); pose proof (Z.mod_pos_bound ms ds); lia).
  cbn [uefi_loop]. destruct (decide (k = cnt)) as [-> | Hne].
  - assert (Hoff : Z.of_nat cnt * ds < 2 ^ 31) by lia.
    destruct (Z.leb_spec (Z.of_nat cnt * ds +! ds) ms) as [Hle | _].
    { assert (cnt = 0%nat \/ ds <= Z.of_nat cnt * ds) by nia.
      rewrite u32_small in Hle by (unfold is_u32; lia). lia. }
    rewrite Nat.sub_diag. cbn. rewrite Z.add_0_r, u32_small by done. split_and!; auto; lia.
  - assert (Hk1 : (Z.of_nat k + 1) * ds <= Z.of_nat cnt * ds) by (apply Z.mul_le_mono_nonneg_r; lia).
    rewrite (u32_small (Z.of_nat k * ds + ds)) by (unfold is_u32; lia).
    destruct (Z.leb_spec (Z.of_nat k * ds + ds) ms); [| lia]. cbv zeta.
    rewrite (u32_small (data + Z.of_nat k * ds)) by (unfold is_u32; lia).
    set (d := data + Z.of_nat k * ds). assert (Hdr : d + 40 <= 0x6000) by (unfold d; lia).
    rewrite !(u32_small (d + _)) by (unfold is_u32; unfold d; lia).
    pose proof (count_used_range 1536 (g_bitmap st) 0) as Hcr.
    pose proof Hinv as [_ Hu _].
    pose proof (uefi_descriptor_spec st marked usable (mem32 d) (mem32 (d + 8)) (mem32 (d + 24))
      Hinv (Hmem _) (Hmem _) ltac:(lia) ltac:(change PMM_POOL_PAGES with 1536; lia)) as Hdesc.
    pose proof (uefi_descriptor_usable st marked usable (mem32 d) (mem32 (d + 8)) (mem32 (d + 24))) as Hu'.
    destruct (uefi_descriptor _ _ _ _ _ _) as [[st1 marked1] usable1]. cbn [snd] in Hu'.
    destruct Hdesc as (Hinv1 & Hmk1 & Hmono1 & Hpg1).
    assert (Hu1 : usable1 = u32 (usable + map_usable mem32 data ds k)).
    { unfold map_usable. fold d. destruct Hu' as [-> | [-> ->]]; [done |].
      by rewrite Z.add_0_r, u32_small. }
    replace (Z.of_nat k * ds + ds) with (Z.of_nat (S k) * ds) by lia.
    specialize (IH mem32 st1 data ds ms (S k) marked1 usable1 cnt Hmem Hinv1
      ltac:(rewrite Hu1; apply u32_range) Hds Hd Hdm Hcnt ltac:(lia) ltac:(lia) ltac:(lia)).
    destruct (uefi_loop _ _ _ _ _ _ _ _ _) as [[st' marked'] usable'].
    destruct IH as (Hi & Hm' & Hb & Hus' & Hpg). replace (cnt - k)%nat with (S (cnt - S k)) by lia.
    cbn [seq existsb sum_from]. split_and!; auto; try lia.
    + rewrite Hus', Hu1. unfold u32. rewrite Zplus_mod_idemp_l. f_equal. lia.
    + intros j Hj. rewrite Hpg, Hpg1 by done. unfold map_reserves at 2. fold d.
      by rewrite orb_assoc, (orb_comm (existsb _ _)), <- orb_assoc, orb_assoc.
Qed.

(** The handoff block at [0x5010]/[0x5020] is usable. *)
Definition handoff_valid (mem32 : Z -> Z) : bool :=
  (mem32 PMM_UEFI_MAGIC_ADDR =? PMM_UEFI_MAGIC) && negb (mem32 PMM_UEFI_HDR =? 0)
  && (40 <=? mem32 (PMM_UEFI_HDR + 4))
  && (PMM_UEFI_DATA <=? mem32 (PMM_UEFI_HDR + 12)) && (mem32 (PMM_UEFI_HDR + 12) <? PMM_UEFI_END).

(** How many whole descriptors the (clamped) map holds. *)
Definition handoff_count (mem32 : Z -> Z) : nat :=
  Z.to_nat (Z.min (mem32 PMM_UEFI_HDR) (PMM_UEFI_END - mem32 (PMM_UEFI_HDR + 12))
            / mem32 (PMM_UEFI_HDR + 4)).

Lemma pmm_apply_uefi_map_spec mem32 st : pmm_inv st -> (forall a, is_u32 (mem32 a)) ->
  let '(st', marked, usable) := pmm_apply_uefi_map mem32 st in
  pmm_inv st' /\ marked = g_used st' - g_used st /\ 0 <= marked /\
  if handoff_valid mem32 then
    let reserves := map_reserves mem32 (mem32 (PMM_UEFI_HDR + 12)) (mem32 (PMM_UEFI_HDR + 4)) in
    let kb := map_usable mem32 (mem32 (PMM_UEFI_HDR + 12)) (mem32 (PMM_UEFI_HDR + 4)) in
    usable = u32 (4 * sum_from kb (handoff_count mem32) 0) /\
    forall j, 0 <= j < PMM_POOL_PAGES -> page_used (g_bitmap st') j =
      (existsb (fun k => reserves k j) (seq 0 (handoff_count mem32)) || page_used (g_bitmap st) j)%bool
  else st' = st /\ usable = 0.
Proof.
  intros Hinv Hmem. unfold pmm_apply_uefi_map, handoff_valid, handoff_count.
  pose proof Hinv as [_ Hu Hr]. rewrite Hr. cbn [negb].
  assert (Hfalse : pmm_inv st /\ 0 = g_used st - g_used st /\ 0 <= 0 /\ st = st /\ 0 = 0)
    by (split_and!; auto; lia).
  destruct (Z.eqb_spec (mem32 PMM_UEFI_MAGIC_ADDR) PMM_UEFI_MAGIC); cbn [negb andb]; [| exact Hfalse].
  set (ms := mem32 PMM_UEFI_HDR). set (ds := mem32 (PMM_UEFI_HDR + 4)).
  set (data := mem32 (PMM_UEFI_HDR + 12)).
  assert (Hms : is_u32 ms) by apply Hmem. assert (Hds : is_u32 ds) by apply Hmem.
  assert (Hda : is_u32 data) by apply Hmem. unfold is_u32 in Hms, Hds, Hda.
  assert (PMM_UEFI_DATA = 0x5100) by done. assert (HE : PMM_UEFI_END = 0x6000) by done.
  destruct (Z.eqb_spec ms 0); cbn [negb andb orb]; [exact Hfalse |].
  destruct (Z.ltb_spec ds 40), (Z.leb_spec 40 ds); try lia; cbn [negb andb orb]; [exact Hfalse |].
  destruct (Z.leb_spec PMM_UEFI_DATA data), (Z.ltb_spec data PMM_UEFI_DATA),
    (Z.eqb_spec data 0), (Z.leb_spec PMM_UEFI_END data), (Z.ltb_spec data PMM_UEFI_END);
    try lia; cbn [negb andb orb]; try exact Hfalse.
  rewrite (u32_small (PMM_UEFI_END - data)) by (unfold is_u32; lia).
  assert (Hmin : (if PMM_UEFI_END - data <? ms then PMM_UEFI_END - data else ms)
    = Z.min ms (PMM_UEFI_END - data)) by (destruct (Z.ltb_spec (PMM_UEFI_END - data) ms); lia).
  cbv zeta. rewrite Hmin. set (ms' := Z.min ms (PMM_UEFI_END - data)).
  pose proof (count_used_range 1536 (g_bitmap st) 0).
  assert (Hq : 0 <= ms' / ds < 97).
  { split; [apply Z.div_pos; lia |]. apply Z.div_lt_upper_bound; unfold ms'; lia. }
  pose proof (uefi_loop_spec UEFI_FUEL mem32 st data ds ms' 0 0 0 (Z.to_nat (ms' / ds)) Hmem Hinv
    ltac:(unfold is_u32; lia) ltac:(lia) ltac:(lia) ltac:(unfold ms'; lia) ltac:(lia) ltac:(lia)
    ltac:(unfold UEFI_FUEL; lia) ltac:(lia)) as Hl.
  change (Z.of_nat 0 * ds) with 0 in Hl.
  destruct (uefi_loop _ _ _ _ _ _ _ _ _) as [[st' marked'] usable'].
  destruct Hl as (Hi & Hm' & Hb & Hus & Hpg). rewrite Nat.sub_0_r in Hus, Hpg.
  split_and!; auto; try lia. rewrite Hus, Z.add_0_l. unfold u32. rewrite Zmult_mod_idemp_l. f_equal. lia.
Qed.

(** [pmm_apply_uefi_map], for every contents of the handoff area: the
    allocator stays consistent, the returned number is exactly how many pages
    became used, a malformed handoff block changes nothing, and otherwise the
    pages that end up used are those used before together with exactly the
    pool pages covered by some descriptor whose type is not 1..4 (the whole
    map is processed: the walk always terminates within its bound), and the
    reported size is 4 KB times the pages of the type-1..4 descriptors. *)
Theorem pmm_apply_uefi_map_exact (mem32 : Z -> Z) (st : pmm_state)
    (Hinv : pmm_inv st) (Hmem : forall a, is_u32 (mem32 a)) :
  let '(st', marked, usable) := pmm_apply_uefi_map mem32 st in
  pmm_inv st' /\ marked = g_used st' - g_used st /\ 0 <= marked /\
  if handoff_valid mem32 then
    let reserves := map_reserves mem32 (mem32 (PMM_UEFI_HDR + 12)) (mem32 (PMM_UEFI_HDR + 4)) in
    let kb := map_usable mem32 (mem32 (PMM_UEFI_HDR + 12)) (mem32 (PMM_UEFI_HDR + 4)) in
    usable = u32 (4 * sum_from kb (handoff_count mem32) 0) /\
    forall j, 0 <= j < PMM_POOL_PAGES -> page_used (g_bitmap st') j =
      (existsb (fun k => reserves k j) (seq 0 (handoff_count mem32)) || page_used (g_bitmap st) j)%bool
  else st' = st /\ usable = 0.
Proof. by apply pmm_apply_uefi_map_spec. Qed.

(** A map with one descriptor: the whole pool, type [type]. *)
Definition one_descriptor (type a : Z) : Z :=
  if a =? 0x5010 then PMM_UEFI_MAGIC else if a =? 0x5020 then 40 else if a =? 0x5024 then 40
  else if a =? 0x502C then 0x5100 else if a =? 0x5100 then type
  else if a =? 0x5108 then 0xA00000 else if a =? 0x5118 then 1536 else 0.

Lemma one_descriptor_u32 type a : is_u32 type -> is_u32 (one_descriptor type a).
Proof. intros. unfold one_descriptor. repeat case_match; unfold is_u32 in *; try lia; done. Qed.

Lemma pmm_apply_uefi_map_exact_witness :
  let '(st', marked, usable) := pmm_apply_uefi_map (one_descriptor 3) pmm_init in
  pmm_inv st' /\ marked = g_used st' - g_used pmm_init /\ 0 <= marked /\
  if handoff_valid (one_descriptor 3) then
    let reserves := map_reserves (one_descriptor 3) (one_descriptor 3 (PMM_UEFI_HDR + 12))
                      (one_descriptor 3 (PMM_UEFI_HDR + 4)) in
    let kb := map_usable (one_descriptor 3) (one_descriptor 3 (PMM_UEFI_HDR + 12))
                (one_descriptor 3 (PMM_UEFI_HDR + 4)) in
    usable = u32 (4 * sum_from kb (handoff_count (one_descriptor 3)) 0) /\
    forall j, 0 <= j < PMM_POOL_PAGES -> page_used (g_bitmap st') j =
      (existsb (fun k => reserves k j) (seq 0 (handoff_count (one_descriptor 3)))
       || page_used (g_bitmap pmm_init) j)%bool
  else st' = pmm_init /\ usable = 0.
Proof.
  apply (pmm_apply_uefi_map_exact (one_descriptor 3) pmm_init pmm_init_inv).
  intros a. apply one_descriptor_u32. unfold is_u32. lia.
Defined.

(** A descriptor of free memory (EfiConventionalMemory, type 7) over the pool
    takes every page of it away from the allocator, although the interface
    comment lists type 7 among the reusable types; nothing is reported as
    usable. *)
Lemma conventional_memory_reserved :
  let '(st', marked, usable) := pmm_apply_uefi_map (one_descriptor PMM_EFI_CONV) pmm_init in
  marked = PMM_POOL_PAGES /\ usable = 0 /\ pmm_free_count st' = 0 /\ snd (pmm_alloc_page st') = 0.
Proof. vm_compute. auto. Qed.
