(* ===== verification/Paging.v ===== *)
(** * Paging: two-level page tables ([kernel/paging.c])

    The page directory and the page tables are words of physical memory; under
    the identity mapping a physical address can be dereferenced directly, so
    the walk reads the memory map at [base + 4 * index].  CR0, CR3 and the TLB
    are part of the state: the TLB is a map from page numbers to the cached
    page table entry, which the hardware fills at will ([tlb_fill]), which
    [invlpg] empties for one page and a write to CR3 empties altogether.
    The self test and its number printing are not modelled. *)

From S2P Require Import Prelude.

Definition PAGE_SIZE : Z := 4096.
Definition PTE_P : Z := 0x001.
Definition PTE_RW : Z := 0x002.
Definition PTE_US : Z := 0x004.
Definition PTE_PWT : Z := 0x008.
Definition PTE_PCD : Z := 0x010.
Definition PAGING_PD_ADDR : Z := 0x00200000.
Definition PAGING_PT_BASE : Z := 0x00201000.
Definition PAGING_PT_MAX : Z := 16.
Definition PAGING_IDENTITY_END : Z := 0x02000000.
Definition PAGING_LFB_WINDOW : Z := 0x00800000.
Definition PAGING_KRN_FLAGS : Z := PTE_RW.
Definition PAGING_USR_FLAGS : Z := PTE_RW |! PTE_US.
Definition PAGING_MMIO_FLAGS : Z := PTE_RW |! PTE_PCD |! PTE_PWT.

(** The static variables of the module and the machine state it drives. *)
Record pg_state := mk_pg {
  pmem : gmap Z Z;
  cr0 : Z;
  cr3 : Z;
  tlb : gmap Z Z;
  g_pt_used : Z;
  g_mapped : Z;
  g_ready : bool;
}.

(** ** Hardware primitives *)

Definition set_pmem (st : pg_state) (m : gmap Z Z) : pg_state :=
  mk_pg m (cr0 st) (cr3 st) (tlb st) (g_pt_used st) (g_mapped st) (g_ready st).
Definition set_g_mapped (st : pg_state) (n : Z) : pg_state :=
  mk_pg (pmem st) (cr0 st) (cr3 st) (tlb st) (g_pt_used st) n (g_ready st).
Definition write_cr0 (st : pg_state) (v : Z) : pg_state :=
  mk_pg (pmem st) v (cr3 st) (tlb st) (g_pt_used st) (g_mapped st) (g_ready st).
Definition write_cr3 (st : pg_state) (v : Z) : pg_state :=
  mk_pg (pmem st) (cr0 st) v ∅ (g_pt_used st) (g_mapped st) (g_ready st).
Definition invlpg (st : pg_state) (virt : Z) : pg_state :=
  mk_pg (pmem st) (cr0 st) (cr3 st) (delete (Z.shiftr virt 12) (tlb st))
    (g_pt_used st) (g_mapped st) (g_ready st).

(** ** The page table pool *)

(** [pd_active]: the directory CR3 names, or the fixed one before CR3 is loaded. *)
Definition pd_active (st : pg_state) : Z :=
  if negb (g_ready st) then PAGING_PD_ADDR else cr3 st &! 0xFFFFF000.

Fixpoint zero_words (k : nat) (m : gmap Z Z) (a : Z) : gmap Z Z :=
  match k with O => m | S k' => zero_words k' (mem_wr m a 0) (a + 4) end.

Definition PT_WORDS : nat := Z.to_nat 1024.

(** [pt_for]: the table of [virt]; [None] is NULL. *)
Definition pt_for (st : pg_state) (virt : Z) (create : bool) : pg_state * option Z :=
  let pdi := Z.shiftr virt 22 in
  let pd := pd_active st in
  let pde := mem_rd (pmem st) (pd + 4 * pdi) in
  if negb (pde &! PTE_P =? 0) then (st, Some (pde &! 0xFFFFF000))
  else if negb create then (st, None)
  else if PAGING_PT_MAX <=? g_pt_used st then (st, None)
  else if negb (pd =? PAGING_PD_ADDR) then (st, None)
  else
    let pt := PAGING_PT_BASE +! g_pt_used st *! PAGE_SIZE in
    let m := zero_words PT_WORDS (pmem st) pt in
    let m := mem_wr m (pd + 4 * pdi) (pt |! PTE_P |! PTE_RW) in
    (mk_pg m (cr0 st) (cr3 st) (tlb st) (g_pt_used st +! 1) (g_mapped st) (g_ready st), Some pt).

(** ** Operations *)

Definition paging_map (st : pg_state) (virt phys flags : Z) : pg_state * Z :=
  if negb (virt &! 0xFFF =? 0) || negb (phys &! 0xFFF =? 0) then (st, -1)
  else
    match pt_for st virt true with
    | (st, None) => (st, -1)
    | (st, Some pt) =>
        let pti := Z.shiftr virt 12 &! 0x3FF in
        let st := if mem_rd (pmem st) (pt + 4 * pti) &! PTE_P =? 0
                  then set_g_mapped st (g_mapped st +! 1) else st in
        let st := set_pmem st (mem_wr (pmem st) (pt + 4 * pti)
                    ((phys &! 0xFFFFF000) |! (flags &! 0xFFF) |! PTE_P)) in
        let pde := pd_active st + 4 * Z.shiftr virt 22 in
        let st := if negb (flags &! PTE_US =? 0)
                  then set_pmem st (mem_wr (pmem st) pde (mem_rd (pmem st) pde |! (PTE_US |! PTE_RW)))
                  else st in
        (invlpg st virt, 0)
    end.

Definition paging_unmap (st : pg_state) (virt : Z) : pg_state :=
  match pt_for st virt false with
  | (st, None) => st
  | (st, Some pt) =>
      let pti := Z.shiftr virt 12 &! 0x3FF in
      let st := if negb (mem_rd (pmem st) (pt + 4 * pti) &! PTE_P =? 0)
                then set_g_mapped st (g_mapped st -! 1) else st in
      invlpg (set_pmem st (mem_wr (pmem st) (pt + 4 * pti) 0)) virt
  end.

(** [paging_query]: [Some (phys, flags)], or [None] for -1. *)
Definition paging_query (st : pg_state) (virt : Z) : option (Z * Z) :=
  match snd (pt_for st virt false) with
  | None => None
  | Some pt =>
      let pte := mem_rd (pmem st) (pt + 4 * (Z.shiftr virt 12 &! 0x3FF)) in
      if pte &! PTE_P =? 0 then None else Some (pte &! 0xFFFFF000, pte &! 0xFFF)
  end.

Definition paging_enabled (st : pg_state) : bool := negb (cr0 st &! 0x80000000 =? 0).
Definition paging_cr3 (st : pg_state) : Z := cr3 st &! 0xFFFFF000.
Definition paging_switch_cr3 (st : pg_state) (pd_phys : Z) : pg_state :=
  write_cr3 st (pd_phys &! 0xFFFFF000).
Definition paging_mapped_pages (st : pg_state) : Z := g_mapped st.
Definition paging_used_tables (st : pg_state) : Z := g_pt_used st.

(** ** Initialisation *)

(** The mapping loops: [n] pages from [v], each onto itself; 0 or -1. *)
Fixpoint map_range (n : nat) (st : pg_state) (v flags : Z) : pg_state * Z :=
  match n with
  | O => (st, 0)
  | S n' =>
      let '(st, rc) := paging_map st v v flags in
      if negb (rc =? 0) then (st, -1) else map_range n' st (v +! PAGE_SIZE) flags
  end.

(** [for (v = 0; v < end; v += PAGE_SIZE)] runs [ceil (end / 4096)] times. *)
Definition identity_map (st : pg_state) (end_ : Z) : pg_state * Z :=
  map_range (Z.to_nat ((end_ + PAGE_SIZE - 1) / PAGE_SIZE)) st 0 PAGING_KRN_FLAGS.

(** The boot information block at 0x5000: LFB address, width, height, depth. *)
Definition map_lfb (st : pg_state) (lfb vxr vyr vbpp : Z) : pg_state * Z :=
  if (lfb <? 0x00100000) || (0xFFF00000 <=? lfb) then (st, -1)
  else if (vxr <? 320) || (vyr <? 200) || (negb (vbpp =? 16) && negb (vbpp =? 32)) then (st, -1)
  else
    let need := vxr *! vyr *! (vbpp / 8) in
    let need := (need +! PAGE_SIZE -! 1) &! ~! (PAGE_SIZE - 1) in
    let need := if need <? PAGING_LFB_WINDOW then PAGING_LFB_WINDOW else need in
    let base := lfb &! 0xFFFFF000 in
    map_range (Z.to_nat ((need + PAGE_SIZE - 1) / PAGE_SIZE)) st base PAGING_MMIO_FLAGS.

Definition paging_init (st : pg_state) (lfb vxr vyr vbpp : Z) : pg_state * Z :=
  if g_ready st then (st, 0)
  else
    let m := mem_wr (pmem st) PAGING_PD_ADDR 0xA5A5A5A5 in
    let m := mem_wr m (PAGING_PD_ADDR + 4 * 1023) 0x5A5A5A5A in
    if negb (mem_rd m PAGING_PD_ADDR =? 0xA5A5A5A5)
       || negb (mem_rd m (PAGING_PD_ADDR + 4 * 1023) =? 0x5A5A5A5A)
    then (set_pmem st m, -1)
    else
      let m := zero_words PT_WORDS m PAGING_PD_ADDR in
      let st := mk_pg m (cr0 st) (cr3 st) (tlb st) 0 0 (g_ready st) in
      match identity_map st PAGING_IDENTITY_END with
      | (st, rc) =>
          if negb (rc =? 0) then (st, -1)
          else
            let st := fst (map_lfb st lfb vxr vyr vbpp) in
            let st := write_cr3 st PAGING_PD_ADDR in
            let st := write_cr0 st (cr0 st |! 0x80000000) in
            (mk_pg (pmem st) (cr0 st) (cr3 st) (tlb st) (g_pt_used st) (g_mapped st) true, 0)
      end.

(** The hardware caches the entry of a page it has translated. *)
Definition tlb_fill (st : pg_state) (virt : Z) : pg_state :=
  match snd (pt_for st virt false) with
  | None => st
  | Some pt =>
      let pte := mem_rd (pmem st) (pt + 4 * (Z.shiftr virt 12 &! 0x3FF)) in
      if pte &! PTE_P =? 0 then st
      else mk_pg (pmem st) (cr0 st) (cr3 st) (<[Z.shiftr virt 12 := pte]> (tlb st))
             (g_pt_used st) (g_mapped st) (g_ready st)
  end.

(** ** Abstraction: the function from page numbers to entries *)

Definition table_of (m : gmap Z Z) (pd i : Z) : option Z :=
  let pde := mem_rd m (pd + 4 * i) in
  if pde &! PTE_P =? 0 then None else Some (pde &! 0xFFFFF000).

Definition entry_of (m : gmap Z Z) (pt i : Z) : option Z :=
  let pte := mem_rd m (pt + 4 * i) in
  if pte &! PTE_P =? 0 then None else Some pte.

(** The entry the hardware walk finds for page number [pg]. *)
Definition walk (m : gmap Z Z) (pd pg : Z) : option Z :=
  match table_of m pd (pg / 1024) with
  | None => None
  | Some pt => entry_of m pt (pg mod 1024)
  end.

Definition is_page (pg : Z) : Prop := 0 <= pg < 2 ^ 20.

(** Directory and tables are disjoint pages. *)
Record dir_wf (m : gmap Z Z) (pd : Z) : Prop := {
  dw_pd : is_u32 pd /\ pd mod 4096 = 0;
  dw_pd_ne : forall i t, 0 <= i < 1024 -> table_of m pd i = Some t -> t <> pd;
  dw_inj : forall i j t, 0 <= i < 1024 -> 0 <= j < 1024 ->
    table_of m pd i = Some t -> table_of m pd j = Some t -> i = j;
}.

Lemma base_mask x : 0 <= x &! 0xFFFFF000 < 2 ^ 32 /\ (x &! 0xFFFFF000) mod 4096 = 0.
Proof.
  assert (E : x &! 0xFFFFF000 = u32 x &! 0xFFFFF000).
  { apply Z.bits_inj'. intros n Hn. rewrite !Z.land_spec. unfold u32.
    destruct (Z.ltb_spec n 32).
    - by rewrite Z.mod_pow2_bits_low by lia.
    - replace (Z.testbit 0xFFFFF000 n) with false; [by rewrite !andb_false_r |].
      symmetry. change 0xFFFFF000 with (0xFFFFF000 mod 2 ^ 32). apply Z.mod_pow2_bits_high. lia. }
  rewrite E. pose proof (u32_range x). rewrite land_fffff000 by done. unfold is_u32 in *.
  pose proof (Z.mod_pos_bound (u32 x) 4096 ltac:(lia)).
  pose proof (Z.mod_le (u32 x) 4096 ltac:(lia) ltac:(lia)). split; [lia |].
  rewrite Zminus_mod_idemp_r, Z.sub_diag. done.
Qed.

Lemma table_of_base m pd i t : table_of m pd i = Some t -> 0 <= t < 2 ^ 32 /\ t mod 4096 = 0.
Proof.
  unfold table_of. destruct (_ =? 0); [done |]. intros [= <-]. apply base_mask.
Qed.

(** Entries of distinct page-aligned tables are distinct words. *)
Lemma entry_addr_ne t t' i j : t mod 4096 = 0 -> t' mod 4096 = 0 ->
  0 <= i < 1024 -> 0 <= j < 1024 -> t <> t' \/ i <> j -> t + 4 * i <> t' + 4 * j.
Proof. intros. Z.to_euclidean_division_equations. lia. Qed.

Lemma pg_split pg : is_page pg ->
  0 <= pg / 1024 < 1024 /\ 0 <= pg mod 1024 < 1024.
Proof. unfold is_page. change (2 ^ 20) with 1048576. intros. Z.to_euclidean_division_equations. lia. Qed.

Lemma pg_ne pg q : pg <> q -> pg / 1024 <> q / 1024 \/ pg mod 1024 <> q mod 1024.
Proof. intros. Z.to_euclidean_division_equations. lia. Qed.

(** *** The three kinds of write *)

(** Two memories with the same directory words. *)
Lemma table_of_ext m m' pd i : mem_rd m' (pd + 4 * i) = mem_rd m (pd + 4 * i) ->
  table_of m' pd i = table_of m pd i.
Proof. unfold table_of. by intros ->. Qed.

Lemma dir_wf_ext m m' pd :
  (forall i, 0 <= i < 1024 -> table_of m' pd i = table_of m pd i) -> dir_wf m pd -> dir_wf m' pd.
Proof.
  intros H [H1 H2 H3]. constructor; [done | |].
  - intros i t Hi. rewrite H by done. by apply H2.
  - intros i j t Hi Hj. rewrite !H by done. by apply H3.
Qed.

Lemma write_pte m pd pg t v : dir_wf m pd -> is_page pg -> table_of m pd (pg / 1024) = Some t ->
  let m' := mem_wr m (t + 4 * (pg mod 1024)) v in
  dir_wf m' pd /\ (forall i, 0 <= i < 1024 -> mem_rd m' (pd + 4 * i) = mem_rd m (pd + 4 * i)) /\
  walk m' pd pg = (if v &! PTE_P =? 0 then None else Some v) /\
  forall q, is_page q -> q <> pg -> walk m' pd q = walk m pd q.
Proof.
  intros Hw Hpg Ht m'. pose proof (pg_split pg Hpg) as [Hd Hm].
  pose proof (table_of_base _ _ _ _ Ht) as [_ Hta]. pose proof Hw as [[_ Hpd] Hne Hinj].
  assert (Hraw : forall i, 0 <= i < 1024 -> mem_rd m' (pd + 4 * i) = mem_rd m (pd + 4 * i)).
  { intros i Hi. apply mem_rd_wr_ne, entry_addr_ne; auto. left. by apply (Hne (pg / 1024)). }
  assert (Htab : forall i, 0 <= i < 1024 -> table_of m' pd i = table_of m pd i)
    by (intros i Hi; by apply table_of_ext, Hraw).
  split; [by eapply dir_wf_ext |]. split; [done |]. split.
  - unfold walk. rewrite Htab, Ht by done. unfold entry_of, m'. by rewrite mem_rd_wr_eq.
  - intros q Hq Hqne. unfold walk. pose proof (pg_split q Hq) as [Hd' Hm']. rewrite Htab by done.
    destruct (table_of m pd (q / 1024)) as [t' |] eqn:Et'; [| done].
    pose proof (table_of_base _ _ _ _ Et') as [_ Hta']. unfold entry_of, m'.
    rewrite mem_rd_wr_ne; [done |]. apply entry_addr_ne; auto.
    destruct (Z.eq_dec t t') as [<- |]; [right | by left].
    assert (pg / 1024 = q / 1024) by (eapply Hinj; eauto). destruct (pg_ne pg q); congruence.
Qed.

(** Setting US and RW in a directory entry changes no translation. *)
Lemma lor_us_rw_base x : (x |! (PTE_US |! PTE_RW)) &! 0xFFFFF000 = x &! 0xFFFFF000.
Proof. rewrite Z.land_lor_distr_l. change ((PTE_US |! PTE_RW) &! 0xFFFFF000) with 0. apply Z.lor_0_r. Qed.

Lemma lor_us_rw_p x : (x |! (PTE_US |! PTE_RW)) &! PTE_P = x &! PTE_P.
Proof. rewrite Z.land_lor_distr_l. change ((PTE_US |! PTE_RW) &! PTE_P) with 0. apply Z.lor_0_r. Qed.

Lemma write_pde_us m pd i : dir_wf m pd -> 0 <= i < 1024 ->
  let m' := mem_wr m (pd + 4 * i) (mem_rd m (pd + 4 * i) |! (PTE_US |! PTE_RW)) in
  dir_wf m' pd /\ (forall j, 0 <= j < 1024 -> table_of m' pd j = table_of m pd j) /\
  (forall j, 0 <= j < 1024 -> mem_rd m' (pd + 4 * j) =
     if j =? i then mem_rd m (pd + 4 * i) |! (PTE_US |! PTE_RW) else mem_rd m (pd + 4 * j)) /\
  forall q, is_page q -> walk m' pd q = walk m pd q.
Proof.
  intros Hw Hi m'. pose proof Hw as [[_ Hpd] Hne Hinj].
  assert (Htab : forall j, 0 <= j < 1024 -> table_of m' pd j = table_of m pd j).
  { intros j Hj. unfold table_of, m'. destruct (Z.eq_dec i j) as [<- |].
    - by rewrite mem_rd_wr_eq, lor_us_rw_p, lor_us_rw_base.
    - rewrite mem_rd_wr_ne by lia. done. }
  split; [by eapply dir_wf_ext |]. split; [done |]. split.
  { intros j Hj. unfold m'. destruct (Z.eqb_spec j i) as [-> |]; [apply mem_rd_wr_eq |].
    by rewrite mem_rd_wr_ne by lia. }
  intros q Hq.
  pose proof (pg_split q Hq) as [Hd' Hm']. unfold walk. rewrite Htab by done.
  destruct (table_of m pd (q / 1024)) as [t' |] eqn:Et'; [| done].
  pose proof (table_of_base _ _ _ _ Et') as [_ Hta']. unfold entry_of, m'.
  rewrite mem_rd_wr_ne; [done |]. apply entry_addr_ne; auto. left. intros <-.
  by apply (Hne _ _ Hd' Et').
Qed.

Lemma zero_words_out k : forall m a x, (forall i, 0 <= i < Z.of_nat k -> x <> a + 4 * i) ->
  mem_rd (zero_words k m a) x = mem_rd m x.
Proof.
  induction k as [| k IH]; intros m a x H; [done |]. cbn [zero_words].
  rewrite IH.
  - apply mem_rd_wr_ne. specialize (H 0). lia.
  - intros i Hi. specialize (H (i + 1)). lia.
Qed.

Lemma zero_words_in k : forall m a i, 0 <= i < Z.of_nat k -> mem_rd (zero_words k m a) (a + 4 * i) = 0.
Proof.
  induction k as [| k IH]; intros m a i H; [lia |]. cbn [zero_words].
  destruct (Z.eq_dec i 0) as [-> |].
  - rewrite zero_words_out by lia. rewrite Z.mul_0_r, Z.add_0_r. apply mem_rd_wr_eq.
  - replace (a + 4 * i) with (a + 4 + 4 * (i - 1)) by lia. apply IH. lia.
Qed.

Lemma PT_WORDS_eq : Z.of_nat PT_WORDS = 1024.
Proof. apply Z2Nat.id. lia. Qed.
#[global] Opaque PT_WORDS.

(** A fresh, zeroed table entered in an empty directory slot maps nothing. *)
Lemma write_new_table m pd i t : dir_wf m pd -> 0 <= i < 1024 -> table_of m pd i = None ->
  is_u32 t -> t mod 4096 = 0 -> t <> pd ->
  (forall j t', 0 <= j < 1024 -> table_of m pd j = Some t' -> t' <> t) ->
  let m' := mem_wr (zero_words PT_WORDS m t) (pd + 4 * i) (t |! PTE_P |! PTE_RW) in
  dir_wf m' pd /\ table_of m' pd i = Some t /\
  (forall j, 0 <= j < 1024 -> j <> i -> mem_rd m' (pd + 4 * j) = mem_rd m (pd + 4 * j)) /\
  forall q, is_page q -> walk m' pd q = walk m pd q.
Proof.
  intros Hw Hi Hnone Ht Hta Htpd Hfresh m'. pose proof Hw as [[Hpu Hpd] Hne Hinj].
  assert (Hrd : mem_rd m' (pd + 4 * i) = t + 3).
  { unfold m'. rewrite mem_rd_wr_eq, <- Z.lor_assoc.
    apply (lor_low_add t 3 12); [lia | exact Hta | lia]. }
  assert (Hne' : forall b b' k k', b mod 4096 = 0 -> b' mod 4096 = 0 -> 0 <= k < 1024 ->
    0 <= k' < 1024 -> b <> b' \/ k <> k' -> b + 4 * k <> b' + 4 * k') by (intros; by apply entry_addr_ne).
  assert (Hzero : forall k, 0 <= k < 1024 -> mem_rd m' (t + 4 * k) = 0).
  { intros k Hk. unfold m'. rewrite mem_rd_wr_ne by (apply Hne'; [exact Hpd | exact Hta | exact Hi | exact Hk |
      left; exact (not_eq_sym Htpd)]).
    apply zero_words_in. rewrite PT_WORDS_eq. exact Hk. }
  assert (Hsame : forall b k, b mod 4096 = 0 -> b <> t -> 0 <= k < 1024 -> b <> pd \/ k <> i ->
    mem_rd m' (b + 4 * k) = mem_rd m (b + 4 * k)).
  { intros b k Hb Hbt Hk Hbk. unfold m'. rewrite mem_rd_wr_ne.
    - apply zero_words_out. rewrite PT_WORDS_eq. intros k' Hk'.
      apply Hne'; [exact Hb | exact Hta | exact Hk | exact Hk' | by left].
    - apply Hne'; [exact Hpd | exact Hb | exact Hi | exact Hk |].
      destruct Hbk; [left | right]; congruence. }
  clearbody m'. clear Hne'.
  assert (Hi' : table_of m' pd i = Some t).
  { unfold table_of. rewrite Hrd. unfold PTE_P. rewrite land_1.
    assert (Hu3 : is_u32 (t + 3)) by ulia. rewrite land_fffff000 by exact Hu3.
    replace ((t + 3) mod 2) with 1 by ulia. simpl. f_equal. ulia. }
  assert (Hj' : forall j, 0 <= j < 1024 -> j <> i -> table_of m' pd j = table_of m pd j).
  { intros j Hj Hji. apply table_of_ext, Hsame; auto. }
  split; [constructor; [done | |] | split; [done |]; split; [intros j Hj Hji; by apply Hsame; auto |]].
  - intros j t' Hj. destruct (Z.eq_dec j i) as [-> |]; [rewrite Hi'; congruence |].
    rewrite Hj' by done. by apply Hne.
  - intros j k t' Hj Hk. destruct (Z.eq_dec j i) as [-> | Hji], (Z.eq_dec k i) as [-> | Hki]; [done | ..].
    + rewrite Hi', Hj' by done. intros [= <-] H. by apply Hfresh in H.
    + rewrite Hi', Hj' by done. intros H [= <-]. by apply Hfresh in H.
    + rewrite !Hj' by done. by apply Hinj.
  - intros q Hq. pose proof (pg_split q Hq) as [Hd' Hm']. unfold walk.
    destruct (Z.eq_dec (q / 1024) i) as [-> |].
    + rewrite Hi', Hnone. unfold entry_of. by rewrite Hzero.
    + rewrite Hj' by done. destruct (table_of m pd (q / 1024)) as [t' |] eqn:Et'; [| done].
      pose proof (table_of_base _ _ _ _ Et') as [_ Hta']. unfold entry_of.
      rewrite Hsame; [done | done | by eapply (Hfresh (q / 1024)) | done |].
      left. by eapply (Hne (q / 1024)).
Qed.

(** ** The state invariant *)

(** No entry grants user access that the directory entry denies. *)
Definition us_ok (m : gmap Z Z) (pd : Z) : Prop :=
  forall pg pte, is_page pg -> walk m pd pg = Some pte -> pte &! PTE_US <> 0 ->
    mem_rd m (pd + 4 * (pg / 1024)) &! PTE_US <> 0.

Record pg_inv (st : pg_state) : Prop := {
  gi_dir : dir_wf (pmem st) (pd_active st);
  gi_us : us_ok (pmem st) (pd_active st);
  gi_used : 0 <= g_pt_used st <= PAGING_PT_MAX;
  gi_pool : pd_active st = PAGING_PD_ADDR -> forall i t, 0 <= i < 1024 ->
    table_of (pmem st) (pd_active st) i = Some t ->
    exists k, 0 <= k < g_pt_used st /\ t = PAGING_PT_BASE + k * 4096;
  gi_tlb : forall pg pte, is_page pg -> tlb st !! pg = Some pte ->
    walk (pmem st) (pd_active st) pg = Some pte;
}.

(** The page tables, as the code reads them. *)
Definition view (st : pg_state) (pg : Z) : option Z := walk (pmem st) (pd_active st) pg.

(** Registers unchanged, so the same directory is active. *)
Definition same_regs (st st' : pg_state) : Prop :=
  cr0 st' = cr0 st /\ cr3 st' = cr3 st /\ g_ready st' = g_ready st.

Lemma same_regs_pd st st' : same_regs st st' -> pd_active st' = pd_active st.
Proof. intros (_ & H2 & H3). unfold pd_active. by rewrite H2, H3. Qed.

Lemma virt_split virt : is_u32 virt ->
  Z.shiftr virt 22 = virt / 4096 / 1024 /\ Z.shiftr virt 12 &! 0x3FF = (virt / 4096) mod 1024 /\
  Z.shiftr virt 12 = virt / 4096 /\ is_page (virt / 4096) /\ 0 <= Z.shiftr virt 22 < 1024.
Proof.
  intros Hv. unfold is_page, is_u32 in *. rewrite !Z.shiftr_div_pow2 by lia.
  change 0x3FF with (2 ^ 10 - 1). rewrite land_low_mask by lia.
  change (2 ^ 22) with 4194304. change (2 ^ 12) with 4096. change (2 ^ 10) with 1024.
  change (2 ^ 20) with 1048576. rewrite Z.div_div by lia. split_and!; try done; ulia.
Qed.

Lemma pt_for_spec st virt create : pg_inv st -> is_u32 virt ->
  match pt_for st virt create with
  | (st', Some t) => pg_inv st' /\ same_regs st st' /\ tlb st' = tlb st /\ g_mapped st' = g_mapped st
      /\ table_of (pmem st') (pd_active st') (virt / 4096 / 1024) = Some t
      /\ (forall q, is_page q -> view st' q = view st q)
      /\ g_pt_used st <= g_pt_used st' <= g_pt_used st + 1
      /\ (table_of (pmem st) (pd_active st) (virt / 4096 / 1024) <> None -> st' = st)
      /\ (table_of (pmem st) (pd_active st) (virt / 4096 / 1024) = None -> g_pt_used st' = g_pt_used st + 1)
      /\ (forall i, 0 <= i < 1024 ->
           i <> virt / 4096 / 1024 \/ table_of (pmem st) (pd_active st) i <> None ->
           table_of (pmem st') (pd_active st') i = table_of (pmem st) (pd_active st) i)
  | (st', None) => st' = st /\ table_of (pmem st) (pd_active st) (virt / 4096 / 1024) = None
      /\ (create = true -> PAGING_PT_MAX <= g_pt_used st \/ pd_active st <> PAGING_PD_ADDR)
  end.
Proof.
  intros Hinv Hv. destruct (virt_split virt Hv) as (E22 & _ & _ & Hpg & Hpdi). unfold pt_for.
  pose proof Hinv as [Hdir Hus Hused Hpool Htlb]. rewrite E22 in *. set (i := virt / 4096 / 1024) in *.
  cbv zeta. destruct (Z.eqb_spec (mem_rd (pmem st) (pd_active st + 4 * i) &! PTE_P) 0) as [Hp | Hp]; cbn [negb].
  2:{ split_and!; try done; try lia; unfold table_of;
        by destruct (Z.eqb_spec (mem_rd (pmem st) (pd_active st + 4 * i) &! PTE_P) 0). }
  assert (Hnone : table_of (pmem st) (pd_active st) i = None) by (unfold table_of; by rewrite Hp).
  destruct create; cbn [negb]; [| done].
  destruct (Z.leb_spec PAGING_PT_MAX (g_pt_used st)); [by auto |].
  destruct (Z.eqb_spec (pd_active st) PAGING_PD_ADDR) as [Epd | Hne]; cbn [negb]; [| by auto].
  unfold PAGING_PT_BASE, PAGING_PT_MAX, PAGE_SIZE in *. ured.
  set (t := 0x201000 + g_pt_used st * 4096) in *.
  destruct (write_new_table (pmem st) (pd_active st) i t) as (Hdir' & Hi' & Hraw & Hwalk); auto.
  { unfold t, is_u32; lia. }
  { unfold t. ulia. }
  { rewrite Epd. unfold t, PAGING_PD_ADDR. lia. }
  { intros j t' Hj Ht'. destruct (Hpool Epd j t' Hj Ht') as (k & Hk & ->). unfold t. lia. }
  set (m' := mem_wr _ _ _) in *. clearbody m'.
  set (st' := mk_pg _ _ _ _ _ _ _). assert (Hpd : pd_active st' = pd_active st) by done.
  assert (Hview : forall q, is_page q -> view st' q = view st q) by (intros q Hq; by apply Hwalk).
  split_and!; try done; try (cbn [st' g_pt_used]; lia).
  2:{ intros j Hj Hj'. rewrite Hpd. apply table_of_ext, Hraw; [done |]. intros ->.
      destruct Hj'; [done |]. by rewrite Hnone in *. }
  constructor.
  - exact Hdir'.
  - intros pg pte Hq Hw Hu. rewrite Hpd in *. pose proof (pg_split pg Hq) as [Hd _].
    change (view st' pg = Some pte) in Hw. rewrite Hview in Hw by done.
    destruct (Z.eq_dec (pg / 1024) i) as [Ei |].
    + exfalso. unfold view, walk in Hw. by rewrite Ei, Hnone in Hw.
    + cbn [st' pmem]. rewrite Hraw by done. by eapply Hus.
  - cbn [st' g_pt_used]. unfold PAGING_PT_MAX. lia.
  - intros _ j t' Hj. cbn [st' pmem g_pt_used]. rewrite Hpd. destruct (Z.eq_dec j i) as [-> |].
    + rewrite Hi'. intros [= <-]. exists (g_pt_used st). split; [lia | done].
    + rewrite (table_of_ext (pmem st)) by (by apply Hraw). intros Ht'.
      destruct (Hpool Epd j t' Hj Ht') as (k & Hk & ->). exists k. split; [lia | done].
  - intros pg pte Hq Ht. change (view st' pg = Some pte). rewrite Hview by done. by apply Htlb.
Qed.

(** ** Operations against the invariant *)

Definition pte_val (phys flags : Z) : Z := (phys &! 0xFFFFF000) |! (flags &! 0xFFF) |! PTE_P.

Lemma pte_val_mask phys flags m : pte_val phys flags &! m =
  (phys &! (0xFFFFF000 &! m)) |! (flags &! (0xFFF &! m)) |! (PTE_P &! m).
Proof. unfold pte_val. by rewrite !Z.land_lor_distr_l, !Z.land_assoc. Qed.

Lemma pte_val_p phys flags : pte_val phys flags &! PTE_P <> 0.
Proof.
  rewrite pte_val_mask. change (PTE_P &! PTE_P) with 1. intros H. apply Z.lor_eq_0_iff in H as [_ H]. done.
Qed.

Lemma pte_val_base phys flags : pte_val phys flags &! 0xFFFFF000 = phys &! 0xFFFFF000.
Proof.
  rewrite pte_val_mask. change (0xFFFFF000 &! 0xFFFFF000) with 0xFFFFF000.
  change (0xFFF &! 0xFFFFF000) with 0. change (PTE_P &! 0xFFFFF000) with 0.
  by rewrite Z.land_0_r, !Z.lor_0_r.
Qed.

Lemma pte_val_flags phys flags : pte_val phys flags &! 0xFFF = (flags &! 0xFFF) |! PTE_P.
Proof.
  rewrite pte_val_mask. change (0xFFFFF000 &! 0xFFF) with 0. by rewrite Z.land_0_r, Z.lor_0_l.
Qed.

Lemma pte_val_us phys flags : pte_val phys flags &! PTE_US = flags &! PTE_US.
Proof.
  rewrite pte_val_mask. change (0xFFFFF000 &! PTE_US) with 0. change (PTE_P &! PTE_US) with 0.
  by rewrite Z.land_0_r, Z.lor_0_l, Z.lor_0_r.
Qed.

Lemma lor_us_us x : (x |! (PTE_US |! PTE_RW)) &! PTE_US <> 0.
Proof.
  rewrite Z.land_lor_distr_l. change ((PTE_US |! PTE_RW) &! PTE_US) with 4.
  intros H. apply Z.lor_eq_0_iff in H as [_ H]. done.
Qed.

(** A memory update that keeps the directory's tables and all translations but
    that of [pg], and whose TLB forgets [pg], keeps the invariant. *)
Lemma pg_inv_update st m' used pg :
  pg_inv st -> dir_wf m' (pd_active st) ->
  (forall i, 0 <= i < 1024 -> table_of m' (pd_active st) i = table_of (pmem st) (pd_active st) i) ->
  (forall q, is_page q -> q <> pg -> walk m' (pd_active st) q = view st q) ->
  us_ok m' (pd_active st) ->
  pg_inv (mk_pg m' (cr0 st) (cr3 st) (delete pg (tlb st)) (g_pt_used st) used (g_ready st)).
Proof.
  intros [Hdir Hus Hused Hpool Htlb] Hdir' Htab Hwalk Hus'.
  constructor; cbn [pmem g_pt_used tlb]; try done.
  - intros E i t Hi Ht. apply (Hpool E i t Hi). rewrite <- Htab by done. exact Ht.
  - intros q pte Hq Ht. apply lookup_delete_Some in Ht as [Hne Ht].
    change (walk m' (pd_active st) q = Some pte). rewrite Hwalk by done. by apply Htlb.
Qed.

Lemma view_none_entry st pg t : table_of (pmem st) (pd_active st) (pg / 1024) = Some t ->
  view st pg = if mem_rd (pmem st) (t + 4 * (pg mod 1024)) &! PTE_P =? 0 then None
               else Some (mem_rd (pmem st) (t + 4 * (pg mod 1024))).
Proof. intros H. unfold view, walk. by rewrite H. Qed.

Lemma paging_map_spec st virt phys flags : pg_inv st -> is_u32 virt -> is_u32 phys ->
  let '(st', rc) := paging_map st virt phys flags in
  let pg := virt / 4096 in
  pg_inv st' /\ same_regs st st' /\ g_pt_used st <= g_pt_used st' <= g_pt_used st + 1 /\
  ((rc = 0 /\ virt mod 4096 = 0 /\ phys mod 4096 = 0
      /\ view st' pg = Some (pte_val phys flags)
      /\ (forall q, is_page q -> q <> pg -> view st' q = view st q)
      /\ g_mapped st' = (if view st pg then g_mapped st else g_mapped st +! 1)
      /\ (table_of (pmem st) (pd_active st) (pg / 1024) <> None -> g_pt_used st' = g_pt_used st)
      /\ (table_of (pmem st) (pd_active st) (pg / 1024) = None -> g_pt_used st' = g_pt_used st + 1)
      /\ (forall i, 0 <= i < 1024 ->
           i <> pg / 1024 \/ table_of (pmem st) (pd_active st) i <> None ->
           table_of (pmem st') (pd_active st') i = table_of (pmem st) (pd_active st) i)
      /\ tlb st' = delete pg (tlb st))
   \/ (rc = -1 /\ st' = st /\
       (virt mod 4096 <> 0 \/ phys mod 4096 <> 0 \/
        (table_of (pmem st) (pd_active st) (pg / 1024) = None /\
         (PAGING_PT_MAX <= g_pt_used st \/ pd_active st <> PAGING_PD_ADDR))))).
Proof.
  intros Hinv Hv Hp. unfold paging_map. rewrite (land_fff virt), (land_fff phys).
  destruct (virt_split virt Hv) as (E22 & Epti & E12 & Hpg & Hpdi).
  destruct (Z.eqb_spec (virt mod 4096) 0) as [Hva |]; cbn [negb orb]; [| split_and!; try done; [lia.. | right; auto]].
  destruct (Z.eqb_spec (phys mod 4096) 0) as [Hpa |]; cbn [negb]; [| split_and!; try done; [lia.. | right; auto]].
  pose proof (pt_for_spec st virt true Hinv Hv) as Hpt.
  destruct (pt_for st virt true) as [st1 [t |]]; cbv zeta.
  2:{ destruct Hpt as (-> & Hn & He). split_and!; try done; try lia. right. auto 10. }
  destruct Hpt as (Hinv1 & Hregs & Htlb1 & Hgm1 & Ht & Hview1 & Hused1 & Hsame1 & Hnew1 & Hkeep1).
  rewrite Epti, E22, E12 in *. set (pg := virt / 4096) in *. clearbody pg.
  pose proof (same_regs_pd _ _ Hregs) as Hpd. pose proof Hinv1 as [Hdir1 Hus1 _ _ _].
  destruct (pg_split pg Hpg) as [Hdi _].
  destruct (write_pte (pmem st1) (pd_active st1) pg t (pte_val phys flags) Hdir1 Hpg Ht)
    as (Hdir2 & Hraw2 & Hw2 & Ho2).
  fold (pte_val phys flags).
  assert (Hgm : g_mapped (if mem_rd (pmem st1) (t + 4 * (pg mod 1024)) &! PTE_P =? 0
      then set_g_mapped st1 (g_mapped st1 +! 1) else st1) =
      if view st pg then g_mapped st else g_mapped st +! 1).
  { rewrite <- (Hview1 pg Hpg), (view_none_entry st1 pg t Ht), <- Hgm1.
    destruct (mem_rd (pmem st1) (t + 4 * (pg mod 1024)) &! PTE_P =? 0); reflexivity. }
  set (stm := if _ &! PTE_P =? 0 then _ else st1) in *.
  assert (Hstm : stm = mk_pg (pmem st1) (cr0 st1) (cr3 st1) (tlb st1) (g_pt_used st1) (g_mapped stm) (g_ready st1)).
  { unfold stm. destruct (mem_rd (pmem st1) (t + 4 * (pg mod 1024)) &! PTE_P =? 0);
      [reflexivity | by destruct st1]. }
  rewrite Hgm in Hstm. set (gm := if view st pg then _ else _) in *. clearbody gm. clearbody stm.
  subst stm. unfold set_pmem, invlpg. rewrite ?E12. cbn [pmem cr0 cr3 tlb g_pt_used g_mapped g_ready].
  change (pd_active (mk_pg _ (cr0 st1) (cr3 st1) _ _ _ (g_ready st1))) with (pd_active st1).
  set (m2 := mem_wr (pmem st1) (t + 4 * (pg mod 1024)) (pte_val phys flags)) in *. clearbody m2.
  destruct (Z.eqb_spec (pte_val phys flags &! PTE_P) 0) as [E |]; [by apply pte_val_p in E |].
  assert (Htab2 : forall i, 0 <= i < 1024 ->
    table_of m2 (pd_active st1) i = table_of (pmem st1) (pd_active st1) i)
    by (intros i Hi; by apply table_of_ext, Hraw2).
  assert (Hwrap : forall m', dir_wf m' (pd_active st1) ->
    (forall i, 0 <= i < 1024 -> table_of m' (pd_active st1) i = table_of m2 (pd_active st1) i) ->
    (forall q, is_page q -> walk m' (pd_active st1) q = walk m2 (pd_active st1) q) ->
    us_ok m' (pd_active st1) ->
    let st' := mk_pg m' (cr0 st1) (cr3 st1) (delete pg (tlb st1)) (g_pt_used st1) gm (g_ready st1) in
    pg_inv st' /\ same_regs st st' /\ g_pt_used st <= g_pt_used st' <= g_pt_used st + 1 /\
    ((0 = 0 /\ virt mod 4096 = 0 /\ phys mod 4096 = 0
      /\ view st' pg = Some (pte_val phys flags)
      /\ (forall q, is_page q -> q <> pg -> view st' q = view st q)
      /\ g_mapped st' = gm
      /\ (table_of (pmem st) (pd_active st) (pg / 1024) <> None -> g_pt_used st' = g_pt_used st)
      /\ (table_of (pmem st) (pd_active st) (pg / 1024) = None -> g_pt_used st' = g_pt_used st + 1)
      /\ (forall i, 0 <= i < 1024 ->
           i <> pg / 1024 \/ table_of (pmem st) (pd_active st) i <> None ->
           table_of (pmem st') (pd_active st') i = table_of (pmem st) (pd_active st) i)
      /\ tlb st' = delete pg (tlb st)) \/
     (0 = -1 /\ st' = st /\
       (virt mod 4096 <> 0 \/ phys mod 4096 <> 0 \/
        (table_of (pmem st) (pd_active st) (pg / 1024) = None /\
         (PAGING_PT_MAX <= g_pt_used st \/ pd_active st <> PAGING_PD_ADDR)))))).
  { intros m' Hdir' Htab' Hwalk' Hus' st'. split_and!; [| exact Hregs | cbn; lia.. | left].
    - apply pg_inv_update; auto.
      + intros i Hi. by rewrite Htab', Htab2.
      + intros q Hq Hne. by rewrite Hwalk', Ho2.
    - split_and!; try done; cbn [st' g_pt_used tlb].
      + change (walk m' (pd_active st1) pg = Some (pte_val phys flags)). by rewrite Hwalk', Hw2.
      + intros q Hq Hne. change (walk m' (pd_active st1) q = view st q).
        rewrite Hwalk', Ho2 by done. by apply Hview1.
      + intros Hn. by rewrite (Hsame1 Hn).
      + intros i Hi Hn. change (pd_active st') with (pd_active st1). cbn [st' pmem].
        rewrite Htab', Htab2 by done. by apply Hkeep1.
      + by rewrite Htlb1. }
  destruct (Z.eqb_spec (flags &! PTE_US) 0) as [Hus0 | Hus0]; cbn [negb pmem cr0 cr3 tlb g_pt_used g_mapped g_ready]; apply Hwrap; auto.
  - intros q pte Hq Hwq Hu. rewrite Hraw2 by (by apply pg_split).
    destruct (Z.eq_dec q pg) as [-> | Hne].
    + rewrite Hw2 in Hwq. injection Hwq as <-. by rewrite pte_val_us in Hu.
    + rewrite Ho2 in Hwq by done. by eapply Hus1.
  - by apply write_pde_us.
  - by apply write_pde_us.
  - by apply write_pde_us.
  - destruct (write_pde_us m2 (pd_active st1) (pg / 1024) Hdir2 Hdi) as (_ & _ & Hraw3 & Hw3).
    intros q pte Hq Hwq Hu. rewrite Hw3 in Hwq by done. rewrite Hraw3 by (by apply pg_split).
    destruct (Z.eqb_spec (q / 1024) (pg / 1024)) as [Ed | Ed]; [apply lor_us_us |].
    rewrite Ho2 in Hwq by congruence. rewrite Hraw2 by (by apply pg_split). by eapply Hus1.
Qed.

Lemma pt_for_query st virt : is_u32 virt ->
  pt_for st virt false = (st, table_of (pmem st) (pd_active st) (virt / 4096 / 1024)).
Proof.
  intros Hv. destruct (virt_split virt Hv) as (E22 & _). unfold pt_for, table_of. rewrite E22.
  by destruct (_ =? 0).
Qed.

(** [paging_query] reads the view. *)
Lemma paging_query_view st virt : is_u32 virt ->
  paging_query st virt =
  match view st (virt / 4096) with
  | None => None
  | Some pte => Some (pte &! 0xFFFFF000, pte &! 0xFFF)
  end.
Proof.
  intros Hv. unfold paging_query, view, walk, entry_of. rewrite pt_for_query by done. cbn [snd].
  destruct (virt_split virt Hv) as (_ & E & _). rewrite E.
  destruct (table_of _ _ _); [| done]. by destruct (_ &! PTE_P =? 0).
Qed.

Lemma view_present st pg pte : view st pg = Some pte -> pte &! PTE_P <> 0.
Proof.
  unfold view, walk, entry_of. destruct (table_of _ _ _); [| done].
  destruct (Z.eqb_spec (mem_rd (pmem st) (z + 4 * (pg mod 1024)) &! PTE_P) 0); [done |]. by intros [= <-].
Qed.

Lemma paging_unmap_spec st virt : pg_inv st -> is_u32 virt ->
  let st' := paging_unmap st virt in
  let pg := virt / 4096 in
  pg_inv st' /\ same_regs st st' /\ g_pt_used st' = g_pt_used st /\ view st' pg = None
  /\ (forall q, is_page q -> q <> pg -> view st' q = view st q)
  /\ g_mapped st' = (if view st pg then g_mapped st -! 1 else g_mapped st)
  /\ (view st pg <> None -> tlb st' = delete pg (tlb st)).
Proof.
  intros Hinv Hv st' pg. subst st'. unfold paging_unmap. rewrite pt_for_query by done. fold pg.
  destruct (virt_split virt Hv) as (E22 & Epti & E12 & Hpg & Hpdi). fold pg in E22, Epti, E12, Hpg.
  destruct (table_of (pmem st) (pd_active st) (pg / 1024)) as [t |] eqn:Et.
  2:{ assert (Hn : view st pg = None) by (unfold view, walk; by rewrite Et).
      split_and!; try done. by rewrite Hn. }
  cbv zeta. rewrite Epti. unfold invlpg. rewrite E12. clearbody pg.
  pose proof Hinv as [Hdir Hus _ _ _].
  destruct (write_pte (pmem st) (pd_active st) pg t 0 Hdir Hpg Et) as (Hdir2 & Hraw2 & Hw2 & Ho2).
  change (0 &! PTE_P =? 0) with true in Hw2. cbv iota in Hw2.
  assert (Hgm : g_mapped (if negb (mem_rd (pmem st) (t + 4 * (pg mod 1024)) &! PTE_P =? 0)
      then set_g_mapped st (g_mapped st -! 1) else st) =
      if view st pg then g_mapped st -! 1 else g_mapped st).
  { rewrite (view_none_entry st pg t Et).
    by destruct (mem_rd (pmem st) (t + 4 * (pg mod 1024)) &! PTE_P =? 0). }
  set (stm := if negb _ then _ else st) in *.
  assert (Hstm : stm = mk_pg (pmem st) (cr0 st) (cr3 st) (tlb st) (g_pt_used st) (g_mapped stm) (g_ready st)).
  { unfold stm. destruct (mem_rd (pmem st) (t + 4 * (pg mod 1024)) &! PTE_P =? 0);
      [by destruct st | reflexivity]. }
  rewrite Hgm in Hstm. clear Hgm. clearbody stm. subst stm. unfold set_pmem.
  cbn [pmem cr0 cr3 tlb g_pt_used g_mapped g_ready].
  set (m2 := mem_wr _ _ _) in *. clearbody m2.
  split_and!; try done. apply pg_inv_update; try done.
  - intros i Hi. by apply table_of_ext, Hraw2.
  - intros q pte Hq Hwq Hu. rewrite Hraw2 by (by apply pg_split).
    destruct (Z.eq_dec q pg) as [-> | Hne]; [congruence |].
    rewrite Ho2 in Hwq by done. by eapply Hus.
Qed.

(** ** Properties *)

(** [paging_map] on consistent page tables.  Success (0) makes exactly the
    page of [virt] translate to [phys] with the given low flags and the
    present bit, every other page translates as before, and with [PTE_US] the
    directory entry grants user access as well.  It fails
    (-1), without any change, exactly when an address is unaligned or the
    page has no table and none can be taken: the pool of 16 is exhausted or
    the active directory is not the kernel's. *)
Theorem paging_map_exact (st : pg_state) (virt phys flags : Z)
    (Hinv : pg_inv st) (Hv : is_u32 virt) (Hp : is_u32 phys) :
  let '(st', rc) := paging_map st virt phys flags in
  let pde s := mem_rd (pmem s) (pd_active s + 4 * (virt / 4096 / 1024)) in
  pg_inv st' /\
  if rc =? 0 then
    paging_query st' virt = Some (phys, (flags &! 0xFFF) |! PTE_P)
    /\ (flags &! PTE_US <> 0 -> pde st' &! PTE_US <> 0)
    /\ forall v, is_u32 v -> v / 4096 <> virt / 4096 -> paging_query st' v = paging_query st v
  else
    rc = -1 /\ st' = st /\
    (virt mod 4096 <> 0 \/ phys mod 4096 <> 0 \/
     (pde st &! PTE_P = 0 /\ (PAGING_PT_MAX <= g_pt_used st \/ pd_active st <> PAGING_PD_ADDR))).
Proof.
  pose proof (paging_map_spec st virt phys flags Hinv Hv Hp) as H.
  destruct (virt_split virt Hv) as (_ & _ & _ & Hpg & _).
  destruct (paging_map st virt phys flags) as [st' rc]. cbv zeta in H.
  destruct H as (Hinv' & _ & _ & [H | H]); (split; [done |]).
  - destruct H as (-> & Hva & Hpa & Hw & Ho & _). cbn [Z.eqb]. split_and!.
    + rewrite paging_query_view, Hw, pte_val_base, pte_val_flags, land_fffff000 by done.
      do 2 f_equal. lia.
    + intros Hu. eapply (gi_us _ Hinv'); [exact Hpg | exact Hw |]. by rewrite pte_val_us.
    + intros v Hv' Hne. rewrite !paging_query_view by done. rewrite Ho; try done. by apply virt_split.
  - destruct H as (-> & -> & H). cbn [Z.eqb]. split_and!; try done.
    destruct H as [? | [? | [Hn He]]]; [by left | right; by left |]. right. right. split; [| done].
    unfold table_of in Hn. by destruct (Z.eqb_spec (mem_rd (pmem st)
      (pd_active st + 4 * (virt / 4096 / 1024)) &! PTE_P) 0).
Qed.

(** A zeroed kernel directory maps nothing. *)
Lemma pg_zero_inv st : pd_active st = PAGING_PD_ADDR -> g_pt_used st = 0 -> tlb st = ∅ ->
  (forall i, 0 <= i < 1024 -> mem_rd (pmem st) (PAGING_PD_ADDR + 4 * i) = 0) ->
  pg_inv st /\ forall pg, is_page pg -> view st pg = None.
Proof.
  intros Epd Hu Ht Hz.
  assert (Hn : forall i, 0 <= i < 1024 -> table_of (pmem st) (pd_active st) i = None)
    by (intros i Hi; unfold table_of; by rewrite Epd, Hz).
  assert (Hv : forall pg, is_page pg -> view st pg = None)
    by (intros pg Hpg; unfold view, walk; rewrite Hn by (by apply pg_split); done).
  split; [constructor | done].
  - rewrite Epd. constructor; [done | |]; rewrite <- Epd; intros *; intros; by rewrite Hn in *.
  - intros pg pte Hpg Hw. change (view st pg = Some pte) in Hw. by rewrite Hv in Hw.
  - rewrite Hu. unfold PAGING_PT_MAX. lia.
  - intros _ i t Hi. by rewrite Hn.
  - intros pg pte _. by rewrite Ht.
Qed.

Definition pg_empty : pg_state := mk_pg ∅ 0 0 ∅ 0 0 false.

Lemma pg_empty_inv : pg_inv pg_empty.
Proof. by apply pg_zero_inv. Qed.

Lemma paging_map_exact_witness :
  let '(st', rc) := paging_map pg_empty 0x400000 0xA00000 PAGING_USR_FLAGS in
  let pde s := mem_rd (pmem s) (pd_active s + 4 * (0x400000 / 4096 / 1024)) in
  pg_inv st' /\
  if rc =? 0 then
    paging_query st' 0x400000 = Some (0xA00000, (PAGING_USR_FLAGS &! 0xFFF) |! PTE_P)
    /\ (PAGING_USR_FLAGS &! PTE_US <> 0 -> pde st' &! PTE_US <> 0)
    /\ forall v, is_u32 v -> v / 4096 <> 0x400000 / 4096 -> paging_query st' v = paging_query pg_empty v
  else
    rc = -1 /\ st' = pg_empty /\
    (0x400000 mod 4096 <> 0 \/ 0xA00000 mod 4096 <> 0 \/
     (pde pg_empty &! PTE_P = 0 /\
      (PAGING_PT_MAX <= g_pt_used pg_empty \/ pd_active pg_empty <> PAGING_PD_ADDR))).
Proof. apply (paging_map_exact pg_empty 0x400000 0xA00000 _ pg_empty_inv); unfold is_u32; lia. Defined.

(** [paging_unmap] makes exactly the page of [virt] untranslatable, and
    unmapping a page that was mapped where nothing was mapped before gives
    back every translation and the page counter. *)
Theorem paging_unmap_restores (st : pg_state) (virt phys flags : Z)
    (Hinv : pg_inv st) (Hv : is_u32 virt) (Hp : is_u32 phys) (Hm : is_u32 (g_mapped st)) :
  let un := paging_unmap st virt in
  pg_inv un /\ paging_query un virt = None
  /\ (forall v, is_u32 v -> v / 4096 <> virt / 4096 -> paging_query un v = paging_query st v)
  /\ (paging_query st virt = None -> snd (paging_map st virt phys flags) = 0 ->
      let st' := paging_unmap (fst (paging_map st virt phys flags)) virt in
      pg_inv st' /\ g_mapped st' = g_mapped st
      /\ forall v, is_u32 v -> paging_query st' v = paging_query st v).
Proof.
  destruct (virt_split virt Hv) as (_ & _ & _ & Hpg & _).
  destruct (paging_unmap_spec st virt Hinv Hv) as (Hi & _ & _ & Hn & Ho & _).
  cbv zeta. split_and!; try done.
  - by rewrite paging_query_view, Hn.
  - intros v Hv' Hne. rewrite !paging_query_view, Ho; try done. by apply virt_split.
  - rewrite paging_query_view by done. intros Hq Hrc.
    assert (Hnone : view st (virt / 4096) = None) by (by destruct (view st (virt / 4096))).
    pose proof (paging_map_spec st virt phys flags Hinv Hv Hp) as H. cbv zeta in H.
    destruct (paging_map st virt phys flags) as [st1 rc]. cbn [fst snd] in *.
    destruct H as (Hinv1 & _ & _ & [H | H]); [| lia].
    destruct H as (_ & _ & _ & Hw1 & Ho1 & Hg1 & _). rewrite Hnone in Hg1.
    destruct (paging_unmap_spec st1 virt Hinv1 Hv) as (Hi2 & _ & _ & Hn2 & Ho2 & Hg2 & _).
    split; [done |]. split.
    + rewrite Hg2, Hw1, Hg1. unfold is_u32 in Hm. ulia.
    + intros v Hv'. rewrite !paging_query_view by done.
      destruct (virt_split v Hv') as (_ & _ & _ & Hpv & _).
      destruct (Z.eq_dec (v / 4096) (virt / 4096)) as [E | E]; [by rewrite E, Hn2, Hnone |].
      by rewrite Ho2, Ho1.
Qed.

Lemma paging_unmap_restores_witness :
  let un := paging_unmap pg_empty 0x400000 in
  pg_inv un /\ paging_query un 0x400000 = None
  /\ (forall v, is_u32 v -> v / 4096 <> 0x400000 / 4096 -> paging_query un v = paging_query pg_empty v)
  /\ (paging_query pg_empty 0x400000 = None ->
      snd (paging_map pg_empty 0x400000 0xA00000 PAGING_USR_FLAGS) = 0 ->
      let st' := paging_unmap (fst (paging_map pg_empty 0x400000 0xA00000 PAGING_USR_FLAGS)) 0x400000 in
      pg_inv st' /\ g_mapped st' = g_mapped pg_empty
      /\ forall v, is_u32 v -> paging_query st' v = paging_query pg_empty v).
Proof.
  apply (paging_unmap_restores pg_empty 0x400000 0xA00000 _ pg_empty_inv); unfold is_u32; simpl; lia.
Defined.

(** *** Interleaving with the hardware *)

(** Any number of mapping operations, with the processor caching translations
    at any moment in between. *)
Inductive pg_step (st : pg_state) : pg_state -> Prop :=
| step_map virt phys flags : is_u32 virt -> is_u32 phys ->
    pg_step st (fst (paging_map st virt phys flags))
| step_unmap virt : is_u32 virt -> pg_step st (paging_unmap st virt)
| step_fill virt : is_u32 virt -> pg_step st (tlb_fill st virt).

Definition NPAGES : nat := Z.to_nat (2 ^ 20).
Lemma NPAGES_eq : Z.of_nat NPAGES = 2 ^ 20.
Proof. apply Z2Nat.id. lia. Qed.
#[global] Opaque NPAGES.

Definition present (st : pg_state) (pg : Z) : bool := if view st pg then true else false.

(** [g_mapped] counts the pages that translate. *)
Definition counted (st : pg_state) : Prop := g_mapped st = count_if (present st) NPAGES 0.

Lemma counted_set st st' pg : counted st -> is_page pg ->
  (forall q, is_page q -> q <> pg -> view st' q = view st q) ->
  g_mapped st' = (match view st pg, view st' pg with
    | None, Some _ => g_mapped st +! 1 | Some _, None => g_mapped st -! 1 | _, _ => g_mapped st end) ->
  counted st'.
Proof.
  unfold counted. intros Hc Hpg Ho ->. pose proof (count_if_range NPAGES (present st) 0) as Hr.
  rewrite NPAGES_eq in Hr. unfold is_page in *.
  assert (Hoth : forall q, 0 <= q < 0 + Z.of_nat NPAGES -> q <> pg -> present st' q = present st q).
  { rewrite NPAGES_eq. intros q Hq Hne. unfold present. by rewrite Ho. }
  rewrite NPAGES_eq in Hoth.
  pose proof (count_if_range NPAGES (present st') 0) as Hr'. rewrite NPAGES_eq in Hr'.
  destruct (view st pg) as [x |] eqn:E, (view st' pg) as [y |] eqn:E'.
  - rewrite Hc. symmetry. apply count_if_ext. rewrite NPAGES_eq. intros q Hq. destruct (Z.eq_dec q pg) as [-> |]; [| by apply Hoth].
    unfold present. by rewrite E, E'.
  - pose proof (count_if_update NPAGES (present st) (present st') 0 pg false) as Hcu.
    rewrite NPAGES_eq in Hcu. unfold present at 1 2 in Hcu. rewrite E, E' in Hcu.
    specialize (Hcu ltac:(lia) eq_refl eq_refl Hoth). rewrite Hc, u32_small; [lia |].
    unfold is_u32. lia.
  - pose proof (count_if_update NPAGES (present st) (present st') 0 pg true) as Hcu.
    rewrite NPAGES_eq in Hcu. unfold present at 1 2 in Hcu. rewrite E, E' in Hcu.
    specialize (Hcu ltac:(lia) eq_refl eq_refl Hoth). rewrite Hc, u32_small; [lia |].
    unfold is_u32. lia.
  - rewrite Hc. symmetry. apply count_if_ext. rewrite NPAGES_eq. intros q Hq. destruct (Z.eq_dec q pg) as [-> |]; [| by apply Hoth].
    unfold present. by rewrite E, E'.
Qed.

Lemma tlb_fill_spec st virt : pg_inv st -> is_u32 virt ->
  pg_inv (tlb_fill st virt) /\ g_mapped (tlb_fill st virt) = g_mapped st
  /\ forall q, view (tlb_fill st virt) q = view st q.
Proof.
  intros Hinv Hv. unfold tlb_fill. rewrite pt_for_query by done. cbn [snd].
  destruct (table_of _ _ _) as [t |] eqn:Et; [| done].
  destruct (virt_split virt Hv) as (_ & Epti & E12 & Hpg & _). rewrite Epti, E12.
  destruct (Z.eqb_spec (mem_rd (pmem st) (t + 4 * ((virt / 4096) mod 1024)) &! PTE_P) 0) as [| Hp]; [done |].
  split; [| done]. destruct Hinv as [Hdir Hus Hused Hpool Htlb]. constructor; try done.
  intros pg pte Hq. cbn [tlb]. intros Hl. apply lookup_insert_Some in Hl as [[<- <-] | [_ Hl]].
  - unfold walk. change (pd_active _) with (pd_active st) in *. cbn [pmem]. rewrite Et. unfold entry_of.
    by destruct (Z.eqb_spec (mem_rd (pmem st) (t + 4 * ((virt / 4096) mod 1024)) &! PTE_P) 0).
  - by apply Htlb.
Qed.

Lemma pg_step_inv st st' : pg_step st st' -> pg_inv st /\ counted st -> pg_inv st' /\ counted st'.
Proof.
  intros [virt phys flags Hv Hp | virt Hv | virt Hv] [Hinv Hc];
    destruct (virt_split virt Hv) as (_ & _ & _ & Hpg & _).
  - pose proof (paging_map_spec st virt phys flags Hinv Hv Hp) as H. cbv zeta in H.
    destruct (paging_map st virt phys flags) as [st1 rc]. cbn [fst].
    destruct H as (Hinv1 & _ & _ & [H | (_ & -> & _)]); [| done]. split; [done |].
    destruct H as (_ & _ & _ & Hw1 & Ho1 & Hg1 & _).
    apply (counted_set st st1 (virt / 4096)); auto. rewrite Hw1, Hg1. by destruct (view st _).
  - destruct (paging_unmap_spec st virt Hinv Hv) as (Hinv1 & _ & _ & Hn & Ho & Hg & _). split; [done |].
    apply (counted_set st _ (virt / 4096)); auto. rewrite Hn, Hg. by destruct (view st _).
  - destruct (tlb_fill_spec st virt Hinv Hv) as (Hinv1 & Hg & Hvw). split; [done |].
    apply (counted_set st _ (virt / 4096)); auto. rewrite Hvw, Hg. by destruct (view st _).
Qed.

(** C4. Under every interleaving of mapping, unmapping and hardware caching,
    no TLB entry is ever stale: a cached translation is the one the page
    tables hold now, so the [invlpg] of each operation is enough; and
    [paging_mapped_pages] is always the number of pages that translate. *)
Theorem tlb_never_stale (st st' : pg_state) (Hinv : pg_inv st) (Hc : counted st)
    (Hsteps : rtc pg_step st st') :
  pg_inv st' /\ paging_mapped_pages st' = count_if (present st') NPAGES 0 /\
  forall v pte, is_u32 v -> tlb st' !! (v / 4096) = Some pte ->
    paging_query st' v = Some (pte &! 0xFFFFF000, pte &! 0xFFF).
Proof.
  assert (H : pg_inv st' /\ counted st').
  { assert (H0 : pg_inv st /\ counted st) by done. clear Hinv Hc.
    induction Hsteps as [| x y z Hxy _ IH]; [done |]. apply IH. by apply (pg_step_inv x). }
  destruct H as [Hinv' Hc']. split; [done |]. split; [done |]. intros v pte Hv Hl.
  rewrite paging_query_view by done. destruct (virt_split v Hv) as (_ & _ & _ & Hpg & _).
  unfold view. by rewrite (gi_tlb _ Hinv' _ _ Hpg Hl).
Qed.

Lemma pg_empty_counted : counted pg_empty.
Proof.
  unfold counted. rewrite (count_if_ext NPAGES (fun _ => false)).
  - assert (H : forall n i, count_if (fun _ => false) n i = 0) 
      by (induction n as [| n IH]; intros i; simpl; [done | by rewrite IH]).
    by rewrite H.
  - rewrite NPAGES_eq. intros j Hj. unfold present.
    destruct (pg_zero_inv pg_empty) as [_ Hz]; [done.. |]. rewrite Hz; [done | exact Hj].
Qed.

Lemma tlb_never_stale_witness :
  let st' := tlb_fill (fst (paging_map pg_empty 0x400000 0xA00000 PAGING_USR_FLAGS)) 0x400000 in
  pg_inv st' /\ paging_mapped_pages st' = count_if (present st') NPAGES 0 /\
  forall v pte, is_u32 v -> tlb st' !! (v / 4096) = Some pte ->
    paging_query st' v = Some (pte &! 0xFFFFF000, pte &! 0xFFF).
Proof.
  apply (tlb_never_stale pg_empty _ pg_empty_inv pg_empty_counted).
  eapply rtc_l; [apply (step_map _ 0x400000 0xA00000 PAGING_USR_FLAGS); unfold is_u32; lia |].
  eapply rtc_l; [apply (step_fill _ 0x400000); unfold is_u32; lia | apply rtc_refl].
Defined.

(** *** Initialisation *)

(** Every page that translates is mapped onto itself for the kernel. *)
Definition identity (st : pg_state) : Prop :=
  forall pg pte, is_page pg -> view st pg = Some pte ->
    pte = pte_val (pg * 4096) PAGING_KRN_FLAGS \/ pte = pte_val (pg * 4096) PAGING_MMIO_FLAGS.

Definition good_map (st : pg_state) : Prop := pg_inv st /\ counted st /\ identity st.

Lemma paging_map_good st v flags : good_map st -> is_u32 v -> v mod 4096 = 0 ->
  flags = PAGING_KRN_FLAGS \/ flags = PAGING_MMIO_FLAGS ->
  let st' := fst (paging_map st v v flags) in
  good_map st' /\ same_regs st st' /\ (tlb st = ∅ -> tlb st' = ∅)
  /\ forall pg, is_page pg -> view st pg <> None -> view st' pg <> None.
Proof.
  intros (Hinv & Hc & Hid) Hv Hva Hfl. destruct (virt_split v Hv) as (_ & _ & _ & Hpg & _).
  pose proof (pg_step_inv st _ (step_map st v v flags Hv Hv) (conj Hinv Hc)) as [Hinv' Hc'].
  pose proof (paging_map_spec st v v flags Hinv Hv Hv) as H. cbv zeta in H |- *.
  destruct (paging_map st v v flags) as [st' rc]. cbn [fst] in *.
  destruct H as (_ & Hregs & _ & [H | (_ & -> & _)]); [| split_and!; try done].
  destruct H as (_ & _ & _ & Hw & Ho & _ & _ & _ & _ & Htl).
  split; [split; [done | split; [done |]] | split; [done | split]].
  - intros pg pte Hq Hvw. destruct (Z.eq_dec pg (v / 4096)) as [-> | Hne].
    + rewrite Hw in Hvw. injection Hvw as <-. replace (v / 4096 * 4096) with v by ulia.
      destruct Hfl as [-> | ->]; auto.
    + rewrite Ho in Hvw by done. by apply Hid.
  - rewrite Htl. intros ->. apply delete_empty.
  - intros pg Hq Hn. destruct (Z.eq_dec pg (v / 4096)) as [-> | Hne]; [by rewrite Hw | by rewrite Ho].
Qed.

Lemma map_range_good n : forall st v flags, good_map st -> is_u32 v -> v mod 4096 = 0 ->
  flags = PAGING_KRN_FLAGS \/ flags = PAGING_MMIO_FLAGS ->
  let st' := fst (map_range n st v flags) in
  good_map st' /\ same_regs st st' /\ (tlb st = ∅ -> tlb st' = ∅)
  /\ forall pg, is_page pg -> view st pg <> None -> view st' pg <> None.
Proof.
  induction n as [| n IH]; intros st v flags Hg Hv Hva Hfl; cbv zeta; cbn [map_range]; [by repeat split; try apply Hg |].
  destruct (paging_map_good st v flags Hg Hv Hva Hfl) as (Hg1 & Hr1 & Ht1 & Hk1). cbv zeta in *.
  destruct (paging_map st v v flags) as [st1 rc]. cbn [fst] in *.
  destruct (negb (rc =? 0)); [exact (conj Hg1 (conj Hr1 (conj Ht1 Hk1))) |].
  destruct (IH st1 (v +! PAGE_SIZE) flags Hg1 (u32_range _) ltac:(unfold PAGE_SIZE; ulia) Hfl)
    as (Hg2 & Hr2 & Ht2 & Hk2).
  split; [done |]. split; [| by auto].
  destruct Hr1 as (? & ? & ?), Hr2 as (? & ? & ?). unfold same_regs. split_and!; congruence.
Qed.

(** Mapping pages [k .. k+n-1] in order takes one table per 4 MB and cannot fail
    while the pool of 16 lasts. *)
Lemma map_range_ok n : forall st k, pg_inv st -> pd_active st = PAGING_PD_ADDR ->
  0 <= k -> k + Z.of_nat n <= 16384 -> g_pt_used st = (k + 1023) / 1024 ->
  (forall i, 0 <= i < 1024 -> table_of (pmem st) (pd_active st) i = None <-> g_pt_used st <= i) ->
  (forall pg, 0 <= pg < k -> view st pg <> None) ->
  let '(st', rc) := map_range n st (k * 4096) PAGING_KRN_FLAGS in
  rc = 0 /\ forall pg, 0 <= pg < k + Z.of_nat n -> view st' pg <> None.
Proof.
  induction n as [| n IH]; intros st k Hinv Hpd Hk Hkn Hu Htab Hvw; cbn [map_range].
  - split; [done |]. intros pg Hpg. apply Hvw. lia.
  - assert (Hv : is_u32 (k * 4096)) by (unfold is_u32; lia).
    assert (Hpg : k * 4096 / 4096 = k) by (apply Z.div_mul; lia).
    pose proof (paging_map_spec st (k * 4096) (k * 4096) PAGING_KRN_FLAGS Hinv Hv Hv) as H.
    cbv zeta in H. rewrite Hpg in H.
    assert (Hkp : is_page k) by (unfold is_page; change (2 ^ 20) with 1048576; lia).
    destruct (paging_map st _ _ _) as [st1 rc].
    destruct H as (Hinv1 & Hregs & Hused & [H | H]).
    2:{ exfalso. destruct H as (_ & _ & H). rewrite Z.mod_mul in H by lia.
        destruct H as [? | [? | [Hn [Hx | Hx]]]]; try done. unfold PAGING_PT_MAX in Hx.
        apply Htab in Hn; Z.to_euclidean_division_equations; lia. }
    destruct H as (-> & _ & _ & Hw & Ho & _ & Hsame & Hnew & Hkeep & _). cbn [Z.eqb negb].
    pose proof (same_regs_pd _ _ Hregs) as Hpd1.
    replace (k * 4096 +! PAGE_SIZE) with ((k + 1) * 4096)
      by (unfold PAGE_SIZE; rewrite u32_small; unfold is_u32; lia).
    assert (Hvw1 : forall pg, 0 <= pg < k + 1 -> view st1 pg <> None).
    { intros pg Hq. destruct (Z.eq_dec pg k) as [-> |]; [by rewrite Hw |].
      rewrite Ho by (done || (unfold is_page; lia)). apply Hvw. lia. }
    assert (Htk : table_of (pmem st1) (pd_active st1) (k / 1024) <> None).
    { intros Hn. unfold view, walk in Hw. by rewrite Hn in Hw. }
    assert (Hdiv : 0 <= k / 1024 < 16) by (Z.to_euclidean_division_equations; lia).
    assert (Hu1 : g_pt_used st1 = (k + 1 + 1023) / 1024).
    { destruct (table_of (pmem st) (pd_active st) (k / 1024)) as [t |] eqn:Et.
      - rewrite Hsame, Hu by done. assert (~ g_pt_used st <= k / 1024).
        { intros Hx. apply Htab in Hx; [congruence | lia]. }
        Z.to_euclidean_division_equations. lia.
      - rewrite Hnew, Hu by done. apply Htab in Et; [| lia]. Z.to_euclidean_division_equations. lia. }
    replace (k + Z.of_nat (S n)) with (k + 1 + Z.of_nat n) by lia.
    apply IH; auto; [congruence | lia | lia |].
    intros i Hi. destruct (Z.eq_dec i (k / 1024)) as [-> | Hne].
    + split; [by intros ? |]. rewrite Hu1. intros. Z.to_euclidean_division_equations. lia.
    + rewrite Hkeep by auto. rewrite Htab by done. rewrite Hu, Hu1.
      Z.to_euclidean_division_equations. lia.
Qed.

(** The state once the directory has been zeroed. *)
Lemma zeroed_good m c0 c3 :
  good_map (mk_pg (zero_words PT_WORDS m PAGING_PD_ADDR) c0 c3 ∅ 0 0 false) /\
  forall i, 0 <= i < 1024 ->
    table_of (zero_words PT_WORDS m PAGING_PD_ADDR) PAGING_PD_ADDR i = None.
Proof.
  set (st := mk_pg _ _ _ _ _ _ _).
  assert (Hz : forall i, 0 <= i < 1024 -> mem_rd (pmem st) (PAGING_PD_ADDR + 4 * i) = 0)
    by (intros i Hi; apply zero_words_in; by rewrite PT_WORDS_eq).
  destruct (pg_zero_inv st eq_refl eq_refl eq_refl Hz) as [Hinv Hv].
  split; [split; [done | split] |].
  - unfold counted. rewrite (count_if_ext NPAGES (fun _ => false)).
    + assert (H : forall n i, count_if (fun _ => false) n i = 0)
        by (induction n as [| n IH]; intros i; simpl; [done | by rewrite IH]).
      by rewrite H.
    + rewrite NPAGES_eq. intros j Hj. unfold present. rewrite Hv; [done | exact Hj].
  - intros pg pte Hpg Hw. by rewrite Hv in Hw.
  - intros i Hi. change (table_of (pmem st) PAGING_PD_ADDR i = None). unfold table_of. by rewrite Hz.
Qed.

Lemma identity_map_ok m c0 c3 :
  let '(st', rc) := identity_map
    (mk_pg (zero_words PT_WORDS m PAGING_PD_ADDR) c0 c3 ∅ 0 0 false) PAGING_IDENTITY_END in
  rc = 0 /\ good_map st' /\ tlb st' = ∅ /\ cr3 st' = c3 /\ cr0 st' = c0 /\ g_ready st' = false
  /\ forall pg, 0 <= pg < 8192 -> view st' pg <> None.
Proof.
  destruct (zeroed_good m c0 c3) as [Hg Ht]. set (st := mk_pg _ _ _ _ _ _ _) in *.
  unfold identity_map.
  assert (Hn : Z.of_nat (Z.to_nat ((PAGING_IDENTITY_END + PAGE_SIZE - 1) / PAGE_SIZE)) = 8192)
    by (apply Z2Nat.id; done).
  revert Hn. generalize (Z.to_nat ((PAGING_IDENTITY_END + PAGE_SIZE - 1) / PAGE_SIZE)). intros n Hn.
  pose proof (map_range_ok n st 0 (proj1 Hg) eq_refl ltac:(lia) ltac:(lia) eq_refl) as Hok.
  destruct (map_range_good n st 0 PAGING_KRN_FLAGS Hg ltac:(unfold is_u32; lia) eq_refl ltac:(by left))
    as (Hg' & (H0 & H3 & Hr) & Htl & _). specialize (Htl eq_refl).
  change (0 * 4096) with 0 in Hok. destruct (map_range n st 0 PAGING_KRN_FLAGS) as [st' rc]. cbn [fst] in *.
  destruct Hok as [-> Hvw].
  - intros i Hi. change (pmem st) with (zero_words PT_WORDS m PAGING_PD_ADDR).
    change (pd_active st) with PAGING_PD_ADDR. rewrite Ht by done. cbn [st g_pt_used]. split; [lia | done].
  - intros pg Hpg. lia.
  - split_and!; try done. intros pg Hpg. apply Hvw. lia.
Qed.

Lemma map_lfb_good st lfb vxr vyr vbpp : good_map st -> is_u32 lfb ->
  let st' := fst (map_lfb st lfb vxr vyr vbpp) in
  good_map st' /\ same_regs st st' /\ (tlb st = ∅ -> tlb st' = ∅)
  /\ forall pg, is_page pg -> view st pg <> None -> view st' pg <> None.
Proof.
  intros Hg Hl. unfold map_lfb.
  assert (Hsame : good_map st /\ same_regs st st /\ (tlb st = ∅ -> tlb st = ∅)
    /\ forall pg, is_page pg -> view st pg <> None -> view st pg <> None) by (by repeat split; try apply Hg).
  destruct (_ || _)%bool; [exact Hsame |]. destruct (_ || _)%bool; [exact Hsame |].
  pose proof (base_mask lfb) as [Hr Hm]. apply map_range_good; auto.
Qed.

(** Paging initialisation, from any memory contents and any boot
    information, with nothing cached and paging not yet set up: it succeeds,
    paging is enabled on the kernel directory, all of 0..32 MB translates,
    every page that translates at all (the frame buffer window included)
    translates to itself, and no page is accessible to user mode. *)
Theorem paging_init_identity (st : pg_state) (lfb vxr vyr vbpp : Z)
    (Hready : g_ready st = false) (Htlb : tlb st = ∅) (Hlfb : is_u32 lfb) :
  let '(st', rc) := paging_init st lfb vxr vyr vbpp in
  rc = 0 /\ pg_inv st' /\ counted st' /\ paging_enabled st' = true /\ paging_cr3 st' = PAGING_PD_ADDR
  /\ (forall v, 0 <= v < PAGING_IDENTITY_END -> paging_query st' v <> None)
  /\ (forall v p fl, is_u32 v -> paging_query st' v = Some (p, fl) ->
       p = v - v mod 4096 /\ fl &! PTE_US = 0).
Proof.
  unfold paging_init. rewrite Hready.
  rewrite (mem_rd_wr_eq (mem_wr _ _ _)), mem_rd_wr_ne, mem_rd_wr_eq by done. cbn [Z.eqb negb orb].
  rewrite ?Z.eqb_refl. cbn [negb orb Z.eqb Pos.eqb cr0 cr3 tlb]. rewrite Htlb.
  pose proof (identity_map_ok (mem_wr (mem_wr (pmem st) PAGING_PD_ADDR 0xA5A5A5A5)
    (PAGING_PD_ADDR + 4 * 1023) 0x5A5A5A5A) (cr0 st) (cr3 st)) as Hid.
  destruct (identity_map _ _) as [st1 rc]. destruct Hid as (-> & Hg1 & Ht1 & H31 & H01 & Hr1 & Hv1).
  cbn [Z.eqb negb]. destruct (map_lfb_good st1 lfb vxr vyr vbpp Hg1 Hlfb) as (Hg2 & (H02 & H32 & Hr2) & Ht2 & Hv2).
  set (st2 := fst (map_lfb st1 lfb vxr vyr vbpp)) in *. clearbody st2. specialize (Ht2 Ht1).
  unfold write_cr3, write_cr0. cbn [pmem cr0 cr3 tlb g_pt_used g_mapped g_ready].
  set (st' := mk_pg _ _ _ _ _ _ _).
  assert (Hpd2 : pd_active st2 = PAGING_PD_ADDR) by (unfold pd_active; by rewrite Hr2, Hr1).
  assert (Hpd : pd_active st' = pd_active st2) by (rewrite Hpd2; reflexivity).
  assert (Hview : forall pg, view st' pg = view st2 pg) by (intros pg; unfold view; by rewrite Hpd).
  destruct Hg2 as ([Hdir Hus Hused Hpool _] & Hc & Hident).
  split_and!; try done.
  - constructor; rewrite ?Hpd; try done; intros pg pte _; cbn [st' tlb]; by rewrite lookup_empty.
  - unfold counted in *. cbn [st' g_mapped]. rewrite Hc. apply count_if_ext. intros j _.
    unfold present. by rewrite Hview.
  - unfold paging_enabled. cbn [st' cr0]. rewrite Z.land_lor_distr_l.
    destruct (Z.eqb_spec ((cr0 st2 &! 0x80000000) |! (0x80000000 &! 0x80000000)) 0) as [E |]; [| done].
    by apply Z.lor_eq_0_iff in E as [_ E].
  - intros v Hv. unfold PAGING_IDENTITY_END in Hv.
    assert (Hu : is_u32 v) by (unfold is_u32; lia). rewrite paging_query_view, Hview by done.
    destruct (virt_split v Hu) as (_ & _ & _ & Hpg & _).
    pose proof (Hv2 (v / 4096) Hpg (Hv1 (v / 4096) ltac:(ulia))). by destruct (view st2 (v / 4096)).
  - intros v p fl Hv. destruct (virt_split v Hv) as (_ & _ & _ & Hpg & _).
    rewrite paging_query_view, Hview by done. destruct (view st2 (v / 4096)) as [pte |] eqn:E; [| done].
    intros [= <- <-].
    assert (Hb : v / 4096 * 4096 &! 0xFFFFF000 = v - v mod 4096)
      by (rewrite land_fffff000 by ulia; ulia).
    destruct (Hident _ _ Hpg E) as [-> | ->]; rewrite pte_val_base, pte_val_flags; auto.
Qed.

Lemma paging_init_identity_witness :
  let '(st', rc) := paging_init pg_empty 0xE0000000 1024 768 16 in
  rc = 0 /\ pg_inv st' /\ counted st' /\ paging_enabled st' = true /\ paging_cr3 st' = PAGING_PD_ADDR
  /\ (forall v, 0 <= v < PAGING_IDENTITY_END -> paging_query st' v <> None)
  /\ (forall v p fl, is_u32 v -> paging_query st' v = Some (p, fl) ->
       p = v - v mod 4096 /\ fl &! PTE_US = 0).
Proof. apply paging_init_identity; [done | done | unfold is_u32; lia]. Defined.
