(* ===== verification/Textenc.v ===== *)
(** * Textenc: file name transcoding and edit distance ([kernel/textenc.c])

    [utf16_to_utf8_c] and [utf8_to_utf16_c] are modelled on lists of code
    units and bytes; the result is the return value together with what was
    written to the destination (on -1 a prefix, which callers must not use).
    A NUL-terminated string is the list of its bytes before the NUL: reading at
    the end yields the terminator.  [levenshtein_c] keeps the two-row buffer
    with its parity-flipped indices. *)

From S2P Require Import Prelude.

(** ** UTF-16LE to UTF-8 *)

(** [put_utf8]: the bytes stored, or [None] for -1 (no room). *)
Definition put_utf8 (cp room : Z) : option (list Z) :=
  let need := if cp <? 0x80 then 1 else if cp <? 0x800 then 2 else if cp <? 0x10000 then 3 else 4 in
  if room <? need then None
  else if need =? 1 then Some [u8 cp]
  else if need =? 2 then Some [u8 (0xC0 |! Z.shiftr cp 6); u8 (0x80 |! (cp &! 0x3F))]
  else if need =? 3 then
    Some [u8 (0xE0 |! Z.shiftr cp 12); u8 (0x80 |! (Z.shiftr cp 6 &! 0x3F)); u8 (0x80 |! (cp &! 0x3F))]
  else
    Some [u8 (0xF0 |! Z.shiftr cp 18); u8 (0x80 |! (Z.shiftr cp 12 &! 0x3F));
          u8 (0x80 |! (Z.shiftr cp 6 &! 0x3F)); u8 (0x80 |! (cp &! 0x3F))].

(** The code point at the head of the remaining units, and whether the second
    unit was consumed as well. *)
Definition utf16_step (c : Z) (rest : list Z) : Z * bool :=
  if (0xD800 <=? c) && (c <? 0xDC00) then
    match rest with
    | lo :: _ =>
        if (0xDC00 <=? lo) && (lo <? 0xE000)
        then (0x10000 +! u32 (Z.shiftl (c -! 0xD800) 10) +! (lo -! 0xDC00), true)
        else (0xFFFD, false)
    | [] => (0xFFFD, false)
    end
  else if (0xDC00 <=? c) && (c <? 0xE000) then (0xFFFD, false)
  else (c, false).

(** The conversion loop: [out] is what has been written so far. *)
Fixpoint utf16_loop (src : list Z) (cap : Z) (out : list Z) : Z * list Z :=
  match src with
  | [] => (Z.of_nat (length out), out ++ [0])
  | c :: rest =>
      let '(cp, both) := utf16_step c rest in
      let used := Z.of_nat (length out) in
      if cap -! 1 <=? used then (-1, out)
      else
        match put_utf8 cp (cap -! 1 -! used) with
        | None => (-1, out)
        | Some bs =>
            match both, rest with
            | true, _ :: rest' => utf16_loop rest' cap (out ++ bs)
            | _, _ => utf16_loop rest cap (out ++ bs)
            end
        end
  end.

Definition utf16_to_utf8_c (src : list Z) (cap : Z) : Z * list Z :=
  if (Z.of_nat (length src) =? 0) || (cap =? 0) then (-1, [])
  else utf16_loop src cap [].

(** ** UTF-8 to UTF-16LE *)

Definition cont (b : Z) : Z := if negb (b &! 0xC0 =? 0x80) then -1 else b &! 0x3F.

(** The byte at offset [k] of the string [s]; 0 is its terminator. *)
Definition byte_at (s : list Z) (k : nat) : Z := nth k s 0.

(** One iteration's decision: the code point and the bytes consumed. *)
Definition utf8_step (s : list Z) : Z * nat :=
  let b := byte_at s 0 in
  if b <? 0x80 then (b, 1%nat)
  else if b <? 0xE0 then
    if b &! 0x1E =? 0 then (0xFFFD, 1%nat)
    else
      let c1 := cont (byte_at s 1) in
      if c1 <? 0 then (0xFFFD, 1%nat) else (Z.shiftl (b &! 0x1F) 6 |! c1, 2%nat)
  else if b <? 0xF0 then
    if (b &! 0x0F =? 0) && (b <? 0xE0) then (0xFFFD, 1%nat)
    else
      let c1 := cont (byte_at s 1) in
      if c1 <? 0 then (0xFFFD, 1%nat)
      else
        let c2 := cont (byte_at s 2) in
        if c2 <? 0 then (0xFFFD, 1%nat)
        else
          let v := Z.shiftl (b &! 0x0F) 12 |! Z.shiftl c1 6 |! c2 in
          if ((0xD800 <=? v) && (v <? 0xE000)) || (v <? 0x800) then (0xFFFD, 1%nat) else (v, 3%nat)
  else if b <? 0xF8 then
    let c1 := cont (byte_at s 1) in
    if c1 <? 0 then (0xFFFD, 1%nat)
    else
      let c2 := cont (byte_at s 2) in
      if c2 <? 0 then (0xFFFD, 1%nat)
      else
        let c3 := cont (byte_at s 3) in
        if c3 <? 0 then (0xFFFD, 1%nat)
        else
          let v := Z.shiftl (b &! 0x07) 18 |! Z.shiftl c1 12 |! Z.shiftl c2 6 |! c3 in
          if (v <? 0x10000) || (0x10FFFF <? v) then (0xFFFD, 1%nat) else (v, 4%nat)
  else (0xFFFD, 1%nat).

(** The loop over the remaining bytes; each iteration consumes at least one. *)
Fixpoint utf8_loop (fuel : nat) (s : list Z) (cap : Z) (out : list Z) : Z * list Z :=
  match fuel with
  | O => (-1, out)
  | S fuel' =>
      if byte_at s 0 =? 0 then (Z.of_nat (length out), out)
      else
        let '(cp, adv) := utf8_step s in
        let s := skipn adv s in
        let used := Z.of_nat (length out) in
        if 0x10000 <=? cp then
          if cap -! used <? 2 then (-1, out)
          else
            let v := cp -! 0x10000 in
            utf8_loop fuel' s cap
              (out ++ [u16 (0xD800 +! Z.shiftr v 10); u16 (0xDC00 +! (v &! 0x3FF))])
        else if cap -! used <? 1 then (-1, out)
        else utf8_loop fuel' s cap (out ++ [u16 cp])
  end.

Definition utf8_to_utf16_c (src : list Z) (cap : Z) : Z * list Z :=
  if cap =? 0 then (-1, []) else utf8_loop (S (length src)) src cap [].

(** ** Edit distance *)

Definition LEV_MAX : Z := 24.
Definition LEV_ROW : Z := LEV_MAX + 1.

(** [while (n < 64 && s[n]) n++]. *)
Fixpoint lev_len (fuel : nat) (s : list Z) (n : Z) : Z :=
  match fuel with
  | O => n
  | S fuel' => if (n <? 64) && negb (aget 0 s n =? 0) then lev_len fuel' s (n +! 1) else n
  end.

(** [for (j = 0; j <= blen; j++) b16[j] = j]. *)
Fixpoint lev_init (k : nat) (b16 : list Z) (j : Z) : list Z :=
  match k with O => b16 | S k' => lev_init k' (aset b16 j (u16 j)) (j +! 1) end.

(** The inner loop over [j = 1 .. blen]. *)
Fixpoint lev_cols (k : nat) (b16 : list Z) (cur prev ca : Z) (b : list Z) (j : Z) : list Z :=
  match k with
  | O => b16
  | S k' =>
      let cost := if ca =? aget 0 b (j -! 1) then 0 else 1 in
      let del := u16 (aget 0 b16 (prev +! j) + 1) in
      let ins := u16 (aget 0 b16 (cur +! j -! 1) + 1) in
      let sub := u16 (aget 0 b16 (prev +! j -! 1) + cost) in
      let m := if del <? ins then del else ins in
      lev_cols k' (aset b16 (cur +! j) (if m <? sub then m else sub)) cur prev ca b (j +! 1)
  end.

(** The outer loop over [i = 1 .. alen]. *)
Fixpoint lev_rows (k : nat) (b16 : list Z) (a b : list Z) (blen i : Z) : list Z :=
  match k with
  | O => b16
  | S k' =>
      let cur := (i mod 2) *! LEV_ROW in
      let prev := Z.lxor cur LEV_ROW in
      let b16 := aset b16 cur (u16 i) in
      lev_rows k' (lev_cols (Z.to_nat blen) b16 cur prev (aget 0 a (i -! 1)) b 1) a b blen (i +! 1)
  end.

Definition levenshtein_buffer_c (b16 a b : list Z) (limit : Z) : Z :=
  let alen := lev_len 64 a 0 in
  let blen := lev_len 64 b 0 in
  if (limit <? alen) || (limit <? blen) then s32 (limit + 1)
  else if alen =? 0 then blen
  else if blen =? 0 then alen
  else
    let b16 := lev_init (Z.to_nat blen + 1) b16 0 in
    let b16 := lev_rows (Z.to_nat alen) b16 a b blen 1 in
    aget 0 b16 ((alen mod 2) *! LEV_ROW +! blen).

(** [stack] is the indeterminate contents of the local array. *)
Definition levenshtein_c (stack a b : list Z) (limit : Z) : Z :=
  let r := levenshtein_buffer_c stack a b limit in
  if r <? 0 then limit +! 1 else r.

(** ** Reference encodings *)

Definition scalar (cp : Z) : Prop := 0 <= cp < 0xD800 \/ 0xE000 <= cp <= 0x10FFFF.

Definition utf8_enc (cp : Z) : list Z :=
  if cp <? 0x80 then [cp]
  else if cp <? 0x800 then [0xC0 + cp / 64; 0x80 + cp mod 64]
  else if cp <? 0x10000 then [0xE0 + cp / 4096; 0x80 + (cp / 64) mod 64; 0x80 + cp mod 64]
  else [0xF0 + cp / 262144; 0x80 + (cp / 4096) mod 64; 0x80 + (cp / 64) mod 64; 0x80 + cp mod 64].

Definition utf16_enc (cp : Z) : list Z :=
  if cp <? 0x10000 then [cp]
  else [0xD800 + (cp - 0x10000) / 1024; 0xDC00 + (cp - 0x10000) mod 1024].

(** Units to code points: pairs combine, a lone surrogate becomes U+FFFD. *)
Fixpoint utf16_decode (src : list Z) : list Z :=
  match src with
  | [] => []
  | c :: rest =>
      if (0xD800 <=? c) && (c <? 0xDC00) then
        match rest with
        | lo :: rest' =>
            if (0xDC00 <=? lo) && (lo <? 0xE000)
            then 0x10000 + (c - 0xD800) * 1024 + (lo - 0xDC00) :: utf16_decode rest'
            else 0xFFFD :: utf16_decode rest
        | [] => [0xFFFD]
        end
      else if (0xDC00 <=? c) && (c <? 0xE000) then 0xFFFD :: utf16_decode rest
      else c :: utf16_decode rest
  end.

(** *** Bit fields of the encodings *)

Lemma land_3f x : x &! 0x3F = x mod 64.
Proof. apply (land_low_mask x 6). lia. Qed.
Lemma land_1f x : x &! 0x1F = x mod 32.
Proof. apply (land_low_mask x 5). lia. Qed.
Lemma land_0f x : x &! 0x0F = x mod 16.
Proof. apply (land_low_mask x 4). lia. Qed.
Lemma land_07 x : x &! 0x07 = x mod 8.
Proof. apply (land_low_mask x 3). lia. Qed.
Lemma land_3ff x : x &! 0x3FF = x mod 1024.
Proof. apply (land_low_mask x 10). lia. Qed.

Lemma lor_c0 x : 0 <= x < 32 -> 0xC0 |! x = 0xC0 + x.
Proof. intros. apply (lor_low_add 0xC0 x 5); [lia | done | lia]. Qed.
Lemma lor_e0 x : 0 <= x < 16 -> 0xE0 |! x = 0xE0 + x.
Proof. intros. apply (lor_low_add 0xE0 x 4); [lia | done | lia]. Qed.
Lemma lor_f0 x : 0 <= x < 8 -> 0xF0 |! x = 0xF0 + x.
Proof. intros. apply (lor_low_add 0xF0 x 3); [lia | done | lia]. Qed.
Lemma lor_80 x : 0 <= x < 64 -> 0x80 |! x = 0x80 + x.
Proof. intros. apply (lor_low_add 0x80 x 6); [lia | done | lia]. Qed.

Lemma shiftl_lor a b k : 0 <= k -> 0 <= b < 2 ^ k -> Z.shiftl a k |! b = a * 2 ^ k + b.
Proof.
  intros Hk Hb. rewrite Z.shiftl_mul_pow2 by done. apply (lor_low_add _ _ k); [done | | done].
  apply Z.mod_mul. lia.
Qed.

Ltac shr := rewrite ?Z.shiftr_div_pow2 by lia; change (2 ^ 6) with 64; change (2 ^ 12) with 4096;
  change (2 ^ 18) with 262144; change (2 ^ 10) with 1024.

Lemma u8_small x : 0 <= x < 256 -> u8 x = x.
Proof. intros. apply Z.mod_small. exact H. Qed.
Lemma u16_small x : 0 <= x < 65536 -> u16 x = x.
Proof. intros. apply Z.mod_small. exact H. Qed.

Lemma put_utf8_enc cp room : 0 <= cp <= 0x10FFFF ->
  put_utf8 cp room = if room <? Z.of_nat (length (utf8_enc cp)) then None else Some (utf8_enc cp).
Proof.
  intros Hcp. unfold put_utf8, utf8_enc. rewrite !land_3f. shr.
  destruct (Z.ltb_spec cp 0x80); [| destruct (Z.ltb_spec cp 0x800); [| destruct (Z.ltb_spec cp 0x10000)]];
    cbn [length Z.eqb Pos.eqb]; change (Z.of_nat 1) with 1; change (Z.of_nat 2) with 2;
    change (Z.of_nat 3) with 3; change (Z.of_nat 4) with 4.
  - by rewrite u8_small by lia.
  - rewrite lor_c0, lor_80 by ulia. by rewrite !u8_small by ulia.
  - rewrite lor_e0, !lor_80 by ulia. by rewrite !u8_small by ulia.
  - rewrite lor_f0, !lor_80 by ulia. by rewrite !u8_small by ulia.
Qed.

(** Case split on the two comparisons that pick the class of a unit. *)
Lemma utf16_step_decode c rest : is_u16 c -> Forall is_u16 rest ->
  exists cp both, utf16_step c rest = (cp, both) /\ scalar cp
    /\ utf16_decode (c :: rest) = cp :: utf16_decode (if both : bool then tail rest else rest)
    /\ (both = true -> exists lo rest', rest = lo :: rest').
Proof.
  intros Hc Hr. unfold utf16_step. cbn [utf16_decode]. unfold is_u16 in Hc. change (2 ^ 16) with 65536 in Hc.
  destruct (Z.leb_spec 0xD800 c), (Z.ltb_spec c 0xDC00); cbn [andb];
    destruct (Z.leb_spec 0xDC00 c), (Z.ltb_spec c 0xE000); try lia; cbn [andb];
    try (eexists _, false; split; [reflexivity |]; split; [unfold scalar; lia | done]).
  destruct rest as [| lo rest]; [eexists _, false; split; [reflexivity |]; split; [unfold scalar; lia | done] |].
  apply Forall_cons in Hr as [Hlo _]. unfold is_u16 in Hlo. change (2 ^ 16) with 65536 in Hlo.
  destruct (Z.leb_spec 0xDC00 lo), (Z.ltb_spec lo 0xE000); cbn [andb];
    try (eexists _, false; split; [reflexivity |]; split; [unfold scalar; lia | done]).
  eexists _, true. split; [reflexivity |]. rewrite Z.shiftl_mul_pow2 by lia. change (2 ^ 10) with 1024.
  assert (E : 0x10000 +! u32 ((c -! 0xD800) * 1024) +! (lo -! 0xDC00)
    = 0x10000 + (c - 0xD800) * 1024 + (lo - 0xDC00)) by ulia.
  rewrite E. split; [unfold scalar; lia |]. split; [done |]. eauto.
Qed.

Lemma utf8_enc_length cp : (1 <= length (utf8_enc cp) <= 4)%nat.
Proof. unfold utf8_enc. repeat case_match; simpl; lia. Qed.

Lemma utf16_loop_spec n : forall src cap out, (length src <= n)%nat -> Forall is_u16 src ->
  0 < cap < 2 ^ 32 -> Z.of_nat (length out) < cap ->
  let e := flat_map utf8_enc (utf16_decode src) in
  let '(ret, o) := utf16_loop src cap out in
  Z.of_nat (length o) <= cap /\
  if Z.of_nat (length (out ++ e)) <? cap
  then ret = Z.of_nat (length (out ++ e)) /\ o = out ++ e ++ [0] else ret = -1.
Proof.
  induction n as [| n IH]; intros src cap out Hn Hs Hcap Hout.
  { destruct src; [| simpl in Hn; lia]. simpl. rewrite app_nil_r, length_app. simpl.
    split; [lia |]. by destruct (Z.ltb_spec (Z.of_nat (length out)) cap); [| lia]. }
  destruct src as [| c rest].
  { simpl. rewrite app_nil_r, length_app. simpl.
    split; [lia |]. by destruct (Z.ltb_spec (Z.of_nat (length out)) cap); [| lia]. }
  apply Forall_cons in Hs as [Hc Hr]. cbn [utf16_loop].
  destruct (utf16_step_decode c rest Hc Hr) as (cp & both & -> & Hsc & -> & Hboth).
  rewrite !(u32_small (cap - 1)) by (unfold is_u32; lia). cbv zeta. cbn [flat_map].
  set (e' := flat_map utf8_enc _).
  pose proof (utf8_enc_length cp) as Hl. rewrite length_app, length_app.
  destruct (Z.leb_spec (cap - 1) (Z.of_nat (length out))).
  { split; [lia |]. destruct (Z.ltb_spec (Z.of_nat (length out + (length (utf8_enc cp) + length e'))) cap); [lia | done]. }
  rewrite u32_small by (unfold is_u32; lia).
  rewrite put_utf8_enc by (unfold scalar in Hsc; lia).
  destruct (Z.ltb_spec (cap - 1 - Z.of_nat (length out)) (Z.of_nat (length (utf8_enc cp)))).
  { split; [lia |]. destruct (Z.ltb_spec (Z.of_nat (length out + (length (utf8_enc cp) + length e'))) cap); [lia | done]. }
  assert (Hstep : forall src', (length src' <= n)%nat -> Forall is_u16 src' ->
    e' = flat_map utf8_enc (utf16_decode src') ->
    let '(ret, o) := utf16_loop src' cap (out ++ utf8_enc cp) in
    Z.of_nat (length o) <= cap /\
    (if Z.of_nat (length out + (length (utf8_enc cp) + length e')) <? cap
     then ret = Z.of_nat (length out + (length (utf8_enc cp) + length e'))
       /\ o = out ++ (utf8_enc cp ++ e') ++ [0] else ret = -1)).
  { intros src' Hn' Hs' ->. specialize (IH src' cap (out ++ utf8_enc cp) Hn' Hs' Hcap).
    specialize (IH ltac:(rewrite length_app; lia)). cbv zeta in IH.
    destruct (utf16_loop src' cap (out ++ utf8_enc cp)) as [ret o].
    rewrite <- !app_assoc in IH. rewrite !length_app in IH. rewrite <- !app_assoc. exact IH. }
  simpl in Hn. destruct both.
  - destruct (Hboth eq_refl) as (lo & rest' & ->). apply Forall_cons in Hr as [_ Hr].
    apply Hstep; [simpl in Hn; lia | done | reflexivity].
  - apply Hstep; [lia | done | reflexivity].
Qed.

(** UTF-16 to UTF-8, for every sequence of 16-bit units and every
    capacity: the output is the UTF-8 encoding of the decoded code points
    (lone surrogates replaced by U+FFFD) with its terminator when it fits,
    and -1 exactly when it does not; no byte is stored past the capacity. *)
Theorem utf16_to_utf8_exact (src : list Z) (cap : Z)
    (Hs : Forall is_u16 src) (Hne : src <> []) (Hcap : is_u32 cap) :
  let e := flat_map utf8_enc (utf16_decode src) in
  let '(ret, o) := utf16_to_utf8_c src cap in
  Z.of_nat (length o) <= cap /\ Forall scalar (utf16_decode src) /\
  if Z.of_nat (length e) <? cap then ret = Z.of_nat (length e) /\ o = e ++ [0] else ret = -1.
Proof.
  assert (Hdec : Forall scalar (utf16_decode src)).
  { assert (H : forall n s, (length s <= n)%nat -> Forall is_u16 s -> Forall scalar (utf16_decode s)).
    { induction n as [| n IH]; intros [| c rest] Hn Hs'; simpl in Hn; try lia; try constructor.
      apply Forall_cons in Hs' as [Hc Hr].
      destruct (utf16_step_decode c rest Hc Hr) as (cp & both & _ & Hsc & -> & Hb).
      constructor; [done |]. destruct both; [| apply IH; [lia | done]].
      destruct (Hb eq_refl) as (lo & rest' & ->). apply Forall_cons in Hr as [_ Hr].
      apply IH; [simpl in *; lia | done]. }
    by apply (H (length src)). }
  unfold utf16_to_utf8_c, is_u32 in *. destruct src as [| c rest]; [done |].
  destruct (Z.eqb_spec (Z.of_nat (length (c :: rest))) 0); [simpl in *; lia |]. cbn [orb].
  destruct (Z.eqb_spec cap 0) as [-> |].
  - cbn zeta. split; [done |]. split; [done |].
    by destruct (Z.ltb_spec (Z.of_nat (length (flat_map utf8_enc (utf16_decode (c :: rest))))) 0); [lia |].
  - pose proof (utf16_loop_spec (length (c :: rest)) (c :: rest) cap [] (le_n _) Hs ltac:(lia)
      ltac:(simpl; lia)) as H. cbv zeta in H.
    destruct (utf16_loop (c :: rest) cap []) as [ret o]. destruct H as [H1 H2]. by split_and!.
Qed.

Lemma utf16_to_utf8_exact_witness :
  let e := flat_map utf8_enc (utf16_decode [0x4E2D; 0xD83D; 0xDE00; 0xDC00]) in
  let '(ret, o) := utf16_to_utf8_c [0x4E2D; 0xD83D; 0xDE00; 0xDC00] 11 in
  Z.of_nat (length o) <= 11 /\ Forall scalar (utf16_decode [0x4E2D; 0xD83D; 0xDE00; 0xDC00]) /\
  if Z.of_nat (length e) <? 11 then ret = Z.of_nat (length e) /\ o = e ++ [0] else ret = -1.
Proof.
  apply utf16_to_utf8_exact; [repeat constructor; unfold is_u16; lia | done | unfold is_u32; lia].
Defined.

(** *** Decoding UTF-8 *)

Lemma cont_spec b : 0 <= b < 256 -> cont b = if (0x80 <=? b) && (b <? 0xC0) then b - 0x80 else -1.
Proof.
  intros Hb. apply Z.eqb_eq.
  apply (forall_below 256 (fun b => cont b =? if (0x80 <=? b) && (b <? 0xC0) then b - 0x80 else -1));
    [by vm_compute | done].
Qed.

Lemma cont_byte x : 0 <= x < 64 -> cont (0x80 + x) = x.
Proof. intros. rewrite cont_spec by lia. destruct (Z.leb_spec 0x80 (0x80 + x)), (Z.ltb_spec (0x80 + x) 0xC0); simpl; lia. Qed.

(** The two sides of the lead-byte test of the two-byte form. *)
Lemma land_1e b : 0 <= b < 256 -> 0x80 <= b < 0xE0 ->
  (b &! 0x1E =? 0) = ((b <? 0x82) || ((0xA0 <=? b) && (b <? 0xA2)) || ((0xC0 <=? b) && (b <? 0xC2))).
Proof.
  intros Hb Hr. apply eqb_true_iff.
  pose proof (forall_below 256 (fun b => implb ((0x80 <=? b) && (b <? 0xE0)) (eqb (b &! 0x1E =? 0)
    ((b <? 0x82) || ((0xA0 <=? b) && (b <? 0xA2)) || ((0xC0 <=? b) && (b <? 0xC2)))))
    ltac:(by vm_compute) b Hb) as H. cbv beta in H.
  destruct (Z.leb_spec 0x80 b), (Z.ltb_spec b 0xE0); try lia; exact H.
Qed.

Lemma utf8_step_enc cp rest : scalar cp -> cp <> 0 ->
  utf8_step (utf8_enc cp ++ rest) = (cp, length (utf8_enc cp)).
Proof.
  intros Hsc H0. unfold scalar in Hsc. unfold utf8_enc.
  destruct (Z.ltb_spec cp 0x80); [| destruct (Z.ltb_spec cp 0x800); [| destruct (Z.ltb_spec cp 0x10000)]];
    unfold utf8_step, byte_at; cbn [nth app length].
  - by destruct (Z.ltb_spec cp 0x80); [| lia].
  - destruct (Z.ltb_spec (0xC0 + cp / 64) 0x80); [ulia |].
    destruct (Z.ltb_spec (0xC0 + cp / 64) 0xE0); [| ulia].
    rewrite land_1e by ulia.
    destruct (Z.ltb_spec (0xC0 + cp / 64) 0x82); [ulia |].
    destruct (Z.ltb_spec (0xC0 + cp / 64) 0xA2); [ulia |].
    destruct (Z.ltb_spec (0xC0 + cp / 64) 0xC2); [ulia |]. rewrite !andb_false_r. cbn [orb].
    rewrite cont_byte by ulia. destruct (Z.ltb_spec (cp mod 64) 0); [ulia |].
    rewrite land_1f, shiftl_lor by ulia. f_equal. change (2 ^ 6) with 64. ulia.
  - destruct (Z.ltb_spec (0xE0 + cp / 4096) 0x80); [ulia |].
    destruct (Z.ltb_spec (0xE0 + cp / 4096) 0xE0); [ulia |].
    destruct (Z.ltb_spec (0xE0 + cp / 4096) 0xF0); [| ulia]. rewrite andb_false_r.
    rewrite !cont_byte by ulia. destruct (Z.ltb_spec ((cp / 64) mod 64) 0); [ulia |].
    destruct (Z.ltb_spec (cp mod 64) 0); [ulia |]. cbv zeta.
    rewrite land_0f, <- Z.lor_assoc, (shiftl_lor ((cp / 64) mod 64)), shiftl_lor by ulia.
    change (2 ^ 12) with 4096. change (2 ^ 6) with 64.
    assert (E : (0xE0 + cp / 4096) mod 16 * 4096 + ((cp / 64) mod 64 * 64 + cp mod 64) = cp) by ulia.
    rewrite E. destruct (Z.leb_spec 0xD800 cp), (Z.ltb_spec cp 0xE000), (Z.ltb_spec cp 0x800); try lia; done.
  - destruct (Z.ltb_spec (0xF0 + cp / 262144) 0x80); [ulia |].
    destruct (Z.ltb_spec (0xF0 + cp / 262144) 0xE0); [ulia |].
    destruct (Z.ltb_spec (0xF0 + cp / 262144) 0xF0); [ulia |].
    destruct (Z.ltb_spec (0xF0 + cp / 262144) 0xF8); [| ulia].
    rewrite !cont_byte by ulia. destruct (Z.ltb_spec ((cp / 4096) mod 64) 0); [ulia |].
    destruct (Z.ltb_spec ((cp / 64) mod 64) 0); [ulia |].
    destruct (Z.ltb_spec (cp mod 64) 0); [ulia |]. cbv zeta.
    rewrite land_07, <- !Z.lor_assoc, (shiftl_lor ((cp / 64) mod 64)),
      (shiftl_lor ((cp / 4096) mod 64)), shiftl_lor by ulia.
    change (2 ^ 18) with 262144. change (2 ^ 12) with 4096. change (2 ^ 6) with 64.
    assert (E : (0xF0 + cp / 262144) mod 8 * 262144 + ((cp / 4096) mod 64 * 4096 +
      ((cp / 64) mod 64 * 64 + cp mod 64)) = cp) by ulia.
    rewrite E. destruct (Z.ltb_spec cp 0x10000), (Z.ltb_spec 0x10FFFF cp); try lia; done.
Qed.

Lemma byte_at_range s k : Forall is_u8 s -> 0 <= byte_at s k < 256.
Proof.
  intros Hs. unfold byte_at. destruct (nth_in_or_default k s 0) as [Hin | ->]; [| lia].
  rewrite Forall_forall in Hs. apply (Hs (nth k s 0)). by apply list_elem_of_In.
Qed.

Lemma cont_inside s k : Forall is_u8 s -> 0 <= cont (byte_at s k) -> (k < length s)%nat.
Proof.
  intros Hs Hc. destruct (Nat.lt_ge_cases k (length s)); [done |].
  unfold byte_at in Hc. rewrite nth_overflow in Hc by done. by vm_compute in Hc.
Qed.

Lemma cont_range s k : Forall is_u8 s -> cont (byte_at s k) < 64.
Proof.
  intros Hs. rewrite cont_spec by (by apply byte_at_range).
  destruct (Z.leb_spec 0x80 (byte_at s k)), (Z.ltb_spec (byte_at s k) 0xC0); simpl; lia.
Qed.

(** Whatever the bytes are, a step yields a nonzero scalar value and consumes
    at least one byte and none after the terminator. *)
Lemma utf8_step_safe s : Forall is_u8 s -> byte_at s 0 <> 0 ->
  let '(cp, adv) := utf8_step s in scalar cp /\ cp <> 0 /\ (1 <= adv <= length s)%nat.
Proof.
  intros Hs H0. assert (Hlen : (1 <= length s)%nat) by (destruct s; simpl in *; [done | lia]).
  pose proof (byte_at_range s 0 Hs) as Hb.
  pose proof (cont_range s 1 Hs). pose proof (cont_range s 2 Hs). pose proof (cont_range s 3 Hs).
  pose proof (cont_inside s 1 Hs) as Hi1. pose proof (cont_inside s 2 Hs) as Hi2.
  pose proof (cont_inside s 3 Hs) as Hi3.
  assert (Hbad : scalar 0xFFFD /\ 0xFFFD <> 0 /\ (1 <= 1 <= length s)%nat)
    by (unfold scalar; split_and!; lia).
  unfold utf8_step. set (b := byte_at s 0) in *. set (c1 := cont (byte_at s 1)) in *.
  set (c2 := cont (byte_at s 2)) in *. set (c3 := cont (byte_at s 3)) in *.
  clearbody b c1 c2 c3. cbv zeta.
  destruct (Z.ltb_spec b 0x80); [unfold scalar; split_and!; lia |].
  destruct (Z.ltb_spec b 0xE0); [| destruct (Z.ltb_spec b 0xF0); [| destruct (Z.ltb_spec b 0xF8); [| done]]].
  - rewrite land_1e by lia.
    destruct ((b <? 0x82) || ((0xA0 <=? b) && (b <? 0xA2)) || ((0xC0 <=? b) && (b <? 0xC2)))%bool eqn:E; [done |].
    destruct (Z.ltb_spec c1 0); [done |].
    rewrite land_1f, shiftl_lor by (change (2 ^ 6) with 64; lia). change (2 ^ 6) with 64.
    assert (2 <= b mod 32 < 32).
    { destruct (Z.ltb_spec b 0x82), (Z.leb_spec 0xA0 b), (Z.ltb_spec b 0xA2), (Z.leb_spec 0xC0 b),
        (Z.ltb_spec b 0xC2); try discriminate E; ulia. }
    unfold scalar. split_and!; lia.
  - destruct (_ && _)%bool; [done |]. destruct (Z.ltb_spec c1 0); [done |]. destruct (Z.ltb_spec c2 0); [done |].
    set (v := Z.shiftl (b &! 0x0F) 12 |! Z.shiftl c1 6 |! c2).
    assert (Hv : 0 <= v < 0x10000).
    { unfold v. rewrite land_0f, <- Z.lor_assoc, (shiftl_lor c1), shiftl_lor by
        (change (2 ^ 12) with 4096; change (2 ^ 6) with 64; lia). change (2 ^ 12) with 4096. change (2 ^ 6) with 64. ulia. }
    clearbody v. destruct (Z.leb_spec 0xD800 v), (Z.ltb_spec v 0xE000), (Z.ltb_spec v 0x800); cbn [andb orb];
      try done; unfold scalar; split_and!; lia.
  - destruct (Z.ltb_spec c1 0); [done |]. destruct (Z.ltb_spec c2 0); [done |]. destruct (Z.ltb_spec c3 0); [done |].
    set (v := Z.shiftl (b &! 0x07) 18 |! Z.shiftl c1 12 |! Z.shiftl c2 6 |! c3). clearbody v.
    destruct (Z.ltb_spec v 0x10000), (Z.ltb_spec 0x10FFFF v); cbn [orb]; try done; unfold scalar; split_and!; lia.
Qed.

Lemma utf16_enc_written cp : scalar cp ->
  (if 0x10000 <=? cp
   then [u16 (0xD800 +! Z.shiftr (cp -! 0x10000) 10); u16 (0xDC00 +! ((cp -! 0x10000) &! 0x3FF))]
   else [u16 cp]) = utf16_enc cp.
Proof.
  intros Hs. unfold scalar in Hs. unfold utf16_enc.
  destruct (Z.leb_spec 0x10000 cp), (Z.ltb_spec cp 0x10000); try lia.
  - rewrite land_3ff. shr. rewrite (u32_small (cp - 0x10000)) by ulia.
    rewrite !u32_small by ulia. by rewrite !u16_small by ulia.
  - by rewrite u16_small by lia.
Qed.

Lemma utf16_enc_u16 cp : scalar cp -> Forall is_u16 (utf16_enc cp).
Proof.
  intros Hs. unfold scalar in Hs. unfold utf16_enc. destruct (Z.ltb_spec cp 0x10000); repeat constructor; ulia.
Qed.

Lemma utf16_decode_enc cp rest : scalar cp -> utf16_decode (utf16_enc cp ++ rest) = cp :: utf16_decode rest.
Proof.
  intros Hs. unfold scalar in Hs. unfold utf16_enc. destruct (Z.ltb_spec cp 0x10000); cbn [app utf16_decode].
  - destruct (Z.leb_spec 0xD800 cp), (Z.ltb_spec cp 0xDC00), (Z.leb_spec 0xDC00 cp), (Z.ltb_spec cp 0xE000);
      cbn [andb]; try lia; done.
  - destruct (Z.leb_spec 0xD800 (0xD800 + (cp - 0x10000) / 1024)); [| ulia].
    destruct (Z.ltb_spec (0xD800 + (cp - 0x10000) / 1024) 0xDC00); [| ulia]. cbn [andb].
    destruct (Z.leb_spec 0xDC00 (0xDC00 + (cp - 0x10000) mod 1024)); [| ulia].
    destruct (Z.ltb_spec (0xDC00 + (cp - 0x10000) mod 1024) 0xE000); [| ulia]. cbn [andb].
    f_equal. ulia.
Qed.

(** The code points a byte string stands for, ill-formed parts replaced. *)
Fixpoint utf8_cps (fuel : nat) (s : list Z) : list Z :=
  match fuel with
  | O => []
  | S fuel' =>
      if byte_at s 0 =? 0 then []
      else let '(cp, adv) := utf8_step s in cp :: utf8_cps fuel' (skipn adv s)
  end.
Definition utf8_decode (s : list Z) : list Z := utf8_cps (S (length s)) s.

Lemma utf8_loop_spec fuel : forall s cap out, Forall is_u8 s -> (length s < fuel)%nat ->
  0 < cap < 2 ^ 32 -> Z.of_nat (length out) <= cap ->
  let cps := utf8_cps fuel s in
  let u := flat_map utf16_enc cps in
  let '(ret, o) := utf8_loop fuel s cap out in
  Forall (fun cp => scalar cp /\ cp <> 0) cps /\ Z.of_nat (length o) <= cap /\
  if Z.of_nat (length (out ++ u)) <=? cap
  then ret = Z.of_nat (length (out ++ u)) /\ o = out ++ u else ret = -1.
Proof.
  induction fuel as [| fuel IH]; intros s cap out Hs Hf Hcap Hout; [lia |].
  cbn [utf8_loop utf8_cps]. destruct (Z.eqb_spec (byte_at s 0) 0) as [| H0].
  { cbn [flat_map]. rewrite app_nil_r. split; [done |]. split; [done |].
    by destruct (Z.leb_spec (Z.of_nat (length out)) cap); [| lia]. }
  pose proof (utf8_step_safe s Hs H0) as Hst. destruct (utf8_step s) as [cp adv].
  destruct Hst as (Hsc & Hcp & Hadv). cbv zeta.
  assert (Hs' : Forall is_u8 (skipn adv s)) by (by apply Forall_drop).
  assert (Hf' : (length (skipn adv s) < fuel)%nat) by (rewrite length_skipn; lia).
  pose proof (utf16_enc_written cp Hsc) as Hw.
  assert (Hlen : Z.of_nat (length (utf16_enc cp)) = if 0x10000 <=? cp then 2 else 1).
  { rewrite <- Hw. by destruct (0x10000 <=? cp). }
  rewrite (u32_small (cap - Z.of_nat (length out))) by (unfold is_u32; lia).
  cbn [flat_map]. set (e' := flat_map utf16_enc (utf8_cps fuel (skipn adv s))) in *.
  assert (Hfit : Z.of_nat (length (out ++ utf16_enc cp)) <= cap ->
    let '(ret, o) := utf8_loop fuel (skipn adv s) cap (out ++ utf16_enc cp) in
    Forall (fun cp => scalar cp /\ cp <> 0) (cp :: utf8_cps fuel (skipn adv s))
    /\ Z.of_nat (length o) <= cap /\
    if Z.of_nat (length (out ++ utf16_enc cp ++ e')) <=? cap
    then ret = Z.of_nat (length (out ++ utf16_enc cp ++ e')) /\ o = out ++ utf16_enc cp ++ e'
    else ret = -1).
  { intros Hle. specialize (IH (skipn adv s) cap (out ++ utf16_enc cp) Hs' Hf' Hcap Hle). cbv zeta in IH.
    fold e' in IH. destruct (utf8_loop fuel _ cap _) as [ret o]. rewrite <- app_assoc in IH.
    destruct IH as (H1 & H2 & H3). split; [by constructor |]. split; [done | exact H3]. }
  assert (Hfail : cap < Z.of_nat (length (out ++ utf16_enc cp)) ->
    Forall (fun cp => scalar cp /\ cp <> 0) (cp :: utf8_cps fuel (skipn adv s))
    /\ Z.of_nat (length out) <= cap /\
    if Z.of_nat (length (out ++ utf16_enc cp ++ e')) <=? cap
    then -1 = Z.of_nat (length (out ++ utf16_enc cp ++ e')) /\ out = out ++ utf16_enc cp ++ e'
    else -1 = -1).
  { intros Hlt. split; [constructor; [done |] | split; [done |]].
    - specialize (IH (skipn adv s) cap [] Hs' Hf' Hcap ltac:(simpl; lia)). cbv zeta in IH.
      destruct (utf8_loop fuel _ cap []). apply IH.
    - rewrite !length_app in *.
      destruct (Z.leb_spec (Z.of_nat (length out + (length (utf16_enc cp) + length e'))) cap); [lia | done]. }
  rewrite length_app in Hfit, Hfail.
  destruct (0x10000 <=? cp).
  - rewrite Hw. destruct (Z.ltb_spec (cap - Z.of_nat (length out)) 2); [apply Hfail; lia | apply Hfit; lia].
  - rewrite Hw. destruct (Z.ltb_spec (cap - Z.of_nat (length out)) 1); [apply Hfail; lia | apply Hfit; lia].
Qed.

(** UTF-8 to UTF-16, for every byte string: the conversion stops, the
    result is well-formed UTF-16 (encodings of nonzero scalar values, never a
    lone surrogate or an embedded NUL), complete when it fits and -1 exactly
    when it does not, and no unit is stored past the capacity. *)
Theorem utf8_to_utf16_exact (src : list Z) (cap : Z) (Hs : Forall is_u8 src) (Hcap : is_u32 cap) :
  let u := flat_map utf16_enc (utf8_decode src) in
  let '(ret, o) := utf8_to_utf16_c src cap in
  Forall (fun cp => scalar cp /\ cp <> 0) (utf8_decode src) /\ Z.of_nat (length o) <= cap /\
  if negb (cap =? 0) && (Z.of_nat (length u) <=? cap)
  then ret = Z.of_nat (length u) /\ o = u else ret = -1.
Proof.
  pose proof (fun c Hc => utf8_loop_spec (S (length src)) src c [] Hs ltac:(lia) Hc ltac:(simpl; lia)) as H.
  cbv zeta in H. unfold utf8_to_utf16_c, is_u32, utf8_decode in *.
  destruct (Z.eqb_spec cap 0) as [-> |]; cbn [negb andb].
  - specialize (H 1 ltac:(lia)). destruct (utf8_loop _ src 1 []). by split_and!; [apply H | |].
  - specialize (H cap ltac:(lia)). by destruct (utf8_loop _ src cap []).
Qed.

Lemma utf8_to_utf16_exact_witness :
  let u := flat_map utf16_enc (utf8_decode [0x41; 0xC0; 0x80; 0xF0; 0x9F; 0x98; 0x80]) in
  let '(ret, o) := utf8_to_utf16_c [0x41; 0xC0; 0x80; 0xF0; 0x9F; 0x98; 0x80] 8 in
  Forall (fun cp => scalar cp /\ cp <> 0) (utf8_decode [0x41; 0xC0; 0x80; 0xF0; 0x9F; 0x98; 0x80])
  /\ Z.of_nat (length o) <= 8 /\
  if negb (8 =? 0) && (Z.of_nat (length u) <=? 8)
  then ret = Z.of_nat (length u) /\ o = u else ret = -1.
Proof. apply utf8_to_utf16_exact; [repeat constructor; unfold is_u8; lia | unfold is_u32; lia]. Defined.

Lemma utf8_enc_head cp : scalar cp -> cp <> 0 -> byte_at (utf8_enc cp) 0 <> 0 /\ Forall is_u8 (utf8_enc cp).
Proof.
  intros Hs H0. unfold scalar in Hs. unfold utf8_enc. repeat case_match; btrue; unfold byte_at; simpl;
    (split; [ulia | repeat constructor; ulia]).
Qed.

Lemma utf8_cps_enc cps : forall fuel, Forall (fun cp => scalar cp /\ cp <> 0) cps ->
  (length cps < fuel)%nat -> utf8_cps fuel (flat_map utf8_enc cps) = cps.
Proof.
  induction cps as [| cp cps IH]; intros fuel Hc Hf; (destruct fuel as [| fuel]; [lia |]); [done |].
  apply Forall_cons in Hc as [[Hsc H0] Hc]. cbn [flat_map utf8_cps].
  destruct (utf8_enc_head cp Hsc H0) as [Hh _]. pose proof (utf8_enc_length cp) as Hl.
  assert (Hb : byte_at (utf8_enc cp ++ flat_map utf8_enc cps) 0 = byte_at (utf8_enc cp) 0)
    by (unfold byte_at; by rewrite app_nth1 by lia).
  rewrite Hb. destruct (Z.eqb_spec (byte_at (utf8_enc cp) 0) 0); [done |].
  rewrite utf8_step_enc, skipn_app, skipn_all, Nat.sub_diag by done. cbn [skipn app].
  f_equal. apply IH; [done | simpl in Hf; lia].
Qed.

Lemma flat_map_length_ge {A B} (f : A -> list B) l :
  (forall x, (1 <= length (f x))%nat) -> (length l <= length (flat_map f l))%nat.
Proof. intros H. induction l as [| x l IH]; simpl; [lia |]. rewrite length_app. specialize (H x). lia. Qed.

(** Round trip: for every text of nonzero scalar values and large enough
    buffers, the two conversions give its UTF-8 and its UTF-16 encoding, so
    each undoes the other. *)
Theorem utf16_utf8_roundtrip (cps : list Z) (cap8 cap16 : Z)
    (Hc : Forall (fun cp => scalar cp /\ cp <> 0) cps) (Hne : cps <> [])
    (H8 : Z.of_nat (length (flat_map utf8_enc cps)) < cap8 < 2 ^ 32)
    (H16 : Z.of_nat (length (flat_map utf16_enc cps)) <= cap16 < 2 ^ 32) :
  let u := flat_map utf16_enc cps in
  let e := flat_map utf8_enc cps in
  utf16_to_utf8_c u cap8 = (Z.of_nat (length e), e ++ [0]) /\
  utf8_to_utf16_c e cap16 = (Z.of_nat (length u), u).
Proof.
  cbv zeta.
  assert (Hdec : utf16_decode (flat_map utf16_enc cps) = cps /\ Forall is_u16 (flat_map utf16_enc cps)
    /\ Forall is_u8 (flat_map utf8_enc cps)).
  { clear Hne H8 H16. induction Hc as [| cp cps [Hsc H0] _ (IH1 & IH2 & IH3)]; [done |]. cbn [flat_map].
    rewrite utf16_decode_enc, IH1 by done. split; [done |].
    split; apply Forall_app; split; auto using utf16_enc_u16. by apply utf8_enc_head. }
  destruct Hdec as (Hd & Hu & Hb).
  assert (Hl16 : (length cps <= length (flat_map utf16_enc cps))%nat)
    by (apply flat_map_length_ge; intros x; unfold utf16_enc; case_match; simpl; lia).
  assert (Hl8 : (length cps <= length (flat_map utf8_enc cps))%nat)
    by (apply flat_map_length_ge; intros x; pose proof (utf8_enc_length x); lia).
  assert (Hlen : (1 <= length cps)%nat) by (destruct cps; simpl in *; [done | lia]).
  split.
  - unfold utf16_to_utf8_c.
    destruct (Z.eqb_spec (Z.of_nat (length (flat_map utf16_enc cps))) 0), (Z.eqb_spec cap8 0); try lia. cbn [orb].
    pose proof (utf16_loop_spec (length (flat_map utf16_enc cps)) _ cap8 [] (le_n _) Hu ltac:(lia)
      ltac:(simpl; lia)) as H. cbv zeta in H. rewrite Hd in H.
    destruct (utf16_loop _ cap8 []) as [ret o]. destruct H as [_ H]. cbn [app] in H.
    destruct (Z.ltb_spec (Z.of_nat (length (flat_map utf8_enc cps))) cap8); [| lia]. by destruct H as [-> ->].
  - unfold utf8_to_utf16_c. destruct (Z.eqb_spec cap16 0); [lia |].
    pose proof (utf8_loop_spec (S (length (flat_map utf8_enc cps))) _ cap16 [] Hb ltac:(lia) ltac:(lia)
      ltac:(simpl; lia)) as H. cbv zeta in H. rewrite utf8_cps_enc in H by (done || lia).
    destruct (utf8_loop _ _ cap16 []) as [ret o]. destruct H as (_ & _ & H). cbn [app] in H.
    destruct (Z.leb_spec (Z.of_nat (length (flat_map utf16_enc cps))) cap16); [| lia]. by destruct H as [-> ->].
Qed.

Lemma utf16_utf8_roundtrip_witness :
  let u := flat_map utf16_enc [0x48; 0x4E2D; 0x1F600] in
  let e := flat_map utf8_enc [0x48; 0x4E2D; 0x1F600] in
  utf16_to_utf8_c u 64 = (Z.of_nat (length e), e ++ [0]) /\
  utf8_to_utf16_c e 64 = (Z.of_nat (length u), u).
Proof.
  apply (utf16_utf8_roundtrip [0x48; 0x4E2D; 0x1F600] 64 64);
    [repeat constructor; unfold scalar; lia | done | by vm_compute | by vm_compute].
Defined.

(** A stray continuation byte 0x82..0x9F or 0xA2..0xBF followed by another one
    is decoded as if it were the lead byte of a two-byte sequence, although
    the contract of the file says that ill-formed UTF-8 gives U+FFFD and
    advances by one byte. *)
Lemma stray_continuation_decoded :
  utf8_to_utf16_c [0x82; 0x80] 8 = (1, [0x80]) /\ utf8_to_utf16_c [0x80; 0x80] 8 = (2, [0xFFFD; 0xFFFD]).
Proof. by vm_compute. Qed.

(** ** Edit distance *)

(** [edits a b c]: [b] is obtained from [a] by edits of total cost [c] (one per
    deleted, inserted or replaced byte), read from left to right. *)
Inductive edits : list Z -> list Z -> Z -> Prop :=
| ed_nil : edits [] [] 0
| ed_del a b x c : edits a b c -> edits (a ++ [x]) b (c + 1)
| ed_ins a b y c : edits a b c -> edits a (b ++ [y]) (c + 1)
| ed_sub a b x y c : edits a b c -> edits (a ++ [x]) (b ++ [y]) (c + if x =? y then 0 else 1).

(** The textbook recurrence on prefix lengths. *)
Fixpoint dist (a b : list Z) (i : nat) : nat -> Z :=
  fix dist_i (j : nat) : Z :=
    match i, j with
    | O, _ => Z.of_nat j
    | S i', O => Z.of_nat i
    | S i', S j' =>
        Z.min (Z.min (dist a b i' j + 1) (dist_i j' + 1))
              (dist a b i' j' + if nth i' a 0 =? nth j' b 0 then 0 else 1)
    end.

Lemma dist_0_l a b j : dist a b 0 j = Z.of_nat j.
Proof. by destruct j. Qed.
Lemma dist_0_r a b i : dist a b i 0 = Z.of_nat i.
Proof. by destruct i. Qed.
Lemma dist_S a b i j : dist a b (S i) (S j) =
  Z.min (Z.min (dist a b i (S j) + 1) (dist a b (S i) j + 1))
        (dist a b i j + if nth i a 0 =? nth j b 0 then 0 else 1).
Proof. reflexivity. Qed.
#[global] Arguments dist : simpl never.

Lemma dist_bounds a b i : forall j, 0 <= dist a b i j <= Z.of_nat i + Z.of_nat j.
Proof.
  induction i as [| i IHi]; intros j; [rewrite dist_0_l; lia |].
  induction j as [| j IHj]; [rewrite dist_0_r; lia |]. rewrite dist_S.
  pose proof (IHi j). pose proof (IHi (S j)). destruct (nth i a 0 =? nth j b 0); lia.
Qed.

Lemma take_snoc (l : list Z) i : (i < length l)%nat -> take (S i) l = take i l ++ [nth i l 0].
Proof.
  intros H. apply take_S_r. destruct (lookup_lt_is_Some_2 l i H) as [x Hx].
  by rewrite (nth_lookup_Some _ _ 0 x Hx).
Qed.

(** [dist] is attained ... *)
Lemma dist_edits a b i : forall j, (i <= length a)%nat -> (j <= length b)%nat ->
  edits (take i a) (take j b) (dist a b i j).
Proof.
  induction i as [| i IHi]; intros j Hi Hj.
  - rewrite dist_0_l. induction j as [| j IHj]; [constructor |]. rewrite take_snoc by lia.
    rewrite Nat2Z.inj_succ, <- Z.add_1_r. constructor. apply IHj. lia.
  - induction j as [| j IHj].
    + rewrite dist_0_r, take_snoc by lia. specialize (IHi O ltac:(lia) ltac:(lia)).
      rewrite dist_0_r in IHi. rewrite Nat2Z.inj_succ, <- Z.add_1_r. by constructor.
    + rewrite dist_S.
      destruct (Z.min_spec (Z.min (dist a b i (S j) + 1) (dist a b (S i) j + 1))
        (dist a b i j + if nth i a 0 =? nth j b 0 then 0 else 1)) as [[_ ->] | [_ ->]].
      * destruct (Z.min_spec (dist a b i (S j) + 1) (dist a b (S i) j + 1)) as [[_ ->] | [_ ->]].
        -- rewrite (take_snoc a) by lia. constructor. apply IHi; lia.
        -- rewrite (take_snoc b) by lia. constructor. apply IHj; lia.
      * rewrite !take_snoc by lia. constructor. apply IHi; lia.
Qed.

(** ... and is a lower bound. *)
Lemma dist_minimal a b p q c : edits p q c -> forall i j, (i <= length a)%nat -> (j <= length b)%nat ->
  p = take i a -> q = take j b -> dist a b i j <= c.
Proof.
  assert (Hlen : forall (l l' : list Z) x i, (i <= length l)%nat -> l' ++ [x] = take i l ->
    exists i', i = S i' /\ l' = take i' l /\ x = nth i' l 0).
  { intros l l' x [| i] Hi Hl; [by destruct l' |]. exists i. split; [done |].
    rewrite take_snoc in Hl by lia. by apply app_inj_tail in Hl as [-> ->]. }
  induction 1 as [| p q x c _ IH | p q y c _ IH | p q x y c _ IH]; intros i j Hi Hj Hp Hq.
  - assert (i = O) as -> by (apply (f_equal length) in Hp; rewrite length_take in Hp; simpl in Hp; lia).
    assert (j = O) as -> by (apply (f_equal length) in Hq; rewrite length_take in Hq; simpl in Hq; lia).
    rewrite dist_0_l. simpl. lia.
  - destruct (Hlen a p x i Hi Hp) as (i' & -> & -> & ->). specialize (IH i' j ltac:(lia) Hj eq_refl Hq).
    destruct j as [| j]; [rewrite dist_0_r in *; lia | rewrite dist_S; lia].
  - destruct (Hlen b q y j Hj Hq) as (j' & -> & -> & ->). specialize (IH i j' Hi ltac:(lia) Hp eq_refl).
    destruct i as [| i]; [rewrite dist_0_l in *; lia | rewrite dist_S; lia].
  - destruct (Hlen a p x i Hi Hp) as (i' & -> & -> & ->). destruct (Hlen b q y j Hj Hq) as (j' & -> & -> & ->).
    specialize (IH i' j' ltac:(lia) ltac:(lia) eq_refl eq_refl). rewrite dist_S. lia.
Qed.

(** *** The rolling two-row table *)

Definition row_is (b16 : list Z) (p : Z) (d : nat -> Z) (n : nat) : Prop :=
  forall j, (j < n)%nat -> aget 0 b16 (p + Z.of_nat j) = d j.

Lemma aget_aset_zz l i j v : 0 <= i < Z.of_nat (length l) -> 0 <= j ->
  aget 0 (aset l i v) j = if i =? j then v else aget 0 l j.
Proof.
  intros Hi Hj. destruct (Z.eqb_spec i j) as [-> |]; [by apply aget_aset_eq | apply aget_aset_ne; lia].
Qed.

Lemma lev_init_spec k : forall b16 j, length b16 = 50%nat -> 0 <= j -> j + Z.of_nat k <= 25 ->
  (forall x, 0 <= x < j -> aget 0 b16 x = x) ->
  length (lev_init k b16 j) = 50%nat /\ forall x, 0 <= x < j + Z.of_nat k -> aget 0 (lev_init k b16 j) x = x.
Proof.
  induction k as [| k IH]; intros b16 j Hl Hj Hk Hx; cbn [lev_init].
  - split; [done |]. intros x Hxx. apply Hx. lia.
  - ured. rewrite u16_small by lia. destruct (IH (aset b16 j j) (j + 1)) as [H1 H2]; try lia.
    + by rewrite length_aset.
    + intros x Hxx. rewrite aget_aset_zz by (rewrite ?Hl; lia). destruct (Z.eqb_spec j x); [done | apply Hx; lia].
    + split; [done |]. intros x Hxx. apply H2. lia.
Qed.

Lemma lev_cols_spec a b i k : forall b16 cur prev j,
  length b16 = 50%nat -> (cur = 0 /\ prev = 25 \/ cur = 25 /\ prev = 0) ->
  (S i <= 24)%nat -> (j + k <= 24)%nat ->
  row_is b16 prev (dist a b i) (S (j + k)) -> row_is b16 cur (dist a b (S i)) (S j) ->
  let r := lev_cols k b16 cur prev (nth i a 0) b (Z.of_nat (S j)) in
  length r = 50%nat /\ row_is r cur (dist a b (S i)) (S (j + k)).
Proof.
  induction k as [| k IH]; intros b16 cur prev j Hl Hcp Hi Hjk Hp Hc; cbv zeta; cbn [lev_cols].
  { split; [done |]. by rewrite Nat.add_0_r. }
  rewrite !(u32_small (_ + Z.of_nat (S j))) by (unfold is_u32; lia).
  rewrite !u32_small by (unfold is_u32; lia).
  set (m := if _ <? _ then _ else _).
  assert (Hm : m = dist a b (S i) (S j)).
  { unfold m. rewrite dist_S.
    replace (Z.of_nat (S j) - 1) with (Z.of_nat j) by lia.
    replace (prev + Z.of_nat (S j) - 1) with (prev + Z.of_nat j) by lia.
    replace (cur + Z.of_nat (S j) - 1) with (cur + Z.of_nat j) by lia.
    rewrite (Hp (S j)), (Hp j), (Hc j) by lia.
    change (aget 0 b (Z.of_nat j)) with (nth (Z.to_nat (Z.of_nat j)) b 0). rewrite Nat2Z.id.
    pose proof (dist_bounds a b i (S j)). pose proof (dist_bounds a b i j).
    pose proof (dist_bounds a b (S i) j).
    rewrite !u16_small by (destruct (nth i a 0 =? nth j b 0); lia).
    destruct (Z.ltb_spec (dist a b i (S j) + 1) (dist a b (S i) j + 1));
      destruct (nth i a 0 =? nth j b 0); bcase; lia. }
  rewrite Hm. clearbody m. clear Hm.
  assert (Hst : forall x, (0 <= x) -> aget 0 (aset b16 (cur + Z.of_nat (S j)) (dist a b (S i) (S j))) x =
    if cur + Z.of_nat (S j) =? x then dist a b (S i) (S j) else aget 0 b16 x)
    by (intros x Hx; apply aget_aset_zz; [rewrite Hl; lia | done]).
  replace (Z.of_nat (S j) + 1) with (Z.of_nat (S (S j))) by lia.
  replace (j + S k)%nat with (S j + k)%nat by lia.
  apply IH; [by rewrite length_aset | done | done | lia | |].
  - intros x Hx. rewrite Hst by lia. destruct (Z.eqb_spec (cur + Z.of_nat (S j)) (prev + Z.of_nat x)); [lia |].
    apply Hp. lia.
  - intros x Hx. rewrite Hst by lia. destruct (Z.eqb_spec (cur + Z.of_nat (S j)) (cur + Z.of_nat x)).
    + replace x with (S j) by lia. done.
    + apply Hc. lia.
Qed.

Lemma lev_parity i : (i mod 2) *! LEV_ROW = 0 /\ Z.lxor ((i mod 2) *! LEV_ROW) LEV_ROW = 25
    /\ ((i - 1) mod 2) *! LEV_ROW = 25
  \/ (i mod 2) *! LEV_ROW = 25 /\ Z.lxor ((i mod 2) *! LEV_ROW) LEV_ROW = 0
    /\ ((i - 1) mod 2) *! LEV_ROW = 0.
Proof.
  assert (H : i mod 2 = 0 /\ (i - 1) mod 2 = 1 \/ i mod 2 = 1 /\ (i - 1) mod 2 = 0) by ulia.
  destruct H as [[-> ->] | [-> ->]]; [left | right]; by vm_compute.
Qed.

Lemma lev_rows_spec a b n k : forall b16 i, length b16 = 50%nat ->
  (i + k <= 24)%nat -> (n <= 24)%nat ->
  row_is b16 ((Z.of_nat i mod 2) *! LEV_ROW) (dist a b i) (S n) ->
  let r := lev_rows k b16 a b (Z.of_nat n) (Z.of_nat (S i)) in
  row_is r ((Z.of_nat (i + k) mod 2) *! LEV_ROW) (dist a b (i + k)) (S n).
Proof.
  induction k as [| k IH]; intros b16 i Hl Hik Hn Hrow; cbv zeta; cbn [lev_rows].
  { by rewrite Nat.add_0_r. }
  rewrite (u32_small (Z.of_nat (S i) - 1)), (u32_small (Z.of_nat (S i) + 1)) by (unfold is_u32; lia).
  rewrite u16_small by lia.
  replace (Z.of_nat (S i) - 1) with (Z.of_nat i) by lia.
  replace (Z.of_nat (S i) + 1) with (Z.of_nat (S (S i))) by lia.
  replace (i + S k)%nat with (S i + k)%nat by lia.
  change (aget 0 a (Z.of_nat i)) with (nth (Z.to_nat (Z.of_nat i)) a 0). rewrite !Nat2Z.id.
  pose proof (lev_parity (Z.of_nat (S i))) as Hpar.
  replace (Z.of_nat (S i) - 1) with (Z.of_nat i) in Hpar by lia.
  rewrite (u32_small (Z.of_nat (S i) mod 2 * LEV_ROW)) in * by (unfold LEV_ROW, LEV_MAX; ulia).
  set (cur := Z.of_nat (S i) mod 2 * LEV_ROW) in *. set (prev := Z.lxor cur LEV_ROW) in *.
  assert (Hcp : (cur = 0 /\ prev = 25 \/ cur = 25 /\ prev = 0) /\ (Z.of_nat i mod 2) *! LEV_ROW = prev)
    by (destruct Hpar as [(? & ? & ?) | (? & ? & ?)]; split; [auto | congruence | auto | congruence]).
  destruct Hcp as [Hcp Eprev]. rewrite Eprev in Hrow. clear Hpar Eprev.
  destruct (lev_cols_spec a b i n (aset b16 cur (Z.of_nat (S i))) cur prev 0) as [Hl' Hrow'].
  - by rewrite length_aset.
  - done.
  - lia.
  - lia.
  - intros x Hx. rewrite aget_aset_zz by (rewrite ?Hl; lia).
    destruct (Z.eqb_spec cur (prev + Z.of_nat x)); [lia |]. apply Hrow. lia.
  - intros x Hx. rewrite aget_aset_zz by (rewrite ?Hl; lia). replace x with O by lia. rewrite Z.add_0_r, Z.eqb_refl.
    by rewrite dist_0_r.
  - apply IH; [done | lia | done |].
    rewrite (u32_small (Z.of_nat (S i) mod 2 * LEV_ROW)) by (unfold LEV_ROW, LEV_MAX; ulia). exact Hrow'.
Qed.

Lemma lev_len_spec fuel : forall s n, no_nul s -> 0 <= n <= 64 ->
  n <= Z.of_nat (length s) -> 64 - n <= Z.of_nat fuel ->
  lev_len fuel s n = Z.min 64 (Z.of_nat (length s)).
Proof.
  induction fuel as [| fuel IH]; intros s n Hs Hn Hl Hf; cbn [lev_len]; [lia |].
  destruct (Z.ltb_spec n 64); cbn [andb]; [| lia].
  destruct (Z.eqb_spec (aget 0 s n) 0) as [E | E]; cbn [negb].
  - destruct (Z.lt_ge_cases n (Z.of_nat (length s))); [| lia]. exfalso.
    pose proof (lookup_aget 0 s n ltac:(lia)) as Hx. unfold no_nul in Hs.
    rewrite Forall_lookup in Hs. by apply (Hs _ _ Hx).
  - destruct (Z.lt_ge_cases n (Z.of_nat (length s))).
    + rewrite u32_small by (unfold is_u32; lia). apply IH; auto; lia.
    + exfalso. apply E. unfold aget. apply nth_overflow. lia.
Qed.

(** C32. [levenshtein_c] computes the edit distance: for NUL-free strings no
    longer than the limit (at most 24, the size of its table) the result,
    whatever the stack buffer held, is the cost of some edit sequence and no
    edit sequence is cheaper; any longer string gives [limit + 1]. *)
Theorem levenshtein_minimal (stack a b : list Z) (limit : Z)
    (Hstack : length stack = 50%nat) (Hlim : 0 <= limit <= LEV_MAX) (Ha : no_nul a) (Hb : no_nul b) :
  let r := levenshtein_c stack a b limit in
  if (Z.of_nat (length a) <=? limit) && (Z.of_nat (length b) <=? limit)
  then edits a b r /\ forall c, edits a b c -> r <= c
  else r = limit + 1.
Proof.
  cbv zeta. unfold levenshtein_c, levenshtein_buffer_c, LEV_MAX in *.
  rewrite !lev_len_spec by (auto; simpl; lia).
  set (la := length a). set (lb := length b).
  destruct (Z.leb_spec (Z.of_nat la) limit), (Z.leb_spec (Z.of_nat lb) limit),
    (Z.ltb_spec limit (Z.min 64 (Z.of_nat la))), (Z.ltb_spec limit (Z.min 64 (Z.of_nat lb)));
    try lia; cbn [andb orb];
    try (rewrite s32_small by lia; destruct (Z.ltb_spec (limit + 1) 0); lia).
  assert (Hspec : dist a b la lb = dist a b (length a) (length b)) by done.
  assert (Hgoal : forall r, r = dist a b la lb ->
    edits a b (if r <? 0 then limit +! 1 else r) /\
    forall c, edits a b c -> (if r <? 0 then limit +! 1 else r) <= c).
  { intros r ->. pose proof (dist_bounds a b la lb). destruct (Z.ltb_spec (dist a b la lb) 0); [lia |]. split.
    - pose proof (dist_edits a b la lb (le_n _) (le_n _)) as He. unfold la, lb in He. by rewrite !firstn_all in He.
    - intros c Hc. apply (dist_minimal a b a b c Hc la lb); unfold la, lb; by rewrite ?firstn_all. }
  replace (Z.min 64 (Z.of_nat la)) with (Z.of_nat la) by lia.
  replace (Z.min 64 (Z.of_nat lb)) with (Z.of_nat lb) by lia.
  destruct (Z.eqb_spec (Z.of_nat la) 0); [apply Hgoal; replace la with O by lia; by rewrite dist_0_l |].
  destruct (Z.eqb_spec (Z.of_nat lb) 0); [apply Hgoal; replace lb with O by lia; by rewrite dist_0_r |].
  apply Hgoal. clear Hgoal Hspec. rewrite !Nat2Z.id.
  set (b0 := lev_init _ stack 0).
  destruct (lev_init_spec (lb + 1) stack 0 Hstack ltac:(lia) ltac:(lia) ltac:(lia)) as [Hl0 Hr0].
  fold b0 in Hl0, Hr0.
  pose proof (lev_rows_spec a b lb la b0 0 Hl0 ltac:(lia) ltac:(lia)) as Hrows. cbv zeta in Hrows.
  change (Z.of_nat 1) with 1 in Hrows. cbn [Nat.add] in Hrows.
  rewrite u32_small by (pose proof (lev_parity (Z.of_nat la)); unfold is_u32; lia).
  apply Hrows; [| lia]. intros x Hx. change ((Z.of_nat 0 mod 2) *! LEV_ROW) with 0. rewrite Z.add_0_l, Hr0 by lia.
  by rewrite dist_0_l.
Qed.

Lemma levenshtein_minimal_witness :
  let r := levenshtein_c (replicate 50 7) (bytes "kitten") (bytes "sitting") 24 in
  if (Z.of_nat (length (bytes "kitten")) <=? 24) && (Z.of_nat (length (bytes "sitting")) <=? 24)
  then edits (bytes "kitten") (bytes "sitting") r /\
       forall c, edits (bytes "kitten") (bytes "sitting") c -> r <= c
  else r = 24 + 1.
Proof.
  apply levenshtein_minimal; [done | unfold LEV_MAX; lia | |];
    repeat (constructor; [by vm_compute |]); constructor.
Defined.
