(* ===== verification/Rtc.v ===== *)
(** * Rtc: the CMOS real-time clock ([kernel/rtc.c])

    The CMOS is an environment: [cmos n r] is the byte that register [r]
    yields at the [n]-th access and [addr n] the byte found in the address
    port just before.  [rtc_init] threads the access counter and the log of
    bytes it writes to the address port; [rtc_now] is a pure function of the
    snapshot and the tick counter. *)

From S2P Require Import Prelude.

Definition REG_SEC : Z := 0x00.
Definition REG_MIN : Z := 0x02.
Definition REG_HOUR : Z := 0x04.
Definition REG_DAY : Z := 0x07.
Definition REG_MON : Z := 0x08.
Definition REG_YEAR : Z := 0x09.
Definition REG_CENT : Z := 0x32.
Definition REG_STA : Z := 0x0A.
Definition REG_STB : Z := 0x0B.
Definition STA_UIP : Z := 0x80.
Definition STB_24H : Z := 0x02.
Definition STB_BINARY : Z := 0x04.
Definition RTC_TZ_HOURS : Z := 8.

(** The module's static variables. *)
Record rtc_state := mk_rtc {
  g_ok : Z;
  g_base_tick : Z;
  g_base_sec : Z;
  g_base_day : Z;
}.

Record rtc_time_t := mk_time {
  year : Z; month : Z; day : Z; hour : Z; minute : Z; second : Z;
}.

(** ** Calendar arithmetic *)

Definition is_leap (y : Z) : bool :=
  ((y mod 4 =? 0) && negb (y mod 100 =? 0)) || (y mod 400 =? 0).

Definition month_days : list Z := [31; 28; 31; 30; 31; 30; 31; 31; 30; 31; 30; 31].

Definition days_in_month (y m : Z) : Z :=
  if (m =? 2) && is_leap y then 29
  else if (1 <=? m) && (m <=? 12) then aget 0 month_days (m -! 1) else 0.

Definition year_days (y : Z) : Z := if is_leap y then 366 else 365.

(** [for (yy = from; ...; yy++) days += ...], [k] times. *)
Fixpoint add_years (k : nat) (yy days : Z) : Z :=
  match k with O => days | S k' => add_years k' (yy +! 1) (days +! year_days yy) end.
Fixpoint add_months (k : nat) (y mm days : Z) : Z :=
  match k with O => days | S k' => add_months k' y (mm +! 1) (days +! days_in_month y mm) end.

Definition ymd_to_days (y m d : Z) : Z :=
  if (y <? 1970) || (m <? 1) || (12 <? m) || (d <? 1) then 0
  else
    let days := add_years (Z.to_nat (y - 1970)) 1970 0 in
    let days := add_months (Z.to_nat (m - 1)) y 1 days in
    if days_in_month y m <? d then 0 else days +! (d -! 1).

(** The year loop of [days_to_ymd]: the year and the day within it, [None] for
    the guard against dates after 2200. *)
Fixpoint split_year (fuel : nat) (days yy : Z) : option (Z * Z) :=
  match fuel with
  | O => None
  | S fuel' =>
      let span := year_days yy in
      if days <? span then Some (yy, days)
      else
        let days := days -! span in
        let yy := yy +! 1 in
        if 2200 <? yy then None else split_year fuel' days yy
  end.

(** [while (mm <= 12)]: the month and the day within it. *)
Fixpoint split_month (fuel : nat) (y days mm : Z) : Z * Z :=
  match fuel with
  | O => (mm, days)
  | S fuel' =>
      if mm <=? 12 then
        let dim := days_in_month y mm in
        if days <? dim then (mm, days) else split_month fuel' y (days -! dim) (mm +! 1)
      else (mm, days)
  end.

(** 1970..2200 are 231 years. *)
Definition days_to_ymd (days : Z) : Z * Z * Z :=
  match split_year 231 days 1970 with
  | None => (1970, 1, 1)
  | Some (yy, days) => let '(mm, days) := split_month 12 yy days 1 in (yy, mm, days +! 1)
  end.

(** ** Reading the clock *)

Section CMOS.
Variable cmos : nat -> Z -> Z.
Variable addr : nat -> Z.

(** Access counter and the bytes written to the address port. *)
Definition port_log : Type := nat * list Z.

Definition cmos_read (s : port_log) (reg : Z) : port_log * Z :=
  let '(n, log) := s in
  ((S n, log ++ [u8 ((addr n &! 0x80) |! (reg &! 0x7F))]), cmos n reg).

(** [cmos_wait_ready]: 0 ready, 1 stuck, after at most [fuel] reads. *)
Fixpoint cmos_wait_ready (fuel : nat) (s : port_log) : port_log * Z :=
  match fuel with
  | O => (s, 1)
  | S fuel' =>
      let '(s, v) := cmos_read s REG_STA in
      if v &! STA_UIP =? 0 then (s, 0) else cmos_wait_ready fuel' s
  end.

Definition from_bcd (v : Z) : Z := (v &! 0x0F) + Z.shiftr v 4 * 10.
Definition cmos_num (binary : bool) (v : Z) : Z := if binary then v else from_bcd v.

Definition cmos_val (s : port_log) (reg : Z) (binary : bool) : port_log * Z :=
  let '(s, v) := cmos_read s reg in (s, cmos_num binary v).

(** The raw hour of a 12-hour clock. *)
Definition hour12 (binary : bool) (raw : Z) : Z :=
  let v := cmos_num binary raw in
  if negb (raw &! 0x80 =? 0) then (v &! 0x7F) +! 12 else if v =? 12 then 0 else v.

Definition full_year (binary : bool) (cent yr : Z) : Z :=
  let c := cmos_num binary cent in
  if (19 <=? c) && (c <=? 21) then c *! 100 +! yr
  else if 70 <=? yr then 1900 +! yr else 2000 +! yr.

(** [while (sod >= 86400)]: the carry into the day; 2 rounds are enough. *)
Fixpoint carry_days (fuel : nat) (sod d : Z) : Z * Z :=
  match fuel with
  | O => (sod, d)
  | S fuel' => if 86400 <=? sod then carry_days fuel' (sod -! 86400) (d +! 1) else (sod, d)
  end.

(** The validated snapshot of a reading, [None] for an early return. *)
Definition snapshot (year mon day hr min sec : Z) : option (Z * Z) :=
  if (59 <? sec) || (59 <? min) || (23 <? hr) then None
  else if (mon <? 1) || (12 <? mon) || (day <? 1) then None
  else if days_in_month year mon <? day then None
  else if (year <? 1980) || (2200 <? year) then None
  else
    let sod := hr *! 3600 +! min *! 60 +! sec in
    let sod := sod +! RTC_TZ_HOURS *! 3600 in
    let d := ymd_to_days year mon day in
    if d =? 0 then None else Some (carry_days 2 sod d).

Definition rtc_init (pit_ticks pit_ticks_end : Z) (wait : nat) (s : port_log) : port_log * rtc_state :=
  let fail := mk_rtc 0 pit_ticks 0 0 in
  let '(s, stuck) := cmos_wait_ready wait s in
  if negb (stuck =? 0) then (s, fail)
  else
    let '(s, stb) := cmos_read s REG_STB in
    let binary := negb (stb &! STB_BINARY =? 0) in
    let h24 := negb (stb &! STB_24H =? 0) in
    let '(s, sec) := cmos_val s REG_SEC binary in
    let '(s, min) := cmos_val s REG_MIN binary in
    let '(s, hr) := cmos_val s REG_HOUR binary in
    let '(s, day) := cmos_val s REG_DAY binary in
    let '(s, mon) := cmos_val s REG_MON binary in
    let '(s, yr) := cmos_val s REG_YEAR binary in
    let '(s, hr) := if negb h24 then let '(s, raw) := cmos_read s REG_HOUR in (s, hour12 binary raw)
                    else (s, hr) in
    let '(s, cent) := cmos_read s REG_CENT in
    match snapshot (full_year binary cent yr) mon day hr min sec with
    | None => (s, fail)
    | Some (sod, d) => (s, mk_rtc 1 pit_ticks_end sod d)
    end.
End CMOS.

Definition WAIT_READS : nat := Z.to_nat 100000.

Definition rtc_valid (st : rtc_state) : Z := if negb (g_ok st =? 0) then 1 else 0.

(** [rtc_now]: [None] for -1 (the output is not modified). *)
Definition rtc_now (st : rtc_state) (pit_ticks : Z) : option rtc_time_t :=
  if g_ok st =? 0 then None
  else
    let ms := pit_ticks -! g_base_tick st in
    let total := g_base_sec st +! ms / 1000 in
    let days := g_base_day st +! total / 86400 in
    let sod := total mod 86400 in
    let '(y, m, d) := days_to_ymd days in
    Some (mk_time (u16 y) (u8 m) (u8 d) (u8 (sod / 3600)) (u8 (sod mod 3600 / 60)) (u8 (sod mod 60))).

(** ** FAT time stamps *)

Definition rtc_fat_date (t : rtc_time_t) : Z :=
  let y := if 1980 <=? year t then year t else 1980 in
  let y := if 2107 <? y then 2107 else y in
  let m := if (1 <=? month t) && (month t <=? 12) then month t else 1 in
  let d := if (1 <=? day t) && (day t <=? 31) then day t else 1 in
  u16 (Z.shiftl (y -! 1980) 9 |! Z.shiftl m 5 |! d).

Definition rtc_fat_time (t : rtc_time_t) : Z :=
  let h := if hour t <=? 23 then hour t else 0 in
  let m := if minute t <=? 59 then minute t else 0 in
  let s := if second t <=? 59 then second t else 0 in
  u16 (Z.shiftl h 11 |! Z.shiftl m 5 |! (s / 2)).

(** ** The calendar is a bijection *)

Lemma year_days_range y : 365 <= year_days y <= 366.
Proof. unfold year_days. destruct (is_leap y); lia. Qed.

(** Days from 1 January 1970 to 1 January of [1970 + k]. *)
Fixpoint days_before (k : nat) : Z :=
  match k with O => 0 | S k' => days_before k' + year_days (1970 + Z.of_nat k') end.

Lemma days_before_range k : 365 * Z.of_nat k <= days_before k <= 366 * Z.of_nat k.
Proof. induction k as [| k IH]; simpl; [lia |]. pose proof (year_days_range (1970 + Z.of_nat k)). lia. Qed.

Lemma add_years_spec k : forall j, (j + k <= 231)%nat ->
  add_years k (1970 + Z.of_nat j) (days_before j) = days_before (j + k).
Proof.
  induction k as [| k IH]; intros j Hj; cbn [add_years]; [by rewrite Nat.add_0_r |].
  pose proof (days_before_range j). pose proof (year_days_range (1970 + Z.of_nat j)).
  rewrite !u32_small by (unfold is_u32; lia).
  replace (1970 + Z.of_nat j + 1) with (1970 + Z.of_nat (S j)) by lia.
  change (days_before j + year_days (1970 + Z.of_nat j)) with (days_before (S j)).
  rewrite IH by lia. f_equal. lia.
Qed.

Lemma split_year_spec n : forall fuel j r, (n < fuel)%nat -> (j + n <= 230)%nat ->
  0 <= r < year_days (1970 + Z.of_nat (j + n)) ->
  split_year fuel (days_before (j + n) - days_before j + r) (1970 + Z.of_nat j)
    = Some (1970 + Z.of_nat (j + n), r).
Proof.
  induction n as [| n IH]; intros fuel j r Hf Hj Hr; (destruct fuel as [| fuel]; [lia |]); cbn [split_year].
  - rewrite Nat.add_0_r in *. rewrite Z.sub_diag, Z.add_0_l.
    by destruct (Z.ltb_spec r (year_days (1970 + Z.of_nat j))); [| lia].
  - pose proof (year_days_range (1970 + Z.of_nat j)) as Hy.
    assert (Hmono : days_before (S j) <= days_before (j + S n)).
    { replace (j + S n)%nat with (S j + n)%nat by lia. clear. induction n as [| n IH]; [by rewrite Nat.add_0_r |].
      rewrite Nat.add_succ_r. cbn [days_before].
      pose proof (year_days_range (1970 + Z.of_nat (S j + n))). cbn [days_before] in IH. lia. }
    pose proof (days_before_range (j + S n)) as Hdb. pose proof (days_before_range j) as Hdj.
    pose proof (year_days_range (1970 + Z.of_nat (j + S n))) as Hyn.
    cbn [days_before] in Hmono.
    destruct (Z.ltb_spec (days_before (j + S n) - days_before j + r) (year_days (1970 + Z.of_nat j))); [lia |].
    rewrite !u32_small by (unfold is_u32; lia).
    destruct (Z.ltb_spec 2200 (1970 + Z.of_nat j + 1)); [lia |].
    replace (1970 + Z.of_nat j + 1) with (1970 + Z.of_nat (S j)) by lia.
    replace (days_before (j + S n) - days_before j + r - year_days (1970 + Z.of_nat j))
      with (days_before (S j + n) - days_before (S j) + r)
      by (replace (j + S n)%nat with (S j + n)%nat by lia; cbn [days_before]; lia).
    replace (j + S n)%nat with (S j + n)%nat in * by lia. apply IH; try lia.
Qed.

(** Months depend on the year only through its length. *)
Definition dim (leap : bool) (m : Z) : Z :=
  if (m =? 2) && leap then 29 else if (1 <=? m) && (m <=? 12) then aget 0 month_days (m -! 1) else 0.

Fixpoint add_months' (k : nat) (leap : bool) (mm days : Z) : Z :=
  match k with O => days | S k' => add_months' k' leap (mm +! 1) (days +! dim leap mm) end.
Fixpoint split_month' (fuel : nat) (leap : bool) (days mm : Z) : Z * Z :=
  match fuel with
  | O => (mm, days)
  | S fuel' =>
      if mm <=? 12 then
        if days <? dim leap mm then (mm, days) else split_month' fuel' leap (days -! dim leap mm) (mm +! 1)
      else (mm, days)
  end.

Lemma add_months_dim k : forall y mm days, add_months k y mm days = add_months' k (is_leap y) mm days.
Proof. induction k as [| k IH]; intros; [done |]. cbn [add_months add_months']. by rewrite IH. Qed.

Lemma split_month_dim k : forall y days mm, split_month k y days mm = split_month' k (is_leap y) days mm.
Proof. induction k as [| k IH]; intros; [done |]. cbn [split_month split_month']. by rewrite IH. Qed.

Lemma dim_range leap m : 0 <= m < 13 -> 0 <= dim leap m <= 31.
Proof.
  intros Hm. assert (H : forallb (fun m => (0 <=? dim leap m) && (dim leap m <=? 31)) (seqZ 0 13) = true)
    by (destruct leap; by vm_compute).
  pose proof (forall_below 13 _ H m Hm) as H'. cbv beta in H'. btrue. lia.
Qed.

Lemma add_months_shift k : forall leap mm days, 0 <= days -> days + 31 * Z.of_nat k < 2 ^ 32 ->
  1 <= mm -> mm + Z.of_nat k <= 13 ->
  add_months' k leap mm days = days + add_months' k leap mm 0 /\ 0 <= add_months' k leap mm 0 <= 31 * Z.of_nat k.
Proof.
  induction k as [| k IH]; intros leap mm days Hd Hb Hm Hk; cbn [add_months']; [lia |].
  pose proof (dim_range leap mm ltac:(lia)).
  rewrite !u32_small by (unfold is_u32; lia).
  destruct (IH leap (mm + 1) (days + dim leap mm)) as [-> _]; try lia.
  destruct (IH leap (mm + 1) (0 + dim leap mm)) as [-> ?]; lia.
Qed.

(** Month and day of a day of the year, and back, checked on both kinds of year. *)
Definition month_start (leap : bool) (m : Z) : Z := add_months' (Z.to_nat (m - 1)) leap 1 0.

Lemma split_month_start leap m d : 1 <= m <= 12 -> 1 <= d <= dim leap m ->
  split_month' 12 leap (month_start leap m + (d - 1)) 1 = (m, d - 1)
  /\ 0 <= month_start leap m + (d - 1) < if leap then 366 else 365.
Proof.
  intros Hm Hd. pose proof (dim_range leap m ltac:(lia)) as Hr.
  assert (H : forallb (fun m => forallb (fun d => implb ((1 <=? m) && (1 <=? d) && (d <=? dim leap m))
      (let r := month_start leap m + (d - 1) in let '(m', d') := split_month' 12 leap r 1 in
       (m' =? m) && (d' =? d - 1) && (0 <=? r) && (r <? if leap then 366 else 365)))
      (seqZ 0 32)) (seqZ 0 13) = true) by (destruct leap; by vm_compute).
  pose proof (forall_below 13 _ H m ltac:(lia)) as H1. cbv beta in H1.
  pose proof (forall_below 32 _ H1 d ltac:(lia)) as H2. cbv beta zeta in H2.
  replace ((1 <=? m) && (1 <=? d) && (d <=? dim leap m))%bool with true in H2
    by (symmetry; rewrite !andb_true_iff, !Z.leb_le; lia).
  cbn [implb] in H2. destruct (split_month' 12 leap _ 1) as [m' d'].
  btrue. split; [f_equal; lia | lia].
Qed.

Lemma split_month_inv leap r : 0 <= r < (if leap : bool then 366 else 365) ->
  let '(m, d) := split_month' 12 leap r 1 in
  1 <= m <= 12 /\ 0 <= d < dim leap m /\ month_start leap m + d = r.
Proof.
  intros Hr.
  assert (H : forallb (fun r => implb (r <? if leap then 366 else 365)
      (let '(m, d) := split_month' 12 leap r 1 in
       (1 <=? m) && (m <=? 12) && (0 <=? d) && (d <? dim leap m) && (month_start leap m + d =? r)))
      (seqZ 0 366) = true) by (destruct leap; by vm_compute).
  pose proof (forall_below 366 _ H r ltac:(destruct leap; lia)) as H1. cbv beta in H1.
  destruct (Z.ltb_spec r (if leap then 366 else 365)); [cbn [implb] in H1 | lia].
  destruct (split_month' 12 leap r 1) as [m d]. btrue. lia.
Qed.

Definition valid_date (y m d : Z) : Prop :=
  1970 <= y <= 2200 /\ 1 <= m <= 12 /\ 1 <= d <= days_in_month y m.

Lemma ymd_to_days_eq y m d : valid_date y m d ->
  ymd_to_days y m d = days_before (Z.to_nat (y - 1970)) + (month_start (is_leap y) m + (d - 1)).
Proof.
  intros (Hy & Hm & Hd). unfold ymd_to_days.
  destruct (Z.ltb_spec y 1970), (Z.ltb_spec m 1), (Z.ltb_spec 12 m), (Z.ltb_spec d 1); try lia. cbn [orb].
  destruct (Z.ltb_spec (days_in_month y m) d); [lia |].
  set (k := Z.to_nat (y - 1970)).
  pose proof (add_years_spec k 0 ltac:(lia)) as Hya. cbn [days_before Nat.add] in Hya.
  change (1970 + Z.of_nat 0) with 1970 in Hya. rewrite Hya.
  pose proof (days_before_range k). rewrite add_months_dim. change (days_in_month y m) with (dim (is_leap y) m) in *.
  pose proof (dim_range (is_leap y) m ltac:(lia)).
  destruct (add_months_shift (Z.to_nat (m - 1)) (is_leap y) 1 (days_before k)) as [-> ?]; try lia.
  fold (month_start (is_leap y) m) in *. rewrite (u32_small (d - 1)) by (unfold is_u32; lia).
  rewrite u32_small by (unfold is_u32; lia). lia.
Qed.

Lemma ymd_days_ymd y m d : valid_date y m d -> days_to_ymd (ymd_to_days y m d) = (y, m, d).
Proof.
  intros Hv. rewrite ymd_to_days_eq by done. destruct Hv as (Hy & Hm & Hd).
  destruct (split_month_start (is_leap y) m d Hm Hd) as [Hs Hr].
  pose proof (split_year_spec (Z.to_nat (y - 1970)) 231 0 (month_start (is_leap y) m + (d - 1))
    ltac:(lia) ltac:(lia)) as Hy'. cbn [Nat.add days_before] in Hy'.
  replace (1970 + Z.of_nat (Z.to_nat (y - 1970))) with y in Hy' by lia.
  rewrite Z.sub_0_r in Hy'. unfold days_to_ymd. change (1970 + Z.of_nat 0) with 1970 in Hy'.
  unfold year_days in Hy'. rewrite Hy' by (destruct (is_leap y); lia).
  rewrite split_month_dim, Hs. rewrite u32_small; [do 2 f_equal; lia |].
  pose proof (dim_range (is_leap y) m ltac:(lia)).
  change (days_in_month y m) with (dim (is_leap y) m) in Hd. unfold is_u32. lia.
Qed.

Lemma days_ymd_days n : 0 <= n < days_before 231 ->
  let '(y', m', d') := days_to_ymd n in valid_date y' m' d' /\ ymd_to_days y' m' d' = n.
Proof.
  intros Hn. assert (Hk : exists k r, (k <= 230)%nat /\ n = days_before k + r /\ 0 <= r < year_days (1970 + Z.of_nat k)).
  { revert Hn. clear. assert (H : forall j, 0 <= n < days_before j ->
      exists k r, (k < j)%nat /\ n = days_before k + r /\ 0 <= r < year_days (1970 + Z.of_nat k)).
    { induction j as [| j IH]; cbn [days_before]; intros Hn; [lia |].
      destruct (Z.lt_ge_cases n (days_before j)) as [Hlt | Hge].
      - destruct (IH ltac:(lia)) as (k & r & ? & ? & ?). exists k, r. split; [lia | done].
      - exists j, (n - days_before j). split; [lia |]. lia. }
    intros Hn. destruct (H 231%nat Hn) as (k & r & ? & ? & ?). exists k, r. split; [lia | done]. }
  destruct Hk as (k & r & Hk & -> & Hr). clear Hn.
  pose proof (split_year_spec k 231 0 r ltac:(lia) Hk Hr) as Hs. cbn [Nat.add days_before] in Hs.
  rewrite Z.sub_0_r in Hs. change (1970 + Z.of_nat 0) with 1970 in Hs.
  unfold days_to_ymd. rewrite Hs. rewrite split_month_dim. unfold year_days in Hr.
  set (y' := 1970 + Z.of_nat k) in *.
  pose proof (split_month_inv (is_leap y') r ltac:(destruct (is_leap y'); lia)) as Hm.
  destruct (split_month' 12 (is_leap y') r 1) as [m' d']. destruct Hm as (Hm' & Hd' & Hr').
  pose proof (dim_range (is_leap y') m' ltac:(lia)).
  rewrite u32_small by (unfold is_u32; lia).
  assert (Hv' : valid_date y' m' (d' + 1)).
  { unfold valid_date. change (days_in_month y' m') with (dim (is_leap y') m'). unfold y' in *. lia. }
  split; [done |]. rewrite ymd_to_days_eq by done. unfold y' at 1.
  replace (Z.to_nat (1970 + Z.of_nat k - 1970)) with k by lia. lia.
Qed.

(** C35. The calendar conversions are inverse to each other between 1970 and
    2200: every valid date survives the trip through the day count, and every
    day count below that of 1 January 2201 is that of a valid date. *)
Theorem calendar_roundtrip (y m d n : Z) (Hv : valid_date y m d) (Hn : 0 <= n < days_before 231) :
  days_to_ymd (ymd_to_days y m d) = (y, m, d) /\
  let '(y', m', d') := days_to_ymd n in valid_date y' m' d' /\ ymd_to_days y' m' d' = n.
Proof. split; [by apply ymd_days_ymd | by apply days_ymd_days]. Qed.

Lemma calendar_roundtrip_witness :
  days_to_ymd (ymd_to_days 2024 2 29) = (2024, 2, 29) /\
  let '(y', m', d') := days_to_ymd 20000 in valid_date y' m' d' /\ ymd_to_days y' m' d' = 20000.
Proof.
  apply (calendar_roundtrip 2024 2 29 20000); [unfold valid_date; vm_compute; intuition discriminate |].
  split; [lia | by vm_compute].
Defined.

(** ** The snapshot and the running clock *)

(** Seconds since the epoch of a date and a time of day. *)
Definition instant (y m d h mi s : Z) : Z := ymd_to_days y m d * 86400 + h * 3600 + mi * 60 + s.

Lemma days_before_1980 k : (10 <= k <= 231)%nat -> 3652 <= days_before k <= 84546.
Proof.
  intros Hk. pose proof (days_before_range k). split; [| lia].
  replace k with (10 + (k - 10))%nat by lia. clear. induction (k - 10)%nat as [| n IH].
  - by vm_compute.
  - replace (10 + S n)%nat with (S (10 + n)) by lia. cbn [days_before].
    pose proof (year_days_range (1970 + Z.of_nat (10 + n))). lia.
Qed.

Lemma ymd_to_days_range y m d : valid_date y m d -> 1980 <= y -> 3652 <= ymd_to_days y m d < 85000.
Proof.
  intros Hv Hy. rewrite ymd_to_days_eq by done. destruct Hv as (Hy' & Hm & Hd).
  destruct (split_month_start (is_leap y) m d Hm Hd) as [_ Hr].
  pose proof (days_before_1980 (Z.to_nat (y - 1970)) ltac:(lia)). destruct (is_leap y); lia.
Qed.

Lemma snapshot_spec y mon d h mi s : is_u32 h -> is_u32 mi -> is_u32 s -> is_u32 d -> is_u32 mon -> is_u32 y ->
  let valid := valid_date y mon d /\ 1980 <= y /\ h <= 23 /\ mi <= 59 /\ s <= 59 in
  match snapshot y mon d h mi s with
  | Some (sod, dd) => valid /\ 0 <= sod < 86400 /\ ymd_to_days y mon d <= dd <= ymd_to_days y mon d + 1
      /\ dd * 86400 + sod = instant y mon d h mi s + RTC_TZ_HOURS * 3600
  | None => ~ valid
  end.
Proof.
  intros Hh Hmi Hs Hd Hmon Hy. cbv zeta. unfold snapshot, valid_date, is_u32 in *.
  destruct (Z.ltb_spec 59 s), (Z.ltb_spec 59 mi), (Z.ltb_spec 23 h); cbn [orb]; try (intros ?; lia).
  destruct (Z.ltb_spec mon 1), (Z.ltb_spec 12 mon), (Z.ltb_spec d 1); cbn [orb]; try (intros ?; lia).
  destruct (Z.ltb_spec (days_in_month y mon) d); [intros ?; lia |].
  destruct (Z.ltb_spec y 1980), (Z.ltb_spec 2200 y); cbn [orb]; try (intros ?; lia).
  pose proof (ymd_to_days_range y mon d ltac:(unfold valid_date; lia) ltac:(lia)).
  destruct (Z.eqb_spec (ymd_to_days y mon d) 0); [lia |].
  rewrite (u32_small (h * 3600)), (u32_small (mi * 60)), (u32_small (RTC_TZ_HOURS * 3600)) by
    (unfold is_u32, RTC_TZ_HOURS; lia).
  rewrite (u32_small (h * 3600 + mi * 60)) by (unfold is_u32; lia).
  rewrite (u32_small (h * 3600 + mi * 60 + s)) by (unfold is_u32; lia).
  rewrite (u32_small (_ + _ + s + _)) by (unfold is_u32, RTC_TZ_HOURS; lia).
  set (dn := ymd_to_days y mon d) in *. unfold instant. fold dn. clearbody dn. unfold RTC_TZ_HOURS in *.
  cbn [carry_days]. destruct (Z.leb_spec 86400 (h * 3600 + mi * 60 + s + 8 * 3600)); cbv iota beta; [| lia].
  rewrite (u32_small (dn + 1)) by (unfold is_u32; lia).
  rewrite (u32_small (_ - 86400)) by (unfold is_u32; lia).
  destruct (Z.leb_spec 86400 (h * 3600 + mi * 60 + s + 8 * 3600 - 86400)); cbv iota beta; lia.
Qed.

(** A byte read from the clock gives a number below 256. *)
Lemma cmos_num_u32 b v : is_u8 v -> 0 <= cmos_num b v < 256.
Proof.
  intros Hv. unfold cmos_num, from_bcd. destruct b; [exact Hv |].
  change 0x0F with (2 ^ 4 - 1). rewrite land_low_mask, Z.shiftr_div_pow2 by lia. change (2 ^ 4) with 16. ulia.
Qed.

Lemma hour12_u32 b v : is_u8 v -> is_u32 (hour12 b v).
Proof.
  intros Hv. unfold hour12. pose proof (cmos_num_u32 b v Hv). destruct (negb _); [apply u32_range |].
  destruct (_ =? _); unfold is_u32; lia.
Qed.

Lemma full_year_u32 b c yr : is_u32 (full_year b c yr).
Proof. unfold full_year. destruct (_ && _)%bool; [apply u32_range |]. destruct (_ <=? _); apply u32_range. Qed.

(** From any contents of the clock: when [rtc_init] accepts the reading,
    [rtc_now] at [e] milliseconds later (any 32-bit [e], across the wrap of
    the tick counter) is a valid date and time of day that lies exactly
    [e / 1000] seconds after the snapshot, which is a second of a day after
    1980; when it does not, [rtc_now] reports failure. *)
Theorem rtc_now_exact (cmos : nat -> Z -> Z) (addr : nat -> Z) (t0 t1 e : Z) (wait : nat) (s : port_log)
    (Hcmos : forall n r, is_u8 (cmos n r)) (Ht1 : is_u32 t1) (He : is_u32 e) :
  let st := snd (rtc_init cmos addr t0 t1 wait s) in
  let base := g_base_day st * 86400 + g_base_sec st in
  if rtc_valid st =? 1 then
    0 <= g_base_sec st < 86400 /\ 3652 <= g_base_day st /\
    (base + e / 1000 < days_before 231 * 86400 ->
     exists t, rtc_now st (t1 +! e) = Some t
       /\ valid_date (year t) (month t) (day t)
       /\ 0 <= hour t < 24 /\ 0 <= minute t < 60 /\ 0 <= second t < 60
       /\ instant (year t) (month t) (day t) (hour t) (minute t) (second t) = base + e / 1000)
  else rtc_now st (t1 +! e) = None.
Proof.
  assert (Hfail : forall t, let st := mk_rtc 0 t 0 0 in
    let base := g_base_day st * 86400 + g_base_sec st in
    if rtc_valid st =? 1 then 0 <= g_base_sec st < 86400 /\ 3652 <= g_base_day st /\
      (base + e / 1000 < days_before 231 * 86400 ->
       exists t, rtc_now st (t1 +! e) = Some t /\ valid_date (year t) (month t) (day t)
         /\ 0 <= hour t < 24 /\ 0 <= minute t < 60 /\ 0 <= second t < 60
         /\ instant (year t) (month t) (day t) (hour t) (minute t) (second t) = base + e / 1000)
    else rtc_now st (t1 +! e) = None) by done.
  unfold rtc_init. destruct (cmos_wait_ready cmos addr wait s) as [[n log] stuck].
  destruct (negb (stuck =? 0)); [apply Hfail |]. cbn [cmos_read cmos_val].
  set (binary := negb (cmos n REG_STB &! STB_BINARY =? 0)).
  assert (Hnum : forall k r, is_u32 (cmos_num binary (cmos k r)))
    by (intros k r; pose proof (cmos_num_u32 binary _ (Hcmos k r)); unfold is_u32; lia).
  set (h24 := negb (cmos n REG_STB &! STB_24H =? 0)).
  set (pr := if negb h24 then _ else _).
  assert (Hpr : is_u32 (snd pr)) by (unfold pr; destruct (negb h24); cbn [snd]; [by apply hour12_u32 | apply Hnum]).
  destruct pr as [[n' log'] hr]. cbn [snd cmos_read] in *.
  pose proof (snapshot_spec (full_year binary (cmos n' REG_CENT) (cmos_num binary (cmos (S (S (S (S (S (S n)))))) REG_YEAR)))
    (cmos_num binary (cmos (S (S (S (S (S n))))) REG_MON)) (cmos_num binary (cmos (S (S (S (S n)))) REG_DAY)) hr
    (cmos_num binary (cmos (S (S n)) REG_MIN)) (cmos_num binary (cmos (S n) REG_SEC))
    Hpr (Hnum _ _) (Hnum _ _) (Hnum _ _) (Hnum _ _) (full_year_u32 _ _ _)) as Hsn. cbv zeta in Hsn.
  destruct (snapshot _ _ _ _ _ _) as [[sod d] |]; [| apply Hfail].
  destruct Hsn as (Hval & Hsod & Hd & Hinst). cbn [snd g_base_day g_base_sec rtc_valid g_ok].
  change ((if negb (1 =? 0) then 1 else 0) =? 1) with true. cbv iota.
  destruct Hval as (Hv & Hy & _). pose proof (ymd_to_days_range _ _ _ Hv Hy).
  split; [done |]. split; [lia |]. clear Hinst Hv Hy.
  intros Hlim. unfold rtc_now. cbn [g_ok g_base_tick g_base_sec g_base_day Z.eqb].
  assert (Hms : (t1 +! e) -! t1 = e) by (clear - Ht1 He; unfold is_u32 in *; ulia). rewrite Hms.
  assert (Hq : 0 <= e / 1000 <= 4294967) by (clear - He; unfold is_u32 in He; ulia).
  rewrite (u32_small (sod + e / 1000)) by (unfold is_u32; lia). set (total := sod + e / 1000) in *.
  assert (Ht : 0 <= total / 86400 <= 50 /\ 0 <= total mod 86400 < 86400
    /\ total = 86400 * (total / 86400) + total mod 86400)
    by (clear - Hq Hsod; unfold total in *; ulia).
  rewrite (u32_small (d + _)) by (unfold is_u32; lia).
  pose proof (days_ymd_days (d + total / 86400) ltac:(lia)) as Hcal.
  destruct (days_to_ymd (d + total / 86400)) as [[y m] dd]. destruct Hcal as [Hv Heq]. clear Hd.
  set (sd := total mod 86400) in *.
  assert (Hf : 0 <= sd / 3600 < 24 /\ 0 <= sd mod 3600 / 60 < 60 /\ 0 <= sd mod 60 < 60
    /\ sd = sd / 3600 * 3600 + sd mod 3600 / 60 * 60 + sd mod 60)
    by (clear - Ht; clearbody sd; ulia).
  eexists. split; [reflexivity |]. cbn [year month day hour minute second].
  pose proof Hv as (Hy' & Hm' & Hd'). pose proof (dim_range (is_leap y) m ltac:(lia)) as Hdim.
  change (days_in_month y m) with (dim (is_leap y) m) in Hd'.
  assert (Eu : u16 y = y /\ u8 m = m /\ u8 dd = dd /\ u8 (sd / 3600) = sd / 3600
    /\ u8 (sd mod 3600 / 60) = sd mod 3600 / 60 /\ u8 (sd mod 60) = sd mod 60).
  { unfold u16, u8. change (2 ^ 16) with 65536. change (2 ^ 8) with 256.
    split_and!; apply Z.mod_small; lia. }
  destruct Eu as (-> & -> & -> & -> & -> & ->). destruct Hf as (Hf1 & Hf2 & Hf3 & Hf4).
  split; [exact Hv |]. split; [exact Hf1 |]. split; [exact Hf2 |]. split; [exact Hf3 |].
  unfold instant. rewrite Heq. assert (Et : total = sod + e / 1000) by done.
  clearbody sd total. lia.
Qed.

(** 28 February 2024, 23:15:30, BCD, 24-hour mode. *)
Definition sample_cmos (_ : nat) (r : Z) : Z :=
  if r =? REG_SEC then 0x30 else if r =? REG_MIN then 0x15 else if r =? REG_HOUR then 0x23
  else if r =? REG_DAY then 0x28 else if r =? REG_MON then 0x02 else if r =? REG_YEAR then 0x24
  else if r =? REG_CENT then 0x20 else if r =? REG_STB then 0x02 else 0.

Lemma sample_cmos_u8 n r : is_u8 (sample_cmos n r).
Proof. unfold sample_cmos. repeat case_match; unfold is_u8; lia. Qed.

Lemma rtc_now_exact_witness :
  let st := snd (rtc_init sample_cmos (fun _ => 0x80) 0 0xFFFFFF00 1 (O, [])) in
  let base := g_base_day st * 86400 + g_base_sec st in
  if rtc_valid st =? 1 then
    0 <= g_base_sec st < 86400 /\ 3652 <= g_base_day st /\
    (base + 90000000 / 1000 < days_before 231 * 86400 ->
     exists t, rtc_now st (0xFFFFFF00 +! 90000000) = Some t
       /\ valid_date (year t) (month t) (day t)
       /\ 0 <= hour t < 24 /\ 0 <= minute t < 60 /\ 0 <= second t < 60
       /\ instant (year t) (month t) (day t) (hour t) (minute t) (second t) = base + 90000000 / 1000)
  else rtc_now st (0xFFFFFF00 +! 90000000) = None.
Proof.
  apply (rtc_now_exact sample_cmos (fun _ => 0x80)); [apply sample_cmos_u8 | unfold is_u32; lia..].
Defined.

(** In 12-hour mode every afternoon hour of a BCD clock, and noon of a binary
    one, becomes an hour above 23: the reading is then rejected, although the
    conversion is meant to give 12..23. *)
Lemma pm_hours_rejected y mon d mi s :
  (forall raw, In raw [0x81; 0x82; 0x83; 0x84; 0x85; 0x86; 0x87; 0x88; 0x89; 0x90; 0x91; 0x92] ->
     snapshot y mon d (hour12 false raw) mi s = None)
  /\ snapshot y mon d (hour12 true 0x8C) mi s = None.
Proof.
  assert (H : forall h, 23 < h -> snapshot y mon d h mi s = None).
  { intros h Hh. unfold snapshot. destruct (Z.ltb_spec 23 h); [by rewrite orb_true_r | lia]. }
  split; [| by apply H].
  intros raw Hin. apply H. simpl in Hin.
  repeat (destruct Hin as [<- | Hin]; [by vm_compute |]). done.
Qed.

(** ** FAT time stamps *)

Lemma fat_pack_date y m d : 0 <= y < 128 -> 0 <= m < 16 -> 0 <= d < 32 ->
  u16 (Z.shiftl y 9 |! Z.shiftl m 5 |! d) = y * 512 + m * 32 + d.
Proof.
  intros. rewrite !Z.shiftl_mul_pow2 by lia. change (2 ^ 9) with 512. change (2 ^ 5) with 32.
  rewrite <- Z.lor_assoc, (lor_low_add (m * 32) d 5), (lor_low_add (y * 512) (m * 32 + d) 9);
    [unfold u16; rewrite Z.mod_small; lia | lia | apply Z.mod_mul; lia | lia | lia | apply Z.mod_mul; lia | lia].
Qed.

Lemma fat_pack_time h m s : 0 <= h < 32 -> 0 <= m < 64 -> 0 <= s < 32 ->
  u16 (Z.shiftl h 11 |! Z.shiftl m 5 |! s) = h * 2048 + m * 32 + s.
Proof.
  intros. rewrite !Z.shiftl_mul_pow2 by lia. change (2 ^ 11) with 2048. change (2 ^ 5) with 32.
  rewrite <- Z.lor_assoc, (lor_low_add (m * 32) s 5), (lor_low_add (h * 2048) (m * 32 + s) 11);
    [unfold u16; rewrite Z.mod_small; lia | lia | apply Z.mod_mul; lia | lia | lia | apply Z.mod_mul; lia | lia].
Qed.

Definition clamp (lo hi dflt x : Z) : Z := if (lo <=? x) && (x <=? hi) then x else dflt.

(** FAT date and time stamps: for every clock structure the fields that a
    FAT driver reads back are valid (month 1..12, day 1..31, hour 0..23,
    minute 0..59, second 0..58) and, where the structure holds a valid date
    of 1980..2107 and a valid time, they are that date and that time with
    seconds rounded down to even. *)
Theorem fat_stamp_fields (t : rtc_time_t)
    (Hy : is_u16 (year t)) (Hmo : is_u8 (month t)) (Hd : is_u8 (day t))
    (Hh : is_u8 (hour t)) (Hmi : is_u8 (minute t)) (Hs : is_u8 (second t)) :
  let date := rtc_fat_date t in
  let time := rtc_fat_time t in
  date / 512 + 1980 = Z.min 2107 (Z.max 1980 (year t))
  /\ date / 32 mod 16 = clamp 1 12 1 (month t) /\ date mod 32 = clamp 1 31 1 (day t)
  /\ time / 2048 = clamp 0 23 0 (hour t) /\ time / 32 mod 64 = clamp 0 59 0 (minute t)
  /\ time mod 32 * 2 = clamp 0 59 0 (second t) - clamp 0 59 0 (second t) mod 2.
Proof.
  cbv zeta. unfold rtc_fat_date, rtc_fat_time, is_u8, is_u16 in *.
  set (y := if 2107 <? _ then 2107 else _).
  assert (Ey : y = Z.min 2107 (Z.max 1980 (year t))).
  { unfold y. destruct (Z.leb_spec 1980 (year t)), (Z.ltb_spec 2107 (year t)), (Z.ltb_spec 2107 1980); lia. }
  fold (clamp 1 12 1 (month t)). fold (clamp 1 31 1 (day t)).
  assert (Eh : (if hour t <=? 23 then hour t else 0) = clamp 0 23 0 (hour t))
    by (unfold clamp; destruct (Z.leb_spec 0 (hour t)); [done | lia]).
  assert (Em : (if minute t <=? 59 then minute t else 0) = clamp 0 59 0 (minute t))
    by (unfold clamp; destruct (Z.leb_spec 0 (minute t)); [done | lia]).
  assert (Es : (if second t <=? 59 then second t else 0) = clamp 0 59 0 (second t))
    by (unfold clamp; destruct (Z.leb_spec 0 (second t)); [done | lia]).
  rewrite Eh, Em, Es.
  assert (Hc : forall lo hi dflt x, lo <= dflt <= hi -> lo <= clamp lo hi dflt x <= hi)
    by (intros; unfold clamp; destruct (Z.leb_spec lo x), (Z.leb_spec x hi); cbn [andb]; lia).
  pose proof (Hc 1 12 1 (month t) ltac:(lia)). pose proof (Hc 1 31 1 (day t) ltac:(lia)).
  pose proof (Hc 0 23 0 (hour t) ltac:(lia)). pose proof (Hc 0 59 0 (minute t) ltac:(lia)).
  pose proof (Hc 0 59 0 (second t) ltac:(lia)). clear Hc Eh Em Es.
  rewrite u32_small by (unfold is_u32; lia).
  rewrite fat_pack_date, fat_pack_time by (try lia; ulia).
  generalize dependent (clamp 1 12 1 (month t)). generalize dependent (clamp 1 31 1 (day t)).
  generalize dependent (clamp 0 23 0 (hour t)). generalize dependent (clamp 0 59 0 (minute t)).
  generalize dependent (clamp 0 59 0 (second t)). intros s ? m ? h ? d ? mo ?. rewrite Ey. clear - H H0 H1 H2 H3 Ey Hy.
  clearbody y. split_and!; ulia.
Qed.

Lemma fat_stamp_fields_witness :
  let t := mk_time 2026 7 31 23 59 59 in
  let date := rtc_fat_date t in
  let time := rtc_fat_time t in
  date / 512 + 1980 = Z.min 2107 (Z.max 1980 (year t))
  /\ date / 32 mod 16 = clamp 1 12 1 (month t) /\ date mod 32 = clamp 1 31 1 (day t)
  /\ time / 2048 = clamp 0 23 0 (hour t) /\ time / 32 mod 64 = clamp 0 59 0 (minute t)
  /\ time mod 32 * 2 = clamp 0 59 0 (second t) - clamp 0 59 0 (second t) mod 2.
Proof. apply (fat_stamp_fields (mk_time 2026 7 31 23 59 59)); unfold is_u8, is_u16; simpl; lia. Defined.
