(* ===== verification/Sched.v ===== *)
(** * Sched: task table, wait queues and the scheduler ([kernel/task.c])

    The table [g_tasks] is a list of [MAX_TASKS] records; a wait queue is the
    address of its [head] word, and [wqs] holds those words, so the intrusive
    chains through [wait_next] are modelled with their aliasing.  Context
    switching is split at [switch_to]: [schedule_switch] is what the outgoing
    task does up to it, and [task_sleep] is [sleep_begin] up to its call of
    [schedule] and [sleep_end] when the task has the processor again.  The fd
    table and the program image of a task live in [Task.v]. *)

From S2P Require Import Prelude.

Definition MAX_TASKS : Z := 8.
Definition TASK_KSIZE : Z := 0x4000.
Definition TASK_TIMESLICE : Z := 10.
Definition PAGING_PD_ADDR : Z := 0x00200000.

Inductive task_state_t := TASK_UNUSED | TASK_READY | TASK_RUNNING | TASK_BLOCKED | TASK_ZOMBIE.

#[global] Instance task_state_eq_dec : EqDecision task_state_t.
Proof. solve_decision. Defined.

Definition state_is (s s' : task_state_t) : bool := bool_decide (s = s').

Record task_t := mk_task {
  esp : Z;
  kstack : Z;
  kstack_top : Z;
  pid : Z;
  state : task_state_t;
  ticks : Z;
  switches : Z;
  name : list Z;
  cr3 : Z;
  is_user : Z;
  exit_code : Z;
  user_stack_phys : Z;
  user_stack_pages : Z;
  pd_phys : Z;
  pt_phys : Z;
  wait_next : Z;
  wake_tick : Z;
  wait_q : Z;
}.

(** An entry cleared by [task_init]. *)
Definition task_unused : task_t :=
  mk_task 0 0 0 0 TASK_UNUSED 0 0 [] 0 0 0 0 0 0 0 (-1) 0 0.

Definition set_state (t : task_t) (s : task_state_t) : task_t :=
  mk_task (esp t) (kstack t) (kstack_top t) (pid t) s (ticks t) (switches t) (name t) (cr3 t)
    (is_user t) (exit_code t) (user_stack_phys t) (user_stack_pages t) (pd_phys t) (pt_phys t)
    (wait_next t) (wake_tick t) (wait_q t).
Definition set_ticks (t : task_t) (n : Z) : task_t :=
  mk_task (esp t) (kstack t) (kstack_top t) (pid t) (state t) n (switches t) (name t) (cr3 t)
    (is_user t) (exit_code t) (user_stack_phys t) (user_stack_pages t) (pd_phys t) (pt_phys t)
    (wait_next t) (wake_tick t) (wait_q t).
Definition set_switches (t : task_t) (n : Z) : task_t :=
  mk_task (esp t) (kstack t) (kstack_top t) (pid t) (state t) (ticks t) n (name t) (cr3 t)
    (is_user t) (exit_code t) (user_stack_phys t) (user_stack_pages t) (pd_phys t) (pt_phys t)
    (wait_next t) (wake_tick t) (wait_q t).
Definition set_link (t : task_t) (nx q : Z) : task_t :=
  mk_task (esp t) (kstack t) (kstack_top t) (pid t) (state t) (ticks t) (switches t) (name t) (cr3 t)
    (is_user t) (exit_code t) (user_stack_phys t) (user_stack_pages t) (pd_phys t) (pt_phys t)
    nx (wake_tick t) q.
Definition set_wake (t : task_t) (w : Z) : task_t :=
  mk_task (esp t) (kstack t) (kstack_top t) (pid t) (state t) (ticks t) (switches t) (name t) (cr3 t)
    (is_user t) (exit_code t) (user_stack_phys t) (user_stack_pages t) (pd_phys t) (pt_phys t)
    (wait_next t) w (wait_q t).

(** The static variables of the module, the heads of all wait queues, the
    interrupt flag and the two registers the scheduler writes. *)
Record sched := mk_sched {
  g_tasks : list task_t;
  g_current : Z;
  g_next_pid : Z;
  g_sched_count : Z;
  g_lock_depth : Z;
  g_ready : bool;
  wqs : gmap Z Z;
  iflag : bool;
  cr3_reg : Z;
  tss_esp0 : Z;
}.

Definition set_tasks (st : sched) (ts : list task_t) : sched :=
  mk_sched ts (g_current st) (g_next_pid st) (g_sched_count st) (g_lock_depth st) (g_ready st)
    (wqs st) (iflag st) (cr3_reg st) (tss_esp0 st).
Definition set_wqs (st : sched) (w : gmap Z Z) : sched :=
  mk_sched (g_tasks st) (g_current st) (g_next_pid st) (g_sched_count st) (g_lock_depth st) (g_ready st)
    w (iflag st) (cr3_reg st) (tss_esp0 st).
Definition set_iflag (st : sched) (b : bool) : sched :=
  mk_sched (g_tasks st) (g_current st) (g_next_pid st) (g_sched_count st) (g_lock_depth st) (g_ready st)
    (wqs st) b (cr3_reg st) (tss_esp0 st).
Definition set_lock (st : sched) (n : Z) : sched :=
  mk_sched (g_tasks st) (g_current st) (g_next_pid st) (g_sched_count st) n (g_ready st)
    (wqs st) (iflag st) (cr3_reg st) (tss_esp0 st).
Definition set_cr3 (st : sched) (c : Z) : sched :=
  mk_sched (g_tasks st) (g_current st) (g_next_pid st) (g_sched_count st) (g_lock_depth st) (g_ready st)
    (wqs st) (iflag st) c (tss_esp0 st).

Definition task (st : sched) (i : Z) : task_t := aget task_unused (g_tasks st) i.
Definition upd (st : sched) (i : Z) (t : task_t) : sched := set_tasks st (aset (g_tasks st) i t).

(** ** Wait queues *)

Definition wq_head (st : sched) (q : Z) : Z := default (-1) (wqs st !! q).
Definition set_wq_head (st : sched) (q h : Z) : sched := set_wqs st (<[q := h]> (wqs st)).

Definition wq_push (st : sched) (q idx : Z) : sched :=
  let st := upd st idx (set_link (task st idx) (wq_head st q) q) in
  set_wq_head st q idx.

(** The walk of [wq_remove]: [p] is the link being examined, the head word
    ([None]) or the [wait_next] of a task. *)
Definition link_get (st : sched) (q : Z) (p : option Z) : Z :=
  match p with None => wq_head st q | Some j => wait_next (task st j) end.
Definition link_set (st : sched) (q : Z) (p : option Z) (v : Z) : sched :=
  match p with
  | None => set_wq_head st q v
  | Some j => upd st j (set_link (task st j) v (wait_q (task st j)))
  end.

Fixpoint wq_remove_from (fuel : nat) (st : sched) (q idx : Z) (p : option Z) : sched :=
  match fuel with
  | O => st
  | S fuel' =>
      let v := link_get st q p in
      if v =? -1 then st
      else if v =? idx then
        let st := link_set st q p (wait_next (task st idx)) in
        upd st idx (set_link (task st idx) (-1) 0)
      else wq_remove_from fuel' st q idx (Some v)
  end.

(** A chain visits each of the [MAX_TASKS] tasks at most once. *)
Definition CHAIN_FUEL : nat := 9.
Definition wq_remove (st : sched) (q idx : Z) : sched := wq_remove_from CHAIN_FUEL st q idx None.

(** What a wake-up does to one task: off the queue, no deadline, runnable. *)
Definition woken (t : task_t) : task_t :=
  let t := set_wake (set_link t (-1) 0) 0 in
  if state_is (state t) TASK_BLOCKED then set_state t TASK_READY else t.

Fixpoint wake_chain (fuel : nat) (st : sched) (i : Z) : sched :=
  match fuel with
  | O => st
  | S fuel' =>
      if i =? -1 then st
      else
        let nx := wait_next (task st i) in
        wake_chain fuel' (upd st i (woken (task st i))) nx
  end.

Definition task_wake_all (st : sched) (q : Z) : sched :=
  if negb (g_ready st) || (q =? 0) then st
  else set_wq_head (wake_chain CHAIN_FUEL st (wq_head st q)) q (-1).

(** ** The timer *)

(** [task_timer_tick] for one slot. *)
Definition expired (t : task_t) (now : Z) : bool :=
  state_is (state t) TASK_BLOCKED && negb (wake_tick t =? 0) && (0 <=? s32 (now - wake_tick t)).

Definition tick_one (st : sched) (now i : Z) : sched :=
  if expired (task st i) now then
    let st := if negb (wait_q (task st i) =? 0) then wq_remove st (wait_q (task st i)) i else st in
    upd st i (set_state (set_wake (task st i) 0) TASK_READY)
  else st.

Fixpoint tick_from (k : nat) (st : sched) (now i : Z) : sched :=
  match k with O => st | S k' => tick_from k' (tick_one st now i) now (i + 1) end.

Definition task_timer_tick (st : sched) (now : Z) : sched :=
  if negb (g_ready st) then st else tick_from (Z.to_nat MAX_TASKS) st now 0.

(** ** The scheduler *)

Definition runnable (t : task_t) : bool := state_is (state t) TASK_READY || state_is (state t) TASK_RUNNING.

(** The rotation: the first runnable slot after the current one. *)
Fixpoint pick_from (k : nat) (st : sched) (i : Z) : Z :=
  match k with
  | O => g_current st
  | S k' =>
      let cand := (g_current st + i) mod MAX_TASKS in
      if runnable (task st cand) then cand else pick_from k' st (i + 1)
  end.
Definition pick_next (st : sched) : Z := pick_from (Z.to_nat MAX_TASKS) st 1.

(** [schedule] up to and including [switch_to]; [true] when it switched. *)
Definition schedule_switch (st : sched) : sched * bool :=
  if negb (g_ready st) || negb (g_lock_depth st =? 0) then (st, false)
  else
    let c := g_current st in
    let st := if 0 <? ticks (task st c) then upd st c (set_ticks (task st c) (ticks (task st c) - 1)) else st in
    if state_is (state (task st c)) TASK_RUNNING && (0 <? ticks (task st c)) then (st, false)
    else
      let next := pick_next st in
      if next =? c then (upd st c (set_ticks (task st c) TASK_TIMESLICE), false)
      else
        let st := if state_is (state (task st c)) TASK_RUNNING
                  then upd st c (set_state (task st c) TASK_READY) else st in
        let n := task st next in
        let n := set_switches (set_ticks (set_state n TASK_RUNNING) TASK_TIMESLICE) (switches n +! 1) in
        let st := upd st next n in
        let cur_cr3 := if cr3 (task st c) =? 0 then PAGING_PD_ADDR else cr3 (task st c) in
        let new_cr3 := if cr3 n =? 0 then PAGING_PD_ADDR else cr3 n in
        (mk_sched (g_tasks st) next (g_next_pid st) (g_sched_count st +! 1) (g_lock_depth st) (g_ready st)
           (wqs st) (iflag st) (if negb (new_cr3 =? cur_cr3) then new_cr3 else cr3_reg st)
           (if negb (kstack_top n =? 0) then kstack_top n else tss_esp0 st), true).

Definition task_yield_switch (st : sched) : sched * bool :=
  if negb (g_ready st) then (st, false)
  else schedule_switch (upd st (g_current st) (set_ticks (task st (g_current st)) 0)).

(** [task_sleep] until it calls [schedule]; [None] when it returns at once. *)
Definition sleep_begin (st : sched) (q timeout_ms pit : Z) : option (sched * bool) :=
  if negb (g_ready st) || (q =? 0) || negb (g_lock_depth st =? 0) then None
  else
    let me := g_current st in
    let st := set_iflag st false in
    let st := upd st me (set_state (set_wake (task st me)
                (if negb (timeout_ms =? 0) then pit +! timeout_ms else 0)) TASK_BLOCKED) in
    Some (schedule_switch (wq_push st q me)).

(** The end of a sleep that was never switched away, after the halt. *)
Definition sleep_wake (st : sched) (q me : Z) : sched :=
  let st := if wait_q (task st me) =? q then wq_remove st q me else st in
  upd st me (set_state (set_wake (task st me) 0) TASK_RUNNING).

(** The rest of [task_sleep], once the task [me] runs again.  When it was never
    switched away it halts with interrupts enabled first: [halt] is what the
    interrupts do to the state before it wakes up. *)
Definition sleep_end (halt : sched -> sched) (st : sched) (q me : Z) : sched :=
  if state_is (state (task st me)) TASK_BLOCKED then sleep_wake (halt (set_iflag st true)) q me
  else upd st me (set_wake (task st me) 0).

(** ** Critical sections and queries *)

Definition task_lock (st : sched) : sched := set_lock (set_iflag st false) (g_lock_depth st +! 1).
Definition task_unlock (st : sched) : sched :=
  let st := if negb (g_lock_depth st =? 0) then set_lock st (g_lock_depth st - 1) else st in
  if g_lock_depth st =? 0 then set_iflag st true else st.

Definition task_current (st : sched) : option Z := if g_ready st then Some (g_current st) else None.
Definition task_count_running (st : sched) : Z :=
  Z.of_nat (length (List.filter runnable (g_tasks st))).
Definition schedule_count (st : sched) : Z := g_sched_count st.

(** The slot of a process. *)
Fixpoint find_slot (f : task_t -> bool) (ts : list task_t) (i : Z) : option Z :=
  match ts with
  | [] => None
  | t :: ts' => if f t then Some i else find_slot f ts' (i + 1)
  end.
Definition task_find (st : sched) (p : Z) : option Z :=
  if negb (g_ready st) || (p <=? 0) then None
  else find_slot (fun t => negb (state_is (state t) TASK_UNUSED) && (pid t =? u32 p)) (g_tasks st) 0.
Definition free_slot (st : sched) : option Z :=
  find_slot (fun t => state_is (state t) TASK_UNUSED) (g_tasks st) 0.

(** ** Basic facts about the table *)

Definition slot (i : Z) : Prop := 0 <= i < MAX_TASKS.
Definition table_ok (st : sched) : Prop := length (g_tasks st) = 8%nat.

Lemma task_upd st i j t : table_ok st -> slot i -> slot j ->
  task (upd st i t) j = if i =? j then t else task st j.
Proof.
  unfold table_ok, slot, MAX_TASKS. intros Hl Hi Hj. unfold task, upd. cbn [set_tasks g_tasks].
  destruct (Z.eqb_spec i j) as [-> |]; [apply aget_aset_eq; lia | apply aget_aset_ne; lia].
Qed.

Lemma table_upd st i t : table_ok st -> table_ok (upd st i t).
Proof. unfold table_ok, upd. cbn [set_tasks g_tasks]. by rewrite length_aset. Qed.

Lemma upd_id st i t : table_ok st -> slot i -> t = task st i -> upd st i t = st.
Proof.
  intros Hl Hi ->. unfold upd, task, aset. destruct st as [ts c n sc l r w f c3 e]. unfold set_tasks. simpl in *.
  unfold table_ok in Hl. simpl in Hl. f_equal. apply list_insert_id. apply lookup_aget.
  unfold slot, MAX_TASKS in Hi. lia.
Qed.

Lemma wq_head_upd st i t q : wq_head (upd st i t) q = wq_head st q.
Proof. reflexivity. Qed.

Lemma wq_head_set st q h q' : wq_head (set_wq_head st q h) q' = if q =? q' then h else wq_head st q'.
Proof.
  unfold wq_head, set_wq_head. cbn [set_wqs wqs]. destruct (Z.eqb_spec q q') as [-> |].
  - by rewrite lookup_insert_eq.
  - by rewrite lookup_insert_ne.
Qed.

Lemma task_set_head st q h i : task (set_wq_head st q h) i = task st i.
Proof. reflexivity. Qed.

Lemma state_is_true s s' : state_is s s' = true <-> s = s'.
Proof. apply bool_decide_eq_true. Qed.
Lemma state_is_false s s' : state_is s s' = false <-> s <> s'.
Proof. apply bool_decide_eq_false. Qed.

(** ** Chains *)

Definition nxt (st : sched) (i : Z) : Z := wait_next (task st i).

(** The chain from link value [h] visits [l] and ends with -1. *)
Fixpoint linked (nx : Z -> Z) (h : Z) (l : list Z) : Prop :=
  match l with
  | [] => h = -1
  | i :: l' => h = i /\ linked nx (nx i) l'
  end.

Lemma linked_ext nx nx' h l : (forall i, i ∈ l -> nx' i = nx i) -> linked nx h l -> linked nx' h l.
Proof.
  revert h. induction l as [| i l IH]; intros h H; simpl; [done |]. intros [-> Hl]. split; [done |].
  rewrite H by left. apply IH; [| done]. intros j Hj. apply H. by right.
Qed.

Lemma linked_fun nx h l l' : linked nx h l -> linked nx h l' -> Forall slot l -> Forall slot l' -> l = l'.
Proof.
  revert h l'. induction l as [| i l IH]; intros h [| j l'] H1 H2 Hs1 Hs2; simpl in *; try done.
  - destruct H2 as [-> _]. apply Forall_cons in Hs2 as [Hj _]. unfold slot in Hj. lia.
  - destruct H1 as [-> _]. apply Forall_cons in Hs1 as [Hj _]. unfold slot in Hj. lia.
  - destruct H1 as [-> H1], H2 as [-> H2]. f_equal. apply Forall_cons in Hs1 as [_ ?], Hs2 as [_ ?]. by eapply IH.
Qed.

Lemma slots_bound l : NoDup l -> Forall slot l -> (length l <= 8)%nat.
Proof.
  intros Hn Hs. change 8%nat with (length (seqZ 0 8)). apply NoDup_incl_length; [by apply NoDup_ListNoDup |].
  intros x Hx. apply list_elem_of_In, elem_of_seqZ. rewrite Forall_forall in Hs.
  specialize (Hs x ltac:(by apply list_elem_of_In)). unfold slot, MAX_TASKS in Hs. lia.
Qed.

(** Queue [q] holds exactly the tasks that say so. *)
Definition queue (st : sched) (q : Z) (l : list Z) : Prop :=
  linked (nxt st) (wq_head st q) l /\ NoDup l /\ forall i, i ∈ l <-> slot i /\ wait_q (task st i) = q.

Record wq_inv (st : sched) : Prop := {
  wi_table : table_ok st;
  wi_queue : forall q, q <> 0 -> exists l, queue st q l;
  wi_blocked : forall i, slot i -> state (task st i) = TASK_BLOCKED -> wait_q (task st i) <> 0;
}.

Lemma queue_slots st q l : queue st q l -> Forall slot l.
Proof. intros (_ & _ & H). apply Forall_forall. intros i Hi. by apply H in Hi as [? _]. Qed.

(** A state that differs from [st] outside the chain data of [q] keeps it. *)
Lemma queue_ext st st' q l : queue st q l -> wq_head st' q = wq_head st q ->
  (forall i, slot i -> wait_q (task st' i) = q <-> wait_q (task st i) = q) ->
  (forall i, i ∈ l -> nxt st' i = nxt st i) -> queue st' q l.
Proof.
  intros (Hl & Hn & Hm) Hh Hq Hx. split; [| split; [done |]].
  - rewrite Hh. by eapply linked_ext.
  - intros i. rewrite Hm. split; intros [Hs H]; (split; [done |]); by apply Hq.
Qed.

(** *** Push *)

Lemma wq_push_spec st q idx l : table_ok st -> slot idx -> wait_q (task st idx) = 0 -> q <> 0 ->
  queue st q l ->
  let st' := wq_push st q idx in
  table_ok st' /\ queue st' q (idx :: l)
  /\ (forall j, slot j -> task st' j = if idx =? j then set_link (task st idx) (wq_head st q) q else task st j)
  /\ (forall q', q' <> q -> wq_head st' q' = wq_head st q').
Proof.
  intros Ht Hi Hw Hq Hqueue st'. pose proof Hqueue as (Hl & Hn & Hm).
  assert (Htask : forall j, slot j ->
    task st' j = if idx =? j then set_link (task st idx) (wq_head st q) q else task st j)
    by (intros j Hj; unfold st', wq_push; rewrite task_set_head; by apply task_upd).
  split; [by apply table_upd |]. split; [| split; [done |]].
  - assert (Hni : idx ∉ l) by (intros Hin; apply Hm in Hin as [_ ?]; congruence).
    split; [| split].
    + unfold st', wq_push. rewrite wq_head_set, Z.eqb_refl. split; [done |].
      change (linked (nxt st') (nxt st' idx) l). unfold nxt at 2. rewrite Htask, Z.eqb_refl by done. cbn [wait_next set_link].
      eapply linked_ext; [| exact Hl]. intros j Hj. unfold nxt. rewrite Htask by (by apply Hm in Hj as [? _]).
      by destruct (Z.eqb_spec idx j) as [-> |].
    + by constructor.
    + intros j. rewrite elem_of_cons, Hm. split.
      * intros [-> | [Hs Hj]]; (split; [done |]); rewrite Htask by done; [by rewrite Z.eqb_refl |].
        destruct (Z.eqb_spec idx j); [done | exact Hj].
      * intros [Hs Hj]. rewrite Htask in Hj by done. destruct (Z.eqb_spec idx j); [by left | by right].
  - intros q' Hne. unfold st', wq_push. rewrite wq_head_set. destruct (Z.eqb_spec q q'); [congruence | done].
Qed.

(** *** Removal *)

Definition without (idx : Z) (l : list Z) : list Z := filter (fun j => j <> idx) l.

Lemma without_notin idx l : idx ∉ l -> without idx l = l.
Proof.
  unfold without. induction l as [| x l IH]; intros H; [done |].
  apply not_elem_of_cons in H as [Hx Hl]. rewrite filter_cons_True by congruence. by rewrite IH.
Qed.

Lemma without_elem idx l j : j ∈ without idx l <-> j ∈ l /\ j <> idx.
Proof. unfold without. rewrite list_elem_of_filter. tauto. Qed.

(** A task apart from its chain link. *)
Definition relinked (t t' : task_t) : Prop := t' = set_link t (wait_next t') (wait_q t).

Lemma relinked_refl t : relinked t t.
Proof. by destruct t. Qed.

Lemma wq_remove_from_spec rest : forall fuel st q idx p, table_ok st -> (length rest < fuel)%nat ->
  linked (nxt st) (link_get st q p) rest -> Forall slot rest -> NoDup rest ->
  (forall j, p = Some j -> slot j /\ j ∉ rest) -> idx ∈ rest ->
  let st' := wq_remove_from fuel st q idx p in
  table_ok st' /\ linked (nxt st') (link_get st' q p) (without idx rest)
  /\ (forall j, slot j -> j <> idx -> relinked (task st j) (task st' j))
  /\ task st' idx = set_link (task st idx) (-1) 0
  /\ (forall j, slot j -> j ∉ rest -> p <> Some j -> task st' j = task st j)
  /\ (forall q', q' <> q \/ p <> None -> wq_head st' q' = wq_head st q').
Proof.
  induction rest as [| i rest IH]; intros fuel st q idx p Ht Hf Hl Hs Hn Hp Hin; [by apply elem_of_nil in Hin |].
  destruct fuel as [| fuel]; [simpl in Hf; lia |]. simpl in Hf.
  apply Forall_cons in Hs as [Hi Hs]. apply NoDup_cons in Hn as [Hni Hn]. destruct Hl as [Hv Hl].
  cbn [wq_remove_from]. rewrite Hv. destruct (Z.eqb_spec i (-1)); [unfold slot in Hi; lia |].
  destruct (Z.eqb_spec i idx) as [-> | Hne].
  - (* the link found: bypass [idx] *)
    set (v := wait_next (task st idx)). set (st1 := link_set st q p v).
    assert (Ht1 : table_ok st1) by (unfold st1; destruct p; [by apply table_upd | done]).
    assert (Htask1 : forall j, slot j -> task st1 j =
      if decide (p = Some j) then set_link (task st j) v (wait_q (task st j)) else task st j).
    { intros j Hj. unfold st1, link_set. destruct p as [k |].
      - destruct (Hp k eq_refl) as [Hk _]. rewrite task_upd by done.
        destruct (Z.eqb_spec k j) as [-> | Hkj]; [by rewrite decide_True | rewrite decide_False; congruence].
      - by rewrite decide_False. }
    assert (Hpi : p <> Some idx) by (intros ->; destruct (Hp idx eq_refl) as [_ Hx]; apply Hx; left).
    assert (Htask : forall j, slot j -> task (upd st1 idx (set_link (task st1 idx) (-1) 0)) j =
      if idx =? j then set_link (task st idx) (-1) 0
      else if decide (p = Some j) then set_link (task st j) v (wait_q (task st j)) else task st j).
    { intros j Hj. rewrite task_upd by done. destruct (Z.eqb_spec idx j) as [<- |]; [| by apply Htask1].
      rewrite Htask1 by done. by rewrite decide_False. }
    assert (Hw : without idx (idx :: rest) = rest).
    { unfold without. rewrite filter_cons_False by tauto. by apply without_notin. }
    rewrite Hw. split_and!.
    + by apply table_upd.
    + assert (Hh : link_get (upd st1 idx (set_link (task st1 idx) (-1) 0)) q p = v).
      { unfold link_get. destruct p as [k |].
        - destruct (Hp k eq_refl) as [Hk _]. rewrite Htask by done.
          destruct (Z.eqb_spec idx k); [congruence |]. by rewrite decide_True.
        - rewrite wq_head_upd. unfold st1, link_set. by rewrite wq_head_set, Z.eqb_refl. }
      rewrite Hh. eapply linked_ext; [| exact Hl]. intros j Hj. rewrite Forall_forall in Hs.
      unfold nxt. rewrite Htask by (by apply Hs). destruct (Z.eqb_spec idx j); [congruence |].
      rewrite decide_False; [done |]. intros ->. destruct (Hp j eq_refl) as [_ Hx]. apply Hx. by right.
    + intros j Hj Hji. rewrite Htask by done. destruct (Z.eqb_spec idx j); [congruence |].
      destruct (decide _); [by destruct (task st j) | apply relinked_refl].
    + rewrite Htask by done. by rewrite Z.eqb_refl.
    + intros j Hj Hnj Hpj. rewrite Htask by done. destruct (Z.eqb_spec idx j) as [<- |]; [exfalso; apply Hnj; left |].
      by rewrite decide_False.
    + intros q' Hq'. rewrite wq_head_upd. unfold st1, link_set. destruct p as [k |]; [done |].
      rewrite wq_head_set. destruct (Z.eqb_spec q q'); [| done]. destruct Hq'; congruence.
  - (* not this link: go on from the task [i] *)
    assert (Hin' : idx ∈ rest) by (apply elem_of_cons in Hin as [-> | ?]; done).
    destruct (IH fuel st q idx (Some i) Ht ltac:(lia) Hl Hs Hn) as (H1 & H2 & H3 & H4 & H5 & H6);
      [by intros j [= <-] | done |].
    assert (Hwi : without idx (i :: rest) = i :: without idx rest)
      by (unfold without; rewrite filter_cons_True by done; done).
    rewrite Hwi. split_and!; auto.
    + split; [| exact H2]. transitivity (link_get st q p); [| exact Hv]. destruct p as [k |]; cbn [link_get].
      * destruct (Hp k eq_refl) as [Hk Hkn]. apply not_elem_of_cons in Hkn as [? ?].
        rewrite H5; [done | done | done | congruence].
      * apply H6. by right.
    + intros j Hj Hnj Hpj. apply not_elem_of_cons in Hnj as [? ?]. apply H5; [done | done | congruence].
Qed.

Lemma wq_remove_spec st q idx l : q <> 0 -> table_ok st -> slot idx -> wait_q (task st idx) = q ->
  queue st q l ->
  let st' := wq_remove st q idx in
  table_ok st' /\ queue st' q (without idx l)
  /\ task st' idx = set_link (task st idx) (-1) 0
  /\ (forall j, slot j -> j <> idx -> relinked (task st j) (task st' j))
  /\ (forall j, slot j -> wait_q (task st j) <> q -> task st' j = task st j)
  /\ (forall q', q' <> q -> wq_head st' q' = wq_head st q').
Proof.
  intros Hq0 Ht Hi Hw Hqueue st'. pose proof Hqueue as (Hl & Hn & Hm). pose proof (queue_slots _ _ _ Hqueue) as Hs.
  pose proof (slots_bound l Hn Hs) as Hb.
  destruct (wq_remove_from_spec l CHAIN_FUEL st q idx None Ht ltac:(unfold CHAIN_FUEL; lia) Hl Hs Hn
    ltac:(done) (proj2 (Hm idx) (conj Hi Hw))) as (H1 & H2 & H3 & H4 & H5 & H6).
  change (wq_remove_from CHAIN_FUEL st q idx None) with st' in *.
  split_and!; auto.
  - split; [exact H2 |]. split; [by apply NoDup_filter |]. intros j. rewrite without_elem, Hm. split.
    + intros [[Hj Hq] Hji]. split; [done |]. specialize (H3 j Hj Hji). unfold relinked in H3. by rewrite H3.
    + intros [Hj Hq]. destruct (Z.eq_dec j idx) as [-> | Hji].
      * rewrite H4 in Hq. cbn [wait_q set_link] in Hq. congruence.
      * specialize (H3 j Hj Hji). unfold relinked in H3. rewrite H3 in Hq. done.
  - intros j Hj Hq. apply H5; [done | | done]. intros Hx. apply Hm in Hx as [_ ?]. done.
Qed.

(** *** Wake-ups *)

Lemma wake_chain_spec l : forall fuel st h, table_ok st -> (length l < fuel)%nat ->
  linked (nxt st) h l -> Forall slot l -> NoDup l ->
  let st' := wake_chain fuel st h in
  table_ok st' /\ (forall q, wq_head st' q = wq_head st q) /\ g_ready st' = g_ready st
  /\ g_current st' = g_current st
  /\ forall j, slot j -> task st' j = if decide (j ∈ l) then woken (task st j) else task st j.
Proof.
  induction l as [| i l IH]; intros fuel st h Ht Hf Hl Hs Hn; (destruct fuel as [| fuel]; [simpl in Hf; lia |]);
    cbn [wake_chain].
  - simpl in Hl. subst h. cbn [Z.eqb]. by split_and!.
  - destruct Hl as [-> Hl]. apply Forall_cons in Hs as [Hi Hs]. apply NoDup_cons in Hn as [Hni Hn].
    destruct (Z.eqb_spec i (-1)); [unfold slot in Hi; lia |]. cbv zeta. simpl in Hf.
    set (st1 := upd st i (woken (task st i))).
    destruct (IH fuel st1 (wait_next (task st i))) as (H1 & H2 & H3 & H3' & H4); [by apply table_upd | lia | | done | done |].
    + eapply linked_ext; [| exact Hl]. intros j Hj. unfold nxt, st1. rewrite Forall_forall in Hs.
      rewrite task_upd by (auto; by apply Hs). by destruct (Z.eqb_spec i j) as [-> |].
    + split_and!; auto. intros j Hj. rewrite H4 by done. unfold st1. rewrite task_upd by done.
      destruct (Z.eqb_spec i j) as [<- | Hne].
      * rewrite decide_False, decide_True by (done || left). done.
      * destruct (decide (j ∈ l)); [by rewrite decide_True by (by right) |].
        rewrite decide_False; [done |]. intros Hx. apply elem_of_cons in Hx as [-> |]; done.
Qed.

Lemma woken_fields t : wait_next (woken t) = -1 /\ wait_q (woken t) = 0 /\ wake_tick (woken t) = 0
  /\ state (woken t) = if state_is (state t) TASK_BLOCKED then TASK_READY else state t.
Proof. unfold woken. cbn [set_wake set_link state]. by destruct (state_is (state t) TASK_BLOCKED). Qed.

Lemma task_wake_all_spec st q : wq_inv st -> g_ready st = true -> q <> 0 ->
  let st' := task_wake_all st q in
  wq_inv st' /\ g_current st' = g_current st /\ wq_head st' q = -1
  /\ forall j, slot j -> task st' j = if wait_q (task st j) =? q then woken (task st j) else task st j.
Proof.
  intros [Ht Hq Hb] Hr Hq0 st'. destruct (Hq q Hq0) as (l & Hqueue). pose proof Hqueue as (Hl & Hn & Hm).
  pose proof (queue_slots _ _ _ Hqueue) as Hs. pose proof (slots_bound l Hn Hs).
  destruct (wake_chain_spec l CHAIN_FUEL st (wq_head st q) Ht ltac:(unfold CHAIN_FUEL; lia) Hl Hs Hn)
    as (H1 & H2 & _ & H3 & H4).
  assert (Est : st' = set_wq_head (wake_chain CHAIN_FUEL st (wq_head st q)) q (-1)).
  { unfold st', task_wake_all. rewrite Hr. by destruct (Z.eqb_spec q 0). }
  clearbody st'. subst st'. set (st' := set_wq_head _ q (-1)).
  assert (Htask : forall j, slot j -> task st' j = if wait_q (task st j) =? q then woken (task st j) else task st j).
  { intros j Hj. unfold st'. rewrite task_set_head, H4 by done.
    destruct (Z.eqb_spec (wait_q (task st j)) q) as [E | E].
    - by rewrite decide_True by (by apply Hm).
    - rewrite decide_False; [done |]. intros Hx. by apply Hm in Hx as [_ ?]. }
  assert (Hhead : forall q', wq_head st' q' = if q =? q' then -1 else wq_head st q')
    by (intros q'; unfold st'; rewrite wq_head_set, H2; done).
  split_and!; try done; [constructor; [done | |] | rewrite Hhead, Z.eqb_refl; done].
  - intros q' Hq'. destruct (Z.eq_dec q q') as [<- | Hne].
    + exists []. split; [rewrite Hhead, Z.eqb_refl; done |]. split; [constructor |].
      intros i. split; [intros Hx; by apply elem_of_nil in Hx |]. intros [Hi Hx]. rewrite Htask in Hx by done.
      destruct (Z.eqb_spec (wait_q (task st i)) q); [| done].
      destruct (woken_fields (task st i)) as (_ & E & _). congruence.
    + destruct (Hq q' Hq') as (l' & Hqueue'). exists l'. apply (queue_ext st); [done | | |].
      * rewrite Hhead. destruct (Z.eqb_spec q q'); [done |]. done.
      * intros i Hi. rewrite Htask by done. destruct (Z.eqb_spec (wait_q (task st i)) q) as [E |]; [| done].
        destruct (woken_fields (task st i)) as (_ & E' & _). rewrite E'. split; intros; congruence.
      * intros i Hi. apply Hqueue' in Hi as [Hi Hx]. unfold nxt. rewrite Htask by done.
        destruct (Z.eqb_spec (wait_q (task st i)) q); [congruence | done].
  - intros i Hi. rewrite Htask by done. destruct (Z.eqb_spec (wait_q (task st i)) q); [| by apply Hb].
    destruct (woken_fields (task st i)) as (_ & _ & _ & ->).
    destruct (state_is (state (task st i)) TASK_BLOCKED) eqn:E; [done |].
    intros E'. by apply state_is_false in E.
Qed.

(** *** Updates that leave the queues alone *)

Lemma wq_inv_upd st i t : wq_inv st -> slot i ->
  wait_next t = wait_next (task st i) \/ wait_q (task st i) = 0 -> wait_q t = wait_q (task st i) ->
  (state t = TASK_BLOCKED -> wait_q t <> 0) -> wq_inv (upd st i t).
Proof.
  intros [Ht Hq Hb] Hi Hn Hw Hbl. constructor; [by apply table_upd | |].
  - intros q Hq0. destruct (Hq q Hq0) as (l & Hqueue). exists l. apply (queue_ext st); [done | done | |].
    + intros j Hj. rewrite task_upd by done. by destruct (Z.eqb_spec i j) as [<- |]; [rewrite Hw |].
    + intros j Hj. apply Hqueue in Hj as [Hj Hx]. unfold nxt. rewrite task_upd by done.
      destruct (Z.eqb_spec i j) as [<- |]; [| done]. destruct Hn; congruence.
  - intros j Hj. rewrite task_upd by done. destruct (Z.eqb_spec i j) as [<- |]; [done | by apply Hb].
Qed.

Lemma wq_remove_inv st idx : wq_inv st -> slot idx -> wait_q (task st idx) <> 0 ->
  let st' := wq_remove st (wait_q (task st idx)) idx in
  table_ok st' /\ (forall q, q <> 0 -> exists l, queue st' q l)
  /\ task st' idx = set_link (task st idx) (-1) 0
  /\ (forall j, slot j -> j <> idx -> relinked (task st j) (task st' j)).
Proof.
  intros [Ht Hq Hb] Hi Hw. destruct (Hq _ Hw) as (l & Hqueue).
  destruct (wq_remove_spec st _ idx l Hw Ht Hi eq_refl Hqueue) as (H1 & H2 & H3 & H4 & H5 & H6).
  cbv zeta. set (q := wait_q (task st idx)) in *. set (st' := wq_remove st q idx) in *.
  split_and!; auto. intros q' Hq'. destruct (Z.eq_dec q' q) as [-> | Hne]; [by eauto |].
  destruct (Hq q' Hq') as (l' & Hqueue'). exists l'. apply (queue_ext st); [done | by apply H6 | |].
  - intros j Hj. destruct (Z.eq_dec j idx) as [-> | Hji].
    + rewrite H3. cbn [wait_q set_link]. fold q. split; congruence.
    + specialize (H4 j Hj Hji). unfold relinked in H4. by rewrite H4.
  - intros j Hj. apply Hqueue' in Hj as [Hj Hx]. unfold nxt. rewrite H5 by congruence. done.
Qed.

Lemma wq_remove_global st q i :
  g_ready (wq_remove st q i) = g_ready st /\ g_current (wq_remove st q i) = g_current st.
Proof.
  unfold wq_remove. generalize (@None Z). generalize CHAIN_FUEL. intros f. revert st.
  induction f as [| f IH]; intros st p; cbn [wq_remove_from]; [done |].
  destruct (_ =? -1); [done |]. destruct (_ =? i); [by destruct p | apply IH].
Qed.

(** *** The timer *)

Definition timed_out (t : task_t) : task_t := set_link (set_state (set_wake t 0) TASK_READY) (-1) 0.

Lemma tick_one_spec st now i : wq_inv st -> slot i ->
  let st' := tick_one st now i in
  wq_inv st' /\ g_current st' = g_current st /\ g_ready st' = g_ready st
  /\ (forall j, slot j -> j <> i -> relinked (task st j) (task st' j))
  /\ task st' i = if expired (task st i) now then timed_out (task st i) else task st i.
Proof.
  intros Hinv Hi. unfold tick_one. cbv zeta. destruct (expired (task st i) now) eqn:E.
  2:{ split_and!; try done. intros. apply relinked_refl. }
  unfold expired in E. apply andb_true_iff in E as [E _]. apply andb_true_iff in E as [E _].
  apply state_is_true in E. pose proof (wi_blocked _ Hinv i Hi E) as Hw.
  destruct (Z.eqb_spec (wait_q (task st i)) 0); [done |]. cbn [negb].
  destruct (wq_remove_inv st i Hinv Hi Hw) as (H1 & H2 & H3 & H4).
  destruct (wq_remove_global st (wait_q (task st i)) i) as [Hg1 Hg2].
  set (st1 := wq_remove st (wait_q (task st i)) i) in *.
  assert (Htask : forall j, slot j -> task (upd st1 i (set_state (set_wake (task st1 i) 0) TASK_READY)) j =
    if i =? j then timed_out (task st i) else task st1 j).
  { intros j Hj. rewrite task_upd by done. destruct (Z.eqb_spec i j); [| done]. rewrite H3. done. }
  split_and!; [constructor; [by apply table_upd | |] | done | done | |].
  - intros q Hq. destruct (H2 q Hq) as (l & Hqueue). exists l. apply (queue_ext st1); [done | done | |].
    + intros j Hj. rewrite Htask by done. destruct (Z.eqb_spec i j) as [<- |]; [| done]. rewrite H3. done.
    + intros j Hj. apply Hqueue in Hj as [Hj _]. unfold nxt. rewrite Htask by done.
      destruct (Z.eqb_spec i j) as [<- |]; [| done]. rewrite H3. done.
  - intros j Hj. rewrite Htask by done. destruct (Z.eqb_spec i j) as [<- |]; [done |].
    specialize (H4 j Hj ltac:(congruence)). unfold relinked in H4. rewrite H4. cbn [state set_link wait_q].
    by apply (wi_blocked _ Hinv).
  - intros j Hj Hji. rewrite Htask by done. destruct (Z.eqb_spec i j); [congruence |]. by apply H4.
  - rewrite Htask by done. by rewrite Z.eqb_refl.
Qed.

Lemma relinked_trans a b c : relinked a b -> relinked b c -> relinked a c.
Proof. unfold relinked. intros Hb Hc. rewrite Hc. rewrite Hb. done. Qed.

Lemma relinked_fields a b : relinked a b ->
  state b = state a /\ wait_q b = wait_q a /\ wake_tick b = wake_tick a.
Proof. unfold relinked. intros ->. done. Qed.

Lemma expired_relinked a b now : relinked a b -> expired b now = expired a now.
Proof. intros H. apply relinked_fields in H as (H1 & _ & H3). unfold expired. by rewrite H1, H3. Qed.

Lemma timed_out_relinked a b : relinked a b -> timed_out b = timed_out a.
Proof. unfold relinked. intros ->. done. Qed.

Lemma tick_from_spec k : forall st now i, wq_inv st -> 0 <= i -> i + Z.of_nat k = 8 ->
  let st' := tick_from k st now i in
  wq_inv st' /\ g_current st' = g_current st
  /\ (forall j, slot j -> j < i -> relinked (task st j) (task st' j))
  /\ forall j, slot j -> i <= j ->
       relinked (if expired (task st j) now then timed_out (task st j) else task st j) (task st' j).
Proof.
  induction k as [| k IH]; intros st now i Hinv Hi Hk; cbv zeta; cbn [tick_from].
  - split_and!; try done; [intros; apply relinked_refl |]. intros j Hj. unfold slot, MAX_TASKS in Hj. lia.
  - assert (Hs : slot i) by (unfold slot, MAX_TASKS; lia).
    destruct (tick_one_spec st now i Hinv Hs) as (H1 & H2 & _ & H3 & H4).
    destruct (IH (tick_one st now i) now (i + 1) H1 ltac:(lia) ltac:(lia)) as (H5 & H6 & H7 & H8).
    split; [done |]. split; [congruence |]. split.
    + intros j Hj Hji. eapply relinked_trans; [apply H3; [done | lia] | apply H7; [done | lia]].
    + intros j Hj Hji. destruct (Z.eq_dec j i) as [-> | Hne].
      * rewrite <- H4. apply H7; [done | lia].
      * specialize (H8 j Hj ltac:(lia)). specialize (H3 j Hj Hne).
        rewrite (expired_relinked _ _ now H3) in H8.
        destruct (expired (task st j) now).
        -- by rewrite (timed_out_relinked _ _ H3) in H8.
        -- by eapply relinked_trans.
Qed.

(** ** The scheduler *)

(** Only the current task may be RUNNING (while it sleeps without having been
    switched away it is BLOCKED or READY). *)
Definition run_inv (st : sched) : Prop :=
  slot (g_current st) /\ forall i, slot i -> i <> g_current st -> state (task st i) <> TASK_RUNNING.

Definition sched_ok (st : sched) : Prop := wq_inv st /\ run_inv st.

Lemma pick_from_spec k st : forall i,
  (exists d, i <= d < i + Z.of_nat k /\ pick_from k st i = (g_current st + d) mod MAX_TASKS
     /\ runnable (task st ((g_current st + d) mod MAX_TASKS)) = true
     /\ forall e, i <= e < d -> runnable (task st ((g_current st + e) mod MAX_TASKS)) = false)
  \/ (pick_from k st i = g_current st /\
      forall e, i <= e < i + Z.of_nat k -> runnable (task st ((g_current st + e) mod MAX_TASKS)) = false).
Proof.
  induction k as [| k IH]; intros i; cbn [pick_from]; [right; split; [done | lia] |].
  destruct (runnable (task st ((g_current st + i) mod MAX_TASKS))) eqn:E.
  - left. exists i. split_and!; try lia; auto.
  - destruct (IH (i + 1)) as [(d & Hd & H1 & H2 & H3) | [H1 H2]].
    + left. exists d. split_and!; auto; try lia. intros e He. destruct (Z.eq_dec e i) as [-> |]; [done | apply H3; lia].
    + right. split; [done |]. intros e He. destruct (Z.eq_dec e i) as [-> |]; [done | apply H2; lia].
Qed.

Lemma mod_slot a : slot (a mod MAX_TASKS).
Proof. unfold slot, MAX_TASKS. apply Z.mod_pos_bound. lia. Qed.

(** The two possible outcomes once the time slice is over. *)
Lemma pick_next_spec st : slot (g_current st) ->
  slot (pick_next st) /\
  (pick_next st <> g_current st -> runnable (task st (pick_next st)) = true /\
     forall j, slot j -> runnable (task st j) = true -> j <> g_current st ->
       (pick_next st - g_current st) mod 8 <= (j - g_current st) mod 8) /\
  ((exists j, slot j /\ j <> g_current st /\ runnable (task st j) = true) -> pick_next st <> g_current st).
Proof.
  intros Hc. unfold pick_next. change (Z.to_nat MAX_TASKS) with 8%nat.
  assert (Hdist : forall j, slot j -> j <> g_current st ->
    1 <= (j - g_current st) mod 8 < 8 /\ (g_current st + (j - g_current st) mod 8) mod MAX_TASKS = j).
  { intros j Hj Hne. unfold slot, MAX_TASKS in *. Z.to_euclidean_division_equations. lia. }
  destruct (pick_from_spec 8 st 1) as [(d & Hd & -> & Hr & Hno) | [-> Hno]].
  - split; [apply mod_slot |].
    assert (Hle : forall j, slot j -> runnable (task st j) = true -> j <> g_current st ->
      d <= (j - g_current st) mod 8).
    { intros j Hj Hrj Hne. destruct (Hdist j Hj Hne) as [Hb He].
      destruct (Z.le_gt_cases d ((j - g_current st) mod 8)) as [| Hlt]; [done |].
      rewrite <- He, Hno in Hrj by lia. done. }
    split.
    + intros Hne. split; [done |]. intros j Hj Hrj Hnj. specialize (Hle j Hj Hrj Hnj).
      unfold slot, MAX_TASKS in *. Z.to_euclidean_division_equations. lia.
    + intros (j & Hj & Hne & Hrj) E. specialize (Hle j Hj Hrj Hne). destruct (Hdist j Hj Hne) as [Hb _].
      unfold slot, MAX_TASKS in *. Z.to_euclidean_division_equations. lia.
  - split; [done |]. split; [done |]. intros (j & Hj & Hne & Hrj). destruct (Hdist j Hj Hne) as [Hb He].
    rewrite <- He, Hno in Hrj by lia. done.
Qed.

(** What [schedule] leaves alone: chains, deadlines and the state of tasks. *)
Definition chains_kept (st st' : sched) : Prop :=
  table_ok st' /\ (forall q, wq_head st' q = wq_head st q)
  /\ forall i, slot i -> wait_next (task st' i) = wait_next (task st i)
       /\ wait_q (task st' i) = wait_q (task st i) /\ wake_tick (task st' i) = wake_tick (task st i).

Lemma chains_kept_inv st st' : wq_inv st -> chains_kept st st' ->
  (forall i, slot i -> state (task st' i) = TASK_BLOCKED -> wait_q (task st i) <> 0) -> wq_inv st'.
Proof.
  intros [Ht Hq Hb] (Ht' & Hh & Hw) Hbl. constructor; [done | |].
  - intros q Hq0. destruct (Hq q Hq0) as (l & Hqueue). exists l. apply (queue_ext st); [done | apply Hh | |].
    + intros i Hi. destruct (Hw i Hi) as (_ & -> & _). done.
    + intros i Hi. apply Hqueue in Hi as [Hi _]. apply (Hw i Hi).
  - intros i Hi E. destruct (Hw i Hi) as (_ & -> & _). by apply Hbl.
Qed.

Lemma schedule_switch_spec st : table_ok st -> run_inv st ->
  let '(st', b) := schedule_switch st in
  chains_kept st st' /\ run_inv st'
  /\ (forall i, slot i -> state (task st' i) = TASK_BLOCKED -> state (task st i) = TASK_BLOCKED)
  /\ (if b then pick_next st <> g_current st /\ g_current st' = pick_next st
        /\ state (task st' (g_current st')) = TASK_RUNNING
        /\ (forall i, slot i -> i <> g_current st -> i <> pick_next st -> task st' i = task st i)
        /\ state (task st' (g_current st)) =
             (if state_is (state (task st (g_current st))) TASK_RUNNING then TASK_READY else state (task st (g_current st)))
      else g_current st' = g_current st
        /\ forall i, slot i -> state (task st' i) = state (task st i)).
Proof.
  intros Ht [Hc Hrun]. unfold schedule_switch. set (c := g_current st) in *.
  assert (Hrefl : chains_kept st st) by (split_and!; try done; auto).
  destruct (negb (g_ready st) || negb (g_lock_depth st =? 0)); [by split_and! |]. cbv zeta.
  unfold chains_kept, run_inv.
  set (st1 := if 0 <? ticks (task st c) then _ else st).
  assert (H1 : table_ok st1 /\ (forall q, wq_head st1 q = wq_head st q) /\ g_current st1 = c
    /\ (forall i, slot i -> i <> c -> task st1 i = task st i)
    /\ exists n, task st1 c = set_ticks (task st c) n).
  { unfold st1. destruct (0 <? ticks (task st c)).
    - split_and!; try done; [by apply table_upd | |].
      + intros i Hi Hne. rewrite task_upd by done. destruct (Z.eqb_spec c i); [congruence | done].
      + exists (ticks (task st c) - 1). rewrite task_upd by done. by rewrite Z.eqb_refl.
    - split_and!; try done. exists (ticks (task st c)). by destruct (task st c). }
  clearbody st1. destruct H1 as (Ht1 & Hh1 & Hc1 & Ho1 & (n1 & Hn1)).
  assert (Hf1 : forall i, slot i -> wait_next (task st1 i) = wait_next (task st i)
    /\ wait_q (task st1 i) = wait_q (task st i) /\ wake_tick (task st1 i) = wake_tick (task st i)
    /\ state (task st1 i) = state (task st i)).
  { intros i Hi. destruct (Z.eq_dec i c) as [-> | Hne]; [by rewrite Hn1 | by rewrite Ho1]. }
  assert (Hpick : pick_next st1 = pick_next st).
  { unfold pick_next. generalize (Z.to_nat MAX_TASKS), 1. intros k. induction k as [| k IH]; intros i; cbn [pick_from]; [done |].
    rewrite Hc1. fold c. unfold runnable. destruct (Hf1 _ (mod_slot (c + i))) as (_ & _ & _ & ->). rewrite IH. done. }
  destruct (state_is (state (task st1 c)) TASK_RUNNING && (0 <? ticks (task st1 c))).
  { split_and!; try done.
    - intros i Hi. destruct (Hf1 i Hi) as (? & ? & ? & _). done.
    - by rewrite Hc1.
    - intros i Hi Hne. destruct (Hf1 i Hi) as (_ & _ & _ & ->). rewrite Hc1 in Hne. by apply Hrun.
    - intros i Hi. by destruct (Hf1 i Hi) as (_ & _ & _ & ->).
    - intros i Hi. by destruct (Hf1 i Hi) as (_ & _ & _ & ->). }
  rewrite Hpick. set (nx := pick_next st). destruct (pick_next_spec st Hc) as (Hnx & _ & _). fold nx in Hnx.
  destruct (Z.eqb_spec nx c) as [E | E].
  { assert (Hf2 : forall i, slot i -> wait_next (task (upd st1 c (set_ticks (task st1 c) TASK_TIMESLICE)) i) = wait_next (task st i)
      /\ wait_q (task (upd st1 c (set_ticks (task st1 c) TASK_TIMESLICE)) i) = wait_q (task st i)
      /\ wake_tick (task (upd st1 c (set_ticks (task st1 c) TASK_TIMESLICE)) i) = wake_tick (task st i)
      /\ state (task (upd st1 c (set_ticks (task st1 c) TASK_TIMESLICE)) i) = state (task st i)).
    { intros i Hi. rewrite task_upd by done. destruct (Z.eqb_spec c i) as [<- |]; apply Hf1; done. }
    split_and!; try done.
    - by apply table_upd.
    - intros i Hi. destruct (Hf2 i Hi) as (? & ? & ? & _). done.
    - change (slot (g_current st1)). by rewrite Hc1.
    - intros i Hi Hne. destruct (Hf2 i Hi) as (_ & _ & _ & ->). apply Hrun; [done |].
      intros ->. apply Hne. change (c = g_current st1). done.
    - intros i Hi. by destruct (Hf2 i Hi) as (_ & _ & _ & ->).
    - intros i Hi. by destruct (Hf2 i Hi) as (_ & _ & _ & ->). }
  set (st2 := if state_is (state (task st1 c)) TASK_RUNNING then _ else st1).
  assert (H2 : table_ok st2 /\ (forall q, wq_head st2 q = wq_head st q)
    /\ (forall i, slot i -> i <> c -> task st2 i = task st i)
    /\ (wait_next (task st2 c) = wait_next (task st c) /\ wait_q (task st2 c) = wait_q (task st c)
        /\ wake_tick (task st2 c) = wake_tick (task st c)
        /\ state (task st2 c) = if state_is (state (task st c)) TASK_RUNNING then TASK_READY else state (task st c))).
  { unfold st2. destruct (Hf1 c Hc) as (_ & _ & _ & ->). destruct (state_is (state (task st c)) TASK_RUNNING).
    - assert (Hu : forall i, slot i -> task (upd st1 c (set_state (task st1 c) TASK_READY)) i =
        if c =? i then set_state (task st1 c) TASK_READY else task st1 i) by (intros; by apply task_upd).
      rewrite Hn1 in Hu |- *.
      split_and!; [by apply table_upd | done | | ..]; rewrite ?Hu, ?Z.eqb_refl by done; try done.
      intros i Hi Hne. rewrite Hu by done. destruct (Z.eqb_spec c i); [congruence |]. by apply Ho1.
    - split_and!; try done; apply Hf1; done. }
  clearbody st2. destruct H2 as (Ht2 & Hh2 & Ho2 & Hw2 & Hq2 & Hk2 & Hs2).
  set (n := set_switches _ _). assert (Hn : wait_next n = wait_next (task st nx) /\ wait_q n = wait_q (task st nx)
    /\ wake_tick n = wake_tick (task st nx) /\ state n = TASK_RUNNING).
  { unfold n. cbn [set_switches set_ticks set_state wait_next wait_q wake_tick state]. by rewrite Ho2. }
  clearbody n. set (st3 := upd st2 nx n).
  assert (Htask3 : forall i, slot i -> task st3 i = if nx =? i then n else task st2 i) by (intros; by apply task_upd).
  set (st' := mk_sched _ _ _ _ _ _ _ _ _ _).
  assert (Htask : forall i, task st' i = task st3 i) by done.
  split_and!; try done.
  - by apply table_upd.
  - intros i Hi. rewrite !Htask, Htask3 by done. destruct (Z.eqb_spec nx i) as [<- |]; [by destruct Hn as (? & ? & ? & _) |].
    destruct (Z.eq_dec i c) as [-> |]; [done | by rewrite Ho2].
  - intros i Hi Hne. rewrite Htask, Htask3 by done. destruct (Z.eqb_spec nx i) as [<- |]; [done |].
    destruct (Z.eq_dec i c) as [-> |]; [| rewrite Ho2 by done; by apply Hrun].
    rewrite Hs2. destruct (state_is (state (task st c)) TASK_RUNNING) eqn:Es; [done |]. by apply state_is_false in Es.
  - intros i Hi. rewrite Htask, Htask3 by done. destruct (Z.eqb_spec nx i) as [<- |].
    { destruct Hn as (_ & _ & _ & ->). done. }
    destruct (Z.eq_dec i c) as [-> |]; [| by rewrite Ho2].
    rewrite Hs2. by destruct (state_is (state (task st c)) TASK_RUNNING).
  - change (state (task st' nx) = TASK_RUNNING). rewrite Htask, Htask3, Z.eqb_refl by done. apply Hn.
  - intros i Hi Hic Hin. rewrite Htask, Htask3 by done. destruct (Z.eqb_spec nx i); [congruence |]. by apply Ho2.
  - rewrite Htask, Htask3 by done. destruct (Z.eqb_spec nx c); [done |]. exact Hs2.
Qed.

Lemma schedule_switch_globals st : let st' := fst (schedule_switch st) in
  g_ready st' = g_ready st /\ g_lock_depth st' = g_lock_depth st.
Proof.
  unfold schedule_switch. destruct (negb (g_ready st) || negb (g_lock_depth st =? 0)); [done |]. cbv zeta.
  set (st1 := if 0 <? _ then _ else st).
  assert (H1 : g_ready st1 = g_ready st /\ g_lock_depth st1 = g_lock_depth st) by (unfold st1; by destruct (0 <? _)).
  clearbody st1. destruct (_ && _); [done |]. destruct (_ =? g_current st); [done |].
  cbn [fst g_ready g_lock_depth upd set_tasks]. by destruct (state_is _ _).
Qed.

(** A task whose slice is used up gives the processor away if it can. *)
Lemma schedule_switch_moves st : table_ok st -> slot (g_current st) -> g_ready st = true ->
  g_lock_depth st = 0 -> ticks (task st (g_current st)) = 0 -> pick_next st <> g_current st ->
  snd (schedule_switch st) = true.
Proof.
  intros Ht Hc Hr Hl Htk Hp. unfold schedule_switch. rewrite Hr, Hl. cbn [negb Z.eqb orb]. rewrite Htk. cbv zeta.
  change (0 <? 0) with false. cbv iota. rewrite Htk. change (0 <? 0) with false.
  rewrite andb_false_r. destruct (Z.eqb_spec (pick_next st) (g_current st)); done.
Qed.

(** ** The control point of each task inside [task_sleep] *)

Inductive control :=
  | Ctl_run                     (* not in task_sleep *)
  | Ctl_slept (q : Z)           (* in the call of schedule() *)
  | Ctl_halted (q : Z).         (* after sti, in hlt *)

Definition sleeps_on (c : control) (q : Z) : Prop := c = Ctl_slept q \/ c = Ctl_halted q.

Record world := mk_world { w_sched : sched; w_ctl : gmap Z control }.
Definition ctl (w : world) (i : Z) : control := default Ctl_run (w_ctl w !! i).

(** The table part of the operations of task.c that start and end tasks. *)
Definition fresh_task (t : task_t) : Prop := state t = TASK_READY /\ wait_next t = -1 /\ wait_q t = 0.

Inductive sched_step : world -> world -> Prop :=
  | step_yield st m : ctl (mk_world st m) (g_current st) = Ctl_run ->
      sched_step (mk_world st m) (mk_world (fst (task_yield_switch st)) m)
  | step_irq0 st m now : iflag st = true ->
      sched_step (mk_world st m) (mk_world (fst (schedule_switch (task_timer_tick st now))) m)
  | step_wake st m q : sched_step (mk_world st m) (mk_world (task_wake_all st q) m)
  | step_sleep st m q timeout pit st' b : ctl (mk_world st m) (g_current st) = Ctl_run ->
      sleep_begin st q timeout pit = Some (st', b) ->
      sched_step (mk_world st m) (mk_world st' (<[g_current st := Ctl_slept q]> m))
  | step_resume st m q : ctl (mk_world st m) (g_current st) = Ctl_slept q ->
      state (task st (g_current st)) <> TASK_BLOCKED ->
      sched_step (mk_world st m)
        (mk_world (upd st (g_current st) (set_wake (task st (g_current st)) 0)) (<[g_current st := Ctl_run]> m))
  | step_halt st m q : ctl (mk_world st m) (g_current st) = Ctl_slept q ->
      state (task st (g_current st)) = TASK_BLOCKED ->
      sched_step (mk_world st m) (mk_world (set_iflag st true) (<[g_current st := Ctl_halted q]> m))
  | step_unhalt st m q : ctl (mk_world st m) (g_current st) = Ctl_halted q ->
      sched_step (mk_world st m) (mk_world (sleep_wake st q (g_current st)) (<[g_current st := Ctl_run]> m))
  | step_lock st m : ctl (mk_world st m) (g_current st) = Ctl_run ->
      sched_step (mk_world st m) (mk_world (task_lock st) m)
  | step_unlock st m : ctl (mk_world st m) (g_current st) = Ctl_run ->
      sched_step (mk_world st m) (mk_world (task_unlock st) m)
  | step_create st m i t : slot i -> state (task st i) = TASK_UNUSED -> fresh_task t ->
      sched_step (mk_world st m) (mk_world (upd st i t) m)
  | step_exit st m : ctl (mk_world st m) (g_current st) = Ctl_run ->
      sched_step (mk_world st m)
        (mk_world (upd st (g_current st) (set_state (task st (g_current st)) TASK_ZOMBIE)) m)
  | step_reap st m i : slot i -> state (task st i) = TASK_ZOMBIE ->
      sched_step (mk_world st m) (mk_world (upd st i (set_state (task st i) TASK_UNUSED)) m).

(** The queues are consistent, only the current task is RUNNING, and a task is
    queued only where its own call of [task_sleep] put it. *)
Record world_ok (w : world) : Prop := {
  wo_sched : sched_ok (w_sched w);
  wo_run : forall i, slot i -> ctl w i = Ctl_run -> wait_q (task (w_sched w) i) = 0;
  wo_queued : forall i, slot i -> wait_q (task (w_sched w) i) <> 0 -> state (task (w_sched w) i) = TASK_BLOCKED;
  wo_sleep : forall i q, slot i -> sleeps_on (ctl w i) q ->
    q <> 0 /\ (wait_q (task (w_sched w) i) = 0 \/ wait_q (task (w_sched w) i) = q)
    /\ state (task (w_sched w) i) <> TASK_UNUSED /\ state (task (w_sched w) i) <> TASK_ZOMBIE;
}.

Definition alive (s : task_state_t) : Prop := s <> TASK_UNUSED /\ s <> TASK_ZOMBIE.

(** A task that was not put on a queue. *)
Definition unqueued (t t' : task_t) : Prop :=
  wait_q t' = 0 \/ wait_q t' = wait_q t /\ (state t = TASK_BLOCKED -> state t' = TASK_BLOCKED).

Lemma unqueued_wait t t' q : unqueued t t' -> wait_q t = 0 \/ wait_q t = q -> wait_q t' = 0 \/ wait_q t' = q.
Proof. intros [-> | [-> _]]; auto. Qed.

Lemma unqueued_blocked t t' : unqueued t t' -> (wait_q t <> 0 -> state t = TASK_BLOCKED) ->
  wait_q t' <> 0 -> state t' = TASK_BLOCKED.
Proof. intros [-> | [-> H]]; [done | auto]. Qed.

Lemma relinked_unqueued t t' : relinked t t' -> unqueued t t'.
Proof. intros H. apply relinked_fields in H as (E1 & E2 & _). right. by rewrite E1, E2. Qed.

(** Steps that move no task between queues other than off one. *)
Lemma world_ok_mono st st' m : world_ok (mk_world st m) -> sched_ok st' ->
  (forall i, slot i -> unqueued (task st i) (task st' i)) ->
  (forall i, slot i -> alive (state (task st i)) -> ctl (mk_world st m) i <> Ctl_run -> alive (state (task st' i))) ->
  world_ok (mk_world st' m).
Proof.
  intros [Hs Hr Hqd Hsl] Hok Hq Ha. simpl in *. constructor; simpl; [done | | |].
  - intros i Hi Hc. destruct (Hq i Hi) as [-> | [-> _]]; [done | by apply Hr].
  - intros i Hi. eapply unqueued_blocked; [by apply Hq | by apply Hqd].
  - intros i q Hi Hc. destruct (Hsl i q Hi Hc) as (H1 & H2 & H3). split; [done |]. split.
    + eapply unqueued_wait; [by apply Hq | done].
    + apply Ha; [done | done |]. destruct Hc as [E | E]; change (ctl (mk_world st m) i) with (ctl (mk_world st' m) i); by rewrite E.
Qed.

(** ... and a step that changes the control point of the current task. *)
Lemma world_ok_ctl st st' m c : world_ok (mk_world st m) -> slot (g_current st) -> sched_ok st' ->
  (forall i, slot i -> i <> g_current st ->
     unqueued (task st i) (task st' i) /\ (alive (state (task st i)) -> alive (state (task st' i)))) ->
  (c = Ctl_run -> wait_q (task st' (g_current st)) = 0) ->
  (wait_q (task st' (g_current st)) <> 0 -> state (task st' (g_current st)) = TASK_BLOCKED) ->
  (forall q, sleeps_on c q -> q <> 0 /\ (wait_q (task st' (g_current st)) = 0 \/ wait_q (task st' (g_current st)) = q)
     /\ alive (state (task st' (g_current st)))) ->
  world_ok (mk_world st' (<[g_current st := c]> m)).
Proof.
  intros [Hs Hr Hqd Hsl] Hc Hok Ho Hrun Hcq Hsleep. simpl in *.
  assert (Hctl : forall i, ctl (mk_world st' (<[g_current st := c]> m)) i = if g_current st =? i then c else ctl (mk_world st m) i).
  { intros i. unfold ctl. cbn [w_ctl]. destruct (Z.eqb_spec (g_current st) i) as [<- |];
      [by rewrite lookup_insert_eq | by rewrite lookup_insert_ne]. }
  constructor; simpl; [done | | |].
  - intros i Hi. rewrite Hctl. destruct (Z.eqb_spec (g_current st) i) as [<- | Hne]; [done |].
    intros E. destruct (Ho i Hi ltac:(congruence)) as [[-> | [-> _]] _]; [done | by apply Hr].
  - intros i Hi. destruct (Z.eq_dec (g_current st) i) as [<- | Hne]; [done |].
    eapply unqueued_blocked; [by apply Ho; [| congruence] | by apply Hqd].
  - intros i q Hi. rewrite Hctl. destruct (Z.eqb_spec (g_current st) i) as [<- | Hne]; [by apply Hsleep |].
    intros E. destruct (Ho i Hi ltac:(congruence)) as [Hq Ha]. destruct (Hsl i q Hi E) as (H1 & H2 & H3).
    split; [done |]. split; [by eapply unqueued_wait | by apply Ha].
Qed.

Lemma wq_inv_globals st st' : g_tasks st' = g_tasks st -> wqs st' = wqs st -> wq_inv st -> wq_inv st'.
Proof.
  intros Et Ew [Ht Hq Hb]. assert (E : forall i, task st' i = task st i) by (intros i; unfold task; by rewrite Et).
  constructor.
  - unfold table_ok. by rewrite Et.
  - intros q Hq0. destruct (Hq q Hq0) as (l & Hqueue). exists l. apply (queue_ext st); [done | | |].
    + unfold wq_head. by rewrite Ew.
    + intros i _. by rewrite E.
    + intros i _. unfold nxt. by rewrite E.
  - intros i. rewrite E. apply Hb.
Qed.

Lemma sched_ok_globals st st' : g_tasks st' = g_tasks st -> wqs st' = wqs st -> g_current st' = g_current st ->
  sched_ok st -> sched_ok st'.
Proof.
  intros Et Ew Ec [H1 [H2 H3]]. split; [by eapply wq_inv_globals |]. split; [by rewrite Ec |].
  intros i. unfold task. rewrite Et, Ec. apply H3.
Qed.

(** Updating one task without touching its links. *)
Lemma sched_ok_upd st i t : sched_ok st -> slot i ->
  wait_next t = wait_next (task st i) \/ wait_q (task st i) = 0 ->
  wait_q t = wait_q (task st i) -> (state t = TASK_BLOCKED -> wait_q t <> 0) ->
  (state t = TASK_RUNNING -> i = g_current st) -> sched_ok (upd st i t).
Proof.
  intros [Hw [Hc Hr]] Hi Hn Hq Hb Hrun. pose proof (wi_table _ Hw) as Ht.
  split; [by apply wq_inv_upd |]. split; [done |]. cbn [upd set_tasks g_current].
  intros j Hj Hne. rewrite task_upd by done. destruct (Z.eqb_spec i j) as [<- |]; [| by apply Hr].
  intros E. by apply Hne, Hrun.
Qed.

Lemma schedule_sched_ok st : sched_ok st -> sched_ok (fst (schedule_switch st)).
Proof.
  intros [Hw Hr]. pose proof (schedule_switch_spec st (wi_table _ Hw) Hr) as H.
  destruct (schedule_switch st) as [st' b]. destruct H as (H1 & H2 & H3 & _). split; [| done].
  apply (chains_kept_inv st); [done | done |]. intros i Hi E. by apply (wi_blocked _ Hw), H3.
Qed.

Lemma schedule_alive st i : sched_ok st -> slot i -> alive (state (task st i)) ->
  alive (state (task (fst (schedule_switch st)) i)).
Proof.
  intros [Hw Hr] Hi Ha. pose proof (schedule_switch_spec st (wi_table _ Hw) Hr) as H.
  destruct (schedule_switch st) as [st' b]. destruct H as (_ & _ & _ & H). simpl. destruct b.
  - destruct H as (Hne & Hc & Hrun & Ho & Hs).
    destruct (Z.eq_dec i (pick_next st)) as [-> | Hnp]; [rewrite <- Hc, Hrun; by split |].
    destruct (Z.eq_dec i (g_current st)) as [-> | Hnc]; [| by rewrite Ho].
    rewrite Hs. by destruct (state_is _ _).
  - destruct H as [_ H]. by rewrite H.
Qed.

Lemma schedule_wait_q st i : sched_ok st -> slot i ->
  wait_q (task (fst (schedule_switch st)) i) = wait_q (task st i)
  /\ (state (task st i) = TASK_BLOCKED -> state (task (fst (schedule_switch st)) i) = TASK_BLOCKED).
Proof.
  intros [Hw Hr] Hi. pose proof (schedule_switch_spec st (wi_table _ Hw) Hr) as H.
  destruct (schedule_switch st) as [st' b]. destruct H as ((_ & _ & H) & _ & _ & Hb). split; [by apply H |].
  intros E. simpl. destruct b; [| by rewrite (proj2 Hb)]. destruct Hb as (Hne & _ & _ & Ho & Hs).
  destruct Hr as [Hc Hr]. destruct (Z.eq_dec i (pick_next st)) as [-> | Hnp].
  - destruct (pick_next_spec st Hc) as (_ & Hp & _). destruct (Hp Hne) as [Hp' _].
    unfold runnable in Hp'. rewrite E in Hp'. done.
  - destruct (Z.eq_dec i (g_current st)) as [-> | Hnc]; [| by rewrite Ho]. rewrite Hs, E. done.
Qed.

Lemma schedule_world_ok st m : world_ok (mk_world st m) -> world_ok (mk_world (fst (schedule_switch st)) m).
Proof.
  intros H. pose proof (wo_sched _ H) as Hok. simpl in Hok. eapply world_ok_mono; [done | by apply schedule_sched_ok | |].
  - intros i Hi. right. by apply schedule_wait_q.
  - intros i Hi Ha _. by apply schedule_alive.
Qed.

Lemma tick_world_ok st m now : world_ok (mk_world st m) -> world_ok (mk_world (task_timer_tick st now) m).
Proof.
  intros H. unfold task_timer_tick. destruct (negb (g_ready st)); [done |].
  pose proof (wo_sched _ H) as [Hw Hr]. simpl in Hw, Hr.
  destruct (tick_from_spec 8 st now 0 Hw ltac:(lia) ltac:(lia)) as (H1 & H2 & _ & H4).
  change (Z.to_nat MAX_TASKS) with 8%nat. set (st' := tick_from 8 st now 0) in *.
  assert (Hf : forall i, slot i -> (state (task st' i) = state (task st i) \/ state (task st' i) = TASK_READY)
     /\ unqueued (task st i) (task st' i)).
  { intros i Hi. unfold unqueued. destruct (relinked_fields _ _ (H4 i Hi ltac:(unfold slot in Hi; lia))) as (-> & -> & _).
    destruct (expired _ _); [split; [by right | by left] | split; [by left | by right]]. }
  eapply world_ok_mono; [done | split; [done |] | |].
  - destruct Hr as [Hc Hrun]. split; [by rewrite H2 |]. intros i Hi Hne. rewrite H2 in Hne.
    destruct (Hf i Hi) as [[-> | ->] _]; [by apply Hrun | done].
  - intros i Hi. by destruct (Hf i Hi).
  - intros i Hi Ha _. destruct (Hf i Hi) as [[-> | ->] _]; [done | by split].
Qed.

Lemma wake_world_ok st m q : world_ok (mk_world st m) -> world_ok (mk_world (task_wake_all st q) m).
Proof.
  intros H. destruct (g_ready st) eqn:Er; [destruct (Z.eq_dec q 0) as [-> | Hq] |].
  - unfold task_wake_all. rewrite orb_true_r. done.
  - pose proof (wo_sched _ H) as [Hw Hr]. simpl in Hw, Hr.
    destruct (task_wake_all_spec st q Hw Er Hq) as (H1 & H2 & _ & H4).
    assert (Hf : forall i, slot i -> (state (task (task_wake_all st q) i) = state (task st i)
       \/ state (task (task_wake_all st q) i) = TASK_READY)
     /\ unqueued (task st i) (task (task_wake_all st q) i)).
    { intros i Hi. unfold unqueued. rewrite H4 by done. destruct (_ =? q); [| split; [by left | by right]].
      destruct (woken_fields (task st i)) as (_ & -> & _ & ->). split; [| by left].
      destruct (state_is _ _); [by right | by left]. }
    eapply world_ok_mono; [done | split; [done |] | |].
    + destruct Hr as [Hc Hrun]. split; [by rewrite H2 |]. intros i Hi Hne. rewrite H2 in Hne.
      destruct (Hf i Hi) as [[-> | ->] _]; [by apply Hrun | done].
    + intros i Hi. by destruct (Hf i Hi).
    + intros i Hi Ha _. destruct (Hf i Hi) as [[-> | ->] _]; [done | by split].
  - unfold task_wake_all. by rewrite Er.
Qed.

Lemma set_iflag_ok st b : sched_ok st -> sched_ok (set_iflag st b).
Proof. by apply sched_ok_globals. Qed.

(** Falling asleep: the state just before the call of [schedule]. *)
Lemma enqueue_ok st q w : sched_ok st -> q <> 0 -> wait_q (task st (g_current st)) = 0 ->
  let st0 := upd st (g_current st) (set_state (set_wake (task st (g_current st)) w) TASK_BLOCKED) in
  let st' := wq_push st0 q (g_current st) in
  sched_ok st' /\ g_current st' = g_current st
  /\ (forall i, slot i -> i <> g_current st -> task st' i = task st i)
  /\ state (task st' (g_current st)) = TASK_BLOCKED /\ wait_q (task st' (g_current st)) = q
  /\ wake_tick (task st' (g_current st)) = w.
Proof.
  intros [[Ht Hq Hb] [Hc Hr]] Hq0 Hw st0 st'. set (c := g_current st) in *.
  assert (Ht0 : table_ok st0) by (by apply table_upd).
  assert (Htask0 : forall i, slot i -> task st0 i = if c =? i then set_state (set_wake (task st c) w) TASK_BLOCKED else task st i)
    by (intros; by apply task_upd).
  assert (Hq' : forall q', q' <> 0 -> exists l, queue st0 q' l).
  { intros q' Hq'. destruct (Hq q' Hq') as (l & Hqueue). exists l. apply (queue_ext st); [done | done | |].
    - intros i Hi. rewrite Htask0 by done. destruct (Z.eqb_spec c i) as [<- |]; done.
    - intros i Hi. apply Hqueue in Hi as [Hi _]. unfold nxt. rewrite Htask0 by done. destruct (Z.eqb_spec c i) as [<- |]; done. }
  destruct (Hq' q Hq0) as (l & Hqueue).
  destruct (wq_push_spec st0 q c l Ht0 Hc) as (H1 & H2 & H3 & H4); [by rewrite Htask0, Z.eqb_refl | done | done |].
  fold st' in H1, H2, H3, H4.
  assert (Hst : forall i, slot i -> state (task st' i) = if c =? i then TASK_BLOCKED else state (task st i)).
  { intros i Hi. rewrite H3 by done. destruct (Z.eqb_spec c i) as [<- | E]; [by rewrite Htask0, Z.eqb_refl |].
    rewrite Htask0 by done. by rewrite (proj2 (Z.eqb_neq c i)). }
  assert (Hwq : forall i, slot i -> wait_q (task st' i) = if c =? i then q else wait_q (task st i)).
  { intros i Hi. rewrite H3 by done. destruct (Z.eqb_spec c i) as [<- | E]; [done |].
    rewrite Htask0 by done. by rewrite (proj2 (Z.eqb_neq c i)). }
  split; [split; [constructor; [done | |] | split; [done |]] |].
  - intros q' Hq1. destruct (Z.eq_dec q' q) as [-> | Hne]; [by eauto |].
    destruct (Hq' q' Hq1) as (l' & Hqueue'). exists l'. apply (queue_ext st0); [done | by apply H4 | |].
    + intros i Hi. rewrite Hwq by done. rewrite Htask0 by done. destruct (Z.eqb_spec c i) as [<- |]; [| done].
      cbn [wait_q set_state set_wake]. rewrite Hw. split; congruence.
    + intros i Hi. apply Hqueue' in Hi as [Hi Hx]. unfold nxt. rewrite H3 by done.
      destruct (Z.eqb_spec c i) as [<- |]; [| done]. rewrite Htask0, Z.eqb_refl in Hx by done.
      cbn [wait_q set_state set_wake] in Hx. congruence.
  - intros i Hi. rewrite Hst, Hwq by done. destruct (Z.eqb_spec c i); [done | by apply Hb].
  - intros i Hi Hne. rewrite Hst by done. destruct (Z.eqb_spec c i); [done | by apply Hr].
  - split; [done |]. split_and!.
    + intros i Hi Hne. rewrite H3 by done. destruct (Z.eqb_spec c i) as [<- | E]; [done |].
      rewrite Htask0 by done. by rewrite (proj2 (Z.eqb_neq c i)).
    + by rewrite Hst, Z.eqb_refl.
    + by rewrite Hwq, Z.eqb_refl.
    + rewrite H3, Z.eqb_refl, Htask0, Z.eqb_refl by done. done.
Qed.

Lemma sleep_world_ok st m q timeout pit st' b : world_ok (mk_world st m) ->
  ctl (mk_world st m) (g_current st) = Ctl_run -> sleep_begin st q timeout pit = Some (st', b) ->
  world_ok (mk_world st' (<[g_current st := Ctl_slept q]> m)).
Proof.
  intros H Hc. pose proof (wo_sched _ H) as Hok. simpl in Hok. pose proof Hok as [Hw [Hcur Hr]].
  pose proof (wo_run _ H _ Hcur Hc) as Hq. simpl in Hq.
  unfold sleep_begin. destruct (negb (g_ready st)); [done |]. destruct (Z.eqb_spec q 0); [done |].
  destruct (negb (g_lock_depth st =? 0)); [done |]. cbn [orb]. intros [= E].
  set (w := if negb (timeout =? 0) then pit +! timeout else 0) in *.
  destruct (enqueue_ok (set_iflag st false) q w (set_iflag_ok st false Hok) ltac:(done) Hq) as (H1 & H2 & H3 & H4 & H5 & _).
  change (g_current (set_iflag st false)) with (g_current st) in *.
  set (st1 := wq_push _ q (g_current st)) in *.
  assert (Est : st' = fst (schedule_switch st1)) by (unfold st1 in *; by rewrite E).
  clearbody st1. subst st'. apply world_ok_ctl; [done | done | by apply schedule_sched_ok | | done | |].
  - intros i Hi Hne. split.
    + assert (E1 : task st1 i = task st i) by (by apply H3). rewrite <- E1. right. by apply schedule_wait_q.
    + intros Ha. apply schedule_alive; [done | done |]. by rewrite H3.
  - intros _. by apply schedule_wait_q.
  - intros q' [[= <-] | ?]; [| done]. split; [done |]. split.
    + right. by rewrite (proj1 (schedule_wait_q st1 (g_current st) H1 Hcur)).
    + apply schedule_alive; [done | done |]. rewrite H4. by split.
Qed.

(** Leaving a sleep that was never switched away. *)
Lemma sleep_wake_spec st q me : sched_ok st -> slot me -> q <> 0 -> me = g_current st ->
  wait_q (task st me) = 0 \/ wait_q (task st me) = q ->
  let st' := sleep_wake st q me in
  sched_ok st' /\ (forall i, slot i -> i <> me -> relinked (task st i) (task st' i))
  /\ wait_q (task st' me) = 0 /\ state (task st' me) = TASK_RUNNING /\ wake_tick (task st' me) = 0.
Proof.
  intros [Hw [Hc Hr]] Hme Hq Hcur Hd. unfold sleep_wake. cbv zeta.
  set (st1 := if wait_q (task st me) =? q then wq_remove st q me else st).
  assert (H1 : table_ok st1 /\ (forall q, q <> 0 -> exists l, queue st1 q l) /\ g_current st1 = g_current st
    /\ wait_q (task st1 me) = 0
    /\ (forall i, slot i -> i <> me -> relinked (task st i) (task st1 i))).
  { unfold st1. destruct (Z.eqb_spec (wait_q (task st me)) q) as [E | E].
    - destruct (wq_remove_inv st me Hw Hme ltac:(congruence)) as (G1 & G2 & G3 & G4). rewrite E in *.
      split_and!; try done; [by apply wq_remove_global | by rewrite G3].
    - split_and!; try done; [apply Hw | apply Hw | by destruct Hd |]. intros. apply relinked_refl. }
  clearbody st1. destruct H1 as (Ht1 & Hq1 & Hc1 & Hw1 & Ho1). set (t := set_state _ TASK_RUNNING).
  assert (Htask : forall i, slot i -> task (upd st1 me t) i = if me =? i then t else task st1 i) by (intros; by apply task_upd).
  split; [split; [constructor; [by apply table_upd | |] | split] |].
  - intros q' Hq'. destruct (Hq1 q' Hq') as (l & Hqueue). exists l. apply (queue_ext st1); [done | done | |].
    + intros i Hi. rewrite Htask by done. destruct (Z.eqb_spec me i) as [<- |]; done.
    + intros i Hi. apply Hqueue in Hi as [Hi _]. unfold nxt. rewrite Htask by done. destruct (Z.eqb_spec me i) as [<- |]; done.
  - intros i Hi. rewrite Htask by done. destruct (Z.eqb_spec me i) as [<- |]; [done |].
    destruct (relinked_fields _ _ (Ho1 i Hi ltac:(congruence))) as (-> & -> & _). by apply (wi_blocked _ Hw).
  - change (slot (g_current st1)). by rewrite Hc1.
  - cbn [upd set_tasks g_current]. rewrite Hc1. intros i Hi Hne. rewrite Htask by done.
    destruct (Z.eqb_spec me i); [congruence |].
    destruct (relinked_fields _ _ (Ho1 i Hi ltac:(congruence))) as (-> & _). by apply Hr.
  - rewrite !Htask, Z.eqb_refl by done. split_and!; try done.
    intros i Hi Hne. rewrite Htask by done. destruct (Z.eqb_spec me i); [congruence |]. by apply Ho1.
Qed.

Lemma unhalt_world_ok st m q : world_ok (mk_world st m) ->
  ctl (mk_world st m) (g_current st) = Ctl_halted q ->
  world_ok (mk_world (sleep_wake st q (g_current st)) (<[g_current st := Ctl_run]> m)).
Proof.
  intros H Hc. pose proof (wo_sched _ H) as Hok. simpl in Hok. pose proof Hok as [Hw [Hcur Hr]].
  destruct (wo_sleep _ H (g_current st) q Hcur ltac:(by right)) as (Hq & Hd & _). simpl in Hd.
  destruct (sleep_wake_spec st q (g_current st) Hok Hcur Hq eq_refl Hd) as (H1 & H2 & H3 & H4 & _).
  apply world_ok_ctl; [done | done | done | | by intros _ | done | by intros ? [? | ?]].
  intros i Hi Hne. split; [by apply relinked_unqueued, H2 |].
  destruct (relinked_fields _ _ (H2 i Hi Hne)) as (-> & _). done.
Qed.

Lemma resume_world_ok st m q : world_ok (mk_world st m) ->
  ctl (mk_world st m) (g_current st) = Ctl_slept q -> state (task st (g_current st)) <> TASK_BLOCKED ->
  world_ok (mk_world (upd st (g_current st) (set_wake (task st (g_current st)) 0)) (<[g_current st := Ctl_run]> m)).
Proof.
  intros H Hc Hnb. pose proof (wo_sched _ H) as Hok. simpl in Hok. pose proof Hok as [Hw [Hcur Hr]].
  pose proof (wi_table _ Hw) as Ht. pose proof (wo_queued _ H _ Hcur) as Hq. simpl in Hq.
  apply world_ok_ctl; [done | done | | | | | by intros ? [? | ?]].
  - apply sched_ok_upd; try done. by left.
  - intros i Hi Hne. rewrite task_upd by done. destruct (Z.eqb_spec (g_current st) i); [congruence |]. split; [by right | done].
  - intros _. rewrite task_upd, Z.eqb_refl by done. cbn [wait_q set_wake].
    destruct (Z.eq_dec (wait_q (task st (g_current st))) 0); [done | by destruct Hnb; apply Hq].
  - rewrite task_upd, Z.eqb_refl by done. exact Hq.
Qed.

(** Updates of one task that are not part of a sleep. *)
Lemma upd_world_ok st m i t : world_ok (mk_world st m) -> slot i -> ctl (mk_world st m) i = Ctl_run ->
  wait_q t = wait_q (task st i) -> state t <> TASK_BLOCKED ->
  (state t = TASK_RUNNING -> i = g_current st) -> world_ok (mk_world (upd st i t) m).
Proof.
  intros H Hi Hc Hq Hb Hrun. pose proof (wo_sched _ H) as Hok. simpl in Hok.
  pose proof (wi_table _ (proj1 Hok)) as Ht. pose proof (wo_run _ H _ Hi Hc) as Hq0. simpl in Hq0.
  eapply world_ok_mono; [done | by apply sched_ok_upd; [done | done | right | ..] | |].
  - intros j Hj. rewrite task_upd by done. destruct (Z.eqb_spec i j) as [<- |]; [left; congruence | by right].
  - intros j Hj Ha Hcj. rewrite task_upd by done. destruct (Z.eqb_spec i j) as [<- |]; done.
Qed.

Lemma not_asleep st m i : world_ok (mk_world st m) -> slot i -> ~ alive (state (task st i)) ->
  ctl (mk_world st m) i = Ctl_run.
Proof.
  intros H Hi Ha. destruct (ctl (mk_world st m) i) as [| q | q] eqn:E; [done | |]; exfalso; apply Ha;
    destruct (wo_sleep _ H i q Hi) as (_ & _ & Ha'); rewrite ?E; unfold sleeps_on; auto.
Qed.

Lemma sched_step_ok w w' : sched_step w w' -> world_ok w -> world_ok w'.
Proof.
  intros Hstep H. pose proof (wo_sched _ H) as Hok.
  destruct Hstep as [st m Hc | st m now Hif | st m q | st m q timeout pit st' b Hc Hs | st m q Hc Hs | st m q Hc Hs
    | st m q Hc | st m Hc | st m Hc | st m i t Hi Hs Hf | st m Hc | st m i Hi Hs];
    simpl in Hok; pose proof Hok as [Hw [Hcur Hr]].
  - unfold task_yield_switch. destruct (negb (g_ready st)); [done |]. apply schedule_world_ok.
    eapply world_ok_mono; [done | | |].
    + apply sched_ok_upd; try done; [by left | by apply (wi_blocked _ Hw)].
    + intros i Hi. rewrite task_upd by (apply Hw || done). destruct (Z.eqb_spec (g_current st) i) as [<- |]; by right.
    + intros i Hi Ha _. rewrite task_upd by (apply Hw || done). by destruct (Z.eqb_spec (g_current st) i) as [<- |].
  - by apply schedule_world_ok, tick_world_ok.
  - by apply wake_world_ok.
  - by eapply sleep_world_ok.
  - by eapply resume_world_ok.
  - apply (world_ok_ctl st); [done | done | by apply set_iflag_ok | by intros; split; [right |] | done | by apply (wo_queued _ H) |].
    intros q' [? | [= <-]]; [done |]. apply (wo_sleep _ H _ q Hcur). by left.
  - by eapply unhalt_world_ok.
  - eapply world_ok_mono; [done | by eapply (sched_ok_globals st) | by intros; right | done].
  - eapply world_ok_mono; [done | | |]; unfold task_unlock;
      destruct (negb (g_lock_depth st =? 0)); destruct (_ =? 0);
      first [by eapply (sched_ok_globals st) | by intros; right | done].
  - destruct Hf as (F1 & F2 & F3).
    assert (Hc : ctl (mk_world st m) i = Ctl_run) by (apply not_asleep; [done | done |]; rewrite Hs; by intros [? _]).
    pose proof (wo_run _ H _ Hi Hc) as Hq. simpl in Hq.
    apply upd_world_ok; try done; rewrite ?F1; try done. by rewrite F3.
  - apply upd_world_ok; done.
  - apply upd_world_ok; try done. apply not_asleep; [done | done |]. rewrite Hs. by intros [_ ?].
Qed.

(** The table as [task_init] leaves it: only the idle task exists; every wait
    queue is empty. *)
Definition SYSCALL_TRAP_STACK_TOP : Z := 0x00900000.
Definition idle_name : list Z := bytes "idle/shell".

Definition task_init (next_pid : Z) (w : gmap Z Z) (fl : bool) (c e : Z) : sched :=
  let idle := mk_task 0 0 SYSCALL_TRAP_STACK_TOP 0 TASK_RUNNING TASK_TIMESLICE 1 idle_name 0 0 0 0 0 0 0 (-1) 0 0 in
  mk_sched (idle :: repeat task_unused 7) 0 next_pid 0 0 true w fl c e.

Definition boot (fl : bool) (c e : Z) : world := mk_world (task_init 1 ∅ fl c e) ∅.
Definition reachable (w : world) : Prop := exists fl c e, rtc sched_step (boot fl c e) w.

Lemma boot_task fl c e i : slot i ->
  task (task_init 1 ∅ fl c e) i = if i =? 0 then aget task_unused (g_tasks (task_init 1 ∅ fl c e)) 0 else task_unused.
Proof.
  unfold slot, MAX_TASKS. intros Hi. destruct (Z.eqb_spec i 0) as [-> |]; [done |].
  assert (E : i = 1 \/ i = 2 \/ i = 3 \/ i = 4 \/ i = 5 \/ i = 6 \/ i = 7) by lia.
  by destruct E as [-> | [-> | [-> | [-> | [-> | [-> | ->]]]]]].
Qed.

Lemma boot_ok fl c e : world_ok (boot fl c e).
Proof.
  assert (Hf : forall i, slot i -> wait_q (task (task_init 1 ∅ fl c e) i) = 0
    /\ (state (task (task_init 1 ∅ fl c e) i) = if i =? 0 then TASK_RUNNING else TASK_UNUSED)).
  { intros i Hi. rewrite boot_task by done. by destruct (i =? 0). }
  constructor; simpl.
  - split; [constructor | split].
    + done.
    + intros q Hq. exists []. split; [done |]. split; [constructor |]. intros i.
      split; [intros Hx; by apply elem_of_nil in Hx |]. intros [Hi Hx]. destruct (Hf i Hi). congruence.
    + intros i Hi. destruct (Hf i Hi) as [_ ->]. by destruct (i =? 0).
    + done.
    + intros i Hi Hne. destruct (Hf i Hi) as [_ ->]. cbn [task_init g_current] in Hne. by destruct (Z.eqb_spec i 0).
  - intros i Hi _. by apply Hf.
  - intros i Hi. by destruct (Hf i Hi) as [-> _].
  - intros i q Hi [E | E]; unfold ctl in E; cbn [boot w_ctl] in E; by rewrite lookup_empty in E.
Qed.

Lemma reachable_ok w : reachable w -> world_ok w.
Proof.
  intros (fl & c & e & H). pose proof (boot_ok fl c e) as Hok. induction H as [| x y z Hstep _ IH]; [done |].
  apply IH. by eapply sched_step_ok.
Qed.

(** ** Fairness *)

Definition dist (st : sched) (j : Z) : Z := (j - g_current st) mod 8.

(** Everything a task needs to get the processor. *)
Record waiting (st : sched) (j : Z) : Prop := {
  wa_ok : sched_ok st;
  wa_slot : slot j;
  wa_ready : g_ready st = true;
  wa_lock : g_lock_depth st = 0;
  wa_state : state (task st j) = TASK_READY;
}.

Lemma yield_progress st j : waiting st j -> j <> g_current st ->
  let st' := fst (task_yield_switch st) in
  (g_current st' = j /\ state (task st' j) = TASK_RUNNING) \/ (waiting st' j /\ j <> g_current st' /\ dist st' j < dist st j).
Proof.
  intros [Hok Hj Hr Hl Hs] Hne. pose proof Hok as [Hw [Hc Hrun]]. pose proof (wi_table _ Hw) as Ht.
  unfold task_yield_switch. rewrite Hr. cbn [negb]. cbv zeta. set (st0 := upd st (g_current st) _).
  assert (Hok0 : sched_ok st0) by (apply sched_ok_upd; try done; [by left | by apply (wi_blocked _ Hw)]).
  assert (Htask0 : forall i, slot i -> i <> g_current st -> task st0 i = task st i).
  { intros i Hi Hn. unfold st0. rewrite task_upd by done. by destruct (Z.eqb_spec (g_current st) i). }
  assert (Hrj : runnable (task st0 j) = true) by (rewrite Htask0 by done; unfold runnable; by rewrite Hs).
  destruct (pick_next_spec st0 Hc) as (Hps & Hpn & Hpm).
  assert (Hp : pick_next st0 <> g_current st) by (apply Hpm; by exists j).
  pose proof (schedule_switch_moves st0 (wi_table _ (proj1 Hok0)) Hc Hr Hl) as Hmv.
  specialize (Hmv ltac:(unfold st0; cbn [upd set_tasks g_current]; by rewrite task_upd, Z.eqb_refl) Hp).
  pose proof (schedule_switch_spec st0 (wi_table _ (proj1 Hok0)) (proj2 Hok0)) as Hspec.
  pose proof (schedule_sched_ok st0 Hok0) as Hok1. destruct (schedule_switch_globals st0) as [Hg1 Hg2].
  destruct (schedule_switch st0) as [st1 b]. cbn [fst snd] in *. subst b.
  destruct Hspec as (_ & _ & _ & (_ & Hcur & Hrun1 & Ho & _)).
  destruct (Hpn Hp) as [_ Hmin]. specialize (Hmin j Hj Hrj Hne).
  destruct (Z.eq_dec (g_current st1) j) as [E | E]; [left; split; [done | by rewrite <- E] | right].
  split; [constructor; try done | split; [congruence |]].
  - by rewrite Hg1.
  - by rewrite Hg2.
  - rewrite Ho; [| done | done | congruence]. by rewrite Htask0.
  - unfold dist. rewrite Hcur in E |- *. change (g_current st0) with (g_current st) in *.
    unfold slot, MAX_TASKS in *. Z.to_euclidean_division_equations. lia.
Qed.

Fixpoint yields (n : nat) (st : sched) : sched :=
  match n with O => st | S n' => yields n' (fst (task_yield_switch st)) end.

Lemma yields_reach n : forall st j, waiting st j -> j <> g_current st -> dist st j <= Z.of_nat n ->
  exists k, (k <= n)%nat /\ g_current (yields k st) = j /\ state (task (yields k st) j) = TASK_RUNNING.
Proof.
  induction n as [| n IH]; intros st j Hwt Hne Hd.
  - exfalso. pose proof (wa_slot _ _ Hwt). pose proof (wa_ok _ _ Hwt) as [_ [Hc _]].
    unfold dist, slot, MAX_TASKS in *. Z.to_euclidean_division_equations. lia.
  - destruct (yield_progress st j Hwt Hne) as [[E1 E2] | (Hwt' & Hne' & Hlt)].
    + exists 1%nat. split; [lia |]. done.
    + destruct (IH _ j Hwt' Hne' ltac:(lia)) as (k & Hk & H). exists (S k). split; [lia |]. done.
Qed.

(** ** Theorems *)


(** [task_wake_all] makes every task queued on [q] runnable, off the queue
    and without deadline, empties the queue and changes no other task. *)
Theorem task_wake_all_exact w q : reachable w -> g_ready (w_sched w) = true -> q <> 0 ->
  let st' := task_wake_all (w_sched w) q in
  wq_head st' q = -1 /\ forall i, slot i ->
    if wait_q (task (w_sched w) i) =? q then
      state (task st' i) = TASK_READY /\ wait_q (task st' i) = 0 /\ wait_next (task st' i) = -1
      /\ wake_tick (task st' i) = 0
    else task st' i = task (w_sched w) i.
Proof.
  intros Hr Hg Hq. pose proof (reachable_ok w Hr) as H. pose proof (wo_sched _ H) as [Hw _]. cbv zeta.
  destruct (task_wake_all_spec _ q Hw Hg Hq) as (_ & _ & H3 & H4). split; [done |]. intros i Hi.
  rewrite H4 by done. destruct (Z.eqb_spec (wait_q (task (w_sched w) i)) q) as [E |]; [| done].
  destruct (woken_fields (task (w_sched w) i)) as (-> & -> & -> & ->).
  rewrite (wo_queued _ H i Hi) by congruence. done.
Qed.

(** The timer tick wakes exactly the sleepers whose deadline has passed
    (compared as a signed difference of 32-bit tick counts): each of them is
    READY and off its queue, every other task keeps all but its chain link, and
    all queues stay consistent. *)
Theorem task_timer_tick_exact w now : reachable w -> g_ready (w_sched w) = true ->
  let st := w_sched w in let st' := task_timer_tick st now in
  (forall q, q <> 0 -> exists l, queue st' q l) /\
  forall i, slot i ->
    if expired (task st i) now
    then state (task st' i) = TASK_READY /\ wait_q (task st' i) = 0 /\ wake_tick (task st' i) = 0
    else relinked (task st i) (task st' i).
Proof.
  intros Hr Hg. pose proof (reachable_ok w Hr) as H. pose proof (wo_sched _ H) as [Hw _]. cbv zeta.
  unfold task_timer_tick. rewrite Hg. cbn [negb]. change (Z.to_nat MAX_TASKS) with 8%nat.
  destruct (tick_from_spec 8 (w_sched w) now 0 Hw ltac:(lia) ltac:(lia)) as (H1 & _ & _ & H4).
  split; [apply H1 |]. intros i Hi. specialize (H4 i Hi ltac:(unfold slot in Hi; lia)).
  destruct (expired _ _); [| done]. by apply relinked_fields in H4 as (-> & -> & ->).
Qed.

(** C31. Fairness of the rotation: outside critical sections a READY task [j] is
    running after at most as many yields as slots lie between the current task
    and [j] (at most seven), whatever the other tasks are. *)
Theorem round_robin_fair st j : waiting st j -> j <> g_current st ->
  exists k, (k <= Z.to_nat ((j - g_current st) mod 8))%nat /\ g_current (yields k st) = j
    /\ state (task (yields k st) j) = TASK_RUNNING.
Proof. intros Hwt Hne. apply yields_reach; [done | done |]. unfold dist. lia. Qed.

(** A deadline that falls on tick 0 is stored as "no deadline": such a sleeper
    is not woken by the timer at any tick. *)
Lemma deadline_zero_never_expires st q timeout pit : sched_ok st -> wait_q (task st (g_current st)) = 0 ->
  q <> 0 -> pit +! timeout = 0 ->
  let t := task (wq_push (upd st (g_current st) (set_state (set_wake (task st (g_current st))
             (if negb (timeout =? 0) then pit +! timeout else 0)) TASK_BLOCKED)) q (g_current st)) (g_current st) in
  state t = TASK_BLOCKED /\ forall now, expired t now = false.
Proof.
  intros Hok Hw Hq Hz. cbv zeta. rewrite Hz. replace (if negb (timeout =? 0) then 0 else 0) with 0 by (by destruct (_ =? 0)).
  destruct (enqueue_ok st q 0 Hok Hq Hw) as (_ & _ & _ & H4 & _ & H6). split; [done |].
  intros now. unfold expired. rewrite H6. by rewrite andb_false_r.
Qed.

(** A concrete run: the shell starts a thread and sleeps on queue 0x1000 with a
    timeout of 100 ticks at tick 5; the thread is dispatched. *)
Definition demo_created : sched := upd (task_init 1 ∅ true 0 0) 1 (set_state task_unused TASK_READY).
Definition demo_sched : sched := match sleep_begin demo_created 0x1000 100 5 with Some (st, _) => st | None => demo_created end.
Definition demo : world := mk_world demo_sched (<[0 := Ctl_slept 0x1000]> ∅).

Lemma demo_reachable : reachable demo.
Proof.
  exists true, 0, 0. eapply rtc_l.
  { apply (step_create (task_init 1 ∅ true 0 0) ∅ 1 (set_state task_unused TASK_READY));
      [unfold slot, MAX_TASKS; lia | reflexivity | by repeat split]. }
  apply rtc_once. apply (step_sleep demo_created ∅ 0x1000 100 5 demo_sched true); [reflexivity |].
  by vm_compute.
Qed.


Lemma task_wake_all_exact_witness :
  state (task (task_wake_all (w_sched demo) 0x1000) 0) = TASK_READY /\ wq_head (task_wake_all (w_sched demo) 0x1000) 0x1000 = -1.
Proof.
  destruct (task_wake_all_exact demo 0x1000 demo_reachable ltac:(by vm_compute) ltac:(done)) as [H1 H2].
  split; [| exact H1]. specialize (H2 0 ltac:(unfold slot, MAX_TASKS; lia)).
  assert (E : (wait_q (task (w_sched demo) 0) =? 0x1000) = true) by (by vm_compute). rewrite E in H2.
  destruct H2 as [H2 _]. exact H2.
Defined.

Lemma task_timer_tick_exact_witness :
  state (task (task_timer_tick (w_sched demo) 104) 0) = TASK_BLOCKED /\
  state (task (task_timer_tick (w_sched demo) 105) 0) = TASK_READY.
Proof.
  split; [by vm_compute |].
  destruct (task_timer_tick_exact demo 105 demo_reachable ltac:(by vm_compute)) as [_ H].
  specialize (H 0 ltac:(unfold slot, MAX_TASKS; lia)). cbv zeta in H.
  assert (E : expired (task (w_sched demo) 0) 105 = true) by (by vm_compute). rewrite E in H.
  destruct H as [H _]. exact H.
Defined.

Lemma round_robin_fair_witness :
  exists k, (k <= 1)%nat /\ g_current (yields k demo_created) = 1
    /\ state (task (yields k demo_created) 1) = TASK_RUNNING.
Proof.
  apply (round_robin_fair demo_created 1); [| done]. constructor; try done.
  eapply (wo_sched (mk_world demo_created ∅)), sched_step_ok; [| apply (boot_ok true 0 0)].
  apply (step_create (task_init 1 ∅ true 0 0) ∅ 1 (set_state task_unused TASK_READY)); [done | reflexivity | by repeat split].
Defined.
