(* ===== verification/Interfaces.v ===== *)
(** * Interfaces: what components promise to each other

    [Allocator] is the contract of the kernel heap as its clients use it;
    [HeapAlloc.v] discharges it from the model of [kernel/kmalloc.c].
    [FileSys] is the contract of the file layer ([kernel/fs.h]) as the file
    descriptors use it. *)

From S2P Require Import Prelude.

(** ** The heap

    [owns h l]: the live allocations of [h] are exactly [l], as pairs of an
    address and a requested size.  [alloc] returns 0 for [NULL]; [release] is
    [None] when the heap stops the machine. *)
Class Allocator (H : Type) := {
  alloc : H -> Z -> H * Z;
  release : H -> Z -> option H;
  stale : H -> Z -> Z -> list Z;
  owns : H -> list (Z * Z) -> Prop;
  owns_perm h l l' : l ≡ₚ l' -> owns h l -> owns h l';
  owns_nodup h l : owns h l -> NoDup (l.*1) /\ 0 ∉ l.*1;
  stale_length h p n : 0 <= n -> length (stale h p n) = Z.to_nat n;
  alloc_spec h l n : owns h l -> is_u32 n ->
    let '(h', p) := alloc h n in
    (p = 0 /\ h' = h) \/ (p <> 0 /\ 0 < n /\ owns h' ((p, n) :: l));
  release_spec h l p n : owns h ((p, n) :: l) -> exists h', release h p = Some h' /\ owns h' l;
}.

#[global] Instance owns_proper `{Allocator H} (h : H) : Proper ((≡ₚ) ==> iff) (owns h).
Proof. intros l l' Hp. split; apply owns_perm; [done | by symmetry]. Qed.

(** Clients rewrite the list of live allocations up to order. *)
Lemma owns_fresh `{Allocator H} (h : H) p n l : owns h ((p, n) :: l) -> p ∉ l.*1 /\ p <> 0.
Proof.
  intros Ho. apply owns_nodup in Ho as [Hn Hz]. simpl in *. apply NoDup_cons in Hn as [Hp _].
  apply not_elem_of_cons in Hz as [? _]. split; [done | by intros ->].
Qed.

(** ** Files

    [fs_lookup f n] is the content of the file that the path [n] names at the
    moment; the operations return the C results of [kernel/fs.h].  Two paths may
    name one file, so the laws speak only of the path an operation was given.  A
    read never stores more than it was asked for; a file that cannot be deleted
    (a read-only volume) cannot be created either. *)
Class FileSys (F : Type) := {
  fs_get_file_size : F -> list Z -> Z;
  fs_read_file : F -> list Z -> Z -> Z * list Z;
  fs_create_file : F -> list Z -> list Z -> F * Z;
  fs_delete_file : F -> list Z -> F * Z;
  fs_lookup : F -> list Z -> option (list Z);
  fs_size_spec f n : fs_get_file_size f n = match fs_lookup f n with Some c => Z.of_nat (length c) | None => 0 end;
  fs_read_bound f n k : 0 <= k -> Z.of_nat (length (snd (fs_read_file f n k))) <= k;
  fs_read_spec f n c : fs_lookup f n = Some c ->
    fs_read_file f n (Z.of_nat (length c)) = (Z.of_nat (length c), c) \/
    fst (fs_read_file f n (Z.of_nat (length c))) = -1;
  fs_delete_spec f n : fs_lookup (fst (fs_delete_file f n)) n = None \/
    (forall c, snd (fs_create_file (fst (fs_delete_file f n)) n c) <> 0);
  fs_create_spec f n c : fs_lookup f n = None -> snd (fs_create_file f n c) = 0 ->
    fs_lookup (fst (fs_create_file f n c)) n = Some c;
}.

(** A volume held in memory, to instantiate the interface: it stores files of
    at most [cap] bytes. *)
Section MemFs.
Variable cap : Z.

Definition memfs : Type := gmap (list Z) (list Z).

Definition memfs_size (f : memfs) (n : list Z) : Z :=
  match f !! n with Some c => Z.of_nat (length c) | None => 0 end.
Definition memfs_read (f : memfs) (n : list Z) (k : Z) : Z * list Z :=
  match f !! n with Some c => if Z.of_nat (length c) <=? k then (Z.of_nat (length c), c) else (-1, []) | None => (-1, []) end.
Definition memfs_create (f : memfs) (n c : list Z) : memfs * Z :=
  if Z.of_nat (length c) <=? cap then (<[n := c]> f, 0) else (f, -1).
Definition memfs_delete (f : memfs) (n : list Z) : memfs * Z := (delete n f, 0).
Definition memfs_lookup (f : memfs) (n : list Z) : option (list Z) := f !! n.

#[global] Program Instance memfs_filesys : FileSys memfs := {|
  fs_get_file_size := memfs_size;
  fs_read_file := memfs_read;
  fs_create_file := memfs_create;
  fs_delete_file := memfs_delete;
  fs_lookup := memfs_lookup;
|}.
Next Obligation. done. Qed.
Next Obligation.
  unfold memfs_read. intros f n k Hk. destruct (f !! n) as [c |]; [| simpl; lia].
  destruct (Z.leb_spec (Z.of_nat (length c)) k); simpl; lia.
Qed.
Next Obligation. unfold memfs_lookup, memfs_read. intros f n c E. left. by rewrite E, Z.leb_refl. Qed.
Next Obligation. unfold memfs_lookup, memfs_delete. intros f n. left. apply lookup_delete_eq. Qed.
Next Obligation.
  unfold memfs_lookup, memfs_create. intros f n c _. destruct (_ <=? cap); [| done]. intros _. apply lookup_insert_eq.
Qed.
End MemFs.
