(* ===== verification/HeapAlloc.v ===== *)
(** * HeapAlloc: the kernel heap discharges the [Allocator] interface

    The live allocations of a well-formed heap of [kernel/kmalloc.c] are the
    ones the interface speaks of. *)

From S2P Require Import Prelude Interfaces Kmalloc.

Section Inst.
Variable km_pool : Z.
Hypothesis Hpool : pool_ok km_pool.

Definition km_owns (st : km_state) (l : list (Z * Z)) : Prop :=
  exists bs, heap_inv km_pool st bs /\ live_from km_pool bs ≡ₚ l.

Definition km_release (st : km_state) (p : Z) : option km_state :=
  match kfree km_pool st p with FreeOk st' => Some st' | _ => None end.

(** Bytes read from the pool when a block is handed out. *)
Definition word_byte (m : gmap Z Z) (a : Z) : Z :=
  Z.shiftr (mem_rd m (a - a mod 4)) (8 * (a mod 4)) &! 0xFF.
Definition km_stale (st : km_state) (p n : Z) : list Z :=
  map (fun k => word_byte (km_mem st) (p + k)) (seqZ 0 n).

Lemma live_nodup m a bs : tiles m a bs -> NoDup ((live_from a bs).*1) /\ forall p, p ∈ (live_from a bs).*1 -> a < p.
Proof.
  revert a. induction bs as [| b bs IH]; intros a Ht; [split; [constructor | intros p Hp; by apply elem_of_nil in Hp] |].
  destruct Ht as (Hok & _ & Ht). destruct (IH _ Ht) as [IH1 IH2]. pose proof (blk_ok_size b Hok).
  assert (0 < bsz b) by (destruct Hok as (? & ? & ?); destruct b; simpl in *; lia).
  destruct b as [sz | sz rq]; simpl in *.
  - split; [done |]. intros p Hp. specialize (IH2 p Hp). lia.
  - destruct Hok as (Hm & Hb & _). unfold KM_HDR in *. simpl in *. split.
    + constructor; [| done]. intros Hx. specialize (IH2 _ Hx). lia.
    + intros p Hp. apply elem_of_cons in Hp as [-> | Hp]; [lia |]. specialize (IH2 p Hp). lia.
Qed.

#[global] Program Instance km_allocator : Allocator km_state := {|
  alloc := kmalloc;
  release := km_release;
  stale := km_stale;
  owns := km_owns;
|}.
Next Obligation. intros h l l' Hp (bs & Hinv & Hl). exists bs. split; [done |]. by rewrite Hl. Qed.
Next Obligation.
  intros h l (bs & Hinv & Hl). destruct (hi_raw _ _ _ Hinv) as (Ht & _).
  destruct (live_nodup _ _ _ Ht) as [H1 H2]. rewrite <- Hl. split; [done |].
  intros Hz. apply H2 in Hz. destruct Hpool as (? & ? & ?). lia.
Qed.
Next Obligation. intros h p n Hn. unfold km_stale. by rewrite length_map, length_seqZ. Qed.
Next Obligation.
  intros h l n (bs & Hinv & Hl) Hn. unfold is_u32 in Hn. destruct Hpool as (Hp1 & Hp2 & Hp3).
  destruct (Z.eq_dec n 0) as [-> | Hz]; [by left |].
  destruct (Z.lt_ge_cases KM_POOL_SIZE n) as [Hbig | Hle].
  { unfold kmalloc. destruct (Z.eqb_spec n 0); [done |]. destruct (Z.ltb_spec KM_POOL_SIZE n); [by left | lia]. }
  pose proof (kmalloc_spec km_pool Hpool h bs n Hinv ltac:(lia)) as Hk.
  destruct (abs_malloc_cases bs n (need_of n)) as [(E & _) | (pre & sz & post & -> & _ & _ & E)]; rewrite E in Hk.
  - rewrite Hk. by left.
  - destruct Hk as (st' & -> & Hinv'). right. destruct (hi_raw _ _ _ Hinv) as (Ht & _).
    apply tiles_app in Ht as [Ht _]. pose proof (tiles_total _ _ _ Ht). unfold KM_HDR.
    split; [lia |]. split; [lia |]. eexists. split; [exact Hinv' |].
    fold (carve n (need_of n) sz). rewrite live_carve. by rewrite Hl.
Qed.
Next Obligation.
  intros h l p n (bs & Hinv & Hl). assert (Hin : (p, n) ∈ live_from km_pool bs) by (rewrite Hl; left).
  apply elem_of_live in Hin as (pre & sz & post & -> & ->).
  destruct (kfree_spec km_pool Hpool _ _ _ _ _ Hinv) as (st' & E & Hinv').
  exists st'. unfold km_release. rewrite E. split; [done |]. exists (abs_release pre sz post). split; [done |].
  rewrite live_release. rewrite live_from_app in Hl. simpl in Hl.
  apply (Permutation_cons_inv (a := (km_pool + total pre + KM_HDR, n))). rewrite <- Hl. apply Permutation_middle.
Qed.
End Inst.
