(* ===== verification/Keyboard.v ===== *)
(** * Keyboard: scan codes and the key buffer ([kernel/keyboard.c])

    [keyboard_handler] is the IRQ1 handler from the read scan code on,
    [keyboard_inject] the entry of the USB keyboard, [keyboard_getchar] the
    consumer; the 256-entry ring is shared by all three.  The port accesses
    and [keyboard_init] are not modelled.  A wake-up of the readers goes to the
    scheduler of [Sched.v]. *)

From S2P Require Import Prelude Sched.

Definition KEYBOARD_BUFFER_SIZE : Z := 256.

Definition KEY_UP : Z := -1.
Definition KEY_DOWN : Z := -2.
Definition KEY_LEFT : Z := -3.
Definition KEY_RIGHT : Z := -4.
Definition KEY_PGUP : Z := -5.
Definition KEY_PGDN : Z := -6.
Definition KEY_F (n : Z) : Z := - 6 - n.
Definition KEY_ALT_TAB : Z := -19.

Definition ch (s : string) : list Z := bytes s.

Definition scancode_to_ascii_base : list Z :=
  [0; 27] ++ ch "1234567890-=" ++ [8; 9] ++ ch "qwertyuiop[]" ++ [10; 0] ++ ch "asdfghjkl;'`" ++
  [0; 92] ++ ch "zxcvbnm,./" ++ [0] ++ ch "*" ++ [0] ++ ch " " ++ [0] ++
  [0; 0; 0; 0; 0; 0; 0; 0; 0; 0] ++ [0; 0] ++
  ch "7" ++ [0; 0] ++ ch "-" ++ [0] ++ ch "5" ++ [0] ++ ch "+1" ++ [0; 0] ++ ch "0." ++
  [0; 0; 0] ++ [0; 0].

Definition scancode_to_ascii_shift : list Z :=
  [0; 27] ++ ch "!@#$%^&*()_+" ++ [8; 9] ++ ch "QWERTYUIOP{}" ++ [10; 0] ++ ch "ASDFGHJKL:" ++ [34] ++ ch "~" ++
  [0; 124] ++ ch "ZXCVBNM<>?" ++ [0] ++ ch "*" ++ [0] ++ ch " " ++ [0] ++
  [0; 0; 0; 0; 0; 0; 0; 0; 0; 0] ++ [0; 0] ++
  ch "7" ++ [0; 0] ++ ch "-" ++ [0] ++ ch "5" ++ [0] ++ ch "+1" ++ [0; 0] ++ ch "0." ++
  [0; 0; 0] ++ [0; 0].

(** The static variables of the driver. *)
Record kb_state := mk_kb {
  keyboard_buffer : list Z;
  buffer_start : Z;
  buffer_end : Z;
  left_shift : bool;
  right_shift : bool;
  alt_down : bool;
  kb_irq_count : Z;
  kb_last_scancode : Z;
}.

Definition kb_boot : kb_state := mk_kb (replicate 256 0) 0 0 false false false 0 0.

Definition set_mods (k : kb_state) (l r a : bool) : kb_state :=
  mk_kb (keyboard_buffer k) (buffer_start k) (buffer_end k) l r a (kb_irq_count k) (kb_last_scancode k).

(** A key goes into the ring unless it is full; [true] when it went in. *)
Definition kb_push (k : kb_state) (key : Z) : kb_state * bool :=
  let next := (buffer_end k + 1) mod KEYBOARD_BUFFER_SIZE in
  if negb (next =? buffer_start k) then
    (mk_kb (aset (keyboard_buffer k) (buffer_end k) key) (buffer_start k) next
       (left_shift k) (right_shift k) (alt_down k) (kb_irq_count k) (kb_last_scancode k), true)
  else (k, false).

(** The key of a make code. *)
Definition decode (alt shifted : bool) (scancode : Z) : Z :=
  if scancode =? 0x0F then (if alt then KEY_ALT_TAB else 9)
  else if scancode =? 0x48 then (if shifted then KEY_PGUP else KEY_UP)
  else if scancode =? 0x50 then (if shifted then KEY_PGDN else KEY_DOWN)
  else if scancode =? 0x4B then KEY_LEFT
  else if scancode =? 0x4D then KEY_RIGHT
  else if scancode =? 0x49 then KEY_PGUP
  else if scancode =? 0x51 then KEY_PGDN
  else if (0x3B <=? scancode) && (scancode <=? 0x44) then KEY_F (scancode - 0x3A)
  else if scancode =? 0x57 then KEY_F 11
  else if scancode =? 0x58 then KEY_F 12
  else if scancode <? Z.of_nat (length scancode_to_ascii_base) then
    (if shifted then aget 0 scancode_to_ascii_shift scancode else aget 0 scancode_to_ascii_base scancode)
  else 0.

Section Driver.
Variable kb_wq : Z.

Definition keyboard_handler (k : kb_state) (st : sched) (scancode : Z) : kb_state * sched :=
  let k := mk_kb (keyboard_buffer k) (buffer_start k) (buffer_end k) (left_shift k) (right_shift k) (alt_down k)
             (kb_irq_count k +! 1) scancode in
  if (scancode =? 0x2A) || (scancode =? 0x36) then
    (set_mods k (if scancode =? 0x2A then true else left_shift k)
       (if scancode =? 0x36 then true else right_shift k) (alt_down k), st)
  else if (scancode =? 0xAA) || (scancode =? 0xB6) then
    (set_mods k (if scancode =? 0xAA then false else left_shift k)
       (if scancode =? 0xB6 then false else right_shift k) (alt_down k), st)
  else if scancode =? 0x38 then (set_mods k (left_shift k) (right_shift k) true, st)
  else if scancode =? 0xB8 then (set_mods k (left_shift k) (right_shift k) false, st)
  else if Z.land scancode 0x80 =? 0 then
    let key := decode (alt_down k) (left_shift k || right_shift k) scancode in
    if negb (key =? 0) then
      let '(k, stored) := kb_push k key in
      (k, if stored then task_wake_all st kb_wq else st)
    else (k, st)
  else (k, st).

Definition keyboard_inject (k : kb_state) (st : sched) (key : Z) : kb_state * sched :=
  if key =? 0 then (k, st)
  else (fst (kb_push k key), task_wake_all st kb_wq).

(** [keyboard_getchar]: [polled] are the keys the USB drivers inject when they
    are polled first. *)
Fixpoint inject_all (k : kb_state) (st : sched) (polled : list Z) : kb_state * sched :=
  match polled with
  | [] => (k, st)
  | key :: polled' => let '(k, st) := keyboard_inject k st key in inject_all k st polled'
  end.

Definition keyboard_getchar (k : kb_state) (st : sched) (polled : list Z) : kb_state * sched * Z :=
  let '(k, st) := inject_all k st polled in
  if buffer_start k =? buffer_end k then (k, st, 0)
  else
    let c := aget 0 (keyboard_buffer k) (buffer_start k) in
    (mk_kb (keyboard_buffer k) ((buffer_start k + 1) mod KEYBOARD_BUFFER_SIZE) (buffer_end k)
       (left_shift k) (right_shift k) (alt_down k) (kb_irq_count k) (kb_last_scancode k), st, c).
End Driver.

(** ** The ring as a queue *)

Record kb_wf (k : kb_state) : Prop := {
  kw_len : Z.of_nat (length (keyboard_buffer k)) = KEYBOARD_BUFFER_SIZE;
  kw_start : 0 <= buffer_start k < KEYBOARD_BUFFER_SIZE;
  kw_end : 0 <= buffer_end k < KEYBOARD_BUFFER_SIZE;
}.

Definition pending (k : kb_state) : Z := (buffer_end k - buffer_start k) mod KEYBOARD_BUFFER_SIZE.
Definition keys (k : kb_state) : list Z := ring (keyboard_buffer k) KEYBOARD_BUFFER_SIZE (buffer_start k) (pending k).

(** Storing into a queue of at most 255 keys; a key that finds it full is lost. *)
Definition enqueue (q : list Z) (key : Z) : list Z := if Z.of_nat (length q) <? 255 then q ++ [key] else q.

Lemma pending_range k : 0 <= pending k < 256.
Proof. unfold pending, KEYBOARD_BUFFER_SIZE. apply Z.mod_pos_bound. lia. Qed.

Lemma length_keys k : Z.of_nat (length (keys k)) = pending k.
Proof. unfold keys. pose proof (pending_range k). apply length_ring. lia. Qed.

Lemma kb_push_spec k key : kb_wf k ->
  let '(k', b) := kb_push k key in
  kb_wf k' /\ keys k' = enqueue (keys k) key /\ b = (pending k <? 255)
  /\ left_shift k' = left_shift k /\ right_shift k' = right_shift k /\ alt_down k' = alt_down k.
Proof.
  intros [Hl Hs He]. unfold kb_push, enqueue. rewrite length_keys.
  assert (Hfull : (buffer_end k + 1) mod KEYBOARD_BUFFER_SIZE = buffer_start k <-> pending k = 255).
  { unfold pending, KEYBOARD_BUFFER_SIZE in *. clear - Hs He. split; intros E; Z.to_euclidean_division_equations; lia. }
  pose proof (pending_range k).
  destruct (Z.eqb_spec ((buffer_end k + 1) mod KEYBOARD_BUFFER_SIZE) (buffer_start k)) as [E | E]; cbn [negb].
  - apply Hfull in E. destruct (Z.ltb_spec (pending k) 255); [lia |]. by split_and!.
  - destruct (Z.ltb_spec (pending k) 255) as [Hlt |]; [| destruct E; apply Hfull; lia].
    split; [constructor; cbn [keyboard_buffer buffer_start buffer_end] |].
    + by rewrite length_aset.
    + done.
    + unfold KEYBOARD_BUFFER_SIZE in *. apply Z.mod_pos_bound. lia.
    + split; [| done]. unfold keys, pending. cbn [keyboard_buffer buffer_start buffer_end].
      rewrite ring_count_succ by (unfold pending, KEYBOARD_BUFFER_SIZE in *; lia). fold (pending k).
      rewrite <- (ring_end KEYBOARD_BUFFER_SIZE (buffer_end k) (buffer_start k) He) at 1. fold (pending k).
      apply ring_push; [done | done | unfold KEYBOARD_BUFFER_SIZE; lia].
Qed.

Lemma kb_pop_spec k : kb_wf k -> buffer_start k <> buffer_end k ->
  let k' := mk_kb (keyboard_buffer k) ((buffer_start k + 1) mod KEYBOARD_BUFFER_SIZE) (buffer_end k)
              (left_shift k) (right_shift k) (alt_down k) (kb_irq_count k) (kb_last_scancode k) in
  kb_wf k' /\ keys k = aget 0 (keyboard_buffer k) (buffer_start k) :: keys k'.
Proof.
  intros [Hl Hs He] Hne k'. assert (Hp : 0 < pending k).
  { pose proof (pending_range k). pose proof (ring_end KEYBOARD_BUFFER_SIZE (buffer_end k) (buffer_start k) He) as E.
    fold (pending k) in E. destruct (Z.eq_dec (pending k) 0) as [Hz |]; [| lia]. rewrite Hz, Z.add_0_r in E.
    rewrite Z.mod_small in E by done. congruence. }
  split; [constructor; try done; unfold k', KEYBOARD_BUFFER_SIZE in *; cbn [buffer_start]; apply Z.mod_pos_bound; lia |].
  unfold keys at 1. rewrite ring_pop by (unfold KEYBOARD_BUFFER_SIZE; lia). rewrite Z.mod_small by done.
  f_equal. unfold keys, k', pending. cbn [keyboard_buffer buffer_start buffer_end].
  by rewrite ring_count_pred by (done || exact Hp).
Qed.

(** ** Modifier tracking, for the specification *)

(** The key an event produces under the modifiers, 0 for none. *)
Definition event_key (l r a : bool) (scancode : Z) : Z :=
  if existsb (Z.eqb scancode) [0x2A; 0x36; 0xAA; 0xB6; 0x38; 0xB8] then 0
  else if 0x80 <=? scancode then 0 else decode a (l || r) scancode.

(** The last event of a pair of make and break codes decides. *)
Definition track (make break : Z) (b : bool) (scancode : Z) : bool :=
  if scancode =? make then true else if scancode =? break then false else b.

Lemma land_80 b : 0 <= b < 256 -> (Z.land b 0x80 =? 0) = (b <? 0x80).
Proof.
  intros Hb. apply eqb_true_iff. revert b Hb. apply forall_below. by vm_compute.
Qed.

Lemma keyboard_handler_spec kb_wq k st b : kb_wf k -> 0 <= b < 256 ->
  let '(k', st') := keyboard_handler kb_wq k st b in
  let key := event_key (left_shift k) (right_shift k) (alt_down k) b in
  kb_wf k'
  /\ keys k' = (if key =? 0 then keys k else enqueue (keys k) key)
  /\ left_shift k' = track 0x2A 0xAA (left_shift k) b
  /\ right_shift k' = track 0x36 0xB6 (right_shift k) b
  /\ alt_down k' = track 0x38 0xB8 (alt_down k) b
  /\ st' = (if negb (key =? 0) && (pending k <? 255) then task_wake_all st kb_wq else st).
Proof.
  intros Hw Hb. unfold keyboard_handler, event_key, track. cbn [existsb].
  set (k1 := mk_kb _ _ _ _ _ _ _ _). assert (Hw1 : kb_wf k1) by (destruct Hw; by constructor).
  assert (Hm : forall l r a, kb_wf (set_mods k1 l r a)) by (intros; destruct Hw1; by constructor).
  cbv zeta.
  destruct (Z.eqb_spec b 0x2A) as [-> |]; [by split_and!; try apply Hm |].
  destruct (Z.eqb_spec b 0x36) as [-> |]; [by split_and!; try apply Hm |].
  destruct (Z.eqb_spec b 0xAA) as [-> |]; [by split_and!; try apply Hm |].
  destruct (Z.eqb_spec b 0xB6) as [-> |]; [by split_and!; try apply Hm |].
  destruct (Z.eqb_spec b 0x38) as [-> |]; [by split_and!; try apply Hm |].
  destruct (Z.eqb_spec b 0xB8) as [-> |]; [by split_and!; try apply Hm |].
  cbn [orb]. rewrite land_80 by done.
  destruct (Z.ltb_spec b 0x80) as [Hlt | Hge]; destruct (Z.leb_spec 0x80 b) as [|]; try lia; [| by split_and!].
  set (key := decode _ _ _). change (decode (alt_down k) (left_shift k || right_shift k) b) with key.
  destruct (key =? 0); cbn [negb andb]; [by split_and! |].
  pose proof (kb_push_spec k1 key Hw1) as Hpush. destruct (kb_push k1 key) as [k' stored].
  destruct Hpush as (H1 & H2 & -> & H4 & H5 & H6). split_and!; try done. 
Qed.

Lemma inject_all_spec kb_wq polled : forall k st, kb_wf k ->
  let '(k', st') := inject_all kb_wq k st polled in
  kb_wf k' /\ keys k' = fold_left (fun q key => if key =? 0 then q else enqueue q key) polled (keys k).
Proof.
  induction polled as [| key polled IH]; intros k st Hw; cbn [inject_all fold_left]; [done |].
  unfold keyboard_inject. destruct (key =? 0); [by apply IH |].
  pose proof (kb_push_spec k key Hw) as Hpush. destruct (kb_push k key) as [k1 b]. cbn [fst].
  destruct Hpush as (H1 & <- & _). by apply IH.
Qed.

Lemma getchar_spec kb_wq k st polled : kb_wf k ->
  let '(k', st', c) := keyboard_getchar kb_wq k st polled in
  let q := fold_left (fun q key => if key =? 0 then q else enqueue q key) polled (keys k) in
  kb_wf k' /\ match q with [] => c = 0 /\ keys k' = [] | key :: q' => c = key /\ keys k' = q' end.
Proof.
  intros Hw. unfold keyboard_getchar. pose proof (inject_all_spec kb_wq polled k st Hw) as Hi.
  destruct (inject_all kb_wq k st polled) as [k1 st1]. destruct Hi as [Hw1 <-].
  destruct (Z.eqb_spec (buffer_start k1) (buffer_end k1)) as [E | E].
  - split; [done |]. assert (Ek : keys k1 = []) by (unfold keys, pending; rewrite E, Z.sub_diag; done).
    by rewrite Ek.
  - destruct (kb_pop_spec k1 Hw1 E) as [H1 ->]. by split.
Qed.

(** What the driver does, as a queue of keys and three modifier bits: the
    sequence of events decides it. *)
Inductive kb_event := Scan (b : Z) | Inject (key : Z) | Get.

Record kb_spec := mk_spec { q_keys : list Z; m_left : bool; m_right : bool; m_alt : bool }.

Definition spec_event (s : kb_spec) (e : kb_event) : kb_spec * list Z :=
  match e with
  | Scan b =>
      let key := event_key (m_left s) (m_right s) (m_alt s) b in
      (mk_spec (if key =? 0 then q_keys s else enqueue (q_keys s) key)
         (track 0x2A 0xAA (m_left s) b) (track 0x36 0xB6 (m_right s) b) (track 0x38 0xB8 (m_alt s) b), [])
  | Inject key => (mk_spec (if key =? 0 then q_keys s else enqueue (q_keys s) key) (m_left s) (m_right s) (m_alt s), [])
  | Get => match q_keys s with
           | [] => (s, [0])
           | key :: q => (mk_spec q (m_left s) (m_right s) (m_alt s), [key])
           end
  end.

Definition run_event (kb_wq : Z) (c : kb_state * sched) (e : kb_event) : kb_state * sched * list Z :=
  match e with
  | Scan b => (keyboard_handler kb_wq c.1 c.2 b, [])
  | Inject key => (keyboard_inject kb_wq c.1 c.2 key, [])
  | Get => let '(k, st, key) := keyboard_getchar kb_wq c.1 c.2 [] in (k, st, [key])
  end.

Fixpoint run_spec (s : kb_spec) (es : list kb_event) : kb_spec * list Z :=
  match es with
  | [] => (s, [])
  | e :: es' => let '(s, o) := spec_event s e in let '(s, o') := run_spec s es' in (s, o ++ o')
  end.
Fixpoint run_driver (kb_wq : Z) (c : kb_state * sched) (es : list kb_event) : kb_state * sched * list Z :=
  match es with
  | [] => (c, [])
  | e :: es' => let '(c, o) := run_event kb_wq c e in let '(c, o') := run_driver kb_wq c es' in (c, o ++ o')
  end.

Definition event_ok (e : kb_event) : Prop := match e with Scan b => 0 <= b < 256 | _ => True end.

Definition refines (k : kb_state) (s : kb_spec) : Prop :=
  kb_wf k /\ keys k = q_keys s /\ left_shift k = m_left s /\ right_shift k = m_right s /\ alt_down k = m_alt s.

Lemma run_event_refines kb_wq k st s e : refines k s -> event_ok e ->
  let '((k', st'), o) := run_event kb_wq (k, st) e in
  let '(s', o') := spec_event s e in refines k' s' /\ o = o'.
Proof.
  intros (Hw & Hk & Hl & Hr & Ha) He. destruct e as [b | key |]; cbn [run_event spec_event fst snd].
  - pose proof (keyboard_handler_spec kb_wq k st b Hw He) as Hh.
    destruct (keyboard_handler kb_wq k st b) as [k' st'].
    rewrite Hk, Hl, Hr, Ha in Hh. destruct Hh as (H1 & H2 & H3 & H4 & H5 & _). by split_and!.
  - unfold keyboard_inject. destruct (key =? 0); [by split_and! |].
    pose proof (kb_push_spec k key Hw) as Hpush. destruct (kb_push k key) as [k1 b1]. cbn [fst].
    rewrite Hk, Hl, Hr, Ha in Hpush. destruct Hpush as (H1 & H2 & _ & H4 & H5 & H6). by split_and!.
  - unfold keyboard_getchar. cbn [inject_all].
    destruct (Z.eqb_spec (buffer_start k) (buffer_end k)) as [E | E].
    + assert (Ek : keys k = []) by (unfold keys, pending; rewrite E, Z.sub_diag; done).
      rewrite <- Hk, Ek. split; [| done]. split_and!; try done. 
    + destruct (kb_pop_spec k Hw E) as [H1 H2]. rewrite <- Hk, H2. split; [| done]. by split_and!.
Qed.

Lemma run_driver_refines kb_wq es : forall k st s, refines k s -> Forall event_ok es ->
  let '((k', st'), o) := run_driver kb_wq (k, st) es in
  let '(s', o') := run_spec s es in refines k' s' /\ o = o'.
Proof.
  induction es as [| e es IH]; intros k st s Hr Hes; cbn [run_driver run_spec]; [done |].
  apply Forall_cons in Hes as [He Hes]. pose proof (run_event_refines kb_wq k st s e Hr He) as H1.
  destruct (run_event kb_wq (k, st) e) as [[k1 st1] o1]. destruct (spec_event s e) as [s1 o1'].
  destruct H1 as [H1 <-]. specialize (IH k1 st1 s1 H1 Hes).
  destruct (run_driver kb_wq (k1, st1) es) as [[k2 st2] o2]. destruct (run_spec s1 es) as [s2 o2'].
  destruct IH as [IH <-]. done.
Qed.

Lemma boot_refines : refines kb_boot (mk_spec [] false false false).
Proof. split; [constructor; done |]. by split_and!. Qed.

(** C26. From boot, under any sequence of scan codes, injected keys and reads,
    the driver behaves as a first-in first-out queue of at most 255 keys that
    drops a key finding it full, with the modifier state decided by the last
    make or break code of each modifier: every read returns the oldest key, or
    0 when there is none, and no unread key is overwritten. *)
Theorem keyboard_refines_queue (kb_wq : Z) (st : sched) (es : list kb_event) (Hes : Forall event_ok es) :
  let '((k, _), out) := run_driver kb_wq (kb_boot, st) es in
  let '(s, out') := run_spec (mk_spec [] false false false) es in
  out = out' /\ keys k = q_keys s /\ (length (q_keys s) <= 255)%nat.
Proof.
  pose proof (run_driver_refines kb_wq es kb_boot st _ boot_refines Hes) as H1.
  destruct (run_driver kb_wq (kb_boot, st) es) as [[k st'] out]. destruct (run_spec _ es) as [s out'].
  destruct H1 as [(Hw & Hk & _) ->]. split_and!; [done | done |]. rewrite <- Hk.
  pose proof (length_keys k). pose proof (pending_range k). lia.
Qed.

Lemma keyboard_refines_queue_witness :
  let '((k, _), out) := run_driver 0x2000 (kb_boot, task_init 1 ∅ true 0 0)
       [Scan 0x2A; Scan 0x1E; Scan 0xAA; Scan 0x1E; Inject KEY_UP; Get; Get; Get; Get] in
  out = [65; 97; -1; 0] /\ keys k = [].
Proof.
  pose proof (keyboard_refines_queue 0x2000 (task_init 1 ∅ true 0 0)
    [Scan 0x2A; Scan 0x1E; Scan 0xAA; Scan 0x1E; Inject KEY_UP; Get; Get; Get; Get] ltac:(repeat constructor; done)) as H1.
  destruct (run_driver _ _ _) as [[k st] out]. destruct (run_spec _ _) as [s out'] eqn:Es.
  destruct H1 as (-> & -> & _). vm_compute in Es. injection Es as <- <-. done.
Defined.
