(* ===== verification/Fd.v ===== *)
(** * Fd: file descriptors and pipes ([kernel/fd.c])

    The descriptor tables of all tasks, the static pipe pool and the heap
    buffers they own.  The heap is any [Allocator], the file layer any
    [FileSys]; wake-ups go to the scheduler of [Sched.v], standard input to the
    key ring of [Keyboard.v].

    An operation ends in [Ret]; in [Sleep] when it calls [task_sleep] or
    [keyboard_block] and will test its condition again from the start; or in
    [Fault] where the C code would dereference a null or foreign pointer, leave
    a buffer, or make [kfree] stop the machine. *)

From S2P Require Import Prelude Interfaces Sched Keyboard.

Definition MAX_OPEN_FDS : Z := 16.
Definition MAX_FD_FILE : Z := 65536.
Definition FD_MAX_NAME : Z := 64.
Definition O_RDONLY : Z := 0.
Definition O_WRONLY : Z := 1.
Definition O_RDWR : Z := 2.
Definition O_ACCMODE : Z := 3.
Definition O_CREAT : Z := 0x40.
Definition O_EXCL : Z := 0x80.
Definition O_TRUNC : Z := 0x200.
Definition O_APPEND : Z := 0x400.
Definition PIPE_MAX : Z := 16.
Definition PIPE_BUF : Z := 4096.

Inductive fd_type_t :=
  FD_TYPE_FREE | FD_TYPE_STDIN | FD_TYPE_STDOUT | FD_TYPE_STDERR | FD_TYPE_FILE | FD_TYPE_PIPE.

#[global] Instance fd_type_eq_dec : EqDecision fd_type_t.
Proof. solve_decision. Defined.

Definition type_is (a b : fd_type_t) : bool := bool_decide (a = b).

(** What the [data] word of an entry points to. *)
Inductive ptr := PNull | PBuf (a : Z) | PPipe (i : Z).
Definition is_null (p : ptr) : bool := match p with PNull => true | _ => false end.

Record fd_entry_t := mk_fd {
  e_type : fd_type_t;
  e_writable : bool;
  e_dirty : bool;
  e_append : bool;
  e_size : Z;
  e_offset : Z;
  e_data : ptr;
  e_name : list Z;
}.

Record pipe_t := mk_pipe {
  p_used : bool;
  ref_r : Z;
  ref_w : Z;
  p_head : Z;
  p_tail : Z;
  p_count : Z;
  p_buf : Z;
}.

Definition fd_table : Type := list fd_entry_t.

(** An entry as [fd_table_init] and [fd_close] leave it. *)
Definition fd_free (ap : bool) : fd_entry_t := mk_fd FD_TYPE_FREE false false ap 0 0 PNull [].
Definition fd_std (t : fd_type_t) : fd_entry_t := mk_fd t false false false 0 0 PNull [].

Definition fd_table_init : fd_table :=
  fd_std FD_TYPE_STDIN :: fd_std FD_TYPE_STDOUT :: fd_std FD_TYPE_STDERR :: replicate 13 (fd_free false).

(** The cleared ring of a new pipe. *)
Definition pipe_zeros : list Z := replicate (Z.to_nat PIPE_BUF) 0.
Lemma pipe_zeros_length : Z.of_nat (length pipe_zeros) = PIPE_BUF.
Proof. unfold pipe_zeros. rewrite length_replicate. done. Qed.
#[global] Opaque pipe_zeros.

Definition pipe_unused : pipe_t := mk_pipe false 0 0 0 0 0 0.

Section Fd.
Context {H F : Type} `{HA : Allocator H} `{FS : FileSys F}.

(** The addresses of the wait queues of the pipes and of the keyboard. *)
Variable pipe_wq : Z -> Z.
Variable kb_wq : Z.

Record kern := mk_kern {
  k_heap : H;
  k_bufs : gmap Z (list Z);
  g_pipes : list pipe_t;
  tabs : list fd_table;
  disk : F;
  ksched : sched;
  kbd : kb_state;
  tty_out : list Z;
}.

Inductive outcome (A : Type) :=
  | Ret (w : kern) (v : A)
  | Sleep (w : kern)
  | Fault.
Arguments Ret {A}.
Arguments Sleep {A}.
Arguments Fault {A}.

Definition set_mem (w : kern) (h : H) (b : gmap Z (list Z)) : kern :=
  mk_kern h b (g_pipes w) (tabs w) (disk w) (ksched w) (kbd w) (tty_out w).
Definition set_pipes (w : kern) (p : list pipe_t) : kern :=
  mk_kern (k_heap w) (k_bufs w) p (tabs w) (disk w) (ksched w) (kbd w) (tty_out w).
Definition set_tabs (w : kern) (t : list fd_table) : kern :=
  mk_kern (k_heap w) (k_bufs w) (g_pipes w) t (disk w) (ksched w) (kbd w) (tty_out w).
Definition set_disk (w : kern) (d : F) : kern :=
  mk_kern (k_heap w) (k_bufs w) (g_pipes w) (tabs w) d (ksched w) (kbd w) (tty_out w).
Definition set_sched (w : kern) (s : sched) : kern :=
  mk_kern (k_heap w) (k_bufs w) (g_pipes w) (tabs w) (disk w) s (kbd w) (tty_out w).
Definition set_kbd (w : kern) (k : kb_state) : kern :=
  mk_kern (k_heap w) (k_bufs w) (g_pipes w) (tabs w) (disk w) (ksched w) k (tty_out w).
Definition set_tty (w : kern) (t : list Z) : kern :=
  mk_kern (k_heap w) (k_bufs w) (g_pipes w) (tabs w) (disk w) (ksched w) (kbd w) t.

Definition entry (w : kern) (ti fd : Z) : option fd_entry_t := t ← tabs w !! Z.to_nat ti; t !! Z.to_nat fd.
Definition set_entry (w : kern) (ti fd : Z) (e : fd_entry_t) : kern :=
  match tabs w !! Z.to_nat ti with
  | Some t => set_tabs w (<[Z.to_nat ti := <[Z.to_nat fd := e]> t]> (tabs w))
  | None => w
  end.
Definition pipe (w : kern) (i : Z) : pipe_t := aget pipe_unused (g_pipes w) i.
Definition set_pipe (w : kern) (i : Z) (p : pipe_t) : kern := set_pipes w (aset (g_pipes w) i p).

(** ** Buffers *)

Definition kalloc (w : kern) (n : Z) : kern * Z :=
  let '(h, p) := alloc (k_heap w) n in
  if p =? 0 then (set_mem w h (k_bufs w), 0)
  else (set_mem w h (<[p := stale (k_heap w) p n]> (k_bufs w)), p).

Definition kfree_buf (w : kern) (a : Z) : option kern :=
  h ← release (k_heap w) a; Some (set_mem w h (delete a (k_bufs w))).
Definition kfree_ptr (w : kern) (p : ptr) : option kern :=
  match p with PNull => Some w | PBuf a => kfree_buf w a | PPipe _ => None end.

(** [n] bytes from offset [off]; leaving the buffer is a fault. *)
Definition buf_read (w : kern) (p : ptr) (off n : Z) : option (list Z) :=
  if n =? 0 then Some [] else
  match p with
  | PBuf a => l ← k_bufs w !! a;
      if off + n <=? Z.of_nat (length l) then Some (take (Z.to_nat n) (drop (Z.to_nat off) l)) else None
  | _ => None
  end.
Definition splice (l : list Z) (off : Z) (d : list Z) : list Z :=
  take (Z.to_nat off) l ++ d ++ drop (Z.to_nat off + length d) l.
Definition buf_write (w : kern) (p : ptr) (off : Z) (d : list Z) : option kern :=
  match d, p with
  | [], _ => Some w
  | _, PBuf a => l ← k_bufs w !! a;
      if off + Z.of_nat (length d) <=? Z.of_nat (length l)
      then Some (set_mem w (k_heap w) (<[a := splice l off d]> (k_bufs w))) else None
  | _, _ => None
  end.

Definition or_fault {A B} (o : option A) (f : A -> outcome B) : outcome B :=
  match o with Some a => f a | None => Fault end.

Definition cli (w : kern) : kern := set_sched w (set_iflag (ksched w) false).
Definition sti (w : kern) : kern := set_sched w (set_iflag (ksched w) true).
Definition wake_pipe (w : kern) (i : Z) : kern := set_sched w (task_wake_all (ksched w) (pipe_wq i)).

(** ** The pipe pool *)

Fixpoint find_unused (ps : list pipe_t) (i : Z) : option Z :=
  match ps with
  | [] => None
  | p :: ps' => if negb (p_used p) then Some i else find_unused ps' (i + 1)
  end.

Definition pipe_alloc (w : kern) : kern * Z :=
  match find_unused (g_pipes w) 0 with
  | None => (w, -1)
  | Some i =>
      let '(w, buf) := kalloc w PIPE_BUF in
      if buf =? 0 then (w, -1)
      else
        let w := set_mem w (k_heap w) (<[buf := pipe_zeros]> (k_bufs w)) in
        let w := set_pipe w i (mk_pipe true 0 0 0 0 0 buf) in
        (set_sched w (set_wq_head (ksched w) (pipe_wq i) 0), i)
  end.

Definition pipe_free (w : kern) (i : Z) : option kern :=
  w ← (if negb (p_buf (pipe w i) =? 0) then kfree_buf w (p_buf (pipe w i)) else Some w);
  Some (set_pipe w i pipe_unused).

(** ** Files *)

Definition fd_grow (w : kern) (e : fd_entry_t) (newsize : Z) : outcome (fd_entry_t * bool) :=
  if MAX_FD_FILE <? newsize then Ret w (e, false)
  else
    let '(w, nd) := kalloc w newsize in
    if nd =? 0 then Ret w (e, false)
    else
      or_fault (if negb (is_null (e_data e)) && (0 <? e_size e)
                then d ← buf_read w (e_data e) 0 (e_size e); buf_write w (PBuf nd) 0 d else Some w) (fun w =>
      or_fault (buf_write w (PBuf nd) (e_size e) (replicate (Z.to_nat (newsize - e_size e)) 0)) (fun w =>
      or_fault (kfree_ptr w (e_data e)) (fun w =>
      Ret w (mk_fd (e_type e) (e_writable e) (e_dirty e) (e_append e) newsize (e_offset e) (PBuf nd) (e_name e), true)))).

Fixpoint find_free (t : fd_table) (i : Z) : option Z :=
  match t with
  | [] => None
  | e :: t' => if (3 <=? i) && type_is (e_type e) FD_TYPE_FREE then Some i else find_free t' (i + 1)
  end.

Definition known_flags : Z := O_ACCMODE |! O_CREAT |! O_EXCL |! O_TRUNC |! O_APPEND.
Definition flag (f m : Z) : bool := negb (f &! m =? 0).

(** The admission tests of [fd_open]: the bytes to load, or [None] for -1. *)
Definition open_size (f nlen size : Z) : option Z :=
  let acc := f &! O_ACCMODE in
  if negb (acc =? O_RDONLY) && negb (acc =? O_WRONLY) && negb (acc =? O_RDWR) then None
  else if negb (f &! ~! known_flags =? 0) then None
  else
    let writing := negb (acc =? O_RDONLY) in
    let exists_ := 0 <? size in
    if FD_MAX_NAME <=? nlen then None
    else if negb exists_ && negb (flag f O_CREAT) then None
    else if negb exists_ && negb writing then None
    else if exists_ && flag f O_CREAT && flag f O_EXCL then None
    else if MAX_FD_FILE <? size then None
    else Some (if flag f O_TRUNC && writing then 0 else size).

Definition fd_open (w : kern) (ti : Z) (nm : list Z) (flags : Z) : outcome Z :=
  match tabs w !! Z.to_nat ti with
  | None => Ret w (-1)
  | Some t =>
      if bool_decide (nm = []) then Ret w (-1)
      else
        let f := u32 flags in
        let writing := negb (f &! O_ACCMODE =? O_RDONLY) in
        match open_size f (Z.of_nat (length nm)) (fs_get_file_size (disk w) nm) with
        | None => Ret w (-1)
        | Some size =>
            match find_free t 0 with
            | None => Ret w (-1)
            | Some slot =>
                let install w data :=
                  Ret (set_entry w ti slot (mk_fd FD_TYPE_FILE writing false (flag f O_APPEND) size 0 data nm)) slot in
                if 0 <? size then
                  let '(w, d) := kalloc w size in
                  if d =? 0 then Ret w (-1)
                  else
                    let '(r, content) := fs_read_file (disk w) nm size in
                    or_fault (buf_write w (PBuf d) 0 content) (fun w =>
                    if negb (r =? size) then or_fault (kfree_buf w d) (fun w => Ret w (-1))
                    else install w (PBuf d))
                else install w PNull
            end
        end
  end.

Definition close_entry (e : fd_entry_t) : fd_entry_t := fd_free (e_append e).

Definition fd_close (w : kern) (ti fd : Z) : outcome Z :=
  if (fd <? 0) || (MAX_OPEN_FDS <=? fd) then Ret w (-1)
  else
    match entry w ti fd with
    | None => Ret w (-1)
    | Some e =>
        match e_type e with
        | FD_TYPE_PIPE =>
            match e_data e with
            | PNull => Ret (set_entry w ti fd (close_entry e)) 0
            | PBuf _ => Fault
            | PPipe i =>
                let w := cli w in
                let p := pipe w i in
                let p := if e_writable e
                         then mk_pipe (p_used p) (ref_r p) (if 0 <? ref_w p then ref_w p - 1 else ref_w p)
                                (p_head p) (p_tail p) (p_count p) (p_buf p)
                         else mk_pipe (p_used p) (if 0 <? ref_r p then ref_r p - 1 else ref_r p) (ref_w p)
                                (p_head p) (p_tail p) (p_count p) (p_buf p) in
                let w := set_pipe w i p in
                or_fault (if (ref_r p =? 0) && (ref_w p =? 0) then pipe_free w i else Some w) (fun w =>
                let w := sti (wake_pipe w i) in
                Ret (set_entry w ti fd (close_entry e)) 0)
            end
        | FD_TYPE_FILE =>
            let '(k, rc) :=
              if e_dirty e && negb (bool_decide (e_name e = [])) then
                match buf_read w (e_data e) 0 (e_size e) with
                | None => (None, 0)
                | Some content =>
                    let d := fst (fs_delete_file (disk w) (e_name e)) in
                    let '(d, rc) := fs_create_file d (e_name e) content in (Some (set_disk w d), rc)
                end
              else (Some w, 0) in
            or_fault k (fun w =>
            or_fault (kfree_ptr w (e_data e)) (fun w =>
            Ret (set_entry w ti fd (close_entry e)) rc))
        | _ => Ret w (-1)
        end
    end.

(** ** Pipes *)

Fixpoint find_free2 (t : fd_table) (i rfd : Z) : Z * Z :=
  match t with
  | [] => (rfd, -1)
  | e :: t' =>
      if (3 <=? i) && type_is (e_type e) FD_TYPE_FREE
      then (if rfd <? 0 then find_free2 t' (i + 1) i else (rfd, i))
      else find_free2 t' (i + 1) rfd
  end.

(** Success returns the two descriptors written to the caller's array. *)
Definition fd_pipe (w : kern) (ti : Z) : outcome (option (Z * Z)) :=
  match tabs w !! Z.to_nat ti with
  | None => Ret w None
  | Some t =>
      let '(w, i) := pipe_alloc w in
      if i <? 0 then Ret w None
      else
        let '(rfd, wfd) := find_free2 t 0 (-1) in
        if (rfd <? 0) || (wfd <? 0) then or_fault (pipe_free w i) (fun w => Ret w None)
        else
          let w := set_pipe w i (mk_pipe true 1 1 0 0 0 (p_buf (pipe w i))) in
          let w := set_sched w (set_wq_head (ksched w) (pipe_wq i) (-1)) in
          let app fd := match entry w ti fd with Some e => e_append e | None => false end in
          let w := set_entry w ti rfd (mk_fd FD_TYPE_PIPE false false (app rfd) 0 0 (PPipe i) []) in
          let w := set_entry w ti wfd (mk_fd FD_TYPE_PIPE true false (app wfd) 0 0 (PPipe i) []) in
          Ret w (Some (rfd, wfd))
  end.

(** ** Reading and writing *)

(** Keys until the buffer is empty or [n] have been read; [polled i] are the
    keys the USB drivers deliver at the [i]th poll. *)
Fixpoint read_keys (n : nat) (w : kern) (polled : nat -> list Z) (i : nat) : kern * list Z :=
  match n with
  | O => (w, [])
  | S n' =>
      let '(k, st, c) := keyboard_getchar kb_wq (kbd w) (ksched w) (polled i) in
      let w := set_sched (set_kbd w k) st in
      if c =? 0 then (w, [])
      else let '(w, d) := read_keys n' w polled (S i) in (w, u8 c :: d)
  end.

Definition fd_read (w : kern) (ti fd n : Z) (polled : nat -> list Z) : outcome (Z * list Z) :=
  if (fd <? 0) || (MAX_OPEN_FDS <=? fd) then Ret w (-1, [])
  else
    match entry w ti fd with
    | None => Ret w (-1, [])
    | Some e =>
        match e_type e with
        | FD_TYPE_STDIN =>
            let '(w, d) := read_keys (Z.to_nat n) w polled 0 in
            if (0 <? n) && bool_decide (d = []) then Sleep w else Ret w (Z.of_nat (length d), d)
        | FD_TYPE_PIPE =>
            match e_data e with
            | PNull => Ret w (-1, [])
            | PBuf _ => Fault
            | PPipe i =>
                if e_writable e then Ret w (-1, [])
                else if n =? 0 then Ret w (0, [])
                else
                  let w := cli w in
                  let p := pipe w i in
                  if 0 <? p_count p then
                    let k := if n <? p_count p then n else p_count p in
                    or_fault (k_bufs w !! p_buf p) (fun b =>
                    let d := ring b PIPE_BUF (p_tail p) k in
                    let w := set_pipe w i (mk_pipe (p_used p) (ref_r p) (ref_w p) (p_head p)
                               ((p_tail p + k) mod PIPE_BUF) (p_count p - k) (p_buf p)) in
                    Ret (sti (wake_pipe w i)) (k, d))
                  else if ref_w p =? 0 then Ret (sti w) (0, [])
                  else Sleep w
            end
        | FD_TYPE_FILE =>
            if e_size e <=? e_offset e then Ret w (0, [])
            else
              let avail := e_size e - e_offset e in
              let k := if n <? avail then n else avail in
              or_fault (buf_read w (e_data e) (e_offset e) k) (fun d =>
              Ret (set_entry w ti fd (mk_fd (e_type e) (e_writable e) (e_dirty e) (e_append e) (e_size e)
                     (e_offset e + k) (e_data e) (e_name e))) (k, d))
        | _ => Ret w (-1, [])
        end
    end.

Definition fd_write (w : kern) (ti fd : Z) (buf : list Z) : outcome Z :=
  let n := Z.of_nat (length buf) in
  if (fd <? 0) || (MAX_OPEN_FDS <=? fd) then Ret w (-1)
  else
    match entry w ti fd with
    | None => Ret w (-1)
    | Some e =>
        match e_type e with
        | FD_TYPE_STDOUT | FD_TYPE_STDERR => Ret (set_tty w (tty_out w ++ buf)) n
        | FD_TYPE_PIPE =>
            match e_data e with
            | PNull => Ret w (-1)
            | PBuf _ => Fault
            | PPipe i =>
                if negb (e_writable e) then Ret w (-1)
                else if n =? 0 then Ret w 0
                else
                  let w := cli w in
                  let p := pipe w i in
                  if ref_r p =? 0 then Ret (sti w) (-1)
                  else if p_count p <? PIPE_BUF then
                    let free := PIPE_BUF - p_count p in
                    let k := if n <? free then n else free in
                    or_fault (k_bufs w !! p_buf p) (fun b =>
                    let w := set_mem w (k_heap w)
                               (<[p_buf p := ring_write b PIPE_BUF (p_head p) (take (Z.to_nat k) buf)]> (k_bufs w)) in
                    let w := set_pipe w i (mk_pipe (p_used p) (ref_r p) (ref_w p) ((p_head p + k) mod PIPE_BUF)
                               (p_tail p) (p_count p + k) (p_buf p)) in
                    Ret (sti (wake_pipe w i)) k)
                  else Sleep w
            end
        | FD_TYPE_FILE =>
            if negb (e_writable e) then Ret w (-1)
            else if n =? 0 then Ret w 0
            else
              let e := if e_append e then mk_fd (e_type e) (e_writable e) (e_dirty e) (e_append e) (e_size e) (e_size e)
                                            (e_data e) (e_name e) else e in
              let w := set_entry w ti fd e in
              let store w e :=
                or_fault (buf_write w (e_data e) (e_offset e) buf) (fun w =>
                Ret (set_entry w ti fd (mk_fd (e_type e) (e_writable e) true (e_append e) (e_size e)
                       (e_offset e +! n) (e_data e) (e_name e))) n) in
              if e_size e <? e_offset e +! n then
                match fd_grow w e (e_offset e +! n) with
                | Ret w (e, true) => store w e
                | Ret w (_, false) => Ret w (-1)
                | Sleep w => Sleep w
                | Fault => Fault
                end
              else store w e
        | _ => Ret w (-1)
        end
    end.

(** ** Duplication (fork) and seeking *)

Definition dup_entry (w : kern) (s d : fd_entry_t) : outcome fd_entry_t :=
  match e_type s with
  | FD_TYPE_FREE => Ret w d
  | FD_TYPE_PIPE =>
      match e_data s with
      | PNull => Ret w s
      | PBuf _ => Fault
      | PPipe i =>
          let w := cli w in
          let p := pipe w i in
          let p := if e_writable s
                   then mk_pipe (p_used p) (ref_r p) (if ref_w p <? 0xFFFF then ref_w p + 1 else ref_w p)
                          (p_head p) (p_tail p) (p_count p) (p_buf p)
                   else mk_pipe (p_used p) (if ref_r p <? 0xFFFF then ref_r p + 1 else ref_r p) (ref_w p)
                          (p_head p) (p_tail p) (p_count p) (p_buf p) in
          Ret (set_pipe w i p) s
      end
  | FD_TYPE_FILE =>
      let copy d := mk_fd (e_type s) (e_writable s) (e_dirty s) (e_append s) (e_size s) (e_offset s) d (e_name s) in
      if negb (is_null (e_data s)) && (0 <? e_size s) then
        let '(w, nd) := kalloc w (e_size s) in
        if nd =? 0 then Ret w (copy PNull)
        else
          or_fault (buf_read w (e_data s) 0 (e_size s)) (fun c =>
          or_fault (buf_write w (PBuf nd) 0 c) (fun w => Ret w (copy (PBuf nd))))
      else Ret w (copy PNull)
  | _ => Ret w s
  end.

Fixpoint dup_from (w : kern) (src dst : fd_table) : outcome fd_table :=
  match src, dst with
  | s :: src', d :: dst' =>
      match dup_entry w s d with
      | Ret w e => match dup_from w src' dst' with
                   | Ret w es => Ret w (e :: es)
                   | Sleep w => Sleep w
                   | Fault => Fault
                   end
      | Sleep w => Sleep w
      | Fault => Fault
      end
  | _, _ => Ret w []
  end.

(** [fd_table_dup] into the table [td] from the different table [ts]. *)
Definition fd_table_dup (w : kern) (td ts : Z) : outcome Z :=
  match tabs w !! Z.to_nat td, tabs w !! Z.to_nat ts with
  | Some _, Some src =>
      match dup_from w src fd_table_init with
      | Ret w es => Ret (set_tabs w (<[Z.to_nat td := es]> (tabs w))) 0
      | Sleep w => Sleep w
      | Fault => Fault
      end
  | _, _ => Ret w (-1)
  end.

Definition fd_lseek (w : kern) (ti fd offset whence : Z) : kern * Z :=
  if (fd <? 0) || (MAX_OPEN_FDS <=? fd) then (w, -1)
  else
    match entry w ti fd with
    | None => (w, -1)
    | Some e =>
        if negb (type_is (e_type e) FD_TYPE_FILE) then (w, -1)
        else
          match (if whence =? 0 then Some 0 else if whence =? 1 then Some (s32 (e_offset e))
                 else if whence =? 2 then Some (s32 (e_size e)) else None) with
          | None => (w, -1)
          | Some base =>
              let newoff := s32 (base + offset) in
              if newoff <? 0 then (w, -1)
              else if MAX_FD_FILE <? newoff then (w, -1)
              else (set_entry w ti fd (mk_fd (e_type e) (e_writable e) (e_dirty e) (e_append e) (e_size e)
                      newoff (e_data e) (e_name e)), newoff)
          end
    end.

(** ** Ownership of the heap buffers

    [mem_ok w l others]: the live allocations are [l], whose contents the model
    holds at their full sizes, and [others], which belong to other clients. *)
Definition buf_len (w : kern) (x : Z * Z) : Prop :=
  exists b, k_bufs w !! x.1 = Some b /\ Z.of_nat (length b) = x.2.
Definition mem_ok (w : kern) (l others : list (Z * Z)) : Prop :=
  owns (k_heap w) (l ++ others) /\ Forall (buf_len w) l.

#[local] Instance mem_ok_proper w : Proper ((≡ₚ) ==> (≡ₚ) ==> iff) (mem_ok w).
Proof.
  intros l l' Hl o o' Ho. unfold mem_ok. by rewrite Hl, Ho.
Qed.

Lemma mem_fresh w p n l others : owns (k_heap w) ((p, n) :: l ++ others) ->
  Forall (fun x => x.1 <> p) l.
Proof.
  intros Ho. apply owns_fresh in Ho as [Hp _]. apply Forall_forall. intros x Hx E. apply Hp.
  rewrite fmap_app. apply elem_of_app. left. rewrite <- E. by apply list_elem_of_fmap_2.
Qed.

Lemma buf_len_frame w w' x a : k_bufs w' !! x.1 = k_bufs w !! x.1 \/ x.1 <> a ->
  (forall b, b <> a -> k_bufs w' !! b = k_bufs w !! b) -> buf_len w x -> buf_len w' x.
Proof. intros [E | E] Hf (b & Hb & Hl); exists b; (split; [| done]); [by rewrite E | by rewrite Hf]. Qed.

Lemma kalloc_spec w l others n : mem_ok w l others -> is_u32 n ->
  let '(w', p) := kalloc w n in
  (p = 0 /\ w' = w) \/
  (p <> 0 /\ 0 < n /\ mem_ok w' ((p, n) :: l) others /\ exists h, w' = set_mem w h (<[p := stale (k_heap w) p n]> (k_bufs w))).
Proof.
  intros [Ho Hb] Hn. unfold kalloc. pose proof (alloc_spec _ _ n Ho Hn) as Ha.
  destruct (alloc (k_heap w) n) as [h p]. destruct Ha as [[-> ->] | (Hp & Hn0 & Ho')].
  - left. split; [done |]. by destruct w.
  - destruct (Z.eqb_spec p 0); [done |]. right. split; [done |]. split; [done |]. split; [| by eexists].
    split; [exact Ho' |]. set (w' := set_mem w h _). constructor.
    + exists (stale (k_heap w) p n). cbn [w' k_bufs set_mem fst snd]. rewrite lookup_insert_eq. split; [done |].
      rewrite stale_length by lia. lia.
    + pose proof (mem_fresh w' p n l others Ho') as Hf. rewrite Forall_forall in *. intros x Hx.
      apply (buf_len_frame w w' x p); [by right; apply Hf | | by apply Hb].
      intros b Hbp. cbn [w' k_bufs set_mem]. by rewrite lookup_insert_ne.
Qed.

Lemma kfree_buf_spec w l others a n : mem_ok w ((a, n) :: l) others ->
  exists w', kfree_buf w a = Some w' /\ mem_ok w' l others /\ exists h, w' = set_mem w h (delete a (k_bufs w)).
Proof.
  intros [Ho Hb]. apply Forall_cons in Hb as [_ Hb]. pose proof (mem_fresh _ _ _ _ _ Ho) as Hf.
  destruct (release_spec _ _ _ _ Ho) as (h & Hr & Ho'). unfold kfree_buf. rewrite Hr. simpl.
  eexists. split; [done |]. split; [| by eexists]. split; [done |].
  rewrite Forall_forall in *. intros x Hx.
  eapply (buf_len_frame w _ x a); [by right; apply Hf | | by apply Hb].
  intros b Hba. cbn [k_bufs set_mem]. by rewrite lookup_delete_ne.
Qed.

Lemma length_splice (l d : list Z) off : 0 <= off -> off + Z.of_nat (length d) <= Z.of_nat (length l) ->
  length (splice l off d) = length l.
Proof. intros. unfold splice. rewrite !length_app, length_take, length_drop. lia. Qed.

Lemma buf_write_spec w l others a n off d : mem_ok w ((a, n) :: l) others ->
  0 <= off -> off + Z.of_nat (length d) <= n ->
  exists b w', k_bufs w !! a = Some b /\ Z.of_nat (length b) = n
    /\ buf_write w (PBuf a) off d = Some w' /\ mem_ok w' ((a, n) :: l) others
    /\ w' = set_mem w (k_heap w) (<[a := splice b off d]> (k_bufs w)).
Proof.
  intros [Ho Hb] Hoff Hd. pose proof (mem_fresh _ _ _ _ _ Ho) as Hf.
  apply Forall_cons in Hb as [(b & Eb & Lb) Hb]. simpl in *. exists b.
  set (w' := set_mem w (k_heap w) (<[a := splice b off d]> (k_bufs w))). exists w'.
  split; [done |]. split; [done |]. split; [| split; [| done]].
  - destruct d as [| x d].
    + assert (E : splice b off [] = b) by (unfold splice; simpl; rewrite Nat.add_0_r; apply take_drop).
      unfold w'. rewrite E, insert_id by done. simpl. by destruct w.
    + unfold buf_write. rewrite Eb. cbn [mbind option_bind].
      by destruct (Z.leb_spec (off + Z.of_nat (length (x :: d))) (Z.of_nat (length b))); [| lia].
  - split; [exact Ho |]. constructor.
    + exists (splice b off d). cbn [w' k_bufs set_mem fst snd]. rewrite lookup_insert_eq. split; [done |].
      rewrite length_splice by lia. done.
    + rewrite Forall_forall in *. intros x Hx. apply (buf_len_frame w w' x a); [by right; apply Hf | | by apply Hb].
      intros c Hca. cbn [w' k_bufs set_mem]. by rewrite lookup_insert_ne.
Qed.

Lemma buf_read_spec w l others a n off k : mem_ok w ((a, n) :: l) others ->
  0 <= off -> 0 <= k -> off + k <= n ->
  exists b, k_bufs w !! a = Some b /\ Z.of_nat (length b) = n /\
    buf_read w (PBuf a) off k = Some (take (Z.to_nat k) (drop (Z.to_nat off) b)).
Proof.
  intros [_ Hb] Hoff Hk Hn. apply Forall_cons in Hb as [(b & Eb & Lb) _]. simpl in *. exists b. split; [done |]. split; [done |].
  unfold buf_read. destruct (Z.eqb_spec k 0) as [-> |]; [by rewrite take_0 |]. rewrite Eb. simpl.
  destruct (Z.leb_spec (off + k) (Z.of_nat (length b))); [done | lia].
Qed.

(** ** The invariant *)

Definition file_mem (e : fd_entry_t) : list (Z * Z) :=
  match e_type e, e_data e with FD_TYPE_FILE, PBuf a => [(a, e_size e)] | _, _ => [] end.
Definition pipe_mem (p : pipe_t) : list (Z * Z) := if p_used p then [(p_buf p, PIPE_BUF)] else [].

Definition refers (i : Z) (wr : bool) (e : fd_entry_t) : bool :=
  match e_type e, e_data e with FD_TYPE_PIPE, PPipe j => (j =? i) && Bool.eqb (e_writable e) wr | _, _ => false end.
Definition refs (es : list fd_entry_t) (i : Z) (wr : bool) : Z := Z.of_nat (length (List.filter (refers i wr) es)).

Definition entry_ok (e : fd_entry_t) : Prop :=
  match e_type e with
  | FD_TYPE_FILE => 0 <= e_offset e <= MAX_FD_FILE /\ 0 <= e_size e <= MAX_FD_FILE /\ e_name e <> []
      /\ match e_data e with PPipe _ => False | _ => True end
  | FD_TYPE_PIPE => exists i, e_data e = PPipe i /\ 0 <= i < PIPE_MAX
  | _ => e_data e = PNull
  end.

Record pipe_ok (p : pipe_t) (r wr : Z) : Prop := {
  po_r : ref_r p = r;
  po_w : ref_w p = wr;
  po_used : p_used p = (0 <? r + wr);
  po_live : p_used p = true -> 0 <= p_tail p < PIPE_BUF /\ 0 <= p_count p <= PIPE_BUF
    /\ p_head p = (p_tail p + p_count p) mod PIPE_BUF /\ p_buf p <> 0;
  po_dead : p_used p = false -> p = pipe_unused;
}.

Definition shape (ts : list fd_table) : Prop := length ts = 8%nat /\ Forall (fun t : fd_table => length t = 16%nat) ts.

(** The same with the descriptors given as a list, in any order. *)
Record inv_of (w : kern) (es : list fd_entry_t) (others : list (Z * Z)) : Prop := {
  io_np : length (g_pipes w) = 16%nat;
  io_mem : mem_ok w (flat_map file_mem es ++ flat_map pipe_mem (g_pipes w)) others;
  io_ent : Forall entry_ok es;
  io_pipes : forall i, 0 <= i < PIPE_MAX -> pipe_ok (pipe w i) (refs es i false) (refs es i true);
}.

Definition fd_inv (w : kern) (others : list (Z * Z)) : Prop :=
  shape (tabs w) /\ inv_of w (concat (tabs w)) others.

Lemma refs_cons e es i wr : refs (e :: es) i wr = b2z (refers i wr e) + refs es i wr.
Proof. unfold refs. cbn [List.filter]. destruct (refers i wr e); cbn [length b2z]; lia. Qed.

Lemma refs_nonneg es i wr : 0 <= refs es i wr.
Proof. unfold refs. lia. Qed.

Lemma refs_perm es es' i wr : es ≡ₚ es' -> refs es i wr = refs es' i wr.
Proof. induction 1; rewrite ?refs_cons; lia. Qed.

Lemma flat_map_perm {A B} (f : A -> list B) l l' : l ≡ₚ l' -> flat_map f l ≡ₚ flat_map f l'.
Proof.
  induction 1 as [| x l l' _ IH | x y l | l l' l'' _ IH1 _ IH2]; simpl; [done | by rewrite IH | | by rewrite IH1].
  rewrite !app_assoc. by rewrite (Permutation_app_comm (f y)).
Qed.

Lemma inv_perm w es es' o : es ≡ₚ es' -> inv_of w es o -> inv_of w es' o.
Proof.
  intros Hp [H1 H2 H3 H4]. constructor; [done | | by rewrite <- Hp |].
  - by rewrite <- (flat_map_perm file_mem _ _ Hp).
  - intros i Hi. rewrite <- !(refs_perm _ _ _ _ Hp). by apply H4.
Qed.

Lemma insert_perm {A} (l : list A) k x : l !! k = Some x ->
  exists rest, l ≡ₚ x :: rest /\ forall y, <[k := y]> l ≡ₚ y :: rest.
Proof.
  intros Hk. pose proof (lookup_lt_Some _ _ _ Hk). exists (take k l ++ drop (S k) l). split.
  - rewrite <- (take_drop_middle l k x Hk) at 1. by rewrite Permutation_middle.
  - intros y. rewrite insert_take_drop by done. by rewrite Permutation_middle.
Qed.

Lemma concat_perm {A} (l l' : list (list A)) : l ≡ₚ l' -> concat l ≡ₚ concat l'.
Proof.
  induction 1 as [| x l l' _ IH | x y l | l l' l'' _ IH1 _ IH2]; simpl; [done | by rewrite IH | | by rewrite IH1].
  rewrite !app_assoc. by rewrite (Permutation_app_comm y).
Qed.

(** One table, then one entry, singled out; whatever replaces it gives the
    invariant back. *)
Lemma fd_inv_table w o ti t : fd_inv w o -> tabs w !! Z.to_nat ti = Some t ->
  exists rest, concat (tabs w) ≡ₚ t ++ rest /\ inv_of w (t ++ rest) o /\ length t = 16%nat /\
    forall w' t', tabs w' = tabs w -> length t' = 16%nat -> inv_of w' (t' ++ rest) o ->
      fd_inv (set_tabs w' (<[Z.to_nat ti := t']> (tabs w'))) o.
Proof.
  intros [[Hl Hs] Hinv] Ht. destruct (insert_perm _ _ _ Ht) as (rest & Hp & Hins).
  exists (concat rest). split; [| split; [| split]].
  - change (t ++ concat rest) with (concat (t :: rest)). by apply concat_perm.
  - eapply inv_perm; [| done]. change (t ++ concat rest) with (concat (t :: rest)). by apply concat_perm.
  - rewrite Forall_lookup in Hs. by eapply Hs.
  - intros w' t' Et Hlt Hi. rewrite Et. split.
    + split; cbn [tabs set_tabs]; [by rewrite length_insert | by apply Forall_insert].
    + cbn [tabs set_tabs]. destruct Hi as [I1 I2 I3 I4].
      eapply inv_perm; [symmetry; apply concat_perm, Hins |]. by constructor.
Qed.

Lemma fd_inv_entry w o ti fd e : fd_inv w o -> entry w ti fd = Some e ->
  exists rest, concat (tabs w) ≡ₚ e :: rest /\ inv_of w (e :: rest) o /\
    forall w' e', tabs w' = tabs w -> inv_of w' (e' :: rest) o -> fd_inv (set_entry w' ti fd e') o.
Proof.
  intros Hinv He. unfold entry in He. destruct (tabs w !! Z.to_nat ti) as [t |] eqn:Et; [| done]. simpl in He.
  destruct (fd_inv_table w o ti t Hinv Et) as (rest & H0 & H1 & Hlt & H2).
  destruct (insert_perm _ _ _ He) as (r & Hp & Hins). exists (r ++ rest). split; [by rewrite H0, Hp |]. split.
  - eapply inv_perm; [| done]. by rewrite Hp.
  - intros w' e' Etab Hi. unfold set_entry. rewrite Etab, Et. rewrite <- Etab. apply H2; [done | by etrans; [apply length_insert |] |].
    eapply inv_perm; [| done]. by rewrite Hins.
Qed.

(** Replacing an entry that is no pipe end by another that is none. *)
Definition no_pipe (e : fd_entry_t) : Prop := e_type e <> FD_TYPE_PIPE.

Lemma refers_no_pipe e i wr : no_pipe e -> refers i wr e = false.
Proof. unfold no_pipe, refers. by destruct (e_type e). Qed.

Lemma inv_swap w w' e e' rest o : inv_of w (e :: rest) o -> no_pipe e -> no_pipe e' -> g_pipes w' = g_pipes w ->
  entry_ok e' -> mem_ok w' (file_mem e' ++ flat_map file_mem rest ++ flat_map pipe_mem (g_pipes w)) o ->
  inv_of w' (e' :: rest) o.
Proof.
  intros [H1 H2 H3 H4] Hn Hn' Hg He Hm. apply Forall_cons in H3 as [_ H3]. constructor.
  - by rewrite Hg.
  - rewrite Hg. simpl. by rewrite <- app_assoc.
  - by constructor.
  - intros i Hi. unfold pipe. rewrite Hg. specialize (H4 i Hi). rewrite !refs_cons in *.
    by rewrite !refers_no_pipe in H4 |- *.
Qed.

(** What the invariant says about an open file. *)
Lemma inv_file w e rest o a : inv_of w (e :: rest) o -> e_type e = FD_TYPE_FILE -> e_data e = PBuf a ->
  mem_ok w ((a, e_size e) :: flat_map file_mem rest ++ flat_map pipe_mem (g_pipes w)) o.
Proof. intros [_ H2 _ _] Et Ed. simpl in H2. unfold file_mem at 1 in H2. by rewrite Et, Ed in H2. Qed.

Lemma inv_rest w e rest o : inv_of w (e :: rest) o -> file_mem e = [] ->
  mem_ok w (flat_map file_mem rest ++ flat_map pipe_mem (g_pipes w)) o.
Proof. intros [_ H2 _ _] Ef. simpl in H2. by rewrite Ef in H2. Qed.

(** *** Pipes in the invariant *)

Lemma inv_ext w w' es o : k_heap w' = k_heap w -> k_bufs w' = k_bufs w -> g_pipes w' = g_pipes w ->
  inv_of w es o -> inv_of w' es o.
Proof.
  intros Eh Eb Eg [H1 [H2 H2'] H3 H4]. constructor; rewrite ?Eg; [done | | done |].
  - split; [by rewrite Eh |]. unfold buf_len in *. by rewrite Eb.
  - intros i Hi. unfold pipe. rewrite Eg. by apply H4.
Qed.

Lemma pipe_perm w i : 0 <= i < PIPE_MAX -> length (g_pipes w) = 16%nat ->
  exists r, g_pipes w ≡ₚ pipe w i :: r /\ forall p', aset (g_pipes w) i p' ≡ₚ p' :: r.
Proof.
  intros Hi Hl. apply insert_perm. unfold PIPE_MAX in Hi. apply lookup_aget. lia.
Qed.

Lemma pipe_set w i j p : 0 <= i < PIPE_MAX -> 0 <= j < PIPE_MAX -> length (g_pipes w) = 16%nat ->
  pipe (set_pipe w i p) j = if i =? j then p else pipe w j.
Proof.
  unfold PIPE_MAX. intros Hi Hj Hl. unfold pipe, set_pipe. cbn [g_pipes set_pipes].
  destruct (Z.eqb_spec i j) as [-> |]; [apply aget_aset_eq; lia | apply aget_aset_ne; lia].
Qed.

Lemma inv_pipe_swap w w' e e' rest o i p' : inv_of w (e :: rest) o -> 0 <= i < PIPE_MAX ->
  g_pipes w' = aset (g_pipes w) i p' -> entry_ok e' ->
  (forall j wr, j <> i -> refers j wr e' = refers j wr e) ->
  mem_ok w' (flat_map file_mem (e' :: rest) ++ flat_map pipe_mem (aset (g_pipes w) i p')) o ->
  pipe_ok p' (refs (e' :: rest) i false) (refs (e' :: rest) i true) -> inv_of w' (e' :: rest) o.
Proof.
  intros [H1 H2 H3 H4] Hi Hg He Hr Hm Hp. apply Forall_cons in H3 as [_ H3].
  constructor; [rewrite Hg; by rewrite length_aset | by rewrite Hg | by constructor |].
  intros j Hj. pose proof (pipe_set w i j p' Hi Hj H1) as E. unfold pipe, set_pipe in *. cbn [g_pipes set_pipes] in E.
  rewrite Hg, E. destruct (Z.eqb_spec i j) as [<- |]; [done |]. specialize (H4 j Hj). rewrite !refs_cons in *.
  rewrite !Hr by done. done.
Qed.

(** The pipe of an end in the table is live, and its buffer is owned. *)
Lemma inv_pipe w e rest o : inv_of w (e :: rest) o -> e_type e = FD_TYPE_PIPE ->
  exists i, e_data e = PPipe i /\ 0 <= i < PIPE_MAX /\ p_used (pipe w i) = true
    /\ (forall wr, refers i wr e = Bool.eqb (e_writable e) wr)
    /\ file_mem e = [].
Proof.
  intros [H1 _ H3 H4] Et. apply Forall_cons in H3 as [He _]. unfold entry_ok in He. rewrite Et in He.
  destruct He as (i & Ed & Hi). exists i. split; [done |]. split; [done |].
  assert (Hr : forall wr, refers i wr e = Bool.eqb (e_writable e) wr)
    by (intros wr; unfold refers; rewrite Et, Ed, Z.eqb_refl; done).
  split; [| split; [done |]].
  - destruct (H4 i Hi) as [P1 P2 P3 _ _]. rewrite P3. rewrite !refs_cons, !Hr.
    pose proof (refs_nonneg rest i true). pose proof (refs_nonneg rest i false).
    apply Z.ltb_lt. destruct (e_writable e); cbn [Bool.eqb b2z]; lia.
  - unfold file_mem. by rewrite Et.
Qed.

Lemma inv_pipe_mem w e rest o i : inv_of w (e :: rest) o -> 0 <= i < PIPE_MAX -> p_used (pipe w i) = true ->
  exists r, g_pipes w ≡ₚ pipe w i :: r /\ (forall p', aset (g_pipes w) i p' ≡ₚ p' :: r)
    /\ mem_ok w ((p_buf (pipe w i), PIPE_BUF) :: flat_map file_mem (e :: rest) ++ flat_map pipe_mem r) o.
Proof.
  intros [H1 H2 _ _] Hi Hu. destruct (pipe_perm w i Hi H1) as (r & Hp & Hs). exists r. split; [done |]. split; [done |].
  rewrite (flat_map_perm pipe_mem _ _ Hp) in H2. cbn [flat_map] in H2 |- *. unfold pipe_mem at 1 in H2. rewrite Hu in H2.
  eapply mem_ok_proper; [| reflexivity | exact H2]. simpl. by rewrite Permutation_middle.
Qed.

(** A pipe end changes hands: the pipe keeps its buffer. *)
Lemma mem_keep_pipe w w' es o i p' : mem_ok w (flat_map file_mem es ++ flat_map pipe_mem (g_pipes w)) o ->
  0 <= i < PIPE_MAX -> length (g_pipes w) = 16%nat -> k_heap w' = k_heap w -> k_bufs w' = k_bufs w ->
  p_used p' = p_used (pipe w i) -> p_buf p' = p_buf (pipe w i) ->
  mem_ok w' (flat_map file_mem es ++ flat_map pipe_mem (aset (g_pipes w) i p')) o.
Proof.
  intros [Hm Hm'] Hi Hl Eh Eb Eu Ebuf. destruct (pipe_perm w i Hi Hl) as (r & Hp & Hs).
  assert (E : flat_map pipe_mem (aset (g_pipes w) i p') ≡ₚ flat_map pipe_mem (g_pipes w)).
  { rewrite (flat_map_perm _ _ _ (Hs p')), (flat_map_perm _ _ _ Hp). simpl. unfold pipe_mem at 1 3. by rewrite Eu, Ebuf. }
  eapply (mem_ok_proper w'); [by rewrite E | reflexivity |]. split; [by rewrite Eh |]. unfold buf_len in *. by rewrite Eb.
Qed.

(** *** Closing *)

Definition post {A} (r : outcome A) (P : kern -> Prop) : Prop :=
  match r with Ret w _ => P w | Sleep w => P w | Fault => False end.

Definition hollow (e : fd_entry_t) : Prop := e_type e = FD_TYPE_FILE /\ e_data e = PNull /\ 0 < e_size e.

Lemma close_entry_no_pipe e : no_pipe (close_entry e).
Proof. done. Qed.

Lemma pipe_free_spec w e rest o i : inv_of w (e :: rest) o -> 0 <= i < PIPE_MAX ->
  forall w1, k_heap w1 = k_heap w -> k_bufs w1 = k_bufs w -> p_used (pipe w i) = true -> 0 <= i < PIPE_MAX ->
  (exists p1, g_pipes w1 = aset (g_pipes w) i p1 /\ p_buf p1 = p_buf (pipe w i)) ->
  exists w2, pipe_free w1 i = Some w2 /\ g_pipes w2 = aset (g_pipes w) i pipe_unused /\ tabs w2 = tabs w1
    /\ mem_ok w2 (flat_map file_mem (e :: rest) ++ flat_map pipe_mem (aset (g_pipes w) i pipe_unused)) o.
Proof.
  intros Hinv Hi w1 Eh Eb Hu _ (p1 & Eg & Ebuf). pose proof (io_np _ _ _ Hinv) as Hl.
  assert (Hp1 : pipe w1 i = p1) by (unfold pipe; rewrite Eg; apply aget_aset_eq; unfold PIPE_MAX in Hi; lia).
  destruct (inv_pipe_mem w e rest o i Hinv Hi Hu) as (r & Hp & Hs & [Hm Hm']).
  destruct (io_pipes _ _ _ Hinv i Hi) as [_ _ _ Hlive _]. destruct (Hlive Hu) as (_ & _ & _ & Hb0).
  assert (Hm1 : mem_ok w1 ((p_buf (pipe w i), PIPE_BUF) :: flat_map file_mem (e :: rest) ++ flat_map pipe_mem r) o)
    by (split; [by rewrite Eh | unfold buf_len in *; by rewrite Eb]).
  destruct (kfree_buf_spec w1 _ _ _ _ Hm1) as (w2 & Ek & Hm2 & (h & Ew)).
  unfold pipe_free. rewrite Hp1, Ebuf. destruct (Z.eqb_spec (p_buf (pipe w i)) 0); [done |]. cbn [negb].
  rewrite Ek. simpl. eexists. split; [done |]. subst w2. cbn [set_mem set_pipe set_pipes g_pipes tabs].
  assert (Ea : aset (g_pipes w1) i pipe_unused = aset (g_pipes w) i pipe_unused)
    by (rewrite Eg; unfold aset; apply list_insert_insert_eq).
  split; [done |]. split; [done |]. destruct Hm2 as [M1 M2]. eapply mem_ok_proper; [| reflexivity | split; [exact M1 | exact M2]].
  rewrite (flat_map_perm _ _ _ (Hs pipe_unused)). done.
Qed.

(** Forgetting one end of pipe [i]. *)
Definition drop_ref (wr : bool) (p : pipe_t) : pipe_t :=
  if wr then mk_pipe (p_used p) (ref_r p) (if 0 <? ref_w p then ref_w p - 1 else ref_w p)
               (p_head p) (p_tail p) (p_count p) (p_buf p)
  else mk_pipe (p_used p) (if 0 <? ref_r p then ref_r p - 1 else ref_r p) (ref_w p)
         (p_head p) (p_tail p) (p_count p) (p_buf p).

Lemma drop_ref_spec p wr r rw : pipe_ok p (b2z (Bool.eqb wr false) + r) (b2z (Bool.eqb wr true) + rw) ->
  0 <= r -> 0 <= rw ->
  ref_r (drop_ref wr p) = r /\ ref_w (drop_ref wr p) = rw /\ p_used (drop_ref wr p) = true
  /\ p_buf (drop_ref wr p) = p_buf p
  /\ (0 < r + rw -> pipe_ok (drop_ref wr p) r rw).
Proof.
  intros [P1 P2 P3 P4 P5] Hr Hw.
  assert (Hu : p_used p = true) by (rewrite P3; apply Z.ltb_lt; destruct wr; cbn [Bool.eqb b2z]; lia).
  assert (E : ref_r (drop_ref wr p) = r /\ ref_w (drop_ref wr p) = rw).
  { unfold drop_ref. destruct wr; cbn [Bool.eqb b2z ref_r ref_w] in *; rewrite ?P1, ?P2.
    - destruct (Z.ltb_spec 0 (1 + rw)); lia.
    - destruct (Z.ltb_spec 0 (1 + r)); lia. }
  destruct E as [E1 E2]. split; [done |]. split; [done |]. split; [by destruct wr |]. split; [by destruct wr |].
  intros Hpos. constructor; try done.
  - transitivity true; [by destruct wr |]. symmetry. by apply Z.ltb_lt.
  - intros _. destruct wr; exact (P4 Hu).
  - destruct wr; cbn [drop_ref p_used]; congruence.
Qed.

Lemma fd_close_safe w ti fd o : fd_inv w o -> (forall e, entry w ti fd = Some e -> ~ hollow e) ->
  post (fd_close w ti fd) (fun w' => fd_inv w' o).
Proof.
  intros Hinv Hh. unfold fd_close. destruct ((fd <? 0) || (MAX_OPEN_FDS <=? fd)); [done |].
  destruct (entry w ti fd) as [e |] eqn:He; [| done]. specialize (Hh e eq_refl).
  destruct (fd_inv_entry w o ti fd e Hinv He) as (rest & Hpm & Hi & Hback).
  destruct (e_type e) eqn:Et; try done.
  - (* a file *)
    pose proof (io_ent _ _ _ Hi) as Hok. apply Forall_cons in Hok as [Hok _]. unfold entry_ok in Hok. rewrite Et in Hok.
    destruct Hok as (_ & Hsz & Hnm & Hd).
    assert (Hnp : no_pipe e) by (unfold no_pipe; by rewrite Et).
    assert (Hk : exists d rc, (if e_dirty e && negb (bool_decide (e_name e = [])) then
                match buf_read w (e_data e) 0 (e_size e) with
                | None => (None, 0)
                | Some content => let d := fst (fs_delete_file (disk w) (e_name e)) in
                    let '(d, rc) := fs_create_file d (e_name e) content in (Some (set_disk w d), rc)
                end else (Some w, 0)) = (Some (set_disk w d), rc)).
    { destruct (e_dirty e && negb (bool_decide (e_name e = []))).
      - assert (Hr : exists c, buf_read w (e_data e) 0 (e_size e) = Some c).
        { destruct (e_data e) as [| a | j] eqn:Ed; [| | done].
          - exists []. unfold buf_read. destruct (Z.eqb_spec (e_size e) 0); [done |]. destruct Hh. split_and!; auto. lia.
          - destruct (buf_read_spec w _ o a (e_size e) 0 (e_size e) (inv_file w e rest o a Hi Et Ed)) as (b & _ & _ & ->); eauto; lia. }
        destruct Hr as (c & ->). cbv zeta.
        match goal with |- context [fs_create_file ?d ?n c] => destruct (fs_create_file d n c) as [d' rc] end.
        by exists d', rc.
      - exists (disk w), 0. by destruct w. }
    cbv zeta in Hk. destruct Hk as (d & rc & ->). cbn [or_fault].
    assert (Hi' : inv_of (set_disk w d) (e :: rest) o) by (by eapply (inv_ext w)).
    destruct (e_data e) as [| a | j] eqn:Ed; [| | done]; cbn [kfree_ptr or_fault].
    + cbn [post]. apply Hback; [done |]. eapply inv_swap; try done. eapply inv_rest; [done |].
      unfold file_mem. by rewrite Et, Ed.
    + destruct (kfree_buf_spec _ _ _ _ _ (inv_file _ e rest o a Hi' Et Ed)) as (w2 & -> & Hm & (h & ->)).
      cbn [or_fault post]. apply Hback; [done |]. eapply inv_swap; [exact Hi' | done | done | done | done | exact Hm].
  - (* a pipe end *)
    destruct (inv_pipe w e rest o Hi Et) as (i & Ed & Hir & Hu & Hrf & Hfm). rewrite Ed. cbv zeta.
    change (if e_writable e then _ else _) with (drop_ref (e_writable e) (pipe w i)).
    set (p1 := drop_ref (e_writable e) (pipe w i)).
    pose proof (io_pipes _ _ _ Hi i Hir) as Hp. rewrite !refs_cons, !Hrf in Hp.
    destruct (drop_ref_spec _ _ _ _ Hp (refs_nonneg _ _ _) (refs_nonneg _ _ _)) as (E1 & E2 & E3 & E4 & Hp1). fold p1 in E1, E2, E3, E4, Hp1.
    set (w1 := set_pipe (cli w) i p1).
    assert (Hfin : forall w2 p2, g_pipes w2 = aset (g_pipes w) i p2 -> tabs w2 = tabs w ->
      mem_ok w2 (flat_map file_mem (e :: rest) ++ flat_map pipe_mem (aset (g_pipes w) i p2)) o ->
      pipe_ok p2 (refs rest i false) (refs rest i true) ->
      fd_inv (set_entry (sti (wake_pipe w2 i)) ti fd (close_entry e)) o).
    { intros w2 p2 Eg Et2 Hm Hp2. apply Hback; [done |].
      eapply (inv_ext w2); [done | done | done |]. eapply inv_pipe_swap; [exact Hi | exact Hir | exact Eg | done | | |].
      - intros j wr Hj. rewrite (refers_no_pipe (close_entry e)) by done. unfold refers.
        rewrite Et, Ed. destruct (Z.eqb_spec i j); [congruence | done].
      - cbn [flat_map] in Hm |- *. rewrite Hfm in Hm. exact Hm.
      - rewrite !refs_cons, !(refers_no_pipe (close_entry e)) by done. exact Hp2. }
    rewrite E1, E2. pose proof (refs_nonneg rest i false). pose proof (refs_nonneg rest i true).
    destruct ((refs rest i false =? 0) && (refs rest i true =? 0)) eqn:Ez.
    + btrue. destruct (pipe_free_spec w e rest o i Hi Hir w1) as (w2 & -> & Eg & Et2 & Hm); try done; [by exists p1 |].
      cbn [or_fault post]. apply (Hfin w2 pipe_unused); [done | by rewrite Et2 | done |].
      replace (refs rest i false) with 0 by lia. replace (refs rest i true) with 0 by lia. constructor; done.
    + cbn [or_fault post]. apply (Hfin w1 p1); [done | done | |].
      * eapply mem_keep_pipe; [apply (io_mem _ _ _ Hi) | done | apply (io_np _ _ _ Hi) | done | done | |]; [congruence | done].
      * apply Hp1. apply andb_false_iff in Ez as [Ez | Ez]; btrue; lia.
Qed.

(** *** Opening *)

Lemma free_test i e : (3 <=? i) && type_is (e_type e) FD_TYPE_FREE = true -> 3 <= i /\ e_type e = FD_TYPE_FREE.
Proof. intros E. apply andb_true_iff in E as [E1 E2]. apply bool_decide_eq_true in E2. split; [lia | done]. Qed.

Lemma find_free_spec t : forall i s, find_free t i = Some s ->
  i <= s /\ 3 <= s /\ exists e, t !! Z.to_nat (s - i) = Some e /\ e_type e = FD_TYPE_FREE.
Proof.
  induction t as [| e t IH]; intros i s; cbn [find_free]; [done |].
  destruct ((3 <=? i) && type_is (e_type e) FD_TYPE_FREE) eqn:E.
  - intros [= <-]. apply free_test in E as [E1 E2]. split; [lia |]. split; [lia |].
    exists e. rewrite Z.sub_diag. done.
  - intros Hs. destruct (IH _ _ Hs) as (H1 & H2 & e' & H3 & H4). split; [lia |]. split; [lia |]. exists e'.
    replace (Z.to_nat (s - i)) with (S (Z.to_nat (s - (i + 1)))) by lia. done.
Qed.

Lemma fs_size_nonneg (f : F) n : 0 <= fs_get_file_size f n.
Proof. rewrite fs_size_spec. destruct (fs_lookup f n); lia. Qed.

Lemma open_size_range f nlen size k : open_size f nlen size = Some k -> 0 <= size ->
  0 <= k <= MAX_FD_FILE /\ nlen < FD_MAX_NAME /\ (k = size \/ k = 0).
Proof.
  unfold open_size. intros E Hs. repeat match type of E with context [if ?b then _ else _] => destruct b eqn:?; try done end;
    injection E as <-; btrue; unfold MAX_FD_FILE in *; split_and!; auto; lia.
Qed.

(** A step that touches only memory. *)
Lemma fd_inv_mem w w' o : fd_inv w o -> tabs w' = tabs w -> g_pipes w' = g_pipes w ->
  mem_ok w' (flat_map file_mem (concat (tabs w)) ++ flat_map pipe_mem (g_pipes w)) o -> fd_inv w' o.
Proof.
  intros [Hsh [H1 H2 H3 H4]] Et Eg Hm. split; [by rewrite Et |]. rewrite Et. constructor; rewrite ?Eg; try done.
  intros i Hi. unfold pipe. rewrite Eg. by apply H4.
Qed.

Lemma free_entry_facts w e rest o : inv_of w (e :: rest) o -> e_type e = FD_TYPE_FREE -> no_pipe e /\ file_mem e = [].
Proof. intros _ Et. split; [unfold no_pipe; by rewrite Et | unfold file_mem; by rewrite Et]. Qed.

Lemma fd_open_safe w ti nm flags o : fd_inv w o -> post (fd_open w ti nm flags) (fun w' => fd_inv w' o).
Proof.
  intros Hinv. unfold fd_open. destruct (tabs w !! Z.to_nat ti) as [t |] eqn:Et; [| done].
  destruct (bool_decide (nm = [])) eqn:Enm; [done |]. apply bool_decide_eq_false in Enm. cbv zeta.
  destruct (open_size _ _ _) as [size |] eqn:Eo; [| done].
  destruct (open_size_range _ _ _ _ Eo (fs_size_nonneg _ _)) as (Hsz & _ & _). unfold MAX_FD_FILE in Hsz.
  destruct (find_free t 0) as [slot |] eqn:Ef; [| done].
  destruct (find_free_spec _ _ _ Ef) as (_ & Hs3 & e & He & Hfree). rewrite Z.sub_0_r in He.
  assert (Hent : entry w ti slot = Some e) by (unfold entry; rewrite Et; done).
  destruct (fd_inv_entry w o ti slot e Hinv Hent) as (rest & Hpm & Hi & Hback).
  destruct (free_entry_facts _ _ _ _ Hi Hfree) as [Hnp Hfm].
  pose proof (inv_rest _ _ _ _ Hi Hfm) as Hm.
  assert (Hown : flat_map file_mem (concat (tabs w)) ≡ₚ flat_map file_mem rest)
    by (rewrite (flat_map_perm _ _ _ Hpm); simpl; by rewrite Hfm).
  assert (Hins : forall w2 data wr ap, g_pipes w2 = g_pipes w -> tabs w2 = tabs w -> (forall i, data <> PPipe i) ->
    mem_ok w2 (file_mem (mk_fd FD_TYPE_FILE wr false ap size 0 data nm) ++ flat_map file_mem rest ++ flat_map pipe_mem (g_pipes w)) o ->
    fd_inv (set_entry w2 ti slot (mk_fd FD_TYPE_FILE wr false ap size 0 data nm)) o).
  { intros w2 data wr ap Eg Etab Hd Hm2. apply Hback; [done |]. eapply inv_swap; [exact Hi | done | done | done | | exact Hm2].
    unfold entry_ok. cbn [e_type e_offset e_size e_name e_data]. unfold MAX_FD_FILE. split_and!; try lia; [done |].
    destruct data; try done. by apply (Hd i). }
  destruct (Z.ltb_spec 0 size); [| by apply Hins].
  pose proof (kalloc_spec w _ _ size Hm ltac:(unfold is_u32; lia)) as Hk. destruct (kalloc w size) as [w1 d].
  destruct Hk as [[-> ->] | (Hd0 & _ & Hm1 & (h & ->))]; [done |].
  destruct (Z.eqb_spec d 0); [done |]. pose proof (fs_read_bound (disk w) nm size ltac:(lia)) as Hrb.
  change (disk (set_mem w h _)) with (disk w).
  destruct (fs_read_file (disk w) nm size) as [r content]. simpl in Hrb.
  destruct (buf_write_spec _ _ _ d size 0 content Hm1 ltac:(lia) ltac:(lia)) as (b & w2 & _ & _ & -> & Hm2 & Ew2).
  cbn [or_fault]. destruct (negb (r =? size)).
  - destruct (kfree_buf_spec _ _ _ _ _ Hm2) as (w3 & -> & Hm3 & (h3 & Ew3)). cbn [or_fault post].
    assert (Hw3 : tabs w3 = tabs w /\ g_pipes w3 = g_pipes w) by (subst w3 w2; done). destruct Hw3 as [Etab Eg].
    apply (fd_inv_mem w); [done | done | done |]. by rewrite Hown.
  - cbn [post]. apply Hins; [by subst w2 | by subst w2 | done | exact Hm2].
Qed.

(** *** Creating a pipe *)

Lemma find_unused_spec ps : forall i s, find_unused ps i = Some s ->
  i <= s < i + Z.of_nat (length ps) /\ exists p, ps !! Z.to_nat (s - i) = Some p /\ p_used p = false.
Proof.
  induction ps as [| p ps IH]; intros i s; cbn [find_unused length]; [done |].
  destruct (negb (p_used p)) eqn:E.
  - intros [= <-]. btrue. split; [lia |]. exists p. by rewrite Z.sub_diag.
  - intros Hs. destruct (IH _ _ Hs) as (H1 & p' & H2 & H3). split; [lia |]. exists p'.
    replace (Z.to_nat (s - i)) with (S (Z.to_nat (s - (i + 1)))) by lia. done.
Qed.

Lemma find_free2_second t : forall i r a b, 0 <= r -> find_free2 t i r = (a, b) -> 0 <= i -> 0 <= b ->
  a = r /\ i <= b /\ exists e, t !! Z.to_nat (b - i) = Some e /\ e_type e = FD_TYPE_FREE.
Proof.
  induction t as [| e t IH]; intros i r a b Hr; cbn [find_free2]; [intros [= <- <-]; lia |].
  destruct ((3 <=? i) && type_is (e_type e) FD_TYPE_FREE) eqn:E.
  - destruct (Z.ltb_spec r 0); [lia |]. intros [= <- <-] _ _. split; [done |]. split; [lia |]. exists e.
    rewrite Z.sub_diag. by apply free_test in E as [_ E].
  - intros Hf Hi Hb. destruct (IH _ _ _ _ Hr Hf ltac:(lia) Hb) as (-> & H2 & e' & H3 & H4). split; [done |]. split; [lia |].
    exists e'. replace (Z.to_nat (b - i)) with (S (Z.to_nat (b - (i + 1)))) by lia. done.
Qed.

Lemma find_free2_spec t : forall i a b, find_free2 t i (-1) = (a, b) -> 0 <= i -> 0 <= a -> 0 <= b ->
  i <= a < b /\ (exists e, t !! Z.to_nat (a - i) = Some e /\ e_type e = FD_TYPE_FREE)
  /\ exists e, t !! Z.to_nat (b - i) = Some e /\ e_type e = FD_TYPE_FREE.
Proof.
  induction t as [| e t IH]; intros i a b; cbn [find_free2]; [intros [= <- <-]; lia |].
  destruct ((3 <=? i) && type_is (e_type e) FD_TYPE_FREE) eqn:E.
  - change (-1 <? 0) with true. cbv iota. intros Hf Hi Ha Hb.
    destruct (find_free2_second t (i + 1) i a b Hi Hf ltac:(lia) Hb) as (-> & H2 & e' & H3 & H4).
    split; [lia |]. split.
    + exists e. rewrite Z.sub_diag. by apply free_test in E as [_ E].
    + exists e'. replace (Z.to_nat (b - i)) with (S (Z.to_nat (b - (i + 1)))) by lia. done.
  - intros Hf Hi Ha Hb. destruct (IH (i + 1) a b Hf ltac:(lia) Ha Hb) as (H1 & (e1 & H2 & H3) & e2 & H4 & H5).
    split; [lia |]. split; [exists e1 | exists e2].
    + replace (Z.to_nat (a - i)) with (S (Z.to_nat (a - (i + 1)))) by lia. done.
    + replace (Z.to_nat (b - i)) with (S (Z.to_nat (b - (i + 1)))) by lia. done.
Qed.

Lemma pipe_alloc_spec w o : fd_inv w o ->
  let '(w', i) := pipe_alloc w in
  (i = -1 /\ w' = w) \/
  exists h bufs buf s, 0 <= i < PIPE_MAX /\ p_used (pipe w i) = false /\ buf <> 0
    /\ w' = set_sched (set_pipe (set_mem w h bufs) i (mk_pipe true 0 0 0 0 0 buf)) s
    /\ bufs !! buf = Some pipe_zeros
    /\ mem_ok w' ((buf, PIPE_BUF) :: flat_map file_mem (concat (tabs w)) ++ flat_map pipe_mem (g_pipes w)) o.
Proof.
  intros [Hsh Hi]. unfold pipe_alloc. destruct (find_unused (g_pipes w) 0) as [i |] eqn:Ef; [| by left].
  destruct (find_unused_spec _ _ _ Ef) as (Hir & p & Hp & Hu). rewrite (io_np _ _ _ Hi) in Hir. rewrite Z.sub_0_r in Hp.
  pose proof (kalloc_spec w _ _ PIPE_BUF (io_mem _ _ _ Hi) ltac:(done)) as Hk.
  destruct (kalloc w PIPE_BUF) as [w1 buf]. destruct Hk as [[-> ->] | (Hb0 & _ & Hm1 & (h & ->))]; [by left |].
  destruct (Z.eqb_spec buf 0); [done |]. right.
  destruct (buf_write_spec _ _ _ buf PIPE_BUF 0 pipe_zeros Hm1 ltac:(lia)
    ltac:(rewrite pipe_zeros_length; lia)) as (b & w2 & Eb & Lb & _ & Hm2 & Ew2).
  cbn [set_mem k_bufs] in Eb. rewrite lookup_insert_eq in Eb. injection Eb as Eb.
  assert (Es : splice b 0 pipe_zeros = pipe_zeros).
  { unfold splice. pose proof pipe_zeros_length. rewrite drop_ge by lia. apply app_nil_r. }
  eexists h, _, buf, _. split; [unfold PIPE_MAX; lia |]. split; [unfold pipe; by rewrite (aget_lookup pipe_unused _ _ _ Hp) |].
  split; [done |]. split; [reflexivity |]. split; [apply lookup_insert_eq |].
  rewrite Es in Ew2. destruct Hm2 as [M1 M2]. subst w2. split; [exact M1 | exact M2].
Qed.

Lemma insert_perm2 {A} (l : list A) j k x y : l !! j = Some x -> l !! k = Some y -> (j < k)%nat ->
  exists rest, l ≡ₚ x :: y :: rest /\ forall x' y', <[k := y']> (<[j := x']> l) ≡ₚ x' :: y' :: rest.
Proof.
  intros Hj Hk Hlt. apply list_elem_of_split_length in Hj as (l1 & l2 & -> & ->).
  rewrite lookup_app_r in Hk by lia. rewrite lookup_cons_ne_0 in Hk by lia.
  apply list_elem_of_split_length in Hk as (m1 & m2 & -> & Ek).
  assert (Hp : forall x y, l1 ++ x :: m1 ++ y :: m2 ≡ₚ x :: y :: l1 ++ m1 ++ m2).
  { intros x0 y0. rewrite <- Permutation_middle. constructor. rewrite !app_assoc. by rewrite <- Permutation_middle. }
  exists (l1 ++ m1 ++ m2). split; [apply Hp |]. intros x' y'.
  replace (<[length l1 := x']> (l1 ++ x :: m1 ++ y :: m2)) with (l1 ++ x' :: m1 ++ y :: m2)
    by (symmetry; rewrite <- (Nat.add_0_r (length l1)) at 1; by rewrite insert_app_r).
  replace (<[k := y']> (l1 ++ x' :: m1 ++ y :: m2)) with (l1 ++ x' :: m1 ++ y' :: m2); [apply Hp |].
  symmetry. replace k with (length l1 + (S (length m1 + 0)))%nat by lia. rewrite insert_app_r. simpl.
  by rewrite insert_app_r.
Qed.

Lemma refs_zero w es o i : inv_of w es o -> 0 <= i < PIPE_MAX -> p_used (pipe w i) = false ->
  refs es i false = 0 /\ refs es i true = 0.
Proof.
  intros Hi Hir Hu. destruct (io_pipes _ _ _ Hi i Hir) as [_ _ P3 _ _]. rewrite Hu in P3. symmetry in P3. btrue.
  pose proof (refs_nonneg es i false). pose proof (refs_nonneg es i true). lia.
Qed.

Lemma fd_pipe_safe w ti o : fd_inv w o -> post (fd_pipe w ti) (fun w' => fd_inv w' o).
Proof.
  intros Hinv. unfold fd_pipe. destruct (tabs w !! Z.to_nat ti) as [t |] eqn:Et; [| done].
  pose proof (pipe_alloc_spec w o Hinv) as Hpa. destruct (pipe_alloc w) as [w1 i].
  destruct Hpa as [[-> ->] | (h & bufs & buf & s & Hir & Hu & Hb0 & Ew1 & _ & Hm1)]; [done |].
  destruct (Z.ltb_spec i 0); [lia |].
  assert (Hnp : length (g_pipes w) = 16%nat) by apply Hinv.
  assert (Hpi : pipe w1 i = mk_pipe true 0 0 0 0 0 buf).
  { subst w1. change (pipe (set_pipe (set_mem w h bufs) i (mk_pipe true 0 0 0 0 0 buf)) i = mk_pipe true 0 0 0 0 0 buf).
    rewrite pipe_set by done. by rewrite Z.eqb_refl. }
  assert (Etab : tabs w1 = tabs w) by (by subst w1).
  destruct (find_free2 t 0 (-1)) as [rfd wfd] eqn:Ef.
  destruct ((rfd <? 0) || (wfd <? 0)) eqn:Eneg.
  - (* no room: the pipe goes back *)
    unfold pipe_free. rewrite Hpi. cbn [p_buf]. destruct (Z.eqb_spec buf 0); [done |]. cbn [negb].
    destruct (kfree_buf_spec _ _ _ _ _ Hm1) as (w2 & -> & Hm2 & (h2 & ->)). cbn [mbind option_bind or_fault post].
    apply (fd_inv_mem w); [done | by subst w1 | |].
    + subst w1. cbn [g_pipes set_pipe set_pipes set_mem set_sched].
      rewrite <- (list_insert_id (g_pipes w) (Z.to_nat i) pipe_unused) at 2.
      * unfold aset. apply list_insert_insert_eq.
      * destruct Hinv as [_ Hi]. destruct (io_pipes _ _ _ Hi i Hir) as [_ _ _ _ P5]. rewrite <- (P5 Hu).
        apply lookup_aget. unfold PIPE_MAX in Hir. lia.
    + destruct Hm2 as [M1 M2]. split; [exact M1 | exact M2].
  - btrue. destruct (find_free2_spec t 0 rfd wfd Ef ltac:(lia) ltac:(lia) ltac:(lia)) as (Hlt & (e1 & He1 & F1) & (e2 & He2 & F2)).
    rewrite Z.sub_0_r in He1, He2.
    destruct (fd_inv_table w o ti t Hinv Et) as (rest & Hpm & Hi & Hlen & Hback).
    destruct (insert_perm2 t _ _ e1 e2 He1 He2 ltac:(lia)) as (r & Hp & Hins).
    set (p1 := mk_pipe true 1 1 0 0 0 (p_buf (pipe w1 i))).
    set (s2 := set_wq_head _ _ _). set (w2 := set_sched (set_pipe w1 i p1) s2).
    cbv zeta. set (x1 := mk_fd FD_TYPE_PIPE false false _ 0 0 (PPipe i) []). set (x2 := mk_fd FD_TYPE_PIPE true false _ 0 0 (PPipe i) []).
    assert (Eset : set_entry (set_entry w2 ti rfd x1) ti wfd x2 =
      set_tabs w2 (<[Z.to_nat ti := <[Z.to_nat wfd := x2]> (<[Z.to_nat rfd := x1]> t)]> (tabs w2))).
    { unfold set_entry at 2. change (tabs w2) with (tabs w1). rewrite Etab, Et. unfold set_entry. cbn [tabs set_tabs].
      rewrite list_lookup_insert_eq by (by eapply lookup_lt_Some). unfold set_tabs. cbn [k_heap k_bufs g_pipes disk ksched kbd tty_out].
      f_equal. rewrite list_insert_insert_eq. done. }
    cbn [post]. rewrite Eset. apply Hback; [done | etrans; [apply length_insert |]; etrans; [apply length_insert | done] |].
    eapply inv_perm; [by rewrite Hins |]. simpl.
    assert (Hi' : inv_of w (e1 :: e2 :: r ++ rest) o) by (eapply inv_perm; [| exact Hi]; by rewrite Hp).
    destruct (refs_zero _ _ _ _ Hi' Hir Hu) as [R0 R1]. rewrite !refs_cons in R0, R1.
    assert (N1 : no_pipe e1) by (unfold no_pipe; by rewrite F1). assert (N2 : no_pipe e2) by (unfold no_pipe; by rewrite F2).
    rewrite !(refers_no_pipe e1), !(refers_no_pipe e2) in R0, R1 by done. cbn [b2z] in R0, R1.
    pose proof (io_ent _ _ _ Hi') as Hent. apply Forall_cons in Hent as [_ Hent]. apply Forall_cons in Hent as [_ Hent].
    assert (Eg : g_pipes w2 = aset (g_pipes w) i p1).
    { subst w2 w1. cbn [g_pipes set_pipe set_pipes set_mem set_sched]. unfold aset. apply list_insert_insert_eq. }
    constructor.
    + rewrite Eg. by rewrite length_aset.
    + rewrite Eg. simpl. destruct (pipe_perm w i Hir Hnp) as (rp & Hpp & Hpset).
      assert (Hm2 : mem_ok w2 ((buf, PIPE_BUF) :: flat_map file_mem (concat (tabs w)) ++ flat_map pipe_mem (g_pipes w)) o)
        by (subst w2; destruct Hm1 as [M1 M2]; split; [exact M1 | exact M2]).
      eapply mem_ok_proper; [| reflexivity | exact Hm2].
      assert (Em1 : pipe_mem p1 = [(buf, PIPE_BUF)]) by (unfold p1; rewrite Hpi; done).
      assert (Em0 : pipe_mem (pipe w i) = []) by (unfold pipe_mem; by rewrite Hu).
      assert (Ef1 : file_mem e1 = []) by (unfold file_mem; by rewrite F1).
      assert (Ef2 : file_mem e2 = []) by (unfold file_mem; by rewrite F2).
      rewrite (flat_map_perm pipe_mem _ _ (Hpset p1)), (flat_map_perm pipe_mem _ _ Hpp).
      rewrite (flat_map_perm file_mem _ _ Hpm), (flat_map_perm file_mem _ _ (Permutation_app_tail rest Hp)).
      cbn [flat_map app]. rewrite Em1, Em0, Ef1, Ef2. cbn [app]. by rewrite <- Permutation_middle.
    + constructor; [exists i; by split |]. constructor; [exists i; by split | exact Hent].
    + intros j Hj. pose proof (pipe_set w i j p1 Hir Hj Hnp) as Epj. unfold pipe at 1. rewrite Eg.
      unfold pipe, set_pipe in Epj. cbn [g_pipes set_pipes] in Epj. rewrite Epj. rewrite !refs_cons.
      assert (Hx : forall wr, refers j wr x1 = (i =? j) && negb wr /\ refers j wr x2 = (i =? j) && wr).
      { intros wr. unfold refers. cbn [e_type e_data e_writable x1 x2]. by destruct wr. }
      destruct (Hx false) as [-> ->]. destruct (Hx true) as [-> ->].
      destruct (Z.eqb_spec i j) as [<- | Hne]; cbn [andb negb b2z].
      * rewrite !Z.add_0_l in R0, R1. rewrite R0, R1. constructor; try done. intros _. unfold p1. cbn [p_tail p_count p_head p_buf]. rewrite Hpi. cbn [p_buf].
        unfold PIPE_BUF. split_and!; try lia; try done.
      * pose proof (io_pipes _ _ _ Hi' j Hj) as P. rewrite !refs_cons in P.
        rewrite !(refers_no_pipe e1), !(refers_no_pipe e2) in P by done. exact P.
Qed.

(** *** File contents *)

Definition content (w : kern) (e : fd_entry_t) : list Z :=
  match e_data e with PBuf a => default [] (k_bufs w !! a) | _ => [] end.

Lemma entry_set w ti fd e e' : entry w ti fd = Some e -> entry (set_entry w ti fd e') ti fd = Some e'.
Proof.
  unfold entry, set_entry. destruct (tabs w !! Z.to_nat ti) as [t |] eqn:Et; [| done]. simpl. intros He.
  rewrite list_lookup_insert_eq by (by eapply lookup_lt_Some). simpl.
  apply list_lookup_insert_eq. by eapply lookup_lt_Some.
Qed.

Lemma set_entry_mem w ti fd e : k_heap (set_entry w ti fd e) = k_heap w /\ k_bufs (set_entry w ti fd e) = k_bufs w
  /\ g_pipes (set_entry w ti fd e) = g_pipes w /\ disk (set_entry w ti fd e) = disk w.
Proof. unfold set_entry. by destruct (tabs w !! Z.to_nat ti). Qed.

Lemma content_set w ti fd e e' : content (set_entry w ti fd e) e' = content w e'.
Proof. unfold content. by destruct (set_entry_mem w ti fd e) as (_ & -> & _). Qed.

Lemma inv_content w e rest o : inv_of w (e :: rest) o -> e_type e = FD_TYPE_FILE -> ~ hollow e ->
  Z.of_nat (length (content w e)) = e_size e.
Proof.
  intros Hi Et Hh. pose proof (io_ent _ _ _ Hi) as Hok. apply Forall_cons in Hok as [Hok _].
  unfold entry_ok in Hok. rewrite Et in Hok. destruct Hok as (_ & Hsz & _ & Hd). unfold content.
  destruct (e_data e) as [| a | j] eqn:Ed; [| | done].
  - simpl. destruct (Z.eq_dec (e_size e) 0); [lia |]. destruct Hh. split_and!; auto. lia.
  - destruct (inv_file w e rest o a Hi Et Ed) as [_ Hb]. apply Forall_cons in Hb as [(b & Eb & Lb) _].
    simpl in Eb, Lb. by rewrite Eb.
Qed.

Lemma content_read w e rest o off k : inv_of w (e :: rest) o -> e_type e = FD_TYPE_FILE -> ~ hollow e ->
  0 <= off -> 0 <= k -> off + k <= e_size e ->
  buf_read w (e_data e) off k = Some (take (Z.to_nat k) (drop (Z.to_nat off) (content w e))).
Proof.
  intros Hi Et Hh Ho Hk Hok. pose proof (inv_content _ _ _ _ Hi Et Hh) as Hl.
  unfold buf_read. destruct (Z.eqb_spec k 0) as [-> | Hk0]; [by rewrite take_0 |].
  unfold content in *. destruct (e_data e) as [| a | j] eqn:Ed; [simpl in Hl; lia | | simpl in Hl; lia].
  destruct (k_bufs w !! a) as [b |]; cbn [default mbind option_bind] in *; [| simpl in Hl; lia].
  by destruct (Z.leb_spec (off + k) (Z.of_nat (length b))); [| simpl in *; lia].
Qed.

Definition with_offset (e : fd_entry_t) (off : Z) : fd_entry_t :=
  mk_fd (e_type e) (e_writable e) (e_dirty e) (e_append e) (e_size e) off (e_data e) (e_name e).

(** Moving the offset keeps everything else. *)
Lemma fd_inv_offset w ti fd e o off : fd_inv w o -> entry w ti fd = Some e -> e_type e = FD_TYPE_FILE ->
  0 <= off <= MAX_FD_FILE -> fd_inv (set_entry w ti fd (with_offset e off)) o.
Proof.
  intros Hinv He Et Hoff. destruct (fd_inv_entry w o ti fd e Hinv He) as (rest & _ & Hi & Hback).
  apply Hback; [done |]. pose proof (io_ent _ _ _ Hi) as Hok. apply Forall_cons in Hok as [Hok _].
  assert (Hnp : no_pipe e) by (unfold no_pipe; by rewrite Et).
  eapply inv_swap; [exact Hi | done | done | done | |].
  - unfold entry_ok in *. cbn [with_offset e_type e_offset e_size e_name e_data]. rewrite Et in *. by destruct Hok as (_ & H2).
  - pose proof (io_mem _ _ _ Hi) as Hm. simpl in Hm. rewrite <- app_assoc in Hm. exact Hm.
Qed.

Lemma fd_lseek_safe w ti fd off wh o : fd_inv w o -> fd_inv (fst (fd_lseek w ti fd off wh)) o.
Proof.
  intros Hinv. unfold fd_lseek. destruct ((fd <? 0) || _); [done |].
  destruct (entry w ti fd) as [e |] eqn:He; [| done]. destruct (type_is (e_type e) FD_TYPE_FILE) eqn:Et; [| done].
  apply bool_decide_eq_true in Et. cbn [negb].
  match goal with |- context [match ?b with Some _ => _ | None => _ end] => destruct b as [base |]; [| done] end.
  cbv zeta. destruct (Z.ltb_spec (s32 (base + off)) 0); [done |].
  destruct (Z.ltb_spec MAX_FD_FILE (s32 (base + off))); [done |]. cbn [fst].
  apply (fd_inv_offset w ti fd e o); [done | done | done | lia].
Qed.

(** *** Reading *)

Lemma read_keys_frame n polled : forall w i, let w' := fst (read_keys n w polled i) in
  k_heap w' = k_heap w /\ k_bufs w' = k_bufs w /\ g_pipes w' = g_pipes w /\ tabs w' = tabs w.
Proof.
  induction n as [| n IH]; intros w i; cbn [read_keys]; [done |].
  destruct (keyboard_getchar kb_wq (kbd w) (ksched w) (polled i)) as [[k st] c]. destruct (c =? 0); [done |].
  specialize (IH (set_sched (set_kbd w k) st) (S i)). destruct (read_keys n _ polled (S i)) as [w' d]. exact IH.
Qed.

Lemma fd_inv_ext w w' o : k_heap w' = k_heap w -> k_bufs w' = k_bufs w -> g_pipes w' = g_pipes w -> tabs w' = tabs w ->
  fd_inv w o -> fd_inv w' o.
Proof. intros E1 E2 E3 E4 [Hs Hi]. split; [by rewrite E4 |]. rewrite E4. by eapply inv_ext. Qed.

(** What a step on pipe [i] must give back, when the descriptors stay. *)
Lemma fd_inv_pipe w w' o i p' : fd_inv w o -> 0 <= i < PIPE_MAX -> tabs w' = tabs w ->
  g_pipes w' = aset (g_pipes w) i p' ->
  mem_ok w' (flat_map file_mem (concat (tabs w)) ++ flat_map pipe_mem (aset (g_pipes w) i p')) o ->
  pipe_ok p' (refs (concat (tabs w)) i false) (refs (concat (tabs w)) i true) -> fd_inv w' o.
Proof.
  intros [Hs [H1 H2 H3 H4]] Hi Et Eg Hm Hp. split; [by rewrite Et |]. rewrite Et.
  constructor; [rewrite Eg; by rewrite length_aset | by rewrite Eg | done |].
  intros j Hj. pose proof (pipe_set w i j p' Hi Hj H1) as E. unfold pipe, set_pipe in *. cbn [g_pipes set_pipes] in E.
  rewrite Eg, E. destruct (Z.eqb_spec i j) as [<- |]; [done |]. by apply H4.
Qed.

(** The live pipe an entry of the table refers to. *)
Lemma fd_inv_end w o ti fd e : fd_inv w o -> entry w ti fd = Some e -> e_type e = FD_TYPE_PIPE ->
  exists i b, e_data e = PPipe i /\ 0 <= i < PIPE_MAX /\ p_used (pipe w i) = true
    /\ pipe_ok (pipe w i) (refs (concat (tabs w)) i false) (refs (concat (tabs w)) i true)
    /\ k_bufs w !! p_buf (pipe w i) = Some b /\ Z.of_nat (length b) = PIPE_BUF.
Proof.
  intros Hinv He Et. destruct (fd_inv_entry w o ti fd e Hinv He) as (rest & _ & Hi & _).
  destruct (inv_pipe w e rest o Hi Et) as (i & Ed & Hir & Hu & _).
  destruct (inv_pipe_mem w e rest o i Hi Hir Hu) as (r & _ & _ & [_ Hb]). apply Forall_cons in Hb as [(b & Eb & Lb) _].
  exists i, b. split; [done |]. split; [done |]. split; [done |]. split; [| done].
  destruct Hinv as [_ Hi']. by apply (io_pipes _ _ _ Hi').
Qed.

Lemma ring_advance N t c k : 0 < N -> 0 <= k <= c -> ((t + k) mod N + (c - k)) mod N = (t + c) mod N.
Proof. intros. rewrite Zplus_mod_idemp_l. f_equal. lia. Qed.

Lemma fd_read_safe w ti fd n polled o : fd_inv w o -> (forall e, entry w ti fd = Some e -> ~ hollow e) -> 0 <= n ->
  post (fd_read w ti fd n polled) (fun w' => fd_inv w' o).
Proof.
  intros Hinv Hh Hn. unfold fd_read. destruct ((fd <? 0) || _); [done |].
  destruct (entry w ti fd) as [e |] eqn:He; [| done]. specialize (Hh e eq_refl).
  destruct (e_type e) eqn:Et; try done.
  - pose proof (read_keys_frame (Z.to_nat n) polled w 0) as Hf. cbv zeta in Hf.
    destruct (read_keys (Z.to_nat n) w polled 0) as [w' d]. destruct Hf as (F1 & F2 & F3 & F4).
    destruct ((0 <? n) && _); by eapply fd_inv_ext.
  - destruct (Z.leb_spec (e_size e) (e_offset e)); [done |]. cbv zeta.
    destruct (fd_inv_entry w o ti fd e Hinv He) as (rest & _ & Hi & _).
    pose proof (io_ent _ _ _ Hi) as Hok. apply Forall_cons in Hok as [Hok _]. unfold entry_ok in Hok. rewrite Et in Hok.
    destruct Hok as (Ho & Hsz & _). set (k := if n <? _ then n else _).
    assert (Hk : 0 <= k /\ e_offset e + k <= e_size e) by (unfold k; destruct (Z.ltb_spec n (e_size e - e_offset e)); lia).
    rewrite (content_read w e rest o) by (done || lia). cbn [or_fault post].
    rewrite <- Et at 1. apply (fd_inv_offset w ti fd e o); [done | done | done | unfold MAX_FD_FILE in *; lia].
  - destruct (fd_inv_end w o ti fd e Hinv He Et) as (i & b & -> & Hir & Hu & Hp & Hb & Lb).
    destruct (e_writable e); [done |]. destruct (n =? 0); [done |]. cbv zeta.
    change (pipe (cli w) i) with (pipe w i). destruct (Z.ltb_spec 0 (p_count (pipe w i))).
    + change (k_bufs (cli w)) with (k_bufs w). rewrite Hb. cbn [or_fault post].
      set (k := if n <? _ then n else _).
      assert (Hk : 0 <= k <= p_count (pipe w i)) by (unfold k; destruct (Z.ltb_spec n (p_count (pipe w i))); lia).
      eapply (fd_inv_pipe w _ o i); [done | done | done | reflexivity | |].
      * eapply mem_keep_pipe; [apply (io_mem _ _ _ (proj2 Hinv)) | done | apply (io_np _ _ _ (proj2 Hinv)) | done | done | done | done].
      * destruct Hp as [P1 P2 P3 P4 P5]. constructor; try done; [| cbn [p_used]; congruence].
        intros _. destruct (P4 Hu) as (T1 & T2 & T3 & T4). cbn [p_tail p_count p_head p_buf]. unfold PIPE_BUF in *.
        split; [apply Z.mod_pos_bound; lia |]. split; [lia |]. split; [| done]. rewrite ring_advance by lia. done.
    + destruct (ref_w (pipe w i) =? 0); by apply (fd_inv_ext w).
Qed.

(** *** Writing *)

(** Overwriting from [off] on; a gap past the end reads as zeros. *)
Definition overwrite (c : list Z) (off : Z) (d : list Z) : list Z :=
  splice (c ++ replicate (Z.to_nat (off + Z.of_nat (length d) - Z.of_nat (length c))) 0) off d.

Lemma splice_two (s c z : list Z) : length s = (length c + length z)%nat ->
  splice (splice s 0 c) (Z.of_nat (length c)) z = c ++ z.
Proof.
  intros H1. unfold splice. simpl. rewrite !Nat2Z.id. rewrite take_app_length.
  rewrite drop_app_ge by lia. rewrite drop_drop, drop_ge by lia. by rewrite app_nil_r.
Qed.

Lemma splice_zero (s : list Z) : splice s 0 [] = s.
Proof. unfold splice. simpl. done. Qed.

(** Growing an open file whose buffer is intact. *)
Lemma fd_grow_spec w e rest o newsize : inv_of w (e :: rest) o -> e_type e = FD_TYPE_FILE -> ~ hollow e ->
  e_size e < newsize < 2 ^ 32 ->
  (fd_grow w e newsize = Ret w (e, false) /\ (MAX_FD_FILE < newsize \/ snd (alloc (k_heap w) newsize) = 0)) \/
  exists w' nd, newsize <= MAX_FD_FILE /\
    fd_grow w e newsize = Ret w' (mk_fd (e_type e) (e_writable e) (e_dirty e) (e_append e) newsize (e_offset e) (PBuf nd) (e_name e), true)
    /\ tabs w' = tabs w /\ g_pipes w' = g_pipes w /\ disk w' = disk w
    /\ mem_ok w' ((nd, newsize) :: flat_map file_mem rest ++ flat_map pipe_mem (g_pipes w)) o
    /\ k_bufs w' !! nd = Some (content w e ++ replicate (Z.to_nat (newsize - e_size e)) 0).
Proof.
  intros Hi Et Hh Hns. unfold fd_grow. destruct (Z.ltb_spec MAX_FD_FILE newsize); [by left; split; [| left] |].
  pose proof (io_ent _ _ _ Hi) as Hok. apply Forall_cons in Hok as [Hok _]. unfold entry_ok in Hok. rewrite Et in Hok.
  destruct Hok as (_ & Hsz & _ & Hd).
  pose proof (kalloc_spec w _ _ newsize (io_mem _ _ _ Hi) ltac:(unfold is_u32; lia)) as Hk.
  pose proof (inv_content _ _ _ _ Hi Et Hh) as Hcl.
  destruct (kalloc w newsize) as [w1 nd] eqn:Ek.
  destruct Hk as [[-> ->] | (Hn0 & _ & Hm1 & (h & Ew1))].
  { left. split; [done |]. right. unfold kalloc in Ek. destruct (alloc (k_heap w) newsize) as [h p]. cbn [snd].
    destruct (Z.eqb_spec p 0); [done | congruence]. }
  destruct (Z.eqb_spec nd 0); [done |]. right.
  set (z := replicate (Z.to_nat (newsize - e_size e)) 0).
  assert (Hz : Z.of_nat (length z) = newsize - e_size e) by (unfold z; rewrite length_replicate; lia).
  assert (Hcp : exists w2, (if negb (is_null (e_data e)) && (0 <? e_size e)
       then d ← buf_read w1 (e_data e) 0 (e_size e); buf_write w1 (PBuf nd) 0 d else Some w1) = Some w2
     /\ mem_ok w2 ((nd, newsize) :: flat_map file_mem (e :: rest) ++ flat_map pipe_mem (g_pipes w)) o
     /\ tabs w2 = tabs w /\ g_pipes w2 = g_pipes w /\ disk w2 = disk w
     /\ exists b, k_bufs w2 !! nd = Some (splice b 0 (content w e)) /\ Z.of_nat (length b) = newsize).
  { destruct (e_data e) as [| a | j] eqn:Ed; [| | done].
    - cbn [is_null negb andb]. exists w1. split; [done |]. split; [done |]. subst w1. split_and!; try done.
      unfold content. rewrite Ed. exists (stale (k_heap w) nd newsize). rewrite splice_zero. cbn [k_bufs set_mem].
      rewrite lookup_insert_eq. split; [done |]. rewrite stale_length; lia.
    - cbn [is_null negb andb]. assert (Hf : file_mem e = [(a, e_size e)]) by (unfold file_mem; by rewrite Et, Ed).
      assert (Ec : k_bufs w1 !! a = Some (content w e)).
      { destruct Hm1 as [Ho1 _]. apply owns_fresh in Ho1 as [Ho1 _]. subst w1. cbn [k_bufs set_mem].
        rewrite lookup_insert_ne.
        - destruct (inv_file w e rest o a Hi Et Ed) as [_ Hb]. apply Forall_cons in Hb as [(b & Eb & _) _].
          unfold content. rewrite Ed. simpl in Eb. by rewrite Eb.
        - intros ->. apply Ho1. cbn [flat_map]. rewrite Hf. left. }
      destruct (buf_write_spec w1 _ o nd newsize 0 (content w e) Hm1 ltac:(lia) ltac:(lia)) as (b & w2 & Eb & Lb & Ew & Hm2 & Ew2).
      exists w2. split; [| split; [done |]].
      + destruct (Z.ltb_spec 0 (e_size e)).
        * unfold buf_read. destruct (Z.eqb_spec (e_size e) 0); [lia |]. rewrite Ec. cbn [mbind option_bind].
          destruct (Z.leb_spec (0 + e_size e) (Z.of_nat (length (content w e)))); [| lia].
          change (Z.to_nat 0) with 0%nat. rewrite drop_0, take_ge by lia. exact Ew.
        * rewrite <- Ew. destruct (content w e); [done | simpl in Hcl; lia].
      + subst w2 w1. split_and!; try done. exists b. cbn [k_bufs set_mem]. rewrite lookup_insert_eq. done. }
  destruct Hcp as (w2 & -> & Hm2 & T2 & G2 & D2 & (b & Eb & Lb)). cbn [or_fault].
  destruct (buf_write_spec w2 _ o nd newsize (e_size e) z Hm2 ltac:(lia) ltac:(lia)) as (b3 & w3 & Eb3 & Lb3 & Ew3 & Hm3 & Ew3').
  fold z. rewrite Ew3. cbn [or_fault].
  assert (E3 : k_bufs w3 !! nd = Some (content w e ++ z)).
  { rewrite Eb in Eb3. injection Eb3 as <-. subst w3. cbn [k_bufs set_mem]. rewrite lookup_insert_eq. f_equal.
    rewrite <- Hcl. apply splice_two. lia. }
  destruct (e_data e) as [| a | j] eqn:Ed; [| | done]; cbn [kfree_ptr].
  - cbn [or_fault]. exists w3, nd. split; [lia |]. split; [done |]. subst w3. split_and!; try done.
    cbn [flat_map] in Hm3. unfold file_mem at 1 in Hm3. by rewrite Et, Ed in Hm3.
  - assert (Hm3' : mem_ok w3 ((a, e_size e) :: (nd, newsize) :: flat_map file_mem rest ++ flat_map pipe_mem (g_pipes w)) o).
    { eapply mem_ok_proper; [| reflexivity | exact Hm3]. cbn [flat_map]. unfold file_mem at 2. rewrite Et, Ed. simpl.
      apply perm_swap. }
    pose proof (mem_fresh w3 a (e_size e) ((nd, newsize) :: flat_map file_mem rest ++ flat_map pipe_mem (g_pipes w)) o (proj1 Hm3')) as Hf. apply Forall_cons in Hf as [Hf _]. simpl in Hf.
    destruct (kfree_buf_spec w3 _ o a (e_size e) Hm3') as (w4 & -> & Hm4 & (h4 & ->)). cbn [or_fault].
    eexists _, nd. split; [lia |]. split; [done |]. split; [by subst w3 |]. split; [by subst w3 |]. split; [by subst w3 |].
    split; [exact Hm4 |]. cbn [k_bufs set_mem]. by rewrite lookup_delete_ne.
Qed.

(** Storing into the buffer of a file and moving the offset past the bytes. *)
Lemma fd_store_spec w1 w2 ti fd e1 a sz buf off o :
  fd_inv w1 o -> entry w1 ti fd = Some e1 -> e_type e1 = FD_TYPE_FILE ->
  tabs w2 = tabs w1 -> g_pipes w2 = g_pipes w1 -> disk w2 = disk w1 ->
  (forall rest, inv_of w1 (e1 :: rest) o -> concat (tabs w1) ≡ₚ e1 :: rest ->
    mem_ok w2 ((a, sz) :: flat_map file_mem rest ++ flat_map pipe_mem (g_pipes w1)) o) ->
  0 <= off -> off + Z.of_nat (length buf) <= sz -> sz <= MAX_FD_FILE -> e_name e1 <> [] ->
  exists w3 b, k_bufs w2 !! a = Some b /\ buf_write w2 (PBuf a) off buf = Some w3 /\
    let e' := mk_fd FD_TYPE_FILE true true (e_append e1) sz (off + Z.of_nat (length buf)) (PBuf a) (e_name e1) in
    fd_inv (set_entry w3 ti fd e') o /\ disk (set_entry w3 ti fd e') = disk w1
    /\ entry (set_entry w3 ti fd e') ti fd = Some e'
    /\ k_bufs (set_entry w3 ti fd e') !! a = Some (splice b off buf).
Proof.
  intros Hinv He Et T2 G2 D2 Hm Hoff Hn Hsz Hnm.
  destruct (fd_inv_entry w1 o ti fd e1 Hinv He) as (rest & Hpm & Hi & Hback). specialize (Hm rest Hi Hpm).
  destruct (buf_write_spec w2 _ o a sz off buf Hm Hoff Hn) as (b & w3 & Eb & Lb & Ew & Hm3 & Ew3).
  exists w3, b. split; [done |]. split; [done |]. cbv zeta. set (e' := mk_fd _ _ _ _ _ _ _ _).
  assert (T3 : tabs w3 = tabs w1) by (subst w3; exact T2).
  destruct (set_entry_mem w3 ti fd e') as (_ & Sb & _ & Sd). split; [| split; [| split]].
  - apply Hback; [done |].
    eapply inv_swap; [exact Hi | unfold no_pipe; by rewrite Et | done | subst w3; exact G2 | | exact Hm3].
    unfold entry_ok, e'. cbn [e_type e_offset e_size e_name e_data]. split_and!; try lia; done.
  - rewrite Sd. by subst w3.
  - assert (He3 : entry w3 ti fd = Some e1) by (unfold entry in He |- *; by rewrite T3).
    by apply (entry_set w3 ti fd e1).
  - rewrite Sb. subst w3. cbn [k_bufs set_mem]. apply lookup_insert_eq.
Qed.

Definition write_off (e : fd_entry_t) : Z := if e_append e then e_size e else e_offset e.

(** [fd_write] on an open file: the bytes go to the offset (the end for
    O_APPEND), or nothing but the O_APPEND offset changes. *)
Lemma fd_write_file_spec w ti fd e buf o : fd_inv w o -> 0 <= fd < MAX_OPEN_FDS -> entry w ti fd = Some e ->
  e_type e = FD_TYPE_FILE -> ~ hollow e -> e_writable e = true -> 0 < Z.of_nat (length buf) < 2 ^ 31 ->
  let off := write_off e in let n := Z.of_nat (length buf) in
  (exists w' d, fd_write w ti fd buf = Ret w' n /\ fd_inv w' o /\ disk w' = disk w
     /\ entry w' ti fd = Some (mk_fd FD_TYPE_FILE true true (e_append e) (Z.max (e_size e) (off + n)) (off + n) d (e_name e))
     /\ default [] (match d with PBuf a => k_bufs w' !! a | _ => None end) = overwrite (content w e) off buf)
  \/ (fd_write w ti fd buf = Ret (set_entry w ti fd (with_offset e off)) (-1) /\ e_size e < off + n
      /\ fd_inv (set_entry w ti fd (with_offset e off)) o
      /\ (MAX_FD_FILE < off + n \/ snd (alloc (k_heap w) (off + n)) = 0)).
Proof.
  intros Hinv Hfd He Et Hh Hwr Hlen off n.
  destruct (fd_inv_entry w o ti fd e Hinv He) as (rest & _ & Hi & _).
  pose proof (io_ent _ _ _ Hi) as Hok. apply Forall_cons in Hok as [Hok _]. pose proof Hok as Hok'.
  unfold entry_ok in Hok. rewrite Et in Hok. destruct Hok as (Hoff & Hsz & Hnm & Hd).
  assert (Hofr : 0 <= off <= MAX_FD_FILE) by (unfold off, write_off; destruct (e_append e); lia).
  unfold MAX_FD_FILE in Hoff, Hsz, Hofr.
  pose proof (fd_inv_offset w ti fd e o off Hinv He Et Hofr) as Hinv1.
  set (e1 := with_offset e off) in *. set (w1 := set_entry w ti fd e1) in *.
  pose proof (entry_set w ti fd e e1 He) as He1. fold w1 in He1.
  destruct (fd_inv_entry w1 o ti fd e1 Hinv1 He1) as (rest1 & Hpm1 & Hi1 & _).
  assert (Hh1 : ~ hollow e1) by (intros (A & B & C); by destruct Hh).
  pose proof (inv_content w1 e1 rest1 o Hi1 Et Hh1) as Hcl. change (e_size e1) with (e_size e) in Hcl.
  assert (Hc1 : content w1 e1 = content w e) by (unfold w1; rewrite content_set; done).
  assert (Ew : fd_write w ti fd buf =
    (if e_size e <? off +! n then
       match fd_grow w1 e1 (off +! n) with
       | Ret w2 (e2, true) => or_fault (buf_write w2 (e_data e2) (e_offset e2) buf) (fun w3 =>
           Ret (set_entry w3 ti fd (mk_fd (e_type e2) (e_writable e2) true (e_append e2) (e_size e2) (e_offset e2 +! n) (e_data e2) (e_name e2))) n)
       | Ret w2 (_, false) => Ret w2 (-1)
       | Sleep w2 => Sleep w2
       | Fault => Fault
       end
     else or_fault (buf_write w1 (e_data e1) (e_offset e1) buf) (fun w3 =>
           Ret (set_entry w3 ti fd (mk_fd (e_type e1) (e_writable e1) true (e_append e1) (e_size e1) (e_offset e1 +! n) (e_data e1) (e_name e1))) n))).
  { unfold fd_write. fold n. destruct (Z.ltb_spec fd 0); [lia |]. destruct (Z.leb_spec MAX_OPEN_FDS fd); [lia |]. cbn [orb].
    rewrite He, Et, Hwr. cbn [negb]. destruct (Z.eqb_spec n 0); [unfold n in *; lia |]. cbv zeta.
    assert (Ea : (if e_append e then mk_fd FD_TYPE_FILE true (e_dirty e) (e_append e) (e_size e) (e_size e) (e_data e) (e_name e) else e) = e1).
    { unfold e1, with_offset, off, write_off. rewrite Et, Hwr. destruct (e_append e) eqn:Eap; [done |].
      rewrite <- Et, <- Hwr, <- Eap. by destruct e. }
    rewrite Ea. reflexivity. }
  assert (Hn31 : off +! n = off + n) by (apply u32_small; unfold is_u32; lia).
  rewrite Ew, Hn31. destruct (Z.ltb_spec (e_size e) (off + n)) as [Hg | Hg].
  - destruct (fd_grow_spec w1 e1 rest1 o (off + n) Hi1 Et Hh1 ltac:(change (e_size e1) with (e_size e); lia))
      as [[E1 E2] | (w2 & nd & Hmax & E1 & T2 & G2 & D2 & Hm2 & Eb)].
    + right. rewrite E1. split; [done |]. split; [done |]. split; [done |].
      destruct (set_entry_mem w ti fd e1) as (Eh & _). fold w1 in Eh. by rewrite Eh in E2.
    + left. rewrite E1. cbn [e_data e_offset e_type e_writable e_append e_size e_name]. change (e_offset e1) with off.
      destruct (fd_store_spec w1 w2 ti fd e1 nd (off + n) buf off o Hinv1 He1 Et T2 G2 D2) as (w3 & b & Eb' & -> & H1 & H2 & H3 & H4);
        [ | lia | lia | done | done |].
      { intros rest' _ Hp'. eapply mem_ok_proper; [| reflexivity | exact Hm2]. constructor. apply Permutation_app_tail.
        apply flat_map_perm, (Permutation_cons_inv (a := e1)). by rewrite <- Hpm1, <- Hp'. }
      fold n in H1, H2, H3, H4. cbn [or_fault]. rewrite Hn31. eexists _, (PBuf nd). split; [reflexivity |].
      rewrite Eb in Eb'. injection Eb' as <-. rewrite Z.max_r by lia.
      change (e_type e1) with (e_type e). change (e_writable e1) with (e_writable e). rewrite Et, Hwr.
      split; [exact H1 |]. split; [rewrite H2; apply set_entry_mem |]. split; [exact H3 |].
      rewrite H4. cbn [default]. unfold overwrite. rewrite <- Hc1, Hcl. reflexivity.
  - left. change (e_data e1) with (e_data e). change (e_offset e1) with off.
    destruct (e_data e) as [| a | j] eqn:Ed; [| | done].
    { exfalso. unfold content in Hcl. change (e_data e1) with (e_data e) in Hcl. rewrite Ed in Hcl. simpl in Hcl. unfold n in *. lia. }
    destruct (fd_store_spec w1 w1 ti fd e1 a (e_size e) buf off o Hinv1 He1 Et eq_refl eq_refl eq_refl) as (w3 & b & Eb & -> & H1 & H2 & H3 & H4);
      [ | lia | unfold n in *; lia | unfold MAX_FD_FILE; lia | done |].
    { intros rest' Hi' _. by apply (inv_file w1 e1 rest' o a Hi' Et). }
    fold n in H1, H2, H3, H4. cbn [or_fault]. rewrite Hn31. eexists _, (PBuf a). split; [reflexivity |]. rewrite Z.max_l by lia.
    change (e_type e1) with (e_type e). change (e_writable e1) with (e_writable e). change (e_size e1) with (e_size e). rewrite Et, Hwr.
    split; [exact H1 |]. split; [rewrite H2; apply set_entry_mem |]. split; [exact H3 |].
    rewrite H4. cbn [default]. unfold overwrite. rewrite <- Hc1.
    replace (Z.to_nat _) with 0%nat by (rewrite Hcl; unfold n in *; lia). simpl. rewrite app_nil_r.
    unfold content. change (e_data e1) with (e_data e). by rewrite Ed, Eb.
Qed.

(** A write into the ring of a live pipe. *)
Lemma fd_write_pipe_inv w o i b p' d : fd_inv w o -> 0 <= i < PIPE_MAX -> p_used (pipe w i) = true ->
  k_bufs w !! p_buf (pipe w i) = Some b -> Z.of_nat (length b) = PIPE_BUF ->
  p_used p' = true -> p_buf p' = p_buf (pipe w i) ->
  pipe_ok p' (refs (concat (tabs w)) i false) (refs (concat (tabs w)) i true) ->
  forall w', tabs w' = tabs w -> k_heap w' = k_heap w ->
    k_bufs w' = <[p_buf (pipe w i) := ring_write b PIPE_BUF (p_head (pipe w i)) d]> (k_bufs w) ->
    g_pipes w' = aset (g_pipes w) i p' -> fd_inv w' o.
Proof.
  intros Hinv Hir Hu Hb Lb Hu' Hbuf Hp w' T' H' B' G'.
  eapply (fd_inv_pipe w w' o i p'); [done | done | done | done | | done].
  set (w1 := set_mem w (k_heap w) (<[p_buf (pipe w i) := ring_write b PIPE_BUF (p_head (pipe w i)) d]> (k_bufs w))).
  assert (Hm1 : mem_ok w1 (flat_map file_mem (concat (tabs w)) ++ flat_map pipe_mem (g_pipes w)) o).
  { destruct (io_mem _ _ _ (proj2 Hinv)) as [M1 M2]. split; [exact M1 |].
    rewrite Forall_forall in *. intros x Hx. destruct (M2 x Hx) as (c & Ec & Lc).
    destruct (Z.eq_dec x.1 (p_buf (pipe w i))) as [E | E].
    - exists (ring_write b PIPE_BUF (p_head (pipe w i)) d). rewrite E. cbn [w1 k_bufs set_mem]. rewrite lookup_insert_eq.
      split; [done |]. rewrite length_ring_write. rewrite E, Hb in Ec. by injection Ec as <-.
    - exists c. split; [| done]. cbn [w1 k_bufs set_mem]. by rewrite lookup_insert_ne. }
  eapply (mem_keep_pipe w1); [exact Hm1 | done | apply (io_np _ _ _ (proj2 Hinv)) | done | done | | done].
  change (pipe w1 i) with (pipe w i). congruence.
Qed.

Lemma fd_write_safe w ti fd buf o : fd_inv w o -> (forall e, entry w ti fd = Some e -> ~ hollow e) ->
  Z.of_nat (length buf) < 2 ^ 31 -> post (fd_write w ti fd buf) (fun w' => fd_inv w' o).
Proof.
  intros Hinv Hh Hn. destruct ((fd <? 0) || (MAX_OPEN_FDS <=? fd)) eqn:Eb; [unfold fd_write; by rewrite Eb |].
  btrue. destruct (entry w ti fd) as [e |] eqn:He.
  2:{ unfold fd_write. rewrite He. by destruct ((fd <? 0) || _). }
  specialize (Hh e eq_refl). destruct (e_type e) eqn:Et.
  1,2: unfold fd_write; rewrite He, Et; by destruct ((fd <? 0) || _).
  1,2: unfold fd_write; rewrite He, Et; destruct ((fd <? 0) || _); [done | by apply (fd_inv_ext w)].
  - (* file *)
    destruct (e_writable e) eqn:Ew.
    2:{ unfold fd_write. rewrite He, Et, Ew. by destruct ((fd <? 0) || _). }
    destruct (Z.eq_dec (Z.of_nat (length buf)) 0) as [Hz | Hz].
    { unfold fd_write. rewrite He, Et, Ew, Hz. by destruct ((fd <? 0) || _). }
    destruct (fd_write_file_spec w ti fd e buf o Hinv ltac:(lia) He Et Hh Ew ltac:(lia))
      as [(w' & d & -> & Hi & _) | (-> & _ & Hi & _)]; done.
  - (* pipe *)
    unfold fd_write. rewrite He, Et. destruct ((fd <? 0) || _); [done |].
    destruct (fd_inv_end w o ti fd e Hinv He Et) as (i & b & -> & Hir & Hu & Hp & Hb & Lb).
    destruct (negb (e_writable e)); [done |]. destruct (Z.eqb_spec (Z.of_nat (length buf)) 0); [done |]. cbv zeta.
    change (pipe (cli w) i) with (pipe w i). destruct (ref_r (pipe w i) =? 0); [by apply (fd_inv_ext w) |].
    destruct (Z.ltb_spec (p_count (pipe w i)) PIPE_BUF) as [Hlt |]; [| by apply (fd_inv_ext w)].
    change (k_bufs (cli w)) with (k_bufs w). rewrite Hb. cbn [or_fault post].
    set (k := if _ <? PIPE_BUF - _ then _ else _).
    destruct (po_live _ _ _ Hp Hu) as (T1 & T2 & T3 & T4).
    assert (Hk : 0 <= k <= PIPE_BUF - p_count (pipe w i)) by (unfold k; destruct (Z.ltb_spec (Z.of_nat (length buf)) (PIPE_BUF - p_count (pipe w i))); lia).
    set (p' := mk_pipe _ _ _ _ _ _ _).
    eapply (fd_write_pipe_inv w o i b p' _ Hinv Hir Hu Hb Lb); [done | done | | done | done | reflexivity | reflexivity].
    destruct Hp as [P1 P2 P3 P4 P5]. constructor; try done; [| cbn [p' p_used]; congruence].
    intros _. cbn [p' p_tail p_count p_head p_buf]. split; [done |]. split; [lia |]. split; [| done].
    rewrite T3, Zplus_mod_idemp_l. f_equal. lia.
Qed.

(** *** Duplicating a table *)

Lemma inv_add w e E o : inv_of w E o -> no_pipe e -> file_mem e = [] -> entry_ok e -> inv_of w (e :: E) o.
Proof.
  intros [H1 H2 H3 H4] Hn Hf He. constructor; [done | simpl; by rewrite Hf | by constructor |].
  intros i Hi. rewrite !refs_cons, !refers_no_pipe by done. by apply H4.
Qed.

Lemma inv_drop w e E o : inv_of w (e :: E) o -> no_pipe e -> file_mem e = [] -> inv_of w E o.
Proof.
  intros [H1 H2 H3 H4] Hn Hf. apply Forall_cons in H3 as [_ H3]. constructor; [done | simpl in H2; by rewrite Hf in H2 | done |].
  intros i Hi. specialize (H4 i Hi). by rewrite !refs_cons, !refers_no_pipe in H4 by done.
Qed.

(** A fresh entry: what [fd_table_init] puts into a table. *)
Definition blank (e : fd_entry_t) : Prop := no_pipe e /\ e_type e <> FD_TYPE_FILE /\ e_data e = PNull.

Lemma blank_facts e : blank e -> no_pipe e /\ file_mem e = [] /\ entry_ok e.
Proof.
  intros (H1 & H2 & H3). split; [done |]. unfold file_mem, entry_ok, no_pipe in *. destruct (e_type e); try done.
Qed.

Lemma inv_drop_blank w t E o : Forall blank t -> inv_of w (t ++ E) o -> inv_of w E o.
Proof.
  induction 1 as [| e t He _ IH]; simpl; intros Hi; [done |].
  destruct (blank_facts e He) as (A & B & _). by apply IH, (inv_drop w e).
Qed.

Lemma refs_le es i wr : refs es i wr <= Z.of_nat (length es).
Proof. induction es as [| e es IH]; [done |]. rewrite refs_cons. cbn [length]. destruct (refers i wr e); cbn [b2z]; lia. Qed.

Lemma dup_entry_spec w s d E o : inv_of w E o -> s ∈ E -> ~ hollow s -> blank d ->
  Z.of_nat (length E) < 0xFFFF ->
  exists w' e, dup_entry w s d = Ret w' e /\ inv_of w' (e :: E) o /\ tabs w' = tabs w.
Proof.
  intros Hi Hs Hh Hb Hl. destruct (list_elem_of_split _ _ Hs) as (E1 & E2 & ->).
  assert (Hp : s :: E1 ++ E2 ≡ₚ E1 ++ s :: E2) by apply Permutation_middle.
  assert (Hi1 : inv_of w (s :: E1 ++ E2) o) by (eapply inv_perm; [by symmetry | done]).
  pose proof (io_ent _ _ _ Hi1) as Hok. apply Forall_cons in Hok as [Hok _].
  unfold dup_entry. destruct (blank_facts d Hb) as (B1 & B2 & B3).
  assert (Hstd : no_pipe s -> e_type s <> FD_TYPE_FILE -> exists w' e, Ret (A:=fd_entry_t) w s = Ret w' e /\
            inv_of w' (e :: E1 ++ s :: E2) o /\ tabs w' = tabs w).
  { intros N1 N2. exists w, s. split; [done |]. split; [| done].
    apply inv_add; [done | done | unfold file_mem; destruct (e_type s) eqn:E; congruence | done]. }
  destruct (e_type s) eqn:Et; try (apply Hstd; [unfold no_pipe; by rewrite Et | done]).
  - exists w, d. split; [done |]. split; [by apply inv_add | done].
  - (* a file *)
    unfold entry_ok in Hok. rewrite Et in Hok. destruct Hok as (Ho & Hsz & Hnm & Hd). unfold MAX_FD_FILE in *.
    assert (Hnull : exists w' e, Ret (A:=fd_entry_t) w (mk_fd FD_TYPE_FILE (e_writable s) (e_dirty s) (e_append s) (e_size s) (e_offset s) PNull (e_name s)) = Ret w' e
       /\ inv_of w' (e :: E1 ++ s :: E2) o /\ tabs w' = tabs w).
    { eexists _, _. split; [done |]. split; [| done]. apply inv_add; [done | done | done |].
      unfold entry_ok. cbn [e_type e_offset e_size e_name e_data]. unfold MAX_FD_FILE. split_and!; (lia || done). }
    cbv zeta. destruct (negb (is_null (e_data s)) && (0 <? e_size s)) eqn:Ec; [| exact Hnull]. btrue.
    destruct (e_data s) as [| a | j] eqn:Ed; [done | | done].
    pose proof (kalloc_spec w _ _ (e_size s) (io_mem _ _ _ Hi) ltac:(unfold is_u32; lia)) as Hk.
    destruct (kalloc w (e_size s)) as [w1 nd] eqn:Ek.
    destruct Hk as [[-> ->] | (Hn0 & _ & Hm1 & (h & Ew1))]; [exact Hnull |]. destruct (Z.eqb_spec nd 0); [done |].
    assert (Hm1' : mem_ok w1 ((a, e_size s) :: (nd, e_size s) :: flat_map file_mem (E1 ++ E2) ++ flat_map pipe_mem (g_pipes w)) o).
    { eapply mem_ok_proper; [| reflexivity | exact Hm1]. rewrite <- (flat_map_perm file_mem _ _ Hp). cbn [flat_map].
      assert (Hf : file_mem s = [(a, e_size s)]) by (unfold file_mem; by rewrite Et, Ed). rewrite Hf. apply perm_swap. }
    destruct (buf_read_spec w1 _ o a (e_size s) 0 (e_size s) Hm1' ltac:(lia) ltac:(lia) ltac:(lia)) as (c & _ & Lc & ->).
    cbn [or_fault].
    destruct (buf_write_spec w1 _ o nd (e_size s) 0 (take (Z.to_nat (e_size s)) (drop (Z.to_nat 0) c)) Hm1 ltac:(lia)
      ltac:(rewrite length_take; lia)) as (b & w2 & _ & _ & -> & Hm2 & Ew2).
    cbn [or_fault]. eexists _, _. split; [reflexivity |]. split; [| subst w2 w1; done].
    assert (Hi2 : inv_of w (d :: E1 ++ s :: E2) o) by (by apply inv_add).
    eapply inv_swap; [exact Hi2 | done | done | subst w2 w1; done | unfold entry_ok; cbn; unfold MAX_FD_FILE; split_and!; (lia || done) | exact Hm2].
  - (* a pipe end *)
    destruct (inv_pipe w s _ o Hi1 Et) as (i & Ed & Hir & Hu & Hrf & Hfm). rewrite Ed. cbv zeta.
    change (pipe (cli w) i) with (pipe w i). set (p' := if e_writable s then _ else _).
    eexists _, _. split; [reflexivity |]. split; [| done].
    pose proof (io_pipes _ _ _ Hi i Hir) as [P1 P2 P3 P4 P5]. pose proof (refs_le (E1 ++ s :: E2) i true). pose proof (refs_le (E1 ++ s :: E2) i false).
    assert (Hp' : p_used p' = true /\ p_buf p' = p_buf (pipe w i) /\ ref_r p' = b2z (refers i false s) + refs (E1 ++ s :: E2) i false
      /\ ref_w p' = b2z (refers i true s) + refs (E1 ++ s :: E2) i true
      /\ p_tail p' = p_tail (pipe w i) /\ p_count p' = p_count (pipe w i) /\ p_head p' = p_head (pipe w i)).
    { rewrite !Hrf. unfold p'. destruct (e_writable s); cbn [Bool.eqb b2z p_used p_buf ref_r ref_w p_tail p_count p_head]; rewrite P1, P2.
      - destruct (Z.ltb_spec (refs (E1 ++ s :: E2) i true) 0xFFFF); split_and!; try done; lia.
      - destruct (Z.ltb_spec (refs (E1 ++ s :: E2) i false) 0xFFFF); split_and!; try done; lia. }
    destruct Hp' as (Q1 & Q2 & Q3 & Q4 & Q5 & Q6 & Q7).
    assert (Hi2 : inv_of w (d :: E1 ++ s :: E2) o) by (by apply inv_add).
    pose proof (io_ent _ _ _ Hi) as Hent.
    constructor.
    + cbn [g_pipes set_pipe set_pipes cli set_sched]. rewrite length_aset. apply (io_np _ _ _ Hi).
    + change (flat_map file_mem (s :: E1 ++ s :: E2)) with (file_mem s ++ flat_map file_mem (E1 ++ s :: E2)). rewrite Hfm. simpl app.
      eapply (mem_keep_pipe w); [apply (io_mem _ _ _ Hi) | done | apply (io_np _ _ _ Hi) | done | done | congruence | done].
    + constructor; [| done]. rewrite Forall_forall in Hent. by apply Hent.
    + intros j Hj. change (pipe (set_pipe (cli w) i p') j) with (pipe (set_pipe w i p') j).
      rewrite pipe_set by (done || apply (io_np _ _ _ Hi)). rewrite !refs_cons.
      destruct (Z.eqb_spec i j) as [<- | Hne].
      * destruct (P4 Hu) as (T1 & T2 & T3 & T4). constructor; [done | done | | | congruence].
        -- rewrite Q1. symmetry. apply Z.ltb_lt. rewrite Hu in P3. symmetry in P3. btrue.
           destruct (refers i false s), (refers i true s); cbn [b2z]; lia.
        -- intros _. rewrite Q2, Q5, Q6, Q7. done.
      * assert (Hr : forall wr, refers j wr s = false).
        { intros wr. unfold refers. rewrite Et, Ed. by destruct (Z.eqb_spec i j). }
        rewrite !Hr. by apply (io_pipes _ _ _ Hi).
Qed.

Lemma dup_from_spec o src : forall dst w E, inv_of w E o -> Forall (fun s => s ∈ E /\ ~ hollow s) src ->
  Forall blank dst -> length dst = length src -> Z.of_nat (length E) + Z.of_nat (length src) < 0xFFFF ->
  exists w' es, dup_from w src dst = Ret w' es /\ inv_of w' (es ++ E) o /\ tabs w' = tabs w /\ length es = length src.
Proof.
  induction src as [| s src IH]; intros dst w E Hi Hs Hd Hl Hb; destruct dst as [| d dst]; try done.
  - by exists w, [].
  - cbn [length] in *. apply Forall_cons in Hs as [[Hin Hh] Hs]. apply Forall_cons in Hd as [Hbl Hd].
    destruct (dup_entry_spec w s d E o Hi Hin Hh Hbl ltac:(lia)) as (w1 & e & E1 & Hi1 & T1).
    destruct (IH dst w1 (e :: E) Hi1) as (w2 & es & E2 & Hi2 & T2 & L2); [| done | lia | cbn [length]; lia |].
    { eapply Forall_impl; [exact Hs |]. intros x [Hx ?]. split; [by right | done]. }
    exists w2, (e :: es). cbn [dup_from]. rewrite E1, E2. split; [done |]. split; [| split; [congruence | cbn [length]; lia]].
    eapply inv_perm; [| exact Hi2]. by rewrite <- Permutation_middle.
Qed.

Lemma fd_inv_count w o : fd_inv w o -> length (concat (tabs w)) = 128%nat.
Proof.
  intros [[Hl Hs] _]. destruct (tabs w) as [| t0 [| t1 [| t2 [| t3 [| t4 [| t5 [| t6 [| t7 [| ? ?]]]]]]]]]; try done.
  repeat (apply Forall_cons in Hs as [? Hs]). cbn [concat]. rewrite !length_app. simpl. lia.
Qed.

(** The child's table must be one that owns nothing: it is overwritten. *)
Lemma fd_table_dup_safe w td ts o : fd_inv w o -> 
  (forall t, tabs w !! Z.to_nat td = Some t -> Forall blank t) ->
  (forall t, tabs w !! Z.to_nat ts = Some t -> Forall (fun e => ~ hollow e) t) ->
  post (fd_table_dup w td ts) (fun w' => fd_inv w' o).
Proof.
  intros Hinv Hd Hs. unfold fd_table_dup. destruct (tabs w !! Z.to_nat td) as [t |] eqn:Et; [| done].
  destruct (tabs w !! Z.to_nat ts) as [src |] eqn:Es; [| done]. specialize (Hd _ eq_refl). specialize (Hs _ eq_refl).
  destruct (fd_inv_table w o td t Hinv Et) as (rest & Hp & Hi & Lt & Hback).
  assert (Hlen : length (t ++ rest) = 128%nat) by (by rewrite <- Hp, (fd_inv_count w o)).
  assert (Hls : length src = 16%nat) by (destruct Hinv as [[_ Hs16] _]; rewrite Forall_lookup in Hs16; by eapply Hs16).
  destruct (dup_from_spec o src fd_table_init w (t ++ rest) Hi) as (w' & es & -> & Hi' & Ht' & Les).
  - apply Forall_forall. intros e He. split; [| by rewrite Forall_forall in Hs; apply Hs].
    rewrite <- Hp. apply list_elem_of_In, in_concat. exists src. split; apply list_elem_of_In; [by eapply list_elem_of_lookup_2 | done].
  - repeat constructor; done.
  - done.
  - lia.
  - cbn [post]. apply Hback; [done | congruence |]. apply (inv_drop_blank w' t); [done |].
    eapply inv_perm; [| exact Hi']. rewrite !app_assoc. by rewrite (Permutation_app_comm t).
Qed.

(** ** All operations *)

Inductive fd_op :=
  | OpOpen (ti : Z) (nm : list Z) (flags : Z)
  | OpClose (ti fd : Z)
  | OpPipe (ti : Z)
  | OpRead (ti fd n : Z) (polled : nat -> list Z)
  | OpWrite (ti fd : Z) (buf : list Z)
  | OpLseek (ti fd offset whence : Z)
  | OpDup (td ts : Z).

Definition forget {A} (r : outcome A) : outcome unit :=
  match r with Ret w _ => Ret w tt | Sleep w => Sleep w | Fault => Fault end.

Definition run_op (w : kern) (op : fd_op) : outcome unit :=
  match op with
  | OpOpen ti nm flags => forget (fd_open w ti nm flags)
  | OpClose ti fd => forget (fd_close w ti fd)
  | OpPipe ti => forget (fd_pipe w ti)
  | OpRead ti fd n polled => forget (fd_read w ti fd n polled)
  | OpWrite ti fd buf => forget (fd_write w ti fd buf)
  | OpLseek ti fd offset whence => Ret (fst (fd_lseek w ti fd offset whence)) tt
  | OpDup td ts => forget (fd_table_dup w td ts)
  end.

(** What a caller owes: no use of an entry whose buffer [fork] failed to copy,
    machine-sized buffers, and a child table that owns nothing. *)
Definition op_ok (w : kern) (op : fd_op) : Prop :=
  let sound ti fd := forall e, entry w ti fd = Some e -> ~ hollow e in
  match op with
  | OpClose ti fd => sound ti fd
  | OpRead ti fd n _ => sound ti fd /\ 0 <= n
  | OpWrite ti fd buf => sound ti fd /\ Z.of_nat (length buf) < 2 ^ 31
  | OpDup td ts => (forall t, tabs w !! Z.to_nat td = Some t -> Forall blank t)
      /\ (forall t, tabs w !! Z.to_nat ts = Some t -> Forall (fun e => ~ hollow e) t)
  | _ => True
  end.

Lemma post_forget {A} (r : outcome A) P : post r P -> post (forget r) P.
Proof. by destruct r. Qed.

End Fd.
Arguments Ret {H F A}.
Arguments Sleep {H F A}.
Arguments Fault {H F A}.
