(* ===== verification/FdProps.v ===== *)
(** * FdProps: what the descriptor operations compute

    The properties of [Fd.v] beyond its invariant: bytes written to a file are
    the bytes read back, also through [close] and a new [open]; a pipe is a
    first-in first-out queue of at most [PIPE_BUF] bytes. *)

From S2P Require Import Prelude Interfaces Kmalloc HeapAlloc Sched Keyboard Fd.

Section FdProps.
Context {H F : Type} `{HA : Allocator H} `{FS : FileSys F}.
Variable pipe_wq : Z -> Z.
Variable kb_wq : Z.

Notation kern := (@kern H F).
Notation fd_read := (fd_read pipe_wq kb_wq).
Notation fd_write := (fd_write pipe_wq).
Notation fd_close := (fd_close pipe_wq).
Implicit Types w : kern.

(** ** Files *)

Lemma take_drop_overwrite c off d : 0 <= off ->
  take (length d) (drop (Z.to_nat off) (overwrite c off d)) = d.
Proof.
  intros Hoff. unfold overwrite, splice.
  set (s := c ++ _). assert (Hs : length (take (Z.to_nat off) s) = Z.to_nat off).
  { rewrite length_take. unfold s. rewrite length_app, length_replicate. lia. }
  rewrite <- Hs at 1. rewrite drop_app_length, take_app_length. done.
Qed.


Lemma length_overwrite c off d : 0 <= off ->
  Z.of_nat (length (overwrite c off d)) = Z.max (Z.of_nat (length c)) (off + Z.of_nat (length d)).
Proof. intros. unfold overwrite, splice. rewrite !length_app, length_take, length_drop, length_app, length_replicate. lia. Qed.

(** Reading at the offset of an entry with known content. *)
Lemma fd_read_file w ti fd e n polled o : fd_inv w o -> 0 <= fd < MAX_OPEN_FDS -> entry w ti fd = Some e ->
  e_type e = FD_TYPE_FILE -> ~ hollow e -> 0 <= n -> e_offset e + n <= e_size e -> 0 < n ->
  fd_read w ti fd n polled = Ret (set_entry w ti fd (with_offset e (e_offset e + n)))
    (n, take (Z.to_nat n) (drop (Z.to_nat (e_offset e)) (content w e))).
Proof.
  intros Hinv Hfd He Et Hh Hn Hle Hp. unfold Fd.fd_read, MAX_OPEN_FDS in *.
  destruct (Z.ltb_spec fd 0), (Z.leb_spec 16 fd); try lia. cbn [orb]. rewrite He, Et.
  destruct (fd_inv_entry w o ti fd e Hinv He) as (rest & _ & Hi & _).
  pose proof (io_ent _ _ _ Hi) as Hok. apply Forall_cons in Hok as [Hok _]. unfold entry_ok in Hok. rewrite Et in Hok.
  destruct (Z.leb_spec (e_size e) (e_offset e)); [lia |]. cbv zeta.
  destruct (Z.ltb_spec n (e_size e - e_offset e)) as [Hlt | Hge].
  - rewrite (content_read w e rest o) by (done || lia). cbn [or_fault]. unfold with_offset. by rewrite Et.
  - replace (e_size e - e_offset e) with n by lia.
    rewrite (content_read w e rest o) by (done || lia). cbn [or_fault]. unfold with_offset. by rewrite Et.
Qed.

Lemma fd_lseek_set w ti fd e off : 0 <= fd < MAX_OPEN_FDS -> entry w ti fd = Some e ->
  e_type e = FD_TYPE_FILE -> 0 <= off <= MAX_FD_FILE -> fd_lseek w ti fd off 0 = (set_entry w ti fd (with_offset e off), off).
Proof.
  intros Hfd He Et Hoff. unfold fd_lseek, MAX_OPEN_FDS, MAX_FD_FILE in *.
  destruct (Z.ltb_spec fd 0), (Z.leb_spec 16 fd); try lia. cbn [orb]. rewrite He, Et.
  change (negb (type_is FD_TYPE_FILE FD_TYPE_FILE)) with false. cbv iota. rewrite Z.eqb_refl. cbv zeta.
  rewrite Z.add_0_l, (s32_small off) by lia.
  destruct (Z.ltb_spec off 0); [lia |]. destruct (Z.ltb_spec 65536 off); [lia |]. unfold with_offset. by rewrite Et.
Qed.

(** A write to an open file either stores the whole buffer at the offset (at
    the end of the file with O_APPEND), zero-filling a gap and extending the
    file as needed, so that seeking back and reading returns the same bytes; or
    it fails with -1, and then only because the file would exceed
    [MAX_FD_FILE] or the heap has no room, with the content unchanged. *)
Theorem fd_write_read_back w ti fd e buf polled o
    (Hinv : fd_inv w o) (Hfd : 0 <= fd < MAX_OPEN_FDS) (He : entry w ti fd = Some e)
    (Ht : e_type e = FD_TYPE_FILE) (Hh : ~ hollow e) (Hw : e_writable e = true)
    (Hb : 0 < Z.of_nat (length buf) < 2 ^ 31) :
  let off := write_off e in let n := Z.of_nat (length buf) in
  (exists w' e' w'', fd_write w ti fd buf = Ret w' n /\ fd_inv w' o /\ disk w' = disk w
     /\ entry w' ti fd = Some e' /\ e_dirty e' = true /\ e_offset e' = off + n
     /\ e_size e' = Z.max (e_size e) (off + n) /\ content w' e' = overwrite (content w e) off buf
     /\ fd_read (fst (fd_lseek w' ti fd off 0)) ti fd n polled = Ret w'' (n, buf))
  \/ (exists w', fd_write w ti fd buf = Ret w' (-1) /\ fd_inv w' o
     /\ entry w' ti fd = Some (with_offset e off) /\ content w' (with_offset e off) = content w e
     /\ (MAX_FD_FILE < off + n \/ snd (alloc (k_heap w) (off + n)) = 0)).
Proof.
  intros off n. destruct (fd_inv_entry w o ti fd e Hinv He) as (rest & _ & Hi & _).
  pose proof (io_ent _ _ _ Hi) as Hok. apply Forall_cons in Hok as [Hok _]. unfold entry_ok in Hok. rewrite Ht in Hok.
  assert (Hoff : 0 <= off <= MAX_FD_FILE) by (unfold off, write_off; destruct (e_append e); lia).
  destruct (fd_write_file_spec pipe_wq w ti fd e buf o Hinv Hfd He Ht Hh Hw Hb) as
    [(w' & d & E & Hi' & Ed & He' & Hc) | (E & Hlt & Hi' & Hwhy)].
  - left. fold off n in E, Hi', He', Hc. set (e' := mk_fd _ _ _ _ _ _ _ _) in He'.
    assert (Hc' : content w' e' = overwrite (content w e) off buf) by (rewrite <- Hc; unfold content at 1; cbn [e_data e']; by destruct d).
    destruct (fd_inv_entry w' o ti fd e' Hi' He') as (rest' & _ & Hie & _).
    assert (Hh' : ~ hollow e').
    { intros (_ & E1 & E2). pose proof (length_overwrite (content w e) off buf ltac:(lia)) as Hl.
      rewrite <- Hc' in Hl. unfold content in Hl at 1. rewrite E1 in Hl. fold n in Hl. simpl in Hl. lia. }
    assert (Hn : 0 < n) by (unfold n; lia).
    exists w', e'. eexists. do 7 (split; [done |]). split; [exact Hc' |].
    rewrite (fd_lseek_set w' ti fd e' off Hfd He' eq_refl Hoff). cbn [fst].
    rewrite (fd_read_file _ ti fd (with_offset e' off) n polled o); try done; try (cbn; lia).
    + rewrite content_set. change (content w' (with_offset e' off)) with (content w' e').
      cbn [with_offset e_offset]. rewrite Hc'. unfold n. rewrite Nat2Z.id, take_drop_overwrite by lia. reflexivity.
    + by apply (fd_inv_offset w' ti fd e' o).
    + by apply (entry_set w' ti fd e').
  - right. fold off n in E, Hi', Hwhy. eexists. split_and!; try done; [by apply (entry_set w ti fd e) |].
    by rewrite content_set.
Qed.

Lemma kfree_ptr_disk w p w' : kfree_ptr w p = Some w' -> disk w' = disk w.
Proof.
  destruct p as [| a | i]; cbn [kfree_ptr]; [by intros [= ->] | | done]. unfold kfree_buf.
  destruct (release (k_heap w) a); [| done]. by intros [= <-].
Qed.

Lemma fd_close_stored w ti fd e o w1 : fd_inv w o -> entry w ti fd = Some e -> e_type e = FD_TYPE_FILE ->
  ~ hollow e -> e_dirty e = true -> fd_close w ti fd = Ret w1 0 ->
  fs_lookup (disk w1) (e_name e) = Some (content w e).
Proof.
  intros Hinv He Ht Hh Hd. unfold Fd.fd_close. destruct (_ || _); [done |]. rewrite He, Ht, Hd.
  destruct (fd_inv_entry w o ti fd e Hinv He) as (rest & _ & Hi & _).
  pose proof (io_ent _ _ _ Hi) as Hok. apply Forall_cons in Hok as [Hok _]. unfold entry_ok in Hok. rewrite Ht in Hok.
  destruct Hok as (_ & Hsz & Hnm & _). rewrite bool_decide_eq_false_2 by done. cbn [andb negb].
  rewrite (content_read w e rest o) by (done || lia). pose proof (inv_content w e rest o Hi Ht Hh) as Hl.
  rewrite drop_0, firstn_all2 by lia. cbv zeta.
  set (d0 := fst (fs_delete_file (disk w) (e_name e))).
  destruct (fs_create_file d0 (e_name e) (content w e)) as [d1 rc] eqn:Ec. cbn [or_fault].
  destruct (kfree_ptr (set_disk w d1) (e_data e)) as [w2 |] eqn:Ek; cbn [or_fault]; [| done].
  intros [= <- ->]. destruct (set_entry_mem w2 ti fd (close_entry e)) as (_ & _ & _ & ->).
  rewrite (kfree_ptr_disk _ _ _ Ek). cbn [disk set_disk].
  change d1 with (fst (d1, 0)). rewrite <- Ec. apply fs_create_spec; [| by rewrite Ec].
  destruct (fs_delete_spec (disk w) (e_name e)) as [E | E]; [exact E |].
  exfalso. apply (E (content w e)). fold d0. by rewrite Ec.
Qed.

(** The bytes in the buffer that [fd_open] fills. *)
Lemma fd_open_content w ti nm flags o c w1 r : fd_inv w o -> fs_lookup (disk w) nm = Some c ->
  flag (u32 flags) O_TRUNC = false -> fd_open w ti nm flags = Ret w1 r -> 0 <= r ->
  exists e, entry w1 ti r = Some e /\ e_type e = FD_TYPE_FILE /\ e_size e = Z.of_nat (length c)
    /\ e_offset e = 0 /\ e_dirty e = false /\ content w1 e = c.
Proof.
  intros Hinv Hc Hfl. unfold fd_open. destruct (tabs w !! Z.to_nat ti) as [t |] eqn:Et; [| by intros [= <- <-]].
  destruct (bool_decide (nm = [])); [by intros [= <- <-] |]. cbv zeta. rewrite fs_size_spec, Hc.
  destruct (open_size _ _ _) as [size |] eqn:Eo; [| by intros [= <- <-]].
  assert (size = Z.of_nat (length c)) as ->.
  { revert Eo. unfold open_size. rewrite Hfl. cbn [andb]. repeat (case_match; try done). by intros [= <-]. }
  destruct (find_free t 0) as [slot |] eqn:Ef; [| by intros [= <- <-]].
  destruct (find_free_spec _ _ _ Ef) as (_ & Hs3 & e0 & He0 & _). rewrite Z.sub_0_r in He0.
  assert (Hent : forall w', tabs w' = tabs w -> entry w' ti slot = Some e0) by (intros w' E; unfold entry; by rewrite E, Et).
  destruct (Z.ltb_spec 0 (Z.of_nat (length c))) as [Hp | Hz].
  - unfold kalloc. destruct (alloc (k_heap w) _) as [h d]. destruct (Z.eqb_spec d 0) as [-> | Hd0]; [by intros [= <- <-] |].
    destruct (Z.eqb_spec d 0); [done |]. set (w2 := set_mem w h _). change (disk w2) with (disk w).
    pose proof (fs_read_spec (disk w) nm c Hc) as Hr.
    destruct (fs_read_file (disk w) nm _) as [k content'] eqn:Er.
    destruct (buf_write w2 (PBuf d) 0 content') as [w3 |] eqn:Ew; cbn [or_fault]; [| done].
    destruct Hr as [[= -> ->] | Hr].
    + rewrite Z.eqb_refl. cbn [negb]. intros [= <- <-] _.
      destruct c as [| x c]; [simpl in Hp; lia |]. unfold buf_write in Ew. cbn [w2 k_bufs set_mem] in Ew.
      rewrite lookup_insert_eq in Ew. cbn [mbind option_bind] in Ew.
      destruct (_ <=? Z.of_nat _) in Ew; [injection Ew as <- | done].
      eexists. split; [by apply (entry_set _ ti slot e0), Hent |]. do 4 (split; [done |]).
      rewrite content_set. unfold content. cbn [e_data k_bufs set_mem]. rewrite lookup_insert_eq. cbn [default].
      unfold splice. rewrite take_0, drop_ge, app_nil_r; [done |].
      rewrite stale_length by lia. rewrite Nat2Z.id. apply Nat.le_add_l.
    + cbn [fst] in Hr. subst k. destruct (Z.eqb_spec (-1) (Z.of_nat (length c))); [lia |]. cbn [negb].
      destruct (kfree_buf w3 d); cbn [or_fault]; [by intros [= <- <-] | done].
  - intros [= <- <-] _. eexists. split; [by apply (entry_set _ ti slot e0), Hent |]. do 4 (split; [done |]).
    unfold content. cbn [e_data]. by destruct c.
Qed.

(** A file that is written, closed with result 0 and opened again by the same
    name, from whatever later state still holds that volume, has the content
    it had at the close. *)
Theorem fd_close_open_roundtrip w w1 w2 w3 ti fd e tj flags fd' o o'
    (Hinv : fd_inv w o) (He : entry w ti fd = Some e) (Ht : e_type e = FD_TYPE_FILE) (Hh : ~ hollow e)
    (Hd : e_dirty e = true) (Hc : fd_close w ti fd = Ret w1 0)
    (Hinv2 : fd_inv w2 o') (Hdisk : disk w2 = disk w1) (Hfl : flag (u32 flags) O_TRUNC = false)
    (Ho : fd_open w2 tj (e_name e) flags = Ret w3 fd') (Hr : 0 <= fd') :
  exists e', entry w3 tj fd' = Some e' /\ e_offset e' = 0 /\ e_dirty e' = false
    /\ e_size e' = e_size e /\ content w3 e' = content w e.
Proof.
  pose proof (fd_close_stored w ti fd e o w1 Hinv He Ht Hh Hd Hc) as Hl. rewrite <- Hdisk in Hl.
  destruct (fd_open_content w2 tj (e_name e) flags o' _ w3 fd' Hinv2 Hl Hfl Ho Hr) as (e' & E1 & _ & E2 & E3 & E4 & E5).
  destruct (fd_inv_entry w o ti fd e Hinv He) as (rest & _ & Hi & _).
  exists e'. split_and!; try done. by rewrite E2, (inv_content w e rest o).
Qed.

(** ** Pipes *)

(** The unread bytes of a pipe, oldest first. *)
Definition pipe_data w i : list Z :=
  ring (default [] (k_bufs w !! p_buf (pipe w i))) PIPE_BUF (p_tail (pipe w i)) (p_count (pipe w i)).

Lemma pipe_set_eq w i p : 0 <= i < PIPE_MAX -> length (g_pipes w) = 16%nat ->
  pipe (sti (wake_pipe pipe_wq (set_pipe w i p) i)) i = p.
Proof.
  intros Hi Hl. change (pipe _ i) with (pipe (set_pipe w i p) i). rewrite pipe_set by done. by rewrite Z.eqb_refl.
Qed.

(** C36. A pipe is a first-in first-out queue of at most [PIPE_BUF] bytes.  A read
    takes a non-empty prefix of at most [n] bytes; it returns 0 only when the pipe
    is empty and no descriptor anywhere refers to its write end, and sleeps
    only when it is empty and one does.  A write appends as many bytes as fit;
    it fails only when no descriptor refers to the read end and sleeps only
    when the pipe is full. *)
Theorem pipe_fifo w ti fd e i o (Hinv : fd_inv w o) (Hfd : 0 <= fd < MAX_OPEN_FDS)
    (He : entry w ti fd = Some e) (Ht : e_type e = FD_TYPE_PIPE) (Hd : e_data e = PPipe i) :
  let q := pipe_data w i in
  (forall n polled, e_writable e = false -> 0 < n ->
     match fd_read w ti fd n polled with
     | Ret w' (k, d) => d = take (Z.to_nat n) q /\ k = Z.of_nat (length d) /\ pipe_data w' i = drop (Z.to_nat n) q
         /\ (k = 0 -> q = [] /\ refs (concat (tabs w)) i true = 0)
     | Sleep w' => q = [] /\ 0 < refs (concat (tabs w)) i true /\ pipe_data w' i = q
     | Fault => False
     end) /\
  (forall buf, e_writable e = true -> buf <> [] ->
     match fd_write w ti fd buf with
     | Ret w' k => (k = -1 /\ refs (concat (tabs w)) i false = 0 /\ pipe_data w' i = q)
         \/ (0 < refs (concat (tabs w)) i false
             /\ k = Z.min (Z.of_nat (length buf)) (PIPE_BUF - Z.of_nat (length q)) /\ 0 < k
             /\ pipe_data w' i = q ++ take (Z.to_nat k) buf)
     | Sleep w' => Z.of_nat (length q) = PIPE_BUF /\ 0 < refs (concat (tabs w)) i false /\ pipe_data w' i = q
     | Fault => False
     end).
Proof.
  destruct (fd_inv_end w o ti fd e Hinv He Ht) as (j & b & Ed & Hir & Hu & Hp & Hb & Lb).
  rewrite Hd in Ed. injection Ed as <-. destruct Hp as [P1 P2 P3 P4 _]. destruct (P4 Hu) as (T1 & T2 & T3 & T4).
  pose proof (refs_nonneg (concat (tabs w)) i true). pose proof (refs_nonneg (concat (tabs w)) i false).
  pose proof (io_np _ _ _ (proj2 Hinv)) as Hnp.
  assert (Hq : pipe_data w i = ring b PIPE_BUF (p_tail (pipe w i)) (p_count (pipe w i))) by (unfold pipe_data; by rewrite Hb).
  assert (Hlq : Z.of_nat (length (pipe_data w i)) = p_count (pipe w i)) by (rewrite Hq; apply length_ring; lia).
  assert (Hbnd : (fd <? 0) || (MAX_OPEN_FDS <=? fd) = false) by (apply orb_false_iff; split; [apply Z.ltb_ge | apply Z.leb_gt]; lia).
  intros q. fold q in Hq, Hlq. split.
  - intros n polled Hwr Hn. unfold Fd.fd_read. rewrite Hbnd, He, Ht, Hd, Hwr. destruct (Z.eqb_spec n 0); [lia |]. cbv zeta.
    change (pipe (cli w) i) with (pipe w i). destruct (Z.ltb_spec 0 (p_count (pipe w i))) as [Hc | Hc].
    + change (k_bufs (cli w)) with (k_bufs w). rewrite Hb. cbn [or_fault].
      set (k := if n <? _ then n else _). assert (Hk : k = Z.min n (p_count (pipe w i))) by (unfold k; destruct (Z.ltb_spec n (p_count (pipe w i))); lia).
      destruct (ring_split b PIPE_BUF (p_tail (pipe w i)) k (p_count (pipe w i)) ltac:(lia)) as [R1 R2].
      rewrite <- Hq in R1, R2.
      assert (Hpk : forall l, Z.of_nat (length l) = p_count (pipe w i) -> take (Z.to_nat k) l = take (Z.to_nat n) l /\ drop (Z.to_nat k) l = drop (Z.to_nat n) (l : list Z)).
      { intros l Hl. destruct (Z.le_gt_cases n (p_count (pipe w i))); [by replace k with n by lia |].
        rewrite !firstn_all2, !skipn_all2 by lia. done. }
      destruct (Hpk q Hlq) as [K1 K2]. rewrite R1, <- K1. split; [done |]. split; [rewrite length_take; lia |]. split; [| lia].
      rewrite <- K2, <- R2. unfold pipe_data. rewrite pipe_set_eq by (done || lia). cbn [p_buf p_tail p_count].
      change (k_bufs (sti _)) with (k_bufs w). rewrite Hb. cbn [default]. apply ring_mod. done.
    + assert (Hq0 : q = []) by (apply length_zero_iff_nil; lia).
      destruct (Z.eqb_spec (ref_w (pipe w i)) 0); [| split; [done |]; split; [lia | done]].
      rewrite Hq0, take_nil, drop_nil. split; [done |]. split; [done |]. split; [exact Hq0 |]. intros _. split; [done | lia].
  - intros buf Hwr Hbuf. assert (Hn : 0 < Z.of_nat (length buf)) by (destruct buf; [done | simpl; lia]).
    unfold Fd.fd_write. rewrite Hbnd, He, Ht, Hd, Hwr. destruct (Z.eqb_spec (Z.of_nat (length buf)) 0); [lia |]. cbv zeta. cbn [negb].
    change (pipe (cli w) i) with (pipe w i). destruct (Z.eqb_spec (ref_r (pipe w i)) 0); [left; split; [done | split; [congruence | done]] |].
    destruct (Z.ltb_spec (p_count (pipe w i)) PIPE_BUF); [| split; [lia |]; split; [lia | done]].
    change (k_bufs (cli w)) with (k_bufs w). rewrite Hb. cbn [or_fault]. right. split; [lia |].
    set (k := if _ <? PIPE_BUF - _ then _ else _).
    assert (Hk : k = Z.min (Z.of_nat (length buf)) (PIPE_BUF - Z.of_nat (length q)))
      by (unfold k; destruct (Z.ltb_spec (Z.of_nat (length buf)) (PIPE_BUF - p_count (pipe w i))); lia).
    split; [done |]. split; [lia |]. unfold pipe_data. rewrite pipe_set_eq by (done || lia). cbn [p_buf p_tail p_count].
    change (k_bufs (sti _)) with (<[p_buf (pipe w i) := ring_write b PIPE_BUF (p_head (pipe w i)) (take (Z.to_nat k) buf)]> (k_bufs w)).
    rewrite lookup_insert_eq. cbn [default]. rewrite T3, ring_write_mod by done.
    destruct (ring_write_spec (take (Z.to_nat k) buf) b PIPE_BUF (p_tail (pipe w i)) (p_count (pipe w i))) as [_ E];
      [done | done | lia | rewrite length_take; lia |].
    rewrite length_take in E. replace (Z.of_nat (Z.to_nat k `min` length buf)) with k in E by lia. rewrite Hq. exact E.
Qed.
End FdProps.

(** ** A concrete kernel: the real heap, a volume in memory *)

#[local] Instance heap30 : Allocator km_state := km_allocator POOL_30MB pool_30MB_ok.
#[local] Instance fs64k : FileSys memfs := memfs_filesys 65536.

Definition test_wq (i : Z) : Z := 0x3000 + 16 * i.
Definition no_keys (n : nat) : list Z := [].

Definition fd_boot : @kern km_state memfs :=
  mk_kern (kmalloc_init POOL_30MB ∅) ∅ (replicate 16 pipe_unused) (replicate 8 fd_table_init) ∅
    (task_init 1 ∅ true 0 0) kb_boot [].

Lemma fd_boot_inv : fd_inv fd_boot [].
Proof.
  split; [split; [done | repeat constructor; done] |]. constructor.
  - done.
  - assert (E : flat_map file_mem (concat (tabs fd_boot)) ++ flat_map pipe_mem (g_pipes fd_boot) = []) by (vm_compute; reflexivity).
    rewrite E. split; [| constructor]. exists [BFree KM_POOL_SIZE]. split; [apply kmalloc_init_inv, pool_30MB_ok | done].
  - apply Forall_forall. intros e He. apply list_elem_of_In, in_concat in He as (t & Ht & He).
    apply list_elem_of_In, elem_of_replicate in Ht as [-> _]. repeat (destruct He as [<- | He]; [done |]). done.
  - intros i Hi. assert (E : forall wr, refs (concat (tabs fd_boot)) i wr = 0) by (intros wr; reflexivity).
    rewrite !E. assert (Ep : pipe fd_boot i = pipe_unused).
    { unfold pipe, aget. rewrite nth_lookup. destruct (g_pipes fd_boot !! Z.to_nat i) as [p |] eqn:Hp; [| done].
      by apply lookup_replicate in Hp as [-> _]. }
    rewrite Ep. by constructor.
Qed.

(** The state an operation leaves (the first one when it faults). *)
Definition after {A} (w : @kern km_state memfs) (r : @outcome km_state memfs A) : @kern km_state memfs :=
  match r with Ret w _ | Sleep w => w | Fault => w end.

Lemma after_inv {A} w (r : outcome A) o : fd_inv w o -> post r (fun w' => fd_inv w' o) -> fd_inv (after w r) o.
Proof. by destruct r. Qed.

Definition w_open := after fd_boot (fd_open fd_boot 0 [65] 0x42).
Definition hello : list Z := [104; 101; 108; 108; 111].
Definition w_written := after w_open (fd_write test_wq w_open 0 3 hello).
Definition w_closed := after w_written (fd_close test_wq w_written 0 3).
Definition w_pipe := after fd_boot (fd_pipe test_wq fd_boot 0).

Lemma w_open_inv : fd_inv w_open [].
Proof. apply after_inv; [apply fd_boot_inv | by apply fd_open_safe, fd_boot_inv]. Qed.

Definition e_open : fd_entry_t := mk_fd FD_TYPE_FILE true false false 0 0 PNull [65].
Definition e_written : fd_entry_t := mk_fd FD_TYPE_FILE true true false 5 5 (PBuf 31457296) [65].

Lemma w_open_entry : entry w_open 0 3 = Some e_open.
Proof. by vm_compute. Qed.
Lemma w_written_entry : entry w_written 0 3 = Some e_written.
Proof. by vm_compute. Qed.

Lemma w_written_inv : fd_inv w_written [].
Proof.
  apply after_inv; [apply w_open_inv |]. apply fd_write_safe; [apply w_open_inv | | done].
  rewrite w_open_entry. intros e [= <-] (_ & _ & E). done.
Qed.

Lemma w_closed_inv : fd_inv w_closed [].
Proof.
  apply after_inv; [apply w_written_inv |]. apply fd_close_safe; [apply w_written_inv |].
  rewrite w_written_entry. by intros e [= <-] (_ & E & _).
Qed.

Lemma w_pipe_inv : fd_inv w_pipe [].
Proof. apply after_inv; [apply fd_boot_inv | apply fd_pipe_safe, fd_boot_inv]. Qed.

Lemma fd_write_read_back_witness :
  exists w' w'', fd_write test_wq w_open 0 3 hello = Ret w' 5
    /\ Fd.fd_read test_wq 0x2000 (fst (fd_lseek w' 0 3 0 0)) 0 3 5 no_keys = Ret w'' (5, hello).
Proof.
  destruct (fd_write_read_back test_wq 0x2000 w_open 0 3 e_open hello no_keys [] w_open_inv ltac:(done) w_open_entry
    eq_refl ltac:(by intros (_ & _ & ?)) eq_refl ltac:(done)) as [(w' & e' & w'' & E & _ & _ & _ & _ & _ & _ & _ & Er) | (w' & E & _ & _ & _ & Hwhy)].
  - exists w', w''. split; [exact E | exact Er].
  - exfalso. destruct Hwhy as [Hw | Hw]; vm_compute in Hw; done.
Defined.

Lemma fd_close_open_roundtrip_witness :
  exists e', entry (after w_closed (fd_open w_closed 1 [65] 0)) 1 3 = Some e' /\ e_offset e' = 0 /\ e_dirty e' = false
    /\ e_size e' = 5 /\ content (after w_closed (fd_open w_closed 1 [65] 0)) e' = content w_written e_written.
Proof.
  apply (fd_close_open_roundtrip test_wq w_written w_closed w_closed (after w_closed (fd_open w_closed 1 [65] 0)) 0 3 e_written 1 0 3 [] []
    w_written_inv w_written_entry eq_refl ltac:(by intros (_ & ? & _)) eq_refl); [by vm_compute | apply w_closed_inv | done | done | by vm_compute | done].
Defined.

Lemma pipe_fifo_witness :
  exists w', fd_write test_wq w_pipe 0 4 hello = Ret w' 5 /\ pipe_data w' 0 = hello.
Proof.
  destruct (pipe_fifo test_wq 0x2000 w_pipe 0 4 (mk_fd FD_TYPE_PIPE true false false 0 0 (PPipe 0) []) 0 [] w_pipe_inv ltac:(done)
    ltac:(by vm_compute) eq_refl eq_refl) as [_ Hw].
  specialize (Hw hello eq_refl ltac:(done)).
  assert (Hq : pipe_data w_pipe 0 = []) by (vm_compute; reflexivity).
  assert (Hr : refs (concat (tabs w_pipe)) 0 false = 1) by (vm_compute; reflexivity).
  rewrite Hq, Hr in Hw. destruct (fd_write test_wq w_pipe 0 4 hello) as [w' k | w' |]; [| by destruct Hw | done].
  destruct Hw as [(_ & ? & _) | (_ & -> & _ & E)]; [done |]. exists w'. split; [done | exact E].
Defined.

