(* ===== verification/Elf.v ===== *)
(** * Elf: the ELF loader ([kernel/elf.c])

    [elf_validate] on an arbitrary byte buffer, then loading and unloading on
    the page allocator of [Pmm.v] and the page tables of [Paging.v].  The bytes
    of user pages are kept by physical address; they are written through the
    page tables, and a write to an unmapped page is a fault. *)

From S2P Require Import Prelude Pmm Paging.

Definition ELFCLASS32 : Z := 1.
Definition ELFDATA2LSB : Z := 1.
Definition ET_EXEC : Z := 2.
Definition EM_386 : Z := 3.
Definition EV_CURRENT : Z := 1.
Definition PT_LOAD : Z := 1.
Definition PF_W : Z := 0x2.
Definition ELF_MAX_SEG : Z := 8.
Definition USER_IMAGE_BASE : Z := 0x00400000.
Definition USER_IMAGE_END : Z := 0x00800000.

(** The fields the loader uses, at their offsets in the packed structures. *)
Record elf32_ehdr_t := mk_ehdr {
  e_type : Z; e_machine : Z; e_entry : Z; e_phoff : Z; e_phentsize : Z; e_phnum : Z
}.
Definition EHDR_SIZE : Z := 52.
Record elf32_phdr_t := mk_phdr {
  p_type : Z; p_offset : Z; p_vaddr : Z; p_filesz : Z; p_memsz : Z; p_flags : Z
}.
Definition PHDR_SIZE : Z := 32.

Definition read_ehdr (buf : list Z) : option elf32_ehdr_t :=
  t ← rd16 buf 16; m ← rd16 buf 18; e ← rd32 buf 24; po ← rd32 buf 28; ps ← rd16 buf 42; n ← rd16 buf 44;
  Some (mk_ehdr t m e po ps n).
Definition read_phdr (buf : list Z) (base : Z) : option elf32_phdr_t :=
  t ← rd32 buf base; o ← rd32 buf (base + 4); v ← rd32 buf (base + 8); fs ← rd32 buf (base + 16);
  ms ← rd32 buf (base + 20); fl ← rd32 buf (base + 24);
  Some (mk_phdr t o v fs ms fl).

Definition align_up (v a : Z) : Z := (v +! a -! 1) &! ~! (a - 1).

Definition range_in (start len lo hi : Z) : bool :=
  if len =? 0 then (lo <=? start) && (start <? hi)
  else if start <? lo then false
  else if hi <=? start then false
  else if hi -! start <? len then false
  else true.

(** ** Validation *)

Inductive verdict := Accept | Reject (why : string).

(** [None] is a read outside the buffer. *)
Fixpoint check_segments (n : nat) (buf : list Z) (size phoff i nload : Z) : option verdict :=
  match n with
  | O => Some (if nload =? 0 then Reject "no PT_LOAD segments" else Accept)
  | S n' =>
      ph ← read_phdr buf (phoff + i * PHDR_SIZE);
      if negb (p_type ph =? PT_LOAD) then check_segments n' buf size phoff (i + 1) nload
      else
        let nload := nload +! 1 in
        if p_memsz ph =? 0 then check_segments n' buf size phoff (i + 1) nload
        else if p_memsz ph <? p_filesz ph then Some (Reject "p_filesz > p_memsz")
        else if negb (range_in (p_vaddr ph) (p_memsz ph) USER_IMAGE_BASE USER_IMAGE_END)
        then Some (Reject "segment outside user image area")
        else if negb (p_filesz ph =? 0) && negb (range_in (p_offset ph) (p_filesz ph) 0 size)
        then Some (Reject "segment file range outside file")
        else if ELF_MAX_SEG <? nload then Some (Reject "too many PT_LOAD segments")
        else check_segments n' buf size phoff (i + 1) nload
  end.

Definition elf_validate (buf : list Z) : option verdict :=
  let size := Z.of_nat (length buf) in
  if size <? EHDR_SIZE then Some (Reject "file smaller than ELF header")
  else
    b0 ← rd8 buf 0; b1 ← rd8 buf 1; b2 ← rd8 buf 2; b3 ← rd8 buf 3;
    b4 ← rd8 buf 4; b5 ← rd8 buf 5; b6 ← rd8 buf 6;
    eh ← read_ehdr buf;
    if negb ((b0 =? 0x7F) && (b1 =? 69) && (b2 =? 76) && (b3 =? 70)) then Some (Reject "bad ELF magic")
    else if negb (b4 =? ELFCLASS32) then Some (Reject "not ELFCLASS32")
    else if negb (b5 =? ELFDATA2LSB) then Some (Reject "not little-endian")
    else if negb (b6 =? EV_CURRENT) then Some (Reject "bad ELF version")
    else if negb (e_type eh =? ET_EXEC) then Some (Reject "not ET_EXEC (static executable required)")
    else if negb (e_machine eh =? EM_386) then Some (Reject "not EM_386 (i386)")
    else if negb (range_in (e_entry eh) 1 USER_IMAGE_BASE USER_IMAGE_END)
    then Some (Reject "entry point outside user image area")
    else if negb (e_phentsize eh =? PHDR_SIZE) then Some (Reject "bad e_phentsize")
    else if e_phnum eh =? 0 then Some (Reject "no program headers")
    else if ELF_MAX_SEG <? e_phnum eh then Some (Reject "too many program headers")
    else if negb (range_in (e_phoff eh) (e_phnum eh *! PHDR_SIZE) 0 size)
    then Some (Reject "program header table outside file")
    else check_segments (Z.to_nat (e_phnum eh)) buf size (e_phoff eh) 0 0.

(** ** Loading *)

Record seg := mk_seg { s_va : Z; s_pages : Z; s_phys : Z }.
Record elf_image_t := mk_img { i_entry : Z; i_brk : Z; i_segs : list seg }.
Definition img_empty : elf_image_t := mk_img 0 0 [].

Record mach := mk_mach { m_pmm : pmm_state; m_pg : pg_state; m_bytes : gmap Z Z }.
Definition set_pmm (w : mach) (p : pmm_state) : mach := mk_mach p (m_pg w) (m_bytes w).
Definition set_pg (w : mach) (p : pg_state) : mach := mk_mach (m_pmm w) p (m_bytes w).

(** A byte store through the page tables (supervisor mode, [CR0.WP] clear). *)
Definition vstore (w : mach) (va b : Z) : option mach :=
  '(phys, _) ← paging_query (m_pg w) va;
  Some (mk_mach (m_pmm w) (m_pg w) (<[phys + va mod 4096 := b]> (m_bytes w))).
Fixpoint vcopy (w : mach) (va : Z) (d : list Z) : option mach :=
  match d with [] => Some w | b :: d' => w ← vstore w va b; vcopy w (va + 1) d' end.

(** The mapping loops: pages [k .. k+n-1] of a segment; [false] when a page
    cannot be mapped. *)
Fixpoint map_pages (n : nat) (st : pg_state) (va phys flags k : Z) : pg_state * bool :=
  match n with
  | O => (st, true)
  | S n' =>
      let '(st, rc) := paging_map st (va +! k *! PMM_PAGE_SIZE) (phys +! k *! PMM_PAGE_SIZE) flags in
      if negb (rc =? 0) then (st, false) else map_pages n' st va phys flags (k + 1)
  end.

(** The write-protecting loop ignores the results. *)
Fixpoint protect_pages (n : nat) (st : pg_state) (va phys k : Z) : pg_state :=
  match n with
  | O => st
  | S n' => protect_pages n' (fst (paging_map st (va +! k *! PMM_PAGE_SIZE) (phys +! k *! PMM_PAGE_SIZE) PTE_US)) va phys (k + 1)
  end.

Fixpoint unwind_pages (n : nat) (w : mach) (va : Z) : mach :=
  match n with
  | O => w
  | S n' =>
      let w := match paging_query (m_pg w) va with
               | Some (phys, _) => set_pmm w (fst (pmm_free_page (m_pmm w) phys))
               | None => w
               end in
      unwind_pages n' (set_pg w (paging_unmap (m_pg w) va)) (va +! PMM_PAGE_SIZE)
  end.
Fixpoint unwind (w : mach) (segs : list seg) : mach :=
  match segs with
  | [] => w
  | s :: segs' => unwind (unwind_pages (Z.to_nat (s_pages s)) w (s_va s)) segs'
  end.

Inductive lresult :=
  | Loaded (w : mach) (img : elf_image_t)
  | Failed (w : mach) (why : string)
  | LFault.

Definition sub_bytes (buf : list Z) (off n : Z) : option (list Z) :=
  if off + n <=? Z.of_nat (length buf) then Some (take (Z.to_nat n) (drop (Z.to_nat off) buf)) else None.

Definition load_segment (buf : list Z) (ph : elf32_phdr_t) (w : mach) (img : elf_image_t) : lresult :=
  let va_start := p_vaddr ph &! ~! (PMM_PAGE_SIZE - 1) in
  let va_end := align_up (p_vaddr ph +! p_memsz ph) PMM_PAGE_SIZE in
  let pages := (va_end -! va_start) / PMM_PAGE_SIZE in
  if ELF_MAX_SEG <=? Z.of_nat (length (i_segs img)) then Failed (unwind w (i_segs img)) "segment table overflow"
  else
    let '(pm, phys) := pmm_alloc_pages (m_pmm w) pages in
    let w := set_pmm w pm in
    if phys =? 0 then Failed (unwind w (i_segs img)) "out of physical pages"
    else
      let '(pg, ok) := map_pages (Z.to_nat pages) (m_pg w) va_start phys PAGING_USR_FLAGS 0 in
      let w := set_pg w pg in
      if negb ok then
        let w := set_pmm w (fst (pmm_free_pages (m_pmm w) phys pages)) in
        Failed (unwind w (i_segs img)) "paging_map failed"
      else
        let segs := i_segs img ++ [mk_seg va_start pages phys] in
        let stored :=
          w ← vcopy w va_start (replicate (Z.to_nat (pages *! PMM_PAGE_SIZE)) 0);
          if p_filesz ph =? 0 then Some w
          else d ← sub_bytes buf (p_offset ph) (p_filesz ph); vcopy w (p_vaddr ph) d in
        match stored with
        | None => LFault
        | Some w =>
            let w := if p_flags ph &! PF_W =? 0
                     then set_pg w (protect_pages (Z.to_nat pages) (m_pg w) va_start phys 0) else w in
            let seg_end := p_vaddr ph +! p_memsz ph in
            let brk := if i_brk img <? seg_end then align_up seg_end PMM_PAGE_SIZE else i_brk img in
            Loaded w (mk_img (i_entry img) brk segs)
        end.

Fixpoint load_segments (n : nat) (buf : list Z) (phoff i : Z) (w : mach) (img : elf_image_t) : lresult :=
  match n with
  | O => Loaded w img
  | S n' =>
      match read_phdr buf (phoff + i * PHDR_SIZE) with
      | None => LFault
      | Some ph =>
          if negb (p_type ph =? PT_LOAD) || (p_memsz ph =? 0) then load_segments n' buf phoff (i + 1) w img
          else match load_segment buf ph w img with
               | Loaded w img => load_segments n' buf phoff (i + 1) w img
               | r => r
               end
      end
  end.

Definition elf_load (buf : list Z) (w : mach) : lresult :=
  match elf_validate buf with
  | None => LFault
  | Some (Reject why) => Failed w why
  | Some Accept =>
      match read_ehdr buf with
      | None => LFault
      | Some eh =>
          match load_segments (Z.to_nat (e_phnum eh)) buf (e_phoff eh) 0 w img_empty with
          | Loaded w img => Loaded w (mk_img (e_entry eh) (i_brk img) (i_segs img))
          | r => r
          end
      end
  end.

Fixpoint unload_pages (n : nat) (w : mach) (va phys k : Z) : mach :=
  match n with
  | O => w
  | S n' =>
      let w := set_pmm w (fst (pmm_free_page (m_pmm w) (phys +! k *! PMM_PAGE_SIZE))) in
      unload_pages n' (set_pg w (paging_unmap (m_pg w) va)) (va +! PMM_PAGE_SIZE) phys (k + 1)
  end.
Fixpoint unload_segs (w : mach) (segs : list seg) : mach :=
  match segs with
  | [] => w
  | s :: segs' => unload_segs (unload_pages (Z.to_nat (s_pages s)) w (s_va s) (s_phys s) 0) segs'
  end.
Definition elf_unload (w : mach) (img : elf_image_t) : mach := unload_segs w (i_segs img).

(** ** What an accepted file looks like *)

Definition seg_safe (size : Z) (ph : elf32_phdr_t) : Prop :=
  p_type ph = PT_LOAD -> p_memsz ph <> 0 ->
  p_filesz ph <= p_memsz ph
  /\ USER_IMAGE_BASE <= p_vaddr ph /\ p_vaddr ph + p_memsz ph <= USER_IMAGE_END
  /\ (p_filesz ph <> 0 -> p_offset ph + p_filesz ph <= size).

Record acceptable (buf : list Z) : Prop := {
  ac_magic : take 7 buf = [0x7F; 69; 76; 70; ELFCLASS32; ELFDATA2LSB; EV_CURRENT];
  ac_ehdr : exists eh, read_ehdr buf = Some eh /\ EHDR_SIZE <= Z.of_nat (length buf)
    /\ e_type eh = ET_EXEC /\ e_machine eh = EM_386 /\ e_phentsize eh = PHDR_SIZE
    /\ USER_IMAGE_BASE <= e_entry eh < USER_IMAGE_END
    /\ 1 <= e_phnum eh <= ELF_MAX_SEG /\ e_phoff eh + e_phnum eh * PHDR_SIZE <= Z.of_nat (length buf)
    /\ (exists i ph, 0 <= i < e_phnum eh /\ read_phdr buf (e_phoff eh + i * PHDR_SIZE) = Some ph /\ p_type ph = PT_LOAD)
    /\ forall i ph, 0 <= i < e_phnum eh -> read_phdr buf (e_phoff eh + i * PHDR_SIZE) = Some ph ->
         seg_safe (Z.of_nat (length buf)) ph;
}.

Lemma range_in_spec start len lo hi : is_u32 start -> is_u32 len -> is_u32 hi -> 0 < len ->
  range_in start len lo hi = true <-> lo <= start /\ start + len <= hi.
Proof.
  intros Hs Hl Hh Hp. unfold range_in. destruct (Z.eqb_spec len 0); [lia |].
  destruct (Z.ltb_spec start lo); [split; [done | lia] |]. destruct (Z.leb_spec hi start); [split; [done | lia] |].
  assert (E : hi -! start = hi - start) by (unfold u32, is_u32 in *; apply Z.mod_small; lia).
  rewrite E. destruct (Z.ltb_spec (hi - start) len); split; (done || lia).
Qed.

Definition buf_ok (buf : list Z) : Prop := Forall is_u8 buf /\ Z.of_nat (length buf) < 2 ^ 32.

Record phdr_u32 (ph : elf32_phdr_t) : Prop := {
  pu_off : is_u32 (p_offset ph); pu_va : is_u32 (p_vaddr ph);
  pu_fs : is_u32 (p_filesz ph); pu_ms : is_u32 (p_memsz ph);
}.

Lemma read_phdr_some buf b : buf_ok buf -> 0 <= b -> b + PHDR_SIZE <= Z.of_nat (length buf) ->
  exists ph, read_phdr buf b = Some ph /\ phdr_u32 ph.
Proof.
  intros [Hb _] H0 Hn. unfold PHDR_SIZE in Hn. unfold read_phdr.
  repeat match goal with |- context [rd32 buf ?o] =>
    destruct (rd32_some buf o Hb ltac:(lia) ltac:(lia)) as (? & -> & ?) end.
  cbn. eexists. split; [done |]. by constructor.
Qed.

Record ehdr_wide (eh : elf32_ehdr_t) : Prop := {
  eu_entry : is_u32 (e_entry eh); eu_phoff : is_u32 (e_phoff eh); eu_phnum : is_u16 (e_phnum eh);
}.

Lemma read_ehdr_some buf : buf_ok buf -> EHDR_SIZE <= Z.of_nat (length buf) ->
  exists eh, read_ehdr buf = Some eh /\ ehdr_wide eh.
Proof.
  intros [Hb _] Hn. unfold EHDR_SIZE in Hn. unfold read_ehdr.
  repeat match goal with
  | |- context [rd32 buf ?o] => destruct (rd32_some buf o Hb ltac:(lia) ltac:(lia)) as (? & -> & ?)
  | |- context [rd16 buf ?o] => destruct (rd16_some buf o Hb ltac:(lia) ltac:(lia)) as (? & -> & ?)
  end.
  cbn. eexists. split; [done |]. by constructor.
Qed.

(** The segment loop, decided from entry [i] on. *)
Definition seg_at (buf : list Z) (phoff j : Z) (P : elf32_phdr_t -> Prop) : Prop :=
  forall ph, read_phdr buf (phoff + j * PHDR_SIZE) = Some ph -> P ph.

Lemma seg_bounds_spec size ph : phdr_u32 ph -> is_u32 size -> p_memsz ph <> 0 ->
  (p_memsz ph <? p_filesz ph) = false ->
  range_in (p_vaddr ph) (p_memsz ph) USER_IMAGE_BASE USER_IMAGE_END = true ->
  negb (p_filesz ph =? 0) && negb (range_in (p_offset ph) (p_filesz ph) 0 size) = false ->
  seg_safe size ph.
Proof.
  intros [Ho Hv Hf Hm] Hs Hne Hfm Hr Hfr _ _. btrue. unfold is_u32 in *.
  apply range_in_spec in Hr; [| done | done | unfold is_u32, USER_IMAGE_END; lia | lia].
  split; [lia |]. split; [lia |]. split; [lia |]. intros Hf0. destruct (Z.eqb_spec (p_filesz ph) 0); [done |].
  simpl in Hfr. apply negb_false_iff, range_in_spec in Hfr; unfold is_u32; lia.
Qed.

Lemma check_segments_spec buf phoff : buf_ok buf -> 0 <= phoff -> forall n i nload, 0 <= i -> 0 <= nload ->
  nload + Z.of_nat n <= ELF_MAX_SEG -> phoff + (i + Z.of_nat n) * PHDR_SIZE <= Z.of_nat (length buf) ->
  exists v, check_segments n buf (Z.of_nat (length buf)) phoff i nload = Some v /\
    (v = Accept <->
      (forall j, i <= j < i + Z.of_nat n -> seg_at buf phoff j (seg_safe (Z.of_nat (length buf)))) /\
      (0 < nload \/ exists j ph, i <= j < i + Z.of_nat n /\ read_phdr buf (phoff + j * PHDR_SIZE) = Some ph /\ p_type ph = PT_LOAD)).
Proof.
  intros Hb Hpo. pose proof Hb as [_ Hlen]. unfold ELF_MAX_SEG, PHDR_SIZE. induction n as [| n IH]; intros i nload Hi Hn Hm Hlim; cbn [check_segments].
  - eexists. split; [done |]. destruct (Z.eqb_spec nload 0) as [-> | Hne]; (split; [| intros [_ H]]).
    + done.
    + destruct H as [| (j & ? & ? & _)]; lia.
    + intros _. split; [lia | left; lia].
    + done.
  - unfold PHDR_SIZE in *. destruct (read_phdr_some buf (phoff + i * 32) Hb ltac:(lia) ltac:(unfold PHDR_SIZE; lia)) as (ph & E & Hu).
    rewrite E. cbn [mbind option_bind].
    assert (Hext : forall nl, (p_type ph = PT_LOAD -> 0 < nl) -> (nl = nload \/ (nl = nload + 1 /\ p_type ph = PT_LOAD)) ->
      seg_safe (Z.of_nat (length buf)) ph -> nl + Z.of_nat n <= 8 ->
      exists v, check_segments n buf (Z.of_nat (length buf)) phoff (i + 1) nl = Some v /\
        (v = Accept <-> (forall j, i <= j < i + Z.of_nat (S n) -> seg_at buf phoff j (seg_safe (Z.of_nat (length buf)))) /\
          (0 < nload \/ exists j ph, i <= j < i + Z.of_nat (S n) /\ read_phdr buf (phoff + j * 32) = Some ph /\ p_type ph = PT_LOAD))).
    { intros nl Hpt Hnl Hsafe Hm'. destruct (IH (i + 1) nl ltac:(lia) ltac:(lia) ltac:(lia) ltac:(lia)) as (v & Ev & Hv).
      exists v. split; [done |]. rewrite Hv. split; intros [A B]; (split; [intros j Hj |]).
      - destruct (Z.eq_dec j i) as [-> |]; [| apply A; lia]. unfold seg_at, PHDR_SIZE. rewrite E. by intros ? [= <-].
      - destruct B as [B | (j & q & ? & ? & ?)]; [| right; exists j, q; split; [lia | done]].
        destruct Hnl as [-> | [-> Hl]]; [by left | right; exists i, ph; split; [lia | done]].
      - apply A. lia.
      - destruct B as [B | (j & q & ? & Eq & ?)]; [left; lia |]. destruct (Z.eq_dec j i) as [-> |].
        + left. rewrite E in Eq. injection Eq as <-. by apply Hpt.
        + right. exists j, q. split; [lia | done]. }
    assert (Hrej : forall s, ~ seg_safe (Z.of_nat (length buf)) ph ->
      exists v, Some (Reject s) = Some v /\
        (v = Accept <-> (forall j, i <= j < i + Z.of_nat (S n) -> seg_at buf phoff j (seg_safe (Z.of_nat (length buf)))) /\
          (0 < nload \/ exists j ph, i <= j < i + Z.of_nat (S n) /\ read_phdr buf (phoff + j * 32) = Some ph /\ p_type ph = PT_LOAD))).
    { intros s Hns. eexists. split; [done |]. split; [done |]. intros [A _]. destruct Hns. apply (A i); [lia | done]. }
    destruct (Z.eqb_spec (p_type ph) PT_LOAD) as [Hpt | Hpt]; cbn [negb].
    2:{ apply Hext; [by intros ? | by left | by intros ? | lia]. }
    assert (En : nload +! 1 = nload + 1) by (apply Z.mod_small; lia). rewrite En.
    destruct (Z.eqb_spec (p_memsz ph) 0) as [Hz | Hz]; [apply Hext; [lia | auto | by intros ? ? | lia] |].
    pose proof Hu as [Ho Hv Hf Hms]. unfold is_u32 in *.
    destruct (p_memsz ph <? p_filesz ph) eqn:Efm.
    { apply Hrej. intros Hs. destruct (Hs Hpt Hz). btrue. lia. }
    destruct (range_in (p_vaddr ph) _ _ _) eqn:Er; cbn [negb].
    2:{ apply Hrej. intros Hs. destruct (Hs Hpt Hz) as (_ & H1 & H2 & _). apply not_true_iff_false in Er. apply Er.
        apply range_in_spec; unfold is_u32, USER_IMAGE_END; (done || lia). }
    destruct (negb (p_filesz ph =? 0) && _) eqn:Efr.
    { apply Hrej. intros Hs. destruct (Hs Hpt Hz) as (_ & _ & _ & H1). apply andb_true_iff in Efr as [E1 E2].
      btrue. specialize (H1 ltac:(lia)). apply not_true_iff_false in E2. apply E2. apply range_in_spec; unfold is_u32; lia. }
    unfold ELF_MAX_SEG. destruct (Z.ltb_spec 8 (nload + 1)); [lia |].
    apply Hext; [lia | auto | | lia]. apply seg_bounds_spec; (done || (unfold is_u32; lia)).
Qed.

(** The validation, decided; [elf_load] rests on it. *)
Lemma elf_validate_decides (buf : list Z) (Hb : buf_ok buf) :
  exists v, elf_validate buf = Some v /\ (v = Accept <-> acceptable buf).
Proof.
  pose proof Hb as [Hbytes Hlen]. unfold elf_validate. destruct (Z.ltb_spec (Z.of_nat (length buf)) EHDR_SIZE) as [Hs | Hs].
  { eexists. split; [done |]. split; [done |]. intros [_ (eh & _ & H1 & _)]. lia. }
  destruct (read_ehdr_some buf Hb Hs) as (eh & Eh & [He Hp Hn]).
  assert (H7 : exists b0 b1 b2 b3 b4 b5 b6 r, buf = b0 :: b1 :: b2 :: b3 :: b4 :: b5 :: b6 :: r).
  { unfold EHDR_SIZE in Hs. do 7 (destruct buf as [| ? buf]; [simpl in Hs; lia |]). by do 8 eexists. }
  destruct H7 as (b0 & b1 & b2 & b3 & b4 & b5 & b6 & r & Eb).
  assert (Hrd : rd8 buf 0 = Some b0 /\ rd8 buf 1 = Some b1 /\ rd8 buf 2 = Some b2 /\ rd8 buf 3 = Some b3
    /\ rd8 buf 4 = Some b4 /\ rd8 buf 5 = Some b5 /\ rd8 buf 6 = Some b6) by (subst buf; done).
  destruct Hrd as (-> & -> & -> & -> & -> & -> & ->). rewrite Eh. cbn [mbind option_bind].
  assert (Hrej : forall s, ~ acceptable buf -> exists v, Some (Reject s) = Some v /\ (v = Accept <-> acceptable buf))
    by (intros s Hna; eexists; split; [done | split; [done | by intros ?%Hna]]).
  assert (Hmag : acceptable buf -> b0 = 0x7F /\ b1 = 69 /\ b2 = 76 /\ b3 = 70 /\ b4 = ELFCLASS32 /\ b5 = ELFDATA2LSB /\ b6 = EV_CURRENT).
  { intros [Hm _]. rewrite Eb in Hm. by injection Hm. }
  assert (Hacc : acceptable buf -> EHDR_SIZE <= Z.of_nat (length buf)
    /\ e_type eh = ET_EXEC /\ e_machine eh = EM_386 /\ e_phentsize eh = PHDR_SIZE
    /\ USER_IMAGE_BASE <= e_entry eh < USER_IMAGE_END
    /\ 1 <= e_phnum eh <= ELF_MAX_SEG /\ e_phoff eh + e_phnum eh * PHDR_SIZE <= Z.of_nat (length buf)).
  { intros [_ (eh' & E & H1 & H2 & H3 & H4 & H5 & H6 & H7 & _)]. rewrite Eh in E. injection E as <-. done. }
  destruct (negb _) eqn:Em at 1; [apply Hrej; intros Ha; destruct (Hmag Ha) as (-> & -> & -> & -> & _); done |].
  destruct (negb (b4 =? _)) eqn:E4; [apply Hrej; intros Ha; destruct (Hmag Ha) as (_ & _ & _ & _ & -> & _); done |].
  destruct (negb (b5 =? _)) eqn:E5; [apply Hrej; intros Ha; destruct (Hmag Ha) as (_ & _ & _ & _ & _ & -> & _); done |].
  destruct (negb (b6 =? _)) eqn:E6; [apply Hrej; intros Ha; destruct (Hmag Ha) as (_ & _ & _ & _ & _ & _ & ->); done |].
  destruct (negb (e_type eh =? _)) eqn:Et; [apply Hrej; intros Ha; destruct (Hacc Ha) as (_ & E & _); by rewrite E in Et |].
  destruct (negb (e_machine eh =? _)) eqn:Ema; [apply Hrej; intros Ha; destruct (Hacc Ha) as (_ & _ & E & _); by rewrite E in Ema |].
  assert (Hent : range_in (e_entry eh) 1 USER_IMAGE_BASE USER_IMAGE_END = true <-> USER_IMAGE_BASE <= e_entry eh < USER_IMAGE_END).
  { rewrite range_in_spec; [lia | done | done | done | lia]. }
  destruct (range_in (e_entry eh) _ _ _) eqn:Ee; cbn [negb]; [| apply Hrej; intros Ha; destruct (Hacc Ha) as (_ & _ & _ & _ & E & _); by apply Hent in E].
  destruct (negb (e_phentsize eh =? _)) eqn:Eps; [apply Hrej; intros Ha; destruct (Hacc Ha) as (_ & _ & _ & E & _); by rewrite E in Eps |].
  destruct (Z.eqb_spec (e_phnum eh) 0) as [E0 | E0]; [apply Hrej; intros Ha; destruct (Hacc Ha) as (_ & _ & _ & _ & _ & E & _); lia |].
  destruct (Z.ltb_spec ELF_MAX_SEG (e_phnum eh)) as [E8 | E8]; [apply Hrej; intros Ha; destruct (Hacc Ha) as (_ & _ & _ & _ & _ & E & _); lia |].
  unfold ELF_MAX_SEG in E8. unfold is_u16 in Hn. assert (Em32 : e_phnum eh *! PHDR_SIZE = e_phnum eh * PHDR_SIZE) by (unfold PHDR_SIZE; apply Z.mod_small; lia).
  assert (Htab : range_in (e_phoff eh) (e_phnum eh *! PHDR_SIZE) 0 (Z.of_nat (length buf)) = true <->
    e_phoff eh + e_phnum eh * PHDR_SIZE <= Z.of_nat (length buf)).
  { rewrite Em32, range_in_spec; unfold is_u32, PHDR_SIZE in *; try lia. }
  destruct (range_in (e_phoff eh) _ _ _) eqn:Ep; cbn [negb];
    [| apply Hrej; intros Ha; destruct (Hacc Ha) as (_ & _ & _ & _ & _ & _ & E); by apply Htab in E].
  destruct Htab as [Htab _]. specialize (Htab eq_refl). unfold is_u32 in Hp.
  destruct (check_segments_spec buf (e_phoff eh) Hb ltac:(lia) (Z.to_nat (e_phnum eh)) 0 0 ltac:(lia) ltac:(lia)
    ltac:(unfold ELF_MAX_SEG; lia) ltac:(rewrite Z2Nat.id by lia; lia)) as (v & Ev & Hv).
  exists v. split; [done |]. rewrite Hv, Z.add_0_l, Z2Nat.id by lia. destruct Hent as [Hent _]. specialize (Hent eq_refl). btrue. split.
  - intros [A B]. constructor; [by subst |]. exists eh. split; [done |].
    split; [done |]. do 4 (split; [done |]). split; [unfold ELF_MAX_SEG; lia |]. split; [done |]. split.
    + destruct B as [B | (j & ph & Hj & Ej & Ejt)]; [lia |]. by exists j, ph.
    + intros i ph Hi Ei. by apply (A i Hi ph).
  - intros [_ (eh' & E & _ & _ & _ & _ & _ & _ & _ & B & A)]. rewrite Eh in E. injection E as <-. split.
    + intros j Hj ph Ei. by apply (A j ph).
    + right. exact B.
Qed.

(** C28. [elf_validate] never reads outside the buffer, whatever bytes it holds,
    and accepts a file exactly when it is a little-endian ELF32 i386 executable
    whose program header table lies inside the file and whose entry point and
    every non-empty loadable segment lie inside the user image area, with file
    ranges inside the file; all bounds hold without wrap-around. *)
Theorem elf_validate_exact (buf : list Z) (Hb : buf_ok buf) :
  exists v, elf_validate buf = Some v /\ (v = Accept <-> acceptable buf).
Proof. by apply elf_validate_decides. Qed.

(** The image of the self-test. *)
Definition good_elf : list Z :=
  [0x7F; 69; 76; 70; 1; 1; 1] ++ replicate 9 0 ++ [2; 0; 3; 0; 1; 0; 0; 0; 0; 0; 0x40; 0; 52; 0; 0; 0] ++ replicate 10 0
  ++ [32; 0; 1; 0] ++ replicate 6 0
  ++ [1; 0; 0; 0; 84; 0; 0; 0; 0; 0; 0x40; 0; 0; 0; 0; 0; 4; 0; 0; 0; 4; 0; 0; 0; 5; 0; 0; 0; 0; 0; 0; 0]
  ++ [0x90; 0x90; 0xEB; 0xFE] ++ replicate 12 0.

Lemma good_elf_ok : buf_ok good_elf.
Proof. split; [| done]. unfold good_elf. repeat first [apply Forall_app; split | constructor]; done. Qed.

Lemma elf_validate_exact_witness : exists v, elf_validate good_elf = Some v /\ (v = Accept <-> acceptable good_elf).
Proof. apply (elf_validate_exact good_elf good_elf_ok). Defined.
