(* ===== verification/ElfLoad.v ===== *)
(** * ElfLoad: what loading and unloading an image do ([kernel/elf.c])

    [elf_load] of [Elf.v] on the page allocator and the page tables: it is
    confined to the user image area and to free pages of the pool, and unloading
    gives back every page. *)

From S2P Require Import Prelude Pmm Paging Elf.

(** ** Pages of a segment *)

Definition pg_of (va : Z) : Z := va / 4096.
Definition in_pages (va n q : Z) : Prop := pg_of va <= q < pg_of va + n.

(** The page-aligned cover of an accepted segment. *)
Record cover (ph : elf32_phdr_t) (vs n : Z) : Prop := {
  cv_align : vs mod 4096 = 0;
  cv_base : USER_IMAGE_BASE <= vs;
  cv_end : vs + n * 4096 <= USER_IMAGE_END;
  cv_pos : 1 <= n;
  cv_lo : vs <= p_vaddr ph;
  cv_hi : p_vaddr ph + p_memsz ph <= vs + n * 4096;
}.

Definition seg_va (ph : elf32_phdr_t) : Z := p_vaddr ph &! ~! (PMM_PAGE_SIZE - 1).
Definition seg_pages (ph : elf32_phdr_t) : Z :=
  (align_up (p_vaddr ph +! p_memsz ph) PMM_PAGE_SIZE -! seg_va ph) / PMM_PAGE_SIZE.

Lemma seg_cover size ph : phdr_u32 ph -> p_type ph = PT_LOAD -> p_memsz ph <> 0 -> seg_safe size ph ->
  cover ph (seg_va ph) (seg_pages ph).
Proof.
  intros [_ Hv _ Hm] Ht Hn Hs. destruct (Hs Ht Hn) as (_ & H1 & H2 & _). unfold USER_IMAGE_BASE, USER_IMAGE_END in *.
  unfold seg_pages, seg_va, align_up, PMM_PAGE_SIZE. unfold is_u32 in *.
  rewrite (u32_small (p_vaddr ph + p_memsz ph)) by (unfold is_u32; lia).
  rewrite (u32_small (p_vaddr ph + p_memsz ph + 4096)) by (unfold is_u32; lia).
  rewrite (u32_small (_ - 1)) by (unfold is_u32; lia). rewrite !align_down_4096 by (unfold is_u32; lia).
  set (v := p_vaddr ph) in *. set (m := p_memsz ph) in *.
  assert (Hr : u32 (v + m + 4096 - 1 - (v + m + 4096 - 1) mod 4096 - (v - v mod 4096)) =
    v + m + 4096 - 1 - (v + m + 4096 - 1) mod 4096 - (v - v mod 4096)).
  { apply u32_small. unfold is_u32. Z.to_euclidean_division_equations. lia. }
  rewrite Hr. clear Hr. unfold USER_IMAGE_BASE, USER_IMAGE_END. constructor; fold v; fold m;
    unfold USER_IMAGE_BASE, USER_IMAGE_END; Z.to_euclidean_division_equations; lia.
Qed.

Section Pages.
Variable va phys : Z.
Hypothesis Hva : va mod 4096 = 0.
Hypothesis Hphys : phys mod 4096 = 0.
Hypothesis Hva0 : 0 <= va.
Hypothesis Hphys0 : 0 <= phys.

Lemma page_addr k : 0 <= k -> va + k * 4096 < 2 ^ 32 ->
  va +! k *! PMM_PAGE_SIZE = va + k * 4096 /\ (va + k * 4096) / 4096 = pg_of va + k /\ is_page (pg_of va + k).
Proof.
  intros Hk Hb. unfold PMM_PAGE_SIZE, pg_of, is_page. rewrite (u32_small (k * 4096)) by (unfold is_u32; lia).
  rewrite u32_small by (unfold is_u32; lia). rewrite Z.div_add by lia. split; [done |]. split; [done |].
  Z.to_euclidean_division_equations. lia.
Qed.

(** The mapping loop touches only the pages of its range; when it reports
    success they are all mapped. *)
Lemma map_pages_spec flags n : forall st k, pg_inv st -> 0 <= k ->
  va + (k + Z.of_nat n) * 4096 <= USER_IMAGE_END -> phys + (k + Z.of_nat n) * 4096 <= PMM_POOL_END ->
  let '(st', ok) := map_pages n st va phys flags k in
  pg_inv st' /\ same_regs st st' /\
  (forall q, is_page q -> ~ (pg_of va + k <= q < pg_of va + k + Z.of_nat n) -> view st' q = view st q) /\
  (forall q, is_page q -> view st' q = view st q \/
     exists j, k <= j < k + Z.of_nat n /\ view st' q = Some (pte_val (phys + j * 4096) flags)) /\
  (ok = true -> forall j, k <= j < k + Z.of_nat n -> view st' (pg_of va + j) = Some (pte_val (phys + j * 4096) flags)).
Proof.
  unfold USER_IMAGE_END, PMM_POOL_END.
  induction n as [| n IH]; intros st k Hinv Hk Hv Hp; cbn [map_pages].
  { split_and!; try done; [by intros; left |]. intros _ j Hj. lia. }
  destruct (page_addr k Hk ltac:(lia)) as (E1 & E2 & E3).
  assert (E4 : phys +! k *! PMM_PAGE_SIZE = phys + k * 4096).
  { unfold PMM_PAGE_SIZE. rewrite (u32_small (k * 4096)) by (unfold is_u32; lia). apply u32_small. unfold is_u32. lia. }
  rewrite E1, E4. pose proof (paging_map_spec st (va + k * 4096) (phys + k * 4096) flags Hinv
    ltac:(unfold is_u32; lia) ltac:(unfold is_u32; lia)) as Hm.
  destruct (paging_map st _ _ flags) as [st1 rc]. cbv zeta in Hm. rewrite E2 in Hm. destruct Hm as (Hi1 & Hr1 & _ & Hc).
  destruct Hc as [(-> & _ & _ & Hvk & Hvo & _) | (-> & -> & _)]; cbn [Z.eqb negb].
  - specialize (IH st1 (k + 1) Hi1 ltac:(lia) ltac:(lia) ltac:(lia)). destruct (map_pages n st1 va phys flags (k + 1)) as [st2 ok].
    destruct IH as (Hi2 & Hr2 & Ho2 & Ha2 & Hs2). split; [done |]. split.
    { destruct Hr1 as (? & ? & ?), Hr2 as (? & ? & ?). split_and!; congruence. }
    split; [| split].
    + intros q Hq Hn. rewrite Ho2 by (done || lia). apply Hvo; [done | lia].
    + intros q Hq. destruct (Ha2 q Hq) as [-> | (j & Hj & ->)]; [| right; exists j; split; [lia | done]].
      destruct (Z.eq_dec q (pg_of va + k)) as [-> | Hne]; [right; exists k; split; [lia | done] | left; by apply Hvo].
    + intros Hok j Hj. destruct (Z.eq_dec j k) as [-> |]; [| apply Hs2; [done | lia]].
      rewrite Ho2 by (done || lia). done.
  - split_and!; try done. by intros; left.
Qed.

(** On pages that are mapped already the loop cannot fail. *)
Lemma protect_pages_spec n : forall st k, pg_inv st -> 0 <= k ->
  va + (k + Z.of_nat n) * 4096 <= USER_IMAGE_END -> phys + (k + Z.of_nat n) * 4096 <= PMM_POOL_END ->
  (forall j, k <= j < k + Z.of_nat n -> view st (pg_of va + j) <> None) ->
  let st' := protect_pages n st va phys k in
  pg_inv st' /\ same_regs st st' /\
  (forall q, is_page q -> ~ (pg_of va + k <= q < pg_of va + k + Z.of_nat n) -> view st' q = view st q) /\
  (forall j, k <= j < k + Z.of_nat n -> view st' (pg_of va + j) = Some (pte_val (phys + j * 4096) PTE_US)).
Proof.
  unfold USER_IMAGE_END, PMM_POOL_END.
  induction n as [| n IH]; intros st k Hinv Hk Hv Hp Hmap; cbn [protect_pages].
  { split_and!; try done. intros j Hj. lia. }
  destruct (page_addr k Hk ltac:(lia)) as (E1 & E2 & E3).
  assert (E4 : phys +! k *! PMM_PAGE_SIZE = phys + k * 4096).
  { unfold PMM_PAGE_SIZE. rewrite (u32_small (k * 4096)) by (unfold is_u32; lia). apply u32_small. unfold is_u32. lia. }
  rewrite E1, E4. pose proof (paging_map_spec st (va + k * 4096) (phys + k * 4096) PTE_US Hinv
    ltac:(unfold is_u32; lia) ltac:(unfold is_u32; lia)) as Hm.
  destruct (paging_map st _ _ PTE_US) as [st1 rc]. cbv zeta in Hm. rewrite E2 in Hm. destruct Hm as (Hi1 & Hr1 & _ & Hc).
  destruct Hc as [(-> & _ & _ & Hvk & Hvo & _) | (_ & _ & Hbad)]; cbn [fst].
  - destruct (IH st1 (k + 1) Hi1 ltac:(lia) ltac:(lia) ltac:(lia)) as (Hi2 & Hr2 & Ho2 & Hs2).
    { intros j Hj. assert (Hj' : is_page (pg_of va + j)) by (apply page_addr; lia). rewrite Hvo by (done || lia). apply Hmap. lia. }
    split; [done |]. split.
    { destruct Hr1 as (? & ? & ?), Hr2 as (? & ? & ?). split_and!; congruence. }
    split.
    + intros q Hq Hn. rewrite Ho2 by (done || lia). apply Hvo; [done | lia].
    + intros j Hj. destruct (Z.eq_dec j k) as [-> |]; [| apply Hs2; lia]. rewrite Ho2 by (done || lia). done.
  - exfalso. destruct Hbad as [Hb | [Hb | [Hb _]]]; [revert Hb; rewrite Z.mod_add by lia; lia.. |].
    apply (Hmap k); [lia |]. unfold view, walk. by rewrite Hb.
Qed.
End Pages.

(** ** Stores through the page tables *)

Fixpoint write_bytes (m : gmap Z Z) (a : Z) (d : list Z) : gmap Z Z :=
  match d with [] => m | b :: d' => write_bytes (<[a := b]> m) (a + 1) d' end.

Lemma write_bytes_lookup d : forall m a x,
  write_bytes m a d !! x = if (a <=? x) && (x <? a + Z.of_nat (length d)) then d !! Z.to_nat (x - a) else m !! x.
Proof.
  induction d as [| b d IH]; intros m a x; cbn [write_bytes length].
  - destruct (Z.leb_spec a x), (Z.ltb_spec x (a + Z.of_nat 0)); try done. lia.
  - rewrite IH. destruct (Z.eq_dec x a) as [-> |].
    + rewrite lookup_insert_eq, Z.leb_refl, Z.sub_diag.
      destruct (Z.leb_spec (a + 1) a); [lia |]. destruct (Z.ltb_spec a (a + Z.of_nat (S (length d)))); [done | lia].
    + rewrite lookup_insert_ne by done.
      destruct (Z.leb_spec (a + 1) x), (Z.leb_spec a x); cbn [andb]; try lia; [| done].
      destruct (Z.ltb_spec x (a + 1 + Z.of_nat (length d))), (Z.ltb_spec x (a + Z.of_nat (S (length d)))); try lia; [| done].
      replace (Z.to_nat (x - a)) with (S (Z.to_nat (x - (a + 1)))) by lia. done.
Qed.

Lemma vcopy_spec vs phys n fl d : forall w va, vs mod 4096 = 0 -> phys mod 4096 = 0 -> 0 <= vs -> 0 <= phys ->
  vs + n * 4096 <= USER_IMAGE_END -> phys + n * 4096 <= PMM_POOL_END ->
  (forall j, 0 <= j < n -> view (m_pg w) (pg_of vs + j) = Some (pte_val (phys + j * 4096) fl)) ->
  vs <= va -> va + Z.of_nat (length d) <= vs + n * 4096 ->
  vcopy w va d = Some (mk_mach (m_pmm w) (m_pg w) (write_bytes (m_bytes w) (phys + (va - vs)) d)).
Proof.
  unfold USER_IMAGE_END, PMM_POOL_END.
  induction d as [| b d IH]; intros w va Hvs Hph H0 H0' Hve Hpe Hview Hlo Hhi; cbn [vcopy write_bytes length] in *.
  - by destruct w.
  - unfold vstore. rewrite paging_query_view by (unfold is_u32; lia).
    assert (Hq : va / 4096 = pg_of vs + (va - vs) / 4096) by (unfold pg_of; Z.to_euclidean_division_equations; lia).
    assert (Hx : 0 <= (va - vs) / 4096 < n) by (Z.to_euclidean_division_equations; lia).
    rewrite Hq, Hview by lia. cbn [mbind option_bind].
    rewrite pte_val_base, land_fffff000 by (unfold is_u32; lia).
    assert (Ha : phys + (va - vs) / 4096 * 4096 - (phys + (va - vs) / 4096 * 4096) mod 4096 + va mod 4096 = phys + (va - vs)).
    { Z.to_euclidean_division_equations. lia. }
    rewrite Ha, IH; try done; [| lia | lia]. cbn [m_pmm m_pg m_bytes]. by replace (phys + (va - vs) + 1) with (phys + (va + 1 - vs)) by lia.
Qed.

(** ** Loading one segment *)

Definition pool_page (j : Z) : Z := PMM_POOL_START + j * 4096.
Definition used (w : mach) (j : Z) : bool := page_used (g_bitmap (m_pmm w)) j.
Definition vw (w : mach) (q : Z) : option Z := view (m_pg w) q.

Definition seg_flags (ph : elf32_phdr_t) : Z := if p_flags ph &! PF_W =? 0 then PTE_US else PAGING_USR_FLAGS.

(** The byte of the image at an address: from the file, or zero. *)
Definition seg_byte (buf : list Z) (ph : elf32_phdr_t) (va : Z) : Z :=
  if (p_vaddr ph <=? va) && (va <? p_vaddr ph + p_filesz ph)
  then nth (Z.to_nat (p_offset ph + (va - p_vaddr ph))) buf 0 else 0.

Record fits (buf : list Z) (ph : elf32_phdr_t) : Prop := {
  ft_u32 : phdr_u32 ph;
  ft_load : p_type ph = PT_LOAD;
  ft_mem : p_memsz ph <> 0;
  ft_safe : seg_safe (Z.of_nat (length buf)) ph;
}.

Lemma fits_cover buf ph : fits buf ph -> cover ph (seg_va ph) (seg_pages ph).
Proof. intros [? ? ? ?]. by eapply seg_cover. Qed.

(** Clearing the pages and copying the file part: every byte is [seg_byte]. *)
Lemma store_segment buf ph phys fl w : buf_ok buf -> fits buf ph -> phys mod 4096 = 0 -> 0 <= phys ->
  phys + seg_pages ph * 4096 <= PMM_POOL_END ->
  (forall j, 0 <= j < seg_pages ph -> vw w (pg_of (seg_va ph) + j) = Some (pte_val (phys + j * 4096) fl)) ->
  exists m,
    (w1 ← vcopy w (seg_va ph) (replicate (Z.to_nat (seg_pages ph *! PMM_PAGE_SIZE)) 0);
     if p_filesz ph =? 0 then Some w1
     else d ← sub_bytes buf (p_offset ph) (p_filesz ph); vcopy w1 (p_vaddr ph) d) = Some (mk_mach (m_pmm w) (m_pg w) m) /\
    forall x, m !! x = if (phys <=? x) && (x <? phys + seg_pages ph * 4096)
                       then Some (seg_byte buf ph (seg_va ph + (x - phys))) else m_bytes w !! x.
Proof.
  intros Hb Hf Hpa Hp0 Hpe Hv. destruct (fits_cover buf ph Hf) as [C1 C2 C3 C4 C5 C6]. unfold USER_IMAGE_BASE, USER_IMAGE_END in *.
  destruct Hf as [[Ho Hva Hfs Hms] Hl Hm Hs]. destruct (Hs Hl Hm) as (S1 & S2 & S3 & S4). unfold is_u32 in *.
  set (vs := seg_va ph) in *. set (n := seg_pages ph) in *.
  assert (En : n *! PMM_PAGE_SIZE = n * 4096) by (unfold PMM_PAGE_SIZE; apply u32_small; unfold is_u32; lia). rewrite En.
  set (z := replicate (Z.to_nat (n * 4096)) 0). assert (Lz : Z.of_nat (length z) = n * 4096) by (unfold z; rewrite length_replicate; lia).
  pose proof (fun d w' va => vcopy_spec vs phys n fl d w' va C1 Hpa ltac:(lia) Hp0 ltac:(unfold USER_IMAGE_END; lia) Hpe) as Hcopy.
  rewrite Hcopy by (done || lia). cbn [mbind option_bind]. rewrite Z.sub_diag, Z.add_0_r.
  assert (Hz : forall x, write_bytes (m_bytes w) phys z !! x =
    if (phys <=? x) && (x <? phys + n * 4096) then Some 0 else m_bytes w !! x).
  { intros x. rewrite write_bytes_lookup, Lz. destruct (Z.leb_spec phys x), (Z.ltb_spec x (phys + n * 4096)); try done.
    cbn [andb]. unfold z. apply lookup_replicate. split; [done | lia]. }
  destruct (Z.eqb_spec (p_filesz ph) 0) as [F0 | F0].
  - eexists. split; [done |]. intros x. rewrite Hz. destruct (Z.leb_spec phys x), (Z.ltb_spec x (phys + n * 4096)); try done.
    cbn [andb]. f_equal. unfold seg_byte. rewrite F0.
    destruct (Z.leb_spec (p_vaddr ph) (vs + (x - phys))), (Z.ltb_spec (vs + (x - phys)) (p_vaddr ph + 0)); (done || lia).
  - specialize (S4 F0). unfold sub_bytes. destruct (Z.leb_spec (p_offset ph + p_filesz ph) (Z.of_nat (length buf))); [| lia].
    cbn [mbind option_bind]. set (d := take _ _). assert (Ld : Z.of_nat (length d) = p_filesz ph)
      by (unfold d; rewrite length_take, length_drop; lia).
    rewrite Hcopy by (done || lia). cbn [m_pmm m_pg m_bytes]. eexists. split; [done |]. intros x.
    rewrite write_bytes_lookup, Ld, Hz. unfold seg_byte.
    destruct (Z.leb_spec (phys + (p_vaddr ph - vs)) x), (Z.ltb_spec x (phys + (p_vaddr ph - vs) + p_filesz ph)),
      (Z.leb_spec phys x), (Z.ltb_spec x (phys + n * 4096)), (Z.leb_spec (p_vaddr ph) (vs + (x - phys))),
      (Z.ltb_spec (vs + (x - phys)) (p_vaddr ph + p_filesz ph)); cbn [andb]; try lia; try done.
    unfold d. rewrite lookup_take_lt by lia. rewrite lookup_drop.
    replace (Z.to_nat (p_offset ph) + Z.to_nat (x - (phys + (p_vaddr ph - vs))))%nat
      with (Z.to_nat (p_offset ph + (vs + (x - phys) - p_vaddr ph))) by lia.
    rewrite nth_lookup. destruct (lookup_lt_is_Some_2 buf (Z.to_nat (p_offset ph + (vs + (x - phys) - p_vaddr ph))) ltac:(lia)) as [b Eb].
    by rewrite Eb.
Qed.

(** What a segment placed at pool page [f] leaves behind. *)
Record placed (buf : list Z) (ph : elf32_phdr_t) (w w' : mach) (f : Z) : Prop := {
  pl_range : 0 <= f /\ f + seg_pages ph <= PMM_POOL_PAGES;
  pl_free : forall j, f <= j < f + seg_pages ph -> used w j = false;
  pl_used : forall j, 0 <= j < PMM_POOL_PAGES -> used w' j = in_run f (seg_pages ph) j || used w j;
  pl_count : g_used (m_pmm w') = g_used (m_pmm w) + seg_pages ph;
  pl_regs : same_regs (m_pg w) (m_pg w');
  pl_in : forall j, 0 <= j < seg_pages ph -> vw w' (pg_of (seg_va ph) + j) = Some (pte_val (pool_page (f + j)) (seg_flags ph));
  pl_out : forall q, is_page q -> ~ in_pages (seg_va ph) (seg_pages ph) q -> vw w' q = vw w q;
  pl_bytes : forall x, m_bytes w' !! x =
    if (pool_page f <=? x) && (x <? pool_page (f + seg_pages ph)) then Some (seg_byte buf ph (seg_va ph + (x - pool_page f)))
    else m_bytes w !! x;
}.

Definition sys_ok (w : mach) : Prop := pg_inv (m_pg w) /\ pmm_inv (m_pmm w).

(** The state a failed segment leaves before the unwinding: at most some of
    its own pages remapped to pool pages that are free. *)
Record spoilt (ph : elf32_phdr_t) (w w1 : mach) : Prop := {
  sp_used : forall j, 0 <= j < PMM_POOL_PAGES -> used w1 j = used w j;
  sp_regs : same_regs (m_pg w) (m_pg w1);
  sp_out : forall q, is_page q -> ~ in_pages (seg_va ph) (seg_pages ph) q -> vw w1 q = vw w q;
  sp_in : forall q, is_page q -> vw w1 q = vw w q \/
    exists j fl, vw w1 q = Some (pte_val (pool_page j) fl) /\ 0 <= j < PMM_POOL_PAGES /\ used w j = false;
  sp_bytes : m_bytes w1 = m_bytes w;
}.

Lemma seg_range : forall f n, 0 <= f -> f + n <= PMM_POOL_PAGES -> 1 <= n ->
  pool_page f mod 4096 = 0 /\ 0 <= pool_page f /\ pool_page f + n * 4096 <= PMM_POOL_END /\ pool_page f < 2 ^ 32
  /\ idx_of (pool_page f) = f.
Proof.
  unfold pool_page, idx_of, PMM_POOL_PAGES, PMM_POOL_START, PMM_POOL_END, PMM_PAGE_SIZE. intros f n Hf Hn Hp.
  change ((16777216 - 10485760) / 4096) with 1536 in Hn.
  rewrite u32_small by (unfold is_u32; lia). split; [rewrite Z.mod_add by lia; done |]. split; [lia |]. split; [lia |]. split; [lia |].
  replace (10485760 + f * 4096 - 10485760) with (f * 4096) by lia. apply Z.div_mul. lia.
Qed.

(** Giving a run back right after it was taken restores the used pages. *)
Lemma free_after_alloc (pm pm' : pmm_state) f n : pmm_inv pm' -> 0 <= f -> f + n <= PMM_POOL_PAGES -> 1 <= n ->
  free_run (g_bitmap pm) f n ->
  (forall j, 0 <= j < PMM_POOL_PAGES -> page_used (g_bitmap pm') j = in_run f n j || page_used (g_bitmap pm) j) ->
  pmm_inv (fst (pmm_free_pages pm' (pool_page f) n)) /\
  forall j, 0 <= j < PMM_POOL_PAGES ->
    page_used (g_bitmap (fst (pmm_free_pages pm' (pool_page f) n))) j = page_used (g_bitmap pm) j.
Proof.
  intros Hi Hf Hn Hp Hfree Hu. destruct (seg_range f n Hf Hn Hp) as (P1 & P2 & P3 & P4 & P5).
  unfold PMM_POOL_PAGES, PMM_POOL_END, PMM_POOL_START, PMM_PAGE_SIZE in *. change ((16777216 - 10485760) / 4096) with 1536 in *.
  pose proof (pmm_free_pages_spec pm' (pool_page f) n Hi ltac:(unfold is_u32; lia) ltac:(unfold is_u32; lia)) as Hs.
  destruct (pmm_free_pages pm' (pool_page f) n) as [pm2 rc]. cbv zeta in Hs. rewrite P5 in Hs. destruct Hs as [Hi2 Hc]. cbn [fst].
  split; [done |]. intros j Hj. destruct Hc as [(_ & _ & _ & _ & Hc) | (_ & _ & Hbad)]; [rewrite Hc by done | destruct Hbad].
  - rewrite Hu by done. destruct (in_run f n j) eqn:Er; [| done]. unfold in_run in Er. btrue. cbn. by rewrite Hfree by lia.
  - split; [unfold range_in_pool, PMM_POOL_START, PMM_POOL_END; unfold pool_page, PMM_POOL_START in *; split_and!; lia |].
    intros i Hir. rewrite Hu by lia. unfold in_run. destruct (Z.leb_spec f i), (Z.ltb_spec i (f + n)); (done || lia).
Qed.

Lemma pool_page_add f j : pool_page f + j * 4096 = pool_page (f + j).
Proof. unfold pool_page. lia. Qed.

Lemma load_segment_spec buf ph w img : buf_ok buf -> fits buf ph -> sys_ok w ->
  Z.of_nat (length (i_segs img)) < ELF_MAX_SEG ->
  match load_segment buf ph w img with
  | Loaded w' img' => sys_ok w' /\ exists f, placed buf ph w w' f
      /\ i_segs img' = i_segs img ++ [mk_seg (seg_va ph) (seg_pages ph) (pool_page f)]
  | Failed w' _ => exists w1, w' = unwind w1 (i_segs img) /\ sys_ok w1 /\ spoilt ph w w1
  | LFault => False
  end.
Proof.
  intros Hb Hf [Hpg Hpm] Hlen. pose proof (fits_cover buf ph Hf) as [C1 C2 C3 C4 C5 C6]. unfold load_segment.
  change (p_vaddr ph &! ~! (PMM_PAGE_SIZE - 1)) with (seg_va ph).
  change ((align_up (p_vaddr ph +! p_memsz ph) PMM_PAGE_SIZE -! seg_va ph) / PMM_PAGE_SIZE) with (seg_pages ph).
  set (vs := seg_va ph) in *. set (n := seg_pages ph) in *. cbv zeta. unfold USER_IMAGE_BASE, USER_IMAGE_END in C2, C3.
  destruct (Z.leb_spec ELF_MAX_SEG (Z.of_nat (length (i_segs img)))); [lia |].
  pose proof (pmm_alloc_pages_first_fit_spec (m_pmm w) n Hpm ltac:(unfold is_u32; lia)) as Ha.
  destruct (pmm_alloc_pages (m_pmm w) n) as [pm phys]. destruct Ha as [Hpm1 Ha].
  destruct Ha as [(-> & -> & _) | (f & -> & Hf0 & Hfn & Hfree & _ & Hcnt & Hused)].
  { rewrite Z.eqb_refl. exists (set_pmm w (m_pmm w)). split; [done |]. split; [done |].
    constructor; try done. by intros; left. }
  change (PMM_POOL_START + f * PMM_PAGE_SIZE) with (pool_page f).
  destruct (seg_range f n Hf0 Hfn C4) as (P1 & P2 & P3 & P4 & P5).
  destruct (Z.eqb_spec (pool_page f) 0); [unfold pool_page, PMM_POOL_START in *; lia |].
  pose proof (map_pages_spec vs (pool_page f) C1 ltac:(lia) P2 PAGING_USR_FLAGS (Z.to_nat n) (m_pg (set_pmm w pm)) 0 Hpg ltac:(lia)
    ltac:(unfold USER_IMAGE_END; lia) ltac:(lia)) as Hm.
  destruct (map_pages _ _ vs _ _ 0) as [pg ok]. rewrite Z2Nat.id, !Z.add_0_r, !Z.add_0_l in Hm by lia.
  destruct Hm as (Hpg1 & Hr1 & Ho1 & Ha1 & Hi1). cbn [m_pg set_pmm m_pmm set_pg].
  destruct ok; cbn [negb].
  - set (w1 := set_pg (set_pmm w pm) pg).
    destruct (store_segment buf ph (pool_page f) PAGING_USR_FLAGS w1 Hb Hf P1 P2 P3) as (m & Em & Hm).
    { intros j Hj. by apply Hi1. }
    fold n vs in Em, Hm. rewrite Em. cbn [m_pmm m_pg w1 set_pg set_pmm m_bytes] in Hm |- *.
    assert (Hvis : forall j, 0 <= j < n -> view pg (pg_of vs + j) = Some (pte_val (pool_page (f + j)) PAGING_USR_FLAGS))
      by (intros j Hj; rewrite Hi1 by done; by rewrite pool_page_add).
    destruct (Z.eqb_spec (p_flags ph &! PF_W) 0) as [Hro | Hrw].
    + destruct (protect_pages_spec vs (pool_page f) C1 P1 ltac:(lia) P2 (Z.to_nat n) pg 0 Hpg1 ltac:(lia)
        ltac:(unfold USER_IMAGE_END; lia) ltac:(lia)) as (Hpg2 & Hr2 & Ho2 & Hi2).
      { intros j Hj. rewrite Hvis by lia. done. }
      rewrite Z2Nat.id, !Z.add_0_r in Ho2 by lia. rewrite Z2Nat.id in Hi2 by lia.
      split; [done |]. exists f. split; [| done]. constructor; try done.
      * destruct Hr1 as (? & ? & ?), Hr2 as (? & ? & ?). split_and!; cbn in *; congruence.
      * intros j Hj. unfold vw, seg_flags. rewrite Hro. cbn [m_pg set_pg]. fold vs. rewrite Hi2 by lia. by rewrite pool_page_add.
      * intros q Hq Hn. unfold vw. cbn [m_pg set_pg]. rewrite Ho2 by done. by apply Ho1.
      * intros x. cbn [m_bytes set_pg]. rewrite Hm. fold n. by rewrite pool_page_add.
    + split; [done |]. exists f. split; [| done]. constructor; try done.
      * intros j Hj. unfold vw, seg_flags. destruct (Z.eqb_spec (p_flags ph &! PF_W) 0); [done |]. by apply Hvis.
      * intros x. cbn [m_bytes]. rewrite Hm. fold n. by rewrite pool_page_add.
  - destruct (free_after_alloc (m_pmm w) pm f n Hpm1 Hf0 Hfn C4 Hfree Hused) as [Hpm2 Hu2].
    eexists. split; [done |]. split; [done |]. constructor; try done.
    intros q Hq. unfold vw. cbn [m_pg set_pmm set_pg]. destruct (Ha1 q Hq) as [-> | (j & Hj & E)]; [by left | right].
    exists (f + j), PAGING_USR_FLAGS. rewrite E, pool_page_add. split; [done |].
    split; [lia |]. apply Hfree. lia.
Qed.

(** ** Confinement *)

(** Not mapped, or mapped to a pool page that was free in [w0]. *)
Definition fresh_view (w0 : mach) (v : option Z) : Prop :=
  v = None \/ exists j fl, v = Some (pte_val (pool_page j) fl) /\ 0 <= j < PMM_POOL_PAGES /\ used w0 j = false.
Definition image_page (q : Z) : Prop := USER_IMAGE_BASE / 4096 <= q < USER_IMAGE_END / 4096.
Definition image_run (s : seg) : Prop :=
  s_va s mod 4096 = 0 /\ USER_IMAGE_BASE <= s_va s /\ s_va s + s_pages s * 4096 <= USER_IMAGE_END /\ 0 <= s_pages s.

(** What loading may have done to a machine: pages used before are still used,
    only image pages are remapped, and only to pages that were free, and only
    bytes of such pages are written. *)
Record confined (w0 w : mach) : Prop := {
  cf_sys : sys_ok w;
  cf_regs : same_regs (m_pg w0) (m_pg w);
  cf_kept : forall j, 0 <= j < PMM_POOL_PAGES -> used w0 j = true -> used w j = true;
  cf_view : forall q, is_page q -> vw w q = vw w0 q \/ (image_page q /\ fresh_view w0 (vw w q));
  cf_bytes : forall x, m_bytes w !! x = m_bytes w0 !! x \/
    exists j, 0 <= j < PMM_POOL_PAGES /\ used w0 j = false /\ pool_page j <= x < pool_page (j + 1);
}.
Definition seg_fresh (w0 w : mach) (s : seg) : Prop :=
  image_run s /\ forall q, in_pages (s_va s) (s_pages s) q -> fresh_view w0 (vw w q).

Lemma image_run_page s q : image_run s -> in_pages (s_va s) (s_pages s) q -> image_page q /\ is_page q.
Proof.
  unfold image_run, in_pages, image_page, pg_of, is_page, USER_IMAGE_BASE, USER_IMAGE_END. intros (H1 & H2 & H3 & H4) Hq.
  change (4194304 / 4096) with 1024. change (8388608 / 4096) with 2048. Z.to_euclidean_division_equations. lia.
Qed.

Lemma cover_run buf ph p : fits buf ph -> image_run (mk_seg (seg_va ph) (seg_pages ph) p).
Proof. intros Hf. destruct (fits_cover buf ph Hf). unfold image_run. cbn. split_and!; (done || lia). Qed.

Lemma same_regs_trans a b c : same_regs a b -> same_regs b c -> same_regs a c.
Proof. intros (? & ? & ?) (? & ? & ?). split_and!; congruence. Qed.

Lemma placed_confined buf ph w0 w w' f segs : fits buf ph -> confined w0 w -> Forall (seg_fresh w0 w) segs ->
  sys_ok w' -> placed buf ph w w' f ->
  confined w0 w' /\ Forall (seg_fresh w0 w') (segs ++ [mk_seg (seg_va ph) (seg_pages ph) (pool_page f)]).
Proof.
  intros Hf [S R K V B] Hs Hs' [P1 P2 P3 P4 P5 P6 P7 P8]. pose proof (cover_run buf ph (pool_page f) Hf) as Hrun.
  assert (Hfresh : forall j, f <= j < f + seg_pages ph -> used w0 j = false).
  { intros j Hj. destruct (used w0 j) eqn:E; [| done]. apply K in E; [| lia]. by rewrite P2 in E. }
  assert (Hnew : forall q, in_pages (seg_va ph) (seg_pages ph) q -> image_page q /\ fresh_view w0 (vw w' q)).
  { intros q Hq. split; [by apply (image_run_page _ q Hrun) |]. right. unfold in_pages in Hq.
    exists (f + (q - pg_of (seg_va ph))), (seg_flags ph).
    rewrite <- P6 by lia. split; [f_equal; lia |]. split; [lia | apply Hfresh; lia]. }
  assert (Hold : forall q, is_page q -> vw w' q = vw w q \/ (image_page q /\ fresh_view w0 (vw w' q))).
  { intros q Hq. unfold in_pages in *. destruct (decide (pg_of (seg_va ph) <= q < pg_of (seg_va ph) + seg_pages ph)) as [Hi | Hi].
    - right. by apply Hnew. - left. by apply P7. }
  split.
  - constructor; [done | by eapply same_regs_trans | | |].
    + intros j Hj Hu. rewrite P3 by done. rewrite (K j Hj Hu). apply orb_true_r.
    + intros q Hq. destruct (Hold q Hq) as [-> | ?]; [by apply V | by right].
    + intros x. rewrite P8. destruct ((pool_page f <=? x) && _) eqn:E; [right | apply B]. btrue.
      unfold pool_page in *. exists ((x - PMM_POOL_START) / 4096).
      assert (Hx : f <= (x - PMM_POOL_START) / 4096 < f + seg_pages ph) by (Z.to_euclidean_division_equations; lia).
      split; [lia |]. split; [by apply Hfresh | Z.to_euclidean_division_equations; lia].
  - apply Forall_app. split; [| constructor; [| constructor]].
    + eapply Forall_impl; [exact Hs |]. intros s [Hr Hv]. split; [done |]. intros q Hq.
      destruct (image_run_page s q Hr Hq) as [_ Hpq]. destruct (Hold q Hpq) as [-> | [_ ?]]; [by apply Hv | done].
    + split; [done |]. intros q Hq. by apply Hnew.
Qed.

Lemma spoilt_confined buf ph w0 w w1 segs : fits buf ph -> confined w0 w -> Forall (seg_fresh w0 w) segs ->
  sys_ok w1 -> spoilt ph w w1 -> confined w0 w1 /\ Forall (seg_fresh w0 w1) segs.
Proof.
  intros Hf [S R K V B] Hs Hs1 [P1 P2 P3 P4 P5]. pose proof (cover_run buf ph 0 Hf) as Hrun.
  assert (Hold : forall q, is_page q -> vw w1 q = vw w q \/ (image_page q /\ fresh_view w0 (vw w1 q))).
  { intros q Hq. destruct (P4 q Hq) as [| (j & fl & E & Hj & Hu)]; [by left |].
    destruct (decide (pg_of (seg_va ph) <= q < pg_of (seg_va ph) + seg_pages ph)) as [Hi | Hi]; [right | left; by apply P3].
    split; [by apply (image_run_page _ q Hrun) |]. right. exists j, fl. split; [done |]. split; [done |].
    destruct (used w0 j) eqn:E0; [| done]. apply K in E0; [congruence | done]. }
  split.
  - constructor; [done | by eapply same_regs_trans | | | by rewrite P5].
    + intros j Hj Hu. rewrite P1 by done. by apply K.
    + intros q Hq. destruct (Hold q Hq) as [-> | ?]; [by apply V | by right].
  - eapply Forall_impl; [exact Hs |]. intros s [Hr Hv]. split; [done |]. intros q Hq.
    destruct (image_run_page s q Hr Hq) as [_ Hpq]. destruct (Hold q Hpq) as [-> | [_ ?]]; [by apply Hv | done].
Qed.

(** Freeing one page of the pool touches no other. *)
Lemma free_page_spec pm j : pmm_inv pm -> 0 <= j < PMM_POOL_PAGES ->
  pmm_inv (fst (pmm_free_page pm (pool_page j))) /\
  forall i, 0 <= i < PMM_POOL_PAGES ->
    page_used (g_bitmap (fst (pmm_free_page pm (pool_page j)))) i = negb (i =? j) && page_used (g_bitmap pm) i.
Proof.
  intros Hi Hj. destruct (seg_range j 1 ltac:(lia) ltac:(lia) ltac:(lia)) as (P1 & P2 & P3 & P4 & P5).
  unfold pmm_free_page. pose proof (pmm_free_pages_spec pm (pool_page j) 1 Hi ltac:(unfold is_u32; lia) ltac:(done)) as Hs.
  destruct (pmm_free_pages pm (pool_page j) 1) as [pm' rc]. cbv zeta in Hs. rewrite P5 in Hs. destruct Hs as [Hi' Hc]. split; [done |].
  intros i Hir. cbn [fst]. destruct Hc as [(_ & _ & _ & _ & Hc) | (_ & -> & Hbad)].
  - rewrite Hc by done. f_equal. f_equal. unfold in_run. destruct (Z.leb_spec j i), (Z.ltb_spec i (j + 1)), (Z.eqb_spec i j); (done || lia).
  - destruct (Z.eqb_spec i j) as [-> |]; [| done]. cbn. destruct (page_used (g_bitmap pm) j) eqn:E; [| done].
    exfalso. apply Hbad. split; [| intros k Hk; by replace k with j by lia].
    unfold range_in_pool. unfold pool_page, PMM_POOL_START, PMM_POOL_END in *. split_and!; lia.
Qed.

Lemma unwind_pages_confined w0 segs n : forall w va, confined w0 w -> Forall (seg_fresh w0 w) segs ->
  va mod 4096 = 0 -> USER_IMAGE_BASE <= va -> va + Z.of_nat n * 4096 <= USER_IMAGE_END ->
  (forall q, in_pages va (Z.of_nat n) q -> fresh_view w0 (vw w q)) ->
  confined w0 (unwind_pages n w va) /\ Forall (seg_fresh w0 (unwind_pages n w va)) segs.
Proof.
  induction n as [| n IH]; intros w va Hc Hs Hva H0 He Hv; cbn [unwind_pages]; [done |].
  unfold USER_IMAGE_BASE, USER_IMAGE_END in *.
  assert (Hva32 : is_u32 va) by (unfold is_u32; lia).
  assert (Hq : is_page (va / 4096) /\ image_page (va / 4096)).
  { unfold is_page, image_page, USER_IMAGE_BASE, USER_IMAGE_END. change (4194304 / 4096) with 1024. change (8388608 / 4096) with 2048.
    Z.to_euclidean_division_equations. lia. }
  destruct Hq as [Hq Hqi].
  assert (Hva1 : va +! PMM_PAGE_SIZE = va + 4096) by (apply u32_small; unfold is_u32, PMM_PAGE_SIZE; lia). rewrite Hva1.
  assert (Hpg1 : pg_of (va + 4096) = pg_of va + 1) by (unfold pg_of; Z.to_euclidean_division_equations; lia).
  set (w1 := match paging_query (m_pg w) va with Some (phys, _) => _ | None => w end).
  assert (Hw1 : confined w0 w1 /\ m_pg w1 = m_pg w).
  { unfold w1. rewrite paging_query_view by done. specialize (Hv (va / 4096) ltac:(unfold in_pages, pg_of; lia)).
    unfold vw in Hv. destruct Hv as [-> | (j & fl & -> & Hj & Hu)]; [done |].
    destruct (seg_range j 1 ltac:(lia) ltac:(lia) ltac:(lia)) as (P1 & P2 & P3 & P4 & _).
    rewrite pte_val_base, land_fffff000, P1, Z.sub_0_r by (unfold is_u32; lia). split; [| done].
    destruct Hc as [[S1 S2] R K V B]. destruct (free_page_spec (m_pmm w) j S2 Hj) as [F1 F2].
    constructor; try done. intros i Hi E. unfold used. cbn [m_pmm set_pmm]. rewrite F2 by done.
    destruct (Z.eqb_spec i j) as [-> |]; [congruence | by apply K]. }
  destruct Hw1 as [Hc1 Epg]. clearbody w1.
  pose proof (paging_unmap_spec (m_pg w1) va (proj1 (cf_sys _ _ Hc1)) Hva32) as Hun. cbv zeta in Hun.
  destruct Hun as (U1 & U2 & _ & U3 & U4 & _).
  assert (Hvw : forall q, is_page q -> vw (set_pg w1 (paging_unmap (m_pg w1) va)) q = vw w q \/
    (q = va / 4096 /\ vw (set_pg w1 (paging_unmap (m_pg w1) va)) q = None)).
  { intros q Hpq. unfold vw. cbn [m_pg set_pg]. destruct (Z.eq_dec q (va / 4096)) as [-> |]; [by right | left].
    rewrite U4 by done. by rewrite Epg. }
  apply IH.
  - destruct Hc1 as [[S1 S2] R K V B]. constructor; try done; [by eapply same_regs_trans |].
    intros q Hpq. destruct (Hvw q Hpq) as [E | [-> E]]; rewrite E; [| right; split; [done | by left]].
    unfold vw in *. rewrite <- Epg. by apply V.
  - eapply Forall_impl; [exact Hs |]. intros s [Hr Hsv]. split; [done |]. intros q Hpq.
    destruct (image_run_page s q Hr Hpq) as [_ Hpage]. destruct (Hvw q Hpage) as [E | [_ E]]; rewrite E; [by apply Hsv | by left].
  - Z.to_euclidean_division_equations. lia.
  - lia.
  - lia.
  - intros q Hpq. unfold in_pages in Hpq. rewrite Hpg1 in Hpq.
    assert (Hpage : is_page q) by (unfold is_page, pg_of in *; Z.to_euclidean_division_equations; lia).
    destruct (Hvw q Hpage) as [E | [_ E]]; rewrite E; [apply Hv; unfold in_pages; lia | by left].
Qed.

Lemma unwind_confined w0 segs : forall w, confined w0 w -> Forall (seg_fresh w0 w) segs -> confined w0 (unwind w segs).
Proof.
  induction segs as [| s segs IH]; intros w Hc Hs; cbn [unwind]; [done |].
  apply Forall_cons in Hs as [[(R1 & R2 & R3 & R4) Hv] Hs].
  destruct (unwind_pages_confined w0 segs (Z.to_nat (s_pages s)) w (s_va s) Hc Hs R1 R2) as [H1 H2];
    [rewrite Z2Nat.id; lia | rewrite Z2Nat.id by lia; done |]. by apply IH.
Qed.

Lemma confined_refl w : sys_ok w -> confined w w.
Proof. intros H. constructor; try done; intros; by left. Qed.

(** ** Accounting of the pages of an image *)

Definition covers (j : Z) (s : seg) : bool :=
  (s_phys s <=? pool_page j) && (pool_page j <? s_phys s + s_pages s * 4096).
Definition pool_run (s : seg) : Prop :=
  exists f, s_phys s = pool_page f /\ 0 <= f /\ f + s_pages s <= PMM_POOL_PAGES /\ 1 <= s_pages s.
Definition apart (segs : list seg) : Prop :=
  forall i k s t, segs !! i = Some s -> segs !! k = Some t -> i <> k -> forall j, covers j s = true -> covers j t = false.

Record acct (w0 w : mach) (segs : list seg) : Prop := {
  at_run : Forall pool_run segs;
  at_used : forall j, 0 <= j < PMM_POOL_PAGES -> used w j = existsb (covers j) segs || used w0 j;
  at_free : Forall (fun s => forall j, 0 <= j < PMM_POOL_PAGES -> covers j s = true -> used w0 j = false) segs;
  at_apart : apart segs;
}.

Lemma covers_run f va n j : covers j (mk_seg va n (pool_page f)) = in_run f n j.
Proof.
  unfold covers, in_run, pool_page. cbn [s_phys s_pages].
  destruct (Z.leb_spec (PMM_POOL_START + f * 4096) (PMM_POOL_START + j * 4096)), (Z.leb_spec f j),
    (Z.ltb_spec (PMM_POOL_START + j * 4096) (PMM_POOL_START + f * 4096 + n * 4096)), (Z.ltb_spec j (f + n)); (done || lia).
Qed.

Lemma covers_range j s : pool_run s -> covers j s = true -> 0 <= j < PMM_POOL_PAGES.
Proof.
  destruct s as [va n p]. intros (f & E & H1 & H2 & H3). cbn in *. rewrite E, covers_run. unfold in_run. intros Hc. btrue. lia.
Qed.

Lemma existsb_false_mem {A} (p : A -> bool) l x : existsb p l = false -> x ∈ l -> p x = false.
Proof.
  intros He Hx. destruct (p x) eqn:E; [| done]. rewrite <- He. symmetry. apply existsb_exists. exists x.
  split; [by apply list_elem_of_In | done].
Qed.

Lemma placed_acct buf ph w0 w w' f segs : fits buf ph -> acct w0 w segs -> placed buf ph w w' f ->
  acct w0 w' (segs ++ [mk_seg (seg_va ph) (seg_pages ph) (pool_page f)]).
Proof.
  intros Hf [R U F A] [P1 P2 P3 _ _ _ _ _]. destruct (fits_cover buf ph Hf) as [_ _ _ C4 _ _].
  set (s := mk_seg _ _ _). assert (Hs : pool_run s) by (exists f; unfold s; cbn; split_and!; (done || lia)).
  assert (Hcov : forall j, covers j s = true -> 0 <= j < PMM_POOL_PAGES /\ used w j = false).
  { intros j Hj. split; [by eapply covers_range |]. unfold s in Hj. rewrite covers_run in Hj. unfold in_run in Hj. btrue. apply P2. lia. }
  assert (Hdis : forall j t, t ∈ segs -> covers j s = true -> covers j t = false).
  { intros j t Ht Hj. destruct (Hcov j Hj) as [Hr Hu]. rewrite U in Hu by done. btrue. by eapply existsb_false_mem. }
  constructor.
  - apply Forall_app. split; [done | by constructor].
  - intros j Hj. rewrite P3 by done. rewrite existsb_app, U by done. cbn [existsb]. unfold s. rewrite covers_run, orb_false_r.
    by destruct (in_run f _ j), (existsb (covers j) segs).
  - apply Forall_app. split; [done |]. constructor; [| constructor]. intros j _ Hj. destruct (Hcov j Hj) as [Hr Hu].
    rewrite U in Hu by done. by btrue.
  - intros i k a b Ha Hb Hne j Hj. apply lookup_snoc_Some in Ha, Hb.
    destruct Ha as [[_ Ha] | [-> ->]], Hb as [[_ Hb] | [-> ->]].
    + exact (A i k a b Ha Hb Hne j Hj).
    + destruct (covers j b) eqn:E; [| done]. rewrite (Hdis j a) in Hj; [done | by eapply list_elem_of_lookup_2 | done].
    + apply Hdis; [by eapply list_elem_of_lookup_2 | done].
    + done.
Qed.

(** ** Unloading *)

Lemma unload_pages_spec f n : forall w va k, sys_ok w -> va mod 4096 = 0 -> USER_IMAGE_BASE <= va ->
  va + Z.of_nat n * 4096 <= USER_IMAGE_END -> 0 <= f -> 0 <= k -> f + k + Z.of_nat n <= PMM_POOL_PAGES ->
  let w' := unload_pages n w va (pool_page f) k in
  sys_ok w' /\
  (forall j, 0 <= j < PMM_POOL_PAGES -> used w' j = negb (in_run (f + k) (Z.of_nat n) j) && used w j) /\
  (forall q, is_page q -> vw w' q = if decide (in_pages va (Z.of_nat n) q) then None else vw w q).
Proof.
  unfold in_pages. induction n as [| n IH]; intros w va k Hw Hva H0 He Hf Hk Hn; cbn [unload_pages].
  - split_and!; [done | |].
    + intros j Hj. unfold in_run. destruct (Z.leb_spec (f + k) j), (Z.ltb_spec j (f + k + Z.of_nat 0)); (done || lia).
    + intros q Hq. destruct (decide _); [lia | done].
  - unfold USER_IMAGE_BASE, USER_IMAGE_END in *.
    assert (Ha : pool_page f +! k *! PMM_PAGE_SIZE = pool_page (f + k)).
    { destruct (seg_range (f + k) 1 ltac:(lia) ltac:(lia) ltac:(lia)) as (_ & P2 & _ & P4 & _).
      unfold PMM_PAGE_SIZE. assert (k * 4096 < 2 ^ 32) by (unfold pool_page, PMM_POOL_START in *; lia).
      rewrite (u32_small (k * 4096)) by (unfold is_u32; lia). rewrite pool_page_add. apply u32_small. unfold is_u32. lia. }
    assert (Hva1 : va +! PMM_PAGE_SIZE = va + 4096) by (apply u32_small; unfold is_u32, PMM_PAGE_SIZE; lia).
    assert (Hpg1 : pg_of (va + 4096) = pg_of va + 1) by (unfold pg_of; Z.to_euclidean_division_equations; lia).
    assert (Hq0 : is_page (pg_of va)) by (unfold is_page, pg_of; Z.to_euclidean_division_equations; lia).
    rewrite Ha, Hva1. destruct Hw as [S1 S2].
    destruct (free_page_spec (m_pmm w) (f + k) S2 ltac:(lia)) as [F1 F2].
    pose proof (paging_unmap_spec (m_pg w) va S1 ltac:(unfold is_u32; lia)) as Hun. cbv zeta in Hun.
    destruct Hun as (U1 & _ & _ & U3 & U4 & _). fold (pg_of va) in U3, U4.
    set (w1 := set_pg _ _). destruct (IH w1 (va + 4096) (k + 1)) as (I1 & I2 & I3); try done; [ | lia.. |].
    { Z.to_euclidean_division_equations. lia. }
    split; [done |]. split.
    + intros j Hj. rewrite I2 by done. unfold used at 1. cbn [w1 m_pmm set_pg set_pmm]. rewrite F2 by done. rewrite andb_assoc.
      f_equal. unfold in_run.
      destruct (Z.leb_spec (f + (k + 1)) j), (Z.ltb_spec j (f + (k + 1) + Z.of_nat n)), (Z.eqb_spec j (f + k)),
        (Z.leb_spec (f + k) j), (Z.ltb_spec j (f + k + Z.of_nat (S n))); (done || lia).
    + intros q Hq. rewrite I3 by done. rewrite Hpg1. unfold vw. cbn [w1 m_pg set_pg].
      destruct (decide (pg_of va + 1 <= q < _)), (decide (pg_of va <= q < _)); try done; try lia.
      * replace q with (pg_of va) by lia. done.
      * apply U4; [done | lia].
Qed.

Lemma unload_segs_spec w0 segs : forall w, sys_ok w -> acct w0 w segs -> Forall image_run segs ->
  let w' := unload_segs w segs in
  sys_ok w' /\ (forall j, 0 <= j < PMM_POOL_PAGES -> used w' j = used w0 j) /\
  (forall q, is_page q -> vw w' q =
     if decide (Exists (fun s => in_pages (s_va s) (s_pages s) q) segs) then None else vw w q).
Proof.
  induction segs as [| s segs IH]; intros w Hw [R U F A] Hi; cbn [unload_segs].
  - split_and!; [done | done |]. intros q Hq. destruct (decide _) as [H |]; [by apply Exists_nil in H | done].
  - apply Forall_cons in R as [(f & Ef & R1 & R2 & R3) R], F as [F1 F], Hi as [(I1 & I2 & I3 & I4) Hi].
    rewrite Ef. destruct (unload_pages_spec f (Z.to_nat (s_pages s)) w (s_va s) 0 Hw I1 I2) as (S1 & S2 & S3); [lia.. |].
    rewrite Z2Nat.id, Z.add_0_r in S2 by lia. rewrite Z2Nat.id in S3 by lia.
    set (w1 := unload_pages _ _ _ _ _) in *.
    assert (Ec : forall j, covers j s = in_run f (s_pages s) j) by (intros j; destruct s; cbn in *; subst; apply covers_run).
    destruct (IH w1 S1) as (J1 & J2 & J3); [constructor; try done | done |].
    + intros j Hj. rewrite S2, U by done. cbn [existsb]. rewrite <- Ec. destruct (covers j s) eqn:E; [| done]. cbn [negb andb orb].
      rewrite F1 by done. rewrite orb_false_r. symmetry. apply not_true_iff_false. intros (t & Ht & Hc)%existsb_exists.
      apply list_elem_of_In, list_elem_of_lookup in Ht as (k & Hk). by rewrite (A 0%nat (S k) s t eq_refl Hk ltac:(done) j E) in Hc.
    + intros i k a b Ha Hb Hne. apply (A (S i) (S k)); (done || congruence).
    + split; [done |]. split; [done |]. intros q Hq. rewrite J3, S3 by done.
      destruct (decide (Exists _ segs)) as [Hx | Hx], (decide (Exists _ (s :: segs))) as [Hy | Hy]; try done.
      * destruct Hy. by right.
      * apply Exists_cons in Hy as [Hy | Hy]; [| done]. by destruct (decide (in_pages _ _ _)).
      * destruct (decide (in_pages _ _ _)); [| done]. destruct Hy. by left.
Qed.

(** ** The whole file *)

Definition load_post (w0 : mach) (r : lresult) : Prop :=
  match r with
  | Loaded w' img => confined w0 w' /\ Forall (seg_fresh w0 w') (i_segs img) /\ acct w0 w' (i_segs img)
  | Failed w' _ => confined w0 w'
  | LFault => False
  end.

Lemma load_segments_spec buf phoff w0 : buf_ok buf -> 0 <= phoff -> forall n i w img, 0 <= i ->
  phoff + (i + Z.of_nat n) * PHDR_SIZE <= Z.of_nat (length buf) ->
  (forall j, i <= j < i + Z.of_nat n -> seg_at buf phoff j (seg_safe (Z.of_nat (length buf)))) ->
  Z.of_nat (length (i_segs img)) + Z.of_nat n <= ELF_MAX_SEG ->
  load_post w0 (Loaded w img) -> load_post w0 (load_segments n buf phoff i w img).
Proof.
  intros Hb Hpo. induction n as [| n IH]; intros i w img Hi Hlim Hsafe Hlen Hpost; cbn [load_segments]; [done |].
  unfold PHDR_SIZE in Hlim.
  destruct (read_phdr_some buf (phoff + i * PHDR_SIZE) Hb) as (ph & E & Hu); [unfold PHDR_SIZE; lia | unfold PHDR_SIZE; lia |].
  rewrite E. assert (Hnext : forall w img, Z.of_nat (length (i_segs img)) + Z.of_nat n <= ELF_MAX_SEG ->
    load_post w0 (Loaded w img) -> load_post w0 (load_segments n buf phoff (i + 1) w img)).
  { intros w1 img1 H1 H2. apply IH; [lia | unfold PHDR_SIZE; lia | intros j Hj; apply Hsafe; lia | done | done]. }
  destruct (negb (p_type ph =? PT_LOAD) || (p_memsz ph =? 0)) eqn:Es; [apply Hnext; [lia | done] |]. btrue.
  assert (Hf : fits buf ph) by (constructor; [done | done | done | by apply (Hsafe i); [lia |]]).
  destruct Hpost as (Hc & Hs & Ha).
  pose proof (load_segment_spec buf ph w img Hb Hf (cf_sys _ _ Hc) ltac:(lia)) as Hl.
  destruct (load_segment buf ph w img) as [w1 img1 | w1 why |]; [| | done].
  - destruct Hl as (Hsys & f & Hp & Eseg). apply Hnext; [rewrite Eseg, length_app; simpl; lia |]. cbn [load_post]. rewrite Eseg.
    destruct (placed_confined buf ph w0 w w1 f _ Hf Hc Hs Hsys Hp) as [? ?]. split_and!; [done | done |].
    by eapply placed_acct.
  - destruct Hl as (w2 & -> & Hsys & Hsp). destruct (spoilt_confined buf ph w0 w w2 _ Hf Hc Hs Hsys Hsp) as [? ?].
    by apply unwind_confined.
Qed.

Lemma acct_nil w : acct w w [].
Proof. constructor; try done. Qed.

Lemma elf_load_post buf w : buf_ok buf -> sys_ok w -> load_post w (elf_load buf w).
Proof.
  intros Hb Hw. unfold elf_load. destruct (elf_validate_decides buf Hb) as (v & -> & Hv).
  destruct v; [| by apply confined_refl].
  destruct Hv as [Hv _]. destruct (Hv eq_refl) as [_ (eh & Eh & Hs & _ & _ & _ & _ & Hn & Hlim & _ & Hsafe)].
  rewrite Eh. destruct (read_ehdr_some buf Hb Hs) as (eh' & E & [_ Hpo _]). rewrite Eh in E. injection E as <-.
  unfold is_u32 in Hpo. unfold ELF_MAX_SEG in Hn.
  pose proof (load_segments_spec buf (e_phoff eh) w Hb ltac:(lia) (Z.to_nat (e_phnum eh)) 0 w img_empty ltac:(lia)
    ltac:(rewrite Z2Nat.id by lia; lia)) as Hl.
  specialize (Hl ltac:(intros j Hj ph Er; apply (Hsafe j); [lia | done]) ltac:(cbn; unfold ELF_MAX_SEG; lia)).
  specialize (Hl ltac:(split_and!; [by apply confined_refl | done | apply acct_nil])).
  by destruct (load_segments _ _ _ _ _ _) as [w1 img1 | w1 why |].
Qed.

(** C27. Loading an arbitrary byte buffer as a program never reads outside the
    buffer and never stores through an unmapped page; whether it succeeds or
    fails, every page that was in use stays in use, the mapping of every page
    outside the user image area is unchanged, image pages are only unmapped or
    mapped to pool pages that were free, only bytes of such pages change, and
    the page tables and the page bitmap stay well formed. *)
Theorem elf_load_confined (buf : list Z) (w : mach) (Hb : buf_ok buf) (Hw : sys_ok w) :
  match elf_load buf w with
  | Loaded w' _ | Failed w' _ => confined w w'
  | LFault => False
  end.
Proof. pose proof (elf_load_post buf w Hb Hw) as H. destruct (elf_load buf w); [apply H | done | done]. Qed.

(** Unloading what was loaded gives the page allocator back exactly as it
    was, unmaps every page of the image and leaves every page outside the image
    area mapped as before the load. *)
Theorem elf_unload_restores (buf : list Z) (w w1 : mach) (img : elf_image_t) (Hb : buf_ok buf) (Hw : sys_ok w)
    (Hl : elf_load buf w = Loaded w1 img) :
  let w2 := elf_unload w1 img in
  m_pmm w2 = m_pmm w /\ sys_ok w2 /\
  (forall s q, s ∈ i_segs img -> in_pages (s_va s) (s_pages s) q -> vw w2 q = None) /\
  (forall q, is_page q -> ~ image_page q -> vw w2 q = vw w q).
Proof.
  pose proof (elf_load_post buf w Hb Hw) as H. rewrite Hl in H. destruct H as (Hc & Hs & Ha).
  assert (Hruns : Forall image_run (i_segs img)) by (eapply Forall_impl; [exact Hs | by intros s [? _]]).
  destruct (unload_segs_spec w (i_segs img) w1 (cf_sys _ _ Hc) Ha Hruns) as (S1 & S2 & S3).
  intros w2. change (unload_segs w1 (i_segs img)) with w2 in S1, S2, S3. split; [| split; [exact S1 | split]].
  - destruct Hw as [_ [Hw1 Hw2 Hw3]], S1 as [_ [T1 T2 T3]].
    assert (E : g_bitmap (m_pmm w2) = g_bitmap (m_pmm w)) by (apply bitmap_ext; [done | done |]; intros j Hj; by apply S2).
    destruct (m_pmm w2), (m_pmm w). cbn in *. congruence.
  - intros s q Hin Hq. rewrite Forall_forall in Hruns. destruct (image_run_page s q (Hruns s Hin) Hq) as [_ Hp].
    rewrite S3 by done. destruct (decide _) as [| Hn]; [done |]. destruct Hn. apply Exists_exists. by exists s.
  - intros q Hp Hq. rewrite S3 by done. destruct (decide _) as [Hx |].
    + apply Exists_exists in Hx as (s & Hin & Hx). rewrite Forall_forall in Hruns. by destruct (image_run_page s q (Hruns s Hin) Hx).
    + destruct (cf_view _ _ Hc q Hp) as [? | [? _]]; done.
Qed.

(** ** The contents of the image *)

(** A read through the page tables. *)
Definition vread (w : mach) (va : Z) : option Z :=
  '(phys, _) ← paging_query (m_pg w) va; m_bytes w !! (phys + va mod 4096).

Definition loadable (buf : list Z) (phoff i : Z) (ph : elf32_phdr_t) : Prop :=
  read_phdr buf (phoff + i * PHDR_SIZE) = Some ph /\ p_type ph = PT_LOAD /\ p_memsz ph <> 0.

(** No two segments share a page. *)
Definition disjoint_pages (buf : list Z) (phoff n : Z) : Prop :=
  forall i j p q, 0 <= i < n -> 0 <= j < n -> loadable buf phoff i p -> loadable buf phoff j q -> i <> j ->
    forall x, in_pages (seg_va p) (seg_pages p) x -> ~ in_pages (seg_va q) (seg_pages q) x.

Definition laid (buf : list Z) (w : mach) (ph : elf32_phdr_t) : Prop :=
  exists f, 0 <= f /\ f + seg_pages ph <= PMM_POOL_PAGES /\ (forall j, f <= j < f + seg_pages ph -> used w j = true)
    /\ (forall j, 0 <= j < seg_pages ph -> vw w (pg_of (seg_va ph) + j) = Some (pte_val (pool_page (f + j)) (seg_flags ph)))
    /\ (forall x, pool_page f <= x < pool_page (f + seg_pages ph) ->
          m_bytes w !! x = Some (seg_byte buf ph (seg_va ph + (x - pool_page f)))).

Lemma placed_laid buf ph w w' f : fits buf ph -> placed buf ph w w' f -> laid buf w' ph.
Proof.
  intros Hf [P1 P2 P3 _ _ P6 _ P8]. destruct P1 as [? ?]. exists f. split_and!; try done.
  - intros j Hj. rewrite P3 by lia. unfold in_run. destruct (Z.leb_spec f j), (Z.ltb_spec j (f + seg_pages ph)); (done || lia).
  - intros x Hx. rewrite P8. destruct (Z.leb_spec (pool_page f) x), (Z.ltb_spec x (pool_page (f + seg_pages ph))); (done || lia).
Qed.

Lemma laid_keep buf p ph w w' f : fits buf p -> laid buf w p -> placed buf ph w w' f ->
  (forall x, in_pages (seg_va p) (seg_pages p) x -> ~ in_pages (seg_va ph) (seg_pages ph) x) -> laid buf w' p.
Proof.
  intros Hp (g & G1 & G2 & G3 & G4 & G5) [P1 P2 P3 _ _ _ P7 P8] Hd.
  pose proof (cover_run buf p 0 Hp) as Hrun. exists g. split_and!; try done.
  - intros j Hj. rewrite P3 by lia. rewrite G3 by done. apply orb_true_r.
  - intros j Hj. assert (Hin : in_pages (seg_va p) (seg_pages p) (pg_of (seg_va p) + j)) by (unfold in_pages; lia).
    rewrite P7; [by apply G4 | by apply (image_run_page _ _ Hrun) | by apply Hd].
  - intros x Hx. rewrite P8. destruct ((pool_page f <=? x) && _) eqn:E; [| by apply G5]. btrue. exfalso.
    set (j := (x - PMM_POOL_START) / 4096).
    assert (Hj : f <= j < f + seg_pages ph /\ g <= j < g + seg_pages p) by (unfold pool_page in *; subst j; Z.to_euclidean_division_equations; lia).
    destruct Hj as [H1 H2]. specialize (P2 j H1). by rewrite G3 in P2.
Qed.

Lemma load_segments_laid buf phoff w0 m : buf_ok buf -> 0 <= phoff -> disjoint_pages buf phoff m ->
  forall n i w img w' img', 0 <= i -> i + Z.of_nat n <= m ->
  phoff + (i + Z.of_nat n) * PHDR_SIZE <= Z.of_nat (length buf) ->
  (forall j, 0 <= j < i + Z.of_nat n -> seg_at buf phoff j (seg_safe (Z.of_nat (length buf)))) ->
  Z.of_nat (length (i_segs img)) + Z.of_nat n <= ELF_MAX_SEG ->
  load_post w0 (Loaded w img) ->
  (forall j ph, 0 <= j < i -> loadable buf phoff j ph -> laid buf w ph) ->
  load_segments n buf phoff i w img = Loaded w' img' ->
  forall j ph, 0 <= j < i + Z.of_nat n -> loadable buf phoff j ph -> laid buf w' ph.
Proof.
  intros Hb Hpo Hdis. induction n as [| n IH]; intros i w img w' img' Hi Hm Hlim Hsafe Hlen Hpost Hlaid; cbn [load_segments].
  { intros [= <- <-] j ph Hj. apply Hlaid. lia. }
  unfold PHDR_SIZE in Hlim.
  destruct (read_phdr_some buf (phoff + i * PHDR_SIZE) Hb) as (ph & E & Hu); [unfold PHDR_SIZE; lia | unfold PHDR_SIZE; lia |].
  rewrite E. intros Hl j pj Hj Hpj. revert Hl.
  assert (Hlast : forall q, loadable buf phoff i q -> q = ph) by (intros q [Hq _]; congruence).
  assert (Hnext : forall w1 img1, Z.of_nat (length (i_segs img1)) + Z.of_nat n <= ELF_MAX_SEG ->
    load_post w0 (Loaded w1 img1) -> (forall j ph, 0 <= j < i + 1 -> loadable buf phoff j ph -> laid buf w1 ph) ->
    load_segments n buf phoff (i + 1) w1 img1 = Loaded w' img' -> laid buf w' pj).
  { intros w1 img1 H1 H2 H3 H4. refine (IH (i + 1) w1 img1 w' img' ltac:(lia) ltac:(lia) ltac:(unfold PHDR_SIZE; lia) _ H1 H2 H3 H4 j pj ltac:(lia) Hpj).
    intros k Hk. apply Hsafe. lia. }
  destruct (negb (p_type ph =? PT_LOAD) || (p_memsz ph =? 0)) eqn:Es.
  { apply Hnext; [lia | done |]. intros k q Hk Hq. destruct (Z.eq_dec k i) as [-> |]; [| apply (Hlaid k); [lia | done]].
    rewrite (Hlast q Hq) in Hq. destruct Hq as (_ & Ht & Hmz). rewrite Ht in Es. by destruct (Z.eqb_spec (p_memsz ph) 0). }
  btrue. assert (Hf : fits buf ph) by (constructor; [done | done | done | by apply (Hsafe i); [lia |]]).
  destruct Hpost as (Hc & Hs & Ha).
  pose proof (load_segment_spec buf ph w img Hb Hf (cf_sys _ _ Hc) ltac:(lia)) as Hl.
  destruct (load_segment buf ph w img) as [w1 img1 | w1 why |]; [| done | done].
  destruct Hl as (Hsys & f & Hp & Eseg). apply Hnext; [rewrite Eseg, length_app; simpl; lia | |].
  - cbn [load_post]. rewrite Eseg. destruct (placed_confined buf ph w0 w w1 f _ Hf Hc Hs Hsys Hp) as [? ?].
    split_and!; [done | done |]. by eapply placed_acct.
  - intros k q Hk Hq. destruct (Z.eq_dec k i) as [-> | Hne]; [rewrite (Hlast q Hq); by eapply placed_laid |].
    assert (Hfq : fits buf q).
    { destruct Hq as (Eq & Ht & Hmz). destruct (read_phdr_some buf (phoff + k * PHDR_SIZE) Hb) as (q' & Eq' & Huq); [unfold PHDR_SIZE; lia.. |].
      rewrite Eq in Eq'. injection Eq' as <-. constructor; [done | done | done |]. by apply (Hsafe k); [lia |]. }
    eapply laid_keep; [exact Hfq | apply (Hlaid k); [lia | done] | exact Hp |].
    intros x Hx. apply (Hdis k i q ph); (done || lia).
Qed.

Lemma laid_read buf w ph va : fits buf ph -> laid buf w ph -> p_vaddr ph <= va < p_vaddr ph + p_memsz ph ->
  vread w va = Some (seg_byte buf ph va) /\
  exists p, paging_query (m_pg w) va = Some (p, (seg_flags ph &! 0xFFF) |! PTE_P).
Proof.
  intros Hf (f & F1 & F2 & F3 & F4 & F5) Hva. destruct (fits_cover buf ph Hf) as [C1 C2 C3 C4 C5 C6].
  unfold USER_IMAGE_BASE, USER_IMAGE_END in *. set (vs := seg_va ph) in *. set (n := seg_pages ph) in *.
  assert (Hq : va / 4096 = pg_of vs + (va - vs) / 4096) by (unfold pg_of; Z.to_euclidean_division_equations; lia).
  assert (Hx : 0 <= (va - vs) / 4096 < n) by (Z.to_euclidean_division_equations; lia).
  destruct (seg_range (f + (va - vs) / 4096) 1 ltac:(lia) ltac:(lia) ltac:(lia)) as (P1 & P2 & P3 & P4 & _).
  assert (Hpq : paging_query (m_pg w) va = Some (pool_page (f + (va - vs) / 4096), (seg_flags ph &! 0xFFF) |! PTE_P)).
  { rewrite paging_query_view by (unfold is_u32; lia). fold (vw w (va / 4096)). rewrite Hq, F4 by done.
    rewrite pte_val_base, pte_val_flags, land_fffff000, P1 by (unfold is_u32; lia). do 2 f_equal. lia. }
  split; [| by eexists]. unfold vread. rewrite Hpq. cbn [mbind option_bind].
  assert (Ha : pool_page (f + (va - vs) / 4096) + va mod 4096 = pool_page f + (va - vs))
    by (unfold pool_page; Z.to_euclidean_division_equations; lia).
  rewrite Ha, F5 by (unfold pool_page; lia). do 2 f_equal. lia.
Qed.

(** When loading succeeds and no two segments share a page, every address of
    every loadable segment reads back, through the page tables, the byte the file
    gives it, or zero past the file part; and the page is writable from user
    mode exactly when the segment has [PF_W]. *)
Theorem elf_load_contents (buf : list Z) (w w1 : mach) (img : elf_image_t) (eh : elf32_ehdr_t) (i va : Z) (ph : elf32_phdr_t)
    (Hb : buf_ok buf) (Hw : sys_ok w) (Hl : elf_load buf w = Loaded w1 img)
    (He : read_ehdr buf = Some eh) (Hd : disjoint_pages buf (e_phoff eh) (e_phnum eh))
    (Hi : 0 <= i < e_phnum eh) (Hph : loadable buf (e_phoff eh) i ph)
    (Hva : p_vaddr ph <= va < p_vaddr ph + p_memsz ph) :
  i_entry img = e_entry eh /\ vread w1 va = Some (seg_byte buf ph va) /\
  exists p, paging_query (m_pg w1) va = Some (p, if p_flags ph &! PF_W =? 0 then 0x5 else 0x7).
Proof.
  revert Hl. unfold elf_load. destruct (elf_validate_decides buf Hb) as (v & -> & Hv). destruct v; [| done].
  destruct Hv as [Hv _]. destruct (Hv eq_refl) as [_ (eh' & Eh & Hs & _ & _ & _ & _ & Hn & Hlim & _ & Hsafe)].
  rewrite He in Eh |- *. injection Eh as <-. destruct (read_ehdr_some buf Hb Hs) as (eh' & E & [_ Hpo _]). rewrite He in E. injection E as <-.
  unfold is_u32 in Hpo. unfold ELF_MAX_SEG in Hn.
  destruct (load_segments _ buf _ 0 w img_empty) as [w2 img2 | |] eqn:El; [| done | done]. intros [= <- <-]. split; [done |].
  assert (Hlaid : laid buf w2 ph).
  { eapply (load_segments_laid buf (e_phoff eh) w (e_phnum eh) Hb ltac:(lia) Hd (Z.to_nat (e_phnum eh)) 0 w img_empty w2 img2);
      [lia | lia | rewrite Z2Nat.id by lia; lia | intros j Hj q Eq; apply (Hsafe j); [lia | done] | cbn; unfold ELF_MAX_SEG; lia
      | split_and!; [by apply confined_refl | done | apply acct_nil] | intros j q Hj; lia | exact El | | exact Hph]. lia. }
  destruct Hph as (Er & Ht & Hm). unfold PHDR_SIZE in *.
  destruct (read_phdr_some buf (e_phoff eh + i * 32) Hb) as (q & Eq & Hq); [lia | unfold PHDR_SIZE; lia |].
  rewrite Er in Eq. injection Eq as <-.
  assert (Hf : fits buf ph) by (constructor; [done | done | done | by apply (Hsafe i)]).
  destruct (laid_read buf w2 ph va Hf Hlaid Hva) as (R1 & p & R2). split; [done |]. exists p. rewrite R2. unfold seg_flags.
  by destruct (p_flags ph &! PF_W =? 0).
Qed.

(** ** The image of the self-test *)

Definition boot_mach : mach := mk_mach pmm_init pg_empty ∅.

Lemma boot_mach_ok : sys_ok boot_mach.
Proof. split; [apply pg_empty_inv | apply pmm_init_inv]. Qed.

Lemma good_elf_loads : match elf_load good_elf boot_mach with
  | Loaded w img => i_segs img = [mk_seg 0x400000 1 0xA00000] /\ i_entry img = 0x400000 | _ => False end.
Proof. vm_compute. done. Qed.

Lemma elf_load_confined_witness :
  match elf_load good_elf boot_mach with Loaded w' _ | Failed w' _ => confined boot_mach w' | LFault => False end.
Proof. apply (elf_load_confined good_elf boot_mach good_elf_ok boot_mach_ok). Defined.

Lemma elf_unload_restores_witness :
  exists w1 img, elf_load good_elf boot_mach = Loaded w1 img /\ m_pmm (elf_unload w1 img) = pmm_init.
Proof.
  destruct (elf_load good_elf boot_mach) as [w1 img | |] eqn:E; [| exfalso; pose proof good_elf_loads as H; by rewrite E in H..].
  exists w1, img. split; [done |]. apply (elf_unload_restores good_elf boot_mach w1 img good_elf_ok boot_mach_ok E).
Defined.

Definition good_ehdr : elf32_ehdr_t := mk_ehdr 2 3 0x400000 52 32 1.
Definition good_phdr : elf32_phdr_t := mk_phdr 1 84 0x400000 4 4 5.
Lemma good_ehdr_read : read_ehdr good_elf = Some good_ehdr.
Proof. vm_compute. reflexivity. Qed.
Lemma good_phdr_loadable : loadable good_elf 52 0 good_phdr.
Proof. split; [vm_compute; reflexivity | done]. Qed.
Lemma good_disjoint : disjoint_pages good_elf 52 1.
Proof. intros i j p q Hi Hj _ _ Hne. lia. Qed.

Lemma elf_load_contents_witness :
  exists w1 img, elf_load good_elf boot_mach = Loaded w1 img /\ vread w1 0x400002 = Some (seg_byte good_elf good_phdr 0x400002).
Proof.
  destruct (elf_load good_elf boot_mach) as [w1 img | |] eqn:E; [| exfalso; pose proof good_elf_loads as H; by rewrite E in H..].
  exists w1, img. split; [reflexivity |].
  apply (elf_load_contents good_elf boot_mach w1 img good_ehdr 0 0x400002 good_phdr
    good_elf_ok boot_mach_ok E good_ehdr_read good_disjoint); [cbn; lia | exact good_phdr_loadable | cbn [good_phdr p_vaddr p_memsz]; lia].
Defined.
