(* ===== verification/Space.v ===== *)
(** * Space: copying and releasing the address space of a process ([kernel/task.c])

    The part of [task_fork] that builds the address space of the child: a page
    directory that shares the kernel's tables, a table for the 4 MB of user
    space, and a copy of every segment and of the stack, with the unwinding when
    memory runs out; and the part of [process_exit] that gives the pages back.
    Page-table words are in [pmem], the contents of pages in [m_bytes], as in
    [Elf.v]; the kernel writes to the pages of the pool at their physical
    addresses. *)

From S2P Require Import Prelude Kstack Pmm Paging Elf ElfLoad.

Definition USER_STACK_TOP : Z := 0x00800000.

(** ** The code *)

Definition child_pt_set (pg : pg_state) (pt_phys va phys flags : Z) : pg_state :=
  let pti := Z.shiftr va 12 &! 0x3FF in
  set_pmem pg (mem_wr (pmem pg) (pt_phys + 4 * pti) ((phys &! 0xFFFFF000) |! (flags &! 0xFFF) |! PTE_P)).

(** [for (i = 0; i < 1024; i++) { if (i == 1) continue; cpd[i] = ppd[i]; }] *)
Fixpoint share_pdes (n : nat) (m : gmap Z Z) (cpd ppd i : Z) : gmap Z Z :=
  match n with
  | O => m
  | S n' => share_pdes n' (if i =? 1 then m else mem_wr m (cpd + 4 * i) (mem_rd m (ppd + 4 * i))) cpd ppd (i + 1)
  end.

Definition new_dir (m : gmap Z Z) (cpd ppd pt : Z) : gmap Z Z :=
  let m := share_pdes PT_WORDS m cpd ppd 0 in
  let m := mem_wr m (cpd + 4 * 1) (pt |! PTE_P |! PTE_RW |! PTE_US) in
  zero_words PT_WORDS m pt.

(** A load through the page tables; [None] is a page fault. *)
Definition vload (w : mach) (va : Z) : option Z :=
  '(phys, _) ← paging_query (m_pg w) va; Some (ld8 (m_bytes w) (phys + va mod 4096)).

(** [memcpy] from the address [src] of the active space to the page [dst]. *)
Fixpoint copy_bytes (n : nat) (w : mach) (dst src k : Z) : option mach :=
  match n with
  | O => Some w
  | S n' => b ← vload w (src +! k); copy_bytes n' (mk_mach (m_pmm w) (m_pg w) (st8 (m_bytes w) (dst +! k) b)) dst src (k + 1)
  end.

Definition PAGE_BYTES : nat := Z.to_nat 4096.

Fixpoint copy_pages (n : nat) (w : mach) (va dst pt k : Z) : option (mach * bool) :=
  match n with
  | O => Some (w, true)
  | S n' =>
      let p := va +! k *! PMM_PAGE_SIZE in
      match paging_query (m_pg w) p with
      | None => Some (w, false)
      | Some (_, flags) =>
          let d := dst +! k *! PMM_PAGE_SIZE in
          w ← copy_bytes PAGE_BYTES w d p 0;
          copy_pages n' (set_pg w (child_pt_set (m_pg w) pt p d flags)) va dst pt (k + 1)
      end
  end.

(** One segment, or the stack: the pages of the copy, or 0. *)
Definition copy_run (w : mach) (va pages pt : Z) : option (mach * Z) :=
  let '(pm, c) := pmm_alloc_pages (m_pmm w) pages in
  let w := set_pmm w pm in
  if c =? 0 then Some (w, 0)
  else
    '(w, ok) ← copy_pages (Z.to_nat pages) w va c pt 0;
    if ok : bool then Some (w, c) else Some (set_pmm w (fst (pmm_free_pages (m_pmm w) c pages)), 0).

(** [child_seg[]] up to its first 0, and whether all segments were copied. *)
Fixpoint copy_segs (w : mach) (segs : list seg) (pt : Z) : option (mach * list Z * bool) :=
  match segs with
  | [] => Some (w, [], true)
  | s :: segs' =>
      '(w, c) ← copy_run w (s_va s) (s_pages s) pt;
      if c =? 0 then Some (w, [], false)
      else '(w, cs, ok) ← copy_segs w segs' pt; Some (w, c :: cs, ok)
  end.

Definition free_runs (pm : pmm_state) (runs : list (Z * Z)) : pmm_state :=
  fold_left (fun pm r => fst (pmm_free_pages pm (fst r) (snd r))) runs pm.

Record space := mk_space { sp_pd : Z; sp_pt : Z; sp_segs : list Z; sp_stack : Z }.

Definition fork_space (w : mach) (pcr3 : Z) (segs : list seg) (stack_pages : Z) : option (mach * option space) :=
  let '(pm, pd) := pmm_alloc_page (m_pmm w) in
  let '(pm, pt) := pmm_alloc_page pm in
  if (pd =? 0) || (pt =? 0) then
    let pm := if negb (pd =? 0) then fst (pmm_free_page pm pd) else pm in
    let pm := if negb (pt =? 0) then fst (pmm_free_page pm pt) else pm in
    Some (set_pmm w pm, None)
  else
    let w := set_pmm w pm in
    let w := set_pg w (set_pmem (m_pg w) (new_dir (pmem (m_pg w)) pd pcr3 pt)) in
    '(w, cs, ok) ← copy_segs w segs pt;
    '(w, stack) ← (if ok : bool then copy_run w (USER_STACK_TOP -! stack_pages *! PMM_PAGE_SIZE) stack_pages pt
                   else Some (w, 0));
    if negb ok || (stack =? 0) then
      let pm := free_runs (m_pmm w) (zip cs (map s_pages segs)) in
      let pm := if negb (stack =? 0) then fst (pmm_free_pages pm stack stack_pages) else pm in
      let pm := fst (pmm_free_page pm pt) in
      let pm := fst (pmm_free_page pm pd) in
      Some (set_pmm w pm, None)
    else Some (w, Some (mk_space pd pt cs stack)).

(** [for (k = 0; k < pages; k++) pmm_free_page(phys + k * PMM_PAGE_SIZE)] *)
Fixpoint free_pages (n : nat) (pm : pmm_state) (phys k : Z) : pmm_state :=
  match n with
  | O => pm
  | S n' => free_pages n' (fst (pmm_free_page pm (phys +! k *! PMM_PAGE_SIZE))) phys (k + 1)
  end.

(** Step 2 of [process_exit]. *)
Definition free_space (pm : pmm_state) (segs : list seg) (stack stack_pages pt pd : Z) : pmm_state :=
  let pm := free_runs pm (map (fun s => (s_phys s, s_pages s)) segs) in
  let pm := free_pages (Z.to_nat stack_pages) pm stack 0 in
  let pm := if negb (pt =? 0) then fst (pmm_free_page pm pt) else pm in
  if negb (pd =? 0) then fst (pmm_free_page pm pd) else pm.

(** ** Accounts

    [holds pm0 pm P]: the used pages of [pm] are those of [pm0] and the pages
    [P], which were free. *)

Definition pused (pm : pmm_state) (j : Z) : bool := page_used (g_bitmap pm) j.

Record holds (pm0 pm : pmm_state) (P : list Z) : Prop := {
  ho_inv : pmm_inv pm;
  ho_nodup : NoDup P;
  ho_fresh : forall j, j ∈ P -> 0 <= j < PMM_POOL_PAGES /\ pused pm0 j = false;
  ho_used : forall j, 0 <= j < PMM_POOL_PAGES -> pused pm j = bool_decide (j ∈ P) || pused pm0 j;
}.

#[global] Instance holds_proper pm0 pm : Proper ((≡ₚ) ==> iff) (holds pm0 pm).
Proof.
  assert (H : forall P Q, P ≡ₚ Q -> holds pm0 pm P -> holds pm0 pm Q).
  { intros P Q E [H1 H2 H3 H4]. constructor; [done | by rewrite <- E | intros j; rewrite <- E; apply H3 |].
    intros j Hj. rewrite H4 by done. f_equal. apply bool_decide_ext. by rewrite E. }
  intros P Q E. split; by apply H.
Qed.

Lemma holds_nil pm : pmm_inv pm -> holds pm pm [].
Proof. intros H. constructor; [done | constructor | by intros j Hj%elem_of_nil | done]. Qed.

(** Nothing held: the allocator is back, word for word. *)
Lemma holds_end pm0 pm : pmm_inv pm0 -> holds pm0 pm [] -> pm = pm0.
Proof.
  intros [H1 H2 H3] [[J1 J2 J3] _ _ U]. assert (E : g_bitmap pm = g_bitmap pm0).
  { apply bitmap_ext; [done | done |]. intros j Hj. by apply U. }
  destruct pm, pm0. cbn in *. congruence.
Qed.

Lemma elem_of_run f n j : j ∈ seqZ f n <-> in_run f n j = true.
Proof.
  rewrite elem_of_seqZ. unfold in_run. destruct (Z.leb_spec f j), (Z.ltb_spec j (f + n)); cbn; split; (done || lia).
Qed.

Lemma holds_alloc pm0 pm P n : holds pm0 pm P -> is_u32 n ->
  let '(pm', a) := pmm_alloc_pages pm n in
  (a = 0 /\ pm' = pm) \/
  exists f, a = pool_page f /\ 0 <= f /\ f + n <= PMM_POOL_PAGES /\ 1 <= n /\ holds pm0 pm' (seqZ f n ++ P).
Proof.
  intros [H1 H2 H3 H4] Hn. pose proof (pmm_alloc_spec pm n H1 Hn) as Ha.
  destruct (pmm_alloc_pages pm n) as [pm' a] eqn:E. destruct Ha as [Hi Ha]. destruct (Z.eq_dec a 0) as [-> | Hne].
  { left. split; [done |]. pose proof (pmm_alloc_pages_first_fit_spec pm n H1 Hn) as Hs. rewrite E in Hs.
    destruct Hs as [_ [(_ & -> & _) | (f & Hf & F1 & _)]]; [done |]. unfold PMM_POOL_START, PMM_PAGE_SIZE in Hf. lia. }
  right. destruct (Ha Hne) as (f & -> & F1 & F2 & F3 & F4 & _ & F5). exists f.
  split; [done |]. split; [done |]. split; [done |]. split; [lia |].
  assert (Hfree : forall j, j ∈ seqZ f n -> 0 <= j < PMM_POOL_PAGES /\ pused pm j = false).
  { intros j Hj%elem_of_seqZ. split; [lia | apply F4; lia]. }
  constructor; [done | | |].
  - apply NoDup_app. split; [apply NoDup_seqZ |]. split; [| done]. intros j Hj Hp. destruct (Hfree j Hj) as [Hr Hu].
    rewrite H4, bool_decide_eq_true_2 in Hu by done. done.
  - intros j [Hj | Hj]%elem_of_app; [| by apply H3]. destruct (Hfree j Hj) as [Hr Hu]. split; [done |].
    rewrite H4 in Hu by done. by apply orb_false_iff in Hu as [_ ?].
  - intros j Hj. unfold pused at 1. rewrite F5 by done. change (page_used (g_bitmap pm) j) with (pused pm j). rewrite H4 by done.
    destruct (in_run f n j) eqn:Er.
    + apply elem_of_run in Er. rewrite (bool_decide_eq_true_2 (j ∈ seqZ f n ++ P)); [done | by apply elem_of_app; left].
    + cbn [orb]. f_equal. apply bool_decide_ext. rewrite elem_of_app, elem_of_run, Er. naive_solver.
Qed.

Lemma holds_free pm0 pm P f n : holds pm0 pm (seqZ f n ++ P) -> 1 <= n ->
  holds pm0 (fst (pmm_free_pages pm (pool_page f) n)) P.
Proof.
  intros [H1 H2 H3 H4] Hn.
  assert (Hr : forall j, f <= j < f + n -> 0 <= j < PMM_POOL_PAGES).
  { intros j Hj. apply H3. apply elem_of_app. left. by apply elem_of_seqZ. }
  pose proof (Hr f ltac:(lia)) as R1. pose proof (Hr (f + n - 1) ltac:(lia)) as R2.
  destruct (seg_range f n ltac:(lia) ltac:(lia) Hn) as (P1 & P2 & P3 & P4 & P5).
  assert (Hn32 : is_u32 n) by (unfold is_u32; unfold PMM_POOL_PAGES, PMM_POOL_END, PMM_POOL_START, PMM_PAGE_SIZE in *;
    change ((16777216 - 10485760) / 4096) with 1536 in *; lia).
  pose proof (pmm_free_pages_spec pm (pool_page f) n H1 ltac:(unfold is_u32; lia) Hn32) as Hs.
  destruct (pmm_free_pages pm (pool_page f) n) as [pm' rc]. cbv zeta in Hs. rewrite P5 in Hs. destruct Hs as [Hi Hc]. cbn [fst].
  destruct Hc as [(_ & _ & _ & _ & Hc) | (_ & _ & Hbad)].
  - apply NoDup_app in H2 as (N1 & N2 & N3). constructor; [done | done | |].
    + intros j Hj. apply H3. apply elem_of_app. by right.
    + intros j Hj. unfold pused at 1. rewrite Hc by done. change (page_used (g_bitmap pm) j) with (pused pm j). rewrite H4 by done.
      destruct (in_run f n j) eqn:Er.
      * apply elem_of_run in Er. cbn. symmetry. apply orb_false_iff. split.
        -- apply bool_decide_eq_false_2. by apply N2.
        -- apply H3. apply elem_of_app. by left.
      * cbn [negb andb]. f_equal. apply bool_decide_ext. rewrite elem_of_app, elem_of_run, Er. naive_solver.
  - destruct Hbad. split; [unfold range_in_pool; unfold pool_page, PMM_POOL_START, PMM_POOL_END in *; split_and!; lia |].
    intros j Hj. change (pused pm j = true). rewrite H4 by auto. rewrite bool_decide_eq_true_2; [done |].
    apply elem_of_app. left. by apply elem_of_seqZ.
Qed.

(** *** Giving pages back *)

Definition run_pages (r : Z * Z) : list Z := seqZ ((fst r - PMM_POOL_START) / 4096) (snd r).
Definition pool_at (r : Z * Z) : Prop := (exists f, fst r = pool_page f) /\ 1 <= snd r.

Lemma run_pages_at f n : run_pages (pool_page f, n) = seqZ f n.
Proof.
  unfold run_pages, pool_page. cbn [fst snd]. f_equal. replace (PMM_POOL_START + f * 4096 - PMM_POOL_START) with (f * 4096) by lia.
  apply Z.div_mul. lia.
Qed.

Lemma free_runs_holds pm0 P rs : forall pm, Forall pool_at rs -> holds pm0 pm (concat (map run_pages rs) ++ P) ->
  holds pm0 (free_runs pm rs) P.
Proof.
  induction rs as [| [a n] rs IH]; intros pm Hrs H; [done |]. apply Forall_cons in Hrs as [[(f & Ef) Hn] Hrs]. cbn [fst snd] in Ef, Hn.
  subst a. cbn [map concat] in H. rewrite run_pages_at, <- app_assoc in H.
  unfold free_runs. cbn [fold_left fst snd]. apply (IH _ Hrs). by apply holds_free.
Qed.

Lemma free_page_holds pm0 pm P f : holds pm0 pm (f :: P) -> holds pm0 (fst (pmm_free_page pm (pool_page f))) P.
Proof. intros H. apply holds_free; [| lia]. exact H. Qed.

Lemma pool_page_step f k : 0 <= f -> 0 <= k -> f + k < PMM_POOL_PAGES -> pool_page f +! k *! PMM_PAGE_SIZE = pool_page (f + k).
Proof.
  unfold pool_page, PMM_POOL_PAGES, PMM_POOL_START, PMM_POOL_END, PMM_PAGE_SIZE. change ((16777216 - 10485760) / 4096) with 1536.
  intros Hf Hk Hb. rewrite (u32_small (k * 4096)) by (unfold is_u32; lia). rewrite u32_small by (unfold is_u32; lia). lia.
Qed.

Lemma free_pages_holds pm0 P f n : forall pm k, 0 <= f -> 0 <= k -> holds pm0 pm (seqZ (f + k) (Z.of_nat n) ++ P) ->
  holds pm0 (free_pages n pm (pool_page f) k) P.
Proof.
  induction n as [| n IH]; intros pm k Hf Hk H; cbn [free_pages]; [done |].
  assert (Es : seqZ (f + k) (Z.of_nat (S n)) = (f + k) :: seqZ (f + (k + 1)) (Z.of_nat n)).
  { rewrite seqZ_cons by lia. f_equal. f_equal; lia. }
  rewrite Es in H. destruct (ho_fresh _ _ _ H (f + k)) as [Hr _]; [left |].
  rewrite pool_page_step by lia. apply IH; [done | lia |]. by apply free_page_holds.
Qed.

Lemma pool_page_ne0 f : 0 <= f -> pool_page f =? 0 = false.
Proof. unfold pool_page, PMM_POOL_START. intros. apply Z.eqb_neq. lia. Qed.

(** The pages of the account that [process_exit] works from. *)
Definition space_pages (segs : list seg) (stack stack_pages pt pd : Z) : list Z :=
  concat (map run_pages (map (fun s => (s_phys s, s_pages s)) segs)) ++ run_pages (stack, stack_pages)
    ++ run_pages (pt, 1) ++ run_pages (pd, 1).

Definition acct_ok (segs : list seg) (stack stack_pages pt pd : Z) : Prop :=
  Forall pool_at (map (fun s => (s_phys s, s_pages s)) segs) /\ pool_at (stack, stack_pages) /\ pool_at (pt, 1) /\ pool_at (pd, 1).

Lemma free_space_holds pm0 pm P segs stack np pt pd : acct_ok segs stack np pt pd ->
  holds pm0 pm (space_pages segs stack np pt pd ++ P) -> holds pm0 (free_space pm segs stack np pt pd) P.
Proof.
  intros (A1 & [(f & A2) An] & [(t & A3) _] & [(d & A4) _]) H. cbn [fst snd] in *. subst stack pt pd. unfold space_pages in H.
  rewrite !run_pages_at, <- !app_assoc in H. unfold free_space. set (rs := map _ segs) in *.
  pose proof (free_runs_holds pm0 _ rs pm A1 H) as H1. clear H. generalize dependent (free_runs pm rs). intros pm1 H.
  assert (Hf : 0 <= f) by (apply (ho_fresh _ _ _ H f); apply elem_of_app; left; apply elem_of_seqZ; lia).
  assert (H2 : holds pm0 (free_pages (Z.to_nat np) pm1 (pool_page f) 0) (seqZ t 1 ++ seqZ d 1 ++ P)).
  { apply free_pages_holds; [done | lia |]. rewrite Z.add_0_r, Z2Nat.id by lia. exact H. }
  clear H. generalize dependent (free_pages (Z.to_nat np) pm1 (pool_page f) 0). intros pm2 H. change (seqZ t 1) with [t] in H. change (seqZ d 1) with [d] in H.
  assert (Ht : 0 <= t) by (apply (ho_fresh _ _ _ H t); left).
  assert (Hd : 0 <= d) by (apply (ho_fresh _ _ _ H d); right; left).
  rewrite !pool_page_ne0 by done. cbn [negb]. by do 2 apply free_page_holds.
Qed.

(** ** The new directory *)

Definition outside (page a : Z) : Prop := a < page \/ page + 4096 <= a.

Lemma share_pdes_out n cpd ppd : forall m i a, (forall j, i <= j < i + Z.of_nat n -> a <> cpd + 4 * j) ->
  mem_rd (share_pdes n m cpd ppd i) a = mem_rd m a.
Proof.
  induction n as [| n IH]; intros m i a H; cbn [share_pdes]; [done |]. rewrite IH by (intros j Hj; apply H; lia).
  destruct (i =? 1); [done |]. apply mem_rd_wr_ne. specialize (H i). lia.
Qed.

Lemma share_pdes_in n cpd ppd : (forall j, 0 <= j < 1024 -> outside cpd (ppd + 4 * j)) ->
  forall m i j, 0 <= i -> i <= j < i + Z.of_nat n -> i + Z.of_nat n <= 1024 -> j <> 1 ->
  mem_rd (share_pdes n m cpd ppd i) (cpd + 4 * j) = mem_rd m (ppd + 4 * j).
Proof.
  intros Hd. induction n as [| n IH]; intros m i j Hi Hj Hn Hne; [lia |]. cbn [share_pdes].
  destruct (Z.eq_dec j i) as [-> | Hji].
  - rewrite share_pdes_out by lia. destruct (Z.eqb_spec i 1); [lia |]. apply mem_rd_wr_eq.
  - rewrite IH by lia. destruct (i =? 1); [done |]. apply mem_rd_wr_ne. specialize (Hd j). unfold outside in Hd. lia.
Qed.

Lemma new_dir_spec m cpd ppd pt : cpd mod 4096 = 0 -> pt mod 4096 = 0 -> ppd mod 4096 = 0 -> cpd <> ppd -> pt <> ppd -> cpd <> pt ->
  let m' := new_dir m cpd ppd pt in
  (forall a, outside cpd a -> outside pt a -> mem_rd m' a = mem_rd m a) /\
  (forall i, 0 <= i < 1024 -> mem_rd m' (cpd + 4 * i) = if i =? 1 then pt + 7 else mem_rd m (ppd + 4 * i)) /\
  (forall i, 0 <= i < 1024 -> mem_rd m' (pt + 4 * i) = 0).
Proof.
  intros A1 A2 A3 N1 N2 N3. unfold new_dir. set (m1 := share_pdes PT_WORDS m cpd ppd 0).
  assert (E7 : pt |! PTE_P |! PTE_RW |! PTE_US = pt + 7).
  { rewrite <- !Z.lor_assoc. apply (lor_low_add pt 7 12); [lia | exact A2 | lia]. }
  rewrite E7. cbv zeta. pose proof PT_WORDS_eq as EW. unfold outside. split_and!.
  - intros a H1 H2. rewrite zero_words_out by (intros; lia). rewrite mem_rd_wr_ne by lia.
    apply share_pdes_out. intros; lia.
  - intros i Hi. rewrite zero_words_out by (intros; Z.to_euclidean_division_equations; lia). destruct (Z.eqb_spec i 1) as [-> |].
    + apply mem_rd_wr_eq.
    + rewrite mem_rd_wr_ne by lia. unfold m1. apply share_pdes_in; [| lia..].
      intros j Hj. unfold outside. Z.to_euclidean_division_equations. lia.
  - intros i Hi. apply zero_words_in. lia.
Qed.

(** Changing two pages leaves the translation through other tables alone. *)
Lemma outside_entry t page i : t mod 4096 = 0 -> page mod 4096 = 0 -> t <> page -> 0 <= i < 1024 -> outside page (t + 4 * i).
Proof. unfold outside. intros. Z.to_euclidean_division_equations. lia. Qed.

Lemma walk_keep m m' ppd pd pt q : ppd mod 4096 = 0 -> pd mod 4096 = 0 -> pt mod 4096 = 0 -> ppd <> pd -> ppd <> pt ->
  (forall i t, 0 <= i < 1024 -> table_of m ppd i = Some t -> t <> pd /\ t <> pt) ->
  (forall a, outside pd a -> outside pt a -> mem_rd m' a = mem_rd m a) -> is_page q ->
  table_of m' ppd (q / 1024) = table_of m ppd (q / 1024) /\ walk m' ppd q = walk m ppd q.
Proof.
  intros A1 A2 A3 N1 N2 Ht Hm Hq. destruct (pg_split q Hq) as (Q1 & Q2).
  assert (E : table_of m' ppd (q / 1024) = table_of m ppd (q / 1024)).
  { apply table_of_ext. apply Hm; by apply outside_entry. }
  split; [done |]. unfold walk. rewrite E. destruct (table_of m ppd (q / 1024)) as [t |] eqn:Et; [| done].
  destruct (Ht _ _ Q1 Et). destruct (table_of_base _ _ _ _ Et). unfold entry_of. by rewrite Hm by (by apply outside_entry).
Qed.

(** ** Copying *)

Lemma PAGE_BYTES_eq : Z.of_nat PAGE_BYTES = 4096.
Proof. apply Z2Nat.id. lia. Qed.
#[global] Opaque PAGE_BYTES.

Lemma copy_bytes_spec pm pg src dst phys fl n : forall m k, 0 <= k -> k + Z.of_nat n <= 4096 ->
  0 <= src -> src + 4096 <= 2 ^ 32 -> src mod 4096 = 0 -> 0 <= dst -> dst + 4096 <= 2 ^ 32 -> phys + 4096 <= dst \/ dst + 4096 <= phys ->
  (forall x, 0 <= x < 4096 -> paging_query pg (src + x) = Some (phys, fl)) ->
  exists m', copy_bytes n (mk_mach pm pg m) dst src k = Some (mk_mach pm pg m') /\
    forall a, m' !! a = if (dst + k <=? a) && (a <? dst + k + Z.of_nat n) then Some (ld8 m (phys + (a - dst))) else m !! a.
Proof.
  induction n as [| n IH]; intros m k Hk Hn Hs0 Hs1 Hsa Hd0 Hd1 Hne Hq; cbn [copy_bytes].
  - exists m. split; [done |]. intros a. destruct (Z.leb_spec (dst + k) a), (Z.ltb_spec a (dst + k + Z.of_nat 0)); (done || lia).
  - unfold vload. cbn [m_pg m_bytes m_pmm]. rewrite !u32_small by (unfold is_u32; lia). rewrite Hq by lia. cbn [mbind option_bind].
    assert (Ex : (src + k) mod 4096 = k) by (Z.to_euclidean_division_equations; lia). rewrite Ex.
    destruct (IH (st8 m (dst + k) (ld8 m (phys + k))) (k + 1)) as (m' & E & Hm); try done; [lia.. |].
    exists m'. split; [exact E |]. intros a. rewrite Hm. unfold st8.
    destruct (Z.eq_dec a (dst + k)) as [-> |].
    + rewrite lookup_insert_eq. destruct (Z.leb_spec (dst + (k + 1)) (dst + k)), (Z.leb_spec (dst + k) (dst + k)),
        (Z.ltb_spec (dst + k) (dst + k + Z.of_nat (S n))); try lia. cbn [andb]. do 2 f_equal. lia.
    + rewrite lookup_insert_ne by done. destruct (Z.leb_spec (dst + (k + 1)) a), (Z.leb_spec (dst + k) a),
        (Z.ltb_spec a (dst + (k + 1) + Z.of_nat n)), (Z.ltb_spec a (dst + k + Z.of_nat (S n))); cbn [andb]; try lia; try done.
      f_equal. unfold ld8. rewrite lookup_insert_ne by lia. done.
Qed.

(** ** The parent *)

Definition user_page (q : Z) : Prop := 1024 <= q < 2048.

(** The running process can be copied: its directory and tables are not in free
    pages of the pool, and no user page is mapped to a free page. *)
Record space_ok (w : mach) (ppd : Z) : Prop := {
  so_sys : sys_ok w;
  so_pd : pd_active (m_pg w) = ppd;
  so_ready : g_ready (m_pg w) = true;
  so_tables : forall j, 0 <= j < PMM_POOL_PAGES -> used w j = false ->
    pool_page j <> ppd /\ forall i t, 0 <= i < 1024 -> table_of (pmem (m_pg w)) ppd i = Some t -> t <> pool_page j;
  so_frames : forall q pte, user_page q -> vw w q = Some pte ->
    forall j, 0 <= j < PMM_POOL_PAGES -> used w j = false -> pte &! 0xFFFFF000 <> pool_page j;
}.

(** The runs of user pages that are copied, the stack last. *)
Definition user_runs (segs : list seg) (stack_pages : Z) : list (Z * Z) :=
  map (fun s => (s_va s, s_pages s)) segs ++ [(USER_STACK_TOP -! stack_pages *! PMM_PAGE_SIZE, stack_pages)].
Definition run_ok (r : Z * Z) : Prop :=
  fst r mod 4096 = 0 /\ USER_IMAGE_BASE <= fst r /\ fst r + snd r * 4096 <= USER_IMAGE_END /\ 0 <= snd r.
Definition run_has (r : Z * Z) (q : Z) : Prop := in_pages (fst r) (snd r) q.

Lemma run_user r q : run_ok r -> run_has r q -> user_page q /\ is_page q.
Proof.
  unfold run_ok, run_has, in_pages, user_page, pg_of, is_page, USER_IMAGE_BASE, USER_IMAGE_END. intros (H1 & H2 & H3 & H4) Hq.
  Z.to_euclidean_division_equations. lia.
Qed.

(** Only page-table memory and bytes in pages that were free have changed. *)
Definition off_free (w0 : mach) (a : Z) : Prop :=
  forall j, 0 <= j < PMM_POOL_PAGES -> used w0 j = false -> outside (pool_page j) a.
Record frame (w0 w : mach) : Prop := {
  fr_pg : m_pg w = set_pmem (m_pg w0) (pmem (m_pg w));
  fr_mem : forall a, off_free w0 a -> mem_rd (pmem (m_pg w)) a = mem_rd (pmem (m_pg w0)) a;
  fr_bytes : forall a, off_free w0 a -> m_bytes w !! a = m_bytes w0 !! a;
}.

Lemma pool_page_facts j : 0 <= j < PMM_POOL_PAGES -> pool_page j mod 4096 = 0 /\ 0 < pool_page j /\ pool_page j + 4096 < 2 ^ 32.
Proof.
  unfold pool_page, PMM_POOL_PAGES, PMM_POOL_START, PMM_POOL_END, PMM_PAGE_SIZE. change ((16777216 - 10485760) / 4096) with 1536.
  intros Hj. split; [rewrite Z.mod_add by lia; done | lia].
Qed.

Lemma user_va q : user_page q -> is_u32 (q * 4096) /\ q * 4096 + 4096 <= 2 ^ 32 /\ is_page q.
Proof. unfold user_page, is_u32, is_page. lia. Qed.

Lemma user_page_pde q : is_page q -> user_page q <-> q / 1024 = 1.
Proof. unfold is_page, user_page. intros. Z.to_euclidean_division_equations. lia. Qed.

Lemma page_off_free w0 ppd q pte x : space_ok w0 ppd -> user_page q -> vw w0 q = Some pte -> 0 <= x < 4096 -> off_free w0 (pte &! 0xFFFFF000 + x).
Proof.
  intros Hok Hq Hv Hx j Hj Hu. pose proof (so_frames _ _ Hok q pte Hq Hv j Hj Hu) as Hne. destruct (base_mask pte) as [_ Ha].
  destruct (pool_page_facts j Hj) as (Hp & _ & _). unfold outside. set (b := pte &! 0xFFFFF000) in *. set (c := pool_page j) in *.
  clearbody b c. Z.to_euclidean_division_equations. lia.
Qed.

(** ** The child while it is being built *)

Section Fork.
Variables (w0 : mach) (ppd dj tj : Z).
Hypothesis Hok : space_ok w0 ppd.
Hypothesis Hdj : 0 <= dj < PMM_POOL_PAGES.
Hypothesis Htj : 0 <= tj < PMM_POOL_PAGES.
Hypothesis Hdf : used w0 dj = false.
Hypothesis Htf : used w0 tj = false.
Hypothesis Hdt : dj <> tj.
Let pd := pool_page dj.
Let pt := pool_page tj.

(** Pages [P] are held; the pages [D] hold copies; the user pages [M] are mapped. *)
Record forked (w : mach) (P : list Z) (D M : Z -> Prop) : Prop := {
  fk_holds : holds (m_pmm w0) (m_pmm w) P;
  fk_tables : dj ∈ P /\ tj ∈ P;
  fk_data : forall j, D j -> j ∈ P /\ j <> dj /\ j <> tj;
  fk_pg : m_pg w = set_pmem (m_pg w0) (pmem (m_pg w));
  fk_mem : forall a, outside pd a -> outside pt a -> mem_rd (pmem (m_pg w)) a = mem_rd (pmem (m_pg w0)) a;
  fk_dir : forall i, 0 <= i < 1024 ->
    mem_rd (pmem (m_pg w)) (pd + 4 * i) = if i =? 1 then pt + 7 else mem_rd (pmem (m_pg w0)) (ppd + 4 * i);
  fk_bytes : forall a, off_free w0 a -> m_bytes w !! a = m_bytes w0 !! a;
  fk_none : forall i, 0 <= i < 1024 -> ~ M (1024 + i) -> mem_rd (pmem (m_pg w)) (pt + 4 * i) = 0;
  fk_some : forall i, 0 <= i < 1024 -> M (1024 + i) -> exists pte j, vw w0 (1024 + i) = Some pte /\ D j /\
    mem_rd (pmem (m_pg w)) (pt + 4 * i) = pte_val (pool_page j) (pte &! 0xFFF) /\
    forall x, 0 <= x < 4096 -> ld8 (m_bytes w) (pool_page j + x) = ld8 (m_bytes w0) (pte &! 0xFFFFF000 + x);
}.

Lemma forked_ext w P Q D E M N : P ≡ₚ Q -> (forall j, D j <-> E j) -> (forall q, M q <-> N q) -> forked w P D M -> forked w Q E N.
Proof.
  intros HP HD HM [H1 H2 H3 H4 H5 H6 H7 H8 H9]. constructor; try done.
  - by rewrite <- HP.
  - by rewrite <- HP.
  - intros j Hj. rewrite <- HP. apply H3. by apply HD.
  - intros i Hi Hn. apply H8; [done |]. by rewrite HM.
  - intros i Hi Hn. apply HM in Hn. destruct (H9 i Hi Hn) as (pte & j & E1 & E2 & E3). exists pte, j. by rewrite <- HD.
Qed.

Lemma forked_frame w P D M : forked w P D M -> frame w0 w.
Proof.
  intros [_ _ _ H4 H5 _ H7 _ _]. constructor; [done | | done]. intros a Ha. apply H5; by apply Ha.
Qed.

(** The translation of the parent, seen in any of these states. *)
Lemma tables_apart j : 0 <= j < PMM_POOL_PAGES -> used w0 j = false ->
  ppd <> pool_page j /\ forall i t, 0 <= i < 1024 -> table_of (pmem (m_pg w0)) ppd i = Some t -> t <> pool_page j.
Proof. intros Hj Hu. destruct (so_tables _ _ Hok j Hj Hu). done. Qed.

Lemma ppd_aligned : ppd mod 4096 = 0.
Proof. destruct Hok as [[Hpg _] <- _ _ _]. apply (dw_pd _ _ (gi_dir _ Hpg)). Qed.

Lemma forked_parent w P D M q : forked w P D M -> is_page q -> vw w q = vw w0 q.
Proof.
  intros [_ _ _ H4 H5 _ _ _ _] Hq. unfold vw, view. rewrite H4. change (pd_active (set_pmem (m_pg w0) _)) with (pd_active (m_pg w0)).
  rewrite (so_pd _ _ Hok). cbn [pmem set_pmem]. destruct (tables_apart dj Hdj Hdf) as [T1 T2], (tables_apart tj Htj Htf) as [T3 T4].
  eapply (walk_keep _ _ ppd pd pt q ppd_aligned); try done.
  - by apply pool_page_facts.
  - by apply pool_page_facts.
  - intros i t Hi Ht. split; [by eapply T2 | by eapply T4].
Qed.

Lemma query_page w P D M q x : forked w P D M -> user_page q -> 0 <= x < 4096 ->
  paging_query (m_pg w) (q * 4096 + x) = match vw w0 q with None => None | Some pte => Some (pte &! 0xFFFFF000, pte &! 0xFFF) end.
Proof.
  intros Hf Hq Hx. destruct (user_va q Hq) as (V1 & V2 & V3). unfold is_u32 in V1.
  rewrite paging_query_view by (unfold is_u32; lia). replace ((q * 4096 + x) / 4096) with q by (Z.to_euclidean_division_equations; lia).
  change (view (m_pg w) q) with (vw w q). by rewrite (forked_parent w P D M q Hf V3).
Qed.

(** One page. *)
Lemma copy_page_step w P D M q j pte : forked w P D M -> user_page q -> vw w0 q = Some pte ->
  j ∈ P -> ~ D j -> j <> dj -> j <> tj ->
  exists w1, copy_bytes PAGE_BYTES w (pool_page j) (q * 4096) 0 = Some w1 /\ m_pmm w1 = m_pmm w /\
    forked (set_pg w1 (child_pt_set (m_pg w1) pt (q * 4096) (pool_page j) (pte &! 0xFFF))) P
      (fun i => D i \/ i = j) (fun i => M i \/ i = q).
Proof.
  intros Hf Hq Hv HjP HjD Hjd Hjt. pose proof Hf as [H1 H2 H3 H4 H5 H6 H7 H8 H9].
  destruct (ho_fresh _ _ _ H1 j HjP) as [Hj Hju]. destruct (user_va q Hq) as (V1 & V2 & V3).
  destruct (pool_page_facts j Hj) as (J1 & J2 & J3). destruct (pool_page_facts tj Htj) as (T1 & T2 & T3). destruct (base_mask pte) as [B1 B2].
  pose proof (page_off_free w0 ppd q pte) as Hoff. pose proof (so_frames _ _ Hok q pte Hq Hv j Hj Hju) as Hne.
  destruct w as [pm pg m]. cbn [m_pg m_pmm m_bytes] in *.
  destruct (copy_bytes_spec pm pg (q * 4096) (pool_page j) (pte &! 0xFFFFF000) (pte &! 0xFFF) PAGE_BYTES m 0) as (m' & E & Hm).
  - lia.
  - rewrite PAGE_BYTES_eq. lia.
  - unfold is_u32 in V1. lia.
  - lia.
  - apply Z.mod_mul. lia.
  - lia.
  - lia.
  - revert Hne B2 J1. generalize (pte &! 0xFFFFF000), (pool_page j). intros b c. intros. Z.to_euclidean_division_equations. lia.
  - intros x Hx. pose proof (query_page _ P D M q x Hf Hq Hx) as Eq. cbn [m_pg] in Eq. by rewrite Eq, Hv.
  - rewrite Z.add_0_r, PAGE_BYTES_eq in Hm. exists (mk_mach pm pg m'). split; [exact E |]. split; [done |].
    unfold child_pt_set, set_pg. cbn [m_pmm m_pg m_bytes]. fold (pte_val (pool_page j) (pte &! 0xFFF)).
    destruct (virt_split (q * 4096) V1) as (_ & Ei & _). rewrite Ei. clear Ei. rewrite Z.div_mul by lia.
    assert (Eq : q mod 1024 = q - 1024) by (unfold user_page in Hq; Z.to_euclidean_division_equations; lia). rewrite Eq.
    assert (Hpt : forall i, 0 <= i < 1024 -> mem_rd (mem_wr (pmem pg) (pt + 4 * (q - 1024)) (pte_val (pool_page j) (pte &! 0xFFF))) (pt + 4 * i)
      = if i =? q - 1024 then pte_val (pool_page j) (pte &! 0xFFF) else mem_rd (pmem pg) (pt + 4 * i)).
    { intros i Hi. rewrite mem_rd_wr. destruct (Z.eqb_spec (pt + 4 * (q - 1024)) (pt + 4 * i)), (Z.eqb_spec i (q - 1024)); (done || lia). }
    assert (Hold : forall i x, D i -> 0 <= x < 4096 -> ld8 m' (pool_page i + x) = ld8 m (pool_page i + x)).
    { intros i x Hi Hx. unfold ld8. rewrite Hm. assert (i <> j) by congruence. unfold pool_page.
      destruct (Z.leb_spec (PMM_POOL_START + j * 4096) (PMM_POOL_START + i * 4096 + x)),
        (Z.ltb_spec (PMM_POOL_START + i * 4096 + x) (PMM_POOL_START + j * 4096 + 4096)); cbn [andb]; (done || lia). }
    unfold user_page in Hq.
    constructor; cbn [m_pmm m_pg m_bytes pmem set_pmem].
    + exact H1.
    + exact H2.
    + intros i [Hi | ->]; [by apply H3 | done].
    + rewrite H4. done.
    + intros a Ha1 Ha2. rewrite mem_rd_wr_ne; [by apply H5 |]. unfold outside in Ha2. lia.
    + intros i Hi. rewrite mem_rd_wr_ne; [by apply H6 |]. destruct (pool_page_facts dj Hdj) as (D1 & _ & _).
      apply entry_addr_ne; try done; [lia |]. left. unfold pt, pd, pool_page. lia.
    + intros a Ha. rewrite Hm. specialize (Ha j Hj Hju) as Ho. unfold outside in Ho.
      destruct (Z.leb_spec (pool_page j) a), (Z.ltb_spec a (pool_page j + 4096)); cbn [andb]; try lia; by apply H7.
    + intros i Hi Hn. rewrite Hpt by done. destruct (Z.eqb_spec i (q - 1024)) as [-> |]; [destruct Hn; right; lia |].
      apply H8; [done |]. intros Hm'. apply Hn. by left.
    + intros i Hi Hn. destruct (Z.eqb_spec i (q - 1024)) as [Ei | Ei].
      * exists pte, j. replace (1024 + i) with q by lia. split; [done |]. split; [by right |]. split.
        -- rewrite Hpt by done. by rewrite (proj2 (Z.eqb_eq _ _) Ei).
        -- intros x Hx. specialize (Hoff x Hok Hq Hv Hx).
           assert (El : ld8 m' (pool_page j + x) = ld8 m (pte &! 0xFFFFF000 + x)).
           { unfold ld8 at 1. rewrite Hm. destruct (Z.leb_spec (pool_page j) (pool_page j + x)), (Z.ltb_spec (pool_page j + x) (pool_page j + 4096)); try lia.
             cbn [andb default]. unfold default. by replace (pool_page j + x - pool_page j) with x by lia. }
           rewrite El. unfold ld8. by rewrite H7.
      * destruct Hn as [Hn | Hn]; [| lia]. destruct (H9 i Hi Hn) as (pte' & j' & E1 & E2 & E3 & E4). exists pte', j'.
        split; [done |]. split; [by left |]. split.
        -- rewrite Hpt by done. by rewrite (proj2 (Z.eqb_neq _ _) Ei).
        -- intros x Hx. rewrite Hold by done. by apply E4.
Qed.

(** The loop over the pages of a run: all of them, or the first that the parent
    does not map. *)
Lemma copy_pages_spec P va pages f : run_ok (va, pages) -> 0 <= f -> f + pages <= PMM_POOL_PAGES ->
  forall n w D M k, 0 <= k -> k + Z.of_nat n <= pages -> forked w P D M ->
  (forall j, f + k <= j < f + k + Z.of_nat n -> j ∈ P /\ ~ D j /\ j <> dj /\ j <> tj) ->
  match copy_pages n w va (pool_page f) pt k with
  | None => False
  | Some (w', ok) => m_pmm w' = m_pmm w /\ frame w0 w' /\
      if ok : bool then forked w' P (fun j => D j \/ f + k <= j < f + k + Z.of_nat n)
                          (fun q => M q \/ pg_of va + k <= q < pg_of va + k + Z.of_nat n)
      else exists q, run_has (va, pages) q /\ vw w0 q = None
  end.
Proof.
  intros Hr Hf0 Hfp. induction n as [| n IH]; intros w D M k Hk Hn Hf Hj; cbn [copy_pages].
  { split; [done |]. split; [by eapply forked_frame |]. eapply forked_ext; [done | | | exact Hf]; intros; split; (by left) || intros [? | ?]; (done || lia). }
  assert (Hq : run_has (va, pages) (pg_of va + k)) by (unfold run_has, in_pages; cbn [fst snd]; lia).
  destruct (run_user _ _ Hr Hq) as [Hu Hp]. pose proof Hr as (R1 & R2 & R3 & R4). cbn [fst snd] in *.
  unfold USER_IMAGE_BASE, USER_IMAGE_END in *.
  assert (Eva : va +! k *! PMM_PAGE_SIZE = (pg_of va + k) * 4096).
  { unfold PMM_PAGE_SIZE. rewrite (u32_small (k * 4096)) by (unfold is_u32; lia). rewrite u32_small by (unfold is_u32; lia).
    unfold pg_of. Z.to_euclidean_division_equations. lia. }
  rewrite Eva, pool_page_step by lia. pose proof (query_page w P D M (pg_of va + k) 0 Hf Hu ltac:(lia)) as Eq. rewrite Z.add_0_r in Eq.
  rewrite Eq. destruct (vw w0 (pg_of va + k)) as [pte |] eqn:Ev.
  - destruct (Hj (f + k) ltac:(lia)) as (J1 & J2 & J3 & J4).
    destruct (copy_page_step w P D M (pg_of va + k) (f + k) pte Hf Hu Ev J1 J2 J3 J4) as (w1 & E & Epm & Hf1).
    rewrite E. cbn [mbind option_bind]. specialize (IH _ _ _ (k + 1) ltac:(lia) ltac:(lia) Hf1).
    assert (Hj' : forall j, f + (k + 1) <= j < f + (k + 1) + Z.of_nat n -> j ∈ P /\ ~ (D j \/ j = f + k) /\ j <> dj /\ j <> tj).
    { intros j Hr'. destruct (Hj j ltac:(lia)) as (? & Hd & ? & ?). split; [done |]. split; [intros [? | ?]; [done | lia] | done]. }
    specialize (IH Hj'). destruct (copy_pages n _ va _ pt (k + 1)) as [[w' ok] |]; [| done]. destruct IH as (I1 & I2 & I3).
    split; [by rewrite I1 |]. split; [done |]. destruct ok; [| exact I3].
    eapply forked_ext; [done | | | exact I3]; cbn beta; intros i.
    + destruct (decide (i = f + k)); intuition lia.
    + destruct (decide (i = pg_of va + k)); intuition lia.
  - split; [done |]. split; [by eapply forked_frame |]. by exists (pg_of va + k).
Qed.

Lemma forked_grow w P D M pm f n : forked w P D M -> holds (m_pmm w0) pm (seqZ f n ++ P) -> forked (set_pmm w pm) (seqZ f n ++ P) D M.
Proof.
  intros [H1 [H2 H2'] H3 H4 H5 H6 H7 H8 H9] Hh. constructor; try done.
  - split; apply elem_of_app; by right.
  - intros j Hj. destruct (H3 j Hj) as (? & ? & ?). split; [apply elem_of_app; by right | done].
Qed.

Lemma run_ok_small va n : run_ok (va, n) -> is_u32 n.
Proof. unfold run_ok, is_u32, USER_IMAGE_BASE, USER_IMAGE_END. cbn [fst snd]. lia. Qed.

(** Allocating and copying a run: everything, or nothing is held for it. *)
Lemma copy_run_spec w P D M va pages : forked w P D M -> run_ok (va, pages) ->
  match copy_run w va pages pt with
  | None => False
  | Some (w', c) => frame w0 w' /\
      ((c = 0 /\ holds (m_pmm w0) (m_pmm w') P) \/
       (c <> 0 /\ pool_at (c, pages) /\ forked w' (run_pages (c, pages) ++ P) (fun j => D j \/ j ∈ run_pages (c, pages))
          (fun q => M q \/ run_has (va, pages) q)))
  end.
Proof.
  intros Hf Hr. pose proof Hr as (_ & _ & _ & R4). cbn [fst snd] in R4. unfold copy_run.
  pose proof (holds_alloc _ _ P pages (fk_holds _ _ _ _ Hf) (run_ok_small _ _ Hr)) as Ha.
  destruct (pmm_alloc_pages (m_pmm w) pages) as [pm c]. destruct Ha as [[-> ->] | (f & -> & F1 & F2 & F3 & Hh)].
  { rewrite Z.eqb_refl. assert (E : set_pmm w (m_pmm w) = w) by by destruct w. rewrite E. split; [by eapply forked_frame |].
    left. split; [done | apply Hf]. }
  rewrite pool_page_ne0 by done. pose proof (forked_grow w P D M pm f pages Hf Hh) as Hg.
  pose proof (copy_pages_spec (seqZ f pages ++ P) va pages f Hr F1 F2 (Z.to_nat pages) (set_pmm w pm) D M 0 ltac:(lia) ltac:(lia) Hg) as Hc.
  rewrite Z2Nat.id, !Z.add_0_r in Hc by lia. unshelve epose proof (Hc _) as Hc'; [| clear Hc].
  { intros j Hj. assert (Hin : j ∈ seqZ f pages) by (apply elem_of_seqZ; lia). split; [apply elem_of_app; by left |].
    pose proof (ho_nodup _ _ _ Hh) as Hnd. apply NoDup_app in Hnd as (_ & Hnd & _). specialize (Hnd j Hin).
    destruct (fk_tables _ _ _ _ Hf) as [Td Tt]. split; [intros Hd; by apply Hnd, (fk_data _ _ _ _ Hf j Hd) |]. split; by intros ->. }
  destruct (copy_pages _ _ va _ pt 0) as [[w' ok] |]; [| done]. cbn [mbind option_bind]. destruct Hc' as (C1 & C2 & C3).
  destruct ok.
  - split; [done |]. right. split; [unfold pool_page, PMM_POOL_START; lia |]. split; [split; [by exists f | done] |].
    rewrite run_pages_at. eapply forked_ext; [done | | | exact C3]; cbn beta; intros i; [by rewrite elem_of_seqZ | done].
  - split; [destruct C2; by constructor |]. left. split; [done |]. cbn [m_pmm set_pmm]. rewrite C1. by apply holds_free.
Qed.

(** The segments: [cs] are the copies of the first ones. *)
Definition zip_runs (cs : list Z) (segs : list seg) : list (Z * Z) := zip cs (map s_pages segs).
Definition seg_run (s : seg) : Z * Z := (s_va s, s_pages s).

Lemma copy_segs_spec segs : forall w P D M, forked w P D M -> Forall (fun s => run_ok (seg_run s)) segs ->
  match copy_segs w segs pt with
  | None => False
  | Some (w', cs, ok) => frame w0 w' /\ Forall pool_at (zip_runs cs segs) /\
      let L := concat (map run_pages (zip_runs cs segs)) in
      if ok : bool then length cs = length segs /\ forked w' (L ++ P) (fun j => D j \/ j ∈ L)
                          (fun q => M q \/ Exists (fun s => run_has (seg_run s) q) segs)
      else holds (m_pmm w0) (m_pmm w') (L ++ P)
  end.
Proof.
  induction segs as [| s segs IH]; intros w P D M Hf Hs; cbn [copy_segs].
  { split; [by eapply forked_frame |]. split; [constructor |]. split; [done |]. eapply forked_ext; [done | | | exact Hf]; cbn.
    - intros j. split; [by left |]. intros [? | Hj]; [done | by apply not_elem_of_nil in Hj].
    - intros q. split; [by left |]. intros [? | Hq]; [done | by apply Exists_nil in Hq]. }
  apply Forall_cons in Hs as [Hr Hs]. pose proof (copy_run_spec w P D M (s_va s) (s_pages s) Hf Hr) as Hc.
  destruct (copy_run w (s_va s) (s_pages s) pt) as [[w1 c] |]; [| done]. cbn [mbind option_bind].
  destruct Hc as (Fr & [(-> & Hh) | (Hc0 & Hp & Hf1)]).
  { rewrite Z.eqb_refl. split; [done |]. split; [constructor | done]. }
  rewrite (proj2 (Z.eqb_neq _ _) Hc0). specialize (IH w1 _ _ _ Hf1 Hs).
  destruct (copy_segs w1 segs pt) as [[[w' cs] ok] |]; [| done]. cbn [mbind option_bind]. destruct IH as (I1 & I2 & I3).
  split; [done |]. unfold zip_runs in *. cbn [map zip_with]. split; [by constructor |]. cbn [map concat].
  set (L := concat (map run_pages (zip cs (map s_pages segs)))) in *. set (L1 := run_pages (c, s_pages s)) in *.
  assert (HP : L ++ L1 ++ P ≡ₚ (L1 ++ L) ++ P) by (rewrite !app_assoc; by rewrite (Permutation_app_comm L L1)).
  destruct ok; [| by rewrite <- HP]. destruct I3 as [I3 I4]. split; [cbn; by rewrite I3 |].
  eapply forked_ext; [exact HP | | | exact I4]; cbn beta.
  - intros j. rewrite elem_of_app. tauto.
  - intros q. rewrite Exists_cons. unfold seg_run at 3. tauto.
Qed.
End Fork.

(** ** The whole copy *)

Definition with_phys (segs : list seg) (cs : list Z) : list seg := zip_with (fun s c => mk_seg (s_va s) (s_pages s) c) segs cs.

Lemma with_phys_runs segs : forall cs, map (fun s => (s_phys s, s_pages s)) (with_phys segs cs) = zip_runs cs segs.
Proof.
  unfold with_phys, zip_runs. induction segs as [| s segs IH]; intros [| c cs]; try done. cbn [zip_with map]. by rewrite IH.
Qed.

(** The pages of the child and what they hold. *)
Record child_space (w0 w : mach) (ppd : Z) (segs : list seg) (np : Z) (sp : space) : Prop := {
  cs_len : length (sp_segs sp) = length segs;
  cs_acct : acct_ok (with_phys segs (sp_segs sp)) (sp_stack sp) np (sp_pt sp) (sp_pd sp);
  cs_holds : holds (m_pmm w0) (m_pmm w) (space_pages (with_phys segs (sp_segs sp)) (sp_stack sp) np (sp_pt sp) (sp_pd sp));
  cs_copy : exists dj tj P D, sp_pd sp = pool_page dj /\ sp_pt sp = pool_page tj /\ dj <> tj /\
    forked w0 ppd dj tj w P D (fun q => Exists (fun r => run_has r q) (user_runs segs np));
}.

Lemma new_space_forked w0 ppd dj tj pm : space_ok w0 ppd -> holds (m_pmm w0) pm [tj; dj] ->
  let w := set_pmm w0 pm in
  forked w0 ppd dj tj (set_pg w (set_pmem (m_pg w) (new_dir (pmem (m_pg w)) (pool_page dj) ppd (pool_page tj)))) [tj; dj]
    (fun _ => False) (fun _ => False).
Proof.
  intros Hok Hh. pose proof (ho_nodup _ _ _ Hh) as Hnd. destruct (ho_fresh _ _ _ Hh dj) as [Hd Hdf]; [right; left |].
  destruct (ho_fresh _ _ _ Hh tj) as [Ht Htf]; [left |]. apply NoDup_cons in Hnd as [Hne _].
  assert (Hdt : dj <> tj) by (intros ->; apply Hne; left).
  destruct (pool_page_facts dj Hd) as (D1 & _), (pool_page_facts tj Ht) as (T1 & _).
  destruct (tables_apart w0 ppd Hok dj Hd Hdf) as [A1 _], (tables_apart w0 ppd Hok tj Ht Htf) as [A2 _].
  destruct (new_dir_spec (pmem (m_pg w0)) (pool_page dj) ppd (pool_page tj) D1 T1 (ppd_aligned w0 ppd Hok)) as (N1 & N2 & N3);
    [done | done | unfold pool_page; lia |].
  constructor; cbn [m_pmm m_pg m_bytes set_pmm set_pg pmem set_pmem]; try done.
  - split; [right; left | left].
  - intros i Hi _. by apply N3.
Qed.

Lemma fork_space_spec w ppd segs np : space_ok w ppd -> Forall (fun s => run_ok (seg_run s)) segs -> 0 <= np <= 1024 ->
  match fork_space w ppd segs np with
  | None => False
  | Some (w', None) => frame w w' /\ m_pmm w' = m_pmm w
  | Some (w', Some sp) => frame w w' /\ child_space w w' ppd segs np sp
  end.
Proof.
  intros Hok Hs Hnp. unfold fork_space. pose proof (proj2 (so_sys _ _ Hok)) as Hpm.
  pose proof (holds_alloc _ _ [] 1 (holds_nil _ Hpm) ltac:(done)) as Ha. unfold pmm_alloc_page in *.
  assert (Hfr : forall pm, frame w (set_pmm w pm)) 
    by (intros pm; constructor; [cbn [m_pg set_pmm]; by destruct (m_pg w) | done | done]).
  destruct (pmm_alloc_pages (m_pmm w) 1) as [pm1 pd].
  assert (Hh1 : exists P, holds (m_pmm w) pm1 P /\ (pd = 0 /\ P = [] \/ exists dj, pd = pool_page dj /\ 0 <= dj /\ P = [dj])).
  { destruct Ha as [[-> ->] | (dj & -> & F1 & F2 & F3 & Hh)].
    - exists []. split; [by apply holds_nil | by left].
    - exists [dj]. split; [exact Hh | right; by exists dj]. }
  clear Ha. destruct Hh1 as (P & Hh & Hpd). pose proof (holds_alloc _ _ P 1 Hh ltac:(done)) as Ha.
  destruct (pmm_alloc_pages pm1 1) as [pm2 pt].
  destruct Hpd as [[-> ->] | (dj & -> & Fd & ->)].
  { cbn [Z.eqb orb negb]. destruct Ha as [[-> ->] | (tj & -> & F1 & F2 & F3 & Hh2)].
    - split; [done |]. by apply holds_end.
    - rewrite pool_page_ne0 by done. cbn [negb]. split; [done |]. apply holds_end; [done |]. by apply free_page_holds. }
  rewrite pool_page_ne0 by done. destruct Ha as [[-> ->] | (tj & -> & F1 & F2 & F3 & Hh2)].
  { cbn [Z.eqb orb negb]. split; [done |]. apply holds_end; [done |]. by apply free_page_holds. }
  rewrite pool_page_ne0 by done. cbn [orb negb]. change (seqZ tj 1 ++ [dj]) with [tj; dj] in Hh2. clear Hh.
  pose proof (new_space_forked w ppd dj tj pm2 Hok Hh2) as Hf. cbv zeta in Hf. set (w1 := set_pg _ _) in *. clearbody w1.
  pose proof (ho_nodup _ _ _ Hh2) as Hnd. destruct (ho_fresh _ _ _ Hh2 dj) as [Hd Hdf]; [right; left |].
  destruct (ho_fresh _ _ _ Hh2 tj) as [Ht Htf]; [left |]. apply NoDup_cons in Hnd as [Hne _].
  assert (Hdt : dj <> tj) by (intros ->; apply Hne; left). clear Hne.
  pose proof (copy_segs_spec w ppd dj tj Hok Hd Ht Hdf Htf Hdt segs w1 _ _ _ Hf Hs) as Hc.
  destruct (copy_segs w1 segs (pool_page tj)) as [[[w2 cs] ok] |]; [| done]. cbn [mbind option_bind]. destruct Hc as (Fr2 & Hp & Hc).
  assert (Hback : forall w', frame w w' -> holds (m_pmm w) (m_pmm w') (concat (map run_pages (zip_runs cs segs)) ++ [tj; dj]) ->
    let pm := free_runs (m_pmm w') (zip cs (map s_pages segs)) in
    let pm := fst (pmm_free_page pm (pool_page tj)) in let pm := fst (pmm_free_page pm (pool_page dj)) in
    frame w (set_pmm w' pm) /\ pm = m_pmm w).
  { intros w' Fr Hh. split; [destruct Fr; by constructor |]. apply holds_end; [done |]. do 2 apply free_page_holds.
    by apply free_runs_holds. }
  destruct ok; cbn [negb orb mbind option_bind]; [| by apply Hback]. destruct Hc as [Hlen Hf2].
  set (va := USER_STACK_TOP -! np *! PMM_PAGE_SIZE). assert (Hr : run_ok (va, np)).
  { unfold va, run_ok, USER_STACK_TOP, PMM_PAGE_SIZE, USER_IMAGE_BASE, USER_IMAGE_END. cbn [fst snd]. ured.
    Z.to_euclidean_division_equations. lia. }
  pose proof (copy_run_spec w ppd dj tj Hok Hd Ht Hdf Htf Hdt w2 _ _ _ va np Hf2 Hr) as Hc.
  destruct (copy_run w2 va np (pool_page tj)) as [[w3 st] |]; [| done]. cbn [mbind option_bind].
  destruct Hc as (Fr3 & [(-> & Hh3) | (Hst & Hps & Hf3)]); [cbn [Z.eqb negb]; by apply Hback |].
  rewrite (proj2 (Z.eqb_neq _ _) Hst). split; [done |]. constructor; cbn [sp_segs sp_stack sp_pt sp_pd].
  - done.
  - unfold acct_ok. rewrite with_phys_runs. split; [done |]. split; [done |]. split; (split; [by eexists | done]).
  - pose proof (fk_holds _ _ _ _ _ _ _ _ Hf3) as Hh3. unfold space_pages. rewrite with_phys_runs, !run_pages_at.
    change (seqZ tj 1 ++ seqZ dj 1) with [tj; dj]. by rewrite app_assoc, (Permutation_app_comm (concat _)), <- app_assoc.
  - exists dj, tj. do 2 eexists. split; [done |]. split; [done |]. split; [done |].
    eapply forked_ext; [done | done | | exact Hf3]. cbn beta. intros q. unfold user_runs. rewrite Exists_app, Exists_map, Exists_cons, Exists_nil.
    fold va. unfold seg_run. tauto.
Qed.

(** ** What the child sees *)

Lemma pde_is_pte t : t mod 4096 = 0 -> is_u32 t -> t + 7 = pte_val t 7.
Proof.
  intros Ha Hu. unfold pte_val. rewrite land_fffff000, Ha, Z.sub_0_r by done. rewrite <- Z.lor_assoc. symmetry.
  apply (lor_low_add t 7 12); [lia | exact Ha | lia].
Qed.

Section Child.
Variables (w0 w : mach) (ppd dj tj : Z) (P : list Z) (D M : Z -> Prop).
Hypothesis Hok : space_ok w0 ppd.
Hypothesis Hdt : dj <> tj.
Hypothesis Hf : forked w0 ppd dj tj w P D M.

Lemma child_tables : (0 <= dj < PMM_POOL_PAGES /\ used w0 dj = false) /\ (0 <= tj < PMM_POOL_PAGES /\ used w0 tj = false).
Proof. destruct (fk_tables _ _ _ _ _ _ _ _ Hf). split; by apply (ho_fresh _ _ _ (fk_holds _ _ _ _ _ _ _ _ Hf)). Qed.

Lemma child_pde_user : table_of (pmem (m_pg w)) (pool_page dj) 1 = Some (pool_page tj)
  /\ mem_rd (pmem (m_pg w)) (pool_page dj + 4 * 1) &! PTE_US <> 0.
Proof.
  destruct child_tables as [_ [Ht _]]. destruct (pool_page_facts tj Ht) as (T1 & T2 & T3).
  assert (Hu : is_u32 (pool_page tj)) by (unfold is_u32; lia).
  unfold table_of. cbv zeta. rewrite (fk_dir _ _ _ _ _ _ _ _ Hf 1) by lia. rewrite Z.eqb_refl, pde_is_pte by done. split.
  - destruct (Z.eqb_spec (pte_val (pool_page tj) 7 &! PTE_P) 0) as [E |]; [by apply pte_val_p in E |].
    by rewrite pte_val_base, land_fffff000, T1, Z.sub_0_r.
  - by rewrite pte_val_us.
Qed.

Lemma child_pde_kernel i : 0 <= i < 1024 -> i <> 1 -> mem_rd (pmem (m_pg w)) (pool_page dj + 4 * i) = mem_rd (pmem (m_pg w0)) (ppd + 4 * i).
Proof. intros Hi Hn. rewrite (fk_dir _ _ _ _ _ _ _ _ Hf i Hi). destruct (Z.eqb_spec i 1); [done | done]. Qed.

Lemma child_kernel_walk q : is_page q -> ~ user_page q -> walk (pmem (m_pg w)) (pool_page dj) q = walk (pmem (m_pg w0)) ppd q.
Proof.
  intros Hq Hn. rewrite user_page_pde in Hn by done. destruct (pg_split q Hq) as [Q1 Q2]. destruct child_tables as [[Hd Hdf] [Ht Htf]].
  destruct (pool_page_facts dj Hd) as (D1 & _), (pool_page_facts tj Ht) as (T1 & _).
  unfold walk, table_of. rewrite child_pde_kernel by done. fold (table_of (pmem (m_pg w0)) ppd (q / 1024)).
  destruct (table_of (pmem (m_pg w0)) ppd (q / 1024)) as [t |] eqn:Et; [| done]. unfold entry_of.
  destruct (table_of_base _ _ _ _ Et) as [_ Ta].
  rewrite (fk_mem _ _ _ _ _ _ _ _ Hf); [done | |]; apply outside_entry; try done;
    [by apply (proj2 (tables_apart _ _ Hok dj Hd Hdf) _ _ Q1) | by apply (proj2 (tables_apart _ _ Hok tj Ht Htf) _ _ Q1)].
Qed.

(** A user page is absent, or mapped with the parent's flags to a copy of the
    parent's page. *)
Lemma child_user_walk q : user_page q ->
  (~ M q -> walk (pmem (m_pg w)) (pool_page dj) q = None) /\
  (M q -> exists pte j, vw w0 q = Some pte /\ D j /\ walk (pmem (m_pg w)) (pool_page dj) q = Some (pte_val (pool_page j) (pte &! 0xFFF))
     /\ forall x, 0 <= x < 4096 -> ld8 (m_bytes w) (pool_page j + x) = ld8 (m_bytes w0) (pte &! 0xFFFFF000 + x)).
Proof.
  intros Hq. destruct (user_va q Hq) as (_ & _ & Hp). pose proof (proj1 (user_page_pde q Hp) Hq) as E1.
  unfold walk. rewrite E1, (proj1 child_pde_user). unfold entry_of.
  assert (Ei : q mod 1024 = q - 1024 /\ 0 <= q - 1024 < 1024) by (unfold user_page in Hq; Z.to_euclidean_division_equations; lia).
  destruct Ei as [-> Hi]. split; intros Hm.
  - rewrite (fk_none _ _ _ _ _ _ _ _ Hf (q - 1024) Hi) by (by replace (1024 + (q - 1024)) with q by lia). done.
  - destruct (fk_some _ _ _ _ _ _ _ _ Hf (q - 1024) Hi) as (pte & j & E & Hd & Ee & Hb); [by replace (1024 + (q - 1024)) with q by lia |].
    replace (1024 + (q - 1024)) with q in E by lia. exists pte, j. split; [done |]. split; [done |]. split; [| done]. rewrite Ee.
    destruct (Z.eqb_spec (pte_val (pool_page j) (pte &! 0xFFF) &! PTE_P) 0) as [Ez |]; [by apply pte_val_p in Ez | done].
Qed.
End Child.

(** ** The parent afterwards *)

Section Parent.
Variables (w0 w : mach) (ppd : Z).
Hypothesis Hok : space_ok w0 ppd.
Hypothesis Hfr : frame w0 w.

Lemma frame_active : pd_active (m_pg w) = ppd.
Proof. rewrite (fr_pg _ _ Hfr). apply Hok. Qed.

Lemma table_off_free t i : 0 <= i < 1024 -> t mod 4096 = 0 ->
  (forall j, 0 <= j < PMM_POOL_PAGES -> used w0 j = false -> t <> pool_page j) -> off_free w0 (t + 4 * i).
Proof. intros Hi Ha Hn j Hj Hu. destruct (pool_page_facts j Hj) as (P1 & _). apply outside_entry; auto. Qed.

Lemma frame_pde i : 0 <= i < 1024 -> mem_rd (pmem (m_pg w)) (ppd + 4 * i) = mem_rd (pmem (m_pg w0)) (ppd + 4 * i).
Proof.
  intros Hi. apply (fr_mem _ _ Hfr). apply table_off_free; [done | by eapply ppd_aligned |].
  intros j Hj Hu. by apply tables_apart with w0.
Qed.

Lemma frame_walk q : is_page q -> walk (pmem (m_pg w)) ppd q = walk (pmem (m_pg w0)) ppd q.
Proof.
  intros Hq. destruct (pg_split q Hq) as [Q1 Q2]. unfold walk. rewrite (table_of_ext _ _ _ _ (frame_pde _ Q1)).
  destruct (table_of _ ppd (q / 1024)) as [t |] eqn:Et; [| done]. destruct (table_of_base _ _ _ _ Et) as [_ Ta]. unfold entry_of.
  rewrite (fr_mem _ _ Hfr); [done |]. apply table_off_free; [done | done |]. intros j Hj Hu.
  by apply (proj2 (tables_apart w0 ppd Hok j Hj Hu) _ _ Q1).
Qed.

Lemma frame_view q : is_page q -> vw w q = vw w0 q.
Proof. intros Hq. unfold vw, view. rewrite frame_active, (so_pd _ _ Hok). by apply frame_walk. Qed.

Lemma frame_space_ok : pmm_inv (m_pmm w) -> (forall j, 0 <= j < PMM_POOL_PAGES -> used w j = false -> used w0 j = false) -> space_ok w ppd.
Proof.
  intros Hpm Hu. destruct Hok as [[[G1 G2 G3 G4 G5] _] S2 S3 S4 S5]. pose proof frame_active as Ha. pose proof frame_pde as Hpde.
  assert (Ht : forall i, 0 <= i < 1024 -> table_of (pmem (m_pg w)) ppd i = table_of (pmem (m_pg w0)) ppd i)
    by (intros; by apply table_of_ext, Hpde).
  rewrite S2 in *. constructor.
  - split; [| done]. constructor; rewrite ?Ha.
    + by eapply dir_wf_ext.
    + intros q pte Hq Hw Hp. rewrite frame_walk in Hw by done. rewrite Hpde by (by apply pg_split). by eapply G2.
    + rewrite (fr_pg _ _ Hfr). exact G3.
    + intros E i t Hi Ht'. rewrite Ht in Ht' by done. rewrite (fr_pg _ _ Hfr). by apply (G4 E i).
    + intros q pte Hq Hl. rewrite (fr_pg _ _ Hfr) in Hl. rewrite frame_walk by done. by apply G5.
  - done.
  - by rewrite (fr_pg _ _ Hfr).
  - intros j Hj Hf. destruct (S4 j Hj (Hu j Hj Hf)) as [T1 T2]. split; [done |]. intros i t Hi. rewrite Ht by done. by apply T2.
  - intros q pte Hq. destruct (user_va q Hq) as (_ & _ & Hp). rewrite frame_view by done. intros Hv j Hj Hf. by apply (S5 q pte Hq Hv j Hj), Hu.
Qed.
End Parent.

(** ** The child's own space *)

(** The machine when CR3 is loaded with the child's directory. *)
Definition in_space (w : mach) (pd : Z) : mach := set_pg w (paging_switch_cr3 (m_pg w) pd).

Lemma in_space_active w pd : g_ready (m_pg w) = true -> pd mod 4096 = 0 -> is_u32 pd -> pd_active (m_pg (in_space w pd)) = pd.
Proof.
  intros Hr Ha Hu. unfold pd_active, in_space, paging_switch_cr3, write_cr3. cbn [m_pg set_pg Paging.g_ready cr3]. rewrite Hr. cbn [negb].
  assert (E : pd &! 0xFFFFF000 = pd) by (rewrite land_fffff000 by done; lia). by rewrite !E.
Qed.

Lemma child_space_ok w0 w ppd dj tj P D M : space_ok w0 ppd -> dj <> tj -> forked w0 ppd dj tj w P D M ->
  (forall q, user_page q -> M q \/ ~ M q) -> space_ok (in_space w (pool_page dj)) (pool_page dj).
Proof.
  intros Hok Hdt Hf Hdec. destruct (child_tables _ _ _ _ _ _ _ _ Hf) as [[Hd Hdf] [Ht Htf]].
  destruct (pool_page_facts dj Hd) as (D1 & D2 & D3). assert (Hdu : is_u32 (pool_page dj)) by (unfold is_u32; lia).
  pose proof Hok as [[[[G1 G1' G1''] G2 G3 G4 G5] _] S2 S3 S4 S5]. rewrite S2 in *.
  assert (Hready : g_ready (m_pg w) = true) by (by rewrite (fk_pg _ _ _ _ _ _ _ _ Hf)).
  pose proof (in_space_active w _ Hready D1 Hdu) as Ha. set (wc := in_space w (pool_page dj)) in *.
  pose proof (child_pde_user _ _ _ _ _ _ _ _ Hf) as [U1 U2]. pose proof (child_pde_kernel _ _ _ _ _ _ _ _ Hf) as Hk.
  assert (Hkt : forall i, 0 <= i < 1024 -> i <> 1 -> table_of (pmem (m_pg w)) (pool_page dj) i = table_of (pmem (m_pg w0)) ppd i)
    by (intros i Hi Hn; unfold table_of; by rewrite Hk).
  destruct (tables_apart w0 ppd Hok dj Hd Hdf) as [Ad Ad'], (tables_apart w0 ppd Hok tj Ht Htf) as [At At'].
  pose proof (fk_holds _ _ _ _ _ _ _ _ Hf) as Hh.
  assert (Hfree : forall j, 0 <= j < PMM_POOL_PAGES -> used wc j = false -> j ∉ P /\ used w0 j = false).
  { intros j Hj Hu. change (pused (m_pmm w) j = false) in Hu. rewrite (ho_used _ _ _ Hh j Hj) in Hu. apply orb_false_iff in Hu as [Hu ?].
    by apply bool_decide_eq_false in Hu. }
  destruct (fk_tables _ _ _ _ _ _ _ _ Hf) as [Pd Pt].
  constructor; [split; [| exact (ho_inv _ _ _ Hh)]; constructor | done | done | |]; rewrite ?Ha; change (pmem (m_pg wc)) with (pmem (m_pg w)).
  - constructor; [done | |].
    + intros i t Hi. destruct (Z.eq_dec i 1) as [-> | Hn].
      * rewrite U1. intros [= <-]. unfold pool_page. lia.
      * rewrite Hkt by done. intros E. by apply (Ad' i).
    + assert (Hmix : forall i t, 0 <= i < 1024 -> i <> 1 -> table_of (pmem (m_pg w)) (pool_page dj) i = Some t -> t <> pool_page tj)
        by (intros i t Hi Hn E; rewrite Hkt in E by done; by apply (At' i)).
      intros i j t Hi Hj Ei Ej. destruct (Z.eq_dec i 1) as [-> | Hn], (Z.eq_dec j 1) as [-> | Hn']; [done | | |].
      * rewrite U1 in Ei. injection Ei as <-. by destruct (Hmix j _ Hj Hn' Ej).
      * rewrite U1 in Ej. injection Ej as <-. by destruct (Hmix i _ Hi Hn Ei).
      * rewrite Hkt in Ei, Ej by done. by eapply G1''.
  - intros q pte Hq Hw Hu. destruct (pg_split q Hq) as [Q1 _]. destruct (Z.eq_dec (q / 1024) 1) as [-> | Hn]; [done |].
    rewrite Hk by done. rewrite (child_kernel_walk _ _ _ _ _ _ _ _ Hok Hf q Hq) in Hw by (by rewrite user_page_pde). by eapply G2.
  - change (g_pt_used (m_pg wc)) with (g_pt_used (m_pg w)). rewrite (fk_pg _ _ _ _ _ _ _ _ Hf). exact G3.
  - intros E. exfalso. revert E. unfold pool_page, PMM_POOL_START, PAGING_PD_ADDR. lia.
  - intros q pte _ Hl. change (tlb (m_pg wc)) with (∅ : gmap Z Z) in Hl. done.
  - intros j Hj Hu. destruct (Hfree j Hj Hu) as [HjP Hju]. split; [unfold pool_page; intros E; apply HjP; by replace j with dj by lia |].
    intros i t Hi. destruct (Z.eq_dec i 1) as [-> | Hn].
    + rewrite U1. intros [= <-]. unfold pool_page. intros E. apply HjP. by replace j with tj by lia.
    + rewrite Hkt by done. by apply (S4 j Hj Hju).
  - intros q pte Hq Hv j Hj Hu. destruct (Hfree j Hj Hu) as [HjP Hju]. unfold vw, view in Hv. rewrite Ha in Hv.
    change (pmem (m_pg wc)) with (pmem (m_pg w)) in Hv. destruct (child_user_walk _ _ _ _ _ _ _ _ Hf q Hq) as [Hnone Hsome].
    destruct (Hdec q Hq) as [Hm | Hm]; [| by rewrite Hnone in Hv].
    destruct (Hsome Hm) as (pte0 & j' & _ & HD & E & _). rewrite E in Hv. injection Hv as <-.
    destruct (fk_data _ _ _ _ _ _ _ _ Hf j' HD) as (Hj' & _). destruct (ho_fresh _ _ _ Hh j' Hj') as [Hr' _].
    destruct (pool_page_facts j' Hr') as (J1 & J2 & J3). rewrite pte_val_base, land_fffff000, J1, Z.sub_0_r by (unfold is_u32; lia).
    unfold pool_page. intros E'. apply HjP. by replace j with j' by lia.
Qed.

(** ** Fork of an address space *)

(** What a program sees at a user address: the flags of the page and the byte. *)
Definition space_read (w : mach) (pd va : Z) : option (Z * Z) :=
  match walk (pmem (m_pg w)) pd (va / 4096) with
  | None => None
  | Some pte => Some (pte &! 0xFFF, ld8 (m_bytes w) (pte &! 0xFFFFF000 + va mod 4096))
  end.

#[global] Instance run_has_dec r q : Decision (run_has r q).
Proof. unfold run_has, in_pages. apply _. Defined.

Definition copied (segs : list seg) (np q : Z) : Prop := Exists (fun r => run_has r q) (user_runs segs np).
#[global] Instance copied_dec segs np q : Decision (copied segs np q).
Proof. unfold copied. apply _. Defined.

Record forked_space (w w' : mach) (ppd : Z) (segs : list seg) (np : Z) (sp : space) : Prop := {
  fs_parent : forall va, user_page (va / 4096) -> space_read w' ppd va = space_read w ppd va;
  fs_child : forall va, user_page (va / 4096) ->
    space_read w' (sp_pd sp) va = if decide (copied segs np (va / 4096)) then space_read w ppd va else None;
  fs_kernel : forall q, is_page q -> ~ user_page q -> walk (pmem (m_pg w')) (sp_pd sp) q = walk (pmem (m_pg w')) ppd q;
  fs_apart : forall q q' pte pte', user_page q -> user_page q' -> walk (pmem (m_pg w')) (sp_pd sp) q = Some pte ->
    walk (pmem (m_pg w')) ppd q' = Some pte' -> pte &! 0xFFFFF000 <> pte' &! 0xFFFFF000;
  fs_parent_ok : space_ok w' ppd;
  fs_child_ok : space_ok (in_space w' (sp_pd sp)) (sp_pd sp);
}.

Lemma pte_flags_present pte : pte &! PTE_P <> 0 -> (pte &! 0xFFF &! 0xFFF) |! PTE_P = pte &! 0xFFF.
Proof.
  intros Hp. rewrite <- Z.land_assoc. change (0xFFF &! 0xFFF) with 0xFFF. apply Z.bits_inj'. intros n Hn. rewrite Z.lor_spec.
  destruct (Z.eq_dec n 0) as [-> | Hne].
  - change (Z.testbit PTE_P 0) with true. rewrite orb_true_r, Z.land_spec. change (Z.testbit 0xFFF 0) with true. rewrite andb_true_r.
    symmetry. change PTE_P with 1 in Hp. rewrite land_1 in Hp. rewrite Z.bit0_odd, Zodd_mod. apply Z.eqb_eq.
    pose proof (Z.mod_pos_bound pte 2). lia.
  - replace (Z.testbit PTE_P n) with false; [by rewrite orb_false_r |]. symmetry. unfold PTE_P.
    change 1 with (2 ^ 0). apply Z.pow2_bits_false. lia.
Qed.

Lemma space_read_frame w w' ppd va : space_ok w ppd -> frame w w' -> user_page (va / 4096) -> space_read w' ppd va = space_read w ppd va.
Proof.
  intros Hok Hfr Hq. destruct (user_va _ Hq) as (_ & _ & Hp). unfold space_read. rewrite (frame_walk w w' ppd Hok Hfr _ Hp).
  destruct (walk (pmem (m_pg w)) ppd (va / 4096)) as [pte |] eqn:E; [| done]. do 2 f_equal. unfold ld8. rewrite (fr_bytes _ _ Hfr); [done |].
  apply (page_off_free w ppd (va / 4096) pte); [done | done | | apply Z.mod_pos_bound; lia]. unfold vw, view. by rewrite (so_pd _ _ Hok).
Qed.

Lemma child_space_forked w w' ppd segs np sp : space_ok w ppd -> frame w w' -> child_space w w' ppd segs np sp ->
  forked_space w w' ppd segs np sp.
Proof.
  intros Hok Hfr [_ _ _ (dj & tj & P & D & Epd & Ept & Hdt & Hf)]. pose proof (fk_holds _ _ _ _ _ _ _ _ Hf) as Hh.
  assert (Hpok : space_ok w' ppd).
  { apply (frame_space_ok w w' ppd Hok Hfr (ho_inv _ _ _ Hh)). intros j Hj Hu. change (pused (m_pmm w') j = false) in Hu.
    rewrite (ho_used _ _ _ Hh j Hj) in Hu. by apply orb_false_iff in Hu as [_ ?]. }
  assert (Hchild : forall q pte, user_page q -> walk (pmem (m_pg w')) (pool_page dj) q = Some pte ->
    exists j, j ∈ P /\ pte &! 0xFFFFF000 = pool_page j).
  { intros q pte Hq Hw. destruct (child_user_walk _ _ _ _ _ _ _ _ Hf q Hq) as [Hn Hs].
    destruct (decide (copied segs np q)) as [Hc | Hc]; [| rewrite Hn in Hw; done].
    destruct (Hs Hc) as (pte0 & j & _ & HD & E & _). rewrite E in Hw. injection Hw as <-. exists j.
    destruct (fk_data _ _ _ _ _ _ _ _ Hf j HD) as (Hj & _). split; [done |]. destruct (ho_fresh _ _ _ Hh j Hj) as [Hr _].
    destruct (pool_page_facts j Hr) as (J1 & J2 & J3). rewrite pte_val_base, land_fffff000, J1 by (unfold is_u32; lia). lia. }
  constructor; rewrite ?Epd.
  - intros va Hq. by apply space_read_frame.
  - intros va Hq. unfold space_read at 1. destruct (child_user_walk _ _ _ _ _ _ _ _ Hf _ Hq) as [Hn Hs].
    destruct (decide _) as [Hc | Hc]; [| by rewrite Hn]. destruct (Hs Hc) as (pte & j & Ev & HD & E & Hb). rewrite E.
    pose proof (view_present _ _ _ Ev) as Hpr. unfold vw, view in Ev. rewrite (so_pd _ _ Hok) in Ev. unfold space_read. rewrite Ev.
    destruct (fk_data _ _ _ _ _ _ _ _ Hf j HD) as (Hj & _). destruct (ho_fresh _ _ _ Hh j Hj) as [Hr _].
    destruct (pool_page_facts j Hr) as (J1 & J2 & J3).
    rewrite pte_val_flags, pte_flags_present, pte_val_base, land_fffff000, J1, Z.sub_0_r by (done || unfold is_u32; lia).
    by rewrite Hb by (apply Z.mod_pos_bound; lia).
  - intros q Hq Hn. rewrite (child_kernel_walk _ _ _ _ _ _ _ _ Hok Hf q Hq Hn). symmetry. by apply frame_walk.
  - intros q q' pte pte' Hq Hq' Hw Hw'. destruct (Hchild q pte Hq Hw) as (j & Hj & ->). destruct (ho_fresh _ _ _ Hh j Hj) as [Hr Hu].
    destruct (user_va _ Hq') as (_ & _ & Hp'). rewrite (frame_walk w w' ppd Hok Hfr _ Hp') in Hw'. intros E. symmetry in E. revert E.
    apply (so_frames _ _ Hok q'); [done | | done | done]. unfold vw, view. by rewrite (so_pd _ _ Hok).
  - done.
  - eapply (child_space_ok w w' ppd); [done | done | exact Hf |]. intros q Hq. destruct (decide (copied segs np q)); [by left | by right].
Qed.

(** C7. Forking the address space of a running process.  It never faults.  When
    it fails, the page allocator is back word for word and the process sees what
    it saw.  When it succeeds, the child sees, at every user address of the
    segments and the stack, the byte and the page flags that the parent saw, and
    nothing at other user addresses; outside user space both use the same page
    tables; no user page of one is a user page of the other; the parent sees
    what it saw; and both spaces can run and be forked again. *)
Theorem fork_space_exact (w : mach) (ppd : Z) (segs : list seg) (np : Z) (Hok : space_ok w ppd)
    (Hs : Forall (fun s => run_ok (seg_run s)) segs) (Hnp : 0 <= np <= 1024) :
  match fork_space w ppd segs np with
  | None => False
  | Some (w', None) => m_pmm w' = m_pmm w /\ space_ok w' ppd /\
      forall va, user_page (va / 4096) -> space_read w' ppd va = space_read w ppd va
  | Some (w', Some sp) => forked_space w w' ppd segs np sp
  end.
Proof.
  pose proof (fork_space_spec w ppd segs np Hok Hs Hnp) as H. destruct (fork_space w ppd segs np) as [[w' [sp |]] |]; [| | done].
  - destruct H. by apply child_space_forked.
  - destruct H as [Hfr E]. split; [done |]. split; [| intros; by apply space_read_frame].
    apply (frame_space_ok w w' ppd Hok Hfr); [rewrite E; apply Hok | unfold used; by rewrite E].
Qed.

(** ** A small process: a page of code and a page of stack *)

Definition demo_pmm : pmm_state := fst (pmm_alloc_pages pmm_init 4).
Definition demo_tables : gmap Z Z :=
  mem_wr (mem_wr (mem_wr ∅ (0xA00000 + 4 * 1) 0xA01007) (0xA01000 + 4 * 0) 0xA02007) (0xA01000 + 4 * 1023) 0xA03007.
Definition demo_mach : mach := mk_mach demo_pmm (mk_pg demo_tables 0 0xA00000 ∅ 0 2 true) {[ 0xA02000 := 0x90; 0xA03FFF := 42 ]}.
Definition demo_segs : list seg := [mk_seg 0x400000 1 0xA02000].

Lemma demo_pmm_inv : pmm_inv demo_pmm.
Proof.
  unfold demo_pmm. pose proof (pmm_alloc_pages_first_fit_spec pmm_init 4 pmm_init_inv ltac:(done)) as Hs.
  destruct (pmm_alloc_pages pmm_init 4). apply Hs.
Qed.

Lemma demo_free j k : 0 <= j < PMM_POOL_PAGES -> used demo_mach j = false -> 0 <= k < 4 -> pool_page j <> pool_page k.
Proof.
  unfold pool_page. intros Hj Hu Hk E. assert (j = k) as -> by lia. assert (Hk' : k = 0 \/ k = 1 \/ k = 2 \/ k = 3) by lia.
  destruct Hk' as [-> | [-> | [-> | ->]]]; vm_compute in Hu; done.
Qed.

Lemma demo_table i : 0 <= i < 1024 -> table_of demo_tables 0xA00000 i = if i =? 1 then Some 0xA01000 else None.
Proof.
  intros Hi. unfold table_of, demo_tables. rewrite !mem_rd_wr.
  destruct (Z.eqb_spec (0xA01000 + 4 * 1023) (0xA00000 + 4 * i)), (Z.eqb_spec (0xA01000 + 4 * 0) (0xA00000 + 4 * i)),
    (Z.eqb_spec (0xA00000 + 4 * 1) (0xA00000 + 4 * i)), (Z.eqb_spec i 1); try lia; done.
Qed.

Lemma demo_walk q pte : is_page q -> walk demo_tables 0xA00000 q = Some pte ->
  user_page q /\ exists k, 2 <= k < 4 /\ pte &! 0xFFFFF000 = pool_page k /\ mem_rd demo_tables (0xA00000 + 4 * (q / 1024)) &! PTE_US <> 0.
Proof.
  intros Hq. destruct (pg_split q Hq) as [Q1 Q2]. unfold walk. rewrite demo_table by done. destruct (Z.eqb_spec (q / 1024) 1) as [E |]; [| done].
  rewrite user_page_pde by done. unfold entry_of, demo_tables at 1 2. cbv zeta. rewrite !mem_rd_wr.
  destruct (Z.eqb_spec (0xA01000 + 4 * 1023) (0xA01000 + 4 * (q mod 1024))); cbn [Z.land Z.eqb]; [intros [= <-]; split; [done |]; exists 3; rewrite E; by vm_compute |].
  destruct (Z.eqb_spec (0xA01000 + 4 * 0) (0xA01000 + 4 * (q mod 1024))); [intros [= <-]; split; [done |]; exists 2; rewrite E; by vm_compute |].
  by destruct (Z.eqb_spec (0xA00000 + 4 * 1) (0xA01000 + 4 * (q mod 1024))); [lia |].
Qed.

Lemma demo_space_ok : space_ok demo_mach 0xA00000.
Proof.
  assert (Ha : pd_active (m_pg demo_mach) = 0xA00000) by reflexivity.
  constructor; [split; [| apply demo_pmm_inv]; constructor | done | done | |]; rewrite ?Ha; change (pmem (m_pg demo_mach)) with demo_tables.
  - constructor; [by unfold is_u32 | |].
    + intros i t Hi. rewrite demo_table by done. destruct (i =? 1); [by intros [= <-] | done].
    + intros i j t Hi Hj. rewrite !demo_table by done. destruct (Z.eqb_spec i 1), (Z.eqb_spec j 1); (done || congruence).
  - intros q pte Hq Hw _. by destruct (demo_walk q pte Hq Hw) as (_ & k & _ & _ & ?).
  - done.
  - done.
  - intros q pte _ Hl. done.
  - intros j Hj Hu. split; [by apply (demo_free j 0) |]. intros i t Hi. rewrite demo_table by done.
    destruct (i =? 1); [intros [= <-] | done]. intros E. symmetry in E. by apply (demo_free j 1) in E.
  - intros q pte Hq Hv j Hj Hu. destruct (user_va q Hq) as (_ & _ & Hp). destruct (demo_walk q pte Hp Hv) as (_ & k & Hk & -> & _).
    intros E. symmetry in E. apply (demo_free j k) in E; [done | done | done | lia].
Qed.

Lemma fork_space_exact_witness :
  match fork_space demo_mach 0xA00000 demo_segs 1 with
  | None => False
  | Some (w', None) => m_pmm w' = m_pmm demo_mach /\ space_ok w' 0xA00000 /\
      forall va, user_page (va / 4096) -> space_read w' 0xA00000 va = space_read demo_mach 0xA00000 va
  | Some (w', Some sp) => forked_space demo_mach w' 0xA00000 demo_segs 1 sp
  end.
Proof.
  apply (fork_space_exact demo_mach 0xA00000 demo_segs 1 demo_space_ok); [| lia].
  repeat constructor; cbn; unfold USER_IMAGE_BASE, USER_IMAGE_END; lia.
Defined.

(** It is the successful case: the child reads the parent's last byte of stack. *)
Lemma demo_fork_succeeds :
  match fork_space demo_mach 0xA00000 demo_segs 1 with
  | Some (w', Some sp) => sp = mk_space 0xA04000 0xA05000 [0xA06000] 0xA07000 /\ space_read w' (sp_pd sp) 0x7FFFFF = Some (7, 42)
  | _ => False
  end.
Proof. vm_compute. done. Qed.
