(* ===== verification/Http.v ===== *)
(** * Http: the HTTP client ([kernel/http.c])

    URL splitting, IPv4 literals, line reading, fixed-length, chunked and
    read-to-close bodies, redirects, and [http_fetch].  The TCP and DNS calls
    of [kernel/net.c] are the interface [NetOps].  C strings are lists of bytes
    without their terminator. *)

From S2P Require Import Prelude.

Definition HTTP_MAX_REDIR : Z := 5.
Definition HTTP_URL_MAX : Z := 256.
Definition HTTP_HOST_MAX : Z := 128.
Definition HTTP_PATH_MAX : Z := 384.
Definition H_RX_CHUNK : Z := 512.
Definition H_LINE_MAX : Z := 1024.
Definition H_TMP_VAL : Z := 256.
Definition CTYPE_CAP : Z := 48.

(** ** The network, as the client uses it

    [incoming w s] is what the peer of socket [s] still delivers before its
    stream ends with the result [stream_end w s] (0 for an orderly close,
    negative for an error or a time-out). *)
Class NetOps (N : Type) := {
  net_dns_resolve : N -> list Z -> N * option Z;
  net_tcp_connect : N -> Z -> Z -> N * Z;
  net_tcp_send : N -> Z -> list Z -> N * Z;
  net_tcp_recv : N -> Z -> Z -> N * (Z * list Z);
  net_tcp_close : N -> Z -> N;
  incoming : N -> Z -> list Z;
  stream_end : N -> Z -> Z;
  open_socks : N -> list Z;
  stream_end_nonpos w s : stream_end w s <= 0;
  recv_spec w s n : 0 < n ->
    let '(w', (r, d)) := net_tcp_recv w s n in
    open_socks w' = open_socks w /\ stream_end w' s = stream_end w s /\
    ((r = stream_end w s /\ d = [] /\ incoming w s = [] /\ incoming w' s = []) \/
     (0 < r <= n /\ Z.of_nat (length d) = r /\ incoming w s = d ++ incoming w' s));
  dns_socks w h : open_socks (fst (net_dns_resolve w h)) = open_socks w;
  connect_socks w ip p : let '(w', s) := net_tcp_connect w ip p in
    open_socks w' = if s <? 0 then open_socks w else s :: open_socks w;
  send_socks w s d : open_socks (fst (net_tcp_send w s d)) = open_socks w;
  close_socks w s l : open_socks w = s :: l -> open_socks (net_tcp_close w s) = l;
}.

(** ** Strings *)

Definition h_copy_bounded (cap : Z) (src : list Z) : list Z * bool :=
  if cap =? 0 then ([], true)
  else (take (Z.to_nat (cap - 1)) src, cap - 1 <? Z.of_nat (length src)).

Definition h_lc (c : Z) : Z := if (65 <=? c) && (c <=? 90) then c - 65 + 97 else c.

(** The byte at an index, 0 at the terminator. *)
Definition at_ (s : list Z) (i : nat) : Z := nth i s 0.

Fixpoint h_prefix_ci (s pfx : list Z) : bool :=
  match pfx with
  | [] => true
  | c :: pfx' => if h_lc (at_ s 0) =? h_lc c then h_prefix_ci (tail s) pfx' else false
  end.

Definition is_digit (c : Z) : bool := (48 <=? c) && (c <=? 57).

(** The longest prefix of bytes that satisfy [p], and the rest. *)
Fixpoint span (p : Z -> bool) (s : list Z) : list Z * list Z :=
  match s with
  | [] => ([], [])
  | c :: s' => if p c then let '(a, b) := span p s' in (c :: a, b) else ([], s)
  end.

Definition dec_value (ds : list Z) : Z := fold_left (fun v c => v *! 10 +! (c - 48)) ds 0.

(** ** URLs *)

Record url_parts := mk_url { u_host : list Z; u_port : Z; u_path : list Z; u_https : bool }.

Definition copy_or_fail (cap : Z) (s : list Z) : option (list Z) :=
  let '(d, t) := h_copy_bounded cap s in if t then None else Some d.

Definition parse_port (q : list Z) (prt : Z) : option (Z * list Z) :=
  if at_ q 0 =? 58 then
    let '(ds, rest) := span is_digit (tail q) in
    let pn := Z.of_nat (length ds) in
    if (pn =? 0) || (5 <? pn) then None
    else
      let v := dec_value ds in
      if (v =? 0) || (0xFFFF <? v) then None else Some (v, rest)
  else Some (prt, q).

Definition http_parse_url (url : list Z) (hostcap pathcap : Z) : option url_parts :=
  let ulen := Z.of_nat (length url) in
  if (ulen =? 0) || (2048 <=? ulen) then None
  else
    scheme ← (if (7 <=? ulen) && h_prefix_ci url (bytes "http://") then Some (drop 7 url, 80, false)
              else if (8 <=? ulen) && h_prefix_ci url (bytes "https://") then Some (drop 8 url, 443, true)
              else _ ← copy_or_fail pathcap (bytes "/"); Some (url, 80, false));
    let '(p, prt, https) := scheme in
    let '(h, q) := span (fun c => negb (c =? 47) && negb (c =? 58)) p in
    let hn := Z.of_nat (length h) in
    if (hn =? 0) || (HTTP_HOST_MAX <=? hn) then None
    else
      host ← copy_or_fail hostcap h;
      pq ← parse_port q prt;
      let '(prt, q) := pq in
      path ← copy_or_fail pathcap (match q with [] => bytes "/" | _ => q end);
      Some (mk_url host prt path https).

(** ** IPv4 literals *)

(** The scan; [None] is -1.  The list is followed by the terminator. *)
Fixpoint parse_ipv4_from (s : list Z) (val parts oct digits : Z) : option Z :=
  match s with
  | c :: s' =>
      if is_digit c then
        let digits := digits +! 1 in
        if 3 <? digits then None
        else
          let oct := oct *! 10 +! (c - 48) in
          if 255 <? oct then None else parse_ipv4_from s' val parts oct digits
      else if c =? 46 then
        if digits =? 0 then None
        else
          let val := u32 (Z.shiftl val 8) |! oct in
          let parts := parts +! 1 in
          if parts =? 4 then None else parse_ipv4_from s' val parts 0 0
      else None
  | [] =>
      if digits =? 0 then None
      else
        let val := u32 (Z.shiftl val 8) |! oct in
        if negb (parts +! 1 =? 4) then None else Some val
  end.
Definition parse_ipv4 (s : list Z) : option Z := parse_ipv4_from s 0 0 0 0.

Definition looks_like_ipv4 (s : list Z) : bool :=
  let '(h, _) := span (fun c => negb (c =? 47) && negb (c =? 58)) s in
  match h with [] => false | _ => forallb (fun c => (c =? 46) || is_digit c) h end.

(** ** Reading a response *)

Section Http.
Context {N : Type} `{NO : NetOps N}.

Inductive rline := Line (l : list Z) | Disc | TooLong.

Definition chomp (l : list Z) : list Z :=
  match last l with Some 13 => removelast l | _ => l end.

(** [acc] holds [g_line]; the loop ends within [H_LINE_MAX] bytes. *)
Fixpoint read_line_from (fuel : nat) (w : N) (sid : Z) (acc : list Z) : N * rline :=
  match fuel with
  | O => (w, TooLong)
  | S fuel' =>
      let '(w, (r, d)) := net_tcp_recv w sid 1 in
      if r <? 0 then (w, Disc)
      else if r =? 0 then (w, Disc)
      else
        let c := at_ d 0 in
        if c =? 10 then (w, Line (chomp acc))
        else if H_LINE_MAX <=? Z.of_nat (length acc) + 1 then (w, TooLong)
        else read_line_from fuel' w sid (acc ++ [c])
  end.
Definition http_read_line (w : N) (sid : Z) : N * rline := read_line_from (Z.to_nat H_LINE_MAX) w sid [].

Record sink_t := mk_sink { s_buf : list Z; s_cap : Z; s_trunc : bool }.

Fixpoint sink_put (k : sink_t) (d : list Z) : sink_t :=
  match d with
  | [] => k
  | x :: d' => sink_put (if Z.of_nat (length (s_buf k)) <? s_cap k then mk_sink (s_buf k ++ [x]) (s_cap k) (s_trunc k)
                         else mk_sink (s_buf k) (s_cap k) true) d'
  end.

(** The loop runs at most once per byte. *)
Fixpoint read_by_length_from (fuel : nat) (w : N) (sid : Z) (k : sink_t) (left : Z) : N * sink_t * Z :=
  match fuel with
  | O => (w, k, 0)
  | S fuel' =>
      if left =? 0 then (w, k, 0)
      else
        let n := if left <? H_RX_CHUNK then left else H_RX_CHUNK in
        let '(w, (r, d)) := net_tcp_recv w sid n in
        if r <? 0 then (w, k, -1)
        else if r =? 0 then (w, k, -2)
        else read_by_length_from fuel' w sid (sink_put k d) (left -! r)
  end.
Definition read_by_length (w : N) (sid : Z) (k : sink_t) (want : Z) : N * sink_t * Z :=
  read_by_length_from (Z.to_nat want + 1) w sid k want.

Definition hex_digit (c : Z) : option Z :=
  if (48 <=? c) && (c <=? 57) then Some (c - 48)
  else if (97 <=? c) && (c <=? 102) then Some (c - 97 + 10)
  else if (65 <=? c) && (c <=? 70) then Some (c - 65 + 10)
  else None.

(** The chunk size of a chunk line; [None] is -2. *)
Fixpoint chunk_size (l : list Z) (sz digits : Z) : option Z :=
  match l with
  | [] => if digits =? 0 then None else Some sz
  | c :: l' =>
      if c =? 59 then (if digits =? 0 then None else Some sz)
      else d ← hex_digit c;
           let digits := digits +! 1 in
           if 8 <? digits then None else chunk_size l' (u32 (Z.shiftl sz 4) |! d) digits
  end.

Inductive body_result := Done (w : N) (k : sink_t) (rc : Z) | OutOfFuel.

Fixpoint read_trailer (fuel : nat) (w : N) (sid : Z) (k : sink_t) : body_result :=
  match fuel with
  | O => OutOfFuel
  | S fuel' =>
      let '(w, l) := http_read_line w sid in
      match l with Line [] => Done w k 0 | Line _ => read_trailer fuel' w sid k | _ => Done w k (-1) end
  end.

Fixpoint read_chunked (fuel : nat) (w : N) (sid : Z) (k : sink_t) : body_result :=
  match fuel with
  | O => OutOfFuel
  | S fuel' =>
      let '(w, l) := http_read_line w sid in
      match l with
      | Line [] => Done w k (-2)
      | Line l =>
          match chunk_size l 0 0 with
          | None => Done w k (-2)
          | Some sz =>
              if sz =? 0 then read_trailer fuel' w sid k
              else
                let '(w, k, rc) := read_by_length w sid k sz in
                if negb (rc =? 0) then Done w k rc
                else
                  let '(w, l) := http_read_line w sid in
                  match l with
                  | Line [] => read_chunked fuel' w sid k
                  | Line _ => Done w k (-2)
                  | _ => Done w k (-1)
                  end
          end
      | _ => Done w k (-1)
      end
  end.

Fixpoint read_to_eof (fuel : nat) (w : N) (sid : Z) (k : sink_t) : body_result :=
  match fuel with
  | O => OutOfFuel
  | S fuel' =>
      let '(w, (r, d)) := net_tcp_recv w sid H_RX_CHUNK in
      if r <? 0 then Done w k (-1) else if r =? 0 then Done w k 0 else read_to_eof fuel' w sid (sink_put k d)
  end.

(** ** One request *)

Definition is_ows (c : Z) : bool := (c =? 32) || (c =? 9).
Definition cstr (s : list Z) : list Z := take (Z.to_nat (c_strlen s)) s.
Fixpoint drop_while (p : Z -> bool) (s : list Z) : list Z :=
  match s with c :: s' => if p c then drop_while p s' else s | [] => [] end.
Definition trim_end (s : list Z) : list Z := rev (drop_while is_ows (rev s)).

(** The value and whether it was cut; [None] when the name does not match. *)
Definition header_value (line name : list Z) (cap : Z) : option (list Z * bool) :=
  if negb (h_prefix_ci line name) then None
  else
    let v := drop (length name) line in
    if negb (at_ v 0 =? 58) then None
    else Some (h_copy_bounded cap (trim_end (cstr (drop_while is_ows (tail v))))).

Definition header_ok (line name : list Z) : option (list Z) :=
  match header_value line name H_TMP_VAL with Some (v, false) => Some v | _ => None end.

(** [Content-Length]: -2 when it is not a number below 2^31. *)
Fixpoint parse_clen (s : list Z) (v : Z) : Z :=
  match s with
  | [] => v
  | c :: s' =>
      if negb (is_digit c) then -2
      else let v := v *! 10 +! (c - 48) in if 0x7FFFFFFF <? v then -2 else parse_clen s' v
  end.

Record http_result := mk_res {
  h_status : Z; content_length : Z; body_len : Z; redirects : Z;
  h_chunked : bool; h_truncated : bool; content_type : list Z
}.
Definition res_zero : http_result := mk_res 0 0 0 0 false false [].

Record hdrs := mk_hdrs { hd_clen : Z; hd_chunked : bool; hd_loc : list Z; hd_ctype : option (list Z) }.

Definition header_line (h : hdrs) (line : list Z) : hdrs :=
  match header_ok line (bytes "Content-Length") with
  | Some v => mk_hdrs (parse_clen v 0) (hd_chunked h) (hd_loc h) (hd_ctype h)
  | None =>
      match header_ok line (bytes "Transfer-Encoding") with
      | Some v => mk_hdrs (hd_clen h) (hd_chunked h || h_prefix_ci v (bytes "chunked")) (hd_loc h) (hd_ctype h)
      | None =>
          match header_ok line (bytes "Content-Type") with
          | Some v => mk_hdrs (hd_clen h) (hd_chunked h) (hd_loc h) (Some (take (Z.to_nat (CTYPE_CAP - 1)) v))
          | None =>
              if bool_decide (hd_loc h = []) then
                match header_ok line (bytes "Location") with
                | Some v => mk_hdrs (hd_clen h) (hd_chunked h) (fst (h_copy_bounded HTTP_URL_MAX v)) (hd_ctype h)
                | None => h
                end
              else h
          end
      end
  end.

(** Header lines up to the empty one; [false] is a broken connection, [None]
    is out of fuel. *)
Fixpoint read_headers (fuel : nat) (w : N) (sid : Z) (h : hdrs) : option (N * hdrs * bool) :=
  match fuel with
  | O => None
  | S fuel' =>
      let '(w, l) := http_read_line w sid in
      match l with
      | Line [] => Some (w, h, true)
      | Line l => read_headers fuel' w sid (header_line h l)
      | _ => Some (w, h, false)
      end
  end.

(** The decimal digits of a 16-bit number, most significant first. *)
Fixpoint dec_digits (fuel : nat) (v : Z) (acc : list Z) : list Z :=
  match fuel with
  | O => acc
  | S fuel' => let acc := (48 + v mod 10) :: acc in if v / 10 =? 0 then acc else dec_digits fuel' (v / 10) acc
  end.
Definition show_port (v : Z) : list Z := dec_digits 5 v [].
Definition CRLF : list Z := [13; 10].
Definition port_suffix (port : Z) : list Z := if port =? 80 then [] else 58 :: show_port port.

Definition request (host : list Z) (port : Z) (path : list Z) : list Z :=
  bytes "GET " ++ path ++ bytes " HTTP/1.1" ++ CRLF ++ bytes "Host: " ++ host ++ port_suffix port ++ CRLF
  ++ CRLF ++ bytes "Connection: close" ++ CRLF ++ CRLF.

(** The status code of a status line. *)
Definition status_line (l : list Z) : option Z :=
  if negb (h_prefix_ci l (bytes "HTTP/1.")) then None
  else if (at_ l 7 <? 48) || (49 <? at_ l 7) then None
  else if negb (at_ l 8 =? 32) then None
  else if is_digit (at_ l 9) && is_digit (at_ l 10) && is_digit (at_ l 11)
  then Some ((at_ l 9 - 48) * 100 + (at_ l 10 - 48) * 10 + (at_ l 11 - 48)) else None.

Record round_out := mk_round { ro_net : N; ro_rc : Z; ro_res : http_result; ro_body : list Z; ro_loc : list Z }.

Definition set_body (r : http_result) (clen : Z) (chunked : bool) (k : sink_t) : http_result :=
  mk_res (h_status r) clen (Z.of_nat (length (s_buf k))) (redirects r) chunked (s_trunc k) (content_type r).

(** The body, then [net_tcp_close]. *)
Definition round_body (fuel : nat) (w : N) (sid outcap : Z) (h : hdrs) (r : http_result) : option round_out :=
  let k := mk_sink [] outcap false in
  let finish b (clen : Z) (ch : bool) :=
    match b with
    | OutOfFuel => None
    | Done w k rc =>
        let w := net_tcp_close w sid in
        Some (mk_round w (if rc =? 0 then 0 else -5) (set_body r clen ch k) (s_buf k) (hd_loc h))
    end in
  if hd_chunked h then finish (read_chunked fuel w sid k) 0 true
  else if 0 <=? hd_clen h then
    let '(w, k, rc) := read_by_length w sid k (hd_clen h) in finish (Done w k rc) (hd_clen h) (h_chunked r)
  else finish (read_to_eof fuel w sid k) 0 (h_chunked r).

Definition redirecting (code : Z) : bool := (300 <=? code) && (code <? 400) && negb (code =? 304).

(** From the status line on, with the socket open. *)
Definition round_response (fuel : nat) (w : N) (sid outcap : Z) (r : http_result) : option round_out :=
  let fail w rc r := Some (mk_round (net_tcp_close w sid) rc r [] []) in
  let '(w, l) := http_read_line w sid in
  match l with
  | Line l =>
      match status_line l with
      | None => fail w (-6) r
      | Some code =>
          let r := mk_res code (content_length r) (body_len r) (redirects r) (h_chunked r) (h_truncated r) (content_type r) in
          hd ← read_headers fuel w sid (mk_hdrs (-1) false [] None);
          let '(w, h, ok) := hd in
          let r := mk_res code (content_length r) (body_len r) (redirects r) (h_chunked r) (h_truncated r)
                     (default (content_type r) (hd_ctype h)) in
          if negb ok then fail w (-5) r
          else if hd_clen h =? -2 then fail w (-6) r
          else if redirecting code && negb (bool_decide (hd_loc h = [])) then
            Some (mk_round (net_tcp_close w sid) 0
              (mk_res code 0 (body_len r) (redirects r) false (h_truncated r) (content_type r)) [] (hd_loc h))
          else round_body fuel w sid outcap h r
      end
  | _ => fail w (-5) r
  end.

Definition http_round (fuel : nat) (w : N) (host : list Z) (port : Z) (path : list Z) (outcap : Z) (r : http_result)
    : option round_out :=
  let '(w, ip) := if looks_like_ipv4 host then (w, match parse_ipv4 host with Some v => inl v | None => inr (-1) end)
                  else let '(w, v) := net_dns_resolve w host in (w, match v with Some v => inl v | None => inr (-2) end) in
  match ip with
  | inr rc => Some (mk_round w rc r [] [])
  | inl ip =>
      let '(w, sid) := net_tcp_connect w ip port in
      if sid <? 0 then Some (mk_round w (-3) r [] [])
      else
        let '(w, n) := net_tcp_send w sid (request host port path) in
        if n <? 0 then Some (mk_round (net_tcp_close w sid) (-4) r [] []) else round_response fuel w sid outcap r
  end.

(** ** Redirects *)

Inductive redirect := RUrl (u : list Z) | RFail | ROverflow.

(** [ROverflow]: the temporary of [HTTP_URL_MAX] bytes is written past its end. *)
Definition resolve_redirect (loc base_host : list Z) (base_port cap : Z) : redirect :=
  let whole u := match h_copy_bounded cap u with (d, false) => RUrl d | _ => RFail end in
  if bool_decide (loc = []) then RFail
  else if (2 <=? Z.of_nat (length loc)) && (at_ loc 0 =? 47) && (at_ loc 1 =? 47) then whole (bytes "http:")
  else if at_ loc 0 =? 47 then
    let tmp := bytes "http://" ++ base_host ++ port_suffix base_port ++ loc in
    let n := Z.of_nat (length tmp) in
    if HTTP_URL_MAX <=? n then ROverflow
    else if cap <=? n then RFail else RUrl tmp
  else whole loc.

Inductive fetch_result := Fetched (w : N) (rc : Z) (r : http_result) (body : list Z) (rounds : Z) | FetchFault | FetchFuel.

(** [hops] bounds the redirects left before [++hop > HTTP_MAX_REDIR]. *)
Fixpoint fetch_loop (hops : nat) (fuel : nat) (w : N) (url : list Z) (outcap hop : Z) (r : http_result) : fetch_result :=
  match http_parse_url url HTTP_HOST_MAX HTTP_PATH_MAX with
  | None => Fetched w (-1) r [] hop
  | Some u =>
      if u_https u then Fetched w (-7) r [] hop
      else if u_port u =? 0 then Fetched w (-1) r [] hop
      else
        match http_round fuel w (u_host u) (u_port u) (u_path u) outcap r with
        | None => FetchFuel
        | Some o =>
            let w := ro_net o in let r := ro_res o in
            if negb (ro_rc o =? 0) then Fetched w (ro_rc o) r (ro_body o) (hop + 1)
            else if negb (redirecting (h_status r)) || bool_decide (ro_loc o = []) then Fetched w 0 r (ro_body o) (hop + 1)
            else
              match hops with
              | O => Fetched w (-8) r (ro_body o) (hop + 1)
              | S hops' =>
                  match resolve_redirect (ro_loc o) (u_host u) (u_port u) HTTP_URL_MAX with
                  | ROverflow => FetchFault
                  | RFail => Fetched w (-8) r (ro_body o) (hop + 1)
                  | RUrl u' =>
                      fetch_loop hops' fuel w u' outcap (hop + 1)
                        (mk_res (h_status r) (content_length r) (body_len r) (hop + 1) (h_chunked r) (h_truncated r) (content_type r))
                  end
              end
        end
  end.

Definition http_fetch (fuel : nat) (w : N) (url : list Z) (outcap timeout : Z) : fetch_result :=
  if (outcap =? 0) || (timeout =? 0) then Fetched w (-1) res_zero [] 0
  else
    match h_copy_bounded HTTP_URL_MAX url with
    | (url, false) => fetch_loop (Z.to_nat HTTP_MAX_REDIR) fuel w url outcap 0 res_zero
    | _ => Fetched w (-1) res_zero [] 0
    end.
End Http.
