(* ===== verification/HttpProps.v ===== *)
(** * HttpProps: properties of the HTTP client ([kernel/http.c])

    URL splitting inverts URL formatting; chunked transfer decoding inverts
    encoding however the bytes arrive; a fetch ends after at most six requests
    and leaves no socket open; resolving a redirect overruns its buffer exactly
    for long relative locations. *)

From S2P Require Import Prelude Http.

(** ** Digits *)

Definition hex_char (d : Z) : Z := if d <? 10 then 48 + d else 87 + d.
Fixpoint hex_from (fuel : nat) (v : Z) (acc : list Z) : list Z :=
  match fuel with
  | O => acc
  | S fuel' => let acc := hex_char (v mod 16) :: acc in if v / 16 =? 0 then acc else hex_from fuel' (v / 16) acc
  end.
Definition show_hex (v : Z) : list Z := hex_from 8 v [].

Definition hex_value (ds : list Z) (v : Z) : Z := fold_left (fun a d => 16 * a + d) ds v.
Definition nibble (d : Z) : Prop := 0 <= d < 16.

Lemma hex_value_snoc ds m v : hex_value (ds ++ [m]) v = 16 * hex_value ds v + m.
Proof. unfold hex_value. by rewrite fold_left_app. Qed.

Lemma hex_from_spec fuel : forall v acc, (0 < fuel)%nat -> 0 <= v < 16 ^ Z.of_nat fuel ->
  exists ds, hex_from fuel v acc = map hex_char ds ++ acc /\ Forall nibble ds /\
    1 <= Z.of_nat (length ds) <= Z.of_nat fuel /\ hex_value ds 0 = v.
Proof.
  induction fuel as [| fuel IH]; intros v acc Hf Hv; [lia |]. cbn [hex_from].
  assert (Hm : 0 <= v mod 16 < 16) by (apply Z.mod_pos_bound; lia).
  destruct (Z.eqb_spec (v / 16) 0) as [E | E].
  - exists [v mod 16]. split; [done |]. split; [by constructor |]. cbn. split; [lia |]. Z.to_euclidean_division_equations. lia.
  - assert (Hp : 16 ^ Z.of_nat (S fuel) = 16 * 16 ^ Z.of_nat fuel) by (rewrite Nat2Z.inj_succ, Z.pow_succ_r; lia).
    assert (Hq : 0 <= v / 16 < 16 ^ Z.of_nat fuel) by (Z.to_euclidean_division_equations; lia).
    destruct fuel as [| fuel']; [change (16 ^ Z.of_nat 0) with 1 in Hq; lia |].
    destruct (IH (v / 16) (hex_char (v mod 16) :: acc) ltac:(lia) Hq) as (ds & E1 & E2 & E3 & E4).
    exists (ds ++ [v mod 16]). rewrite E1, map_app, <- app_assoc. split; [done |].
    split; [apply Forall_app; by split; [| constructor] |]. rewrite length_app. cbn [length]. split; [lia |].
    rewrite hex_value_snoc, E4. Z.to_euclidean_division_equations. lia.
Qed.

Lemma hex_digit_char d : nibble d -> hex_digit (hex_char d) = Some d /\ hex_char d <> 59 /\ hex_char d <> 10 /\ hex_char d <> 13.
Proof.
  intros Hd. assert (H : forallb (fun d => bool_decide (hex_digit (hex_char d) = Some d) && negb (hex_char d =? 59)
    && negb (hex_char d =? 10) && negb (hex_char d =? 13)) (seqZ 0 16) = true) by (by vm_compute).
  apply (forall_below 16 _ H) in Hd. cbv beta in Hd. btrue. apply bool_decide_eq_true in H0. done.
Qed.

Lemma chunk_size_spec ds : forall sz k, Forall nibble ds -> 0 <= k -> 0 <= sz < 16 ^ k -> k + Z.of_nat (length ds) <= 8 ->
  0 < k + Z.of_nat (length ds) ->
  chunk_size (map hex_char ds) sz k = Some (hex_value ds sz).
Proof.
  induction ds as [| d ds IH]; intros sz k Hds Hk Hsz Hl Hp; cbn [chunk_size map length] in *.
  - destruct (Z.eqb_spec k 0); [lia | done].
  - apply Forall_cons in Hds as [Hd Hds]. destruct (hex_digit_char d Hd) as (E1 & E2 & _). rewrite E1.
    destruct (Z.eqb_spec (hex_char d) 59); [done |]. cbn [mbind option_bind].
    assert (Hpow : 16 ^ k <= 16 ^ 7) by (apply Z.pow_le_mono_r; lia). change (16 ^ 7) with (2 ^ 28) in Hpow.
    rewrite (u32_small (k + 1)) by (unfold is_u32; lia). destruct (Z.ltb_spec 8 (k + 1)); [lia |].
    unfold nibble in Hd. rewrite Z.shiftl_mul_pow2 by lia. rewrite (u32_small (sz * 2 ^ 4)) by (unfold is_u32; lia).
    rewrite (lor_low_add _ d 4) by (try lia; apply Z.mod_mul; lia). change (2 ^ 4) with 16.
    rewrite IH; [by rewrite (Z.mul_comm sz) | done | lia | | lia | lia].
    rewrite Z.pow_add_r by lia. lia.
Qed.

Lemma hex_digit_nonneg c d : hex_digit c = Some d -> 0 <= d.
Proof. unfold hex_digit. repeat case_match; try done; intros [= <-]; btrue; lia. Qed.

Lemma chunk_size_nonneg l : forall sz k, 0 <= sz -> forall v, chunk_size l sz k = Some v -> 0 <= v.
Proof.
  induction l as [| x l IH]; intros sz k Hs v; cbn [chunk_size].
  - case_match; [done | by intros [= <-]].
  - case_match; [case_match; [done | by intros [= <-]] |].
    destruct (hex_digit x) as [d |] eqn:Ed; cbn [mbind option_bind]; [| done]. case_match; [done |].
    apply IH, Z.lor_nonneg. split; [apply u32_range | by eapply hex_digit_nonneg].
Qed.

(** The chunk-size line of a block, as it is read back. *)
Lemma show_hex_spec v : 0 <= v < 2 ^ 32 ->
  chunk_size (show_hex v) 0 0 = Some v /\ show_hex v <> [] /\ (length (show_hex v) <= 8)%nat
  /\ Forall (fun c => c <> 10 /\ c <> 13) (show_hex v).
Proof.
  intros Hv. change (2 ^ 32) with (16 ^ Z.of_nat 8) in Hv. destruct (hex_from_spec 8 v [] ltac:(lia) Hv) as (ds & E & Hd & Hl & Hval).
  unfold show_hex. rewrite E, app_nil_r. split; [rewrite chunk_size_spec; [by rewrite Hval | done | lia.. |]; lia |].
  split; [destruct ds; [simpl in Hl; lia | done] |]. split; [rewrite length_map; lia |].
  apply Forall_map. eapply Forall_impl; [exact Hd |]. intros d Hn. by destruct (hex_digit_char d Hn) as (_ & _ & ? & ?).
Qed.

(** ** The sink *)

(** A sink that has been offered the bytes [t]. *)
Definition offered (cap : Z) (t : list Z) : sink_t := mk_sink (take (Z.to_nat cap) t) cap (cap <? Z.of_nat (length t)).

Lemma sink_put_offered cap d : forall t, 0 <= cap -> sink_put (offered cap t) d = offered cap (t ++ d).
Proof.
  induction d as [| x d IH]; intros t Hc; cbn [sink_put]; [by rewrite app_nil_r |].
  replace (t ++ x :: d) with ((t ++ [x]) ++ d) by (by rewrite <- app_assoc). rewrite <- IH by done. f_equal.
  unfold offered. cbn [s_buf s_cap s_trunc]. rewrite length_take, length_app. cbn [length].
  destruct (Z.ltb_spec (Z.of_nat (Z.to_nat cap `min` length t)) cap).
  - rewrite firstn_all2 by lia. rewrite firstn_all2 by (rewrite length_app; simpl; lia). f_equal.
    destruct (Z.ltb_spec cap (Z.of_nat (length t))), (Z.ltb_spec cap (Z.of_nat (length t + 1))); (done || lia).
  - rewrite take_app_le by lia. f_equal. destruct (Z.ltb_spec cap (Z.of_nat (length t + 1))); (done || lia).
Qed.

(** ** Reading *)

Section Reads.
Context {N : Type} `{NO : NetOps N}.
Implicit Types w : N.

(** What no read changes. *)
Definition quiet w w' sid : Prop := open_socks w' = open_socks w /\ stream_end w' sid = stream_end w sid.
Lemma quiet_trans a b c sid : quiet a b sid -> quiet b c sid -> quiet a c sid.
Proof. intros [? ?] [? ?]. split; congruence. Qed.

Lemma read_line_spec l : forall fuel w sid acc rest, incoming w sid = l ++ 10 :: rest -> Forall (fun c => c <> 10) l ->
  Z.of_nat (length acc + length l) + 1 < H_LINE_MAX -> (length l < fuel)%nat ->
  exists w', read_line_from fuel w sid acc = (w', Line (chomp (acc ++ l))) /\ incoming w' sid = rest /\ quiet w w' sid.
Proof.
  induction l as [| c l IH]; intros fuel w sid acc rest Hin Hl Hmax Hf; destruct fuel as [| fuel]; try (simpl in Hf; lia);
    cbn [read_line_from app length] in *; pose proof (recv_spec w sid 1 ltac:(lia)) as Hr;
    destruct (net_tcp_recv w sid 1) as [w1 [r d]]; destruct Hr as (Q1 & Q2 & [(_ & _ & E & _) | (Hr & Hd & E)]);
    try (rewrite E in Hin; done); assert (r = 1) as -> by lia; cbn [Z.ltb Z.eqb];
    (destruct d as [| x [| ? ?]]; [simpl in Hd; lia | | simpl in Hd; lia]); rewrite Hin in E; injection E as -> E; cbn [at_ nth].
  - rewrite Z.eqb_refl, app_nil_r. exists w1. by split_and!.
  - apply Forall_cons in Hl as [Hc Hl]. destruct (Z.eqb_spec x 10); [done |].
    destruct (Z.leb_spec H_LINE_MAX (Z.of_nat (length acc) + 1)); [lia |].
    destruct (IH fuel w1 sid (acc ++ [x]) rest (eq_sym E) Hl) as (w2 & E2 & I2 & Q); [rewrite length_app; simpl; lia | lia |].
    exists w2. rewrite E2, <- app_assoc. split_and!; try done; by eapply quiet_trans.
Qed.

Lemma chomp_cr l : chomp (l ++ [13]) = l.
Proof. unfold chomp. rewrite last_snoc. apply removelast_last. Qed.

Lemma read_crlf_line w sid l rest : incoming w sid = l ++ CRLF ++ rest -> Forall (fun c => c <> 10 /\ c <> 13) l ->
  (length l <= 8)%nat ->
  exists w', http_read_line w sid = (w', Line l) /\ incoming w' sid = rest /\ quiet w w' sid.
Proof.
  intros Hin Hl Hlen. destruct (read_line_spec (l ++ [13]) (Z.to_nat H_LINE_MAX) w sid [] rest) as (w' & E & I & Q).
  - by rewrite <- app_assoc.
  - apply Forall_app. split; [eapply Forall_impl; [exact Hl | by intros ? [? _]] | by constructor].
  - rewrite length_app. cbn [length]. unfold H_LINE_MAX. lia.
  - rewrite length_app. cbn [length]. unfold H_LINE_MAX. lia.
  - exists w'. unfold http_read_line. cbn [app] in E. by rewrite E, chomp_cr.
Qed.

Lemma read_by_length_spec fuel : forall w sid cap t d rest, incoming w sid = d ++ rest -> 0 <= cap ->
  Z.of_nat (length d) < 2 ^ 32 -> (length d < fuel)%nat ->
  exists w', read_by_length_from fuel w sid (offered cap t) (Z.of_nat (length d)) = (w', offered cap (t ++ d), 0) /\
    incoming w' sid = rest /\ quiet w w' sid.
Proof.
  induction fuel as [| fuel IH]; intros w sid cap t d rest Hin Hc Hd Hf; [lia |]. cbn [read_by_length_from].
  destruct (Z.eqb_spec (Z.of_nat (length d)) 0) as [E0 | E0].
  { destruct d; [| simpl in E0; lia]. exists w. rewrite app_nil_r. by split_and!. }
  set (n := if _ <? H_RX_CHUNK then _ else _). assert (Hn : 0 < n <= Z.of_nat (length d))
    by (unfold n, H_RX_CHUNK; destruct (Z.ltb_spec (Z.of_nat (length d)) 512); lia).
  pose proof (recv_spec w sid n ltac:(lia)) as Hr. destruct (net_tcp_recv w sid n) as [w1 [r x]].
  destruct Hr as (Q1 & Q2 & [(_ & _ & E & _) | (Hr & Hx & E)]).
  { rewrite E in Hin. destruct d; [simpl in E0; lia | done]. }
  destruct (Z.ltb_spec r 0), (Z.eqb_spec r 0); try lia. rewrite Hin in E.
  assert (Hsplit : d = x ++ drop (length x) d /\ incoming w1 sid = drop (length x) d ++ rest).
  { assert (Hle : (length x <= length d)%nat) by lia. assert (Ex : take (length x) d = x).
    { rewrite <- (take_app_le d rest) by done. by rewrite E, take_app_length. }
    split; [rewrite <- Ex at 1; by rewrite take_drop |]. rewrite <- (drop_app_le d rest) by done. by rewrite E, drop_app_length. }
  destruct Hsplit as [Ed Ein]. rewrite sink_put_offered by done.
  assert (El : Z.of_nat (length d) -! r = Z.of_nat (length (drop (length x) d))).
  { rewrite length_drop, u32_small by (unfold is_u32; lia). lia. }
  rewrite El. destruct (IH w1 sid cap (t ++ x) (drop (length x) d) rest Ein Hc) as (w2 & E2 & I2 & Q); [rewrite length_drop; lia.. |].
  exists w2. rewrite E2, <- app_assoc, <- Ed. split_and!; try done. by eapply quiet_trans.
Qed.

(** ** Chunked bodies *)

Definition encode_chunk (d : list Z) : list Z := show_hex (Z.of_nat (length d)) ++ CRLF ++ d ++ CRLF.
Definition encode_chunked (ds : list (list Z)) : list Z := flat_map encode_chunk ds ++ bytes "0" ++ CRLF ++ CRLF.
Definition good_chunk (d : list Z) : Prop := d <> [] /\ Z.of_nat (length d) < 2 ^ 32.

Lemma read_chunked_from ds : forall fuel w sid cap t rest, Forall good_chunk ds -> 0 <= cap -> (length ds + 1 < fuel)%nat ->
  incoming w sid = encode_chunked ds ++ rest ->
  exists w', read_chunked fuel w sid (offered cap t) = Done w' (offered cap (t ++ concat ds)) 0 /\ incoming w' sid = rest /\ quiet w w' sid.
Proof.
  induction ds as [| d ds IH]; intros fuel w sid cap t rest Hg Hc Hf Hin; destruct fuel as [| fuel]; try (simpl in Hf; lia); cbn [read_chunked].
  - cbn [encode_chunked flat_map app] in Hin. destruct (read_crlf_line w sid (bytes "0") (CRLF ++ rest)) as (w1 & -> & I1 & Q1).
    { by rewrite Hin. } { by repeat constructor. } { simpl. lia. }
    change (bytes "0") with [48]. change (chunk_size [48] 0 0) with (Some 0). cbn [Z.eqb].
    destruct fuel as [| fuel]; [simpl in Hf; lia |]. cbn [read_trailer].
    destruct (read_crlf_line w1 sid [] rest I1) as (w2 & -> & I2 & Q2); [done | simpl; lia |].
    exists w2. cbn [concat]. rewrite app_nil_r. split_and!; try done; by eapply quiet_trans.
  - apply Forall_cons in Hg as [[Hne Hl] Hg]. destruct (show_hex_spec (Z.of_nat (length d)) ltac:(lia)) as (H1 & H2 & H3 & H4).
    unfold encode_chunked in Hin. cbn [flat_map] in Hin. unfold encode_chunk at 1 in Hin. rewrite <- !app_assoc in Hin.
    destruct (read_crlf_line w sid _ _ Hin H4 H3) as (w1 & -> & I1 & Q1).
    destruct (show_hex (Z.of_nat (length d))) as [| x xs]; [done |]. rewrite H1.
    destruct (Z.eqb_spec (Z.of_nat (length d)) 0); [destruct d; [done | simpl in *; lia] |]. unfold read_by_length.
    destruct (read_by_length_spec (Z.to_nat (Z.of_nat (length d)) + 1) w1 sid cap t d _ I1 Hc Hl ltac:(lia)) as (w2 & -> & I2 & Q2).
    cbn [Z.eqb negb]. destruct (read_crlf_line w2 sid [] _ I2) as (w3 & -> & I3 & Q3); [done | simpl; lia |].
    destruct (IH fuel w3 sid cap (t ++ d) rest Hg Hc ltac:(simpl in Hf; lia)) as (w4 & -> & I4 & Q4).
    { rewrite I3. unfold encode_chunked. by rewrite <- !app_assoc. }
    exists w4. cbn [concat]. rewrite <- app_assoc. split_and!; try done; repeat (eapply quiet_trans; [eassumption |]); done.
Qed.

(** Decoding a chunked body inverts encoding, however the network splits the
    bytes: for any non-empty chunks below 4 GB the reader stores their
    concatenation, cut at the capacity of the output with the truncation flag
    set exactly when it was cut, consumes the stream up to the end of the
    terminating chunk and not further, and needs at most one step of fuel per
    chunk and two more. *)
Theorem chunked_roundtrip w sid (ds : list (list Z)) rest cap (fuel : nat)
    (Hg : Forall good_chunk ds) (Hc : 0 <= cap) (Hf : (length ds + 1 < fuel)%nat)
    (Hin : incoming w sid = encode_chunked ds ++ rest) :
  exists w', read_chunked fuel w sid (mk_sink [] cap false) =
      Done w' (mk_sink (take (Z.to_nat cap) (concat ds)) cap (cap <? Z.of_nat (length (concat ds)))) 0
    /\ incoming w' sid = rest /\ open_socks w' = open_socks w.
Proof.
  destruct (read_chunked_from ds fuel w sid cap [] rest Hg Hc Hf Hin) as (w' & E & I & [Q _]). exists w'.
  assert (E0 : mk_sink [] cap false = offered cap []).
  { unfold offered. rewrite take_nil. cbn [length]. by destruct (Z.ltb_spec cap (Z.of_nat 0)); [lia |]. }
  rewrite E0. by split_and!.
Qed.
End Reads.

(** ** Arbitrary peers *)

Section Any.
Context {N : Type} `{NO : NetOps N}.
Implicit Types w : N.

Definition sink_ok (k : sink_t) : Prop := Z.of_nat (length (s_buf k)) <= s_cap k.
Definition grown (k k' : sink_t) : Prop := s_cap k' = s_cap k /\ (sink_ok k -> sink_ok k').

Lemma grown_refl k : grown k k.
Proof. by split. Qed.
Lemma grown_trans a b c : grown a b -> grown b c -> grown a c.
Proof. intros [? ?] [? ?]. split; [congruence | auto]. Qed.

Lemma sink_put_grown d : forall k, grown k (sink_put k d).
Proof.
  induction d as [| x d IH]; intros k; cbn [sink_put]; [apply grown_refl |].
  eapply grown_trans; [| apply IH]. unfold grown, sink_ok.
  destruct (Z.ltb_spec (Z.of_nat (length (s_buf k))) (s_cap k)); cbn [s_buf s_cap]; [| done].
  rewrite length_app. simpl. split; [done | lia].
Qed.

(** [used w w' sid n]: no socket opened or closed, at least [n] bytes consumed. *)
Definition used w w' (sid : Z) (n : nat) : Prop :=
  open_socks w' = open_socks w /\ (length (incoming w' sid) + n <= length (incoming w sid))%nat.
Lemma used_refl w sid : used w w sid 0.
Proof. split; [done | lia]. Qed.
Lemma used_trans a b c sid m n : used a b sid m -> used b c sid n -> used a c sid (m + n).
Proof. intros [? ?] [? ?]. split; [congruence | lia]. Qed.
Lemma used_weaken a b sid m : used a b sid m -> used a b sid 0.
Proof. intros [? ?]. split; [done | lia]. Qed.

Lemma recv_used w sid n : 0 < n -> let '(w', (r, d)) := net_tcp_recv w sid n in
  used w w' sid (if 0 <? r then 1 else 0).
Proof.
  intros Hn. pose proof (recv_spec w sid n Hn) as H. pose proof (stream_end_nonpos w sid). destruct (net_tcp_recv w sid n) as [w' [r d]].
  destruct H as (Q & _ & [(-> & -> & E1 & E2) | (Hr & Hd & E)]); (split; [done |]).
  - rewrite E1, E2. destruct (Z.ltb_spec 0 (stream_end w sid)); simpl; lia.
  - rewrite E, length_app. destruct (Z.ltb_spec 0 r); lia.
Qed.

Lemma read_line_used fuel : forall w sid acc, let '(w', l) := read_line_from fuel w sid acc in
  used w w' sid (match l with Line _ => 1 | _ => 0 end).
Proof.
  induction fuel as [| fuel IH]; intros w sid acc; cbn [read_line_from]; [apply used_refl |].
  pose proof (recv_used w sid 1 ltac:(lia)) as Hr. destruct (net_tcp_recv w sid 1) as [w1 [r d]].
  destruct (Z.ltb_spec r 0); [by eapply used_weaken |]. destruct (Z.eqb_spec r 0); [by eapply used_weaken |].
  destruct (Z.ltb_spec 0 r); [| lia]. destruct (at_ d 0 =? 10); [done |].
  destruct (H_LINE_MAX <=? _); [by eapply used_weaken |]. specialize (IH w1 sid (acc ++ [at_ d 0])).
  destruct (read_line_from fuel w1 sid _) as [w2 l]. destruct (used_trans _ _ _ _ _ _ Hr IH). split; [done | lia].
Qed.

Lemma http_read_line_used w sid : let '(w', l) := http_read_line w sid in
  used w w' sid (match l with Line _ => 1 | _ => 0 end).
Proof. apply read_line_used. Qed.

Lemma read_by_length_used fuel : forall w sid k left, 0 <= left -> let '(w', k', _) := read_by_length_from fuel w sid k left in
  used w w' sid 0 /\ grown k k'.
Proof.
  induction fuel as [| fuel IH]; intros w sid k left Hl; cbn [read_by_length_from]; [split; [apply used_refl | apply grown_refl] |].
  destruct (Z.eqb_spec left 0); [split; [apply used_refl | apply grown_refl] |].
  set (m := if left <? _ then _ else _). assert (Hn : 0 < m) by (unfold m, H_RX_CHUNK; destruct (left <? 512); lia).
  pose proof (recv_used w sid m Hn) as Hr. destruct (net_tcp_recv w sid m) as [w1 [r d]].
  destruct (r <? 0); [split; [by eapply used_weaken | apply grown_refl] |].
  destruct (r =? 0); [split; [by eapply used_weaken | apply grown_refl] |].
  specialize (IH w1 sid (sink_put k d) (left -! r) ltac:(apply u32_range)).
  destruct (read_by_length_from fuel w1 sid _ _) as [[w2 k2] rc]. destruct IH as [H1 H2].
  split; [exact (used_weaken _ _ _ _ (used_trans _ _ _ _ _ _ Hr H1)) | eapply grown_trans; [apply sink_put_grown | done]].
Qed.

Definition body_ok w (sid : Z) (k : sink_t) (b : body_result) : Prop :=
  match b with Done w' k' _ => used w w' sid 0 /\ grown k k' | OutOfFuel => False end.

Lemma body_ok_step w w1 sid k k1 n b : used w w1 sid n -> grown k k1 -> body_ok w1 sid k1 b -> body_ok w sid k b.
Proof.
  intros Hu Hg. destruct b; [| done]. intros [H1 H2]. split; [exact (used_weaken _ _ _ _ (used_trans _ _ _ _ _ _ Hu H1)) | by eapply grown_trans].
Qed.

Lemma body_done w w' sid k n rc : used w w' sid n -> body_ok w sid k (Done w' k rc).
Proof. intros H. split; [by eapply used_weaken | apply grown_refl]. Qed.

Lemma read_trailer_ok fuel : forall w sid k, (length (incoming w sid) < fuel)%nat -> body_ok w sid k (read_trailer fuel w sid k).
Proof.
  induction fuel as [| fuel IH]; intros w sid k Hf; [lia |]. cbn [read_trailer].
  pose proof (http_read_line_used w sid) as Hl. destruct (http_read_line w sid) as [w1 [l | |]]; try by eapply body_done.
  destruct l; [by eapply body_done |]. eapply body_ok_step; [exact Hl | apply grown_refl |]. apply IH. destruct Hl. lia.
Qed.

Lemma read_chunked_ok fuel : forall w sid k, (length (incoming w sid) < fuel)%nat -> body_ok w sid k (read_chunked fuel w sid k).
Proof.
  induction fuel as [| fuel IH]; intros w sid k Hf; [lia |]. cbn [read_chunked].
  pose proof (http_read_line_used w sid) as Hl. destruct (http_read_line w sid) as [w1 [l | |]]; try by eapply body_done.
  destruct l as [| c l]; [by eapply body_done |]. destruct (chunk_size (c :: l) 0 0) as [sz |] eqn:Es; [| by eapply body_done].
  destruct (Z.eqb_spec sz 0).
  { eapply body_ok_step; [exact Hl | apply grown_refl |]. apply read_trailer_ok. destruct Hl. lia. }
  eapply body_ok_step; [exact Hl | apply grown_refl |]. unfold read_by_length.
  pose proof (chunk_size_nonneg _ 0 0 ltac:(lia) _ Es) as Hpos.
  pose proof (read_by_length_used (Z.to_nat sz + 1) w1 sid k sz Hpos) as Hb.
  destruct (read_by_length_from _ w1 sid k sz) as [[w2 k2] rc]. destruct Hb as [B1 B2].
  destruct (negb (rc =? 0)); [by split |].
  eapply body_ok_step; [exact B1 | exact B2 |].
  pose proof (http_read_line_used w2 sid) as Hl2. destruct (http_read_line w2 sid) as [w3 [l2 | |]]; try by eapply body_done.
  destruct l2; [| by eapply body_done]. eapply body_ok_step; [exact Hl2 | apply grown_refl |]. apply IH. destruct Hl, B1, Hl2. lia.
Qed.

Lemma read_to_eof_ok fuel : forall w sid k, (length (incoming w sid) < fuel)%nat -> body_ok w sid k (read_to_eof fuel w sid k).
Proof.
  induction fuel as [| fuel IH]; intros w sid k Hf; [lia |]. cbn [read_to_eof].
  pose proof (recv_used w sid H_RX_CHUNK ltac:(done)) as Hr. destruct (net_tcp_recv w sid H_RX_CHUNK) as [w1 [r d]].
  destruct (Z.ltb_spec r 0); [by eapply body_done |]. destruct (Z.eqb_spec r 0); [by eapply body_done |].
  destruct (Z.ltb_spec 0 r); [| lia]. eapply body_ok_step; [exact Hr | apply sink_put_grown |]. apply IH. destruct Hr. lia.
Qed.

Lemma read_headers_ok fuel : forall w sid h, (length (incoming w sid) < fuel)%nat ->
  exists w' h' ok, read_headers fuel w sid h = Some (w', h', ok) /\ used w w' sid 0.
Proof.
  induction fuel as [| fuel IH]; intros w sid h Hf; [lia |]. cbn [read_headers].
  pose proof (http_read_line_used w sid) as Hl. destruct (http_read_line w sid) as [w1 [l | |]].
  2,3: by do 3 eexists; split; [done | eapply used_weaken].
  destruct l as [| c l]; [do 3 eexists; split; [done | by eapply used_weaken] |].
  destruct (IH w1 sid (header_line h (c :: l))) as (w2 & h2 & ok & E & H2); [destruct Hl; lia |].
  exists w2, h2, ok. split; [exact E |]. exact (used_weaken _ _ _ _ (used_trans _ _ _ _ _ _ Hl H2)).
Qed.

(** A round gives back every socket it opened and fits its body. *)
Definition round_ok w (outcap : Z) (o : option round_out) : Prop :=
  match o with Some o => open_socks (ro_net o) = open_socks w /\ Z.of_nat (length (ro_body o)) <= outcap /\ -8 <= ro_rc o <= 0 | None => False end.

Lemma closed_round w w1 sid cap rc r b loc l : open_socks w1 = sid :: l -> open_socks w = l ->
  Z.of_nat (length b) <= cap -> -8 <= rc <= 0 -> round_ok w cap (Some (mk_round (net_tcp_close w1 sid) rc r b loc)).
Proof. intros H1 H2 H3 H4. split; [| done]. cbn. rewrite H2. by apply close_socks. Qed.

Lemma round_body_ok fuel w w0 sid outcap h r : (length (incoming w sid) < fuel)%nat -> 0 <= outcap ->
  open_socks w = sid :: open_socks w0 -> round_ok w0 outcap (round_body fuel w sid outcap h r).
Proof.
  intros Hf Hc Hs. unfold round_body. set (k := mk_sink [] outcap false).
  assert (Hb : forall b clen ch, body_ok w sid k b -> round_ok w0 outcap (match b with
     | OutOfFuel => None
     | Done w k rc => Some (mk_round (net_tcp_close w sid) (if rc =? 0 then 0 else -5) (set_body r clen ch k) (s_buf k) (hd_loc h)) end)).
  { intros [w1 k1 rc |] clen ch; [| done]. intros [[U _] [G1 G2]]. apply (closed_round _ _ _ _ _ _ _ _ (open_socks w0)); [congruence | done | |].
    - unfold sink_ok in G2. rewrite G1 in G2. apply G2. done.
    - destruct (rc =? 0); lia. }
  destruct (hd_chunked h); [by apply Hb, read_chunked_ok |].
  destruct (Z.leb_spec 0 (hd_clen h)); [| by apply Hb, read_to_eof_ok].
  unfold read_by_length. pose proof (read_by_length_used (Z.to_nat (hd_clen h) + 1) w sid k (hd_clen h) ltac:(lia)) as Hu.
  destruct (read_by_length_from _ w sid k _) as [[w1 k1] rc]. by apply (Hb (Done w1 k1 rc)).
Qed.

Lemma round_response_ok fuel w w0 sid outcap r : (forall w s, length (incoming w s) < fuel)%nat -> 0 <= outcap ->
  open_socks w = sid :: open_socks w0 -> round_ok w0 outcap (round_response fuel w sid outcap r).
Proof.
  intros Hf Hc Hs. unfold round_response. pose proof (http_read_line_used w sid) as Hl.
  destruct (http_read_line w sid) as [w1 l]. destruct Hl as [U1 _].
  assert (Hfail : forall w' rc r', -8 <= rc <= 0 -> open_socks w' = open_socks w -> round_ok w0 outcap (Some (mk_round (net_tcp_close w' sid) rc r' [] []))).
  { intros w' rc r' Hrc E. apply (closed_round _ _ _ _ _ _ _ _ (open_socks w0)); [congruence | done | done | done]. }
  destruct l as [l | |]; [| by apply Hfail | by apply Hfail]. destruct (status_line l) as [code |]; [| by apply Hfail]. cbv zeta.
  destruct (read_headers_ok fuel w1 sid (mk_hdrs (-1) false [] None) (Hf _ _)) as (w2 & h & ok & -> & [U2 _]). cbn [mbind option_bind].
  destruct (negb ok); [apply Hfail; [lia | congruence] |]. destruct (hd_clen h =? -2); [apply Hfail; [lia | congruence] |].
  destruct (redirecting code && _).
  - apply (closed_round _ _ _ _ _ _ _ _ (open_socks w0)); [congruence | done | done | lia].
  - apply round_body_ok; [apply Hf | done | congruence].
Qed.

Lemma http_round_ok fuel w host port path outcap r : (forall w s, length (incoming w s) < fuel)%nat -> 0 <= outcap ->
  round_ok w outcap (http_round fuel w host port path outcap r).
Proof.
  intros Hf Hc. unfold http_round.
  assert (Hgo : forall w1 ip, open_socks w1 = open_socks w -> match ip with inr rc => -8 <= rc <= 0 | inl _ => True end -> round_ok w outcap (match ip with
    | inr rc => Some (mk_round w1 rc r [] [])
    | inl ip => let '(w2, sid) := net_tcp_connect w1 ip port in
        if sid <? 0 then Some (mk_round w2 (-3) r [] [])
        else let '(w3, n) := net_tcp_send w2 sid (request host port path) in
          if n <? 0 then Some (mk_round (net_tcp_close w3 sid) (-4) r [] []) else round_response fuel w3 sid outcap r end)).
  { intros w1 [ip | rc] E1 Hrc; [| done]. pose proof (connect_socks w1 ip port) as Hcn.
    destruct (net_tcp_connect w1 ip port) as [w2 sid]. destruct (sid <? 0); [split_and!; cbn; (congruence || lia) |].
    pose proof (send_socks w2 sid (request host port path)) as Hsd.
    destruct (net_tcp_send w2 sid _) as [w3 n]. cbn [fst] in Hsd. destruct (n <? 0).
    - apply (closed_round _ _ _ _ _ _ _ _ (open_socks w)); [congruence | done | done | lia].
    - apply round_response_ok; [done | done | congruence]. }
  destruct (looks_like_ipv4 host); [apply Hgo; [done | by destruct (parse_ipv4 host)] |]. pose proof (dns_socks w host) as Hd.
  destruct (net_dns_resolve w host) as [w1 v]. apply Hgo; [done | by destruct v].
Qed.

Definition fetch_ok w (outcap hop n : Z) (f : fetch_result) : Prop :=
  match f with
  | Fetched w' rc r body rounds =>
      open_socks w' = open_socks w /\ hop <= rounds <= n /\ Z.of_nat (length body) <= outcap /\ -8 <= rc <= 0
  | FetchFault => exists loc host port, resolve_redirect loc host port HTTP_URL_MAX = ROverflow
  | FetchFuel => False
  end.

Lemma fetch_loop_ok hops : forall fuel w url outcap hop r, (forall w s, length (incoming w s) < fuel)%nat -> 0 <= outcap -> 0 <= hop ->
  fetch_ok w outcap hop (hop + Z.of_nat hops + 1) (fetch_loop hops fuel w url outcap hop r).
Proof.
  induction hops as [| hops IH]; intros fuel w url outcap hop r Hf Hc Hh; cbn [fetch_loop].
  all: destruct (http_parse_url url _ _) as [u |]; [| cbn; split_and!; (done || lia)].
  all: destruct (u_https u); [cbn; split_and!; (done || lia) |]; destruct (u_port u =? 0); [cbn; split_and!; (done || lia) |].
  all: pose proof (http_round_ok fuel w (u_host u) (u_port u) (u_path u) outcap r Hf Hc) as Hr;
    destruct (http_round fuel w _ _ _ outcap r) as [o |]; [| done]; destruct Hr as (R1 & R2 & R3); cbv zeta;
    destruct (negb (ro_rc o =? 0)); [cbn; split_and!; (done || lia) |];
    destruct (negb (redirecting _) || _); [cbn; split_and!; (done || lia) |].
  - cbn. split_and!; (done || lia).
  - destruct (resolve_redirect _ _ _ _) as [u' | |] eqn:Er; [| cbn; split_and!; (done || lia) | by do 3 eexists].
    specialize (IH fuel (ro_net o) u' outcap (hop + 1) (mk_res (h_status (ro_res o)) (content_length (ro_res o)) (body_len (ro_res o)) (hop + 1)
      (h_chunked (ro_res o)) (h_truncated (ro_res o)) (content_type (ro_res o))) Hf Hc ltac:(lia)).
    destruct (fetch_loop hops fuel _ _ _ _ _); cbn in *; [| done | done]. destruct IH as (I1 & I2 & I3). split_and!; (congruence || lia || apply I3).
Qed.

End Any.

(** ** URLs *)

Definition default_port (https : bool) : Z := if https then 443 else 80.
Definition show_url (https : bool) (host : list Z) (port : Z) (path : list Z) : list Z :=
  (if https then bytes "https://" else bytes "http://") ++ host
  ++ (if port =? default_port https then [] else 58 :: show_port port) ++ path.

Lemma span_app p a b : Forall (fun c => p c = true) a -> match b with [] => True | c :: _ => p c = false end ->
  span p (a ++ b) = (a, b).
Proof.
  intros Ha Hb. induction Ha as [| c a Hc _ IH]; cbn [span app].
  - destruct b as [| c b]; [done |]. cbn. by rewrite Hb.
  - by rewrite Hc, IH.
Qed.

Definition dec_plain (ds : list Z) (v : Z) : Z := fold_left (fun a d => 10 * a + d) ds v.
Definition decimal (d : Z) : Prop := 0 <= d < 10.

Lemma dec_digits_spec fuel : forall v acc, (0 < fuel)%nat -> 0 <= v < 10 ^ Z.of_nat fuel ->
  exists ds, dec_digits fuel v acc = map (fun d => 48 + d) ds ++ acc /\ Forall decimal ds /\
    1 <= Z.of_nat (length ds) <= Z.of_nat fuel /\ dec_plain ds 0 = v.
Proof.
  induction fuel as [| fuel IH]; intros v acc Hf Hv; [lia |]. cbn [dec_digits].
  assert (Hm : 0 <= v mod 10 < 10) by (apply Z.mod_pos_bound; lia).
  destruct (Z.eqb_spec (v / 10) 0) as [E | E].
  - exists [v mod 10]. split; [done |]. split; [by constructor |]. cbn. split; [lia |]. Z.to_euclidean_division_equations. lia.
  - assert (Hp : 10 ^ Z.of_nat (S fuel) = 10 * 10 ^ Z.of_nat fuel) by (rewrite Nat2Z.inj_succ, Z.pow_succ_r; lia).
    assert (Hq : 0 <= v / 10 < 10 ^ Z.of_nat fuel) by (Z.to_euclidean_division_equations; lia).
    destruct fuel as [| fuel']; [change (10 ^ Z.of_nat 0) with 1 in Hq; lia |].
    destruct (IH (v / 10) ((48 + v mod 10) :: acc) ltac:(lia) Hq) as (ds & E1 & E2 & E3 & E4).
    exists (ds ++ [v mod 10]). rewrite E1, map_app, <- app_assoc. split; [done |].
    split; [apply Forall_app; by split; [| constructor] |]. rewrite length_app. cbn [length]. split; [lia |].
    unfold dec_plain in *. rewrite fold_left_app, E4. cbn. Z.to_euclidean_division_equations. lia.
Qed.

Lemma dec_value_from ds : forall a k, Forall decimal ds -> 0 <= k -> 0 <= a < 10 ^ k -> k + Z.of_nat (length ds) <= 9 ->
  fold_left (fun v c => v *! 10 +! (c - 48)) (map (fun d => 48 + d) ds) a = dec_plain ds a.
Proof.
  unfold dec_plain. induction ds as [| d ds IH]; intros a k Hds Hk Ha Hl; cbn [fold_left map length] in *; [done |].
  apply Forall_cons in Hds as [Hd Hds]. unfold decimal in Hd.
  assert (Hpow : 10 ^ k <= 10 ^ 8) by (apply Z.pow_le_mono_r; lia). change (10 ^ 8) with 100000000 in Hpow.
  rewrite (u32_small (a * 10)) by (unfold is_u32; lia). rewrite u32_small by (unfold is_u32; lia).
  replace (a * 10 + (48 + d - 48)) with (10 * a + d) by lia.
  apply (IH _ (k + 1)); [done | lia | rewrite Z.pow_add_r by lia; lia | lia].
Qed.

Lemma show_port_spec v : 0 <= v < 65536 ->
  Forall (fun c => is_digit c = true) (show_port v) /\ dec_value (show_port v) = v /\ 1 <= Z.of_nat (length (show_port v)) <= 5.
Proof.
  intros Hv. destruct (dec_digits_spec 5 v [] ltac:(lia) ltac:(change (10 ^ Z.of_nat 5) with 100000; lia)) as (ds & E & Hd & Hl & Hval).
  unfold show_port. rewrite E, app_nil_r. split; [| split].
  - apply Forall_map. eapply Forall_impl; [exact Hd |]. intros d Hn. unfold decimal in Hn. unfold is_digit.
    destruct (Z.leb_spec 48 (48 + d)), (Z.leb_spec (48 + d) 57); (done || lia).
  - unfold dec_value. rewrite (dec_value_from ds 0 0); (done || lia).
  - rewrite length_map. lia.
Qed.

Lemma copy_fits cap s : Z.of_nat (length s) < cap -> copy_or_fail cap s = Some s.
Proof.
  intros H. unfold copy_or_fail, h_copy_bounded. destruct (Z.eqb_spec cap 0); [lia |].
  destruct (Z.ltb_spec (cap - 1) (Z.of_nat (length s))); [lia |]. by rewrite firstn_all2 by lia.
Qed.

Definition path_start (path : list Z) : Prop := match path with [] => True | c :: _ => c = 47 end.

Lemma parse_port_show b port path : 1 <= port <= 0xFFFF -> path_start path ->
  parse_port ((if port =? default_port b then [] else 58 :: show_port port) ++ path) (default_port b) = Some (port, path).
Proof.
  intros Hp Hs. unfold parse_port. destruct (Z.eqb_spec port (default_port b)) as [-> | Hne]; cbn [app].
  - destruct path as [| c path]; [done |]. cbn in Hs. by subst c.
  - cbn [at_ nth tail]. rewrite Z.eqb_refl. destruct (show_port_spec port ltac:(lia)) as (D1 & D2 & D3).
    rewrite span_app; [| done | by destruct path; [| cbn in Hs; subst]].
    destruct (Z.eqb_spec (Z.of_nat (length (show_port port))) 0); [lia |].
    destruct (Z.ltb_spec 5 (Z.of_nat (length (show_port port)))); [lia |]. cbn [orb]. rewrite D2.
    destruct (Z.eqb_spec port 0); [lia |]. by destruct (Z.ltb_spec 0xFFFF port); [lia |].
Qed.

(** Splitting a URL inverts formatting it: for any scheme, any host name of
    1 to 127 bytes without a slash or a colon, any port from 1 to 65535 (written
    when it is not the scheme's default) and any path below 384 bytes that is
    empty or starts with a slash, [http_parse_url] gives back the scheme, host
    and port and the path, with the empty path read as a slash. *)
Theorem url_roundtrip (b : bool) (host path : list Z) (port : Z)
    (Hh : Forall (fun c => c <> 47 /\ c <> 58) host) (Hn : 0 < Z.of_nat (length host) < HTTP_HOST_MAX)
    (Hp : 1 <= port <= 0xFFFF) (Hs : path_start path) (Hl : Z.of_nat (length path) < HTTP_PATH_MAX) :
  http_parse_url (show_url b host port path) HTTP_HOST_MAX HTTP_PATH_MAX =
  Some (mk_url host port (match path with [] => bytes "/" | _ => path end) b).
Proof.
  unfold HTTP_HOST_MAX, HTTP_PATH_MAX in *. destruct (show_port_spec port ltac:(lia)) as (_ & _ & D3).
  set (q := (if port =? default_port b then [] else 58 :: show_port port) ++ path).
  assert (Hq : Z.of_nat (length q) <= 6 + Z.of_nat (length path))
    by (unfold q; rewrite length_app; destruct (port =? _); simpl; lia).
  assert (Hsplit : forall prt, prt = default_port b ->
    (let '(h, q) := span (fun c => negb (c =? 47) && negb (c =? 58)) (host ++ q) in
     if (Z.of_nat (length h) =? 0) || (HTTP_HOST_MAX <=? Z.of_nat (length h)) then None
     else host ← copy_or_fail 128 h; pq ← parse_port q prt; let '(prt, q) := pq in
       path ← copy_or_fail 384 (match q with [] => bytes "/" | _ => q end); Some (mk_url host prt path b)) =
    Some (mk_url host port (match path with [] => bytes "/" | _ => path end) b)).
  { intros prt ->. rewrite span_app.
    - unfold HTTP_HOST_MAX. destruct (Z.eqb_spec (Z.of_nat (length host)) 0); [lia |]. destruct (Z.leb_spec 128 (Z.of_nat (length host))); [lia |].
      cbn [orb]. rewrite copy_fits by lia. cbn [mbind option_bind]. unfold q. rewrite parse_port_show by done. cbn [mbind option_bind].
      rewrite copy_fits; [done |]. destruct path; simpl in *; lia.
    - eapply Forall_impl; [exact Hh |]. intros c [H1 H2]. by destruct (Z.eqb_spec c 47), (Z.eqb_spec c 58).
    - unfold q. destruct (port =? default_port b); cbn [app]; [| done]. destruct path; [done |]. cbn in Hs. by subst. }
  unfold http_parse_url, show_url. fold q.
  assert (Hlen : Z.of_nat (length (host ++ q)) <= 516) by (rewrite length_app; lia).
  destruct b; rewrite length_app; cbn [bytes length]; set (n := Z.of_nat _).
  - assert (Hn' : 8 <= n < 2048) by (unfold n; lia).
    destruct (Z.eqb_spec n 0), (Z.leb_spec 2048 n), (Z.leb_spec 7 n), (Z.leb_spec 8 n); try lia. exact (Hsplit 443 eq_refl).
  - assert (Hn' : 7 <= n < 2048) by (unfold n; lia).
    destruct (Z.eqb_spec n 0), (Z.leb_spec 2048 n), (Z.leb_spec 7 n); try lia. exact (Hsplit 80 eq_refl).
Qed.

Lemma url_roundtrip_witness :
  http_parse_url (show_url false (bytes "10.0.2.2") 8080 (bytes "/index.html")) HTTP_HOST_MAX HTTP_PATH_MAX =
  Some (mk_url (bytes "10.0.2.2") 8080 (bytes "/index.html") false).
Proof.
  apply (url_roundtrip false (bytes "10.0.2.2") (bytes "/index.html") 8080);
    [repeat constructor; done | done | lia | done | done].
Defined.

(** ** Redirects *)

(** A location that starts with one slash and not two. *)
Definition absolute_path (loc : list Z) : Prop := at_ loc 0 = 47 /\ at_ loc 1 <> 47.

(** Resolving a redirect writes past the 256-byte temporary of
    [resolve_redirect] exactly when the location is an absolute path and
    scheme, host, port and location together reach 256 bytes; the bound is
    checked only after the copy. *)
Theorem resolve_redirect_overflow loc host port :
  resolve_redirect loc host port HTTP_URL_MAX = ROverflow <->
  absolute_path loc /\
  HTTP_URL_MAX <= 7 + Z.of_nat (length host) + Z.of_nat (length (port_suffix port)) + Z.of_nat (length loc).
Proof.
  unfold resolve_redirect, absolute_path.
  assert (Hw : forall u, match h_copy_bounded HTTP_URL_MAX u with (d, false) => RUrl d | _ => RFail end <> ROverflow)
    by (intros u; by destruct (h_copy_bounded HTTP_URL_MAX u) as [? []]).
  assert (Hl : Z.of_nat (length (bytes "http://" ++ host ++ port_suffix port ++ loc)) =
    7 + Z.of_nat (length host) + Z.of_nat (length (port_suffix port)) + Z.of_nat (length loc))
    by (rewrite !length_app; cbn [bytes length]; lia).
  rewrite Hl. destruct loc as [| x [| y loc]]; cbn [at_ nth].
  - split; [done |]. by intros [[? _] _].
  - rewrite bool_decide_eq_false_2 by done. change (2 <=? Z.of_nat (length [x])) with false. cbn [andb].
    destruct (Z.eqb_spec x 47) as [-> |]; [| split; [intros E; by apply Hw in E | by intros [[? _] _]]].
    destruct (Z.leb_spec HTTP_URL_MAX (7 + Z.of_nat (length host) + Z.of_nat (length (port_suffix port)) + Z.of_nat (length [47])));
      [split; [by split | done] | split; [done | intros [_ ?]; lia]].
  - rewrite bool_decide_eq_false_2 by done. destruct (Z.leb_spec 2 (Z.of_nat (length (x :: y :: loc)))); [| simpl in *; lia].
    cbn [andb]. destruct (Z.eqb_spec x 47) as [-> |]; cbn [andb]; [| split; [intros E; by apply Hw in E | by intros [[? _] _]]].
    destruct (Z.eqb_spec y 47) as [-> |]; [split; [intros E; by apply Hw in E | by intros [[_ ?] _]] |].
    destruct (Z.leb_spec HTTP_URL_MAX (7 + Z.of_nat (length host) + Z.of_nat (length (port_suffix port)) + Z.of_nat (length (47 :: y :: loc))));
      [split; [by split | done] | split; [done | intros [_ ?]; lia]].
Qed.

(** The range check of [Content-Length] follows the wrap-around. *)
Lemma content_length_wraps : parse_clen (bytes "4294967300") 0 = 4.
Proof. by vm_compute. Qed.

Lemma leading_zero_accepted : parse_ipv4 (bytes "010.1.1.1") = Some 0x0A010101.
Proof. by vm_compute. Qed.

(** ** A concrete network: every connection delivers the same bytes, at most
    seven at a time *)

Record peer := mk_peer { pr_data : list Z; pr_socks : list Z }.
Definition PEER_MAX : nat := Z.to_nat 4096.
Definition peer_bytes (w : peer) : list Z := take PEER_MAX (pr_data w).
Definition peer_recv (w : peer) (s n : Z) : peer * (Z * list Z) :=
  let d := take (Z.to_nat (Z.min n 7)) (peer_bytes w) in
  (mk_peer (drop (length d) (peer_bytes w)) (pr_socks w), (Z.of_nat (length d), d)).

#[local] Program Instance peer_net : NetOps peer := {|
  net_dns_resolve := fun w _ => (w, Some 0x0A000202);
  net_tcp_connect := fun w _ _ => (mk_peer (pr_data w) (7 :: pr_socks w), 7);
  net_tcp_send := fun w _ d => (w, Z.of_nat (length d));
  net_tcp_recv := peer_recv;
  net_tcp_close := fun w _ => mk_peer (pr_data w) (tail (pr_socks w));
  incoming := fun w _ => peer_bytes w;
  stream_end := fun _ _ => 0;
  open_socks := pr_socks;
|}.
Next Obligation. done. Qed.
Next Obligation.
  intros w s n Hn. unfold peer_recv. set (d := take _ _). split; [done |]. split; [done |].
  assert (Hk : peer_bytes (mk_peer (drop (length d) (peer_bytes w)) (pr_socks w)) = drop (length d) (peer_bytes w)).
  { unfold peer_bytes at 1. cbn [pr_data]. apply firstn_all2. rewrite length_drop. unfold peer_bytes. rewrite length_take. lia. }
  rewrite Hk. destruct (peer_bytes w) as [| x l] eqn:E.
  - left. unfold d. rewrite take_nil. done.
  - right. assert (Hd : (length d = Z.to_nat (Z.min n 7) `min` length (x :: l))%nat) by (unfold d; apply length_take).
    cbn [length] in Hd. split; [lia |]. split; [done |]. unfold d at 1. rewrite Hd.
    rewrite <- (take_drop (Z.to_nat (Z.min n 7)) (x :: l)) at 1. f_equal.
    destruct (Nat.min_spec (Z.to_nat (Z.min n 7)) (S (length l))) as [[_ ->] | [Hle ->]]; [done |].
    rewrite !drop_ge by (simpl; lia). done.
Qed.
Next Obligation. done. Qed.
Next Obligation. done. Qed.
Next Obligation. done. Qed.
Next Obligation. intros w s l E. cbn in *. by rewrite E. Qed.

Definition demo_chunks : list (list Z) := [bytes "Hello, "; bytes "world, in three chunks"; bytes "!"].
Definition demo_peer : peer := mk_peer (encode_chunked demo_chunks) [].

Lemma chunked_roundtrip_witness :
  exists w', read_chunked 5 demo_peer 7 (mk_sink [] 20 false) = Done w' (mk_sink (bytes "Hello, world, in thr") 20 true) 0.
Proof.
  destruct (chunked_roundtrip demo_peer 7 demo_chunks [] 20 5) as (w' & E & _);
    [repeat constructor; done | lia | simpl; lia | vm_compute; reflexivity |].
  exists w'. exact E.
Defined.

Definition demo_response : list Z := bytes "HTTP/1.1 302 Found" ++ CRLF ++ bytes "Location: /again" ++ CRLF ++ CRLF.

