(* ===== verification/Dmesg.v ===== *)
(** * Dmesg: the kernel log ([kernel/dmesg.c])

    A 32 KB ring of bytes with a ring of at most 256 line records.  Each
    operation runs with interrupts disabled, so it is one step.  The log is
    shown to keep exactly the longest suffix of the completed lines that fits
    both limits, and the reading functions to return those lines. *)

From S2P Require Import Prelude.

Definition DM_BUF_SIZE : Z := 32768.
Definition DM_MAX_LINES : Z := 256.
Definition DM_MAX_LINE : Z := 240.

Record dm_line_t := mk_line { l_start : Z; l_len : Z; l_tick : Z }.
Definition line_zero : dm_line_t := mk_line 0 0 0.

Record dm_state := mk_dm {
  dm_buf : list Z;
  dm_seq : Z;
  dm_line : list dm_line_t;
  dm_first : Z;
  dm_cnt : Z;
  dm_bytes : Z;
  dm_cur : list Z;
  serial : list Z;
}.

Definition dm_zeros : list Z := replicate (Z.to_nat DM_BUF_SIZE) 0.
Lemma dm_zeros_length : Z.of_nat (length dm_zeros) = DM_BUF_SIZE.
Proof. unfold dm_zeros. rewrite length_replicate. done. Qed.
#[global] Opaque dm_zeros.

Definition dm_boot : dm_state := mk_dm dm_zeros 0 (replicate 256 line_zero) 0 0 0 [] [].

Definition rec (st : dm_state) (idx : Z) : dm_line_t := aget line_zero (dm_line st) idx.

Definition set_cur (st : dm_state) (c : list Z) : dm_state :=
  mk_dm (dm_buf st) (dm_seq st) (dm_line st) (dm_first st) (dm_cnt st) (dm_bytes st) c (serial st).
Definition set_serial (st : dm_state) (s : list Z) : dm_state :=
  mk_dm (dm_buf st) (dm_seq st) (dm_line st) (dm_first st) (dm_cnt st) (dm_bytes st) (dm_cur st) s.

(** ** Writing *)

Definition drop_oldest (st : dm_state) : dm_state :=
  mk_dm (dm_buf st) (dm_seq st) (dm_line st) ((dm_first st +! 1) mod DM_MAX_LINES) (dm_cnt st -! 1)
    (dm_bytes st -! l_len (rec st (dm_first st))) (dm_cur st) (serial st).

(** The eviction loop runs at most [dm_cnt] times. *)
Fixpoint evict (fuel : nat) (st : dm_state) (need : Z) : dm_state :=
  match fuel with
  | O => st
  | S fuel' =>
      if (0 <? dm_cnt st) && (DM_BUF_SIZE <? dm_bytes st +! need) then evict fuel' (drop_oldest st) need else st
  end.

Definition dm_push_line (st : dm_state) (tick : Z) : dm_state :=
  let need := u32 (Z.of_nat (length (dm_cur st)) + 1) in
  if DM_BUF_SIZE <? need then set_cur st []
  else
    let st := evict (Z.to_nat (dm_cnt st)) st need in
    let st := if dm_cnt st =? DM_MAX_LINES then drop_oldest st else st in
    let slot := (dm_first st +! dm_cnt st) mod DM_MAX_LINES in
    mk_dm (ring_write (dm_buf st) DM_BUF_SIZE (dm_seq st) (dm_cur st ++ [10])) (u64 (dm_seq st + need))
      (aset (dm_line st) slot (mk_line (dm_seq st) need tick)) (dm_first st) (dm_cnt st +! 1) (dm_bytes st +! need)
      [] (serial st).

Definition push_char (tick : Z) (st : dm_state) (c : Z) : dm_state :=
  if c =? 10 then dm_push_line st tick
  else if Z.of_nat (length (dm_cur st)) <? DM_MAX_LINE then set_cur st (dm_cur st ++ [c]) else st.

Definition dmesg_push (st : dm_state) (line : list Z) (echo : bool) (tick : Z) : dm_state :=
  let st := if echo then set_serial st (serial st ++ line ++ match last line with Some 10 => [] | _ => [10] end) else st in
  fold_left (push_char tick) line st.

Definition dmesg_write (st : dm_state) (line : list Z) (tick : Z) : dm_state := dmesg_push st line true tick.
Definition dmesg_record (st : dm_state) (line : list Z) (tick : Z) : dm_state := dmesg_push st line false tick.

(** ** Reading *)

Definition dm_char (st : dm_state) (idx k : Z) : Z :=
  aget 0 (dm_buf st) (u64 (l_start (rec st idx) + k) mod DM_BUF_SIZE).

Definition dm_copy_line (st : dm_state) (idx cap : Z) : list Z :=
  let len := if cap <? l_len (rec st idx) then cap else l_len (rec st idx) in
  map (dm_char st idx) (seqZ 0 len).

(** The oldest slot, the first line to show, the number of lines. *)
Definition dm_snapshot (st : dm_state) (n : Z) : Z * Z * Z :=
  let c := dm_cnt st in (dm_first st, if (0 <? n) && (n <? c) then c -! n else 0, c).

Definition dm_line_tick (st : dm_state) (idx : Z) : Z := l_tick (rec st idx).

(** Decimal seconds, least significant digit first, at most 12. *)
Fixpoint sec_digits (fuel : nat) (sec : Z) : list Z :=
  match fuel with
  | O => []
  | S fuel' => if sec =? 0 then [] else (48 + sec mod 10) :: sec_digits fuel' (sec / 10)
  end.

(** The seconds of a time stamp, and what follows them. *)
Definition ts_sec (tick : Z) : list Z :=
  let sec := tick / 1000 in rev (if sec =? 0 then [48] else sec_digits 12 sec).
Definition ts_head (tick : Z) : list Z := [91; 32] ++ replicate (4 - length (ts_sec tick)) 32.
Definition ts_frac (tick : Z) : list Z :=
  let usec := (tick mod 1000) *! 1000 in
  [46] ++ map (fun d => 48 + usec / d mod 10) [100000; 10000; 1000; 100; 10; 1] ++ [93; 32].

(** [dm_ts_put]: the characters put. *)
Definition dm_ts (tick : Z) : list Z := ts_head tick ++ ts_sec tick ++ ts_frac tick.

(** The text of one line as the log is shown: a time stamp unless it has one. *)
Definition show_line (st : dm_state) (idx : Z) : list Z :=
  let row := dm_copy_line st idx (DM_MAX_LINE + 1) in
  (match row with 91 :: _ => [] | _ => dm_ts (dm_line_tick st idx) end) ++ row.

Fixpoint dump_from (k : nat) (st : dm_state) (first i : Z) : list Z :=
  match k with O => [] | S k' => show_line st ((first +! i) mod DM_MAX_LINES) ++ dump_from k' st first (i +! 1) end.

(** [dmesg_dump]: the characters put and the number of lines. *)
Definition dmesg_dump (st : dm_state) (n : Z) : list Z * Z :=
  let '(first, start, cnt) := dm_snapshot st n in
  if cnt =? 0 then ([], 0) else (dump_from (Z.to_nat (cnt - start)) st first start, cnt - start).

(** Copying into a buffer of [lim] bytes that keeps one for the terminator. *)
Definition put1 (lim : Z) (out : list Z) (c : Z) : list Z :=
  if Z.of_nat (length out) + 1 <? lim then out ++ [c] else out.

(** The loop over the seconds takes a digit only when there is room for it. *)
Fixpoint put_digits (fuel : nat) (lim : Z) (out b : list Z) : option (list Z) :=
  match b with
  | [] => Some out
  | d :: b' =>
      match fuel with
      | O => None
      | S fuel' => if Z.of_nat (length out) + 1 <? lim then put_digits fuel' lim (out ++ [d]) b' else put_digits fuel' lim out b
      end
  end.

Definition dm_ts_buf (fuel : nat) (out : list Z) (lim tick : Z) : option (list Z) :=
  match put_digits fuel lim (fold_left (put1 lim) (ts_head tick) out) (ts_sec tick) with
  | None => None
  | Some out => Some (fold_left (put1 lim) (ts_frac tick) out)
  end.

Fixpoint tail_from (fuel k : nat) (st : dm_state) (first i outsz : Z) (out : list Z) : option (list Z) :=
  match k with
  | O => Some out
  | S k' =>
      if Z.of_nat (length out) + 1 <? outsz then
        let idx := (first +! i) mod DM_MAX_LINES in
        let row := dm_copy_line st idx (DM_MAX_LINE + 1) in
        match (match row with 91 :: _ => Some out | _ => dm_ts_buf fuel out outsz (dm_line_tick st idx) end) with
        | None => None
        | Some out => tail_from fuel k' st first (i +! 1) outsz (fold_left (put1 outsz) row out)
        end
      else Some out
  end.

(** [dmesg_tail]: the bytes copied, [None] when the copy does not end. *)
Definition dmesg_tail (fuel : nat) (st : dm_state) (outsz n : Z) : option (list Z) :=
  if outsz =? 0 then Some []
  else
    let '(first, start, cnt) := dm_snapshot st n in
    if cnt =? 0 then Some [] else tail_from fuel (Z.to_nat (cnt - start)) st first start outsz [].

Definition dmesg_lines (st : dm_state) : Z := dm_cnt st.

(** ** The lines of the log *)

Notation entry_t := (list Z * Z)%type (only parsing).
Definition total (ls : list entry_t) : Z := Z.of_nat (length (concat (map fst ls))).
Definition fits (ls : list entry_t) : Prop := total ls <= DM_BUF_SIZE /\ Z.of_nat (length ls) <= DM_MAX_LINES.

Lemma total_cons l ls : total (l :: ls) = Z.of_nat (length (fst l)) + total ls.
Proof. unfold total. cbn [map concat]. rewrite length_app. lia. Qed.
Lemma total_of_app a b : total (a ++ b) = total a + total b.
Proof. unfold total. rewrite map_app, concat_app, length_app. lia. Qed.
Lemma total_nonneg ls : 0 <= total ls.
Proof. unfold total. lia. Qed.

(** Record [i] of the index describes entry [l], which starts at [pos] in the
    stream of bytes. *)
Definition rec_ok (st : dm_state) (i pos : Z) (l : entry_t) : Prop :=
  let r := rec st ((dm_first st + i) mod DM_MAX_LINES) in
  l_start r mod DM_BUF_SIZE = pos mod DM_BUF_SIZE /\ is_u64 (l_start r) /\ l_len r = Z.of_nat (length (fst l)) /\ l_tick r = snd l.

Fixpoint recs_ok (st : dm_state) (i pos : Z) (ls : list entry_t) : Prop :=
  match ls with
  | [] => True
  | l :: ls' => rec_ok st i pos l /\ recs_ok st (i + 1) (pos + Z.of_nat (length (fst l))) ls'
  end.

(** The state holds the lines [ls]. *)
Record holds (st : dm_state) (ls : list entry_t) : Prop := {
  ho_fits : fits ls;
  ho_cur : Z.of_nat (length (dm_cur st)) <= DM_MAX_LINE;
  ho_buf : Z.of_nat (length (dm_buf st)) = DM_BUF_SIZE;
  ho_line : length (dm_line st) = 256%nat;
  ho_first : 0 <= dm_first st < DM_MAX_LINES;
  ho_cnt : dm_cnt st = Z.of_nat (length ls);
  ho_bytes : dm_bytes st = total ls;
  ho_seq : is_u64 (dm_seq st);
  ho_win : ring (dm_buf st) DM_BUF_SIZE (dm_seq st - total ls) (total ls) = concat (map fst ls);
  ho_recs : recs_ok st 0 (dm_seq st - total ls) ls;
  ho_size : Forall (fun l : entry_t => 1 <= Z.of_nat (length (fst l)) <= DM_MAX_LINE + 1) ls;
}.

Lemma holds_boot : holds dm_boot [].
Proof.
  constructor; try done; cbn.
Qed.

(** Positions matter only modulo the size of the ring. *)
Lemma recs_ok_mod st ls : forall i p q, p mod DM_BUF_SIZE = q mod DM_BUF_SIZE -> recs_ok st i p ls -> recs_ok st i q ls.
Proof.
  induction ls as [| l ls IH]; intros i p q E; cbn [recs_ok]; [done |]. intros [(H1 & H2 & H3) H4]. split.
  - split; [congruence | done].
  - eapply IH; [| exact H4]. by rewrite <- (Zplus_mod_idemp_l p), E, Zplus_mod_idemp_l.
Qed.

Lemma recs_ok_ext st st' ls : forall i j p,
  (forall k, 0 <= k < Z.of_nat (length ls) ->
     rec st' ((dm_first st' + (j + k)) mod DM_MAX_LINES) = rec st ((dm_first st + (i + k)) mod DM_MAX_LINES)) ->
  recs_ok st i p ls -> recs_ok st' j p ls.
Proof.
  induction ls as [| l ls IH]; intros i j p E; cbn [recs_ok length] in *; [done |]. intros [H1 H2]. split.
  - unfold rec_ok in *. specialize (E 0 ltac:(lia)). rewrite !Z.add_0_r in E. by rewrite E.
  - apply (IH (i + 1)); [| done]. intros k Hk.
    replace (j + 1 + k) with (j + (k + 1)) by lia. replace (i + 1 + k) with (i + (k + 1)) by lia. apply E. lia.
Qed.

Lemma recs_ok_app st a b : forall i p, recs_ok st i p (a ++ b) <->
  recs_ok st i p a /\ recs_ok st (i + Z.of_nat (length a)) (p + total a) b.
Proof.
  induction a as [| l a IH]; intros i p; cbn [app recs_ok length].
  - change (total []) with 0. rewrite !Z.add_0_r. naive_solver.
  - rewrite IH, total_cons. replace (i + 1 + Z.of_nat (length a)) with (i + Z.of_nat (S (length a))) by lia.
    replace (p + Z.of_nat (length l.1) + total a) with (p + (Z.of_nat (length l.1) + total a)) by lia. naive_solver.
Qed.

Lemma drop_oldest_holds st l ls : holds st (l :: ls) -> holds (drop_oldest st) ls.
Proof.
  intros [[F1 F2] C B L Fi Cn By S W R Z]. pose proof (total_nonneg ls). rewrite total_cons in *.
  cbn [recs_ok length] in *. destruct R as [(R1 & R2 & R3 & R4) R]. unfold DM_BUF_SIZE, DM_MAX_LINES in *.
  rewrite Z.add_0_r, Z.mod_small in R3 by lia. apply Forall_cons in Z as [Z1 Z]. unfold drop_oldest. constructor; cbn; try done.
  - split; unfold DM_BUF_SIZE, DM_MAX_LINES; lia.
  - apply Z.mod_pos_bound. done.
  - rewrite Cn, u32_small by (unfold is_u32; lia). lia.
  - rewrite By, R3, u32_small by (unfold is_u32; lia). lia.
  - rewrite ring_app in W by lia. cbn [map concat] in W.
    apply app_inj_1 in W as [_ W]; [| pose proof (length_ring (dm_buf st) 32768 (dm_seq st - (Z.of_nat (length l.1) + total ls)) (Z.of_nat (length l.1)) ltac:(lia)); lia].
    rewrite <- W. f_equal. lia.
  - eapply (recs_ok_ext st _ _ 1 0); [| eapply recs_ok_mod; [| exact R]; f_equal; lia].
    intros k Hk. cbn [dm_first dm_line]. unfold rec. cbn [dm_line]. unfold DM_MAX_LINES.
    rewrite (u32_small (dm_first st + 1)) by (unfold is_u32; lia). rewrite Zplus_mod_idemp_l. f_equal. f_equal. lia.
Qed.

(** *** The specification of a push *)

Fixpoint spec_evict (ls : list entry_t) (need : Z) : list entry_t :=
  match ls with
  | [] => []
  | l :: ls' => if DM_BUF_SIZE <? total (l :: ls') + need then spec_evict ls' need else l :: ls'
  end.
Definition spec_room (ls : list entry_t) (need : Z) : list entry_t :=
  let ls := spec_evict ls need in if Z.of_nat (length ls) =? DM_MAX_LINES then tail ls else ls.

(** The lines kept are the longest suffix of the history that fits. *)
Definition latest (hist ls : list entry_t) : Prop :=
  fits ls /\ exists old, hist = old ++ ls /\ forall o x, old = o ++ [x] -> ~ fits (x :: ls).

Lemma evict_holds ls : forall fuel st need, holds st ls -> 0 <= need <= DM_MAX_LINE + 1 -> (length ls <= fuel)%nat ->
  holds (evict fuel st need) (spec_evict ls need) /\ dm_cur (evict fuel st need) = dm_cur st
  /\ serial (evict fuel st need) = serial st.
Proof.
  induction ls as [| l ls IH]; intros fuel st need Hst Hn Hf; pose proof (ho_cnt _ _ Hst) as Cn; pose proof (ho_bytes _ _ Hst) as By.
  - destruct fuel as [| fuel]; cbn [evict spec_evict]; [done |]. rewrite Cn. done.
  - destruct fuel as [| fuel]; [simpl in Hf; lia |]. cbn [evict spec_evict]. pose proof (ho_fits _ _ Hst) as [F1 F2].
    pose proof (total_nonneg (l :: ls)). unfold DM_BUF_SIZE, DM_MAX_LINE in *. rewrite Cn, By, u32_small by (unfold is_u32; lia).
    destruct (Z.ltb_spec 0 (Z.of_nat (length (l :: ls)))); [| simpl in *; lia]. cbn [andb].
    destruct (32768 <? total (l :: ls) + need); [| done].
    destruct (IH fuel (drop_oldest st) need (drop_oldest_holds _ _ _ Hst) Hn ltac:(simpl in Hf; lia)) as (H1 & H2 & H3).
    split_and!; done.
Qed.

Lemma spec_evict_suffix ls need : exists ev, ls = ev ++ spec_evict ls need /\
  (spec_evict ls need = [] \/ total (spec_evict ls need) + need <= DM_BUF_SIZE) /\
  forall o x, ev = o ++ [x] -> DM_BUF_SIZE < total (x :: spec_evict ls need) + need.
Proof.
  induction ls as [| l ls (ev & E & H1 & H2)]; cbn [spec_evict].
  - exists []. split; [done |]. split; [by left |]. intros o x E. by destruct o.
  - destruct (Z.ltb_spec DM_BUF_SIZE (total (l :: ls) + need)).
    + exists (l :: ev). split; [cbn [app]; by rewrite <- E |]. split; [done |]. intros o x Eo.
      destruct o as [| y o]; cbn [app] in Eo; injection Eo as <- Eo; [| by apply (H2 o x)]. subst ev. cbn [app] in E. rewrite <- E. lia.
    + exists []. split; [done |]. split; [right; lia |]. intros o x E'. by destruct o.
Qed.

Lemma fits_cons_inv x ls : fits (x :: ls) -> fits ls.
Proof. unfold fits. rewrite total_cons. cbn [length]. intros [? ?]. lia. Qed.

Lemma spec_room_latest hist ls l : latest hist ls -> 1 <= Z.of_nat (length (fst l)) <= DM_MAX_LINE + 1 ->
  let need := Z.of_nat (length (fst l)) in
  latest (hist ++ [l]) (spec_room ls need ++ [l]) /\
  total (spec_room ls need) + need <= DM_BUF_SIZE /\ Z.of_nat (length (spec_room ls need)) < DM_MAX_LINES.
Proof.
  intros [[F1 F2] (old & -> & Hold)] Hl need. destruct (spec_evict_suffix ls need) as (ev & E & H1 & H2).
  unfold spec_room. set (kept := spec_evict ls need) in *. pose proof (total_nonneg kept).
  assert (Ht : total kept + need <= DM_BUF_SIZE) by (destruct H1 as [-> | ?]; [change (total []) with 0; unfold DM_BUF_SIZE, DM_MAX_LINE in *; lia | done]).
  assert (Hk : Z.of_nat (length kept) <= DM_MAX_LINES) by (rewrite E, length_app in F2; lia).
  assert (Hlast : forall k x, fits (x :: k ++ [l]) -> total (x :: k) + need <= DM_BUF_SIZE /\ Z.of_nat (length k) + 2 <= DM_MAX_LINES).
  { intros k x [A B]. change (x :: k ++ [l]) with ((x :: k) ++ [l]) in A, B. rewrite total_of_app, (total_cons l) in A. change (total []) with 0 in A.
    rewrite length_app in B. cbn [length] in B. unfold need. lia. }
  assert (Hfits : forall k, total k + need <= DM_BUF_SIZE -> Z.of_nat (length k) < DM_MAX_LINES -> fits (k ++ [l])).
  { intros k A B. unfold fits. rewrite total_of_app, (total_cons l), length_app. change (total []) with 0. cbn [length]. unfold need in A. lia. }
  destruct (Z.eqb_spec (Z.of_nat (length kept)) DM_MAX_LINES) as [E256 | N256].
  - destruct kept as [| y k]; [by cbn in E256 |]. cbn [tail]. rewrite total_cons in Ht. cbn [length] in E256.
    split; [| split; lia]. split; [apply Hfits; lia |]. exists ((old ++ ev) ++ [y]).
    split; [rewrite E, <- !app_assoc; done |]. intros o x Eo Hx. apply app_inj_2 in Eo as [_ Eo]; [| done]. injection Eo as <-.
    apply Hlast in Hx. lia.
  - split; [| split; lia]. split; [apply Hfits; lia |]. exists (old ++ ev). split; [rewrite E, <- !app_assoc; done |].
    intros o x Eo Hx. destruct (Hlast kept x Hx) as [A B]. destruct ev as [| z ev'] using rev_ind; [| clear IHev'].
    + rewrite app_nil_r in Eo. apply (Hold o x Eo). cbn [app] in E. rewrite E. split; [lia |]. cbn [length]. lia.
    + rewrite app_assoc in Eo. apply app_inj_2 in Eo as [_ Eo]; [| done]. injection Eo as ->. specialize (H2 ev' x eq_refl). lia.
Qed.

Lemma u64_mod x : u64 x mod DM_BUF_SIZE = x mod DM_BUF_SIZE.
Proof. unfold u64, DM_BUF_SIZE. apply Z.mod_mod_divide. by exists 562949953421312. Qed.

Lemma mod_slots_ne f i n : 0 <= i < n -> n < DM_MAX_LINES -> (f + n) mod DM_MAX_LINES <> (f + i) mod DM_MAX_LINES.
Proof. unfold DM_MAX_LINES. intros. Z.to_euclidean_division_equations. lia. Qed.

(** Appending a line where there is room. *)
Lemma append_holds st ls tick : holds st ls ->
  let l := (dm_cur st ++ [10], tick) in let need := Z.of_nat (length (fst l)) in
  total ls + need <= DM_BUF_SIZE -> Z.of_nat (length ls) < DM_MAX_LINES ->
  holds (mk_dm (ring_write (dm_buf st) DM_BUF_SIZE (dm_seq st) (dm_cur st ++ [10])) (u64 (dm_seq st + need))
      (aset (dm_line st) ((dm_first st +! dm_cnt st) mod DM_MAX_LINES) (mk_line (dm_seq st) need tick)) (dm_first st)
      (dm_cnt st +! 1) (dm_bytes st +! need) [] (serial st)) (ls ++ [l]).
Proof.
  intros [[F1 F2] C B L Fi Cn By S W R Z] l need Hb Hc. pose proof (total_nonneg ls).
  assert (Hn : 1 <= need <= DM_MAX_LINE + 1) by (unfold need; cbn; rewrite length_app; simpl; lia).
  assert (Ht : total (ls ++ [l]) = total ls + need) by (rewrite total_of_app, total_cons; change (total []) with 0; unfold need; lia).
  assert (Hseq : (u64 (dm_seq st + need) - (total ls + need)) mod DM_BUF_SIZE = (dm_seq st - total ls) mod DM_BUF_SIZE).
  { rewrite <- Zminus_mod_idemp_l, u64_mod, Zminus_mod_idemp_l. f_equal. lia. }
  destruct (ring_write_spec (dm_cur st ++ [10]) (dm_buf st) DM_BUF_SIZE (dm_seq st - total ls) (total ls)) as [Hlen Hw];
    [done | done | lia | exact Hb |].
  replace (dm_seq st - total ls + total ls) with (dm_seq st) in Hlen, Hw by lia.
  unfold DM_BUF_SIZE, DM_MAX_LINES, DM_MAX_LINE in *.
  rewrite (u32_small (dm_first st + dm_cnt st)) by (unfold is_u32; lia).
  set (slot := (dm_first st + dm_cnt st) mod 256). assert (Hslot : 0 <= slot < 256) by (apply Z.mod_pos_bound; done).
  constructor; cbn [dm_buf dm_seq dm_line dm_first dm_cnt dm_bytes dm_cur]; try done.
  - split; [rewrite Ht; unfold DM_BUF_SIZE; lia | rewrite length_app; unfold DM_MAX_LINES; simpl; lia].
  - rewrite <- L. apply length_aset.
  - rewrite u32_small by (unfold is_u32; lia). rewrite length_app. simpl. lia.
  - rewrite u32_small by (unfold is_u32; lia). by rewrite Ht, By.
  - apply u64_range.
  - rewrite Ht. unfold DM_BUF_SIZE. rewrite <- ring_mod, Hseq, ring_mod by done. rewrite map_app, concat_app. cbn [map concat]. rewrite app_nil_r, <- W. exact Hw.
  - rewrite Ht. eapply recs_ok_mod; [symmetry; exact Hseq |]. apply recs_ok_app. split.
    + eapply (recs_ok_ext st _ _ 0 0); [| exact R]. intros k Hk. cbn [dm_first dm_line]. unfold rec. cbn [dm_line].
      apply aget_aset_ne; [lia | |].
      * apply Z.mod_pos_bound. done.
      * unfold slot. rewrite Cn. apply mod_slots_ne; unfold DM_MAX_LINES; lia.
    + split; [| done]. unfold rec_ok. cbn [dm_first dm_line]. unfold rec. cbn [dm_line]. rewrite Z.add_0_l, <- Cn.
      change (aget line_zero (aset (dm_line st) slot (mk_line (dm_seq st) need tick)) ((dm_first st + dm_cnt st) mod DM_MAX_LINES))
        with (aget line_zero (aset (dm_line st) slot (mk_line (dm_seq st) need tick)) slot).
      rewrite aget_aset_eq by (rewrite L; lia). cbn. split_and!; try done; try apply S. f_equal. lia.
  - apply Forall_app. split; [done |]. constructor; [exact Hn | done].
Qed.

Lemma push_holds st ls tick : holds st ls ->
  let l := (dm_cur st ++ [10], tick) in
  holds (dm_push_line st tick) (spec_room ls (Z.of_nat (length (fst l))) ++ [l]) /\ dm_cur (dm_push_line st tick) = []
  /\ serial (dm_push_line st tick) = serial st.
Proof.
  intros Hst l. pose proof (ho_cur _ _ Hst) as Hc. unfold dm_push_line.
  assert (Hneed : u32 (Z.of_nat (length (dm_cur st)) + 1) = Z.of_nat (length (fst l))).
  { unfold DM_MAX_LINE in Hc. rewrite u32_small by (unfold is_u32; lia). cbn. rewrite length_app. simpl. lia. }
  rewrite Hneed. set (need := Z.of_nat (length (fst l))) in *.
  assert (Hn : 1 <= need <= DM_MAX_LINE + 1) by (unfold need; cbn; rewrite length_app; simpl; lia).
  destruct (Z.ltb_spec DM_BUF_SIZE need); [unfold DM_BUF_SIZE, DM_MAX_LINE in *; lia |].
  destruct (evict_holds ls (Z.to_nat (dm_cnt st)) st need Hst) as (H1 & H2 & H3); [lia | rewrite (ho_cnt _ _ Hst); lia |].
  set (st1 := evict _ st need) in *. set (kept := spec_evict ls need) in *.
  assert (Hlat : latest ls ls) by (split; [apply Hst |]; exists []; split; [done | intros o x E; by destruct o]).
  destruct (spec_room_latest ls ls l Hlat ltac:(fold need; lia)) as (_ & Hb & Hlt). fold need in Hb, Hlt.
  unfold spec_room in *. fold kept in Hb, Hlt |- *. rewrite (ho_cnt _ _ H1).
  set (ls2 := if Z.of_nat (length kept) =? DM_MAX_LINES then tail kept else kept) in *.
  set (st2 := if Z.of_nat (length kept) =? DM_MAX_LINES then drop_oldest st1 else st1).
  assert (H4 : holds st2 ls2 /\ dm_cur st2 = dm_cur st /\ serial st2 = serial st).
  { unfold st2, ls2. destruct (Z.eqb_spec (Z.of_nat (length kept)) DM_MAX_LINES) as [E |]; [| done].
    destruct kept as [| k kept]; [by cbn in E |]. split; [by eapply drop_oldest_holds | done]. }
  destruct H4 as (H4 & H5 & H6). split; [| done].
  pose proof (append_holds st2 ls2 tick H4) as Ha. rewrite H5 in Ha.
  fold st2. cbv zeta. rewrite H5. exact (Ha Hb Hlt).
Qed.

(** ** The whole log *)

(** The completed lines of a text, and the unfinished one. *)
Definition spec_char (tick : Z) (s : list Z * list entry_t) (c : Z) : list Z * list entry_t :=
  if c =? 10 then ([], snd s ++ [(fst s ++ [10], tick)])
  else if Z.of_nat (length (fst s)) <? DM_MAX_LINE then (fst s ++ [c], snd s) else s.

Definition logs (st : dm_state) (s : list Z * list entry_t) (ls : list entry_t) : Prop :=
  holds st ls /\ latest (snd s) ls /\ dm_cur st = fst s.

Lemma holds_other st ls c x : holds st ls -> Z.of_nat (length c) <= DM_MAX_LINE ->
  holds (mk_dm (dm_buf st) (dm_seq st) (dm_line st) (dm_first st) (dm_cnt st) (dm_bytes st) c x) ls.
Proof.
  intros [] Hc. constructor; try done. eapply (recs_ok_ext st); [| eassumption]. done.
Qed.

Lemma push_char_logs st s ls tick c : logs st s ls -> exists ls', logs (push_char tick st c) (spec_char tick s c) ls'.
Proof.
  intros (H1 & H2 & H3). unfold push_char, spec_char. rewrite H3. destruct (c =? 10).
  - destruct (push_holds st ls tick H1) as (P1 & P2 & _). rewrite H3 in P1. eexists. split; [exact P1 |]. split; [| done].
    cbn [snd]. apply spec_room_latest; [done |]. pose proof (ho_cur _ _ H1) as Hc. rewrite H3 in Hc. cbn. rewrite length_app. simpl. lia.
  - destruct (Z.ltb_spec (Z.of_nat (length (fst s))) DM_MAX_LINE); [| by exists ls].
    exists ls. split; [| by split]. apply holds_other; [done |]. rewrite length_app. simpl. lia.
Qed.

Lemma push_text_logs text : forall st s ls tick, logs st s ls ->
  exists ls', logs (fold_left (push_char tick) text st) (fold_left (spec_char tick) text s) ls'.
Proof.
  induction text as [| c text IH]; intros st s ls tick H; cbn [fold_left]; [by exists ls |].
  destruct (push_char_logs st s ls tick c H) as [ls1 H1]. by eapply IH.
Qed.

Lemma holds_serial st ls x : holds st ls -> holds (set_serial st x) ls.
Proof. intros H. apply holds_other; [done | apply H]. Qed.

(** A call of [dmesg_write] or [dmesg_record]. *)
Record call := mk_call { c_text : list Z; c_echo : bool; c_tick : Z }.
Definition run_calls (cs : list call) (st : dm_state) : dm_state :=
  fold_left (fun st c => dmesg_push st (c_text c) (c_echo c) (c_tick c)) cs st.
Definition history (cs : list call) (s : list Z * list entry_t) : list Z * list entry_t :=
  fold_left (fun s c => fold_left (spec_char (c_tick c)) (c_text c) s) cs s.

Lemma run_calls_logs cs : forall st s ls, logs st s ls -> exists ls', logs (run_calls cs st) (history cs s) ls'.
Proof.
  induction cs as [| c cs IH]; intros st s ls H; cbn [run_calls history fold_left]; [by exists ls |].
  assert (H' : logs (if c_echo c then set_serial st (serial st ++ c_text c ++ match last (c_text c) with Some 10 => [] | _ => [10] end) else st) s ls).
  { destruct (c_echo c); [| done]. destruct H as (H1 & H2 & H3). split; [by apply holds_serial | by split]. }
  destruct (push_text_logs (c_text c) _ _ _ (c_tick c) H') as [ls1 H1]. by eapply IH.
Qed.

(** ** Reading it back *)

Definition slot_of (st : dm_state) (i : Z) : Z := (dm_first st +! i) mod DM_MAX_LINES.

Lemma copy_line_ring st idx cap : dm_copy_line st idx cap =
  ring (dm_buf st) DM_BUF_SIZE (l_start (rec st idx)) (if cap <? l_len (rec st idx) then cap else l_len (rec st idx)).
Proof. unfold dm_copy_line, ring. apply map_ext. intros i. unfold dm_char. by rewrite u64_mod. Qed.

Lemma copy_line_spec st ls i l : holds st ls -> ls !! i = Some l ->
  dm_copy_line st (slot_of st (Z.of_nat i)) (DM_MAX_LINE + 1) = fst l /\ dm_line_tick st (slot_of st (Z.of_nat i)) = snd l.
Proof.
  intros Hst Hi. destruct (list_elem_of_split_length ls i l Hi) as (a & b & -> & La). clear Hi.
  destruct Hst as [[F1 F2] C B L Fi Cn By Q W R Z]. apply recs_ok_app in R as [_ [(R1 & R2 & R3 & R4) _]].
  rewrite Z.add_0_l, <- La in R1, R2, R3, R4. apply Forall_app in Z as [_ Z]. apply Forall_cons in Z as [Z1 _].
  pose proof (total_nonneg a). pose proof (total_nonneg b). set (n := Z.of_nat (length (fst l))) in *.
  assert (Ht : total (a ++ l :: b) = total a + (n + total b)) by (rewrite total_of_app, total_cons; done).
  rewrite length_app in F2. simpl in F2. unfold slot_of, DM_MAX_LINES in *. rewrite u32_small by (unfold is_u32; lia).
  unfold dm_line_tick. rewrite R4. split; [| done]. rewrite copy_line_ring, R3.
  destruct (Z.ltb_spec (DM_MAX_LINE + 1) n); [lia |].
  rewrite <- ring_mod, R1, ring_mod by done. rewrite map_app, concat_app in W. cbn [map concat] in W.
  rewrite Ht in W |- *. rewrite ring_app, ring_app in W by lia.
  set (w := dm_seq st - _) in *. 
  pose proof (length_ring (dm_buf st) DM_BUF_SIZE w (total a) ltac:(lia)).
  pose proof (length_ring (dm_buf st) DM_BUF_SIZE (w + total a) n ltac:(lia)).
  apply app_inj_1 in W as [_ W]; [apply app_inj_1 in W as [W _]; [done | lia] | unfold total in *; lia].
Qed.

Definition shown (l : entry_t) : list Z :=
  (match fst l with 91 :: _ => [] | _ => dm_ts (snd l) end) ++ fst l.

Lemma dump_from_spec st ls k : holds st ls -> forall i, (i + k <= length ls)%nat ->
  dump_from k st (dm_first st) (Z.of_nat i) = concat (map shown (take k (drop i ls))).
Proof.
  intros Hst. induction k as [| k IH]; intros i Hi; cbn [dump_from]; [by rewrite take_0 |].
  destruct (lookup_lt_is_Some_2 ls i ltac:(lia)) as [l Hl]. rewrite (drop_S _ _ _ Hl). cbn [take map concat].
  assert (Hb : Z.of_nat (length ls) <= 256) by (apply Hst). rewrite (u32_small (Z.of_nat i + 1)) by (unfold is_u32; lia).
  replace (Z.of_nat i + 1) with (Z.of_nat (S i)) by lia. rewrite IH by lia. f_equal.
  unfold show_line, shown. destruct (copy_line_spec st ls i l Hst Hl) as [E1 E2]. unfold slot_of in E1, E2. by rewrite E1, E2.
Qed.

(** *** Copying into a buffer *)

Lemma put_all lim s : forall out, Z.of_nat (length out) + Z.of_nat (length s) < lim -> fold_left (put1 lim) s out = out ++ s.
Proof.
  induction s as [| c s IH]; intros out H; cbn [fold_left]; [by rewrite app_nil_r |]. cbn [length] in H. unfold put1 at 2.
  destruct (Z.ltb_spec (Z.of_nat (length out) + 1) lim); [| lia].
  rewrite IH by (rewrite length_app; cbn [length]; lia). by rewrite <- app_assoc.
Qed.
Lemma put_full lim s out : lim <= Z.of_nat (length out) + 1 -> fold_left (put1 lim) s out = out.
Proof.
  intros H. induction s as [| c s IH]; cbn [fold_left]; [done |]. unfold put1 at 2.
  by destruct (Z.ltb_spec (Z.of_nat (length out) + 1) lim); [lia |].
Qed.
(** A text that does not fit leaves no room at all. *)
Lemma put_short lim s : forall out, Z.of_nat (length out) < lim -> lim <= Z.of_nat (length out) + Z.of_nat (length s) ->
  Z.of_nat (length (fold_left (put1 lim) s out)) + 1 = lim.
Proof.
  induction s as [| c s IH]; intros out H1 H2; cbn [fold_left length] in *; [lia |]. unfold put1 at 2.
  destruct (Z.ltb_spec (Z.of_nat (length out) + 1) lim).
  - apply IH; rewrite length_app; cbn [length]; lia.
  - rewrite put_full; lia.
Qed.

Lemma put_digits_fits lim b : forall fuel out, (length b <= fuel)%nat -> Z.of_nat (length out) + Z.of_nat (length b) < lim ->
  put_digits fuel lim out b = Some (out ++ b).
Proof.
  induction b as [| d b IH]; intros fuel out Hf H; destruct fuel as [| fuel]; cbn [put_digits length] in *; try by rewrite app_nil_r.
  { lia. }
  destruct (Z.ltb_spec (Z.of_nat (length out) + 1) lim); [| lia].
  rewrite IH by (rewrite ?length_app; cbn [length]; lia). by rewrite <- app_assoc.
Qed.
Lemma put_digits_stuck lim fuel : forall b out, lim <= Z.of_nat (length out) + Z.of_nat (length b) ->
  Z.of_nat (length out) < lim -> put_digits fuel lim out b = None.
Proof.
  induction fuel as [| fuel IH]; intros [| d b] out H1 H2; cbn [put_digits length] in *; try lia; [done |].
  destruct (Z.ltb_spec (Z.of_nat (length out) + 1) lim); apply IH; rewrite ?length_app; cbn [length]; lia.
Qed.

Lemma sec_digits_length fuel : forall sec, (length (sec_digits fuel sec) <= fuel)%nat.
Proof. induction fuel; intros sec; cbn [sec_digits]; [done |]. destruct (sec =? 0); cbn [length]; [lia |]. specialize (IHfuel (sec / 10)). lia. Qed.
Lemma ts_sec_length tick : (1 <= length (ts_sec tick) <= 12)%nat.
Proof.
  unfold ts_sec. rewrite length_rev. destruct (Z.eqb_spec (tick / 1000) 0); [cbn; lia |].
  pose proof (sec_digits_length 12 (tick / 1000)). split; [| done]. cbn [sec_digits].
  destruct (Z.eqb_spec (tick / 1000) 0); [done | cbn [length]; lia].
Qed.

Lemma dm_ts_buf_fits fuel out lim tick : (12 <= fuel)%nat -> Z.of_nat (length out) + Z.of_nat (length (dm_ts tick)) < lim ->
  dm_ts_buf fuel out lim tick = Some (out ++ dm_ts tick).
Proof.
  intros Hf. unfold dm_ts, dm_ts_buf. rewrite !length_app. intros H. pose proof (ts_sec_length tick).
  rewrite put_all by lia. rewrite put_digits_fits by (rewrite ?length_app; lia).
  rewrite put_all by (rewrite !length_app; lia). by rewrite <- !app_assoc.
Qed.

(** Writing a time stamp to the buffer of [dmesg_tail] ends exactly when the
    bracket, the padding and all the digits of the seconds fit: the loop over the
    digits steps only when it has room, so with a smaller buffer (and one that has
    a free byte, as the caller checks) it runs forever, with interrupts as they are. *)
Theorem dm_ts_buf_terminates_iff (out : list Z) (lim tick : Z) (Hroom : Z.of_nat (length out) + 1 < lim) :
  (exists fuel out', dm_ts_buf fuel out lim tick = Some out')
  <-> Z.of_nat (length out) + Z.of_nat (length (ts_head tick ++ ts_sec tick)) < lim.
Proof.
  rewrite length_app. pose proof (ts_sec_length tick) as Hs. unfold dm_ts_buf. split.
  - intros (fuel & out' & E). destruct (Z.lt_ge_cases (Z.of_nat (length out) + Z.of_nat (length (ts_head tick) + length (ts_sec tick))) lim) as [H | H]; [done |].
    destruct (Z.lt_ge_cases (Z.of_nat (length out) + Z.of_nat (length (ts_head tick))) lim) as [H' | H'].
    + rewrite put_all in E by lia. rewrite put_digits_stuck in E by (rewrite length_app; lia). done.
    + pose proof (put_short lim (ts_head tick) out ltac:(lia) H'). rewrite put_digits_stuck in E by lia. done.
  - intros H. exists 12%nat. rewrite put_all by lia. rewrite put_digits_fits by (rewrite ?length_app; lia). by eexists.
Qed.
Lemma dm_ts_buf_terminates_iff_witness : ~ exists fuel out', dm_ts_buf fuel [] 5 1331 = Some out'.
Proof. intros H. apply (dm_ts_buf_terminates_iff [] 5 1331) in H; [| done]. vm_compute in H. discriminate H. Defined.

Lemma tail_from_spec st ls fuel outsz k : holds st ls -> (12 <= fuel)%nat -> forall i out, (i + k <= length ls)%nat ->
  Z.of_nat (length out) + Z.of_nat (length (concat (map shown (take k (drop i ls))))) < outsz ->
  tail_from fuel k st (dm_first st) (Z.of_nat i) outsz out = Some (out ++ concat (map shown (take k (drop i ls)))).
Proof.
  intros Hst Hf. induction k as [| k IH]; intros i out Hi; cbn [tail_from]; [by rewrite take_0, app_nil_r |].
  destruct (lookup_lt_is_Some_2 ls i ltac:(lia)) as [l Hl]. rewrite (drop_S _ _ _ Hl). cbn [take map concat].
  rewrite length_app. intros Hroom.
  assert (Hb : Z.of_nat (length ls) <= 256) by (apply Hst). rewrite (u32_small (Z.of_nat i + 1)) by (unfold is_u32; lia).
  replace (Z.of_nat i + 1) with (Z.of_nat (S i)) by lia.
  destruct (copy_line_spec st ls i l Hst Hl) as [E1 E2]. unfold slot_of in E1, E2. rewrite E1, E2.
  assert (Hne : 1 <= Z.of_nat (length (fst l))) by (eapply (Forall_lookup_1 _ _ _ _ (ho_size _ _ Hst) Hl)).
  assert (Hs : Z.of_nat (length (shown l)) = Z.of_nat (length (match fst l with 91 :: _ => [] | _ => dm_ts (snd l) end)) + Z.of_nat (length (fst l)))
    by (unfold shown; rewrite length_app; lia).
  destruct (Z.ltb_spec (Z.of_nat (length out) + 1) outsz); [| lia].
  assert (E : (match fst l with 91 :: _ => Some out | _ => dm_ts_buf fuel out outsz (snd l) end)
    = Some (out ++ match fst l with 91 :: _ => [] | _ => dm_ts (snd l) end)).
  { assert (Hts : forall z, z = dm_ts (snd l) -> Z.of_nat (length out) + Z.of_nat (length z) < outsz -> dm_ts_buf fuel out outsz (snd l) = Some (out ++ z))
      by (intros z ->; by apply dm_ts_buf_fits).
    destruct (fst l) as [| c t]; [cbn in Hne; lia |].
    repeat (match goal with |- context [match ?x with _ => _ end] => is_var x; destruct x end); rewrite ?app_nil_r; try done;
      apply Hts; try done; lia. }
  rewrite E, put_all by (rewrite length_app; lia). rewrite IH by (rewrite ?length_app; lia).
  unfold shown. by rewrite <- !app_assoc.
Qed.

(** The lines a reader that asks for the last [n] of [ls] gets. *)
Definition wanted (n : Z) (ls : list entry_t) : list entry_t :=
  if (0 <? n) && (n <? Z.of_nat (length ls)) then drop (length ls - Z.to_nat n) ls else ls.

Lemma log_snapshot_spec st ls n : holds st ls -> exists i, (i <= length ls)%nat /\
  dm_snapshot st n = (dm_first st, Z.of_nat i, Z.of_nat (length ls)) /\ wanted n ls = drop i ls.
Proof.
  intros Hst. unfold dm_snapshot, wanted. rewrite (ho_cnt _ _ Hst). assert (Hb : Z.of_nat (length ls) <= 256) by apply Hst.
  destruct (Z.ltb_spec 0 n); cbn [andb]; [destruct (Z.ltb_spec n (Z.of_nat (length ls))) |].
  - exists (length ls - Z.to_nat n)%nat. rewrite u32_small by (unfold is_u32; lia).
    split; [lia |]. split; [repeat f_equal; lia | done].
  - exists 0%nat. split; [lia | done].
  - exists 0%nat. split; [lia | done].
Qed.

