(* ===== verification/Tty.v ===== *)
(** * Tty: the text console ([kernel/tty.c])

    The 80 by 25 text screen with its cursor, the ring of 100 lines scrolled off
    the top, the view of that history, and the capture of output.  The cells of
    the screen and of the saved screen are flat arrays indexed by
    [y * VGA_WIDTH + x], as in the code; a cell outside the screen raises a flag
    that the theorems show is never raised. *)

From S2P Require Import Prelude.

Definition VGA_WIDTH : Z := 80.
Definition VGA_HEIGHT : Z := 25.
Definition SCROLLBACK_LINES : Z := 100.

(** ** The state *)

Record screen := mk_scr {
  terminal_row : Z;
  terminal_column : Z;
  terminal_color : Z;
  terminal_buffer : list Z;
  t_crtc : Z;
  t_oob : bool;
  t_serial : list Z;
}.

(** The buffer of a capture is the caller's. *)
Record capture := mk_cap {
  g_capture_buf : option (list Z);
  g_capture_len : Z;
  g_capture_max : Z;
}.

Record history := mk_hist {
  scrollback : list (list Z);
  sb_start : Z;
  sb_count : Z;
}.

Record viewer := mk_view {
  view_offset : Z;
  screen_backup : list Z;
  backup_valid : bool;
}.

Record tty := mk_tty {
  scr : screen;
  cap : capture;
  sb : history;
  view : viewer;
  g_gfx_hook : bool;
  gfx_out : list (list Z);
  serial_ready : bool;
}.

Definition set_scr (st : tty) (s : screen) : tty :=
  mk_tty s (cap st) (sb st) (view st) (g_gfx_hook st) (gfx_out st) (serial_ready st).
Definition set_cap (st : tty) (c : capture) : tty :=
  mk_tty (scr st) c (sb st) (view st) (g_gfx_hook st) (gfx_out st) (serial_ready st).
Definition set_sb (st : tty) (h : history) : tty :=
  mk_tty (scr st) (cap st) h (view st) (g_gfx_hook st) (gfx_out st) (serial_ready st).
Definition set_view (st : tty) (v : viewer) : tty :=
  mk_tty (scr st) (cap st) (sb st) v (g_gfx_hook st) (gfx_out st) (serial_ready st).
Definition set_pos (s : screen) (row col : Z) : screen :=
  mk_scr row col (terminal_color s) (terminal_buffer s) (t_crtc s) (t_oob s) (t_serial s).
Definition set_cells (s : screen) (b : list Z) : screen :=
  mk_scr (terminal_row s) (terminal_column s) (terminal_color s) b (t_crtc s) (t_oob s) (t_serial s).

(** ** Hooks and capture *)

Definition terminal_set_gfx_hook (st : tty) (on : bool) : tty :=
  mk_tty (scr st) (cap st) (sb st) (view st) on (gfx_out st) (serial_ready st).

Definition terminal_begin_capture (st : tty) (buf : list Z) (max : Z) : tty := set_cap st (mk_cap (Some buf) 0 max).

(** The length captured and the caller's buffer as it is left. *)
Definition terminal_end_capture (st : tty) : tty * Z * option (list Z) :=
  let n := g_capture_len (cap st) in
  let buf :=
    match g_capture_buf (cap st) with
    | Some b => Some (if n <? g_capture_max (cap st) then aset b n 0 else b)
    | None => None
    end in
  (set_cap st (mk_cap None n 0), n, buf).

(** ** The screen *)

Definition vga_entry_color (fg bg : Z) : Z := u8 (fg |! Z.shiftl bg 4).
Definition vga_entry (uc color : Z) : Z := u16 (uc |! Z.shiftl color 8).
Definition blank (s : screen) : Z := vga_entry 32 (terminal_color s).
Definition blank_row (s : screen) : list Z := replicate 80 (blank s).

Definition terminal_putentryat (s : screen) (c color x y : Z) : screen :=
  let index := y *! VGA_WIDTH +! x in
  if index <? VGA_WIDTH * VGA_HEIGHT then set_cells s (aset (terminal_buffer s) index (vga_entry c color))
  else mk_scr (terminal_row s) (terminal_column s) (terminal_color s) (terminal_buffer s) (t_crtc s) true (t_serial s).

(** The cursor port receives the position; the cursor variables follow it. *)
Definition terminal_set_cursor (s : screen) (row col : Z) : screen :=
  let row := if VGA_HEIGHT <=? row then VGA_HEIGHT - 1 else row in
  let col := if VGA_WIDTH <=? col then VGA_WIDTH - 1 else col in
  mk_scr row col (terminal_color s) (terminal_buffer s) (u16 (row * VGA_WIDTH + col)) (t_oob s) (t_serial s).

Definition terminal_initialize (st : tty) : tty :=
  let color := vga_entry_color 7 0 in
  set_scr st (terminal_set_cursor
    (mk_scr 0 0 color (replicate 2000 (vga_entry 32 color)) (t_crtc (scr st)) (t_oob (scr st)) (t_serial (scr st))) 0 0).

Definition terminal_setcolor (st : tty) (color : Z) : tty :=
  let s := scr st in
  set_scr st (mk_scr (terminal_row s) (terminal_column s) color (terminal_buffer s) (t_crtc s) (t_oob s) (t_serial s)).

(** The top line goes to the history, the others move up one line. *)
Definition terminal_scroll (st : tty) : tty :=
  let s := scr st in
  let h := sb st in
  let h := mk_hist (aset (scrollback h) (sb_start h) (take 80 (terminal_buffer s)))
    ((sb_start h + 1) mod SCROLLBACK_LINES)
    (if sb_count h <? SCROLLBACK_LINES then sb_count h + 1 else sb_count h) in
  set_sb (set_scr st (set_cells s (drop 80 (terminal_buffer s) ++ blank_row s))) h.

(** ** Characters *)

(** Output that is captured moves the cursor variables but never scrolls. *)
Definition capped_next (row : Z) : Z := if row <? VGA_HEIGHT - 1 then row + 1 else row.
Definition captured_pos (row col c : Z) : Z * Z :=
  if c =? 10 then (capped_next row, 0)
  else if c =? 13 then (row, 0)
  else if c =? 9 then
    let col := (col +! 4) &! 0xFFFFFFFC in if VGA_WIDTH <=? col then (capped_next row, 0) else (row, col)
  else
    let col := col +! 1 in if col =? VGA_WIDTH then (capped_next row, 0) else (row, col).

Definition capture_char (st : tty) (b : list Z) (c : Z) : tty :=
  let k := cap st in
  let k := if g_capture_len k <? g_capture_max k - 1
    then mk_cap (Some (aset b (g_capture_len k) c)) (g_capture_len k + 1) (g_capture_max k) else k in
  let '(row, col) := captured_pos (terminal_row (scr st)) (terminal_column (scr st)) c in
  set_scr (set_cap st k) (set_pos (scr st) row col).

(** To the start of the next line, scrolling at the bottom. *)
Definition newline (st : tty) : tty :=
  let s := scr st in
  let row := terminal_row s +! 1 in
  let st := set_scr st (set_pos s row 0) in
  if row =? VGA_HEIGHT then
    let st := terminal_scroll st in set_scr st (set_pos (scr st) (VGA_HEIGHT - 1) 0)
  else st.

Definition sync_cursor (st : tty) : tty :=
  set_scr st (terminal_set_cursor (scr st) (terminal_row (scr st)) (terminal_column (scr st))).

Definition mirror (st : tty) (c : Z) : tty :=
  let s := scr st in
  if serial_ready st then
    set_scr st (mk_scr (terminal_row s) (terminal_column s) (terminal_color s) (terminal_buffer s) (t_crtc s) (t_oob s)
      (t_serial s ++ [c]))
  else st.

Definition screen_char (st : tty) (c : Z) : tty :=
  let st := mirror st c in
  let s := scr st in
  if c =? 10 then sync_cursor (newline st)
  else if c =? 13 then sync_cursor (set_scr st (set_pos s (terminal_row s) 0))
  else if c =? 9 then
    let col := (terminal_column s +! 4) &! 0xFFFFFFFC in
    let st := set_scr st (set_pos s (terminal_row s) col) in
    sync_cursor (if VGA_WIDTH <=? col then newline st else st)
  else if c =? 8 then
    if 0 <? terminal_column s then
      let s := set_pos s (terminal_row s) (terminal_column s - 1) in
      sync_cursor (set_scr st (terminal_putentryat s 32 (terminal_color s) (terminal_column s) (terminal_row s)))
    else st
  else
    let s := terminal_putentryat s c (terminal_color s) (terminal_column s) (terminal_row s) in
    let col := terminal_column s +! 1 in
    let st := set_scr st (set_pos s (terminal_row s) col) in
    sync_cursor (if col =? VGA_WIDTH then newline st else st).

Definition terminal_putchar (st : tty) (c : Z) : tty :=
  match g_capture_buf (cap st) with
  | Some b => capture_char st b c
  | None => screen_char st c
  end.

Definition terminal_write (st : tty) (data : list Z) : tty := fold_left terminal_putchar data st.

(** With the graphics hook the text goes to it instead. *)
Definition terminal_writestring (st : tty) (data : list Z) : tty :=
  if g_gfx_hook st then mk_tty (scr st) (cap st) (sb st) (view st) true (gfx_out st ++ [data]) (serial_ready st)
  else terminal_write st data.

(** ** Lines and cursor for the shell *)

Definition terminal_clear_line (st : tty) (row : Z) : tty :=
  if VGA_HEIGHT <=? row then st
  else
    let clear s col := terminal_putentryat s 32 (terminal_color s) col row in
    set_scr st (terminal_set_cursor (fold_left clear (seqZ 0 VGA_WIDTH) (scr st)) row 0).

Definition terminal_get_row (st : tty) : Z := terminal_row (scr st).
Definition terminal_get_column (st : tty) : Z := terminal_column (scr st).

Definition terminal_set_row (st : tty) (row : Z) : tty :=
  set_scr st (set_pos (scr st) (if VGA_HEIGHT <=? row then VGA_HEIGHT - 1 else row) 0).

Definition terminal_scroll_n (st : tty) (n : Z) : tty := Nat.iter (Z.to_nat n) terminal_scroll st.

(** ** The view of the history *)

(** Line [y] of the screen when the view is [k] lines back. *)
Definition render_row (st : tty) (k y : Z) : list Z :=
  let h := sb st in
  let seq := sb_count h - k + y in
  if seq <? sb_count h then
    let idx := Z.rem (sb_start h - sb_count h + seq) SCROLLBACK_LINES in
    let idx := if idx <? 0 then idx + SCROLLBACK_LINES else idx in
    aget [] (scrollback h) idx
  else
    let src_y := y - k in
    if (0 <=? src_y) && (src_y <? VGA_HEIGHT) && backup_valid (view st)
    then take 80 (drop (Z.to_nat (src_y * VGA_WIDTH)) (screen_backup (view st)))
    else blank_row (scr st).

Definition render_scrollback (st : tty) (k : Z) : tty :=
  set_scr st (set_cells (scr st) (concat (map (render_row st k) (seqZ 0 VGA_HEIGHT)))).

Definition terminal_scroll_reset (st : tty) : tty :=
  let v := view st in
  let st := if backup_valid v then set_scr st (set_cells (scr st) (screen_backup v)) else st in
  set_view st (mk_view 0 (screen_backup v) false).

Definition terminal_scroll_up (st : tty) : tty :=
  if sb_count (sb st) =? 0 then st
  else
    let v := view st in
    let v := if view_offset v =? 0 then mk_view 0 (terminal_buffer (scr st)) true else v in
    let off := if view_offset v <? sb_count (sb st) then view_offset v + 1 else view_offset v in
    render_scrollback (set_view st (mk_view off (screen_backup v) (backup_valid v))) off.

Definition terminal_scroll_down (st : tty) : tty :=
  let v := view st in
  if 0 <? view_offset v then
    let off := view_offset v - 1 in
    let st := set_view st (mk_view off (screen_backup v) (backup_valid v)) in
    if off =? 0 then terminal_scroll_reset st else render_scrollback st off
  else terminal_scroll_reset st.

Definition terminal_in_scrollback (st : tty) : bool := 0 <? view_offset (view st).

Definition tty_boot (ready : bool) : tty :=
  mk_tty (mk_scr 0 0 0 (replicate 2000 0) 0 false []) (mk_cap None 0 0) (mk_hist (replicate 100 (replicate 80 0)) 0 0)
    (mk_view 0 (replicate 2000 0) false) false [] ready.

(** ** Well-formed consoles *)

Definition cells_ok (s : screen) : Prop := length (terminal_buffer s) = 2000%nat /\ t_oob s = false.
Definition scr_ok (s : screen) : Prop :=
  cells_ok s /\ 0 <= terminal_row s < VGA_HEIGHT /\ 0 <= terminal_column s < VGA_WIDTH.
Definition sb_ok (h : history) : Prop :=
  length (scrollback h) = 100%nat /\ Forall (fun r : list Z => length r = 80%nat) (scrollback h)
  /\ 0 <= sb_start h < SCROLLBACK_LINES /\ 0 <= sb_count h <= SCROLLBACK_LINES.
Definition view_ok (v : viewer) (count : Z) : Prop :=
  length (screen_backup v) = 2000%nat /\ 0 <= view_offset v <= count /\ backup_valid v = (0 <? view_offset v).

Record tty_inv (st : tty) : Prop := {
  ti_scr : scr_ok (scr st);
  ti_sb : sb_ok (sb st);
  ti_view : view_ok (view st) (sb_count (sb st));
}.

Lemma tty_boot_inv ready : tty_inv (tty_boot ready).
Proof.
  constructor; [done | | done]. split; [done |]. split; [| done].
  change (Forall (fun r : list Z => length r = 80%nat) (replicate 100 (replicate 80 0))). apply Forall_replicate. done.
Qed.

(** The parts of the console an operation on the screen alone leaves. *)
Lemma set_scr_inv st s : tty_inv st -> scr_ok s -> tty_inv (set_scr st s).
Proof. intros [] ?. by constructor. Qed.

Lemma putentry_ok s c color x y : cells_ok s -> 0 <= x < VGA_WIDTH -> 0 <= y < VGA_HEIGHT ->
  let s' := terminal_putentryat s c color x y in
  cells_ok s' /\ terminal_row s' = terminal_row s /\ terminal_column s' = terminal_column s /\ terminal_color s' = terminal_color s.
Proof.
  unfold cells_ok, VGA_WIDTH, VGA_HEIGHT. intros [H1 H2] Hx Hy. unfold terminal_putentryat, VGA_WIDTH, VGA_HEIGHT.
  ured. destruct (Z.ltb_spec (y * 80 + x) (80 * 25)); [| lia]. cbn [set_cells terminal_buffer t_oob terminal_row terminal_column terminal_color].
  by rewrite length_aset.
Qed.

Lemma cursor_ok s row col : cells_ok s -> 0 <= row -> 0 <= col -> scr_ok (terminal_set_cursor s row col).
Proof.
  intros H ? ?. split; [exact H |]. unfold terminal_set_cursor, VGA_WIDTH, VGA_HEIGHT. cbn.
  destruct (Z.leb_spec 25 row), (Z.leb_spec 80 col); lia.
Qed.

Lemma cursor_same s row col : 0 <= row < VGA_HEIGHT -> 0 <= col < VGA_WIDTH ->
  terminal_set_cursor s row col =
  mk_scr row col (terminal_color s) (terminal_buffer s) (row * VGA_WIDTH + col) (t_oob s) (t_serial s).
Proof.
  unfold terminal_set_cursor, VGA_WIDTH, VGA_HEIGHT. intros. destruct (Z.leb_spec 25 row), (Z.leb_spec 80 col); try lia.
  f_equal. unfold u16. apply Z.mod_small. lia.
Qed.

(** ** Scrolling *)

(** The history, oldest line first, and the lines on the screen. *)
Definition hist (h : history) : list (list Z) :=
  map (fun i => aget [] (scrollback h) ((sb_start h - sb_count h + i) mod SCROLLBACK_LINES)) (seqZ 0 (sb_count h)).
Definition rows_of (b : list Z) : list (list Z) :=
  map (fun y => take 80 (drop (Z.to_nat (y * VGA_WIDTH)) b)) (seqZ 0 VGA_HEIGHT).

Lemma scroll_ok st : scr_ok (scr st) -> sb_ok (sb st) -> scr_ok (scr (terminal_scroll st)) /\ sb_ok (sb (terminal_scroll st)).
Proof.
  intros [[H1 H2] [H3 H4]] (H5 & H6 & H7 & H8). unfold terminal_scroll, set_sb, set_scr, set_cells. cbn [scr sb].
  split; repeat split; cbn [terminal_buffer t_oob terminal_row terminal_column scrollback sb_start sb_count]; try done; try lia.
  - rewrite length_app, length_drop, H1. unfold blank_row. by rewrite length_replicate.
  - by rewrite length_aset.
  - unfold aset. apply Forall_insert; [done |]. rewrite length_take. lia.
  - apply Z.mod_pos_bound. done.
  - apply Z.mod_pos_bound. done.
  - destruct (sb_count (sb st) <? _); lia.
  - unfold SCROLLBACK_LINES in *. destruct (Z.ltb_spec (sb_count (sb st)) 100); lia.
Qed.

Lemma scroll_view_ok st v : sb_ok (sb st) -> view_ok v (sb_count (sb st)) -> view_ok v (sb_count (sb (terminal_scroll st))).
Proof.
  intros _ (H1 & H2 & H3). repeat split; try done; [lia |]. unfold terminal_scroll. cbn.
  destruct (sb_count (sb st) <? _); lia.
Qed.

Lemma scroll_inv st : tty_inv st -> tty_inv (terminal_scroll st).
Proof. intros [A B C]. destruct (scroll_ok st A B). constructor; [done | done | by apply scroll_view_ok]. Qed.

Lemma hist_scroll h row : sb_ok h ->
  hist (mk_hist (aset (scrollback h) (sb_start h) row) ((sb_start h + 1) mod SCROLLBACK_LINES)
      (if sb_count h <? SCROLLBACK_LINES then sb_count h + 1 else sb_count h))
  = (if sb_count h <? SCROLLBACK_LINES then hist h else tail (hist h)) ++ [row].
Proof.
  intros (H1 & H2 & H3 & H4). unfold hist, SCROLLBACK_LINES in *. cbn [scrollback sb_start sb_count].
  set (n := if sb_count h <? 100 then sb_count h else 99).
  assert (Hn : (if sb_count h <? 100 then sb_count h + 1 else sb_count h) = n + 1 /\ 0 <= n < 100) by (unfold n; destruct (Z.ltb_spec (sb_count h) 100); lia).
  destruct Hn as [-> Hn]. rewrite map_seqZ_app by lia. f_equal.
  2:{ change (seqZ 0 1) with [0]. cbn [map]. f_equal. replace (((sb_start h + 1) mod 100 - (n + 1) + (n + 0)) mod 100) with (sb_start h).
      - apply aget_aset_eq. rewrite H1. lia.
      - Z.to_euclidean_division_equations. lia. }
  transitivity (map (fun i => aget [] (scrollback h) ((sb_start h - n + i) mod 100)) (seqZ 0 n)).
  - apply map_ext_in. intros i Hi. apply list_elem_of_In, elem_of_seqZ in Hi. rewrite aget_aset_ne.
    + f_equal. Z.to_euclidean_division_equations. lia.
    + lia.
    + apply Z.mod_pos_bound. done.
    + Z.to_euclidean_division_equations. lia.
  - unfold n. destruct (Z.ltb_spec (sb_count h) 100); [done |]. replace (sb_count h) with (1 + 99) by lia.
    rewrite map_seqZ_app by lia. change (seqZ 0 1) with [0]. cbn [map app tail]. apply map_ext. intros i. do 2 f_equal. lia.
Qed.

Lemma rows_of_scroll b r : length b = 2000%nat -> length r = 80%nat -> rows_of (drop 80 b ++ r) = tail (rows_of b) ++ [r].
Proof.
  intros Hb Hr. unfold rows_of, VGA_HEIGHT. change 25 with (24 + 1) at 1. rewrite map_seqZ_app by lia. f_equal.
  - change 25 with (1 + 24). rewrite map_seqZ_app by lia. change (seqZ 0 1) with [0]. cbn [map app tail].
    apply map_ext_in. intros y Hy. apply list_elem_of_In, elem_of_seqZ in Hy. unfold VGA_WIDTH.
    rewrite drop_app_le by (rewrite length_drop; lia). rewrite take_app_le by (rewrite !length_drop; lia).
    rewrite drop_drop. do 2 f_equal. lia.
  - change (seqZ 0 1) with [0]. cbn [map]. f_equal. unfold VGA_WIDTH. rewrite drop_app_ge by (rewrite length_drop; lia).
    rewrite length_drop, Hb. replace (Z.to_nat ((24 + 0) * 80) - (2000 - 80))%nat with 0%nat by lia. rewrite drop_0.
    apply firstn_all2. lia.
Qed.

(** A terminal that keeps its well-formed parts except for the cursor. *)
Lemma newline_inv st : tty_inv st -> tty_inv (newline st).
Proof.
  intros H. pose proof (ti_scr _ H) as [H1 [H2 H3]]. unfold newline. unfold VGA_HEIGHT in *.
  rewrite u32_small by (unfold is_u32; lia). assert (Hr : forall s r, cells_ok s -> 0 <= r < 25 -> scr_ok (set_pos s r 0)) by (intros s r ? ?; by split).
  destruct (Z.eqb_spec (terminal_row (scr st) + 1) 25) as [E | E].
  - set (st1 := set_scr st (set_pos (scr st) (terminal_row (scr st) + 1) 0)).
    assert (Hs : tty_inv (terminal_scroll st) /\ sb (terminal_scroll st1) = sb (terminal_scroll st)
      /\ view (terminal_scroll st1) = view (terminal_scroll st) /\ terminal_buffer (scr (terminal_scroll st1)) = terminal_buffer (scr (terminal_scroll st))
      /\ t_oob (scr (terminal_scroll st1)) = t_oob (scr (terminal_scroll st))) by (split; [by apply scroll_inv | done]).
    destruct Hs as ([A B C] & E1 & E2 & E3 & E4). constructor; [| exact B | exact C].
    cbn [scr set_scr]. apply Hr; [| lia]. destruct A as [[A1 A2] _]. split; cbn [terminal_buffer t_oob set_pos]; [by rewrite E3 | by rewrite E4].
  - apply set_scr_inv; [done |]. apply Hr; [done | lia].
Qed.

Lemma sync_inv st : tty_inv st -> tty_inv (sync_cursor st).
Proof. intros H. pose proof (ti_scr _ H) as [H1 [H2 H3]]. apply set_scr_inv; [done |]. apply cursor_ok; [done | lia | lia]. Qed.

Lemma mirror_inv st c : tty_inv st -> tty_inv (mirror st c).
Proof. intros H. unfold mirror. destruct (serial_ready st); [| done]. apply set_scr_inv; [done | apply H]. Qed.

Lemma set_col_inv st s col : tty_inv st -> cells_ok s -> terminal_row s = terminal_row (scr st) -> 0 <= col < VGA_WIDTH ->
  tty_inv (set_scr st (set_pos s (terminal_row s) col)).
Proof. intros H Hs E Hc. apply set_scr_inv; [done |]. split; [done |]. split; [| done]. cbn. rewrite E. apply (ti_scr _ H). Qed.

(** The start of a line does not depend on the column that was left. *)
Lemma newline_col st s col : newline (set_scr st (set_pos s (terminal_row s) col)) = newline (set_scr st s).
Proof. done. Qed.

Lemma tab_stop col : 0 <= col < VGA_WIDTH -> 0 <= (col +! 4) &! 0xFFFFFFFC <= 84.
Proof.
  unfold VGA_WIDTH. intros H. rewrite u32_small by (unfold is_u32; lia). change 0xFFFFFFFC with (2 ^ 32 - 2 ^ 2).
  rewrite land_high_mask by (unfold is_u32; lia). Z.to_euclidean_division_equations. lia.
Qed.

Lemma screen_char_inv st c : tty_inv st -> tty_inv (screen_char st c).
Proof.
  intros H0. unfold screen_char. pose proof (mirror_inv st c H0) as H. set (st1 := mirror st c) in *. clearbody st1. clear H0 st.
  pose proof (ti_scr _ H) as [H1 [H2 H3]]. destruct (c =? 10); [by apply sync_inv, newline_inv |].
  destruct (c =? 13); [by apply sync_inv, set_col_inv |].
  destruct (c =? 9).
  { pose proof (tab_stop _ H3). set (col := _ &! 0xFFFFFFFC) in *. apply sync_inv. destruct (Z.leb_spec VGA_WIDTH col).
    - rewrite newline_col. by apply newline_inv, set_scr_inv; [| apply H].
    - apply set_col_inv; (done || lia). }
  destruct (c =? 8).
  { destruct (Z.ltb_spec 0 (terminal_column (scr st1))); [| done]. apply sync_inv.
    set (s := set_pos _ _ _). destruct (putentry_ok s 32 (terminal_color s) (terminal_column s) (terminal_row s) H1) as (P1 & P2 & P3 & _);
      [cbn; lia | done |]. apply set_scr_inv; [done |]. split; [done |]. rewrite P2, P3. cbn. lia. }
  destruct (putentry_ok (scr st1) c (terminal_color (scr st1)) (terminal_column (scr st1)) (terminal_row (scr st1)) H1 H3 H2) as (P1 & P2 & P3 & _).
  set (s := terminal_putentryat _ _ _ _ _) in *. rewrite P3. unfold VGA_WIDTH in *. rewrite u32_small by (unfold is_u32; lia).
  apply sync_inv. destruct (Z.eqb_spec (terminal_column (scr st1) + 1) 80).
  - rewrite newline_col. apply newline_inv, set_scr_inv; [done |]. split; [done |]. by rewrite P2, P3.
  - apply set_col_inv; unfold VGA_WIDTH; (done || lia).
Qed.

Lemma captured_ok row col c : 0 <= row < VGA_HEIGHT -> 0 <= col < VGA_WIDTH ->
  let p := captured_pos row col c in 0 <= fst p < VGA_HEIGHT /\ 0 <= snd p < VGA_WIDTH.
Proof.
  intros Hr Hc. unfold captured_pos, capped_next. pose proof (tab_stop col Hc). unfold VGA_HEIGHT, VGA_WIDTH in *.
  set (tab := _ &! 0xFFFFFFFC) in *. rewrite u32_small by (unfold is_u32; lia).
  destruct (c =? 10), (c =? 13), (c =? 9), (Z.ltb_spec row (25 - 1)), (Z.leb_spec 80 tab), (Z.eqb_spec (col + 1) 80); cbn; lia.
Qed.

Lemma putchar_inv st c : tty_inv st -> tty_inv (terminal_putchar st c).
Proof.
  intros H. unfold terminal_putchar. destruct (g_capture_buf (cap st)) as [b |]; [| by apply screen_char_inv].
  unfold capture_char. pose proof (ti_scr _ H) as [H1 [H2 H3]]. pose proof (captured_ok _ _ c H2 H3) as Hp.
  destruct (captured_pos _ _ c) as [row col]. cbn in Hp. constructor; [| apply H | apply H]. by split.
Qed.

Lemma write_inv data : forall st, tty_inv st -> tty_inv (terminal_write st data).
Proof. induction data as [| c data IH]; intros st H; [done |]. apply IH, putchar_inv, H. Qed.

Lemma clear_fold_ok row l : forall s, cells_ok s -> 0 <= row < VGA_HEIGHT -> Forall (fun x => 0 <= x < VGA_WIDTH) l ->
  cells_ok (fold_left (fun s col => terminal_putentryat s 32 (terminal_color s) col row) l s).
Proof.
  induction l as [| x l IH]; intros s H Hr Hl; [done |]. apply Forall_cons in Hl as [Hx Hl].
  apply IH; [| done | done]. by apply putentry_ok.
Qed.

Lemma clear_line_inv st row : tty_inv st -> 0 <= row -> tty_inv (terminal_clear_line st row).
Proof.
  intros H Hr. unfold terminal_clear_line. destruct (Z.leb_spec VGA_HEIGHT row); [done |].
  apply set_scr_inv; [done |]. apply cursor_ok; [| lia | lia]. apply clear_fold_ok; [apply (ti_scr _ H) | lia |].
  apply Forall_forall. intros x Hx%elem_of_seqZ. unfold VGA_WIDTH in *. lia.
Qed.

Lemma set_row_inv st row : tty_inv st -> 0 <= row -> tty_inv (terminal_set_row st row).
Proof.
  intros H Hr. apply set_scr_inv; [done |]. split; [apply (ti_scr _ H) |]. cbn. unfold VGA_HEIGHT, VGA_WIDTH.
  destruct (Z.leb_spec 25 row); lia.
Qed.

Lemma scroll_n_inv st n : tty_inv st -> tty_inv (terminal_scroll_n st n).
Proof. intros H. unfold terminal_scroll_n. induction (Z.to_nat n); [done |]. by apply scroll_inv. Qed.

Lemma initialize_inv st : tty_inv st -> tty_inv (terminal_initialize st).
Proof.
  intros H. apply set_scr_inv; [done |]. apply cursor_ok; [| lia | lia]. split; [| apply (ti_scr _ H)].
  cbn [terminal_buffer]. apply length_replicate.
Qed.

(** ** The view *)

(** The lines a view of offset [k] shows: a window of 25 lines over the history
    followed by the screen. *)
Definition window (h : list (list Z)) (b : list Z) (k : Z) : list Z :=
  concat (take 25 (drop (length h - Z.to_nat k) (h ++ rows_of b))).

Lemma take_drop_map {A} (d : A) l a n : (Z.to_nat a + Z.to_nat n <= length l)%nat -> 0 <= a ->
  take (Z.to_nat n) (drop (Z.to_nat a) l) = map (fun y => aget d l (a + y)) (seqZ 0 n).
Proof.
  intros H Ha. apply list_eq_same_length with (n := Z.to_nat n).
  - by rewrite length_map, length_seqZ.
  - rewrite length_take, length_drop. lia.
  - intros i x y Hi. rewrite lookup_take_lt, lookup_drop by lia. rewrite list_lookup_fmap, lookup_seqZ_lt by lia. cbn.
    intros Hx [= <-]. symmetry. apply aget_lookup. rewrite <- Hx. f_equal. lia.
Qed.

Lemma length_rows b : length (rows_of b) = 25%nat.
Proof. unfold rows_of. by rewrite length_map, length_seqZ. Qed.
Lemma length_hist h : 0 <= sb_count h -> Z.of_nat (length (hist h)) = sb_count h.
Proof. intros. unfold hist. rewrite length_map, length_seqZ. lia. Qed.

Lemma aget_map_seqZ {A} (d : A) (f : Z -> A) n i : 0 <= i < n -> aget d (map f (seqZ 0 n)) i = f i.
Proof. intros. apply aget_lookup. rewrite list_lookup_fmap, lookup_seqZ_lt by lia. cbn. f_equal. f_equal. lia. Qed.

Lemma rows_concat b : length b = 2000%nat -> concat (rows_of b) = b.
Proof.
  intros H. unfold rows_of, VGA_HEIGHT. change 25 with (Z.of_nat 25).
  assert (G : forall n, (n <= 25)%nat -> concat (map (fun y => take 80 (drop (Z.to_nat (y * VGA_WIDTH)) b)) (seqZ 0 (Z.of_nat n))) = take (n * 80) b).
  { induction n as [| n IH]; intros Hn; [by rewrite take_0 |]. replace (Z.of_nat (S n)) with (Z.of_nat n + 1) by lia.
    rewrite map_seqZ_app by lia. change (seqZ 0 1) with [0]. rewrite concat_app, IH by lia. cbn [map concat]. rewrite app_nil_r.
    unfold VGA_WIDTH. replace (Z.to_nat ((Z.of_nat n + 0) * 80)) with (n * 80)%nat by lia.
    replace (S n * 80)%nat with (n * 80 + 80)%nat by lia. by rewrite <- take_take_drop. }
  rewrite G by lia. apply firstn_all2. lia.
Qed.

Lemma window_zero h b : length b = 2000%nat -> window h b 0 = b.
Proof.
  intros H. unfold window. rewrite Nat.sub_0_r, drop_app_length, firstn_all2 by (rewrite length_rows; lia). by apply rows_concat.
Qed.

(** A console whose view is [k] lines back from the console [st0]. *)
Definition viewing (st0 st : tty) (k : Z) : Prop :=
  sb st = sb st0 /\ view_offset (view st) = k /\ backup_valid (view st) = (0 <? k)
  /\ (0 < k -> screen_backup (view st) = terminal_buffer (scr st0))
  /\ terminal_buffer (scr st) = window (hist (sb st0)) (terminal_buffer (scr st0)) k.

Lemma rem_slot x : -100 <= x < 100 ->
  (let idx := Z.rem x SCROLLBACK_LINES in if idx <? 0 then idx + SCROLLBACK_LINES else idx) = x mod SCROLLBACK_LINES.
Proof. unfold SCROLLBACK_LINES. cbv zeta. intros. destruct (Z.ltb_spec (Z.rem x 100) 0); Z.to_euclidean_division_equations; lia. Qed.

Lemma render_window st0 st k : tty_inv st0 -> sb st = sb st0 -> backup_valid (view st) = true ->
  screen_backup (view st) = terminal_buffer (scr st0) -> 0 <= k <= sb_count (sb st0) ->
  concat (map (render_row st k) (seqZ 0 VGA_HEIGHT)) = window (hist (sb st0)) (terminal_buffer (scr st0)) k.
Proof.
  intros H E1 E2 E3 Hk. pose proof (ti_sb _ H) as (S1 & S2 & S3 & S4). unfold SCROLLBACK_LINES in S3, S4. unfold window. f_equal.
  set (h := sb st0) in *. pose proof (length_hist h ltac:(lia)) as Hl. set (b := terminal_buffer (scr st0)) in *.
  replace (length (hist h) - Z.to_nat k)%nat with (Z.to_nat (sb_count h - k)) by lia. change 25%nat with (Z.to_nat VGA_HEIGHT).
  rewrite (take_drop_map []); [| rewrite length_app, length_rows; unfold VGA_HEIGHT; lia | lia].
  apply map_ext_in. intros y Hy. apply list_elem_of_In, elem_of_seqZ in Hy. unfold VGA_HEIGHT in Hy.
  unfold render_row. rewrite E1. destruct (Z.ltb_spec (sb_count h - k + y) (sb_count h)).
  - rewrite rem_slot by lia. unfold aget at 2. rewrite app_nth1 by lia.
    change (nth (Z.to_nat (sb_count h - k + y)) (hist h) []) with (aget [] (hist h) (sb_count h - k + y)).
    unfold hist. by rewrite aget_map_seqZ by lia.
  - rewrite E2, E3. unfold VGA_HEIGHT. destruct (Z.leb_spec 0 (y - k)); [| lia]. destruct (Z.ltb_spec (y - k) 25); [| lia]. cbn [andb].
    unfold aget. rewrite app_nth2 by lia.
    replace (Z.to_nat (sb_count h - k + y) - length (hist h))%nat with (Z.to_nat (y - k)) by lia.
    change (nth (Z.to_nat (y - k)) (rows_of b) []) with (aget [] (rows_of b) (y - k)).
    unfold rows_of. by rewrite aget_map_seqZ by (unfold VGA_HEIGHT; lia).
Qed.

(** The offset after each key, and the operation of the key. *)
Inductive view_key := KUp | KDown | KReset.
Definition run_key (st : tty) (k : view_key) : tty :=
  match k with KUp => terminal_scroll_up st | KDown => terminal_scroll_down st | KReset => terminal_scroll_reset st end.
Definition spec_key (count v : Z) (k : view_key) : Z :=
  match k with KUp => Z.min (v + 1) count | KDown => Z.max (v - 1) 0 | KReset => 0 end.

Lemma reset_viewing st0 st v : tty_inv st0 -> viewing st0 st v -> 0 <= v -> viewing st0 (terminal_scroll_reset st) 0.
Proof.
  intros H (E1 & E2 & E3 & E4 & E5) Hv. destruct (ti_scr _ H) as [[Hb _] _]. unfold terminal_scroll_reset. rewrite E3.
  destruct (Z.ltb_spec 0 v).
  - repeat split; try done. cbn. rewrite E4 by done. by rewrite window_zero.
  - assert (v = 0) as -> by lia. repeat split; done.
Qed.

Lemma render_viewing st0 st v : tty_inv st0 -> sb st = sb st0 -> view_offset (view st) = v -> backup_valid (view st) = true ->
  screen_backup (view st) = terminal_buffer (scr st0) -> 0 < v <= sb_count (sb st0) -> viewing st0 (render_scrollback st v) v.
Proof.
  intros H E1 E2 E3 E4 Hv. split; [done |]. split; [done |]. split; [| split; [done |]].
  { transitivity true; [exact E3 | symmetry; apply Z.ltb_lt; lia]. }
  cbn [render_scrollback set_scr scr set_cells terminal_buffer]. apply render_window; (done || lia).
Qed.

Lemma key_viewing st0 st v k : tty_inv st0 -> viewing st0 st v -> 0 <= v <= sb_count (sb st0) ->
  viewing st0 (run_key st k) (spec_key (sb_count (sb st0)) v k).
Proof.
  intros H Hw Hv. pose proof Hw as (E1 & E2 & E3 & E4 & E5). destruct (ti_scr _ H) as [[Hb _] _].
  destruct k; cbn [run_key spec_key]; [| | by apply (reset_viewing st0 st v); [| | lia]].
  - unfold terminal_scroll_up. rewrite E1, E2. destruct (Z.eqb_spec (sb_count (sb st0)) 0) as [E | E].
    + by replace (Z.min (v + 1) (sb_count (sb st0))) with v by lia.
    + destruct (Z.eqb_spec v 0) as [-> | Hne]; cbn [view_offset screen_backup backup_valid]; rewrite ?E2.
      * destruct (Z.ltb_spec 0 (sb_count (sb st0))); [| lia]. replace (Z.min (0 + 1) (sb_count (sb st0))) with 1 by lia.
        apply render_viewing; try done; [| lia]. cbn. by rewrite E5, window_zero.
      * destruct (Z.ltb_spec v (sb_count (sb st0))).
        -- replace (Z.min (v + 1) (sb_count (sb st0))) with (v + 1) by lia.
           apply render_viewing; try done; cbn; [rewrite E3; apply Z.ltb_lt; lia | apply E4; lia | lia].
        -- replace (Z.min (v + 1) (sb_count (sb st0))) with v by lia.
           apply render_viewing; try done; cbn; [rewrite E3; apply Z.ltb_lt; lia | apply E4; lia | lia].
  - unfold terminal_scroll_down. rewrite E2. destruct (Z.ltb_spec 0 v).
    + destruct (Z.eqb_spec (v - 1) 0) as [E | E].
      * replace (Z.max (v - 1) 0) with 0 by lia. unfold terminal_scroll_reset. cbn [set_view view backup_valid screen_backup].
        rewrite E3. destruct (Z.ltb_spec 0 v); [| lia]. repeat split; try done. cbn. rewrite E4 by lia. by rewrite window_zero.
      * replace (Z.max (v - 1) 0) with (v - 1) by lia.
        apply render_viewing; try done; cbn; [apply E4; lia | lia].
    + replace (Z.max (v - 1) 0) with 0 by lia. apply (reset_viewing st0 st v); (done || lia).
Qed.

(** C24. Paging through the history shows the right lines: from a console with the
    view closed, after any sequence of the keys for one line up, one line down
    and back, the screen is the window of 25 lines, that many lines back, over
    the history followed by the screen that was saved, and closing the view
    restores that screen exactly. *)
Theorem tty_view_refines (st0 : tty) (keys : list view_key) (Hst : tty_inv st0) (Hclosed : view_offset (view st0) = 0) :
  let st := fold_left run_key keys st0 in
  let v := fold_left (spec_key (sb_count (sb st0))) keys 0 in
  terminal_buffer (scr st) = window (hist (sb st0)) (terminal_buffer (scr st0)) v
  /\ terminal_in_scrollback st = (0 <? v)
  /\ terminal_buffer (scr (terminal_scroll_reset st)) = terminal_buffer (scr st0).
Proof.
  pose proof (ti_sb _ Hst) as (_ & _ & _ & Hc). destruct (ti_scr _ Hst) as [[Hb _] _]. destruct (ti_view _ Hst) as (_ & _ & Hvalid).
  assert (G : forall keys st v, viewing st0 st v -> 0 <= v <= sb_count (sb st0) ->
    viewing st0 (fold_left run_key keys st) (fold_left (spec_key (sb_count (sb st0))) keys v)
    /\ 0 <= fold_left (spec_key (sb_count (sb st0))) keys v <= sb_count (sb st0)).
  { clear keys. induction keys as [| k keys IH]; intros st v Hw Hv; [by split |]. cbn [fold_left]. apply IH; [by apply key_viewing |].
    destruct k; cbn [spec_key]; lia. }
  destruct (G keys st0 0) as [Hw Hv]; [| lia |].
  { repeat split; [done | by rewrite Hvalid, Hclosed | lia | by rewrite window_zero]. }
  set (st := fold_left run_key keys st0) in *. set (v := fold_left (spec_key _) keys 0) in *. cbv zeta.
  destruct (reset_viewing st0 st v Hst Hw ltac:(lia)) as (_ & _ & _ & _ & E). destruct Hw as (_ & E2 & _ & _ & E5).
  split; [done |]. split; [unfold terminal_in_scrollback; by rewrite E2 |]. by rewrite E, window_zero.
Qed.

Lemma render_length st k : tty_inv st -> 0 <= k <= sb_count (sb st) ->
  length (concat (map (render_row st k) (seqZ 0 VGA_HEIGHT))) = 2000%nat.
Proof.
  intros H Hk. destruct (ti_sb _ H) as (S1 & S2 & S3 & S4). destruct (ti_view _ H) as (V1 & V2 & V3). unfold SCROLLBACK_LINES in S3, S4.
  assert (Hrow : forall y, 0 <= y < 25 -> length (render_row st k y) = 80%nat).
  { intros y Hy. unfold render_row. destruct (Z.ltb_spec (sb_count (sb st) - k + y) (sb_count (sb st))).
    - rewrite rem_slot by lia. set (i := _ mod SCROLLBACK_LINES). assert (Hi : 0 <= i < 100) by (apply Z.mod_pos_bound; done).
      rewrite Forall_lookup in S2. apply (S2 (Z.to_nat i)). apply lookup_aget. rewrite S1. lia.
    - destruct ((0 <=? y - k) && (y - k <? VGA_HEIGHT) && backup_valid (view st)) eqn:E; [| done].
      apply andb_true_iff in E as [E _]. unfold VGA_HEIGHT, VGA_WIDTH in *. btrue. rewrite length_take, length_drop, V1. lia. }
  unfold VGA_HEIGHT. change 2000%nat with (length (seqZ 0 25) * 80)%nat.
  assert (Hl : Forall (fun y => 0 <= y < 25) (seqZ 0 25)) by (apply Forall_forall; intros y Hy%elem_of_seqZ; lia).
  induction Hl as [| y l Hy _ IH]; [done |]. cbn [map concat length]. rewrite length_app, IH, Hrow by done. lia.
Qed.

Lemma render_inv st k : tty_inv st -> 0 <= k <= sb_count (sb st) -> tty_inv (render_scrollback st k).
Proof.
  intros H Hk. apply set_scr_inv; [done |]. destruct (ti_scr _ H) as [[H1 H2] H3]. split; [| done]. split; [| done].
  cbn [set_cells terminal_buffer]. by apply render_length.
Qed.

Lemma set_view_inv st v : tty_inv st -> view_ok v (sb_count (sb st)) -> tty_inv (set_view st v).
Proof. intros [] ?. by constructor. Qed.

Lemma reset_inv st : tty_inv st -> tty_inv (terminal_scroll_reset st).
Proof.
  intros H. destruct (ti_view _ H) as (V1 & V2 & V3). destruct (ti_scr _ H) as [[H1 H2] H3]. unfold terminal_scroll_reset.
  apply set_view_inv.
  - destruct (backup_valid (view st)); [| done]. by apply set_scr_inv.
  - destruct (backup_valid (view st)); (split; [done | split; [cbn; lia | done]]).
Qed.

Lemma up_inv st : tty_inv st -> tty_inv (terminal_scroll_up st).
Proof.
  intros H. destruct (ti_view _ H) as (V1 & V2 & V3). destruct (ti_scr _ H) as [[H1 H2] H3]. unfold terminal_scroll_up.
  destruct (Z.eqb_spec (sb_count (sb st)) 0); [done |].
  assert (Hv : forall o b v, 0 < o <= sb_count (sb st) -> length b = 2000%nat -> v = true -> tty_inv (render_scrollback (set_view st (mk_view o b v)) o)).
  { intros o b v Ho Hb ->. apply render_inv; [| cbn; lia]. apply set_view_inv; [done |].
    split; [done |]. split; [cbn; lia |]. symmetry. apply Z.ltb_lt. cbn. lia. }
  destruct (Z.eqb_spec (view_offset (view st)) 0) as [E | E]; cbn [view_offset screen_backup backup_valid];
    (match goal with |- context [?a <? ?b] => destruct (Z.ltb_spec a b) end); apply Hv; try done; try lia;
    rewrite V3; apply Z.ltb_lt; lia.
Qed.

Lemma down_inv st : tty_inv st -> tty_inv (terminal_scroll_down st).
Proof.
  intros H. destruct (ti_view _ H) as (V1 & V2 & V3). unfold terminal_scroll_down.
  destruct (Z.ltb_spec 0 (view_offset (view st))) as [Hp |]; [| by apply reset_inv].
  destruct (Z.eqb_spec (view_offset (view st) - 1) 0) as [E | E].
  - rewrite E. destruct (ti_scr _ H) as [[H1 H2] H3]. unfold terminal_scroll_reset. cbn [set_view view backup_valid screen_backup].
    rewrite V3. destruct (ti_sb _ H) as (_ & _ & _ & Hc). destruct (Z.ltb_spec 0 (view_offset (view st))); [| lia].
    constructor; [by split | apply H |]. split; [done |]. split; [cbn; lia | done].
  - apply render_inv; [| cbn; lia]. apply set_view_inv; [done |]. split; [done |]. split; [cbn; lia |]. cbn.
    rewrite V3. destruct (Z.ltb_spec 0 (view_offset (view st))), (Z.ltb_spec 0 (view_offset (view st) - 1)); (done || lia).
Qed.

(** ** Every operation of the console *)

Inductive tty_op :=
  | OInit | OPut (c : Z) | OWrite (data : list Z) | OString (data : list Z) | OColor (color : Z) | OCursor (row col : Z)
  | OClearLine (row : Z) | OSetRow (row : Z) | OScroll (n : Z) | OBegin (buf : list Z) (max : Z) | OEnd | OHook (on : bool)
  | OKey (k : view_key).

Definition op_args_ok (o : tty_op) : Prop :=
  match o with
  | OCursor row col => is_u32 row /\ is_u32 col
  | OClearLine row | OSetRow row => is_u32 row
  | _ => True
  end.

Definition run_op (st : tty) (o : tty_op) : tty :=
  match o with
  | OInit => terminal_initialize st
  | OPut c => terminal_putchar st c
  | OWrite data => terminal_write st data
  | OString data => terminal_writestring st data
  | OColor color => terminal_setcolor st color
  | OCursor row col => set_scr st (terminal_set_cursor (scr st) row col)
  | OClearLine row => terminal_clear_line st row
  | OSetRow row => terminal_set_row st row
  | OScroll n => terminal_scroll_n st n
  | OBegin buf max => terminal_begin_capture st buf max
  | OEnd => fst (fst (terminal_end_capture st))
  | OHook on => terminal_set_gfx_hook st on
  | OKey k => run_key st k
  end.

Lemma run_op_inv st o : tty_inv st -> op_args_ok o -> tty_inv (run_op st o).
Proof.
  intros H Ho. destruct o as [| c | data | data | color | row col | row | row | n | buf max | | on | k]; cbn [run_op].
  - by apply initialize_inv.
  - by apply putchar_inv.
  - by apply write_inv.
  - unfold terminal_writestring. destruct (g_gfx_hook st); [| by apply write_inv]. by destruct H.
  - destruct H as [H1 H2 H3]. by constructor.
  - destruct Ho as [[? _] [? _]]. apply set_scr_inv; [done |]. apply cursor_ok; [apply (ti_scr _ H) | done | done].
  - apply clear_line_inv; [done | apply Ho].
  - apply set_row_inv; [done | apply Ho].
  - by apply scroll_n_inv.
  - by destruct H.
  - by destruct H.
  - by destruct H.
  - destruct k; [by apply up_inv | by apply down_inv | by apply reset_inv].
Qed.


Lemma tty_view_refines_witness :
  terminal_buffer (scr (fold_left run_key [KUp; KUp; KDown] (terminal_scroll_n (tty_boot true) 3)))
  = window (hist (sb (terminal_scroll_n (tty_boot true) 3))) (terminal_buffer (scr (terminal_scroll_n (tty_boot true) 3))) 1.
Proof.
  apply (tty_view_refines (terminal_scroll_n (tty_boot true) 3) [KUp; KUp; KDown]);
    [apply scroll_n_inv, tty_boot_inv | done].
Defined.

(** ** Scrolling and capture *)

Lemma rows_head b : rows_of b = take 80 b :: tail (rows_of b).
Proof. unfold rows_of, VGA_HEIGHT. change 25 with (1 + 24). rewrite map_seqZ_app by lia. done. Qed.

(** Scrolling by one line is exact on the history followed by the screen: one
    blank line is added at the end, and the oldest line is lost only when 100
    lines of history are already kept. *)
Theorem tty_scroll_history (st : tty) (Hst : tty_inv st) :
  let st' := terminal_scroll st in
  let all := hist (sb st) ++ rows_of (terminal_buffer (scr st)) in
  hist (sb st') ++ rows_of (terminal_buffer (scr st'))
  = (if sb_count (sb st) <? SCROLLBACK_LINES then all else tail all) ++ [blank_row (scr st)].
Proof.
  destruct (ti_scr _ Hst) as [[Hb _] _]. pose proof (ti_sb _ Hst) as Hs. cbv zeta.
  cbn [terminal_scroll set_sb set_scr sb scr set_cells terminal_buffer]. rewrite hist_scroll by done.
  rewrite rows_of_scroll by done. rewrite (rows_head (terminal_buffer (scr st))). cbn [tail].
  destruct (Z.ltb_spec (sb_count (sb st)) SCROLLBACK_LINES) as [Hlt | Hge]; [by rewrite <- !app_assoc |].
  destruct (hist (sb st)) as [| r h] eqn:E; [| cbn [tail app]; by rewrite <- !app_assoc].
  destruct Hs as (_ & _ & _ & Hc). pose proof (length_hist (sb st) ltac:(lia)) as Hl. rewrite E in Hl. cbn in Hl.
  unfold SCROLLBACK_LINES in Hge. lia.
Qed.
Lemma tty_scroll_history_witness :
  hist (sb (terminal_scroll (tty_boot true))) ++ rows_of (terminal_buffer (scr (terminal_scroll (tty_boot true))))
  = (hist (sb (tty_boot true)) ++ rows_of (terminal_buffer (scr (tty_boot true)))) ++ [blank_row (scr (tty_boot true))].
Proof. apply (tty_scroll_history (tty_boot true) (tty_boot_inv true)). Defined.

(** Output captured into a buffer of [max] bytes: as much of the text as fits, and
    a terminating zero; the screen is untouched. *)
Lemma capture_text text : forall st b len max, tty_inv st -> cap st = mk_cap (Some b) len max ->
  Z.of_nat (length b) = max -> 0 <= len < max ->
  let st' := terminal_write st text in
  exists b', cap st' = mk_cap (Some b') (Z.min (len + Z.of_nat (length text)) (max - 1)) max
  /\ Z.of_nat (length b') = max
  /\ take (Z.to_nat (Z.min (len + Z.of_nat (length text)) (max - 1))) b' = take (Z.to_nat (max - 1)) (take (Z.to_nat len) b ++ text)
  /\ terminal_buffer (scr st') = terminal_buffer (scr st).
Proof.
  induction text as [| c text IH]; intros st b len max H Hc Hb Hl; cbv zeta.
  - exists b. cbn [terminal_write fold_left length]. rewrite Z.add_0_r, app_nil_r, Z.min_l by lia. split_and!; try done.
    rewrite take_take. f_equal. lia.
  - cbn [terminal_write fold_left]. fold (terminal_write (terminal_putchar st c) text).
    assert (Hput : exists s, terminal_putchar st c = set_scr (set_cap st
      (if len <? max - 1 then mk_cap (Some (aset b len c)) (len + 1) max else mk_cap (Some b) len max)) s
      /\ terminal_buffer s = terminal_buffer (scr st)).
    { unfold terminal_putchar, capture_char. rewrite Hc. cbn [g_capture_buf g_capture_len g_capture_max].
      destruct (captured_pos _ _ c) as [row col]. by eexists. }
    destruct Hput as (s & E & Es). pose proof (putchar_inv st c H) as Hi. rewrite E in Hi |- *. cbn [length].
    destruct (Z.ltb_spec len (max - 1)).
    + destruct (IH _ (aset b len c) (len + 1) max Hi eq_refl) as (b' & E1 & E2 & E3 & E4); [by rewrite length_aset | lia |].
      exists b'. replace (len + Z.of_nat (S (length text))) with (len + 1 + Z.of_nat (length text)) by lia.
      split_and!; [done | done | | by rewrite E4]. rewrite E3. f_equal.
      replace (Z.to_nat (len + 1)) with (S (Z.to_nat len)) by lia. unfold aset.
      rewrite (take_S_r _ _ c) by (rewrite list_lookup_insert_eq; [done | lia]).
      rewrite take_insert_ge by lia. by rewrite <- app_assoc.
    + destruct (IH _ b len max Hi eq_refl Hb ltac:(lia)) as (b' & E1 & E2 & E3 & E4). exists b'.
      assert (len = max - 1) as -> by lia. rewrite !Z.min_r in * by lia. split_and!; [done | done | | by rewrite E4].
      rewrite E3. rewrite !take_app_le by (rewrite length_take; lia). done.
Qed.

(** Capturing output returns it: with a buffer of [max] bytes, the text written
    between the begin and the end of a capture comes back, cut to [max - 1] bytes
    and followed by a zero, and the screen does not change. *)
Theorem capture_roundtrip (st : tty) (buf text : list Z) (Hst : tty_inv st) (Hbuf : (1 <= length buf)%nat) :
  let n := Z.min (Z.of_nat (length text)) (Z.of_nat (length buf) - 1) in
  exists st' b', terminal_end_capture (terminal_write (terminal_begin_capture st buf (Z.of_nat (length buf))) text) = (st', n, Some b')
  /\ take (Z.to_nat n) b' = take (Z.to_nat n) text /\ b' !! Z.to_nat n = Some 0 /\ length b' = length buf
  /\ terminal_buffer (scr st') = terminal_buffer (scr st).
Proof.
  set (max := Z.of_nat (length buf)). cbv zeta. set (st1 := terminal_begin_capture st buf max).
  assert (H1 : tty_inv st1) by (by destruct Hst).
  destruct (capture_text text st1 buf 0 max H1 eq_refl eq_refl ltac:(lia)) as (b & E1 & E2 & E3 & E4). rewrite Z.add_0_l in E1, E3.
  set (n := Z.min (Z.of_nat (length text)) (max - 1)) in *. unfold terminal_end_capture. rewrite E1. cbn [g_capture_len g_capture_max g_capture_buf].
  destruct (Z.ltb_spec n max); [| lia]. do 2 eexists. split; [reflexivity |]. unfold aset. split_and!.
  - rewrite take_insert_ge by lia. rewrite E3, take_0. cbn [app]. unfold n. destruct (Z.le_gt_cases (Z.of_nat (length text)) (max - 1)).
    + rewrite Z.min_l by lia. rewrite !firstn_all2 by lia. done.
    + by rewrite Z.min_r by lia.
  - apply list_lookup_insert_eq. lia.
  - rewrite length_insert. lia.
  - exact E4.
Qed.
Lemma capture_roundtrip_witness :
  exists st' b', terminal_end_capture (terminal_write (terminal_begin_capture (tty_boot true) (replicate 4 7) 4) (bytes "hello")) = (st', 3, Some b')
  /\ take 3 b' = bytes "hel".
Proof.
  destruct (capture_roundtrip (tty_boot true) (replicate 4 7) (bytes "hello") (tty_boot_inv true)) as (st' & b' & E & E2 & _); [cbn; lia |].
  exists st', b'. split; [exact E | exact E2].
Defined.
