(* ===== verification/Calc.v ===== *)
(** * Calc: the floating-point calculator of the shell ([kernel/calc.c])

    The recursive-descent parser that evaluates as it reads, over an interface of
    [double] operations; [sf64] implements the interface by IEEE 754 binary64
    arithmetic with round to nearest.  (The processor's x87 unit may keep more
    precision between operations; the theorems that name no instance hold for
    any arithmetic.)  The text is the list of bytes before the terminating zero,
    and reading at its end gives that zero. *)

From Stdlib Require Import SpecFloat.
From S2P Require Import Prelude.

(** ** Double arithmetic *)

(** [dlit m e] is the literal m * 10^e, [d_to_long] the conversion to a 32-bit
    [long]. *)
Class Double (D : Type) := {
  dlit : Z -> Z -> D;
  d_of_int : Z -> D;
  d_to_long : D -> Z;
  dadd : D -> D -> D;
  dsub : D -> D -> D;
  dmul : D -> D -> D;
  ddiv : D -> D -> D;
  dneg : D -> D;
  dlt : D -> D -> bool;
  dle : D -> D -> bool;
  deq : D -> D -> bool;
}.

Inductive fn := FSqrt | FSin | FCos | FTan | FExp | FLog10 | FLn | FFabs | FFloor | FCeil | FRound.

(** How an evaluation ends: a value and the rest of the text, an error message,
    a loop of a mathematical function that did not end within its bound, or the
    recursion bound of the parser. *)
Inductive pres (A : Type) := POk (v : A) (s : list Z) | PErr (msg : string) | PHang | POut.
Arguments POk {A}.
Arguments PErr {A}.
Arguments PHang {A}.
Arguments POut {A}.

Definition pbind {A B} (r : pres A) (k : A -> list Z -> pres B) : pres B :=
  match r with POk v s => k v s | PErr m => PErr m | PHang => PHang | POut => POut end.
Notation "'do' v 'and' s '<~' r ';;' k" := (pbind r (fun v s => k))
  (at level 200, v name, s name, r at level 99, k at level 200, only parsing).

(** ** Characters *)

Definition is_alpha (c : Z) : bool := ((97 <=? c) && (c <=? 122)) || ((65 <=? c) && (c <=? 90)).
Definition is_digit (c : Z) : bool := (48 <=? c) && (c <=? 57).
Definition is_blank (c : Z) : bool := (c =? 32) || (c =? 9).

(** [s[0]] *)
Definition hd0 (s : list Z) : Z := match s with [] => 0 | c :: _ => c end.

(** The longest prefix of characters that satisfy a test, and the rest. *)
Fixpoint span (p : Z -> bool) (s : list Z) : list Z * list Z :=
  match s with
  | [] => ([], [])
  | c :: s' => if p c then let '(a, b) := span p s' in (c :: a, b) else ([], s)
  end.
Definition skip_ws (s : list Z) : list Z := snd (span is_blank s).

(** The loop over the decimal digits of an exponent, an [int64_t]. *)
Definition s64 (x : Z) : Z := let v := u64 x in if v <? 2 ^ 63 then v else v - 2 ^ 64.
Definition expo_of (ds : list Z) : Z := fold_left (fun e c => s64 (e * 10 + (c - 48))) ds 0.

(** The text of a number: integer digits, fraction digits, exponent. *)
Record num_tok := mk_num { n_int : list Z; n_frac : list Z; n_expo : Z; n_rest : list Z }.

Definition scan_expo (d : list Z) : Z * list Z :=
  match d with
  | c :: e =>
      if (c =? 101) || (c =? 69) then
        let '(neg, e1) := match e with
          | c1 :: e' => if (c1 =? 43) || (c1 =? 45) then (c1 =? 45, e') else (false, e)
          | [] => (false, e) end in
        if is_digit (hd0 e1) then
          let '(ds, rest) := span is_digit e1 in
          let expo := expo_of ds in
          ((if neg : bool then s64 (- expo) else expo), rest)
        else (0, d)
      else (0, d)
  | [] => (0, d)
  end.

Definition scan_num (s : list Z) : num_tok :=
  let '(ip, d) := span is_digit s in
  let '(fp, d) := match d with 46 :: d' => span is_digit d' | _ => ([], d) end in
  let '(expo, rest) := scan_expo d in
  mk_num ip fp expo rest.

Definition fn_table : list (string * fn) :=
  [("sqrt", FSqrt); ("sin", FSin); ("cos", FCos); ("tan", FTan); ("exp", FExp); ("log", FLog10); ("ln", FLn);
   ("abs", FFabs); ("fabs", FFabs); ("floor", FFloor); ("ceil", FCeil); ("round", FRound)]%string.

Definition find_fn (w : list Z) : option fn :=
  match find (fun p : string * fn => bool_decide (bytes (fst p) = w)) fn_table with
  | Some (_, f) => Some f
  | None => None
  end.

Section Calc.
Context {D : Type} {DD : Double D}.

(** ** Mathematical functions

    [mf] bounds the loops that scale the argument. *)

Definition c_fabs (x : D) : D := if dlt x (d_of_int 0) then dneg x else x.

Fixpoint sqrt_loop (i : nat) (x r : D) : D :=
  match i with
  | O => r
  | S i' =>
      let r' := dmul (dlit 5 (-1)) (dadd r (ddiv x r)) in
      if dle (c_fabs (dsub r' r)) (dmul (dlit 1 (-15)) (c_fabs r')) then r' else sqrt_loop i' x r'
  end.
Definition c_nan : D := ddiv (d_of_int 0) (d_of_int 0).
Definition c_sqrt (x : D) : D :=
  if dlt x (d_of_int 0) then c_nan
  else if deq x (d_of_int 0) then d_of_int 0 else sqrt_loop 60 x x.

(** [while (p x) { x = f x; n += dn; }] *)
Fixpoint scale_while (mf : nat) (p : D -> bool) (f : D -> D) (dn : Z) (x : D) (n : Z) : option (D * Z) :=
  if p x then match mf with O => None | S mf' => scale_while mf' p f dn (f x) (n + dn) end else Some (x, n).
Definition half (x : D) : D := dmul x (dlit 5 (-1)).
Definition twice (x : D) : D := dmul x (d_of_int 2).

Definition c_exp (mf : nat) (x : D) : option D :=
  '(x, n) ← scale_while mf (dlt (d_of_int 1)) half 1 x 0;
  '(x, n) ← scale_while mf (fun x => dlt x (d_of_int (-1))) half 1 x n;
  let step (ts : D * D) i := let term := dmul (fst ts) (ddiv x (d_of_int i)) in (term, dadd (snd ts) term) in
  let sum := snd (fold_left step (seqZ 1 29) (d_of_int 1, d_of_int 1)) in
  Some (Nat.iter (Z.to_nat n) (fun s => dmul s s) sum).

Definition c_ln (mf : nat) (x : D) : option D :=
  if dle x (d_of_int 0) then Some c_nan
  else
    '(x, k) ← scale_while mf (dle (d_of_int 1)) half 1 x 0;
    '(x, k) ← scale_while mf (fun x => dlt x (dlit 5 (-1))) twice (-1) x k;
    let u := dsub x (d_of_int 1) in
    let step (ts : D * D) i :=
      let sum := dadd (snd ts) (ddiv (fst ts) (d_of_int (if Z.odd i then i else - i))) in (dmul (fst ts) u, sum) in
    let sum := snd (fold_left step (seqZ 1 39) (u, d_of_int 0)) in
    Some (dadd sum (dmul (dlit 6931471805599453094 (-19)) (d_of_int k))).

Definition c_log10 (mf : nat) (x : D) : option D :=
  l ← c_ln mf x; Some (ddiv l (dlit 2302585092994045684 (-18))).

Definition PI : D := dlit 314159265358979323846 (-20).
Definition c_sin (x : D) : D :=
  let two_pi := dmul (d_of_int 2) PI in
  let x := dsub x (dmul (d_of_int (d_to_long (ddiv x two_pi))) two_pi) in
  let x := if dlt x (d_of_int 0) then dadd x two_pi else x in
  let '(x, sign) := if dlt PI x then (dsub x PI, -1) else (x, 1) in
  let '(x, sign) := if dlt (ddiv PI (d_of_int 2)) x then (dsub PI x, - sign) else (x, sign) in
  let step (ts : D * D) i :=
    let term := dmul (fst ts) (ddiv (dmul (dneg x) x) (d_of_int ((i - 1) * i))) in (term, dadd (snd ts) term) in
  let sum := snd (fold_left step [3; 5; 7; 9; 11; 13] (x, x)) in
  if sign <? 0 then dneg sum else sum.

Definition c_cos (x : D) : D := c_sin (dadd x (dlit 157079632679489661923 (-20))).
Definition c_tan (x : D) : D :=
  let c := c_cos x in
  if deq c (d_of_int 0) then dmul (dlit 1 308) (d_of_int 10) else ddiv (c_sin x) c.

Definition c_floor (x : D) : D :=
  let i := d_to_long x in
  let i := if dlt x (d_of_int 0) && negb (deq (d_of_int i) x) then s32 (i - 1) else i in
  d_of_int i.
Definition c_ceil (x : D) : D := dneg (c_floor (dneg x)).
Definition c_round (x : D) : D :=
  if dlt x (d_of_int 0) then dneg (c_floor (dadd (dneg x) (dlit 5 (-1)))) else c_floor (dadd x (dlit 5 (-1))).

Definition c_pow (mf : nat) (b e : D) : option D :=
  if deq b (d_of_int 0) then Some (if deq e (d_of_int 0) then d_of_int 1 else d_of_int 0)
  else if dlt b (d_of_int 0) then
    let ie := d_to_long e in
    if deq (d_of_int ie) e then
      l ← c_ln mf (dneg b); r ← c_exp mf (dmul l e); Some (if Z.odd ie then dneg r else r)
    else Some c_nan
  else l ← c_ln mf b; c_exp mf (dmul l e).

Definition apply_fn (mf : nat) (f : fn) (v : D) : option D :=
  match f with
  | FSqrt => Some (c_sqrt v)
  | FSin => Some (c_sin v)
  | FCos => Some (c_cos v)
  | FTan => Some (c_tan v)
  | FExp => c_exp mf v
  | FLog10 => c_log10 mf v
  | FLn => c_ln mf v
  | FFabs => Some (c_fabs v)
  | FFloor => Some (c_floor v)
  | FCeil => Some (c_ceil v)
  | FRound => Some (c_round v)
  end.

(** ** The parser *)

(** The value of a number. *)
Definition digit (c : Z) : D := d_of_int (c - 48).
Definition int_value (ip : list Z) : D := fold_left (fun v c => dadd (dmul v (d_of_int 10)) (digit c)) ip (d_of_int 0).
Definition frac_value (v : D) (fp : list Z) : D :=
  fst (fold_left (fun '(v, scale) c => (dadd v (dmul (digit c) scale), dmul scale (dlit 1 (-1)))) fp (v, dlit 1 (-1))).
Definition num_value (ip fp : list Z) (expo : Z) : D :=
  let v := frac_value (int_value ip) fp in
  if 0 <? expo then Nat.iter (Z.to_nat expo) (fun v => dmul v (d_of_int 10)) v
  else Nat.iter (Z.to_nat (- expo)) (fun v => ddiv v (d_of_int 10)) v.

Definition of_opt (o : option D) (s : list Z) : pres D := match o with Some v => POk v s | None => PHang end.

Definition p_number (s : list Z) : pres D :=
  let t := scan_num s in
  match n_int t ++ n_frac t with
  | [] => PErr "expected a number"
  | _ => POk (num_value (n_int t) (n_frac t) (n_expo t)) (n_rest t)
  end.

(** What follows an opening parenthesis, up to the closing one. *)
Definition p_close (r : pres D) : pres D :=
  do v and s <~ r;;
  match skip_ws s with
  | 41 :: s' => POk v s'
  | _ => PErr "expected ')'"
  end.

Definition p_word (expr : list Z -> pres D) (mf : nat) (w s : list Z) : pres D :=
  if bool_decide (w = bytes "pi") then POk PI s
  else if bool_decide (w = bytes "e") then POk (dlit 271828182845904523536 (-20)) s
  else
    match find_fn w with
    | None =>
        if bool_decide (w = bytes "pow") then PErr "pow(a,b) is written as a^b" else PErr "unknown function or constant"
    | Some f =>
        match skip_ws s with
        | 40 :: s' => do v and s'' <~ p_close (expr s');; of_opt (apply_fn mf f v) s''
        | _ => PErr "expected '(' after function name"
        end
    end.

Definition p_primary_with (expr : list Z -> pres D) (mf : nat) (s : list Z) : pres D :=
  let s := skip_ws s in
  match s with
  | 40 :: s' => p_close (expr s')
  | _ => if is_alpha (hd0 s) then let '(w, s') := span is_alpha s in p_word expr mf w s' else p_number s
  end.

Definition term_op (op : Z) (v r : D) : string + D :=
  if op =? 42 then inr (dmul v r)
  else if op =? 47 then if deq r (d_of_int 0) then inl "division by zero"%string else inr (ddiv v r)
  else if deq r (d_of_int 0) then inl "modulo by zero"%string else inr (dsub v (dmul (c_floor (ddiv v r)) r)).
Definition expr_op (op : Z) (v r : D) : string + D := inr (if op =? 43 then dadd v r else dsub v r).
Definition is_term_op (c : Z) : bool := (c =? 42) || (c =? 47) || (c =? 37).
Definition is_expr_op (c : Z) : bool := (c =? 43) || (c =? 45).

(** The loop over the operators of one level. *)
Fixpoint op_loop (fuel : nat) (isop : Z -> bool) (apply : Z -> D -> D -> string + D) (operand : list Z -> pres D)
    (v : D) (s : list Z) : pres D :=
  match skip_ws s with
  | op :: s' =>
      if isop op then
        match fuel with
        | O => POut
        | S fuel' =>
            do r and s'' <~ operand s';;
            match apply op v r with
            | inl m => PErr m
            | inr v' => op_loop fuel' isop apply operand v' s''
            end
        end
      else POk v (op :: s')
  | [] => POk v []
  end.

Definition p_unary_with (primary : list Z -> pres D) : nat -> list Z -> pres D :=
  fix unary fuel s :=
    match skip_ws s with
    | 43 :: s' => match fuel with O => POut | S fuel' => unary fuel' s' end
    | 45 :: s' => match fuel with O => POut | S fuel' => do v and s'' <~ unary fuel' s';; POk (dneg v) s'' end
    | s' => primary s'
    end.

Definition p_factor_with (mf : nat) (unary : list Z -> pres D) : nat -> list Z -> pres D :=
  fix factor fuel s :=
    do base and s <~ unary s;;
    match skip_ws s with
    | 94 :: s' =>
        match fuel with
        | O => POut
        | S fuel' => do e and s'' <~ factor fuel' s';; of_opt (c_pow mf base e) s''
        end
    | s' => POk base s'
    end.

Definition p_term_with (fuel : nat) (factor : list Z -> pres D) (s : list Z) : pres D :=
  do v and s <~ factor s;; op_loop fuel is_term_op term_op factor v s.
Definition p_expr_with (fuel : nat) (term : list Z -> pres D) (s : list Z) : pres D :=
  do v and s <~ term s;; op_loop fuel is_expr_op expr_op term v s.

(** The mutual recursion: [fuel] bounds its depth and every loop in it. *)
Fixpoint p_expr (fuel mf : nat) (s : list Z) : pres D :=
  match fuel with
  | O => POut
  | S fuel' =>
      let primary := p_primary_with (p_expr fuel' mf) mf in
      let factor := p_factor_with mf (p_unary_with primary fuel) fuel in
      p_expr_with fuel (p_term_with fuel factor) s
  end.

(** ** The entry point *)

Inductive calc_result := CValue (v : D) | CError (code : Z) (msg : string) | CHang.

(** [expr] and [out] are not null; [fpu] is [fpu_available()]. *)
Definition calc_eval (fuel mf : nat) (fpu : bool) (expr : list Z) : option calc_result :=
  if negb fpu then Some (CError (-2) "no FPU present")
  else
    match p_expr fuel mf expr with
    | POut => None
    | PHang => Some CHang
    | PErr m => Some (CError (-3) m)
    | POk v s =>
        match skip_ws s with
        | _ :: _ => Some (CError (-3) "unexpected trailing characters")
        | [] =>
            if negb (deq v v) then Some (CError (-4) "result is NaN")
            else if negb (deq (dsub v v) (d_of_int 0)) then Some (CError (-4) "result is infinite")
            else Some (CValue v)
        end
    end.

End Calc.

(** ** Binary64 *)

Definition sf_lit (m e : Z) : spec_float :=
  if 0 <=? e then binary_normalize 53 1024 (m * 10 ^ e) 0 false
  else
    let q := m * 2 ^ 200 / 10 ^ (- e) in
    let sticky := if m * 2 ^ 200 mod 10 ^ (- e) =? 0 then 0 else 1 in
    binary_normalize 53 1024 (2 * q + sticky) (-201) false.

(** Truncation; a value out of range gives the "integer indefinite" value. *)
Definition sf_to_long (x : spec_float) : Z :=
  match x with
  | S754_zero _ => 0
  | S754_finite s m e =>
      let a := if 0 <=? e then Z.pos m * 2 ^ e else Z.pos m / 2 ^ (- e) in
      let v := if s then - a else a in
      if (- 2 ^ 31 <=? v) && (v <? 2 ^ 31) then v else - 2 ^ 31
  | _ => - 2 ^ 31
  end.

#[export] Instance sf64 : Double spec_float := {
  dlit := sf_lit;
  d_of_int n := binary_normalize 53 1024 n 0 false;
  d_to_long := sf_to_long;
  dadd := SFadd 53 1024;
  dsub := SFsub 53 1024;
  dmul := SFmul 53 1024;
  ddiv := SFdiv 53 1024;
  dneg := SFopp;
  dlt := SFltb;
  dle := SFleb;
  deq := SFeqb;
}.

(** Evaluation in binary64 of a text of at most 128 characters. *)
Definition calc (text : string) : option calc_result := calc_eval 130 2100 true (bytes text).
