(* ===== verification/CalcProps.v ===== *)
(** * CalcProps: the calculator terminates and computes the value of an expression

    The parser never runs out of recursion on a text shorter than its bound, and
    on the text of an expression tree, printed with the fewest parentheses and
    any blanks between tokens, it returns the value of the tree: precedence,
    associativity and the order of errors are those of the tree. *)

From Stdlib Require Import SpecFloat.
From S2P Require Import Prelude Calc.

(** ** Characters and blanks *)

Lemma span_spec p s : let '(a, b) := span p s in
  s = a ++ b /\ forallb p a = true /\ (b = [] \/ p (hd0 b) = false).
Proof.
  induction s as [| c s IH]; cbn [span]; [by auto |]. destruct (p c) eqn:E; [| by auto].
  destruct (span p s) as [a b]. destruct IH as (-> & H1 & H2). cbn. by rewrite E, H1.
Qed.

Lemma span_prefix p a b : forallb p a = true -> p 0 = false -> p (hd0 b) = false -> span p (a ++ b) = (a, b).
Proof.
  intros Ha H0 Hb. induction a as [| c a IH]; cbn in *.
  - destruct b as [| c b]; [done |]. cbn in *. by rewrite Hb.
  - apply andb_true_iff in Ha as [-> Ha]. by rewrite IH.
Qed.

Lemma skip_ws_length s : (length (skip_ws s) <= length s)%nat.
Proof. unfold skip_ws. pose proof (span_spec is_blank s) as H. destruct (span is_blank s) as [a b]. destruct H as (-> & _). cbn. rewrite length_app. lia. Qed.

Lemma skip_ws_blanks sp s : forallb is_blank sp = true -> skip_ws (sp ++ s) = skip_ws s.
Proof.
  unfold skip_ws. induction sp as [| c sp IH]; [done |]. cbn. intros [Hc Hs]%andb_true_iff. rewrite Hc, <- IH by done.
  by destruct (span is_blank (sp ++ s)).
Qed.

Lemma skip_ws_id s : is_blank (hd0 s) = false -> skip_ws s = s.
Proof. unfold skip_ws. destruct s as [| c s]; [done |]. cbn. by intros ->. Qed.

Lemma skip_ws_head s : is_blank (hd0 (skip_ws s)) = false.
Proof. unfold skip_ws. pose proof (span_spec is_blank s) as H. destruct (span is_blank s) as [a b]. cbn. by destruct H as (_ & _ & [-> | H]). Qed.

Lemma skip_ws_twice s : skip_ws (skip_ws s) = skip_ws s.
Proof. apply skip_ws_id, skip_ws_head. Qed.

Lemma span_rest_length p s : p (hd0 s) = true -> p 0 = false -> (length (snd (span p s)) < length s)%nat.
Proof.
  destruct s as [| c s]; cbn [hd0 span]; [congruence |]. intros -> _. pose proof (span_spec p s) as H. destruct (span p s) as [a b].
  destruct H as (-> & _). cbn. rewrite length_app. lia.
Qed.
Lemma span_le p s : (length (snd (span p s)) <= length s)%nat.
Proof. pose proof (span_spec p s) as H. destruct (span p s) as [a b]. destruct H as (-> & _). cbn. rewrite length_app. lia. Qed.

(** ** Termination *)

Section Terminates.
Context {D : Type} {DD : Double D} (mf : nat).

(** The parser did not run out of recursion, and if it succeeded it consumed
    some of a text of length [n]. *)
Definition consumes (n : nat) (r : pres D) : Prop :=
  match r with POk _ s => (length s < n)%nat | POut => False | _ => True end.

Lemma consumes_weaken m n r : consumes m r -> (m <= n)%nat -> consumes n r.
Proof. destruct r; cbn; (done || lia). Qed.

Lemma consumes_bind n m (r : pres D) (k : D -> list Z -> pres D) : consumes m r ->
  (forall v s, r = POk v s -> (length s < m)%nat -> consumes n (k v s)) -> consumes n (pbind r k).
Proof. intros H Hk. destruct r as [v s | | |]; cbn in *; try done. by apply Hk. Qed.

Lemma of_opt_consumes n o s : (length s < n)%nat -> consumes n (of_opt o s).
Proof. intros H. by destruct o. Qed.

Lemma scan_expo_length d : (length (snd (scan_expo d)) <= length d)%nat.
Proof.
  destruct d as [| c e]; cbn [scan_expo]; [done |]. destruct (_ || _); [| done].
  set (p := match e with c1 :: e' => _ | [] => _ end). assert (Hp : (length (snd p) <= length e)%nat).
  { subst p. destruct e as [| c1 e']; [done |]. destruct (_ || _); cbn; lia. }
  destruct p as [neg e1]. destruct (is_digit (hd0 e1)); [| done]. pose proof (span_le is_digit e1). destruct (span is_digit e1). cbn in *. lia.
Qed.

Lemma p_number_consumes s : consumes (length s) (p_number s).
Proof.
  unfold p_number, scan_num. pose proof (span_spec is_digit s) as H. destruct (span is_digit s) as [ip d].
  destruct H as (-> & _). set (p := match d with 46 :: d' => _ | _ => _ end).
  assert (Hp : (length (fst p) + length (snd p) <= length d)%nat).
  { assert (Hd : forall d', (length (fst (span is_digit d')) + length (snd (span is_digit d')) <= S (length d'))%nat).
    { intros d'. pose proof (span_spec is_digit d') as H'. destruct (span is_digit d'). destruct H' as (-> & _). cbn. rewrite length_app. lia. }
    subst p. destruct d as [| c d']; [done |]. specialize (Hd d').
    repeat (match goal with |- context [match ?x with _ => _ end] => is_var x; destruct x end); cbn [fst snd length] in *; try lia. }
  destruct p as [fp d2]. pose proof (scan_expo_length d2). destruct (scan_expo d2) as [expo rest]. cbn [n_int n_frac n_expo n_rest fst snd] in *.
  destruct (ip ++ fp) eqn:E; [done |]. cbn. apply (f_equal length) in E. rewrite length_app in *. cbn in E. lia.
Qed.

Lemma p_close_consumes n r : consumes n r -> consumes n (p_close r).
Proof.
  intros H. apply (consumes_bind n n); [done |]. intros v s _ Hs. pose proof (skip_ws_length s). unfold p_close.
  destruct (skip_ws s) as [| c s']; [done |]. cbn [length] in *.
  repeat (match goal with |- context [match ?x with _ => _ end] => is_var x; destruct x end); cbn; (done || lia).
Qed.

Section Primary.
Context (expr : list Z -> pres D) (n : nat) (Hexpr : forall s, (length s < n)%nat -> consumes (length s) (expr s)).

Lemma p_word_consumes w s m : (length s <= n)%nat -> (length s < m)%nat -> consumes m (p_word expr mf w s).
Proof.
  intros Hs Hm. unfold p_word. do 2 (destruct (bool_decide _); [done |]). destruct (find_fn w) as [f |]; [| by destruct (bool_decide _)].
  pose proof (skip_ws_length s). destruct (skip_ws s) as [| c s']; [done |]. cbn [length] in *.
  assert (Hk : consumes m (do v and s'' <~ p_close (expr s');; of_opt (apply_fn mf f v) s'')).
  { eapply (consumes_bind _ (length s')); [apply p_close_consumes, Hexpr; lia |]. intros v s'' _ Hl. apply of_opt_consumes. lia. }
  repeat (match goal with |- context [match ?x with _ => _ end] => is_var x; destruct x end); done.
Qed.

Lemma p_primary_consumes s : (length s <= n)%nat -> consumes (length s) (p_primary_with expr mf s).
Proof.
  intros Hs. unfold p_primary_with. pose proof (skip_ws_length s). set (t := skip_ws s) in *.
  assert (Hother : consumes (length s) (if is_alpha (hd0 t) then let '(w, s') := span is_alpha t in p_word expr mf w s' else p_number t)).
  { destruct (is_alpha (hd0 t)) eqn:Ea.
    - pose proof (span_rest_length is_alpha t Ea eq_refl) as Hl. destruct (span is_alpha t) as [w s']. cbn in Hl. apply p_word_consumes; lia.
    - eapply consumes_weaken; [apply p_number_consumes | lia]. }
  destruct t as [| c s']; [done |]. cbn [length] in *.
  assert (Hp : consumes (length s) (p_close (expr s'))).
  { eapply consumes_weaken; [apply p_close_consumes, Hexpr |]; lia. }
  repeat (match goal with |- context [match ?x with _ => _ end] => is_var x; destruct x end); done.
Qed.
End Primary.

Section Levels.
Context (operand : list Z -> pres D) (n : nat) (Hop : forall s, (length s <= n)%nat -> consumes (length s) (operand s)).

Lemma p_unary_consumes fuel : forall s, (length s <= n)%nat -> (length s < fuel)%nat ->
  consumes (length s) (p_unary_with operand fuel s).
Proof.
  induction fuel as [| fuel IH]; intros s Hs Hf; [lia |]. pose proof (skip_ws_length s). cbn [p_unary_with].
  assert (Hp : consumes (length s) (operand (skip_ws s))) by (eapply consumes_weaken; [apply Hop |]; lia).
  destruct (skip_ws s) as [| c s']; [done |]. cbn [length] in *.
  assert (H1 : consumes (length s) (p_unary_with operand fuel s')) by (eapply consumes_weaken; [apply IH |]; lia).
  assert (H2 : consumes (length s) (do v and s'' <~ p_unary_with operand fuel s';; POk (dneg v) s'')).
  { eapply consumes_bind; [exact H1 |]. by intros v s'' _ Hl. }
  repeat (match goal with |- context [match ?x with _ => _ end] => is_var x; destruct x end); done.
Qed.

Lemma p_factor_consumes fuel : forall s, (length s <= n)%nat -> (length s < fuel)%nat ->
  consumes (length s) (p_factor_with mf operand fuel s).
Proof.
  induction fuel as [| fuel IH]; intros s Hs Hf; [lia |]. cbn [p_factor_with].
  eapply consumes_bind; [by apply Hop |]. intros base t _ Ht. pose proof (skip_ws_length t).
  destruct (skip_ws t) as [| c s'] eqn:E; [cbn in *; lia |]. cbn [length] in *.
  assert (H1 : consumes (length s) (do e and s'' <~ p_factor_with mf operand fuel s';; of_opt (c_pow mf base e) s'')).
  { eapply (consumes_bind _ (length s')); [apply IH; lia |]. intros v s'' _ Hl. apply of_opt_consumes. lia. }
  assert (H2 : consumes (length s) (POk base (c :: s'))) by (cbn; lia).
  repeat (match goal with |- context [match ?x with _ => _ end] => is_var x; destruct x end); done.
Qed.

Lemma op_loop_consumes isop apply fuel : forall v s m, (length s <= n)%nat -> (length s < fuel)%nat -> (length s < m)%nat ->
  consumes m (op_loop fuel isop apply operand v s).
Proof.
  induction fuel as [| fuel IH]; intros v s m Hs Hf Hm; [lia |]. pose proof (skip_ws_length s). cbn [op_loop].
  destruct (skip_ws s) as [| op s']; cbn [length] in *; [cbn; lia |]. destruct (isop op); [| cbn; lia].
  eapply consumes_bind; [apply Hop; lia |]. intros r t _ Ht. destruct (apply op v r) as [e | v']; [done |]. apply IH; lia.
Qed.

(** The number of operators a loop may read does not matter when it exceeds the
    length of the text. *)
Lemma op_loop_fuel isop apply k : forall k' v s, (length s <= n)%nat -> (length s < k)%nat -> (length s < k')%nat ->
  op_loop k isop apply operand v s = op_loop k' isop apply operand v s.
Proof.
  induction k as [| k IH]; intros [| k'] v s Hs Hk Hk'; try lia. pose proof (skip_ws_length s). cbn [op_loop].
  destruct (skip_ws s) as [| op s']; [done |]. cbn [length] in *. destruct (isop op); [| done].
  pose proof (Hop s' ltac:(lia)) as Hr. destruct (operand s') as [r t | | |]; cbn [pbind]; try done. cbn in Hr.
  destruct (apply op v r) as [e | v']; [done |]. apply IH; lia.
Qed.
End Levels.

Definition prim (fu : nat) : list Z -> pres D := p_primary_with (p_expr fu mf) mf.
Definition fac (fu n m : nat) : list Z -> pres D := p_factor_with mf (p_unary_with (prim fu) n) m.

Lemma p_expr_consumes fuel : forall s, (length s < fuel)%nat -> consumes (length s) (p_expr fuel mf s).
Proof.
  induction fuel as [| fuel IH]; intros s Hs; [lia |]. cbn [p_expr].
  assert (Hprim : forall t, (length t <= fuel)%nat -> consumes (length t) (prim fuel t)) by (intros t Ht; by apply (p_primary_consumes _ fuel)).
  assert (Hfac : forall t, (length t <= fuel)%nat -> consumes (length t) (fac fuel (S fuel) (S fuel) t)).
  { intros t Ht. apply (p_factor_consumes _ fuel); [| done | lia]. intros u Hu. apply (p_unary_consumes _ fuel); (done || lia). }
  fold (prim fuel). fold (fac fuel (S fuel) (S fuel)).
  assert (Hterm : forall t, (length t <= fuel)%nat -> consumes (length t) (p_term_with (S fuel) (fac fuel (S fuel) (S fuel)) t)).
  { intros t Ht. eapply consumes_bind; [by apply Hfac |]. intros v u _ Hu. apply (op_loop_consumes _ fuel Hfac); lia. }
  eapply consumes_bind; [apply Hterm; lia |]. intros v u _ Hu. apply (op_loop_consumes _ fuel Hterm); lia.
Qed.

End Terminates.

(** The calculator returns for every text, whatever its bytes: the parser never
    needs more recursion than the length of the text, so that the only loops that
    may not end are those that scale the argument of a mathematical function. *)
Theorem calc_parser_terminates {D} {DD : Double D} (fuel mf : nat) (fpu : bool) (text : list Z)
    (Hfuel : (length text < fuel)%nat) :
  exists r, calc_eval fuel mf fpu text = Some r.
Proof.
  unfold calc_eval. destruct fpu; [| by eexists]. cbn [negb]. pose proof (p_expr_consumes mf fuel text Hfuel) as H.
  destruct (p_expr fuel mf text) as [v s | | |]; [| by eexists.. | done]. destruct (skip_ws s); [| by eexists].
  destruct (negb _); [by eexists |]. destruct (negb _); by eexists.
Qed.
Lemma calc_parser_terminates_witness : exists r : calc_result, calc_eval 12 100 true (bytes "((1+2)*3)^") = Some r.
Proof. apply (calc_parser_terminates 12 100 true (bytes "((1+2)*3)^")). cbn. lia. Defined.

(** ** Expression trees *)

(** A number as it is written: integer digits, a point with fraction digits, an
    exponent with an optional sign. *)
Record num_lit := mk_lit { li_int : list Z; li_frac : option (list Z); li_exp : option (Z * option bool * list Z) }.
Inductive binop := BAdd | BSub | BMul | BDiv | BMod.
Inductive ast :=
  | ANum (n : num_lit)
  | APi
  | AE
  | AFn (name : list Z) (a : ast)
  | APos (a : ast)
  | ANeg (a : ast)
  | APow (a b : ast)
  | ABin (op : binop) (a b : ast).

Definition all_digits (ds : list Z) : Prop := forallb is_digit ds = true.
Definition lit_ok (n : num_lit) : Prop :=
  all_digits (li_int n) /\ all_digits (default [] (li_frac n)) /\ li_int n ++ default [] (li_frac n) <> []
  /\ match li_exp n with
     | Some (e, _, ds) => (e = 101 \/ e = 69) /\ all_digits ds /\ ds <> []
     | None => True
     end.
Fixpoint ast_ok (e : ast) : Prop :=
  match e with
  | ANum n => lit_ok n
  | APi | AE => True
  | AFn w a => is_Some (find_fn w) /\ ast_ok a
  | APos a | ANeg a => ast_ok a
  | APow a b | ABin _ a b => ast_ok a /\ ast_ok b
  end.

(** *** Printing, with the blanks [sp] before every token *)

Definition show_lit (n : num_lit) : list Z :=
  li_int n ++ match li_frac n with Some fp => 46 :: fp | None => [] end
  ++ match li_exp n with
     | Some (e, sg, ds) => e :: match sg with Some true => [45] | Some false => [43] | None => [] end ++ ds
     | None => []
     end.
Definition op_char (op : binop) : Z := match op with BAdd => 43 | BSub => 45 | BMul => 42 | BDiv => 47 | BMod => 37 end.
Definition op_level (op : binop) : nat := match op with BAdd | BSub => 0 | _ => 1 end.
Definition level (e : ast) : nat :=
  match e with ABin op _ _ => op_level op | APow _ _ => 2 | APos _ | ANeg _ => 3 | _ => 4 end.

Section Show.
Context (sp : list Z).
Definition paren (b : bool) (t : list Z) : list Z := if b then sp ++ [40] ++ t ++ sp ++ [41] else t.
Fixpoint show (k : nat) (e : ast) : list Z :=
  paren (level e <? k)%nat
    match e with
    | ANum n => sp ++ show_lit n
    | APi => sp ++ bytes "pi"
    | AE => sp ++ bytes "e"
    | AFn w a => sp ++ w ++ sp ++ [40] ++ show 0 a ++ sp ++ [41]
    | APos a => sp ++ [43] ++ show 3 a
    | ANeg a => sp ++ [45] ++ show 3 a
    | APow a b => show 3 a ++ sp ++ [94] ++ show 2 b
    | ABin op a b => show (op_level op) a ++ sp ++ [op_char op] ++ show (S (op_level op)) b
    end.
End Show.

(** *** The value of a tree *)

Inductive outcome (D : Type) := Val (v : D) | Err (msg : string) | Hang.
Arguments Val {D}.
Arguments Err {D}.
Arguments Hang {D}.
Definition obind {A B} (o : outcome A) (k : A -> outcome B) : outcome B :=
  match o with Val v => k v | Err m => Err m | Hang => Hang end.

Section Value.
Context {D : Type} {DD : Double D} (mf : nat).

Definition of_option (o : option D) : outcome D := match o with Some v => Val v | None => Hang end.
Definition of_sum (r : string + D) : outcome D := match r with inl m => Err m | inr v => Val v end.
Definition bin_value (op : binop) (v r : D) : string + D :=
  match op with BAdd | BSub => expr_op (op_char op) v r | _ => term_op (op_char op) v r end.
Definition lit_value (n : num_lit) : D :=
  num_value (li_int n) (default [] (li_frac n))
    match li_exp n with
    | Some (_, sg, ds) => if default false sg then s64 (- expo_of ds) else expo_of ds
    | None => 0
    end.

Fixpoint value (e : ast) : outcome D :=
  match e with
  | ANum n => Val (lit_value n)
  | APi => Val PI
  | AE => Val (dlit 271828182845904523536 (-20))
  | AFn w a => obind (value a) (fun v => match find_fn w with Some f => of_option (apply_fn mf f v) | None => Hang end)
  | APos a => value a
  | ANeg a => obind (value a) (fun v => Val (dneg v))
  | APow a b => obind (value a) (fun v => obind (value b) (fun r => of_option (c_pow mf v r)))
  | ABin op a b => obind (value a) (fun v => obind (value b) (fun r => of_sum (bin_value op v r)))
  end.

(** What [calc_eval] makes of the value. *)
Definition finish (o : outcome D) : calc_result :=
  match o with
  | Err m => CError (-3) m
  | Hang => CHang
  | Val v =>
      if negb (deq v v) then CError (-4) "result is NaN"
      else if negb (deq (dsub v v) (d_of_int 0)) then CError (-4) "result is infinite"
      else CValue v
  end.

(** An outcome as a result of the parser that leaves [s]. *)
Definition lift (o : outcome D) (k : D -> pres D) : pres D :=
  match o with Val v => k v | Err m => PErr m | Hang => PHang end.
Lemma lift_obind o f k : lift (obind o f) k = lift o (fun v => lift (f v) k).
Proof. by destruct o. Qed.
Lemma lift_bind o s k : pbind (lift o (fun v => POk v s)) k = lift o (fun v => k v s).
Proof. by destruct o. Qed.
Lemma lift_bind_loop o (l : D -> pres D) k : pbind (lift o l) k = lift o (fun v => pbind (l v) k).
Proof. by destruct o. Qed.
Lemma lift_ext o k1 k2 : (forall v, k1 v = k2 v) -> lift o k1 = lift o k2.
Proof. intros H. destruct o; cbn; [apply H | done | done]. Qed.
End Value.

(** ** Numbers and words *)

(** A text that ends a number and a word. *)
Definition tok_end (s : list Z) : Prop := is_digit (hd0 s) = false /\ is_alpha (hd0 s) = false /\ hd0 s <> 46.

Lemma digit_range c : is_digit c = true -> 48 <= c <= 57.
Proof. unfold is_digit. intros H. btrue. lia. Qed.
Lemma not_alpha c : 48 <= c <= 57 -> is_alpha c = false.
Proof. intros. unfold is_alpha. by repeat bcase; try lia. Qed.

Lemma span_digits ds rest : all_digits ds -> is_digit (hd0 rest) = false -> span is_digit (ds ++ rest) = (ds, rest).
Proof. intros. by apply span_prefix. Qed.

Lemma scan_expo_none rest : is_alpha (hd0 rest) = false -> scan_expo rest = (0, rest).
Proof.
  destruct rest as [| c rest]; [done |]. cbn [hd0 scan_expo]. intros H.
  destruct (Z.eqb_spec c 101) as [-> |]; [done |]. by destruct (Z.eqb_spec c 69) as [-> |].
Qed.

Lemma scan_expo_some e sg ds rest : e = 101 \/ e = 69 -> all_digits ds -> ds <> [] -> is_digit (hd0 rest) = false ->
  scan_expo ((e :: match sg with Some true => [45] | Some false => [43] | None => [] end ++ ds) ++ rest)
  = (if default false sg then s64 (- expo_of ds) else expo_of ds, rest).
Proof.
  intros He Hd Hne Hr. assert (Hc : ((e =? 101) || (e =? 69)) = true) by (by destruct He as [-> | ->]).
  assert (Hhd : is_digit (hd0 (ds ++ rest)) = true) by (destruct ds; [done |]; unfold all_digits in Hd; cbn in *; by apply andb_true_iff in Hd as [? _]).
  cbn [scan_expo app]. rewrite Hc. destruct sg as [[] |]; cbn [app default from_option id]; cbn [Z.eqb Pos.eqb orb].
  - by rewrite Hhd, span_digits.
  - by rewrite Hhd, span_digits.
  - destruct (ds ++ rest) as [| c t] eqn:E; [by destruct ds |]. cbn [hd0] in Hhd. pose proof (digit_range c Hhd).
    destruct (Z.eqb_spec c 43); [lia |]. destruct (Z.eqb_spec c 45); [lia |]. cbn [orb hd0]. rewrite Hhd, <- E. by rewrite span_digits.
Qed.

Lemma no_dot s : hd0 s <> 46 -> match s with 46 :: d' => span is_digit d' | _ => ([], s) end = ([], s).
Proof.
  intros H. destruct s as [| c t]; [done |]. cbn in H.
  repeat (match goal with |- context [match ?x with _ => _ end] => is_var x; destruct x end); done.
Qed.

Lemma scan_num_show n rest : lit_ok n -> tok_end rest ->
  scan_num (show_lit n ++ rest) = mk_num (li_int n) (default [] (li_frac n))
    match li_exp n with Some (_, sg, ds) => if default false sg then s64 (- expo_of ds) else expo_of ds | None => 0 end rest.
Proof.
  intros (Hi & Hf & _ & He) (Hr1 & Hr2 & Hr3). unfold scan_num, show_lit. rewrite <- !app_assoc.
  set (ex := match li_exp n with Some _ => _ | None => [] end).
  assert (Hex : is_digit (hd0 (ex ++ rest)) = false /\ hd0 (ex ++ rest) <> 46 /\
    scan_expo (ex ++ rest) = (match li_exp n with Some (_, sg, ds) => if default false sg then s64 (- expo_of ds) else expo_of ds | None => 0 end, rest)).
  { subst ex. destruct (li_exp n) as [[[e sg] ds] |].
    - destruct He as (He & Hd & Hne). split; [by destruct He as [-> | ->] |]. split; [by destruct He as [-> | ->] |]. by apply scan_expo_some.
    - split; [done |]. split; [done |]. by apply scan_expo_none. }
  destruct Hex as (E1 & E2 & E3). destruct (li_frac n) as [fp |]; cbn [default app] in *.
  - rewrite span_digits by done. by rewrite span_digits, E3.
  - rewrite span_digits by done. by rewrite no_dot, E3.
Qed.

Lemma find_fn_word w f : find_fn w = Some f ->
  forallb is_alpha w = true /\ w <> [] /\ bool_decide (w = bytes "pi") = false /\ bool_decide (w = bytes "e") = false.
Proof.
  unfold find_fn. destruct (find _ fn_table) as [[s g] |] eqn:E; [| done]. intros _. apply find_some in E as [Hin Hw].
  apply bool_decide_eq_true in Hw. cbn in Hw. subst w.
  assert (H : forallb (fun p : string * fn => forallb is_alpha (bytes (fst p)) && negb (bool_decide (bytes (fst p) = []))
    && negb (bool_decide (bytes (fst p) = bytes "pi")) && negb (bool_decide (bytes (fst p) = bytes "e"))) fn_table = true) by (vm_compute; done).
  rewrite forallb_forall in H. specialize (H _ Hin). cbn [fst] in H. apply andb_true_iff in H as [H H4]. apply andb_true_iff in H as [H H3].
  apply andb_true_iff in H as [H1 H2]. apply negb_true_iff in H2, H3, H4. apply bool_decide_eq_false in H2. done.
Qed.

(** ** Each level of the grammar *)

Section RoundTrip.
Context {D : Type} {DD : Double D} (mf : nat) (sp : list Z) (Hsp : forallb is_blank sp = true).
Notation lift_at o rest := (lift o (fun v => POk v rest)).
Notation term fu := (p_term_with (S fu) (fac mf fu (S fu) (S fu))).

Definition no_pow (s : list Z) : Prop := hd0 (skip_ws s) <> 94.
Definition no_op (s : list Z) : Prop := is_term_op (hd0 (skip_ws s)) = false.

(** The text [t] evaluates to [o] when it is read at each of the levels. *)
Definition at_primary (t : list Z) (o : outcome D) : Prop := forall fu rest,
  (length (t ++ rest) <= fu)%nat -> tok_end rest -> prim mf fu (t ++ rest) = lift_at o rest.
Definition at_unary (t : list Z) (o : outcome D) : Prop := forall fu n rest,
  (length (t ++ rest) <= fu)%nat -> (length (t ++ rest) < n)%nat -> tok_end rest ->
  p_unary_with (prim mf fu) n (t ++ rest) = lift_at o rest.
Definition at_factor (t : list Z) (o : outcome D) : Prop := forall fu m rest,
  (length (t ++ rest) <= fu)%nat -> (length (t ++ rest) < m)%nat -> tok_end rest -> no_pow rest ->
  fac mf fu (S fu) m (t ++ rest) = lift_at o (skip_ws rest).
Definition at_term (t : list Z) (o : outcome D) : Prop := forall fu rest,
  (length (t ++ rest) <= fu)%nat -> tok_end rest -> no_pow rest ->
  term fu (t ++ rest) = lift o (fun v => op_loop (S fu) is_term_op term_op (fac mf fu (S fu) (S fu)) v rest).
Definition at_expr (t : list Z) (o : outcome D) : Prop := forall fu rest,
  (length (t ++ rest) <= fu)%nat -> tok_end rest -> no_pow rest -> no_op rest ->
  p_expr (S fu) mf (t ++ rest) = lift o (fun v => op_loop (S fu) is_expr_op expr_op (term fu) v rest).

Lemma fac_consumes fu : forall s, (length s <= fu)%nat -> consumes (length s) (fac mf fu (S fu) (S fu) s).
Proof.
  intros s Hs. apply (p_factor_consumes mf _ fu); [| done | lia]. intros u Hu.
  apply (p_unary_consumes _ fu); [| done | lia]. intros w Hw. apply (p_primary_consumes mf _ fu); [| done].
  intros z Hz. by apply p_expr_consumes.
Qed.
Lemma term_consumes fu : forall s, (length s <= fu)%nat -> consumes (length s) (term fu s).
Proof.
  intros s Hs. eapply consumes_bind; [by apply fac_consumes |]. intros v u _ Hu.
  apply (op_loop_consumes _ fu (fac_consumes fu)); lia.
Qed.

Lemma op_loop_skip k isop apply (operand : list Z -> pres D) v s :
  op_loop k isop apply operand v (skip_ws s) = op_loop k isop apply operand v s.
Proof. destruct k; cbn [op_loop]; by rewrite skip_ws_twice. Qed.

Lemma op_loop_stop k isop apply (operand : list Z -> pres D) v s : isop (hd0 (skip_ws s)) = false ->
  op_loop k isop apply operand v s = POk v (skip_ws s).
Proof. intros H. destruct k; cbn [op_loop]; destruct (skip_ws s) as [| c t]; try done; cbn in H; by rewrite H. Qed.

Lemma op_loop_step k isop apply (operand : list Z -> pres D) v s c s' : skip_ws s = c :: s' -> isop c = true ->
  op_loop (S k) isop apply operand v s =
  pbind (operand s') (fun r t => match apply c v r with inl m => PErr m | inr v' => op_loop k isop apply operand v' t end).
Proof. intros E H. cbn [op_loop]. by rewrite E, H. Qed.

(** A token that is neither a digit, a letter nor a point ends the text before it. *)
Definition ends (c : Z) : bool := negb (is_digit c) && negb (is_alpha c) && negb (c =? 46).
Lemma blank_ends c : is_blank c = true -> ends c = true.
Proof. unfold is_blank. intros [E | E]%orb_true_iff; apply Z.eqb_eq in E as ->; done. Qed.
Lemma tok_end_tok c x : ends c = true -> tok_end (sp ++ c :: x).
Proof.
  intros Hc. assert (H : ends (hd0 (sp ++ c :: x)) = true).
  { destruct sp as [| b sp']; [done |]. cbn in *. apply andb_true_iff in Hsp as [Hb _]. by apply blank_ends. }
  unfold ends in H. apply andb_true_iff in H as [H H3]. apply andb_true_iff in H as [H1 H2].
  apply negb_true_iff in H1, H2, H3. apply Z.eqb_neq in H3. by split.
Qed.
Lemma skip_tok c x : is_blank c = false -> skip_ws (sp ++ c :: x) = c :: x.
Proof. intros. rewrite skip_ws_blanks by done. by apply skip_ws_id. Qed.

(** A text whose first token is not a sign is read by the level of primaries. *)
Lemma primary_unary t o : at_primary t o -> (forall rest, hd0 (skip_ws (t ++ rest)) <> 43 /\ hd0 (skip_ws (t ++ rest)) <> 45) ->
  at_unary t o.
Proof.
  intros H Hs fu n rest Hf Hn Hr. rewrite <- (H fu rest Hf Hr). destruct (Hs rest) as [H1 H2].
  assert (E : prim mf fu (t ++ rest) = prim mf fu (skip_ws (t ++ rest))) by (unfold prim, p_primary_with; by rewrite skip_ws_twice).
  rewrite E. destruct n as [| n]; [lia |]. cbn [p_unary_with]. destruct (skip_ws (t ++ rest)) as [| c s]; [done |]. cbn in H1, H2.
  repeat (match goal with |- context [match ?x with _ => _ end] => is_var x; destruct x end); done.
Qed.

Lemma unary_factor t o : at_unary t o -> at_factor t o.
Proof.
  intros H fu m rest Hf Hm Hr Hp. unfold fac. destruct m as [| m]; [lia |]. cbn [p_factor_with].
  rewrite (H fu (S fu) rest) by (done || lia). rewrite lift_bind. apply lift_ext. intros v. unfold no_pow in Hp.
  destruct (skip_ws rest) as [| c s]; [done |]. cbn in Hp.
  repeat (match goal with |- context [match ?x with _ => _ end] => is_var x; destruct x end); done.
Qed.

Lemma factor_term t o : at_factor t o -> at_term t o.
Proof.
  intros H fu rest Hf Hr Hp. unfold p_term_with. rewrite (H fu (S fu) rest) by (done || lia). rewrite lift_bind.
  apply lift_ext. intros v. apply op_loop_skip.
Qed.

Lemma term_read t o fu rest : at_term t o -> (length (t ++ rest) <= fu)%nat -> tok_end rest -> no_pow rest -> no_op rest ->
  term fu (t ++ rest) = lift_at o (skip_ws rest).
Proof. intros H Hf Hr Hp Ho. rewrite H by done. apply lift_ext. intros v. by apply op_loop_stop. Qed.

Lemma term_expr t o : at_term t o -> at_expr t o.
Proof.
  intros H fu rest Hf Hr Hp Ho. cbn [p_expr]. fold (prim mf fu). fold (fac mf fu (S fu) (S fu)). unfold p_expr_with.
  rewrite (term_read t o fu rest) by done. rewrite lift_bind. apply lift_ext. intros v. apply op_loop_skip.
Qed.

(** Before a closing parenthesis nothing more is read. *)
Lemma expr_close t o fu rest : at_expr t o -> (length (t ++ sp ++ 41%Z :: rest) < fu)%nat ->
  p_close (p_expr fu mf (t ++ sp ++ 41 :: rest)) = lift_at o rest.
Proof.
  intros H Hf. destruct fu as [| fu]; [lia |]. rewrite H.
  - unfold p_close. rewrite lift_bind_loop. apply lift_ext. intros v.
    rewrite op_loop_stop by (by rewrite skip_tok). cbn [pbind]. by rewrite skip_ws_twice, skip_tok.
  - lia.
  - by apply tok_end_tok.
  - unfold no_pow. by rewrite skip_tok.
  - unfold no_op. by rewrite skip_tok.
Qed.

Lemma paren_assoc t rest : (sp ++ [40] ++ t ++ sp ++ [41]) ++ rest = sp ++ 40 :: t ++ sp ++ 41 :: rest.
Proof. by rewrite <- !app_assoc. Qed.

Lemma paren_primary t o : at_expr t o -> at_primary (sp ++ [40] ++ t ++ sp ++ [41]) o.
Proof.
  intros H fu rest Hf Hr. rewrite paren_assoc in Hf |- *.
  unfold prim, p_primary_with. rewrite skip_tok by done. apply expr_close; [done |]. rewrite length_app in Hf. cbn [length] in Hf. lia.
Qed.

(** What holds of the text of a tree at the level of its root holds at every
    level, where lower roots are put in parentheses. *)
Definition at_level (k : nat) (t : list Z) (o : outcome D) : Prop :=
  match k with O => at_expr t o | 1%nat => at_term t o | 2%nat => at_factor t o | 3%nat => at_unary t o
  | _ => at_primary t o /\ forall rest, hd0 (skip_ws (t ++ rest)) <> 43 /\ hd0 (skip_ws (t ++ rest)) <> 45 end.

Lemma level_pred k t o : at_level (S k) t o -> at_level k t o.
Proof.
  destruct k as [| [| [| [| k]]]]; cbn [at_level]; [apply term_expr | apply factor_term | apply unary_factor | | done].
  intros [H1 H2]. by apply primary_unary.
Qed.
Lemma level_le k j t o : (j <= k)%nat -> at_level k t o -> at_level j t o.
Proof. intros Hj. induction Hj as [| k Hj IH]; [done |]. intros H. apply IH. by apply level_pred. Qed.

Lemma show_high k e : (k <= level e)%nat -> show sp k e = show sp 0 e.
Proof.
  intros Hk. assert (E : (level e <? k)%nat = false) by (apply Nat.ltb_ge; lia). destruct e; cbn [show]; by rewrite E.
Qed.
Lemma show_low k e : (level e < k)%nat -> show sp k e = sp ++ [40] ++ show sp 0 e ++ sp ++ [41].
Proof.
  intros Hk. assert (E : (level e <? k)%nat = true) by (apply Nat.ltb_lt; lia). destruct e; cbn [show]; by rewrite E.
Qed.

Lemma all_levels e o : at_level (level e) (show sp 0 e) o -> forall k, (k <= 4)%nat -> at_level k (show sp k e) o.
Proof.
  intros H k Hk. destruct (Nat.le_gt_cases k (level e)) as [Hle | Hgt].
  - rewrite show_high by done. by eapply level_le.
  - rewrite show_low by done. apply (level_le 4); [done |]. cbn [at_level]. split.
    + apply paren_primary. apply (level_le (level e) 0); [lia | done].
    + intros rest. rewrite <- !app_assoc. cbn [app]. by rewrite skip_tok.
Qed.

(** ** Each form of expression *)

Lemma num_level n : lit_ok n -> at_level 4 (sp ++ show_lit n) (Val (lit_value n)).
Proof.
  intros Hn. assert (Hc : forall rest, exists c x, show_lit n ++ rest = c :: x /\ (48 <= c <= 57 \/ c = 46)).
  { intros rest. destruct Hn as (Hi & Hf & Hne & _). unfold show_lit. destruct (li_int n) as [| c ip].
    - destruct (li_frac n) as [fp |]; [| done]. do 2 eexists. split; [reflexivity | by right].
    - do 2 eexists. split; [reflexivity |]. left. unfold all_digits in Hi. cbn in Hi. apply andb_true_iff in Hi as [Hi _]. by apply digit_range. }
  cbn [at_level]. split.
  - intros fu rest Hf Hr. rewrite <- app_assoc in Hf |- *. unfold prim, p_primary_with. destruct (Hc rest) as (c & x & E & Hcr).
    assert (Hb : is_blank c = false /\ is_alpha c = false /\ c <> 40).
    { unfold is_blank, is_alpha. repeat bcase; try lia; by repeat split; try lia. }
    destruct Hb as (Hb & Ha & H40). rewrite E, skip_tok by done. cbn [hd0]. rewrite Ha, <- E.
    assert (Hnum : p_number (show_lit n ++ rest) = POk (lit_value n) rest).
    { unfold p_number. rewrite scan_num_show by done. cbn [n_int n_frac n_expo n_rest].
      destruct (li_int n ++ default [] (li_frac n)) eqn:E2; [by destruct Hn as (_ & _ & Hne & _) | done]. }
    rewrite Hnum. repeat (match goal with |- context [match ?x with _ => _ end] => is_var x; destruct x end); done.
  - intros rest. rewrite <- app_assoc. destruct (Hc rest) as (c & x & E & Hcr). rewrite E, skip_tok; [cbn; lia |].
    unfold is_blank. repeat bcase; try lia; done.
Qed.

(** Reading a word. *)
Lemma word_read fu w rest : forallb is_alpha w = true -> w <> [] -> is_alpha (hd0 rest) = false ->
  prim mf fu (sp ++ w ++ rest) = p_word (p_expr fu mf) mf w rest
  /\ hd0 (skip_ws (sp ++ w ++ rest)) <> 43 /\ hd0 (skip_ws (sp ++ w ++ rest)) <> 45.
Proof.
  intros Hw Hne Hr. destruct w as [| c w]; [done |]. cbn [forallb] in Hw. pose proof Hw as [Hc Hw']%andb_true_iff.
  assert (Hb : is_blank c = false /\ c <> 40 /\ c <> 43 /\ c <> 45).
  { unfold is_alpha in Hc. unfold is_blank. destruct (Z.eqb_spec c 32) as [-> |]; [done |]. destruct (Z.eqb_spec c 9) as [-> |]; [done |].
    split; [done |]. split_and!; by intros ->. }
  destruct Hb as (Hb & H40 & H43 & H45). cbn [app]. rewrite skip_tok by done. split; [| done]. unfold prim, p_primary_with.
  rewrite skip_tok by done. cbn [hd0]. rewrite Hc. change (c :: w ++ rest) with ((c :: w) ++ rest). rewrite span_prefix by done.
  cbn [app]. repeat (match goal with |- context [match ?x with _ => _ end] => is_var x; destruct x end); done.
Qed.

Lemma const_level w v : forallb is_alpha w = true -> w <> [] ->
  (forall fu rest, p_word (p_expr fu mf) mf w rest = POk v rest) -> at_level 4 (sp ++ w) (Val v).
Proof.
  intros Hw Hne Hp. cbn [at_level]. split.
  - intros fu rest Hf (_ & Hr & _). rewrite <- app_assoc. destruct (word_read fu w rest Hw Hne Hr) as [-> _]. apply Hp.
  - intros rest. rewrite <- app_assoc. destruct w as [| c w]; [done |]. cbn [forallb] in Hw. apply andb_true_iff in Hw as [Hc _].
    assert (Hb : is_blank c = false /\ c <> 43 /\ c <> 45).
    { unfold is_alpha in Hc. unfold is_blank. destruct (Z.eqb_spec c 32) as [-> |]; [done |]. destruct (Z.eqb_spec c 9) as [-> |]; [done |].
      split; [done |]. split; by intros ->. }
    cbn [app]. rewrite skip_tok by apply Hb. apply Hb.
Qed.

Lemma fn_level w a f : find_fn w = Some f -> at_expr (show sp 0 a) (value mf a) ->
  at_level 4 (sp ++ w ++ sp ++ [40] ++ show sp 0 a ++ sp ++ [41])
    (obind (value mf a) (fun v => of_option (apply_fn mf f v))).
Proof.
  intros Hf Ha. destruct (find_fn_word w f Hf) as (Hw & Hne & Hpi & He).
  assert (Hopen : forall x, is_alpha (hd0 (sp ++ 40 :: x)) = false) by (intros x; by apply tok_end_tok).
  assert (E : forall rest, (sp ++ w ++ sp ++ [40] ++ show sp 0 a ++ sp ++ [41]) ++ rest = sp ++ w ++ sp ++ 40 :: show sp 0 a ++ sp ++ 41 :: rest)
    by (intros rest; by rewrite <- !app_assoc).
  cbn [at_level]. split.
  - intros fu rest Hl Hr. rewrite E in Hl |- *. destruct (word_read fu w _ Hw Hne (Hopen (show sp 0 a ++ sp ++ 41 :: rest))) as [-> _].
    unfold p_word. rewrite Hpi, He, Hf, skip_tok by done.
    rewrite (expr_close _ _ fu rest Ha) by (rewrite !length_app in *; cbn [length] in *; rewrite !length_app in *; cbn [length] in *; lia).
    rewrite lift_bind, lift_obind. apply lift_ext. intros v. by destruct (apply_fn mf f v).
  - intros rest. rewrite E. by destruct (word_read 0 w _ Hw Hne (Hopen (show sp 0 a ++ sp ++ 41 :: rest))) as [_ H].
Qed.

Lemma sign_level c g a o : (c = 43 /\ g = o) \/ (c = 45 /\ g = obind o (fun v => Val (dneg v))) ->
  at_unary a o -> at_level 3 (sp ++ [c] ++ a) g.
Proof.
  intros Hc Ha. cbn [at_level]. intros fu n rest Hf Hn Hr. rewrite <- !app_assoc in Hf, Hn |- *. cbn [app] in *.
  rewrite length_app in Hf, Hn. cbn [length] in Hf, Hn. destruct n as [| n]; [lia |]. cbn [p_unary_with].
  destruct Hc as [[-> ->] | [-> ->]]; rewrite skip_tok by done; rewrite (Ha fu n rest) by (done || lia); [done |].
  by rewrite lift_bind, lift_obind.
Qed.

Lemma pow_level a b oa ob : at_unary a oa -> at_factor b ob ->
  at_level 2 (a ++ sp ++ [94] ++ b) (obind oa (fun v => obind ob (fun r => of_option (c_pow mf v r)))).
Proof.
  intros Ha Hb. cbn [at_level]. intros fu m rest Hf Hm Hr Hp. rewrite <- !app_assoc in Hf, Hm |- *. cbn [app] in *.
  pose proof Hf as Hl. rewrite !length_app in Hl, Hm. cbn [length] in Hl, Hm. rewrite length_app in Hl, Hm.
  unfold fac. destruct m as [| m]; [lia |]. cbn [p_factor_with]. rewrite (Ha fu (S fu)); [| done | lia | by apply tok_end_tok].
  rewrite lift_bind, lift_obind. apply lift_ext. intros v. rewrite skip_tok by done. fold (fac mf fu (S fu) m).
  change (p_factor_with mf (p_unary_with (prim mf fu) (S fu)) m) with (fac mf fu (S fu) m).
  rewrite (Hb fu m rest); [| rewrite length_app; lia | rewrite length_app; lia | done | done].
  rewrite lift_bind, lift_obind. apply lift_ext. intros r. by destruct (c_pow mf v r).
Qed.

Lemma term_op_level op a b oa ob : op_level op = 1%nat -> at_term a oa -> at_factor b ob ->
  at_level 1 (a ++ sp ++ [op_char op] ++ b) (obind oa (fun v => obind ob (fun r => of_sum (bin_value op v r)))).
Proof.
  intros Hop Ha Hb. cbn [at_level]. intros fu rest Hf Hr Hp. rewrite <- !app_assoc in Hf |- *. cbn [app] in *.
  pose proof Hf as Hl. rewrite !length_app in Hl. cbn [length] in Hl. rewrite length_app in Hl.
  assert (Hc : is_blank (op_char op) = false /\ is_term_op (op_char op) = true /\ ends (op_char op) = true /\ op_char op <> 94) by (by destruct op).
  destruct Hc as (Hc1 & Hc2 & Hc3 & Hc4). rewrite Ha; [| done | by apply tok_end_tok | unfold no_pow; by rewrite skip_tok].
  rewrite lift_obind. apply lift_ext. intros v. rewrite (op_loop_step _ _ _ _ _ _ _ _ (skip_tok _ _ Hc1) Hc2).
  rewrite (Hb fu (S fu) rest); [| rewrite length_app; lia | rewrite length_app; lia | done | done].
  rewrite lift_bind, lift_obind. apply lift_ext. intros r.
  replace (bin_value op v r) with (term_op (op_char op) v r) by (by destruct op).
  destruct (term_op (op_char op) v r) as [m | v']; [done |]. cbn [of_sum lift]. rewrite op_loop_skip.
  apply (op_loop_fuel _ fu (fac_consumes fu)); lia.
Qed.

Lemma expr_op_level op a b oa ob : op_level op = 0%nat -> at_expr a oa -> at_term b ob ->
  at_level 0 (a ++ sp ++ [op_char op] ++ b) (obind oa (fun v => obind ob (fun r => of_sum (bin_value op v r)))).
Proof.
  intros Hop Ha Hb. cbn [at_level]. intros fu rest Hf Hr Hp Ho. rewrite <- !app_assoc in Hf |- *. cbn [app] in *.
  pose proof Hf as Hl. rewrite !length_app in Hl. cbn [length] in Hl. rewrite length_app in Hl.
  assert (Hc : is_blank (op_char op) = false /\ is_expr_op (op_char op) = true /\ ends (op_char op) = true /\ op_char op <> 94
    /\ is_term_op (op_char op) = false) by (by destruct op).
  destruct Hc as (Hc1 & Hc2 & Hc3 & Hc4 & Hc5).
  rewrite Ha; [| done | by apply tok_end_tok | unfold no_pow; by rewrite skip_tok | unfold no_op; by rewrite skip_tok].
  rewrite lift_obind. apply lift_ext. intros v. rewrite (op_loop_step _ _ _ _ _ _ _ _ (skip_tok _ _ Hc1) Hc2).
  rewrite (term_read b ob fu rest); [| done | rewrite length_app; lia | done | done | done].
  rewrite lift_bind, lift_obind. apply lift_ext. intros r.
  replace (bin_value op v r) with (expr_op (op_char op) v r : string + D) by (by destruct op).
  destruct (expr_op (op_char op) v r) as [m | v']; [done |]. cbn [of_sum lift]. rewrite op_loop_skip.
  apply (op_loop_fuel _ fu (term_consumes fu)); lia.
Qed.

Lemma tree_level e : ast_ok e -> at_level (level e) (show sp 0 e) (value mf e).
Proof.
  induction e as [n | | | w a IH | a IH | a IH | a IHa b IHb | op a IHa b IHb]; intros He; cbn [ast_ok level show paren value] in *.
  - by apply num_level.
  - by apply const_level.
  - by apply const_level.
  - destruct He as [[f Hf] Ha]. specialize (IH Ha). rewrite Hf. apply fn_level; [done |]. by apply (all_levels a _ IH 0); [lia].
  - specialize (IH He). eapply sign_level; [by left |]. apply (all_levels a _ IH 3). lia.
  - specialize (IH He). eapply sign_level; [by right |]. apply (all_levels a _ IH 3). lia.
  - destruct He as [Ha Hb]. specialize (IHa Ha). specialize (IHb Hb).
    apply pow_level; [apply (all_levels a _ IHa 3) | apply (all_levels b _ IHb 2)]; lia.
  - destruct He as [Ha Hb]. specialize (IHa Ha). specialize (IHb Hb). destruct (op_level op) eqn:E.
    + apply expr_op_level; [done | apply (all_levels a _ IHa 0) | apply (all_levels b _ IHb 1)]; lia.
    + assert (op_level op = 1%nat) as E1 by (by destruct op). rewrite E1 in E. injection E as <-.
      apply term_op_level; [done | apply (all_levels a _ IHa 1) | apply (all_levels b _ IHb 2)]; lia.
Qed.
End RoundTrip.


Definition sample_tree : ast :=
  let n d := ANum (mk_lit [d] None None) in
  ABin BSub (ABin BAdd (n 49) (ABin BMul (n 50) (APow (n 51) (n 50)))) (ABin BDiv (ANeg (ABin BAdd (n 52) (n 53))) (n 51)).

(** ** What the arithmetic does, in binary64 *)

(** The exponential of an infinite argument halves it forever. *)
Lemma c_exp_infinite_hangs mf : c_exp mf (S754_infinity false) = None.
Proof.
  unfold c_exp. assert (H : scale_while mf (dlt (d_of_int 1)) half 1 (S754_infinity false) 0 = None); [| by rewrite H].
  generalize 0 at 1. induction mf as [| mf IH]; intros n; [done |]. cbn [scale_while].
  change (dlt (d_of_int 1) (S754_infinity false)) with true. change (half (S754_infinity false)) with (S754_infinity false). apply IH.
Qed.

(** The remainder has the sign of the divisor. *)
Lemma modulo_sign : calc "-7 % 3" = Some (CValue (d_of_int 2)) /\ calc "7 % -3" = Some (CValue (d_of_int (-2))).
Proof. split; vm_compute; reflexivity. Qed.

(** Rounding down goes through a 32-bit integer. *)
Lemma floor_wraps : calc "floor(3000000000)" = Some (CValue (d_of_int (- 2 ^ 31))).
Proof. vm_compute. reflexivity. Qed.
