(* ===== verification/Mem.v ===== *)
(** * Mem: copying, filling and comparing bytes ([kernel/mem.c])

    The three functions on the byte memory of [Kstack.v], with the overlap of
    source and destination as the forward loop has it. *)

From S2P Require Import Prelude Kstack.

(** [for (i = 0; i < n; i++) d[i] = s[i];] *)
Fixpoint memcpy (n : nat) (m : gmap Z Z) (dst src : Z) : gmap Z Z :=
  match n with O => m | S n' => memcpy n' (st8 m dst (ld8 m src)) (dst + 1) (src + 1) end.

Fixpoint memset_loop (n : nat) (m : gmap Z Z) (dst b : Z) : gmap Z Z :=
  match n with O => m | S n' => memset_loop n' (st8 m dst b) (dst + 1) b end.
Definition memset (n : nat) (m : gmap Z Z) (dst v : Z) : gmap Z Z := memset_loop n m dst (u8 v).

Fixpoint memcmp (n : nat) (m : gmap Z Z) (a b : Z) : Z :=
  match n with
  | O => 0
  | S n' => if negb (ld8 m a =? ld8 m b) then if ld8 m a <? ld8 m b then -1 else 1 else memcmp n' m (a + 1) (b + 1)
  end.

(** A copy is exact when the destination does not start inside the source; the
    rest of memory is untouched. *)
Lemma memcpy_exact n : forall m dst src, dst <= src \/ src + Z.of_nat n <= dst ->
  forall x, ld8 (memcpy n m dst src) x = if (dst <=? x) && (x <? dst + Z.of_nat n) then ld8 m (src + (x - dst)) else ld8 m x.
Proof.
  induction n as [| n IH]; intros m dst src H x; cbn [memcpy].
  - destruct (Z.leb_spec dst x), (Z.ltb_spec x (dst + Z.of_nat 0)); cbn [andb]; (done || lia).
  - rewrite IH by lia. rewrite !ld8_st8.
    destruct (Z.leb_spec (dst + 1) x), (Z.ltb_spec x (dst + 1 + Z.of_nat n)), (Z.leb_spec dst x), (Z.ltb_spec x (dst + Z.of_nat (S n)));
      cbn [andb]; try lia.
    all: repeat match goal with |- context [?y =? ?z] => destruct (Z.eqb_spec y z) end; (done || lia || (f_equal; lia)).
Qed.

Lemma memset_exact n : forall m dst v x,
  ld8 (memset n m dst v) x = if (dst <=? x) && (x <? dst + Z.of_nat n) then u8 v else ld8 m x.
Proof.
  unfold memset. intros m dst v. revert m dst. induction n as [| n IH]; intros m dst x; cbn [memset_loop].
  - destruct (Z.leb_spec dst x), (Z.ltb_spec x (dst + Z.of_nat 0)); cbn [andb]; (done || lia).
  - rewrite IH, ld8_st8. destruct (Z.leb_spec (dst + 1) x), (Z.ltb_spec x (dst + 1 + Z.of_nat n)), (Z.leb_spec dst x),
      (Z.ltb_spec x (dst + Z.of_nat (S n))), (Z.eqb_spec dst x); cbn [andb]; (done || lia).
Qed.

(** The sign of the first difference, as unsigned bytes. *)
Lemma memcmp_exact n : forall m a b,
  match memcmp n m a b with
  | 0 => forall i, 0 <= i < Z.of_nat n -> ld8 m (a + i) = ld8 m (b + i)
  | r => exists k, 0 <= k < Z.of_nat n /\ (forall i, 0 <= i < k -> ld8 m (a + i) = ld8 m (b + i))
           /\ (if r <? 0 then ld8 m (a + k) < ld8 m (b + k) else ld8 m (b + k) < ld8 m (a + k))
  end.
Proof.
  induction n as [| n IH]; intros m a b; cbn [memcmp]; [intros i Hi; lia |].
  destruct (Z.eqb_spec (ld8 m a) (ld8 m b)) as [E | E]; cbn [negb].
  - specialize (IH m (a + 1) (b + 1)).
    assert (Heq : forall k, (forall i, 0 <= i < k -> ld8 m (a + 1 + i) = ld8 m (b + 1 + i)) ->
      forall i, 0 <= i < k + 1 -> ld8 m (a + i) = ld8 m (b + i)).
    { intros k Hk i Hi. destruct (Z.eq_dec i 0) as [-> |]; [by rewrite !Z.add_0_r |].
      replace (a + i) with (a + 1 + (i - 1)) by lia. replace (b + i) with (b + 1 + (i - 1)) by lia. apply Hk. lia. }
    destruct (memcmp n m (a + 1) (b + 1)) as [| r | r].
    + intros i Hi. apply (Heq (Z.of_nat n) IH). lia.
    + destruct IH as (k & Hk & H1 & H2). exists (k + 1). split; [lia |]. split; [by apply Heq |].
      replace (a + (k + 1)) with (a + 1 + k) by lia. by replace (b + (k + 1)) with (b + 1 + k) by lia.
    + destruct IH as (k & Hk & H1 & H2). exists (k + 1). split; [lia |]. split; [by apply Heq |].
      replace (a + (k + 1)) with (a + 1 + k) by lia. by replace (b + (k + 1)) with (b + 1 + k) by lia.
  - destruct (Z.ltb_spec (ld8 m a) (ld8 m b)); exists 0; (split; [lia |]; split; [intros; lia | rewrite !Z.add_0_r; cbn; lia]).
Qed.
