(* ===== verification/Task.v ===== *)
(** * Task: creating and collecting tasks ([kernel/task.c])

    The frames that a new task is given on its kernel stack, and the
    instructions that pop them the first time the task runs (the second half of
    [switch_to] and [task_irq_trampoline], [boot/task_switch.asm]; the frame of a
    system call is pushed by [boot/kernel_entry.asm]).  Then [task_create],
    [task_create_process] and [task_wait_pid_opt] on the task table of [Sched.v]
    with its stacks ([Kstack.v]), descriptor tables ([Fd.v]) and images
    ([Elf.v]). *)

From S2P Require Import Prelude Kstack Interfaces Keyboard Pmm Paging Elf Sched Fd.

(** ** Pushing and popping *)

(** [*--sp = v;] for each of the words. *)
Definition push (ms : bmem * Z) (v : Z) : bmem * Z := let sp := snd ms -! 4 in (st32 (fst ms) sp v, sp).
Definition push_all (ms : bmem * Z) (vs : list Z) : bmem * Z := fold_left push vs ms.

Record cpu := mk_cpu {
  r_eax : Z; r_ecx : Z; r_edx : Z; r_ebx : Z; r_ebp : Z; r_esi : Z; r_edi : Z;
  r_esp : Z; r_eip : Z; r_eflags : Z; r_cs : Z; r_ss : Z; r_ds : Z
}.

(** The word [k] above the stack pointer. *)
Definition word (m : bmem) (sp k : Z) : Z := ld32 m (sp +! 4 *! k).

(** From [mov esp, edx] in [switch_to] to the [iret] of the trampoline, for a
    stack whose return address is the trampoline; otherwise [None].  The
    trampoline's [push eax]/[pop eax] only moves a word below the frame. *)
Definition first_run (m : bmem) (sp trampoline : Z) : option cpu :=
  if word m sp 5 =? trampoline then
    let sp := sp +! 24 in
    let '(edi, esi, ebp) := (word m sp 0, word m sp 1, word m sp 2) in
    let '(ebx, edx, ecx, eax) := (word m sp 4, word m sp 5, word m sp 6, word m sp 7) in
    let sp := sp +! 32 in
    let '(eip, cs, eflags) := (word m sp 0, word m sp 1, word m sp 2) in
    if cs &! 3 =? 0 then Some (mk_cpu eax ecx edx ebx ebp esi edi (sp +! 12) eip eflags cs 0x10 0x10)
    else Some (mk_cpu eax ecx edx ebx ebp esi edi (word m sp 3) eip eflags cs (word m sp 4) 0x23)
  else None.

(** ** The frames *)

Definition frame_tail (trampoline : Z) : list Z := [trampoline; 0x0002; 0; 0; 0; 0].

Definition stack_init (task_exit trampoline : Z) (m : bmem) (top fn arg : Z) : bmem * Z :=
  push_all (m, top) ([arg; task_exit; 0x202; 0x08; fn] ++ replicate 8 0 ++ frame_tail trampoline).

Definition process_frame (trampoline : Z) (m : bmem) (top entry user_esp : Z) : bmem * Z :=
  push_all (m, top) ([0x23; user_esp; 0x202; 0x1B; entry] ++ replicate 8 0 ++ frame_tail trampoline).

(** The words of the child of a fork: those of the caller's frame [fr], read as
    they are pushed, and constants. *)
Inductive item := Fr (k : Z) | Const (v : Z).
Definition fork_items (trampoline : Z) : list item :=
  [Fr 20; Fr 19; Fr 18; Fr 17; Fr 16; Const 0; Fr 10; Fr 9; Fr 8; Const 0; Fr 6; Fr 5; Fr 4]
  ++ map Const (frame_tail trampoline).
Definition item_value (m : bmem) (fr : Z) (i : item) : Z := match i with Fr k => word m fr k | Const v => v end.
Definition push_item (fr : Z) (ms : bmem * Z) (i : item) : bmem * Z := push ms (item_value (fst ms) fr i).
Definition fork_frame (trampoline : Z) (m : bmem) (top fr : Z) : bmem * Z :=
  fold_left (push_item fr) (fork_items trampoline) (m, top).

(** What [int 0x80] and [syscall_entry] push on the kernel stack of the caller;
    the result is [g_syscall_frame].  [segs] are DS, ES, FS and GS. *)
Definition syscall_frame (m : bmem) (esp0 : Z) (c : cpu) (segs : list Z) (kesp : Z) : bmem * Z :=
  push_all (m, esp0) ([r_ss c; r_esp c; r_eflags c; r_cs c; r_eip c] ++ segs
    ++ [r_eax c; r_ecx c; r_edx c; r_ebx c; kesp; r_ebp c; r_esi c; r_edi c] ++ [r_edx c; r_ecx c; r_ebx c; r_eax c]).

(** ** Words on a stack *)

Lemma ld32_st32 m a v : is_u32 v -> ld32 (st32 m a v) a = v.
Proof.
  intros Hv. unfold ld32, st32. rewrite !ld8_st8.
  repeat match goal with |- context [?x =? ?y] => destruct (Z.eqb_spec x y); try lia end. unfold is_u32, u8 in *.
  change (2 ^ 8) with 256. change (2 ^ 16) with 65536. change (2 ^ 24) with 16777216. change (2 ^ 32) with 4294967296 in *.
  Z.to_euclidean_division_equations. lia.
Qed.
Lemma ld32_st32_ne m a b v : a + 4 <= b \/ b + 4 <= a -> ld32 (st32 m a v) b = ld32 m b.
Proof.
  intros H. unfold ld32, st32. rewrite !ld8_st8. by repeat match goal with |- context [?x =? ?y] => destruct (Z.eqb_spec x y); try lia end.
Qed.

(** What pushing leaves: the words from the new stack pointer up, and the rest
    of memory as it was. *)
Lemma push_all_spec vs : forall m sp, Forall is_u32 vs -> 4 * Z.of_nat (length vs) <= sp -> sp < 2 ^ 32 ->
  let ms := push_all (m, sp) vs in
  snd ms = sp - 4 * Z.of_nat (length vs)
  /\ (forall k, 0 <= k < Z.of_nat (length vs) -> ld32 (fst ms) (sp - 4 * Z.of_nat (length vs) + 4 * k) = aget 0 (rev vs) k)
  /\ (forall b, sp <= b \/ b + 4 <= sp - 4 * Z.of_nat (length vs) -> ld32 (fst ms) b = ld32 m b)
  /\ (forall b, sp <= b \/ b < sp - 4 * Z.of_nat (length vs) -> ld8 (fst ms) b = ld8 m b).
Proof.
  induction vs as [| v vs IH] using rev_ind; intros m sp Hvs Hsp Hhi.
  - cbn. split; [lia |]. split; [intros; lia |]. done.
  - apply Forall_app in Hvs as [Hvs Hv]. apply Forall_cons in Hv as [Hv _]. rewrite length_app in *. cbn [length] in *.
    destruct (IH m sp Hvs ltac:(lia) Hhi) as (H1 & H2 & H3 & H4). cbv zeta. unfold push_all in *. rewrite fold_left_app. cbn [fold_left].
    set (ms := fold_left push vs (m, sp)) in *. unfold push. rewrite H1. cbn [fst snd].
    rewrite u32_small by (unfold is_u32; lia). replace (sp - 4 * Z.of_nat (length vs) - 4) with (sp - 4 * Z.of_nat (length vs + 1)) by lia.
    set (a := sp - 4 * Z.of_nat (length vs + 1)) in *. split; [done |]. split; [| split].
    + intros k Hk. rewrite rev_app_distr. cbn [rev app]. destruct (Z.eq_dec k 0) as [-> |].
      * rewrite Z.mul_0_r, Z.add_0_r. by apply ld32_st32.
      * rewrite ld32_st32_ne by lia. unfold aget. replace (Z.to_nat k) with (S (Z.to_nat (k - 1))) by lia. cbn [nth].
        change (nth (Z.to_nat (k - 1)) (rev vs) 0) with (aget 0 (rev vs) (k - 1)). rewrite <- H2 by lia. f_equal. unfold a. lia.
    + intros b Hb. rewrite ld32_st32_ne by (unfold a in *; lia). apply H3. unfold a in *. lia.
    + intros b Hb. unfold st32. rewrite !ld8_st8.
      repeat match goal with |- context [?x =? ?y] => destruct (Z.eqb_spec x y); try (unfold a in *; lia) end. apply H4. unfold a in *. lia.
Qed.

(** A stack pointer with [n] free words below it. *)
Definition room (sp : Z) (n : nat) : Prop := 4 * Z.of_nat n <= sp /\ sp < 2 ^ 32.

Lemma push_word vs m sp k : Forall is_u32 vs -> room sp (length vs) -> 0 <= k < Z.of_nat (length vs) ->
  word (fst (push_all (m, sp) vs)) (snd (push_all (m, sp) vs)) k = aget 0 (rev vs) k.
Proof.
  intros Hvs [H1 H2] Hk. destruct (push_all_spec vs m sp Hvs H1 H2) as (E & Hw & _). rewrite E. unfold word.
  rewrite (u32_small (4 * k)), u32_small by (unfold is_u32; lia). by apply Hw.
Qed.

Lemma word_shift m sp j k : 0 <= j -> 0 <= k -> 0 <= sp -> sp + 4 * j + 4 * k < 2 ^ 32 -> word m (sp +! 4 * j) k = word m sp (j + k).
Proof. intros. unfold word. ured. f_equal. lia. Qed.

(** [first_run] in terms of the words of the frame. *)
Lemma first_run_words m sp t : 0 <= sp -> sp + 76 <= 2 ^ 32 -> first_run m sp t =
  let w := word m sp in
  if w 5 =? t then
    if w 15 &! 3 =? 0 then Some (mk_cpu (w 13) (w 12) (w 11) (w 10) (w 8) (w 7) (w 6) (u32 (sp + 68)) (w 14) (w 16) (w 15) 0x10 0x10)
    else Some (mk_cpu (w 13) (w 12) (w 11) (w 10) (w 8) (w 7) (w 6) (w 17) (w 14) (w 16) (w 15) (w 18) 0x23)
  else None.
Proof.
  intros H1 H2. cbv zeta. unfold first_run. destruct (word m sp 5 =? t); [| done].
  assert (E : sp +! 24 +! 32 = sp +! 4 * 14) by (ured; lia). rewrite E.
  assert (E6 : sp +! 24 = sp +! 4 * 6) by (f_equal; lia). rewrite E6, !word_shift by lia. cbn [Z.add Pos.add Pos.succ].
  replace (sp +! 4 * 14 +! 12) with (u32 (sp + 68)); [done |]. rewrite (u32_small (sp + 4 * 14)) by (unfold is_u32; lia). f_equal. lia.
Qed.

Lemma frame_esp vs m sp : Forall is_u32 vs -> room sp (length vs) -> snd (push_all (m, sp) vs) = sp - 4 * Z.of_nat (length vs).
Proof. intros Hvs [H1 H2]. apply (push_all_spec vs m sp Hvs H1 H2). Qed.

(** The first run of a kernel thread enters its function with interrupts enabled
    and, on the stack, its argument under the return address [task_exit]. *)
Lemma thread_first_run task_exit tramp m top fn arg : is_u32 task_exit -> is_u32 tramp -> is_u32 fn -> is_u32 arg -> room top 19 ->
  let ms := stack_init task_exit tramp m top fn arg in
  first_run (fst ms) (snd ms) tramp = Some (mk_cpu 0 0 0 0 0 0 0 (top - 8) fn 0x202 0x08 0x10 0x10)
  /\ ld32 (fst ms) (top - 8) = task_exit /\ ld32 (fst ms) (top - 4) = arg.
Proof.
  intros He Ht Hf Ha Hr. unfold stack_init. set (vs := _ ++ _ ++ frame_tail tramp). cbv zeta.
  assert (Hvs : Forall is_u32 vs) by (unfold vs, frame_tail; cbn; repeat constructor; (done || apply He || apply Ht || apply Hf || apply Ha)).
  assert (Hl : length vs = 19%nat) by done. pose proof Hr as [Hr1 Hr2]. rewrite <- Hl in Hr.
  pose proof (frame_esp vs m top Hvs Hr) as Hsp. rewrite Hl in Hsp.
  destruct (push_all_spec vs m top Hvs ltac:(rewrite Hl; lia) Hr2) as (_ & Hw & _). rewrite Hl in Hw. split; [| split].
  - rewrite first_run_words by lia. cbv zeta. rewrite !(push_word vs m top) by (done || (rewrite Hl; lia)).
    rewrite Hsp. replace (u32 (top - 4 * Z.of_nat 19 + 68)) with (top - 8) by (rewrite u32_small by (unfold is_u32; lia); lia).
    change (aget 0 (rev vs) 5) with tramp. by rewrite Z.eqb_refl.
  - specialize (Hw 17 ltac:(lia)). replace (top - 4 * Z.of_nat 19 + 4 * 17) with (top - 8) in Hw by lia. exact Hw.
  - specialize (Hw 18 ltac:(lia)). replace (top - 4 * Z.of_nat 19 + 4 * 18) with (top - 4) in Hw by lia. exact Hw.
Qed.

(** The first run of a process is at its entry point in ring 3 on its own stack. *)
Lemma process_first_run tramp m top entry user_esp : is_u32 tramp -> is_u32 entry -> is_u32 user_esp -> room top 19 ->
  let ms := process_frame tramp m top entry user_esp in
  first_run (fst ms) (snd ms) tramp = Some (mk_cpu 0 0 0 0 0 0 0 user_esp entry 0x202 0x1B 0x23 0x23).
Proof.
  intros Ht He Hu Hr. unfold process_frame. set (vs := _ ++ _ ++ frame_tail tramp). cbv zeta.
  assert (Hvs : Forall is_u32 vs) by (unfold vs, frame_tail; cbn; repeat constructor; (done || apply He || apply Ht || apply Hu)).
  assert (Hl : length vs = 19%nat) by done. pose proof Hr as [Hr1 Hr2]. rewrite <- Hl in Hr.
  pose proof (frame_esp vs m top Hvs Hr) as Hsp. rewrite Hl in Hsp.
  rewrite first_run_words by lia. cbv zeta. rewrite !(push_word vs m top) by (done || (rewrite Hl; lia)).
  change (aget 0 (rev vs) 5) with tramp. by rewrite Z.eqb_refl.
Qed.

(** ** Fork *)

(** The usable base of the stack of a slot; [area] is [g_kstack_area]. *)
Definition ks_base (area slot : Z) : Z := area + slot * (KS_GUARD + TASK_KSIZE) + KS_GUARD.
Definition ks_top (area slot : Z) : Z := ks_base area slot +! TASK_KSIZE.

(** The area of the linker script fits below the page pool. *)
Definition area_ok (area : Z) : Prop := 0 <= area /\ area + MAX_TASKS * (KS_GUARD + TASK_KSIZE) < 2 ^ 32.

Lemma ks_top_eq area i : area_ok area -> slot i -> ks_top area i = area + (i + 1) * 16448 /\ room (ks_top area i) 21.
Proof.
  unfold area_ok, slot, room, ks_top, ks_base, MAX_TASKS, KS_GUARD, TASK_KSIZE. intros [H1 H2] Hi. ured. lia.
Qed.

(** Pushing words read from a frame elsewhere is pushing the words it held. *)
Lemma push_items_eq fr its : forall m top, 0 <= fr -> fr + 84 < 2 ^ 32 ->
  Forall (fun i => match i with Fr k => 0 <= k <= 20 | Const _ => True end) its ->
  Forall is_u32 (map (item_value m fr) its) -> room top (length its) ->
  top <= fr \/ fr + 84 <= top - 4 * Z.of_nat (length its) ->
  fold_left (push_item fr) its (m, top) = push_all (m, top) (map (item_value m fr) its).
Proof.
  induction its as [| i its IH] using rev_ind; intros m top H0 H1 Hk Hu [Hr1 Hr2] Hd; [done |].
  rewrite length_app in *. cbn [length] in *. apply Forall_app in Hk as [Hk Hk']. apply Forall_cons in Hk' as [Hki _].
  rewrite map_app in *. apply Forall_app in Hu as [Hu _]. rewrite fold_left_app, IH by (solve [done | lia | split; lia]).
  unfold push_all. rewrite fold_left_app. cbn [map fold_left]. unfold push_item. fold (push_all (m, top) (map (item_value m fr) its)).
  f_equal. destruct i as [k | v]; [| done]. cbn [item_value]. unfold word.
  destruct (push_all_spec (map (item_value m fr) its) m top Hu ltac:(rewrite length_map; lia) Hr2) as (_ & _ & Hout & _).
  rewrite length_map in Hout. ured. apply Hout. lia.
Qed.

Record cpu_ok (c : cpu) : Prop := {
  co_regs : Forall is_u32 [r_eax c; r_ecx c; r_edx c; r_ebx c; r_ebp c; r_esi c; r_edi c; r_esp c; r_eip c; r_eflags c; r_cs c; r_ss c];
  co_ring3 : r_cs c &! 3 <> 0;
}.

(** C29. The child of a fork starts where its parent will continue: the parent, in
    ring 3 with the registers [c], makes a system call on its own kernel stack
    and [task_fork] builds the child's frame on the stack of another slot from
    the frame of the call; the first run of the child then has the parent's
    registers, stack, flags and instruction pointer, and 0 in EAX. *)
Theorem fork_child_resumes (area tramp kesp : Z) (parent child : Z) (c : cpu) (segs : list Z) (m m2 : gmap Z Z)
    (Harea : area_ok area) (Hp : slot parent) (Hc : slot child) (Hne : parent <> child)
    (Ht : is_u32 tramp) (Hk : is_u32 kesp) (Hcpu : cpu_ok c) (Hsegs : Forall is_u32 segs) (Hs4 : length segs = 4%nat)
    (Hkeep : let call := syscall_frame m (ks_top area parent) c segs kesp in
      forall k, 0 <= k <= 20 -> word m2 (snd call) k = word (fst call) (snd call) k) :
  let call := syscall_frame m (ks_top area parent) c segs kesp in
  let ms := fork_frame tramp m2 (ks_top area child) (snd call) in
  first_run (fst ms) (snd ms) tramp =
    Some (mk_cpu 0 (r_ecx c) (r_edx c) (r_ebx c) (r_ebp c) (r_esi c) (r_edi c) (r_esp c) (r_eip c) (r_eflags c) (r_cs c) (r_ss c) 0x23).
Proof.
  destruct (ks_top_eq area parent Harea Hp) as [Ep Rp]. destruct (ks_top_eq area child Harea Hc) as [Ec Rc].
  unfold slot, MAX_TASKS in Hp, Hc. destruct Harea as [Ha1 Ha2]. unfold MAX_TASKS, KS_GUARD, TASK_KSIZE in Ha2.
  set (ptop := ks_top area parent) in *. set (ctop := ks_top area child) in *. cbv zeta in *.
  unfold syscall_frame in *. set (vs := [r_ss c; _; _; _; _] ++ segs ++ _ ++ _) in *.
  destruct Hcpu as [Hregs Hring]. rewrite !Forall_cons in Hregs. destruct Hregs as (U1 & U2 & U3 & U4 & U5 & U6 & U7 & U8 & U9 & U10 & U11 & U12 & _).
  destruct segs as [| s1 [| s2 [| s3 [| s4 [|]]]]]; try done. clear Hs4. rewrite !Forall_cons in Hsegs. destruct Hsegs as (V1 & V2 & V3 & V4 & _).
  assert (Hvs : Forall is_u32 vs) by (unfold vs; cbn [app]; repeat (apply Forall_cons; split); done).
  assert (Hl : length vs = 21%nat) by done. pose proof (frame_esp vs m ptop Hvs Rp) as Hfr. rewrite Hl in Hfr.
  assert (Hw : forall k, 0 <= k <= 20 -> word m2 (snd (push_all (m, ptop) vs)) k = aget 0 (rev vs) k).
  { intros k Hk20. rewrite Hkeep by done. apply push_word; [done | done | rewrite Hl; lia]. }
  set (fr := snd (push_all (m, ptop) vs)) in *. clearbody fr. clear Hkeep.
  set (ws := [r_ss c; r_esp c; r_eflags c; r_cs c; r_eip c; 0; r_ecx c; r_edx c; r_ebx c; 0; r_ebp c; r_esi c; r_edi c] ++ frame_tail tramp).
  assert (Hmap : map (item_value m2 fr) (fork_items tramp) = ws) by (cbn [fork_items map app item_value frame_tail]; rewrite !Hw by lia; done).
  assert (Hws : Forall is_u32 ws) by (unfold ws, frame_tail; cbn [app]; repeat (apply Forall_cons; split); done).
  assert (Hroom : room ctop 19) by (destruct Rc; split; lia).
  unfold fork_frame. rewrite push_items_eq; [| lia | lia | repeat constructor; lia | by rewrite Hmap | done | cbn [length fork_items app map frame_tail]; lia].
  rewrite Hmap. pose proof (frame_esp ws m2 ctop Hws Hroom) as Hsp. change (length ws) with 19%nat in Hsp.
  rewrite first_run_words by lia. cbv zeta. rewrite !(push_word ws m2 ctop) by (done || (change (length ws) with 19%nat; lia)).
  change (aget 0 (rev ws) 5) with tramp. rewrite Z.eqb_refl. change (aget 0 (rev ws) 15) with (r_cs c).
  destruct (Z.eqb_spec (r_cs c &! 3) 0); done.
Qed.
Lemma fork_child_resumes_witness :
  let c := mk_cpu 57 1 2 3 4 5 6 0x7FF000 0x400010 0x202 0x1B 0x23 0x23 in
  let call := syscall_frame ∅ (ks_top 0x904000 1) c [0x23; 0x23; 0x23; 0x23] 0 in
  let ms := fork_frame 0x1234 (fst call) (ks_top 0x904000 2) (snd call) in
  first_run (fst ms) (snd ms) 0x1234 = Some (mk_cpu 0 1 2 3 4 5 6 0x7FF000 0x400010 0x202 0x1B 0x23 0x23).
Proof.
  apply (fork_child_resumes 0x904000 0x1234 0 1 2 (mk_cpu 57 1 2 3 4 5 6 0x7FF000 0x400010 0x202 0x1B 0x23 0x23)
    [0x23; 0x23; 0x23; 0x23] ∅); try done; [constructor; [repeat constructor; done | done] | repeat constructor; done].
Defined.

(** ** Creating tasks *)

Section Create.
(** The addresses of [g_kstack_area], [task_exit] and the trampoline. *)
Context (area task_exit_addr trampoline : Z).

Record tsys := mk_tsys {
  ts_sched : sched;
  ts_mem : gmap Z Z;
  g_stackchk_reported : list bool;
  ts_fds : list fd_table;
  ts_imgs : list elf_image_t;
}.

Definition task_name (name : option (list Z)) : list Z := match name with Some n => take 15 n | None => [] end.

(** Both constructors fill the whole entry of the slot, wait fields included. *)
Definition new_task (sp base top npid : Z) (nm : list Z) (pd user : Z) : task_t :=
  mk_task sp base top npid TASK_READY TASK_TIMESLICE 0 nm pd user 0 0 0 pd 0 (-1) 0 0.

Definition next_pid (st : sched) : sched :=
  mk_sched (g_tasks st) (g_current st) (g_next_pid st +! 1) (g_sched_count st) (g_lock_depth st) (g_ready st)
    (wqs st) (iflag st) (cr3_reg st) (tss_esp0 st).

(** Slot [i] is taken: its stack armed, its entry, descriptors and image reset. *)
Definition load_slot (s : tsys) (i : Z) (frame : gmap Z Z -> Z -> gmap Z Z * Z) (nm : list Z) (pd user : Z) : tsys * Z :=
  let base := ks_base area i in
  let top := base +! TASK_KSIZE in
  let m := stackchk_arm (ts_mem s) base TASK_KSIZE in
  let npid := g_next_pid (ts_sched s) in
  let '(m, sp) := frame m top in
  let img := aget img_empty (ts_imgs s) i in
  (mk_tsys (upd (next_pid (ts_sched s)) i (new_task sp base top npid nm pd user)) m
     (aset (g_stackchk_reported s) i false) (aset (ts_fds s) i fd_table_init)
     (aset (ts_imgs s) i (mk_img (i_entry img) (i_brk img) [])), s32 npid).

Definition task_create (s : tsys) (name : option (list Z)) (fn arg : Z) : tsys * Z :=
  if negb (g_ready (ts_sched s)) || (fn =? 0) then (s, -1)
  else
    match free_slot (ts_sched s) with
    | None => (s, -1)
    | Some i => load_slot s i (fun m top => stack_init task_exit_addr trampoline m top fn arg) (task_name name) 0 0
    end.

Definition task_create_process (s : tsys) (name : option (list Z)) (entry user_esp pd_phys : Z) : tsys * Z :=
  if negb (g_ready (ts_sched s)) || (pd_phys =? 0) then (s, -1)
  else
    match free_slot (ts_sched s) with
    | None => (s, -1)
    | Some i => load_slot s i (fun m top => process_frame trampoline m top entry user_esp) (task_name name) pd_phys 1
    end.

(** ** Collecting them *)

Definition WNOHANG : Z := 1.

(** One pass of the loop of [task_wait_pid_opt]: a result, or [None] when it goes
    to sleep on [g_wq_reap] and will look again. *)
Definition wait_pass (st : sched) (p options : Z) : sched * option Z :=
  match task_find st p with
  | None => (st, Some (-1))
  | Some i =>
      let t := task st i in
      if state_is (state t) TASK_ZOMBIE then
        (upd st i (mk_task (esp t) (kstack t) (kstack_top t) 0 TASK_UNUSED (ticks t) (switches t) [] 0 0 (exit_code t)
           (user_stack_phys t) (user_stack_pages t) (pd_phys t) (pt_phys t) (wait_next t) (wake_tick t) (wait_q t)),
         Some (exit_code t))
      else if negb (options &! WNOHANG =? 0) then (st, Some (-2))
      else (st, None)
  end.
Definition task_wait_pid_opt (st : sched) (p options : Z) : sched * option Z :=
  if negb (g_ready st) || (p <=? 0) then (st, Some (-1)) else wait_pass st p options.

(** ** What a new task is *)

(** The entry of slot [i] is that of a new task and the others are as before; its
    guard is whole, memory outside its stack is untouched, and its first run is
    the processor state [c]. *)
Record created (s s' : tsys) (i : Z) (nm : list Z) (pd user : Z) (c : cpu) : Prop := {
  cr_task : exists sp, task (ts_sched s') i = new_task sp (ks_base area i) (ks_top area i) (g_next_pid (ts_sched s)) nm pd user
    /\ first_run (ts_mem s') sp trampoline = Some c;
  cr_others : forall j, slot j -> j <> i -> task (ts_sched s') j = task (ts_sched s) j;
  cr_next : g_next_pid (ts_sched s') = g_next_pid (ts_sched s) +! 1;
  cr_guard : stackchk_broken_layer (ts_mem s') (ks_base area i) TASK_KSIZE = -1;
  cr_memory : forall b, b < ks_base area i - KS_GUARD \/ ks_top area i <= b -> ld8 (ts_mem s') b = ld8 (ts_mem s) b;
}.

Lemma find_slot_range f ts : forall i k, find_slot f ts i = Some k -> i <= k < i + Z.of_nat (length ts).
Proof.
  induction ts as [| t ts IH]; intros i k; cbn [find_slot length]; [done |]. destruct (f t); [intros [= <-]; lia |].
  intros H%IH. lia.
Qed.
Lemma free_slot_range st i : table_ok st -> free_slot st = Some i -> slot i.
Proof. unfold table_ok, slot, MAX_TASKS. intros Hl H%find_slot_range. rewrite Hl in H. lia. Qed.

Lemma ks_stack i : area_ok area -> slot i -> stack_at (ks_base area i) TASK_KSIZE /\ ks_top area i = ks_base area i + TASK_KSIZE.
Proof.
  unfold area_ok, slot, ks_top, ks_base, MAX_TASKS, KS_GUARD, TASK_KSIZE. intros [H1 H2] Hi. ured. split; [| lia].
  constructor; unfold KS_CANARY, KS_GUARD; lia.
Qed.

Lemma load_slot_created s i frame nm pd user c : table_ok (ts_sched s) -> area_ok area -> slot i ->
  (forall m, let ms := frame m (ks_top area i) in first_run (fst ms) (snd ms) trampoline = Some c
     /\ forall b, ks_top area i <= b \/ b < ks_top area i - 76 -> ld8 (fst ms) b = ld8 m b) ->
  let r := load_slot s i frame nm pd user in
  snd r = s32 (g_next_pid (ts_sched s)) /\ created s (fst r) i nm pd user c
  /\ exists m, ts_mem (fst r) = fst (frame m (ks_top area i)).
Proof.
  intros Ht Ha Hi Hf. destruct (ks_stack i Ha Hi) as [Hst Etop]. pose proof (ks_top_eq area i Ha Hi) as [_ [R1 R2]].
  unfold load_slot. fold (ks_top area i). set (m0 := stackchk_arm (ts_mem s) (ks_base area i) TASK_KSIZE).
  destruct (Hf m0) as [Hrun Hmem]. assert (Em : exists m, fst (frame m0 (ks_top area i)) = fst (frame m (ks_top area i))) by by exists m0.
  destruct (frame m0 (ks_top area i)) as [m1 sp]. cbn [fst snd] in *.
  split; [done |]. split; [| exact Em]. clear Em. unfold TASK_KSIZE, KS_GUARD, KS_CANARY in *. constructor; cbn [ts_sched ts_mem].
  - exists sp. split; [| done]. rewrite task_upd by done. by rewrite Z.eqb_refl.
  - intros j Hj Hne. rewrite task_upd by done. destruct (Z.eqb_spec i j); [congruence | done].
  - done.
  - pose proof (layer_spec (ts_mem s) m1 (ks_base area i) 16384 Hst) as L. unfold KS_GUARD, KS_CANARY in L.
    destruct L as [[_ (b & Hb & Hne)] | [_ [[_ (b & Hb & Hne)] | [E _]]]]; [| | exact E]; destruct Hne; apply Hmem; lia.
  - intros b Hb. unfold KS_GUARD in Hb. rewrite Hmem by lia. unfold m0. rewrite arm_bytes by done. unfold KS_GUARD, KS_CANARY.
    destruct (Z.leb_spec (ks_base area i - 64) b), (Z.ltb_spec b (ks_base area i)), (Z.leb_spec (ks_base area i) b), (Z.ltb_spec b (ks_base area i + 16)),
      (Z.leb_spec (ks_base area i + 16) b), (Z.ltb_spec b (ks_base area i + 16384)); cbn [andb]; (done || lia).
Qed.

Lemma stack_init_outside te tr m top fn arg b : is_u32 te -> is_u32 tr -> is_u32 fn -> is_u32 arg -> room top 19 ->
  top <= b \/ b < top - 76 -> ld8 (fst (stack_init te tr m top fn arg)) b = ld8 m b.
Proof.
  intros He Ht Hf Ha [R1 R2] Hb. unfold stack_init. set (vs := _ ++ _ ++ frame_tail tr).
  assert (Hvs : Forall is_u32 vs) by (unfold vs, frame_tail; cbn; repeat constructor; (done || apply He || apply Ht || apply Hf || apply Ha)).
  destruct (push_all_spec vs m top Hvs) as (_ & _ & _ & Ho); [change (length vs) with 19%nat; lia | done |]. apply Ho.
  change (length vs) with 19%nat. lia.
Qed.
Lemma process_frame_outside tr m top en ue b : is_u32 tr -> is_u32 en -> is_u32 ue -> room top 19 ->
  top <= b \/ b < top - 76 -> ld8 (fst (process_frame tr m top en ue)) b = ld8 m b.
Proof.
  intros Ht He Hu [R1 R2] Hb. unfold process_frame. set (vs := _ ++ _ ++ frame_tail tr).
  assert (Hvs : Forall is_u32 vs) by (unfold vs, frame_tail; cbn; repeat constructor; (done || apply He || apply Ht || apply Hu)).
  destruct (push_all_spec vs m top Hvs) as (_ & _ & _ & Ho); [change (length vs) with 19%nat; lia | done |]. apply Ho.
  change (length vs) with 19%nat. lia.
Qed.

(** Creating a task fails exactly when the scheduler is not ready, an argument
    is null or the table is full, and then changes nothing; otherwise the first
    free slot holds a ready task with the next process number, whose stack guard
    is whole, whose first run enters the given function (in ring 0, with its
    argument and [task_exit] on the stack) or the given entry point (in ring 3,
    on the given stack), and no other task or memory changes. *)
Theorem task_create_runs (s : tsys) (name : option (list Z)) (fn arg user_esp pd : Z)
    (Ht : table_ok (ts_sched s)) (Ha : area_ok area) (He : is_u32 task_exit_addr) (Hr : is_u32 trampoline)
    (Hfn : is_u32 fn) (Harg : is_u32 arg) (Hesp : is_u32 user_esp) :
  let full := negb (g_ready (ts_sched s)) || bool_decide (free_slot (ts_sched s) = None) in
  (if full || (fn =? 0) then task_create s name fn arg = (s, -1)
   else exists i s', free_slot (ts_sched s) = Some i /\ task_create s name fn arg = (s', s32 (g_next_pid (ts_sched s)))
     /\ created s s' i (task_name name) 0 0 (mk_cpu 0 0 0 0 0 0 0 (ks_top area i - 8) fn 0x202 0x08 0x10 0x10)
     /\ ld32 (ts_mem s') (ks_top area i - 8) = task_exit_addr /\ ld32 (ts_mem s') (ks_top area i - 4) = arg)
  /\ (if full || (pd =? 0) then task_create_process s name fn user_esp pd = (s, -1)
      else exists i s', free_slot (ts_sched s) = Some i /\ task_create_process s name fn user_esp pd = (s', s32 (g_next_pid (ts_sched s)))
        /\ created s s' i (task_name name) pd 1 (mk_cpu 0 0 0 0 0 0 0 user_esp fn 0x202 0x1B 0x23 0x23)).
Proof.
  cbv zeta. unfold task_create, task_create_process. destruct (g_ready (ts_sched s)); cbn [negb orb]; [| done].
  destruct (free_slot (ts_sched s)) as [i |] eqn:E; cbn [bool_decide decide decide_rel option_eq_dec orb]; [| by destruct (fn =? 0), (pd =? 0)].
  pose proof (free_slot_range _ _ Ht E) as Hi.
  assert (Hroom : room (ks_top area i) 19) by (destruct (ks_top_eq area i Ha Hi) as [_ [? ?]]; split; lia). change (bool_decide (Some i = None)) with false. cbn [orb]. split.
  - destruct (fn =? 0); [done |].
    set (fr := fun m top => stack_init task_exit_addr trampoline m top fn arg).
    destruct (load_slot_created s i fr (task_name name) 0 0 (mk_cpu 0 0 0 0 0 0 0 (ks_top area i - 8) fn 0x202 0x08 0x10 0x10) Ht Ha Hi)
      as (H1 & H2 & m & Em).
    { intros m. destruct (thread_first_run task_exit_addr trampoline m (ks_top area i) fn arg He Hr Hfn Harg Hroom) as (W & _).
      split; [exact W |]. intros b Hb. exact (stack_init_outside _ _ m _ _ _ b He Hr Hfn Harg Hroom Hb). }
    destruct (load_slot s i fr _ _ _) as [s' p] eqn:El. exists i, s'. cbn [fst snd] in H1, H2, Em. subst p.
    destruct (thread_first_run task_exit_addr trampoline m (ks_top area i) fn arg He Hr Hfn Harg Hroom) as (_ & W1 & W2).
    unfold fr in Em. rewrite <- Em in W1, W2. exact (conj eq_refl (conj eq_refl (conj H2 (conj W1 W2)))).
  - destruct (pd =? 0); [done |]. set (fr := fun m top => process_frame trampoline m top fn user_esp).
    destruct (load_slot_created s i fr (task_name name) pd 1 (mk_cpu 0 0 0 0 0 0 0 user_esp fn 0x202 0x1B 0x23 0x23) Ht Ha Hi)
      as (H1 & H2 & _).
    { intros m. split; [exact (process_first_run trampoline m (ks_top area i) fn user_esp Hr Hfn Hesp Hroom) |].
      intros b Hb. exact (process_frame_outside _ m _ _ _ b Hr Hfn Hesp Hroom Hb). }
    destruct (load_slot s i fr _ _ _) as [s' p] eqn:El. exists i, s'. cbn [fst snd] in H1, H2. subst p. exact (conj eq_refl (conj eq_refl H2)).
Qed.
End Create.

Definition tsys_empty : tsys :=
  mk_tsys (mk_sched (replicate 8 task_unused) 0 1 0 0 true ∅ true 0 0) ∅ (replicate 8 false) (replicate 8 []) (replicate 8 img_empty).

Lemma task_create_runs_witness :
  exists i s', free_slot (ts_sched tsys_empty) = Some i
    /\ task_create_process 0x904000 0x2222 tsys_empty None 0x400000 0x7FF000 0xA00000 = (s', s32 (g_next_pid (ts_sched tsys_empty)))
    /\ created 0x904000 0x2222 tsys_empty s' i (task_name None) 0xA00000 1 (mk_cpu 0 0 0 0 0 0 0 0x7FF000 0x400000 0x202 0x1B 0x23 0x23).
Proof.
  assert (H : table_ok (ts_sched tsys_empty) /\ area_ok 0x904000) by done. destruct H as [Ht Ha].
  assert (U : is_u32 0x1111 /\ is_u32 0x2222 /\ is_u32 0x400000 /\ is_u32 5 /\ is_u32 0x7FF000) by done. destruct U as (U1 & U2 & U3 & U4 & U5).
  exact (proj2 (task_create_runs 0x904000 0x1111 0x2222 tsys_empty None 0x400000 5 0x7FF000 0xA00000 Ht Ha U1 U2 U3 U4 U5)).
Defined.

(** ** Collecting *)

(** No other entry in use has this process number. *)
Definition only_pid (st : sched) (i p : Z) : Prop :=
  forall j, slot j -> j <> i -> state (task st j) <> TASK_UNUSED -> pid (task st j) <> u32 p.

Lemma find_slot_none f ts : forall i, (forall k, (k < length ts)%nat -> f (nth k ts task_unused) = false) -> find_slot f ts i = None.
Proof.
  induction ts as [| t ts IH]; intros i H; cbn [find_slot]; [done |].
  pose proof (H 0%nat ltac:(cbn; lia)) as H0. cbn [nth] in H0. rewrite H0. apply IH. intros k Hk. apply (H (S k)). cbn. lia.
Qed.

(** An exit code is collected once: afterwards the process does not exist. *)
Lemma wait_collects_once st p options st' code : table_ok st -> g_ready st = true -> 0 < p ->
  forall i, task_find st p = Some i -> state (task st i) = TASK_ZOMBIE -> only_pid st i p ->
  task_wait_pid_opt st p options = (st', Some code) -> code = exit_code (task st i) /\ task_wait_pid_opt st' p options = (st', Some (-1)).
Proof.
  intros Ht Hr Hp i Hf Hz Ho. unfold task_wait_pid_opt, wait_pass. rewrite Hr, Hf. cbn [negb orb].
  destruct (Z.leb_spec p 0); [lia |]. unfold state_is at 1. rewrite bool_decide_true by done. intros [= <- <-]. split; [done |].
  assert (Hi : slot i).
  { unfold task_find in Hf. rewrite Hr in Hf. destruct (p <=? 0); [done |]. cbn in Hf. apply find_slot_range in Hf.
    unfold table_ok in Ht. unfold slot, MAX_TASKS. lia. }
  set (t := mk_task _ _ _ _ _ _ _ _ _ _ _ _ _ _ _ _ _ _). cbn [upd set_tasks g_ready]. rewrite Hr. cbn [negb orb].
  assert (En : task_find (upd st i t) p = None); [| by rewrite En].
  unfold task_find. cbn [upd set_tasks g_ready]. rewrite Hr. destruct (Z.leb_spec p 0); [lia |]. cbn [negb orb].
  apply find_slot_none. intros k Hk. change (nth k (aset (g_tasks st) i t) task_unused) with (nth k (g_tasks (upd st i t)) task_unused).
  assert (Ek : nth k (g_tasks (upd st i t)) task_unused = task (upd st i t) (Z.of_nat k)) by (unfold task, aget; by rewrite Nat2Z.id).
  rewrite Ek. cbn [upd set_tasks g_tasks] in Hk. rewrite length_aset in Hk. unfold table_ok in Ht. rewrite Ht in Hk.
  assert (Hks : slot (Z.of_nat k)) by (unfold slot, MAX_TASKS; lia). rewrite task_upd by done.
  destruct (Z.eqb_spec i (Z.of_nat k)) as [E | E]; [done |].
  destruct (decide (state (task st (Z.of_nat k)) = TASK_UNUSED)) as [Eu | Eu]; [by rewrite Eu |].
  apply andb_false_iff. right. apply Z.eqb_neq. apply (Ho (Z.of_nat k)); [done | congruence | done].
Qed.

(** The results -1 and -2 of [task_wait_pid_opt] are also exit codes. *)
Lemma wait_result_ambiguous : exists st st',
  task_wait_pid_opt st 1 WNOHANG = (st, Some (-2)) /\ snd (task_wait_pid_opt st' 1 WNOHANG) = Some (-2).
Proof.
  set (t s c := mk_task 0 0 0 1 s 0 0 [] 0 1 c 0 0 0 0 (-1) 0 0).
  exists (mk_sched (t TASK_READY 0 :: replicate 7 task_unused) 0 2 0 0 true ∅ true 0 0),
    (mk_sched (t TASK_ZOMBIE (-2) :: replicate 7 task_unused) 0 2 0 0 true ∅ true 0 0). done.
Qed.
