(* ===== verification/Proc.v ===== *)
(** * Proc: fork, exit and reaping ([kernel/task.c])

    [task_fork], [process_exit] and [task_reap_zombies] on the whole state they
    touch: task table and queues ([Sched.v]), descriptors and pipes ([Fd.v]),
    pages and page tables ([Pmm.v], [Paging.v], [Space.v]), kernel stacks
    ([Kstack.v], [Task.v]) and the accounts of the images ([Elf.v]). *)

From S2P Require Import Prelude Kstack Kmalloc Interfaces HeapAlloc Keyboard Pmm Paging Elf ElfLoad Space Sched Fd FdProps Task.

Section Proc.
Context {H F : Type} `{HA : Allocator H} `{FS : FileSys F}.
(** The wait queues of the pipes and [g_wq_reap], [g_kstack_area] and the
    address of [task_irq_trampoline]. *)
Variable pipe_wq : Z -> Z.
Variables wq_reap area trampoline : Z.

Notation kern := (@kern H F).
Notation fd_close := (fd_close pipe_wq).
Implicit Types w : kern.

Record proc := mk_proc {
  pr_kern : kern;
  pr_mach : mach;
  pr_kmem : gmap Z Z;
  pr_reported : list bool;
  pr_imgs : list elf_image_t;
}.

Definition with_kern (p : proc) (k : kern) : proc := mk_proc k (pr_mach p) (pr_kmem p) (pr_reported p) (pr_imgs p).
Definition with_mach (p : proc) (m : mach) : proc := mk_proc (pr_kern p) m (pr_kmem p) (pr_reported p) (pr_imgs p).
Definition psched (p : proc) : sched := ksched (pr_kern p).
Definition with_sched (p : proc) (s : sched) : proc := with_kern p (set_sched (pr_kern p) s).
Definition img_of (p : proc) (i : Z) : elf_image_t := aget img_empty (pr_imgs p) i.
Definition with_img (p : proc) (i : Z) (g : elf_image_t) : proc :=
  mk_proc (pr_kern p) (pr_mach p) (pr_kmem p) (pr_reported p) (aset (pr_imgs p) i g).

(** ** Fork *)

(** The entry of the child, without its stack pointer. *)
Definition forked_task (base npid : Z) (parent : task_t) (sp : space) (esp : Z) : task_t :=
  mk_task esp base (base +! TASK_KSIZE) npid TASK_READY TASK_TIMESLICE 0 (take 15 (name parent)) (sp_pd sp) 1 0
    (sp_stack sp) (user_stack_pages parent) (sp_pd sp) (sp_pt sp) (-1) 0 0.

(** Step 4 and 5: the child takes slot [i]; [None] is a fault. *)
Definition fork_register (p : proc) (i frame : Z) (sp : space) : option (proc * Z) :=
  let cur := g_current (psched p) in
  let parent := task (psched p) cur in
  let base := ks_base area i in
  let kmem := stackchk_arm (pr_kmem p) base TASK_KSIZE in
  let npid := g_next_pid (psched p) in
  let img := img_of p cur in
  match fd_table_dup (pr_kern p) i cur with
  | Ret k _ =>
      let '(kmem, esp) := fork_frame trampoline kmem (base +! TASK_KSIZE) frame in
      let s := upd (next_pid (ksched k)) i (forked_task base npid parent sp esp) in
      Some (mk_proc (set_sched k (task_unlock s)) (pr_mach p) kmem (aset (pr_reported p) i false)
              (aset (pr_imgs p) i (mk_img (i_entry img) (i_brk img) (with_phys (i_segs img) (sp_segs sp)))), s32 npid)
  | _ => None
  end.

Definition task_fork (p : proc) (frame : Z) : option (proc * Z) :=
  if negb (Sched.g_ready (psched p)) || (frame =? 0) then Some (p, -1)
  else
    let cur := g_current (psched p) in
    let parent := task (psched p) cur in
    if (is_user parent =? 0) || (cr3 parent =? 0) then Some (p, -1)
    else
      let p := with_sched p (task_lock (psched p)) in
      match free_slot (psched p) with
      | None => Some (with_sched p (task_unlock (psched p)), -1)
      | Some i =>
          '(m, r) ← fork_space (pr_mach p) (cr3 parent) (i_segs (img_of p cur)) (user_stack_pages parent);
          let p := with_mach p m in
          match r with
          | None => Some (with_sched p (task_unlock (psched p)), -1)
          | Some sp => fork_register p i frame sp
          end
      end.

(** ** Exit *)

(** [for (f = 3; f < MAX_OPEN_FDS; f++) fd_close(&t->fds, f);] *)
Fixpoint close_from (n : nat) (w : kern) (ti fd : Z) : outcome unit :=
  match n with
  | O => Ret w tt
  | S n' =>
      match fd_close w ti fd with
      | Ret w _ => close_from n' w ti (fd + 1)
      | Sleep w => Sleep w
      | Fault => Fault
      end
  end.
Definition close_all (w : kern) (ti : Z) : outcome unit := close_from (Z.to_nat (MAX_OPEN_FDS - 3)) w ti 3.

(** [schedule] up to [switch_to], with the register it loads. *)
Definition proc_schedule (p : proc) : proc :=
  let s := fst (schedule_switch (psched p)) in
  let p' := with_sched p s in
  if cr3_reg s =? cr3_reg (psched p) then p' else with_mach p' (in_space (pr_mach p) (cr3_reg s)).

Definition exit_entry (t : task_t) (code : Z) : task_t :=
  mk_task (esp t) (kstack t) (kstack_top t) (pid t) TASK_ZOMBIE (ticks t) (switches t) (name t) (cr3 t) (is_user t) code
    (user_stack_phys t) (user_stack_pages t) (pd_phys t) (pt_phys t) (wait_next t) (wake_tick t) (wait_q t).
Definition no_cr3 (t : task_t) : task_t :=
  mk_task (esp t) (kstack t) (kstack_top t) (pid t) (state t) (ticks t) (switches t) (name t) 0 (is_user t) (exit_code t)
    (user_stack_phys t) (user_stack_pages t) (pd_phys t) (pt_phys t) (wait_next t) (wake_tick t) (wait_q t).
Definition no_space (t : task_t) : task_t :=
  mk_task (esp t) (kstack t) (kstack_top t) (pid t) (state t) (ticks t) (switches t) (name t) (cr3 t) (is_user t) (exit_code t)
    0 0 0 0 (wait_next t) (wake_tick t) (wait_q t).

(** Up to the loop that closes the descriptors. *)
Definition exit_release (p : proc) (code : Z) : proc :=
  let me := g_current (psched p) in
  let s := upd (psched p) me (exit_entry (task (psched p) me) code) in
  let s := task_wake_all s wq_reap in
  let s := if negb (wait_q (task s me) =? 0) then task_wake_all s (wait_q (task s me)) else s in
  let s := set_cr3 s PAGING_PD_ADDR in
  let s := upd s me (no_cr3 (task s me)) in
  let t := task s me in
  let img := img_of p me in
  let m := in_space (pr_mach p) PAGING_PD_ADDR in
  let m := set_pmm m (free_space (m_pmm m) (i_segs img) (user_stack_phys t) (user_stack_pages t) (pt_phys t) (pd_phys t)) in
  let p := with_sched (with_mach p m) (upd s me (no_space t)) in
  with_img p me (mk_img (i_entry img) (i_brk img) []).

(** [process_exit] of a user process until it gives up the processor for good. *)
Definition process_exit (p : proc) (code : Z) : option proc :=
  if negb (Sched.g_ready (psched p)) then Some p
  else
    let me := g_current (psched p) in
    if is_user (task (psched p) me) =? 0 then
      let s := upd (psched p) me (set_state (task (psched p) me) TASK_ZOMBIE) in
      let s := upd s me (set_ticks (task s me) 0) in
      Some (proc_schedule (with_sched p s))
    else
      let p := exit_release p code in
      match close_all (pr_kern p) me with
      | Ret k _ => Some (proc_schedule (with_kern p k))
      | _ => None
      end.

(** ** Reaping *)

Definition reaped (t : task_t) : task_t :=
  mk_task 0 (kstack t) (kstack_top t) 0 TASK_UNUSED (ticks t) (switches t) [] (cr3 t) (is_user t) (exit_code t)
    (user_stack_phys t) (user_stack_pages t) (pd_phys t) (pt_phys t) (wait_next t) (wake_tick t) (wait_q t).

(** [task_reap_zombies], which [schedule] runs when it has the processor again. *)
Fixpoint reap_from (n : nat) (w : kern) (i : Z) : outcome unit :=
  match n with
  | O => Ret w tt
  | S n' =>
      let t := task (ksched w) i in
      if negb (state_is (state t) TASK_ZOMBIE) || negb (is_user t =? 0) then reap_from n' w (i + 1)
      else
        match close_all w i with
        | Ret w _ => reap_from n' (set_sched w (upd (ksched w) i (reaped (task (ksched w) i)))) (i + 1)
        | Sleep w => Sleep w
        | Fault => Fault
        end
  end.
Definition task_reap_zombies (w : kern) : outcome unit := reap_from (Z.to_nat MAX_TASKS) w 0.

(** ** What the scheduler's updates leave alone *)

Lemma task_upd_nat st i j t : task (upd st i t) j =
  if decide (Z.to_nat i = Z.to_nat j /\ (Z.to_nat i < length (g_tasks st))%nat) then t else task st j.
Proof.
  unfold task, upd, set_tasks, aget, aset. cbn [g_tasks]. rewrite !nth_lookup.
  destruct (decide (Z.to_nat i = Z.to_nat j)) as [E | E].
  - rewrite <- E. destruct (decide (Z.to_nat i < length (g_tasks st))%nat) as [Hl | Hl].
    + rewrite list_lookup_insert_eq by done. by rewrite decide_True.
    + rewrite decide_False by tauto. by rewrite list_insert_ge by lia.
  - rewrite list_lookup_insert_ne by done. rewrite decide_False; [done | tauto].
Qed.

(** A field that the new entry shares with the old one. *)
Lemma upd_field {A} (f : task_t -> A) st i j t : f t = f (task st i) -> f (task (upd st i t) j) = f (task st j).
Proof.
  intros E. rewrite task_upd_nat. destruct (decide _) as [[Ei _] |]; [| done]. rewrite E. unfold task, aget. by rewrite Ei.
Qed.

Lemma wake_field {A} (f : task_t -> A) (Hf : forall t, f (woken t) = f t) st q j : f (task (task_wake_all st q) j) = f (task st j).
Proof.
  unfold task_wake_all. destruct (negb (Sched.g_ready st) || (q =? 0)); [done |].
  change (task (set_wq_head ?s q (-1)) j) with (task s j). generalize (wq_head st q). revert st.
  induction CHAIN_FUEL as [| n IH]; intros st i; cbn [wake_chain]; [done |]. destruct (i =? -1); [done |]. cbv zeta.
  rewrite IH. apply upd_field. by rewrite Hf.
Qed.

Lemma wake_table st q : length (g_tasks (task_wake_all st q)) = length (g_tasks st) /\ Sched.g_ready (task_wake_all st q) = Sched.g_ready st
  /\ g_current (task_wake_all st q) = g_current st /\ cr3_reg (task_wake_all st q) = cr3_reg st
  /\ g_lock_depth (task_wake_all st q) = g_lock_depth st /\ g_next_pid (task_wake_all st q) = g_next_pid st.
Proof.
  unfold task_wake_all. destruct (negb (Sched.g_ready st) || (q =? 0)); [done |]. cbn [set_wq_head set_wqs g_tasks Sched.g_ready g_current cr3_reg g_lock_depth g_next_pid].
  generalize (wq_head st q). revert st.
  induction CHAIN_FUEL as [| n IH]; intros st i; cbn [wake_chain]; [done |]. destruct (i =? -1); [done |]. cbv zeta.
  specialize (IH (upd st i (woken (task st i))) (wait_next (task st i))). destruct IH as (-> & -> & -> & -> & -> & ->).
  cbn [upd set_tasks g_tasks]. by rewrite length_aset.
Qed.

(** The fields that only creating, exiting and collecting a task change. *)
Definition account (t : task_t) : Z * list Z * Z * Z * Z * Z * Z * Z * Z * Z * Z * Z :=
  (pid t, name t, cr3 t, is_user t, exit_code t, user_stack_phys t, user_stack_pages t, pd_phys t, pt_phys t, kstack t, kstack_top t, esp t).
Definition is_zombie (t : task_t) : bool := state_is (state t) TASK_ZOMBIE.
Definition is_unused (t : task_t) : bool := state_is (state t) TASK_UNUSED.

Lemma account_woken t : account (woken t) = account t.
Proof. unfold woken. by destruct (state_is _ _). Qed.
Lemma zombie_woken t : is_zombie (woken t) = is_zombie t /\ is_unused (woken t) = is_unused t.
Proof. by destruct t as [? ? ? ? [] ? ? ? ? ? ? ? ? ? ? ? ? ?]. Qed.

Lemma account_fields t t' : account t = account t' ->
  pid t = pid t' /\ name t = name t' /\ cr3 t = cr3 t' /\ is_user t = is_user t' /\ exit_code t = exit_code t'
  /\ user_stack_phys t = user_stack_phys t' /\ user_stack_pages t = user_stack_pages t' /\ pd_phys t = pd_phys t' /\ pt_phys t = pt_phys t'.
Proof. unfold account. intros E. injection E as ???? ???? ????. split_and!; assumption. Qed.

(** Two states of the scheduler with the same accounts, and the same tasks in
    use, ended and unused. *)
Record same_tasks (s s' : sched) : Prop := {
  st_len : length (g_tasks s') = length (g_tasks s);
  st_ready : Sched.g_ready s' = Sched.g_ready s;
  st_account : forall j, account (task s' j) = account (task s j);
  st_zombie : forall j, is_zombie (task s' j) = is_zombie (task s j);
  st_unused : forall j, is_unused (task s' j) = is_unused (task s j);
}.

#[local] Instance same_tasks_preorder : PreOrder same_tasks.
Proof.
  split; [by constructor |]. intros a b c [] []. constructor; intros; etrans; eauto.
Qed.

Lemma same_upd s i t : account t = account (task s i) -> is_zombie t = is_zombie (task s i) -> is_unused t = is_unused (task s i) ->
  same_tasks s (upd s i t).
Proof.
  intros. constructor; [by apply length_aset | done | intros j; by apply upd_field..].
Qed.

Lemma same_wake s q : same_tasks s (task_wake_all s q).
Proof.
  destruct (wake_table s q) as (? & ? & _). constructor; try done; intros j; apply wake_field; intros; [apply account_woken | apply zombie_woken..].
Qed.

Lemma runnable_facts t : runnable t = true -> is_zombie t = false /\ is_unused t = false.
Proof. unfold runnable, is_zombie, is_unused. by destruct (state t). Qed.

Lemma pick_from_runnable n s i : let c := pick_from n s i in c = g_current s \/ runnable (task s c) = true.
Proof.
  revert i. induction n as [| n IH]; intros i; cbn [pick_from]; [by left |]. cbv zeta.
  destruct (runnable (task s _)) eqn:E; [by right | apply IH].
Qed.

Lemma same_schedule s : same_tasks s (fst (schedule_switch s)).
Proof.
  unfold schedule_switch. destruct (negb (Sched.g_ready s) || negb (g_lock_depth s =? 0)); [done |]. cbv zeta.
  set (c := g_current s). set (s1 := if 0 <? _ then _ else s).
  assert (H1 : same_tasks s s1 /\ g_current s1 = c) by (unfold s1; destruct (0 <? _); [split; [by apply same_upd | done] | done]).
  clearbody s1. destruct H1 as [H1 Ec]. etrans; [exact H1 |]. destruct (state_is (state (task s1 c)) TASK_RUNNING && _); [done |].
  pose proof (pick_from_runnable (Z.to_nat MAX_TASKS) s1 1) as Hp. cbv zeta in Hp. fold (pick_next s1) in Hp. rewrite Ec in Hp.
  destruct (Z.eqb_spec (pick_next s1) c) as [| Hne]; [by apply same_upd |]. destruct Hp as [? | Hp]; [done |].
  set (s2 := if state_is (state (task s1 c)) TASK_RUNNING then _ else s1).
  assert (H2 : same_tasks s1 s2 /\ runnable (task s2 (pick_next s1)) = true).
  { unfold s2. destruct (state_is (state (task s1 c)) TASK_RUNNING) eqn:Er; [| done]. apply bool_decide_eq_true in Er. split.
    - apply same_upd; [done | | ]; unfold is_zombie, is_unused; by rewrite Er.
    - rewrite task_upd_nat. destruct (decide _); [done | exact Hp]. }
  clearbody s2. destruct H2 as [H2 Hr]. etrans; [exact H2 |]. cbn [fst]. destruct (runnable_facts _ Hr) as [Z1 Z2].
  set (n := set_switches _ _). etrans; [apply (same_upd s2 (pick_next s1) n); [done | by rewrite Z1 | by rewrite Z2] | by constructor].
Qed.

(** ** Closing descriptors *)

Lemma entry_set_at (w : kern) ti fd e tj fj : entry (set_entry w ti fd e) tj fj =
  if decide (Z.to_nat ti = Z.to_nat tj /\ Z.to_nat fd = Z.to_nat fj) then (if entry w tj fj then Some e else None) else entry w tj fj.
Proof.
  unfold set_entry, entry. destruct (tabs w !! Z.to_nat ti) as [t |] eqn:Et.
  - cbn [tabs set_tabs]. destruct (decide (Z.to_nat ti = Z.to_nat tj)) as [E | E].
    + rewrite <- E, Et. rewrite list_lookup_insert_eq by (by eapply lookup_lt_Some). cbn [mbind option_bind].
      destruct (decide (Z.to_nat fd = Z.to_nat fj)) as [E' | E'].
      * rewrite decide_True, <- E' by done. destruct (t !! Z.to_nat fd) eqn:Ef.
        -- apply list_lookup_insert_eq. by eapply lookup_lt_Some.
        -- apply lookup_ge_None_2. eapply Nat.le_trans; [apply Nat.eq_le_incl, length_insert | by apply lookup_ge_None].
      * rewrite decide_False by tauto. by apply list_lookup_insert_ne.
    + rewrite decide_False by tauto. by rewrite list_lookup_insert_ne.
  - destruct (decide _) as [[E _] |]; [| done]. by rewrite <- E, Et.
Qed.

Lemma tabs_set_entry (w : kern) ti fd e : length (tabs (set_entry w ti fd e)) = length (tabs w) /\ ksched (set_entry w ti fd e) = ksched w.
Proof. unfold set_entry. destruct (tabs w !! Z.to_nat ti); [| done]. cbn. by rewrite length_insert. Qed.

Definition open_type (e : fd_entry_t) : bool := type_is (e_type e) FD_TYPE_FILE || type_is (e_type e) FD_TYPE_PIPE.

(** The scheduler's state after wake-ups and changes of the interrupt flag. *)
Record quiet (s s' : sched) : Prop := {
  qt_tasks : same_tasks s s';
  qt_current : g_current s' = g_current s;
  qt_cr3 : cr3_reg s' = cr3_reg s;
  qt_lock : g_lock_depth s' = g_lock_depth s;
  qt_pid : g_next_pid s' = g_next_pid s;
}.
#[local] Instance quiet_preorder : PreOrder quiet.
Proof. split; [by constructor |]. intros a b c [] []. constructor; etrans; eauto. Qed.

Lemma quiet_wake s q : quiet s (task_wake_all s q).
Proof. destruct (wake_table s q) as (_ & _ & ? & ? & ? & ?). constructor; try done. apply same_wake. Qed.

Lemma quiet_flag s q a b : quiet s (set_iflag (task_wake_all (set_iflag s a) q) b).
Proof.
  assert (Q1 : quiet s (set_iflag s a)) by (constructor; done).
  assert (Q2 : quiet (task_wake_all (set_iflag s a) q) (set_iflag (task_wake_all (set_iflag s a) q) b)) by (constructor; done).
  etrans; [exact Q1 |]. etrans; [apply quiet_wake | exact Q2].
Qed.

Record closed (w w' : kern) (ti fd : Z) : Prop := {
  cl_len : length (tabs w') = length (tabs w);
  cl_others : forall tj fj, ~ (Z.to_nat ti = Z.to_nat tj /\ Z.to_nat fd = Z.to_nat fj) -> entry w' tj fj = entry w tj fj;
  cl_entry : 0 <= fd < MAX_OPEN_FDS -> forall e, entry w' ti fd = Some e -> open_type e = false;
  cl_sched : quiet (ksched w) (ksched w');
}.

Lemma closed_intro w w1 ti fd e : tabs w1 = tabs w -> quiet (ksched w) (ksched w1) -> closed w (set_entry w1 ti fd (close_entry e)) ti fd.
Proof.
  intros Et Hq. destruct (tabs_set_entry w1 ti fd (close_entry e)) as [E1 E2]. constructor.
  - by rewrite E1, Et.
  - intros tj fj Hn. rewrite entry_set_at, decide_False by done. unfold entry. by rewrite Et.
  - intros _ e'. rewrite entry_set_at, decide_True by done. destruct (entry w1 ti fd); [| done]. by intros [= <-].
  - by rewrite E2.
Qed.

Lemma kfree_ptr_frame (w w' : kern) p : kfree_ptr w p = Some w' -> tabs w' = tabs w /\ ksched w' = ksched w.
Proof.
  unfold kfree_ptr, kfree_buf. destruct p as [| a |]; [by intros [= <-] | | done].
  destruct (release (k_heap w) a); [| done]. by intros [= <-].
Qed.
Lemma pipe_free_frame (w w' : kern) i : pipe_free w i = Some w' -> tabs w' = tabs w /\ ksched w' = ksched w.
Proof.
  unfold pipe_free, kfree_buf. destruct (negb _); cbn [mbind option_bind].
  - destruct (release _ _); [| done]. by intros [= <-].
  - by intros [= <-].
Qed.

Lemma fd_close_frame w ti fd : match fd_close w ti fd with Ret w' _ => closed w w' ti fd | Sleep _ => False | Fault => True end.
Proof.
  unfold Fd.fd_close, MAX_OPEN_FDS.
  assert (Hid : (0 <= fd < 16 -> forall e, entry w ti fd = Some e -> open_type e = false) -> closed w w ti fd) by (by constructor).
  destruct (Z.ltb_spec fd 0); [apply Hid; lia |]. destruct (Z.leb_spec 16 fd); [apply Hid; lia |]. cbn [orb].
  destruct (entry w ti fd) as [e |] eqn:Ee; [| by apply Hid].
  destruct (e_type e) eqn:Et; try (apply Hid; intros _ e' [= <-]; unfold open_type, type_is; by rewrite Et).
  - (* a file *)
    match goal with |- match (let '(k, rc) := ?x in _) with _ => _ end => destruct x as [k rc] eqn:Ek end.
    destruct k as [k |]; [| done]. cbn [or_fault].
    assert (Hk : tabs k = tabs w /\ ksched k = ksched w).
    { destruct (e_dirty e && _) in Ek; [| by injection Ek as <- <-]. destruct (buf_read _ _ _ _); [| done].
      destruct (fs_create_file _ _ _) in Ek. by injection Ek as <- <-. }
    destruct (kfree_ptr k (e_data e)) as [k' |] eqn:Ef; [| done]. apply kfree_ptr_frame in Ef as [F1 F2]. cbn [or_fault].
    destruct Hk as [K1 K2]. apply closed_intro; [congruence |]. by rewrite F2, K2.
  - (* a pipe *)
    destruct (e_data e) as [| a | i]; [apply closed_intro; done | done |]. cbv zeta.
    match goal with |- match or_fault ?x _ with _ => _ end => destruct x as [w1 |] eqn:E1 end; [| done]. cbn [or_fault].
    assert (Hw1 : tabs w1 = tabs w /\ ksched w1 = set_iflag (ksched w) false).
    { destruct (_ && _) in E1; [apply pipe_free_frame in E1 as [-> ->]; done | by injection E1 as <-]. }
    destruct Hw1 as [T1 S1]. apply closed_intro; [exact T1 |]. unfold sti, wake_pipe. cbn [set_sched ksched]. rewrite S1.
    apply quiet_flag.
Qed.

(** All descriptors of a table. *)
Lemma close_from_spec o ti n : forall w fd, 0 <= fd -> fd + Z.of_nat n <= MAX_OPEN_FDS -> fd_inv w o ->
  (forall fj e, fd <= fj -> entry w ti fj = Some e -> ~ hollow e) ->
  exists w', close_from n w ti fd = Ret w' tt /\ fd_inv w' o /\ quiet (ksched w) (ksched w') /\
    (forall tj fj, 0 <= fj -> Z.to_nat tj <> Z.to_nat ti \/ ~ (fd <= fj < fd + Z.of_nat n) -> entry w' tj fj = entry w tj fj) /\
    (forall fj e, fd <= fj < fd + Z.of_nat n -> entry w' ti fj = Some e -> open_type e = false).
Proof.
  induction n as [| n IH]; intros w fd H0 Hn Hinv Hh; cbn [close_from].
  { exists w. split_and!; try done. intros; lia. }
  pose proof (fd_close_safe pipe_wq w ti fd o Hinv (fun e He => Hh fd e ltac:(lia) He)) as Hs.
  pose proof (fd_close_frame w ti fd) as Hf. unfold MAX_OPEN_FDS in *. destruct (fd_close w ti fd) as [w1 v | |]; [| done | done]. cbn [post] in Hs.
  destruct Hf as [L1 L2 L3 L4].
  destruct (IH w1 (fd + 1)) as (w' & E & I1 & I2 & I3 & I4); [lia | lia | done | |].
  { intros fj e Hfj. rewrite L2 by lia. apply Hh. lia. }
  exists w'. split; [done |]. split; [done |]. split; [by etrans |]. split.
  - intros tj fj Hj Hor. rewrite I3 by lia. apply L2. lia.
  - intros fj e Hfj He. destruct (Z.eq_dec fj fd) as [-> |]; [| apply (I4 fj); [lia | done]].
    rewrite I3 in He by lia. apply L3; [unfold MAX_OPEN_FDS; lia | done].
Qed.

(** ** What exiting does *)

Definition segs_of (p : proc) (i : Z) : list seg := i_segs (img_of p i).
(** The account of the process in slot [i], and the pages it names. *)
Definition proc_acct_ok (p : proc) (i : Z) : Prop :=
  let t := task (psched p) i in acct_ok (segs_of p i) (user_stack_phys t) (user_stack_pages t) (pt_phys t) (pd_phys t).
Definition proc_pages (p : proc) (i : Z) : list Z :=
  let t := task (psched p) i in space_pages (segs_of p i) (user_stack_phys t) (user_stack_pages t) (pt_phys t) (pd_phys t).

(** Slot [me] has ended with [code]; the other tasks are in use as before. *)
Record ended (s s' : sched) (me code : Z) : Prop := {
  ed_len : length (g_tasks s') = length (g_tasks s);
  ed_ready : Sched.g_ready s' = Sched.g_ready s;
  ed_zombie : is_zombie (task s' me) = true;
  ed_code : exit_code (task s' me) = code;
  ed_pid : pid (task s' me) = pid (task s me);
  ed_user : is_user (task s' me) = is_user (task s me);
  ed_cr3 : cr3 (task s' me) = 0;
  ed_others : forall j, slot j -> j <> me -> account (task s' j) = account (task s j) /\ is_unused (task s' j) = is_unused (task s j);
}.

Lemma ended_same s s1 s2 me code : ended s s1 me code -> same_tasks s1 s2 -> ended s s2 me code.
Proof.
  intros [] [S1 S2 S3 S4 S5]. destruct (account_fields _ _ (S3 me)) as (A1 & _ & A3 & A4 & A5 & _). pose proof (S4 me). constructor; try congruence.
  intros j Hj Hne. rewrite S3, S5. auto.
Qed.

Lemma slot_upd s i j t : table_ok s -> slot i -> slot j -> task (upd s i t) j = if i =? j then t else task s j.
Proof. apply task_upd. Qed.

Lemma exit_release_sched p code : table_ok (psched p) -> slot (g_current (psched p)) ->
  let me := g_current (psched p) in
  ended (psched p) (psched (exit_release p code)) me code /\ g_current (psched (exit_release p code)) = me.
Proof.
  intros Ht Hme me. unfold exit_release. fold me. set (s0 := psched p) in *. set (t0 := task s0 me).
  set (s1 := upd s0 me (exit_entry t0 code)). set (s2 := task_wake_all s1 wq_reap).
  set (s3 := if negb (wait_q (task s2 me) =? 0) then _ else s2).
  assert (H1 : same_tasks s1 s3 /\ g_current s3 = me).
  { destruct (quiet_wake s1 wq_reap) as [Q1 Q2 _ _ _]. fold s2 in Q1, Q2. unfold s3. destruct (negb _); [| done].
    destruct (quiet_wake s2 (wait_q (task s2 me))) as [R1 R2 _ _ _]. split; [by etrans | by rewrite R2, Q2]. }
  clearbody s3. clear s2. destruct H1 as [[S1 S2 S3 S4 S5] Ec].
  assert (Ht3 : table_ok s3) by (unfold table_ok in *; rewrite S1; unfold s1; cbn [upd set_tasks g_tasks]; by rewrite length_aset).
  assert (E1 : forall j, slot j -> task s1 j = if me =? j then exit_entry t0 code else task s0 j) by (intros; by apply slot_upd).
  set (s4 := set_cr3 s3 PAGING_PD_ADDR). set (s5 := upd s4 me (no_cr3 (task s4 me))). set (s6 := upd s5 me _).
  assert (E6 : forall j, slot j -> task s6 j = if me =? j then no_space (no_cr3 (task s3 me)) else task s3 j).
  { intros j Hj. unfold s6. rewrite slot_upd by (try done; by apply table_upd). unfold s5. rewrite !slot_upd by done. rewrite Z.eqb_refl.
    by destruct (me =? j). }
  change (psched _) with s6. split; [| exact Ec].
  assert (Em : task s1 me = exit_entry t0 code) by (rewrite E1 by done; by rewrite Z.eqb_refl).
  destruct (account_fields _ _ (S3 me)) as (A1 & _ & _ & A4 & A5 & _). rewrite Em in A1, A4, A5.
  constructor; try (rewrite (E6 me Hme), Z.eqb_refl).
  - unfold s6, s5. cbn [upd set_tasks g_tasks]. rewrite !length_aset. cbn. rewrite S1. apply length_aset.
  - change (Sched.g_ready s3 = Sched.g_ready s0). by rewrite S2.
  - change (is_zombie (task s3 me) = true). rewrite S4, Em. done.
  - exact A5.
  - exact A1.
  - exact A4.
  - done.
  - intros j Hj Hne. rewrite (E6 j Hj). destruct (Z.eqb_spec me j); [congruence |]. rewrite S3, S5, (E1 j Hj).
    by destruct (Z.eqb_spec me j).
Qed.

Lemma exit_release_pmm p code : table_ok (psched p) -> slot (g_current (psched p)) ->
  let me := g_current (psched p) in let t := task (psched p) me in
  m_pmm (pr_mach (exit_release p code)) =
    free_space (m_pmm (pr_mach p)) (segs_of p me) (user_stack_phys t) (user_stack_pages t) (pt_phys t) (pd_phys t).
Proof.
  intros Ht Hme me t. unfold exit_release. fold me. set (s1 := upd (psched p) me (exit_entry (task (psched p) me) code)).
  set (s3 := if negb _ then _ else _).
  assert (H1 : same_tasks s1 s3) by (unfold s3; destruct (negb _); [etrans; apply same_wake | apply same_wake]).
  clearbody s3. destruct H1 as [S1 _ S3 _ _]. cbn [pr_mach with_img with_sched with_mach with_kern m_pmm set_pmm].
  assert (Ht3 : table_ok s3) by (unfold table_ok in *; rewrite S1; unfold s1; cbn [upd set_tasks g_tasks]; by rewrite length_aset).
  rewrite slot_upd by done. rewrite Z.eqb_refl. change (task (set_cr3 s3 PAGING_PD_ADDR) me) with (task s3 me).
  destruct (account_fields _ _ (S3 me)) as (_ & _ & _ & _ & _ & A6 & A7 & A8 & A9). unfold s1 in A6, A7, A8, A9.
  rewrite slot_upd in A6, A7, A8, A9 by done. rewrite Z.eqb_refl in A6, A7, A8, A9.
  cbn [no_cr3 user_stack_phys user_stack_pages pt_phys pd_phys]. by rewrite A6, A7, A8, A9.
Qed.

Record exited (p p' : proc) (me code : Z) (pm0 : pmm_state) (P : list Z) (o : list (Z * Z)) : Prop := {
  ex_pages : holds pm0 (m_pmm (pr_mach p')) P;
  ex_tasks : ended (psched p) (psched p') me code;
  ex_fds : fd_inv (pr_kern p') o;
  ex_closed : forall fd e, 3 <= fd < MAX_OPEN_FDS -> entry (pr_kern p') me fd = Some e -> open_type e = false;
  ex_others_fds : forall ti fd, 0 <= fd -> Z.to_nat ti <> Z.to_nat me -> entry (pr_kern p') ti fd = entry (pr_kern p) ti fd;
}.

(** A user process gives back exactly the pages of its account and its
    descriptors, whatever others hold. *)
Lemma process_exit_spec p code pm0 P o : let me := g_current (psched p) in
  table_ok (psched p) -> slot me -> Sched.g_ready (psched p) = true -> is_user (task (psched p) me) <> 0 ->
  fd_inv (pr_kern p) o -> (forall fd e, 3 <= fd -> entry (pr_kern p) me fd = Some e -> ~ hollow e) ->
  proc_acct_ok p me -> holds pm0 (m_pmm (pr_mach p)) (proc_pages p me ++ P) ->
  exists p', process_exit p code = Some p' /\ exited p p' me code pm0 P o.
Proof.
  intros me Ht Hme Hr Hu Hfd Hh Ha Hp. unfold process_exit. rewrite Hr. cbn [negb]. fold me. rewrite (proj2 (Z.eqb_neq _ _) Hu).
  destruct (exit_release_sched p code Ht Hme) as [He Hc]. fold me in He, Hc. pose proof (exit_release_pmm p code Ht Hme) as Epm. cbv zeta in Epm. fold me in Epm.
  set (p1 := exit_release p code) in *.
  assert (F1 : fd_inv (pr_kern p1) o) by (by apply (fd_inv_ext (pr_kern p))).
  assert (Et : forall ti fd, entry (pr_kern p1) ti fd = entry (pr_kern p) ti fd) by done. clearbody p1.
  destruct (close_from_spec o me (Z.to_nat (MAX_OPEN_FDS - 3)) (pr_kern p1) 3) as (k & Ek & K1 & K2 & K3 & K4); [lia | done | done | |].
  { intros fj e Hfj. rewrite Et. by apply Hh. }
  unfold close_all. rewrite Ek. eexists. split; [done |].
  assert (Hp1 : holds pm0 (m_pmm (pr_mach p1)) P) by (rewrite Epm; by apply free_space_holds).
  assert (Hk : forall q, pr_kern (with_mach q (in_space (pr_mach q) (cr3_reg (psched q)))) = pr_kern q) by done.
  assert (Es : forall q, psched (proc_schedule q) = fst (schedule_switch (psched q)) /\ m_pmm (pr_mach (proc_schedule q)) = m_pmm (pr_mach q)
    /\ tabs (pr_kern (proc_schedule q)) = tabs (pr_kern q) /\ g_pipes (pr_kern (proc_schedule q)) = g_pipes (pr_kern q)
    /\ k_heap (pr_kern (proc_schedule q)) = k_heap (pr_kern q) /\ k_bufs (pr_kern (proc_schedule q)) = k_bufs (pr_kern q))
    by (intros q; unfold proc_schedule; by destruct (cr3_reg _ =? cr3_reg _)).
  destruct (Es (with_kern p1 k)) as (S1 & S2 & S3 & S4 & S5 & S6). constructor.
  - by rewrite S2.
  - rewrite S1. eapply ended_same; [| apply same_schedule]. eapply ended_same; [exact He | apply K2].
  - by apply (fd_inv_ext k).
  - intros fd e Hfd'. unfold entry. rewrite S3. apply (K4 fd). unfold MAX_OPEN_FDS in *. rewrite Z2Nat.id; lia.
  - intros ti fd Hfd' Hne. unfold entry at 1. rewrite S3. change (entry k ti fd = entry (pr_kern p) ti fd). rewrite K3 by (try done; by left). apply Et.
Qed.

(** ** What forking does *)

Lemma quiet_cli s : quiet s (set_iflag s false).
Proof. by constructor. Qed.

Lemma dup_entry_frame w s d :
  match dup_entry w s d with Ret w' _ => tabs w' = tabs w /\ quiet (ksched w) (ksched w') | Sleep _ => False | Fault => True end.
Proof.
  unfold dup_entry. destruct (e_type s); try done.
  - destruct (negb (is_null (e_data s)) && _); [| done]. unfold kalloc. destruct (alloc (k_heap w) (e_size s)) as [h nd].
    destruct (nd =? 0) eqn:En; cbn [fst snd]; [done |]. rewrite En. destruct (buf_read _ _ _ _) as [c |]; [| done]. cbn [or_fault].
    unfold buf_write. destruct c; cbn [or_fault]; [done |].
    destruct (k_bufs _ !! nd); cbn [mbind option_bind or_fault]; [| done].
    destruct (_ <=? _); cbn [or_fault]; done.
  - destruct (e_data s); [done | done |]. split; [done | apply quiet_cli].
Qed.

Lemma dup_from_frame src : forall w dst,
  match dup_from w src dst with Ret w' _ => tabs w' = tabs w /\ quiet (ksched w) (ksched w') | Sleep _ => False | Fault => True end.
Proof.
  induction src as [| s src IH]; intros w [| d dst]; cbn [dup_from]; try done.
  pose proof (dup_entry_frame w s d) as H1. destruct (dup_entry w s d) as [w1 e | |]; [| done | done].
  specialize (IH w1 dst). destruct (dup_from w1 src dst) as [w2 es | |]; [| done | done].
  destruct H1 as [T1 Q1], IH as [T2 Q2]. split; [congruence | by etrans].
Qed.

Lemma fd_table_dup_frame w td ts :
  match fd_table_dup w td ts with
  | Ret w' _ => quiet (ksched w) (ksched w') /\ forall tj fj, Z.to_nat tj <> Z.to_nat td -> entry w' tj fj = entry w tj fj
  | Sleep _ => False | Fault => True
  end.
Proof.
  unfold fd_table_dup. destruct (tabs w !! Z.to_nat td), (tabs w !! Z.to_nat ts) as [src |]; try done.
  pose proof (dup_from_frame src w fd_table_init) as H1. destruct (dup_from w src fd_table_init) as [w1 es | |]; [| done | done].
  destruct H1 as [T1 Q1]. split; [exact Q1 |]. intros tj fj Hne. unfold entry. cbn [tabs set_tabs]. rewrite T1.
  by rewrite list_lookup_insert_ne.
Qed.

(** The caller of [fork] is a process that can be copied. *)
Record fork_ok (p : proc) (o : list (Z * Z)) : Prop := {
  fo_table : table_ok (psched p);
  fo_cur : slot (g_current (psched p));
  fo_ready : Sched.g_ready (psched p) = true;
  fo_lock : 0 <= g_lock_depth (psched p) < 2 ^ 32 - 1;
  fo_user : is_user (task (psched p) (g_current (psched p))) <> 0 /\ cr3 (task (psched p) (g_current (psched p))) <> 0;
  fo_space : space_ok (pr_mach p) (cr3 (task (psched p) (g_current (psched p))));
  fo_segs : Forall (fun s => run_ok (seg_run s)) (segs_of p (g_current (psched p)));
  fo_stack : 0 <= user_stack_pages (task (psched p) (g_current (psched p))) <= 1024;
  fo_fds : fd_inv (pr_kern p) o;
  fo_sound : forall t, tabs (pr_kern p) !! Z.to_nat (g_current (psched p)) = Some t -> Forall (fun e => ~ hollow e) t;
  fo_blank : forall i t, slot i -> is_unused (task (psched p) i) = true -> tabs (pr_kern p) !! Z.to_nat i = Some t -> Forall blank t;
  fo_imgs : length (pr_imgs p) = 8%nat;
}.

(** A failed fork: only the interrupt flag may have changed, and the caller
    sees the memory it saw. *)
Record fork_failed (p p' : proc) : Prop := {
  ff_pmm : m_pmm (pr_mach p') = m_pmm (pr_mach p);
  ff_sched : quiet (psched p) (psched p') /\ g_tasks (psched p') = g_tasks (psched p);
  ff_kern : pr_kern p' = set_sched (pr_kern p) (psched p');
  ff_rest : pr_kmem p' = pr_kmem p /\ pr_reported p' = pr_reported p /\ pr_imgs p' = pr_imgs p;
  ff_reads : forall va, user_page (va / 4096) -> let pd := cr3 (task (psched p) (g_current (psched p))) in
    space_read (pr_mach p') pd va = space_read (pr_mach p) pd va;
}.

Record fork_done (p p' : proc) (frame i : Z) (sp : space) : Prop := {
  fd_slot : free_slot (psched p) = Some i /\ slot i;
  fd_entry : exists esp, task (psched p') i =
      forked_task (ks_base area i) (g_next_pid (psched p)) (task (psched p) (g_current (psched p))) sp esp
    /\ (pr_kmem p', esp) = fork_frame trampoline (stackchk_arm (pr_kmem p) (ks_base area i) TASK_KSIZE) (ks_base area i +! TASK_KSIZE) frame;
  fd_tasks : forall j, slot j -> j <> i -> account (task (psched p') j) = account (task (psched p) j)
    /\ is_unused (task (psched p') j) = is_unused (task (psched p) j);
  fd_globals : table_ok (psched p') /\ Sched.g_ready (psched p') = true /\ g_current (psched p') = g_current (psched p)
    /\ g_next_pid (psched p') = g_next_pid (psched p) +! 1;
  fd_space : forked_space (pr_mach p) (pr_mach p') (cr3 (task (psched p) (g_current (psched p)))) (segs_of p (g_current (psched p)))
    (user_stack_pages (task (psched p) (g_current (psched p)))) sp;
  fd_acct : proc_acct_ok p' i /\ holds (m_pmm (pr_mach p)) (m_pmm (pr_mach p')) (proc_pages p' i);
}.

Lemma free_slot_unused st i : free_slot st = Some i -> is_unused (task st i) = true.
Proof.
  unfold free_slot, task. assert (Hg : forall ts k, find_slot (fun t => state_is (state t) TASK_UNUSED) ts k = Some i ->
    is_unused (nth (Z.to_nat (i - k)) ts task_unused) = true).
  { induction ts as [| t ts IH]; intros k; cbn [find_slot]; [done |]. destruct (state_is (state t) TASK_UNUSED) eqn:E.
    - intros [= <-]. by rewrite Z.sub_diag.
    - intros Hf. pose proof (find_slot_range _ _ _ _ Hf). replace (Z.to_nat (i - k)) with (S (Z.to_nat (i - (k + 1)))) by lia. by apply IH. }
  intros Hf. specialize (Hg _ 0 Hf). by rewrite Z.sub_0_r in Hg.
Qed.

Lemma unlock_tasks s : g_tasks (task_unlock s) = g_tasks s /\ Sched.g_ready (task_unlock s) = Sched.g_ready s /\ g_current (task_unlock s) = g_current s
  /\ g_next_pid (task_unlock s) = g_next_pid s /\ cr3_reg (task_unlock s) = cr3_reg s
  /\ g_lock_depth (task_unlock s) = (if g_lock_depth s =? 0 then 0 else g_lock_depth s - 1).
Proof.
  unfold task_unlock. destruct (Z.eqb_spec (g_lock_depth s) 0) as [E | E]; cbn [negb].
  - by destruct (g_lock_depth s =? 0).
  - cbn [set_lock g_lock_depth]. by destruct (g_lock_depth s - 1 =? 0).
Qed.

(** Locking and unlocking again. *)
Lemma lock_unlock_quiet s : 0 <= g_lock_depth s < 2 ^ 32 - 1 ->
  quiet s (task_unlock (task_lock s)) /\ g_tasks (task_unlock (task_lock s)) = g_tasks s.
Proof.
  intros Hl. destruct (unlock_tasks (task_lock s)) as (E1 & E2 & E3 & E4 & E5 & E6).
  assert (El : g_lock_depth (task_lock s) = g_lock_depth s + 1) by (apply u32_small; unfold is_u32; lia). rewrite El in E6.
  destruct (Z.eqb_spec (g_lock_depth s + 1) 0); [lia |]. split; [| done]. constructor; try done; [| rewrite E6; lia].
  constructor; [by rewrite E1 | done | | |]; intros j; unfold task; by rewrite E1.
Qed.

Lemma failed_fork p m o : fork_ok p o -> frame (pr_mach p) m -> m_pmm m = m_pmm (pr_mach p) ->
  let p1 := with_mach (with_sched p (task_lock (psched p))) m in
  let p' := with_sched p1 (task_unlock (psched p1)) in fd_inv (pr_kern p') o /\ fork_failed p p'.
Proof.
  intros Hok Fr Em p1 p'. split; [by apply (fd_inv_ext (pr_kern p)); [..| apply Hok] |].
  destruct (lock_unlock_quiet _ (fo_lock _ _ Hok)) as [Q1 Q2]. constructor; try done.
  intros va Hva pd. apply space_read_frame; [apply Hok | done | done].
Qed.

Lemma register_spec p o m frame i sp : let cur := g_current (psched p) in let parent := task (psched p) cur in
  fork_ok p o -> free_slot (psched p) = Some i ->
  forked_space (pr_mach p) m (cr3 parent) (segs_of p cur) (user_stack_pages parent) sp ->
  acct_ok (with_phys (segs_of p cur) (sp_segs sp)) (sp_stack sp) (user_stack_pages parent) (sp_pt sp) (sp_pd sp) ->
  holds (m_pmm (pr_mach p)) (m_pmm m) (space_pages (with_phys (segs_of p cur) (sp_segs sp)) (sp_stack sp) (user_stack_pages parent) (sp_pt sp) (sp_pd sp)) ->
  exists p', fork_register (with_mach (with_sched p (task_lock (psched p))) m) i frame sp = Some (p', s32 (g_next_pid (psched p)))
    /\ fd_inv (pr_kern p') o /\ fork_done p p' frame i sp.
Proof.
  intros cur parent Hok Hi Hsp Hacct Hholds. pose proof Hok as [Ht Hcur Hr Hl _ _ _ _ Hfd Hsound Hblank Himg].
  pose proof (free_slot_range _ _ Ht Hi) as Hs. pose proof (free_slot_unused _ _ Hi) as Hun.
  set (p1 := with_mach (with_sched p (task_lock (psched p))) m). unfold fork_register.
  change (g_current (psched p1)) with cur. change (task (psched p1) cur) with parent. change (g_next_pid (psched p1)) with (g_next_pid (psched p)).
  assert (Hfd1 : fd_inv (pr_kern p1) o) by (by apply (fd_inv_ext (pr_kern p))).
  pose proof (fd_table_dup_safe (pr_kern p1) i cur o Hfd1 (fun t => Hblank i t Hs Hun) Hsound) as Hd.
  pose proof (fd_table_dup_frame (pr_kern p1) i cur) as Hf. destruct (fd_table_dup (pr_kern p1) i cur) as [k v | |]; [| done | done].
  cbn [post] in Hd. destruct Hf as [[Q1 Q2 Q3 Q4 Q5] _]. change (ksched (pr_kern p1)) with (task_lock (psched p)) in *.
  destruct (fork_frame trampoline _ _ frame) as [kmem esp] eqn:Efr.
  set (t := forked_task _ _ _ _ esp). set (s := upd (next_pid (ksched k)) i t).
  eexists. split; [done |]. split; [by apply (fd_inv_ext k) |].
  destruct (unlock_tasks s) as (U1 & U2 & U3 & U4 & _ & _). destruct Q1 as [L1 L2 L3 L4 L5].
  assert (Htk : table_ok (next_pid (ksched k))) by (unfold table_ok in *; etrans; [exact L1 | exact Ht]).
  assert (Etask : forall j, slot j -> task (task_unlock s) j = if i =? j then t else task (ksched k) j).
  { intros j Hj. assert (E : task (task_unlock s) j = task s j) by (unfold task; by rewrite U1). rewrite E. unfold s. by rewrite slot_upd by done. }
  set (p' := mk_proc _ _ _ _ _). change (psched p') with (task_unlock s) in *.
  assert (Eimg : segs_of p' i = with_phys (segs_of p cur) (sp_segs sp)).
  { unfold segs_of, img_of, p'. cbn [pr_imgs]. rewrite aget_aset_eq; [done |]. change (0 <= i < Z.of_nat (length (pr_imgs p))). rewrite Himg. unfold slot, MAX_TASKS in Hs. lia. }
  assert (Ei : task (psched p') i = t) by (change (psched p') with (task_unlock s); rewrite Etask, Z.eqb_refl; done).
  constructor.
  - split; [exact Hi | exact Hs].
  - exists esp. split; [exact Ei |]. symmetry. exact Efr.
  - intros j Hj Hne. change (psched p') with (task_unlock s). rewrite Etask by done. destruct (Z.eqb_spec i j); [congruence |]. split; [apply L3 | apply L5].
  - change (psched p') with (task_unlock s). split; [unfold table_ok; rewrite U1; by apply table_upd |]. split; [rewrite U2; etrans; [exact L2 | exact Hr] |].
    split; [rewrite U3; exact Q2 |]. rewrite U4. change (g_next_pid (ksched k) +! 1 = g_next_pid (psched p) +! 1). by rewrite Q5.
  - exact Hsp.
  - unfold proc_acct_ok, proc_pages. rewrite Eimg, Ei. split; [exact Hacct | exact Hholds].
Qed.

Lemma task_fork_spec (p : proc) (o : list (Z * Z)) (frame : Z) : fork_ok p o -> frame <> 0 ->
  exists p' rc, task_fork p frame = Some (p', rc) /\ fd_inv (pr_kern p') o /\
    ((rc = -1 /\ fork_failed p p') \/ exists i sp, rc = s32 (g_next_pid (psched p)) /\ fork_done p p' frame i sp).
Proof.
  intros Hok Hframe. pose proof Hok as [Ht Hcur Hr Hl [Hu Hc] Hsp Hseg Hst Hfd _ _ _]. unfold task_fork. rewrite Hr. cbn [negb orb].
  rewrite (proj2 (Z.eqb_neq _ _) Hframe), (proj2 (Z.eqb_neq _ _) Hu), (proj2 (Z.eqb_neq _ _) Hc). cbn [orb].
  change (free_slot (psched (with_sched p (task_lock (psched p))))) with (free_slot (psched p)).
  destruct (free_slot (psched p)) as [i |] eqn:Ei.
  2: { pose proof (failed_fork p (pr_mach p) o Hok ltac:(constructor; [by destruct (m_pg (pr_mach p)) | done | done]) eq_refl) as [F1 F2].
       change (with_mach (with_sched p (task_lock (psched p))) (pr_mach p)) with (with_sched p (task_lock (psched p))) in F1, F2.
       eexists _, (-1). split; [done |]. split; [exact F1 | by left]. }
  set (cur := g_current (psched p)) in *. set (parent := task (psched p) cur) in *.
  change (pr_mach (with_sched p (task_lock (psched p)))) with (pr_mach p).
  change (img_of (with_sched p (task_lock (psched p))) cur) with (img_of p cur).
  pose proof (fork_space_spec (pr_mach p) (cr3 parent) (segs_of p cur) (user_stack_pages parent) Hsp Hseg Hst) as Hs.
  unfold segs_of in Hs at 1. destruct (fork_space _ _ _ _) as [[m [sp |]] |]; [| | done]; cbn [mbind option_bind].
  - destruct Hs as [Fr Hcs]. pose proof (child_space_forked _ _ _ _ _ _ Hsp Fr Hcs) as Hfs.
    destruct (register_spec p o m frame i sp Hok Ei Hfs (cs_acct _ _ _ _ _ _ Hcs) (cs_holds _ _ _ _ _ _ Hcs)) as (p' & E & F1 & F2).
    exists p', (s32 (g_next_pid (psched p))). split; [exact E |]. split; [exact F1 |]. right. by exists i, sp.
  - destruct Hs as [Fr Em]. destruct (failed_fork p m o Hok Fr Em) as [F1 F2]. eexists _, (-1). split; [done |]. split; [exact F1 | by left].
Qed.

(** C6. [fork] by a running process.  It never faults and keeps the invariant of
    the descriptor layer.  Either it returns -1 and nothing has changed: the page
    allocator, the task table, descriptors, kernel stacks and accounts are as
    before and the caller sees the memory it saw.  Or it returns the new process
    number and one unused slot holds the child: the address space is a copy that
    shares no user page with the parent, its entry frame is built from the
    parent's system call frame, its account owns exactly the pages that were
    taken, and the other tasks are as before. *)
Theorem task_fork_exact (p : proc) (o : list (Z * Z)) (frame : Z) (Hok : fork_ok p o) (Hframe : frame <> 0) :
  exists p' rc, task_fork p frame = Some (p', rc) /\ fd_inv (pr_kern p') o /\
    ((rc = -1 /\ fork_failed p p') \/ exists i sp, rc = s32 (g_next_pid (psched p)) /\ fork_done p p' frame i sp).
Proof. by apply task_fork_spec. Qed.

(** ** The life of a child *)

Lemma find_slot_unique f ts : forall k i, k <= i < k + Z.of_nat (length ts) -> f (nth (Z.to_nat (i - k)) ts task_unused) = true ->
  (forall j, k <= j < k + Z.of_nat (length ts) -> j <> i -> f (nth (Z.to_nat (j - k)) ts task_unused) = false) -> find_slot f ts k = Some i.
Proof.
  induction ts as [| t ts IH]; intros k i Hi Ht Ho; cbn [length] in *; [lia |]. cbn [find_slot].
  destruct (Z.eq_dec i k) as [-> | Hne].
  - rewrite Z.sub_diag in Ht. change (Z.to_nat 0) with 0%nat in Ht. cbn [nth] in Ht. by rewrite Ht.
  - pose proof (Ho k ltac:(lia) ltac:(lia)) as Hk. rewrite Z.sub_diag in Hk. change (Z.to_nat 0) with 0%nat in Hk. cbn [nth] in Hk. rewrite Hk. apply IH; [lia | |].
    + replace (Z.to_nat (i - k)) with (S (Z.to_nat (i - (k + 1)))) in Ht by lia. exact Ht.
    + intros j Hj Hji. specialize (Ho j ltac:(lia) Hji). by replace (Z.to_nat (j - k)) with (S (Z.to_nat (j - (k + 1)))) in Ho by lia.
Qed.

(** Waiting for an ended process collects its code and frees its slot. *)
Lemma wait_ended s i id code : table_ok s -> slot i -> Sched.g_ready s = true -> 0 < id -> is_zombie (task s i) = true ->
  pid (task s i) = u32 id -> exit_code (task s i) = code -> only_pid s i id ->
  exists s', task_wait_pid_opt s id 0 = (s', Some code) /\ is_unused (task s' i) = true.
Proof.
  intros Ht Hi Hr Hid Hz Hp Hc Ho. unfold table_ok in Ht. unfold slot, MAX_TASKS in Hi.
  assert (Hf : task_find s id = Some i).
  { unfold task_find. rewrite Hr. destruct (Z.leb_spec id 0); [lia |]. cbn [negb orb]. apply find_slot_unique; [rewrite Ht; lia | |].
    - rewrite Z.sub_0_r. change (nth (Z.to_nat i) (g_tasks s) task_unused) with (task s i). rewrite Hp, Z.eqb_refl.
      unfold is_zombie, state_is in *. apply bool_decide_eq_true in Hz. by rewrite Hz.
    - intros j. rewrite Ht. intros Hj Hne. rewrite Z.sub_0_r. change (nth (Z.to_nat j) (g_tasks s) task_unused) with (task s j).
      destruct (state_is (state (task s j)) TASK_UNUSED) eqn:Eu; [done |]. apply bool_decide_eq_false in Eu. cbn [negb andb].
      apply Z.eqb_neq. apply Ho; [unfold slot, MAX_TASKS; lia | done | done]. }
  unfold task_wait_pid_opt, wait_pass. rewrite Hr, Hf. destruct (Z.leb_spec id 0); [lia |]. cbn [negb orb].
  unfold is_zombie in Hz. rewrite Hz. eexists. split; [by rewrite Hc |].
  rewrite task_upd by (done || unfold slot, MAX_TASKS; lia). by rewrite Z.eqb_refl.
Qed.

(** The child runs in [q]: since the fork neither its own entry, nor its image,
    nor the page allocator has changed. *)
Record child_runs (p1 q : proc) (i : Z) (o : list (Z * Z)) : Prop := {
  cr_table : table_ok (psched q) /\ Sched.g_ready (psched q) = true /\ g_current (psched q) = i;
  cr_account : account (task (psched q) i) = account (task (psched p1) i);
  cr_image : segs_of q i = segs_of p1 i;
  cr_pmm : m_pmm (pr_mach q) = m_pmm (pr_mach p1);
  cr_fds : fd_inv (pr_kern q) o;
  cr_sound : forall fd e, 3 <= fd -> entry (pr_kern q) i fd = Some e -> ~ hollow e;
}.

End Proc.

(** ** A small system: a process in slot 1 that forks *)

#[local] Instance heap30 : Allocator km_state := km_allocator POOL_30MB pool_30MB_ok.
#[local] Instance fs64k : FileSys memfs := memfs_filesys 65536.

Definition demo_area : Z := 0x904000.
Definition demo_task : task_t :=
  mk_task 0 (ks_base demo_area 1) (ks_top demo_area 1) 1 TASK_RUNNING 10 1 [] 0xA00000 1 0 0xA03000 1 0xA00000 0xA01000 (-1) 0 0.
Definition demo_sched : sched :=
  mk_sched (set_state task_unused TASK_READY :: demo_task :: replicate 6 task_unused) 1 2 0 0 true ∅ true 0xA00000 0.
Definition demo_proc : @proc km_state memfs :=
  mk_proc (set_sched fd_boot demo_sched) demo_mach ∅ (replicate 8 false)
    (img_empty :: mk_img 0x400000 0x401000 demo_segs :: replicate 6 img_empty).

Lemma demo_tabs i t : tabs (pr_kern demo_proc) !! i = Some t -> t = fd_table_init.
Proof. intros Ht. change (tabs (pr_kern demo_proc)) with (replicate 8 fd_table_init) in Ht. by apply lookup_replicate in Ht as [-> _]. Qed.

Lemma demo_fork_ok : fork_ok demo_proc [].
Proof.
  constructor; try done.
  - apply demo_space_ok.
  - repeat constructor; cbn; unfold USER_IMAGE_BASE, USER_IMAGE_END; lia.
  - apply (fd_inv_ext fd_boot); [done.. | apply fd_boot_inv].
  - intros t ->%demo_tabs. repeat constructor; by intros (? & ? & ?).
  - intros i t _ _ ->%demo_tabs. repeat constructor; done.
Qed.

Definition run_slot (p : @proc km_state memfs) (i : Z) : @proc km_state memfs :=
  let s := psched p in
  with_sched p (mk_sched (g_tasks s) i (g_next_pid s) (g_sched_count s) (g_lock_depth s) (Sched.g_ready s) (wqs s) (iflag s) (cr3_reg s) (tss_esp0 s)).

Notation demo_fork := (task_fork demo_area 0x1234 demo_proc 0x90BFAC).

Lemma demo_fork_id : option_map snd demo_fork = Some 2.
Proof. vm_compute. done. Qed.
Lemma demo_fork_fds : option_map (fun r => forallb (fun e => negb (open_type e)) (default [] (tabs (pr_kern (fst r)) !! 2%nat))) demo_fork = Some true.
Proof. vm_compute. done. Qed.

Lemma task_fork_exact_witness : exists p' rc, demo_fork = Some (p', rc) /\ fd_inv (pr_kern p') [] /\
  ((rc = -1 /\ fork_failed demo_proc p') \/
   exists i sp, rc = s32 (g_next_pid (psched demo_proc)) /\ fork_done demo_area 0x1234 demo_proc p' 0x90BFAC i sp).
Proof. apply (task_fork_exact demo_area 0x1234 demo_proc [] 0x90BFAC demo_fork_ok). done. Defined.

Lemma demo_child_runs p1 : demo_fork = Some (p1, 2) -> child_runs p1 (run_slot p1 2) 2 [] /\ only_pid (psched (run_slot p1 2)) 2 2.
Proof.
  intros E. destruct (task_fork_spec demo_area 0x1234 demo_proc [] 0x90BFAC demo_fork_ok ltac:(done)) as (p' & rc & E' & Hi & Hc).
  rewrite E in E'. injection E' as <- <-. destruct Hc as [[? _] | (i & sp & _ & [[Hs _] _ Ho (Ht & Hr & _) _ _])]; [done |].
  assert (i = 2) as -> by (vm_compute in Hs; congruence). split; [constructor |].
  - split; [exact Ht |]. split; [exact Hr | reflexivity].
  - reflexivity.
  - reflexivity.
  - reflexivity.
  - apply (fd_inv_ext (pr_kern p1)); [reflexivity.. | exact Hi].
  - intros fd e Hfd He. pose proof demo_fork_fds as Hf. rewrite E in Hf. injection Hf as Hf. rewrite forallb_forall in Hf.
    change (entry (pr_kern p1) 2 fd = Some e) in He. unfold entry in He. change (Z.to_nat 2) with 2%nat in He.
    destruct (tabs (pr_kern p1) !! 2%nat) as [t |]; [| done]. apply list_elem_of_lookup_2, list_elem_of_In in He.
    specialize (Hf e He). intros (Ht' & _). unfold open_type in Hf. by rewrite Ht' in Hf.
  - intros j Hj Hne Hu. change (task (psched (run_slot p1 2)) j) with (task (psched p1) j) in *. destruct (Ho j Hj Hne) as [Ha Hun].
    destruct (account_fields _ _ Ha) as (-> & _). unfold slot, MAX_TASKS in Hj.
    assert (Hcase : j = 0 \/ j = 1 \/ 3 <= j) by lia. destruct Hcase as [-> | [-> | Hj3]]; [by vm_compute | by vm_compute |].
    exfalso. apply Hu. assert (Ej : is_unused (task (psched demo_proc) j) = true).
    { assert (Hjs : j = 3 \/ j = 4 \/ j = 5 \/ j = 6 \/ j = 7) by lia. by destruct Hjs as [-> | [-> | [-> | [-> | ->]]]]. }
    rewrite Ej in Hun. by apply bool_decide_eq_true in Hun.
Qed.

