(* ===== verification/Disk.v ===== *)
(** * Disk: the contract of the block layer

    [BlockDev] states what the file systems use of [kernel/ata.h]: reading and
    writing sectors of 512 bytes, and the capacity.  [MemDisk] is a disk held in
    memory, on which the file systems can be run. *)

From S2P Require Import Prelude.

(** ** Ranges of a buffer *)

Definition slice {A} (l : list A) (off len : Z) : list A := take (Z.to_nat len) (drop (Z.to_nat off) l).
Definition splice {A} (l : list A) (off : Z) (b : list A) : list A :=
  take (Z.to_nat off) l ++ b ++ drop (Z.to_nat off + length b) l.

Lemma length_spliced {A} (l : list A) off b : 0 <= off -> off + Z.of_nat (length b) <= Z.of_nat (length l) ->
  length (splice l off b) = length l.
Proof. intros. unfold splice. rewrite !length_app, length_take, length_drop. lia. Qed.

Lemma length_slice {A} (l : list A) off len : 0 <= off -> 0 <= len -> off + len <= Z.of_nat (length l) ->
  length (slice l off len) = Z.to_nat len.
Proof. intros. unfold slice. rewrite length_take, length_drop. lia. Qed.

Lemma aget_slice {A} (d : A) l off len i : 0 <= off -> 0 <= i < len -> aget d (slice l off len) i = aget d l (off + i).
Proof.
  intros. unfold aget, slice. rewrite !nth_lookup, lookup_take, lookup_drop. rewrite decide_True by lia. do 2 f_equal. lia.
Qed.

Lemma aget_splice {A} (d : A) l off b i : 0 <= off -> off + Z.of_nat (length b) <= Z.of_nat (length l) -> 0 <= i ->
  aget d (splice l off b) i = if (off <=? i) && (i <? off + Z.of_nat (length b)) then aget d b (i - off) else aget d l i.
Proof.
  intros Ho Hb Hi. unfold aget, splice. rewrite !nth_lookup.
  assert (Hl : length (take (Z.to_nat off) l) = Z.to_nat off) by (rewrite length_take; lia).
  destruct (Z.leb_spec off i); cbn [andb].
  - rewrite lookup_app_r by lia. rewrite Hl. destruct (Z.ltb_spec i (off + Z.of_nat (length b))).
    + rewrite lookup_app_l by lia. do 2 f_equal. lia.
    + rewrite lookup_app_r by lia. rewrite lookup_drop. do 2 f_equal. lia.
  - rewrite lookup_app_l by lia. rewrite lookup_take. rewrite decide_True by lia. done.
Qed.

Lemma Forall_slice {A} (P : A -> Prop) l off len : Forall P l -> Forall P (slice l off len).
Proof. intros H. unfold slice. by apply Forall_take, Forall_drop. Qed.

Lemma Forall_splice {A} (P : A -> Prop) l off b : Forall P l -> Forall P b -> Forall P (splice l off b).
Proof. intros Hl Hb. unfold splice. rewrite !Forall_app. split; [by apply Forall_take |]. split; [done | by apply Forall_drop]. Qed.

Lemma aget_ext {A} (d : A) l l' : length l = length l' -> (forall i, 0 <= i < Z.of_nat (length l) -> aget d l i = aget d l' i) -> l = l'.
Proof.
  intros Hl H. apply list_eq_same_length with (n := length l'); [done | done |]. intros i x y Hi Hx Hy. specialize (H (Z.of_nat i) ltac:(lia)).
  rewrite (aget_lookup d l _ x), (aget_lookup d l' _ y) in H by (by rewrite Nat2Z.id). done.
Qed.

Lemma aget_u8 l i : Forall is_u8 l -> is_u8 (aget 0 l i).
Proof.
  intros H. unfold aget. rewrite nth_lookup. destruct (l !! Z.to_nat i) as [x |] eqn:E; cbn; [| unfold is_u8; lia].
  rewrite Forall_lookup in H. by eapply H.
Qed.

Lemma Forall_aset {A} (P : A -> Prop) l i x : Forall P l -> P x -> Forall P (aset l i x).
Proof. intros. by apply Forall_insert. Qed.

(** Little-endian fields of a sector. *)
Definition le16 (e : list Z) (i : Z) : Z := aget 0 e i |! Z.shiftl (aget 0 e (i + 1)) 8.
Definition le32 (e : list Z) (i : Z) : Z :=
  aget 0 e i |! Z.shiftl (aget 0 e (i + 1)) 8 |! Z.shiftl (aget 0 e (i + 2)) 16 |! Z.shiftl (aget 0 e (i + 3)) 24.

Lemma lor_shift a b k : 0 <= k -> 0 <= a < 2 ^ k -> a |! Z.shiftl b k = a + 2 ^ k * b.
Proof.
  intros Hk Ha. rewrite Z.shiftl_mul_pow2 by lia. rewrite Z.lor_comm. rewrite (lor_low_add _ a k); [lia | lia | | lia].
  apply Z.mod_mul. lia.
Qed.

Lemma le16_val e i : Forall is_u8 e -> le16 e i = aget 0 e i + 256 * aget 0 e (i + 1).
Proof. intros H. unfold le16. rewrite lor_shift; [done | lia |]. by apply aget_u8. Qed.

Lemma le32_val e i : Forall is_u8 e ->
  le32 e i = aget 0 e i + 256 * aget 0 e (i + 1) + 65536 * aget 0 e (i + 2) + 16777216 * aget 0 e (i + 3).
Proof.
  intros H. unfold le32. pose proof (aget_u8 e i H). pose proof (aget_u8 e (i + 1) H). pose proof (aget_u8 e (i + 2) H). unfold is_u8 in *.
  rewrite (lor_shift _ _ 8) by lia. rewrite (lor_shift _ _ 16) by lia. rewrite (lor_shift _ _ 24) by lia. lia.
Qed.

(** ** The contract

    [sector d v l] is the content of sector [l] of drive [v]; [usable] sectors
    can be read and written.  A failed write leaves the content of its sector
    open; reading may change the state of the device, never a content. *)

Definition is_sector (b : list Z) : Prop := length b = 512%nat /\ Forall is_u8 b.

Class BlockDev (D : Type) := {
  ata_read_sector : D -> Z -> Z -> D * option (list Z);
  ata_write_sector : D -> Z -> Z -> list Z -> D * bool;
  ata_capacity : D -> Z -> Z;
  sector : D -> Z -> Z -> list Z;
  usable : D -> Z -> Z -> Prop;
  sector_ok d v l : is_sector (sector d v l);
  read_keeps d v l w k : let d' := fst (ata_read_sector d v l) in
    sector d' w k = sector d w k /\ (usable d' w k <-> usable d w k) /\ ata_capacity d' w = ata_capacity d w;
  read_sound d v l b : snd (ata_read_sector d v l) = Some b -> b = sector d v l;
  read_usable d v l : usable d v l -> snd (ata_read_sector d v l) <> None;
  write_keeps d v l b w k : let d' := fst (ata_write_sector d v l b) in
    ((w, k) <> (v, l) -> sector d' w k = sector d w k) /\ (usable d' w k <-> usable d w k) /\ ata_capacity d' w = ata_capacity d w;
  write_sound d v l b : is_sector b -> snd (ata_write_sector d v l b) = true -> sector (fst (ata_write_sector d v l b)) v l = b;
  write_usable d v l b : usable d v l -> snd (ata_write_sector d v l b) = true;
}.

Section Runs.
Context {D : Type} `{BD : BlockDev D}.

(** The loops that move consecutive sectors between the disk and a buffer from
    the offset [off] on. *)
Fixpoint read_run (n : nat) (d : D) (drive lba : Z) (buf : list Z) (off : Z) : D * list Z * bool :=
  match n with
  | O => (d, buf, true)
  | S n' =>
      let '(d, r) := ata_read_sector d drive lba in
      match r with
      | None => (d, buf, false)
      | Some b => read_run n' d drive (lba +! 1) (splice buf off b) (off + 512)
      end
  end.

Fixpoint write_run (n : nat) (d : D) (drive lba : Z) (buf : list Z) (off : Z) : D * bool :=
  match n with
  | O => (d, true)
  | S n' =>
      let '(d, ok) := ata_write_sector d drive lba (slice buf off 512) in
      if ok : bool then write_run n' d drive (lba +! 1) buf (off + 512) else (d, false)
  end.

(** Two states of the device with the same contents. *)
Record same_disk (d d' : D) : Prop := {
  sd_sector : forall v l, sector d' v l = sector d v l;
  sd_usable : forall v l, usable d' v l <-> usable d v l;
  sd_cap : forall v, ata_capacity d' v = ata_capacity d v;
}.

#[global] Instance same_disk_equiv : Equivalence same_disk.
Proof.
  split.
  - by constructor.
  - intros a b [H1 H2 H3]. constructor; intros; symmetry; auto.
  - intros a b c [H1 H2 H3] [K1 K2 K3]. constructor; intros; etrans; eauto.
Qed.

Lemma read_same d v l : same_disk d (fst (ata_read_sector d v l)).
Proof. constructor; intros; [apply (read_keeps d v l) .. |]. by apply (read_keeps d v l v0 0). Qed.

Lemma read_ok d v l : usable d v l -> exists d', ata_read_sector d v l = (d', Some (sector d v l)) /\ same_disk d d'.
Proof.
  intros Hu. pose proof (read_usable d v l Hu) as Hn. pose proof (read_sound d v l) as Hs. pose proof (read_same d v l) as Hd.
  destruct (ata_read_sector d v l) as [d' [b |]]; [| done]. exists d'. split; [| done]. by rewrite (Hs b eq_refl).
Qed.

Definition run_bytes (d : D) (drive lba : Z) (n : nat) : list Z := concat (map (fun k => sector d drive (lba + k)) (seqZ 0 (Z.of_nat n))).

Lemma run_bytes_S d drive lba n : run_bytes d drive lba (S n) = sector d drive lba ++ run_bytes d drive (lba + 1) n.
Proof.
  unfold run_bytes. rewrite seqZ_cons by lia. cbn [map concat]. rewrite Z.add_0_r. f_equal. f_equal.
  replace (Z.pred (Z.of_nat (S n))) with (Z.of_nat n) by lia. change (Z.succ 0) with (1 + 0). rewrite <- seqZ_shift, map_map.
  apply map_ext. intros k. f_equal. lia.
Qed.

Lemma run_bytes_ok d drive lba n : length (run_bytes d drive lba n) = (512 * n)%nat /\ Forall is_u8 (run_bytes d drive lba n).
Proof.
  revert lba. induction n as [| n IH]; intros lba; [done |]. rewrite run_bytes_S, length_app, Forall_app. destruct (IH (lba + 1)) as [-> ?].
  destruct (sector_ok d drive lba) as [-> ?]. split; [lia | done].
Qed.

Lemma same_disk_run d d' drive lba n : same_disk d d' -> run_bytes d' drive lba n = run_bytes d drive lba n.
Proof. intros [H _ _]. unfold run_bytes. f_equal. apply map_ext. intros k. apply H. Qed.

Lemma splice_app {A} (l : list A) off b c : 0 <= off -> off + Z.of_nat (length b) <= Z.of_nat (length l) ->
  splice (splice l off b) (off + Z.of_nat (length b)) c = splice l off (b ++ c).
Proof.
  intros Ho Hl. unfold splice. replace (Z.to_nat (off + Z.of_nat (length b))) with (Z.to_nat off + length b)%nat by lia.
  assert (E : length (take (Z.to_nat off) l) = Z.to_nat off) by (rewrite length_take; lia).
  rewrite (app_assoc (take _ l) b). rewrite take_app_length' by (rewrite length_app; lia). rewrite <- !app_assoc. f_equal. f_equal. f_equal.
  rewrite app_assoc. rewrite drop_app_ge by (rewrite length_app; lia). rewrite length_app, E, drop_drop, length_app. f_equal. lia.
Qed.

Lemma read_run_ok n : forall d drive lba buf off, 0 <= lba -> lba + Z.of_nat n <= 2 ^ 32 -> 0 <= off ->
  off + 512 * Z.of_nat n <= Z.of_nat (length buf) -> (forall k, 0 <= k < Z.of_nat n -> usable d drive (lba + k)) ->
  exists d', read_run n d drive lba buf off = (d', splice buf off (run_bytes d drive lba n), true) /\ same_disk d d'.
Proof.
  induction n as [| n IH]; intros d drive lba buf off Hl Hn Ho Hb Hu; cbn [read_run].
  - exists d. split; [| done]. do 2 f_equal. unfold splice, run_bytes. cbn [seqZ map concat length app]. change (concat _) with (@nil Z). cbn [app length]. rewrite Nat.add_0_r. symmetry. apply take_drop.
  - destruct (read_ok d drive lba) as (d1 & E & Hs); [specialize (Hu 0); rewrite Z.add_0_r in Hu; apply Hu; lia |]. rewrite E.
    destruct (sector_ok d drive lba) as [Hlen _]. destruct n as [| n].
    + exists d1. split; [| done]. cbn [read_run]. do 2 f_equal. rewrite run_bytes_S. unfold run_bytes. cbn. by rewrite app_nil_r.
    + rewrite u32_small by (unfold is_u32; lia).
      destruct (IH d1 drive (lba + 1) (splice buf off (sector d drive lba)) (off + 512)) as (d' & E' & Hs'); try lia.
      * rewrite length_spliced by lia. lia.
      * intros k Hk. apply Hs. replace (lba + 1 + k) with (lba + (k + 1)) by lia. apply Hu. lia.
      * exists d'. split; [| by etrans]. rewrite E'. do 2 f_equal. rewrite (run_bytes_S d drive lba (S n)).
        rewrite (same_disk_run d d1) by done. replace (off + 512) with (off + Z.of_nat (length (sector d drive lba))) by lia.
        apply splice_app; lia.
Qed.

Lemma slice_app {A} (l : list A) off a b : 0 <= off -> 0 <= a -> 0 <= b -> slice l off (a + b) = slice l off a ++ slice l (off + a) b.
Proof.
  intros. unfold slice. rewrite Z2Nat.inj_add by lia. rewrite (Z2Nat.inj_add off a), <- drop_drop by lia.
  generalize (drop (Z.to_nat off) l). intros l'. rewrite <- (take_drop (Z.to_nat a) l') at 1.
  destruct (Nat.le_gt_cases (Z.to_nat a) (length l')).
  - rewrite take_app_add'; [| rewrite length_take; lia]. done.
  - rewrite (take_ge l' (Z.to_nat a)), (drop_ge l' (Z.to_nat a)), take_nil, !app_nil_r by lia. apply take_ge. lia.
Qed.

(** Sectors that hold the consecutive pieces of a buffer. *)
Lemma run_bytes_slices n : forall d drive lba buf off, 0 <= off -> off + 512 * Z.of_nat n <= Z.of_nat (length buf) ->
  (forall k, 0 <= k < Z.of_nat n -> sector d drive (lba + k) = slice buf (off + 512 * k) 512) ->
  run_bytes d drive lba n = slice buf off (512 * Z.of_nat n).
Proof.
  induction n as [| n IH]; intros d drive lba buf off Ho Hl Hs; [done |]. rewrite run_bytes_S.
  pose proof (Hs 0 ltac:(lia)) as H0. rewrite !Z.add_0_r in H0. rewrite H0.
  replace (512 * Z.of_nat (S n)) with (512 + 512 * Z.of_nat n) by lia. rewrite slice_app by lia. f_equal.
  apply IH; [lia | lia |]. intros k Hk. replace (lba + 1 + k) with (lba + (k + 1)) by lia. rewrite Hs by lia. f_equal. lia.
Qed.

(** The effect of writing consecutive sectors. *)
Lemma write_run_ok n : forall d drive lba buf off, 0 <= lba -> lba + Z.of_nat n <= 2 ^ 32 -> 0 <= off ->
  off + 512 * Z.of_nat n <= Z.of_nat (length buf) -> Forall is_u8 buf -> (forall k, 0 <= k < Z.of_nat n -> usable d drive (lba + k)) ->
  exists d', write_run n d drive lba buf off = (d', true) /\ (forall v l, usable d' v l <-> usable d v l) /\ (forall v, ata_capacity d' v = ata_capacity d v) /\
    forall v l, sector d' v l = if (v =? drive) && (lba <=? l) && (l <? lba + Z.of_nat n) then slice buf (off + 512 * (l - lba)) 512 else sector d v l.
Proof.
  induction n as [| n IH]; intros d drive lba buf off Hl Hn Ho Hb Hbuf Hu; cbn [write_run].
  - exists d. split; [done |]. split; [done |]. split; [done |]. intros v l.
    destruct (v =? drive), (Z.leb_spec lba l), (Z.ltb_spec l (lba + Z.of_nat 0)); cbn [andb]; (done || lia).
  - set (b := slice buf off 512). assert (Hbs : is_sector b) by (split; [by apply length_slice; lia | by apply Forall_slice]).
    pose proof (write_usable d drive lba b ltac:(specialize (Hu 0); rewrite Z.add_0_r in Hu; apply Hu; lia)) as Hw.
    pose proof (write_sound d drive lba b Hbs) as Hs. pose proof (write_keeps d drive lba b) as Hk. cbv zeta in Hk.
    destruct (ata_write_sector d drive lba b) as [d1 ok]. cbn [fst snd] in *. subst ok. specialize (Hs eq_refl).
    assert (Hrest : exists d', write_run n d1 drive (lba +! 1) buf (off + 512) = (d', true) /\ (forall v l, usable d' v l <-> usable d1 v l) /\
      (forall v, ata_capacity d' v = ata_capacity d1 v) /\ forall v l, sector d' v l = if (v =? drive) && (lba + 1 <=? l) && (l <? lba + 1 + Z.of_nat n)
        then slice buf (off + 512 + 512 * (l - (lba + 1))) 512 else sector d1 v l).
    { destruct n as [| n].
      - exists d1. split; [done |]. split; [done |]. split; [done |]. intros v l.
        destruct (v =? drive), (Z.leb_spec (lba + 1) l), (Z.ltb_spec l (lba + 1 + Z.of_nat 0)); cbn [andb]; (done || lia).
      - rewrite u32_small by (unfold is_u32; lia). apply IH; try lia; [done |].
        intros k Hkn. apply Hk. replace (lba + 1 + k) with (lba + (k + 1)) by lia. apply Hu. lia. }
    destruct Hrest as (d' & E & U & C & S). exists d'. split; [exact E |].
    split; [intros v l; rewrite U; apply Hk |]. split; [intros v; rewrite C; apply (Hk v 0) |].
    intros v l. rewrite S. destruct (Z.eqb_spec v drive) as [-> | Hv]; cbn [andb]; [| apply Hk; congruence].
    destruct (Z.eq_dec l lba) as [-> | Hne].
    + destruct (Z.leb_spec (lba + 1) lba), (Z.leb_spec lba lba), (Z.ltb_spec lba (lba + Z.of_nat (Datatypes.S n))); try lia; cbn [andb].
      replace (off + 512 * (lba - lba)) with off by lia. exact Hs.
    + destruct (Z.leb_spec (lba + 1) l), (Z.leb_spec lba l), (Z.ltb_spec l (lba + 1 + Z.of_nat n)), (Z.ltb_spec l (lba + Z.of_nat (Datatypes.S n)));
        cbn [andb]; try lia; try (apply Hk; congruence). f_equal. lia.
Qed.
End Runs.

(** ** A disk in memory

    Sectors never written are zero; the sectors of [md_bad] fail. *)

Record mem_disk := mk_md { md_cap : Z; md_data : gmap (Z * Z) (list Z); md_bad : gset (Z * Z) }.

Definition zero_sector : list Z := replicate 512 0.
Definition md_sector (d : mem_disk) (v l : Z) : list Z :=
  match md_data d !! (v, l) with Some b => if bool_decide (length b = 512%nat) then map u8 b else zero_sector | None => zero_sector end.
Definition md_usable (d : mem_disk) (v l : Z) : Prop := 0 <= l < md_cap d /\ (v, l) ∉ md_bad d.
Definition md_works (d : mem_disk) (v l : Z) : bool := (0 <=? l) && (l <? md_cap d) && negb (bool_decide ((v, l) ∈ md_bad d)).
Definition md_read (d : mem_disk) (v l : Z) : mem_disk * option (list Z) := (d, if md_works d v l then Some (md_sector d v l) else None).
Definition md_write (d : mem_disk) (v l : Z) (b : list Z) : mem_disk * bool :=
  if md_works d v l then (mk_md (md_cap d) (<[(v, l) := b]> (md_data d)) (md_bad d), true) else (d, false).

Lemma md_works_usable d v l : md_works d v l = true <-> md_usable d v l.
Proof.
  unfold md_works, md_usable. destruct (Z.leb_spec 0 l), (Z.ltb_spec l (md_cap d)); cbn [andb]; [| lia || done..].
  rewrite negb_true_iff, bool_decide_eq_false. split; [done | tauto].
Qed.

Lemma map_u8_id b : Forall is_u8 b -> map u8 b = b.
Proof. induction 1 as [| x b Hx _ IH]; [done |]. cbn [map]. rewrite IH. f_equal. unfold u8. apply Z.mod_small. exact Hx. Qed.

#[global] Program Instance mem_blockdev : BlockDev mem_disk := {|
  ata_read_sector := md_read;
  ata_write_sector := md_write;
  ata_capacity d _ := md_cap d;
  sector := md_sector;
  usable := md_usable;
|}.
Next Obligation.
  unfold md_sector, is_sector. intros d v l. destruct (md_data d !! (v, l)) as [b |]; [case_bool_decide |].
  - rewrite length_map. split; [done |]. apply Forall_map, Forall_forall. intros x _. apply u8_range.
  - split; [done |]. by apply Forall_replicate.
  - split; [done |]. by apply Forall_replicate.
Qed.
Next Obligation. done. Qed.
Next Obligation. unfold md_read. intros d v l b. cbn. destruct (md_works d v l); [| done]. by intros [= <-]. Qed.
Next Obligation. unfold md_read. intros d v l Hu%md_works_usable. cbn. by rewrite Hu. Qed.
Next Obligation.
  unfold md_write. intros d v l b w k. destruct (md_works d v l); [| done]. cbn. split; [| done]. intros Hne. unfold md_sector. cbn.
  by rewrite lookup_insert_ne.
Qed.
Next Obligation.
  unfold md_write. intros d v l b [Hb Hu]. destruct (md_works d v l); [| done]. intros _. cbn. unfold md_sector. cbn.
  rewrite lookup_insert_eq, bool_decide_eq_true_2 by done. by apply map_u8_id.
Qed.
Next Obligation. unfold md_write. intros d v l b Hu%md_works_usable. by rewrite Hu. Qed.
