(* ===== verification/Fat.v ===== *)
(** * Fat: the FAT12/16/32 driver, volumes and clusters ([kernel/fat.c])

    Sector access, the table entries with their two-sector cache, allocation and
    release of clusters, recognition, mounting and formatting of volumes.  The
    directory layer is in [FatDir.v], the proofs in [FatProps.v].  The shared
    buffer [io_scratch] is filled before each use, so it is a local value here. *)

From S2P Require Import Prelude Disk.

(** ** State *)

(** The field [part_start] of the struct repeats [fat_part_start]. *)
Record fat_info_t := mk_fi {
  bytes_per_sector : Z;
  sectors_per_cluster : Z;
  reserved_sectors : Z;
  num_fats : Z;
  root_entry_count : Z;
  total_sectors : Z;
  fat_sectors : Z;
  root_cluster : Z;
  first_data_sector : Z;
  cluster_count : Z;
  root_dir_sector : Z;
  root_dir_sectors : Z;
}.

Record cwd_t := mk_cwd { current_dir_cluster : Z; cwd_path : list Z; dir_stack : list Z; dir_depth : Z }.

(** The static variables of the driver; [disk] is the device behind
    [kernel/ata.h]. *)
Record fatfs {D : Type} := mk_fat {
  disk : D;
  fi : fat_info_t;
  fat_type : Z;
  fat_drive : Z;
  fat_part_start : Z;
  cwd : cwd_t;
  fat_cache : list Z;
  fat_cache_sec : Z;
  fat_cache_n : Z;
  alloc_hint : Z;
}.
Arguments fatfs : clear implicits.

Definition FAT_MAX_CLUSTER_BYTES : Z := 16384.
Definition FAT_MAX_BPS : Z := 4096.
Definition NO_ENTRY : Z := 0xFFFFFFFF.

Section Fat.
Context {D : Type} `{BD : BlockDev D}.
Implicit Types s : fatfs D.

Definition with_disk s (d : D) : fatfs D :=
  mk_fat D d (fi s) (fat_type s) (fat_drive s) (fat_part_start s) (cwd s) (fat_cache s) (fat_cache_sec s) (fat_cache_n s) (alloc_hint s).
Definition with_buf s (b : list Z) : fatfs D :=
  mk_fat D (disk s) (fi s) (fat_type s) (fat_drive s) (fat_part_start s) (cwd s) b (fat_cache_sec s) (fat_cache_n s) (alloc_hint s).
Definition with_tag s (sec n : Z) : fatfs D :=
  mk_fat D (disk s) (fi s) (fat_type s) (fat_drive s) (fat_part_start s) (cwd s) (fat_cache s) sec n (alloc_hint s).
Definition with_hint s (h : Z) : fatfs D :=
  mk_fat D (disk s) (fi s) (fat_type s) (fat_drive s) (fat_part_start s) (cwd s) (fat_cache s) (fat_cache_sec s) (fat_cache_n s) h.
Definition with_cwd s (c : cwd_t) : fatfs D :=
  mk_fat D (disk s) (fi s) (fat_type s) (fat_drive s) (fat_part_start s) c (fat_cache s) (fat_cache_sec s) (fat_cache_n s) (alloc_hint s).
Definition with_type s (t : Z) : fatfs D :=
  mk_fat D (disk s) (fi s) t (fat_drive s) (fat_part_start s) (cwd s) (fat_cache s) (fat_cache_sec s) (fat_cache_n s) (alloc_hint s).
Definition with_fi s (f : fat_info_t) : fatfs D :=
  mk_fat D (disk s) f (fat_type s) (fat_drive s) (fat_part_start s) (cwd s) (fat_cache s) (fat_cache_sec s) (fat_cache_n s) (alloc_hint s).
Definition with_volume s (drive start : Z) : fatfs D :=
  mk_fat D (disk s) (fi s) (fat_type s) drive start (cwd s) (fat_cache s) (fat_cache_sec s) (fat_cache_n s) (alloc_hint s).

(** ** Sectors of the volume *)

Definition sector_parts s : nat := Z.to_nat (bytes_per_sector (fi s) / 512).

(** Into the buffer [buf] at [off]. *)
Definition fat_read_vol_sector s (vol_sec : Z) (buf : list Z) (off : Z) : fatfs D * list Z * bool :=
  let '(d, buf, ok) := read_run (sector_parts s) (disk s) (fat_drive s) (fat_part_start s +! vol_sec) buf off in
  (with_disk s d, buf, ok).

Definition fat_write_vol_sector s (vol_sec : Z) (buf : list Z) (off : Z) : fatfs D * bool :=
  let '(d, ok) := write_run (sector_parts s) (disk s) (fat_drive s) (fat_part_start s +! vol_sec) buf off in
  (with_disk s d, ok).

(** ** Table entries *)

Fixpoint cache_fill (n : nat) s (sec i : Z) : fatfs D * bool :=
  match n with
  | O => (s, true)
  | S n' =>
      let '(s, buf, ok) := fat_read_vol_sector s (sec +! i) (fat_cache s) (i *! bytes_per_sector (fi s)) in
      let s := with_buf s buf in
      if ok : bool then cache_fill n' s sec (i + 1) else (s, false)
  end.

Definition fat_cache_load s (byte_off len : Z) : fatfs D * bool :=
  let bps := bytes_per_sector (fi s) in
  let sec := reserved_sectors (fi s) +! byte_off / bps in
  let inn := byte_off mod bps in
  let n := (inn +! len +! bps -! 1) / bps in
  let n := if n <? 1 then 1 else n in
  if 2 <? n then (s, false)
  else if (fat_cache_sec s =? sec) && (n <=? fat_cache_n s) then (s, true)
  else
    let '(s, ok) := cache_fill (Z.to_nat n) s sec 0 in
    if ok : bool then (with_tag s sec n, true) else (s, false).

Definition entry_place (type n : Z) : Z * Z :=
  if type =? 12 then (n +! n / 2, 2) else if type =? 16 then (n *! 2, 2) else (n *! 4, 4).

Definition bad_index s (n : Z) : bool := (fat_type s =? 0) || (n <? 2) || (cluster_count (fi s) +! 2 <=? n).

Definition decode_entry (type n : Z) (c : list Z) (i : Z) : Z :=
  if type =? 12 then
    let b0 := aget 0 c i in
    let b1 := aget 0 c (i + 1) in
    if negb (n &! 1 =? 0) then Z.shiftl b1 4 |! Z.shiftr b0 4 else b0 |! Z.shiftl (b1 &! 0x0F) 8
  else if type =? 16 then le16 c i
  else le32 c i &! 0x0FFFFFFF.

Definition fat_entry_get s (n : Z) : fatfs D * Z :=
  if bad_index s n then (s, NO_ENTRY)
  else
    let '(off, len) := entry_place (fat_type s) n in
    let '(s, ok) := fat_cache_load s off len in
    if negb ok then (s, NO_ENTRY)
    else (s, decode_entry (fat_type s) n (fat_cache s) (off mod bytes_per_sector (fi s))).

Definition put16le (p : list Z) (i v : Z) : list Z := aset (aset p i (v &! 0xFF)) (i + 1) (Z.shiftr v 8 &! 0xFF).
Definition put32le (p : list Z) (i v : Z) : list Z := put16le (put16le p i v) (i + 2) (Z.shiftr v 16).

Definition encode_entry (type n v : Z) (c : list Z) (i : Z) : list Z :=
  if type =? 12 then
    if negb (n &! 1 =? 0) then
      let c := aset c i (u8 ((aget 0 c i &! 0x0F) |! (u32 (Z.shiftl v 4) &! 0xF0))) in
      aset c (i + 1) (u8 (Z.shiftr v 4))
    else
      let c := aset c i (v &! 0xFF) in
      aset c (i + 1) (u8 ((aget 0 c (i + 1) &! 0xF0) |! (Z.shiftr v 8 &! 0x0F)))
  else if type =? 16 then put16le c i v
  else put32le c i v.

(** [for (i = 0; i < fat_cache_n; i++) fat_write_vol_sector(sec0 + i, ...)] *)
Fixpoint cache_flush (n : nat) s (sec i : Z) : fatfs D * bool :=
  match n with
  | O => (s, true)
  | S n' =>
      let '(s, ok) := fat_write_vol_sector s (sec +! i) (fat_cache s) (i *! bytes_per_sector (fi s)) in
      if ok : bool then cache_flush n' s sec (i + 1) else (s, false)
  end.

Definition fat_entry_set s (n v : Z) : fatfs D * bool :=
  if bad_index s n then (s, false)
  else
    let '(off, len) := entry_place (fat_type s) n in
    let '(s, ok) := fat_cache_load s off len in
    if negb ok then (s, false)
    else
      let s := with_buf s (encode_entry (fat_type s) n v (fat_cache s) (off mod bytes_per_sector (fi s))) in
      cache_flush (Z.to_nat (fat_cache_n s)) s (reserved_sectors (fi s) +! off / bytes_per_sector (fi s)) 0.

Definition is_eoc (type v : Z) : bool :=
  if type =? 12 then 0xFF8 <=? v else if type =? 16 then 0xFFF8 <=? v else 0x0FFFFFF8 <=? v.
Definition is_bad (type v : Z) : bool :=
  if type =? 12 then v =? 0xFF7 else if type =? 16 then v =? 0xFFF7 else v =? 0x0FFFFFF7.
Definition fat_is_eoc s (v : Z) : bool := is_eoc (fat_type s) v.
Definition fat_is_bad s (v : Z) : bool := is_bad (fat_type s) v.
Definition eoc_val (type : Z) : Z := if type =? 12 then 0xFFF else if type =? 16 then 0xFFFF else 0x0FFFFFFF.
Definition fat_eoc_val s : Z := eoc_val (fat_type s).

(** ** Clusters *)

Fixpoint alloc_scan (n : nat) s (total : Z) : fatfs D * Z :=
  match n with
  | O => (s, 0)
  | S n' =>
      let c := alloc_hint s in
      let c := if total <=? c then 2 else c in
      let '(s, v) := fat_entry_get s c in
      if v =? 0 then (with_hint s (let h := c +! 1 in if total <=? h then 2 else h), c)
      else alloc_scan n' (with_hint s (c +! 1)) total
  end.

Definition fat_alloc_cluster s : fatfs D * Z :=
  if fat_type s =? 0 then (s, 0)
  else
    let total := cluster_count (fi s) +! 2 in
    let s := if (alloc_hint s <? 2) || (total <=? alloc_hint s) then with_hint s 2 else s in
    alloc_scan (Z.to_nat (cluster_count (fi s))) s total.

Definition cluster_sector s (c : Z) : Z := first_data_sector (fi s) +! (c -! 2) *! sectors_per_cluster (fi s).
Definition cluster_size s : Z := bytes_per_sector (fi s) *! sectors_per_cluster (fi s).
Definition in_range s (c : Z) : bool := (2 <=? c) && (c <? cluster_count (fi s) +! 2).

Definition fat_read_cluster s (c : Z) : fatfs D * option (list Z) :=
  if negb (in_range s c) then (s, None)
  else
    let n := cluster_size s / 512 in
    let '(d, buf, ok) := read_run (Z.to_nat n) (disk s) (fat_drive s) (fat_part_start s +! cluster_sector s c)
                           (replicate (Z.to_nat FAT_MAX_CLUSTER_BYTES) 0) 0 in
    (with_disk s d, if ok : bool then Some (take (Z.to_nat (cluster_size s)) buf) else None).

Definition fat_write_cluster s (c : Z) (buf : list Z) : fatfs D * bool :=
  if negb (in_range s c) then (s, false)
  else
    let '(d, ok) := write_run (Z.to_nat (cluster_size s / 512)) (disk s) (fat_drive s) (fat_part_start s +! cluster_sector s c) buf 0 in
    (with_disk s d, ok).

(** The loop ends when [steps] reaches the number of clusters plus two; [n] is
    what is left of them. *)
Fixpoint free_chain_from (n : nat) s (first cur : Z) : fatfs D * bool :=
  match n with
  | O => (s, true)
  | S n' =>
      if negb (in_range s cur) then (s, true)
      else
        let '(s, next) := fat_entry_get s cur in
        let '(s, ok) := fat_entry_set s cur 0 in
        if negb ok then (s, false)
        else
          let s := if first <? alloc_hint s then with_hint s first else s in
          if fat_is_eoc s next || (next <? 2) || fat_is_bad s next then (s, true)
          else free_chain_from n' s first next
  end.

Definition fat_free_chain s (first : Z) : fatfs D * bool :=
  if first <? 2 then (s, true) else free_chain_from (Z.to_nat (cluster_count (fi s) +! 2)) s first first.

Fixpoint count_used (n : nat) s (c used : Z) : fatfs D * Z :=
  match n with
  | O => (s, used)
  | S n' => let '(s, v) := fat_entry_get s c in count_used n' s (c + 1) (if negb (v =? 0) then used +! 1 else used)
  end.
Definition fat_count_used_clusters s : fatfs D * Z :=
  if fat_type s =? 0 then (s, 0) else count_used (Z.to_nat (cluster_count (fi s) +! 2 - 2)) s 2 0.

(** ** Recognising and mounting a volume *)

Definition sector_size_ok (bps : Z) : bool := (bps =? 512) || (bps =? 1024) || (bps =? 2048) || (bps =? 4096).
Definition has_bytes (b : list Z) (i : Z) (l : list Z) : bool := bool_decide (slice b i (Z.of_nat (length l)) = l).
Definition bpb_total (bs : list Z) : Z := let t := le16 bs 19 in if t =? 0 then le32 bs 32 else t.
Definition bpb_fat_size (bs : list Z) : Z := let f := le16 bs 22 in if negb (f =? 0) then f else le32 bs 36.

Definition fat_probe (bs : list Z) : Z :=
  if negb (aget 0 bs 510 =? 0x55) || negb (aget 0 bs 511 =? 0xAA) then 0
  else if negb (aget 0 bs 0 =? 0xEB) && negb (aget 0 bs 0 =? 0xE9) then 0
  else if has_bytes bs 3 (bytes "EXFAT") then 0
  else if has_bytes bs 3 (bytes "NTFS") then 0
  else
    let bps := le16 bs 11 in
    if negb (sector_size_ok bps) then 0
    else
      let spc := aget 0 bs 13 in
      if (spc =? 0) || negb (spc &! (spc -! 1) =? 0) then 0
      else
        let reserved := le16 bs 14 in
        if reserved =? 0 then 0
        else
          let nfats := aget 0 bs 16 in
          if (nfats <? 1) || (2 <? nfats) then 0
          else
            let root_entries := le16 bs 17 in
            let total := bpb_total bs in
            if total =? 0 then 0
            else if aget 0 bs 21 <? 0xF0 then 0
            else
              let fat_size := bpb_fat_size bs in
              if fat_size =? 0 then 0
              else
                let root_sectors := (root_entries *! 32 +! bps -! 1) / bps in
                let first_data := reserved +! nfats *! fat_size +! root_sectors in
                if total <=? first_data then 0
                else
                  let clusters := (total -! first_data) / spc in
                  if clusters <? 2 then 0
                  else if clusters <? 4085 then 12
                  else if clusters <? 65525 then 16
                  else if negb (root_entries =? 0) || negb (le16 bs 22 =? 0) then 0
                  else
                    let root := le32 bs 44 in
                    if (root <? 2) || (clusters +! 2 <=? root) then 0 else 32.

Definition info_of (bs : list Z) (type : Z) : fat_info_t :=
  let bps := le16 bs 11 in
  let spc := aget 0 bs 13 in
  let reserved := le16 bs 14 in
  let nfats := aget 0 bs 16 in
  let root_entries := le16 bs 17 in
  let total := bpb_total bs in
  let fat_size := bpb_fat_size bs in
  let root_sectors := (root_entries *! 32 +! bps -! 1) / bps in
  let first_data := reserved +! nfats *! fat_size +! root_sectors in
  mk_fi bps spc reserved nfats root_entries total fat_size (if type =? 32 then le32 bs 44 else 0)
    first_data ((total -! first_data) / spc) (reserved +! nfats *! fat_size) root_sectors.

Definition root_dir_cluster_value s : Z := if fat_type s =? 32 then root_cluster (fi s) else 0.

(** The two checks that the table and the root directory can be read. *)
Definition mount_check s (type : Z) : fatfs D * bool :=
  let '(s, v) := fat_entry_get s 2 in
  let fat_ok := negb (v =? NO_ENTRY) in
  let root_c := root_dir_cluster_value s in
  if type =? 32 then
    if in_range s root_c then
      let '(s, v) := fat_entry_get s root_c in (s, fat_ok && negb (v =? NO_ENTRY))
    else (s, false)
  else
    let '(s, _, root_ok) := fat_read_vol_sector s (root_dir_sector (fi s)) (replicate (Z.to_nat FAT_MAX_CLUSTER_BYTES) 0) 0 in
    (s, fat_ok && root_ok).

Definition fat_mount s (drive part_start : Z) : fatfs D * Z :=
  let s := with_volume (with_type s 0) drive part_start in
  let '(d, bs, ok) := read_run 1 (disk s) drive part_start (replicate (Z.to_nat FAT_MAX_BPS) 0) 0 in
  let s := with_disk s d in
  if negb ok then (s, 0)
  else
    let bps := le16 bs 11 in
    if negb (sector_size_ok bps) then (s, 0)
    else
      let '(d, bs, ok) := read_run (Z.to_nat (bps / 512 - 1)) (disk s) drive (part_start +! 1) bs 512 in
      let s := with_disk s d in
      if negb ok then (s, 0)
      else
        let type := fat_probe bs in
        if type =? 0 then (s, 0)
        else
          let s := with_fi s (info_of bs type) in
          if FAT_MAX_CLUSTER_BYTES <? cluster_size s then (s, 0)
          else if cluster_count (fi s) <? 2 then (s, 0)
          else
            let s := with_tag (with_type s type) NO_ENTRY 0 in
            let '(s, ok) := mount_check s type in
            if negb ok then (with_type s 0, 0)
            else
              let dir := if type =? 32 then root_cluster (fi s) else 0 in
              (with_cwd (with_hint s 2) (mk_cwd dir (bytes "/") (aset (dir_stack (cwd s)) 0 dir) 0), type).

Definition fat_ready s : bool := negb (fat_type s =? 0).
Definition fat_get_info s : fat_info_t := fi s.

(** ** Formatting *)

Definition fmt_spc (want : Z) : Z := if want =? 12 then 16 else if want =? 16 then 4 else 1.
Definition fmt_reserved (want : Z) : Z := if want =? 32 then 32 else 1.
Definition fmt_root_entries (want : Z) : Z := if want =? 32 then 0 else 512.
Definition fmt_root_sectors (want : Z) : Z := (fmt_root_entries want *! 32 +! 511) / 512.
Definition fmt_max (want : Z) : Z := if want =? 12 then 4084 else if want =? 16 then 65524 else 0x0FFFFFF0.
Definition fmt_min (want : Z) : Z := if want =? 12 then 16 else if want =? 16 then 4085 else 65525.

Definition fmt_first_data (want fat_size : Z) : Z := fmt_reserved want +! 2 *! fat_size +! fmt_root_sectors want.
Definition fmt_clusters (want total fat_size : Z) : Z :=
  let first_data := fmt_first_data want fat_size in
  if first_data <? total then (total -! first_data) / fmt_spc want else 0.
Definition fmt_need (want clusters : Z) : Z :=
  let need := if want =? 12 then ((clusters +! 2) *! 3 +! 1) / 2 else (clusters +! 2) *! (if want =? 16 then 2 else 4) in
  (need +! 511) / 512.

(** The inner loop: [fat_size], and the [first_data] and [clusters] of its last
    pass. *)
Fixpoint fmt_settle (n : nat) (want total fat_size first_data clusters : Z) : Z * Z * Z :=
  match n with
  | O => (fat_size, first_data, clusters)
  | S n' =>
      let first_data := fmt_first_data want fat_size in
      let clusters := fmt_clusters want total fat_size in
      let need := fmt_need want clusters in
      if need <=? fat_size then (fat_size, first_data, clusters) else fmt_settle n' want total need first_data clusters
  end.

(** The outer loop: the number of sectors used and the size of a table. *)
Fixpoint fmt_rounds (n : nat) (want total fat_size : Z) : Z * Z :=
  match n with
  | O => (total, fat_size)
  | S n' =>
      let '(fat_size, first_data, clusters) := fmt_settle 10 want total fat_size 0 0 in
      if clusters <=? fmt_max want then (total, fat_size)
      else
        let goal := u64 (first_data + u64 (fmt_max want * fmt_spc want)) in
        if total <=? goal then (total, fat_size) else fmt_rounds n' want (u32 goal) 1
  end.

Definition put_bytes (b : list Z) (i : Z) (l : list Z) : list Z := splice b i l.

Definition fmt_mbr (want part_start total : Z) : list Z :=
  let b := replicate 512 0 in
  let b := put_bytes b 447 [0; 2; 0; (if want =? 32 then 0x0B else if want =? 16 then 0x06 else 0x01); 0; 0x3F; 0xFF] in
  let b := put32le (put32le b 454 part_start) 458 total in
  put_bytes b 510 [0x55; 0xAA].

Definition fmt_boot (want part_start total fat_size : Z) : list Z :=
  let b := replicate 512 0 in
  let b := put_bytes b 0 ([0xEB; 0x3C; 0x90] ++ bytes "EZOS    ") in
  let b := put16le b 11 512 in
  let b := aset b 13 (u8 (fmt_spc want)) in
  let b := put16le b 14 (fmt_reserved want) in
  let b := aset b 16 (u8 2) in
  let b := put16le b 17 (fmt_root_entries want) in
  let b := if total <? 0x10000 then put16le b 19 total else b in
  let b := aset b 21 0xF8 in
  let b := if negb (want =? 32) then put16le b 22 fat_size else b in
  let b := put16le b 24 63 in
  let b := put16le b 26 16 in
  let b := put32le b 28 part_start in
  let b := if 0x10000 <=? total then put32le b 32 total else b in
  let b :=
    if want =? 32 then
      let b := put32le b 36 fat_size in
      let b := put16le (put16le b 40 0) 42 0 in
      let b := put32le b 44 2 in
      let b := put16le (put16le b 48 1) 50 6 in
      let b := aset (aset b 64 0x80) 66 0x29 in
      let b := put32le b 68 0x1BADB002 in
      put_bytes b 72 (bytes "NO NAME    FAT32   ")
    else
      let b := aset (aset b 36 0x80) 38 0x29 in
      let b := put32le b 40 0x1BADB002 in
      put_bytes b 43 (bytes "NO NAME    FAT" ++ (if want =? 16 then bytes "16" else bytes "22") ++ bytes "   ") in
  put_bytes b 510 [0x55; 0xAA].

Definition fmt_info (clusters : Z) : list Z :=
  let b := replicate 512 0 in
  let b := put32le (put32le b 0 0x41615252) 484 0x61417272 in
  let b := put32le (put32le b 488 (clusters -! 1)) 492 3 in
  put_bytes b 510 [0x55; 0xAA].

Definition fmt_table (want : Z) : list Z :=
  let b := replicate 512 0 in
  if want =? 12 then put_bytes b 0 [0xF8; 0xFF; 0xFF]
  else if want =? 16 then put_bytes b 0 [0xF8; 0xFF; 0xFF; 0xFF]
  else put32le (put32le (put32le b 0 0x0FFFFFF8) 4 0x0FFFFFFF) 8 0x0FFFFFFF.

Definition zeros_at (lba n : Z) : list (Z * list Z) := map (fun k => (lba +! k, zero_sector)) (seqZ 0 n).

(** All writes of a format in their order. *)
Definition fmt_writes (want part_start total fat_size : Z) : list (Z * list Z) :=
  let first_data := fmt_first_data want fat_size in
  let clusters := fmt_clusters want total fat_size in
  let boot := fmt_boot want part_start total fat_size in
  let table f := let base := part_start +! fmt_reserved want +! f *! fat_size in
    (base, fmt_table want) :: map (fun k => (base +! k, zero_sector)) (seqZ 1 (fat_size - 1)) in
  [(0, fmt_mbr want part_start total); (part_start, boot)]
    ++ (if want =? 32 then [(part_start +! 1, fmt_info clusters); (part_start +! 6, boot); (part_start +! 7, fmt_info clusters)] else [])
    ++ table 0 ++ table 1
    ++ (if want =? 32 then zeros_at (part_start +! first_data) (fmt_spc want)
        else zeros_at (part_start +! fmt_reserved want +! 2 *! fat_size) (fmt_root_sectors want)).

Fixpoint run_writes (d : D) (drive : Z) (ws : list (Z * list Z)) : D * bool :=
  match ws with
  | [] => (d, true)
  | (lba, b) :: ws' => let '(d, ok) := ata_write_sector d drive lba b in if ok : bool then run_writes d drive ws' else (d, false)
  end.

Definition fat_format s (drive want part_start : Z) : fatfs D * Z :=
  if negb (want =? 12) && negb (want =? 16) && negb (want =? 32) then (s, -1)
  else
    let cap := ata_capacity (disk s) drive in
    if cap =? 0 then (s, -1)
    else
      let part_start := if part_start =? 0 then 1 else part_start in
      if cap <=? part_start +! 64 then (s, -1)
      else
        let '(total, fat_size) := fmt_rounds 8 want (cap -! part_start) 1 in
        if fmt_clusters want total fat_size <? fmt_min want then (s, -1)
        else
          let '(d, ok) := run_writes (disk s) drive (fmt_writes want part_start total fat_size) in
          let s := with_disk s d in
          if negb ok then (s, -1)
          else
            let '(s, t) := fat_mount s drive part_start in
            (s, if t =? want then want else -1).
End Fat.
