(* ===== verification/FatProps.v ===== *)
(** * FatProps: volumes and clusters of [Fat.v]

    The table of a volume is seen as an array of entries ([fat_at]); reading and
    writing entries through the cache, allocation and release of clusters are
    exact on that view.  Then the geometry chosen by a format. *)

From S2P Require Import Prelude Disk Fat.

(** ** Bytes of an entry *)

Definition decode_bytes (type n : Z) (B : Z -> Z) : Z :=
  if type =? 12 then
    let off := n + n / 2 in
    if n mod 2 =? 1 then B off / 16 + 16 * B (off + 1) else B off + 256 * (B (off + 1) mod 16)
  else if type =? 16 then B (2 * n) + 256 * B (2 * n + 1)
  else (B (4 * n) + 256 * B (4 * n + 1) + 65536 * B (4 * n + 2) + 16777216 * B (4 * n + 3)) mod 2 ^ 28.

Definition place (type n : Z) : Z := if type =? 12 then n + n / 2 else if type =? 16 then 2 * n else 4 * n.
Definition width (type : Z) : Z := if type =? 32 then 4 else 2.
Definition entry_mod (type : Z) : Z := if type =? 12 then 2 ^ 12 else if type =? 16 then 2 ^ 16 else 2 ^ 28.
Definition type_ok (type : Z) : Prop := type = 12 \/ type = 16 \/ type = 32.
Definition max_count (type : Z) : Z := if type =? 12 then 4084 else if type =? 16 then 65524 else 0x0FFFFFF0.

Ltac fat_types H := let E := fresh "Et" in destruct H as [E | [E | E]]; rewrite E in *; cbn [Z.eqb Pos.eqb] in *.

Lemma land_15 x : x &! 0x0F = x mod 16.
Proof. apply (land_low_mask x 4). lia. Qed.
Lemma land_240 x : is_u8 x -> x &! 0xF0 = 16 * (x / 16).
Proof.
  intros Hx. assert (E : 0xF0 = Z.shiftl (Z.ones 4) 4) by done. rewrite E. apply Z.bits_inj'. intros i Hi. rewrite Z.land_spec, Z.shiftl_spec by lia.
  replace (16 * (x / 16)) with (Z.shiftl (Z.shiftr x 4) 4) by (rewrite Z.shiftl_mul_pow2, Z.shiftr_div_pow2 by lia; change (2 ^ 4) with 16; lia).
  rewrite Z.shiftl_spec by lia. destruct (Z.ltb_spec i 4).
  - rewrite !(Z.testbit_neg_r _ (i - 4)) by lia. apply andb_false_r.
  - rewrite Z.shiftr_spec by lia. replace (i - 4 + 4) with i by lia. destruct (Z.ltb_spec i 8).
    + rewrite Z.ones_spec_low by lia. apply andb_true_r.
    + rewrite Z.ones_spec_high by lia. rewrite andb_false_r. symmetry. rewrite <- (Z.mod_small x (2 ^ 8)) by exact Hx. apply Z.mod_pow2_bits_high. lia.
Qed.
Lemma land_255 x : x &! 0xFF = x mod 256.
Proof. apply (land_low_mask x 8). lia. Qed.
Lemma land_28 x : x &! 0x0FFFFFFF = x mod 2 ^ 28.
Proof. apply (land_low_mask x 28). lia. Qed.

(** The bytes of a little-endian field. *)
Definition byte0 (v : Z) : Z := v &! 0xFF.
Definition byte1 (v : Z) : Z := Z.shiftr v 8 &! 0xFF.

Lemma byte_u8 v : is_u8 (v &! 0xFF).
Proof. rewrite land_255. apply (u8_range v). Qed.

Lemma join16 v : is_u16 v -> byte0 v + 256 * byte1 v = v.
Proof. intros Hv. unfold byte0, byte1. rewrite !land_255, Z.shiftr_div_pow2 by lia. unfold is_u16 in Hv. change (2 ^ 8) with 256. Z.to_euclidean_division_equations; lia. Qed.

Lemma join32 v : is_u32 v -> byte0 v + 256 * byte1 v + 65536 * byte0 (Z.shiftr v 16) + 16777216 * byte1 (Z.shiftr v 16) = v.
Proof.
  intros Hv. unfold byte0, byte1. rewrite !land_255, !Z.shiftr_div_pow2 by lia. unfold is_u32 in Hv. change (2 ^ 8) with 256. change (2 ^ 16) with 65536.
  Z.to_euclidean_division_equations; lia.
Qed.

(** Every entry of a table of bytes is below [entry_mod]. *)
Lemma decode_range type n B : type_ok type -> (forall o, is_u8 (B o)) -> 0 <= decode_bytes type n B < entry_mod type.
Proof.
  intros Ht HB. unfold decode_bytes, entry_mod, is_u8 in *. fat_types Ht.
  - pose proof (HB (n + n / 2)). pose proof (HB (n + n / 2 + 1)). destruct (n mod 2 =? 1); Z.to_euclidean_division_equations; lia.
  - pose proof (HB (2 * n)). pose proof (HB (2 * n + 1)). lia.
  - apply Z.mod_pos_bound. lia.
Qed.

Lemma decode_entry_bytes type n c i B : type_ok type -> 0 <= n -> Forall is_u8 c ->
  (forall k, 0 <= k < width type -> aget 0 c (i + k) = B (place type n + k)) -> decode_entry type n c i = decode_bytes type n B.
Proof.
  intros Ht Hn Hc HB. unfold decode_entry, decode_bytes, place, width in *. fat_types Ht.
  - pose proof (HB 0 ltac:(lia)) as B0. pose proof (HB 1 ltac:(lia)) as B1. rewrite !Z.add_0_r in B0. rewrite B0, B1, land_1.
    pose proof (aget_u8 c i Hc) as H0. pose proof (aget_u8 c (i + 1) Hc) as H1. rewrite B0 in H0. rewrite B1 in H1. unfold is_u8 in *.
    pose proof (Z.mod_pos_bound n 2 ltac:(lia)). rewrite Z.shiftr_div_pow2 by lia. change (2 ^ 4) with 16.
    destruct (Z.eqb_spec (n mod 2) 0), (Z.eqb_spec (n mod 2) 1); try lia; cbn [negb].
    + rewrite land_15. apply lor_shift; [lia |]. exact H0.
    + rewrite Z.lor_comm, lor_shift by (lia || (change (2 ^ 4) with 16; Z.to_euclidean_division_equations; lia)). lia.
  - rewrite le16_val by done. pose proof (HB 0 ltac:(lia)) as B0. pose proof (HB 1 ltac:(lia)) as B1. rewrite !Z.add_0_r in B0. by rewrite B0, B1.
  - rewrite le32_val, land_28 by done. pose proof (HB 0 ltac:(lia)) as B0. rewrite !Z.add_0_r in B0. rewrite B0, !HB by lia. done.
Qed.

(** Writing an entry changes exactly that entry. *)
Lemma encode_entry_ok type n v c i : type_ok type -> 0 <= n -> is_u32 v -> Forall is_u8 c -> 0 <= i -> i + width type <= Z.of_nat (length c) ->
  let c' := encode_entry type n v c i in
  length c' = length c /\ Forall is_u8 c' /\ (forall k, 0 <= k -> (k < i \/ i + width type <= k) -> aget 0 c' k = aget 0 c k) /\
  if type =? 12 then
    if n mod 2 =? 1 then aget 0 c' i = aget 0 c i mod 16 + 16 * (v mod 16) /\ aget 0 c' (i + 1) = (v / 16) mod 256
    else aget 0 c' i = v mod 256 /\ aget 0 c' (i + 1) = 16 * (aget 0 c (i + 1) / 16) + (v / 256) mod 16
  else forall k, 0 <= k < width type -> aget 0 c' (i + k) = (v / 256 ^ k) mod 256.
Proof.
  intros Ht Hn Hv Hc Hi Hl. cbv zeta. unfold encode_entry, width in *. fat_types Ht.
  - pose proof (aget_u8 c i Hc) as H0. pose proof (aget_u8 c (i + 1) Hc) as H1. pose proof (Z.mod_pos_bound n 2 ltac:(lia)). rewrite land_1.
    destruct (Z.eqb_spec (n mod 2) 0), (Z.eqb_spec (n mod 2) 1); try lia; cbn [negb].
    + split; [by rewrite !length_aset |].
      split; [apply Forall_aset; [apply Forall_aset; [done |] |]; [rewrite land_255; apply (u8_range v) | apply u8_range] |].
      split; [intros k Hk Hki; rewrite !aget_aset_ne by lia; done |].
      rewrite (aget_aset_ne 0 _ (i + 1) i), aget_aset_eq, aget_aset_eq, (aget_aset_ne 0 _ i (i + 1)) by (rewrite ?length_aset; lia).
      rewrite land_255, land_240, land_15, Z.shiftr_div_pow2 by (done || lia). split; [done |].
      rewrite (lor_low_add _ _ 4) by (Z.to_euclidean_division_equations; lia). unfold u8, is_u8 in *. change (2 ^ 8) with 256 in *. Z.to_euclidean_division_equations; lia.
    + split; [by rewrite !length_aset |]. split; [apply Forall_aset; [apply Forall_aset; [done |] |]; apply u8_range |].
      split; [intros k Hk Hki; rewrite !aget_aset_ne by lia; done |].
      rewrite (aget_aset_ne 0 _ (i + 1) i), aget_aset_eq, aget_aset_eq by (rewrite ?length_aset; lia).
      rewrite land_15, Z.shiftl_mul_pow2, Z.shiftr_div_pow2 by lia. change (2 ^ 4) with 16. split; [| done].
      assert (E : u32 (v * 16) &! 0xF0 = 16 * (v mod 16)).
      { change 0xF0 with (Z.land 0xF0 0xFF). rewrite Z.land_assoc, (Z.land_comm _ 0xFF), Z.land_assoc, (Z.land_comm 0xFF), land_255.
        rewrite land_240 by (apply Z.mod_pos_bound; lia). unfold u32. Z.to_euclidean_division_equations; lia. }
      rewrite E, Z.lor_comm, (lor_low_add _ _ 4) by (Z.to_euclidean_division_equations; lia). unfold u8. change (2 ^ 8) with 256. Z.to_euclidean_division_equations; lia.
  - unfold put16le. rewrite !land_255. split; [by rewrite !length_aset |].
    split; [apply Forall_aset; [apply Forall_aset; [done |] |]; apply u8_range |].
    split; [intros k Hk Hki; rewrite !aget_aset_ne by lia; done |]. intros k Hk. rewrite Z.shiftr_div_pow2 by lia.
    assert (k = 0 \/ k = 1) as [-> | ->] by lia.
    + rewrite Z.add_0_r, aget_aset_ne, aget_aset_eq by lia. by rewrite Z.div_1_r.
    + rewrite aget_aset_eq by (rewrite length_aset; lia). done.
  - unfold put32le, put16le. rewrite !land_255. split; [by rewrite !length_aset |].
    split; [repeat apply Forall_aset; try done; apply u8_range |].
    split; [intros k Hk Hki; rewrite !aget_aset_ne by lia; done |]. intros k Hk. rewrite !Z.shiftr_div_pow2 by lia.
    assert (k = 0 \/ k = 1 \/ k = 2 \/ k = 3) as [-> | [-> | [-> | ->]]] by lia.
    + rewrite Z.add_0_r, !aget_aset_ne, aget_aset_eq by lia. by rewrite Z.div_1_r.
    + rewrite !(aget_aset_ne 0 _ _ (i + 1)), aget_aset_eq by (rewrite ?length_aset; lia). done.
    + rewrite (aget_aset_ne 0 _ _ (i + 2)), aget_aset_eq by (rewrite ?length_aset; lia). done.
    + replace (i + 2 + 1) with (i + 3) by lia. rewrite aget_aset_eq by (rewrite ?length_aset; lia). rewrite Z.div_div by lia. done.
Qed.

Lemma decode_updated type n m v B B' : type_ok type -> 0 <= n -> 0 <= m -> is_u32 v -> (forall o, is_u8 (B o)) ->
  (forall o, (o < place type n \/ place type n + width type <= o) -> B' o = B o) ->
  (if type =? 12 then
    if n mod 2 =? 1 then B' (place type n) = B (place type n) mod 16 + 16 * (v mod 16) /\ B' (place type n + 1) = (v / 16) mod 256
    else B' (place type n) = v mod 256 /\ B' (place type n + 1) = 16 * (B (place type n + 1) / 16) + (v / 256) mod 16
  else forall k, 0 <= k < width type -> B' (place type n + k) = (v / 256 ^ k) mod 256) ->
  decode_bytes type m B' = if m =? n then v mod entry_mod type else decode_bytes type m B.
Proof.
  intros Ht Hn Hm Hv HB Ho Hnew. unfold decode_bytes, place, width, entry_mod, is_u32, is_u8 in *. fat_types Ht.
  - pose proof (HB (n + n / 2)) as H0. pose proof (HB (n + n / 2 + 1)) as H1.
    destruct (Z.eqb_spec m n) as [-> | Hne].
    + destruct (Z.eqb_spec (n mod 2) 1); destruct Hnew as [-> ->]; change (2 ^ 12) with 4096; Z.to_euclidean_division_equations; lia.
    + assert (Hcase : (m + m / 2 + 1 < n + n / 2 \/ n + n / 2 + 1 < m + m / 2) \/
        (m = n + 1 /\ n mod 2 = 0 /\ m mod 2 = 1 /\ m + m / 2 = n + n / 2 + 1) \/ (m = n - 1 /\ n mod 2 = 1 /\ m mod 2 = 0 /\ m + m / 2 + 1 = n + n / 2))
        by (Z.to_euclidean_division_equations; lia).
      destruct Hcase as [Hd | [(-> & E1 & E2 & E3) | (-> & E1 & E2 & E3)]].
      * rewrite !Ho by lia. done.
      * rewrite E1, E2, E3 in *. cbn [Z.eqb Pos.eqb] in *. destruct Hnew as [_ ->]. rewrite (Ho (n + n / 2 + 1 + 1)) by lia.
        Z.to_euclidean_division_equations; lia.
      * rewrite E1, E2, E3 in *. cbn [Z.eqb Pos.eqb] in *. destruct Hnew as [-> _]. rewrite (Ho (n - 1 + (n - 1) / 2)) by lia.
        Z.to_euclidean_division_equations; lia.
  - destruct (Z.eqb_spec m n) as [-> | Hne].
    + pose proof (Hnew 0 ltac:(lia)) as N0. pose proof (Hnew 1 ltac:(lia)) as N1. rewrite Z.add_0_r in N0. rewrite N0, N1.
      change (256 ^ 0) with 1. change (256 ^ 1) with 256. change (2 ^ 16) with 65536. Z.to_euclidean_division_equations; lia.
    + rewrite !Ho by lia. done.
  - destruct (Z.eqb_spec m n) as [-> | Hne].
    + pose proof (Hnew 0 ltac:(lia)) as N0. rewrite Z.add_0_r in N0. rewrite N0, !Hnew by lia.
      change (256 ^ 0) with 1. change (256 ^ 1) with 256. change (256 ^ 2) with 65536. change (256 ^ 3) with 16777216. f_equal.
      Z.to_euclidean_division_equations; lia.
    + rewrite !Ho by lia. done.
Qed.

(** ** Volumes *)

(** Geometry of a volume with sectors of 512 bytes whose tables are big enough. *)
Record geo_ok (f : fat_info_t) (type part : Z) : Prop := {
  go_type : type_ok type;
  go_bps : bytes_per_sector f = 512;
  go_spc : 1 <= sectors_per_cluster f <= 32;
  go_reserved : 1 <= reserved_sectors f;
  go_nfats : 1 <= num_fats f;
  go_count : 2 <= cluster_count f <= max_count type;
  go_fits : place type (cluster_count f + 1) + width type <= 512 * fat_sectors f;
  go_root : root_dir_sector f = reserved_sectors f + num_fats f * fat_sectors f /\ 0 <= root_dir_sectors f;
  go_data : first_data_sector f = root_dir_sector f + root_dir_sectors f;
  go_end : first_data_sector f + cluster_count f * sectors_per_cluster f <= total_sectors f;
  go_lba : 0 <= part /\ part + total_sectors f <= 2 ^ 32 /\ total_sectors f < 2 ^ 32 - 1;
}.

Section Props.
Context {D : Type} `{BD : BlockDev D}.
Implicit Types s : fatfs D.

(** Sector [k] of the volume, byte [o] and entry [n] of its first table. *)
Definition vsec s (k : Z) : list Z := sector (disk s) (fat_drive s) (fat_part_start s + k).
Definition fat_byte s (o : Z) : Z := aget 0 (vsec s (reserved_sectors (fi s) + o / 512)) (o mod 512).
Definition fat_at s (n : Z) : Z := decode_bytes (fat_type s) n (fat_byte s).

Definition coherent s : Prop := fat_cache_sec s = NO_ENTRY \/
  (1 <= fat_cache_n s <= 2 /\ reserved_sectors (fi s) <= fat_cache_sec s /\
   fat_cache_sec s + fat_cache_n s <= reserved_sectors (fi s) + fat_sectors (fi s) /\
   forall i, 0 <= i < 512 * fat_cache_n s -> aget 0 (fat_cache s) i = aget 0 (vsec s (fat_cache_sec s + i / 512)) (i mod 512)).

Record vol_ok s : Prop := {
  vo_geo : geo_ok (fi s) (fat_type s) (fat_part_start s);
  vo_usable : forall k, 0 <= k < total_sectors (fi s) -> usable (disk s) (fat_drive s) (fat_part_start s + k);
  vo_buf : Z.of_nat (length (fat_cache s)) = 8192 /\ Forall is_u8 (fat_cache s);
  vo_cache : coherent s;
  vo_hint : is_u32 (alloc_hint s);
}.

Definition geom s := (fi s, fat_type s, fat_drive s, fat_part_start s, cwd s).

Lemma geom_fields s s' : geom s' = geom s ->
  fi s' = fi s /\ fat_type s' = fat_type s /\ fat_drive s' = fat_drive s /\ fat_part_start s' = fat_part_start s /\ cwd s' = cwd s.
Proof. unfold geom. intros E. injection E as ? ? ? ? ?. done. Qed.

(** Nothing but the cache has changed. *)
Record quiet s s' : Prop := {
  qu_geom : geom s' = geom s;
  qu_hint : alloc_hint s' = alloc_hint s;
  qu_disk : same_disk (disk s) (disk s');
}.
#[global] Instance quiet_preorder : PreOrder quiet.
Proof. split; [by constructor |]. intros a b c [] []. constructor; [congruence.. |]. etrans; eassumption. Qed.

Lemma quiet_vsec s s' k : quiet s s' -> vsec s' k = vsec s k.
Proof. intros [Hg _ [Hs _ _]]. apply geom_fields in Hg as (_ & _ & E3 & E4 & _). unfold vsec. by rewrite Hs, E3, E4. Qed.

Lemma quiet_fat_at s s' n : quiet s s' -> fat_at s' n = fat_at s n.
Proof.
  intros H. pose proof (geom_fields _ _ (qu_geom _ _ H)) as (E1 & E2 & _). unfold fat_at, decode_bytes, fat_byte.
  rewrite E1, E2. rewrite !(quiet_vsec s s') by done. done.
Qed.

Lemma vsec_ok s k : is_sector (vsec s k).
Proof. apply sector_ok. Qed.
Lemma fat_byte_u8 s o : is_u8 (fat_byte s o).
Proof. apply aget_u8, vsec_ok. Qed.

Lemma vol_ok_quiet s s' : vol_ok s -> quiet s s' -> Z.of_nat (length (fat_cache s')) = 8192 -> Forall is_u8 (fat_cache s') -> coherent s' -> vol_ok s'.
Proof.
  intros [Hg Hu _ _ Hh] [Eg Eh [_ Su _]] Hl Hf Hc. apply geom_fields in Eg as (E1 & E2 & E3 & E4 & _). constructor; try done.
  - by rewrite E1, E2, E4.
  - intros k Hk. rewrite E3, E4. apply Su, Hu. by rewrite <- E1.
  - by rewrite Eh.
Qed.

Lemma parts_one s : bytes_per_sector (fi s) = 512 -> sector_parts s = 1%nat.
Proof. intros E. unfold sector_parts. by rewrite E. Qed.

Lemma run_bytes_1 d drive lba : run_bytes d drive lba 1 = sector d drive lba.
Proof. rewrite run_bytes_S. unfold run_bytes. cbn. apply app_nil_r. Qed.

(** Every sector of the volume can be used. *)
Definition works s : Prop := geo_ok (fi s) (fat_type s) (fat_part_start s) /\
  forall k, 0 <= k < total_sectors (fi s) -> usable (disk s) (fat_drive s) (fat_part_start s + k).

Lemma vol_works s : vol_ok s -> works s.
Proof. by intros []. Qed.
Hint Resolve vol_works : core.

Lemma works_disk s s' : works s -> geom s' = geom s -> (forall v l, usable (disk s') v l <-> usable (disk s) v l) -> works s'.
Proof.
  intros [Hg Hu] (E1 & E2 & E3 & E4 & _)%geom_fields Hd. unfold works. rewrite E1, E2, E3, E4. split; [done |]. intros k Hk. by apply Hd, Hu.
Qed.

Lemma vol_lba s k : works s -> 0 <= k < total_sectors (fi s) -> fat_part_start s +! k = fat_part_start s + k.
Proof. intros [[] _] Hk. apply u32_small. unfold is_u32. lia. Qed.

Lemma read_vol_ok s k buf off : works s -> 0 <= k < total_sectors (fi s) -> 0 <= off -> off + 512 <= Z.of_nat (length buf) ->
  exists d, fat_read_vol_sector s k buf off = (with_disk s d, splice buf off (vsec s k), true) /\ same_disk (disk s) d.
Proof.
  intros Hv Hk Ho Hb. pose proof Hv as [[] Hu]. unfold fat_read_vol_sector. rewrite parts_one by done. rewrite vol_lba by done.
  destruct (read_run_ok 1 (disk s) (fat_drive s) (fat_part_start s + k) buf off) as (d & E & Hd); try lia.
  - intros j Hj. replace (fat_part_start s + k + j) with (fat_part_start s + k) by lia. by apply Hu.
  - rewrite E, run_bytes_1. by exists d.
Qed.

Lemma vol_ok_disk s d : vol_ok s -> same_disk (disk s) d -> vol_ok (with_disk s d).
Proof.
  intros Hv Hd. destruct Hv as [Hg Hu Hb Hc Hh]. constructor; try done.
  - intros k Hk. apply (sd_usable _ _ Hd), Hu, Hk.
  - destruct Hc as [Hc | (H1 & H2 & H3 & H4)]; [by left | right]. split; [done |]. split; [done |]. split; [done |].
    intros i Hi. etrans; [apply (H4 i Hi) |]. cbn [with_disk fat_cache_sec]. f_equal. unfold vsec. symmetry. apply Hd.
Qed.

(** Filling the cache with [n] sectors from [sec] on. *)
Lemma cache_fill_ok n : forall s sec i, works s -> Z.of_nat (length (fat_cache s)) = 8192 -> Forall is_u8 (fat_cache s) ->
  0 <= sec -> 0 <= i -> i + Z.of_nat n <= 2 -> sec + i + Z.of_nat n <= total_sectors (fi s) ->
  exists s', cache_fill n s sec i = (s', true) /\ quiet s s' /\ Z.of_nat (length (fat_cache s')) = 8192 /\ Forall is_u8 (fat_cache s') /\
    forall k, 0 <= k -> aget 0 (fat_cache s') k =
      if (512 * i <=? k) && (k <? 512 * (i + Z.of_nat n)) then aget 0 (vsec s (sec + k / 512)) (k mod 512) else aget 0 (fat_cache s) k.
Proof.
  induction n as [| n IH]; intros s sec i Hw Hl Hf Hs Hi Hn Ht; cbn [cache_fill].
  - exists s. split; [done |]. split; [done |]. split; [done |]. split; [done |]. intros k Hk.
    destruct (Z.leb_spec (512 * i) k), (Z.ltb_spec k (512 * (i + Z.of_nat 0))); cbn [andb]; (done || lia).
  - pose proof Hw as [[] _]. rewrite go_bps0. rewrite (u32_small (sec + i)), (u32_small (i * 512)) by (unfold is_u32; lia).
    destruct (read_vol_ok s (sec + i) (fat_cache s) (i * 512) Hw) as (d & E & Hd); [lia | lia | lia |]. rewrite E.
    set (b := splice (fat_cache s) (i * 512) (vsec s (sec + i))). set (s1 := with_buf (with_disk s d) b).
    destruct (vsec_ok s (sec + i)) as [Hvl Hvf].
    assert (Hlb : Z.of_nat (length b) = 8192) by (unfold b; rewrite length_spliced; lia).
    assert (Q1 : quiet s s1) by (by constructor).
    destruct (IH s1 sec (i + 1)) as (s' & E' & Q & L' & F' & C'); try (done || lia).
    + apply (works_disk s); [done | done | apply Hd].
    + by apply Forall_splice.
    + cbn. lia.
    + exists s'. split; [exact E' |]. split; [by etrans |]. split; [exact L' |]. split; [exact F' |]. intros k Hk. rewrite C' by done.
      rewrite (quiet_vsec s s1) by done. cbn [with_buf with_disk fat_cache s1]. unfold b. rewrite aget_splice by lia.
      destruct (Z.leb_spec (512 * (i + 1)) k), (Z.ltb_spec k (512 * (i + 1 + Z.of_nat n))), (Z.leb_spec (512 * i) k), (Z.ltb_spec k (512 * (i + Z.of_nat (S n)))),
        (Z.leb_spec (i * 512) k), (Z.ltb_spec k (i * 512 + Z.of_nat (length (vsec s (sec + i))))); cbn [andb]; try lia; try done.
      f_equal; [f_equal |]; Z.to_euclidean_division_equations; lia.
Qed.

(** Any range of at most four bytes of the first table is cached by a load. *)
Lemma geo_small s : works s -> 0 < fat_sectors (fi s) /\ reserved_sectors (fi s) + fat_sectors (fi s) <= total_sectors (fi s)
  /\ fat_sectors (fi s) < 2 ^ 32 /\ 1 <= reserved_sectors (fi s) /\ total_sectors (fi s) < 2 ^ 32 - 1.
Proof.
  intros [[G1 G2 G3 G4 G5 G6 G7 [G8 G8'] G9 G10 G11] _]. unfold place, width in G7. 
  assert (0 < fat_sectors (fi s)) by (destruct G1 as [E | [E | E]]; rewrite E in G7; cbn [Z.eqb Pos.eqb] in G7; Z.to_euclidean_division_equations; lia).
  assert (fat_sectors (fi s) <= num_fats (fi s) * fat_sectors (fi s)) by nia.
  assert (0 <= cluster_count (fi s) * sectors_per_cluster (fi s)) by nia. lia.
Qed.

Lemma sectors_of off len : 0 <= off -> 1 <= len <= 4 ->
  let n := (off mod 512 +! len +! 512 -! 1) / 512 in let n := if n <? 1 then 1 else n in
  1 <= n <= 2 /\ off mod 512 + len <= 512 * n /\ off / 512 + n <= (off + len + 511) / 512.
Proof.
  intros Ho Hl. cbv zeta. pose proof (Z.mod_pos_bound off 512 ltac:(lia)). ured.
  destruct (Z.ltb_spec ((off mod 512 + len + 512 - 1) / 512) 1); Z.to_euclidean_division_equations; lia.
Qed.

Lemma load_ok s off len : vol_ok s -> 0 <= off -> 1 <= len <= 4 -> off + len <= 512 * fat_sectors (fi s) ->
  exists s', fat_cache_load s off len = (s', true) /\ quiet s s' /\ vol_ok s' /\
    fat_cache_sec s' = reserved_sectors (fi s) + off / 512 /\ off mod 512 + len <= 512 * fat_cache_n s' /\
    1 <= fat_cache_n s' <= 2 /\ fat_cache_sec s' + fat_cache_n s' <= reserved_sectors (fi s) + fat_sectors (fi s) /\
    forall i, 0 <= i < 512 * fat_cache_n s' -> aget 0 (fat_cache s') i = fat_byte s (off - off mod 512 + i).
Proof.
  intros Hv Ho Hl He. pose proof Hv as [[] Hu [Hb Hbf] Hc Hh]. destruct (geo_small s ltac:(auto)) as (P1 & P2 & P3 & P4 & P5).
  assert (Hdiv : 0 <= off / 512 < fat_sectors (fi s)) by (Z.to_euclidean_division_equations; lia).
  unfold fat_cache_load. rewrite go_bps0. rewrite (u32_small (reserved_sectors _ + _)) by (unfold is_u32; lia).
  pose proof (sectors_of off len Ho Hl) as Hn. cbv zeta in Hn. set (n := if _ <? 1 then 1 else _) in *. clearbody n. destruct Hn as (N1 & N2 & N3).
  assert (Hend : off / 512 + n <= fat_sectors (fi s)) by (Z.to_euclidean_division_equations; lia).
  destruct (Z.ltb_spec 2 n); [lia |]. set (sec := reserved_sectors (fi s) + off / 512) in *.
  assert (Hbyte : forall i, 0 <= i -> aget 0 (vsec s (sec + i / 512)) (i mod 512) = fat_byte s (off - off mod 512 + i)).
  { intros i Hi. unfold fat_byte, sec. f_equal; [f_equal |]; Z.to_euclidean_division_equations; lia. }
  destruct ((fat_cache_sec s =? sec) && (n <=? fat_cache_n s)) eqn:Ehit.
  - apply andb_true_iff in Ehit as [Es%Z.eqb_eq En%Z.leb_le]. exists s. split; [done |]. split; [done |]. split; [done |]. destruct Hc as [Hc | (C1 & C2 & C3 & C4)]; [unfold NO_ENTRY in Hc; lia |].
    split; [done |]. split; [lia |]. split; [done |]. split; [lia |]. intros i Hi. rewrite C4 by done. rewrite Es. apply Hbyte. lia.
  - destruct (cache_fill_ok (Z.to_nat n) s sec 0) as (s1 & E & Q & L & F & C); [auto | done | done | lia.. |]. rewrite E.
    assert (Q' : quiet s (with_tag s1 sec n)) by (etrans; [exact Q | by constructor]).
    assert (C' : forall i, 0 <= i < 512 * n -> aget 0 (fat_cache s1) i = aget 0 (vsec s (sec + i / 512)) (i mod 512)).
    { intros i Hi. rewrite C by lia. destruct (Z.leb_spec (512 * 0) i), (Z.ltb_spec i (512 * (0 + Z.of_nat (Z.to_nat n)))); (done || lia). }
    pose proof (geom_fields _ _ (qu_geom _ _ Q')) as (E1 & _).
    exists (with_tag s1 sec n). split; [done |]. split; [done |]. split.
    { apply (vol_ok_quiet s); [done | done | done | done |]. right. cbn [with_tag fat_cache_n fat_cache_sec fat_cache].
      change (fi (with_tag s1 sec n)) with (fi s1) in *. rewrite E1. split; [done |]. split; [lia |]. split; [lia |]. intros i Hi.
      rewrite C' by done. f_equal. symmetry. by apply quiet_vsec. }
    cbn [with_tag fat_cache_n fat_cache_sec fat_cache]. split; [done |]. split; [lia |]. split; [done |]. split; [lia |].
    intros i Hi. rewrite C' by done. apply Hbyte. lia.
Qed.

Definition valid s (n : Z) : Prop := 2 <= n < cluster_count (fi s) + 2.
#[global] Instance valid_dec s n : Decision (valid s n).
Proof. unfold valid. apply _. Defined.

Lemma count_small s : vol_ok s -> cluster_count (fi s) +! 2 = cluster_count (fi s) + 2 /\ cluster_count (fi s) + 2 <= 0x0FFFFFF2
  /\ fat_type s <> 0.
Proof.
  intros [[] _ _ _ _]. unfold max_count in *. assert (cluster_count (fi s) <= 0x0FFFFFF0) by (fat_types go_type0; lia).
  split; [apply u32_small; unfold is_u32; lia |]. split; [lia |]. destruct go_type0 as [-> | [-> | ->]]; done.
Qed.

Lemma bad_index_spec s n : vol_ok s -> bad_index s n = negb (bool_decide (valid s n)).
Proof.
  intros Hv. destruct (count_small s Hv) as (E & _ & Ht). unfold bad_index, valid. rewrite E, (proj2 (Z.eqb_neq _ _) Ht). cbn [orb].
  destruct (Z.ltb_spec n 2), (Z.leb_spec (cluster_count (fi s) + 2) n); cbn [orb]; symmetry; case_bool_decide; (done || lia).
Qed.

Lemma entry_place_ok s n : vol_ok s -> valid s n -> entry_place (fat_type s) n = (place (fat_type s) n, width (fat_type s)) /\
  0 <= place (fat_type s) n /\ 1 <= width (fat_type s) <= 4 /\ place (fat_type s) n + width (fat_type s) <= 512 * fat_sectors (fi s).
Proof.
  intros [[] _ _ _ _] Hn. unfold valid, entry_place, place, width, max_count in *.
  fat_types go_type0; (split; [f_equal; rewrite u32_small; [lia | unfold is_u32; Z.to_euclidean_division_equations; lia] |]);
    Z.to_euclidean_division_equations; lia.
Qed.

Lemma get_valid s n : vol_ok s -> valid s n ->
  exists s', fat_entry_get s n = (s', fat_at s n) /\ quiet s s' /\ vol_ok s'.
Proof.
  intros Hv Hn. unfold fat_entry_get. rewrite bad_index_spec, bool_decide_eq_true_2 by done. cbn [negb].
  destruct (entry_place_ok s n Hv Hn) as (-> & P1 & P2 & P3).
  destruct (load_ok s _ _ Hv P1 P2 P3) as (s' & -> & Q & Hv' & _ & L2 & L3 & _ & L5). cbn [negb].
  exists s'. split; [| done]. pose proof (geom_fields _ _ (qu_geom _ _ Q)) as (E1 & E2 & _). pose proof Hv as [[] _ _ _ _].
  rewrite E1, E2, go_bps0. f_equal. unfold fat_at. destruct Hv' as [_ _ [_ Hf] _ _]. apply decode_entry_bytes; [done | unfold valid in Hn; lia | done |].
  intros k Hk. pose proof (Z.mod_pos_bound (place (fat_type s) n) 512 ltac:(lia)). rewrite L5 by lia. f_equal. lia.
Qed.

Lemma get_spec s n : vol_ok s -> exists s', fat_entry_get s n = (s', if bool_decide (valid s n) then fat_at s n else NO_ENTRY) /\ quiet s s' /\ vol_ok s'.
Proof.
  intros Hv. case_bool_decide; [by apply get_valid |]. exists s. unfold fat_entry_get. rewrite bad_index_spec, bool_decide_eq_false_2 by done. done.
Qed.

(** Only sectors [k] of the volume with [W k] have changed. *)
Record changes (W : Z -> Prop) s s' : Prop := {
  ch_geom : geom s' = geom s;
  ch_usable : forall v l, usable (disk s') v l <-> usable (disk s) v l;
  ch_cap : forall v, ata_capacity (disk s') v = ata_capacity (disk s) v;
  ch_sector : forall v l, (v <> fat_drive s \/ ~ W (l - fat_part_start s)) -> sector (disk s') v l = sector (disk s) v l;
}.

Lemma changes_quiet W s s' : quiet s s' -> changes W s s'.
Proof. intros [Hg _ [H1 H2 H3]]. by constructor. Qed.

Lemma changes_trans W s1 s2 s3 : changes W s1 s2 -> changes W s2 s3 -> changes W s1 s3.
Proof.
  intros [A1 A2 A3 A4] [B1 B2 B3 B4]. pose proof (geom_fields _ _ A1) as (_ & _ & E3 & E4 & _). rewrite E3, E4 in B4. constructor.
  - congruence.
  - intros. by rewrite B2.
  - intros. by rewrite B3.
  - intros v l Hn. by rewrite B4, A4.
Qed.

Lemma changes_weaken (W W' : Z -> Prop) s s' : (forall k, W k -> W' k) -> changes W s s' -> changes W' s s'.
Proof. intros H [A1 A2 A3 A4]. constructor; try done. intros v l [Hn | Hn]; apply A4; [by left | right]. intros Hw. by apply Hn, H. Qed.

Lemma changes_vsec W s s' k : changes W s s' -> ~ W k -> vsec s' k = vsec s k.
Proof.
  intros [A1 _ _ A4] Hk. apply geom_fields in A1 as (_ & _ & E3 & E4 & _). unfold vsec. rewrite E3, E4. apply A4. right.
  by replace (fat_part_start s + k - fat_part_start s) with k by lia.
Qed.

Lemma changes_works W s s' : changes W s s' -> works s -> works s'.
Proof. intros [A1 A2 _ _] Hw. by apply (works_disk s). Qed.

Lemma write_vol_ok s k buf off : works s -> 0 <= k < total_sectors (fi s) -> 0 <= off -> off + 512 <= Z.of_nat (length buf) -> Forall is_u8 buf ->
  exists d, fat_write_vol_sector s k buf off = (with_disk s d, true) /\ changes (eq k) s (with_disk s d) /\ vsec (with_disk s d) k = slice buf off 512.
Proof.
  intros Hw Hk Ho Hb Hf. pose proof Hw as [[] Hu]. unfold fat_write_vol_sector. rewrite parts_one by done. rewrite vol_lba by done.
  destruct (write_run_ok 1 (disk s) (fat_drive s) (fat_part_start s + k) buf off) as (d & E & U & C & S); try (done || lia).
  { intros j Hj. replace (fat_part_start s + k + j) with (fat_part_start s + k) by lia. by apply Hu. }
  rewrite E. exists d. split; [done |]. split.
  - constructor; try done. intros v l Hn. change (disk (with_disk s d)) with d. rewrite S. 
    destruct (Z.eqb_spec v (fat_drive s)), (Z.leb_spec (fat_part_start s + k) l), (Z.ltb_spec l (fat_part_start s + k + Z.of_nat 1)); cbn [andb]; try done.
    destruct Hn; [done | lia].
  - unfold vsec. cbn [with_disk disk fat_drive fat_part_start]. rewrite S, Z.eqb_refl.
    destruct (Z.leb_spec (fat_part_start s + k) (fat_part_start s + k)), (Z.ltb_spec (fat_part_start s + k) (fat_part_start s + k + Z.of_nat 1)); try lia.
    cbn [andb]. f_equal. lia.
Qed.

Lemma flush_ok n : forall s sec i, works s -> Z.of_nat (length (fat_cache s)) = 8192 -> Forall is_u8 (fat_cache s) ->
  0 <= sec -> 0 <= i -> i + Z.of_nat n <= 2 -> sec + i + Z.of_nat n <= total_sectors (fi s) ->
  exists d, cache_flush n s sec i = (with_disk s d, true) /\ changes (fun k => sec + i <= k < sec + i + Z.of_nat n) s (with_disk s d) /\
    forall k, i <= k < i + Z.of_nat n -> vsec (with_disk s d) (sec + k) = slice (fat_cache s) (512 * k) 512.
Proof.
  induction n as [| n IH]; intros s sec i Hw Hl Hf Hs Hi Hn Ht; cbn [cache_flush].
  - exists (disk s). destruct s. split; [done |]. split; [by constructor | lia].
  - pose proof Hw as [[] _]. rewrite go_bps0. rewrite (u32_small (sec + i)), (u32_small (i * 512)) by (unfold is_u32; lia).
    destruct (write_vol_ok s (sec + i) (fat_cache s) (i * 512) Hw) as (d & E & Hd & Hv); [lia | lia | lia | done |]. rewrite E.
    destruct (IH (with_disk s d) sec (i + 1)) as (d' & E' & C' & V'); try (done || lia).
    + by apply (changes_works _ _ _ Hd).
    + cbn [with_disk fi]. lia.
    + exists d'. split; [exact E' |]. split.
      * apply (changes_trans _ _ (with_disk s d)); [eapply changes_weaken; [| exact Hd] | eapply changes_weaken; [| exact C']]; cbn beta; lia.
      * intros k Hk. change (with_disk (with_disk s d) d') with (with_disk s d') in *. destruct (Z.eq_dec k i) as [-> |].
        -- rewrite (changes_vsec _ _ _ _ C') by lia. rewrite Hv. f_equal. lia.
        -- apply V'. lia.
Qed.

Definition in_fat s (k : Z) : Prop := reserved_sectors (fi s) <= k < reserved_sectors (fi s) + fat_sectors (fi s).

Lemma set_valid s n v : vol_ok s -> valid s n -> is_u32 v ->
  exists s', fat_entry_set s n v = (s', true) /\ vol_ok s' /\ changes (in_fat s) s s' /\ alloc_hint s' = alloc_hint s /\
    forall m, 0 <= m -> fat_at s' m = if m =? n then v mod entry_mod (fat_type s) else fat_at s m.
Proof.
  intros Hv Hn Hu. unfold fat_entry_set. rewrite bad_index_spec, bool_decide_eq_true_2 by done. cbn [negb].
  destruct (entry_place_ok s n Hv Hn) as (-> & P1 & P2 & P3). set (off := place (fat_type s) n) in *. set (len := width (fat_type s)) in *.
  destruct (load_ok s off len Hv P1 P2 P3) as (s1 & -> & Q & Hv1 & L1 & L2 & L3 & L4 & L5). cbn [negb].
  pose proof (geom_fields _ _ (qu_geom _ _ Q)) as (E1 & E2 & E3 & E4 & _). pose proof Hv as [[] _ _ _ _]. rewrite E1, E2, go_bps0.
  pose proof Hv1 as [_ _ [Hb1 Hf1] _ _]. destruct (geo_small s ltac:(auto)) as (S1 & S2 & S3 & S4 & S5).
  pose proof (Z.mod_pos_bound off 512 ltac:(lia)) as Hmod. set (inn := off mod 512) in *.
  assert (Hdiv : 0 <= off / 512 < fat_sectors (fi s)) by (Z.to_euclidean_division_equations; lia).
  destruct (encode_entry_ok (fat_type s) n v (fat_cache s1) inn go_type0 ltac:(unfold valid in Hn; lia) Hu Hf1 ltac:(lia) ltac:(fold len; lia)) as (C1 & C2 & C3 & C4).
  fold len in C3, C4. set (c := encode_entry _ _ _ _ _) in *. set (s2 := with_buf s1 c).
  change (fi s2) with (fi s1). rewrite E1, go_bps0, u32_small by (unfold is_u32; lia). assert (Hw2 : works s2) by (by apply (works_disk s1); [apply vol_works | |]).
  change (fat_cache_n s2) with (fat_cache_n s1) in *. set (N := fat_cache_n s1) in *. rewrite <- L1.
  destruct (flush_ok (Z.to_nat N) s2 (fat_cache_sec s1) 0) as (d & E & Hch & Hnew); try (done || lia).
  { cbn [s2 with_buf fat_cache]. lia. } { change (fi s2) with (fi s1). rewrite E1. lia. }
  exists (with_disk s2 d). split; [exact E |]. set (s3 := with_disk s2 d) in *.
  assert (Hin : forall k, fat_cache_sec s1 + 0 <= k < fat_cache_sec s1 + 0 + Z.of_nat (Z.to_nat N) -> in_fat s k) by (unfold in_fat; lia).
  assert (Q2 : quiet s s2) by (etrans; [exact Q | by constructor]).
  assert (Hch' : changes (in_fat s) s s3) by (apply (changes_trans _ _ s2); [by apply changes_quiet | eapply changes_weaken; [exact Hin | exact Hch]]).
  assert (Hbyte : forall o, fat_byte s3 o = if (off - inn <=? o) && (o <? off - inn + 512 * N) then aget 0 c (o - (off - inn)) else fat_byte s o).
  { intros o. unfold fat_byte. pose proof (geom_fields _ _ (ch_geom _ _ _ Hch')) as (F1 & _). rewrite F1.
    destruct (Z.leb_spec (off - inn) o), (Z.ltb_spec o (off - inn + 512 * N)); cbn [andb].
    - replace (reserved_sectors (fi s) + o / 512) with (fat_cache_sec s1 + (o / 512 - off / 512)) by lia.
      rewrite Hnew by (subst inn; Z.to_euclidean_division_equations; lia). change (fat_cache s2) with c.
      rewrite aget_slice by (subst inn; Z.to_euclidean_division_equations; lia). f_equal. subst inn. Z.to_euclidean_division_equations; lia.
    - f_equal. rewrite (changes_vsec _ _ _ _ Hch) by (subst inn; Z.to_euclidean_division_equations; lia). exact (quiet_vsec _ _ _ Q2).
    - f_equal. rewrite (changes_vsec _ _ _ _ Hch) by (subst inn; Z.to_euclidean_division_equations; lia). exact (quiet_vsec _ _ _ Q2).
    - lia. }
  split.
  - destruct (changes_works _ _ _ Hch' ltac:(auto)) as [W1 W2]. constructor; [done | done | cbn [s3 with_disk s2 with_buf fat_cache]; split; [lia | done] | right | ].
    + change (fat_cache_n s3) with N. change (fat_cache_sec s3) with (fat_cache_sec s1). change (fi s3) with (fi s1). rewrite E1.
      split; [done |]. split; [lia |]. split; [done |]. intros i Hi. change (fat_cache s3) with c.
      replace (fat_cache_sec s1 + i / 512) with (fat_cache_sec s1 + (i / 512)) by lia.
      rewrite Hnew by (Z.to_euclidean_division_equations; lia). change (fat_cache s2) with c. rewrite aget_slice by (Z.to_euclidean_division_equations; lia).
      f_equal. Z.to_euclidean_division_equations; lia.
    + destruct Hv1. exact vo_hint0.
  - split; [exact Hch' |]. split; [apply Q |]. intros m Hm. unfold fat_at. change (fat_type s3) with (fat_type s1). rewrite E2.
    assert (Hold : forall o, off - inn <= o < off - inn + 512 * N -> aget 0 (fat_cache s1) (o - (off - inn)) = fat_byte s o).
    { intros o Ho. rewrite L5 by lia. f_equal. lia. }
    apply decode_updated; try done; [unfold valid in Hn; lia | apply fat_byte_u8 | |].
    + fold off len. intros o Ho. rewrite Hbyte. destruct (Z.leb_spec (off - inn) o), (Z.ltb_spec o (off - inn + 512 * N)); cbn [andb]; try done.
      rewrite C3 by lia. by apply Hold.
    + fold off len. assert (Hget : forall k, 0 <= k < len -> fat_byte s3 (off + k) = aget 0 c (inn + k)).
      { intros k Hk. rewrite Hbyte. destruct (Z.leb_spec (off - inn) (off + k)), (Z.ltb_spec (off + k) (off - inn + 512 * N)); cbn [andb]; try lia.
        f_equal. lia. }
      assert (Ht : (fat_type s =? 12) = true -> len = 2) by (subst len; unfold width; intros ->%Z.eqb_eq; done).
      destruct (fat_type s =? 12).
      * specialize (Ht eq_refl). pose proof (Hget 0 ltac:(lia)) as G0. rewrite !Z.add_0_r in G0. rewrite G0, (Hget 1) by lia.
        pose proof (Hold off ltac:(lia)) as O0. pose proof (Hold (off + 1) ltac:(lia)) as O1.
        replace (off - (off - inn)) with inn in O0 by lia. replace (off + 1 - (off - inn)) with (inn + 1) in O1 by lia.
        rewrite O0, O1 in C4. exact C4.
      * intros k Hk. rewrite Hget by done. by apply C4.
Qed.

Lemma set_invalid s n v : vol_ok s -> ~ valid s n -> fat_entry_set s n v = (s, false).
Proof. intros Hv Hn. unfold fat_entry_set. by rewrite bad_index_spec, bool_decide_eq_false_2. Qed.

(** C16. The table as an array.  On a well-formed volume reading an entry through the
    cache gives the entry that is on the disk, or the error value exactly for a
    number that is no cluster; writing one succeeds exactly for a cluster, makes
    every later read of it give the value cut to the width of an entry and every
    other read what it was (FAT12 entries share bytes and straddle sectors),
    changes no sector outside the first table and keeps the cache coherent. *)
Theorem fat_entries_exact s n v (Hv : vol_ok s) (Hu : is_u32 v) :
  (exists s', fat_entry_get s n = (s', if bool_decide (valid s n) then fat_at s n else NO_ENTRY) /\ quiet s s' /\ vol_ok s') /\
  (valid s n -> exists s', fat_entry_set s n v = (s', true) /\ vol_ok s' /\ changes (in_fat s) s s' /\
    forall m, valid s m -> snd (fat_entry_get s' m) = if m =? n then v mod entry_mod (fat_type s) else fat_at s m) /\
  (~ valid s n -> fat_entry_set s n v = (s, false)).
Proof.
  split; [by apply get_spec |]. split; [| by apply set_invalid]. intros Hn.
  destruct (set_valid s n v Hv Hn Hu) as (s' & E & Hv' & Hc & _ & Hm). exists s'. split; [exact E |]. split; [exact Hv' |]. split; [exact Hc |].
  intros m Hvm. pose proof (geom_fields _ _ (ch_geom _ _ _ Hc)) as (E1 & _).
  destruct (get_valid s' m Hv') as (s2 & -> & _); [unfold valid in *; by rewrite E1 |]. cbn [snd]. apply Hm. unfold valid in Hvm. lia.
Qed.

(** ** Allocation *)

Definition calm := changes (fun _ => False).

Lemma calm_fat_at s s' n : calm s s' -> fat_at s' n = fat_at s n.
Proof.
  intros H. pose proof (geom_fields _ _ (ch_geom _ _ _ H)) as (E1 & E2 & _). unfold fat_at, decode_bytes, fat_byte.
  rewrite E1, E2. rewrite !(changes_vsec _ s s') by (done || tauto). done.
Qed.

Lemma vol_ok_hint s h : vol_ok s -> is_u32 h -> vol_ok (with_hint s h).
Proof. intros [] Hh. by constructor. Qed.

Lemma calm_hint s h : calm s (with_hint s h).
Proof. by constructor. Qed.

(** The [i]-th cluster after [c], in a circle. *)
Definition cyc s (c i : Z) : Z := 2 + (c - 2 + i) mod cluster_count (fi s).

Lemma cyc_valid s c i : vol_ok s -> valid s (cyc s c i).
Proof. intros [[] _ _ _ _]. unfold valid, cyc. pose proof (Z.mod_pos_bound (c - 2 + i) (cluster_count (fi s)) ltac:(lia)). lia. Qed.

Lemma cyc_0 s c : valid s c -> cyc s c 0 = c.
Proof. unfold valid, cyc. intros. rewrite Z.add_0_r, Z.mod_small by lia. lia. Qed.

Lemma cyc_succ s c i : 0 < cluster_count (fi s) -> valid s c ->
  cyc s (if cluster_count (fi s) + 2 <=? c + 1 then 2 else c + 1) i = cyc s c (i + 1).
Proof.
  unfold valid, cyc. intros Hc Hv. f_equal. destruct (Z.leb_spec (cluster_count (fi s) + 2) (c + 1)).
  - replace (c - 2 + (i + 1)) with (2 - 2 + i + 1 * cluster_count (fi s)) by lia. by rewrite Z.mod_add by lia.
  - f_equal. lia.
Qed.

Lemma cyc_all s c m : valid s c -> valid s m -> exists i, 0 <= i < cluster_count (fi s) /\ cyc s c i = m.
Proof.
  unfold valid, cyc. intros Hc Hm. exists ((m - c) mod cluster_count (fi s)). split; [apply Z.mod_pos_bound; lia |].
  rewrite Zplus_mod_idemp_r. replace (c - 2 + (m - c)) with (m - 2) by lia. rewrite Z.mod_small by lia. lia.
Qed.

Definition scan_from s : Z := if cluster_count (fi s) + 2 <=? alloc_hint s then 2 else alloc_hint s.

Lemma alloc_scan_ok n : forall s, vol_ok s -> 2 <= alloc_hint s <= cluster_count (fi s) + 2 ->
  exists s' c, alloc_scan n s (cluster_count (fi s) + 2) = (s', c) /\ vol_ok s' /\ calm s s' /\ 2 <= alloc_hint s' <= cluster_count (fi s) + 2 /\
    ((c = 0 /\ forall i, 0 <= i < Z.of_nat n -> fat_at s (cyc s (scan_from s) i) <> 0) \/
     exists i, 0 <= i < Z.of_nat n /\ c = cyc s (scan_from s) i /\ fat_at s c = 0 /\ forall j, 0 <= j < i -> fat_at s (cyc s (scan_from s) j) <> 0).
Proof.
  induction n as [| n IH]; intros s Hv Hh; cbn [alloc_scan].
  - exists s, 0. split; [done |]. split; [done |]. split; [by apply changes_quiet |]. split; [done |]. left. split; [done | lia].
  - destruct (count_small s Hv) as (_ & Hsm & _). pose proof Hv as [[] _ _ _ _].
    change (if cluster_count (fi s) + 2 <=? alloc_hint s then 2 else alloc_hint s) with (scan_from s). set (c := scan_from s).
    assert (Hc : valid s c) by (unfold c, scan_from, valid; destruct (Z.leb_spec (cluster_count (fi s) + 2) (alloc_hint s)); lia).
    destruct (get_valid s c Hv Hc) as (s1 & -> & Q & Hv1). pose proof (geom_fields _ _ (qu_geom _ _ Q)) as (E1 & _). unfold valid in Hc.
    rewrite (u32_small (c + 1)) by (unfold is_u32; lia). destruct (Z.eqb_spec (fat_at s c) 0) as [Ez | Hne].
    + eexists _, c. split; [done |]. set (h := if cluster_count (fi s) + 2 <=? c + 1 then 2 else c + 1).
      assert (Hhr : 2 <= h <= cluster_count (fi s) + 2) by (unfold h; destruct (Z.leb_spec (cluster_count (fi s) + 2) (c + 1)); lia).
      split; [apply vol_ok_hint; [done | unfold is_u32; lia] |]. split; [apply (changes_trans _ _ s1); [by apply changes_quiet | apply calm_hint] |].
      split; [done |]. right. exists 0. split; [lia |]. split; [symmetry; by apply cyc_0 |]. split; [done | lia].
    + destruct (IH (with_hint s1 (c + 1))) as (s' & c' & E & Hv' & Hcalm & Hh' & Hres).
      * apply vol_ok_hint; [done | unfold is_u32; lia].
      * change (fi (with_hint s1 (c + 1))) with (fi s1). rewrite E1. cbn [with_hint alloc_hint]. lia.
      * change (fi (with_hint s1 (c + 1))) with (fi s1) in *. rewrite E1 in *. exists s', c'. split; [exact E |]. split; [done |].
        assert (K : calm s (with_hint s1 (c + 1))) by (apply (changes_trans _ _ s1); [by apply changes_quiet | apply calm_hint]).
        split; [by apply (changes_trans _ _ (with_hint s1 (c + 1))) |]. split; [done |].
        assert (Hcyc : forall i, cyc (with_hint s1 (c + 1)) (scan_from (with_hint s1 (c + 1))) i = cyc s c (i + 1)).
        { intros i. unfold scan_from. cbn [with_hint alloc_hint fi]. rewrite E1. rewrite <- (cyc_succ s c i) by (unfold valid; lia). unfold cyc.
          cbn [with_hint fi]. by rewrite E1. }
        destruct Hres as [(-> & Hall) | (i & Hi & Ec & Ez & Hmin)].
        -- left. split; [done |]. intros i Hi. destruct (Z.eq_dec i 0) as [-> |]; [by rewrite cyc_0 |]. specialize (Hall (i - 1) ltac:(lia)).
           rewrite Hcyc, (calm_fat_at _ _ _ K) in Hall. by replace (i - 1 + 1) with i in Hall by lia.
        -- right. exists (i + 1). split; [lia |]. rewrite (calm_fat_at _ _ _ K) in Ez. rewrite Hcyc in Ec. split; [done |]. split; [done |]. intros j Hj.
           destruct (Z.eq_dec j 0) as [-> |]; [by rewrite cyc_0 |]. specialize (Hmin (j - 1) ltac:(lia)).
           rewrite Hcyc, (calm_fat_at _ _ _ K) in Hmin. by replace (j - 1 + 1) with j in Hmin by lia.
Qed.

Lemma alloc_ok s : vol_ok s -> exists s' c, fat_alloc_cluster s = (s', c) /\ vol_ok s' /\ calm s s' /\
  ((c = 0 /\ forall m, valid s m -> fat_at s m <> 0) \/ (valid s c /\ fat_at s c = 0)).
Proof.
  intros Hv. destruct (count_small s Hv) as (Ec & Hsm & Ht). pose proof Hv as [[] _ _ _ _]. unfold fat_alloc_cluster.
  rewrite (proj2 (Z.eqb_neq _ _) Ht), Ec. set (s1 := if (alloc_hint s <? 2) || (cluster_count (fi s) + 2 <=? alloc_hint s) then with_hint s 2 else s).
  assert (H1 : vol_ok s1 /\ calm s s1 /\ 2 <= alloc_hint s1 <= cluster_count (fi s) + 2 /\ fi s1 = fi s).
  { unfold s1. destruct ((alloc_hint s <? 2) || (cluster_count (fi s) + 2 <=? alloc_hint s)) eqn:E.
    - split; [by apply vol_ok_hint |]. split; [apply calm_hint |]. split; [cbn [with_hint alloc_hint]; lia | done].
    - apply orb_false_iff in E as [E1%Z.ltb_ge E2%Z.leb_gt]. split; [done |]. split; [by apply changes_quiet |]. split; [lia | done]. }
  clearbody s1. destruct H1 as (Hv1 & K1 & Hh1 & Ef). destruct (alloc_scan_ok (Z.to_nat (cluster_count (fi s))) s1 Hv1) as (s' & c & E & Hv' & K & _ & Hres); [by rewrite Ef |].
  rewrite Ef in E |- *. exists s', c. split; [exact E |]. split; [done |]. split; [by apply (changes_trans _ _ s1) |].
  assert (Hs : valid s1 (scan_from s1)).
  { unfold scan_from, valid. rewrite Ef. destruct (Z.leb_spec (cluster_count (fi s) + 2) (alloc_hint s1)); lia. }
  destruct Hres as [(-> & Hall) | (i & _ & -> & Ez & _)].
  - left. split; [done |]. intros m Hm. destruct (cyc_all s1 (scan_from s1) m Hs) as (i & Hi & <-); [unfold valid; by rewrite Ef |].
    rewrite <- (calm_fat_at _ _ _ K1). apply Hall. rewrite Ef in Hi. lia.
  - right. split; [unfold valid; rewrite <- Ef; exact (cyc_valid s1 _ _ Hv1) |]. by rewrite <- (calm_fat_at _ _ _ K1).
Qed.

(** ** Chains *)

(** The table links [c] to the cluster [c']. *)
Definition link s (c c' : Z) : Prop := valid s c /\ fat_at s c = c' /\ valid s c'.

Lemma valid_plain s v : vol_ok s -> valid s v -> fat_is_eoc s v = false /\ fat_is_bad s v = false.
Proof.
  intros [[] _ _ _ _] Hv. unfold valid, max_count in *. unfold fat_is_eoc, fat_is_bad, is_eoc, is_bad.
  fat_types go_type0; (split; [apply Z.leb_gt | apply Z.eqb_neq]; lia).
Qed.

Lemma in_range_spec s c : vol_ok s -> in_range s c = bool_decide (valid s c).
Proof.
  intros Hv. destruct (count_small s Hv) as (E & _). unfold in_range, valid. rewrite E.
  destruct (Z.leb_spec 2 c), (Z.ltb_spec c (cluster_count (fi s) + 2)); cbn [andb]; symmetry; case_bool_decide; (done || lia).
Qed.

(** The chain ends at [c] exactly when its entry is no cluster. *)
Lemma stops_spec s v : vol_ok s -> 0 <= v ->
  fat_is_eoc s v || (v <? 2) || fat_is_bad s v || negb (in_range s v) = negb (bool_decide (valid s v)).
Proof.
  intros Hv Hv0. rewrite in_range_spec by done. case_bool_decide as H.
  - destruct (valid_plain s v Hv H) as [-> ->]. destruct (Z.ltb_spec v 2); [unfold valid in H; lia | done].
  - by rewrite orb_true_r.
Qed.

(** What a release does to the table while it runs: the clusters of [V] are
    free, everything else is as in [s0]. *)
Record releasing s0 s (V : list Z) : Prop := {
  rl_vol : vol_ok s;
  rl_changes : changes (in_fat s0) s0 s;
  rl_nodup : NoDup V;
  rl_valid : forall c, c ∈ V -> valid s0 c;
  rl_table : forall m, 0 <= m -> fat_at s m = if bool_decide (m ∈ V) then 0 else fat_at s0 m;
}.

Lemma releasing_count s0 s V : releasing s0 s V -> Z.of_nat (length V) <= cluster_count (fi s0).
Proof.
  intros [Hv Hc Hn Hr _]. assert (Hsub : V ⊆+ seqZ 2 (cluster_count (fi s0))).
  { apply NoDup_submseteq; [done |]. intros c Hcv. apply elem_of_seqZ. specialize (Hr c Hcv). unfold valid in Hr. lia. }
  apply submseteq_length in Hsub. rewrite length_seqZ in Hsub. pose proof (geom_fields _ _ (ch_geom _ _ _ Hc)) as (E & _). rewrite <- E in *.
  pose proof Hv as [[] _ _ _ _]. lia.
Qed.

Lemma geom_valid s s' c : geom s' = geom s -> valid s' c <-> valid s c.
Proof. intros (E & _)%geom_fields. unfold valid. by rewrite E. Qed.

Definition closed s (V : list Z) : Prop := forall x y, x ∈ V -> link s x y -> y ∈ V.

Lemma free_from_ok n : forall s0 s V first cur, releasing s0 s V -> vol_ok s0 -> is_u32 first -> valid s0 cur ->
  (forall x y, x ∈ V -> link s0 x y -> y ∈ V \/ y = cur) -> cluster_count (fi s0) + 2 <= Z.of_nat n + Z.of_nat (length V) ->
  exists s' V', free_chain_from n s first cur = (s', true) /\ releasing s0 s' V' /\ cur ∈ V' /\ V ⊆ V' /\ closed s0 V' /\
    forall x, x ∈ V' -> x ∈ V \/ rtc (link s0) cur x.
Proof.
  induction n as [| n IH]; intros s0 s V first cur Hrel Hv0 Hfirst Hcur Hcl Hfuel; [pose proof (releasing_count _ _ _ Hrel); lia |].
  cbn [free_chain_from]. pose proof Hrel as [Hv Hch Hnd Hval Htab]. pose proof (ch_geom _ _ _ Hch) as Hg.
  assert (Hcur' : valid s cur) by (by apply (geom_valid s0 s)).
  rewrite in_range_spec, bool_decide_eq_true_2 by done. cbn [negb].
  destruct (get_valid s cur Hv Hcur') as (s1 & -> & Q1 & Hv1). assert (Hcur1 : valid s1 cur) by (by apply (geom_valid s s1); [apply Q1 |]).
  destruct (set_valid s1 cur 0 Hv1 Hcur1 ltac:(unfold is_u32; lia)) as (s2 & -> & Hv2 & Hch2 & Hh2 & Ht2). cbn [negb].
  set (s3 := if first <? alloc_hint s2 then with_hint s2 first else s2).
  assert (H3 : vol_ok s3 /\ geom s3 = geom s2 /\ disk s3 = disk s2 /\ forall m, fat_at s3 m = fat_at s2 m).
  { unfold s3. destruct (first <? alloc_hint s2); [| done]. split; [by apply vol_ok_hint | done]. }
  clearbody s3. destruct H3 as (Hv3 & Hg3 & Hd3 & Ht3).
  assert (Hg1 : geom s1 = geom s0) by (rewrite (qu_geom _ _ Q1); done). assert (Hg2 : geom s2 = geom s0) by (rewrite (ch_geom _ _ _ Hch2); done).
  pose proof (geom_fields _ _ Hg1) as (F1 & F2 & _).
  assert (Hmod : 0 mod entry_mod (fat_type s1) = 0) by (apply Z.mod_0_l; unfold entry_mod; destruct (fat_type s1 =? 12), (fat_type s1 =? 16); lia).
  set (V' := if bool_decide (cur ∈ V) then V else cur :: V).
  assert (HV' : forall m, m ∈ V' <-> m = cur \/ m ∈ V).
  { intros m. unfold V'. case_bool_decide; [| apply elem_of_cons]. split; [by right | intros [-> |]; done]. }
  assert (Hrel' : releasing s0 s3 V').
  { constructor; [done | | | |].
    - assert (Hs2 : changes (in_fat s0) s0 s2).
      { apply (changes_trans _ _ s1); [apply (changes_trans _ _ s); [exact Hch | by apply changes_quiet] |].
        eapply changes_weaken; [| exact Hch2]. intros k. unfold in_fat. by rewrite F1. }
      destruct Hs2 as [K1 K2 K3 K4]. constructor; [by rewrite Hg3 | | |]; rewrite Hd3; done.
    - unfold V'. case_bool_decide; [done | by apply NoDup_cons].
    - intros c [-> | Hc]%HV'; [done | by apply Hval].
    - intros m Hm. rewrite Ht3, Ht2, Hmod, (quiet_fat_at _ _ _ Q1), Htab by done. destruct (Z.eqb_spec m cur) as [-> | Hne].
      + rewrite bool_decide_eq_true_2; [done |]. apply HV'. by left.
      + rewrite (bool_decide_ext (m ∈ V') (m ∈ V)); [done |]. rewrite HV'. naive_solver. }
  pose proof (geom_fields _ _ Hg3) as (G1 & G2 & _). pose proof (geom_fields _ _ Hg2) as (G3 & G4 & _). 
  assert (Hnx : 0 <= fat_at s cur).
  { unfold fat_at. pose proof Hv as [[] _ _ _ _]. exact (proj1 (decode_range (fat_type s) cur (fat_byte s) go_type0 (fat_byte_u8 s))). }
  (* the next cluster, in the table of [s0] *)
  assert (Hnext : valid s0 (fat_at s cur) -> cur ∉ V /\ fat_at s cur = fat_at s0 cur).
  { rewrite Htab by (unfold valid in Hcur; lia). case_bool_decide; intros Hvn; [unfold valid in Hvn; lia | done]. }
  assert (Hstop : ~ valid s0 (fat_at s cur) -> closed s0 V').
  { intros Hn x y [-> | Hx]%HV' Hl.
    - pose proof Hl as (_ & Ey & Hy). rewrite Htab in Hn by (unfold valid in Hcur; lia). case_bool_decide as Hin; [| by rewrite Ey in Hn ].
      destruct (Hcl cur y Hin Hl) as [? | ->]; [apply HV'; by right | apply HV'; by left].
    - apply HV'. destruct (Hcl x y Hx Hl) as [? | ->]; [by right | by left]. }
  assert (Hdone : ~ valid s0 (fat_at s cur) -> exists s' V', (s3, true) = (s', true) /\ releasing s0 s' V' /\ cur ∈ V' /\ V ⊆ V' /\ closed s0 V' /\
    forall x, x ∈ V' -> x ∈ V \/ rtc (link s0) cur x).
  { intros Hn. exists s3, V'. split; [done |]. split; [done |]. split; [apply HV'; by left |]. split; [intros x Hx; apply HV'; by right |]. split; [by apply Hstop |].
    intros x [-> | Hx]%HV'; [right; apply rtc_refl | by left]. }
  assert (Est : fat_is_eoc s3 (fat_at s cur) || (fat_at s cur <? 2) || fat_is_bad s3 (fat_at s cur) || negb (in_range s3 (fat_at s cur)) = negb (bool_decide (valid s0 (fat_at s cur)))).
  { rewrite (stops_spec s3) by done. f_equal. apply bool_decide_ext. apply geom_valid. by rewrite Hg3. }
  destruct (fat_is_eoc s3 (fat_at s cur) || (fat_at s cur <? 2) || fat_is_bad s3 (fat_at s cur)) eqn:Eb.
  - cbn [orb] in Est. apply Hdone. intros Hn. by rewrite bool_decide_eq_true_2 in Est by done.
  - cbn [orb] in Est. case_bool_decide as Hvn; cbn [negb] in Est.
    + destruct (Hnext Hvn) as [Hni Enx].
      destruct (IH s0 s3 V' first (fat_at s cur) Hrel' Hv0 Hfirst Hvn) as (s' & W & E & Hr' & Hin & Hsup & Hclo & Hsub).
      * intros x y [-> | Hx]%HV' Hl; [right; destruct Hl as (_ & <- & _); by symmetry |]. left. apply HV'. destruct (Hcl x y Hx Hl) as [? | ->]; [by right | by left].
      * unfold V'. rewrite bool_decide_eq_false_2 by done. cbn [length]. lia.
      * exists s', W. split; [exact E |]. split; [done |]. assert (Hlk : link s0 cur (fat_at s cur)) by (split; [done | by rewrite Enx in *]).
        split; [apply Hsup, HV'; by left |]. split; [intros x Hx; apply Hsup, HV'; by right |].
        split; [done |]. intros x Hx. destruct (Hsub x Hx) as [[-> | Hxv]%HV' | Hr]; [right; apply rtc_refl | by left | right]. by eapply rtc_l.
    + destruct n as [| n]; cbn [free_chain_from]; [by apply Hdone | rewrite Est; by apply Hdone].
Qed.

Lemma free_chain_ok s first : vol_ok s -> is_u32 first -> exists s' V, fat_free_chain s first = (s', true) /\ releasing s s' V /\
  forall x, x ∈ V <-> valid s first /\ rtc (link s) first x.
Proof.
  intros Hv Hf. destruct (count_small s Hv) as (Ec & _ & _). unfold fat_free_chain. rewrite Ec.
  assert (Hrel : releasing s s []) by (constructor; [done | by apply changes_quiet | constructor | by intros c Hc%elem_of_nil | done]).
  destruct (decide (valid s first)) as [Hvf | Hnv].
  - destruct (Z.ltb_spec first 2); [unfold valid in Hvf; lia |].
    destruct (free_from_ok (Z.to_nat (cluster_count (fi s) + 2)) s s [] first first Hrel Hv Hf Hvf) as (s' & V & E & Hr & Hin & _ & Hcl & Hsub).
    + by intros x y Hx%elem_of_nil.
    + cbn [length]. pose proof Hv as [[] _ _ _ _]. lia.
    + exists s', V. split; [exact E |]. split; [done |]. intros x. split.
      * intros Hx. destruct (Hsub x Hx) as [Hn%elem_of_nil | Hr']; done.
      * intros [_ Hr']. clear - Hr' Hin Hcl. induction Hr' as [| a b c Hl _ IH]; [done |]. apply IH. by eapply Hcl.
  - exists s, []. split; [| split; [done |]; intros x; split; [by intros Hx%elem_of_nil | tauto]].
    destruct (Z.ltb_spec first 2); [done |]. destruct (Z.to_nat (cluster_count (fi s) + 2)); cbn [free_chain_from]; [done |].
    by rewrite in_range_spec, bool_decide_eq_false_2.
Qed.

(** Allocation: on any well-formed volume [fat_alloc_cluster] returns a free
    cluster of the volume when there is one and 0 exactly when there is none; it
    changes no sector and keeps the volume well-formed. *)
Theorem fat_alloc_cluster_exact s (Hv : vol_ok s) : exists s' c, fat_alloc_cluster s = (s', c) /\ vol_ok s' /\ calm s s' /\
  (c = 0 <-> forall m, valid s m -> fat_at s m <> 0) /\ (c <> 0 -> valid s c /\ fat_at s c = 0).
Proof.
  destruct (alloc_ok s Hv) as (s' & c & E & Hv' & Hc & Hres). exists s', c. split; [exact E |]. split; [done |]. split; [done |].
  destruct Hres as [[-> Hall] | [Hvc Hz]]; [done |]. split; [| done]. split; [intros ->; unfold valid in Hvc; lia |].
  intros Hall. by destruct (Hall c Hvc).
Qed.

(** C17. Release: whatever the table contains, cycles and links out of the volume
    included, [fat_free_chain] ends successfully, frees exactly the clusters that
    can be reached from the first one through the links of the table, and changes
    no other entry and no sector outside the first table. *)
Theorem fat_free_chain_exact s first (Hv : vol_ok s) (Hf : is_u32 first) : exists s', fat_free_chain s first = (s', true) /\ vol_ok s' /\
  changes (in_fat s) s s' /\ forall m, valid s m ->
    (valid s first /\ rtc (link s) first m -> fat_at s' m = 0) /\ (~ (valid s first /\ rtc (link s) first m) -> fat_at s' m = fat_at s m).
Proof.
  destruct (free_chain_ok s first Hv Hf) as (s' & V & E & [Hv' Hc _ _ Ht] & HV). exists s'. split; [exact E |]. split; [done |]. split; [done |].
  intros m Hm. rewrite Ht by (unfold valid in Hm; lia). split; intros Hr; case_bool_decide as Hin; try done; exfalso; [by apply Hin, HV | by apply Hr, HV].
Qed.

(** ** The contents of clusters *)

Definition cl_first s (c : Z) : Z := first_data_sector (fi s) + (c - 2) * sectors_per_cluster (fi s).
Definition cl_data s (c : Z) : list Z := run_bytes (disk s) (fat_drive s) (fat_part_start s + cl_first s c) (Z.to_nat (sectors_per_cluster (fi s))).
Definition csize s : Z := 512 * sectors_per_cluster (fi s).
Definition in_cluster s (c k : Z) : Prop := cl_first s c <= k < cl_first s c + sectors_per_cluster (fi s).

Lemma cl_bounds s c : works s -> valid s c -> first_data_sector (fi s) <= cl_first s c /\ cl_first s c + sectors_per_cluster (fi s) <= total_sectors (fi s)
  /\ 1 <= first_data_sector (fi s) /\ reserved_sectors (fi s) + fat_sectors (fi s) <= first_data_sector (fi s).
Proof.
  intros Hw Hc. pose proof (geo_small s Hw) as (P1 & _). destruct Hw as [[] _]. unfold valid, cl_first in *.
  assert (fat_sectors (fi s) <= num_fats (fi s) * fat_sectors (fi s)) by nia.
  assert (0 <= (c - 2) * sectors_per_cluster (fi s)) by nia.
  assert ((c - 2) * sectors_per_cluster (fi s) + sectors_per_cluster (fi s) <= cluster_count (fi s) * sectors_per_cluster (fi s)) by nia. lia.
Qed.

Lemma cluster_apart s c c' k : works s -> valid s c -> valid s c' -> in_cluster s c k -> in_cluster s c' k -> c = c'.
Proof. unfold in_cluster, cl_first, valid. intros [[] _] Hc Hc' H1 H2. nia. Qed.

Lemma cluster_not_fat s c k : works s -> valid s c -> in_cluster s c k -> ~ in_fat s k.
Proof. intros Hw Hc Hk. destruct (cl_bounds s c Hw Hc) as (B1 & _ & _ & B4). unfold in_cluster, in_fat in *. lia. Qed.

Lemma cluster_size_eq s : works s -> cluster_size s = csize s /\ cluster_size s / 512 = sectors_per_cluster (fi s) /\ 512 <= csize s <= FAT_MAX_CLUSTER_BYTES.
Proof.
  intros [[] _]. unfold cluster_size, csize, FAT_MAX_CLUSTER_BYTES. rewrite go_bps0, u32_small by (unfold is_u32; lia).
  split; [done |]. split; [rewrite Z.mul_comm; apply Z.div_mul; lia | lia].
Qed.

Lemma cluster_sector_eq s c : works s -> valid s c -> cluster_sector s c = cl_first s c /\ fat_part_start s +! cluster_sector s c = fat_part_start s + cl_first s c.
Proof.
  intros Hw Hc. destruct (cl_bounds s c Hw Hc) as (B1 & B2 & B3 & _). pose proof Hw as [[] _].
  assert (E : cluster_sector s c = cl_first s c).
  { unfold cluster_sector, cl_first, valid in *. assert (0 <= (c - 2) * sectors_per_cluster (fi s)) by nia.
    assert ((c - 2) * sectors_per_cluster (fi s) <= total_sectors (fi s)) by (unfold cl_first in *; lia).
    assert (c < 2 ^ 32). { unfold max_count in *. assert (cluster_count (fi s) <= 0x0FFFFFF0) by (fat_types go_type0; lia). lia. }
    unfold cl_first in *. rewrite (u32_small (c - 2)) by (unfold is_u32; lia). rewrite (u32_small (_ * _)) by (unfold is_u32; lia).
    apply u32_small. unfold is_u32. lia. }
  rewrite E. split; [done |]. apply u32_small. unfold is_u32. lia.
Qed.

Lemma cl_data_ok s c : works s -> Z.of_nat (length (cl_data s c)) = csize s /\ Forall is_u8 (cl_data s c).
Proof. intros [[] _]. unfold cl_data, csize. destruct (run_bytes_ok (disk s) (fat_drive s) (fat_part_start s + cl_first s c) (Z.to_nat (sectors_per_cluster (fi s)))) as [-> ?]. split; [lia | done]. Qed.

Lemma read_cluster_ok s c : vol_ok s -> valid s c -> exists s', fat_read_cluster s c = (s', Some (cl_data s c)) /\ quiet s s' /\ vol_ok s'.
Proof.
  intros Hv Hc. pose proof (vol_works s Hv) as Hw. unfold fat_read_cluster. rewrite in_range_spec, bool_decide_eq_true_2 by done. cbn [negb].
  destruct (cluster_size_eq s Hw) as (E1 & E2 & E3). destruct (cluster_sector_eq s c Hw Hc) as (_ & ->). rewrite E2.
  destruct (cl_bounds s c Hw Hc) as (B1 & B2 & B3 & _). pose proof Hw as [[] Hu]. set (n := Z.to_nat (sectors_per_cluster (fi s))).
  destruct (read_run_ok n (disk s) (fat_drive s) (fat_part_start s + cl_first s c) (replicate (Z.to_nat FAT_MAX_CLUSTER_BYTES) 0) 0) as (d & E & Hd); try lia.
  - rewrite length_replicate. unfold csize in E3. lia.
  - intros k Hk. rewrite <- Z.add_assoc. apply Hu. lia.
  - rewrite E. exists (with_disk s d). split; [| split; [by constructor | by apply vol_ok_disk]]. do 2 f_equal.
    change (run_bytes (disk s) (fat_drive s) (fat_part_start s + cl_first s c) n) with (cl_data s c).
    unfold splice. change (Z.to_nat 0) with 0%nat. rewrite take_0, app_nil_l. rewrite E1, take_app_le by (destruct (cl_data_ok s c Hw); lia).
    apply take_ge. destruct (cl_data_ok s c Hw). lia.
Qed.

Lemma write_cluster_ok s c buf : vol_ok s -> valid s c -> csize s <= Z.of_nat (length buf) -> Forall is_u8 buf ->
  exists s', fat_write_cluster s c buf = (s', true) /\ vol_ok s' /\ changes (in_cluster s c) s s' /\ alloc_hint s' = alloc_hint s /\
    cl_data s' c = take (Z.to_nat (csize s)) buf.
Proof.
  intros Hv Hc Hb Hf. pose proof (vol_works s Hv) as Hw. unfold fat_write_cluster. rewrite in_range_spec, bool_decide_eq_true_2 by done. cbn [negb].
  destruct (cluster_size_eq s Hw) as (E1 & E2 & E3). destruct (cluster_sector_eq s c Hw Hc) as (_ & ->). rewrite E2.
  destruct (cl_bounds s c Hw Hc) as (B1 & B2 & B3 & B4). pose proof Hw as [[] Hu]. set (n := Z.to_nat (sectors_per_cluster (fi s))).
  destruct (write_run_ok n (disk s) (fat_drive s) (fat_part_start s + cl_first s c) buf 0) as (d & E & U & C & S); try (done || lia).
  - unfold csize in Hb. lia.
  - intros k Hk. rewrite <- Z.add_assoc. apply Hu. lia.
  - rewrite E. exists (with_disk s d). assert (Hch : changes (in_cluster s c) s (with_disk s d)).
    { constructor; try done. intros v l Hn. cbn [with_disk disk]. rewrite S. unfold in_cluster in Hn.
      destruct (Z.eqb_spec v (fat_drive s)), (Z.leb_spec (fat_part_start s + cl_first s c) l), (Z.ltb_spec l (fat_part_start s + cl_first s c + Z.of_nat n));
        cbn [andb]; try done. destruct Hn; [done | lia]. }
    split; [done |]. split.
    { destruct Hv as [G1 G2 G3 G4 G5]. destruct (changes_works _ _ _ Hch Hw) as [W1 W2]. constructor; try done.
      destruct G4 as [? | (K1 & K2 & K3 & K4)]; [by left | right]. split; [done |]. split; [done |]. split; [done |]. intros i Hi.
      etrans; [by apply K4 |]. f_equal. symmetry. apply (changes_vsec _ _ _ _ Hch). cbn [with_disk fat_cache_sec fat_cache_n] in *. unfold in_cluster.
      Z.to_euclidean_division_equations; lia. }
    split; [done |]. split; [done |]. unfold cl_data, csize. cbn [with_disk disk fat_drive fat_part_start fi]. change (cl_first (with_disk s d) c) with (cl_first s c).
    fold n. rewrite (run_bytes_slices n _ _ _ buf 0); [unfold slice; rewrite drop_0; f_equal; lia | lia | unfold csize in Hb; lia |].
    intros k Hk. rewrite S, Z.eqb_refl.
    destruct (Z.leb_spec (fat_part_start s + cl_first s c) (fat_part_start s + cl_first s c + k)),
      (Z.ltb_spec (fat_part_start s + cl_first s c + k) (fat_part_start s + cl_first s c + Z.of_nat n)); try lia. cbn [andb]. f_equal. lia.
Qed.
End Props.

(** ** A small volume in memory *)

Definition demo_info : fat_info_t := mk_fi 512 1 1 1 16 300 1 0 3 260 2 1.
Definition demo_fat : fatfs mem_disk :=
  mk_fat _ (mk_md 400 ∅ ∅) demo_info 12 0 7 (mk_cwd 0 (bytes "/") (replicate 32 0) 0) (replicate (Z.to_nat 8192) 0) NO_ENTRY 0 2.

Lemma demo_vol_ok : vol_ok demo_fat.
Proof.
  constructor.
  - constructor; cbn; try lia; [by left | done].
  - intros k Hk. split; [cbn in *; lia | apply not_elem_of_empty].
  - split; [done |]. by apply Forall_replicate.
  - by left.
  - done.
Qed.

Lemma fat_entries_exact_witness : vol_ok demo_fat /\ is_u32 0xABC /\ valid demo_fat 341 = valid demo_fat 341 /\
  exists s', fat_entry_set demo_fat 100 0xABC = (s', true) /\ snd (fat_entry_get s' 100) = 0xABC mod 4096 /\ snd (fat_entry_get s' 101) = fat_at demo_fat 101.
Proof.
  assert (Hu : is_u32 0xABC) by done. split; [exact demo_vol_ok |]. split; [exact Hu |]. split; [done |].
  destruct (fat_entries_exact demo_fat 100 0xABC demo_vol_ok Hu) as (_ & Hset & _). destruct Hset as (s' & E & _ & _ & Hm); [by split |].
  exists s'. split; [exact E |]. split; [exact (Hm 100 ltac:(by split)) | exact (Hm 101 ltac:(by split))].
Defined.

Lemma fat_alloc_cluster_exact_witness : vol_ok demo_fat /\ exists s' c, fat_alloc_cluster demo_fat = (s', c) /\ vol_ok s' /\
  (c <> 0 -> valid demo_fat c /\ fat_at demo_fat c = 0).
Proof.
  split; [exact demo_vol_ok |]. destruct (fat_alloc_cluster_exact demo_fat demo_vol_ok) as (s' & c & E & Hv & _ & _ & Hc). exists s', c. split; [exact E |]. split; [exact Hv | exact Hc].
Defined.

(** A table with a cycle: 5 to 6 to 7 to 6. *)
Definition demo_loop : fatfs mem_disk := fst (fat_entry_set (fst (fat_entry_set (fst (fat_entry_set demo_fat 5 6)) 6 7)) 7 6).

Lemma demo_loop_ok : vol_ok demo_loop.
Proof.
  assert (Hstep : forall s n v, vol_ok s -> valid s n -> is_u32 v -> fi (fst (fat_entry_set s n v)) = fi s /\ vol_ok (fst (fat_entry_set s n v))).
  { intros s n v Hv Hn Hu. destruct (set_valid s n v Hv Hn Hu) as (s' & E & Hv' & Hc & _). rewrite E. cbn [fst].
    by destruct (geom_fields _ _ (ch_geom _ _ _ Hc)) as (? & _). }
  destruct (Hstep demo_fat 5 6 demo_vol_ok) as [E1 H1]; [done | done |]. unfold demo_loop.
  set (s1 := fst (fat_entry_set demo_fat 5 6)) in *. clearbody s1.
  destruct (Hstep s1 6 7 H1) as [E2 H2]; [unfold valid; by rewrite E1 | done |]. set (s2 := fst (fat_entry_set s1 6 7)) in *. clearbody s2.
  apply (Hstep s2 7 6 H2); [unfold valid; by rewrite E2, E1 | done].
Qed.

Lemma demo_loop_entries : map (fun c => snd (fat_entry_get demo_loop c)) [5; 6; 7; 8] = [6; 7; 6; 0].
Proof. vm_compute. done. Qed.

Lemma fat_free_chain_exact_witness : vol_ok demo_loop /\ is_u32 5 /\ exists s', fat_free_chain demo_loop 5 = (s', true) /\ vol_ok s'.
Proof.
  assert (Hu : is_u32 5) by done. split; [exact demo_loop_ok |]. split; [exact Hu |].
  destruct (fat_free_chain_exact demo_loop 5 demo_loop_ok Hu) as (s' & E & Hv & _). exists s'. split; [exact E | exact Hv].
Defined.
