(* ===== verification/FatDir.v ===== *)
(** * FatDir: the FAT12/16/32 driver, directories and files ([kernel/fat.c])

    Blocks of a directory and the guarded walk over them, the decoding of
    entries with their long names, lookup, paths, and reading, creating and
    deleting files and directories on the volumes of [Fat.v]. *)

From S2P Require Import Prelude Disk Fat.

Definition ATTR_VOLUME_ID : Z := 0x08.
Definition ATTR_DIRECTORY : Z := 0x10.
Definition ATTR_ARCHIVE : Z := 0x20.
Definition ATTR_LFN : Z := 0x0F.
Definition DELETED_ENTRY : Z := 0xE5.

(** ** Names *)

Definition up_char (c : Z) : Z := if (97 <=? c) && (c <=? 122) then c - 97 + 65 else c.

(** C strings without their NUL. *)
Fixpoint name_eq (a b : list Z) : bool :=
  match a, b with
  | [], [] => true
  | [], y :: _ => 0 =? up_char y
  | x :: _, [] => up_char x =? 0
  | x :: a', y :: b' => if up_char x =? up_char y then name_eq a' b' else false
  end.

Definition lfn_checksum (sn : list Z) : Z :=
  fold_left (fun sum c => u8 (Z.shiftl (sum &! 1) 7 + Z.shiftr sum 1 + c)) (take 11 sn) 0.

(** [bl = n; while (bl > 0 && e[base + bl - 1] == ' ') bl--;] *)
Fixpoint trim (n : nat) (e : list Z) (base : Z) : Z :=
  match n with
  | O => 0
  | S n' => if aget 0 e (base + Z.of_nat n') =? 32 then trim n' e base else Z.of_nat n
  end.

Definition low_case (on : bool) (c : Z) : Z := if on && (65 <=? c) && (c <=? 90) then c - 65 + 97 else c.

(** The display name has at most [out_max - 1] characters. *)
Definition shortname_to_str (e : list Z) (out_max : Z) : list Z :=
  let bl := trim 8 e 0 in
  let el := trim 3 e 8 in
  let nt := aget 0 e 12 in
  let base := map (fun c => low_case (negb (nt &! 0x08 =? 0)) (if c =? 0x05 then 0xE5 else c)) (slice e 0 bl) in
  let ext := map (low_case (negb (nt &! 0x10 =? 0))) (slice e 8 el) in
  take (Z.to_nat (out_max - 1)) (base ++ if 0 <? el then 46 :: ext else []).

Definition sn11_to_str (sn : list Z) (out_max : Z) : list Z :=
  let bl := trim 8 sn 0 in
  let el := trim 3 sn 8 in
  take (Z.to_nat (out_max - 1)) (slice sn 0 bl ++ if 0 <? el then 46 :: slice sn 8 el else []).

(** ** Long names *)

Record lfn_state_t := mk_lfn {
  lfn_chars : list Z;
  lfn_len : Z;
  lfn_cksum : Z;
  lfn_seq_expect : Z;
  lfn_blocks : Z;
}.

Definition lfn_reset (st : lfn_state_t) : lfn_state_t := mk_lfn (lfn_chars st) 0 (lfn_cksum st) (-1) 0.
Definition off_tab : list Z := [1; 3; 5; 7; 9; 14; 16; 18; 20; 22; 24; 28; 30].

Fixpoint lfn_store (offs : list Z) (e : list Z) (chars : list Z) (pos : Z) : list Z :=
  match offs with
  | [] => chars
  | o :: offs' =>
      let ch := le16 e o in
      let chars := if (ch =? 0x0000) || (ch =? 0xFFFF) then chars else if pos <? 255 then aset chars pos ch else chars in
      lfn_store offs' e chars (pos + 1)
  end.

Definition lfn_push (st : lfn_state_t) (e : list Z) : lfn_state_t :=
  let seq := aget 0 e 0 &! 0x1F in
  if (seq <? 1) || (20 <? seq) then lfn_reset st
  else if negb (lfn_seq_expect st =? -1) && negb (seq =? lfn_seq_expect st - 1) then lfn_reset st
  else
    let blocks := if lfn_blocks st <? 24 then lfn_blocks st + 1 else lfn_blocks st in
    let chars := lfn_store off_tab e (lfn_chars st) ((seq - 1) * 13) in
    let len := if lfn_len st <? seq * 13 then (if 255 <? seq * 13 then 255 else seq * 13) else lfn_len st in
    mk_lfn chars len (lfn_cksum st) seq blocks.

Definition set_cksum (st : lfn_state_t) (c : Z) : lfn_state_t :=
  mk_lfn (lfn_chars st) (lfn_len st) c (lfn_seq_expect st) (lfn_blocks st).

(** The characters up to the first 0 among the first [lfn_len]. *)
Fixpoint lfn_text (chars : list Z) : list Z :=
  match chars with
  | [] => []
  | ch :: chars' => if ch =? 0 then [] else (if (32 <=? ch) && (ch <? 127) then ch else 95) :: lfn_text chars'
  end.

(** ** Blocks of a directory *)

Record dir_block_t := mk_db { db_cluster : Z; db_sector : Z; db_bytes : Z }.
Record fat_dir_walk_t := mk_walk { fast : dir_block_t; slow : dir_block_t; steps : Z; wmax : Z }.

Record fat_dirent_t := mk_de {
  de_name : list Z;
  first_cluster : Z;
  de_size : Z;
  is_dir : bool;
  attr : Z;
  de_block : dir_block_t;
  entry_off : Z;
  lfn_count : Z;
}.

Section Dir.
Context {D : Type} `{BD : BlockDev D}.
Implicit Types s : fatfs D.

(** What the uninitialised array [lfn_chars] holds when an enumeration starts,
    and date and time of [write_timestamp]. *)
Variable stack_junk : fatfs D -> list Z.
Variable clock : fatfs D -> Z * Z.

Definition cluster_block s (c : Z) : dir_block_t := mk_db c (cluster_sector s c) (cluster_size s).

Definition chain_ends s (v : Z) : bool := negb (in_range s v) || fat_is_eoc s v || fat_is_bad s v.

Fixpoint chain_nth (idx : nat) s (cur : Z) : fatfs D * option Z :=
  match idx with
  | O => (s, Some cur)
  | S idx' =>
      let '(s, v) := fat_entry_get s cur in
      if chain_ends s v then (s, None) else chain_nth idx' s v
  end.

Definition fat_dir_block s (dir idx : Z) : fatfs D * option dir_block_t :=
  if fat_type s =? 0 then (s, None)
  else if (dir =? 0) && negb (fat_type s =? 32) then
    if root_dir_sectors (fi s) <=? idx then (s, None)
    else (s, Some (mk_db 0 (root_dir_sector (fi s) +! idx) (bytes_per_sector (fi s))))
  else if negb (in_range s dir) then (s, None)
  else
    let '(s, r) := chain_nth (Z.to_nat idx) s dir in
    (s, cur ← r; if in_range s cur then Some (cluster_block s cur) else None).

Definition fat_dir_max_blocks s (dir : Z) : Z :=
  if (dir =? 0) && negb (fat_type s =? 32) then if negb (root_dir_sectors (fi s) =? 0) then root_dir_sectors (fi s) else 1
  else if cluster_count (fi s) =? 0 then 1 else cluster_count (fi s) +! 2.

Definition fat_dir_step s (b : dir_block_t) : fatfs D * option dir_block_t :=
  if fat_type s =? 0 then (s, None)
  else if db_cluster b =? 0 then
    let next := db_sector b +! 1 in
    if root_dir_sector (fi s) +! root_dir_sectors (fi s) <=? next then (s, None)
    else (s, Some (mk_db 0 next (bytes_per_sector (fi s))))
  else
    let '(s, v) := fat_entry_get s (db_cluster b) in
    if chain_ends s v then (s, None) else (s, Some (cluster_block s v)).

Definition fat_dir_walk_start s (dir : Z) : fatfs D * option fat_dir_walk_t :=
  let m := fat_dir_max_blocks s dir in
  let '(s, r) := fat_dir_block s dir 0 in
  (s, b ← r; Some (mk_walk b b 0 m)).

Definition fat_dir_walk_next s (w : fat_dir_walk_t) : fatfs D * option fat_dir_walk_t :=
  let '(s, r) := fat_dir_step s (fast w) in
  match r with
  | None => (s, None)
  | Some nb =>
      let k := steps w +! 1 in
      if wmax w <=? k then (s, None)
      else if k &! 1 =? 0 then
        let '(s, r) := fat_dir_step s (slow w) in
        match r with
        | None => (s, None)
        | Some ns =>
            if negb (db_cluster nb =? 0) && (db_cluster nb =? db_cluster ns) then (s, None)
            else (s, Some (mk_walk nb ns k (wmax w)))
        end
      else (s, Some (mk_walk nb (slow w) k (wmax w)))
  end.

Definition scratch : list Z := replicate (Z.to_nat FAT_MAX_CLUSTER_BYTES) 0.

Definition fat_read_block s (b : dir_block_t) : fatfs D * option (list Z) :=
  let '(d, buf, ok) := read_run (Z.to_nat (db_bytes b / 512)) (disk s) (fat_drive s) (fat_part_start s +! db_sector b) scratch 0 in
  (with_disk s d, if ok : bool then Some (take (Z.to_nat (db_bytes b)) buf) else None).

Definition fat_write_block s (b : dir_block_t) (buf : list Z) : fatfs D * bool :=
  let '(d, ok) := write_run (Z.to_nat (db_bytes b / 512)) (disk s) (fat_drive s) (fat_part_start s +! db_sector b) buf 0 in
  (with_disk s d, ok).

(** ** Enumeration *)

Definition dirent_from_short (type : Z) (e : list Z) (st : lfn_state_t) (b : dir_block_t) (off : Z) : option fat_dirent_t :=
  let a := aget 0 e 11 in
  if negb (a &! ATTR_VOLUME_ID =? 0) then None
  else
    let clus_lo := le16 e 26 in
    let clus_hi := if type =? 32 then le16 e 20 else 0 in
    let long := if (0 <? lfn_len st) && (lfn_seq_expect st =? 1) && (lfn_cksum st =? lfn_checksum e)
                then lfn_text (take (Z.to_nat (Z.min (lfn_len st) 255)) (lfn_chars st)) else [] in
    let de name n := mk_de name (clus_lo |! Z.shiftl clus_hi 16) (le32 e 28) (negb (a &! ATTR_DIRECTORY =? 0)) a b off n in
    Some (match long with [] => de (shortname_to_str e 256) 0 | _ => de long (lfn_blocks st) end).

Definition is_lfn (e : list Z) : bool := aget 0 e 11 &! ATTR_LFN =? ATTR_LFN.

(** A callback sees the entry and its own state and tells whether to stop. *)
Definition dirent_cb (A : Type) : Type := fatfs D -> fat_dirent_t -> A -> fatfs D * A * bool.

(** The entries of one block from the offset [off] on: the new states, the
    number of entries seen and whether the enumeration ends. *)
Fixpoint scan_block {A} (n : nat) (cb : dirent_cb A) s (buf : list Z) (b : dir_block_t) (off : Z) (st : lfn_state_t) (count : Z) (a : A) :
    fatfs D * lfn_state_t * Z * A * bool :=
  match n with
  | O => (s, st, count, a, false)
  | S n' =>
      let e := slice buf off 32 in
      if aget 0 e 0 =? 0x00 then (s, st, count, a, true)
      else if aget 0 e 0 =? DELETED_ENTRY then scan_block n' cb s buf b (off + 32) (lfn_reset st) count a
      else if is_lfn e then scan_block n' cb s buf b (off + 32) (lfn_push (set_cksum st (aget 0 e 13)) e) count a
      else
        match dirent_from_short (fat_type s) e st b off with
        | None => scan_block n' cb s buf b (off + 32) (lfn_reset st) count a
        | Some de =>
            let '(s, a, stop) := cb s de a in
            if stop : bool then (s, st, count + 1, a, true) else scan_block n' cb s buf b (off + 32) (lfn_reset st) (count + 1) a
        end
  end.

Fixpoint foreach_from {A} (n : nat) (cb : dirent_cb A) s (w : fat_dir_walk_t) (st : lfn_state_t) (count : Z) (a : A) : fatfs D * A * Z :=
  match n with
  | O => (s, a, count)
  | S n' =>
      let '(s, r) := fat_read_block s (fast w) in
      match r with
      | None => (s, a, -1)
      | Some buf =>
          let '(s, st, count, a, stop) := scan_block (Z.to_nat (db_bytes (fast w) / 32)) cb s buf (fast w) 0 (lfn_reset st) count a in
          if stop : bool then (s, a, count)
          else
            let '(s, r) := fat_dir_walk_next s w in
            match r with None => (s, a, count) | Some w => foreach_from n' cb s w st count a end
      end
  end.

(** The walk takes fewer than [wmax] steps, so it has at most [wmax] blocks. *)
Definition fat_dir_foreach {A} (cb : dirent_cb A) s (dir : Z) (a : A) : fatfs D * A * Z :=
  let st := mk_lfn (stack_junk s) 0 0 (-1) 0 in
  let '(s, r) := fat_dir_walk_start s dir in
  match r with
  | None => (s, a, 0)
  | Some w => foreach_from (Z.to_nat (wmax w)) cb s w st 0 a
  end.

(** ** Lookup and paths *)

Definition find_cb (want : list Z) : dirent_cb (option fat_dirent_t) :=
  fun s de a => if name_eq (de_name de) want then (s, Some de, true) else (s, a, false).

Definition fat_find_entry s (dir : Z) (name : list Z) : fatfs D * option fat_dirent_t :=
  let '(s, r, _) := fat_dir_foreach (find_cb name) s dir None in (s, r).

(** The characters up to the next slash, at most [n]. *)
Fixpoint take_comp (n : nat) (p : list Z) : list Z * list Z :=
  match n, p with
  | S n', c :: p' => if c =? 47 then ([], p) else let '(comp, rest) := take_comp n' p' in (c :: comp, rest)
  | _, _ => ([], p)
  end.
Fixpoint skip_slashes (p : list Z) : list Z :=
  match p with c :: p' => if c =? 47 then skip_slashes p' else p | [] => [] end.

Fixpoint resolve_from (n : nat) s (p : list Z) (cur : Z) (stack : list Z) : fatfs D * option Z :=
  match n with
  | O => (s, Some cur)
  | S n' =>
      let '(comp, p) := take_comp 127 p in
      let more := match p with c :: _ => c =? 47 | [] => false end in
      let p := skip_slashes p in
      let go s cur stack := if more then resolve_from n' s p cur stack else (s, Some cur) in
      match comp with
      | [] => go s cur stack
      | _ =>
          if name_eq comp (bytes ".") then go s cur stack
          else if name_eq comp (bytes "..") then
            match stack with [] => (s, None) | up :: stack' => go s up stack' end
          else if 31 <=? Z.of_nat (length stack) then (s, None)
          else
            let '(s, r) := fat_find_entry s cur comp in
            match r with
            | None => (s, None)
            | Some de => if is_dir de then go s (first_cluster de) (cur :: stack) else (s, None)
            end
      end
  end.

(** Each pass but the last removes a slash, so the length of the path bounds
    their number. *)
Definition fat_resolve_dir s (path : list Z) : fatfs D * option Z :=
  match path with
  | [] => (s, None)
  | c :: p' =>
      if fat_type s =? 0 then (s, None)
      else
        let '(cur, p) := if c =? 47 then (root_dir_cluster_value s, p') else (current_dir_cluster (cwd s), path) in
        match p with [] => (s, Some cur) | _ => resolve_from (S (length p)) s p cur [] end
  end.

(** The position of the last slash, -1 when there is none. *)
Fixpoint last_slash (p : list Z) (i last : Z) : Z :=
  match p with [] => last | c :: p' => last_slash p' (i + 1) (if c =? 47 then i else last) end.

Definition LEAF_SIZE : Z := 128.

Definition fat_resolve_leaf s (path : list Z) : fatfs D * option (Z * list Z) :=
  match path with
  | [] => (s, None)
  | _ =>
      if fat_type s =? 0 then (s, None)
      else
        let last := last_slash path 0 (-1) in
        let leaf := drop (Z.to_nat (last + 1)) path in
        let n := Z.of_nat (length leaf) in
        if (n =? 0) || (LEAF_SIZE <? n + 1) then (s, None)
        else if last <? 0 then (s, Some (current_dir_cluster (cwd s), leaf))
        else if last =? 0 then (s, Some (root_dir_cluster_value s, leaf))
        else if 128 <=? last then (s, None)
        else
          let '(s, r) := fat_resolve_dir s (take (Z.to_nat last) path) in
          (s, dir ← r; Some (dir, leaf))
  end.

(** ** The working directory *)

Definition fat_cwd_cluster s : Z := if fat_type s =? 0 then 0 else current_dir_cluster (cwd s).
Definition fat_cwd_path s : list Z := cwd_path (cwd s).

Fixpoint drop_comp (r : list Z) : list Z :=
  match r with c :: (_ :: _) as r' => if c =? 47 then r else drop_comp r' | _ => r end.
Definition path_up (p : list Z) : list Z :=
  let r := drop_comp (rev p) in rev (match r with _ :: (_ :: _) as r' => r' | _ => r end).
Definition path_push (p comp : list Z) : list Z := (if 1 <? Z.of_nat (length p) then p ++ [47] else p) ++ comp.

Fixpoint skip_comp (p : list Z) : list Z :=
  match p with c :: p' => if c =? 47 then p' else skip_comp p' | [] => [] end.

(** The loop over the components; [stk] is the array of clusters by depth.  The
    array is also the result when the change fails. *)
Fixpoint cd_from (n : nat) s (p : list Z) (cur depth : Z) (stk path : list Z) : fatfs D * list Z * option (Z * Z * list Z) :=
  match n, p with
  | O, _ | _, [] => (s, stk, Some (cur, depth, path))
  | S n', _ =>
      let '(comp, rest) := take_comp 127 p in
      let p := skip_comp rest in
      match comp with
      | [] => cd_from n' s p cur depth stk path
      | _ =>
          if name_eq comp (bytes "..") then
            if 0 <? depth then
              let depth := depth - 1 in
              cd_from n' s p (if depth =? 0 then root_dir_cluster_value s else aget 0 stk depth) depth stk (path_up path)
            else cd_from n' s p cur depth stk path
          else if name_eq comp (bytes ".") then cd_from n' s p cur depth stk path
          else if 31 <=? depth then (s, stk, None)
          else
            let '(s, r) := fat_find_entry s cur comp in
            match r with
            | None => (s, stk, None)
            | Some de =>
                if negb (is_dir de) then (s, stk, None)
                else
                  let depth := depth + 1 in
                  let stk := aset stk depth (first_cluster de) in
                  if 256 <=? Z.of_nat (length path) + Z.of_nat (length comp) + 1 then (s, stk, None)
                  else cd_from n' s p (first_cluster de) depth stk (path_push path comp)
            end
      end
  end.

Definition fat_change_dir s (name : list Z) : fatfs D * Z :=
  if fat_type s =? 0 then (s, -1)
  else if bool_decide (name = []) || name_eq name (bytes ".") then (s, 0)
  else
    let root := root_dir_cluster_value s in
    let c := cwd s in
    match name with
    | 47 :: p =>
        if name_eq name (bytes "/") then (with_cwd s (mk_cwd root (bytes "/") (aset (dir_stack c) 0 root) 0), 0)
        else
          let '(s, stk, r) := cd_from (length p) s p root 0 (aset (dir_stack c) 0 root) (bytes "/") in
          match r with
          | None => (s, -1)
          | Some (cur, depth, path) =>
              let k := Z.to_nat (depth + 1) in
              (with_cwd s (mk_cwd cur path (take k stk ++ drop k (dir_stack c)) depth), 0)
          end
    | _ =>
        let '(s, stk, r) := cd_from (length name) s name (current_dir_cluster c) (dir_depth c) (dir_stack c) (cwd_path c) in
        match r with
        | None =>
            let k := Z.to_nat (dir_depth c + 1) in
            (with_cwd s (mk_cwd (current_dir_cluster c) (cwd_path c) (take k (dir_stack c) ++ drop k stk) (dir_depth c)), -1)
        | Some (cur, depth, path) => (with_cwd s (mk_cwd cur path (aset stk 0 root) depth), 0)
        end
    end.

(** ** Reading *)

(** The file from cluster [cur] on, of which [got] bytes have been read. *)
Fixpoint read_from (n : nat) s (cur size max_size got : Z) : fatfs D * option (list Z) :=
  match n with
  | O => (s, Some [])
  | S n' =>
      if negb ((got <? size) && (got <? max_size) && in_range s cur) then (s, Some [])
      else
        let '(s, r) := fat_read_cluster s cur in
        match r with
        | None => (s, None)
        | Some buf =>
            let k := size -! got in
            let k := if cluster_size s <? k then cluster_size s else k in
            let k := if max_size -! got <? k then max_size -! got else k in
            let piece := take (Z.to_nat k) buf in
            let got := got +! k in
            if (size <=? got) || (max_size <=? got) then (s, Some piece)
            else
              let '(s, v) := fat_entry_get s cur in
              if fat_is_eoc s v || fat_is_bad s v then (s, Some piece)
              else
                let '(s, r) := read_from n' s v size max_size got in
                (s, rest ← r; Some (piece ++ rest))
        end
  end.

(** [None] for -1; the bytes read otherwise. *)
Definition fat_read_file s (name : list Z) (max_size : Z) : fatfs D * option (list Z) :=
  if fat_type s =? 0 then (s, None)
  else
    let '(s, r) := fat_resolve_leaf s name in
    match r with
    | None => (s, None)
    | Some (dir, leaf) =>
        let '(s, r) := fat_find_entry s dir leaf in
        match r with
        | None => (s, None)
        | Some de =>
            if is_dir de then (s, None)
            else if (de_size de =? 0) || (first_cluster de =? 0) then (s, Some [])
            else read_from (Z.to_nat (cluster_count (fi s) +! 2)) s (first_cluster de) (de_size de) max_size 0
        end
    end.

Definition find_path s (name : list Z) : fatfs D * option fat_dirent_t :=
  let '(s, r) := fat_resolve_leaf s name in
  match r with None => (s, None) | Some (dir, leaf) => fat_find_entry s dir leaf end.

Definition fat_get_file_size s (name : list Z) : fatfs D * Z :=
  if fat_type s =? 0 then (s, 0)
  else let '(s, r) := find_path s name in (s, match r with Some de => de_size de | None => 0 end).

Fixpoint count_chain (n : nat) s (cur k : Z) : fatfs D * Z :=
  match n with
  | O => (s, k)
  | S n' =>
      if negb (in_range s cur) then (s, k)
      else
        let '(s, v) := fat_entry_get s cur in
        if fat_is_eoc s v || fat_is_bad s v then (s, k + 1) else count_chain n' s v (k + 1)
  end.

Definition fat_get_file_clusters s (name : list Z) : fatfs D * Z :=
  if fat_type s =? 0 then (s, 0)
  else
    let '(s, r) := find_path s name in
    match r with
    | None => (s, 0)
    | Some de => if first_cluster de <? 2 then (s, 0) else count_chain (Z.to_nat (cluster_count (fi s) +! 2)) s (first_cluster de) 0
    end.

Definition dot_name (n : list Z) : bool := match n with [46] | [46; 46] => true | _ => false end.

Definition listed (de : fat_dirent_t) : list Z * Z * bool := (take 255 (de_name de), de_size de, is_dir de).
Definition list_cb (max : Z) : dirent_cb (list (list Z * Z * bool)) :=
  fun s de a => if dot_name (de_name de) then (s, a, false) else if max <=? Z.of_nat (length a) then (s, a, true) else (s, a ++ [listed de], false).

Definition print_cb : dirent_cb (list Z) :=
  fun s de a => if dot_name (de_name de) then (s, a, false) else (s, a ++ de_name de ++ (if is_dir de then [47] else []) ++ [10], false).

(** With the text that is written to the terminal. *)
Definition fat_list_root s : fatfs D * option (list Z) :=
  if fat_type s =? 0 then (s, None) else let '(s, a, _) := fat_dir_foreach print_cb s (current_dir_cluster (cwd s)) [] in (s, Some a).

Definition fat_read_dir s (max : Z) : fatfs D * option (list (list Z * Z * bool)) :=
  if fat_type s =? 0 then (s, None) else let '(s, a, _) := fat_dir_foreach (list_cb max) s (current_dir_cluster (cwd s)) [] in (s, Some a).

Definition fat_read_dir_path s (path : list Z) (max : Z) : fatfs D * option (list (list Z * Z * bool)) :=
  if (fat_type s =? 0) || (max <=? 0) then (s, None)
  else
    let '(s, r) := fat_resolve_dir s path in
    match r with None => (s, None) | Some c => let '(s, a, _) := fat_dir_foreach (list_cb max) s c [] in (s, Some a) end.

(** ** Short names for new entries *)

Definition sfn_char_ok (c : Z) : bool :=
  ((65 <=? c) && (c <=? 90)) || ((48 <=? c) && (c <=? 57)) || existsb (Z.eqb c) (bytes "!#$%&'()-@^_`{}~").

(** The positions of the dots. *)
Fixpoint dots (name : list Z) (i : Z) : list Z :=
  match name with [] => [] | c :: n' => if c =? 46 then i :: dots n' (i + 1) else dots n' (i + 1) end.

Definition pad (l : list Z) (n : nat) : list Z := l ++ replicate (n - length l) 32.

Definition try_make_sfn (name : list Z) : option (list Z) :=
  match dots name 0 with
  | _ :: _ :: _ => None
  | ds =>
      let len := Z.of_nat (length name) in
      let '(base, ext) := match ds with d :: _ => (take (Z.to_nat d) name, drop (Z.to_nat (d + 1)) name) | [] => (name, []) end in
      if (length base <? 1)%nat || (8 <? length base)%nat || (3 <? length ext)%nat then None
      else
        let base := map up_char base in
        let ext := map up_char ext in
        if forallb sfn_char_ok base && forallb sfn_char_ok ext then Some (pad base 8 ++ pad ext 3) else None
  end.

Fixpoint digits (n : nat) (v : Z) : list Z := match n with O => [] | S n' => if v =? 0 then [] else digits n' (v / 10) ++ [48 + v mod 10] end.

Definition alias_parts (name : list Z) : list Z * list Z :=
  let '(b, e) := match dots name 0 with d :: _ => (take (Z.to_nat d) name, drop (Z.to_nat (d + 1)) name) | [] => (name, []) end in
  let keep l := filter (fun c => sfn_char_ok c = true) (map up_char l) in
  (match take 8 (keep b) with [] => [95] | base => base end, take 3 (keep e)).

Definition alias_of (base ext : list Z) (n : Z) : list Z :=
  let suf := digits 8 n in
  let keep := Nat.max 1 (Nat.min (7 - length suf) (length base)) in
  pad (take keep base ++ 126 :: suf) 8 ++ pad ext 3.

Definition ALIAS_FUEL : nat := Z.to_nat 999999.

Fixpoint alias_from (fuel : nat) s (base ext : list Z) (dir n : Z) : fatfs D * option (list Z) :=
  match fuel with
  | O => (s, None)
  | S fuel' =>
      let sn := alias_of base ext n in
      let '(s, r) := fat_find_entry s dir (sn11_to_str sn 16) in
      match r with None => (s, Some sn) | Some _ => alias_from fuel' s base ext dir (n + 1) end
  end.

Definition make_alias s (name : list Z) (dir : Z) : fatfs D * option (list Z) :=
  let '(base, ext) := alias_parts name in alias_from ALIAS_FUEL s base ext dir 1.

(** The short name and the number of long-name entries. *)
Definition prepare_names s (name : list Z) (dir : Z) : fatfs D * option (list Z * Z) :=
  let sfn := try_make_sfn name in
  match (sn ← sfn; if name_eq (sn11_to_str sn 16) name then Some sn else None) with
  | Some sn => (s, Some (sn, 0))
  | None =>
      let '(s, r) := make_alias s name dir in
      (s, sn ← r; Some (sn, (Z.of_nat (length name) + 12) / 13))
  end.

(** ** Writing directory entries *)

Definition write_timestamp s (e : list Z) (o : Z) : list Z :=
  let '(date, time) := clock s in
  let put e i v := aset (aset e (o + i) (u8 (v &! 0xFF))) (o + i + 1) (u8 (Z.shiftr v 8)) in
  put (put (put (put (put e 14 time) 16 date) 18 date) 22 time) 24 date.

Definition fat_write_dirent_at s (b : dir_block_t) (off : Z) (entry : list Z) : fatfs D * bool :=
  if db_bytes b <? off +! 32 then (s, false)
  else
    let '(s, r) := fat_read_block s b in
    match r with None => (s, false) | Some buf => fat_write_block s b (splice buf off (take 32 entry)) end.

(** The end of the first run of [need] free entries in a block. *)
Fixpoint free_run (n : nat) (buf : list Z) (off run need : Z) : option Z :=
  match n with
  | O => None
  | S n' =>
      let c := aget 0 buf off in
      if (c =? 0x00) || (c =? DELETED_ENTRY) then
        if run + 1 =? need then Some (off +! 32 -! need *! 32) else free_run n' buf (off + 32) (run + 1) need
      else free_run n' buf (off + 32) 0 need
  end.

Inductive slot_search := Found (b : dir_block_t) (off : Z) | Full | Failed.

Fixpoint slots_from (n : nat) s (w : fat_dir_walk_t) (need : Z) : fatfs D * slot_search :=
  match n with
  | O => (s, Full)
  | S n' =>
      let '(s, r) := fat_read_block s (fast w) in
      match r with
      | None => (s, Failed)
      | Some buf =>
          match free_run (Z.to_nat (db_bytes (fast w) / 32)) buf 0 0 need with
          | Some off => (s, Found (fast w) off)
          | None =>
              let '(s, r) := fat_dir_walk_next s w in
              match r with None => (s, Full) | Some w => slots_from n' s w need end
          end
      end
  end.

Fixpoint chain_tail (n : nat) s (tail : Z) : fatfs D * Z :=
  match n with
  | O => (s, tail)
  | S n' =>
      let '(s, next) := fat_entry_get s tail in
      if fat_is_eoc s next || negb (in_range s next) then (s, tail) else chain_tail n' s next
  end.

Definition extend_dir s (dir : Z) : fatfs D * option (dir_block_t * Z) :=
  if dir <? 2 then (s, None)
  else
    let '(s, tail) := chain_tail (Z.to_nat (cluster_count (fi s) +! 2)) s dir in
    let '(s, nc) := fat_alloc_cluster s in
    if nc =? 0 then (s, None)
    else
      let '(s, ok) := fat_entry_set s tail nc in
      if negb ok then (s, None)
      else
        let '(s, ok) := fat_entry_set s nc (fat_eoc_val s) in
        if negb ok then (s, None)
        else
          let '(s, ok) := fat_write_cluster s nc scratch in
          (s, if ok : bool then Some (cluster_block s nc, 0) else None).

Definition fat_find_free_slots s (dir need : Z) : fatfs D * option (dir_block_t * Z) :=
  let '(s, r) := fat_dir_walk_start s dir in
  match r with
  | None => extend_dir s dir
  | Some w =>
      let '(s, r) := slots_from (Z.to_nat (wmax w)) s w need in
      match r with Found b off => (s, Some (b, off)) | Failed => (s, None) | Full => extend_dir s dir end
  end.

(** Entry [n] of the long name. *)
Definition lfn_char (name : list Z) (idx : Z) : Z :=
  let len := Z.of_nat (length name) in
  if idx =? len then 0x0000 else if idx <? len then aget 0 name idx else 0xFFFF.
Fixpoint lfn_fill (offs : list Z) (ent name : list Z) (idx : Z) : list Z :=
  match offs with
  | [] => ent
  | o :: offs' => let ch := lfn_char name idx in lfn_fill offs' (aset (aset ent o (u8 (ch &! 0xFF))) (o + 1) (u8 (Z.shiftr ch 8))) name (idx + 1)
  end.
Definition lfn_entry (name : list Z) (ck n total : Z) : list Z :=
  let ent := aset (replicate 32 0) 0 (u8 (n |! (if n =? total then 0x40 else 0))) in
  let ent := aset (aset ent 11 ATTR_LFN) 13 ck in
  lfn_fill off_tab ent name ((n - 1) * 13).

Definition short_entry s (sn : list Z) (a first size : Z) : list Z :=
  let ent := aset (splice (replicate 32 0) 0 (take 11 sn)) 11 a in
  let ent := write_timestamp s ent 0 in
  let ent := if fat_type s =? 32 then aset (aset ent 20 (Z.shiftr first 16 &! 0xFF)) 21 (Z.shiftr first 24 &! 0xFF) else ent in
  let ent := aset (aset ent 26 (first &! 0xFF)) 27 (Z.shiftr first 8 &! 0xFF) in
  aset (aset (aset (aset ent 28 (size &! 0xFF)) 29 (Z.shiftr size 8 &! 0xFF)) 30 (Z.shiftr size 16 &! 0xFF)) 31 (Z.shiftr size 24 &! 0xFF).

(** The entries of the long name from number [n] down. *)
Fixpoint write_lfn (n : nat) s (b : dir_block_t) (off : Z) (name : list Z) (ck total : Z) : fatfs D * bool :=
  match n with
  | O => (s, true)
  | S n' =>
      let k := Z.of_nat n in
      let '(s, ok) := fat_write_dirent_at s b (off +! (total - k) *! 32) (lfn_entry name ck k total) in
      if ok : bool then write_lfn n' s b off name ck total else (s, false)
  end.

Definition write_dir_entries s (b : dir_block_t) (off : Z) (name sn : list Z) (total a first size : Z) : fatfs D * bool :=
  let '(s, ok) := write_lfn (Z.to_nat total) s b off name (lfn_checksum sn) total in
  if negb ok then (s, false) else fat_write_dirent_at s b (off +! total *! 32) (short_entry s sn a first size).

(** ** Creating and deleting *)

(** [n] more clusters for a chain that starts at [first] and ends at [prev]; a
    failure releases what was taken. *)
Fixpoint alloc_chain (n : nat) s (first prev : Z) : fatfs D * option Z :=
  match n with
  | O => (s, Some first)
  | S n' =>
      let '(s, c) := fat_alloc_cluster s in
      if c =? 0 then (fst (fat_free_chain s first), None)
      else
        let '(s, ok) := fat_entry_set s c (fat_eoc_val s) in
        if negb ok then (fst (fat_free_chain s first), None)
        else if first =? 0 then alloc_chain n' s c c
        else
          let '(s, ok) := fat_entry_set s prev c in
          if negb ok then (fst (fat_free_chain (fst (fat_free_chain s first)) c), None) else alloc_chain n' s first c
  end.

Definition zero_pad (l : list Z) (n : Z) : list Z := l ++ replicate (Z.to_nat n - length l) 0.

(** The data into the chain from [cur] on. *)
Fixpoint write_chain (n : nat) s (cur : Z) (data : list Z) : fatfs D * bool :=
  match n with
  | O => (s, true)
  | S n' =>
      let k := Z.to_nat (cluster_size s) in
      let '(s, ok) := fat_write_cluster s cur (zero_pad (take k data) (cluster_size s)) in
      if negb ok then (s, false)
      else
        match n' with
        | O => (s, true)
        | S _ => let '(s, v) := fat_entry_get s cur in write_chain n' s v (drop k data)
        end
  end.

(** The slots in the directory, then the entries; a failure releases [first]. *)
Definition enter s (dir : Z) (leaf sn : list Z) (total a first size : Z) : fatfs D * Z :=
  let '(s, r) := fat_find_free_slots s dir (1 + total) in
  match r with
  | None => (if negb (first =? 0) then fst (fat_free_chain s first) else s, -1)
  | Some (b, off) =>
      let '(s, ok) := write_dir_entries s b off leaf sn total a first size in
      if ok : bool then (s, 0) else (fst (fat_free_chain s first), -1)
  end.

Definition bad_name (name : list Z) : bool := let n := Z.of_nat (length name) in (n =? 0) || (255 <? n).

Definition fat_create_file s (name data : list Z) : fatfs D * Z :=
  let size := Z.of_nat (length data) in
  if fat_type s =? 0 then (s, -1)
  else if bad_name name then (s, -1)
  else if bool_decide (last name = Some 47) then (s, -1)
  else
    let '(s, r) := fat_resolve_leaf s name in
    match r with
    | None => (s, -1)
    | Some (dir, leaf) =>
        if bad_name leaf then (s, -1)
        else
          let '(s, r) := fat_find_entry s dir leaf in
          match r with
          | Some _ => (s, -1)
          | None =>
              let '(s, r) := prepare_names s leaf dir in
              match r with
              | None => (s, -1)
              | Some (sn, total) =>
                  let n := Z.to_nat ((size +! cluster_size s -! 1) / cluster_size s) in
                  let '(s, r) := alloc_chain n s 0 0 in
                  match r with
                  | None => (s, -1)
                  | Some first =>
                      let '(s, ok) := write_chain n s first data in
                      if negb ok then (fst (fat_free_chain s first), -1) else enter s dir leaf sn total ATTR_ARCHIVE first size
                  end
              end
          end
    end.

Definition empty_check_cb : dirent_cb bool := fun s de a => if dot_name (de_name de) then (s, a, false) else (s, true, true).

(** Entries of the long name in front of the offset [off]. *)
Fixpoint mark_lfn (n : nat) (buf : list Z) (off : Z) : list Z :=
  match n with
  | O => buf
  | S n' =>
      if off <? 32 then buf
      else
        let p := off - 32 in
        if is_lfn (slice buf p 32) && negb (aget 0 buf p =? DELETED_ENTRY) then mark_lfn n' (aset buf p DELETED_ENTRY) p else buf
  end.

Definition unlink s (de : fat_dirent_t) : fatfs D * Z :=
  let b := de_block de in
  if db_bytes b <? entry_off de +! 32 then (s, -1)
  else
    let '(s, r) := fat_read_block s b in
    match r with
    | None => (s, -1)
    | Some buf =>
        let buf := mark_lfn (Z.to_nat (entry_off de / 32)) buf (entry_off de) in
        let '(s, ok) := fat_write_block s b (aset buf (entry_off de) DELETED_ENTRY) in
        (s, if ok : bool then 0 else -1)
    end.

Definition fat_delete_file s (name : list Z) : fatfs D * Z :=
  if fat_type s =? 0 then (s, -1)
  else
    let '(s, r) := find_path s name in
    match r with
    | None => (s, -1)
    | Some de =>
        if is_dir de then
          let '(s, nonempty, _) := fat_dir_foreach empty_check_cb s (first_cluster de) false in
          if nonempty : bool then (s, -1) else unlink (fst (fat_free_chain s (first_cluster de))) de
        else if 2 <=? first_cluster de then unlink (fst (fat_free_chain s (first_cluster de))) de
        else unlink s de
    end.

Definition dot_entry s (buf : list Z) (o : Z) (nm : list Z) (c : Z) : list Z :=
  let buf := aset (splice buf o (pad nm 11)) (o + 11) ATTR_DIRECTORY in
  let buf := write_timestamp s buf o in
  let buf := if fat_type s =? 32 then aset (aset buf (o + 20) (Z.shiftr c 16 &! 0xFF)) (o + 21) (Z.shiftr c 24 &! 0xFF) else buf in
  aset (aset buf (o + 26) (c &! 0xFF)) (o + 27) (Z.shiftr c 8 &! 0xFF).

Definition fat_mkdir s (name : list Z) : fatfs D * Z :=
  if fat_type s =? 0 then (s, -1)
  else if bad_name name then (s, -1)
  else
    let '(s, r) := fat_resolve_leaf s name in
    match r with
    | None => (s, -1)
    | Some (parent, leaf) =>
        if bad_name leaf then (s, -1)
        else
          let '(s, r) := fat_find_entry s parent leaf in
          match r with
          | Some _ => (s, -1)
          | None =>
              let '(s, nc) := fat_alloc_cluster s in
              if nc =? 0 then (s, -1)
              else
                let '(s, ok) := fat_entry_set s nc (fat_eoc_val s) in
                if negb ok then (fst (fat_free_chain s nc), -1)
                else
                  let buf := dot_entry s (dot_entry s scratch 0 [46] nc) 32 [46; 46] parent in
                  let '(s, ok) := fat_write_cluster s nc buf in
                  if negb ok then (fst (fat_free_chain s nc), -1)
                  else
                    let '(s, r) := prepare_names s leaf parent in
                    match r with
                    | None => (s, -1)
                    | Some (sn, total) => enter s parent leaf sn total ATTR_DIRECTORY nc 0
                    end
          end
    end.

Definition fat_rmdir s (name : list Z) : fatfs D * Z :=
  if (fat_type s =? 0) || bool_decide (name = []) || dot_name name then (s, -1)
  else
    let '(s, r) := fat_resolve_leaf s name in
    match r with
    | None => (s, -1)
    | Some (dir, leaf) =>
        if dot_name leaf then (s, -1)
        else
          let '(s, r) := fat_find_entry s dir leaf in
          match r with
          | None => (s, -1)
          | Some de => if negb (is_dir de) || (first_cluster de =? 0) then (s, -1) else fat_delete_file s name
          end
    end.
End Dir.
