(* ===== verification/FatWalk.v ===== *)
(** * FatWalk: the guarded walk over the blocks of a directory ([kernel/fat.c])

    The table is untrusted: it may contain cycles.  The walk of [FatDir.v] follows
    the chain with a second, half as fast pointer and a bound on its steps.  This
    file shows that it ends, visits every block that can be reached and no other,
    and on a chain without a cycle visits each block once. *)

From S2P Require Import Prelude Disk Fat FatProps FatDir.

(** ** Two pointers on an orbit

    [x] runs through the values of [f]; [max] bounds the number of visits. *)
Section Orbit.
Variables (f : Z -> Z) (x0 : Z) (ok : Z -> Prop) (max : nat).
Context `{Hdec : forall v, Decision (ok v)}.
Definition orb (i : nat) : Z := Nat.iter i f x0.

Lemma orb_S i : orb (S i) = f (orb i).
Proof. done. Qed.

Lemma orb_shift i j n : orb i = orb j -> orb (i + n) = orb (j + n).
Proof.
  intros E. induction n as [| n IH]; [by rewrite !Nat.add_0_r |]. rewrite !Nat.add_succ_r, !orb_S. by rewrite IH.
Qed.

(** The walk goes on from its [j]-th block. *)
Definition goes (j : nat) : bool :=
  bool_decide (ok (orb (S j))) && (S j <? max)%nat && negb (Nat.even (S j) && (orb (S j) =? orb (Nat.div2 (S j)))).

(** It ends at [K]. *)
Definition ends_at (K : nat) : Prop := (forall j, (j < K)%nat -> goes j = true) /\ goes K = false.

(** A chain that ends after its [m]-th cluster has no repetition and is visited
    to its end. *)
Lemma finite_distinct m : (forall j, (j <= m)%nat -> ok (orb j)) -> ~ ok (orb (S m)) ->
  forall i j, (i < j <= m)%nat -> orb i <> orb j.
Proof.
  intros Hv Hn i j Hij E. apply Hn. assert (Es : orb (i + (S m - j)) = orb (j + (S m - j))) by by apply orb_shift.
  replace (j + (S m - j))%nat with (S m) in Es by lia. rewrite <- Es. apply Hv. lia.
Qed.

Lemma half_below j : (0 < j)%nat -> (Nat.div2 j < j)%nat.
Proof. intros. apply Nat.lt_div2. lia. Qed.

Lemma goes_early p : (p <= max)%nat -> (forall j, (j < p)%nat -> ok (orb j)) -> (forall i j, (i < j < p)%nat -> orb i <> orb j) ->
  forall j, (S j < p)%nat -> goes j = true.
Proof.
  intros Hp Hv Hd j Hj. unfold goes. rewrite bool_decide_eq_true_2 by (apply Hv; lia).
  destruct (Nat.ltb_spec (S j) max); [| lia]. cbn [andb]. apply negb_true_iff, andb_false_iff. right. apply Z.eqb_neq.
  intros E. apply (Hd (Nat.div2 (S j)) (S j)); [| by symmetry]. split; [apply half_below; lia | lia].
Qed.

Lemma finite_end m : (S m <= max)%nat -> (forall j, (j <= m)%nat -> ok (orb j)) -> ~ ok (orb (S m)) -> ends_at m.
Proof.
  intros Hm Hv Hn. split.
  - intros j Hj. apply (goes_early (S m)); [done | intros; apply Hv; lia | | lia]. intros i k Hik. apply (finite_distinct m); [done | done | lia].
  - unfold goes. by rewrite bool_decide_eq_false_2.
Qed.

(** The first [p] clusters are distinct and the next one is among them. *)
Record rho (p q : nat) : Prop := {
  rho_lt : (q < p)%nat;
  rho_eq : orb p = orb q;
  rho_distinct : forall i j, (i < j < p)%nat -> orb i <> orb j;
}.

Lemma rho_period p q n : rho p q -> (q <= n)%nat -> forall t, orb (n + t * (p - q)) = orb n.
Proof.
  intros [Hl He _] Hn. induction t as [| t IH]; [by rewrite Nat.add_0_r |].
  assert (E1 : orb (q + (n - q + t * (p - q))) = orb (p + (n - q + t * (p - q)))) by by apply orb_shift.
  replace (n + S t * (p - q))%nat with (p + (n - q + t * (p - q)))%nat by lia. rewrite <- E1.
  replace (q + (n - q + t * (p - q)))%nat with (n + t * (p - q))%nat by lia. done.
Qed.

Lemma rho_all p q j : rho p q -> exists i, (i < p)%nat /\ orb j = orb i.
Proof.
  intros Hr. induction j as [j IH] using lt_wf_ind. destruct (Nat.lt_ge_cases j p) as [Hj | Hj]; [by exists j |].
  destruct Hr as [Hl He Hd]. destruct (IH (j - (p - q))%nat ltac:(lia)) as (i & Hi & E). exists i. split; [done |]. rewrite <- E.
  pose proof (rho_period p q (j - (p - q)) ltac:(by constructor) ltac:(lia) 1) as Hp. rewrite <- Hp. f_equal. lia.
Qed.

(** The pointers meet within [2 p] steps. *)
Lemma rho_meet p q : rho p q -> exists k, (1 <= k <= p)%nat /\ orb (2 * k) = orb k.
Proof.
  intros Hr. pose proof Hr as [Hl _ _]. set (l := (p - q)%nat). set (t := S ((q - 1) / l)). exists (t * l)%nat.
  assert (Hdiv : (l * ((q - 1) / l) <= q - 1 < l * S ((q - 1) / l))%nat).
  { split; [apply Nat.Div0.mul_div_le |]. apply Nat.mul_succ_div_gt. unfold l. lia. }
  assert (Ht : (t * l = l * S ((q - 1) / l))%nat) by (unfold t; lia). rewrite Ht.
  split; [unfold l in *; nia |]. pose proof (rho_period p q (l * S ((q - 1) / l)) Hr ltac:(unfold l in *; lia) t) as E. fold l in E.
  rewrite <- E. f_equal. lia.
Qed.

Lemma rho_end p q : rho p q -> (p <= max)%nat -> (1 <= max)%nat -> (forall j, ok (orb j)) ->
  exists K, ends_at K /\ (p <= S K)%nat /\ (S K <= 2 * p)%nat.
Proof.
  intros Hr Hp Hm Hv. destruct (rho_meet p q Hr) as (k & Hk & E).
  assert (Hstop : goes (2 * k - 1) = false).
  { unfold goes. replace (S (2 * k - 1)) with (2 * k)%nat by lia. rewrite Nat.div2_double, E, Z.eqb_refl, andb_true_r.
    rewrite Nat.even_mul. cbn [Nat.even orb negb]. apply andb_false_r. }
  destruct (least_nat (fun j => goes j = false) _ Hstop) as (K & HK & HE & Hmin).
  assert (He : ends_at K) by (split; [| done]; intros j Hj; specialize (Hmin j Hj); by destruct (goes j)).
  exists K. split; [done |]. split; [| lia].
  destruct (Nat.le_gt_cases p (S K)) as [| Hlt]; [done |]. exfalso. rename HE into Hf.
  rewrite (goes_early p Hp (fun j _ => Hv j) (rho_distinct p q Hr)) in Hf; [done | lia].
Qed.

(** Among [n + 1] clusters out of [n] one is repeated. *)
Lemma rho_exists (l : list Z) : (forall j, orb j ∈ l) -> exists p q, rho p q /\ (p <= length l)%nat.
Proof.
  intros Hl. assert (Hrep : exists j, (j <= length l)%nat /\ Exists (fun i => orb i = orb j) (seq 0 j)).
  { destruct (decide (Exists (fun j => Exists (fun i => orb i = orb j) (seq 0 j)) (seq 0 (S (length l))))) as [He | He].
    - apply Exists_exists in He as (j & Hj%elem_of_seq & E). exists j. split; [lia | done].
    - exfalso. assert (Hn : NoDup (map orb (seq 0 (S (length l))))).
      { assert (Hd : forall i j, (i < j <= length l)%nat -> orb i <> orb j).
        { intros i j Hij E. apply He, Exists_exists. exists j. split; [apply elem_of_seq; lia |]. apply Exists_exists. exists i.
          split; [apply elem_of_seq; lia | done]. }
        apply NoDup_fmap_2_strong; [| apply NoDup_seq]. intros a b Ha%elem_of_seq Hb%elem_of_seq E.
        destruct (Nat.lt_trichotomy a b) as [Hlt | [-> | Hlt]]; [| done |]; exfalso.
        - apply (Hd a b); [lia | done].
        - apply (Hd b a); [lia | done]. }
      assert (Hsub : map orb (seq 0 (S (length l))) ⊆+ l).
      { apply NoDup_submseteq; [done |]. intros v Hv. apply list_elem_of_In, in_map_iff in Hv as (j & <- & _). apply Hl. }
      apply submseteq_length in Hsub. rewrite length_map, length_seq in Hsub. lia. }
  destruct Hrep as (j & Hj & Hr). destruct (least_nat (fun j => Exists (fun i => orb i = orb j) (seq 0 j)) _ Hr) as (p & Hp & Hx & Hmin).
  apply Exists_exists in Hx as (q & Hq%elem_of_seq & E). exists p, q. split; [| lia]. constructor; [lia | done |].
  intros a b Hab E'. apply (Hmin b); [lia |]. apply Exists_exists. exists a. split; [apply elem_of_seq; lia | done].
Qed.
End Orbit.

Section Walk.
Context {D : Type} `{BD : BlockDev D}.
Implicit Types s : fatfs D.

(** The blocks that the walk visits from [w] on, with [n] visits at most. *)
Fixpoint visits (n : nat) s (w : fat_dir_walk_t) : fatfs D * list dir_block_t :=
  match n with
  | O => (s, [])
  | S n' =>
      let '(s, r) := fat_dir_walk_next s w in
      match r with
      | None => (s, [fast w])
      | Some w' => let '(s, l) := visits n' s w' in (s, fast w :: l)
      end
  end.

Definition walk_blocks s (dir : Z) : fatfs D * list dir_block_t :=
  let '(s, r) := fat_dir_walk_start s dir in
  match r with None => (s, []) | Some w => visits (Z.to_nat (wmax w)) s w end.

Lemma ends_spec s v : vol_ok s -> chain_ends s v = negb (bool_decide (valid s v)).
Proof.
  intros Hv. unfold chain_ends. rewrite in_range_spec by done. case_bool_decide as H; cbn [negb orb]; [| done].
  by destruct (valid_plain s v Hv H) as [-> ->].
Qed.

Lemma block_quiet s s' c : quiet s s' -> cluster_block s' c = cluster_block s c.
Proof.
  intros [Hg _ _]. apply geom_fields in Hg as (E & _). unfold cluster_block, cluster_sector, cluster_size. by rewrite E.
Qed.

Lemma valid_quiet s s' c : quiet s s' -> valid s' c <-> valid s c.
Proof. intros [Hg _ _]. by apply geom_valid. Qed.

(** One step of a pointer that is on the cluster [c]. *)
Lemma dir_step_ok s c : vol_ok s -> valid s c -> exists s', quiet s s' /\ vol_ok s' /\
  fat_dir_step s (cluster_block s c) = (s', if bool_decide (valid s (fat_at s c)) then Some (cluster_block s (fat_at s c)) else None).
Proof.
  intros Hv Hc. destruct (count_small s Hv) as (_ & _ & Ht). unfold fat_dir_step. rewrite (proj2 (Z.eqb_neq _ _) Ht). cbn [cluster_block db_cluster].
  destruct (Z.eqb_spec c 0) as [-> |]; [unfold valid in Hc; lia |].
  destruct (get_valid s c Hv Hc) as (s' & -> & Q & Hv'). exists s'. split; [done |]. split; [done |].
  rewrite ends_spec by done. rewrite (bool_decide_ext _ _ (valid_quiet _ _ (fat_at s c) Q)), (block_quiet _ _ _ Q).
  by case_bool_decide.
Qed.

Definition count_nat s : nat := Z.to_nat (cluster_count (fi s) + 2).
Notation orbit s dir := (orb (fat_at s) dir).
Notation goes_on s dir := (goes (fat_at s) dir (valid s) (count_nat s)).

Definition walk_at s (dir : Z) (k : nat) : fat_dir_walk_t :=
  mk_walk (cluster_block s (orbit s dir k)) (cluster_block s (orbit s dir (Nat.div2 k))) (Z.of_nat k) (cluster_count (fi s) + 2).

Lemma orbit_quiet s s' dir k : quiet s s' -> orbit s' dir k = orbit s dir k.
Proof. intros Q. induction k as [| k IH]; [done |]. rewrite !orb_S, IH. by apply quiet_fat_at. Qed.

Lemma walk_quiet s s' dir k : quiet s s' -> walk_at s' dir k = walk_at s dir k.
Proof.
  intros Q. unfold walk_at. rewrite !(orbit_quiet s s'), !(block_quiet s s') by done.
  destruct (geom_fields _ _ (qu_geom _ _ Q)) as (-> & _). done.
Qed.

Lemma goes_quiet s s' dir k : quiet s s' -> goes_on s' dir k = goes_on s dir k.
Proof.
  intros Q. unfold goes, count_nat. rewrite !(orbit_quiet s s') by done. destruct (geom_fields _ _ (qu_geom _ _ Q)) as (-> & _).
  rewrite (bool_decide_ext (valid s' _) (valid s (orbit s dir (S k)))) by (by apply valid_quiet). done.
Qed.

Lemma even_land k : (Z.of_nat k &! 1 =? 0) = Nat.even k.
Proof.
  rewrite land_1. destruct (Nat.even k) eqn:E.
  - apply Nat.even_spec in E as [m ->]. apply Z.eqb_eq. rewrite Nat2Z.inj_mul. change (Z.of_nat 2) with 2. rewrite Z.mul_comm. by rewrite Z.mod_mul.
  - apply Z.eqb_neq. rewrite <- Nat.negb_odd in E. apply negb_false_iff, Nat.odd_spec in E as [m ->]. rewrite Nat2Z.inj_add, Nat2Z.inj_mul.
    change (Z.of_nat 2) with 2. change (Z.of_nat 1) with 1. rewrite Z.add_comm, Z.mul_comm, Z.mod_add by lia. done.
Qed.

Lemma walk_next_ok s dir k : vol_ok s -> (forall j, (j <= k)%nat -> valid s (orbit s dir j)) -> (k < count_nat s)%nat ->
  exists s', quiet s s' /\ vol_ok s' /\
    fat_dir_walk_next s (walk_at s dir k) = (s', if goes_on s dir k then Some (walk_at s dir (S k)) else None).
Proof.
  intros Hv Hok Hk. unfold fat_dir_walk_next. destruct (dir_step_ok s (orbit s dir k) Hv (Hok k ltac:(lia))) as (s1 & Q1 & Hv1 & E1).
  change (fast (walk_at s dir k)) with (cluster_block s (orbit s dir k)). rewrite E1. rewrite <- orb_S. unfold goes.
  destruct (decide (valid s (orbit s dir (S k)))) as [Hn | Hn];
    [rewrite !bool_decide_eq_true_2 by done | rewrite !bool_decide_eq_false_2 by done; by exists s1]. cbn [andb].
  destruct (count_small s Hv) as (_ & Hsm & _). pose proof Hv as [[] _ _ _ _]. unfold count_nat in *.
  change (steps (walk_at s dir k)) with (Z.of_nat k). change (wmax (walk_at s dir k)) with (cluster_count (fi s) + 2).
  rewrite u32_small by (unfold is_u32; lia). replace (Z.of_nat k + 1) with (Z.of_nat (S k)) by lia.
  destruct (Z.leb_spec (cluster_count (fi s) + 2) (Z.of_nat (S k))), (Nat.ltb_spec (S k) (Z.to_nat (cluster_count (fi s) + 2))); try lia; cbn [andb]; [by exists s1 |].
  rewrite even_land. destruct (Nat.even (S k)) eqn:Ev; cbn [andb negb].
  - assert (Hhalf : Nat.div2 (S k) = S (Nat.div2 k)).
    { apply Nat.even_spec in Ev as [m Em]. assert (k = S (2 * (m - 1))) as -> by lia. replace (S (S (2 * (m - 1)))) with (2 * S (m - 1))%nat by lia.
      by rewrite Nat.div2_double, Nat.div2_succ_double. }
    assert (Hdk : (Nat.div2 k <= k)%nat) by (apply Nat.div2_decr; lia).
    destruct (dir_step_ok s1 (orbit s1 dir (Nat.div2 k)) Hv1) as (s2 & Q2 & Hv2 & E2).
    { apply (valid_quiet _ _ _ Q1). rewrite (orbit_quiet _ _ _ _ Q1). apply Hok. lia. }
    change (slow (walk_at s dir k)) with (cluster_block s (orbit s dir (Nat.div2 k))).
    rewrite <- (block_quiet s s1), <- (orbit_quiet s s1) by done. rewrite E2, <- orb_S, <- Hhalf. rewrite !(orbit_quiet s s1) by done.
    assert (Hvh : valid s (orbit s dir (Nat.div2 (S k)))) by (rewrite Hhalf; destruct (decide (S (Nat.div2 k) <= k)%nat); [by apply Hok |];
      replace (S (Nat.div2 k)) with (S k) by lia; done).
    rewrite (bool_decide_ext _ _ (valid_quiet _ _ _ Q1)), bool_decide_eq_true_2 by done. exists s2.
    assert (Q : quiet s s2) by (by etrans). split; [done |]. split; [done |]. cbn [cluster_block db_cluster].
    destruct (Z.eqb_spec (orbit s dir (S k)) 0) as [E0 |]; [unfold valid in Hn; lia |]. cbn [negb andb].
    destruct (orbit s dir (S k) =? orbit s dir (Nat.div2 (S k))); cbn [negb]; [done |]. unfold walk_at. by rewrite !(block_quiet s s1).
  - exists s1. split; [done |]. split; [done |]. unfold walk_at. do 3 f_equal.
    assert (Hhalf : Nat.div2 (S k) = Nat.div2 k).
    { rewrite <- Nat.negb_odd in Ev. apply negb_false_iff, Nat.odd_spec in Ev as [m Em]. assert (k = 2 * m)%nat as -> by lia.
      by rewrite Nat.div2_double, Nat.div2_succ_double. }
    by rewrite Hhalf.
Qed.

(** The visits from the [k]-th block to the end [K]. *)
Lemma visits_ok n : forall s dir k K, vol_ok s -> (forall j, (j <= k)%nat -> valid s (orbit s dir j)) -> (k < count_nat s)%nat -> (k <= K)%nat ->
  (forall j, (k <= j < K)%nat -> goes_on s dir j = true) -> goes_on s dir K = false -> (K < k + n)%nat ->
  exists s', visits n s (walk_at s dir k) = (s', map (fun j => cluster_block s (orbit s dir j)) (seq k (S K - k))) /\ quiet s s' /\ vol_ok s'.
Proof.
  induction n as [| n IH]; intros s dir k K Hv Hok Hk HkK Hgo Hend Hn; [lia |]. cbn [visits].
  destruct (walk_next_ok s dir k Hv Hok Hk) as (s1 & Q1 & Hv1 & ->). destruct (decide (k = K)) as [-> | Hne].
  - rewrite Hend. exists s1. split; [| done]. replace (S K - K)%nat with 1%nat by lia. done.
  - pose proof (Hgo k ltac:(lia)) as Eg. rewrite Eg. unfold goes in Eg.
    apply andb_true_iff in Eg as [[Ev%bool_decide_eq_true El%Nat.ltb_lt]%andb_true_iff _].
    rewrite <- (walk_quiet _ _ _ _ Q1).
    destruct (IH s1 dir (S k) K) as (s' & E & Q & Hv').
    + done.
    + intros j Hj. rewrite (orbit_quiet _ _ _ _ Q1). apply (valid_quiet _ _ _ Q1). destruct (decide (j = S k)) as [-> |]; [done |]. apply Hok. lia.
    + unfold count_nat in *. destruct (geom_fields _ _ (qu_geom _ _ Q1)) as (-> & _). lia.
    + lia.
    + intros j Hj. rewrite (goes_quiet _ _ _ _ Q1). apply Hgo. lia.
    + by rewrite (goes_quiet _ _ _ _ Q1).
    + lia.
    + exists s'. split; [| split; [by etrans | done]]. rewrite E. replace (S K - k)%nat with (S (S K - S k)) by lia. cbn [seq map].
      do 2 f_equal. apply map_ext. intros j. by rewrite (orbit_quiet _ _ _ _ Q1), (block_quiet _ _ _ Q1).
Qed.

Lemma walk_start_ok s dir : vol_ok s -> valid s dir -> fat_dir_walk_start s dir = (s, Some (walk_at s dir 0)).
Proof.
  intros Hv Hd. destruct (count_small s Hv) as (Ec & _ & Ht). pose proof Hv as [[] _ _ _ _].
  unfold fat_dir_walk_start, fat_dir_max_blocks, fat_dir_block. rewrite (proj2 (Z.eqb_neq _ _) Ht), Ec.
  assert (Ed : (dir =? 0) = false) by (apply Z.eqb_neq; unfold valid in Hd; lia). rewrite Ed. cbn [andb].
  rewrite in_range_spec, bool_decide_eq_true_2 by done. cbn [negb]. change (Z.to_nat 0) with 0%nat. cbn [chain_nth mbind option_bind].
  destruct (Z.eqb_spec (cluster_count (fi s)) 0); [lia |]. by rewrite in_range_spec, bool_decide_eq_true_2.
Qed.

(** Either the chain leaves the volume after [m] links, or it never does. *)
Lemma orbit_cases s dir : vol_ok s -> valid s dir ->
  (exists m, (S m < count_nat s)%nat /\ (forall j, (j <= m)%nat -> valid s (orbit s dir j)) /\ ~ valid s (orbit s dir (S m))) \/
  (exists p q, rho (fat_at s) dir p q /\ (S p < count_nat s)%nat /\ forall j, valid s (orbit s dir j)).
Proof.
  intros Hv Hd. pose proof Hv as [[] _ _ _ _]. set (N := Z.to_nat (cluster_count (fi s))).
  assert (HN : count_nat s = S (S N)) by (unfold count_nat, N; lia).
  destruct (decide (Forall (fun j => valid s (orbit s dir j)) (seq 0 (S N)))) as [Hall | Hn].
  - rewrite Forall_forall in Hall.
    assert (Hrho : exists j, (j <= N)%nat /\ Exists (fun i => orbit s dir i = orbit s dir j) (seq 0 j)).
    { destruct (decide (Exists (fun j => Exists (fun i => orbit s dir i = orbit s dir j) (seq 0 j)) (seq 0 (S N)))) as [He | He].
      - apply Exists_exists in He as (j & Hj%elem_of_seq & E). exists j. split; [lia | done].
      - exfalso. assert (Hnd : NoDup (map (orbit s dir) (seq 0 (S N)))).
        { apply NoDup_fmap_2_strong; [| apply NoDup_seq]. intros a b Ha%elem_of_seq Hb%elem_of_seq E.
          destruct (Nat.lt_trichotomy a b) as [Hlt | [-> | Hlt]]; [| done |]; exfalso; apply He, Exists_exists.
          - exists b. split; [apply elem_of_seq; lia |]. apply Exists_exists. exists a. split; [apply elem_of_seq; lia | done].
          - exists a. split; [apply elem_of_seq; lia |]. apply Exists_exists. exists b. split; [apply elem_of_seq; lia | done]. }
        assert (Hsub : map (orbit s dir) (seq 0 (S N)) ⊆+ seqZ 2 (cluster_count (fi s))).
        { apply NoDup_submseteq; [done |]. intros v Hin. apply list_elem_of_In, in_map_iff in Hin as (j & <- & Hj%list_elem_of_In).
          apply elem_of_seqZ. specialize (Hall j Hj). unfold valid in Hall. lia. }
        apply submseteq_length in Hsub. rewrite length_map, length_seq, length_seqZ in Hsub. fold N in Hsub. lia. }
    right. destruct Hrho as (j & Hj & Hr). destruct (least_nat (fun j => Exists (fun i => orbit s dir i = orbit s dir j) (seq 0 j)) _ Hr) as (p & Hp & Hx & Hmin).
    apply Exists_exists in Hx as (q & Hq%elem_of_seq & E).
    assert (Hrp : rho (fat_at s) dir p q).
    { constructor; [lia | done |]. intros a b Hab E'. apply (Hmin b); [lia |]. apply Exists_exists. exists a. split; [apply elem_of_seq; lia | done]. }
    exists p, q. split; [done |]. split; [lia |]. intros i. destruct (rho_all _ _ p q i Hrp) as (i' & Hi & ->). apply Hall, elem_of_seq. lia.
  - left. apply not_Forall_Exists in Hn; [| intros; apply _]. apply Exists_exists in Hn as (j & Hj%elem_of_seq & Hb).
    destruct (least_nat (fun j => ~ valid s (orbit s dir j)) j Hb) as (m & Hm & Hbm & Hmin). destruct m as [| m]; [by destruct Hbm |].
    exists m. split; [lia |]. split; [| done]. intros i Hi. destruct (decide (valid s (orbit s dir i))) as [| Hni]; [done |]. by destruct (Hmin i ltac:(lia)).
Qed.

Lemma orbit_reach s dir j : (forall i, (i <= j)%nat -> valid s (orbit s dir i)) -> rtc (link s) dir (orbit s dir j).
Proof.
  induction j as [| j IH]; intros Hv; [apply rtc_refl |]. eapply rtc_r; [apply IH; intros; apply Hv; lia |].
  split; [apply Hv; lia |]. split; [done | apply Hv; lia].
Qed.

Lemma reach_orbit s dir c : rtc (link s) dir c -> exists j, c = orbit s dir j /\ forall i, (0 < i <= j)%nat -> valid s (orbit s dir i).
Proof.
  intros Hr. apply rtc_ind_r with (P := fun c => exists j, c = orbit s dir j /\ forall i, (0 < i <= j)%nat -> valid s (orbit s dir i)) in Hr; [done | |].
  - exists 0%nat. split; [done | lia].
  - intros y z _ (Hy & E & Hz) (j & -> & Hj). exists (S j). rewrite orb_S. split; [by rewrite E |]. intros i Hi.
    destruct (decide (i = S j)) as [-> |]; [rewrite orb_S; by rewrite E | apply Hj; lia].
Qed.

(** The clusters of the walk, by their position in the chain. *)
Definition chain_upto s (dir : Z) (K : nat) : list Z := map (fun j => orbit s dir j) (seq 0 (S K)).

Lemma chain_lookup s dir K i : chain_upto s dir K !! i = if decide (i <= K)%nat then Some (orbit s dir i) else None.
Proof.
  unfold chain_upto. change (map ?f ?l) with (f <$> l). rewrite list_lookup_fmap. destruct (decide (i <= K)%nat).
  - rewrite lookup_seq_lt by lia. done.
  - rewrite lookup_seq_ge by lia. done.
Qed.

Lemma walk_blocks_ok s dir : vol_ok s -> valid s dir -> exists s' K,
  walk_blocks s dir = (s', map (cluster_block s) (chain_upto s dir K)) /\ quiet s s' /\ vol_ok s' /\ (K < count_nat s)%nat /\
  (forall j, (j <= K)%nat -> valid s (orbit s dir j)) /\
  ((~ valid s (orbit s dir (S K)) /\ forall i j, (i < j <= K)%nat -> orbit s dir i <> orbit s dir j) \/
   (exists p q, rho (fat_at s) dir p q /\ (p <= S K <= 2 * p)%nat /\ forall j, valid s (orbit s dir j))).
Proof.
  intros Hv Hd. unfold walk_blocks. rewrite walk_start_ok by done. change (wmax (walk_at s dir 0)) with (cluster_count (fi s) + 2). fold (count_nat s).
  pose proof Hv as [[] _ _ _ _].
  assert (Hrun : forall K, ends_at (fat_at s) dir (valid s) (count_nat s) K -> (K < count_nat s)%nat -> exists s',
    visits (count_nat s) s (walk_at s dir 0) = (s', map (cluster_block s) (chain_upto s dir K)) /\ quiet s s' /\ vol_ok s').
  { intros K [Hg He] HK. destruct (visits_ok (count_nat s) s dir 0 K Hv) as (s' & E & Q & Hv'); try (done || lia).
    - intros j Hj. by replace j with 0%nat by lia.
    - intros j Hj. apply Hg. lia.
    - exists s'. split; [| done]. rewrite E. unfold chain_upto. rewrite map_map. by rewrite Nat.sub_0_r. }
  destruct (orbit_cases s dir Hv Hd) as [(m & Hm & Hval & Hn) | (p & q & Hr & Hp & Hval)].
  - destruct (Hrun m) as (s' & E & Q & Hv'); [apply finite_end; [lia | done | done] | lia |].
    exists s', m. split; [done |]. split; [done |]. split; [done |]. split; [lia |]. split; [done |]. left. split; [done |].
    by apply (finite_distinct _ _ (valid s)).
  - destruct (rho_end (fat_at s) dir (valid s) (count_nat s) p q Hr) as (K & He & K1 & K2); [lia | lia | done |].
    assert (HK : (K < count_nat s)%nat).
    { destruct He as [Hg Hf]. destruct (Nat.lt_ge_cases K (count_nat s)) as [| Hge]; [done |]. exfalso.
      specialize (Hg (count_nat s - 1)%nat). unfold goes in Hg. assert (Hlt : (count_nat s - 1 < K)%nat) by lia. specialize (Hg Hlt).
      apply andb_true_iff in Hg as [[_ Hg%Nat.ltb_lt]%andb_true_iff _]. lia. }
    destruct (Hrun K He HK) as (s' & E & Q & Hv'). exists s', K. split; [done |]. split; [done |]. split; [done |]. split; [done |].
    split; [intros; apply Hval |]. right. exists p, q. split; [done |]. split; [lia | done].
Qed.

(** C18. The walk over a directory whose chain starts at a cluster of the volume,
    for any contents of the table.  It ends; it visits the first cluster first and
    goes along the links; it visits exactly the clusters that the chain reaches; a
    chain with a cycle costs at most twice as many visits as it has clusters; a
    chain without a cycle is visited once per cluster. *)
Theorem fat_dir_walk_exact s dir (Hv : vol_ok s) (Hd : valid s dir) : exists s' l,
  walk_blocks s dir = (s', map (cluster_block s) l) /\ quiet s s' /\ vol_ok s' /\ head l = Some dir /\
  (forall i c c', l !! i = Some c -> l !! S i = Some c' -> link s c c') /\
  (forall c, c ∈ l <-> rtc (link s) dir c) /\
  (exists d, NoDup d /\ d ⊆ l /\ (length l <= 2 * length d)%nat) /\
  ((forall c, rtc (link s) dir c -> ~ tc (link s) c c) -> NoDup l).
Proof.
  destruct (walk_blocks_ok s dir Hv Hd) as (s' & K & E & Q & Hv' & _ & Hval & Hcase). exists s', (chain_upto s dir K).
  split; [done |]. split; [done |]. split; [done |]. split; [done |]. split.
  { intros i c c'. rewrite !chain_lookup. destruct (decide (i <= K)%nat) as [H1 |], (decide (S i <= K)%nat) as [H2 |]; try done. intros [= <-] [= <-].
    split; [exact (Hval i H1) |]. split; [done | exact (Hval (S i) H2)]. }
  assert (Hin : forall c, c ∈ chain_upto s dir K <-> exists j, (j <= K)%nat /\ c = orbit s dir j).
  { intros c. rewrite list_elem_of_lookup. setoid_rewrite chain_lookup. split.
    - intros (i & Ei). destruct (decide (i <= K)%nat); [| done]. injection Ei as <-. by exists i.
    - intros (j & Hj & ->). exists j. by rewrite decide_True. }
  assert (Hlen : length (chain_upto s dir K) = S K) by (unfold chain_upto; by rewrite length_map, length_seq).
  assert (Hnd : forall p, (p <= S K)%nat -> (forall i j, (i < j < p)%nat -> orbit s dir i <> orbit s dir j) -> NoDup (map (fun j => orbit s dir j) (seq 0 p))).
  { intros p _ Hdist. apply NoDup_fmap_2_strong; [| apply NoDup_seq]. intros a b Ha%elem_of_seq Hb%elem_of_seq Eq.
    destruct (Nat.lt_trichotomy a b) as [Hlt | [-> | Hlt]]; [| done |]; exfalso; [apply (Hdist a b) | apply (Hdist b a)]; (lia || done). }
  split.
  { intros c. rewrite Hin. split.
    - intros (j & Hj & ->). apply orbit_reach. intros i Hi. apply Hval. lia.
    - intros (j & -> & Hj)%reach_orbit. destruct Hcase as [[Hn _] | (p & q & Hr & Hp & _)].
      + exists j. split; [| done]. destruct (Nat.le_gt_cases j K); [done |]. destruct Hn. apply Hj. lia.
      + destruct (rho_all _ _ p q j Hr) as (i & Hi & ->). exists i. split; [lia | done]. }
  assert (Hsub : forall p, (p <= S K)%nat -> map (fun j => orbit s dir j) (seq 0 p) ⊆ chain_upto s dir K).
  { intros p Hp c Hc. apply list_elem_of_In, in_map_iff in Hc as (j & <- & Hj%list_elem_of_In%elem_of_seq). apply Hin. exists j. split; [lia | done]. }
  split.
  - destruct Hcase as [[_ Hdist] | (p & q & Hr & Hp & _)].
    + exists (map (fun j => orbit s dir j) (seq 0 (S K))). split; [apply Hnd; [done |]; intros; apply Hdist; lia |]. split; [by apply Hsub |].
      rewrite Hlen, length_map, length_seq. lia.
    + exists (map (fun j => orbit s dir j) (seq 0 p)). split; [apply Hnd; [lia | apply Hr] |]. split; [apply Hsub; lia |].
      rewrite Hlen, length_map, length_seq. lia.
  - intros Hac. destruct Hcase as [[_ Hdist] | (p & q & Hr & _ & Hall)]; [apply Hnd; [done |]; intros; apply Hdist; lia |]. exfalso.
    pose proof Hr as [Hl He _]. apply (Hac (orbit s dir q)); [by apply orbit_reach; intros |].
    assert (Htc : forall n, tc (link s) (orbit s dir q) (orbit s dir (q + S n))).
    { induction n as [| n IH]; [apply tc_once | eapply tc_r; [exact IH |]]; rewrite ?Nat.add_succ_r, ?Nat.add_0_r; (split; [apply Hall |]; split; [done | apply Hall]). }
    specialize (Htc (p - q - 1)%nat). replace (q + S (p - q - 1))%nat with p in Htc by lia. by rewrite He in Htc.
Qed.
End Walk.

Lemma fat_dir_walk_exact_witness : vol_ok demo_loop /\ valid demo_loop 5 /\ exists s' l,
  walk_blocks demo_loop 5 = (s', map (cluster_block demo_loop) l) /\ vol_ok s' /\ head l = Some 5.
Proof.
  assert (Hd : valid demo_loop 5) by (split; vm_compute; [discriminate | reflexivity]). split; [exact demo_loop_ok |]. split; [exact Hd |].
  destruct (fat_dir_walk_exact demo_loop 5 demo_loop_ok Hd) as (s' & l & E & _ & Hv & Hh & _). exists s', l. split; [exact E |]. split; [exact Hv | exact Hh].
Defined.

(** On the chain 5, 6, 7, 6, 7, ... the walk has four visits. *)
Lemma demo_walk_visits : map db_cluster (snd (walk_blocks demo_loop 5)) = [5; 6; 7; 6].
Proof. vm_compute. done. Qed.
