(* ===== verification/FatLayout.v ===== *)
(** * FatLayout: the layout chosen by a format ([kernel/fat.c])

    The two nested iterations of [fat_format] settle for every capacity: the
    tables cover all clusters and the number of clusters lies in the range that
    makes the volume be recognised as the type that was asked for. *)

From S2P Require Import Prelude Disk Fat FatProps.

(** ** The layout without wrap-around *)

Definition fdz (want F : Z) : Z := fmt_reserved want + 2 * F + fmt_root_sectors want.
Definition cz (want total F : Z) : Z := if fdz want F <? total then (total - fdz want F) / fmt_spc want else 0.
Definition needz (want c : Z) : Z :=
  ((if want =? 12 then ((c + 2) * 3 + 1) / 2 else (c + 2) * (if want =? 16 then 2 else 4)) + 511) / 512.

Ltac fmt_types H := let E := fresh "Et" in destruct H as [E | [E | E]]; rewrite E in *; cbn [Z.eqb Pos.eqb negb] in *.

(** [ured] for bounds that need divisions. *)
Ltac ured_div :=
  repeat match goal with
  | |- context [u32 ?x] => rewrite (u32_small x) by (unfold is_u32 in *; Z.to_euclidean_division_equations; lia)
  end.

Lemma fmt_consts want : type_ok want -> 1 <= fmt_reserved want <= 32 /\ 0 <= fmt_root_sectors want <= 32 /\ 1 <= fmt_spc want <= 16 /\
  fmt_reserved want + fmt_root_sectors want <= 33.
Proof. intros H. unfold fmt_reserved, fmt_root_sectors, fmt_spc, fmt_root_entries. fmt_types H; vm_compute; repeat split; discriminate. Qed.

Lemma fd_nowrap want F : type_ok want -> 0 <= F <= 2 ^ 23 -> fmt_first_data want F = fdz want F.
Proof.
  intros Ht HF. destruct (fmt_consts want Ht) as (C1 & C2 & C3 & C4). unfold fmt_first_data, fdz.
  rewrite (u32_small (2 * F)) by (unfold is_u32; lia). rewrite (u32_small (_ + 2 * F)) by (unfold is_u32; lia). apply u32_small. unfold is_u32. lia.
Qed.

Lemma c_nowrap want total F : type_ok want -> 0 <= F <= 2 ^ 23 -> is_u32 total -> fmt_clusters want total F = cz want total F.
Proof.
  intros Ht HF Hu. destruct (fmt_consts want Ht) as (C1 & C2 & C3 & C4). unfold fmt_clusters, cz. rewrite fd_nowrap by done. unfold fdz, is_u32 in *.
  destruct (Z.ltb_spec (fmt_reserved want + 2 * F + fmt_root_sectors want) total); [| done]. by rewrite u32_small by (unfold is_u32; lia).
Qed.

Lemma cz_range want total F : type_ok want -> 0 <= F -> 0 <= total -> 0 <= cz want total F /\ cz want total F * fmt_spc want <= total.
Proof.
  intros Ht HF H0. destruct (fmt_consts want Ht) as (C1 & C2 & C3 & C4). unfold cz. destruct (Z.ltb_spec (fdz want F) total); [| lia].
  unfold fdz in *. split; [apply Z.div_pos; lia |]. pose proof (Z.mul_div_le (total - (fmt_reserved want + 2 * F + fmt_root_sectors want)) (fmt_spc want) ltac:(lia)). lia.
Qed.

(** The totals for which the size of a table is computed without wrap-around. *)
Definition sane (want total : Z) : Prop := 0 <= total < (if want =? 32 then 2 ^ 29 else 2 ^ 32).

Lemma need_nowrap want total F : type_ok want -> sane want total -> 0 <= F ->
  fmt_need want (cz want total F) = needz want (cz want total F) /\ 1 <= needz want (cz want total F) <= 2 ^ 23.
Proof.
  intros Ht Hs HF. unfold sane in Hs. pose proof (cz_range want total F Ht HF ltac:(destruct (want =? 32); lia)) as [C1 C2].
  set (c := cz want total F) in *. clearbody c. unfold fmt_need, needz, fmt_spc in *. fmt_types Ht; ured_div; Z.to_euclidean_division_equations; lia.
Qed.

Lemma cz_mono want total F G : type_ok want -> F <= G -> cz want total G <= cz want total F.
Proof.
  intros Ht HFG. destruct (fmt_consts want Ht) as (C1 & C2 & C3 & C4). unfold cz, fdz.
  destruct (Z.ltb_spec (fmt_reserved want + 2 * G + fmt_root_sectors want) total), (Z.ltb_spec (fmt_reserved want + 2 * F + fmt_root_sectors want) total); try lia.
  - apply Z.div_le_mono; lia.
  - apply Z.div_pos; lia.
Qed.

Lemma needz_mono want c d : type_ok want -> c <= d -> needz want c <= needz want d.
Proof. intros Ht Hcd. unfold needz. fmt_types Ht; Z.to_euclidean_division_equations; lia. Qed.

(** The inner iteration ends after at most two passes. *)
Lemma settle_ok want total : type_ok want -> sane want total ->
  let F := Z.max 1 (needz want (cz want total 1)) in
  fmt_settle 10 want total 1 0 0 = (F, fdz want F, cz want total F) /\ 1 <= F <= 2 ^ 23 /\ needz want (cz want total F) <= F.
Proof.
  intros Ht Hs F. assert (Hu : is_u32 total) by (unfold sane, is_u32 in *; destruct (want =? 32); lia).
  destruct (need_nowrap want total 1 Ht Hs ltac:(lia)) as [E1 R1].
  assert (HF : 1 <= F <= 2 ^ 23) by (unfold F; lia).
  destruct (need_nowrap want total F Ht Hs ltac:(lia)) as [E2 R2].
  assert (Hle : needz want (cz want total F) <= F).
  { etrans; [apply needz_mono; [done | apply (cz_mono want total 1 F); [done | lia]] |]. unfold F. lia. }
  split; [| done]. cbn [fmt_settle]. rewrite !fd_nowrap, !c_nowrap, E1 by (done || lia).
  destruct (Z.leb_spec (needz want (cz want total 1)) 1) as [Hn | Hn].
  - assert (EF : F = 1) by (unfold F; lia). by rewrite EF.
  - assert (EF : needz want (cz want total 1) = F) by (unfold F; lia). rewrite EF. rewrite !fd_nowrap, !c_nowrap, E2 by (done || lia).
    destruct (Z.leb_spec (needz want (cz want total F)) F); [done | lia].
Qed.

(** The volume cut to the greatest number of clusters behind tables of [G] sectors. *)
Definition cut (want G : Z) : Z := fdz want G + fmt_max want * fmt_spc want.

(** A good layout. *)
Record layout_ok (want avail total F : Z) : Prop := {
  ly_total : 0 < total <= avail;
  ly_F : 1 <= F <= 2 ^ 23;
  ly_max : cz want total F <= fmt_max want;
  ly_need : needz want (cz want total F) <= F;
  ly_size : F = Z.max 1 (needz want (cz want total 1));
  ly_cut : total = avail \/ cut want 1 <= total;
}.

(** Each round after a cut brings the size of the tables closer to its fixed point. *)
Definition next_size (want G : Z) : Z := Z.max 1 (needz want (fmt_max want + 2 * (G - 1) / fmt_spc want)).

Definition bound (want : Z) (n : nat) : Z :=
  nth n (if want =? 12 then [0; 19; 19000] else if want =? 16 then [0; 257; 533; 141845] else [0; 2130441; 2130504; 2134536; 2392584]) (2 ^ 23).

Lemma cut_sane want G : type_ok want -> 1 <= G <= 2 ^ 23 -> sane want (cut want G).
Proof. intros Ht HG. unfold sane, cut, fdz, fmt_reserved, fmt_root_sectors, fmt_root_entries, fmt_max, fmt_spc. fmt_types Ht; ured_div; Z.to_euclidean_division_equations; lia. Qed.

Lemma cz_cut want G F : type_ok want -> 0 <= G -> cz want (cut want G) F = if 0 <? fmt_max want * fmt_spc want + 2 * (G - F) then fmt_max want + 2 * (G - F) / fmt_spc want else 0.
Proof.
  intros Ht HG. destruct (fmt_consts want Ht) as (_ & _ & C3 & _). unfold cz, cut, fdz.
  destruct (Z.ltb_spec (fmt_reserved want + 2 * F + fmt_root_sectors want) (fmt_reserved want + 2 * G + fmt_root_sectors want + fmt_max want * fmt_spc want)),
    (Z.ltb_spec 0 (fmt_max want * fmt_spc want + 2 * (G - F))); try lia.
  replace (fmt_reserved want + 2 * G + fmt_root_sectors want + fmt_max want * fmt_spc want - (fmt_reserved want + 2 * F + fmt_root_sectors want))
    with (2 * (G - F) + fmt_max want * fmt_spc want) by lia. rewrite Z.div_add by lia. lia.
Qed.

Lemma next_size_bounds want G n : type_ok want -> (n <= 7)%nat -> 1 <= G <= bound want (S n) ->
  let F := next_size want G in 1 <= F <= 2 ^ 23 /\ (fmt_max want < fmt_max want + 2 * (G - F) / fmt_spc want -> (1 <= n)%nat /\ F <= bound want n).
Proof.
  intros Ht Hn HG F. unfold F, next_size, needz, bound, fmt_max, fmt_spc in *. clear F.
  do 8 (destruct n as [| n]; [fmt_types Ht; cbn [nth] in *; (split; [Z.to_euclidean_division_equations; lia | intros Hc; split; Z.to_euclidean_division_equations; lia]) |]). lia.
Qed.

Lemma cut_lt want F total : type_ok want -> 0 <= F -> fmt_max want < cz want total F -> cut want F < total.
Proof.
  intros Ht HF Hc. destruct (fmt_consts want Ht) as (C1 & C2 & C3 & C4). unfold cz, cut in *. destruct (Z.ltb_spec (fdz want F) total).
  - pose proof (Z.mul_div_le (total - fdz want F) (fmt_spc want) ltac:(lia)). nia.
  - unfold fmt_max in Hc. fmt_types Ht; lia.
Qed.

Lemma goal_eq want F : type_ok want -> 1 <= F <= 2 ^ 23 ->
  u64 (fdz want F + u64 (fmt_max want * fmt_spc want)) = cut want F /\ u32 (cut want F) = cut want F /\ 0 < cut want F.
Proof.
  intros Ht HF. destruct (fmt_consts want Ht) as (C1 & C2 & C3 & C4).
  assert (HM : 0 < fmt_max want * fmt_spc want <= 2 ^ 28) by (unfold fmt_max, fmt_spc; fmt_types Ht; lia).
  assert (Hs : forall x, 0 <= x < 2 ^ 64 -> u64 x = x) by (intros; by apply Z.mod_small). unfold cut, fdz.
  rewrite (Hs (fmt_max want * fmt_spc want)), Hs, u32_small by (unfold is_u32; lia). lia.
Qed.

Lemma rounds_step n want avail total : type_ok want -> sane want total -> 0 < total <= avail -> total = avail \/ cut want 1 <= total ->
  let F := Z.max 1 (needz want (cz want total 1)) in
  (forall F, 1 <= F <= 2 ^ 23 -> F = Z.max 1 (needz want (cz want total 1)) -> fmt_max want < cz want total F -> cut want F < total ->
     exists t f, fmt_rounds n want (cut want F) 1 = (t, f) /\ layout_ok want avail t f) ->
  exists t f, fmt_rounds (S n) want total 1 = (t, f) /\ layout_ok want avail t f.
Proof.
  intros Ht Hs Htot Hcut F Hnext. cbn [fmt_rounds]. destruct (settle_ok want total Ht Hs) as (E & HF & Hneed). fold F in E, HF, Hneed. rewrite E.
  destruct (Z.leb_spec (cz want total F) (fmt_max want)) as [Hc | Hc].
  - exists total, F. split; [done |]. by constructor.
  - pose proof (cut_lt want F total Ht ltac:(lia) Hc) as Hlt. destruct (goal_eq want F Ht HF) as (E1 & E2 & E3). rewrite E1, E2.
    destruct (Z.leb_spec total (cut want F)); [lia |]. apply Hnext; [done | done | done | done].
Qed.

Lemma rounds_cut n : forall want avail G, type_ok want -> (n <= 7)%nat -> 1 <= G <= bound want n -> 0 < cut want G <= avail -> G <= 2 ^ 23 ->
  exists t f, fmt_rounds n want (cut want G) 1 = (t, f) /\ layout_ok want avail t f.
Proof.
  induction n as [| n IH]; intros want avail G Ht Hn HG Hcut Hmax.
  - unfold bound in HG. fmt_types Ht; cbn [nth] in HG; lia.
  - apply rounds_step; [done | apply cut_sane; [done | lia] | done | right; unfold cut, fdz; lia |]. intros F HF EF Hc Hlt.
    assert (EN : F = next_size want G).
    { rewrite EF. unfold next_size. rewrite cz_cut by (done || lia). f_equal. f_equal. destruct (fmt_consts want Ht) as (_ & _ & C3 & _).
      destruct (Z.ltb_spec 0 (fmt_max want * fmt_spc want + 2 * (G - 1))); [done |]. unfold fmt_max in *. fmt_types Ht; lia. }
    destruct (next_size_bounds want G n Ht ltac:(lia) HG) as [_ Hb]. rewrite <- EN in Hb.
    rewrite cz_cut in Hc by (done || lia). destruct (Z.ltb_spec 0 (fmt_max want * fmt_spc want + 2 * (G - F))); [| unfold fmt_max in Hc; fmt_types Ht; lia].
    destruct (Hb Hc) as [H1 H2]. apply IH; try done; [lia | lia | | lia]. destruct (goal_eq want F Ht HF) as (_ & _ & ?). lia.
Qed.

(** FAT32 on a disk of 256 GB or more: the sizes of the first round may wrap, but
    the volume is cut afterwards. *)
Lemma settle_big n : forall total F fd c, 2 ^ 29 <= total < 2 ^ 32 -> 1 <= F <= 2 ^ 23 -> (1 <= n)%nat ->
  exists F' G, fmt_settle n 32 total F fd c = (F', fdz 32 G, cz 32 total G) /\ 1 <= G <= 2 ^ 23.
Proof.
  induction n as [| n IH]; intros total F fd c Ht HF Hn; [lia |]. cbn [fmt_settle]. assert (Hty : type_ok 32) by (by right; right).
  rewrite fd_nowrap, c_nowrap by (done || unfold is_u32; lia).
  set (need := fmt_need 32 (cz 32 total F)). assert (Hneed : need <= 2 ^ 23).
  { unfold need, fmt_need. cbn [Z.eqb Pos.eqb]. pose proof (u32_range (u32 ((cz 32 total F +! 2) * 4) + 511)) as H. unfold is_u32 in H. Z.to_euclidean_division_equations; lia. }
  destruct (Z.leb_spec need F); [by exists F, F |]. destruct n as [| n]; [by exists need, F |]. apply IH; lia.
Qed.

Lemma rounds_ok want avail : type_ok want -> 0 < avail < 2 ^ 32 -> exists t f, fmt_rounds 8 want avail 1 = (t, f) /\ layout_ok want avail t f.
Proof.
  intros Ht Ha. assert (Hb7 : bound want 7 = 2 ^ 23) by (unfold bound; fmt_types Ht; done).
  assert (Hcase : sane want avail \/ (want = 32 /\ 2 ^ 29 <= avail)) by (unfold sane; fmt_types Ht; lia).
  destruct Hcase as [Hs | [-> Hbig]].
  - apply rounds_step; [done | done | lia | by left |]. intros F HF _ _ Hlt. destruct (goal_eq want F Ht HF) as (_ & _ & ?). apply rounds_cut; (done || lia).
  - change (fmt_rounds 8 32 avail 1) with
      (let '(fat_size, first_data, clusters) := fmt_settle 10 32 avail 1 0 0 in
       if clusters <=? fmt_max 32 then (avail, fat_size)
       else let goal := u64 (first_data + u64 (fmt_max 32 * fmt_spc 32)) in if avail <=? goal then (avail, fat_size) else fmt_rounds 7 32 (u32 goal) 1).
    destruct (settle_big 10 avail 1 0 0 ltac:(lia) ltac:(lia) ltac:(lia)) as (F' & G & -> & HG).
    assert (Hc : fmt_max 32 < cz 32 avail G).
    { unfold cz, fdz, fmt_reserved, fmt_root_sectors, fmt_root_entries, fmt_spc, fmt_max. cbn [Z.eqb Pos.eqb]. ured_div.
      destruct (Z.ltb_spec (32 + 2 * G + (0 * 32 + 511) / 512) avail); Z.to_euclidean_division_equations; lia. }
    destruct (Z.leb_spec (cz 32 avail G) (fmt_max 32)); [lia |]. pose proof (cut_lt 32 G avail Ht ltac:(lia) Hc) as Hlt.
    destruct (goal_eq 32 G Ht HG) as (E1 & E2 & E3). cbv zeta. rewrite E1, E2. destruct (Z.leb_spec avail (cut 32 G)); [lia |]. apply rounds_cut; (done || lia).
Qed.

(** The number of sectors from which on a volume of the type can be made. *)
Definition fmt_least (want : Z) : Z := if want =? 12 then 291 else if want =? 16 then 16405 else 66599.

Lemma layout_least want avail total F : type_ok want -> layout_ok want avail total F -> fmt_min want <= cz want total F <-> fmt_least want <= avail.
Proof.
  intros Ht [H1 H2 _ _ H5 H6].
  assert (Hl : fmt_min want <= cz want total F <-> fmt_least want <= total).
  { clear H6. unfold cz, needz, fmt_least, fmt_min, fmt_spc, fdz, fmt_reserved, fmt_root_sectors, fmt_root_entries in *.
    fmt_types Ht; change (u32 (u32 (512 * 32) + 511) / 512) with 32 in *; change (u32 (u32 (0 * 32) + 511) / 512) with 0 in *;
      repeat match goal with |- context [?a <? ?b] => destruct (Z.ltb_spec a b) | H : context [?a <? ?b] |- _ => destruct (Z.ltb_spec a b) end;
      Z.to_euclidean_division_equations; lia. }
  rewrite Hl. destruct H6 as [-> | H6]; [done |]. split; [lia |]. intros _. etrans; [| exact H6]. unfold fmt_least, cut, fdz. fmt_types Ht; vm_compute; discriminate.
Qed.

(** The tables of FAT12 and FAT16 are small. *)
Lemma layout_small want avail total F : type_ok want -> layout_ok want avail total F -> want <> 32 -> F <= 258.
Proof.
  intros Ht [H1 H2 H3 H4 H5 _] Hn. unfold cz, needz, fmt_max, fmt_spc in *. clear H4. 
  assert (Hfd : fdz want F = fdz want 1 + 2 * (F - 1)) by (unfold fdz; lia). rewrite Hfd in H3. clear Hfd. remember (fdz want 1) as d eqn:Ed. clear Ed.
  fmt_types Ht; [| | done]; destruct (Z.ltb_spec d total), (Z.ltb_spec (d + 2 * (F - 1)) total); Z.to_euclidean_division_equations; lia.
Qed.

(** ** The boot sector *)

Lemma boot_bytes want part total F : type_ok want -> length (fmt_boot want part total F) = 512%nat /\ Forall is_u8 (fmt_boot want part total F).
Proof.
  intros Ht. assert (H8 : forall l, forallb (fun x => (0 <=? x) && (x <? 256)) l = true -> Forall is_u8 l).
  { intros l Hl. rewrite forallb_forall in Hl. apply Forall_forall. intros x Hx%list_elem_of_In. specialize (Hl x Hx). unfold is_u8. lia. }
  assert (Hp16 : forall l i v, Forall is_u8 l -> Forall is_u8 (put16le l i v)) by (intros; unfold put16le; repeat apply Forall_aset; try done; apply byte_u8).
  assert (Hp32 : forall l i v, Forall is_u8 l -> Forall is_u8 (put32le l i v)) by (intros; unfold put32le; auto).
  split.
  - unfold fmt_boot, put32le, put16le. fmt_types Ht; destruct (total <? 65536), (65536 <=? total); reflexivity.
  - unfold fmt_boot, put_bytes. fmt_types Ht; destruct (total <? 65536), (65536 <=? total);
      repeat first [apply Hp16 | apply Hp32 | apply Forall_splice | apply Forall_aset | apply H8; reflexivity | done].
Qed.

(** The sector is an explicit list once the sizes are compared with 65536. *)
Ltac boot_eval :=
  unfold fmt_boot, put32le, put16le;
  match goal with Ht : type_ok _ |- _ => fmt_types Ht | _ => idtac end;
  repeat match goal with |- context [if ?x <? 65536 then _ else _] => destruct (x <? 65536) | |- context [if 65536 <=? ?x then _ else _] => destruct (65536 <=? x) end;
  split_and?; reflexivity.

Record boot_read (want part total F : Z) (b : list Z) : Prop := {
  br_sig : aget 0 b 510 = 0x55 /\ aget 0 b 511 = 0xAA /\ aget 0 b 0 = 0xEB /\ aget 0 b 21 = 0xF8;
  br_oem : has_bytes b 3 (bytes "EXFAT") = false /\ has_bytes b 3 (bytes "NTFS") = false;
  br_bps : le16 b 11 = 512;
  br_spc : aget 0 b 13 = fmt_spc want;
  br_reserved : le16 b 14 = fmt_reserved want;
  br_nfats : aget 0 b 16 = 2;
  br_root : le16 b 17 = fmt_root_entries want;
  br_total : bpb_total b = total;
  br_size16 : le16 b 22 = if want =? 32 then 0 else F;
  br_size : bpb_fat_size b = F;
  br_cluster : want = 32 -> le32 b 44 = 2;
}.

Lemma boot_fields want part total F : type_ok want -> 0 < total < 2 ^ 32 -> 0 < F < 2 ^ 32 -> (want <> 32 -> F < 2 ^ 16) ->
  boot_read want part total F (fmt_boot want part total F).
Proof.
  intros Ht Htot HF HF16. destruct (boot_bytes want part total F Ht) as [_ Hu].
  pose proof (join32 total ltac:(unfold is_u32; lia)) as J32. pose proof (join32 F ltac:(unfold is_u32; lia)) as K32.
  assert (T32 : le32 (fmt_boot want part total F) 32 = if 0x10000 <=? total then total else 0).
  { rewrite le32_val by done. unfold fmt_boot, put32le, put16le. destruct (Z.leb_spec 65536 total); [etrans; [| exact J32] |]; boot_eval. }
  assert (T16 : le16 (fmt_boot want part total F) 19 = if total <? 0x10000 then total else 0).
  { rewrite le16_val by done. unfold fmt_boot, put32le, put16le. destruct (Z.ltb_spec total 65536); [etrans; [| apply (join16 total); unfold is_u16; lia] |]; boot_eval. }
  assert (S16 : le16 (fmt_boot want part total F) 22 = if want =? 32 then 0 else F).
  { rewrite le16_val by done. unfold fmt_boot, put32le, put16le. fmt_types Ht; [etrans; [| apply (join16 F); unfold is_u16; lia].. |]; boot_eval. }
  assert (S32 : want = 32 -> le32 (fmt_boot want part total F) 36 = F).
  { intros ->. rewrite le32_val by done. unfold fmt_boot, put32le, put16le. etrans; [| exact K32]. boot_eval. }
  constructor; [.. | | exact S16 | |]; try boot_eval.
  - unfold bpb_total. rewrite T16, T32. destruct (Z.ltb_spec total 65536), (Z.leb_spec 65536 total); try lia; cbn [Z.eqb]; [| done].
    destruct (Z.eqb_spec total 0); [lia | done].
  - unfold bpb_fat_size. rewrite S16. fmt_types Ht; [destruct (Z.eqb_spec F 0); [lia | done].. | by apply S32].
  - intros ->. boot_eval.
Qed.

(** The mounting code reads the sector into a longer buffer. *)
Lemma boot_read_app want part total F b z : length b = 512%nat -> boot_read want part total F b -> boot_read want part total F (b ++ z).
Proof.
  intros Hl [H1 H2 H3 H4 H5 H6 H7 H8 H9 H10 H11].
  assert (Ha : forall i, 0 <= i < 512 -> aget 0 (b ++ z) i = aget 0 b i) by (intros i Hi; unfold aget; apply app_nth1; lia).
  assert (H16 : forall i, 0 <= i < 511 -> le16 (b ++ z) i = le16 b i) by (intros i Hi; unfold le16; by rewrite !Ha by lia).
  assert (H32 : forall i, 0 <= i < 509 -> le32 (b ++ z) i = le32 b i) by (intros i Hi; unfold le32; by rewrite !Ha by lia).
  assert (Hs : forall l, (length l <= 100)%nat -> has_bytes (b ++ z) 3 l = has_bytes b 3 l).
  { intros l Hlen. unfold has_bytes, slice. rewrite drop_app_le, take_app_le by (rewrite ?length_drop; lia). done. }
  constructor; unfold bpb_total, bpb_fat_size in *; rewrite ?Ha, ?H16, ?H32, ?Hs by (cbn; lia); done.
Qed.

Definition fmt_info_of (want total F : Z) : fat_info_t :=
  mk_fi 512 (fmt_spc want) (fmt_reserved want) 2 (fmt_root_entries want) total F (if want =? 32 then 2 else 0)
    (fdz want F) (cz want total F) (fmt_reserved want + 2 * F) (fmt_root_sectors want).

Lemma root_sectors_eq want : type_ok want -> (fmt_root_entries want *! 32 +! 512 -! 1) / 512 = fmt_root_sectors want.
Proof. intros Ht. fmt_types Ht; reflexivity. Qed.

Lemma spc_power want : type_ok want -> fmt_spc want &! (fmt_spc want -! 1) = 0.
Proof. intros Ht. fmt_types Ht; reflexivity. Qed.

Lemma has_clusters want total F : type_ok want -> fmt_min want <= cz want total F -> fdz want F < total /\ cz want total F = (total - fdz want F) / fmt_spc want.
Proof.
  intros Ht. unfold cz. destruct (Z.ltb_spec (fdz want F) total); [done |]. unfold fmt_min. fmt_types Ht; lia.
Qed.

Lemma info_boot want part avail total F b : type_ok want -> boot_read want part total F b -> layout_ok want avail total F -> avail < 2 ^ 32 ->
  fmt_min want <= cz want total F -> info_of b want = fmt_info_of want total F.
Proof.
  intros Ht [H1 H2 H3 H4 H5 H6 H7 H8 H9 H10 H11] [L1 L2 L3 L4 _ _] Ha Hmin. destruct (fmt_consts want Ht) as (C1 & C2 & C3 & C4).
  destruct (has_clusters want total F Ht Hmin) as [Hlt Ec]. unfold info_of. rewrite H3, H4, H5, H6, H7, H8, H10, root_sectors_eq by done.
  assert (Efd : fmt_reserved want +! 2 *! F +! fmt_root_sectors want = fdz want F) by (by apply fd_nowrap; [| lia]).
  rewrite Efd. rewrite (u32_small (total - fdz want F)) by (unfold is_u32, fdz in *; lia). rewrite <- Ec.
  rewrite (u32_small (2 * F)) by (unfold is_u32; lia). rewrite (u32_small (fmt_reserved want + 2 * F)) by (unfold is_u32; lia).
  unfold fmt_info_of. f_equal. destruct (Z.eqb_spec want 32) as [E |]; [by apply H11 | done].
Qed.

(** A formatted volume is recognised as the type that was asked for. *)
Lemma probe_boot want part avail total F b : type_ok want -> boot_read want part total F b -> layout_ok want avail total F -> avail < 2 ^ 32 ->
  fmt_min want <= cz want total F -> fat_probe b = want.
Proof.
  intros Ht [(H1 & H1b & H1c & H1d) [H2 H2b] H3 H4 H5 H6 H7 H8 H9 H10 H11] [L1 L2 L3 L4 _ _] Ha Hmin. destruct (fmt_consts want Ht) as (C1 & C2 & C3 & C4).
  destruct (has_clusters want total F Ht Hmin) as [Hlt Ec]. unfold fat_probe. rewrite H1, H1b, H1c, H1d, H2, H2b, H3, H4, H5, H6, H7, H8, H10, root_sectors_eq, spc_power by done.
  cbn [negb Z.eqb Pos.eqb orb andb Z.ltb Z.compare Pos.compare Pos.compare_cont]. change (sector_size_ok 512) with true. cbn [negb].
  assert (Efd : fmt_reserved want +! 2 *! F +! fmt_root_sectors want = fdz want F) by (by apply fd_nowrap; [| lia]).
  rewrite Efd. rewrite (u32_small (total - fdz want F)) by (unfold is_u32, fdz in *; lia). rewrite <- Ec.
  rewrite (proj2 (Z.eqb_neq (fmt_spc want) 0)), (proj2 (Z.eqb_neq (fmt_reserved want) 0)), (proj2 (Z.eqb_neq total 0)), (proj2 (Z.eqb_neq F 0)) by lia. cbn [orb negb].
  destruct (Z.leb_spec total (fdz want F)); [lia |]. rewrite H9. set (c := cz want total F) in *. clearbody c.
  unfold fmt_min, fmt_max, fmt_root_entries in *. fmt_types Ht.
  - destruct (Z.ltb_spec c 2), (Z.ltb_spec c 4085); (done || lia).
  - destruct (Z.ltb_spec c 2), (Z.ltb_spec c 4085), (Z.ltb_spec c 65525); (done || lia).
  - rewrite (H11 eq_refl). destruct (Z.ltb_spec c 2), (Z.ltb_spec c 4085), (Z.ltb_spec c 65525); try lia. cbn [negb Z.eqb orb].
    rewrite u32_small by (unfold is_u32; lia). destruct (Z.leb_spec (c + 2) 2); [lia |]. done.
Qed.

(** The geometry is that of a well-formed volume. *)
Lemma fmt_geo want avail total F part : type_ok want -> layout_ok want avail total F -> fmt_min want <= cz want total F ->
  0 <= part -> part + avail <= 2 ^ 32 -> avail < 2 ^ 32 - 1 -> geo_ok (fmt_info_of want total F) want part.
Proof.
  intros Ht [L1 L2 L3 L4 _ _] Hmin Hp Ha Hb. destruct (fmt_consts want Ht) as (C1 & C2 & C3 & C4). destruct (has_clusters want total F Ht Hmin) as [Hlt Ec].
  assert (Hm : fmt_max want = max_count want) by (unfold fmt_max, max_count; fmt_types Ht; done).
  pose proof (Z.mul_div_le (total - fdz want F) (fmt_spc want) ltac:(lia)) as Hle. rewrite <- Ec in Hle.
  constructor; cbn [fmt_info_of bytes_per_sector sectors_per_cluster reserved_sectors num_fats cluster_count fat_sectors root_dir_sector root_dir_sectors
    first_data_sector total_sectors]; try done; try lia.
  - rewrite <- Hm. split; [| done]. unfold fmt_min in Hmin. fmt_types Ht; lia.
  - unfold place, width, needz in *. set (c := cz want total F) in *. clearbody c. fmt_types Ht; Z.to_euclidean_division_equations; lia.
Qed.
