(* ===== verification/FatFormat.v ===== *)
(** * FatFormat: formatting and mounting a disk ([kernel/fat.c])

    The writes of [fat_format] one after the other, and the mount that follows:
    on every disk that works the volume is recognised, well-formed and empty. *)

From S2P Require Import Prelude Disk Fat FatProps FatLayout.

(** ** The written disk *)

Section Format.
Context {D : Type} `{BD : BlockDev D}.
Implicit Types s : fatfs D.

Lemma run_writes_ok ws : forall (d : D) drive, Forall (fun w => usable d drive (fst w) /\ is_sector (snd w)) ws ->
  exists d', run_writes d drive ws = (d', true) /\ (forall v l, usable d' v l <-> usable d v l) /\ (forall v, ata_capacity d' v = ata_capacity d v) /\
    (forall v l, v <> drive \/ l ∉ ws.*1 -> sector d' v l = sector d v l) /\ (NoDup (ws.*1) -> forall l b, (l, b) ∈ ws -> sector d' drive l = b).
Proof.
  induction ws as [| [l b] ws IH]; intros d drive Hws; cbn [run_writes].
  - exists d. do 4 (split; [done |]). by intros _ l b Hin%elem_of_nil.
  - apply Forall_cons in Hws as [[Hu Hb] Hws]. cbn [fst snd] in Hu, Hb.
    pose proof (write_usable d drive l b Hu) as Hw. pose proof (write_sound d drive l b Hb) as Hs. pose proof (write_keeps d drive l b) as Hk. cbv zeta in Hk.
    destruct (ata_write_sector d drive l b) as [d1 ok]. cbn [fst snd] in *. subst ok. specialize (Hs eq_refl).
    destruct (IH d1 drive) as (d' & E & U & C & O & N).
    { eapply Forall_impl; [exact Hws |]. intros [l' b'] [H1 H2]. split; [by apply Hk | done]. }
    exists d'. split; [done |]. split; [intros v k; rewrite U; apply Hk |]. split; [intros v; rewrite C; apply (Hk v 0) |]. split.
    + intros v k Hn. rewrite O; [apply Hk; intros [= -> ->]; destruct Hn as [Hn | Hn]; [done | apply Hn; left] |].
      destruct Hn as [Hn | Hn]; [by left | right]. intros Hin. apply Hn. by right.
    + intros [Hni Hnd]%NoDup_cons k c [[= -> ->] | Hin]%elem_of_cons; [by rewrite O by (by right) | by apply N].
Qed.

(** ** The writes without wrap-around *)

Definition fmt_tail (want : Z) : Z := if want =? 32 then fmt_spc want else fmt_root_sectors want.
Definition zeros_from (lba n : Z) : list (Z * list Z) := map (fun l => (l, zero_sector)) (seqZ lba n).
Definition fmt_head (want part total F : Z) : list (Z * list Z) :=
  let boot := fmt_boot want part total F in
  let info := fmt_info (cz want total F) in
  [(0, fmt_mbr want part total); (part, boot)] ++ (if want =? 32 then [(part + 1, info); (part + 6, boot); (part + 7, info)] else []).
Definition fmt_plan (want part total F : Z) : list (Z * list Z) :=
  let base := part + fmt_reserved want in
  fmt_head want part total F ++ ((base, fmt_table want) :: zeros_from (base + 1) (F - 1)) ++
    ((base + F, fmt_table want) :: zeros_from (base + F + 1) (F - 1)) ++ zeros_from (base + 2 * F) (fmt_tail want).

Lemma zeros_run base i n : 0 <= base -> 0 <= i -> base + i + n <= 2 ^ 32 -> map (fun k => (base +! k, zero_sector)) (seqZ i n) = zeros_from (base + i) n.
Proof.
  intros Hb Hi Hn. unfold zeros_from. pose proof (seqZ_shift i base n) as E. rewrite <- E, map_map. apply map_ext_in.
  intros k Hk%list_elem_of_In%elem_of_seqZ. by rewrite u32_small by (unfold is_u32; lia).
Qed.

Lemma fmt_plan_eq want part avail total F : type_ok want -> layout_ok want avail total F -> fmt_min want <= cz want total F -> 0 <= part ->
  part + avail <= 2 ^ 32 -> avail < 2 ^ 32 -> fmt_writes want part total F = fmt_plan want part total F.
Proof.
  intros Ht [L1 L2 L3 L4 _ _] Hmin Hp Ha Hav. destruct (fmt_consts want Ht) as (C1 & C2 & C3 & C4). destruct (has_clusters want total F Ht Hmin) as [Hlt Ec].
  assert (Hspc : fmt_spc want <= total - fdz want F).
  { pose proof (Z.mul_div_le (total - fdz want F) (fmt_spc want) ltac:(lia)) as H. rewrite <- Ec in H. unfold fmt_min in Hmin. fmt_types Ht; nia. }
  unfold fmt_writes, fmt_plan, fmt_head. rewrite fd_nowrap, c_nowrap by (done || unfold is_u32; lia). unfold fdz in *. rewrite <- app_assoc.
  rewrite (u32_small (part + fmt_reserved want)), (u32_small (0 * F)), (u32_small (1 * F)), (u32_small (2 * F)) by (unfold is_u32; lia).
  rewrite (u32_small (part + fmt_reserved want + 0 * F)), (u32_small (part + fmt_reserved want + 1 * F)), (u32_small (part + fmt_reserved want + 2 * F)) by (unfold is_u32; lia).
  rewrite Z.mul_0_l, Z.mul_1_l, Z.add_0_r, !(zeros_run _ 1) by lia. f_equal. f_equal.
  - fmt_types Ht; [done | done |]. change (fmt_reserved 32) with 32 in *. ured. done.
  - do 2 f_equal. unfold zeros_at, fmt_tail. destruct (Z.eqb_spec want 32) as [E |].
    + assert (E0 : fmt_root_sectors want = 0) by (by rewrite E). rewrite E0, Z.add_0_r, u32_small by (unfold is_u32; lia).
      rewrite Z.add_assoc, (zeros_run _ 0), Z.add_0_r by lia. done.
    + rewrite (zeros_run _ 0), Z.add_0_r by lia. done.
Qed.

Lemma fst_zeros lba n : (zeros_from lba n).*1 = seqZ lba n.
Proof. unfold zeros_from. change (map ?f ?l).*1 with (map fst (map f l)). rewrite map_map. cbn [fst]. apply map_id. Qed.

Lemma fst_table lba n b : 1 <= n -> ((lba, b) :: zeros_from (lba + 1) (n - 1)).*1 = seqZ lba n.
Proof. intros Hn. rewrite fmap_cons, fst_zeros, (seqZ_cons lba n) by lia. cbn [fst]. f_equal; f_equal; lia. Qed.

Lemma plan_lbas want part total F : 1 <= F -> (fmt_plan want part total F).*1 =
  ([0; part] ++ if want =? 32 then [part + 1; part + 6; part + 7] else []) ++ seqZ (part + fmt_reserved want) F ++
  seqZ (part + fmt_reserved want + F) F ++ seqZ (part + fmt_reserved want + 2 * F) (fmt_tail want).
Proof.
  intros HF. unfold fmt_plan, fmt_head. rewrite !fmap_app, !fst_table, fst_zeros by done. cbn [fmap list_fmap fst]. by destruct (want =? 32).
Qed.

Lemma head_lbas want part l : type_ok want -> l ∈ ([0; part] ++ if want =? 32 then [part + 1; part + 6; part + 7] else []) ->
  l = 0 \/ part <= l < part + fmt_reserved want.
Proof.
  intros Ht. fmt_types Ht; cbn [app]; rewrite !elem_of_cons, elem_of_nil;
    change (fmt_reserved 12) with 1; change (fmt_reserved 16) with 1; change (fmt_reserved 32) with 32; lia.
Qed.

Lemma plan_nodup want part total F : type_ok want -> 1 <= F -> 1 <= part -> NoDup (fmt_plan want part total F).*1.
Proof.
  intros Ht HF Hp. destruct (fmt_consts want Ht) as (C1 & C2 & C3 & C4). rewrite plan_lbas by done.
  pose proof (fun l => head_lbas want part l Ht) as Hh.
  assert (Hn : NoDup ([0; part] ++ if want =? 32 then [part + 1; part + 6; part + 7] else [])).
  { destruct (want =? 32); cbn [app]; rewrite !NoDup_cons, !elem_of_cons, !elem_of_nil; (split_and?; try apply NoDup_nil_2; lia). }
  set (h := [0; part] ++ _) in *. clearbody h. rewrite !NoDup_app. split_and?; try apply NoDup_seqZ; try done.
  - intros l Hl. apply Hh in Hl. rewrite !elem_of_app, !elem_of_seqZ. lia.
  - intros l. rewrite !elem_of_app, !elem_of_seqZ. lia.
  - intros l. rewrite !elem_of_seqZ. lia.
Qed.

Lemma zeros_elem lba n l : lba <= l < lba + n -> (l, zero_sector) ∈ zeros_from lba n.
Proof. intros Hl. unfold zeros_from. apply list_elem_of_In, in_map_iff. exists l. split; [done |]. by apply list_elem_of_In, elem_of_seqZ. Qed.

Lemma plan_table want part total F k : 0 <= k < F ->
  (part + fmt_reserved want + k, if k =? 0 then fmt_table want else zero_sector) ∈ fmt_plan want part total F.
Proof.
  intros Hk. unfold fmt_plan. rewrite !elem_of_app. right. left. destruct (Z.eqb_spec k 0) as [-> |].
  - rewrite Z.add_0_r. left.
  - right. apply zeros_elem. lia.
Qed.

Lemma plan_tail want part total F k : 0 <= k < fmt_tail want -> (part + fmt_reserved want + 2 * F + k, zero_sector) ∈ fmt_plan want part total F.
Proof. intros Hk. unfold fmt_plan. rewrite !elem_of_app. do 3 right. apply zeros_elem. lia. Qed.

Lemma plan_boot want part total F : (part, fmt_boot want part total F) ∈ fmt_plan want part total F.
Proof. unfold fmt_plan, fmt_head. rewrite !elem_of_app. do 2 left. right. left. Qed.

Lemma zero_is_sector : is_sector zero_sector.
Proof. split; [done |]. by apply Forall_replicate. Qed.

Lemma small_sectors want part total c : type_ok want -> is_sector (fmt_mbr want part total) /\ is_sector (fmt_info c) /\ is_sector (fmt_table want).
Proof.
  intros Ht. assert (H0 : Forall is_u8 (replicate 512 0)) by apply zero_is_sector.
  assert (H8 : forall l, forallb (fun x => (0 <=? x) && (x <? 256)) l = true -> Forall is_u8 l).
  { intros l Hl. rewrite forallb_forall in Hl. apply Forall_forall. intros x Hx%list_elem_of_In. specialize (Hl x Hx). unfold is_u8. lia. }
  assert (Hp : forall l i v, Forall is_u8 l -> Forall is_u8 (put32le l i v)) by (intros; unfold put32le, put16le; repeat apply Forall_aset; try done; apply byte_u8).
  assert (Hi : is_sector (fmt_info c)).
  { split; [reflexivity |]. unfold fmt_info, put_bytes. repeat first [apply Hp | apply Forall_splice | done | apply H8; reflexivity]. }
  destruct Ht as [-> | [-> | ->]]; (split_and!; [| done |]); (split; [reflexivity |]); unfold fmt_mbr, fmt_table, put_bytes; cbn [Z.eqb Pos.eqb];
    repeat first [apply Hp | apply Forall_splice | done | apply H8; reflexivity].
Qed.

(** ** The mount of a written volume *)

Record formatted (d : D) (drive want part total F : Z) : Prop := {
  fo_boot : sector d drive part = fmt_boot want part total F;
  fo_table : forall k, 0 <= k < F -> sector d drive (part + fmt_reserved want + k) = if k =? 0 then fmt_table want else zero_sector;
  fo_tail : forall k, 0 <= k < fmt_tail want -> sector d drive (part + fmt_reserved want + 2 * F + k) = zero_sector;
}.

(** The first sector of a table: three or four bytes, and the entry of the root
    directory of FAT32. *)
Lemma table_bytes want o : type_ok want -> 0 <= o < 512 ->
  aget 0 (fmt_table want) o = if want =? 12 then aget 0 [0xF8; 0xFF; 0xFF] o else if want =? 16 then aget 0 [0xF8; 0xFF; 0xFF; 0xFF] o
    else aget 0 [0xF8; 0xFF; 0xFF; 0x0F; 0xFF; 0xFF; 0xFF; 0x0F; 0xFF; 0xFF; 0xFF; 0x0F] o.
Proof.
  intros Ht Ho. assert (Hc : forall f g : Z -> Z, forallb (fun i => f i =? g i) (seqZ 0 512) = true -> f o = g o).
  { intros f g H. rewrite forallb_forall in H. apply Z.eqb_eq, H, list_elem_of_In, elem_of_seqZ. lia. }
  fmt_types Ht; apply (Hc (fun i => aget 0 (fmt_table _) i) (fun i => aget 0 _ i)); vm_compute; reflexivity.
Qed.

Lemma aget_past {A} (d : A) l i : Z.of_nat (length l) <= i -> aget d l i = d.
Proof. intros H. unfold aget. apply nth_overflow. lia. Qed.

Lemma aget_zeros n i : aget 0 (replicate n 0) i = 0.
Proof. unfold aget. rewrite nth_lookup. destruct (replicate n 0 !! Z.to_nat i) eqn:E; [| done]. by apply lookup_replicate in E as [-> _]. Qed.

(** The byte [o] of the first table. *)
Lemma formatted_byte s want part total F o : type_ok want -> fi s = fmt_info_of want total F -> fat_part_start s = part ->
  formatted (disk s) (fat_drive s) want part total F -> 3 <= o < 512 * F -> (if want =? 32 then 12 else 4) <= o \/ want = 12 -> fat_byte s o = 0.
Proof.
  intros Ht Ef Ep [_ H _] Ho Hcase. unfold fat_byte, vsec. rewrite Ef, Ep. cbn [fmt_info_of reserved_sectors].
  rewrite Z.add_assoc, H by (Z.to_euclidean_division_equations; lia). destruct (Z.eqb_spec (o / 512) 0) as [E |].
  - rewrite Z.mod_small by (Z.to_euclidean_division_equations; lia). assert (o < 512) by (Z.to_euclidean_division_equations; lia).
    rewrite table_bytes by (done || lia). fmt_types Ht; apply aget_past; cbn [length]; lia.
  - apply aget_zeros.
Qed.

Lemma formatted_entry s want part total F n : type_ok want -> fat_type s = want -> fi s = fmt_info_of want total F -> fat_part_start s = part ->
  formatted (disk s) (fat_drive s) want part total F -> needz want (cz want total F) <= F -> valid s n ->
  fat_at s n = if (want =? 32) && (n =? 2) then 0x0FFFFFFF else 0.
Proof.
  intros Ht Et Ef Ep Hf Hneed Hn. unfold fat_at, decode_bytes. rewrite Et. unfold valid in Hn. rewrite Ef in Hn. cbn [fmt_info_of cluster_count] in Hn.
  pose proof (fun o => formatted_byte s want part total F o Ht Ef Ep Hf) as HB. unfold needz in Hneed. set (c := cz want total F) in *. clearbody c.
  fmt_types Ht; cbn [andb].
  - rewrite !HB by (Z.to_euclidean_division_equations; lia). by destruct (n mod 2 =? 1).
  - rewrite !HB by (Z.to_euclidean_division_equations; lia). done.
  - destruct (Z.eqb_spec n 2) as [-> |]; [| rewrite !HB by (Z.to_euclidean_division_equations; lia); done].
    assert (HT : forall o, 0 <= o < 512 -> fat_byte s o = aget 0 (fmt_table 32) o).
    { intros o Ho. unfold fat_byte, vsec. rewrite Ef, Ep, Z.div_small, Z.mod_small, Z.add_0_r by done. cbn [fmt_info_of reserved_sectors].
      destruct Hf as [_ H _]. specialize (H 0). rewrite Z.add_0_r in H. rewrite H by (Z.to_euclidean_division_equations; lia). done. }
    rewrite !HT by lia. vm_compute. reflexivity.
Qed.

(** The checks of a mount succeed on a well-formed volume. *)
Lemma mount_check_ok s type : vol_ok s -> fat_type s = type -> (type = 32 -> valid s (root_cluster (fi s))) -> (type <> 32 -> 0 < root_dir_sectors (fi s)) ->
  exists s', mount_check s type = (s', true) /\ quiet s s' /\ vol_ok s'.
Proof.
  intros Hv Et Hr Hn.
  assert (Hok : forall s1 n, vol_ok s1 -> negb (fat_at s1 n =? NO_ENTRY) = true).
  { intros s1 n Hv1. pose proof (go_type _ _ _ (vo_geo _ Hv1)) as Ht. pose proof (decode_range (fat_type s1) n (fat_byte s1) Ht (fat_byte_u8 s1)) as Hd.
    apply negb_true_iff, Z.eqb_neq. unfold fat_at, NO_ENTRY. unfold entry_mod in Hd. fat_types Ht; lia. }
  pose proof Hv as [[] _ _ _ _]. assert (H2 : valid s 2) by (unfold valid; lia).
  destruct (get_valid s 2 Hv H2) as (s1 & E1 & Q1 & V1). unfold mount_check, root_dir_cluster_value. rewrite E1, Hok by done.
  pose proof (geom_fields _ _ (qu_geom _ _ Q1)) as (F1 & F2 & _). rewrite F1, F2, Et.
  destruct (Z.eqb_spec type 32) as [E32 | Hne].
  - specialize (Hr E32). assert (Hr1 : valid s1 (root_cluster (fi s))) by (unfold valid in *; by rewrite F1).
    rewrite in_range_spec, bool_decide_eq_true_2 by done. destruct (get_valid s1 _ V1 Hr1) as (s2 & E2 & Q2 & V2). rewrite E2, Hok by done.
    exists s2. split; [done |]. split; [by etrans | done].
  - specialize (Hn Hne). destruct (geo_small s ltac:(by apply vol_works)) as (P1 & _).
    assert (fat_sectors (fi s) <= num_fats (fi s) * fat_sectors (fi s)) by nia. assert (0 <= cluster_count (fi s) * sectors_per_cluster (fi s)) by nia.
    destruct (read_vol_ok s1 (root_dir_sector (fi s)) (replicate (Z.to_nat FAT_MAX_CLUSTER_BYTES) 0) 0 (vol_works s1 V1)) as (d & E & Hd).
    { rewrite F1. lia. } { lia. } { rewrite length_replicate, Z2Nat.id by done. done. }
    rewrite E. exists (with_disk s1 d). split; [done |]. split; [| by apply vol_ok_disk]. etrans; [exact Q1 | by constructor].
Qed.

Lemma boot_buffer (b : list Z) n : length b = 512%nat -> (512 <= n)%nat -> splice (replicate n 0) 0 b = b ++ replicate (n - 512) 0.
Proof. intros Hb Hn. unfold splice. change (Z.to_nat 0) with 0%nat. rewrite take_0, app_nil_l, Hb. cbn [Nat.add]. by rewrite drop_replicate. Qed.

Definition buffer_ok s : Prop := Z.of_nat (length (fat_cache s)) = 8192 /\ Forall is_u8 (fat_cache s).

(** The state after a mount of a volume with the geometry [f]. *)
Record mounted (type drive part : Z) (f : fat_info_t) s s' : Prop := {
  mo_vol : vol_ok s';
  mo_type : fat_type s' = type;
  mo_info : fi s' = f;
  mo_place : fat_drive s' = drive /\ fat_part_start s' = part;
  mo_disk : same_disk (disk s) (disk s');
  mo_hint : alloc_hint s' = 2;
  mo_root : current_dir_cluster (cwd s') = root_dir_cluster_value s' /\ cwd_path (cwd s') = bytes "/" /\ dir_depth (cwd s') = 0;
}.

Lemma mount_formatted s drive want part avail total F : type_ok want -> layout_ok want avail total F -> fmt_min want <= cz want total F ->
  1 <= part -> part + avail < 2 ^ 32 -> avail < 2 ^ 32 - 1 -> buffer_ok s -> is_u32 (alloc_hint s) ->
  (forall k, 0 <= k < total -> usable (disk s) drive (part + k)) -> formatted (disk s) drive want part total F ->
  exists s', fat_mount s drive part = (s', want) /\ mounted want drive part (fmt_info_of want total F) s s'.
Proof.
  intros Ht Hly Hmin Hp Ha Hav Hb Hh Hu Hf. pose proof (fmt_geo want avail total F part Ht Hly Hmin ltac:(lia) ltac:(lia) Hav) as Hg.
  destruct (boot_bytes want part total F Ht) as [Hbl _]. pose proof Hly as [L1 L2 L3 L4 _ _].
  assert (Hbr : boot_read want part total F (fmt_boot want part total F ++ replicate (4096 - 512) 0)).
  { apply boot_read_app; [done |]. apply boot_fields; [done | lia | lia |]. intros Hne. pose proof (layout_small want avail total F Ht Hly Hne). lia. }
  unfold fat_mount. cbn [with_volume with_type disk]. change (Z.to_nat FAT_MAX_BPS) with 4096%nat.
  destruct (read_run_ok 1 (disk s) drive part (replicate 4096 0) 0) as (d & E & Hd); [lia | lia | lia | done | |].
  { intros k Hk. apply Hu. lia. }
  rewrite E, run_bytes_1, (fo_boot _ _ _ _ _ _ Hf), boot_buffer by (done || lia). set (bs := fmt_boot _ _ _ _ ++ _) in *. cbn [negb].
  rewrite (br_bps _ _ _ _ _ Hbr). change (sector_size_ok 512) with true. cbn [negb]. change (Z.to_nat (512 / 512 - 1)) with 0%nat. cbn [read_run negb].
  change (disk (with_disk _ d)) with d.
  rewrite (probe_boot want part avail total F bs), (info_boot want part avail total F bs) by (done || lia).
  rewrite (proj2 (Z.eqb_neq want 0)) by (destruct Ht as [-> | [-> | ->]]; done).
  set (s1 := with_tag (with_type (with_fi (with_disk (with_disk (with_volume (with_type s 0) drive part) d) d) (fmt_info_of want total F)) want) NO_ENTRY 0).
  assert (Hv : vol_ok s1).
  { constructor; [exact Hg | | done | by left | done]. intros k Hk. cbn [s1 with_tag with_type with_fi with_disk with_volume disk fat_drive fat_part_start fi] in *. apply Hd, Hu, Hk. }
  destruct (cluster_size_eq s1 (vol_works s1 Hv)) as (Ec & _ & Hc). change (cluster_size (with_fi _ _)) with (cluster_size s1). rewrite Ec.
  destruct (Z.ltb_spec FAT_MAX_CLUSTER_BYTES (csize s1)); [lia |]. change (fi (with_fi _ ?f)) with f. pose proof (go_count _ _ _ Hg) as Hcc.
  destruct (Z.ltb_spec (cluster_count (fmt_info_of want total F)) 2); [lia |].
  destruct (mount_check_ok s1 want Hv eq_refl) as (s2 & -> & Q & V).
  { intros ->. unfold valid. change (fi s1) with (fmt_info_of 32 total F). change (root_cluster (fmt_info_of 32 total F)) with 2. lia. }
  { intros Hne. change (fi s1) with (fmt_info_of want total F). cbn [fmt_info_of root_dir_sectors]. destruct Ht as [-> | [-> | ->]]; done. }
  pose proof (geom_fields _ _ (qu_geom _ _ Q)) as (E1 & E2 & E3 & E4 & E5). eexists. split; [reflexivity |].
  constructor; try done.
  - destruct V as [G1 G2 G3 G4 G5]. by constructor.
  - etrans; [exact Hd | apply (qu_disk _ _ Q)].
  - split; [| done]. unfold root_dir_cluster_value. cbn [with_cwd with_hint cwd current_dir_cluster fat_type fi]. rewrite E1, E2. done.
Qed.

(** ** The whole format *)

(** The volume is empty: no cluster is used but the root directory of FAT32, and
    the root directory holds zeros. *)
Definition empty_volume s : Prop :=
  (forall n, valid s n -> fat_at s n = if (fat_type s =? 32) && (n =? 2) then 0x0FFFFFFF else 0) /\
  (forall k, 0 <= k < fmt_tail (fat_type s) -> vsec s (root_dir_sector (fi s) + k) = zero_sector).

Lemma formatted_empty s s' want drive part total F : type_ok want -> formatted (disk s) drive want part total F -> needz want (cz want total F) <= F ->
  mounted want drive part (fmt_info_of want total F) s s' -> empty_volume s'.
Proof.
  intros Ht [F1 F2 F3] Hneed [M1 M2 M3 [M4 M4'] [Md _ _] M6 M7].
  assert (Hf : formatted (disk s') (fat_drive s') want part total F) by (rewrite M4; constructor; intros; rewrite Md; auto).
  split.
  - intros n Hn. rewrite M2. by apply (formatted_entry s' want part total F).
  - intros k Hk. rewrite M2 in Hk. unfold vsec. rewrite M3, M4'. cbn [fmt_info_of root_dir_sector]. rewrite !Z.add_assoc. by apply Hf.
Qed.

(** The writes produce a formatted volume and change nothing else. *)
Lemma plan_written (d : D) drive want part avail total F : type_ok want -> layout_ok want avail total F -> fmt_min want <= cz want total F ->
  1 <= part -> (forall l, 0 <= l < part + avail -> usable d drive l) ->
  exists d', run_writes d drive (fmt_plan want part total F) = (d', true) /\ formatted d' drive want part total F /\
    (forall v l, usable d' v l <-> usable d v l) /\
    forall v l, v <> drive \/ (l <> 0 /\ ~ (part <= l < part + total)) -> sector d' v l = sector d v l.
Proof.
  intros Ht [L1 L2 L3 L4 _ _] Hmin Hp Hu. destruct (fmt_consts want Ht) as (C1 & C2 & C3 & C4). destruct (has_clusters want total F Ht Hmin) as [Hlt Ec].
  assert (Htail : 0 <= fmt_tail want /\ fmt_reserved want + 2 * F + fmt_tail want <= total).
  { unfold fmt_tail, fdz in *. destruct (Z.eqb_spec want 32) as [E |]; [| lia]. assert (fmt_spc want = 1) by (by rewrite E). lia. }
  assert (Hin : forall l, l ∈ (fmt_plan want part total F).*1 -> l = 0 \/ part <= l < part + total).
  { intros l. rewrite plan_lbas by lia. pose proof (head_lbas want part l Ht) as Hh. set (h := [0; part] ++ _) in *. clearbody h.
    rewrite !elem_of_app, !elem_of_seqZ. intros [Hl | Hl]; [apply Hh in Hl |]; lia. }
  destruct (small_sectors want part total (cz want total F) Ht) as (S1 & S2 & S3). pose proof (boot_bytes want part total F Ht : is_sector _) as S4.
  destruct (run_writes_ok (fmt_plan want part total F) d drive) as (d' & E & U & _ & O & N).
  { apply Forall_forall. intros [l b] Hw. split.
    - apply Hu. assert (Hl : l ∈ (fmt_plan want part total F).*1) by (apply list_elem_of_fmap; by exists (l, b)). apply Hin in Hl. cbn [fst]. lia.
    - unfold fmt_plan, fmt_head, zeros_from in Hw. cbn [snd]. rewrite !elem_of_app, !elem_of_cons in Hw.
      assert (Hz : forall x n, (l, b) ∈ map (fun l => (l, zero_sector)) (seqZ x n) -> is_sector b).
      { intros x n Hm%list_elem_of_In. apply in_map_iff in Hm as (y & [= _ <-] & _). apply zero_is_sector. }
      destruct (want =? 32); rewrite ?elem_of_cons, elem_of_nil in Hw;
        repeat match type of Hw with _ \/ _ => destruct Hw as [Hw | Hw] end; first [done | exact (Hz _ _ Hw) | injection Hw as -> ->; assumption]. }
  pose proof (N (plan_nodup want part total F Ht (proj1 L2) Hp)) as N'.
  exists d'. split; [done |]. split; [| split; [done |]].
  - constructor; [apply N', plan_boot | intros; apply N'; by apply plan_table | intros; apply N'; by apply plan_tail].
  - intros v l Hvl. apply O. destruct Hvl as [Hv | Hl]; [by left | right]. intros Hk. destruct (Hin l Hk); tauto.
Qed.

(** C15. [fat_format] makes a volume of the wanted type exactly when the disk has room for one: on a disk whose sectors
    work, it either writes nothing and fails because fewer sectors than the least volume are left, or it leaves a mounted,
    well-formed and empty volume inside the disk, with its own directory as the current one, and changes no sector but the
    first one and those of the volume. *)
Theorem fat_format_exact s drive want part (Ht : type_ok want) (Hb : buffer_ok s) (Hh : is_u32 (alloc_hint s))
    (Hp : 0 <= part < 2 ^ 32 - 65) (Hc : is_u32 (ata_capacity (disk s) drive))
    (Hu : forall l, 0 <= l < ata_capacity (disk s) drive -> usable (disk s) drive l) :
  let first := if part =? 0 then 1 else part in
  let room := ata_capacity (disk s) drive - first in
  exists s', fat_format s drive want part = (s', if fmt_least want <=? room then want else -1) /\
    (room < fmt_least want -> s' = s) /\
    (fmt_least want <= room -> exists f s1, mounted want drive first f s1 s' /\ empty_volume s' /\ total_sectors f <= room /\
       forall v l, v <> drive \/ (l <> 0 /\ ~ (first <= l < first + total_sectors f)) -> sector (disk s') v l = sector (disk s) v l).
Proof.
  cbv zeta. unfold fat_format. set (cap := ata_capacity (disk s) drive) in *. set (first := if part =? 0 then 1 else part).
  assert (Hf : 1 <= first < 2 ^ 32 - 65) by (unfold first; destruct (Z.eqb_spec part 0); lia). clearbody first. unfold is_u32 in Hc.
  assert (Hty : negb (want =? 12) && negb (want =? 16) && negb (want =? 32) = false) by (by destruct Ht as [-> | [-> | ->]]). rewrite Hty. clear Hty.
  assert (Hl : 65 <= fmt_least want) by (unfold fmt_least; fmt_types Ht; lia).
  assert (Hfail : cap - first < fmt_least want -> exists s', (s, -1) = (s', if fmt_least want <=? cap - first then want else -1) /\
    (cap - first < fmt_least want -> s' = s) /\ (fmt_least want <= cap - first -> exists f s1, mounted want drive first f s1 s' /\ empty_volume s' /\ total_sectors f <= cap - first /\
       forall v l, v <> drive \/ (l <> 0 /\ ~ (first <= l < first + total_sectors f)) -> sector (disk s') v l = sector (disk s) v l)).
  { intros Hr. exists s. destruct (Z.leb_spec (fmt_least want) (cap - first)); [lia |]. split; [done |]. split; [done | lia]. }
  destruct (Z.eqb_spec cap 0); [apply Hfail; lia |]. rewrite (u32_small (first + 64)) by (unfold is_u32; lia).
  destruct (Z.leb_spec cap (first + 64)); [apply Hfail; lia |]. rewrite (u32_small (cap - first)) by (unfold is_u32; lia).
  set (room := cap - first) in *. destruct (rounds_ok want room Ht ltac:(lia)) as (total & F & -> & Hly). pose proof Hly as [L1 L2 L3 L4 _ _].
  rewrite c_nowrap by (done || unfold is_u32; lia). pose proof (layout_least want room total F Ht Hly) as Hleast.
  destruct (Z.ltb_spec (cz want total F) (fmt_min want)) as [Hm | Hm]; [apply Hfail; lia |]. destruct (Z.leb_spec (fmt_least want) room); [| lia].
  rewrite (fmt_plan_eq want first room) by (done || lia).
  destruct (plan_written (disk s) drive want first room total F Ht Hly Hm) as (d & -> & Hd & U & O); [lia | intros; apply Hu; lia |]. cbn [negb].
  destruct (mount_formatted (with_disk s d) drive want first room total F) as (s' & -> & M); try (done || lia).
  { intros k Hk. apply U, Hu. lia. }
  rewrite Z.eqb_refl. exists s'. split; [done |]. split; [lia |]. intros _. exists (fmt_info_of want total F), (with_disk s d). split; [done |].
  split; [by apply (formatted_empty (with_disk s d) s' want drive first total F) |]. split; [cbn; lia |]. intros v l Hvl.
  rewrite (sd_sector _ _ (mo_disk _ _ _ _ _ _ M)). by apply O.
Qed.
End Format.

(** A disk of 400 sectors in memory. *)
Definition blank_disk : fatfs mem_disk :=
  mk_fat _ (mk_md 400 ∅ ∅) demo_info 0 0 0 (mk_cwd 0 (bytes "/") (replicate 32 0) 0) (replicate (Z.to_nat 8192) 0) NO_ENTRY 0 2.

Lemma fat_format_exact_witness : exists s' f s1, fat_format blank_disk 0 12 0 = (s', 12) /\ mounted 12 0 1 f s1 s' /\ empty_volume s'.
Proof.
  destruct (fat_format_exact blank_disk 0 12 0) as (s' & E & _ & Hok).
  - by left.
  - split; [done |]. by apply Forall_replicate.
  - done.
  - done.
  - done.
  - intros l Hl. split; [exact Hl | apply not_elem_of_empty].
  - destruct Hok as (f & s1 & M & Hempty & _); [done |]. exists s', f, s1. split; [exact E |]. split; [exact M | exact Hempty].
Defined.
