(* ===== verification/FatFile.v ===== *)
(** * FatFile: the data of a file ([kernel/fat.c])

    Chains of clusters: a new chain is built from free clusters only, what is
    written into it is read back, and no cluster in use is touched. *)

From S2P Require Import Prelude Disk Fat FatProps FatDir.

Section File.
Context {D : Type} `{BD : BlockDev D}.
Implicit Types s : fatfs D.

(** The clusters of a chain, its first one first; the last has an end mark. *)
Record file_chain s (l : list Z) : Prop := {
  fc_valid : Forall (valid s) l;
  fc_nodup : NoDup l;
  fc_next : forall i c, l !! i = Some c -> match l !! S i with Some c' => fat_at s c = c' | None => fat_is_eoc s (fat_at s c) = true end;
}.

Lemma chain_tail_ok s c l : file_chain s (c :: l) -> file_chain s l.
Proof.
  intros [Hv Hn Hx]. apply Forall_cons in Hv as [_ Hv]. apply NoDup_cons in Hn as [_ Hn]. constructor; [done | done |].
  intros i c' Hi. apply (Hx (S i) c' Hi).
Qed.

Lemma chain_nil s : file_chain s [].
Proof. constructor; [done | apply NoDup_nil_2 | done]. Qed.

Lemma eoc_ok s : vol_ok s -> fat_is_eoc s (fat_eoc_val s) = true /\ is_u32 (fat_eoc_val s) /\ fat_eoc_val s mod entry_mod (fat_type s) = fat_eoc_val s.
Proof.
  intros [[Ht _ _ _ _ _ _ _ _ _ _] _ _ _ _]. unfold fat_is_eoc, fat_eoc_val, is_eoc, eoc_val, entry_mod.
  destruct Ht as [E | [E | E]]; rewrite E; (split; [done |]); (split; [done |]); done.
Qed.

Lemma valid_mod s c : vol_ok s -> valid s c -> is_u32 c /\ c mod entry_mod (fat_type s) = c.
Proof.
  intros [[Ht _ _ _ _ Hc _ _ _ _ _] _ _ _ _] H. unfold valid, max_count, entry_mod, is_u32 in *. destruct Ht as [E | [E | E]]; rewrite E in *; cbn [Z.eqb Pos.eqb] in *;
    (split; [lia | apply Z.mod_small; lia]).
Qed.

(** An end mark is neither a cluster nor the mark of a free one. *)
Lemma eoc_not_valid s v : vol_ok s -> fat_is_eoc s v = true -> ~ valid s v /\ v <> 0.
Proof.
  intros Hv He. split.
  - intros H. destruct (valid_plain s v Hv H) as [E _]. congruence.
  - intros ->. pose proof (go_type _ _ _ (vo_geo _ Hv)) as Ht. unfold fat_is_eoc, is_eoc in He. destruct Ht as [E | [E | E]]; rewrite E in He; discriminate.
Qed.

Lemma chain_used s l c : vol_ok s -> file_chain s l -> c ∈ l -> fat_at s c <> 0.
Proof.
  intros Hv [Hf _ Hx] (i & Hi)%list_elem_of_lookup. specialize (Hx i c Hi). destruct (l !! S i) as [c' |] eqn:E.
  - rewrite Hx. rewrite Forall_lookup in Hf. specialize (Hf _ _ E). unfold valid in Hf. lia.
  - by apply (eoc_not_valid s).
Qed.

(** Tables that agree on the clusters of a chain. *)
Lemma chain_same s s' l : file_chain s l -> fi s' = fi s -> fat_type s' = fat_type s -> (forall c, c ∈ l -> fat_at s' c = fat_at s c) -> file_chain s' l.
Proof.
  intros [Hf Hn Hx] Ef Et Hat. constructor; [| done |].
  - eapply Forall_impl; [exact Hf |]. intros c. unfold valid. by rewrite Ef.
  - intros i c Hi. specialize (Hx i c Hi). rewrite Hat by (apply list_elem_of_lookup; by exists i). unfold fat_is_eoc in *. by rewrite Et.
Qed.

Lemma chain_reach s l c : vol_ok s -> file_chain s l -> (valid s (hd 0 l) /\ rtc (link s) (hd 0 l) c) <-> c ∈ l.
Proof.
  intros Hv. destruct l as [| x l]; cbn [hd].
  { intros _. split; [intros [H _]; unfold valid in H; lia | by intros H%elem_of_nil]. }
  intros [Hf Hn Hx]. rewrite Forall_lookup in Hf. split.
  - intros [_ Hr]. apply rtc_ind_r with (P := fun c => c ∈ x :: l) in Hr; [done | left |].
    intros y z _ (Hy & E & Hz) (i & Hi)%list_elem_of_lookup. specialize (Hx i y Hi). destruct ((x :: l) !! S i) as [c' |] eqn:E'.
    + apply list_elem_of_lookup. exists (S i). congruence.
    + exfalso. apply (eoc_not_valid s (fat_at s y)) in Hx as [Hx _]; [| done]. by rewrite E in Hx.
  - intros (i & Hi)%list_elem_of_lookup. split; [by apply (Hf 0%nat) |]. revert c Hi. induction i as [| i IH]; intros c Hi.
    + injection Hi as ->. apply rtc_refl.
    + destruct ((x :: l) !! i) as [y |] eqn:Ey; [| apply lookup_ge_None in Ey; apply lookup_lt_Some in Hi; lia].
      eapply rtc_r; [by apply IH |]. specialize (Hx i y Ey). rewrite Hi in Hx. split; [by apply (Hf i) |]. split; [done | by apply (Hf (S i))].
Qed.

(** ** Building a chain *)

(** [l] has been taken from the free clusters of [s0]. *)
Record grown s0 s (l : list Z) : Prop := {
  gr_vol : vol_ok s;
  gr_changes : changes (in_fat s0) s0 s;
  gr_chain : file_chain s l;
  gr_free : Forall (fun c => fat_at s0 c = 0) l;
  gr_rest : forall m, valid s0 m -> m ∉ l -> fat_at s m = fat_at s0 m;
}.

(** Nothing but hints and cache has changed, and the table is as before. *)
Record same_table s0 s : Prop := {
  sm_vol : vol_ok s;
  sm_changes : changes (in_fat s0) s0 s;
  sm_table : forall m, valid s0 m -> fat_at s m = fat_at s0 m;
}.

Lemma in_fat_geom s s' k : geom s' = geom s -> in_fat s' k <-> in_fat s k.
Proof. intros (E & _)%geom_fields. unfold in_fat. by rewrite E. Qed.

Lemma changes_fat_trans s0 s1 s2 : changes (in_fat s0) s0 s1 -> changes (in_fat s1) s1 s2 -> changes (in_fat s0) s0 s2.
Proof.
  intros H1 H2. apply (changes_trans _ s0 s1 s2 H1). eapply changes_weaken; [| exact H2]. intros k Hk. by apply (in_fat_geom _ _ k (ch_geom _ _ _ H1)).
Qed.

Lemma calm_fat s0 s1 s2 : changes (in_fat s0) s0 s1 -> calm s1 s2 -> changes (in_fat s0) s0 s2.
Proof. intros H1 H2. apply (changes_trans _ s0 s1 s2 H1). eapply changes_weaken; [| exact H2]. done. Qed.

(** The chain is given back. *)
Lemma grown_free s0 s l : vol_ok s0 -> grown s0 s l -> exists s', fat_free_chain s (hd 0 l) = (s', true) /\ same_table s0 s'.
Proof.
  intros Hv0 [Hv Hc Hch Hfree Hrest]. assert (Hu : is_u32 (hd 0 l)).
  { destruct l as [| x l]; [done |]. apply (valid_mod s); [done |]. destruct Hch as [Hf _ _]. by apply Forall_cons in Hf as [Hf _]. }
  destruct (free_chain_ok s (hd 0 l) Hv Hu) as (s' & V & E & [Hv' Hc' Hn HV Ht] & Hin). exists s'. split; [done |].
  constructor; [done | by apply (changes_fat_trans s0 s s') |]. intros m Hm. rewrite Ht by (unfold valid in Hm; lia). rewrite Forall_forall in Hfree.
  pose proof (Hin m) as Hi. rewrite (chain_reach s l m Hv Hch) in Hi. case_bool_decide as Hd.
  - symmetry. apply Hfree. tauto.
  - apply Hrest; [done | tauto].
Qed.

(** A free cluster goes to the end of the chain. *)
Lemma grown_one s0 s c s1 : vol_ok s0 -> grown s0 s [] -> valid s c -> fat_at s c = 0 -> fat_entry_set s c (fat_eoc_val s) = (s1, true) -> grown s0 s1 [c].
Proof.
  intros Hv0 [Hv Hc _ _ Hrest] Hvc Hz E. destruct (eoc_ok s Hv) as (Heoc & Hu & Hm).
  destruct (set_valid s c (fat_eoc_val s) Hv Hvc Hu) as (s1' & E' & Hv1 & Hc1 & _ & Ht). rewrite E in E'. injection E' as <-.
  pose proof (geom_fields _ _ (ch_geom _ _ _ Hc1)) as (F1 & F2 & _). constructor.
  - done.
  - by apply (changes_fat_trans s0 s).
  - constructor; [apply Forall_singleton; unfold valid in *; by rewrite F1 | apply NoDup_singleton |]. intros i x Hi. destruct i as [| i]; [| done]. injection Hi as <-.
    cbn. rewrite Ht, Z.eqb_refl, Hm by (unfold valid in Hvc; lia). unfold fat_is_eoc. by rewrite F2.
  - apply Forall_singleton. rewrite <- Hz. symmetry. apply Hrest; [by apply (geom_valid _ _ _ (ch_geom _ _ _ Hc)) | by intros H%elem_of_nil].
  - intros m Hvm Hm'. rewrite not_elem_of_cons in Hm'. rewrite Ht by (unfold valid in Hvm; lia). destruct (Z.eqb_spec m c); [tauto |]. apply Hrest; [done | by intros H%elem_of_nil].
Qed.

Lemma grown_snoc s0 s l prev c s1 : vol_ok s0 -> grown s0 s (l ++ [prev]) -> valid s c -> fat_at s c = 0 -> fat_entry_set s c (fat_eoc_val s) = (s1, true) ->
  exists s2, fat_entry_set s1 prev c = (s2, true) /\ grown s0 s2 ((l ++ [prev]) ++ [c]).
Proof.
  intros Hv0 [Hv Hc Hch Hfree Hrest] Hvc Hz E. destruct (eoc_ok s Hv) as (Heoc & Hu & Hm). pose proof Hch as [Hf Hn Hx].
  assert (Hnin : c ∉ l ++ [prev]) by (intros H; by apply (chain_used s _ c Hv Hch) in H).
  destruct (set_valid s c (fat_eoc_val s) Hv Hvc Hu) as (s1' & E' & Hv1 & Hc1 & _ & Ht). rewrite E in E'. injection E' as <-.
  pose proof (geom_fields _ _ (ch_geom _ _ _ Hc1)) as (F1 & F2 & _).
  assert (Hvp : valid s prev) by (rewrite Forall_forall in Hf; apply Hf; rewrite elem_of_app; right; left).
  destruct (valid_mod s c Hv Hvc) as [Hcu Hcm]. assert (Hpc : prev <> c) by (intros ->; apply Hnin; rewrite elem_of_app; right; left).
  destruct (set_valid s1 prev c Hv1) as (s2 & E2 & Hv2 & Hc2 & _ & Ht2); [unfold valid in *; by rewrite F1 | done |]. rewrite F2, Hcm in Ht2.
  pose proof (geom_fields _ _ (ch_geom _ _ _ Hc2)) as (G1 & G2 & _). exists s2. split; [done |].
  assert (Hat : forall m, 0 <= m -> fat_at s2 m = if m =? prev then c else if m =? c then fat_eoc_val s else fat_at s m).
  { intros m Hm0. rewrite Ht2, Ht by done. by rewrite Hm. }
  constructor.
  - done.
  - apply (changes_fat_trans s0 s); [done |]. by apply (changes_fat_trans s s1).
  - constructor.
    + apply Forall_app. split; [| apply Forall_singleton]; [eapply Forall_impl; [exact Hf |]; intros x | revert Hvc]; unfold valid; by rewrite G1, F1.
    + apply NoDup_app. split; [done |]. split; [| apply NoDup_singleton]. intros x Hx1 Hx2%list_elem_of_singleton. by subst.
    + intros i x Hi. destruct (Nat.lt_trichotomy i (length l)) as [Hlt | [-> | Hgt]].
      * rewrite !lookup_app_l in Hi by (rewrite ?length_app; cbn; lia). rewrite (lookup_app_l (l ++ [prev])) by (rewrite length_app; cbn; lia).
        assert (Hi' : (l ++ [prev]) !! i = Some x) by (by rewrite lookup_app_l). specialize (Hx i x Hi').
        assert (Hxv : valid s x) by (rewrite Forall_lookup in Hf; by apply (Hf i)).
        assert (x <> prev). { intros ->. assert (El : (l ++ [prev]) !! length l = Some prev) by (by rewrite lookup_app_r, Nat.sub_diag by done). pose proof (NoDup_lookup _ _ _ _ Hn Hi' El). lia. }
        assert (x <> c) by (intros ->; apply Hnin, list_elem_of_lookup; by exists i).
        assert (Hat' : fat_at s2 x = fat_at s x).
        { rewrite Hat by (unfold valid in Hxv; lia). destruct (Z.eqb_spec x prev), (Z.eqb_spec x c); done. }
        rewrite Hat'. destruct ((l ++ [prev]) !! S i) eqn:El; [done |]. apply lookup_ge_None in El. rewrite length_app in El. cbn in El. lia.
      * rewrite lookup_app_l, lookup_app_r, Nat.sub_diag in Hi by (rewrite ?length_app; cbn; lia). injection Hi as <-.
        rewrite lookup_app_r by (rewrite length_app; cbn; lia). rewrite length_app. replace (S (length l) - (length l + length [prev]))%nat with 0%nat by (cbn; lia). cbn [lookup list_lookup].
        rewrite Hat by (unfold valid in Hvp; lia). by rewrite Z.eqb_refl.
      * pose proof (lookup_lt_Some _ _ _ Hi) as Hlen. rewrite !length_app in Hlen. cbn [length] in Hlen. assert (i = S (length l)) as -> by lia.
        rewrite lookup_app_r in Hi by (rewrite length_app; cbn; lia). rewrite length_app in Hi. replace (S (length l) - (length l + length [prev]))%nat with 0%nat in Hi by (cbn; lia). injection Hi as <-.
        rewrite lookup_ge_None_2 by (rewrite !length_app; cbn; lia). rewrite Hat by (unfold valid in Hvc; lia).
        destruct (Z.eqb_spec c prev); [congruence |]. rewrite Z.eqb_refl. unfold fat_is_eoc in *. by rewrite G2, F2.
  - apply Forall_app. split; [done |]. apply Forall_singleton. rewrite <- Hz. symmetry. apply Hrest; [by apply (geom_valid _ _ _ (ch_geom _ _ _ Hc)) | done].
  - intros m Hvm Hm'. rewrite not_elem_of_app, not_elem_of_cons in Hm'. destruct Hm' as (Hm1 & Hm2 & _). rewrite Hat by (unfold valid in Hvm; lia).
    assert (m <> prev) by (intros ->; apply Hm1; rewrite elem_of_app; right; left). destruct (Z.eqb_spec m prev), (Z.eqb_spec m c); try done. by apply Hrest.
Qed.

(** The allocation of a chain: it succeeds when enough clusters are free and
    changes nothing when it fails. *)
Lemma alloc_chain_ok n : forall s0 s l prev, vol_ok s0 -> grown s0 s l -> (l = [] /\ prev = 0) \/ last l = Some prev ->
  exists s' r, alloc_chain n s (hd 0 l) prev = (s', r) /\ match r with
    | Some first => exists l', length l' = n /\ grown s0 s' (l ++ l') /\ first = hd 0 (l ++ l')
    | None => same_table s0 s' /\ forall F, NoDup F -> Forall (fun c => valid s0 c /\ fat_at s0 c = 0) F -> (length F < length l + n)%nat
    end.
Proof.
  induction n as [| n IH]; intros s0 s l prev Hv0 Hg Hlast; cbn [alloc_chain].
  { exists s, (Some (hd 0 l)). split; [done |]. exists []. by rewrite app_nil_r. }
  pose proof Hg as [Hv Hc Hch Hfree Hrest]. destruct (alloc_ok s Hv) as (s1 & c & -> & Hv1 & K1 & Hres).
  assert (Hg1 : grown s0 s1 l).
  { pose proof (geom_fields _ _ (ch_geom _ _ _ K1)) as (F1 & F2 & _). constructor; [done | by apply (calm_fat s0 s) | | done |].
    - apply (chain_same s); [done | done | done |]. intros x _. by apply calm_fat_at.
    - intros m Hm Hn. rewrite (calm_fat_at _ _ _ K1). by apply Hrest. }
  destruct Hres as [[-> Hall] | [Hvc Hz]].
  - cbn [Z.eqb]. destruct (grown_free s0 s1 l Hv0 Hg1) as (s' & -> & Hs). exists s', None. split; [done |]. split; [done |].
    intros F HF Hf. assert (Hsub : F ⊆+ l).
    { apply NoDup_submseteq; [done |]. intros x Hx. rewrite Forall_forall in Hf. destruct (Hf x Hx) as [Hx1 Hx2].
      destruct (decide (x ∈ l)) as [| Hn]; [done |]. exfalso. apply (Hall x); [by apply (geom_valid _ _ _ (ch_geom _ _ _ Hc)) |]. by rewrite Hrest. }
    apply submseteq_length in Hsub. lia.
  - destruct (Z.eqb_spec c 0) as [-> |]; [unfold valid in Hvc; lia |].
    assert (Hvc1 : valid s1 c) by (by apply (geom_valid _ _ _ (ch_geom _ _ _ K1))). rewrite <- (calm_fat_at _ _ _ K1) in Hz.
    destruct (set_valid s1 c (fat_eoc_val s1) Hv1 Hvc1) as (s2 & E2 & _); [by apply (eoc_ok s1) |]. rewrite E2. cbn [negb].
    destruct Hlast as [[-> ->] | Hl].
    + cbn [hd Z.eqb]. pose proof (grown_one s0 s1 c s2 Hv0 Hg1 Hvc1 Hz E2) as Hg2. destruct (IH s0 s2 [c] c Hv0 Hg2) as (s' & r & E & Hr); [by right |].
      cbn [hd] in E. exists s', r. split; [done |]. destruct r as [first |].
      * destruct Hr as (l' & Hl' & Hg' & ->). exists (c :: l'). cbn [length]. split; [lia | done].
      * destruct Hr as [Hs HF]. split; [done |]. cbn [length] in *. intros F H1 H2. specialize (HF F H1 H2). lia.
    + apply last_Some in Hl as (l0 & ->). destruct (grown_snoc s0 s1 l0 prev c s2 Hv0 Hg1 Hvc1 Hz E2) as (s3 & E3 & Hg3).
      assert (Hhd : hd 0 (l0 ++ [prev]) =? 0 = false).
      { apply Z.eqb_neq. destruct Hch as [Hf _ _]. destruct l0 as [| x l0]; cbn [hd app] in *; apply Forall_cons in Hf as [Hf _]; unfold valid in Hf; lia. }
      rewrite Hhd, E3. cbn [negb]. assert (Hhd' : hd 0 (l0 ++ [prev]) = hd 0 ((l0 ++ [prev]) ++ [c])) by (by destruct l0).
      rewrite Hhd'. destruct (IH s0 s3 ((l0 ++ [prev]) ++ [c]) c Hv0 Hg3) as (s' & r & E & Hr); [right; apply last_snoc |]. exists s', r. split; [done |]. destruct r as [first |].
      * destruct Hr as (l' & Hl' & Hg' & ->). exists (c :: l'). cbn [length]. split; [lia |]. rewrite <- (app_assoc _ [c] l') in *. done.
      * destruct Hr as [Hs HF]. split; [done |]. intros F H1 H2. specialize (HF F H1 H2). rewrite (length_app _ [c]) in HF. cbn [length] in HF. lia.
Qed.

(** ** Contents *)

Lemma changes_cl_data W s s' c : changes W s s' -> (forall k, in_cluster s c k -> ~ W k) -> vol_ok s -> cl_data s' c = cl_data s c.
Proof.
  intros Hc Hk Hv. pose proof (geom_fields _ _ (ch_geom _ _ _ Hc)) as (E1 & E2 & E3 & E4 & _). unfold cl_data, cl_first, run_bytes. rewrite E1, E3, E4.
  f_equal. apply map_ext_in. intros k Hin%list_elem_of_In%elem_of_seqZ. apply Hc. right. apply Hk. unfold in_cluster, cl_first. pose proof (go_spc _ _ _ (vo_geo _ Hv)). lia.
Qed.

Lemma entry_in_fat s n o : vol_ok s -> valid s n -> place (fat_type s) n <= o < place (fat_type s) n + width (fat_type s) -> in_fat s (reserved_sectors (fi s) + o / 512).
Proof. intros Hv Hn Ho. destruct (entry_place_ok s n Hv Hn) as (_ & P1 & _ & P3). unfold in_fat. Z.to_euclidean_division_equations; lia. Qed.

(** Writes outside the table leave its entries. *)
Lemma changes_fat_at W s s' n : changes W s s' -> (forall k, in_fat s k -> ~ W k) -> vol_ok s -> valid s n -> fat_at s' n = fat_at s n.
Proof.
  intros Hc Hk Hv Hn. pose proof (geom_fields _ _ (ch_geom _ _ _ Hc)) as (E1 & E2 & _). pose proof (go_type _ _ _ (vo_geo _ Hv)) as Ht.
  assert (HB : forall o, place (fat_type s) n <= o < place (fat_type s) n + width (fat_type s) -> fat_byte s' o = fat_byte s o).
  { intros o Ho. unfold fat_byte. rewrite E1, (changes_vsec _ _ _ _ Hc); [done |]. by apply Hk, (entry_in_fat s n). }
  unfold fat_at, decode_bytes. rewrite E2. unfold place, width, valid in *. destruct Ht as [E | [E | E]]; rewrite E in *; cbn [Z.eqb Pos.eqb] in *; by rewrite !HB by lia.
Qed.

Definition in_chain s (l : list Z) (k : Z) : Prop := exists c, c ∈ l /\ in_cluster s c k.

Lemma chain_not_fat s l k : vol_ok s -> Forall (valid s) l -> in_fat s k -> ~ in_chain s l k.
Proof. intros Hv Hf Hk (c & Hc & Hin). rewrite Forall_forall in Hf. by apply (cluster_not_fat s c k (vol_works s Hv) (Hf c Hc)) in Hin. Qed.

Lemma in_cluster_geom s s' c k : geom s' = geom s -> in_cluster s' c k <-> in_cluster s c k.
Proof. intros (E & _)%geom_fields. unfold in_cluster, cl_first. by rewrite E. Qed.

Lemma csize_geom s s' : geom s' = geom s -> csize s' = csize s.
Proof. intros (E & _)%geom_fields. unfold csize. by rewrite E. Qed.

Lemma zero_pad_ok l n : Forall is_u8 l -> Z.of_nat (length l) <= n -> Z.of_nat (length (zero_pad l n)) = n /\ Forall is_u8 (zero_pad l n).
Proof. intros Hf Hl. unfold zero_pad. rewrite length_app, length_replicate, Forall_app. split; [lia |]. split; [done | by apply Forall_replicate]. Qed.

(** Part [i] of the data, as it is written. *)
Definition piece s (data : list Z) (i : nat) : list Z := let k := Z.to_nat (csize s) in zero_pad (take k (drop (i * k) data)) (csize s).

Lemma write_chain_ok l : forall s data, vol_ok s -> file_chain s l -> Forall is_u8 data ->
  exists s', write_chain (length l) s (hd 0 l) data = (s', true) /\ vol_ok s' /\ changes (in_chain s l) s s' /\ alloc_hint s' = alloc_hint s /\
    forall i c, l !! i = Some c -> cl_data s' c = piece s data i.
Proof.
  induction l as [| c l IH]; intros s data Hv Hch Hd; cbn [length write_chain hd].
  { exists s. split; [done |]. split; [done |]. split; [by apply changes_quiet |]. split; [done |]. intros i c. by rewrite lookup_nil. }
  pose proof Hch as [Hf Hn Hx]. apply Forall_cons in Hf as [Hvc Hf]. destruct (cluster_size_eq s (vol_works s Hv)) as (-> & _ & Hcs).
  set (buf := zero_pad (take (Z.to_nat (csize s)) data) (csize s)).
  destruct (zero_pad_ok (take (Z.to_nat (csize s)) data) (csize s)) as [Hbl Hbf]; [by apply Forall_take | rewrite length_take; lia |]. fold buf in Hbl, Hbf.
  destruct (write_cluster_ok s c buf Hv Hvc ltac:(lia) Hbf) as (s1 & -> & Hv1 & Hc1 & Hh1 & Ed). cbn [negb].
  rewrite take_ge in Ed by lia. pose proof (geom_fields _ _ (ch_geom _ _ _ Hc1)) as (F1 & F2 & _).
  assert (Hp0 : buf = piece s data 0) by (unfold buf, piece; by rewrite Nat.mul_0_l, drop_0).
  destruct l as [| c' l]; cbn [length].
  { exists s1. split; [done |]. split; [done |]. split; [eapply changes_weaken; [| exact Hc1]; intros k Hk; exists c; split; [left | done] |]. split; [done |].
    intros i x Hi. destruct i as [| i]; [| done]. injection Hi as <-. by rewrite Ed. }
  assert (Hat : forall m, valid s m -> fat_at s1 m = fat_at s m).
  { intros m Hm. apply (changes_fat_at _ _ _ _ Hc1); [| done | done]. intros k Hk Hin. by apply (cluster_not_fat s c k (vol_works s Hv) Hvc) in Hin. }
  assert (Hvc1 : valid s1 c) by (unfold valid in *; by rewrite F1). destruct (get_valid s1 c Hv1 Hvc1) as (s2 & -> & Q & Hv2).
  pose proof (Hx 0%nat c eq_refl) as Hnext. cbn in Hnext. rewrite Hat, Hnext by done.
  pose proof (geom_fields _ _ (qu_geom _ _ Q)) as (G1 & G2 & _). assert (Hg2 : geom s2 = geom s) by (rewrite (qu_geom _ _ Q); apply (ch_geom _ _ _ Hc1)).
  destruct (IH s2 (drop (Z.to_nat (csize s)) data) Hv2) as (s' & E & Hv' & Hc' & Hh' & Hp).
  - apply (chain_same s); [by apply (chain_tail_ok s c) | congruence | congruence |]. intros x Hx'. rewrite (quiet_fat_at _ _ _ Q). apply Hat.
    rewrite Forall_forall in Hf. by apply Hf.
  - by apply Forall_drop.
  - cbn [hd] in E. exists s'. split; [done |]. split; [done |].
    assert (Hc2 : changes (in_cluster s c) s s2).
    { apply (changes_trans _ s s1); [done |]. by apply changes_quiet. }
    split.
    { apply (changes_trans _ s s2); [eapply changes_weaken; [| exact Hc2]; intros k Hk; exists c; split; [left | done] |].
      eapply changes_weaken; [| exact Hc']. intros k (x & Hx1 & Hx2). exists x. split; [by right | by apply (in_cluster_geom _ _ x k Hg2)]. }
    split; [by rewrite Hh', (qu_hint _ _ Q) |]. intros i x Hi. destruct i as [| i].
    + injection Hi as <-. rewrite <- Hp0, <- Ed. assert (Ed2 : cl_data s2 c = cl_data s1 c).
      { apply (changes_cl_data (fun _ => False)); [by apply changes_quiet | tauto | done]. }
      rewrite <- Ed2. apply (changes_cl_data _ _ _ _ Hc'); [| done]. intros k Hk (y & Hy1 & Hy2).
      apply NoDup_cons in Hn as [Hn _]. apply Hn. rewrite Forall_forall in Hf.
      assert (y = c) as <-; [| done]. apply (cluster_apart s y c k (vol_works s Hv) (Hf y Hy1) Hvc); by apply (in_cluster_geom _ _ _ k Hg2).
    + rewrite (Hp i x Hi). unfold piece. rewrite (csize_geom _ _ Hg2), drop_drop. done.
Qed.

Lemma concat_pieces s data l : forall s', 0 < csize s -> (forall i c, l !! i = Some c -> cl_data s' c = piece s data i) ->
  Z.of_nat (length data) <= csize s * Z.of_nat (length l) -> forall m, (m <= length data)%nat -> take m (concat (map (cl_data s') l)) = take m data.
Proof.
  revert data. induction l as [| c l IH]; intros data s' Hcs Hp Hl m Hm; cbn [map concat length] in *.
  - destruct data; [| cbn in *; lia]. cbn in Hm. by replace m with 0%nat by lia.
  - rewrite (Hp 0%nat c eq_refl). set (k := Z.to_nat (csize s)). assert (Ek : piece s data 0 = zero_pad (take k data) (csize s)) by (unfold piece; fold k; by rewrite Nat.mul_0_l, drop_0).
    rewrite Ek. unfold zero_pad. fold k. destruct (Nat.le_gt_cases (length data) k) as [Hs | Hs].
    + rewrite (take_ge data k) by lia. rewrite <- app_assoc. by rewrite take_app_le by lia.
    + rewrite length_take, Nat.min_l, Nat.sub_diag by lia. cbn [replicate]. rewrite app_nil_r.
      rewrite <- (take_drop k data) at 2. rewrite !take_app, !length_take, (Nat.min_l k (length data)) by lia. f_equal.
      rewrite (IH (drop k data) s'); [done | done | | rewrite length_drop; lia | rewrite length_drop; lia].
      intros i x Hi. rewrite (Hp (S i) x Hi). unfold piece. fold k. rewrite drop_drop. do 4 f_equal; lia.
Qed.

Lemma read_from_ok n : forall s l size max_size got, vol_ok s -> file_chain s l -> is_u32 size -> is_u32 max_size -> 0 <= got -> (length l <= n)%nat ->
  size <= got + csize s * Z.of_nat (length l) ->
  exists s', read_from n s (hd 0 l) size max_size got =
    (s', Some (take (Z.to_nat (Z.min size max_size - got)) (concat (map (cl_data s) l)))) /\ quiet s s' /\ vol_ok s'.
Proof.
  induction n as [| n IH]; intros s l size max_size got Hv Hch Hsz Hmx Hg Hn Hend; cbn [read_from].
  { destruct l; [| cbn in Hn; lia]. exists s. split; [| done]. cbn in *. by rewrite take_nil. }
  destruct (Z.ltb_spec got size) as [H1 |], (Z.ltb_spec got max_size) as [H2 |]; cbn [andb negb];
    try (exists s; split; [do 2 f_equal; by replace (Z.to_nat (Z.min size max_size - got)) with 0%nat by lia | done]).
  destruct l as [| c l]; [cbn in Hend; lia |]. cbn [hd map concat length] in *. pose proof Hch as [Hf Hnd Hx]. apply Forall_cons in Hf as [Hvc Hf].
  rewrite in_range_spec, bool_decide_eq_true_2 by done. cbn [negb]. destruct (read_cluster_ok s c Hv Hvc) as (s1 & -> & Q1 & Hv1).
  destruct (cluster_size_eq s1 (vol_works s1 Hv1)) as (-> & _ & Hcs). rewrite (csize_geom _ _ (qu_geom _ _ Q1)) in *. destruct (cl_data_ok s c (vol_works s Hv)) as [Hdl _].
  unfold is_u32 in *. rewrite (u32_small (size - got)), (u32_small (max_size - got)) by (unfold is_u32; lia).
  set (k := let k := if csize s <? size - got then csize s else size - got in if max_size - got <? k then max_size - got else k).
  assert (Hk : k = Z.min (csize s) (Z.min size max_size - got)) by (unfold k; destruct (Z.ltb_spec (csize s) (size - got)); cbv zeta; [destruct (Z.ltb_spec (max_size - got) (csize s)) | destruct (Z.ltb_spec (max_size - got) (size - got))]; lia).
  cbv zeta in k. fold k. clearbody k. rewrite (u32_small (got + k)) by (unfold is_u32; lia).
  destruct (Z.leb_spec size (got + k)), (Z.leb_spec max_size (got + k)); cbn [orb];
    try (exists s1; split; [do 2 f_equal; rewrite take_app_le by lia; f_equal; lia | done]).
  assert (Ek : k = csize s) by lia. destruct (get_valid s1 c Hv1) as (s2 & -> & Q2 & Hv2); [by apply (geom_valid _ _ _ (qu_geom _ _ Q1)) |].
  rewrite (quiet_fat_at _ _ _ Q1). assert (Q : quiet s s2) by (by etrans). pose proof (geom_fields _ _ (qu_geom _ _ Q)) as (G1 & G2 & _).
  destruct l as [| c' l]; [cbn in Hend; lia |]. pose proof (Hx 0%nat c eq_refl) as Hnext. cbn in Hnext. rewrite Hnext.
  destruct (valid_plain s2 c' Hv2) as [-> ->]; [apply Forall_cons in Hf as [Hf _]; by apply (geom_valid _ _ _ (qu_geom _ _ Q)) |]. cbn [orb].
  destruct (IH s2 (c' :: l) size max_size (got + k) Hv2) as (s' & E & Q' & Hv'); try (done || lia).
  - apply (chain_same s); [by apply (chain_tail_ok s c) | done | done |]. intros x _. by apply quiet_fat_at.
  - rewrite (csize_geom _ _ (qu_geom _ _ Q)). cbn [length] in *. lia.
  - cbn [hd] in E. rewrite E. exists s'. split; [| split; [by etrans | done]]. do 2 f_equal. cbn [mbind option_bind].
    rewrite (take_app_ge (cl_data s c)), (take_ge (cl_data s c)) by lia. f_equal.
    assert (Em : map (cl_data s2) (c' :: l) = map (cl_data s) (c' :: l)).
    { apply map_ext. intros x. by apply (changes_cl_data (fun _ => False)); [apply changes_quiet | tauto |]. }
    rewrite Em. change (cl_data s c' ++ concat (map (cl_data s) l)) with (concat (map (cl_data s) (c' :: l))).
    assert (Et : Z.to_nat (Z.min size max_size - (got + k)) = (Z.to_nat (Z.min size max_size - got) - length (cl_data s c))%nat) by lia. by rewrite Et.
Qed.

(** ** Writing and reading a file *)

Definition clusters_for s (size : Z) : nat := Z.to_nat ((size + csize s - 1) / csize s).

Lemma clusters_for_ok s size : vol_ok s -> 0 <= size < 2 ^ 32 - 2 ^ 14 ->
  Z.to_nat ((size +! cluster_size s -! 1) / cluster_size s) = clusters_for s size /\ size <= csize s * Z.of_nat (clusters_for s size) /\ (clusters_for s size = 0%nat <-> size = 0).
Proof.
  intros Hv Hs. destruct (cluster_size_eq s (vol_works s Hv)) as (-> & _ & Hc). unfold FAT_MAX_CLUSTER_BYTES in Hc. unfold clusters_for.
  rewrite (u32_small (size + csize s)), (u32_small (size + csize s - 1)) by (unfold is_u32; lia). split; [done |].
  pose proof (Z.div_mod (size + csize s - 1) (csize s) ltac:(lia)) as Hd. pose proof (Z.mod_pos_bound (size + csize s - 1) (csize s) ltac:(lia)) as Hm.
  set (q := (size + csize s - 1) / csize s) in *. assert (0 <= q) by (apply Z.div_pos; lia). split; [lia |]. split; [| intros ->].
  - intros E. assert (q = 0) by lia. nia.
  - unfold q. rewrite Z.div_small by lia. done.
Qed.

(** The clusters of [s0] that are in use keep their entries and contents. *)
Definition keeps_used s0 s : Prop := forall c, valid s0 c -> fat_at s0 c <> 0 -> fat_at s c = fat_at s0 c /\ cl_data s c = cl_data s0 c.

Lemma fat_changes_data s0 s c : changes (in_fat s0) s0 s -> vol_ok s0 -> valid s0 c -> cl_data s c = cl_data s0 c.
Proof. intros Hc Hv Hvc. apply (changes_cl_data _ _ _ _ Hc); [| done]. intros k Hk Hin. by apply (cluster_not_fat s0 c k (vol_works s0 Hv) Hvc) in Hin. Qed.

(** What a new file leaves in the state, before its directory entry is written. *)
Record stored s0 s (first : Z) (data : list Z) (l : list Z) : Prop := {
  st_vol : vol_ok s;
  st_chain : file_chain s l;
  st_first : first = hd 0 l;
  st_len : length l = clusters_for s0 (Z.of_nat (length data));
  st_free : Forall (fun c => valid s0 c /\ fat_at s0 c = 0) l;
  st_rest : forall m, valid s0 m -> m ∉ l -> fat_at s m = fat_at s0 m;
  st_changes : changes (fun k => in_fat s0 k \/ in_chain s0 l k) s0 s;
  st_data : forall m, (m <= length data)%nat -> take m (concat (map (cl_data s) l)) = take m data;
}.

Lemma stored_keeps s0 s first data l : vol_ok s0 -> stored s0 s first data l -> keeps_used s0 s.
Proof.
  intros Hv [_ _ _ _ Hf Hr Hc _] c Hvc Hu. rewrite Forall_forall in Hf.
  assert (Hn : c ∉ l) by (intros H; by destruct (Hf c H)). split; [by apply Hr |]. apply (changes_cl_data _ _ _ _ Hc); [| done].
  intros k Hk [Hin | (x & Hx & Hin)].
  - by apply (cluster_not_fat s0 c k (vol_works s0 Hv) Hvc) in Hin.
  - destruct (Hf x Hx) as [Hvx _]. by rewrite (cluster_apart s0 c x k (vol_works s0 Hv) Hvc Hvx Hk Hin) in Hn.
Qed.

(** The two loops of [fat_create_file] that store the data. *)
Lemma store_ok s data : vol_ok s -> Forall is_u8 data -> Z.of_nat (length data) < 2 ^ 32 - 2 ^ 14 ->
  exists s1 r, alloc_chain (clusters_for s (Z.of_nat (length data))) s 0 0 = (s1, r) /\ match r with
    | None => same_table s s1 /\ forall F, NoDup F -> Forall (fun c => valid s c /\ fat_at s c = 0) F -> (length F < clusters_for s (Z.of_nat (length data)))%nat
    | Some first => exists s2 l, write_chain (clusters_for s (Z.of_nat (length data))) s1 first data = (s2, true) /\ stored s s2 first data l
    end.
Proof.
  intros Hv Hd Hl. set (n := clusters_for s (Z.of_nat (length data))).
  assert (Hg0 : grown s s []) by (constructor; [done | by apply changes_quiet | apply chain_nil | done | done]).
  destruct (alloc_chain_ok n s s [] 0 Hv Hg0) as (s1 & r & E & Hr); [by left |]. cbn [hd app length] in *. exists s1, r. split; [done |].
  destruct r as [first |]; [| done]. destruct Hr as (l & Hlen & [Hv1 Hc1 Hch Hfree Hrest] & ->).
  destruct (write_chain_ok l s1 data Hv1 Hch Hd) as (s2 & Ew & Hv2 & Hc2 & _ & Hp). exists s2, l. rewrite Hlen in Ew. split; [done |].
  pose proof (ch_geom _ _ _ Hc1) as Hg1. assert (Hfv : Forall (valid s1) l) by apply Hch.
  assert (Hat : forall m, valid s m -> fat_at s2 m = fat_at s1 m).
  { intros m Hm. apply (changes_fat_at _ _ _ _ Hc2); [| done | by apply (geom_valid _ _ _ Hg1)]. intros k Hk. by apply chain_not_fat. }
  pose proof (geom_fields _ _ (ch_geom _ _ _ Hc2)) as (F1 & F2 & _). constructor.
  - done.
  - apply (chain_same s1); [done | done | done |]. intros c Hc. apply Hat. rewrite Forall_forall in Hfv. by apply (geom_valid _ _ _ Hg1), Hfv.
  - done.
  - done.
  - rewrite Forall_forall in Hfv, Hfree |- *. intros c Hc. split; [by apply (geom_valid _ _ _ Hg1), Hfv | by apply Hfree].
  - intros m Hm Hn. by rewrite Hat, Hrest.
  - apply (changes_trans _ s s1); [eapply changes_weaken; [| exact Hc1]; tauto |]. eapply changes_weaken; [| exact Hc2].
    intros k (c & Hc & Hk). right. exists c. split; [done | by apply (in_cluster_geom _ _ _ _ Hg1)].
  - destruct (clusters_for_ok s (Z.of_nat (length data)) Hv ltac:(lia)) as (_ & Hcov & _). fold n in Hcov. rewrite <- Hlen in Hcov.
    destruct (cluster_size_eq s (vol_works s Hv)) as (_ & _ & Hcs). apply (concat_pieces s1); rewrite ?(csize_geom _ _ Hg1); (done || lia).
Qed.
End File.
