(* ===== verification/FatLookup.v ===== *)
(** * FatLookup: directories as lists of entries ([kernel/fat.c])

    The enumeration of a directory as a pure function of the bytes of its blocks,
    and lookup and listing on it. *)

From S2P Require Import Prelude Disk Fat FatProps FatDir FatWalk FatFile.

(** ** Entries of a block *)

Fixpoint block_entries (n : nat) (type : Z) (buf : list Z) (b : dir_block_t) (off : Z) (st : lfn_state_t) : list fat_dirent_t * lfn_state_t * bool :=
  match n with
  | O => ([], st, false)
  | S n' =>
      let e := slice buf off 32 in
      if aget 0 e 0 =? 0x00 then ([], st, true)
      else if aget 0 e 0 =? DELETED_ENTRY then block_entries n' type buf b (off + 32) (lfn_reset st)
      else if is_lfn e then block_entries n' type buf b (off + 32) (lfn_push (set_cksum st (aget 0 e 13)) e)
      else
        let '(l, st', fin) := block_entries n' type buf b (off + 32) (lfn_reset st) in
        (match dirent_from_short type e st b off with Some de => de :: l | None => l end, st', fin)
  end.

(** All entries of a directory up to the end mark. *)
Fixpoint all_entries (type : Z) (bs : list (dir_block_t * list Z)) (st : lfn_state_t) : list fat_dirent_t :=
  match bs with
  | [] => []
  | (b, buf) :: bs' =>
      let '(l, st, fin) := block_entries (Z.to_nat (db_bytes b / 32)) type buf b 0 (lfn_reset st) in
      if fin : bool then l else l ++ all_entries type bs' st
  end.

(** A callback that does not touch the file system is a function [f]; it is fed
    with entries until it asks to stop. *)
Fixpoint feed {A} (f : fat_dirent_t -> A -> A * bool) (l : list fat_dirent_t) (a : A) : A * Z * bool :=
  match l with
  | [] => (a, 0, false)
  | de :: l' => let '(a, stop) := f de a in if stop : bool then (a, 1, true) else let '(a, k, stop) := feed f l' a in (a, 1 + k, stop)
  end.

Lemma feed_app {A} (f : fat_dirent_t -> A -> A * bool) l l' a : feed f (l ++ l') a =
  let '(a1, k, stop) := feed f l a in if stop : bool then (a1, k, true) else let '(a2, k', stop) := feed f l' a1 in (a2, k + k', stop).
Proof.
  revert a. induction l as [| de l IH]; intros a; cbn [app feed].
  - destruct (feed f l' a) as [[a2 k'] stop]. by rewrite Z.add_0_l.
  - destruct (f de a) as [a1 [|]]; [done |]. rewrite IH. destruct (feed f l a1) as [[a2 k] [|]]; [done |].
    destruct (feed f l' a2) as [[a3 k'] stop]. do 2 f_equal. lia.
Qed.

Section Lookup.
Context {D : Type} `{BD : BlockDev D}.
Implicit Types s : fatfs D.
(** A callback that acts on its own state as [f] does and at most loads the
    cache of the table, whatever quiet state it runs in. *)
Definition quiet_cb {A} s0 (cb : dirent_cb A) (f : fat_dirent_t -> A -> A * bool) : Prop := forall s de a, quiet s0 s -> vol_ok s ->
  exists s', cb s de a = (s', fst (f de a), snd (f de a)) /\ quiet s s' /\ vol_ok s'.

Lemma pure_quiet {A} s0 (cb : dirent_cb A) f : (forall s de a, cb s de a = (s, fst (f de a), snd (f de a))) -> quiet_cb s0 cb f.
Proof. intros H s de a _ Hv. by exists s. Qed.

Lemma scan_block_ok {A} s0 (cb : dirent_cb A) f (Hcb : quiet_cb s0 cb f) n : forall s buf b off st count a, quiet s0 s -> vol_ok s ->
  exists s' st', scan_block n cb s buf b off st count a =
    (let '(l, st1, fin) := block_entries n (fat_type s0) buf b off st in
     let '(a', k, stop) := feed f l a in
     if stop : bool then (s', st', count + k, a', true) else (s', st1, count + k, a', fin)) /\ quiet s s' /\ vol_ok s'.
Proof.
  pose proof (quiet_preorder (BD := BD)) as Hpre.
  induction n as [| n IH]; intros s buf b off st count a Q V; cbn [scan_block block_entries].
  { exists s, st. cbn [feed]. by rewrite Z.add_0_r. }
  destruct (aget 0 (slice buf off 32) 0 =? 0x00); [exists s, st; cbn [feed]; by rewrite Z.add_0_r |].
  destruct (aget 0 (slice buf off 32) 0 =? DELETED_ENTRY); [by apply IH |].
  destruct (is_lfn (slice buf off 32)); [by apply IH |].
  destruct (geom_fields _ _ (qu_geom _ _ Q)) as (_ & Et & _). rewrite Et.
  destruct (dirent_from_short (fat_type s0) (slice buf off 32) st b off) as [de |].
  - destruct (Hcb s de a Q V) as (s1 & -> & Q1 & V1). destruct (f de a) as [a1 stop] eqn:Ef. cbn [fst snd]. destruct stop.
    + exists s1, st. destruct (block_entries n (fat_type s0) buf b (off + 32) (lfn_reset st)) as [[l st1] fin]. cbn [feed]. by rewrite Ef.
    + destruct (IH s1 buf b (off + 32) (lfn_reset st) (count + 1) a1) as (s2 & st' & -> & Q2 & V2); [by etrans | done |]. exists s2, st'. split; [| split; [by etrans | done]].
      destruct (block_entries n (fat_type s0) buf b (off + 32) (lfn_reset st)) as [[l st1] fin]. cbn [feed]. rewrite Ef.
      destruct (feed f l a1) as [[a2 k] [|]]; do 3 f_equal; lia.
  - destruct (IH s buf b (off + 32) (lfn_reset st) count a Q V) as (s2 & st' & -> & Q2 & V2). exists s2, st'. split; [| done].
    by destruct (block_entries n (fat_type s0) buf b (off + 32) (lfn_reset st)) as [[l st1] fin].
Qed.

(** ** Blocks on the disk *)

Definition root_block s (i : Z) : dir_block_t := mk_db 0 (root_dir_sector (fi s) + i) 512.
Definition block_ok s (b : dir_block_t) : Prop :=
  (exists c, valid s c /\ b = cluster_block s c) \/ (exists i, 0 <= i < root_dir_sectors (fi s) /\ b = root_block s i).
Definition block_len (b : dir_block_t) : nat := Z.to_nat (db_bytes b / 512).
Definition block_data s (b : dir_block_t) : list Z := run_bytes (disk s) (fat_drive s) (fat_part_start s + db_sector b) (block_len b).
Definition in_block (b : dir_block_t) (k : Z) : Prop := db_sector b <= k < db_sector b + Z.of_nat (block_len b).

Lemma block_bounds s b : vol_ok s -> block_ok s b ->
  db_bytes b = 512 * Z.of_nat (block_len b) /\ 512 <= db_bytes b <= FAT_MAX_CLUSTER_BYTES /\ reserved_sectors (fi s) + fat_sectors (fi s) <= db_sector b /\
  db_sector b + Z.of_nat (block_len b) <= total_sectors (fi s) /\ fat_part_start s +! db_sector b = fat_part_start s + db_sector b.
Proof.
  intros Hv Hb. pose proof (vol_works s Hv) as Hw. pose proof Hv as [G _ _ _ _]. pose proof (go_lba _ _ _ G) as Hlba. pose proof (geo_small s Hw) as (P1 & P2 & P3 & P4 & P5).
  assert (Hgoal : db_bytes b = 512 * Z.of_nat (block_len b) /\ 512 <= db_bytes b <= FAT_MAX_CLUSTER_BYTES /\ reserved_sectors (fi s) + fat_sectors (fi s) <= db_sector b /\
    db_sector b + Z.of_nat (block_len b) <= total_sectors (fi s)).
  { unfold block_len. destruct Hb as [(c & Hc & ->) | (i & Hi & ->)]; cbn [cluster_block root_block db_bytes db_sector].
    - destruct (cluster_size_eq s Hw) as (-> & _ & Hcs). destruct (cl_bounds s c Hw Hc) as (B1 & B2 & B3 & B4).
      destruct (cluster_sector_eq s c Hw Hc) as (-> & _). unfold csize in *. rewrite (Z.mul_comm 512), Z.div_mul by lia. lia.
    - change (512 / 512) with 1. destruct G as [G1 G2 G3 G4 G5 G6 G7 [G8 G8'] G9 G10 G11]. unfold FAT_MAX_CLUSTER_BYTES.
      assert (fat_sectors (fi s) <= num_fats (fi s) * fat_sectors (fi s)) by nia. assert (0 <= cluster_count (fi s) * sectors_per_cluster (fi s)) by nia. lia. }
  destruct Hgoal as (H1 & H2 & H3 & H4). do 4 (split; [done |]). apply u32_small. unfold is_u32. lia.
Qed.

Lemma block_data_ok s b : vol_ok s -> block_ok s b -> Z.of_nat (length (block_data s b)) = db_bytes b /\ Forall is_u8 (block_data s b).
Proof.
  intros Hv Hb. destruct (block_bounds s b Hv Hb) as (E & _). unfold block_data.
  destruct (run_bytes_ok (disk s) (fat_drive s) (fat_part_start s + db_sector b) (block_len b)) as [-> ?]. split; [lia | done].
Qed.

Lemma block_quiet_data s s' b : quiet s s' -> block_data s' b = block_data s b.
Proof. intros [Hg _ Hd]. apply geom_fields in Hg as (_ & _ & E3 & E4 & _). unfold block_data. rewrite E3, E4. by apply same_disk_run. Qed.

Lemma block_geom s s' b : geom s' = geom s -> block_ok s' b <-> block_ok s b.
Proof.
  intros (E & _)%geom_fields. unfold block_ok, cluster_block, root_block, valid, cluster_sector, cluster_size. by rewrite E.
Qed.

Lemma read_block_ok s b : vol_ok s -> block_ok s b -> exists s', fat_read_block s b = (s', Some (block_data s b)) /\ quiet s s' /\ vol_ok s'.
Proof.
  intros Hv Hb. destruct (block_bounds s b Hv Hb) as (E1 & E2 & E3 & E4 & E5). pose proof (block_data_ok s b Hv Hb) as [Hl _].
  unfold fat_read_block. rewrite E5. fold (block_len b). destruct Hv as [G Hu Hbuf Hc Hh]. pose proof (go_lba _ _ _ G). pose proof (go_reserved _ _ _ G).
  pose proof (geo_small s (conj G Hu)) as (P1 & _).
  destruct (read_run_ok (block_len b) (disk s) (fat_drive s) (fat_part_start s + db_sector b) scratch 0) as (d & E & Hd); try lia.
  - unfold scratch. rewrite length_replicate. lia.
  - intros k Hk. rewrite <- Z.add_assoc. apply Hu. lia.
  - rewrite E. exists (with_disk s d). split; [| split; [by constructor | by apply vol_ok_disk]]. do 2 f_equal.
    change (run_bytes (disk s) (fat_drive s) (fat_part_start s + db_sector b) (block_len b)) with (block_data s b).
    unfold splice. change (Z.to_nat 0) with 0%nat. rewrite take_0, app_nil_l, take_app_le by lia. apply take_ge. lia.
Qed.

Lemma write_block_ok s b buf : vol_ok s -> block_ok s b -> Z.of_nat (length buf) = db_bytes b -> Forall is_u8 buf ->
  exists s', fat_write_block s b buf = (s', true) /\ vol_ok s' /\ changes (in_block b) s s' /\ block_data s' b = buf.
Proof.
  intros Hv Hb Hl Hf. destruct (block_bounds s b Hv Hb) as (E1 & E2 & E3 & E4 & E5). unfold fat_write_block. rewrite E5. fold (block_len b).
  pose proof Hv as [G Hu Hbuf Hc Hh]. pose proof (go_lba _ _ _ G). pose proof (go_reserved _ _ _ G). pose proof (geo_small s (conj G Hu)) as (P1 & _).
  destruct (write_run_ok (block_len b) (disk s) (fat_drive s) (fat_part_start s + db_sector b) buf 0) as (d & E & U & C & S); try (done || lia).
  { intros k Hk. rewrite <- Z.add_assoc. apply Hu. lia. }
  rewrite E. exists (with_disk s d). split; [done |].
  assert (Hch : changes (in_block b) s (with_disk s d)).
  { constructor; try done. intros v l Hn. cbn [with_disk disk]. rewrite S. unfold in_block in Hn.
    destruct (Z.eqb_spec v (fat_drive s)), (Z.leb_spec (fat_part_start s + db_sector b) l), (Z.ltb_spec l (fat_part_start s + db_sector b + Z.of_nat (block_len b)));
      cbn [andb]; try done. destruct Hn; [done | lia]. }
  split; [| split; [done |]].
  - destruct (changes_works _ _ _ Hch (conj G Hu)) as [W1 W2]. constructor; try done.
    destruct Hc as [? | (K1 & K2 & K3 & K4)]; [by left | right]. split; [done |]. split; [done |]. split; [done |]. intros i Hi.
    etrans; [by apply K4 |]. f_equal. symmetry. apply (changes_vsec _ _ _ _ Hch). cbn [with_disk fat_cache_sec fat_cache_n] in *. unfold in_block.
    Z.to_euclidean_division_equations; lia.
  - unfold block_data. cbn [with_disk disk fat_drive fat_part_start]. rewrite (run_bytes_slices (block_len b) _ _ _ buf 0); [| lia | lia |].
    + unfold slice. change (Z.to_nat 0) with 0%nat. rewrite drop_0. apply take_ge. lia.
    + intros k Hk. rewrite S, Z.eqb_refl.
      destruct (Z.leb_spec (fat_part_start s + db_sector b) (fat_part_start s + db_sector b + k)),
        (Z.ltb_spec (fat_part_start s + db_sector b + k) (fat_part_start s + db_sector b + Z.of_nat (block_len b))); try lia. cbn [andb]. f_equal. lia.
Qed.

(** ** The blocks of a directory *)

(** From the state [w] the walk goes through the blocks [l] and ends. *)
Inductive walks s : fat_dir_walk_t -> list dir_block_t -> Prop :=
  | walks_end w : block_ok s (fast w) ->
      (forall s1, quiet s s1 -> vol_ok s1 -> exists s2, fat_dir_walk_next s1 w = (s2, None) /\ quiet s s2 /\ vol_ok s2) -> walks s w [fast w]
  | walks_step w w' l : block_ok s (fast w) ->
      (forall s1, quiet s s1 -> vol_ok s1 -> exists s2, fat_dir_walk_next s1 w = (s2, Some w') /\ quiet s s2 /\ vol_ok s2) -> walks s w' l ->
      walks s w (fast w :: l).

(** The clusters of a chain that ends, its first one first. *)
Record dir_chain s (l : list Z) : Prop := {
  dc_valid : Forall (valid s) l;
  dc_nodup : NoDup l;
  dc_next : forall i c, l !! i = Some c -> match l !! S i with Some c' => fat_at s c = c' | None => ~ valid s (fat_at s c) end;
}.

Inductive dir_blocks s : Z -> list dir_block_t -> Prop :=
  | db_chain c l : dir_chain s (c :: l) -> dir_blocks s c (map (cluster_block s) (c :: l))
  | db_root : fat_type s <> 32 -> 0 < root_dir_sectors (fi s) -> dir_blocks s 0 (map (root_block s) (seqZ 0 (root_dir_sectors (fi s)))).

Lemma chain_orbit s l j c : dir_chain s l -> l !! j = Some c -> orb (fat_at s) (hd 0 l) j = c.
Proof.
  intros [_ _ Hx]. revert c. induction j as [| j IH]; intros c Hj; destruct l as [| x l]; try done.
  - by injection Hj.
  - rewrite orb_S. destruct ((x :: l) !! j) as [y |] eqn:Ey; [| apply lookup_ge_None in Ey; apply lookup_lt_Some in Hj; lia].
    rewrite (IH y eq_refl). specialize (Hx j y Ey). by rewrite Hj in Hx.
Qed.

Lemma chain_walks s c l : vol_ok s -> dir_chain s (c :: l) -> walks s (walk_at s c 0) (map (cluster_block s) (c :: l)) /\ (length (c :: l) <= Z.to_nat (cluster_count (fi s)))%nat.
Proof.
  intros Hv Hch. pose proof Hch as [Hf Hn Hx]. set (m := length l).
  assert (Horb : forall j, (j <= m)%nat -> (c :: l) !! j = Some (orb (fat_at s) c j)).
  { intros j Hj. destruct ((c :: l) !! j) as [x |] eqn:E; [| apply lookup_ge_None in E; cbn in E; lia]. by rewrite <- (chain_orbit s (c :: l) j x Hch E). }
  assert (Hval : forall j, (j <= m)%nat -> valid s (orb (fat_at s) c j)) by (intros j Hj; rewrite Forall_lookup in Hf; by apply (Hf j), Horb).
  assert (Hend : ~ valid s (orb (fat_at s) c (S m))).
  { specialize (Hx m _ (Horb m ltac:(lia))). rewrite lookup_ge_None_2 in Hx by (cbn; lia). by rewrite orb_S. }
  assert (Hcount : (S m <= Z.to_nat (cluster_count (fi s)))%nat).
  { assert (Hsub : (c :: l) ⊆+ seqZ 2 (cluster_count (fi s))).
    { apply NoDup_submseteq; [done |]. intros x Hxin. rewrite Forall_forall in Hf. specialize (Hf x Hxin). apply elem_of_seqZ. unfold valid in Hf. lia. }
    apply submseteq_length in Hsub. rewrite length_seqZ in Hsub. cbn in Hsub. lia. }
  split; [| cbn; lia]. pose proof Hv as [G _ _ _ _]. pose proof (go_count _ _ _ G).
  assert (Hends : ends_at (fat_at s) c (valid s) (count_nat s) m) by (apply finite_end; [unfold count_nat; lia | done | done]). destruct Hends as [Hgo Hstop].
  assert (Hfrom : forall n k, (k + n = m)%nat -> walks s (walk_at s c k) (map (cluster_block s) (drop k (c :: l)))).
  { induction n as [| n IH]; intros k Hk.
    - assert (k = m) as -> by lia. rewrite (drop_S _ _ _ (Horb m ltac:(lia))), drop_ge by (cbn; lia). cbn [map].
      change (cluster_block s (orb (fat_at s) c m)) with (fast (walk_at s c m)). apply walks_end.
      + left. exists (orb (fat_at s) c m). split; [by apply Hval | done].
      + intros s1 Q V. rewrite <- (walk_quiet s s1) by done. destruct (walk_next_ok s1 c m V) as (s2 & Q2 & V2 & E).
        * intros j Hj. rewrite (orbit_quiet _ _ _ _ Q). apply (valid_quiet _ _ _ Q). by apply Hval.
        * unfold count_nat. destruct (geom_fields _ _ (qu_geom _ _ Q)) as (-> & _). lia.
        * rewrite (goes_quiet _ _ _ _ Q), Hstop in E. exists s2. split; [done |]. split; [by etrans | done].
    - rewrite (drop_S _ _ _ (Horb k ltac:(lia))). cbn [map]. change (cluster_block s (orb (fat_at s) c k)) with (fast (walk_at s c k)).
      apply walks_step with (w' := walk_at s c (S k)).
      + left. exists (orb (fat_at s) c k). split; [apply Hval; lia | done].
      + intros s1 Q V. rewrite <- (walk_quiet s s1) by done. destruct (walk_next_ok s1 c k V) as (s2 & Q2 & V2 & E).
        * intros j Hj. rewrite (orbit_quiet _ _ _ _ Q). apply (valid_quiet _ _ _ Q). apply Hval. lia.
        * unfold count_nat. destruct (geom_fields _ _ (qu_geom _ _ Q)) as (-> & _). lia.
        * rewrite (goes_quiet _ _ _ _ Q), (Hgo k) in E by lia. exists s2. split; [by rewrite E, (walk_quiet s s1) |]. split; [by etrans | done].
      + apply IH. lia. }
  specialize (Hfrom m 0%nat ltac:(lia)). by rewrite drop_0 in Hfrom.
Qed.

(** The fixed root directory: consecutive sectors. *)
Definition root_at s (i : nat) : fat_dir_walk_t :=
  mk_walk (root_block s (Z.of_nat i)) (root_block s (Z.of_nat (Nat.div2 i))) (Z.of_nat i) (root_dir_sectors (fi s)).

Lemma root_small s : vol_ok s -> 0 <= root_dir_sector (fi s) /\ 0 <= root_dir_sectors (fi s) /\ root_dir_sector (fi s) + root_dir_sectors (fi s) < 2 ^ 32 - 1.
Proof.
  intros Hv. pose proof (geo_small s (vol_works s Hv)) as (P1 & P2 & P3 & P4 & P5). destruct Hv as [[G1 G2 G3 G4 G5 G6 G7 [G8 G8'] G9 G10 G11] _ _ _ _].
  assert (0 <= cluster_count (fi s) * sectors_per_cluster (fi s)) by nia. assert (0 <= num_fats (fi s) * fat_sectors (fi s)) by nia. lia.
Qed.

Lemma root_step_ok s i : vol_ok s -> 0 <= i < root_dir_sectors (fi s) ->
  fat_dir_step s (root_block s i) = (s, if i + 1 <? root_dir_sectors (fi s) then Some (root_block s (i + 1)) else None).
Proof.
  intros Hv Hi. destruct (count_small s Hv) as (_ & _ & Ht). pose proof (go_bps _ _ _ (vo_geo _ Hv)) as Hbps.
  pose proof (root_small s Hv).
  unfold fat_dir_step. rewrite (proj2 (Z.eqb_neq _ _) Ht). cbn [root_block db_cluster db_sector Z.eqb]. ured. rewrite Hbps. unfold root_block.
  destruct (Z.leb_spec (root_dir_sector (fi s) + root_dir_sectors (fi s)) (root_dir_sector (fi s) + i + 1)), (Z.ltb_spec (i + 1) (root_dir_sectors (fi s))); try lia; [done |].
  by rewrite Z.add_assoc.
Qed.

Lemma root_quiet s s' i : quiet s s' -> root_block s' i = root_block s i /\ root_at s' (Z.to_nat i) = root_at s (Z.to_nat i).
Proof. intros Q. destruct (geom_fields _ _ (qu_geom _ _ Q)) as (E & _). unfold root_at, root_block. by rewrite E. Qed.

Lemma root_next_ok s i : vol_ok s -> Z.of_nat i < root_dir_sectors (fi s) ->
  fat_dir_walk_next s (root_at s i) = (s, if Z.of_nat (S i) <? root_dir_sectors (fi s) then Some (root_at s (S i)) else None).
Proof.
  intros Hv Hi. unfold fat_dir_walk_next. change (fast (root_at s i)) with (root_block s (Z.of_nat i)). rewrite root_step_ok by (done || lia).
  replace (Z.of_nat i + 1) with (Z.of_nat (S i)) by lia. destruct (Z.ltb_spec (Z.of_nat (S i)) (root_dir_sectors (fi s))) as [Hn |]; [| done].
  change (steps (root_at s i)) with (Z.of_nat i). change (wmax (root_at s i)) with (root_dir_sectors (fi s)).
  pose proof (root_small s Hv).
  rewrite u32_small by (unfold is_u32; lia). replace (Z.of_nat i + 1) with (Z.of_nat (S i)) by lia. destruct (Z.leb_spec (root_dir_sectors (fi s)) (Z.of_nat (S i))); [lia |].
  rewrite even_land. change (slow (root_at s i)) with (root_block s (Z.of_nat (Nat.div2 i))).
  assert (Hd : (Nat.div2 i <= i)%nat) by (apply Nat.div2_decr; lia).
  assert (Hh : 0 <= Z.of_nat (Nat.div2 i) /\ Z.of_nat (Nat.div2 i) + 1 < root_dir_sectors (fi s)) by (generalize dependent (Nat.div2 i); lia).
  destruct (Nat.even (S i)) eqn:Ev.
  - rewrite root_step_ok by (done || (destruct Hh; split; [assumption | apply Z.lt_trans with (2 := H2); apply Z.lt_succ_diag_r])). rewrite (proj2 (Z.ltb_lt _ _) (proj2 Hh)).
    cbn [root_block db_cluster Z.eqb negb andb]. unfold root_at, root_block. do 5 f_equal.
    apply Nat.even_spec in Ev as [m Em]. assert (i = S (2 * (m - 1))) as -> by lia. replace (S (S (2 * (m - 1)))) with (2 * S (m - 1))%nat by lia.
    rewrite Nat.div2_double, Nat.div2_succ_double. lia.
  - unfold root_at. do 4 f_equal. rewrite <- Nat.negb_odd in Ev. apply negb_false_iff, Nat.odd_spec in Ev as [m Em]. assert (i = 2 * m)%nat as -> by lia.
    replace (S (2 * m)) with (2 * m + 1)%nat by lia. rewrite Nat.add_1_r, Nat.div2_double, Nat.div2_succ_double. done.
Qed.

Lemma root_walks s : vol_ok s -> 0 < root_dir_sectors (fi s) -> walks s (root_at s 0) (map (root_block s) (seqZ 0 (root_dir_sectors (fi s)))).
Proof.
  intros Hv Hr. set (m := root_dir_sectors (fi s)) in *.
  assert (Hfrom : forall n k, Z.of_nat (k + S n) = m -> walks s (root_at s k) (map (root_block s) (seqZ (Z.of_nat k) (Z.of_nat (S n))))).
  { induction n as [| n IH]; intros k Hk; rewrite seqZ_cons by lia; cbn [map]; change (root_block s (Z.of_nat k)) with (fast (root_at s k)).
    - change (seqZ (Z.succ (Z.of_nat k)) (Z.pred (Z.of_nat 1))) with (@nil Z). cbn [map]. apply walks_end.
      + right. exists (Z.of_nat k). split; [lia | done].
      + intros s1 Q V. destruct (root_quiet s s1 (Z.of_nat k) Q) as [_ E]. rewrite Nat2Z.id in E. destruct (geom_fields _ _ (qu_geom _ _ Q)) as (Ef & _). exists s1. split; [| done].
        rewrite <- E, root_next_ok by (rewrite ?Ef; (done || lia)). rewrite Ef. destruct (Z.ltb_spec (Z.of_nat (S k)) (root_dir_sectors (fi s))); [lia | done].
    - apply walks_step with (w' := root_at s (S k)).
      + right. exists (Z.of_nat k). split; [lia | done].
      + intros s1 Q V. destruct (root_quiet s s1 (Z.of_nat k) Q) as [_ E]. rewrite Nat2Z.id in E. destruct (geom_fields _ _ (qu_geom _ _ Q)) as (Ef & _). exists s1. split; [| done].
        rewrite <- E, root_next_ok by (rewrite ?Ef; (done || lia)). rewrite Ef. destruct (Z.ltb_spec (Z.of_nat (S k)) (root_dir_sectors (fi s))); [| lia].
        destruct (root_quiet s s1 (Z.of_nat (S k)) Q) as [_ E']. rewrite Nat2Z.id in E'. by rewrite E'.
      + replace (Z.succ (Z.of_nat k)) with (Z.of_nat (S k)) by lia. replace (Z.pred (Z.of_nat (S (S n)))) with (Z.of_nat (S n)) by lia. apply IH. lia. }
  specialize (Hfrom (Z.to_nat (m - 1)) 0%nat ltac:(lia)). by replace (Z.of_nat (S (Z.to_nat (m - 1)))) with m in Hfrom by lia.
Qed.

(** The start of a walk over a directory, with enough steps for its blocks. *)
Lemma dir_starts s dir bs : vol_ok s -> dir_blocks s dir bs -> exists w, walks s w bs /\ (length bs <= Z.to_nat (wmax w))%nat /\
  forall s1, quiet s s1 -> vol_ok s1 -> fat_dir_walk_start s1 dir = (s1, Some w).
Proof.
  intros Hv Hd. destruct Hd as [c l Hch | Ht Hr].
  - destruct (chain_walks s c l Hv Hch) as [Hw Hl]. exists (walk_at s c 0). split; [done |]. split.
    { rewrite length_map. change (wmax (walk_at s c 0)) with (cluster_count (fi s) + 2). lia. }
    intros s1 Q V. rewrite <- (walk_quiet s s1) by done. apply walk_start_ok; [done |]. apply (valid_quiet _ _ _ Q).
    destruct Hch as [Hf _ _]. by apply Forall_cons in Hf as [Hf _].
  - exists (root_at s 0). split; [by apply root_walks |]. split; [rewrite length_map, length_seqZ; cbn; lia |]. intros s1 Q V.
    destruct (geom_fields _ _ (qu_geom _ _ Q)) as (E1 & E2 & _). destruct (count_small s1 V) as (_ & _ & Ht0). pose proof (go_bps _ _ _ (vo_geo _ V)) as Hbps.
    pose proof (root_small s Hv).
    unfold fat_dir_walk_start, fat_dir_max_blocks, fat_dir_block. rewrite (proj2 (Z.eqb_neq _ _) Ht0), E2. cbn [Z.eqb].
    rewrite (proj2 (Z.eqb_neq _ _) Ht). cbn [negb andb]. rewrite E1. destruct (Z.leb_spec (root_dir_sectors (fi s)) 0); [lia |].
    destruct (Z.eqb_spec (root_dir_sectors (fi s)) 0); [lia |]. cbn [negb mbind option_bind]. rewrite E1 in Hbps. rewrite Hbps.
    rewrite u32_small by (unfold is_u32; lia). done.
Qed.

(** A directory whose table entries are kept has the same blocks. *)
Lemma blocks_same s s' dir bs : dir_blocks s dir bs -> geom s' = geom s -> (forall b, b ∈ bs -> db_cluster b <> 0 -> fat_at s' (db_cluster b) = fat_at s (db_cluster b)) ->
  dir_blocks s' dir bs.
Proof.
  intros Hd Hg Hat. pose proof (geom_fields _ _ Hg) as (E1 & E2 & _).
  assert (Eb : forall c, cluster_block s c = cluster_block s' c) by (intros c; unfold cluster_block, cluster_sector, cluster_size; by rewrite E1).
  destruct Hd as [c l [Hf Hn Hx] | Ht Hr].
  - rewrite (map_ext _ _ Eb) in *. constructor. constructor; [| done |].
    + eapply Forall_impl; [exact Hf |]. intros x. unfold valid. by rewrite E1.
    + intros i x Hi. specialize (Hx i x Hi). rewrite Forall_lookup in Hf. specialize (Hf _ _ Hi). assert (E : fat_at s' x = fat_at s x).
      { apply (Hat (cluster_block s' x)); [| unfold valid in Hf; cbn; lia]. apply list_elem_of_In, in_map_iff. exists x. split; [done |]. apply list_elem_of_In, list_elem_of_lookup. by exists i. }
      rewrite E. destruct ((c :: l) !! S i); [done |]. unfold valid in *. by rewrite E1.
  - assert (Er : map (root_block s) (seqZ 0 (root_dir_sectors (fi s))) = map (root_block s') (seqZ 0 (root_dir_sectors (fi s')))) by (unfold root_block; by rewrite E1).
    rewrite Er. constructor; [by rewrite E2 | by rewrite E1].
Qed.

Lemma blocks_quiet s s' dir bs : quiet s s' -> dir_blocks s dir bs -> dir_blocks s' dir bs.
Proof. intros Q Hd. apply (blocks_same s); [done | apply Q |]. intros b _ _. by apply quiet_fat_at. Qed.

(** ** Enumeration *)

Definition contents s (bs : list dir_block_t) : list (dir_block_t * list Z) := map (fun b => (b, block_data s b)) bs.

Lemma foreach_ok {A} (cb : dirent_cb A) f s w bs (Hcb : quiet_cb s cb f) (Hw : walks s w bs) : forall n s1 st count a, quiet s s1 -> vol_ok s1 -> (length bs <= n)%nat ->
  exists s2, foreach_from n cb s1 w st count a =
    (let '(a', k, _) := feed f (all_entries (fat_type s) (contents s bs) st) a in (s2, a', count + k)) /\ quiet s s2 /\ vol_ok s2.
Proof.
  pose proof (quiet_preorder (BD := BD)) as Hpre.
  induction Hw as [w Hb Hnext | w w' l Hb Hnext Hw IH]; intros [| n] s1 st count a Q V Hn; cbn [length] in Hn; try lia; cbn [foreach_from];
    (destruct (read_block_ok s1 (fast w) V) as (s2 & -> & Q2 & V2); [by apply (block_geom _ _ _ (qu_geom _ _ Q)) |]); rewrite (block_quiet_data s s1) by done;
    assert (Q12 : quiet s s2) by (by etrans);
    (destruct (scan_block_ok s cb f Hcb (Z.to_nat (db_bytes (fast w) / 32)) s2 (block_data s (fast w)) (fast w) 0 (lfn_reset st) count a Q12 V2) as (s3 & st' & -> & Q3 & V3));
    assert (Q13 : quiet s s3) by (by etrans); cbn [contents map all_entries];
    destruct (block_entries (Z.to_nat (db_bytes (fast w) / 32)) (fat_type s) (block_data s (fast w)) (fast w) 0 (lfn_reset st)) as [[es st1] fin].
  - rewrite app_nil_r. assert (Ees : (if fin then es else es) = es) by (by destruct fin). rewrite Ees. destruct (feed f es a) as [[a1 k] [|]]; [by exists s3 |].
    destruct fin; [by exists s3 |]. destruct (Hnext s3 Q13 V3) as (s4 & -> & Q4 & V4). exists s4. split; [done |]. split; [by etrans | done].
  - destruct fin.
    + destruct (feed f es a) as [[a1 k] [|]]; by exists s3.
    + rewrite feed_app. destruct (feed f es a) as [[a1 k] [|]]; [by exists s3 |]. destruct (Hnext s3 Q13 V3) as (s4 & -> & Q4 & V4).
      destruct (IH n s4 st1 (count + k) a1) as (s5 & -> & Q5 & V5); [by etrans | done | lia |]. exists s5. split; [| by split].
      change (map (fun b => (b, block_data s b)) l) with (contents s l). destruct (feed f (all_entries (fat_type s) (contents s l) st1) a1) as [[a2 k2] stop2]. f_equal. lia.
Qed.

Variable stack_junk : fatfs D -> list Z.

Notation fat_dir_foreach := (FatDir.fat_dir_foreach stack_junk).
Notation fat_find_entry := (FatDir.fat_find_entry stack_junk).

Definition first_state s : lfn_state_t := mk_lfn (stack_junk s) 0 0 (-1) 0.

(** The entries of a directory, in their order. *)
Definition entries_of s (bs : list dir_block_t) : list fat_dirent_t := all_entries (fat_type s) (contents s bs) (first_state s).

Lemma dir_foreach_ok {A} (cb : dirent_cb A) f s dir bs a : quiet_cb s cb f -> vol_ok s -> dir_blocks s dir bs ->
  exists s', fat_dir_foreach cb s dir a = (let '(a', k, _) := feed f (entries_of s bs) a in (s', a', k)) /\ quiet s s' /\ vol_ok s'.
Proof.
  intros Hcb Hv Hd. destruct (dir_starts s dir bs Hv Hd) as (w & Hw & Hl & Hs). unfold FatDir.fat_dir_foreach. rewrite (Hs s) by done.
  destruct (foreach_ok cb f s w bs Hcb Hw (Z.to_nat (wmax w)) s (first_state s) 0 a) as (s' & E & Q & V); [done | done | done |].
  exists s'. split; [| done]. fold (first_state s). rewrite E. unfold entries_of. by destruct (feed f _ a) as [[a1 k] stop].
Qed.

(** ** Lookup and listing *)

Lemma find_feed name l : fst (fst (feed (fun de a => if name_eq (de_name de) name then (Some de, true) else (a, false)) l None)) =
  List.find (fun de => name_eq (de_name de) name) l.
Proof.
  induction l as [| de l IH]; [done |]. cbn [feed List.find]. destruct (name_eq (de_name de) name); [done |].
  rewrite <- IH. by destruct (feed _ l None) as [[a k] stop].
Qed.

Lemma find_entry_ok s dir bs name : vol_ok s -> dir_blocks s dir bs -> exists s',
  fat_find_entry s dir name = (s', List.find (fun de => name_eq (de_name de) name) (entries_of s bs)) /\ quiet s s' /\ vol_ok s'.
Proof.
  intros Hv Hd. destruct (dir_foreach_ok (find_cb name) (fun de a => if name_eq (de_name de) name then (Some de, true) else (a, false))) with (s := s) (dir := dir) (bs := bs) (a := @None fat_dirent_t)
    as (s' & E & Q & V); [| done | done |].
  - apply pure_quiet. intros s1 de a. unfold find_cb. by destruct (name_eq (de_name de) name).
  - exists s'. split; [| done]. unfold FatDir.fat_find_entry. rewrite E, <- find_feed. by destruct (feed _ (entries_of s bs) None) as [[a k] stop].
Qed.

Lemma list_feed max l : forall a, 0 <= Z.of_nat (length a) <= max ->
  fst (fst (feed (fun de a => if dot_name (de_name de) then (a, false) else if max <=? Z.of_nat (length a) then (a, true) else (a ++ [listed de], false)) l a)) =
  take (Z.to_nat max) (a ++ map listed (List.filter (fun de => negb (dot_name (de_name de))) l)).
Proof.
  induction l as [| de l IH]; intros a Ha; cbn [feed List.filter].
  { cbn [map fst]. rewrite app_nil_r. symmetry. apply take_ge. lia. }
  destruct (dot_name (de_name de)); cbn [negb].
  - rewrite <- IH by done. by destruct (feed _ l a) as [[a1 k] stop].
  - destruct (Z.leb_spec max (Z.of_nat (length a))).
    + cbn [fst]. rewrite take_app_le by lia. symmetry. apply take_ge. lia.
    + cbn [map]. set (r := map listed (List.filter _ l)). change (a ++ listed de :: r) with (a ++ [listed de] ++ r). rewrite app_assoc. unfold r.
      rewrite <- IH by (rewrite length_app; cbn; lia). by destruct (feed _ l (a ++ [listed de])) as [[a1 k] stop].
Qed.

End Lookup.

(** The root directory of the volume [demo_fat]. *)
Definition demo_root : list dir_block_t := [root_block demo_fat 0].

Lemma demo_blocks : dir_blocks demo_fat 0 demo_root.
Proof. change demo_root with (map (root_block demo_fat) (seqZ 0 (root_dir_sectors (fi demo_fat)))). constructor; done. Qed.

