(* ===== verification/FatEntry.v ===== *)
(** * FatEntry: one entry more in a block ([kernel/fat.c])

    The short entry that a creation writes is decoded to the name, the first
    cluster and the size; put into the first free slot of a directory it is one
    more entry of the list, and every other entry stays. *)

From S2P Require Import Prelude Disk Fat FatProps FatDir FatWalk FatFile FatLookup.

(** ** Slots *)

Definition slot (buf : list Z) (j : nat) : list Z := slice buf (32 * Z.of_nat j) 32.
Definition slot_mark (buf : list Z) (j : nat) : Z := aget 0 buf (32 * Z.of_nat j).
Definition slot_free (buf : list Z) (j : nat) : bool := (slot_mark buf j =? 0x00) || (slot_mark buf j =? DELETED_ENTRY).

Lemma slot_first buf j : aget 0 (slot buf j) 0 = slot_mark buf j.
Proof. unfold slot, slot_mark. rewrite aget_slice by lia. by rewrite Z.add_0_r. Qed.

(** The search for one free slot gives the first one. *)
Lemma free_run_ok n : forall buf j, Z.of_nat (32 * (j + n)) < 2 ^ 32 ->
  match free_run n buf (32 * Z.of_nat j) 0 1 with
  | Some o => exists k, (j <= k < j + n)%nat /\ o = 32 * Z.of_nat k /\ slot_free buf k = true /\ forall i, (j <= i < k)%nat -> slot_free buf i = false
  | None => forall i, (j <= i < j + n)%nat -> slot_free buf i = false
  end.
Proof.
  induction n as [| n IH]; intros buf j Hj; cbn [free_run]; [intros i Hi; lia |].
  change ((aget 0 buf (32 * Z.of_nat j) =? 0x00) || (aget 0 buf (32 * Z.of_nat j) =? DELETED_ENTRY)) with (slot_free buf j).
  destruct (slot_free buf j) eqn:Ef.
  - cbn [Z.add Z.eqb Pos.eqb]. exists j. split; [lia |]. split; [change (1 *! 32) with 32; ured; lia |]. split; [done |]. intros i Hi. lia.
  - replace (32 * Z.of_nat j + 32) with (32 * Z.of_nat (S j)) by lia. specialize (IH buf (S j) ltac:(lia)).
    destruct (free_run n buf (32 * Z.of_nat (S j)) 0 1) as [o |].
    + destruct IH as (k & Hk & -> & Hf & Hb). exists k. split; [lia |]. split; [done |]. split; [done |]. intros i Hi.
      destruct (decide (i = j)) as [-> |]; [done |]. apply Hb. lia.
    + intros i Hi. destruct (decide (i = j)) as [-> |]; [done |]. apply IH. lia.
Qed.

(** ** Splitting the entries of a block *)

Lemma block_split a n type buf b : forall j st l st1, block_entries a type buf b (32 * Z.of_nat j) st = (l, st1, false) ->
  block_entries (a + n) type buf b (32 * Z.of_nat j) st =
  (let '(l2, st2, fin) := block_entries n type buf b (32 * Z.of_nat (j + a)) st1 in (l ++ l2, st2, fin)).
Proof.
  induction a as [| a IH]; intros j st l st1 E; cbn [block_entries Nat.add] in *.
  { injection E as <- <-. rewrite Nat.add_0_r. by destruct (block_entries n type buf b (32 * Z.of_nat j) st) as [[l2 st2] fin]. }
  destruct (aget 0 (slice buf (32 * Z.of_nat j) 32) 0 =? 0x00); [done |].
  replace (32 * Z.of_nat j + 32) with (32 * Z.of_nat (S j)) in * by lia. replace (j + S a)%nat with (S j + a)%nat by lia.
  destruct (aget 0 (slice buf (32 * Z.of_nat j) 32) 0 =? DELETED_ENTRY); [by apply IH |].
  destruct (is_lfn (slice buf (32 * Z.of_nat j) 32)); [by apply IH |].
  destruct (block_entries a type buf b (32 * Z.of_nat (S j)) (lfn_reset st)) as [[l0 st0] fin0] eqn:E0.
  assert (fin0 = false /\ st0 = st1) as [-> ->] by (by injection E). rewrite (IH _ _ _ _ E0).
  destruct (block_entries n type buf b (32 * Z.of_nat (S j + a)) st1) as [[l2 st2] fin].
  injection E as <-. by destruct (dirent_from_short type (slice buf (32 * Z.of_nat j) 32) st b (32 * Z.of_nat j)).
Qed.

(** Entries depend on the slots they are decoded from only. *)
Lemma block_same n type buf buf' b : forall j st, (forall i, (j <= i < j + n)%nat -> slot buf' i = slot buf i) ->
  block_entries n type buf' b (32 * Z.of_nat j) st = block_entries n type buf b (32 * Z.of_nat j) st.
Proof.
  induction n as [| n IH]; intros j st H; cbn [block_entries]; [done |]. pose proof (H j ltac:(lia)) as E. unfold slot in E. rewrite E.
  replace (32 * Z.of_nat j + 32) with (32 * Z.of_nat (S j)) by lia. by rewrite !IH by (intros i Hi; apply H; lia).
Qed.

(** Slots that are in use do not end the enumeration. *)
Lemma block_runs n type buf b : forall j st, (forall i, (j <= i < j + n)%nat -> slot_mark buf i <> 0) ->
  exists l st1, block_entries n type buf b (32 * Z.of_nat j) st = (l, st1, false).
Proof.
  induction n as [| n IH]; intros j st H; cbn [block_entries]; [by exists [], st |]. fold (slot buf j). rewrite slot_first.
  rewrite (proj2 (Z.eqb_neq _ _) (H j ltac:(lia))). replace (32 * Z.of_nat j + 32) with (32 * Z.of_nat (S j)) by lia.
  assert (H' : forall i, (S j <= i < S j + n)%nat -> slot_mark buf i <> 0) by (intros i Hi; apply H; lia).
  destruct (slot_mark buf j =? DELETED_ENTRY); [by apply IH |]. destruct (is_lfn (slot buf j)); [by apply IH |].
  destruct (IH (S j) (lfn_reset st) H') as (l & st1 & ->). by eexists _, st1.
Qed.

(** No long name is pending behind a slot that is no part of one. *)
Lemma block_reset n type buf b : forall j st l st1, (0 < n)%nat -> block_entries n type buf b (32 * Z.of_nat j) st = (l, st1, false) ->
  is_lfn (slot buf (j + n - 1)) = false \/ slot_mark buf (j + n - 1) = DELETED_ENTRY -> lfn_len st1 = 0.
Proof.
  induction n as [| n IH]; intros j st l st1 Hn E Hs; [lia |]. cbn [block_entries] in E. fold (slot buf j) in E. rewrite slot_first in E.
  destruct (slot_mark buf j =? 0x00); [done |]. replace (32 * Z.of_nat j + 32) with (32 * Z.of_nat (S j)) in E by lia.
  destruct n as [| n].
  - cbn [block_entries] in E. replace (j + 1 - 1)%nat with j in Hs by lia. destruct (Z.eqb_spec (slot_mark buf j) DELETED_ENTRY) as [| Hne]; [by injection E as <- <- |].
    destruct Hs as [Hs |]; [| done]. rewrite Hs in E. by injection E as <- <-.
  - replace (j + S (S n) - 1)%nat with (S j + S n - 1)%nat in Hs by lia.
    destruct (slot_mark buf j =? DELETED_ENTRY); [by apply (IH (S j) (lfn_reset st) l st1); [lia | |] |].
    destruct (is_lfn (slot buf j)); [by apply (IH (S j) _ l st1 ltac:(lia) E) |].
    destruct (block_entries (S n) type buf b (32 * Z.of_nat (S j)) (lfn_reset st)) as [[l0 st0] fin0] eqn:E0.
    assert (fin0 = false /\ st0 = st1) as [-> ->] by (by injection E). by apply (IH (S j) _ l0 st1 ltac:(lia) E0).
Qed.

(** A slot after which every slot is unused holds the end of the entries. *)
Lemma block_end n type buf b j st : slot_mark buf j = 0 -> block_entries (S n) type buf b (32 * Z.of_nat j) st = ([], st, true).
Proof. intros H. cbn [block_entries]. fold (slot buf j). by rewrite slot_first, H. Qed.

(** ** The first free slot of a block *)

Definition put_slot (buf : list Z) (j : nat) (e : list Z) : list Z := splice buf (32 * Z.of_nat j) e.

Lemma put_slot_same buf j e : length e = 32%nat -> (32 * (j + 1) <= length buf)%nat -> slot (put_slot buf j e) j = e.
Proof.
  intros He Hj. apply (aget_ext 0).
  - unfold slot. rewrite length_slice; unfold put_slot; rewrite ?length_spliced; lia.
  - intros i Hi. unfold slot, put_slot in *. rewrite length_slice in Hi by (rewrite ?length_spliced; lia). rewrite aget_slice, aget_splice by lia.
    destruct (Z.leb_spec (32 * Z.of_nat j) (32 * Z.of_nat j + i)), (Z.ltb_spec (32 * Z.of_nat j + i) (32 * Z.of_nat j + Z.of_nat (length e))); try lia. cbn [andb]. f_equal. lia.
Qed.

Lemma put_slot_other buf j e i : length e = 32%nat -> (32 * (j + 1) <= length buf)%nat -> (32 * (i + 1) <= length buf)%nat -> i <> j -> slot (put_slot buf j e) i = slot buf i.
Proof.
  intros He Hj Hi Hne. apply (aget_ext 0).
  - unfold slot. rewrite !length_slice; unfold put_slot; rewrite ?length_spliced; lia.
  - intros k Hk. unfold slot, put_slot in *. rewrite length_slice in Hk by (rewrite ?length_spliced; lia). rewrite !aget_slice, aget_splice by lia.
    destruct (Z.leb_spec (32 * Z.of_nat j) (32 * Z.of_nat i + k)), (Z.ltb_spec (32 * Z.of_nat i + k) (32 * Z.of_nat j + Z.of_nat (length e))); cbn [andb]; (lia || done).
Qed.

(** ** Directories that this driver keeps *)

Definition slots (b : dir_block_t) : nat := Z.to_nat (db_bytes b / 32).

(** The blocks [cs] of a directory with their bytes: no part of a long name is
    followed by a free slot, and behind the first unused slot all are unused. *)
Record dir_tidy (cs : list (dir_block_t * list Z)) : Prop := {
  dt_size : Forall (fun '(b, buf) => length buf = (32 * slots b)%nat /\ (0 < slots b)%nat) cs;
  dt_names : forall i b buf j, cs !! i = Some (b, buf) -> (S j < slots b)%nat -> is_lfn (slot buf j) = true -> slot_free buf (S j) = true -> slot_free buf j = true;
  dt_end : forall i b buf j, cs !! i = Some (b, buf) -> (j < slots b)%nat -> slot_mark buf j = 0 ->
    (forall k, (j <= k < slots b)%nat -> slot_mark buf k = 0) /\ (forall i' b' buf', (i < i')%nat -> cs !! i' = Some (b', buf') -> slot_mark buf' 0 = 0);
}.

Definition block_full (c : dir_block_t * list Z) : Prop := forall j, (j < slots (fst c))%nat -> slot_free (snd c) j = false.

Lemma not_free buf j : slot_free buf j = false -> slot_mark buf j <> 0 /\ slot_mark buf j <> DELETED_ENTRY.
Proof. unfold slot_free. intros [H1%Z.eqb_neq H2%Z.eqb_neq]%orb_false_iff. done. Qed.

Lemma reset_len st : lfn_len (lfn_reset st) = 0.
Proof. done. Qed.

(** A new entry in the first free slot of a block. *)
Lemma block_insert type buf b k e de st : length buf = (32 * slots b)%nat -> (k < slots b)%nat -> length e = 32%nat ->
  (forall i, (i < k)%nat -> slot_free buf i = false) -> slot_free buf k = true -> (forall j, k = S j -> is_lfn (slot buf j) = false) ->
  (slot_mark buf k = 0 -> forall i, (k <= i < slots b)%nat -> slot_mark buf i = 0) ->
  aget 0 e 0 <> 0 -> aget 0 e 0 <> DELETED_ENTRY -> is_lfn e = false -> lfn_len st = 0 ->
  (forall st, lfn_len st = 0 -> dirent_from_short type e st b (32 * Z.of_nat k) = Some de) ->
  exists l1 l2 st1 st2 fin fin', block_entries (slots b) type buf b 0 st = (l1 ++ l2, st1, fin) /\
    block_entries (slots b) type (put_slot buf k e) b 0 st = (l1 ++ de :: l2, st2, fin') /\
    (fin = false -> fin' = false /\ st2 = st1) /\ (fin = true -> fin' = true \/ (slot_mark buf k = 0 /\ l2 = [])).
Proof.
  intros Hl Hk He Hb Hfree Hlfn Hend E0 E5 El Hst Hde.
  destruct (block_runs k type buf b 0 st) as (l1 & st1 & E1); [intros i Hi; apply not_free, Hb; lia |].
  assert (Hlen : lfn_len st1 = 0).
  { destruct k as [| k]; [by injection E1 as _ <- |]. apply (block_reset (S k) type buf b 0 st l1 st1 ltac:(lia) E1). left. replace (0 + S k - 1)%nat with k by lia. by apply Hlfn. }
  assert (E1' : block_entries k type (put_slot buf k e) b (32 * Z.of_nat 0) st = (l1, st1, false)).
  { rewrite <- E1. apply block_same. intros i Hi. apply put_slot_other; lia. }
  set (n := (slots b - S k)%nat). assert (En : slots b = (k + S n)%nat) by (unfold n; lia). change 0 with (32 * Z.of_nat 0). rewrite En.
  rewrite (block_split _ _ _ _ _ _ _ _ _ E1), (block_split _ _ _ _ _ _ _ _ _ E1'). cbn [Nat.add block_entries].
  fold (slot buf k) (slot (put_slot buf k e) k). rewrite put_slot_same by lia. rewrite slot_first. rewrite (proj2 (Z.eqb_neq _ _) E0), (proj2 (Z.eqb_neq _ _) E5), El, (Hde st1 Hlen).
  replace (32 * Z.of_nat k + 32) with (32 * Z.of_nat (S k)) by lia.
  assert (Hsame : block_entries n type (put_slot buf k e) b (32 * Z.of_nat (S k)) (lfn_reset st1) = block_entries n type buf b (32 * Z.of_nat (S k)) (lfn_reset st1)).
  { apply block_same. intros i Hi. apply put_slot_other; lia. }
  rewrite Hsame. unfold slot_free in Hfree. destruct (Z.eqb_spec (slot_mark buf k) 0x00) as [Hz | Hnz]; cbn [orb] in Hfree.
  - destruct n as [| n].
    + exists l1, [], st1, (lfn_reset st1), true, false. cbn [block_entries]. split; [done |]. split; [done |]. split; [done |]. intros _. by right.
    + rewrite block_end by (apply (Hend Hz); lia). exists l1, [], st1, (lfn_reset st1), true, true. split; [done |]. split; [done |]. split; [done |]. intros _. by left.
  - assert (Hd : (slot_mark buf k =? DELETED_ENTRY) = true) by exact Hfree. rewrite Hd. destruct (block_entries n type buf b (32 * Z.of_nat (S k)) (lfn_reset st1)) as [[l2 st2] fin].
    exists l1, l2, st2, st2, fin, fin. split; [done |]. split; [done |]. split; [done |]. intros ->. by left.
Qed.

Lemma block_full_runs type b buf st : block_full (b, buf) -> exists l st1, block_entries (slots b) type buf b 0 st = (l, st1, false).
Proof. intros H. apply (block_runs (slots b) type buf b 0). intros i Hi. apply not_free, H. cbn. lia. Qed.

(** Full blocks in front contribute their entries and the state they leave. *)
Lemma full_prefix type cs1 : forall st, Forall block_full cs1 -> exists l st1, forall cs, all_entries type (cs1 ++ cs) st = l ++ all_entries type cs st1.
Proof.
  induction cs1 as [| [b buf] cs1 IH]; intros st Hf; [by exists [], st |]. apply Forall_cons in Hf as [Hb Hf].
  destruct (block_full_runs type b buf (lfn_reset st) Hb) as (l & st1 & E). destruct (IH st1 Hf) as (l' & st2 & H). exists (l ++ l'), st2.
  intros cs. cbn [app all_entries]. fold (slots b). rewrite E, H. by rewrite app_assoc.
Qed.

Lemma ended_rest type cs st : (forall b' buf', head cs = Some (b', buf') -> slot_mark buf' 0 = 0 /\ (0 < slots b')%nat) -> all_entries type cs st = [].
Proof.
  intros H. destruct cs as [| [b buf] cs]; [done |]. destruct (H b buf eq_refl) as [Hm Hn]. cbn [all_entries]. fold (slots b).
  destruct (slots b) as [| n]; [lia |]. change 0 with (32 * Z.of_nat 0). by rewrite block_end.
Qed.

(** A new entry in the first free slot of a directory. *)
Lemma dir_insert type cs1 b buf cs2 k e de st : dir_tidy (cs1 ++ (b, buf) :: cs2) -> Forall block_full cs1 -> (k < slots b)%nat -> length e = 32%nat ->
  (forall i, (i < k)%nat -> slot_free buf i = false) -> slot_free buf k = true ->
  aget 0 e 0 <> 0 -> aget 0 e 0 <> DELETED_ENTRY -> is_lfn e = false ->
  (forall st, lfn_len st = 0 -> dirent_from_short type e st b (32 * Z.of_nat k) = Some de) ->
  exists l1 l2, all_entries type (cs1 ++ (b, buf) :: cs2) st = l1 ++ l2 /\ all_entries type (cs1 ++ (b, put_slot buf k e) :: cs2) st = l1 ++ de :: l2.
Proof.
  intros [T1 T2 T3] Hf Hk He Hb Hfree E0 E5 El Hde. set (i0 := length cs1).
  assert (Hi0 : (cs1 ++ (b, buf) :: cs2) !! i0 = Some (b, buf)) by (unfold i0; by rewrite lookup_app_r, Nat.sub_diag by done).
  assert (Hlen : length buf = (32 * slots b)%nat) by (rewrite Forall_lookup in T1; by apply (T1 _ _ Hi0)).
  destruct (full_prefix type cs1 st Hf) as (l & st1 & H). rewrite !H. cbn [all_entries]. fold (slots b).
  destruct (block_insert type buf b k e de (lfn_reset st1)) as (l1 & l2 & sa & sb & fin & fin' & Ea & Eb & Hff & Hft); try done.
  { intros j ->. destruct (is_lfn (slot buf j)) eqn:Elf; [| done]. rewrite <- (T2 i0 b buf j Hi0 Hk Elf Hfree). apply Hb. lia. }
  { intros Hz i Hi. by apply (T3 i0 b buf k Hi0 Hk Hz). }
  rewrite Ea, Eb. destruct fin.
  - exists (l ++ l1), l2. rewrite <- !app_assoc. split; [done |]. destruct (Hft eq_refl) as [-> | [Hz ->]]; [done |].
    destruct fin'; [done |]. rewrite (ended_rest type cs2), app_nil_r; [done |]. intros b' buf' Hh. destruct cs2 as [| c2 cs2]; [done |]. injection Hh as ->.
    assert (Hi1 : (cs1 ++ (b, buf) :: (b', buf') :: cs2) !! (S i0) = Some (b', buf')) by (unfold i0; by rewrite lookup_app_r, Nat.sub_succ_l, Nat.sub_diag by lia).
    split; [by apply (proj2 (T3 i0 b buf k Hi0 Hk Hz) (S i0) b' buf'); [lia |] |]. rewrite Forall_lookup in T1. by apply (T1 _ _ Hi1).
  - destruct (Hff eq_refl) as [-> ->]. exists (l ++ l1), (l2 ++ all_entries type cs2 sa). by rewrite <- !app_assoc.
Qed.

(** The directory is as tidy as before. *)
Lemma tidy_insert cs1 b buf cs2 k e : dir_tidy (cs1 ++ (b, buf) :: cs2) -> Forall block_full cs1 -> (k < slots b)%nat -> length e = 32%nat ->
  (forall i, (i < k)%nat -> slot_free buf i = false) -> slot_free buf k = true -> aget 0 e 0 <> 0 -> is_lfn e = false -> dir_tidy (cs1 ++ (b, put_slot buf k e) :: cs2).
Proof.
  intros [T1 T2 T3] Hfull Hk He Hb Hfree E0 El. set (i0 := length cs1).
  assert (Hi0 : forall c, (cs1 ++ c :: cs2) !! i0 = Some c) by (intros c; unfold i0; by rewrite lookup_app_r, Nat.sub_diag by done).
  assert (Hne : forall c c' i, i <> i0 -> (cs1 ++ c :: cs2) !! i = (cs1 ++ c' :: cs2) !! i).
  { intros c c' i Hi. destruct (Nat.lt_ge_cases i i0); [by rewrite !lookup_app_l by done |]. rewrite !lookup_app_r by done. destruct (i - length cs1)%nat eqn:Ei; [unfold i0 in *; lia | done]. }
  assert (Hlen : length buf = (32 * slots b)%nat) by (rewrite Forall_lookup in T1; by apply (T1 _ _ (Hi0 _))).
  assert (Hmark : forall j, (j < slots b)%nat -> slot_mark (put_slot buf k e) j = if decide (j = k) then aget 0 e 0 else slot_mark buf j).
  { intros j Hj. rewrite <- !slot_first. destruct (decide (j = k)) as [-> |]; [by rewrite put_slot_same by lia | by rewrite put_slot_other by lia]. }
  constructor.
  - apply Forall_app in T1 as [T1 [T4 T5]%Forall_cons]. apply Forall_app. split; [done |]. apply Forall_cons. split; [| done].
    unfold put_slot. rewrite length_spliced; lia.
  - intros i b' buf' j Hi Hj. destruct (decide (i = i0)) as [-> | Hin].
    + rewrite Hi0 in Hi. injection Hi as <- <-. unfold slot_free. rewrite !Hmark by lia. destruct (decide (j = k)) as [-> | Hjk].
      * rewrite put_slot_same by lia. by rewrite El.
      * rewrite put_slot_other by lia. destruct (decide (S j = k)) as [<- | Hjk'].
        -- intros Hlf _. exact (T2 i0 b buf j (Hi0 _) Hj Hlf Hfree).
        -- exact (T2 i0 b buf j (Hi0 _) Hj).
    + rewrite (Hne _ (b, buf) i Hin) in Hi. exact (T2 i b' buf' j Hi Hj).
  - intros i b' buf' j Hi Hj Hz. destruct (Nat.lt_trichotomy i i0) as [Hlt | [-> | Hgt]].
    + exfalso. rewrite lookup_app_l in Hi by done. rewrite Forall_lookup in Hfull. specialize (Hfull i _ Hi j Hj). by apply not_free in Hfull as [Hfull _].
    + rewrite Hi0 in Hi. injection Hi as <- <-. rewrite Hmark in Hz by done. destruct (decide (j = k)) as [| Hjk]; [done |]. destruct (T3 i0 b buf j (Hi0 _) Hj Hz) as [H1 H2].
      assert (Hkj : (k < j)%nat). { destruct (Nat.lt_ge_cases j k) as [Hjlt | ]; [| lia]. specialize (Hb j Hjlt). by apply not_free in Hb as [Hb _]. }
      split; [intros m Hm; rewrite Hmark by lia; destruct (decide (m = k)); [lia | by apply H1] |].
      intros i' b' buf' Hi' Hl. rewrite (Hne _ (b, buf) i') in Hl by lia. exact (H2 i' b' buf' Hi' Hl).
    + rewrite (Hne _ (b, buf) i) in Hi by lia. destruct (T3 i b' buf' j Hi Hj Hz) as [H1 H2]. split; [done |].
      intros i' b'' buf'' Hi' Hl. rewrite (Hne _ (b, buf) i') in Hl by lia. exact (H2 i' b'' buf'' Hi' Hl).
Qed.

(** A new block of zeros behind full ones. *)
Definition zero_block (b : dir_block_t) : list Z := replicate (32 * slots b) 0.

Lemma zero_mark b j : slot_mark (zero_block b) j = 0.
Proof.
  unfold slot_mark, zero_block, aget. rewrite nth_lookup. destruct (replicate (32 * slots b) 0 !! Z.to_nat (32 * Z.of_nat j)) eqn:E; [| done]. by apply lookup_replicate in E as [-> _].
Qed.

Lemma tidy_extend cs b : dir_tidy cs -> Forall block_full cs -> (0 < slots b)%nat -> dir_tidy (cs ++ [(b, zero_block b)]) /\
  forall type st, all_entries type (cs ++ [(b, zero_block b)]) st = all_entries type cs st.
Proof.
  intros [T1 T2 T3] Hf Hb.
  assert (Hcase : forall i c, (cs ++ [(b, zero_block b)]) !! i = Some c -> cs !! i = Some c \/ (i = length cs /\ c = (b, zero_block b))).
  { intros i c Hi. destruct (Nat.lt_ge_cases i (length cs)) as [Hlt | Hge]; [left; by rewrite lookup_app_l in Hi |]. rewrite lookup_app_r in Hi by done.
    destruct (i - length cs)%nat eqn:E; [| done]. injection Hi as <-. right. split; [lia | done]. }
  split.
  - constructor.
    + apply Forall_app. split; [done |]. apply Forall_singleton. unfold zero_block. rewrite length_replicate. done.
    + intros i b' buf' j [Hi | [-> [= -> ->]]]%Hcase Hj; [exact (T2 i b' buf' j Hi Hj) |]. intros _ _. unfold slot_free. by rewrite zero_mark.
    + intros i b' buf' j [Hi | [-> [= -> ->]]]%Hcase Hj Hz.
      * exfalso. rewrite Forall_lookup in Hf. specialize (Hf i _ Hi j Hj). by apply not_free in Hf as [Hf _].
      * split; [intros; apply zero_mark |]. intros i' b'' buf'' Hi' [Hl%lookup_lt_Some | [-> _]]%Hcase; lia.
  - intros type st. destruct (full_prefix type cs st Hf) as (l & st1 & H). rewrite H. pose proof (H []) as H0. rewrite app_nil_r in H0. rewrite H0.
    rewrite !ended_rest; [done | done |]. intros b' buf' Hh. injection Hh as <- <-. split; [apply zero_mark | done].
Qed.

(** ** The short entry *)

Section Short.
Context {D : Type} `{BD : BlockDev D}.
Implicit Types s : fatfs D.
Variable clock : fatfs D -> Z * Z.

(** The fields of the entry that is written. *)
Record entry_fields (type : Z) (sn : list Z) (a first size : Z) (e : list Z) : Prop := {
  ef_len : length e = 32%nat;
  ef_u8 : Forall is_u8 e;
  ef_name : take 11 e = sn;
  ef_attr : aget 0 e 11 = a;
  ef_case : aget 0 e 12 = 0;
  ef_first : (le16 e 26 |! Z.shiftl (if type =? 32 then le16 e 20 else 0) 16) = first;
  ef_size : le32 e 28 = size;
}.

Lemma short_entry_ok s sn a first size : length sn = 11%nat -> Forall is_u8 sn -> is_u8 a -> is_u32 first -> is_u32 size -> (fat_type s <> 32 -> is_u16 first) ->
  entry_fields (fat_type s) sn a first size (short_entry clock s sn a first size).
Proof.
  intros Hl Hu Ha Hf Hs H16. unfold short_entry, write_timestamp. destruct (clock s) as [date time].
  do 11 (destruct sn as [| ? sn]; [done |]). destruct sn; [| done].
  pose proof (join32 first Hf) as J1. pose proof (join32 size Hs) as J2. unfold byte0, byte1 in *. rewrite !Z.shiftr_shiftr in * by lia. change (16 + 8) with 24 in *.
  pose proof (byte_u8 first) as B0. pose proof (byte_u8 (Z.shiftr first 8)) as B1. unfold is_u8 in B0, B1.
  destruct (Z.eqb_spec (fat_type s) 32) as [E | E]; (match goal with |- entry_fields _ _ _ _ _ ?e => set (ent := e) end);
    (assert (Hb : Forall is_u8 ent) by (unfold ent; repeat first [apply Forall_aset | apply Forall_splice | apply byte_u8 | apply u8_range | exact Ha | apply Forall_take, Hu | by apply Forall_replicate]));
    (assert (A : aget 0 ent 26 = first &! 0xFF /\ aget 0 ent 27 = Z.shiftr first 8 &! 0xFF /\ aget 0 ent 28 = size &! 0xFF /\ aget 0 ent 29 = Z.shiftr size 8 &! 0xFF /\
      aget 0 ent 30 = Z.shiftr size 16 &! 0xFF /\ aget 0 ent 31 = Z.shiftr size 24 &! 0xFF) by (split_and!; reflexivity)); destruct A as (A0 & A1 & A2 & A3 & A4 & A5);
    (assert (L26 : le16 ent 26 = first &! 0xFF + 256 * (Z.shiftr first 8 &! 0xFF)) by (rewrite le16_val by done; change (26 + 1) with 27; by rewrite A0, A1));
    (constructor; try reflexivity; [done | | rewrite le32_val by done; change (28 + 1) with 29; change (28 + 2) with 30; change (28 + 3) with 31; rewrite A2, A3, A4, A5; exact J2]).
  - rewrite lor_shift by (rewrite ?L26; lia). rewrite E. cbn [Z.eqb Pos.eqb].
    assert (L20 : le16 ent 20 = Z.shiftr first 16 &! 0xFF + 256 * (Z.shiftr first 24 &! 0xFF)) by (rewrite le16_val by done; reflexivity).
    rewrite L20, L26. lia.
  - rewrite (proj2 (Z.eqb_neq _ _) E), Z.shiftl_0_l, Z.lor_0_r, L26. specialize (H16 E). unfold is_u16 in H16. rewrite !land_255 in *. rewrite Z.shiftr_div_pow2 by lia. change (2 ^ 8) with 256. Z.to_euclidean_division_equations; lia.
Qed.
End Short.

(** Characters of short names. *)
Definition plain_char (c : Z) : Prop := 32 <= c < 127.

Lemma sfn_char_plain c : sfn_char_ok c = true -> plain_char c.
Proof.
  unfold sfn_char_ok, plain_char. intros [[H | H]%orb_true_iff | H]%orb_true_iff; [lia | lia |].
  apply existsb_exists in H as (x & Hx & ->%Z.eqb_eq). revert Hx. vm_compute bytes. intros Hx. repeat (destruct Hx as [<- | Hx]; [lia |]). done.
Qed.

Lemma pad_plain l n : Forall plain_char l -> Forall plain_char (pad l n).
Proof. intros H. unfold pad. apply Forall_app. split; [done |]. by apply Forall_replicate. Qed.

Lemma sfn_plain name sn : try_make_sfn name = Some sn -> length sn = 11%nat /\ Forall plain_char sn.
Proof.
  unfold try_make_sfn. intros H.
  assert (Hgo : forall base ext : list Z,
    (if (length base <? 1)%nat || (8 <? length base)%nat || (3 <? length ext)%nat then None
     else if forallb sfn_char_ok (map up_char base) && forallb sfn_char_ok (map up_char ext) then Some (pad (map up_char base) 8 ++ pad (map up_char ext) 3) else None) = Some sn ->
    length sn = 11%nat /\ Forall plain_char sn).
  { intros base ext. destruct (Nat.ltb_spec (length base) 1), (Nat.ltb_spec 8 (length base)), (Nat.ltb_spec 3 (length ext)); cbn [orb]; try done.
    destruct (forallb sfn_char_ok (map up_char base)) eqn:E1, (forallb sfn_char_ok (map up_char ext)) eqn:E2; cbn [andb]; try done. intros [= <-].
    split; [unfold pad; rewrite !length_app, !length_replicate, !length_map; lia |].
    assert (Hp : forall l, forallb sfn_char_ok l = true -> Forall plain_char l).
    { intros l Hl. rewrite forallb_forall in Hl. apply Forall_forall. intros c Hc%list_elem_of_In. by apply sfn_char_plain, Hl. }
    apply Forall_app. split; apply pad_plain; by apply Hp. }
  destruct (dots name 0) as [| d [| d' ds]]; [by apply (Hgo name []) | by eapply Hgo | done].
Qed.

Lemma trim_app n l r base : 0 <= base -> base + Z.of_nat n <= Z.of_nat (length l) -> trim n (l ++ r) base = trim n l base.
Proof.
  intros Hb. induction n as [| n IH]; intros Hn; [done |]. cbn [trim]. assert (E : aget 0 (l ++ r) (base + Z.of_nat n) = aget 0 l (base + Z.of_nat n)) by (apply app_nth1; lia).
  by rewrite E, IH by lia.
Qed.

Lemma trim_range n l base : 0 <= trim n l base <= Z.of_nat n.
Proof. induction n as [| n IH]; cbn [trim]; [lia |]. destruct (aget 0 l (base + Z.of_nat n) =? 32); lia. Qed.

Lemma slice_app_l {A} (l r : list A) off len : 0 <= off -> 0 <= len -> off + len <= Z.of_nat (length l) -> slice (l ++ r) off len = slice l off len.
Proof. intros. unfold slice. rewrite drop_app_le, take_app_le by (rewrite ?length_drop; lia). done. Qed.

Lemma decode_short type sn a first size e b off st : entry_fields type sn a first size e -> length sn = 11%nat -> Forall plain_char sn -> a &! ATTR_VOLUME_ID = 0 -> lfn_len st = 0 ->
  dirent_from_short type e st b off = Some (mk_de (sn11_to_str sn 16) first size (negb (a &! ATTR_DIRECTORY =? 0)) a b off 0).
Proof.
  intros [Hl Hu Hn Ha Hc Hf Hs] Hsl Hp Hv Hst. unfold dirent_from_short. rewrite Ha, Hv, Hst, Hf, Hs. cbn [Z.eqb negb Z.ltb Z.compare andb]. do 2 f_equal.
  assert (Ee : e = sn ++ drop 11 e) by (rewrite <- Hn; symmetry; apply take_drop). unfold shortname_to_str, sn11_to_str. rewrite Hc. change (negb (0 &! 8 =? 0)) with false. change (negb (0 &! 16 =? 0)) with false.
  pose proof (trim_range 8 sn 0) as R1. pose proof (trim_range 3 sn 8) as R2. rewrite Ee. rewrite !trim_app by lia. rewrite !slice_app_l by lia.
  assert (M1 : map (fun c => low_case false (if c =? 0x05 then 0xE5 else c)) (slice sn 0 (trim 8 sn 0)) = slice sn 0 (trim 8 sn 0)).
  { rewrite <- (map_id (slice sn 0 (trim 8 sn 0))) at 2. apply map_ext_in. intros c Hcin%list_elem_of_In. unfold low_case. cbn [andb].
    assert (Hpc : plain_char c). { assert (Hps : Forall plain_char (slice sn 0 (trim 8 sn 0))) by (by apply Forall_slice). rewrite Forall_forall in Hps. by apply Hps. }
    unfold plain_char in Hpc. destruct (Z.eqb_spec c 5); [lia | done]. }
  assert (M2 : map (low_case false) (slice sn 8 (trim 3 sn 8)) = slice sn 8 (trim 3 sn 8)) by (rewrite <- (map_id (slice sn 8 _)) at 2; by apply map_ext).
  assert (L1 : (length (slice sn 0 (trim 8 sn 0)) <= 8)%nat) by (rewrite length_slice; lia). assert (L2 : (length (slice sn 8 (trim 3 sn 8)) <= 3)%nat) by (rewrite length_slice; lia).
  rewrite M1, M2. rewrite !take_ge; [done | | ]; rewrite length_app; (destruct (0 <? trim 3 sn 8); cbn [length]); lia.
Qed.
