(* ===== verification/FatCreate.v ===== *)
(** * FatCreate: creating a file ([kernel/fat.c])

    A file with a short name, from the search for a slot to the entry: the
    directory gains exactly this entry, the data are read back, and nothing in
    use is touched. *)

From S2P Require Import Prelude Disk Fat FatProps FatDir FatWalk FatFile FatLookup FatEntry.

(** ** The first free slot of a directory *)

Fixpoint first_slot (cs : list (dir_block_t * list Z)) : option (dir_block_t * Z) :=
  match cs with
  | [] => None
  | (b, buf) :: cs' => match free_run (slots b) buf 0 0 1 with Some off => Some (b, off) | None => first_slot cs' end
  end.

Lemma first_slot_ok cs : Forall (fun c => db_bytes (fst c) <= FAT_MAX_CLUSTER_BYTES) cs ->
  match first_slot cs with
  | Some (b, off) => exists cs1 buf cs2 k, cs = cs1 ++ (b, buf) :: cs2 /\ Forall block_full cs1 /\ (k < slots b)%nat /\ off = 32 * Z.of_nat k /\
      slot_free buf k = true /\ forall i, (i < k)%nat -> slot_free buf i = false
  | None => Forall block_full cs
  end.
Proof.
  induction cs as [| [b buf] cs IH]; intros Hs; cbn [first_slot]; [done |]. apply Forall_cons in Hs as [Hb Hs]. cbn [fst] in Hb.
  assert (Hlt : Z.of_nat (32 * (0 + slots b)) < 2 ^ 32) by (unfold slots, FAT_MAX_CLUSTER_BYTES in *; Z.to_euclidean_division_equations; lia).
  pose proof (free_run_ok (slots b) buf 0 Hlt) as Hr. change (32 * Z.of_nat 0) with 0 in Hr. destruct (free_run (slots b) buf 0 0 1) as [off |].
  - destruct Hr as (k & Hk & -> & Hf & Hb'). exists [], buf, cs, k. split; [done |]. split; [done |]. split; [lia |]. split; [done |]. split; [done |]. intros i Hi. apply Hb'. lia.
  - specialize (IH Hs). assert (Hfull : block_full (b, buf)) by (intros j Hj; apply Hr; cbn in Hj; lia). destruct (first_slot cs) as [[b' off] |].
    + destruct IH as (cs1 & buf' & cs2 & k & -> & Hcs & H). exists ((b, buf) :: cs1), buf', cs2, k. split; [done |]. split; [by apply Forall_cons | done].
    + by apply Forall_cons.
Qed.

Section Create.
Context {D : Type} `{BD : BlockDev D}.
Implicit Types s : fatfs D.

Lemma slots_ok s w bs (Hw : walks s w bs) : forall n s1, quiet s s1 -> vol_ok s1 -> (length bs <= n)%nat ->
  exists s2, slots_from n s1 w 1 = (s2, match first_slot (contents s bs) with Some (b, off) => Found b off | None => Full end) /\ quiet s s2 /\ vol_ok s2.
Proof.
  induction Hw as [w Hb Hnext | w w' l Hb Hnext Hw IH]; intros [| n] s1 Q V Hn; cbn [length] in Hn; try lia; cbn [slots_from contents map first_slot];
    (destruct (read_block_ok s1 (fast w) V) as (s2 & -> & Q2 & V2); [by apply (block_geom _ _ _ (qu_geom _ _ Q)) |]); rewrite (block_quiet_data s s1) by done;
    pose proof (quiet_preorder (BD := BD)) as Hpre; assert (Q12 : quiet s s2) by (by etrans); fold (slots (fast w));
    (destruct (free_run (slots (fast w)) (block_data s (fast w)) 0 0 1) as [off |]; [by exists s2 |]); destruct (Hnext s2 Q12 V2) as (s3 & -> & Q3 & V3).
  - exists s3. split; [done |]. split; [by etrans | done].
  - destruct (IH n s3) as (s4 & -> & Q4 & V4); [by etrans | done | lia |]. by exists s4.
Qed.

Lemma blocks_ok s dir bs : vol_ok s -> dir_blocks s dir bs -> Forall (block_ok s) bs.
Proof.
  intros Hv [c l [Hf _ _] | Ht Hr]; apply Forall_forall; intros b Hb; apply list_elem_of_In, in_map_iff in Hb as (x & <- & Hx%list_elem_of_In).
  - left. exists x. rewrite Forall_forall in Hf. by split; [apply Hf |].
  - right. exists x. apply elem_of_seqZ in Hx. split; [lia | done].
Qed.

(** Different blocks of a directory have no sector in common. *)
Lemma blocks_apart s dir bs i j b b' k : vol_ok s -> dir_blocks s dir bs -> bs !! i = Some b -> bs !! j = Some b' -> in_block b k -> in_block b' k -> i = j.
Proof.
  intros Hv Hd Hi Hj Hk Hk'. destruct Hd as [c l [Hf Hn _] | Ht Hr].
  - change (map ?f ?l) with (f <$> l) in *. apply list_lookup_fmap_Some in Hi as (x & -> & Hx), Hj as (y & -> & Hy).
    rewrite Forall_lookup in Hf. pose proof (Hf _ _ Hx) as Vx. pose proof (Hf _ _ Hy) as Vy.
    assert (Hin : forall z, valid s z -> in_block (cluster_block s z) k -> in_cluster s z k).
    { intros z Hz. unfold in_block, in_cluster, block_len. cbn [cluster_block db_sector db_bytes]. destruct (cluster_size_eq s (vol_works s Hv)) as (-> & _ & Hcs).
      destruct (cluster_sector_eq s z (vol_works s Hv) Hz) as (-> & _). unfold csize in *. rewrite (Z.mul_comm 512), Z.div_mul by lia. lia. }
    assert (x = y) as -> by (by apply (cluster_apart s x y k (vol_works s Hv) Vx Vy); apply Hin). by apply (NoDup_lookup _ _ _ _ Hn Hx Hy).
  - change (map ?f ?l) with (f <$> l) in *. apply list_lookup_fmap_Some in Hi as (x & -> & Hx), Hj as (y & -> & Hy). apply lookup_seqZ in Hx as [-> _], Hy as [-> _].
    unfold in_block in *. change (block_len (root_block s _)) with 1%nat in *. cbn [root_block db_sector] in *. lia.
Qed.

Lemma block_not_fat s b k : vol_ok s -> block_ok s b -> in_block b k -> ~ in_fat s k.
Proof. intros Hv Hb Hk. destruct (block_bounds s b Hv Hb) as (_ & _ & H & _). unfold in_block, in_fat in *. lia. Qed.

Lemma changes_block W s s' b : changes W s s' -> (forall k, in_block b k -> ~ W k) -> block_data s' b = block_data s b.
Proof.
  intros Hc Hk. pose proof (geom_fields _ _ (ch_geom _ _ _ Hc)) as (_ & _ & E3 & E4 & _). unfold block_data, run_bytes. rewrite E3, E4. f_equal. apply map_ext_in.
  intros i Hi%list_elem_of_In%elem_of_seqZ. apply Hc. right. apply Hk. unfold in_block. lia.
Qed.

(** ** Extending a directory *)

Lemma dir_chain_tl s c l : l <> [] -> dir_chain s (c :: l) -> dir_chain s l.
Proof.
  intros _ [Hv Hn Hx]. apply Forall_cons in Hv as [_ Hv]. apply NoDup_cons in Hn as [_ Hn]. constructor; [done | done |].
  intros i c' Hi. apply (Hx (S i) c' Hi).
Qed.

Lemma tail_stops s v : vol_ok s -> fat_is_eoc s v || negb (in_range s v) = negb (bool_decide (valid s v)).
Proof. intros Hv. rewrite in_range_spec by done. case_bool_decide as H; [by destruct (valid_plain s v Hv H) as [-> _] | by rewrite orb_true_r]. Qed.

Lemma chain_tail_end l : forall n s0 s c, dir_chain s0 (c :: l) -> quiet s0 s -> vol_ok s -> (length l < n)%nat ->
  exists s', chain_tail n s c = (s', List.last (c :: l) 0) /\ quiet s0 s' /\ vol_ok s'.
Proof.
  induction l as [| c' l IH]; intros n s0 s c Hch Q V Hn; (destruct n as [| n]; [cbn in Hn; lia |]); cbn [chain_tail];
    pose proof Hch as [Hf _ Hx]; apply Forall_cons in Hf as [Hc Hf]; pose proof (quiet_preorder (BD := BD)) as Hpre;
    (destruct (get_valid s c V) as (s1 & -> & Q1 & V1); [by apply (valid_quiet _ _ _ Q) |]); assert (Q' : quiet s0 s1) by (by etrans);
    rewrite tail_stops by done; rewrite (quiet_fat_at _ _ _ Q), (bool_decide_ext _ _ (valid_quiet _ _ _ Q')); pose proof (Hx 0%nat c eq_refl) as Hn0; cbn in Hn0.
  - rewrite bool_decide_eq_false_2 by done. cbn [negb]. by exists s1.
  - rewrite Hn0. apply Forall_cons in Hf as [Hc' Hf]. rewrite bool_decide_eq_true_2 by done. cbn [negb]. cbn [length] in Hn.
    destruct (IH n s0 s1 c') as (s' & E & Qs & Vs); [by apply (dir_chain_tl s0 c) | done | done | lia |]. exists s'. split; [| done]. by rewrite E.
Qed.

(** [l] is made longer by the free cluster [nc]. *)
Lemma extend_dir_ok s c l : vol_ok s -> dir_chain s (c :: l) -> fat_at s (List.last (c :: l) 0) <> 0 -> exists s' r, extend_dir s c = (s', r) /\ match r with
  | None => same_table s s' /\ (forall m, valid s m -> fat_at s m <> 0) /\ calm s s'
  | Some (b, off) => exists nc, valid s nc /\ fat_at s nc = 0 /\ b = cluster_block s nc /\ off = 0 /\ vol_ok s' /\ dir_chain s' ((c :: l) ++ [nc]) /\
      fat_at s' nc <> 0 /\ (forall m, valid s m -> m <> nc -> m <> List.last (c :: l) 0 -> fat_at s' m = fat_at s m) /\ fat_at s' (List.last (c :: l) 0) <> 0 /\
      changes (fun k => in_fat s k \/ in_cluster s nc k) s s' /\ cl_data s' nc = replicate (Z.to_nat (csize s)) 0
  end.
Proof.
  intros Hv Hch Hlast. set (tl := List.last (c :: l) 0) in *. pose proof Hch as [Hf Hn Hx].
  assert (Hsnoc : exists l0, c :: l = l0 ++ [tl]) by (exists (removelast (c :: l)); by apply app_removelast_last). destruct Hsnoc as [l0 El].
  assert (Htl : valid s tl) by (rewrite El in Hf; by apply Forall_app in Hf as [_ [Hf _]%Forall_cons]). assert (Hcv : valid s c) by (by apply Forall_cons in Hf as [Hf _]).
  unfold extend_dir. destruct (Z.ltb_spec c 2); [unfold valid in Hcv; lia |]. destruct (count_small s Hv) as (-> & _).
  pose proof (chain_walks s c l Hv Hch) as [_ Hcount]. cbn [length] in Hcount.
  destruct (chain_tail_end l (Z.to_nat (cluster_count (fi s) + 2)) s s c Hch) as (s1 & -> & Q1 & V1); [done | done | lia |]. fold tl.
  destruct (alloc_ok s1 V1) as (s2 & nc & -> & V2 & K2 & Hres). assert (K : calm s s2) by (apply (changes_trans _ s s1); [by apply changes_quiet | done]).
  pose proof (ch_geom _ _ _ K) as Hg2. destruct Hres as [[-> Hall] | [Hvn Hz]].
  { cbn [Z.eqb]. exists s2, None. split; [done |]. split; [| split; [| done]].
    - constructor; [done | by apply (changes_weaken (fun _ => False)) |]. intros m _. by apply calm_fat_at.
    - intros m Hm. rewrite <- (quiet_fat_at _ _ _ Q1). apply Hall. by apply (valid_quiet _ _ _ Q1). }
  apply (valid_quiet _ _ _ Q1) in Hvn. rewrite (quiet_fat_at _ _ _ Q1) in Hz. destruct (Z.eqb_spec nc 0) as [-> |]; [unfold valid in Hvn; lia |].
  assert (Hne : tl <> nc) by (intros ->; done). destruct (valid_mod s nc Hv Hvn) as [Hnu Hnm]. pose proof (geom_fields _ _ Hg2) as (F1 & F2 & _).
  destruct (set_valid s2 tl nc V2) as (s3 & -> & V3 & C3 & _ & T3); [by apply (geom_valid _ _ _ Hg2) | done |]. cbn [negb]. rewrite F2, Hnm in T3.
  pose proof (geom_fields _ _ (ch_geom _ _ _ C3)) as (G1 & G2 & _). destruct (eoc_ok s3 V3) as (Heoc & Heu & Hem).
  destruct (set_valid s3 nc (fat_eoc_val s3) V3) as (s4 & -> & V4 & C4 & _ & T4); [unfold valid in *; by rewrite G1, F1 | done |]. cbn [negb]. rewrite Hem in T4.
  assert (Hg4 : geom s4 = geom s) by (rewrite (ch_geom _ _ _ C4), (ch_geom _ _ _ C3); done). pose proof (geom_fields _ _ Hg4) as (J1 & J2 & _).
  assert (Hvn4 : valid s4 nc) by (by apply (geom_valid _ _ _ Hg4)).
  destruct (write_cluster_ok s4 nc scratch V4 Hvn4) as (s5 & -> & V5 & C5 & _ & Ed).
  { destruct (cluster_size_eq s4 (vol_works s4 V4)) as (_ & _ & Hcs). unfold scratch. rewrite length_replicate. lia. }
  { by apply Forall_replicate. }
  assert (Hat : forall m, valid s m -> fat_at s5 m = if m =? nc then fat_eoc_val s3 else if m =? tl then nc else fat_at s m).
  { intros m Hm. assert (Hm4 : valid s4 m) by (by apply (geom_valid _ _ _ Hg4)). rewrite (changes_fat_at _ _ _ _ C5); [| | done | done].
    - rewrite T4, T3 by (unfold valid in Hm; lia). by rewrite (calm_fat_at _ _ _ K).
    - intros k Hk Hin. by apply (cluster_not_fat s4 nc k (vol_works s4 V4) Hvn4) in Hin. }
  exists s5, (Some (cluster_block s5 nc, 0)). split; [done |]. exists nc. assert (Hg5 : geom s5 = geom s) by (rewrite (ch_geom _ _ _ C5); done).
  pose proof (geom_fields _ _ Hg5) as (I1 & I2 & _). destruct (eoc_not_valid s3 _ V3 Heoc) as [Hev He0].
  split; [done |]. split; [done |]. split; [unfold cluster_block, cluster_sector, cluster_size; by rewrite I1 |]. split; [done |]. split; [done |].
  assert (Hnin : nc ∉ c :: l).
  { intros (i & Hi)%list_elem_of_lookup. specialize (Hx i nc Hi). destruct ((c :: l) !! S i) as [c' |] eqn:Ec'; [rewrite Hz in Hx; subst c'|].
    - rewrite Forall_lookup in Hf. specialize (Hf _ _ Ec'). unfold valid in Hf. lia.
    - apply lookup_ge_None in Ec'. apply lookup_lt_Some in Hi as Hlt. assert (i = length l) as -> by (cbn in *; lia).
      rewrite El in Hi. assert (Hll : length l = length l0) by (apply (f_equal (@length _)) in El; rewrite length_app in El; cbn in El; lia).
      rewrite Hll, lookup_app_r, Nat.sub_diag in Hi by done. injection Hi as Hi. congruence. }
  split.
  - constructor.
    + apply Forall_app. split; [| apply Forall_singleton; by apply (geom_valid _ _ _ Hg5)]. eapply Forall_impl; [exact Hf |]. intros x. by apply (geom_valid _ _ _ Hg5).
    + apply NoDup_app. split; [done |]. split; [| apply NoDup_singleton]. intros x Hx1 Hx2%list_elem_of_singleton. by subst.
    + intros i x Hi. destruct (Nat.lt_ge_cases i (length (c :: l))) as [Hlt | Hge].
      * rewrite lookup_app_l in Hi by done. assert (Hxv : valid s x) by (rewrite Forall_lookup in Hf; by apply (Hf i)). rewrite Hat by done.
        assert (x <> nc) by (intros ->; apply Hnin, list_elem_of_lookup; by exists i). rewrite (proj2 (Z.eqb_neq x nc)) by done.
        specialize (Hx i x Hi). destruct ((c :: l) !! S i) as [c' |] eqn:Ec'.
        -- rewrite lookup_app_l, Ec' by (by apply lookup_lt_Some in Ec'). assert (x <> tl) as Hxt; [| by rewrite (proj2 (Z.eqb_neq x tl))]. intros ->.
           assert (Htn : (c :: l) !! length l0 = Some tl) by (rewrite El; by rewrite lookup_app_r, Nat.sub_diag by done).
           pose proof (NoDup_lookup _ _ _ _ Hn Hi Htn) as ->. apply lookup_lt_Some in Ec'. rewrite El, length_app in Ec'. cbn in Ec'. lia.
        -- apply lookup_ge_None in Ec'. assert (Ei : S i = length (c :: l)) by lia. rewrite lookup_app_r, Ei, Nat.sub_diag by lia. cbn.
           assert (x = tl) as ->; [| by rewrite Z.eqb_refl]. rewrite El in Hi. assert (i = length l0) as -> by (rewrite El, length_app in Ei; cbn in Ei; lia).
           rewrite lookup_app_r, Nat.sub_diag in Hi by done. by injection Hi.
      * pose proof (lookup_lt_Some _ _ _ Hi) as Hlen. rewrite length_app in Hlen. cbn [length] in *. assert (i = S (length l)) as -> by lia.
        rewrite lookup_app_r in Hi by done. cbn [length] in Hi. rewrite Nat.sub_diag in Hi. injection Hi as <-.
        rewrite lookup_ge_None_2 by (rewrite length_app; cbn; lia). rewrite Hat, Z.eqb_refl by done. intros Hb. apply Hev. unfold valid in *. by rewrite G1, F1, <- I1.
  - split; [by rewrite Hat, Z.eqb_refl |]. split.
    { intros m Hm H1 H2. rewrite Hat by done. by rewrite (proj2 (Z.eqb_neq m nc)), (proj2 (Z.eqb_neq m tl)). }
    split; [rewrite Hat by done; rewrite (proj2 (Z.eqb_neq tl nc)), Z.eqb_refl by done; unfold valid in Hvn; lia |]. split.
    + assert (C34 : changes (in_fat s) s s4).
      { apply (changes_trans _ s s2); [by apply (changes_weaken (fun _ => False)) |]. apply (changes_trans _ s2 s3);
          [eapply changes_weaken; [| exact C3] | eapply changes_weaken; [| exact C4]]; intros k Hk; [by apply (in_fat_geom _ _ k Hg2) |].
        apply (in_fat_geom s s3); [| done]. rewrite (ch_geom _ _ _ C3). done. }
      apply (changes_trans _ s s4); [eapply changes_weaken; [| exact C34]; tauto |]. eapply changes_weaken; [| exact C5]. intros k Hk. right. by apply (in_cluster_geom _ _ nc k Hg4).
    + rewrite Ed. unfold scratch. rewrite (csize_geom _ _ Hg4), take_replicate. f_equal. destruct (cluster_size_eq s (vol_works s Hv)) as (_ & _ & Hcs). lia.
Qed.

(** ** Writing the entry *)

Lemma block_slots s b : vol_ok s -> block_ok s b -> db_bytes b = 32 * Z.of_nat (slots b) /\ (0 < slots b <= 512)%nat /\ length (block_data s b) = (32 * slots b)%nat.
Proof.
  intros Hv Hb. destruct (block_bounds s b Hv Hb) as (H1 & H2 & _). destruct (block_data_ok s b Hv Hb) as [Hl _]. unfold slots, FAT_MAX_CLUSTER_BYTES in *.
  assert (db_bytes b / 32 = 16 * Z.of_nat (block_len b)) by (Z.to_euclidean_division_equations; lia). lia.
Qed.

Lemma write_dirent_ok s b k e : vol_ok s -> block_ok s b -> (k < slots b)%nat -> length e = 32%nat -> Forall is_u8 e ->
  exists s', fat_write_dirent_at s b (32 * Z.of_nat k) e = (s', true) /\ vol_ok s' /\ changes (in_block b) s s' /\ block_data s' b = put_slot (block_data s b) k e.
Proof.
  intros Hv Hb Hk He Hu. destruct (block_slots s b Hv Hb) as (S1 & S2 & S3). unfold fat_write_dirent_at. rewrite u32_small by (unfold is_u32; lia).
  destruct (Z.ltb_spec (db_bytes b) (32 * Z.of_nat k + 32)); [lia |]. destruct (read_block_ok s b Hv Hb) as (s1 & -> & Q1 & V1).
  rewrite take_ge by lia. fold (put_slot (block_data s b) k e). destruct (block_data_ok s b Hv Hb) as [_ Hbu].
  destruct (write_block_ok s1 b (put_slot (block_data s b) k e) V1) as (s2 & -> & V2 & C2 & Ed).
  - by apply (block_geom _ _ _ (qu_geom _ _ Q1)).
  - unfold put_slot. rewrite length_spliced; lia.
  - by apply Forall_splice.
  - exists s2. split; [done |]. split; [done |]. split; [| done]. apply (changes_trans _ s s1); [by apply changes_quiet | done].
Qed.

(** ** Directories as a whole *)

Record dir_ok s (dir : Z) (bs : list dir_block_t) : Prop := {
  do_blocks : dir_blocks s dir bs;
  do_used : forall b, b ∈ bs -> db_cluster b <> 0 -> fat_at s (db_cluster b) <> 0;
  do_tidy : dir_tidy (contents s bs);
}.

Lemma in_cluster_block s c k : vol_ok s -> valid s c -> in_block (cluster_block s c) k <-> in_cluster s c k.
Proof.
  intros Hv Hc. unfold in_block, in_cluster, block_len. cbn [cluster_block db_sector db_bytes]. destruct (cluster_size_eq s (vol_works s Hv)) as (-> & _ & Hcs).
  destruct (cluster_sector_eq s c (vol_works s Hv) Hc) as (-> & _). unfold csize in *. rewrite (Z.mul_comm 512), Z.div_mul by lia. lia.
Qed.

Lemma block_cluster_apart s b c k : vol_ok s -> block_ok s b -> valid s c -> db_cluster b <> c -> in_block b k -> ~ in_cluster s c k.
Proof.
  intros Hv Hb Hc Hne Hk Hin. destruct Hb as [(x & Hx & ->) | (i & Hi & ->)].
  - apply (in_cluster_block s x k Hv Hx) in Hk. apply Hne. by apply (cluster_apart s x c k (vol_works s Hv)).
  - destruct (cl_bounds s c (vol_works s Hv) Hc) as (B1 & _). pose proof (go_data _ _ _ (vo_geo _ Hv)). unfold in_block, in_cluster in *.
    change (block_len (root_block s i)) with 1%nat in Hk. cbn [root_block db_sector] in Hk. lia.
Qed.

Lemma contents_same s s' bs : (forall b, b ∈ bs -> block_data s' b = block_data s b) -> contents s' bs = contents s bs.
Proof. intros H. unfold contents. apply map_ext_in. intros b Hb%list_elem_of_In. by rewrite H. Qed.

Lemma contents_app s bs1 bs2 : contents s (bs1 ++ bs2) = contents s bs1 ++ contents s bs2.
Proof. apply map_app. Qed.

(** Writes that keep the sectors of the blocks and their table entries. *)
Lemma dir_ok_same s s' dir bs : dir_ok s dir bs -> geom s' = geom s -> (forall b, b ∈ bs -> db_cluster b <> 0 -> fat_at s' (db_cluster b) = fat_at s (db_cluster b)) ->
  (forall b, b ∈ bs -> block_data s' b = block_data s b) -> dir_ok s' dir bs.
Proof.
  intros [H1 H2 H3] Hg Hat Hd. constructor.
  - by apply (blocks_same s).
  - intros b Hb Hn. rewrite Hat by done. by apply H2.
  - by rewrite (contents_same s s').
Qed.

Lemma block_cluster_valid s b : block_ok s b -> db_cluster b <> 0 -> valid s (db_cluster b).
Proof. intros [(c & Hc & ->) | (i & Hi & ->)] Hn; [exact Hc | done]. Qed.

Lemma quiet_dir_ok s s' dir bs : dir_ok s dir bs -> quiet s s' -> dir_ok s' dir bs.
Proof.
  intros Hd Q. apply (dir_ok_same s); [done | by apply (qu_geom _ _ Q) | |]; intros b _; [intros _; by apply quiet_fat_at | by apply block_quiet_data].
Qed.

(** A slot of a directory, and the directory (made longer, if need be) it is in. *)
Record slot_found s (dir : Z) (bs : list dir_block_t) s' (b : dir_block_t) (off : Z) bs1 bs2 (k : nat) : Prop := {
  sf_vol : vol_ok s';
  sf_geom : geom s' = geom s;
  sf_dir : dir_ok s' dir (bs1 ++ b :: bs2);
  sf_off : off = 32 * Z.of_nat k;
  sf_slot : (k < slots b)%nat;
  sf_free : slot_free (block_data s' b) k = true;
  sf_first : forall i, (i < k)%nat -> slot_free (block_data s' b) i = false;
  sf_full : Forall block_full (contents s' bs1);
  sf_entries : forall st, all_entries (fat_type s) (contents s' (bs1 ++ b :: bs2)) st = all_entries (fat_type s) (contents s bs) st;
  sf_blocks : forall b', b' ∈ bs1 ++ b :: bs2 -> b' ∈ bs \/ fat_at s (db_cluster b') = 0;
  sf_data : forall c, valid s c -> fat_at s c <> 0 -> cl_data s' c = cl_data s c;
  sf_table : forall c, valid s c -> fat_at s c <> 0 -> (forall b', b' ∈ bs -> db_cluster b' <> c) -> fat_at s' c = fat_at s c;
}.

Lemma contents_size s bs : vol_ok s -> Forall (block_ok s) bs -> Forall (fun c => db_bytes (fst c) <= FAT_MAX_CLUSTER_BYTES) (contents s bs).
Proof.
  intros Hv Hb. unfold contents. apply Forall_map. eapply Forall_impl; [exact Hb |]. intros b Hok. destruct (block_bounds s b Hv Hok) as (_ & [_ H] & _). exact H.
Qed.

Lemma contents_split s bs cs1 b buf cs2 : contents s bs = cs1 ++ (b, buf) :: cs2 -> exists bs1 bs2, bs = bs1 ++ b :: bs2 /\ cs1 = contents s bs1 /\ buf = block_data s b /\ cs2 = contents s bs2.
Proof.
  intros E. unfold contents in E. apply map_eq_app in E as (bs1 & r & -> & E1 & E2). apply map_eq_cons in E2 as (b' & bs2 & -> & E3 & E4). injection E3 as -> <-. exists bs1, bs2.
  by rewrite <- E1, <- E4.
Qed.

(** A cluster of zeros is a block without entries. *)
Lemma zero_cluster s c : vol_ok s -> valid s c -> cl_data s c = replicate (Z.to_nat (csize s)) 0 -> block_data s (cluster_block s c) = zero_block (cluster_block s c).
Proof.
  intros Hv Hc E. destruct (block_slots s (cluster_block s c) Hv) as (S1 & _ & _); [left; by exists c |]. destruct (cluster_sector_eq s c (vol_works s Hv) Hc) as (Es & _).
  destruct (cluster_size_eq s (vol_works s Hv)) as (Ec & Ec2 & _). unfold zero_block. cbn [cluster_block db_bytes] in S1. rewrite Ec in S1. replace (32 * slots (cluster_block s c))%nat with (Z.to_nat (csize s)) by lia.
  rewrite <- E. unfold block_data, cl_data, block_len. cbn [cluster_block db_sector db_bytes]. by rewrite Es, Ec2.
Qed.

(** A slot in the blocks there are. *)
Lemma slot_there s dir bs s' b off : vol_ok s -> dir_ok s dir bs -> quiet s s' -> vol_ok s' -> first_slot (contents s bs) = Some (b, off) ->
  exists bs1 bs2 k, slot_found s dir bs s' b off bs1 bs2 k.
Proof.
  intros Hv Hd Q V Ef. pose proof (first_slot_ok (contents s bs)) as Hf. rewrite Ef in Hf.
  destruct Hf as (cs1 & buf & cs2 & k & Ec & Hfull & Hk & -> & Hfree & Hfirst); [by apply contents_size, (blocks_ok s dir), Hd |].
  apply contents_split in Ec as (bs1 & bs2 & -> & -> & -> & ->). exists bs1, bs2, k. constructor; try done.
  - apply (qu_geom _ _ Q).
  - by apply (quiet_dir_ok s).
  - by rewrite (block_quiet_data _ _ _ Q).
  - intros i Hi. rewrite (block_quiet_data _ _ _ Q). by apply Hfirst.
  - rewrite (contents_same s s'); [done |]. intros b' _. by apply block_quiet_data.
  - intros st. f_equal. apply contents_same. intros b' _. by apply block_quiet_data.
  - intros b' Hb'. by left.
  - intros c Hc _. apply (changes_cl_data (fun _ => False)); [by apply changes_quiet | tauto | done].
  - intros c _ _ _. by apply quiet_fat_at.
Qed.

(** A slot in a new block. *)
Lemma slot_new s c l s' nc : vol_ok s -> vol_ok s' -> dir_ok s c (map (cluster_block s) (c :: l)) -> dir_chain s (c :: l) -> Forall block_full (contents s (map (cluster_block s) (c :: l))) ->
  valid s nc -> fat_at s nc = 0 -> dir_chain s' ((c :: l) ++ [nc]) -> fat_at s' nc <> 0 ->
  (forall m, valid s m -> m <> nc -> m <> List.last (c :: l) 0 -> fat_at s' m = fat_at s m) -> fat_at s' (List.last (c :: l) 0) <> 0 ->
  changes (fun k => in_fat s k \/ in_cluster s nc k) s s' -> cl_data s' nc = replicate (Z.to_nat (csize s)) 0 ->
  slot_found s c (map (cluster_block s) (c :: l)) s' (cluster_block s nc) 0 (map (cluster_block s) (c :: l)) [] 0.
Proof.
  intros Hv Hv' [Hd1 Hd2 Hd3] Hch Hfull Hvn Hz Hch' Hn0 Hat Htl Hc Ed. pose proof (ch_geom _ _ _ Hc) as Hg. pose proof (geom_fields _ _ Hg) as (E1 & E2 & _).
  set (bs := map (cluster_block s) (c :: l)) in *. pose proof Hch as [Hf Hnd _]. rewrite Forall_forall in Hf.
  assert (Eb : forall x, cluster_block s' x = cluster_block s x) by (intros x; unfold cluster_block, cluster_sector, cluster_size; by rewrite E1).
  assert (Hbs : forall b, b ∈ bs -> exists x, x ∈ c :: l /\ b = cluster_block s x).
  { intros b Hb. apply list_elem_of_In, in_map_iff in Hb as (x & <- & Hx%list_elem_of_In). by exists x. }
  assert (Hin : forall x, x ∈ c :: l -> cluster_block s x ∈ bs) by (intros x Hx; apply list_elem_of_In, in_map_iff; exists x; split; [done | by apply list_elem_of_In]).
  assert (Hused : forall x, x ∈ c :: l -> fat_at s x <> 0). { intros x Hx. apply (Hd2 _ (Hin x Hx)). specialize (Hf x Hx). unfold valid in Hf. cbn. lia. }
  assert (Hdata : forall b, b ∈ bs -> block_data s' b = block_data s b).
  { intros b (x & Hx & ->)%Hbs. apply (changes_block _ _ _ _ Hc). assert (Hbo : block_ok s (cluster_block s x)) by (left; exists x; by split; [apply Hf |]).
    intros k Hk [Hi | Hi]; [by apply (block_not_fat s _ k Hv Hbo Hk) | revert Hi]. apply (block_cluster_apart s _ nc k Hv Hbo Hvn); [| done].
    cbn. intros ->. by apply (Hused nc). }
  assert (Hnb : block_ok s (cluster_block s nc)) by (left; by exists nc).
  assert (Ez : block_data s' (cluster_block s nc) = zero_block (cluster_block s nc)).
  { rewrite <- (Eb nc). apply zero_cluster; [done | by apply (geom_valid _ _ _ Hg) | by rewrite (csize_geom _ _ Hg)]. }
  assert (Ec : contents s' (bs ++ [cluster_block s nc]) = contents s bs ++ [(cluster_block s nc, zero_block (cluster_block s nc))]).
  { rewrite contents_app. f_equal; [by apply contents_same |]. cbn [contents map]. by rewrite Ez. }
  destruct (block_slots s _ Hv Hnb) as (_ & Hsl & _). destruct (tidy_extend (contents s bs) (cluster_block s nc) Hd3 Hfull) as [Ht Hent]; [lia |].
  assert (Elast : List.last (c :: l) 0 ∈ c :: l) by (rewrite (app_removelast_last (l := c :: l) 0) at 2 by done; rewrite elem_of_app; right; left).
  constructor; try done.
  - constructor.
    + assert (Em : bs ++ [cluster_block s nc] = map (cluster_block s') (c :: (l ++ [nc]))).
      { unfold bs. rewrite (map_ext _ _ Eb). change (c :: l ++ [nc]) with ((c :: l) ++ [nc]). by rewrite map_app. }
      rewrite Em. by constructor.
    + intros b [Hb | ->%list_elem_of_singleton]%elem_of_app; [| done]. destruct (Hbs b Hb) as (x & Hx & ->). intros _. cbn [cluster_block db_cluster].
      destruct (Z.eq_dec x (List.last (c :: l) 0)) as [-> |]; [done |]. rewrite Hat; [by apply Hused | by apply Hf | | done]. intros ->. by apply (Hused nc).
    + by rewrite Ec.
  - lia.
  - rewrite Ez. unfold slot_free. by rewrite zero_mark.
  - lia.
  - rewrite (contents_same s s'); done.
  - intros st. by rewrite Ec, Hent.
  - intros b [Hb | ->%list_elem_of_singleton]%elem_of_app; [by left | by right].
  - intros x Hx Hu. apply (changes_cl_data _ _ _ _ Hc); [| done]. intros k Hk [Hi | Hi]; [by apply (cluster_not_fat s x k (vol_works s Hv) Hx) in Hi |].
    assert (x = nc) by (by apply (cluster_apart s x nc k (vol_works s Hv))). by subst.
  - intros x Hx Hu Hnb'. apply Hat; [done | by intros -> |]. intros ->. by apply (Hnb' (cluster_block s (List.last (c :: l) 0)) (Hin _ Elast)).
Qed.

Lemma find_slot_ok s dir bs : vol_ok s -> dir_ok s dir bs -> exists s' r, fat_find_free_slots s dir 1 = (s', r) /\ match r with
  | Some (b, off) => exists bs1 bs2 k, slot_found s dir bs s' b off bs1 bs2 k
  | None => same_table s s' /\ calm s s' /\ Forall block_full (contents s bs) /\ (dir = 0 \/ forall m, valid s m -> fat_at s m <> 0)
  end.
Proof.
  intros Hv Hd. pose proof (do_blocks _ _ _ Hd) as Hb. destruct (dir_starts s dir bs Hv Hb) as (w & Hw & Hl & Hs). unfold fat_find_free_slots. rewrite (Hs s) by done.
  destruct (slots_ok s w bs Hw (Z.to_nat (wmax w)) s) as (s1 & -> & Q1 & V1); [done | done | done |].
  pose proof (first_slot_ok (contents s bs) (contents_size s bs Hv (blocks_ok s dir bs Hv Hb))) as Hf. destruct (first_slot (contents s bs)) as [[b off] |] eqn:Ef.
  - exists s1, (Some (b, off)). split; [done |]. by apply (slot_there s dir bs s1 b off).
  - pose proof (quiet_dir_ok s s1 dir bs Hd Q1) as Hd1. assert (Ec : contents s1 bs = contents s bs) by (apply contents_same; intros b _; by apply block_quiet_data).
    assert (Hcalm1 : calm s s1) by (by apply changes_quiet).
    assert (Hsame : forall s2, same_table s1 s2 -> same_table s s2).
    { intros s2 [A1 A2 A3]. constructor; [done | |].
      - apply (changes_trans _ s s1); [by apply changes_quiet |]. eapply changes_weaken; [| exact A2]. intros k Hk. by apply (in_fat_geom _ _ k (qu_geom _ _ Q1)).
      - intros m Hm. rewrite A3 by (by apply (valid_quiet _ _ _ Q1)). by apply quiet_fat_at. }
    inversion Hb as [c l Hch Ed Eb | Ht Hr Ed Eb]; subst dir bs.
    + assert (Hch1 : dir_chain s1 (c :: l)).
      { destruct Hch as [A1 A2 A3]. constructor; [eapply Forall_impl; [exact A1 |]; intros x; by apply (valid_quiet _ _ _ Q1) | done |]. intros i x Hi. specialize (A3 i x Hi).
        rewrite (quiet_fat_at _ _ _ Q1). destruct ((c :: l) !! S i); [done |]. intros Hx. by apply A3, (valid_quiet _ _ _ Q1). }
      assert (Elast : List.last (c :: l) 0 ∈ c :: l) by (rewrite (app_removelast_last (l := c :: l) 0) at 2 by done; rewrite elem_of_app; right; left).
      assert (Eb : forall x, cluster_block s x = cluster_block s1 x) by (intros x; symmetry; by apply block_quiet). rewrite (map_ext _ _ Eb) in *.
      destruct (extend_dir_ok s1 c l V1 Hch1) as (s2 & r & -> & Hr).
      { destruct Hd1 as [_ A _]. apply (A (cluster_block s1 (List.last (c :: l) 0))); [apply list_elem_of_In, in_map; by apply list_elem_of_In |]. destruct Hch1 as [A1 _ _]. rewrite Forall_forall in A1. specialize (A1 _ Elast). unfold valid in A1. change (List.last (c :: l) 0 <> 0). lia. }
      exists s2, r. split; [done |]. destruct r as [[b off] |].
      * destruct Hr as (nc & R1 & R2 & -> & -> & R5 & R6 & R7 & R8 & R9 & R10 & R11). rewrite <- Ec in Hf.
        pose proof (slot_new s1 c l s2 nc V1 R5 Hd1 Hch1 Hf R1 R2 R6 R7 R8 R9 R10 R11) as [T1 T2 T3 T4 T5 T6 T7 T8 T9 T10 T11 T12].
        eexists _, _, _. constructor; [done | rewrite T2; apply (qu_geom _ _ Q1) | exact T3 | done | done | done | done | done | | | |].
        -- intros st. rewrite <- Ec. pose proof (geom_fields _ _ (qu_geom _ _ Q1)) as (_ & <- & _). apply T9.
        -- intros b' Hb'. rewrite <- (quiet_fat_at _ _ _ Q1). by apply T10.
        -- intros x Hx Hu. rewrite T11; [| by apply (valid_quiet _ _ _ Q1) | by rewrite (quiet_fat_at _ _ _ Q1)]. apply (changes_cl_data (fun _ => False)); [by apply changes_quiet | tauto | done].
        -- intros x Hx Hu Hnb. rewrite T12; [by apply quiet_fat_at | by apply (valid_quiet _ _ _ Q1) | by rewrite (quiet_fat_at _ _ _ Q1) | done].
      * destruct Hr as (R1 & R2 & R3). split; [by apply Hsame |]. split; [by apply (changes_trans _ s s1) |]. split; [done |]. right. intros m Hm. rewrite <- (quiet_fat_at _ _ _ Q1). apply R2. by apply (valid_quiet _ _ _ Q1).
    + exists s1, None. split; [done |]. split; [| by split; [| split; [| left]]]. apply Hsame. constructor; [done | by apply changes_quiet | done].
Qed.
End Create.
