(* ===== verification/FatRound.v ===== *)
(** * FatRound: a file that is created can be read ([kernel/fat.c])

    The whole of [fat_create_file] and [fat_read_file] for files with a short
    name in the current directory. *)

From S2P Require Import Prelude Disk Fat FatProps FatDir FatWalk FatFile FatLookup FatEntry FatCreate.

(** ** Names *)

Lemma dots_range name : forall i d ds, dots name i = d :: ds -> i <= d < i + Z.of_nat (length name).
Proof.
  induction name as [| c name IH]; intros i d ds E; cbn [dots length] in *; [done |]. destruct (c =? 46).
  - injection E as <- _. lia.
  - apply IH in E. lia.
Qed.

Lemma sfn_length name sn : try_make_sfn name = Some sn -> (1 <= length name <= 12)%nat.
Proof.
  unfold try_make_sfn. destruct (dots name 0) as [| d [| d' ds]] eqn:Ed; [| | done].
  - destruct (Nat.ltb_spec (length name) 1), (Nat.ltb_spec 8 (length name)); cbn [orb]; (done || lia).
  - apply dots_range in Ed. rewrite length_take, length_drop.
    destruct (Nat.ltb_spec (Nat.min (Z.to_nat d) (length name)) 1), (Nat.ltb_spec 8 (Nat.min (Z.to_nat d) (length name))), (Nat.ltb_spec 3 (length name - Z.to_nat (d + 1)));
      cbn [orb]; (done || lia).
Qed.

Lemma no_slash name : forall i last, 47 ∉ name -> last_slash name i last = last.
Proof.
  induction name as [| c name IH]; intros i l Hn; cbn [last_slash]; [done |]. apply not_elem_of_cons in Hn as [Hc Hn]. rewrite (proj2 (Z.eqb_neq c 47)) by congruence. by apply IH.
Qed.

Lemma find_prefix {A} (f : A -> bool) l1 l2 : List.find f (l1 ++ l2) = None -> List.find f l1 = None.
Proof. induction l1 as [| x l1 IH]; cbn; [done |]. destruct (f x); [done | exact IH]. Qed.
Lemma find_here {A} (f : A -> bool) l1 x l2 : List.find f l1 = None -> f x = true -> List.find f (l1 ++ x :: l2) = Some x.
Proof. induction l1 as [| y l1 IH]; cbn; [by intros _ -> |]. destruct (f y); [done | exact IH]. Qed.

Section Round.
Context {D : Type} `{BD : BlockDev D}.
Implicit Types s : fatfs D.

(** The uninitialised array holds the same bytes at every enumeration. *)
Variable junk : list Z.
Variable clock : fatfs D -> Z * Z.
Notation entries := (entries_of (fun _ : fatfs D => junk)).
Notation find_named name l := (List.find (fun de => name_eq (de_name de) name) l).

Lemma resolve_short s name : vol_ok s -> 47 ∉ name -> (1 <= length name <= 127)%nat -> fat_resolve_leaf (fun _ => junk) s name = (s, Some (current_dir_cluster (cwd s), name)).
Proof.
  intros Hv Hs Hl. destruct (count_small s Hv) as (_ & _ & Ht). unfold fat_resolve_leaf. destruct name as [| c name]; [cbn in Hl; lia |].
  rewrite (proj2 (Z.eqb_neq _ _) Ht), no_slash by done. change (Z.to_nat (-1 + 1)) with 0%nat. rewrite drop_0. unfold LEAF_SIZE.
  destruct (Z.eqb_spec (Z.of_nat (length (c :: name))) 0); [cbn in *; lia |]. destruct (Z.ltb_spec 128 (Z.of_nat (length (c :: name)) + 1)); [cbn in *; lia |]. done.
Qed.

(** ** The entry *)

(** The directory [bs] has gained the entry [de], in a slot of its blocks [bs']. *)
Record entry_added s (dir : Z) (bs : list dir_block_t) s' (bs' : list dir_block_t) (de : fat_dirent_t) : Prop := {
  ea_vol : vol_ok s';
  ea_geom : geom s' = geom s;
  ea_dir : dir_ok s' dir bs';
  ea_entries : exists l1 l2, entries s bs = l1 ++ l2 /\ entries s' bs' = l1 ++ de :: l2;
  ea_data : forall c, valid s c -> fat_at s c <> 0 -> (forall b, b ∈ bs -> db_cluster b <> c) -> fat_at s' c = fat_at s c /\ cl_data s' c = cl_data s c;
}.

Lemma entry_written s dir bs s1 b off bs1 bs2 k sn a first size : vol_ok s -> slot_found s dir bs s1 b off bs1 bs2 k -> length sn = 11%nat -> Forall plain_char sn ->
  is_u8 a -> a &! ATTR_VOLUME_ID = 0 -> a &! ATTR_LFN <> ATTR_LFN -> is_u32 first -> is_u32 size -> (fat_type s <> 32 -> is_u16 first) ->
  exists s2, fat_write_dirent_at s1 b off (short_entry clock s1 sn a first size) = (s2, true) /\
    entry_added s dir bs s2 (bs1 ++ b :: bs2) (mk_de (sn11_to_str sn 16) first size (negb (a &! ATTR_DIRECTORY =? 0)) a b off 0).
Proof.
  intros Hv [T1 T2 T3 -> T5 T6 T7 T8 T9 T10 T11 T12] Hl Hp Ha Hav Hal Hf Hs H16. pose proof (geom_fields _ _ T2) as (E1 & E2 & _).
  assert (Hpu : Forall is_u8 sn) by (eapply Forall_impl; [exact Hp |]; unfold plain_char, is_u8; lia).
  pose proof (short_entry_ok clock s1 sn a first size Hl Hpu Ha Hf Hs) as He. rewrite E2 in He. specialize (He H16). set (e := short_entry clock s1 sn a first size) in *.
  pose proof He as [He1 He2 He3 He4 _ _ _]. pose proof T3 as [D1 D2 D3]. pose proof (blocks_ok s1 dir _ T1 D1) as Hbo.
  assert (Hib : (bs1 ++ b :: bs2) !! length bs1 = Some b) by (by rewrite lookup_app_r, Nat.sub_diag by done).
  assert (Hb : block_ok s1 b) by (rewrite Forall_lookup in Hbo; by apply (Hbo _ _ Hib)).
  destruct (write_dirent_ok s1 b k e T1 Hb T5 He1 He2) as (s2 & -> & V2 & C2 & Ed). exists s2. split; [done |].
  assert (Hg2 : geom s2 = geom s1) by apply (ch_geom _ _ _ C2). pose proof (geom_fields _ _ Hg2) as (F1 & F2 & _).
  assert (Hat : forall m, valid s1 m -> fat_at s2 m = fat_at s1 m).
  { intros m Hm. apply (changes_fat_at _ _ _ _ C2); [| done | done]. intros x Hx Hin. by apply (block_not_fat s1 b x T1 Hb Hin). }
  assert (Hother : forall i b', (bs1 ++ b :: bs2) !! i = Some b' -> i <> length bs1 -> block_data s2 b' = block_data s1 b').
  { intros i b' Hi Hne. apply (changes_block _ _ _ _ C2). intros x Hx Hin. apply Hne. by apply (blocks_apart s1 dir _ i (length bs1) b' b x T1 D1). }
  assert (Ec : contents s2 (bs1 ++ b :: bs2) = contents s1 bs1 ++ (b, put_slot (block_data s1 b) k e) :: contents s1 bs2).
  { rewrite contents_app. f_equal.
    - apply contents_same. intros b' (i & Hi)%list_elem_of_lookup. apply (Hother i); [by apply lookup_app_l_Some |]. apply lookup_lt_Some in Hi. lia.
    - cbn [contents map]. rewrite Ed. f_equal. apply contents_same. intros b' (i & Hi)%list_elem_of_lookup. apply (Hother (length bs1 + S i)%nat); [| lia].
      rewrite lookup_app_r by lia. by replace (length bs1 + S i - length bs1)%nat with (S i) by lia. }
  assert (Ec1 : contents s1 (bs1 ++ b :: bs2) = contents s1 bs1 ++ (b, block_data s1 b) :: contents s1 bs2) by (by rewrite contents_app).
  assert (Hm0 : 32 <= aget 0 e 0 < 127).
  { assert (E0 : aget 0 e 0 = aget 0 (take 11 e) 0) by (unfold aget; by rewrite !nth_lookup, lookup_take_lt by (cbn; lia)). rewrite E0, He3.
    destruct sn as [| x sn]; [done |]. by apply Forall_cons in Hp as [Hp _]. }
  assert (Hlfn : is_lfn e = false) by (unfold is_lfn; rewrite He4; by apply Z.eqb_neq).
  rewrite Ec1 in D3. unfold DELETED_ENTRY in *. constructor.
  - done.
  - congruence.
  - constructor.
    + apply (blocks_same s1); [done | done |]. intros b' Hb' Hn. apply Hat. apply block_cluster_valid; [| done]. rewrite Forall_forall in Hbo. by apply Hbo.
    + intros b' Hb' Hn. rewrite Hat; [by apply D2 |]. apply block_cluster_valid; [| done]. rewrite Forall_forall in Hbo. by apply Hbo.
    + rewrite Ec. apply tidy_insert; try done. lia.
  - assert (Hent : forall st, lfn_len st = 0 -> dirent_from_short (fat_type s) e st b (32 * Z.of_nat k) =
      Some (mk_de (sn11_to_str sn 16) first size (negb (a &! ATTR_DIRECTORY =? 0)) a b (32 * Z.of_nat k) 0)) by (intros st; by apply decode_short).
    destruct (dir_insert (fat_type s) (contents s1 bs1) b (block_data s1 b) (contents s1 bs2) k e _ (first_state (fun _ => junk) s) D3 T8 T5 He1 T7 T6 ltac:(lia) ltac:(unfold DELETED_ENTRY; lia) Hlfn Hent) as (l1 & l2 & Ea & Eb).
    exists l1, l2. unfold entries_of. rewrite F2, E2, Ec. split; [| exact Eb]. rewrite <- Ea, <- Ec1. symmetry. apply T9.
  - intros c Hc Hu Hnb. assert (Hc1 : valid s1 c) by (by apply (geom_valid _ _ _ T2)). split.
    + rewrite Hat by done. by apply T12.
    + rewrite <- (T11 c Hc Hu). apply (changes_cl_data _ _ _ _ C2); [| done]. intros x Hx Hin. revert Hx. apply (block_cluster_apart s1 b c x T1 Hb Hc1); [| done].
      intros Eb. destruct (T10 b) as [Hin' | Hz]; [apply list_elem_of_lookup; by exists (length bs1) | by apply (Hnb b) |]. rewrite Eb in Hz. done.
Qed.

(** ** The file *)

(** The data of a stored file are read through the table. *)
Lemma stored_read s0 s first data l max_size : vol_ok s0 -> stored s0 s first data l -> is_u32 max_size -> Z.of_nat (length data) < 2 ^ 32 - 2 ^ 14 -> fi s = fi s0 ->
  forall s', vol_ok s' -> geom s' = geom s -> (forall c, c ∈ l -> fat_at s' c = fat_at s c /\ cl_data s' c = cl_data s c) ->
  data <> [] -> exists s'', read_from (Z.to_nat (cluster_count (fi s') + 2)) s' first (Z.of_nat (length data)) max_size 0 = (s'', Some (take (Z.to_nat max_size) data)) /\ quiet s' s''.
Proof.
  intros Hv0 Hst Hm Hlen Ef s' Hv' Hg Hkeep Hne. pose proof Hst as [V Hch -> Hll _ _ _ Hdat]. pose proof (geom_fields _ _ Hg) as (F1 & F2 & _).
  assert (Hch' : file_chain s' l) by (apply (chain_same s); [done | done | done |]; intros c Hc; by apply Hkeep).
  assert (Hcov : Z.of_nat (length data) <= csize s' * Z.of_nat (length l)).
  { destruct (clusters_for_ok s0 (Z.of_nat (length data)) Hv0 ltac:(lia)) as (_ & H & _). rewrite Hll. unfold csize in *. by rewrite F1, Ef. }
  assert (Hcount : (length l <= Z.to_nat (cluster_count (fi s') + 2))%nat).
  { destruct Hch' as [Hf Hn _]. assert (Hsub : l ⊆+ seqZ 2 (cluster_count (fi s'))).
    { apply NoDup_submseteq; [done |]. intros x Hx. rewrite Forall_forall in Hf. specialize (Hf x Hx). apply elem_of_seqZ. unfold valid in Hf. lia. }
    apply submseteq_length in Hsub. rewrite length_seqZ in Hsub. lia. }
  destruct (read_from_ok (Z.to_nat (cluster_count (fi s') + 2)) s' l (Z.of_nat (length data)) max_size 0 Hv' Hch') as (s'' & E & Q & _);
    [unfold is_u32; lia | done | done | done | lia |]. exists s''. split; [| done]. rewrite E, Z.sub_0_r. do 2 f_equal.
  assert (Em : map (cl_data s') l = map (cl_data s) l) by (apply map_ext_in; intros c Hc%list_elem_of_In; by apply Hkeep). rewrite Em.
  destruct (Z.le_ge_cases max_size (Z.of_nat (length data))).
  - rewrite Z.min_r by lia. apply Hdat. unfold is_u32 in Hm. lia.
  - rewrite Z.min_l by lia. rewrite Hdat by lia. rewrite !take_ge by lia. done.
Qed.

(** A directory is not touched by storing the data of a new file. *)
Lemma stored_dir s0 s first data l dir bs : vol_ok s0 -> stored s0 s first data l -> geom s = geom s0 -> dir_ok s0 dir bs ->
  dir_ok s dir bs /\ entries s bs = entries s0 bs /\ (forall b, b ∈ bs -> db_cluster b ∉ l) /\ contents s bs = contents s0 bs.
Proof.
  intros Hv0 [V Hch _ _ Hfree Hrest Hc _] Hg Hd. pose proof Hd as [D1 D2 D3]. pose proof (blocks_ok s0 dir bs Hv0 D1) as Hbo. rewrite Forall_forall in Hbo. rewrite Forall_forall in Hfree.
  assert (Hnin : forall b, b ∈ bs -> db_cluster b ∉ l).
  { intros b Hb Hin. destruct (Hfree _ Hin) as [Hvc Hz]. apply (D2 b Hb); [unfold valid in Hvc; lia | done]. }
  assert (Hdata : forall b, b ∈ bs -> block_data s b = block_data s0 b).
  { intros b Hb. apply (changes_block _ _ _ _ Hc). intros k Hk [Hi | (c & Hcl & Hi)]; [by apply (block_not_fat s0 b k Hv0 (Hbo b Hb) Hk) |].
    destruct (Hfree c Hcl) as [Hvc _]. revert Hi. apply (block_cluster_apart s0 b c k Hv0 (Hbo b Hb) Hvc); [| done]. intros E. apply (Hnin b Hb). by rewrite E. }
  pose proof (geom_fields _ _ Hg) as (_ & E2 & _). split; [| split; [| split; [done |]]].
  - apply (dir_ok_same s0); [done | done | | done]. intros b Hb Hn. apply Hrest; [| by apply Hnin]. apply block_cluster_valid; [by apply Hbo | done].
  - unfold entries_of. rewrite E2. f_equal. by apply contents_same.
  - by apply contents_same.
Qed.

(** Nothing visible has changed. *)
Record no_change s (dir : Z) (bs : list dir_block_t) s' : Prop := {
  nc_vol : vol_ok s';
  nc_geom : geom s' = geom s;
  nc_dir : dir_ok s' dir bs;
  nc_entries : entries s' bs = entries s bs;
  nc_table : forall m, valid s m -> fat_at s' m = fat_at s m;
  nc_data : forall c, valid s c -> fat_at s c <> 0 -> cl_data s' c = cl_data s c;
}.

Lemma quiet_no_change s dir bs s' : vol_ok s -> dir_ok s dir bs -> quiet s s' -> vol_ok s' -> no_change s dir bs s'.
Proof.
  intros Hv Hd Q V. pose proof (geom_fields _ _ (qu_geom _ _ Q)) as (_ & E2 & _). constructor; [done | apply (qu_geom _ _ Q) | by apply (quiet_dir_ok s) | | |].
  - unfold entries_of. rewrite E2. f_equal. apply contents_same. intros b _. by apply block_quiet_data.
  - intros m _. by apply quiet_fat_at.
  - intros c _ _. apply (changes_cl_data (fun _ => False)); [by apply changes_quiet | tauto | done].
Qed.

Lemma same_table_no_change s dir bs s' : vol_ok s -> dir_ok s dir bs -> same_table s s' -> no_change s dir bs s'.
Proof.
  intros Hv Hd [V C T]. pose proof (blocks_ok s dir bs Hv (do_blocks _ _ _ Hd)) as Hbo. rewrite Forall_forall in Hbo.
  assert (Hdata : forall b, b ∈ bs -> block_data s' b = block_data s b) by (intros b Hb; apply (changes_block _ _ _ _ C); intros k Hk; exact (block_not_fat s b k Hv (Hbo b Hb) Hk)).
  pose proof (geom_fields _ _ (ch_geom _ _ _ C)) as (_ & E2 & _). constructor; [done | apply (ch_geom _ _ _ C) | | | done |].
  - apply (dir_ok_same s); [done | apply (ch_geom _ _ _ C) | | done]. intros b Hb Hn. apply T. apply block_cluster_valid; [by apply Hbo | done].
  - unfold entries_of. rewrite E2. f_equal. by apply contents_same.
  - intros c Hc _. by apply fat_changes_data.
Qed.

(** Giving back the data of a file that found no place. *)
Lemma stored_undo s0 s first data l s1 dir bs : vol_ok s0 -> dir_ok s0 dir bs -> stored s0 s first data l -> geom s = geom s0 -> same_table s s1 -> calm s s1 ->
  exists s', (if negb (first =? 0) then fst (fat_free_chain s1 first) else s1) = s' /\ no_change s0 dir bs s'.
Proof.
  intros Hv0 Hd0 Hst Hg Hs Hcalm. pose proof Hst as [V Hch Hfirst Hll Hfree Hrest Hc _]. destruct (stored_dir s0 s first data l dir bs Hv0 Hst Hg Hd0) as (Hd & He & Hnin & _).
  pose proof (same_table_no_change s dir bs s1 V Hd Hs) as [N1 N2 N3 N4 N5 N6]. pose proof Hs as [V1 C1 T1]. pose proof (geom_fields _ _ N2) as (F1 & F2 & _).
  assert (Hch1 : file_chain s1 l) by (apply (chain_same s); [done | done | done |]; intros c Hcl; apply N5; destruct Hch as [Hf _ _]; rewrite Forall_forall in Hf; by apply Hf).
  assert (Hu : is_u32 first) by (rewrite Hfirst; destruct l as [| x l]; [done |]; apply (valid_mod s1); [done |]; destruct Hch1 as [Hf _ _]; by apply Forall_cons in Hf as [Hf _]).
  assert (Hg01 : geom s1 = geom s0) by congruence.
  assert (Hfin : forall s', vol_ok s' -> changes (in_fat s1) s1 s' -> (forall m, valid s1 m -> fat_at s' m = if bool_decide (m ∈ l) then 0 else fat_at s1 m) -> no_change s0 dir bs s').
  { intros s' V' C' T'. pose proof (geom_fields _ _ (ch_geom _ _ _ C')) as (G1 & G2 & _). assert (Hg' : geom s' = geom s1) by apply (ch_geom _ _ _ C').
    pose proof (blocks_ok s1 dir bs N1 (do_blocks _ _ _ N3)) as Hbo. rewrite Forall_forall in Hbo. rewrite Forall_forall in Hfree.
    assert (Hdata : forall b, b ∈ bs -> block_data s' b = block_data s1 b) by (intros b Hb; apply (changes_block _ _ _ _ C'); intros k Hk; exact (block_not_fat s1 b k N1 (Hbo b Hb) Hk)).
    assert (Htab : forall m, valid s0 m -> fat_at s' m = fat_at s0 m).
    { intros m Hm. rewrite T' by (by apply (geom_valid _ _ _ Hg01)). case_bool_decide as Hd'; [by destruct (Hfree m Hd') |]. rewrite N5 by (by apply (geom_valid _ _ _ Hg)). by apply Hrest. }
    constructor; [done | congruence | | | done |].
    - apply (dir_ok_same s1); [done | done | | done]. intros b Hb Hn. rewrite T' by (apply block_cluster_valid; [by apply Hbo | done]). rewrite bool_decide_eq_false_2; [done | by apply Hnin].
    - rewrite <- He, <- N4. unfold entries_of. rewrite G2. f_equal. by apply contents_same.
    - intros c Hcv Hcu. rewrite (fat_changes_data s1 s' c C' V1) by (by apply (geom_valid _ _ _ Hg01)). destruct (stored_keeps s0 s first data l Hv0 Hst c Hcv Hcu) as [E1' E2'].
      rewrite N6; [done | by apply (geom_valid _ _ _ Hg) | by rewrite E1']. }
  destruct (Z.eqb_spec first 0) as [E0 | Hne]; cbn [negb].
  - exists s1. split; [done |]. apply Hfin; [done | by apply changes_quiet |]. intros m _. rewrite bool_decide_eq_false_2; [done |]. intros Hm.
    destruct l as [| x l]; [by apply elem_of_nil in Hm |]. rewrite E0 in Hfirst. cbn in Hfirst. subst x. destruct Hch as [Hf _ _]. apply Forall_cons in Hf as [Hf _]. unfold valid in Hf. lia.
  - destruct (free_chain_ok s1 first V1 Hu) as (s2 & W & -> & [V2 C2 _ _ T2] & Hin). exists s2. split; [done |]. apply Hfin; [done | done |].
    intros m Hm. rewrite T2 by (unfold valid in Hm; lia). rewrite Hfirst in Hin. rewrite (bool_decide_ext (m ∈ W) (m ∈ l)); [done |]. rewrite Hin. by apply chain_reach.
Qed.

(** ** Creation *)

(** The file is there, with its data, and nothing else has changed. *)
Record created s (dir : Z) (bs : list dir_block_t) (name sn data : list Z) s' : Prop := {
  cr_entry : exists bs' first b off, entry_added s dir bs s' bs' (mk_de (sn11_to_str sn 16) first (Z.of_nat (length data)) false ATTR_ARCHIVE b off 0);
  cr_read : forall max_size, is_u32 max_size -> exists s'', fat_read_file (fun _ => junk) s' name max_size = (s'', Some (take (Z.to_nat max_size) data)) /\ quiet s' s'';
}.

Lemma quiet_created s s1 dir bs name sn data s' : vol_ok s -> quiet s s1 -> created s1 dir bs name sn data s' -> created s dir bs name sn data s'.
Proof.
  intros Hv Q [(bs' & first & b & off & [A1 A2 A3 A4 A5]) Hr]. constructor; [| done]. exists bs', first, b, off. pose proof (geom_fields _ _ (qu_geom _ _ Q)) as (_ & E2 & _). constructor; [done | | done | |].
  - rewrite A2. apply (qu_geom _ _ Q).
  - destruct A4 as (l1 & l2 & El & El'). exists l1, l2. split; [| done]. rewrite <- El. unfold entries_of. rewrite E2. f_equal. symmetry. apply contents_same. intros x _. by apply block_quiet_data.
  - intros c Hc Hu Hnb. destruct (A5 c) as [E1' E2']; [by apply (valid_quiet _ _ _ Q) | by rewrite (quiet_fat_at _ _ _ Q) | done |]. rewrite E1', E2'. split; [by apply quiet_fat_at |].
    apply (changes_cl_data (fun _ => False)); [by apply changes_quiet | tauto | done].
Qed.

(** Storing data and then adding the entry. *)
Lemma created_ok s s2 first data l dir bs name sn s3 bs' b off : vol_ok s -> dir = current_dir_cluster (cwd s) -> dir_ok s dir bs -> stored s s2 first data l -> geom s2 = geom s ->
  47 ∉ name -> (1 <= length name <= 127)%nat -> name_eq (sn11_to_str sn 16) name = true -> Z.of_nat (length data) < 2 ^ 32 - 2 ^ 14 ->
  find_named name (entries s bs) = None ->
  entry_added s2 dir bs s3 bs' (mk_de (sn11_to_str sn 16) first (Z.of_nat (length data)) false ATTR_ARCHIVE b off 0) -> created s dir bs name sn data s3.
Proof.
  intros Hv Hdir Hd Hst Hg Hsl Hnl Hnm Hlen Hnone [A1 A2 A3 (l1 & l2 & El & El') A5]. set (de := mk_de _ _ _ _ _ _ _ _) in *.
  destruct (stored_dir s s2 first data l dir bs Hv Hst Hg Hd) as (Hd2 & He & Hnin & _). pose proof Hst as [V2 Hch Hfirst _ Hfree Hrest _ _]. pose proof (stored_keeps s s2 first data l Hv Hst) as Hk.
  rewrite Forall_forall in Hfree. pose proof Hch as [Hcv _ _]. rewrite Forall_forall in Hcv. assert (Hg3 : geom s3 = geom s) by congruence. pose proof (geom_fields _ _ Hg3) as (F1 & _ & _ & _ & F5).
  constructor.
  - exists bs', first, b, off. constructor; [done | done | done | |].
    + exists l1, l2. by rewrite <- He.
    + intros c Hc Hu Hnb. assert (Hcl : c ∉ l) by (intros Hin; by destruct (Hfree c Hin)). destruct (Hk c Hc Hu) as [E1 E2].
      destruct (A5 c) as [E3 E4]; [by apply (geom_valid _ _ _ Hg) | by rewrite E1 | done |]. by rewrite E3, E4.
  - intros max_size Hmax. unfold fat_read_file. destruct (count_small s3 A1) as (Ec & _ & Ht). rewrite (proj2 (Z.eqb_neq _ _) Ht), (resolve_short s3 name A1 Hsl Hnl), F5.
    destruct (find_entry_ok (fun _ => junk) s3 dir bs' name A1 (do_blocks _ _ _ A3)) as (s4 & E4 & Q4 & V4). rewrite Hdir in E4. rewrite E4.
    rewrite He, El in *. rewrite El', (find_here _ l1 de l2); [| by apply find_prefix in Hnone | done]. cbn [de is_dir de_size first_cluster].
    destruct data as [| x data].
    { exists s4. split; [| done]. cbn [length Z.of_nat Z.eqb orb]. by rewrite take_nil. }
    destruct (Z.eqb_spec (Z.of_nat (length (x :: data))) 0) as [|]; [cbn in *; lia |]. cbn [orb].
    assert (Hf0 : first <> 0).
    { rewrite Hfirst. destruct l as [| y l].
      - exfalso. pose proof (st_len _ _ _ _ _ Hst) as Hlen0. symmetry in Hlen0. apply (clusters_for_ok s) in Hlen0; [cbn in *; lia | done | cbn in *; lia].
      - cbn. specialize (Hcv y ltac:(left)). unfold valid in Hcv. lia. }
    rewrite (proj2 (Z.eqb_neq _ _) Hf0). pose proof (geom_fields _ _ (qu_geom _ _ Q4)) as (G1 & _).
    assert (Ec4 : cluster_count (fi s4) +! 2 = cluster_count (fi s4) + 2) by (by destruct (count_small s4 V4)). rewrite Ec4.
    destruct (stored_read s s2 first (x :: data) l max_size Hv Hst Hmax Hlen) with (s' := s4) as (s5 & -> & Q5); [by destruct (geom_fields _ _ Hg) | done | | | done |].
    + rewrite (qu_geom _ _ Q4). congruence.
    + intros c Hc. destruct (A5 c) as [E1 E2]; [by apply Hcv | by apply (chain_used s2 l) | intros b' Hb' Eb; apply (Hnin b' Hb'); by rewrite Eb |]. split.
      * by rewrite (quiet_fat_at _ _ _ Q4).
      * rewrite <- E2. apply (changes_cl_data (fun _ => False)); [by apply changes_quiet | tauto | done].
    + exists s5. split; [done |]. pose proof (quiet_preorder (BD := BD)) as Hpre. by etrans.
Qed.

(** What a failed creation may be due to. *)
Definition no_room s (bs : list dir_block_t) (name data : list Z) : Prop :=
  find_named name (entries s bs) <> None \/
  (forall F, NoDup F -> Forall (fun c => valid s c /\ fat_at s c = 0) F -> (length F <= clusters_for s (Z.of_nat (length data)))%nat) \/
  (current_dir_cluster (cwd s) = 0 /\ Forall block_full (contents s bs)).

Lemma quiet_no_change_trans s s1 dir bs s' : vol_ok s -> dir_ok s dir bs -> quiet s s1 -> vol_ok s1 -> no_change s1 dir bs s' -> no_change s dir bs s'.
Proof.
  intros Hv Hd Q1 V1 [B1 B2 B3 B4 B5 B6]. destruct (quiet_no_change s dir bs s1 Hv Hd Q1 V1) as [_ C2 _ C4 C5 C6]. constructor; [done | by rewrite B2 | done | congruence | |].
  - intros m Hm. rewrite B5 by (by apply (valid_quiet _ _ _ Q1)). by apply C5.
  - intros c Hc Huc. rewrite B6; [by apply C6 | by apply (valid_quiet _ _ _ Q1) | by rewrite (quiet_fat_at _ _ _ Q1)].
Qed.

Lemma quiet_no_room s s1 bs name data : quiet s s1 -> no_room s1 bs name data -> no_room s bs name data.
Proof.
  intros Q. pose proof (geom_fields _ _ (qu_geom _ _ Q)) as (_ & E2 & _ & _ & E5). unfold no_room, clusters_for. rewrite E5, (csize_geom _ _ (qu_geom _ _ Q)).
  assert (Ec : contents s1 bs = contents s bs) by (apply contents_same; intros x _; by apply block_quiet_data). unfold entries_of. rewrite E2, Ec.
  intros [Hn | [HF | Hr]]; [by left | right; left | by do 2 right]. intros F H1 H2. apply HF; [done |]. eapply Forall_impl; [exact H2 |].
  intros c [Hc1 Hc2]. split; [by apply (valid_quiet _ _ _ Q) | by rewrite (quiet_fat_at _ _ _ Q)].
Qed.

(** The first cluster of stored data fits into the fields of an entry. *)
Lemma stored_first s s3 first data l : stored s s3 first data l -> is_u32 first /\ (fat_type s3 <> 32 -> is_u16 first).
Proof.
  intros [V3 Hch Hfirst _ _ _ _ _]. destruct l as [| x l]; [by rewrite Hfirst |]. cbn [hd] in Hfirst. subst first. destruct Hch as [Hf _ _]. apply Forall_cons in Hf as [Hf _].
  destruct (valid_mod s3 x V3 Hf) as [Hx _]. split; [done |].
  intros Hne. pose proof (vo_geo _ V3) as [G1 _ _ _ _ G6 _ _ _ _ _]. unfold valid, max_count, is_u16 in *. destruct G1 as [E | [E | E]]; rewrite E in G6; cbn [Z.eqb Pos.eqb] in G6; [lia | lia | done].
Qed.

(** The entry is made after the data were stored, or everything is taken back. *)
Lemma enter_ok s s3 first data l bs name sn : let dir := current_dir_cluster (cwd s) in vol_ok s -> dir_ok s dir bs -> stored s s3 first data l ->
  47 ∉ name -> try_make_sfn name = Some sn -> name_eq (sn11_to_str sn 16) name = true -> Z.of_nat (length data) < 2 ^ 32 - 2 ^ 14 -> find_named name (entries s bs) = None ->
  exists s' r, enter clock s3 dir name sn 0 ATTR_ARCHIVE first (Z.of_nat (length data)) = (s', r) /\
    ((r = 0 /\ created s dir bs name sn data s') \/ (r = -1 /\ no_room s bs name data /\ no_change s dir bs s')).
Proof.
  intros dir Hv Hd Hst Hsl Hsn Hnm Hlen Efind. pose proof (sfn_length name sn Hsn) as Hnl. destruct (sfn_plain name sn Hsn) as [Hsl11 Hplain].
  pose proof Hst as [V3 _ _ Hll _ Hrest Hc3 _]. pose proof (ch_geom _ _ _ Hc3) as Hg3.
  destruct (stored_dir s s3 first data l dir bs Hv Hst Hg3 Hd) as (Hd3 & He3 & Hnin & Hcont). unfold enter. change (1 + 0) with 1.
  destruct (find_slot_ok s3 dir bs V3 Hd3) as (s4 & rs & -> & Hrs). destruct rs as [[b off] |].
  - destruct Hrs as (bs1 & bs2 & k & Hslot). unfold write_dir_entries. change (Z.to_nat 0) with 0%nat. cbn [write_lfn negb]. change (0 *! 32) with 0.
    assert (Hoff : off +! 0 = off).
    { destruct Hslot as [T1 _ T3 -> T5 _ _ _ _ _ _ _]. pose proof (blocks_ok s4 dir _ T1 (do_blocks _ _ _ T3)) as Hbo. rewrite Forall_forall in Hbo.
      destruct (block_slots s4 b T1) as (_ & Hb2 & _); [apply Hbo; rewrite elem_of_app; right; left |]. rewrite Z.add_0_r. apply u32_small. unfold is_u32. lia. }
    rewrite Hoff. destruct (stored_first _ _ _ _ _ Hst) as [Hf1 Hf2].
    destruct (entry_written s3 dir bs s4 b off bs1 bs2 k sn ATTR_ARCHIVE first (Z.of_nat (length data)) V3 Hslot Hsl11 Hplain) as (s5 & -> & Hadd); try done.
    { unfold is_u32. lia. }
    exists s5, 0. split; [done |]. left. split; [done |]. apply (created_ok s s3 first data l dir bs name sn s5 (bs1 ++ b :: bs2) b off); (done || lia).
  - destruct Hrs as (R1 & R2 & R3 & R4). destruct (stored_undo s s3 first data l s4 dir bs Hv Hd Hst Hg3 R1 R2) as (s5 & -> & N). exists s5, (-1). split; [done |]. right. split; [done |].
    split; [| done]. right. destruct R4 as [E0 | Hall]; [right; split; [done |]; by rewrite <- Hcont |].
    left. intros F H1 H2. rewrite <- Hll. apply submseteq_length, NoDup_submseteq; [done |]. intros x Hx. rewrite Forall_forall in H2. destruct (H2 x Hx) as [Hx1 Hx2].
    destruct (decide (x ∈ l)) as [| Hn]; [done |]. exfalso. apply (Hall x); [by apply (geom_valid _ _ _ Hg3) |]. by rewrite Hrest.
Qed.

End Round.

Lemma demo_dir_ok : dir_ok demo_fat 0 demo_root.
Proof.
  assert (Ez : block_data demo_fat (root_block demo_fat 0) = zero_block (root_block demo_fat 0)) by (vm_compute; reflexivity).
  constructor.
  - exact demo_blocks.
  - intros b ->%list_elem_of_singleton. done.
  - unfold contents, demo_root. cbn [map]. rewrite Ez. apply (tidy_extend []); [| done | vm_compute; lia].
    constructor; [done | intros i b buf j Hi; by rewrite lookup_nil in Hi | intros i b buf j Hi; by rewrite lookup_nil in Hi].
Qed.

Definition demo_clock (s : fatfs mem_disk) : Z * Z := (23649, 0).

