(* ===== verification/Fsck.v ===== *)
(** * Fsck: the consistency check of a FAT volume ([kernel/fat.c], [kernel/fsck.c])

    A read-only scan: every chain that a directory entry names is followed and
    marked in a bitmap, directories wait in a ring, and at the end the bitmap is
    compared with the table.  The bitmap and the ring are allocated on the heap. *)

From S2P Require Import Prelude Interfaces Disk Fat FatDir.

(** ** The report *)

Definition FSCK_BAD_MAX : Z := 8.

Record fsck_report_t := mk_report {
  clusters_total : Z; bad_chain : Z; loop : Z; truncated : Z; crosslink : Z; orphan : Z; free_but_used : Z; bad_entry : Z;
  first_bad : list Z; first_bad_n : Z
}.

Definition fsck_record_bad (r : fsck_report_t) (cluster : Z) : fsck_report_t :=
  if first_bad_n r <? FSCK_BAD_MAX then
    mk_report (clusters_total r) (bad_chain r) (loop r) (truncated r) (crosslink r) (orphan r) (free_but_used r) (bad_entry r)
      (aset (first_bad r) (first_bad_n r) cluster) (first_bad_n r + 1)
  else r.

Definition set_total (r : fsck_report_t) (n : Z) : fsck_report_t :=
  mk_report n (bad_chain r) (loop r) (truncated r) (crosslink r) (orphan r) (free_but_used r) (bad_entry r) (first_bad r) (first_bad_n r).
Definition inc_bad_chain (r : fsck_report_t) : fsck_report_t :=
  mk_report (clusters_total r) (bad_chain r +! 1) (loop r) (truncated r) (crosslink r) (orphan r) (free_but_used r) (bad_entry r) (first_bad r) (first_bad_n r).
Definition inc_loop (r : fsck_report_t) : fsck_report_t :=
  mk_report (clusters_total r) (bad_chain r) (loop r +! 1) (truncated r) (crosslink r) (orphan r) (free_but_used r) (bad_entry r) (first_bad r) (first_bad_n r).
Definition inc_truncated (r : fsck_report_t) : fsck_report_t :=
  mk_report (clusters_total r) (bad_chain r) (loop r) (truncated r +! 1) (crosslink r) (orphan r) (free_but_used r) (bad_entry r) (first_bad r) (first_bad_n r).
Definition inc_crosslink (r : fsck_report_t) : fsck_report_t :=
  mk_report (clusters_total r) (bad_chain r) (loop r) (truncated r) (crosslink r +! 1) (orphan r) (free_but_used r) (bad_entry r) (first_bad r) (first_bad_n r).
Definition inc_orphan (r : fsck_report_t) : fsck_report_t :=
  mk_report (clusters_total r) (bad_chain r) (loop r) (truncated r) (crosslink r) (orphan r +! 1) (free_but_used r) (bad_entry r) (first_bad r) (first_bad_n r).
Definition inc_free_but_used (r : fsck_report_t) : fsck_report_t :=
  mk_report (clusters_total r) (bad_chain r) (loop r) (truncated r) (crosslink r) (orphan r) (free_but_used r +! 1) (bad_entry r) (first_bad r) (first_bad_n r).

Definition fsck_total (r : fsck_report_t) : Z :=
  bad_chain r +! loop r +! truncated r +! crosslink r +! orphan r +! free_but_used r +! bad_entry r.

(** The report [cmd_fsck] starts with. *)
Definition empty_report : fsck_report_t := mk_report 0 0 0 0 0 0 0 0 (replicate 8 0) 0.

(** The text of the report; a number of 32 bits has at most ten digits. *)
Definition fsck_put_dec (v : Z) : list Z := if v =? 0 then [48] else digits 10 v.

Definition fsck_report_text (r : fsck_report_t) (fsname : list Z) : list Z :=
  bytes "fsck: " ++ fsname ++ bytes " clusters=" ++ fsck_put_dec (clusters_total r) ++ [10] ++
  bytes "fsck: bad_chain=" ++ fsck_put_dec (bad_chain r) ++ bytes " loop=" ++ fsck_put_dec (loop r) ++
  bytes " truncated=" ++ fsck_put_dec (truncated r) ++ bytes " crosslink=" ++ fsck_put_dec (crosslink r) ++
  bytes " orphan=" ++ fsck_put_dec (orphan r) ++ bytes " free_but_used=" ++ fsck_put_dec (free_but_used r) ++
  bytes " bad_entry=" ++ fsck_put_dec (bad_entry r) ++ [10] ++
  (if 0 <? first_bad_n r then
     bytes "fsck: first bad clusters:" ++ concat (map (fun c => 32 :: fsck_put_dec c) (take (Z.to_nat (first_bad_n r)) (first_bad r))) ++ [10]
   else []) ++
  bytes "fsck: " ++ fsck_put_dec (fsck_total r) ++ bytes " problem(s) -- " ++
  bytes (if fsck_total r =? 0 then "consistent" else "NOT consistent") ++ [10].

(** ** The bitmap *)

Definition fsck_bit_set (bm : list Z) (i : Z) : list Z := aset bm (Z.shiftr i 3) (aget 0 bm (Z.shiftr i 3) |! Z.shiftl 1 (i &! 7)).
Definition fsck_bit_get (bm : list Z) (i : Z) : Z := Z.shiftr (aget 0 bm (Z.shiftr i 3)) (i &! 7) &! 1.

(** ** The scan *)

Definition FAT_FSCK_MAX_DIRS : Z := 1024.

(** [r], [bm], [queue], [head], [tail], [overflow] of [fat_fsck_ctx_t]. *)
Record fat_fsck_ctx_t := mk_ctx { rep : fsck_report_t; bm : list Z; queue : list Z; head : Z; tail : Z; overflow : bool }.

Definition with_rep (x : fat_fsck_ctx_t) (r : fsck_report_t) : fat_fsck_ctx_t := mk_ctx r (bm x) (queue x) (head x) (tail x) (overflow x).
Definition with_bm (x : fat_fsck_ctx_t) (b : list Z) : fat_fsck_ctx_t := mk_ctx (rep x) b (queue x) (head x) (tail x) (overflow x).

Section Fsck.
Context {D : Type} `{BD : BlockDev D}.
Variable stack_junk : fatfs D -> list Z.
Implicit Types (s : fatfs D) (x : fat_fsck_ctx_t).

(** The loop over a chain; [Some] is the number of steps when it is left by
    [break].  It makes at most [cluster_count + 1] rounds. *)
Fixpoint chain_loop (n : nat) s x (limit c steps : Z) : fatfs D * fat_fsck_ctx_t * option Z :=
  match n with
  | O => (s, x, None)
  | S n' =>
      if (c <? 2) || (limit <=? c) then (s, with_rep x (fsck_record_bad (inc_bad_chain (rep x)) c), None)
      else
        let x := if negb (fsck_bit_get (bm x) (c - 2) =? 0) then with_rep x (fsck_record_bad (inc_crosslink (rep x)) c)
                 else with_bm x (fsck_bit_set (bm x) (c - 2)) in
        let steps := steps +! 1 in
        if cluster_count (fi s) <? steps then (s, with_rep x (fsck_record_bad (inc_loop (rep x)) c), None)
        else
          let '(s, nxt) := fat_entry_get s c in
          if fat_is_eoc s nxt then (s, x, Some steps)
          else if fat_is_bad s nxt then (s, with_rep x (fsck_record_bad (inc_bad_chain (rep x)) c), Some steps)
          else if (nxt <? 2) || (limit <=? nxt) then (s, with_rep x (fsck_record_bad (inc_bad_chain (rep x)) c), None)
          else chain_loop n' s x limit nxt steps
  end.

Definition fat_fsck_chain s x (first need : Z) : fatfs D * fat_fsck_ctx_t :=
  if first <? 2 then (s, x)
  else
    let '(s, x, r) := chain_loop (S (Z.to_nat (cluster_count (fi s)))) s x (cluster_count (fi s) +! 2) first 0 in
    match r with
    | Some steps => if negb (need =? 0) && (steps <? need) then (s, with_rep x (inc_truncated (rep x))) else (s, x)
    | None => (s, x)
    end.

Definition fsck_need (csize : Z) (e : fat_dirent_t) : Z :=
  if negb (is_dir e) && (0 <? de_size e) && (0 <? csize) then (de_size e +! csize -! 1) / csize else 0.

Definition fat_fsck_dirent_cb (csize : Z) : dirent_cb fat_fsck_ctx_t :=
  fun s e x =>
    if dot_name (de_name e) then (s, x, false)
    else
      let '(s, x) := fat_fsck_chain s x (first_cluster e) (fsck_need csize e) in
      if is_dir e && (2 <=? first_cluster e) then
        if FAT_FSCK_MAX_DIRS <=? tail x - head x then (s, mk_ctx (rep x) (bm x) (queue x) (head x) (tail x) true, true)
        else (s, mk_ctx (rep x) (bm x) (aset (queue x) (tail x mod FAT_FSCK_MAX_DIRS) (first_cluster e)) (head x) (tail x + 1) (overflow x), false)
      else (s, x, false).

(** The loop over the ring; [None] when [fuel] directories did not empty it, the
    flag says that the scan has to fail. *)
Fixpoint dirs_loop (fuel : nat) s (csize : Z) x : option (fatfs D * fat_fsck_ctx_t * bool) :=
  if head x <? tail x then
    match fuel with
    | O => None
    | S fuel' =>
        let d := aget 0 (queue x) (head x mod FAT_FSCK_MAX_DIRS) in
        let x := mk_ctx (rep x) (bm x) (queue x) (head x + 1) (tail x) (overflow x) in
        let '(s, x, k) := fat_dir_foreach stack_junk (fat_fsck_dirent_cb csize) s d x in
        if (k <? 0) || overflow x then Some (s, x, true) else dirs_loop fuel' s csize x
    end
  else Some (s, x, false).

(** The comparison of the table with the bitmap. *)
Fixpoint table_loop (n : nat) s x (c : Z) : fatfs D * fat_fsck_ctx_t :=
  match n with
  | O => (s, x)
  | S n' =>
      let '(s, e) := fat_entry_get s c in
      let used := negb (e =? 0) in
      let reach := negb (fsck_bit_get (bm x) (c - 2) =? 0) in
      let x := if used && negb reach then with_rep x (fsck_record_bad (inc_orphan (rep x)) c)
               else if negb used && reach then with_rep x (fsck_record_bad (inc_free_but_used (rep x)) c) else x in
      table_loop n' s x (c + 1)
  end.

Section Heap.
Context {H : Type} `{HA : Allocator H}.

(** The result is [None] when the scan does not end within [fuel] directories
    or the heap stops the machine. *)
Definition fat_fsck (fuel : nat) s (h : H) (r : fsck_report_t) : option (fatfs D * H * fsck_report_t * Z) :=
  if fat_type s =? 0 then Some (s, h, r, -1)
  else
    let total := cluster_count (fi s) in
    let r := set_total r total in
    if total =? 0 then Some (s, h, r, -1)
    else
      let bm_bytes := (total +! 7) / 8 in
      let '(h, pb) := alloc h bm_bytes in
      if pb =? 0 then Some (s, h, r, -2)
      else
        let '(h, pq) := alloc h (FAT_FSCK_MAX_DIRS *! 4) in
        if pq =? 0 then h ← release h pb; Some (s, h, r, -2)
        else
          let junk := map (fun i => le32 (stale h pq (FAT_FSCK_MAX_DIRS * 4)) (4 * i)) (seqZ 0 FAT_FSCK_MAX_DIRS) in
          let x := mk_ctx r (replicate (Z.to_nat bm_bytes) 0) junk 0 0 false in
          let csize := bytes_per_sector (fi s) *! sectors_per_cluster (fi s) in
          let root := root_dir_cluster_value s in
          let '(s, x) := if 2 <=? root then fat_fsck_chain s x root 0 else (s, x) in
          let x := mk_ctx (rep x) (bm x) (aset (queue x) (tail x) root) (head x) (tail x + 1) (overflow x) in
          '(s, x, failed) ← dirs_loop fuel s csize x;
          if failed : bool then h ← release h pq; h ← release h pb; Some (s, h, rep x, -3)
          else
            let '(s, x) := table_loop (Z.to_nat total) s x 2 in
            h ← release h pq; h ← release h pb; Some (s, h, rep x, 0).
End Heap.
End Fsck.
