(* ===== verification/FsckProps.v ===== *)
(** * FsckProps: the consistency check is exact ([kernel/fat.c])

    The scan as a function of the table and of the entries of the directories,
    what it means for a volume to be consistent, and the two directions: a clean
    report is given exactly for consistent volumes. *)

From S2P Require Import Prelude Interfaces Kmalloc HeapAlloc Disk Fat FatProps FatDir FatWalk FatFile FatLookup Fsck.

(** ** The bitmap as a set *)

Lemma bit_index i : 0 <= i -> Z.shiftr i 3 = i / 8 /\ i &! 7 = i mod 8.
Proof. intros. split; [by rewrite Z.shiftr_div_pow2 | change 7 with (Z.ones 3); by rewrite Z.land_ones]. Qed.

Lemma bit_get_test bm i : 0 <= i -> fsck_bit_get bm i = Z.b2z (Z.testbit (aget 0 bm (i / 8)) (i mod 8)).
Proof.
  intros Hi. unfold fsck_bit_get. destruct (bit_index i Hi) as [-> ->]. pose proof (Z.mod_pos_bound i 8 ltac:(lia)).
  change 1 with (Z.ones 1). rewrite Z.land_ones by lia. rewrite Z.testbit_spec' by lia. by rewrite Z.shiftr_div_pow2 by lia.
Qed.

Lemma bit_set_get bm i j : 0 <= i -> 0 <= j -> i / 8 < Z.of_nat (length bm) ->
  fsck_bit_get (fsck_bit_set bm i) j = if j =? i then 1 else fsck_bit_get bm j.
Proof.
  intros Hi Hj Hl. rewrite !bit_get_test by done. unfold fsck_bit_set. destruct (bit_index i Hi) as [-> ->].
  pose proof (Z.mod_pos_bound i 8 ltac:(lia)). pose proof (Z.mod_pos_bound j 8 ltac:(lia)). assert (0 <= i / 8) by (by apply Z.div_pos). assert (0 <= j / 8) by (by apply Z.div_pos).
  destruct (Z.eq_dec (j / 8) (i / 8)) as [E | Hne].
  - rewrite E, aget_aset_eq by lia. rewrite Z.lor_spec, Z.shiftl_spec by lia. destruct (Z.eqb_spec j i) as [-> | Hji].
    + rewrite Z.sub_diag. cbn. by rewrite orb_true_r.
    + assert (j mod 8 <> i mod 8) by (intros E'; apply Hji; rewrite (Z.div_mod j 8), (Z.div_mod i 8) by lia; congruence).
      change 1 with (2 ^ 0). rewrite Z.pow2_bits_false by lia. by rewrite orb_false_r.
  - rewrite aget_aset_ne by lia. destruct (Z.eqb_spec j i) as [-> |]; [done |]. done.
Qed.

(** ** What the report counts *)

Lemma record_mono r c : 0 <= first_bad_n r -> 0 < first_bad_n (fsck_record_bad r c).
Proof. intros H. unfold fsck_record_bad, FSCK_BAD_MAX. destruct (Z.ltb_spec (first_bad_n r) 8); cbn [first_bad_n]; lia. Qed.

(** A later state of the scan has at least the problems of an earlier one. *)
Definition worse (x x' : fat_fsck_ctx_t) : Prop := 0 <= first_bad_n (rep x) -> first_bad_n (rep x) <= first_bad_n (rep x').

#[global] Instance worse_preorder : PreOrder worse.
Proof. split; [intros x _; done |]. intros x y z H1 H2 H. specialize (H1 H). specialize (H2 ltac:(lia)). lia. Qed.

Lemma worse_record x r c : first_bad_n r = first_bad_n (rep x) -> worse x (with_rep x (fsck_record_bad r c)).
Proof.
  intros E H. cbn [with_rep rep]. unfold fsck_record_bad. destruct (first_bad_n r <? FSCK_BAD_MAX); cbn [first_bad_n]; lia.
Qed.

Lemma worse_same x x' : first_bad_n (rep x') = first_bad_n (rep x) -> worse x x'.
Proof. intros E H. lia. Qed.

Section Mono.
Context {D : Type} `{BD : BlockDev D}.
Implicit Types (s : fatfs D) (x : fat_fsck_ctx_t).

Lemma chain_loop_worse n : forall s x limit c k, worse x (snd (fst (chain_loop n s x limit c k))).
Proof.
  induction n as [| n IH]; intros s x limit c k; cbn [chain_loop]; [done |].
  destruct ((c <? 2) || (limit <=? c)); [by apply worse_record |].
  set (x1 := if negb (fsck_bit_get (bm x) (c - 2) =? 0) then _ else _).
  assert (H1 : worse x x1) by (unfold x1; destruct (negb _); [by apply worse_record | by apply worse_same]).
  destruct (cluster_count (fi s) <? k +! 1); [etrans; [exact H1 | by apply worse_record] |].
  destruct (fat_entry_get s c) as [s1 nxt]. destruct (fat_is_eoc s1 nxt); [done |].
  destruct (fat_is_bad s1 nxt); [etrans; [exact H1 | by apply worse_record] |].
  destruct ((nxt <? 2) || (limit <=? nxt)); [etrans; [exact H1 | by apply worse_record] |]. etrans; [exact H1 | apply IH].
Qed.

Lemma chain_worse s x first need : worse x (snd (fat_fsck_chain s x first need)).
Proof.
  unfold fat_fsck_chain. destruct (first <? 2); [done |].
  pose proof (chain_loop_worse (S (Z.to_nat (cluster_count (fi s)))) s x (cluster_count (fi s) +! 2) first 0) as H.
  destruct (chain_loop _ _ _ _ _ _) as [[s1 x1] [k |]]; [| done]. cbn [fst snd] in H. by destruct (negb (need =? 0) && (k <? need)).
Qed.

Lemma cb_worse csize s e x : worse x (snd (fst (fat_fsck_dirent_cb csize s e x))).
Proof.
  unfold fat_fsck_dirent_cb. destruct (dot_name (de_name e)); [done |]. pose proof (chain_worse s x (first_cluster e) (fsck_need csize e)) as H.
  destruct (fat_fsck_chain s x (first_cluster e) (fsck_need csize e)) as [s1 x1]. destruct (is_dir e && (2 <=? first_cluster e)); [| done].
  by destruct (FAT_FSCK_MAX_DIRS <=? tail x1 - head x1).
Qed.

(** An enumeration keeps what its callback keeps. *)
Lemma scan_keeps {A} (R : A -> A -> Prop) `{!PreOrder R} (cb : dirent_cb A) (Hcb : forall s e a, R a (snd (fst (cb s e a)))) n :
  forall s buf b off st count a, R a (snd (fst (scan_block n cb s buf b off st count a))).
Proof.
  induction n as [| n IH]; intros s buf b off st count a; cbn [scan_block]; [done |].
  destruct (aget 0 (slice buf off 32) 0 =? 0x00); [done |]. destruct (aget 0 (slice buf off 32) 0 =? DELETED_ENTRY); [apply IH |].
  destruct (is_lfn (slice buf off 32)); [apply IH |]. destruct (dirent_from_short _ _ _ _ _) as [de |]; [| apply IH].
  specialize (Hcb s de a). destruct (cb s de a) as [[s1 a1] [|]]; [done |]. etrans; [exact Hcb | apply IH].
Qed.

Lemma foreach_keeps {A} (R : A -> A -> Prop) `{!PreOrder R} (cb : dirent_cb A) (Hcb : forall s e a, R a (snd (fst (cb s e a)))) n :
  forall s w st count a, R a (snd (fst (foreach_from n cb s w st count a))).
Proof.
  induction n as [| n IH]; intros s w st count a; cbn [foreach_from]; [done |]. destruct (fat_read_block s (fast w)) as [s1 [buf |]]; [| done].
  pose proof (scan_keeps R cb Hcb (Z.to_nat (db_bytes (fast w) / 32)) s1 buf (fast w) 0 (lfn_reset st) count a) as H.
  destruct (scan_block _ _ _ _ _ _ _ _ _) as [[[[s2 st2] k] a2] [|]]; [done |]. destruct (fat_dir_walk_next s2 w) as [s3 [w' |]]; [| done]. etrans; [exact H | apply IH].
Qed.

Lemma dirs_worse junk csize fuel : forall s x s' x' b, dirs_loop junk fuel s csize x = Some (s', x', b) -> worse x x'.
Proof.
  induction fuel as [| fuel IH]; intros s x s' x' b E; cbn [dirs_loop] in E.
  { destruct (head x <? tail x); [done |]. by injection E as _ <- _. }
  destruct (head x <? tail x); [| by injection E as _ <- _]. revert E. set (x0 := mk_ctx _ _ _ _ _ _). unfold fat_dir_foreach.
  assert (H0 : worse x x0) by (by apply worse_same). destruct (fat_dir_walk_start s _) as [s1 [w |]].
  - pose proof (foreach_keeps worse (fat_fsck_dirent_cb csize) (fun s e a => cb_worse csize s e a) (Z.to_nat (wmax w)) s1 w (mk_lfn (junk s) 0 0 (-1) 0) 0 x0) as H.
    destruct (foreach_from _ _ _ _ _ _ _) as [[s2 x2] k]. cbn [fst snd] in H. destruct ((k <? 0) || overflow x2); intros E.
    + injection E as _ <- _. by etrans.
    + etrans; [exact H0 |]. etrans; [exact H |]. by eapply IH.
  - destruct ((0 <? 0) || overflow x0); intros E; [by injection E as _ <- _ |]. etrans; [exact H0 | by eapply IH].
Qed.

Lemma table_worse n : forall s x c, worse x (snd (table_loop n s x c)).
Proof.
  induction n as [| n IH]; intros s x c; cbn [table_loop]; [done |]. destruct (fat_entry_get s c) as [s1 e].
  set (x1 := if negb (e =? 0) && _ then _ else _). assert (H : worse x x1).
  { unfold x1. destruct (negb (e =? 0) && _); [by apply worse_record |]. destruct (negb (negb (e =? 0)) && _); [by apply worse_record | done]. }
  etrans; [exact H | apply IH].
Qed.
End Mono.

(** ** The scan of a chain, on the table *)

Section Exact.
Context {D : Type} `{BD : BlockDev D}.
Variable s0 : fatfs D.
Hypothesis Hv : vol_ok s0.
Implicit Types (s : fatfs D) (x : fat_fsck_ctx_t) (V l : list Z).
Notation N := (cluster_count (fi s0)).

Definition report_bad x (r : fsck_report_t) (c : Z) : fat_fsck_ctx_t := with_rep x (fsck_record_bad r c).
Definition mark x (c : Z) : fat_fsck_ctx_t :=
  if negb (fsck_bit_get (bm x) (c - 2) =? 0) then report_bad x (inc_crosslink (rep x)) c else with_bm x (fsck_bit_set (bm x) (c - 2)).

Fixpoint chain_run (n : nat) x (c k : Z) : fat_fsck_ctx_t * option Z :=
  match n with
  | O => (x, None)
  | S n' =>
      if bool_decide (valid s0 c) then
        let x := mark x c in
        if N <? k + 1 then (report_bad x (inc_loop (rep x)) c, None)
        else if fat_is_eoc s0 (fat_at s0 c) then (x, Some (k + 1))
        else if fat_is_bad s0 (fat_at s0 c) then (report_bad x (inc_bad_chain (rep x)) c, Some (k + 1))
        else if bool_decide (valid s0 (fat_at s0 c)) then chain_run n' x (fat_at s0 c) (k + 1)
        else (report_bad x (inc_bad_chain (rep x)) c, None)
      else (report_bad x (inc_bad_chain (rep x)) c, None)
  end.

Lemma range_test c : (c <? 2) || (N + 2 <=? c) = negb (bool_decide (valid s0 c)).
Proof. unfold valid. case_bool_decide; destruct (Z.ltb_spec c 2), (Z.leb_spec (N + 2) c); cbn; (done || lia). Qed.

Lemma chain_loop_run n : forall s x c k, quiet s0 s -> vol_ok s -> 0 <= k <= N ->
  exists s', chain_loop n s x (N + 2) c k = (s', fst (chain_run n x c k), snd (chain_run n x c k)) /\ quiet s s' /\ vol_ok s'.
Proof.
  destruct (count_small s0 Hv) as (_ & Hn & _). pose proof (quiet_preorder (BD := BD)) as Hpre.
  induction n as [| n IH]; intros s x c k Q V Hk; cbn [chain_loop chain_run]; [by exists s |].
  rewrite range_test. destruct (bool_decide_reflect (valid s0 c)) as [Hc |]; cbn [negb]; [| by exists s].
  fold (report_bad x (inc_crosslink (rep x)) c) (mark x c). rewrite (u32_small (k + 1)) by (unfold is_u32; lia).
  destruct (geom_fields _ _ (qu_geom _ _ Q)) as (-> & _). destruct (N <? k + 1) eqn:En; [by exists s |]. apply Z.ltb_ge in En.
  destruct (get_spec s c V) as (s1 & -> & Q1 & V1). rewrite bool_decide_eq_true_2 by (by apply (valid_quiet _ _ _ Q)). rewrite (quiet_fat_at s0 s) by done.
  assert (Q01 : quiet s0 s1) by (by etrans). destruct (geom_fields _ _ (qu_geom _ _ Q01)) as (_ & Et & _).
  unfold fat_is_eoc, fat_is_bad. rewrite Et. destruct (is_eoc (fat_type s0) (fat_at s0 c)); [by exists s1 |]. destruct (is_bad (fat_type s0) (fat_at s0 c)); [by exists s1 |].
  rewrite range_test. destruct (bool_decide_reflect (valid s0 (fat_at s0 c))); cbn [negb]; [| by exists s1].
  destruct (IH s1 (mark x c) (fat_at s0 c) (k + 1)) as (s2 & -> & Q2 & V2); [done | done | lia |]. exists s2. split; [done |]. split; [by etrans | done].
Qed.

Lemma chain_run_worse n x c k : 0 <= k <= N -> worse x (fst (chain_run n x c k)).
Proof.
  intros Hk. destruct (chain_loop_run n s0 x c k) as (s' & E & _); [apply quiet_preorder | done | done |].
  pose proof (chain_loop_worse n s0 x (N + 2) c k) as H. by rewrite E in H.
Qed.

(** The bitmap [b] holds the clusters of [V]. *)
Record marks (b : list Z) V : Prop := {
  mk_len : Z.of_nat (length b) = (N + 7) / 8;
  mk_bit : forall c, valid s0 c -> fsck_bit_get b (c - 2) = if bool_decide (c ∈ V) then 1 else 0;
}.

Lemma marks_none b : Z.of_nat (length b) = (N + 7) / 8 -> (forall i, aget 0 b i = 0) -> marks b [].
Proof.
  intros Hl Hz. constructor; [done |]. intros c Hc. unfold valid in Hc. rewrite bit_get_test, Hz, Z.testbit_0_l by lia. by rewrite bool_decide_eq_false_2 by apply not_elem_of_nil.
Qed.

Lemma mark_new x V c : marks (bm x) V -> valid s0 c -> c ∉ V -> mark x c = with_bm x (fsck_bit_set (bm x) (c - 2)) /\ marks (fsck_bit_set (bm x) (c - 2)) (V ++ [c]).
Proof.
  intros [M1 M2] Hc Hn. split; [unfold mark; by rewrite M2, bool_decide_eq_false_2 by done |]. constructor; [by unfold fsck_bit_set; rewrite length_aset |].
  intros y Hy. unfold valid in *. rewrite bit_set_get; [| lia | lia | rewrite M1; Z.to_euclidean_division_equations; lia].
  destruct (Z.eqb_spec (y - 2) (c - 2)) as [E |].
  - assert (y = c) as -> by lia. rewrite bool_decide_eq_true_2; [done |]. rewrite elem_of_app. right. left.
  - rewrite M2 by done. assert (y ∈ V ++ [c] <-> y ∈ V) as Hiff by (rewrite elem_of_app, list_elem_of_singleton; split; [intros [? | ->]; [done | lia] | by left]).
    do 2 case_bool_decide; (done || tauto).
Qed.

Lemma mark_old x V c : marks (bm x) V -> valid s0 c -> c ∈ V -> 0 <= first_bad_n (rep x) -> 0 < first_bad_n (rep (mark x c)).
Proof. intros [M1 M2] Hc Hin Hr. unfold mark. rewrite M2, bool_decide_eq_true_2 by done. by apply record_mono. Qed.

Lemma chain_cons c l : valid s0 c -> c ∉ l -> file_chain s0 l -> (exists y, l !! 0%nat = Some y /\ fat_at s0 c = y) -> file_chain s0 (c :: l).
Proof.
  intros Hc Hn [F1 F2 F3] (y & Hy & E). constructor; [by constructor | by constructor |].
  intros [| i] z Hz; cbn in Hz; [| by apply F3]. injection Hz as <-. change ((c :: l) !! 1%nat) with (l !! 0%nat). by rewrite Hy.
Qed.

(** A run without a new problem has followed a good chain of new clusters. *)
Lemma chain_run_sound n : forall x c k V, marks (bm x) V -> 0 <= first_bad_n (rep x) -> Z.of_nat n + k = N + 1 -> 0 <= k <= N ->
  first_bad_n (rep (fst (chain_run n x c k))) = 0 ->
  exists l b, file_chain s0 (c :: l) /\ (forall y, y ∈ c :: l -> y ∉ V) /\ chain_run n x c k = (with_bm x b, Some (k + Z.of_nat (length (c :: l)))) /\ marks b (V ++ c :: l).
Proof.
  induction n as [| n IH]; intros x c k V M Hr Hn Hk; cbn [chain_run]; [lia |].
  destruct (bool_decide_reflect (valid s0 c)) as [Hc |]; [| intros E; pose proof (record_mono (inc_bad_chain (rep x)) c Hr); cbn [fst report_bad with_rep rep] in E; lia].
  destruct (decide (c ∈ V)) as [Hin | Hin].
  - pose proof (mark_old x V c M Hc Hin Hr) as Hm. assert (Hbad : forall r, first_bad_n r = first_bad_n (rep (mark x c)) -> first_bad_n (fsck_record_bad r c) <> 0).
    { intros r E. pose proof (record_mono r c). lia. }
    destruct (N <? k + 1) eqn:E1; [intros E; by apply Hbad in E |]. destruct (fat_is_eoc s0 (fat_at s0 c)); [cbn [fst]; lia |].
    destruct (fat_is_bad s0 (fat_at s0 c)); [intros E; by apply Hbad in E |]. apply Z.ltb_ge in E1.
    case_bool_decide; [| intros E; by apply Hbad in E]. pose proof (chain_run_worse n (mark x c) (fat_at s0 c) (k + 1)) as Hw. unfold worse in Hw. lia.
  - destruct (mark_new x V c M Hc Hin) as [-> M1]. set (x1 := with_bm x _) in *.
    assert (Hbad : forall r, first_bad_n r = first_bad_n (rep x) -> first_bad_n (fsck_record_bad r c) <> 0) by (intros r E; pose proof (record_mono r c); lia).
    destruct (N <? k + 1) eqn:E1; [intros E; by apply Hbad in E |]. apply Z.ltb_ge in E1. destruct (fat_is_eoc s0 (fat_at s0 c)) eqn:Ee.
    + intros _. exists [], (fsck_bit_set (bm x) (c - 2)). split.
      { constructor; [by constructor | apply NoDup_singleton |]. intros [| i] y Hy; cbn in Hy; [by injection Hy as <- | done]. }
      split; [by intros y ->%list_elem_of_singleton |]. done.
    + destruct (fat_is_bad s0 (fat_at s0 c)); [intros E; by apply Hbad in E |]. destruct (bool_decide_reflect (valid s0 (fat_at s0 c))) as [Hx |]; [| intros E; by apply Hbad in E].
      intros E. destruct (IH x1 (fat_at s0 c) (k + 1) (V ++ [c])) as (l & b & Hf & Hd & -> & M2); [done | done | lia | lia | done |].
      exists (fat_at s0 c :: l), b. split; [| split; [| split]].
      * apply chain_cons; [done | | done | by eexists]. intros Hin'. apply (Hd c Hin'). rewrite elem_of_app. right. left.
      * intros y [-> | Hy]%elem_of_cons; [done |]. specialize (Hd y Hy). rewrite elem_of_app in Hd. tauto.
      * f_equal. f_equal. cbn [length]. lia.
      * by rewrite <- app_assoc in M2.
Qed.

Lemma chain_run_good l : forall n x c k V, marks (bm x) V -> file_chain s0 (c :: l) -> (forall y, y ∈ c :: l -> y ∉ V) -> (length l < n)%nat ->
  0 <= k -> k + Z.of_nat (length (c :: l)) <= N -> exists b, chain_run n x c k = (with_bm x b, Some (k + Z.of_nat (length (c :: l)))) /\ marks b (V ++ c :: l).
Proof.
  induction l as [| y l IH]; intros [| n] x c k V M Hf Hd Hn Hk Hl; cbn [length] in *; try lia; cbn [chain_run];
    pose proof Hf as [F1 F2 F3]; apply Forall_cons in F1 as [Hc F1]; specialize (F3 0%nat c eq_refl); cbn in F3;
    rewrite bool_decide_eq_true_2 by done; (destruct (mark_new x V c M Hc) as [-> M1]; [apply Hd; left |]);
    rewrite (proj2 (Z.ltb_ge _ _)) by lia.
  - rewrite F3. by exists (fsck_bit_set (bm x) (c - 2)).
  - apply Forall_cons in F1 as [Hy F1]. rewrite F3. destruct (valid_plain s0 y Hv Hy) as [-> ->]. rewrite bool_decide_eq_true_2 by done.
    destruct (IH n (with_bm x (fsck_bit_set (bm x) (c - 2))) y (k + 1) (V ++ [c])) as (b & -> & M2); [done | by apply chain_tail_ok in Hf | | lia | lia | lia |].
    + apply NoDup_cons in F2 as [F2 _]. intros z Hz. rewrite elem_of_app, list_elem_of_singleton. intros [Hz' | ->]; [| done]. apply (Hd z); [by right | done].
    + exists b. split; [| by rewrite <- app_assoc in M2]. f_equal. f_equal. lia.
Qed.

(** ** The chain of a reference: a first cluster and the least number of clusters *)

Definition chain_do x (first need : Z) : fat_fsck_ctx_t :=
  if first <? 2 then x
  else
    let '(x, r) := chain_run (S (Z.to_nat N)) x first 0 in
    match r with Some k => if negb (need =? 0) && (k <? need) then with_rep x (inc_truncated (rep x)) else x | None => x end.

Lemma fsck_chain_do s x first need : quiet s0 s -> vol_ok s ->
  exists s', fat_fsck_chain s x first need = (s', chain_do x first need) /\ quiet s s' /\ vol_ok s'.
Proof.
  intros Q V. unfold fat_fsck_chain, chain_do. destruct (first <? 2); [by exists s |]. destruct (geom_fields _ _ (qu_geom _ _ Q)) as (-> & _).
  destruct (count_small s0 Hv) as (-> & _). pose proof (go_count _ _ _ (vo_geo _ Hv)).
  destruct (chain_loop_run (S (Z.to_nat N)) s x first 0 Q V) as (s1 & -> & Q1 & V1); [lia |]. destruct (chain_run _ _ _ _) as [x1 [k |]]; cbn [fst snd]; exists s1; [| done].
  by destruct (negb (need =? 0) && (k <? need)).
Qed.

(** The directories [q] wait in the ring. *)
Record pending x (q : list Z) : Prop := {
  pd_len : Z.of_nat (length (queue x)) = FAT_FSCK_MAX_DIRS;
  pd_range : 0 <= head x <= tail x /\ tail x - head x <= FAT_FSCK_MAX_DIRS;
  pd_ring : ring (queue x) FAT_FSCK_MAX_DIRS (head x) (tail x - head x) = q;
  pd_flag : overflow x = false;
}.

Lemma pending_length x q : pending x q -> Z.of_nat (length q) = tail x - head x.
Proof. intros [_ P2 P3 _]. rewrite <- P3. apply length_ring. lia. Qed.

Lemma pending_same x x' q : queue x' = queue x -> head x' = head x -> tail x' = tail x -> overflow x' = overflow x -> pending x q -> pending x' q.
Proof. intros E1 E2 E3 E4 [P1 P2 P3 P4]. constructor; rewrite ?E1, ?E2, ?E3, ?E4; done. Qed.

Lemma pending_empty x : pending x [] -> (head x <? tail x) = false.
Proof. intros Hp. pose proof (pending_length x [] Hp) as Hl. cbn in Hl. apply Z.ltb_ge. lia. Qed.

Definition pop x : fat_fsck_ctx_t := mk_ctx (rep x) (bm x) (queue x) (head x + 1) (tail x) (overflow x).

Lemma pending_pop x d q : pending x (d :: q) -> (head x <? tail x) = true /\ aget 0 (queue x) (head x mod FAT_FSCK_MAX_DIRS) = d /\ pending (pop x) q.
Proof.
  intros Hp. pose proof (pending_length x _ Hp) as Hl. destruct Hp as [P1 P2 P3 P4]. cbn [length] in Hl.
  split; [apply Z.ltb_lt; lia |]. replace (tail x - head x) with (1 + (tail x - (head x + 1))) in P3 by lia. rewrite ring_app in P3 by lia.
  change (ring (queue x) FAT_FSCK_MAX_DIRS (head x) 1) with [aget 0 (queue x) ((head x + 0) mod FAT_FSCK_MAX_DIRS)] in P3. rewrite Z.add_0_r in P3. injection P3 as Ed Eq.
  split; [done |]. constructor; try done. cbn [pop queue head tail]. lia.
Qed.

Definition push x (d : Z) : fat_fsck_ctx_t * bool :=
  if FAT_FSCK_MAX_DIRS <=? tail x - head x then (mk_ctx (rep x) (bm x) (queue x) (head x) (tail x) true, true)
  else (mk_ctx (rep x) (bm x) (aset (queue x) (tail x mod FAT_FSCK_MAX_DIRS) d) (head x) (tail x + 1) (overflow x), false).

Lemma push_ok x q d : pending x q -> Z.of_nat (length q) < FAT_FSCK_MAX_DIRS -> exists x', push x d = (x', false) /\ pending x' (q ++ [d]) /\ rep x' = rep x /\ bm x' = bm x.
Proof.
  intros Hp Hq. pose proof (pending_length x q Hp) as Hl. destruct Hp as [P1 P2 P3 P4].
  unfold push. rewrite (proj2 (Z.leb_gt _ _)) by lia. eexists. split; [done |]. split; [| done]. constructor; try done; cbn [queue head tail overflow].
  - by rewrite length_aset.
  - lia.
  - replace (tail x + 1 - head x) with (tail x - head x + 1) by lia.
    replace (tail x mod FAT_FSCK_MAX_DIRS) with ((head x + (tail x - head x)) mod FAT_FSCK_MAX_DIRS) by (f_equal; lia). rewrite ring_push by (done || lia). by rewrite P3.
Qed.

Lemma push_full x q d : pending x q -> FAT_FSCK_MAX_DIRS <= Z.of_nat (length q) -> push x d = (mk_ctx (rep x) (bm x) (queue x) (head x) (tail x) true, true).
Proof. intros Hp Hq. pose proof (pending_length x q Hp) as Hl. unfold push. by rewrite (proj2 (Z.leb_le _ _)) by lia. Qed.

(** A chain does not touch the ring. *)
Definition same_ring x x' : Prop := queue x' = queue x /\ head x' = head x /\ tail x' = tail x /\ overflow x' = overflow x.

Lemma same_ring_trans x1 x2 x3 : same_ring x1 x2 -> same_ring x2 x3 -> same_ring x1 x3.
Proof. unfold same_ring. intros (? & ? & ? & ?) (? & ? & ? & ?). repeat split; congruence. Qed.

Lemma chain_run_ring n : forall x c k, same_ring x (fst (chain_run n x c k)).
Proof.
  assert (Hm : forall x c, same_ring x (mark x c)) by (intros x c; unfold mark; by destruct (negb _)).
  assert (Hb : forall x y r c, same_ring x y -> same_ring x (report_bad y r c)) by (intros x y r c H; exact H).
  induction n as [| n IH]; intros x c k; cbn [chain_run]; [done |]. case_bool_decide; [| by apply Hb].
  destruct (N <? k + 1); [apply Hb, Hm |]. destruct (fat_is_eoc _ _); [apply Hm |]. destruct (fat_is_bad _ _); [apply Hb, Hm |].
  case_bool_decide; [eapply same_ring_trans; [apply Hm | apply IH] | apply Hb, Hm].
Qed.

Lemma chain_do_ring x first need : same_ring x (chain_do x first need).
Proof.
  unfold chain_do. destruct (first <? 2); [done |]. pose proof (chain_run_ring (S (Z.to_nat N)) x first 0) as H.
  destruct (chain_run _ _ _ _) as [x1 [k |]]; [| done]. by destruct (negb (need =? 0) && (k <? need)).
Qed.

Lemma chain_do_pending x q first need : pending x q -> pending (chain_do x first need) q.
Proof. destruct (chain_do_ring x first need) as (? & ? & ? & ?). by apply pending_same. Qed.

(** The report of a scan that has found [t] short chains and nothing else. *)
Definition rep_t (t : Z) : fsck_report_t := mk_report N 0 0 t 0 0 0 0 (replicate 8 0) 0.

(** [l] is the chain of the reference; with [t = 0] it is long enough. *)
Definition good (t : Z) (r : Z * Z) l : Prop :=
  (r.1 < 2 /\ l = []) \/ (2 <= r.1 /\ file_chain s0 l /\ l !! 0%nat = Some r.1 /\ (t = 0 -> r.2 <= Z.of_nat (length l))).

(** The scan after the references [rs], whose chains are [ls], while the
    directories [q] wait. *)
Record scanned x (rs : list (Z * Z)) (ls : list (list Z)) (q : list Z) (t : Z) : Prop := {
  sc_marks : marks (bm x) (concat ls);
  sc_nodup : NoDup (concat ls);
  sc_valid : Forall (valid s0) (concat ls);
  sc_rep : rep x = rep_t t;
  sc_t : 0 <= t <= Z.of_nat (length (concat ls));
  sc_good : Forall2 (good t) rs ls;
  sc_pending : pending x q;
}.

Lemma valid_length l : NoDup l -> Forall (valid s0) l -> Z.of_nat (length l) <= N.
Proof.
  intros Hn Hf. assert (Hsub : l ⊆+ seqZ 2 N).
  { apply NoDup_submseteq; [done |]. intros c Hc. rewrite Forall_forall in Hf. specialize (Hf c Hc). apply elem_of_seqZ. unfold valid in Hf. lia. }
  apply submseteq_length in Hsub. rewrite length_seqZ in Hsub. pose proof (go_count _ _ _ (vo_geo _ Hv)). lia.
Qed.

Lemma good_mono t t' r l : (t' = 0 -> t = 0) -> good t r l -> good t' r l.
Proof. intros H [? | (? & ? & ? & Hl)]; [by left | right]. split; [done |]. split; [done |]. split; [done |]. intros E. apply Hl, H, E. Qed.

Lemma concat_snoc (ls : list (list Z)) l : concat (ls ++ [l]) = concat ls ++ l.
Proof. rewrite concat_app. cbn. by rewrite app_nil_r. Qed.

(** One more reference, with the change [mk] of the waiting directories. *)
Lemma chain_do_sound x rs ls q t first need : scanned x rs ls q t -> first_bad_n (rep (chain_do x first need)) = 0 ->
  exists l t', scanned (chain_do x first need) (rs ++ [(first, need)]) (ls ++ [l]) q t' /\ good 1 (first, need) l.
Proof.
  intros [S1 S2 S3 S4 S5 S6 S7]. pose proof (chain_do_pending x q first need S7) as Hpd. revert Hpd. unfold chain_do. destruct (Z.ltb_spec first 2) as [Hlt |]; intros Hpd.
  { intros _. exists [], t. split; [| by left]. constructor; try done; rewrite ?concat_snoc, ?app_nil_r; try done. apply Forall2_app; [done |]. constructor; [by left | done]. }
  pose proof (go_count _ _ _ (vo_geo _ Hv)). assert (Hr : first_bad_n (rep x) = 0) by (by rewrite S4). intros E.
  destruct (chain_run_sound (S (Z.to_nat N)) x first 0 (concat ls) S1) as (l & b & Hf & Hd & Er & M); [lia | lia | lia | |].
  { revert E. destruct (chain_run _ _ _ _) as [x1 [k |]]; [| done]. by destruct (negb (need =? 0) && (k <? need)). }
  rewrite Er in Hpd |- *. clear E. rewrite Z.add_0_l in Hpd |- *. set (c := first :: l) in *. pose proof Hf as [F1 F2 _].
  assert (Hnd : NoDup (concat ls ++ c)) by (apply NoDup_app; split; [done |]; split; [intros y H1 H2; by apply (Hd y) | done]).
  assert (Hva : Forall (valid s0) (concat ls ++ c)) by (by apply Forall_app). pose proof (valid_length _ Hnd Hva) as Hlen. rewrite length_app in Hlen.
  assert (Hg : good 1 (first, need) c) by (right; done).
  destruct (count_small s0 Hv) as (_ & Hn & _). assert (Hc1 : (1 <= length c)%nat) by (cbn; lia).
  revert Hpd. destruct (negb (need =? 0) && (Z.of_nat (length c) <? need)) eqn:Eb; intros Hpd.
  - exists c, (t + 1). split; [| done]. constructor; rewrite ?concat_snoc; try done.
    + cbn [with_rep with_bm rep]. rewrite S4. unfold inc_truncated, rep_t. cbn. by rewrite u32_small by (unfold is_u32; lia).
    + rewrite length_app. lia.
    + apply Forall2_app; [eapply Forall2_impl; [exact S6 |]; intros r' l'; apply good_mono; lia |]. constructor; [| done]. right. cbn. split; [done |]. split; [done |]. split; [done | lia].
  - exists c, t. split; [| done]. constructor; rewrite ?concat_snoc; try done; [rewrite length_app; lia |].
    apply Forall2_app; [done |]. constructor; [| done]. right. cbn [fst snd]. split; [done |]. split; [done |]. split; [done |]. intros _.
    destruct (Z.eqb_spec need 0), (Z.ltb_spec (Z.of_nat (length c)) need); cbn in Eb; (done || lia).
Qed.

Lemma chain_do_good x rs ls q first need l : scanned x rs ls q 0 -> good 0 (first, need) l -> NoDup (concat (ls ++ [l])) ->
  scanned (chain_do x first need) (rs ++ [(first, need)]) (ls ++ [l]) q 0 /\ rep (chain_do x first need) = rep x.
Proof.
  intros Hs Hg Hnd. assert (Hrep : forall y, scanned y (rs ++ [(first, need)]) (ls ++ [l]) q 0 -> rep y = rep x) by (intros y Hy; by rewrite (sc_rep _ _ _ _ _ Hy), (sc_rep _ _ _ _ _ Hs)).
  assert (Hgoal : scanned (chain_do x first need) (rs ++ [(first, need)]) (ls ++ [l]) q 0); [| by split; [| apply Hrep]]. clear Hrep.
  destruct Hs as [S1 S2 S3 S4 S5 S6 S7]. pose proof (chain_do_pending x q first need S7) as Hpd. revert Hpd. unfold chain_do. pose proof Hg as [[Hlt ->] | (H2 & Hf & Hh & Hl)]; cbn [fst snd] in *.
  { rewrite (proj2 (Z.ltb_lt _ _) Hlt). intros Hpd. constructor; rewrite ?concat_snoc, ?app_nil_r; try done. apply Forall2_app; [done |]. constructor; [by left | done]. }
  rewrite (proj2 (Z.ltb_ge _ _) H2). destruct l as [| y l]; [done |]. injection Hh as ->. rewrite concat_snoc in Hnd.
  assert (Hva : Forall (valid s0) (concat ls ++ first :: l)) by (apply Forall_app; split; [done | apply Hf]). pose proof (valid_length _ Hnd Hva) as Hlen. rewrite length_app in Hlen.
  apply NoDup_app in Hnd as (N1 & N2 & N3).
  destruct (chain_run_good l (S (Z.to_nat N)) x first 0 (concat ls) S1 Hf) as (b & -> & M); [intros y Hy Hin; by apply (N2 y) | cbn [length] in Hlen; lia | done | lia |].
  specialize (Hl eq_refl). rewrite Z.add_0_l, (proj2 (Z.ltb_ge _ _)), andb_false_r by done.
  intros Hpd. constructor; rewrite ?concat_snoc; try done; [by apply NoDup_app | rewrite length_app; lia |]. apply Forall2_app; [done |]. by constructor.
Qed.

(** ** The entries of a directory *)

Variable csz : Z.

Definition named (es : list fat_dirent_t) : list fat_dirent_t := List.filter (fun e => negb (dot_name (de_name e))) es.
Definition subdirs (es : list fat_dirent_t) : list Z := map first_cluster (List.filter (fun e => is_dir e && (2 <=? first_cluster e)) (named es)).
Definition refs (es : list fat_dirent_t) : list (Z * Z) := map (fun e => (first_cluster e, fsck_need csz e)) (named es).

Definition cb_do (e : fat_dirent_t) x : fat_fsck_ctx_t * bool :=
  if dot_name (de_name e) then (x, false)
  else
    let x := chain_do x (first_cluster e) (fsck_need csz e) in
    if is_dir e && (2 <=? first_cluster e) then push x (first_cluster e) else (x, false).

Lemma cb_quiet : quiet_cb s0 (fat_fsck_dirent_cb csz) cb_do.
Proof.
  intros s e x Q V. unfold fat_fsck_dirent_cb, cb_do. destruct (dot_name (de_name e)); [by exists s |].
  destruct (fsck_chain_do s x (first_cluster e) (fsck_need csz e) Q V) as (s1 & -> & Q1 & V1). exists s1. split; [| done].
  destruct (is_dir e && (2 <=? first_cluster e)); [| done]. unfold push. by destruct (FAT_FSCK_MAX_DIRS <=? _).
Qed.

Lemma chain_do_worse x first need : worse x (chain_do x first need).
Proof.
  destruct (fsck_chain_do s0 x first need) as (s' & E & _); [apply quiet_preorder | done |]. pose proof (chain_worse s0 x first need) as H. by rewrite E in H.
Qed.

Lemma scanned_push x rs ls q t d : scanned x rs ls q t -> Z.of_nat (length q) < FAT_FSCK_MAX_DIRS -> exists x', push x d = (x', false) /\ scanned x' rs ls (q ++ [d]) t.
Proof.
  intros [S1 S2 S3 S4 S5 S6 S7] Hq. destruct (push_ok x q d S7 Hq) as (x' & -> & Hp & Er & Eb). exists x'. split; [done |].
  constructor; rewrite ?Er, ?Eb; done.
Qed.

Lemma dir_refs_cons e es : refs (e :: es) = (if dot_name (de_name e) then [] else [(first_cluster e, fsck_need csz e)]) ++ refs es.
Proof. unfold refs, named. cbn [List.filter]. by destruct (dot_name (de_name e)). Qed.
Lemma subdirs_cons e es : subdirs (e :: es) =
  (if negb (dot_name (de_name e)) && (is_dir e && (2 <=? first_cluster e)) then [first_cluster e] else []) ++ subdirs es.
Proof. unfold subdirs, named. cbn [List.filter]. destruct (dot_name (de_name e)); [done |]. cbn [negb List.filter andb]. by destruct (is_dir e && (2 <=? first_cluster e)). Qed.

Lemma cb_do_worse e x : worse x (fst (cb_do e x)).
Proof.
  unfold cb_do. destruct (dot_name (de_name e)); [done |]. destruct (is_dir e && (2 <=? first_cluster e)); [| apply chain_do_worse].
  unfold push. destruct (FAT_FSCK_MAX_DIRS <=? _); apply chain_do_worse.
Qed.
Lemma feed_worse es : forall x, worse x (fst (fst (feed cb_do es x))).
Proof.
  induction es as [| e es IH]; intros x; cbn [feed]; [done |]. pose proof (cb_do_worse e x) as H. destruct (cb_do e x) as [x1 [|]]; [done |].
  specialize (IH x1). cbn [fst] in H. destruct (feed cb_do es x1) as [[x2 k] stop]. cbn [fst] in *. by etrans.
Qed.

(** Every directory that waits was named by a good reference. *)
Definition dirs_good (ls : list (list Z)) (q : list Z) : Prop := Forall (fun d => exists l, l ∈ ls /\ file_chain s0 l /\ l !! 0%nat = Some d) q.

Lemma dirs_good_app ls ls' q : dirs_good ls q -> dirs_good (ls ++ ls') q.
Proof. intros H. eapply Forall_impl; [exact H |]. intros d (l & Hl & ?). exists l. split; [| done]. rewrite elem_of_app. by left. Qed.

Lemma refs_split e es : refs (e :: es) = refs [e] ++ refs es.
Proof. rewrite !dir_refs_cons. by rewrite app_nil_r. Qed.
Lemma subdirs_split e es : subdirs (e :: es) = subdirs [e] ++ subdirs es.
Proof. rewrite !subdirs_cons. by rewrite app_nil_r. Qed.

Lemma cb_do_sound e x rs ls q t : scanned x rs ls q t -> first_bad_n (rep (fst (cb_do e x))) = 0 ->
  (snd (cb_do e x) = true /\ overflow (fst (cb_do e x)) = true) \/
  exists x' ls' t', cb_do e x = (x', false) /\ scanned x' (rs ++ refs [e]) (ls ++ ls') (q ++ subdirs [e]) t' /\ dirs_good ls' (subdirs [e]).
Proof.
  intros Hs. rewrite dir_refs_cons, subdirs_cons. unfold cb_do. destruct (dot_name (de_name e)).
  { intros _. right. exists x, [], t. rewrite !app_nil_r. split; [done |]. split; [done | constructor]. }
  cbn [negb andb app]. destruct (is_dir e && (2 <=? first_cluster e)) eqn:Ed; intros E.
  - destruct (chain_do_sound x rs ls q t (first_cluster e) (fsck_need csz e) Hs) as (l & t' & Hs1 & Hg).
    { revert E. unfold push. by destruct (FAT_FSCK_MAX_DIRS <=? _). }
    destruct (decide (Z.of_nat (length q) < FAT_FSCK_MAX_DIRS)) as [Hq | Hq]; [right | left].
    2: { rewrite (push_full _ q) by (apply Hs1 || lia). done. }
    destruct (scanned_push _ _ _ _ _ (first_cluster e) Hs1 Hq) as (x' & -> & Hs2). exists x', [l], t'. split; [done |]. split; [done |]. constructor; [| constructor].
    apply andb_true_iff in Ed as [_ Ed%Z.leb_le]. destruct Hg as [[Hlt _] | (_ & Hf & Hh & _)]; [cbn in Hlt; lia |]. exists l. split; [left | done].
  - right. destruct (chain_do_sound x rs ls q t (first_cluster e) (fsck_need csz e) Hs E) as (l & t' & Hs1 & _).
    exists (chain_do x (first_cluster e) (fsck_need csz e)), [l], t'. rewrite app_nil_r. split; [done |]. split; [done | constructor].
Qed.

Lemma scanned_clean x rs ls q t : scanned x rs ls q t -> first_bad_n (rep x) = 0.
Proof. intros Hs. by rewrite (sc_rep _ _ _ _ _ Hs). Qed.

Lemma feed_sound es : forall x rs ls q t, scanned x rs ls q t -> first_bad_n (rep (fst (fst (feed cb_do es x)))) = 0 -> overflow (fst (fst (feed cb_do es x))) = false ->
  exists x' k ls' t', feed cb_do es x = (x', k, false) /\ 0 <= k /\ scanned x' (rs ++ refs es) (ls ++ ls') (q ++ subdirs es) t' /\ dirs_good ls' (subdirs es).
Proof.
  induction es as [| e es IH]; intros x rs ls q t Hs; cbn [feed].
  { intros _ _. exists x, 0, [], t. rewrite !app_nil_r. split; [done |]. split; [done |]. split; [done | constructor]. }
  rewrite refs_split, subdirs_split. pose proof (cb_do_sound e x rs ls q t Hs) as Hc. pose proof (cb_do_worse e x) as W0. unfold worse in W0. rewrite (scanned_clean _ _ _ _ _ Hs) in W0.
  intros E1 E2. assert (Hz : first_bad_n (rep (fst (cb_do e x))) = 0).
  { destruct (cb_do e x) as [x1 [|]]; [done |]. pose proof (feed_worse es x1) as W1. unfold worse in W1. destruct (feed cb_do es x1) as [[x2 k] stop2]. cbn [fst] in *. lia. }
  destruct (Hc Hz) as [[Es Eo] | (x1 & l1 & t1 & Ec & Hs1 & G1)].
  { destruct (cb_do e x) as [x1 stop]. cbn [fst snd] in *. subst stop. cbn [fst] in E2. congruence. }
  rewrite Ec in *. destruct (IH x1 _ _ _ _ Hs1) as (x2 & k & l2 & t2 & Ef & Hk & Hs2 & G2).
  { by destruct (feed cb_do es x1) as [[x2 k] stop]. } { by destruct (feed cb_do es x1) as [[x2 k] stop]. }
  rewrite Ef. exists x2, (1 + k), (l1 ++ l2), t2. rewrite !app_assoc. split; [done |]. split; [lia |]. split; [done |]. apply Forall_app. split; [by apply dirs_good_app |].
  eapply Forall_impl; [exact G2 |]. intros d (l & Hl & ?). exists l. split; [| done]. rewrite elem_of_app. by right.
Qed.

Lemma cb_do_good e x rs ls q ls' : scanned x rs ls q 0 -> Forall2 (good 0) (refs [e]) ls' -> NoDup (concat (ls ++ ls')) -> Z.of_nat (length (q ++ subdirs [e])) <= FAT_FSCK_MAX_DIRS ->
  exists x', cb_do e x = (x', false) /\ scanned x' (rs ++ refs [e]) (ls ++ ls') (q ++ subdirs [e]) 0.
Proof.
  intros Hs. rewrite dir_refs_cons, subdirs_cons. unfold cb_do. destruct (dot_name (de_name e)); cbn [app negb andb].
  { intros ->%Forall2_nil_inv_l _ _. exists x. by rewrite !app_nil_r. }
  intros (l & ls1 & Hg & ->%Forall2_nil_inv_l & ->)%Forall2_cons_inv_l Hnd Hq. destruct (chain_do_good x rs ls q _ _ l Hs Hg Hnd) as [Hs1 _].
  destruct (is_dir e && (2 <=? first_cluster e)); [| eexists; rewrite app_nil_r; by split].
  apply (scanned_push _ _ _ _ _ (first_cluster e) Hs1). rewrite length_app in Hq. cbn [app length] in Hq. lia.
Qed.

Lemma feed_good es : forall x rs ls q ls', scanned x rs ls q 0 -> Forall2 (good 0) (refs es) ls' -> NoDup (concat (ls ++ ls')) ->
  Z.of_nat (length (q ++ subdirs es)) <= FAT_FSCK_MAX_DIRS ->
  exists x' k, feed cb_do es x = (x', k, false) /\ 0 <= k /\ scanned x' (rs ++ refs es) (ls ++ ls') (q ++ subdirs es) 0.
Proof.
  induction es as [| e es IH]; intros x rs ls q ls' Hs Hf Hnd Hq; cbn [feed].
  { apply Forall2_nil_inv_l in Hf as ->. exists x, 0. by rewrite !app_nil_r. }
  rewrite refs_split in *. rewrite subdirs_split in *. apply Forall2_app_inv_l in Hf as (l1 & l2 & F1 & F2 & ->). rewrite !app_assoc in *.
  destruct (cb_do_good e x rs ls q l1 Hs F1) as (x1 & -> & Hs1); [by rewrite concat_app in Hnd; apply NoDup_app in Hnd as (? & _) | rewrite length_app in Hq; lia |].
  destruct (IH x1 _ _ _ l2 Hs1 F2 Hnd Hq) as (x2 & k & -> & Hk & Hs2). exists x2, (1 + k). split; [done |]. split; [lia | done].
Qed.

(** ** The tree of directories *)

Variable junk : list Z.
Notation ents bs := (entries_of (fun _ : fatfs D => junk) s0 bs).

(** The directories in the order of the scan, from those that wait. *)
Inductive tree : list Z -> list (Z * list dir_block_t) -> Prop :=
  | tree_end : tree [] []
  | tree_dir d bs q ds : dir_blocks s0 d bs -> tree (q ++ subdirs (ents bs)) ds -> tree (d :: q) ((d, bs) :: ds).

Lemma tree_width q ds : tree q ds -> (length q <= length ds)%nat.
Proof. induction 1 as [| d bs q ds _ _ IH]; [done |]. rewrite length_app in IH. cbn. lia. Qed.

Definition dir_refs (ds : list (Z * list dir_block_t)) : list (Z * Z) := concat (map (fun '(_, bs) => refs (ents bs)) ds).

Definition readable (d : Z) : Prop := exists bs, dir_blocks s0 d bs.

Lemma file_dir_chain l : file_chain s0 l -> dir_chain s0 l.
Proof.
  intros [F1 F2 F3]. constructor; [done | done |]. intros i c Hi. specialize (F3 i c Hi). destruct (l !! S i); [done |]. by apply (eoc_not_valid s0).
Qed.

Lemma good_readable ls q : dirs_good ls q -> Forall readable q.
Proof.
  intros H. eapply Forall_impl; [exact H |]. intros d ([| y l] & _ & Hf & Hh); [done |]. injection Hh as ->. eexists. by apply db_chain, file_dir_chain.
Qed.

Lemma dir_scan_ok s d bs x : quiet s0 s -> vol_ok s -> dir_blocks s0 d bs ->
  exists s', fat_dir_foreach (fun _ => junk) (fat_fsck_dirent_cb csz) s d x = (let '(x', k, _) := feed cb_do (ents bs) x in (s', x', k)) /\ quiet s0 s' /\ vol_ok s'.
Proof.
  intros Q V Hd. pose proof (quiet_preorder (BD := BD)) as Hpre.
  destruct (dir_foreach_ok (fun _ => junk) (fat_fsck_dirent_cb csz) cb_do s d bs x) as (s' & E & Q' & V'); [| done | by apply (blocks_quiet s0) |].
  { intros s1 e y Q1 V1. apply cb_quiet; [by etrans | done]. }
  exists s'. split; [| split; [by etrans | done]]. assert (Ee : entries_of (fun _ => junk) s bs = ents bs).
  { unfold entries_of, first_state, contents. destruct (geom_fields _ _ (qu_geom _ _ Q)) as (_ & -> & _). f_equal. apply map_ext. intros b. by rewrite (block_quiet_data s0 s). }
  by rewrite <- Ee.
Qed.

Lemma scanned_pop x rs ls d q t : scanned x rs ls (d :: q) t -> scanned (pop x) rs ls q t.
Proof. intros [S1 S2 S3 S4 S5 S6 S7]. constructor; try done. by apply (pending_pop x d). Qed.

Lemma dirs_sound fuel : forall s x rs ls q t s' x', quiet s0 s -> vol_ok s -> scanned x rs ls q t -> Forall readable q ->
  dirs_loop (fun _ => junk) fuel s csz x = Some (s', x', false) -> first_bad_n (rep x') = 0 ->
  exists ds ls' t', quiet s0 s' /\ vol_ok s' /\ tree q ds /\ scanned x' (rs ++ dir_refs ds) (ls ++ ls') [] t'.
Proof.
  induction fuel as [| fuel IH]; intros s x rs ls q t s' x' Q V Hs Hq; cbn [dirs_loop]; (destruct q as [| d q];
    [rewrite (pending_empty _ (sc_pending _ _ _ _ _ Hs)); intros [= <- <-] _; exists [], [], t; unfold dir_refs; cbn [map concat]; rewrite !app_nil_r; do 2 (split; [done |]); split; [exact tree_end | done] |]);
    pose proof (scanned_pop _ _ _ _ _ _ Hs) as Hp; destruct (pending_pop _ _ _ (sc_pending _ _ _ _ _ Hs)) as (E1 & E2 & _); rewrite E1; [done | rewrite E2].
  apply Forall_cons in Hq as [(bs & Hd) Hq]. fold (pop x); set (x0 := pop x) in *. destruct (dir_scan_ok s d bs x0 Q V Hd) as (s1 & -> & Q1 & V1).
  pose proof (feed_sound (ents bs) x0 rs ls q t Hp) as Hf.
  pose proof (feed_worse (ents bs) x0) as W0. pose proof (scanned_clean _ _ _ _ _ Hp) as Hc. destruct (feed cb_do (ents bs) x0) as [[x1 k] stop]. cbn [fst] in Hf, W0.
  destruct ((k <? 0) || overflow x1) eqn:Eb; [done |]. intros E Hz. apply orb_false_iff in Eb as [_ Eo].
  destruct Hf as (x2 & k2 & l1 & t1 & [= <- <- _] & _ & Hs1 & G1); [| done |].
  { pose proof (dirs_worse _ _ _ _ _ _ _ _ E) as W. unfold worse in *. lia. }
  destruct (IH s1 x1 _ _ _ _ s' x' Q1 V1 Hs1) as (ds & l2 & t2 & Q2 & V2 & Ht & Hs2); [apply Forall_app; split; [done | by eapply good_readable] | done | done |].
  exists ((d, bs) :: ds), (l1 ++ l2), t2. do 2 (split; [done |]). split; [by apply tree_dir |]. unfold dir_refs in *. cbn [map concat]. by rewrite !app_assoc in *.
Qed.

Lemma dirs_good_run ds : forall fuel s x rs ls q ls', (length ds <= fuel)%nat -> quiet s0 s -> vol_ok s -> scanned x rs ls q 0 -> tree q ds ->
  Forall2 (good 0) (dir_refs ds) ls' -> NoDup (concat (ls ++ ls')) -> Z.of_nat (length ds) <= FAT_FSCK_MAX_DIRS ->
  exists s' x', dirs_loop (fun _ => junk) fuel s csz x = Some (s', x', false) /\ quiet s0 s' /\ vol_ok s' /\ scanned x' (rs ++ dir_refs ds) (ls ++ ls') [] 0.
Proof.
  induction ds as [| [d bs] ds IH]; intros fuel s x rs ls q ls' Hn Q V Hs Ht Hf Hnd Hw.
  { inversion Ht. subst q. apply Forall2_nil_inv_l in Hf as ->. rewrite !app_nil_r. exists s, x. split; [| done]. destruct fuel; cbn [dirs_loop]; by rewrite (pending_empty _ (sc_pending _ _ _ _ _ Hs)). }
  inversion Ht as [| d' bs' q' ds' Hd Ht']. subst. destruct fuel as [| fuel]; cbn [length] in *; [lia |]. cbn [dirs_loop].
  pose proof (scanned_pop _ _ _ _ _ _ Hs) as Hp. destruct (pending_pop _ _ _ (sc_pending _ _ _ _ _ Hs)) as (-> & -> & _). fold (pop x); set (x0 := pop x) in *. destruct (dir_scan_ok s d bs x0 Q V Hd) as (s1 & -> & Q1 & V1).
  unfold dir_refs in Hf. cbn [map concat] in Hf. apply Forall2_app_inv_l in Hf as (l1 & l2 & F1 & F2 & ->). rewrite app_assoc in Hnd.
  pose proof (tree_width _ _ Ht') as Hlen.
  destruct (feed_good (ents bs) x0 rs ls q' l1 Hp F1) as (x1 & k & -> & Hk & Hs1); [by rewrite concat_app in Hnd; apply NoDup_app in Hnd as (? & _) | lia |].
  rewrite (pd_flag _ _ (sc_pending _ _ _ _ _ Hs1)). destruct (Z.ltb_spec k 0); [lia |]. cbn [orb].
  destruct (IH fuel s1 x1 _ _ _ l2 ltac:(lia) Q1 V1 Hs1 Ht' F2 Hnd ltac:(lia)) as (s2 & x2 & E & Q2 & V2 & Hs2). exists s2, x2. split; [done |]. do 2 (split; [done |]).
  unfold dir_refs in *. cbn [map concat]. by rewrite !app_assoc in *.
Qed.

(** ** The comparison with the table *)

Definition agrees V (c : Z) : Prop := fat_at s0 c <> 0 <-> c ∈ V.

Lemma table_quiet n : forall s x c, quiet s0 s -> vol_ok s -> exists s' x', table_loop n s x c = (s', x') /\ quiet s0 s' /\ vol_ok s'.
Proof.
  pose proof (quiet_preorder (BD := BD)) as Hpre. induction n as [| n IH]; intros s x c Q V; cbn [table_loop]; [by exists s, x |].
  destruct (get_spec s c V) as (s1 & -> & Q1 & V1). apply IH; [by etrans | done].
Qed.

Lemma table_loop_ok n : forall s x c V, quiet s0 s -> vol_ok s -> marks (bm x) V -> 2 <= c -> c + Z.of_nat n = N + 2 -> first_bad_n (rep x) = 0 ->
  exists s' x', table_loop n s x c = (s', x') /\ quiet s0 s' /\ vol_ok s' /\
    ((forall y, c <= y < N + 2 -> agrees V y) -> x' = x) /\ (first_bad_n (rep x') = 0 -> forall y, c <= y < N + 2 -> agrees V y).
Proof.
  pose proof (quiet_preorder (BD := BD)) as Hpre.
  induction n as [| n IH]; intros s x c V Q Vs M Hc Hn Hr; cbn [table_loop]; [exists s, x; repeat (split; [done |]); intros; lia |].
  assert (Hcv : valid s0 c) by (unfold valid; lia). destruct (get_spec s c Vs) as (s1 & -> & Q1 & V1).
  rewrite bool_decide_eq_true_2 by (by apply (valid_quiet _ _ _ Q)). rewrite (quiet_fat_at s0 s) by done. rewrite (mk_bit _ _ M c Hcv).
  assert (Q01 : quiet s0 s1) by (by etrans).
  assert (Hbad : forall r, first_bad_n r = 0 -> forall s' x', table_loop n s1 (with_rep x (fsck_record_bad r c)) (c + 1) = (s', x') -> first_bad_n (rep x') <> 0).
  { intros r Er s' x' E. pose proof (table_worse n s1 (with_rep x (fsck_record_bad r c)) (c + 1)) as W. rewrite E in W. unfold worse in W. cbn [snd with_rep rep] in W.
    pose proof (record_mono r c). lia. }
  assert (Hstep : agrees V c -> exists s' x', table_loop n s1 x (c + 1) = (s', x') /\ quiet s0 s' /\ vol_ok s' /\
    ((forall y, c <= y < N + 2 -> agrees V y) -> x' = x) /\ (first_bad_n (rep x') = 0 -> forall y, c <= y < N + 2 -> agrees V y)).
  { intros Ha. destruct (IH s1 x (c + 1) V Q01 V1 M) as (s' & x' & E & Q' & V' & H1 & H2); [lia | lia | done |]. exists s', x'. do 3 (split; [done |]). split.
    - intros H. apply H1. intros y Hy. apply H. lia.
    - intros E0 y Hy. destruct (Z.eq_dec y c) as [-> |]; [done |]. apply H2; [done | lia]. }
  assert (Hno : forall r, first_bad_n r = 0 -> ~ agrees V c -> exists s' x', table_loop n s1 (with_rep x (fsck_record_bad r c)) (c + 1) = (s', x') /\ quiet s0 s' /\ vol_ok s' /\
    ((forall y, c <= y < N + 2 -> agrees V y) -> x' = x) /\ (first_bad_n (rep x') = 0 -> forall y, c <= y < N + 2 -> agrees V y)).
  { intros r Er Ha. destruct (table_quiet n s1 (with_rep x (fsck_record_bad r c)) (c + 1) Q01 V1) as (s' & x' & E & Q' & V'). exists s', x'. do 3 (split; [done |]). split.
    - intros H. exfalso. apply Ha, H. lia.
    - intros E0. by destruct (Hbad r Er s' x' E). }
  unfold agrees in Hstep, Hno. destruct (Z.eqb_spec (fat_at s0 c) 0) as [E0 | E0]; cbn [negb andb]; case_bool_decide as Hin; cbn [negb andb Z.eqb]; try (apply Hstep; tauto); apply Hno; (done || tauto).
Qed.

(** ** Consistent volumes *)

(** The table, the directories and the files fit together: [ds] are the
    directories in the order of the scan, [ls] the chains of the root directory
    and of all entries.  Every chain ends and is as long as the size asks for, no
    cluster is in two of them, and exactly their clusters are in use. *)
Record consistent (ds : list (Z * list dir_block_t)) (ls : list (list Z)) : Prop := {
  cs_tree : tree [root_dir_cluster_value s0] ds;
  cs_good : Forall2 (good 0) ((if 2 <=? root_dir_cluster_value s0 then [(root_dir_cluster_value s0, 0)] else []) ++ dir_refs ds) ls;
  cs_once : NoDup (concat ls);
  cs_table : forall c, valid s0 c -> agrees (concat ls) c;
}.

(** What [fat_mount] has checked. *)
Definition root_ok : Prop := (fat_type s0 = 32 -> valid s0 (root_cluster (fi s0))) /\ (fat_type s0 <> 32 -> 0 < root_dir_sectors (fi s0)).

Notation root := (root_dir_cluster_value s0).

Definition fsck_start (b q : list Z) : fat_fsck_ctx_t := mk_ctx (set_total empty_report N) b q 0 0 false.

(** The scan of the root chain, which puts the root directory into the ring. *)
Definition start_root x : fat_fsck_ctx_t :=
  let x := if 2 <=? root then chain_do x root 0 else x in
  mk_ctx (rep x) (bm x) (aset (queue x) (tail x) root) (head x) (tail x + 1) (overflow x).
Definition root_refs : list (Z * Z) := if 2 <=? root then [(root, 0)] else [].

Lemma start_scanned b q : (forall i, aget 0 b i = 0) -> Z.of_nat (length b) = (N + 7) / 8 -> Z.of_nat (length q) = FAT_FSCK_MAX_DIRS -> scanned (fsck_start b q) [] [] [] 0.
Proof.
  intros Hz Hb Hq. constructor; try done; [by apply marks_none | apply NoDup_nil_2].
Qed.

Lemma start_push x y : same_ring x y -> tail x = 0 -> head x = 0 -> push y root = (mk_ctx (rep y) (bm y) (aset (queue y) (tail y) root) (head y) (tail y + 1) (overflow y), false).
Proof. intros (E1 & E2 & E3 & E4) H1 H2. unfold push. by rewrite E3, E2, H1, H2. Qed.

Section Start.
Context (b q : list Z) (Hz : forall i, aget 0 b i = 0) (Hb : Z.of_nat (length b) = (N + 7) / 8) (Hq : Z.of_nat (length q) = FAT_FSCK_MAX_DIRS).
Let x1 := start_root (fsck_start b q).

Lemma start_worse : worse (fsck_start b q) x1.
Proof. unfold x1, start_root. destruct (2 <=? root); [apply chain_do_worse | by apply worse_same]. Qed.

Lemma start_sound : first_bad_n (rep x1) = 0 -> exists ls t, scanned x1 root_refs ls [root] t /\ (2 <= root -> dirs_good ls [root]).
Proof.
  pose proof (start_scanned b q Hz Hb Hq) as Hs. unfold x1, start_root, root_refs. destruct (Z.leb_spec 2 root).
  - cbn [rep]. intros E. destruct (chain_do_sound _ _ _ _ _ _ _ Hs E) as (l & t & Hs1 & Hg). exists [l], t. split.
    + destruct (scanned_push _ _ _ _ _ root Hs1) as (x' & E1 & Hs2); [done |]. rewrite (start_push (fsck_start b q)) in E1 by (done || apply chain_do_ring). by injection E1 as <-.
    + intros _. constructor; [| constructor]. destruct Hg as [[? _] | (_ & Hf & Hh & _)]; [cbn in *; lia |]. exists l. split; [left | done].
  - intros _. exists [], 0. split; [| lia]. destruct (scanned_push _ _ _ _ _ root Hs) as (x' & E1 & Hs2); [done |]. rewrite (start_push (fsck_start b q)) in E1 by done. by injection E1 as <-.
Qed.

Lemma start_good ls : Forall2 (good 0) root_refs ls -> NoDup (concat ls) -> scanned x1 root_refs ls [root] 0.
Proof.
  pose proof (start_scanned b q Hz Hb Hq) as Hs. unfold x1, start_root, root_refs. destruct (Z.leb_spec 2 root).
  - intros (l & ls1 & Hg & ->%Forall2_nil_inv_l & ->)%Forall2_cons_inv_l Hnd. destruct (chain_do_good _ _ _ _ _ _ l Hs Hg Hnd) as [Hs1 _].
    destruct (scanned_push _ _ _ _ _ root Hs1) as (x' & E1 & Hs2); [done |]. rewrite (start_push (fsck_start b q)) in E1 by (done || apply chain_do_ring). by injection E1 as <-.
  - intros ->%Forall2_nil_inv_l _. destruct (scanned_push _ _ _ _ _ root Hs) as (x' & E1 & Hs2); [done |]. rewrite (start_push (fsck_start b q)) in E1 by done. by injection E1 as <-.
Qed.

Lemma root_readable : root_ok -> (2 <= root -> readable root) -> readable root.
Proof.
  intros [R1 R2] Hr. unfold root_dir_cluster_value in *. destruct (Z.eqb_spec (fat_type s0) 32) as [E | E].
  - apply Hr. specialize (R1 E). unfold valid in R1. lia.
  - eexists. by apply db_root; [| apply R2].
Qed.

Lemma scan_sound fuel s s2 x2 s3 x3 : root_ok -> quiet s0 s -> vol_ok s -> dirs_loop (fun _ => junk) fuel s csz x1 = Some (s2, x2, false) ->
  table_loop (Z.to_nat N) s2 x2 2 = (s3, x3) -> first_bad_n (rep x3) = 0 -> truncated (rep x3) = 0 -> exists ds ls, consistent ds ls.
Proof.
  intros Hr Q V Ed Et Hb3 Ht3. pose proof (go_count _ _ _ (vo_geo _ Hv)) as HN.
  pose proof start_worse as W1. pose proof (dirs_worse _ _ _ _ _ _ _ _ Ed) as W2. pose proof (table_worse (Z.to_nat N) s2 x2 2) as W3. rewrite Et in W3.
  unfold worse in W1, W2, W3. cbn [snd] in W3. change (first_bad_n (rep (fsck_start b q))) with 0 in W1. specialize (W1 ltac:(lia)). specialize (W2 W1). specialize (W3 ltac:(lia)).
  destruct start_sound as (ls0 & t0 & Hs0 & G0); [lia |].
  destruct (dirs_sound fuel s x1 root_refs ls0 [root] t0 s2 x2 Q V Hs0) as (ds & ls & t & Q2 & V2 & Htree & Hs2); [| done | lia |].
  { constructor; [| constructor]. apply root_readable; [done |]. intros H. specialize (G0 H). apply good_readable in G0. by apply Forall_cons in G0 as [? _]. }
  destruct (table_loop_ok (Z.to_nat N) s2 x2 2 (concat (ls0 ++ ls)) Q2 V2) as (s' & x' & E & _ & _ & H1 & H2); [apply Hs2 | done | lia | by eapply scanned_clean |].
  rewrite Et in E. injection E as <- <-. specialize (H2 Hb3). specialize (H1 H2). subst x3. rewrite (sc_rep _ _ _ _ _ Hs2) in Ht3. cbn in Ht3. subst t.
  exists ds, (ls0 ++ ls). constructor; [done | apply (sc_good _ _ _ _ _ Hs2) | apply (sc_nodup _ _ _ _ _ Hs2) |]. intros c Hc. apply H2. unfold valid in Hc. lia.
Qed.

Lemma scan_complete fuel s ds ls : consistent ds ls -> quiet s0 s -> vol_ok s -> (length ds <= fuel)%nat -> Z.of_nat (length ds) <= FAT_FSCK_MAX_DIRS ->
  exists s2 x2 s3 x3, dirs_loop (fun _ => junk) fuel s csz x1 = Some (s2, x2, false) /\ table_loop (Z.to_nat N) s2 x2 2 = (s3, x3) /\ quiet s0 s3 /\ rep x3 = rep_t 0.
Proof.
  intros [C1 C2 C3 C4] Q V Hn Hw. fold root_refs in C2. apply Forall2_app_inv_l in C2 as (l0 & l1 & F0 & F1 & ->). pose proof (go_count _ _ _ (vo_geo _ Hv)) as HN.
  pose proof (start_good l0 F0) as Hs0. destruct (dirs_good_run ds fuel s x1 root_refs l0 [root] l1 Hn Q V) as (s2 & x2 & E2 & Q2 & V2 & Hs2); try done.
  { apply Hs0. rewrite concat_app in C3. by apply NoDup_app in C3 as (? & _). }
  destruct (table_loop_ok (Z.to_nat N) s2 x2 2 (concat (l0 ++ l1)) Q2 V2) as (s3 & x3 & E3 & Q3 & _ & H1 & _); [apply Hs2 | done | lia | by eapply scanned_clean |].
  exists s2, x2, s3, x3. do 3 (split; [done |]). rewrite H1; [apply Hs2 |]. intros y Hy. apply C4. unfold valid. lia.
Qed.
End Start.

(** ** Directories without an end *)

Lemma feed_ring es : forall x q, pending x q -> Z.of_nat (length (q ++ subdirs es)) <= FAT_FSCK_MAX_DIRS ->
  exists x' k, feed cb_do es x = (x', k, false) /\ 0 <= k /\ pending x' (q ++ subdirs es).
Proof.
  induction es as [| e es IH]; intros x q Hp Hq; cbn [feed]; [exists x, 0; by rewrite app_nil_r |].
  rewrite subdirs_split, app_assoc in *. assert (Hc : exists x', cb_do e x = (x', false) /\ pending x' (q ++ subdirs [e])).
  { rewrite subdirs_cons in *. unfold cb_do. destruct (dot_name (de_name e)); cbn [negb andb app] in *; [exists x; by rewrite app_nil_r |].
    pose proof (chain_do_pending x q (first_cluster e) (fsck_need csz e) Hp) as Hp1. destruct (is_dir e && (2 <=? first_cluster e)); [| eexists; by rewrite app_nil_r].
    destruct (push_ok _ q (first_cluster e) Hp1) as (x' & -> & Hp2 & _); [rewrite !length_app in Hq; cbn in Hq; lia |]. by exists x'. }
  destruct Hc as (x1 & -> & Hp1). destruct (IH x1 _ Hp1 Hq) as (x2 & k & -> & Hk & Hp2). exists x2, (1 + k). split; [done |]. split; [lia | done].
Qed.

(** A set of directories each of which has one subdirectory, in the set again. *)
Definition endless (C : Z -> Prop) : Prop := forall d, C d -> exists bs d', dir_blocks s0 d bs /\ subdirs (ents bs) = [d'] /\ C d'.

Lemma dirs_forever C (Hc : endless C) fuel : forall s x d, quiet s0 s -> vol_ok s -> pending x [d] -> C d -> dirs_loop (fun _ => junk) fuel s csz x = None.
Proof.
  induction fuel as [| fuel IH]; intros s x d Q V Hp Hd; cbn [dirs_loop]; destruct (pending_pop _ _ _ Hp) as (E1 & E2 & Hp1); rewrite E1; [done |]. rewrite E2. fold (pop x).
  destruct (Hc d Hd) as (bs & d' & Hb & Es & Hd'). destruct (dir_scan_ok s d bs (pop x) Q V Hb) as (s1 & -> & Q1 & V1).
  destruct (feed_ring (ents bs) (pop x) [] Hp1) as (x1 & k & -> & Hk & Hp2); [by rewrite Es |]. rewrite Es in Hp2. rewrite (pd_flag _ _ Hp2). destruct (Z.ltb_spec k 0); [lia |]. cbn [orb].
  by apply (IH s1 x1 d').
Qed.

Lemma start_pending b q : Z.of_nat (length q) = FAT_FSCK_MAX_DIRS -> pending (start_root (fsck_start b q)) [root].
Proof.
  intros Hq. assert (Hp : pending (fsck_start b q) []) by (constructor; try done; cbn; lia).
  unfold start_root. destruct (2 <=? root).
  - destruct (push_ok _ _ root (chain_do_pending _ _ root 0 Hp)) as (x' & E1 & Hs2 & _); [done |]. rewrite (start_push (fsck_start b q)) in E1 by (done || apply chain_do_ring). by injection E1 as <-.
  - destruct (push_ok _ _ root Hp) as (x' & E1 & Hs2 & _); [done |]. rewrite (start_push (fsck_start b q)) in E1 by done. by injection E1 as <-.
Qed.
End Exact.

Section Whole.
Context {D H : Type} `{BD : BlockDev D} `{HA : Allocator H}.
Implicit Types s : fatfs D.
Variable junk : list Z.

Definition csz_of s : Z := bytes_per_sector (fi s) *! sectors_per_cluster (fi s).
Definition scan_start s (b q : list Z) : fatfs D * fat_fsck_ctx_t :=
  let x := fsck_start s b q in
  let root := root_dir_cluster_value s in
  let '(s, x) := if 2 <=? root then fat_fsck_chain s x root 0 else (s, x) in
  (s, mk_ctx (rep x) (bm x) (aset (queue x) (tail x) root) (head x) (tail x + 1) (overflow x)).

(** The scan between the allocation and the release of its two buffers. *)
Definition scan fuel s (b q : list Z) : option (fatfs D * fsck_report_t * Z) :=
  let '(s1, x1) := scan_start s b q in
  '(s2, x2, failed) ← dirs_loop (fun _ => junk) fuel s1 (csz_of s) x1;
  if failed : bool then Some (s2, rep x2, -3) else let '(s3, x3) := table_loop (Z.to_nat (cluster_count (fi s))) s2 x2 2 in Some (s3, rep x3, 0).

Lemma scan_start_ok s b q : vol_ok s -> exists s', scan_start s b q = (s', start_root s (fsck_start s b q)) /\ quiet s s' /\ vol_ok s'.
Proof.
  intros Hv. pose proof (quiet_preorder (BD := BD)) as Hpre. unfold scan_start, start_root. destruct (2 <=? root_dir_cluster_value s); [| by exists s].
  destruct (fsck_chain_do s Hv s (fsck_start s b q) (root_dir_cluster_value s) 0) as (s' & -> & Q & V); [done | done |]. by exists s'.
Qed.

Lemma fsck_scan fuel s (h : H) l : vol_ok s -> owns h l ->
  (exists h' r, fat_fsck (fun _ => junk) fuel s h empty_report = Some (s, h', r, -2) /\ owns h' l) \/
  (exists b q, (forall i, aget 0 b i = 0) /\ Z.of_nat (length b) = (cluster_count (fi s) + 7) / 8 /\ Z.of_nat (length q) = FAT_FSCK_MAX_DIRS /\
    (scan fuel s b q = None -> fat_fsck (fun _ => junk) fuel s h empty_report = None) /\
    (forall s' r k, scan fuel s b q = Some (s', r, k) -> exists h', fat_fsck (fun _ => junk) fuel s h empty_report = Some (s', h', r, k) /\ owns h' l)).
Proof.
  intros Hv Ho. destruct (count_small s Hv) as (_ & HN & Ht). pose proof (go_count _ _ _ (vo_geo _ Hv)) as HN2. unfold fat_fsck.
  rewrite (proj2 (Z.eqb_neq _ _) Ht). destruct (Z.eqb_spec (cluster_count (fi s)) 0); [lia |]. rewrite (u32_small (cluster_count (fi s) + 7)) by (unfold is_u32; lia).
  set (nb := (cluster_count (fi s) + 7) / 8). assert (Hn : is_u32 nb) by (unfold is_u32, nb; Z.to_euclidean_division_equations; lia).
  pose proof (alloc_spec h l nb Ho Hn) as A1. destruct (alloc h nb) as [h1 pb]. destruct A1 as [[-> ->] | (Hpb & _ & Ho1)].
  { left. eexists h, _. by split. }
  rewrite (proj2 (Z.eqb_neq _ _) Hpb). change (FAT_FSCK_MAX_DIRS *! 4) with 4096.
  pose proof (alloc_spec h1 ((pb, nb) :: l) 4096 Ho1 ltac:(done)) as A2. destruct (alloc h1 4096) as [h2 pq]. destruct A2 as [[-> ->] | (Hpq & _ & Ho2)].
  { left. destruct (release_spec h1 l pb nb Ho1) as (h3 & E3 & Ho3). cbn [Z.eqb]. rewrite E3. cbn [mbind option_bind]. eexists h3, _. by split. }
  rewrite (proj2 (Z.eqb_neq _ _) Hpq). right. exists (replicate (Z.to_nat nb) 0), (map (fun i => le32 (stale h2 pq (FAT_FSCK_MAX_DIRS * 4)) (4 * i)) (seqZ 0 FAT_FSCK_MAX_DIRS)).
  destruct (release_spec h2 _ pq 4096 Ho2) as (h3 & E3 & Ho3). destruct (release_spec h3 l pb nb Ho3) as (h4 & E4 & Ho4).
  split; [| split; [rewrite length_replicate; unfold is_u32 in Hn; lia | split; [by rewrite length_map |]]].
  { intros i. unfold aget. destruct (nth_in_or_default (Z.to_nat i) (replicate (Z.to_nat nb) 0) 0) as [Hin | ->]; [| done]. apply list_elem_of_In, elem_of_replicate in Hin as [-> _]. done. }
  unfold scan, scan_start, fsck_start, csz_of.
  set (p := if 2 <=? root_dir_cluster_value s then _ else _). destruct p as [s1 x]. destruct (dirs_loop _ _ _ _ _) as [[[s2 x2] [|]] |]; cbn [mbind option_bind].
  - split; [done |]. intros s' r k [= <- <- <-]. rewrite E3. cbn [mbind option_bind]. rewrite E4. cbn [mbind option_bind]. by exists h4.
  - destruct (table_loop _ _ _ _) as [s3 x3]. split; [done |]. intros s' r k [= <- <- <-]. rewrite E3. cbn [mbind option_bind]. rewrite E4. cbn [mbind option_bind]. by exists h4.
  - done.
Qed.


End Whole.

(** ** Two volumes *)

#[local] Instance heap30 : Allocator km_state := km_allocator POOL_30MB pool_30MB_ok.
Definition demo_heap : km_state := kmalloc_init POOL_30MB ∅.

Lemma demo_owns : owns demo_heap [].
Proof. exists [BFree KM_POOL_SIZE]. split; [apply kmalloc_init_inv, pool_30MB_ok | done]. Qed.

(** The empty volume is consistent. *)
Lemma demo_consistent : consistent demo_fat 512 [] [(0, demo_root)] [].
Proof.
  constructor.
  - apply tree_dir; [exact demo_blocks |]. assert (E : subdirs (entries_of (fun _ => []) demo_fat demo_root) = []) by (vm_compute; reflexivity). rewrite E. apply tree_end.
  - assert (E : dir_refs demo_fat 512 [] [(0, demo_root)] = []) by (vm_compute; reflexivity). rewrite E. constructor.
  - apply NoDup_nil_2.
  - intros c Hc. assert (E : forallb (fun c => fat_at demo_fat c =? 0) (seqZ 2 260) = true) by (vm_compute; reflexivity).
    rewrite forallb_forall in E. specialize (E c). assert (Hin : In c (seqZ 2 260)) by (apply list_elem_of_In, elem_of_seqZ; unfold valid in Hc; cbn in Hc; lia).
    specialize (E Hin). apply Z.eqb_eq in E. unfold agrees. rewrite E. split; [done | by intros ?%elem_of_nil].
Qed.


(** A volume whose root directory has one subdirectory D, whose only entry E
    names the directory D itself. *)
Definition dir_entry (c : Z) : list Z := aset (aset (splice (replicate 32 0) 0 (c :: replicate 10 32)) 11 0x10) 26 2.
Definition pad512 (l : list Z) : list Z := take 512 (l ++ zero_sector).
Definition demo_cycle : fatfs mem_disk :=
  mk_fat _ (mk_md 400 (<[(0, 8) := pad512 [0xF8; 0xFF; 0xFF; 0xFF; 0x0F]]> (<[(0, 9) := pad512 (dir_entry 68)]> (<[(0, 10) := pad512 (dir_entry 69)]> ∅))) ∅)
    demo_info 12 0 7 (mk_cwd 0 (bytes "/") (replicate 32 0) 0) (replicate (Z.to_nat 8192) 0) NO_ENTRY 0 2.

Lemma demo_cycle_ok : vol_ok demo_cycle.
Proof.
  constructor.
  - constructor; cbn; try lia; [by left | done].
  - intros k Hk. split; [cbn in *; lia | apply not_elem_of_empty].
  - split; [done |]. by apply Forall_replicate.
  - by left.
  - done.
Qed.

Lemma demo_endless : endless demo_cycle [] (fun d => d = 0 \/ d = 2).
Proof.
  intros d [-> | ->].
  - exists [root_block demo_cycle 0], 2. split; [| split; [vm_compute; reflexivity | by right]].
    change [root_block demo_cycle 0] with (map (root_block demo_cycle) (seqZ 0 (root_dir_sectors (fi demo_cycle)))). constructor; done.
  - exists [cluster_block demo_cycle 2], 2. split; [| split; [vm_compute; reflexivity | by right]].
    apply (db_chain demo_cycle 2 []). constructor; [by constructor | apply NoDup_singleton |].
    intros [| i] c Hi; cbn in Hi; [injection Hi as <- | discriminate Hi]. cbn [lookup list_lookup]. assert (E : fat_at demo_cycle 2 = 0xFFF) by (vm_compute; reflexivity).
    rewrite E. unfold valid. cbn. lia.
Qed.

