(* ===== verification/Sysvol.v ===== *)
(** * Sysvol: the read-only system volume ([kernel/sysvol.c])

    Files that are linked into the kernel, found by path, without regard to the
    case of letters and to slashes at both ends.  The table and the contents are
    generated data and arguments of the model.  Strings are lists of characters
    without the terminating NUL. *)

From S2P Require Import Prelude.

(** ** Strings *)

Definition sv_lower (c : Z) : Z := if (65 <=? c) && (c <=? 90) then c + 32 else c.

(** Leading slashes and spaces are skipped. *)
Fixpoint sv_skip (p : list Z) : list Z :=
  match p with c :: p' => if (c =? 47) || (c =? 32) then sv_skip p' else p | [] => [] end.

Definition all_slash (p : list Z) : bool := forallb (Z.eqb 47) p.

Fixpoint ci_eq (a b : list Z) : bool :=
  match a, b with
  | x :: a', y :: b' => if sv_lower x =? sv_lower y then ci_eq a' b' else false
  | _, _ => all_slash a && all_slash b
  end.
Definition sv_ci_eq (a b : list Z) : bool := ci_eq (sv_skip a) (sv_skip b).

Fixpoint seg_is (p seg : list Z) : bool :=
  match seg with
  | [] => match p with [] => true | c :: _ => (c =? 47) || (c =? 32) end
  | y :: seg' => match p with x :: p' => if sv_lower x =? sv_lower y then seg_is p' seg' else false | [] => false end
  end.
Definition sv_seg_is (p seg : list Z) : bool := match sv_skip p with [] => false | p => seg_is p seg end.

(** Decimal digits, at most [fuel] of them. *)
Fixpoint sv_digits (fuel : nat) (v : Z) : list Z :=
  match fuel with O => [] | S fuel' => if v =? 0 then [] else sv_digits fuel' (v / 10) ++ [48 + v mod 10] end.
(** Appending to a buffer of [cap] bytes that keeps a byte for the NUL. *)
Definition put_cap (cap : Z) (buf s : list Z) : list Z := buf ++ take (Z.to_nat (cap - 1) - length buf) s.
Definition sv_put_u (cap : Z) (buf : list Z) (v : Z) : list Z := put_cap cap buf (if v =? 0 then [48] else sv_digits 10 v).

Definition SYSVOL_MAX_PATH : Z := 32.

Record sysvol_entry_t := mk_sve { sv_path : list Z; sv_off : Z; sv_size : Z }.

Section Sysvol.
(** The generated table and contents. *)
Variable sysvol_table : list sysvol_entry_t.
Variable sysvol_blob : list Z.

Definition sysvol_count : Z := Z.of_nat (length sysvol_table).

(** The line that [sysvol_init] logs. *)
Definition sysvol_init_line (sysvol_bytes : Z) : list Z :=
  let line := bytes "SYSVOL: ready, " in
  let line := sv_put_u 80 line sysvol_count in
  let line := put_cap 80 line (bytes " files, ") in
  let line := sv_put_u 80 line sysvol_bytes in
  put_cap 80 line (bytes " bytes, read-only (/system /bin)").

Definition sysvol_is_path (path : list Z) : bool :=
  match path with [] => false | _ => sv_seg_is path (bytes "bin") || sv_seg_is path (bytes "system") end.

(** The index of the first entry with the path, -1 when there is none. *)
Fixpoint lookup_from (t : list sysvol_entry_t) (path : list Z) (i : Z) : Z :=
  match t with [] => -1 | e :: t' => if sv_ci_eq (sv_path e) path then i else lookup_from t' path (i + 1) end.

Definition dot_elf : list Z := bytes ".elf".

Definition sysvol_lookup (path : list Z) : Z :=
  let i := lookup_from sysvol_table path 0 in
  if 0 <=? i then i
  else
    let n := Z.of_nat (length path) in
    if (n =? 0) || (SYSVOL_MAX_PATH <=? n + 4) then -1
    else if existsb (Z.eqb 46) path then -1
    else lookup_from sysvol_table (path ++ dot_elf) 0.

Definition sv_entry (i : Z) : sysvol_entry_t := aget (mk_sve [] 0 0) sysvol_table i.

Definition sysvol_size (path : list Z) : Z :=
  let i := sysvol_lookup path in if i <? 0 then 0 else sv_size (sv_entry i).

(** [None] for -1. *)
Definition sysvol_read (path : list Z) (max_size : Z) : option (list Z) :=
  let i := sysvol_lookup path in
  if i <? 0 then None
  else
    let sz := sv_size (sv_entry i) in
    let sz := if max_size <? sz then max_size else sz in
    Some (map (fun k => aget 0 sysvol_blob (sv_off (sv_entry i) + k)) (seqZ 0 sz)).

(** ** Listing *)

(** [Some] rest when [d] is a prefix of [p] up to case. *)
Fixpoint strip_prefix (d p : list Z) : option (list Z) :=
  match d, p with
  | [], _ => Some p
  | y :: d', x :: p' => if sv_lower x =? sv_lower y then strip_prefix d' p' else None
  | _ :: _, [] => None
  end.

(** The name of an entry of the directory [d], if it is one. *)
Definition leaf_of (d : list Z) (e : sysvol_entry_t) : option (list Z) :=
  match strip_prefix d (sv_skip (sv_path e)) with
  | Some (47 :: leaf) =>
      if existsb (Z.eqb 47) leaf || (length leaf =? 0)%nat || (256 <=? Z.of_nat (length leaf)) then None else Some leaf
  | _ => None
  end.

Fixpoint list_from (t : list sysvol_entry_t) (d : list Z) (room : nat) : list (list Z * Z * bool) :=
  match t, room with
  | e :: t', S room' =>
      match leaf_of d e with
      | Some leaf => (leaf, sv_size e, false) :: list_from t' d room'
      | None => list_from t' d room
      end
  | _, _ => []
  end.

(** [None] for -1; name, size and whether it is a directory. *)
Definition sysvol_list (dir : list Z) (max_entries : Z) : option (list (list Z * Z * bool)) :=
  if max_entries <=? 0 then None
  else
    match sv_skip dir with
    | [] => Some (take (Z.to_nat max_entries) [(bytes "bin", 0, true); (bytes "system", 0, true)])
    | d => Some (list_from sysvol_table d (Z.to_nat max_entries))
    end.

(** [None] for -1; the path otherwise. *)
Definition sysvol_resolve_bin (name : list Z) (outsz : Z) : option (list Z) :=
  if outsz <? 8 then None
  else if sysvol_is_path name then
    if negb (sv_seg_is name (bytes "bin")) then None
    else if sysvol_lookup name <? 0 then None
    else if outsz <? Z.of_nat (length name) + 1 then None
    else Some name
  else
    let n := Z.of_nat (length name) in
    if (n =? 0) || (outsz <? 5 + n + 1) then None
    else
      let out := bytes "/bin/" ++ name in
      if sysvol_lookup out <? 0 then None else Some out.

(** ** Paths up to case and outer slashes *)

Lemma sv_skip_app p q : sv_skip p <> [] -> sv_skip (p ++ q) = sv_skip p ++ q.
Proof. induction p as [| c p IH]; [done |]. cbn [sv_skip app]. destruct (_ || _); [exact IH | done]. Qed.
Lemma seg_is_app seg : forall p q, seg_is p seg = true -> seg_is (p ++ 47 :: q) seg = true.
Proof.
  induction seg as [| y seg IH]; intros p q H; cbn [seg_is] in *; [by destruct p |].
  destruct p as [| x p]; [done |]. cbn [app seg_is] in *. destruct (sv_lower x =? sv_lower y); [by apply IH | done].
Qed.
Lemma sv_seg_is_app p q seg : sv_seg_is p seg = true -> sv_seg_is (p ++ 47 :: q) seg = true.
Proof.
  unfold sv_seg_is. destruct (sv_skip p) as [| c l] eqn:E; [done |]. intros H. rewrite sv_skip_app by by rewrite E.
  rewrite E. by apply (seg_is_app seg (c :: l)).
Qed.
Lemma lower_idemp c : sv_lower (sv_lower c) = sv_lower c.
Proof. unfold sv_lower at 2 3. destruct (Z.leb_spec 65 c), (Z.leb_spec c 90); cbn [andb]; unfold sv_lower; repeat bcase; cbn [andb]; lia. Qed.
Lemma lower_sep c : (sv_lower c =? 47) || (sv_lower c =? 32) = (c =? 47) || (c =? 32).
Proof. unfold sv_lower. destruct (Z.leb_spec 65 c), (Z.leb_spec c 90); cbn [andb]; repeat bcase; cbn [orb]; lia || done. Qed.
Lemma sv_skip_lower p : sv_skip (map sv_lower p) = map sv_lower (sv_skip p).
Proof. induction p as [| c p IH]; [done |]. cbn [sv_skip map]. rewrite lower_sep. destruct (_ || _); [exact IH | done]. Qed.
Lemma seg_is_lower seg : forall p, seg_is (map sv_lower p) seg = seg_is p seg.
Proof.
  induction seg as [| y seg IH]; intros [| x p]; cbn [seg_is map]; try done; [apply lower_sep |]. rewrite lower_idemp. destruct (_ =? _); [apply IH | done].
Qed.
Lemma sv_seg_is_lower p seg : sv_seg_is (map sv_lower p) seg = sv_seg_is p seg.
Proof. unfold sv_seg_is. rewrite sv_skip_lower. destruct (sv_skip p) as [| c l]; [done |]. apply (seg_is_lower seg (c :: l)). Qed.
Lemma seg_is_root p seg : sv_seg_is (47 :: p) seg = sv_seg_is p seg.
Proof. done. Qed.

Lemma sv_lower_47 c : (47 =? sv_lower c) = (47 =? c).
Proof. unfold sv_lower. destruct (Z.leb_spec 65 c), (Z.leb_spec c 90); cbn [andb]; repeat bcase; lia || done. Qed.

Fixpoint trim_end (p : list Z) : list Z :=
  match p with [] => [] | c :: p' => if all_slash p then [] else sv_lower c :: trim_end p' end.
(** The name that a path stands for. *)
Definition canon (p : list Z) : list Z := trim_end (sv_skip p).

Lemma lower_slash c : sv_lower c = 47 <-> c = 47.
Proof. unfold sv_lower. destruct (Z.leb_spec 65 c), (Z.leb_spec c 90); cbn [andb]; lia. Qed.

Lemma trim_slash p : all_slash p = true -> trim_end p = [].
Proof. destruct p; [done |]. cbn [trim_end]. by intros ->. Qed.
Lemma trim_nil p : trim_end p = [] <-> all_slash p = true.
Proof. split; [| apply trim_slash]. destruct p; [done |]. cbn [trim_end]. by destruct (all_slash (z :: p)). Qed.

Lemma all_slash_cons c p : all_slash (c :: p) = (47 =? c) && all_slash p.
Proof. done. Qed.

Lemma ci_eq_trim a : forall b, ci_eq a b = true <-> trim_end a = trim_end b.
Proof.
  induction a as [| x a IH]; intros [| y b]; cbn [ci_eq].
  - done.
  - change (all_slash []) with true. rewrite andb_true_l, <- trim_nil. change (trim_end []) with (@nil Z). split; congruence.
  - change (all_slash []) with true. rewrite andb_true_r, <- trim_nil. done.
  - cbn [trim_end]. rewrite !all_slash_cons. destruct (Z.eqb_spec 47 x) as [<- |], (Z.eqb_spec 47 y) as [<- |]; cbn [andb].
    + rewrite Z.eqb_refl, IH. change (sv_lower 47) with 47. destruct (all_slash a) eqn:Ea, (all_slash b) eqn:Eb.
      * by rewrite !trim_slash by done.
      * rewrite (trim_slash a) by done. split; [intros E; symmetry in E; apply trim_nil in E; congruence | done].
      * rewrite (trim_slash b) by done. split; [intros E; apply trim_nil in E; congruence | done].
      * split; [congruence | by intros [= ->]].
    + assert (E : (sv_lower 47 =? sv_lower y) = false) by (apply Z.eqb_neq; change (sv_lower 47) with 47; intros E; symmetry in E; apply (proj1 (lower_slash _)) in E; lia). rewrite E.
      split; [done |]. destruct (all_slash a); [done |]. change (sv_lower 47) with 47. intros [= E' _]. symmetry in E'. apply (proj1 (lower_slash _)) in E'. lia.
    + assert (E : (sv_lower x =? sv_lower 47) = false) by (apply Z.eqb_neq; change (sv_lower 47) with 47; intros E; apply (proj1 (lower_slash _)) in E; lia). rewrite E.
      split; [done |]. destruct (all_slash b); [done |]. change (sv_lower 47) with 47. intros [= E' _]. apply (proj1 (lower_slash _)) in E'. lia.
    + destruct (Z.eqb_spec (sv_lower x) (sv_lower y)) as [E |]; [rewrite IH; split; [by intros -> ; rewrite E | by intros [= _ ->]] | split; [done | by intros [= ? _]]].
Qed.

Lemma sv_ci_eq_canon a b : sv_ci_eq a b = true <-> canon a = canon b.
Proof. apply ci_eq_trim. Qed.

(** ** Lookup *)

(** The entry [i] is the first with the path [p]. *)
Definition first_named (p : list Z) (i : nat) : Prop :=
  (exists e, sysvol_table !! i = Some e /\ canon (sv_path e) = canon p) /\
  forall j e, (j < i)%nat -> sysvol_table !! j = Some e -> canon (sv_path e) <> canon p.
Definition unnamed (p : list Z) : Prop := forall e, e ∈ sysvol_table -> canon (sv_path e) <> canon p.

(** A path to which [.elf] is appended. *)
Definition extended (p : list Z) : Prop := 0 < Z.of_nat (length p) < SYSVOL_MAX_PATH - 4 /\ 46 ∉ p.

Lemma lookup_from_ok p t : forall k,
  match list_find (fun e => sv_ci_eq (sv_path e) p = true) t with
  | Some (i, _) => lookup_from t p k = k + Z.of_nat i
  | None => lookup_from t p k = -1
  end.
Proof.
  induction t as [| e t IH]; intros k; [done |]. cbn [list_find lookup_from]. case_decide as E; [rewrite E; lia |].
  destruct (sv_ci_eq (sv_path e) p); [done |]. specialize (IH (k + 1)). destruct (list_find _ t) as [[i x] |]; cbn; lia.
Qed.
Lemma lookup_from_spec p : (unnamed p /\ lookup_from sysvol_table p 0 = -1) \/ exists i, first_named p i /\ lookup_from sysvol_table p 0 = Z.of_nat i.
Proof.
  pose proof (lookup_from_ok p sysvol_table 0) as H. destruct (list_find _ _) as [[i e] |] eqn:E.
  - right. exists i. split; [| done]. apply list_find_Some in E as (E1 & E2 & E3). split; [exists e; split; [done | by apply sv_ci_eq_canon] |].
    intros j e' Hj He Hc. apply (E3 j e' He Hj). by apply sv_ci_eq_canon.
  - left. split; [| done]. apply list_find_None in E. intros e He Hc. rewrite Forall_forall in E. apply (E e He). by apply sv_ci_eq_canon.
Qed.

(** What a path names: an entry with this path, else one with the extension. *)
Definition names (p : list Z) (i : nat) : Prop :=
  first_named p i \/ unnamed p /\ extended p /\ first_named (p ++ dot_elf) i.

Lemma sysvol_lookup_spec p :
  (exists i, names p i /\ sysvol_lookup p = Z.of_nat i) \/
  (unnamed p /\ (extended p -> unnamed (p ++ dot_elf)) /\ sysvol_lookup p = -1).
Proof.
  unfold sysvol_lookup. destruct (lookup_from_spec p) as [[U ->] | (i & F & ->)].
  - cbn [Z.leb]. change (0 <=? -1) with false. cbv iota.
    destruct (_ || _) eqn:El.
    { right. split_and!; [done | | done]. intros [Hn _]. unfold SYSVOL_MAX_PATH in *. apply orb_true_iff in El as [El | El]; btrue; apply Z.eqb_eq in El || apply Z.leb_le in El; lia. }
    btrue. unfold SYSVOL_MAX_PATH in *. destruct (existsb _ p) eqn:Ex.
    { right. split_and!; [done | | done]. intros [_ Hd]. apply existsb_exists in Ex as (x & Hx & <-%Z.eqb_eq). destruct Hd. by apply list_elem_of_In. }
    assert (He : extended p).
    { split; [unfold SYSVOL_MAX_PATH; lia |]. intros Hx. apply list_elem_of_In in Hx. assert (existsb (Z.eqb 46) p = true) by (apply existsb_exists; eauto). congruence. }
    destruct (lookup_from_spec (p ++ dot_elf)) as [[U2 ->] | (i & F & ->)]; [right; auto | left; exists i; split; [right; auto | done]].
  - rewrite (proj2 (Z.leb_le 0 _)) by lia. left. exists i. split; [by left | done].
Qed.
Lemma first_named_unique p i j : first_named p i -> first_named p j -> i = j.
Proof.
  intros [(e & E1 & E2) F1] [(e' & E1' & E2') F2]. destruct (Nat.lt_trichotomy i j) as [H | [H | H]]; [| done |].
  - by destruct (F2 i e H E1).
  - by destruct (F1 j e' H E1').
Qed.
Lemma first_unnamed p i : first_named p i -> unnamed p -> False.
Proof. intros [(e & E1 & E2) _] U. apply (U e); [by eapply list_elem_of_lookup_2 | done]. Qed.
Lemma names_unique p i j : names p i -> names p j -> i = j.
Proof.
  intros [F | (U & _ & F)] [F' | (U' & _ & F')]; [by eapply first_named_unique | by destruct (first_unnamed p i) | by destruct (first_unnamed p j) | by eapply first_named_unique].
Qed.

(** A path of the system volume names the first entry of the table with the
    same path up to case and outer slashes, or, when there is none and the path is
    short and has no dot, the first one with [.elf] appended; [sysvol_lookup] returns
    its index and -1 exactly when there is no such entry; [sysvol_resolve_bin]
    succeeds exactly on names under [/bin] that name an entry and fit, and returns
    the path that names it. *)
Theorem sysvol_lookup_exact (p : list Z) :
  (forall i, sysvol_lookup p = Z.of_nat i <-> names p i) /\
  (sysvol_lookup p = -1 <-> forall i, ~ names p i) /\
  forall outsz out, sysvol_resolve_bin p outsz = Some out <->
    8 <= outsz /\ Z.of_nat (length out) < outsz /\ (exists i, names out i) /\
    (if sysvol_is_path p then sv_seg_is p (bytes "bin") = true /\ out = p else p <> [] /\ out = bytes "/bin/" ++ p).
Proof.
  assert (A : forall q i, sysvol_lookup q = Z.of_nat i <-> names q i).
  { intros q i. destruct (sysvol_lookup_spec q) as [(j & N & ->) | (U1 & U2 & ->)].
    - split; [intros E; by replace i with j by lia | intros N'; f_equal; by eapply names_unique].
    - split; [lia | intros [F | (_ & X & F)]; [by destruct (first_unnamed q i) | by destruct (first_unnamed (q ++ dot_elf) i F (U2 X))]]. }
  assert (B : forall q, sysvol_lookup q < 0 <-> ~ exists i, names q i).
  { intros q. destruct (sysvol_lookup_spec q) as [(j & N & E) | (_ & _ & E)].
    - split; [lia | intros X; destruct X; eauto].
    - split; [intros _ [i N]; apply A in N; lia | lia]. }
  split_and!; [apply A | |].
  - destruct (sysvol_lookup_spec p) as [(j & N & E) | (_ & _ & E)]; rewrite E.
    + split; [lia | intros X; by destruct (X j)].
    + split; [| done]. intros _ i N. apply A in N. lia.
  - intros outsz out. assert (D : forall q, (sysvol_lookup q <? 0) = false <-> exists i, names q i).
    { intros q. rewrite Z.ltb_ge. destruct (sysvol_lookup_spec q) as [(j & N & E) | (_ & _ & E)]; rewrite E; [split; [eauto | lia] |].
      split; [lia |]. intros [i N]. apply A in N. lia. }
    unfold sysvol_resolve_bin. destruct (Z.ltb_spec outsz 8); [split; [done | lia] |]. destruct (sysvol_is_path p).
    + destruct (sv_seg_is p _); cbn [negb]; [| split; [done | intros (_ & _ & _ & ? & _); done]].
      destruct (sysvol_lookup p <? 0) eqn:El; [split; [done |]; intros (_ & _ & Hn & _ & ->); apply D in Hn; congruence |].
      destruct (Z.ltb_spec outsz (Z.of_nat (length p) + 1)); [split; [done |]; intros (_ & ? & _ & _ & ->); lia |].
      apply D in El. split; [intros [= <-]; split_and!; auto; lia | by intros (_ & _ & _ & _ & ->)].
    + assert (Lb : Z.of_nat (length (bytes "/bin/" ++ p)) = 5 + Z.of_nat (length p)) by (rewrite length_app; change (length (bytes "/bin/")) with 5%nat; lia).
      assert (Ln : p <> [] <-> Z.of_nat (length p) <> 0) by (destruct p; cbn [length]; split; intros; done || lia).
      destruct (Z.eqb_spec (Z.of_nat (length p)) 0) as [E0 |]; cbn [orb]; [split; [done |]; intros (_ & _ & _ & Hn & _); by apply Ln in Hn |].
      destruct (Z.ltb_spec outsz (5 + Z.of_nat (length p) + 1)); [split; [done |]; intros (_ & ? & _ & _ & ->); lia |].
      destruct (sysvol_lookup (bytes "/bin/" ++ p) <? 0) eqn:El; [split; [done |]; intros (_ & _ & Hn & _ & ->); apply D in Hn; congruence |].
      apply D in El. split; [intros E; assert (E' : out = bytes "/bin/" ++ p) by congruence; subst out; split_and!; auto; [lia | by apply Ln] | by intros (_ & _ & _ & _ & ->)].
Qed.

(** ** Listing *)

Lemma all_slash_lower p : all_slash (map sv_lower p) = all_slash p.
Proof. unfold all_slash. induction p as [| c p IH]; [done |]. cbn [map forallb]. by rewrite IH, sv_lower_47. Qed.
Lemma trim_lower p : trim_end (map sv_lower p) = trim_end p.
Proof.
  induction p as [| c p IH]; [done |]. cbn [map trim_end]. change (sv_lower c :: map sv_lower p) with (map sv_lower (c :: p)).
  rewrite all_slash_lower, IH, lower_idemp. done.
Qed.
Lemma strip_prefix_ok d : forall p r, strip_prefix d p = Some r -> map sv_lower p = map sv_lower (d ++ r).
Proof.
  induction d as [| y d IH]; intros p r; cbn [strip_prefix]; [by intros [= ->] |].
  destruct p as [| x p]; [done |]. destruct (Z.eqb_spec (sv_lower x) (sv_lower y)) as [E |]; [| done]. intros H. cbn [app map]. rewrite E. f_equal. by apply IH.
Qed.
Lemma leaf_of_ok d e leaf : leaf_of d e = Some leaf -> trim_end (sv_skip (sv_path e)) = trim_end (d ++ 47 :: leaf).
Proof.
  unfold leaf_of. destruct (strip_prefix d _) as [r |] eqn:E; [| done]. intros H. apply strip_prefix_ok in E.
  assert (Hr : r = 47 :: leaf).
  { destruct r as [| c r]; [done |]. destruct (Z.eq_dec c 47) as [-> | Hc]; [by destruct (_ || _); simplify_eq |]. destruct c as [| c | c]; [done | | done]. exfalso. do 6 (destruct c as [c | c |]; try done). }
  subst r. by rewrite <- trim_lower, E, trim_lower.
Qed.
Lemma list_from_in d t : forall room x, x ∈ list_from t d room -> exists e leaf, e ∈ t /\ leaf_of d e = Some leaf /\ x = (leaf, sv_size e, false).
Proof.
  induction t as [| e t IH]; intros [| room] x; cbn [list_from]; try (intros H; by apply not_elem_of_nil in H).
  destruct (leaf_of d e) as [leaf |] eqn:El.
  - intros [-> | H]%elem_of_cons; [exists e, leaf; split_and!; [left | done | done] |]. apply IH in H as (e' & l' & H1 & H2). exists e', l'. split; [by right | done].
  - intros H. apply IH in H as (e' & l' & H1 & H2). exists e', l'. split; [by right | done].
Qed.
Lemma distinct_first p i e : NoDup (map (fun e => canon (sv_path e)) sysvol_table) -> sysvol_table !! i = Some e -> canon (sv_path e) = canon p -> first_named p i.
Proof.
  intros Hd He Hc. split; [eauto |]. intros j e' Hj He' Hc'. assert (j = i); [| lia].
  eapply NoDup_lookup; [exact Hd | rewrite list_lookup_fmap, He'; cbn; by rewrite Hc' | rewrite list_lookup_fmap, He; cbn; by rewrite Hc].
Qed.

(** Whatever a listing of a directory shows is found under that directory, with the
    size that is shown. *)
Theorem sysvol_list_found (dir leaf : list Z) (sz max : Z) (isd : bool) (l : list (list Z * Z * bool))
  (Hd : NoDup (map (fun e => canon (sv_path e)) sysvol_table)) (Hs : sv_skip dir <> [])
  (Hl : sysvol_list dir max = Some l) (Hx : (leaf, sz, isd) ∈ l) :
  isd = false /\ 0 <= sysvol_lookup (dir ++ 47 :: leaf) /\ sysvol_size (dir ++ 47 :: leaf) = sz.
Proof.
  unfold sysvol_list in Hl. destruct (_ <=? 0); [done |]. destruct (sv_skip dir) as [| c d] eqn:Es; [done |]. injection Hl as <-.
  apply list_from_in in Hx as (e & leaf' & He & Hle & [= -> -> ->]). apply leaf_of_ok in Hle. apply list_elem_of_lookup_1 in He as [i Hi].
  assert (F : names (dir ++ 47 :: leaf') i).
  { left. eapply distinct_first; [done.. |]. unfold canon. rewrite sv_skip_app by by rewrite Es. by rewrite Es. }
  destruct (sysvol_lookup_spec (dir ++ 47 :: leaf')) as [(j & N & E) | (U & X & _)].
  - rewrite (names_unique _ _ _ N F) in E. split_and!; [done | lia |]. unfold sysvol_size. rewrite E, (proj2 (Z.ltb_ge _ _)) by lia.
    unfold sv_entry. by rewrite (aget_lookup _ _ _ e) by by rewrite Nat2Z.id.
  - exfalso. destruct F as [F | (_ & X' & F)]; by eapply first_unnamed; [| auto].
Qed.
End Sysvol.

Lemma sysvol_list_found_witness :
  let t := [mk_sve (bytes "/bin/hello.elf") 0 3; mk_sve (bytes "/system/version") 3 2; mk_sve (bytes "/bin/LS.elf") 5 7] in
  sysvol_list t (bytes "/BIN") 64 = Some [(bytes "hello.elf", 3, false); (bytes "LS.elf", 7, false)] /\ sysvol_size t (bytes "/BIN/LS.elf") = 7.
Proof.
  cbv zeta. set (t := [_; _; _]). assert (E : sysvol_list t (bytes "/BIN") 64 = Some [(bytes "hello.elf", 3, false); (bytes "LS.elf", 7, false)]) by (vm_compute; reflexivity).
  split; [exact E |]. assert (Hd : NoDup (map (fun e => canon (sv_path e)) t)) by (refine (bool_decide_unpack _ _); vm_compute; exact I).
  apply (sysvol_list_found t (bytes "/BIN") (bytes "LS.elf") 7 64 false _ Hd ltac:(done) E). apply list_elem_of_lookup. by exists 1%nat.
Defined.
