(* ===== verification/Fs.v ===== *)
(** * Fs: the file system layer ([kernel/fs.c])

    Finding and mounting a volume, formatting, and the operations on files, which
    go to the system volume or to the driver of the mounted volume.  The drivers
    are the classes [DriverOps] and [Drivers]. *)

From S2P Require Import Prelude Sysvol.

Definition FS_NONE : Z := 0.
Definition FS_EXFAT : Z := 1.
Definition FS_FAT12 : Z := 12.
Definition FS_FAT16 : Z := 16.
Definition FS_FAT32 : Z := 32.
Definition FS_EXT4 : Z := 4.
Definition FS_NTFS : Z := 5.
Definition FS_F2FS : Z := 6.
Definition FS_EROFS : Z := 7.
Definition FS_REFS : Z := 8.
Definition USBMSC_DRIVE_BASE : Z := 12.
Definition BLK_MAX_DRIVE : Z := 20.
Definition FS_PART_LBA_LIMIT : Z := 0x08000000.
Definition FS_WIPE_SECTORS : Z := 16.
Definition FS_PART_LBA_DEFAULT : Z := 1.
Definition FS_BLANK_SCAN : Z := 16.

(** ** The drivers *)

Inductive vol := VExfat | VFat | VExt4 | VNtfs | VF2fs | VErofs | VRefs.
#[global] Instance vol_eq_dec : EqDecision vol.
Proof. solve_decision. Defined.

(** Start, sector size, sectors per cluster, clusters and sectors of a volume. *)
Record vol_info_t := mk_vi { vi_start : Z; vi_bps : Z; vi_spc : Z; vi_clusters : Z; vi_sectors : Z }.
Definition dirents : Type := list (list Z * Z * bool).

(** What the layer calls: the block layer ([kernel/ata.h]) and for each driver the
    functions of its header; [None] or a negative number is a failure.  [data w d]
    are the sectors of drive [d], [mounted w v] is the drive on which the driver
    [v] operates. *)
Class DriverOps (W : Type) := {
  ata_drive_present : W -> Z -> bool;
  ata_read_sector : W -> Z -> Z -> W * option (list Z);
  ata_write_sector : W -> Z -> Z -> list Z -> W * bool;
  exfat_set_drive : W -> Z -> W;
  exfat_reset_cwd : W -> W;
  exfat_init : W -> W * Z;
  v_mount : vol -> W -> Z -> Z -> W * Z;
  v_format : vol -> W -> Z -> Z -> Z -> W * Z;
  v_info : vol -> W -> vol_info_t;
  v_read_file : vol -> W -> list Z -> Z -> W * option (list Z);
  v_get_file_size : vol -> W -> list Z -> W * Z;
  v_create_file : vol -> W -> list Z -> list Z -> W * Z;
  v_delete_file : vol -> W -> list Z -> W * Z;
  v_list_root : vol -> W -> W * Z;
  v_read_cwd : vol -> W -> Z -> W * option dirents;
  v_read_dir : vol -> W -> list Z -> Z -> W * option dirents;
  v_change_dir : vol -> W -> list Z -> W * Z;
  v_is_dir : vol -> W -> list Z -> W * Z;
  v_mkdir : vol -> W -> list Z -> W * Z;
  v_rmdir : vol -> W -> list Z -> W * Z;
  v_cwd_path : vol -> W -> list Z;
  v_used_clusters : vol -> W -> W * Z;
  v_get_file_clusters : vol -> W -> list Z -> W * Z;
  data : W -> Z -> Z -> list Z;
  mounted : W -> vol -> Z;
}.

Definition fat_type_ok (t : Z) : bool := (t =? 12) || (t =? 16) || (t =? 32).

(** The results of a mount that mean success: the type for FAT, 0 otherwise. *)
Definition mount_ok (v : vol) (r : Z) : bool := if bool_decide (v = VFat) then fat_type_ok r else r =? 0.

Section Observe.
Context {W : Type} `{DO : DriverOps W}.

(** Nothing is written and no driver changes its drive. *)
Definition keeps (w w' : W) : Prop := (forall d l, data w' d l = data w d l) /\ forall v, mounted w' v = mounted w v.
(** Only the drive [d] may be written. *)
Definition writes (d : Z) (w w' : W) : Prop := (forall e l, e <> d -> data w' e l = data w e l) /\ forall v, mounted w' v = mounted w v.
(** Only the drive [d] may be written, and the driver [v] may now operate on it. *)
Definition turns (v : vol) (d : Z) (w w' : W) : Prop :=
  (forall e l, e <> d -> data w' e l = data w e l) /\
  (forall u, u <> v -> mounted w' u = mounted w u) /\ (mounted w' v = mounted w v \/ mounted w' v = d).
End Observe.

(** A driver writes only to the drive it operates on, and that drive changes only
    when a volume is mounted or formatted; a driver that reports success then
    operates on the drive it was called with. *)
Class Drivers (W : Type) `{DriverOps W} : Prop := {
  d_read_sector w d l : keeps w (fst (ata_read_sector w d l));
  d_write_sector w d l b : writes d w (fst (ata_write_sector w d l b));
  d_set_drive w d : (forall e l, data (exfat_set_drive w d) e l = data w e l) /\
    forall v, mounted (exfat_set_drive w d) v = if decide (v = VExfat) then d else mounted w v;
  d_reset_cwd w : keeps w (exfat_reset_cwd w);
  d_init w : writes (mounted w VExfat) w (fst (exfat_init w));
  d_mount v w d p : v <> VExfat -> turns v d w (fst (v_mount v w d p));
  d_mounted v w d p : v <> VExfat -> mount_ok v (snd (v_mount v w d p)) = true -> mounted (fst (v_mount v w d p)) v = d;
  d_exfat_format w d t p : writes (mounted w VExfat) w (fst (v_format VExfat w d t p));
  d_format v w d t p : v <> VExfat -> turns v d w (fst (v_format v w d t p));
  d_formatted v w d t p : v <> VExfat -> snd (v_format v w d t p) = (if decide (v = VFat) then t else 0) -> mounted (fst (v_format v w d t p)) v = d;
  d_read_file v w n m : writes (mounted w v) w (fst (v_read_file v w n m));
  d_get_file_size v w n : writes (mounted w v) w (fst (v_get_file_size v w n));
  d_create_file v w n b : writes (mounted w v) w (fst (v_create_file v w n b));
  d_delete_file v w n : writes (mounted w v) w (fst (v_delete_file v w n));
  d_list_root v w : writes (mounted w v) w (fst (v_list_root v w));
  d_read_cwd v w m : writes (mounted w v) w (fst (v_read_cwd v w m));
  d_read_dir v w n m : writes (mounted w v) w (fst (v_read_dir v w n m));
  d_change_dir v w n : writes (mounted w v) w (fst (v_change_dir v w n));
  d_is_dir v w n : writes (mounted w v) w (fst (v_is_dir v w n));
  d_mkdir v w n : writes (mounted w v) w (fst (v_mkdir v w n));
  d_rmdir v w n : writes (mounted w v) w (fst (v_rmdir v w n));
  d_used_clusters v w : writes (mounted w v) w (fst (v_used_clusters v w));
  d_get_file_clusters v w n : writes (mounted w v) w (fst (v_get_file_clusters v w n));
}.

(** ** State *)

Record fs_info_t := mk_info { f_type : Z; f_drive : Z; f_vol : vol_info_t }.

Record fs_state {W : Type} := mk_fs {
  world : W;
  fs_type_cur : Z;
  fs_drive_cur : Z;
  fs_preferred_drive : Z;
  fs_volume : fs_info_t;
  ro_cwd : list Z;
  g_sysvol_cwd : list Z;
}.
Arguments fs_state : clear implicits.

(** ** Paths *)

(** The characters up to the next slash, and the rest. *)
Fixpoint span_comp (p : list Z) : list Z * list Z :=
  match p with c :: p' => if c =? 47 then ([], p) else let '(a, r) := span_comp p' in (c :: a, r) | [] => ([], []) end.

Fixpoint skip_slash (p : list Z) : list Z :=
  match p with c :: p' => if c =? 47 then skip_slash p' else p | [] => [] end.

Definition dot : list Z := [46].
Definition dotdot : list Z := [46; 46].

(** The loop over the components; [segs] are those that remain, at most 64. *)
Fixpoint abs_segs (fuel : nat) (raw : list Z) (segs : list (list Z)) : option (list (list Z)) :=
  match fuel with
  | O => None
  | S fuel' =>
      match raw with
      | [] => Some segs
      | _ =>
          let '(l, raw) := span_comp (skip_slash raw) in
          if bool_decide (l = []) then abs_segs fuel' raw segs
          else if bool_decide (l = dot) then abs_segs fuel' raw segs
          else if bool_decide (l = dotdot) then abs_segs fuel' raw (take (length segs - 1) segs)
          else if (64 <=? length segs)%nat then None
          else abs_segs fuel' raw (segs ++ [l])
      end
  end.

Fixpoint abs_join (segs : list (list Z)) (out : list Z) (outsz : Z) : option (list Z) :=
  match segs with
  | [] => Some out
  | l :: segs' => if outsz <=? Z.of_nat (length out) + Z.of_nat (length l) + 1 then None else abs_join segs' (out ++ 47 :: l) outsz
  end.

(** The path before it is normalised, at most 511 characters of it. *)
Definition abs_raw (cwd name : list Z) : list Z :=
  match name with
  | 47 :: _ => take 511 name
  | _ =>
      let raw := take 511 cwd in
      let raw := if negb (bool_decide (raw = [])) && negb (bool_decide (last raw = Some 47)) && (length raw <? 511)%nat then raw ++ [47] else raw in
      take 511 (raw ++ name)
  end.

Definition fs_ro_abs (cwd name : list Z) (outsz : Z) : option (list Z) :=
  let raw := abs_raw cwd name in
  segs ← abs_segs (S (length raw)) raw [];
  out ← abs_join segs [] outsz;
  match out with [] => if outsz <? 2 then None else Some [47] | _ => Some out end.

Definition is_dots (n : list Z) : bool := bool_decide (n = dot) || bool_decide (n = dotdot).

(** [g_sysvol_cwd] holds seven characters. *)
Fixpoint sysvol_cwd_from (fuel : nat) (p cwd : list Z) : list Z * list Z :=
  match fuel, p with
  | S fuel', c :: p' => if c =? 47 then (cwd, p) else sysvol_cwd_from fuel' p' (cwd ++ [sv_lower c])
  | _, _ => (cwd, p)
  end.

(** The new value and the result. *)
Definition fs_set_sysvol_cwd (dir : list Z) : list Z * Z :=
  match skip_slash dir with
  | [] => ([], 0)
  | p =>
      let '(cwd, rest) := sysvol_cwd_from 6 p [47] in
      match rest with
      | c :: _ => if c =? 47 then (cwd, 0) else ([], -1)
      | [] => (cwd, 0)
      end
  end.

Definition fs_resolve_path (cwd name : list Z) (outsz : Z) : option (list Z) :=
  if outsz <? 2 then None
  else if bool_decide (cwd = []) || bool_decide (name = []) || bool_decide (List.hd 0 name = 47) || is_dots name then
    if outsz <=? Z.of_nat (length name) then None else Some name
  else
    if outsz <? Z.of_nat (length cwd) + 1 + Z.of_nat (length name) + 1 then None else Some (cwd ++ 47 :: name).

Section Fs.
Context {W : Type} `{DO : DriverOps W}.
(** The generated tables of the system volume. *)
Variable sysvol_table : list sysvol_entry_t.
Variable sysvol_blob : list Z.

Notation fs_state := (fs_state W).
Notation sysvol_is_path := Sysvol.sysvol_is_path.
Implicit Types s : fs_state.

Definition with_world s (w : W) : fs_state :=
  mk_fs _ w (fs_type_cur s) (fs_drive_cur s) (fs_preferred_drive s) (fs_volume s) (ro_cwd s) (g_sysvol_cwd s).
Definition with_mount s (t d : Z) : fs_state := mk_fs _ (world s) t d (fs_preferred_drive s) (fs_volume s) (ro_cwd s) (g_sysvol_cwd s).
Definition with_info s (i : fs_info_t) : fs_state := mk_fs _ (world s) (fs_type_cur s) (fs_drive_cur s) (fs_preferred_drive s) i (ro_cwd s) (g_sysvol_cwd s).
Definition with_preferred s (d : Z) : fs_state := mk_fs _ (world s) (fs_type_cur s) (fs_drive_cur s) d (fs_volume s) (ro_cwd s) (g_sysvol_cwd s).
Definition with_ro_cwd s (p : list Z) : fs_state := mk_fs _ (world s) (fs_type_cur s) (fs_drive_cur s) (fs_preferred_drive s) (fs_volume s) p (g_sysvol_cwd s).
Definition with_sysvol_cwd s (p : list Z) : fs_state := mk_fs _ (world s) (fs_type_cur s) (fs_drive_cur s) (fs_preferred_drive s) (fs_volume s) (ro_cwd s) p.

(** An operation of a driver as one of the layer. *)
Definition lift {A} s (r : W * A) : fs_state * A := (with_world s (fst r), snd r).

(** The state after the kernel has started. *)
Definition fs_boot (w : W) : fs_state := mk_fs _ w FS_NONE 0 1 (mk_info 0 0 (mk_vi 0 0 0 0 0)) [47] [].

(** ** Mounting *)

(** The driver of a type, the FAT driver for any other. *)
Definition vol_of (t : Z) : vol :=
  if t =? FS_EXFAT then VExfat else if t =? FS_EXT4 then VExt4 else if t =? FS_NTFS then VNtfs else if t =? FS_F2FS then VF2fs
  else if t =? FS_EROFS then VErofs else if t =? FS_REFS then VRefs else VFat.

Definition fs_fill_info s : fs_state :=
  with_info s (mk_info (u8 (fs_type_cur s)) (fs_drive_cur s) (v_info (vol_of (fs_type_cur s)) (world s))).

Definition fs_rd32 (b : list Z) (i : Z) : Z :=
  aget 0 b i |! Z.shiftl (aget 0 b (i + 1)) 8 |! Z.shiftl (aget 0 b (i + 2)) 16 |! Z.shiftl (aget 0 b (i + 3)) 24.

Definition has_mbr (sec : list Z) : bool := (aget 0 sec 510 =? 0x55) && (aget 0 sec 511 =? 0xAA).
Definition part_used (sec : list Z) (i : Z) : bool := negb (aget 0 sec (446 + i * 16 + 4) =? 0).
Definition part_start (sec : list Z) (i : Z) : Z := fs_rd32 sec (446 + i * 16 + 8).
Definition part_len (sec : list Z) (i : Z) : Z := fs_rd32 sec (446 + i * 16 + 12).
(** An entry that the loops skip. *)
Definition part_bad (sec : list Z) (i : Z) : bool :=
  (part_start sec i =? 0) || (FS_PART_LBA_LIMIT <=? part_start sec i) || (part_len sec i =? 0).

(** The loop over the four entries: the result of the first probe that succeeds,
    and whether the table has an entry at all. *)
Fixpoint scan_parts {A} (n : nat) (probe : W -> Z -> W * option A) (w : W) (sec : list Z) (i : Z) (has_part : bool) : W * option A * bool :=
  match n with
  | O => (w, None, has_part)
  | S n' =>
      if negb (part_used sec i) then scan_parts n' probe w sec (i + 1) has_part
      else if part_bad sec i then scan_parts n' probe w sec (i + 1) true
      else
        let '(w, r) := probe w (part_start sec i) in
        match r with
        | Some a => (w, Some a, true)
        | None => scan_parts n' probe w sec (i + 1) true
        end
  end.

(** The partitions of the table in sector 0, or the whole disk. *)
Definition scan_drive {A} (probe : W -> Z -> W * option A) (w : W) (drive : Z) : W * option A :=
  let '(w, r) := ata_read_sector w drive 0 in
  match r with
  | None => (w, None)
  | Some sec =>
      let '(w, r, has_part) := if has_mbr sec then scan_parts 4 probe w sec 0 false else (w, None, false) in
      match r with
      | Some a => (w, Some a)
      | None => if has_part : bool then (w, None) else probe w 0
      end
  end.

Definition fat_probe_at (drive : Z) (w : W) (start : Z) : W * option Z :=
  let '(w, t) := v_mount VFat w drive start in (w, if fat_type_ok t then Some t else None).
(** 0 when there is no volume. *)
Definition fat_try_mount (w : W) (drive : Z) : W * Z :=
  let '(w, r) := scan_drive (fat_probe_at drive) w drive in (w, default 0 r).

Definition ro_probe_at (v : vol) (drive : Z) (w : W) (start : Z) : W * option unit :=
  let '(w, r) := v_mount v w drive start in (w, if r =? 0 then Some tt else None).
Definition fs_scan_ro (w : W) (drive : Z) (v : vol) : W * bool :=
  let '(w, r) := scan_drive (ro_probe_at v drive) w drive in (w, if r then true else false).

Definition mounted_as s (t d : Z) : fs_state := fs_fill_info (with_mount s t d).

Fixpoint try_ro (vs : list (vol * Z)) s (drive : Z) : fs_state * bool :=
  match vs with
  | [] => (s, false)
  | (v, t) :: vs' =>
      let '(w, ok) := fs_scan_ro (world s) drive v in
      let s := with_world s w in
      if ok : bool then (mounted_as s t drive, true) else try_ro vs' s drive
  end.
Definition fs_try_ro_drives s (drive : Z) : fs_state * bool :=
  try_ro [(VExt4, FS_EXT4); (VNtfs, FS_NTFS); (VF2fs, FS_F2FS); (VErofs, FS_EROFS); (VRefs, FS_REFS)] s drive.

Definition fs_try_drive s (drive : Z) : fs_state * bool :=
  if negb (ata_drive_present (world s) drive) then (s, false)
  else
    let '(w, r) := exfat_init (exfat_set_drive (world s) drive) in
    let s := with_world s w in
    if r =? 0 then (mounted_as s FS_EXFAT drive, true)
    else
      let '(w, t) := fat_try_mount (world s) drive in
      let s := with_world s w in
      if fat_type_ok t then (mounted_as s t drive, true) else fs_try_ro_drives s drive.

Definition fs_is_fat s : bool := (fs_type_cur s =? FS_FAT12) || (fs_type_cur s =? FS_FAT16) || (fs_type_cur s =? FS_FAT32).
Definition fs_is_ro s : bool :=
  (fs_type_cur s =? FS_EXT4) || (fs_type_cur s =? FS_NTFS) || (fs_type_cur s =? FS_F2FS) || (fs_type_cur s =? FS_EROFS) || (fs_type_cur s =? FS_REFS).
Definition fs_is_readonly s : bool := fs_type_cur s =? FS_EROFS.
Definition fs_ready s : bool := negb (fs_type_cur s =? FS_NONE).
Definition fs_get_info s : fs_info_t := fs_volume s.

Fixpoint try_drives (ds : list Z) s : fs_state * bool :=
  match ds with
  | [] => (s, false)
  | d :: ds' =>
      if d =? fs_preferred_drive s then try_drives ds' s
      else let '(s, ok) := fs_try_drive s d in if ok : bool then (s, true) else try_drives ds' s
  end.

Definition fs_init s : fs_state * Z :=
  if negb (fs_type_cur s =? FS_NONE) then (s, 0)
  else
    let '(s, ok) := fs_try_drive s (fs_preferred_drive s) in
    if ok : bool then (s, 0)
    else
      let '(s, ok) := try_drives (seqZ 1 3 ++ seqZ USBMSC_DRIVE_BASE 4) s in
      if ok : bool then (s, 0)
      else if negb (ata_drive_present (world s) (fs_preferred_drive s)) then (s, -1)
      else
        let '(s, r) := lift s (ata_read_sector (world s) (fs_preferred_drive s) 0) in
        (s, if r then -2 else -1).

Definition fs_type_name s : list Z :=
  let t := fs_type_cur s in
  bytes (if t =? FS_EXFAT then "exFAT" else if t =? FS_FAT12 then "FAT12" else if t =? FS_FAT16 then "FAT16" else if t =? FS_FAT32 then "FAT32"
         else if t =? FS_EXT4 then "ext4" else if t =? FS_NTFS then "NTFS" else if t =? FS_F2FS then "F2FS" else if t =? FS_EROFS then "EROFS"
         else if t =? FS_REFS then "ReFS" else "none").

Definition fs_set_drive s (drive : Z) : fs_state :=
  if BLK_MAX_DRIVE <=? drive then s
  else if (drive =? fs_preferred_drive s) && (fs_type_cur s =? FS_NONE) then s
  else
    let s := with_preferred s drive in
    if negb (fs_type_cur s =? FS_NONE) then
      with_ro_cwd (with_world (with_mount s FS_NONE (fs_drive_cur s)) (exfat_reset_cwd (world s))) [47]
    else s.

(** ** Formatting *)

Fixpoint first_part (n : nat) (sec : list Z) (i : Z) : Z :=
  match n with
  | O => FS_PART_LBA_DEFAULT
  | S n' => if negb (part_used sec i) || part_bad sec i then first_part n' sec (i + 1) else part_start sec i
  end.

Definition fs_volume_start (w : W) (drive : Z) : W * Z :=
  let '(w, r) := ata_read_sector w drive 0 in
  (w, match r with
      | None => FS_PART_LBA_DEFAULT
      | Some sec => if has_mbr sec then first_part 4 sec 0 else FS_PART_LBA_DEFAULT
      end).

Definition zero_sec : list Z := replicate 512 0.

Fixpoint wipe_from (n : nat) (w : W) (drive lba : Z) : W :=
  match n with O => w | S n' => wipe_from n' (fst (ata_write_sector w drive lba zero_sec)) drive (lba +! 1) end.
Definition fs_wipe_head (w : W) (drive start : Z) : W := wipe_from (Z.to_nat FS_WIPE_SECTORS) w drive start.

Definition sec_blank (b : list Z) : bool :=
  let a := aget 0 b 0 in forallb (fun i => aget 0 b i =? a) (seqZ 1 511) && ((a =? 0x00) || (a =? 0xFF)).

Fixpoint blank_from (n : nat) (w : W) (drive lba : Z) : W * bool :=
  match n with
  | O => (w, true)
  | S n' =>
      let '(w, r) := ata_read_sector w drive lba in
      match r with
      | None => (w, false)
      | Some b => if sec_blank b then blank_from n' w drive (lba +! 1) else (w, false)
      end
  end.

Definition fs_drive_blank s : fs_state * bool :=
  let d := fs_preferred_drive s in
  let '(w, start) := fs_volume_start (world s) d in
  let '(w, ok) := blank_from (Z.to_nat FS_BLANK_SCAN) w d 0 in
  if negb ok then (with_world s w, false) else lift s (blank_from (Z.to_nat FS_BLANK_SCAN) w d start).

Definition fs_format s (t : Z) : fs_state * Z :=
  let d := fs_preferred_drive s in
  if d =? 0 then (s, -1)
  else
    let '(w, start) := fs_volume_start (world s) d in
    let w := fs_wipe_head w d start in
    let '(w, ok) :=
      if t =? FS_EXFAT then
        let '(w, r) := v_format VExfat (exfat_reset_cwd (exfat_set_drive w d)) d t start in (w, r =? 0)
      else if fat_type_ok t then let '(w, r) := v_format VFat w d t start in (w, r =? t)
      else if (t =? FS_EXT4) || (t =? FS_NTFS) || (t =? FS_F2FS) || (t =? FS_REFS) then
        let '(w, r) := v_format (vol_of t) w d t start in (w, r =? 0)
      else (w, false) in
    let s := with_world s w in
    if negb ok then (s, -1) else (fs_fill_info (with_ro_cwd (with_mount s t d) [47]), 0).


(** ** The drivers that take absolute paths *)

Definition ro_vol (t : Z) : option vol :=
  if t =? FS_EXT4 then Some VExt4 else if t =? FS_NTFS then Some VNtfs else if t =? FS_F2FS then Some VF2fs
  else if t =? FS_EROFS then Some VErofs else if t =? FS_REFS then Some VRefs else None.
(** Those of them that write. *)
Definition rw_vol (t : Z) : option vol :=
  if t =? FS_EXT4 then Some VExt4 else if t =? FS_NTFS then Some VNtfs else if t =? FS_F2FS then Some VF2fs
  else if t =? FS_REFS then Some VRefs else None.

Definition ro_call {A} (table : Z -> option vol) (f : vol -> W -> W * A) (fail : A) s : fs_state * A :=
  match table (fs_type_cur s) with Some v => lift s (f v (world s)) | None => (s, fail) end.

Definition ro_read_file s (path : list Z) (m : Z) := ro_call ro_vol (fun v w => v_read_file v w path m) None s.
Definition ro_get_file_size s (path : list Z) := ro_call ro_vol (fun v w => v_get_file_size v w path) 0 s.
Definition ro_read_dir s (path : list Z) (n : Z) := ro_call ro_vol (fun v w => v_read_dir v w path n) None s.
Definition ro_is_dir s (path : list Z) := ro_call ro_vol (fun v w => v_is_dir v w path) (-1) s.
Definition ro_get_file_clusters s (path : list Z) := ro_call ro_vol (fun v w => v_get_file_clusters v w path) 0 s.
Definition ro_used_clusters s := ro_call ro_vol v_used_clusters 0 s.
Definition ro_create_file s (path bs : list Z) := ro_call rw_vol (fun v w => v_create_file v w path bs) (-1) s.
Definition ro_delete_file s (path : list Z) := ro_call rw_vol (fun v w => v_delete_file v w path) (-1) s.
Definition ro_mkdir s (path : list Z) := ro_call rw_vol (fun v w => v_mkdir v w path) (-1) s.
Definition ro_rmdir s (path : list Z) := ro_call rw_vol (fun v w => v_rmdir v w path) (-1) s.

(** ** The operations *)

(** The tail that many operations share: the driver of exFAT or FAT gets the
    resolved path, the others the normalised one. *)
Definition on_volume {A} (f : vol -> W -> list Z -> W * A) (g : fs_state -> list Z -> fs_state * A) (fail : A) s (full : list Z) : fs_state * A :=
  if fs_type_cur s =? FS_EXFAT then lift s (f VExfat (world s) full)
  else if fs_is_fat s then lift s (f VFat (world s) full)
  else if fs_is_ro s then
    match fs_ro_abs (ro_cwd s) full 512 with None => (s, fail) | Some abs => g s abs end
  else (s, fail).

Definition fs_read_file s (name : list Z) (max_size : Z) : fs_state * option (list Z) :=
  match fs_resolve_path (g_sysvol_cwd s) name 256 with
  | None => (s, None)
  | Some full =>
      if sysvol_is_path full then (s, sysvol_read sysvol_table sysvol_blob full max_size)
      else on_volume (fun v w p => v_read_file v w p max_size) (fun s p => ro_read_file s p max_size) None s full
  end.

Definition fs_get_file_size s (name : list Z) : fs_state * Z :=
  match fs_resolve_path (g_sysvol_cwd s) name 256 with
  | None => (s, 0)
  | Some full =>
      if sysvol_is_path full then (s, sysvol_size sysvol_table full)
      else on_volume v_get_file_size ro_get_file_size 0 s full
  end.

(** An existing file is deleted first. *)
Definition replace_file (bs : list Z) (v : vol) (w : W) (full : list Z) : W * Z :=
  v_create_file v (fst (v_delete_file v w full)) full bs.

Definition fs_create_file s (name bs : list Z) : fs_state * Z :=
  match fs_resolve_path (g_sysvol_cwd s) name 256 with
  | None => (s, -1)
  | Some full =>
      if sysvol_is_path full then (s, -1)
      else if fs_type_cur s =? FS_NONE then (s, -1)
      else on_volume (replace_file bs) (fun s p => ro_create_file s p bs) (-1) s full
  end.

(** [fs_delete_file], [fs_mkdir] and [fs_rmdir] have the same text but for the
    function of the driver. *)
Definition change_volume (f : vol -> W -> list Z -> W * Z) (g : fs_state -> list Z -> fs_state * Z) s (name : list Z) : fs_state * Z :=
  match fs_resolve_path (g_sysvol_cwd s) name 256 with
  | None => (s, -1)
  | Some full => if sysvol_is_path full then (s, -1) else on_volume f g (-1) s full
  end.
Definition fs_delete_file s (name : list Z) : fs_state * Z := change_volume v_delete_file ro_delete_file s name.
Definition fs_mkdir s (name : list Z) : fs_state * Z := change_volume v_mkdir ro_mkdir s name.
Definition fs_rmdir s (name : list Z) : fs_state * Z := change_volume v_rmdir ro_rmdir s name.

Definition fs_list_root s : fs_state * Z :=
  if fs_type_cur s =? FS_EXFAT then lift s (v_list_root VExfat (world s))
  else if fs_is_fat s then lift s (v_list_root VFat (world s))
  else (s, -1).

Definition fs_read_dir s (max_entries : Z) : fs_state * option dirents :=
  if fs_type_cur s =? FS_EXFAT then lift s (v_read_cwd VExfat (world s) max_entries)
  else if fs_is_fat s then lift s (v_read_cwd VFat (world s) max_entries)
  else if fs_is_ro s then
    match fs_ro_abs (ro_cwd s) [] 512 with None => (s, None) | Some full => ro_read_dir s full max_entries end
  else (s, None).

Definition fs_read_dir_path s (path : list Z) (max_entries : Z) : fs_state * option dirents :=
  match fs_resolve_path (g_sysvol_cwd s) path 256 with
  | None => (s, None)
  | Some full =>
      if sysvol_is_path full then (s, sysvol_list sysvol_table full max_entries)
      else if fs_type_cur s =? FS_EXFAT then lift s (v_read_dir VExfat (world s) full max_entries)
      else if fs_is_fat s then lift s (v_read_dir VFat (world s) full max_entries)
      else if fs_is_ro s then ro_read_dir s full max_entries
      else (s, None)
  end.

(** Changing to a directory of the mounted volume. *)
Definition change_disk_dir s (name : list Z) : fs_state * Z :=
  if fs_type_cur s =? FS_EXFAT then lift s (v_change_dir VExfat (world s) name)
  else if fs_is_fat s then lift s (v_change_dir VFat (world s) name)
  else if fs_is_ro s then
    match fs_ro_abs (ro_cwd s) name 512 with
    | None => (s, -1)
    | Some abs =>
        let '(s, r) := ro_is_dir s abs in
        if negb (r =? 1) then (s, -1) else (with_ro_cwd s (take 255 abs), 0)
    end
  else (s, -1).

Definition fs_change_dir s (name : list Z) : fs_state * Z :=
  if bool_decide (name = []) then (s, -1)
  else if negb (bool_decide (g_sysvol_cwd s = [])) && bool_decide (name = dot) then (s, 0)
  else if negb (bool_decide (g_sysvol_cwd s = [])) && (bool_decide (name = [47]) || bool_decide (name = dotdot)) then (with_sysvol_cwd s [], 0)
  else if sysvol_is_path name then
    let '(cwd, r) := fs_set_sysvol_cwd name in
    let s := with_sysvol_cwd s cwd in
    if negb (r =? 0) then (s, -1)
    else if negb (bool_decide (snd (span_comp (skip_slash name)) = [])) then (with_sysvol_cwd s [], -1)
    else (s, 0)
  else change_disk_dir (with_sysvol_cwd s []) name.

Definition fs_cwd_path s : list Z :=
  if negb (bool_decide (g_sysvol_cwd s = [])) then g_sysvol_cwd s
  else if fs_type_cur s =? FS_EXFAT then v_cwd_path VExfat (world s)
  else if fs_is_fat s then v_cwd_path VFat (world s)
  else if fs_is_ro s then ro_cwd s
  else [47].

Definition fs_count_used_clusters s : fs_state * Z :=
  if fs_type_cur s =? FS_EXFAT then lift s (v_used_clusters VExfat (world s))
  else if fs_is_fat s then lift s (v_used_clusters VFat (world s))
  else if fs_is_ro s then ro_used_clusters s
  else (s, 0).

Definition fs_get_file_clusters s (name : list Z) : fs_state * Z := on_volume v_get_file_clusters ro_get_file_clusters 0 s name.

(** ** Sequences of calls *)

(** The calls that the rest of the kernel makes. *)
Inductive fs_call :=
  | CInit | CSetDrive (d : Z) | CFormat (t : Z) | CBlank
  | CRead (name : list Z) (m : Z) | CSize (name : list Z) | CCreate (name bs : list Z) | CDelete (name : list Z)
  | CListRoot | CReadDir (n : Z) | CReadDirPath (path : list Z) (n : Z)
  | CChangeDir (name : list Z) | CMkdir (name : list Z) | CRmdir (name : list Z)
  | CUsed | CClusters (name : list Z).

Definition fs_do s (c : fs_call) : fs_state :=
  match c with
  | CInit => fst (fs_init s)
  | CSetDrive d => fs_set_drive s d
  | CFormat t => fst (fs_format s t)
  | CBlank => fst (fs_drive_blank s)
  | CRead n m => fst (fs_read_file s n m)
  | CSize n => fst (fs_get_file_size s n)
  | CCreate n b => fst (fs_create_file s n b)
  | CDelete n => fst (fs_delete_file s n)
  | CListRoot => fst (fs_list_root s)
  | CReadDir n => fst (fs_read_dir s n)
  | CReadDirPath p n => fst (fs_read_dir_path s p n)
  | CChangeDir n => fst (fs_change_dir s n)
  | CMkdir n => fst (fs_mkdir s n)
  | CRmdir n => fst (fs_rmdir s n)
  | CUsed => fst (fs_count_used_clusters s)
  | CClusters n => fst (fs_get_file_clusters s n)
  end.
Definition fs_run s (cs : list fs_call) : fs_state := fold_left fs_do cs s.

End Fs.
