(* ===== verification/FsProps.v ===== *)
(** * FsProps: the file system layer, proofs

    The path that [fs_ro_abs] computes against its definition by components; the
    partitions that are tried; then sequences of calls: the boot drive is never
    written, and the system volume is out of reach of every call. *)

From S2P Require Import Prelude Sysvol Fs.

Create HintDb fsw.

(** ** Paths by components *)

Definition flush (cur : list Z) : list (list Z) := match cur with [] => [] | _ => [cur] end.
Fixpoint split_at (p cur : list Z) : list (list Z) :=
  match p with [] => flush cur | c :: p' => if c =? 47 then flush cur ++ split_at p' [] else split_at p' (cur ++ [c]) end.
(** The non-empty components of a path. *)
Definition comps (p : list Z) : list (list Z) := split_at p [].

(** What a component does to a directory. *)
Definition follow (segs : list (list Z)) (l : list Z) : list (list Z) :=
  if bool_decide (l = dot) then segs else if bool_decide (l = dotdot) then take (length segs - 1) segs else segs ++ [l].
Definition resolve (segs cs : list (list Z)) : list (list Z) := fold_left follow cs segs.

(** The path never has more than 64 components on the way. *)
Fixpoint shallow (segs cs : list (list Z)) : bool :=
  match cs with [] => true | l :: cs' => (length (follow segs l) <=? 64)%nat && shallow (follow segs l) cs' end.

Definition path_of (segs : list (list Z)) : list Z := match segs with [] => [47] | _ => concat (map (cons 47) segs) end.

(** The directory from which a name starts. *)
Definition start_of (cwd name : list Z) : list (list Z) := if bool_decide (List.hd 0 name = 47) then [] else comps cwd.

(** A component that [follow] appends. *)
Definition plain (l : list Z) : Prop := l <> [] /\ 47 ∉ l /\ l <> dot /\ l <> dotdot.

Lemma split_at_cur p : forall cur, cur <> [] -> 47 ∉ p -> split_at p cur = [cur ++ p].
Proof.
  induction p as [| c p IH]; intros cur Hc Hp; cbn [split_at].
  - rewrite app_nil_r. by destruct cur.
  - apply not_elem_of_cons in Hp as [Hp1 Hp2]. rewrite (proj2 (Z.eqb_neq c 47)) by congruence. rewrite IH by (try done; by destruct cur). by rewrite <- app_assoc.
Qed.
Lemma split_at_slash p q : forall cur, split_at (p ++ 47 :: q) cur = split_at p cur ++ comps q.
Proof.
  induction p as [| c p IH]; intros cur; cbn [split_at app]; [done |].
  destruct (c =? 47); [rewrite IH; by rewrite app_assoc | apply IH].
Qed.
Lemma comps_app p q : comps (p ++ 47 :: q) = comps p ++ comps q.
Proof. apply split_at_slash. Qed.
Lemma comps_slash q : comps (47 :: q) = comps q.
Proof. done. Qed.
Lemma comps_word l : 47 ∉ l -> comps l = flush l.
Proof.
  destruct l as [| c l]; [done |]. intros H. apply not_elem_of_cons in H as [H1 H2].
  unfold comps. cbn [split_at]. rewrite (proj2 (Z.eqb_neq c 47)) by congruence. cbn [app]. by rewrite split_at_cur by done.
Qed.
Lemma comps_skip p : comps (skip_slash p) = comps p.
Proof. induction p as [| c p IH]; [done |]. cbn [skip_slash]. destruct (Z.eqb_spec c 47) as [-> |]; [by rewrite IH | done]. Qed.

Lemma span_comp_spec p : exists q, p = fst (span_comp p) ++ q /\ snd (span_comp p) = q /\ 47 ∉ fst (span_comp p) /\ (q = [] \/ exists q', q = 47 :: q').
Proof.
  induction p as [| c p (q & E1 & E2 & H1 & H2)]; cbn [span_comp].
  - exists []. set_solver.
  - destruct (Z.eqb_spec c 47) as [-> | Hc]; cbn [fst snd].
    + exists (47 :: p). split; [done |]. split; [done |]. split; [set_solver | eauto].
    + destruct (span_comp p) as [a r]. cbn [fst snd] in *. exists q. subst. split; [done |]. split; [done |]. split; [| done].
      apply not_elem_of_cons. split; [congruence | done].
Qed.
Lemma comps_span p : comps p = flush (fst (span_comp p)) ++ comps (snd (span_comp p)).
Proof.
  destruct (span_comp_spec p) as (q & E1 & E2 & H1 & H2). rewrite E1 at 1. rewrite E2.
  destruct H2 as [-> | [q' ->]].
  - rewrite app_nil_r, comps_word by done. by rewrite app_nil_r.
  - by rewrite comps_app, comps_word by done.
Qed.
Lemma span_shorter p : (length (snd (span_comp (skip_slash p))) <= length p)%nat /\
  (p <> [] -> (length (snd (span_comp (skip_slash p))) < length p)%nat).
Proof.
  induction p as [| c p IH]; [split; [done | done] |]. cbn [skip_slash]. destruct (Z.eqb_spec c 47) as [-> |].
  - cbn [length]. split; [lia |]. intros _. lia.
  - destruct (span_comp_spec (c :: p)) as (q & E1 & E2 & _ & H2). rewrite E2. apply (f_equal length) in E1. rewrite length_app in E1.
    cbn [span_comp fst] in E1. rewrite (proj2 (Z.eqb_neq c 47)) in E1 by done. destruct (span_comp p). cbn [fst length] in *. split; [lia | intros _; lia].
Qed.

Lemma resolve_app segs a b : resolve segs (a ++ b) = resolve (resolve segs a) b.
Proof. apply fold_left_app. Qed.

(** [abs_segs] follows the components and fails beyond 64 of them. *)
Lemma abs_segs_ok fuel : forall raw segs, (length raw < fuel)%nat -> (length segs <= 64)%nat ->
  abs_segs fuel raw segs = if shallow segs (comps raw) then Some (resolve segs (comps raw)) else None.
Proof.
  induction fuel as [| fuel IH]; intros raw segs Hf Hs; [lia |]. cbn [abs_segs].
  destruct raw as [| c raw]; [done |]. rewrite <- comps_skip, comps_span.
  pose proof (proj2 (span_shorter (c :: raw)) ltac:(done)) as Hl.
  destruct (span_comp (skip_slash (c :: raw))) as [l r]. cbn [fst snd] in *.
  assert (Hr : (length r < fuel)%nat) by lia.
  case_bool_decide as E; [subst; by apply IH |].
  assert (Ef : flush l = [l]) by by destruct l. rewrite Ef. cbn [app shallow]. unfold resolve. cbn [fold_left]. fold (resolve (follow segs l) (comps r)). unfold follow at 1 2 3.
  case_bool_decide as Ed; [rewrite (proj2 (Nat.leb_le _ _)) by done; by apply IH |].
  case_bool_decide as Edd.
  - rewrite length_take, (proj2 (Nat.leb_le _ _)) by lia. apply IH; [done |]. rewrite length_take. lia.
  - rewrite length_app. cbn [length]. destruct (Nat.leb_spec 64 (length segs)).
    + by rewrite (proj2 (Nat.leb_gt _ _)) by lia.
    + rewrite (proj2 (Nat.leb_le _ _)) by lia. apply IH; [done |]. rewrite length_app. cbn [length]. lia.
Qed.

Lemma abs_join_ok segs : forall out outsz, Forall (fun l => l <> []) segs ->
  abs_join segs out outsz = if bool_decide (segs = [] \/ Z.of_nat (length (out ++ concat (map (cons 47) segs))) < outsz) then Some (out ++ concat (map (cons 47) segs)) else None.
Proof.
  induction segs as [| l segs IH]; intros out outsz H; cbn [abs_join map concat].
  - rewrite app_nil_r, bool_decide_eq_true_2 by by left. done.
  - apply Forall_cons in H as [H1 H2]. rewrite IH by done.
    assert (E : out ++ (47 :: l) ++ concat (map (cons 47) segs) = (out ++ 47 :: l) ++ concat (map (cons 47) segs)) by by rewrite app_assoc.
    rewrite E. set (a := out ++ 47 :: l). assert (La : length a = (length out + length l + 1)%nat) by (unfold a; rewrite length_app; cbn [length]; lia).
    destruct (Z.leb_spec outsz (Z.of_nat (length out) + Z.of_nat (length l) + 1)).
    + rewrite bool_decide_eq_false_2; [done |]. intros [? | Hb]; [done |]. rewrite length_app in Hb. lia.
    + destruct segs as [| l' segs]; [| by rewrite !(bool_decide_ext (_ \/ _) (Z.of_nat (length (a ++ concat (map (cons 47) (l' :: segs)))) < outsz)) by naive_solver].
      cbn [map concat]. rewrite app_nil_r, !bool_decide_eq_true_2; [done | right; lia | by left].
Qed.

Lemma comps_words p : forall cur, 47 ∉ cur -> Forall (fun l : list Z => l <> [] /\ 47 ∉ l) (split_at p cur).
Proof.
  assert (F : forall cur, 47 ∉ cur -> Forall (fun l : list Z => l <> [] /\ 47 ∉ l) (flush cur)).
  { intros [|] H; cbn [flush]; [by apply Forall_nil | apply Forall_singleton; done]. }
  induction p as [| c p IH]; intros cur H; cbn [split_at]; [by apply F |].
  destruct (Z.eqb_spec c 47); [apply Forall_app; split; [by apply F | apply IH, not_elem_of_nil] |]. apply IH. rewrite not_elem_of_app, list_elem_of_singleton. naive_solver.
Qed.
Lemma resolve_plain cs : forall segs, Forall (fun l => l <> [] /\ 47 ∉ l) cs -> Forall plain segs -> Forall plain (resolve segs cs).
Proof.
  induction cs as [| l cs IH]; intros segs Hc Hs; [done |]. apply Forall_cons in Hc as [[H1 H2] H3].
  apply IH; [done |]. unfold follow. repeat case_bool_decide; [done | by apply Forall_take | apply Forall_app; split; [done | by apply Forall_singleton]].
Qed.
Lemma path_segs_plain p : Forall plain (resolve [] (comps p)).
Proof. apply resolve_plain; [apply comps_words, not_elem_of_nil | apply Forall_nil; done]. Qed.

(** Plain components are those of the path they make, and stay as they are. *)
Lemma comps_concat segs : Forall plain segs -> comps (concat (map (cons 47) segs)) = segs.
Proof.
  induction segs as [| l segs IH]; [done |]. intros H. apply Forall_cons in H as [(H1 & H2 & _) H3]. cbn [map concat app]. rewrite comps_slash.
  destruct segs as [| l' segs]; [cbn [map concat]; rewrite app_nil_r, comps_word by done; by destruct l |].
  rewrite <- (IH H3) at 2. cbn [map concat app]. rewrite comps_slash, comps_app, comps_word by done. by destruct l.
Qed.
Lemma comps_path segs : Forall plain segs -> comps (path_of segs) = segs.
Proof. destruct segs; [done |]. apply comps_concat. Qed.
Lemma follow_plain segs l : plain l -> follow segs l = segs ++ [l].
Proof. intros (_ & _ & H1 & H2). unfold follow. by rewrite !bool_decide_eq_false_2. Qed.
Lemma resolve_plain_id cs : forall segs, Forall plain cs -> resolve segs cs = segs ++ cs.
Proof.
  induction cs as [| l cs IH]; intros segs H; [by rewrite app_nil_r |]. apply Forall_cons in H as [H1 H2].
  unfold resolve. cbn [fold_left]. fold (resolve (follow segs l) cs). rewrite IH, follow_plain by done. by rewrite <- app_assoc.
Qed.
Lemma shallow_plain cs : forall segs, Forall plain cs -> (length segs + length cs <= 64)%nat -> shallow segs cs = true.
Proof.
  induction cs as [| l cs IH]; intros segs H Hl; [done |]. apply Forall_cons in H as [H1 H2]. cbn [shallow length] in *. rewrite follow_plain by done.
  rewrite length_app. cbn [length]. rewrite (proj2 (Nat.leb_le _ _)) by lia. apply IH; [done |]. rewrite length_app. cbn [length]. lia.
Qed.
Lemma shallow_length cs : forall segs, (length segs <= 64)%nat -> shallow segs cs = true -> (length (resolve segs cs) <= 64)%nat.
Proof.
  induction cs as [| l cs IH]; intros segs H Hl; [done |]. cbn [shallow] in Hl. apply andb_true_iff in Hl as [H1 H2].
  apply IH; [by apply Nat.leb_le | done].
Qed.

Lemma abs_raw_rooted cwd name : List.hd 0 name = 47 -> abs_raw cwd name = take 511 name.
Proof. destruct name as [| c name]; [done |]. cbn [hd]. by intros ->. Qed.
Lemma abs_raw_relative cwd name : List.hd 0 name <> 47 -> Z.of_nat (length cwd) + Z.of_nat (length name) < 511 ->
  comps (abs_raw cwd name) = comps cwd ++ comps name.
Proof.
  intros H Hl. assert (E : abs_raw cwd name = (if negb (bool_decide (cwd = [])) && negb (bool_decide (last cwd = Some 47)) then cwd ++ [47] else cwd) ++ name).
  { transitivity (let raw := take 511 cwd in
      let raw := if negb (bool_decide (raw = [])) && negb (bool_decide (last raw = Some 47)) && (length raw <? 511)%nat then raw ++ [47] else raw in
      take 511 (raw ++ name)).
    - destruct name as [| c name]; [done |]. cbn [List.hd] in H. unfold abs_raw. destruct c as [| c | c]; [done | | done].
      do 6 (destruct c as [c | c |]; try done).
    - cbv zeta. rewrite (take_ge cwd) by lia. rewrite (proj2 (Nat.ltb_lt _ _)) by lia. rewrite andb_true_r.
      case_match; rewrite take_ge; rewrite ?length_app; cbn [length]; auto; lia. }
  rewrite E. case_bool_decide as E1; [by subst |]. case_bool_decide as E2; cbn [negb andb].
  - apply last_Some in E2 as [cwd' ->]. rewrite <- app_assoc. cbn [app]. rewrite !comps_app. by rewrite app_nil_r.
  - rewrite <- app_assoc. cbn [app]. by rewrite comps_app.
Qed.



(** ** Partitions *)

Section Scan.
Context {W : Type} `{DO : DriverOps W}.

Definition usable (sec : list Z) (i : Z) : bool := part_used sec i && negb (part_bad sec i).
(** The starts of the partitions of a table, in order. *)
Definition table_starts (sec : list Z) : list Z := map (part_start sec) (List.filter (usable sec) (seqZ 0 4)).
(** A disk without a table, or with an empty one, is one volume. *)
Definition volume_starts (sec : list Z) : list Z :=
  if has_mbr sec && existsb (part_used sec) (seqZ 0 4) then table_starts sec else [0].

Fixpoint first_success {A} (probe : W -> Z -> W * option A) (w : W) (ls : list Z) : W * option A :=
  match ls with
  | [] => (w, None)
  | l :: ls' => match probe w l with (w, Some a) => (w, Some a) | (w, None) => first_success probe w ls' end
  end.

Lemma scan_parts_ok {A} (probe : W -> Z -> W * option A) sec n : forall w i hp,
  let '(w', r, hp') := scan_parts n probe w sec i hp in
  (w', r) = first_success probe w (map (part_start sec) (List.filter (usable sec) (seqZ i (Z.of_nat n)))) /\
  (r = None -> hp' = hp || existsb (part_used sec) (seqZ i (Z.of_nat n))).
Proof.
  induction n as [| n IH]; intros w i hp; [cbn; split; [done | by rewrite orb_false_r] |].
  rewrite seqZ_cons by lia. replace (Z.succ i) with (i + 1) by lia. replace (Z.pred (Z.of_nat (S n))) with (Z.of_nat n) by lia.
  cbn [scan_parts List.filter existsb map]. unfold usable at 1. destruct (part_used sec i); cbn [negb andb orb]; [| apply IH].
  rewrite orb_true_r. destruct (part_bad sec i); cbn [negb map]; [apply (IH w (i + 1) true) |].
  cbn [first_success]. destruct (probe w (part_start sec i)) as [w' [a |]]; [done |]. apply (IH w' (i + 1) true).
Qed.

Lemma first_part_ok sec n : forall i,
  first_part n sec i = List.hd FS_PART_LBA_DEFAULT (map (part_start sec) (List.filter (usable sec) (seqZ i (Z.of_nat n)))).
Proof.
  induction n as [| n IH]; intros i; [done |].
  rewrite seqZ_cons by lia. replace (Z.succ i) with (i + 1) by lia. replace (Z.pred (Z.of_nat (S n))) with (Z.of_nat n) by lia.
  cbn [first_part List.filter]. unfold usable at 1. destruct (part_used sec i), (part_bad sec i); cbn [negb andb orb map List.hd]; auto.
Qed.

Lemma no_part_used sec l : existsb (part_used sec) l = false -> List.filter (usable sec) l = [].
Proof.
  induction l as [| i l IH]; [done |]. cbn [existsb List.filter]. intros E. apply orb_false_iff in E as [E1 E2].
  unfold usable at 1. rewrite E1. by apply IH.
Qed.

Lemma scan_drive_ok {A} (probe : W -> Z -> W * option A) w drive :
  scan_drive probe w drive =
  match ata_read_sector w drive 0 with (w', None) => (w', None) | (w', Some sec) => first_success probe w' (volume_starts sec) end.
Proof.
  unfold scan_drive. destruct (ata_read_sector w drive 0) as [w' [sec |]]; [| done]. unfold volume_starts.
  assert (P0 : probe w' 0 = first_success probe w' [0]) by (cbn [first_success]; by destruct (probe w' 0) as [w2 [|]]).
  destruct (has_mbr sec); cbn [andb]; [| done].
  pose proof (scan_parts_ok probe sec 4 w' 0 false) as H. destruct (scan_parts 4 probe w' sec 0 false) as [[w1 r] hp]. destruct H as [H1 H2].
  change (Z.of_nat 4) with 4 in *. destruct (existsb _ _) eqn:Ex.
  - fold (table_starts sec) in H1. destruct r; [done |]. by rewrite H2 by done.
  - rewrite no_part_used in H1 by done. cbn in H1. injection H1 as -> ->. by rewrite H2.
Qed.

(** Looking for a volume on a drive tries the usable partitions of the table in
    their order, or sector 0 when there is no table or an empty one, until one is
    recognised; a format goes to the first of the same partitions. *)
Theorem fs_scan_exact {A} (probe : W -> Z -> W * option A) (w : W) (drive : Z) :
  let w' := fst (ata_read_sector w drive 0) in
  match snd (ata_read_sector w drive 0) with
  | None => scan_drive probe w drive = (w', None) /\ fs_volume_start w drive = (w', FS_PART_LBA_DEFAULT)
  | Some sec => scan_drive probe w drive = first_success probe w' (volume_starts sec) /\
      fs_volume_start w drive = (w', if has_mbr sec then List.hd FS_PART_LBA_DEFAULT (table_starts sec) else FS_PART_LBA_DEFAULT)
  end.
Proof.
  cbv zeta. rewrite scan_drive_ok. unfold fs_volume_start. destruct (ata_read_sector w drive 0) as [w' [sec |]]; cbn [fst snd]; [| done].
  split; [done |]. by rewrite (first_part_ok sec 4 0).
Qed.
End Scan.

(** ** The boot drive *)

Section Safe.
Context {W : Type} {DO : DriverOps W} {DV : Drivers W}.
Variable table : list sysvol_entry_t.
Variable blob : list Z.
Implicit Types s : fs_state W.

(** Only the drive [d] is written, and drivers move only to it. *)
Definition moves (d : Z) (w w' : W) : Prop :=
  (forall e l, e <> d -> data w' e l = data w e l) /\ forall v, mounted w' v = mounted w v \/ mounted w' v = d.

Lemma moves_refl d w : moves d w w.
Proof. split; [done | by left]. Qed.
Lemma moves_trans d w1 w2 w3 : moves d w1 w2 -> moves d w2 w3 -> moves d w1 w3.
Proof.
  intros [A1 A2] [B1 B2]. split; [intros e l He; by rewrite B1, A1 |]. intros v. destruct (B2 v) as [-> | ->]; [apply A2 | by right].
Qed.
Lemma keeps_moves d w w' : keeps w w' -> moves d w w'.
Proof. intros [H1 H2]. split; [intros; apply H1 | intros; left; apply H2]. Qed.
Lemma writes_moves d w w' : writes d w w' -> moves d w w'.
Proof. intros [H1 H2]. split; [done | intros; left; apply H2]. Qed.
Lemma turns_moves v d w w' : turns v d w w' -> moves d w w'.
Proof. intros (H1 & H2 & H3). split; [done |]. intros u. destruct (decide (u = v)) as [-> |]; [done | left; by apply H2]. Qed.
Lemma set_drive_moves d w : moves d w (exfat_set_drive w d).
Proof. destruct (d_set_drive w d) as [H1 H2]. split; [intros; apply H1 |]. intros v. rewrite H2. case_decide; auto. Qed.

(** The driver of the mounted volume is not on the boot drive [0], which contains
    what it contained in [w0]. *)
Definition safe (w0 : W) s : Prop :=
  fs_preferred_drive s <> 0 /\ (fs_type_cur s = FS_NONE \/ mounted (world s) (vol_of (fs_type_cur s)) <> 0) /\
  forall l, data (world s) 0 l = data w0 0 l.

Lemma safe_moves w0 s d w' : safe w0 s -> d <> 0 -> moves d (world s) w' -> safe w0 (with_world s w').
Proof.
  intros (H1 & H2 & H3) Hd [M1 M2]. split; [done |]. split; cbn.
  - destruct H2 as [H2 | H2]; [by left | right]. destruct (M2 (vol_of (fs_type_cur s))) as [-> | ->]; done.
  - intros l. rewrite M1 by done. apply H3.
Qed.
Lemma safe_lift {A} w0 s v (r : W * A) : safe w0 s -> fs_type_cur s <> FS_NONE -> vol_of (fs_type_cur s) = v ->
  writes (mounted (world s) v) (world s) (fst r) -> safe w0 (fst (lift s r)).
Proof.
  intros H Ht <- Hw. destruct (proj1 (proj2 H)) as [? | Hm]; [done |]. eapply safe_moves; [done | exact Hm | by apply writes_moves].
Qed.
Lemma safe_ro_call {A} w0 s tab (f : vol -> W -> W * A) fail : safe w0 s ->
  (forall v, tab (fs_type_cur s) = Some v -> fs_type_cur s <> FS_NONE /\ vol_of (fs_type_cur s) = v) ->
  (forall v w, writes (mounted w v) w (fst (f v w))) -> safe w0 (fst (ro_call tab f fail s)).
Proof.
  intros H Ht Hf. unfold ro_call. destruct (tab (fs_type_cur s)) as [v |] eqn:E; [| done]. destruct (Ht v eq_refl) as [T1 T2]. by eapply safe_lift.
Qed.
Lemma ro_vol_of t v : ro_vol t = Some v -> t <> FS_NONE /\ vol_of t = v.
Proof.
  unfold ro_vol, vol_of, FS_NONE. destruct (Z.eqb_spec t FS_EXT4) as [-> |]; [by intros [= <-] |]. destruct (Z.eqb_spec t FS_NTFS) as [-> |]; [by intros [= <-] |].
  destruct (Z.eqb_spec t FS_F2FS) as [-> |]; [by intros [= <-] |]. destruct (Z.eqb_spec t FS_EROFS) as [-> |]; [by intros [= <-] |].
  destruct (Z.eqb_spec t FS_REFS) as [-> |]; [by intros [= <-] | done].
Qed.
Lemma rw_ro t v : rw_vol t = Some v -> ro_vol t = Some v.
Proof. unfold rw_vol, ro_vol. intros H. repeat case_match; simplify_eq; btrue; subst; done. Qed.

(** *** Mounting *)

(** A step that moves to [d], with [P] of its result when it succeeds. *)
Definition step_ok {A} (d : Z) (P : A -> W -> Prop) w (r : W * option A) : Prop :=
  moves d w (fst r) /\ forall a, snd r = Some a -> P a (fst r).

Lemma first_success_ok {A} d (P : A -> W -> Prop) (probe : W -> Z -> W * option A) :
  (forall w l, step_ok d P w (probe w l)) -> forall ls w, step_ok d P w (first_success probe w ls).
Proof.
  intros H. induction ls as [| l ls IH]; intros w; [split; [apply moves_refl | done] |]. cbn [first_success].
  destruct (H w l) as [H1 H2]. destruct (probe w l) as [w' [a |]]; [split; [done | exact H2] |].
  destruct (IH w') as [I1 I2]. split; [by eapply moves_trans | done].
Qed.
Lemma scan_drive_moves {A} d (P : A -> W -> Prop) (probe : W -> Z -> W * option A) w drive :
  (forall w l, step_ok d P w (probe w l)) -> step_ok d P w (scan_drive probe w drive).
Proof.
  intros H. rewrite scan_drive_ok. pose proof (d_read_sector w drive 0) as Hr. apply (keeps_moves d) in Hr.
  destruct (ata_read_sector w drive 0) as [w' [sec |]]; [| by split].
  destruct (first_success_ok d P probe H (volume_starts sec) w') as [H1 H2]. split; [by eapply moves_trans | done].
Qed.
Lemma fat_vol t : fat_type_ok t = true -> vol_of t = VFat.
Proof. unfold fat_type_ok. rewrite !orb_true_iff, !Z.eqb_eq. by intros [[-> | ->] | ->]. Qed.
Lemma fat_try_mount_ok w d : moves d w (fst (fat_try_mount w d)) /\
  (fat_type_ok (snd (fat_try_mount w d)) = true -> mounted (fst (fat_try_mount w d)) VFat = d).
Proof.
  unfold fat_try_mount. destruct (scan_drive_moves d (fun _ w => mounted w VFat = d) (fat_probe_at d) w d) as [H1 H2].
  - intros w1 l. unfold fat_probe_at. pose proof (d_mount VFat w1 d l ltac:(done)) as Hm. pose proof (d_mounted VFat w1 d l ltac:(done)) as Ho.
    destruct (v_mount VFat w1 d l) as [w2 t]. cbn [fst snd] in *. split; cbn [fst snd]; [by eapply turns_moves |]. intros a. destruct (fat_type_ok t) eqn:Et; [| done]. intros _. by apply Ho.
  - destruct (scan_drive (fat_probe_at d) w d) as [w' [t |]]; cbn [fst snd default] in *; split; try done. intros _. by eapply H2.
Qed.
Lemma fs_scan_ro_ok w d v : v <> VExfat -> v <> VFat -> moves d w (fst (fs_scan_ro w d v)) /\
  (snd (fs_scan_ro w d v) = true -> mounted (fst (fs_scan_ro w d v)) v = d).
Proof.
  intros Hv Hf. unfold fs_scan_ro. destruct (scan_drive_moves d (fun _ w => mounted w v = d) (ro_probe_at v d) w d) as [H1 H2].
  - intros w1 l. unfold ro_probe_at. pose proof (d_mount v w1 d l Hv) as Hm. pose proof (d_mounted v w1 d l Hv) as Ho. unfold mount_ok in Ho. rewrite bool_decide_eq_false_2 in Ho by done.
    destruct (v_mount v w1 d l) as [w2 t]. cbn [fst snd] in *. split; cbn [fst snd]; [by eapply turns_moves |]. intros a. destruct (t =? 0) eqn:Et; [| done]. intros _. by apply Ho.
  - destruct (scan_drive (ro_probe_at v d) w d) as [w' [t |]]; cbn [fst snd default] in *; split; try done. intros _. by eapply H2.
Qed.

Lemma mounted_as_safe w0 s t d : safe w0 s -> d <> 0 -> mounted (world s) (vol_of t) = d -> safe w0 (mounted_as s t d).
Proof. intros (H1 & H2 & H3) Hd <-. split; [done |]. split; [by right | done]. Qed.

(** What an attempt to mount keeps when it fails. *)
Definition tried w0 s (r : fs_state W * bool) : Prop :=
  safe w0 (fst r) /\ (snd r = false -> fs_type_cur (fst r) = fs_type_cur s /\ fs_preferred_drive (fst r) = fs_preferred_drive s).

Lemma try_ro_ok w0 d vs : d <> 0 -> Forall (fun '(v, t) => v <> VExfat /\ v <> VFat /\ vol_of t = v) vs ->
  forall s, safe w0 s -> tried w0 s (try_ro vs s d).
Proof.
  intros Hd. induction vs as [| [v t] vs IH]; intros Hvs s H; cbn [try_ro]; [by split |]. apply Forall_cons in Hvs as [(V1 & V2 & V3) Hvs].
  destruct (fs_scan_ro_ok (world s) d v V1 V2) as [M1 M2]. destruct (fs_scan_ro (world s) d v) as [w' [|]]; cbn [fst snd] in *.
  - split; cbn [fst snd]; [| done]. apply mounted_as_safe; [by eapply safe_moves | done | cbn; subst; by apply M2].
  - destruct (IH Hvs (with_world s w')) as [I1 I2]; [by eapply safe_moves |]. by split.
Qed.

Lemma fs_try_drive_ok w0 s d : safe w0 s -> d <> 0 -> tried w0 s (fs_try_drive s d).
Proof.
  intros H Hd. unfold fs_try_drive. destruct (negb _); [by split |].
  assert (M : moves d (world s) (fst (exfat_init (exfat_set_drive (world s) d))) /\ mounted (fst (exfat_init (exfat_set_drive (world s) d))) VExfat = d).
  { destruct (d_init (exfat_set_drive (world s) d)) as [I1 I2]. pose proof (d_set_drive (world s) d) as [_ S2]. specialize (S2 VExfat) as S3. rewrite decide_True in S3 by done.
    split; [| by rewrite I2]. eapply moves_trans; [apply set_drive_moves |]. rewrite <- S3 at 1. by split; [| left]. }
  destruct (exfat_init (exfat_set_drive (world s) d)) as [w1 r]. cbn [fst] in M. destruct M as [M1 M2]. destruct (r =? 0).
  - split; [| done]. apply mounted_as_safe; [by eapply safe_moves | done | exact M2].
  - cbn [world with_world]. destruct (fat_try_mount_ok w1 d) as [F1 F2]. destruct (fat_try_mount w1 d) as [w2 t]. cbn [fst snd] in *.
    assert (Hs : safe w0 (with_world s w2)) by (eapply safe_moves; [done.. | by eapply moves_trans]).
    cbn [fat_type_ok] in *. destruct (fat_type_ok t) eqn:Et.
    + split; [| done]. apply mounted_as_safe; [done | done |]. cbn. rewrite fat_vol by done. by apply F2.
    + refine (try_ro_ok w0 d _ Hd _ _ Hs). repeat (apply Forall_cons; split; [done |]). by apply Forall_nil.
Qed.

Lemma try_drives_ok w0 ds : forall s, Forall (fun d => d <> 0) ds -> safe w0 s -> safe w0 (fst (try_drives ds s)).
Proof.
  induction ds as [| d ds IH]; intros s Hd H; [done |]. apply Forall_cons in Hd as [Hd1 Hd2]. cbn [try_drives].
  destruct (d =? fs_preferred_drive s); [by apply IH |]. destruct (fs_try_drive_ok w0 s d H Hd1) as [T1 _].
  destruct (fs_try_drive s d) as [s1 [|]]; [done | by apply IH].
Qed.
Lemma fs_init_safe w0 s : safe w0 s -> safe w0 (fst (fs_init s)).
Proof.
  intros H. unfold fs_init. destruct (negb _); [done |]. destruct (fs_try_drive_ok w0 s _ H (proj1 H)) as [T1 _].
  destruct (fs_try_drive s (fs_preferred_drive s)) as [s1 [|]]; [done |]. cbn [fst] in T1.
  assert (T2 : safe w0 (fst (try_drives (seqZ 1 3 ++ seqZ USBMSC_DRIVE_BASE 4) s1))) by (apply try_drives_ok; [| done]; repeat (apply Forall_cons; split; [done |]); by apply Forall_nil).
  destruct (try_drives _ s1) as [s2 [|]]; [done |]. cbn [fst] in T2. destruct (negb _); [done |].
  pose proof (d_read_sector (world s2) (fs_preferred_drive s2) 0) as Hr. unfold lift. destruct (ata_read_sector _ _ 0) as [w' r]. cbn [fst snd] in *.
  eapply safe_moves; [exact T2 | exact (proj1 T2) | by apply keeps_moves].
Qed.

(** *** Formatting *)

Lemma wipe_moves n : forall w d lba, moves d w (wipe_from n w d lba).
Proof.
  induction n as [| n IH]; intros w d lba; [apply moves_refl |]. cbn [wipe_from]. eapply moves_trans; [| apply IH]. apply writes_moves, d_write_sector.
Qed.
Lemma volume_start_moves w d : moves d w (fst (fs_volume_start w d)).
Proof. unfold fs_volume_start. pose proof (d_read_sector w d 0) as H. apply (keeps_moves d) in H. by destruct (ata_read_sector w d 0). Qed.
Lemma blank_moves n : forall w d lba, moves d w (fst (blank_from n w d lba)).
Proof.
  induction n as [| n IH]; intros w d lba; [apply moves_refl |]. cbn [blank_from]. pose proof (d_read_sector w d lba) as H. apply (keeps_moves d) in H.
  destruct (ata_read_sector w d lba) as [w1 [b |]]; [| done]. destruct (sec_blank b); [| done]. eapply moves_trans; [exact H | apply IH].
Qed.
Lemma drive_blank_safe w0 s : safe w0 s -> safe w0 (fst (fs_drive_blank s)).
Proof.
  intros H. unfold fs_drive_blank. set (d := fs_preferred_drive s). pose proof (volume_start_moves (world s) d) as M1. destruct (fs_volume_start (world s) d) as [w1 start].
  pose proof (blank_moves (Z.to_nat FS_BLANK_SCAN) w1 d 0) as M2. destruct (blank_from _ w1 d 0) as [w2 ok]. cbn [fst] in *.
  assert (M3 : moves d (world s) w2) by by eapply moves_trans. destruct (negb ok).
  - eapply safe_moves; [done | exact (proj1 H) | done].
  - eapply safe_moves; [done | exact (proj1 H) |]. eapply moves_trans; [exact M3 | apply blank_moves].
Qed.

(** The middle of [fs_format]: what the driver of the type does. *)
Definition formats (w : W) (d t start : Z) : W * bool :=
  if t =? FS_EXFAT then
    let '(w, r) := v_format VExfat (exfat_reset_cwd (exfat_set_drive w d)) d t start in (w, r =? 0)
  else if fat_type_ok t then let '(w, r) := v_format VFat w d t start in (w, r =? t)
  else if (t =? FS_EXT4) || (t =? FS_NTFS) || (t =? FS_F2FS) || (t =? FS_REFS) then
    let '(w, r) := v_format (vol_of t) w d t start in (w, r =? 0)
  else (w, false).

Lemma format_step v w d t start : v <> VExfat ->
  let r := v_format v w d t start in
  moves d w (fst r) /\ ((snd r =? (if decide (v = VFat) then t else 0)) = true -> mounted (fst r) v = d).
Proof. intros Hv. split; [eapply turns_moves; by apply d_format | intros E; apply Z.eqb_eq in E; by apply d_formatted]. Qed.

Lemma formats_ok w d t start : moves d w (fst (formats w d t start)) /\
  (snd (formats w d t start) = true -> mounted (fst (formats w d t start)) (vol_of t) = d).
Proof.
  unfold formats. destruct (Z.eqb_spec t FS_EXFAT) as [-> |].
  - set (w1 := exfat_reset_cwd (exfat_set_drive w d)).
    assert (M1 : moves d w w1) by (eapply moves_trans; [apply set_drive_moves | apply keeps_moves, d_reset_cwd]).
    assert (D1 : mounted w1 VExfat = d) by (unfold w1; rewrite (proj2 (d_reset_cwd _)), (proj2 (d_set_drive w d)); by rewrite decide_True).
    pose proof (d_exfat_format w1 d FS_EXFAT start) as F. rewrite D1 in F. destruct (v_format VExfat w1 d FS_EXFAT start) as [w2 r]. cbn [fst snd] in *.
    split; [eapply moves_trans; [exact M1 | by apply writes_moves] |]. intros _. rewrite (proj2 F). exact D1.
  - destruct (fat_type_ok t) eqn:Et.
    + pose proof (format_step VFat w d t start ltac:(done)) as [F1 F2]. rewrite fat_vol by done. destruct (v_format VFat w d t start) as [w2 r]. by split.
    + destruct (_ || _) eqn:Eo; [| split; [apply moves_refl | done]].
      assert (Hv : vol_of t <> VExfat /\ vol_of t <> VFat).
      { apply orb_true_iff in Eo as [Eo | ->%Z.eqb_eq]; [| done]. apply orb_true_iff in Eo as [Eo | ->%Z.eqb_eq]; [| done]. apply orb_true_iff in Eo as [->%Z.eqb_eq | ->%Z.eqb_eq]; done. }
      pose proof (format_step (vol_of t) w d t start (proj1 Hv)) as [F1 F2]. rewrite decide_False in F2 by apply Hv. destruct (v_format (vol_of t) w d t start) as [w2 r]. by split.
Qed.

(** A type that cannot be formatted is refused only after the head of the volume
    has been overwritten. *)
Lemma format_unsupported_wipes s (d := fs_preferred_drive s) (Hd : d <> 0) :
  fs_format s FS_EROFS =
  (with_world s (fs_wipe_head (fst (fs_volume_start (world s) d)) d (snd (fs_volume_start (world s) d))), -1).
Proof.
  unfold fs_format. fold d. rewrite (proj2 (Z.eqb_neq d 0)) by done. by destruct (fs_volume_start (world s) d).
Qed.

Lemma fs_format_safe w0 s t : safe w0 s -> safe w0 (fst (fs_format s t)).
Proof.
  intros H. unfold fs_format. set (d := fs_preferred_drive s). destruct (Z.eqb_spec d 0) as [| Hd]; [done |].
  pose proof (volume_start_moves (world s) d) as M1. destruct (fs_volume_start (world s) d) as [w1 start]. cbn [fst] in M1.
  pose proof (wipe_moves (Z.to_nat FS_WIPE_SECTORS) w1 d start : moves d w1 (fs_wipe_head w1 d start)) as M2.
  destruct (formats_ok (fs_wipe_head w1 d start) d t start) as [F1 F2]. unfold formats in F1, F2. cbv zeta. destruct (if t =? FS_EXFAT then _ else _) as [w3 ok]. cbn [fst snd] in *.
  assert (Hs : safe w0 (with_world s w3)) by (eapply safe_moves; [done.. | eapply moves_trans; [exact M1 |]; by eapply moves_trans]).
  destruct ok; cbn [negb fst]; [| done]. apply (mounted_as_safe w0 (with_ro_cwd (with_world s w3) [47]) t d); [done | done | by apply F2].
Qed.

(** *** The operations *)

Lemma fat_type s : fs_is_fat s = true -> fs_type_cur s <> FS_NONE /\ vol_of (fs_type_cur s) = VFat.
Proof. intros H. split; [| by apply fat_vol]. intros E. unfold fs_is_fat in H. by rewrite E in H. Qed.

Lemma exfat_or_fat_safe {A} w0 s (f : vol -> W -> W * A) (els : fs_state W * A) : safe w0 s ->
  (forall v w, writes (mounted w v) w (fst (f v w))) -> safe w0 (fst els) ->
  safe w0 (fst (if fs_type_cur s =? FS_EXFAT then lift s (f VExfat (world s)) else if fs_is_fat s then lift s (f VFat (world s)) else els)).
Proof.
  intros H Hf He. destruct (Z.eqb_spec (fs_type_cur s) FS_EXFAT) as [E |].
  - apply safe_lift with (v := VExfat); [done | by rewrite E | by rewrite E | apply Hf].
  - destruct (fs_is_fat s) eqn:Ef; [| done]. apply fat_type in Ef as [E1 E2]. by apply safe_lift with (v := VFat).
Qed.
Lemma ro_safe {A} w0 s (f : vol -> W -> W * A) fail : safe w0 s -> (forall v w, writes (mounted w v) w (fst (f v w))) -> safe w0 (fst (ro_call ro_vol f fail s)).
Proof. intros. apply safe_ro_call; [done | apply ro_vol_of | done]. Qed.
Lemma rw_safe {A} w0 s (f : vol -> W -> W * A) fail : safe w0 s -> (forall v w, writes (mounted w v) w (fst (f v w))) -> safe w0 (fst (ro_call rw_vol f fail s)).
Proof. intros. apply safe_ro_call; [done | intros v E; by apply ro_vol_of, rw_ro | done]. Qed.

Lemma on_volume_safe {A} w0 s (f : vol -> W -> list Z -> W * A) g fail full : safe w0 s ->
  (forall v w p, writes (mounted w v) w (fst (f v w p))) -> (forall p, safe w0 (fst (g s p))) -> safe w0 (fst (on_volume f g fail s full)).
Proof.
  intros H Hf Hg. unfold on_volume. apply (exfat_or_fat_safe w0 s (fun v w => f v w full)); [done | intros; apply Hf |].
  destruct (fs_is_ro s); [| done]. by destruct (fs_ro_abs _ _ _).
Qed.
Lemma change_volume_safe w0 s f g name : safe w0 s ->
  (forall v w p, writes (mounted w v) w (fst (f v w p))) -> (forall p, safe w0 (fst (g s p))) -> safe w0 (fst (change_volume f g s name)).
Proof.
  intros. unfold change_volume. destruct (fs_resolve_path _ _ _); [| done]. destruct (Sysvol.sysvol_is_path _); [done |]. by apply on_volume_safe.
Qed.
Lemma replace_file_writes bs v w p : writes (mounted w v) w (fst (replace_file bs v w p)).
Proof.
  unfold replace_file. destruct (d_delete_file v w p) as [D1 D2]. destruct (d_create_file v (fst (v_delete_file v w p)) p bs) as [C1 C2].
  rewrite D2 in C1. split; [intros e l He; by rewrite C1, D1 | intros u; by rewrite C2, D2].
Qed.
Lemma fs_set_drive_safe w0 s d : safe w0 s -> d <> 0 -> safe w0 (fs_set_drive s d).
Proof.
  intros (H1 & H2 & H3) Hd. unfold fs_set_drive. destruct (_ <=? _); [done |]. destruct (_ && _); [done |].
  destruct (d_reset_cwd (world s)) as [K1 K2]. cbn [fs_type_cur with_preferred]. destruct (negb _); [| done].
  split; [done |]. split; [by left |]. intros l. cbn. by rewrite K1.
Qed.
Lemma change_disk_dir_safe w0 s name : safe w0 s -> safe w0 (fst (change_disk_dir s name)).
Proof.
  intros H. unfold change_disk_dir. apply (exfat_or_fat_safe w0 s (fun v w => v_change_dir v w name)); [done | intros; apply d_change_dir |].
  destruct (fs_is_ro s); [| done]. destruct (fs_ro_abs _ _ _) as [p |]; [| done].
  pose proof (ro_safe w0 s (fun v w => v_is_dir v w p) (-1) H (fun v w => d_is_dir v w p)) as Hr. unfold ro_is_dir.
  destruct (ro_call _ _ _ s) as [s1 r]. by destruct (negb _).
Qed.
Lemma fs_change_dir_safe w0 s name : safe w0 s -> safe w0 (fst (fs_change_dir s name)).
Proof.
  intros H. unfold fs_change_dir. case_bool_decide; [done |]. destruct (_ && _); [done |]. destruct (_ && _); [done |].
  destruct (Sysvol.sysvol_is_path name); [| by apply change_disk_dir_safe]. destruct (fs_set_sysvol_cwd name) as [cwd r]. destruct (negb _); [done |]. by destruct (negb _).
Qed.

Hint Resolve d_read_file d_get_file_size d_create_file d_delete_file d_list_root d_read_cwd d_read_dir d_mkdir d_rmdir d_used_clusters d_get_file_clusters replace_file_writes : fsw.
Hint Resolve ro_safe rw_safe : fsw.

Definition not_boot_drive (c : fs_call) : Prop := match c with CSetDrive d => d <> 0 | _ => True end.

Lemma fs_do_safe w0 s c : safe w0 s -> not_boot_drive c -> safe w0 (fs_do table blob s c).
Proof.
  intros H Hc. destruct c; cbn [fs_do not_boot_drive] in *.
  - by apply fs_init_safe.
  - by apply fs_set_drive_safe.
  - by apply fs_format_safe.
  - by apply drive_blank_safe.
  - unfold fs_read_file. destruct (fs_resolve_path _ _ _); [| done]. destruct (Sysvol.sysvol_is_path _); [done |]. apply on_volume_safe; unfold ro_read_file; auto with fsw.
  - unfold fs_get_file_size. destruct (fs_resolve_path _ _ _); [| done]. destruct (Sysvol.sysvol_is_path _); [done |]. apply on_volume_safe; unfold ro_get_file_size; auto with fsw.
  - unfold fs_create_file. destruct (fs_resolve_path _ _ _); [| done]. destruct (Sysvol.sysvol_is_path _); [done |]. destruct (_ =? FS_NONE); [done |]. apply on_volume_safe; unfold ro_create_file; auto with fsw.
  - apply change_volume_safe; unfold ro_delete_file; auto with fsw.
  - unfold fs_list_root. apply exfat_or_fat_safe; auto with fsw.
  - unfold fs_read_dir. apply (exfat_or_fat_safe w0 s (fun v w => v_read_cwd v w n)); auto with fsw. destruct (fs_is_ro s); [| done]. destruct (fs_ro_abs _ _ _); [| done]. unfold ro_read_dir. auto with fsw.
  - unfold fs_read_dir_path. destruct (fs_resolve_path _ _ _) as [full |]; [| done]. destruct (Sysvol.sysvol_is_path _); [done |].
    apply (exfat_or_fat_safe w0 s (fun v w => v_read_dir v w full n)); auto with fsw. destruct (fs_is_ro s); [| done]. unfold ro_read_dir. auto with fsw.
  - by apply fs_change_dir_safe.
  - apply change_volume_safe; unfold ro_mkdir; auto with fsw.
  - apply change_volume_safe; unfold ro_rmdir; auto with fsw.
  - unfold fs_count_used_clusters. apply exfat_or_fat_safe; auto with fsw. destruct (fs_is_ro s); [| done]. unfold ro_used_clusters. auto with fsw.
  - apply on_volume_safe; unfold ro_get_file_clusters; auto with fsw.
Qed.

End Safe.

(** ** The system volume *)

Lemma is_path_app p q : Sysvol.sysvol_is_path p = true -> Sysvol.sysvol_is_path (p ++ 47 :: q) = true.
Proof.
  unfold Sysvol.sysvol_is_path. destruct p as [| c p]; [done |]. cbn [app]. rewrite !orb_true_iff. intros [H | H]; [left | right]; by apply (sv_seg_is_app (c :: p)).
Qed.

Lemma sv_skip_slash p : sv_skip (skip_slash p) = sv_skip p.
Proof. induction p as [| c p IH]; [done |]. cbn [skip_slash]. destruct (Z.eqb_spec c 47) as [-> |]; [exact IH | done]. Qed.
Lemma is_path_segs p : Sysvol.sysvol_is_path p = sv_seg_is p (bytes "bin") || sv_seg_is p (bytes "system").
Proof. by destruct p. Qed.

(** A name that is accepted as the directory of the system volume. *)
Lemma cwd_from_ok fuel : forall p cwd, 47 ∉ p ->
  sysvol_cwd_from fuel p cwd = (cwd ++ map sv_lower (take fuel p), drop fuel p).
Proof.
  induction fuel as [| fuel IH]; intros p cwd H; [by rewrite app_nil_r |]. destruct p as [| c p]; [by rewrite app_nil_r |].
  apply not_elem_of_cons in H as [H1 H2]. cbn [sysvol_cwd_from take drop map]. rewrite (proj2 (Z.eqb_neq c 47)) by congruence. rewrite IH by done. by rewrite <- app_assoc.
Qed.
Lemma set_sysvol_cwd_ok name : snd (span_comp (skip_slash name)) = [] -> snd (fs_set_sysvol_cwd name) = 0 -> Sysvol.sysvol_is_path name = true ->
  Sysvol.sysvol_is_path (fst (fs_set_sysvol_cwd name)) = true /\ (length (fst (fs_set_sysvol_cwd name)) <= 7)%nat.
Proof.
  intros H1 H2 H3. destruct (span_comp_spec (skip_slash name)) as (q & E1 & E2 & N & _). rewrite H1 in E2. subst q. rewrite app_nil_r in E1. rewrite <- E1 in N. clear E1.
  unfold fs_set_sysvol_cwd in *. rewrite is_path_segs in H3. unfold sv_seg_is in H3. rewrite <- sv_skip_slash in H3.
  destruct (skip_slash name) as [| c p] eqn:Es; [done |]. rewrite cwd_from_ok in * by done.
  destruct (drop 6 (c :: p)) as [| x r] eqn:Ed.
  - cbn [fst]. assert (Hl : (length (c :: p) <= 6)%nat) by (apply (f_equal length) in Ed; rewrite length_drop in Ed; cbn [length] in *; lia).
    rewrite take_ge by done. split; [| cbn [app]; rewrite length_cons, length_map; lia].
    rewrite is_path_segs. cbn [app]. rewrite !seg_is_root, !sv_seg_is_lower. exact H3.
  - exfalso. rewrite <- (take_drop 6 (c :: p)), Ed in N. destruct (Z.eqb_spec x 47) as [-> |]; [set_solver | done].
Qed.

Section System.
Context {W : Type} {DO : DriverOps W}.
Variable table : list sysvol_entry_t.
Variable blob : list Z.
Implicit Types s : fs_state W.

Lemma try_ro_cwd d vs : forall s, g_sysvol_cwd (fst (try_ro vs s d)) = g_sysvol_cwd s.
Proof. induction vs as [| [v t] vs IH]; intros s; [done |]. cbn [try_ro]. destruct (fs_scan_ro _ _ _) as [w [|]]; [done |]. by rewrite IH. Qed.
Lemma fs_try_drive_cwd s d : g_sysvol_cwd (fst (fs_try_drive s d)) = g_sysvol_cwd s.
Proof.
  unfold fs_try_drive. destruct (negb _); [done |]. destruct (exfat_init _) as [w r]. destruct (r =? 0); [done |].
  destruct (fat_try_mount _ _) as [w2 t]. destruct (fat_type_ok t); [done |]. unfold fs_try_ro_drives. by rewrite try_ro_cwd.
Qed.
Lemma try_drives_cwd ds : forall s, g_sysvol_cwd (fst (try_drives ds s)) = g_sysvol_cwd s.
Proof.
  induction ds as [| d ds IH]; intros s; [done |]. cbn [try_drives]. destruct (d =? _); [apply IH |].
  pose proof (fs_try_drive_cwd s d) as H. destruct (fs_try_drive s d) as [s1 [|]]; [done |]. by rewrite IH.
Qed.
Lemma fs_init_cwd s : g_sysvol_cwd (fst (fs_init s)) = g_sysvol_cwd s.
Proof.
  unfold fs_init. destruct (negb _); [done |]. pose proof (fs_try_drive_cwd s (fs_preferred_drive s)) as H1.
  destruct (fs_try_drive s _) as [s1 [|]]; [done |]. pose proof (try_drives_cwd (seqZ 1 3 ++ seqZ USBMSC_DRIVE_BASE 4) s1) as H2.
  destruct (try_drives _ s1) as [s2 [|]]; cbn [fst] in *; [congruence |]. destruct (negb _); cbn [fst]; [congruence |].
  unfold lift. destruct (ata_read_sector _ _ _). cbn in *. congruence.
Qed.
Lemma fs_format_cwd s t : g_sysvol_cwd (fst (fs_format s t)) = g_sysvol_cwd s.
Proof.
  unfold fs_format. destruct (_ =? 0); [done |]. destruct (fs_volume_start _ _) as [w start]. cbv zeta.
  destruct (if t =? FS_EXFAT then _ else _) as [w3 ok]. by destruct ok.
Qed.
Lemma fs_set_drive_cwd s d : g_sysvol_cwd (fs_set_drive s d) = g_sysvol_cwd s.
Proof. unfold fs_set_drive. destruct (_ <=? _); [done |]. destruct (_ && _); [done |]. by destruct (negb _). Qed.
Lemma fs_drive_blank_cwd s : g_sysvol_cwd (fst (fs_drive_blank s)) = g_sysvol_cwd s.
Proof. unfold fs_drive_blank. destruct (fs_volume_start _ _) as [w start]. destruct (blank_from _ _ _ 0) as [w2 ok]. by destruct (negb ok). Qed.
Lemma ro_call_cwd {A} tab (f : vol -> W -> W * A) fail s : g_sysvol_cwd (fst (ro_call tab f fail s)) = g_sysvol_cwd s.
Proof. unfold ro_call. by destruct (tab _). Qed.
Lemma on_volume_cwd {A} (f : vol -> W -> list Z -> W * A) g fail s full :
  (forall p, g_sysvol_cwd (fst (g s p)) = g_sysvol_cwd s) -> g_sysvol_cwd (fst (on_volume f g fail s full)) = g_sysvol_cwd s.
Proof. intros H. unfold on_volume. destruct (_ =? _); [done |]. destruct (fs_is_fat s); [done |]. destruct (fs_is_ro s); [| done]. destruct (fs_ro_abs _ _ _); [apply H | done]. Qed.

(** The directory of the system volume, if there is one, is a path of it. *)
Definition cwd_ok s : Prop :=
  g_sysvol_cwd s = [] \/ Sysvol.sysvol_is_path (g_sysvol_cwd s) = true /\ (length (g_sysvol_cwd s) <= 7)%nat.

Lemma fs_change_dir_ok s name : cwd_ok s -> cwd_ok (fst (fs_change_dir s name)).
Proof.
  intros H. unfold fs_change_dir. case_bool_decide; [done |]. destruct (_ && _); [done |]. destruct (_ && _); [by left |].
  destruct (Sysvol.sysvol_is_path name) eqn:Ep.
  - pose proof (set_sysvol_cwd_ok name) as Hs. assert (F : snd (fs_set_sysvol_cwd name) <> 0 -> fst (fs_set_sysvol_cwd name) = []).
    { unfold fs_set_sysvol_cwd. destruct (skip_slash name); [done |]. destruct (sysvol_cwd_from _ _ _) as [cwd [| c r]]; [done |]. by destruct (c =? 47). }
    destruct (fs_set_sysvol_cwd name) as [cwd r]. cbn [fst snd] in *. destruct (Z.eqb_spec r 0) as [-> | Hr]; cbn [negb].
    + case_bool_decide as E; cbn [negb fst]; [right; by apply Hs | by left].
    + left. cbn. by apply F.
  - left. unfold change_disk_dir. destruct (_ =? _); [done |]. destruct (fs_is_fat _); [done |]. destruct (fs_is_ro _); [| done].
    destruct (fs_ro_abs _ _ _) as [p |]; [| done]. pose proof (ro_call_cwd ro_vol (fun v w => v_is_dir v w p) (-1) (with_sysvol_cwd s [])) as R.
    unfold ro_is_dir. destruct (ro_call _ _ _ _) as [s1 r]. by destruct (negb _).
Qed.

Lemma fs_do_cwd s c : (forall n, c <> CChangeDir n) -> g_sysvol_cwd (fs_do table blob s c) = g_sysvol_cwd s.
Proof.
  intros Hc. destruct c as [| d | t | | n m | n | n bs | n | | m | p m | n | n | n | | n]; cbn [fs_do].
  - apply fs_init_cwd.
  - apply fs_set_drive_cwd.
  - apply fs_format_cwd.
  - apply fs_drive_blank_cwd.
  - unfold fs_read_file. destruct (fs_resolve_path _ _ _); [| done]. destruct (Sysvol.sysvol_is_path _); [done |]. apply on_volume_cwd. intros; apply ro_call_cwd.
  - unfold fs_get_file_size. destruct (fs_resolve_path _ _ _); [| done]. destruct (Sysvol.sysvol_is_path _); [done |]. apply on_volume_cwd. intros; apply ro_call_cwd.
  - unfold fs_create_file. destruct (fs_resolve_path _ _ _); [| done]. destruct (Sysvol.sysvol_is_path _); [done |]. destruct (_ =? FS_NONE); [done |]. apply on_volume_cwd. intros; apply ro_call_cwd.
  - unfold fs_delete_file, change_volume. destruct (fs_resolve_path _ _ _); [| done]. destruct (Sysvol.sysvol_is_path _); [done |]. apply on_volume_cwd. intros; apply ro_call_cwd.
  - unfold fs_list_root. destruct (_ =? _); [done |]. by destruct (fs_is_fat s).
  - unfold fs_read_dir. destruct (_ =? _); [done |]. destruct (fs_is_fat s); [done |]. destruct (fs_is_ro s); [| done]. destruct (fs_ro_abs _ _ _); [apply ro_call_cwd | done].
  - unfold fs_read_dir_path. destruct (fs_resolve_path _ _ _); [| done]. destruct (Sysvol.sysvol_is_path _); [done |].
    destruct (_ =? _); [done |]. destruct (fs_is_fat s); [done |]. destruct (fs_is_ro s); [apply ro_call_cwd | done].
  - by destruct (Hc n).
  - unfold fs_mkdir, change_volume. destruct (fs_resolve_path _ _ _); [| done]. destruct (Sysvol.sysvol_is_path _); [done |]. apply on_volume_cwd. intros; apply ro_call_cwd.
  - unfold fs_rmdir, change_volume. destruct (fs_resolve_path _ _ _); [| done]. destruct (Sysvol.sysvol_is_path _); [done |]. apply on_volume_cwd. intros; apply ro_call_cwd.
  - unfold fs_count_used_clusters. destruct (_ =? _); [done |]. destruct (fs_is_fat s); [done |]. destruct (fs_is_ro s); [apply ro_call_cwd | done].
  - apply on_volume_cwd. intros; apply ro_call_cwd.
Qed.
Lemma fs_run_cwd_ok cs : forall s, cwd_ok s -> cwd_ok (fs_run table blob s cs).
Proof.
  induction cs as [| c cs IH]; intros s H; [done |]. apply (IH (fs_do table blob s c)).
  destruct c; try (unfold cwd_ok; rewrite fs_do_cwd by done; exact H). by apply fs_change_dir_ok.
Qed.

(** The path of the system volume for which a name stands, if it does. *)
Definition system_path (cwd name : list Z) : option (list Z) :=
  if bool_decide (cwd = []) || bool_decide (List.hd 0 name = 47) then if Sysvol.sysvol_is_path name then Some name else None
  else if bool_decide (name = []) || is_dots name then None else Some (cwd ++ 47 :: name).

Lemma resolve_system s name p : cwd_ok s -> system_path (g_sysvol_cwd s) name = Some p -> (length p < 256)%nat ->
  fs_resolve_path (g_sysvol_cwd s) name 256 = Some p /\ Sysvol.sysvol_is_path p = true.
Proof.
  unfold system_path, fs_resolve_path. intros Hc H Hl. change (256 <? 2) with false. cbv iota.
  case_bool_decide as E1; cbn [orb] in *.
  - destruct (Sysvol.sysvol_is_path name) eqn:Ep; [| done]. injection H as ->. by rewrite (proj2 (Z.leb_gt _ _)) by lia.
  - destruct Hc as [? | [Hc _]]; [done |]. destruct (bool_decide (List.hd 0 name = 47)) eqn:Eh; cbn [orb] in *.
    + rewrite orb_true_r. cbn [orb]. destruct (Sysvol.sysvol_is_path name) eqn:Ep; [| done]. injection H as ->. by rewrite (proj2 (Z.leb_gt _ _)) by lia.
    + rewrite orb_false_r. destruct (_ || _) in *; [done |]. injection H as <-. rewrite length_app in Hl. cbn [length] in Hl.
      rewrite (proj2 (Z.ltb_ge _ _)) by lia. split; [done | by apply is_path_app].
Qed.

(** After any sequence of calls, formats and changes of drive included, a name
    that stands for a path of the system volume (absolute, or relative to its
    directory) gives the contents, the size and the listing of the built-in volume
    from any mounted file system or none, and creating, deleting and making or
    removing a directory under it fails and changes nothing; the current directory
    of the system volume always is one of its paths. *)
Theorem system_volume_kept (w : W) (cs : list fs_call) (name p : list Z) :
  let s := fs_run table blob (fs_boot w) cs in
  cwd_ok s /\
  (system_path (g_sysvol_cwd s) name = Some p -> (length p < 256)%nat ->
   (forall m, fs_read_file table blob s name m = (s, sysvol_read table blob p m)) /\
   fs_get_file_size table s name = (s, sysvol_size table p) /\
   (forall n, fs_read_dir_path table s name n = (s, sysvol_list table p n)) /\
   (forall bs, fs_create_file s name bs = (s, -1)) /\
   fs_delete_file s name = (s, -1) /\ fs_mkdir s name = (s, -1) /\ fs_rmdir s name = (s, -1)).
Proof.
  cbv zeta. assert (Hc : cwd_ok (fs_run table blob (fs_boot w) cs)) by (apply fs_run_cwd_ok; by left). split; [done |].
  set (s := fs_run table blob (fs_boot w) cs) in *. intros H Hl. destruct (resolve_system s name p Hc H Hl) as [R1 R2].
  unfold fs_read_file, fs_get_file_size, fs_read_dir_path, fs_create_file, fs_delete_file, fs_mkdir, fs_rmdir, change_volume. rewrite R1, R2. done.
Qed.
End System.

(** ** An instance: drives of sectors and one file at a fixed sector *)

Record toy := mk_toy { td : Z -> Z -> list Z; tm : vol -> Z }.
Definition toy_put (w : toy) (d l : Z) (b : list Z) : toy := mk_toy (fun e m => if (e =? d) && (m =? l) then b else td w e m) (tm w).
Definition toy_turn (w : toy) (v : vol) (d : Z) : toy := mk_toy (td w) (fun u => if decide (u = v) then d else tm w u).

#[local] Instance toy_ops : DriverOps toy := {
  ata_drive_present w d := true;
  ata_read_sector w d l := (w, Some (td w d l));
  ata_write_sector w d l b := (toy_put w d l b, true);
  exfat_set_drive w d := toy_turn w VExfat d;
  exfat_reset_cwd w := w;
  exfat_init w := (w, -1);
  v_mount v w d p := (toy_turn w v d, if decide (v = VFat) then (if List.hd 0 (td w d p) =? 12 then 12 else 0) else -1);
  v_format v w d t p := if decide (v = VFat) then (toy_turn (toy_put w d p [12]) VFat d, t) else (w, -1);
  v_info v w := mk_vi 0 512 1 0 0;
  v_read_file v w n m := (w, Some (td w (tm w v) 100));
  v_get_file_size v w n := (w, Z.of_nat (length (td w (tm w v) 100)));
  v_create_file v w n b := (toy_put w (tm w v) 100 b, 0);
  v_delete_file v w n := (toy_put w (tm w v) 100 [], 0);
  v_list_root v w := (w, 0);
  v_read_cwd v w m := (w, Some []);
  v_read_dir v w n m := (w, Some []);
  v_change_dir v w n := (w, -1);
  v_is_dir v w n := (w, 0);
  v_mkdir v w n := (w, -1);
  v_rmdir v w n := (w, -1);
  v_cwd_path v w := [47];
  v_used_clusters v w := (w, 0);
  v_get_file_clusters v w n := (w, 0);
  data := td;
  mounted := tm;
}.

Lemma toy_put_writes w d l b : writes d w (toy_put w d l b).
Proof. split; [| done]. intros e m He. cbn. by rewrite (proj2 (Z.eqb_neq e d)) by done. Qed.
Lemma toy_turns w v d : turns v d w (toy_turn w v d).
Proof. split_and!; cbn; [done | intros u Hu; by rewrite decide_False | right; by rewrite decide_True]. Qed.
#[local] Hint Resolve toy_put_writes toy_turns : core.

#[local] Instance toy_drivers : Drivers toy.
Proof.
  assert (R : forall v w, writes (tm w v) w w) by done.
  split; cbn; intros; try apply toy_put_writes; try done; try apply R.
  - by rewrite decide_True.
  - destruct (decide (v = VFat)) as [-> |]; [| split_and!; [done | done | by left]].
    split_and!; cbn; [intros e l He; by rewrite (proj2 (Z.eqb_neq e d)) | intros u Hu; by rewrite decide_False | by right].
  - destruct (decide (v = VFat)) as [-> |]; [done | done].
Qed.

Definition toy_boot : toy := mk_toy (fun _ _ => [7]) (fun _ => 0).
Definition toy_table : list sysvol_entry_t := [mk_sve (bytes "/bin/hello.elf") 0 3; mk_sve (bytes "/system/version") 3 2].
Definition toy_blob : list Z := [1; 2; 3; 4; 5].
Definition toy_calls : list fs_call :=
  [CInit; CFormat 12; CCreate (bytes "a") [8; 9]; CSetDrive 2; CInit; CFormat 12; CCreate (bytes "b") [6]; CSetDrive 3; CFormat 4].


Lemma system_volume_kept_witness :
  let s := fs_run toy_table toy_blob (fs_boot toy_boot) (toy_calls ++ [CChangeDir (bytes "/BIN")]) in
  fs_read_file toy_table toy_blob s (bytes "hello") 10 = (s, Some [1; 2; 3]) /\ fs_create_file s (bytes "hello") [0] = (s, -1) /\
  fs_read_file toy_table toy_blob s (bytes "/system/Version") 1 = (s, Some [4]).
Proof.
  cbv zeta. set (cs := toy_calls ++ [CChangeDir (bytes "/BIN")]).
  destruct (system_volume_kept toy_table toy_blob toy_boot cs (bytes "hello") (bytes "/bin/hello")) as [_ H1].
  destruct (system_volume_kept toy_table toy_blob toy_boot cs (bytes "/system/Version") (bytes "/system/Version")) as [_ H2].
  destruct H1 as (R1 & _ & _ & C1 & _); [vm_compute; reflexivity | cbn; lia |]. destruct H2 as (R2 & _); [vm_compute; reflexivity | cbn; lia |].
  split_and!; [rewrite R1; f_equal; vm_compute; reflexivity | apply C1 | rewrite R2; f_equal; vm_compute; reflexivity].
Defined.
