(* ===== verification/Syscall.v ===== *)
(** * Syscall: the system calls ([kernel/syscall.c])

    The check of user pointers and [syscall_handler] on the state of [Proc.v].
    User memory is read and written through the page tables of the caller. *)

From S2P Require Import Prelude Kstack Interfaces HeapAlloc Kmalloc Keyboard Pmm Paging Elf ElfLoad Space Sched Fd FdProps Task Proc.

Definition SYS_READ : Z := 0.
Definition SYS_WRITE : Z := 1.
Definition SYS_EXIT : Z := 2.
Definition SYS_OPEN : Z := 5.
Definition SYS_CLOSE : Z := 6.
Definition SYS_LSEEK : Z := 19.
Definition SYS_PIPE : Z := 42.
Definition SYS_FORK : Z := 43.
Definition SYS_WAITPID : Z := 44.
Definition SYS_GETPID : Z := 45.
Definition SYS_SOCKCALL : Z := 102.

(** ** User pointers *)

(** The loop over the pages from [p] to [last]. *)
Fixpoint range_pages (n : nat) (st : pg_state) (p last : Z) (writable : bool) : bool :=
  match n with
  | O => false
  | S n' =>
      match paging_query st p with
      | None => false
      | Some (_, flags) =>
          if flags &! PTE_US =? 0 then false
          else if writable && (flags &! PTE_RW =? 0) then false
          else if p =? last then true
          else range_pages n' st (p +! 0x1000) last writable
      end
  end.

Definition user_range_ok (st : pg_state) (va len : Z) (writable : bool) : bool :=
  if len =? 0 then true
  else if va +! len <? va then false
  else
    let first := va &! ~! 0xFFF in
    let last := (va +! len -! 1) &! ~! 0xFFF in
    range_pages (Z.to_nat ((last - first) / 4096 + 1)) st first last writable.

(** A load of [n] bytes by the kernel; [None] is a page fault. *)
Fixpoint user_bytes (n : nat) (w : mach) (va : Z) : option (list Z) :=
  match n with O => Some [] | S n' => b ← vload w va; l ← user_bytes n' w (va + 1); Some (b :: l) end.

(** The name at [u], at most [n] characters; [Some None] when the call fails. *)
Fixpoint copy_name (n : nat) (w : mach) (u : Z) : option (option (list Z)) :=
  match n with
  | O => Some None
  | S n' =>
      if negb (user_range_ok (m_pg w) u 1 false) then Some None
      else
        c ← vload w u;
        if c =? 0 then Some (Some [])
        else r ← copy_name n' w (u +! 1); Some (option_map (cons c) r)
  end.

(** An [int] in memory. *)
Definition int_bytes (v : Z) : list Z :=
  let x := u32 v in [x mod 256; x / 256 mod 256; x / 65536 mod 256; x / 16777216 mod 256].
Definition bytes_word (l : list Z) (i : Z) : Z :=
  aget 0 l i + 256 * aget 0 l (i + 1) + 65536 * aget 0 l (i + 2) + 16777216 * aget 0 l (i + 3).

Section Syscall.
Context {H F N : Type} `{HA : Allocator H} `{FS : FileSys F}.
(** As in [Fd.v] and [Proc.v]. *)
Variables (pipe_wq : Z -> Z) (kb_wq wq_reap area trampoline : Z).

Notation kern := (@kern H F).
Notation proc := (@proc H F).

(** [g_syscalls], [g_user_exited], [g_syscall_frame]; [sy_net] is the state of
    [kernel/net.c]. *)
Record sys := mk_sys {
  sy_proc : proc;
  g_syscalls : Z;
  g_user_exited : Z;
  g_syscall_frame : Z;
  sy_net : N;
}.

(** The call returns a value, sleeps (and its operation is run again when the task
    is woken), never returns because the process has ended, or faults. *)
Inductive sysret := SRet (s : sys) (r : Z) | SSleep (s : sys) | SGone (s : sys) | SFault.

(** [net_sockcall]. *)
Variable net_sockcall : sys -> Z -> list Z -> sysret.

Definition with_proc (s : sys) (p : proc) : sys := mk_sys p (g_syscalls s) (g_user_exited s) (g_syscall_frame s) (sy_net s).
Definition sy_kern (s : sys) : kern := pr_kern (sy_proc s).
Definition sy_mach (s : sys) : mach := pr_mach (sy_proc s).
Definition set_kern (s : sys) (k : kern) : sys := with_proc s (with_kern (sy_proc s) k).
Definition set_mach (s : sys) (m : mach) : sys := with_proc s (with_mach (sy_proc s) m).

(** A descriptor operation as a system call. *)
Definition of_outcome {A} (s : sys) (r : outcome A) (f : sys -> A -> sysret) : sysret :=
  match r with Ret k v => f (set_kern s k) v | Sleep k => SSleep (set_kern s k) | Fault => SFault end.

(** A store of the kernel to user memory, then the result. *)
Definition store_user (s : sys) (va : Z) (d : list Z) (r : Z) : sysret :=
  match vcopy (sy_mach s) va d with Some m => SRet (set_mach s m) r | None => SFault end.

(** [cur]: the slot of the current task. *)
Definition with_cur (s : sys) (f : Z -> sysret) : sysret :=
  match task_current (ksched (sy_kern s)) with None => SRet s (-1) | Some cur => f cur end.

Definition sys_write (s : sys) (a1 a2 a3 : Z) : sysret :=
  if negb (user_range_ok (m_pg (sy_mach s)) a2 a3 false) then SRet s (-1)
  else with_cur s (fun cur =>
    match user_bytes (Z.to_nat a3) (sy_mach s) a2 with
    | None => SFault
    | Some buf => of_outcome s (fd_write pipe_wq (sy_kern s) cur (s32 a1) buf) SRet
    end).

Definition sys_read (s : sys) (a1 a2 a3 : Z) (polled : nat -> list Z) : sysret :=
  if negb (user_range_ok (m_pg (sy_mach s)) a2 a3 true) then SRet s (-1)
  else with_cur s (fun cur =>
    of_outcome s (fd_read pipe_wq kb_wq (sy_kern s) cur (s32 a1) a3 polled) (fun s '(k, d) => store_user s a2 d k)).

Definition sys_open (s : sys) (a1 a2 : Z) : sysret :=
  match copy_name (Z.to_nat (FD_MAX_NAME - 1)) (sy_mach s) a1 with
  | None => SFault
  | Some None => SRet s (-1)
  | Some (Some nm) => with_cur s (fun cur => of_outcome s (fd_open (sy_kern s) cur nm (s32 a2)) SRet)
  end.

Definition sys_close (s : sys) (a1 : Z) : sysret :=
  with_cur s (fun cur => of_outcome s (fd_close pipe_wq (sy_kern s) cur (s32 a1)) SRet).

Definition sys_pipe (s : sys) (a1 : Z) : sysret :=
  if negb (user_range_ok (m_pg (sy_mach s)) a1 8 true) then SRet s (-1)
  else with_cur s (fun cur =>
    of_outcome s (fd_pipe pipe_wq (sy_kern s) cur) (fun s r =>
      match r with None => SRet s (-1) | Some (rfd, wfd) => store_user s a1 (int_bytes rfd ++ int_bytes wfd) 0 end)).

Definition sys_lseek (s : sys) (a1 a2 a3 : Z) : sysret :=
  with_cur s (fun cur =>
    let '(k, r) := fd_lseek (sy_kern s) cur (s32 a1) (s32 a2) (s32 a3) in SRet (set_kern s k) r).

Definition sys_sockcall (s : sys) (a1 a2 : Z) : sysret :=
  if negb (user_range_ok (m_pg (sy_mach s)) a2 20 false) then SRet s (-1)
  else
    match user_bytes 20 (sy_mach s) a2 with
    | None => SFault
    | Some b => net_sockcall s a1 (map (bytes_word b) [0; 4; 8; 12; 16])
    end.

Definition cur_is_user (s : sys) : bool :=
  match task_current (ksched (sy_kern s)) with None => false | Some cur => negb (is_user (task (ksched (sy_kern s)) cur) =? 0) end.

Definition sys_fork (s : sys) : sysret :=
  if negb (cur_is_user s) then SRet s (-1)
  else
    match task_fork area trampoline (sy_proc s) (g_syscall_frame s) with
    | None => SFault
    | Some (p, r) => SRet (with_proc s p) r
    end.

Definition sys_waitpid (s : sys) (a1 a2 a3 : Z) : sysret :=
  if negb (a2 =? 0) && negb (user_range_ok (m_pg (sy_mach s)) a2 4 true) then SRet s (-1)
  else
    let '(st, r) := task_wait_pid_opt (ksched (sy_kern s)) (s32 a1) (s32 a3) in
    let s := set_kern s (set_sched (sy_kern s) st) in
    match r with
    | None => SSleep s
    | Some code =>
        if code =? -1 then SRet s (-1)
        else if code =? -2 then SRet s 0
        else if negb (a2 =? 0) then store_user s a2 (int_bytes code) (s32 a1)
        else SRet s (s32 a1)
    end.

Definition sys_getpid (s : sys) : sysret :=
  SRet s (match task_current (ksched (sy_kern s)) with Some cur => s32 (pid (task (ksched (sy_kern s)) cur)) | None => 0 end).

Definition sys_exit (s : sys) (a1 : Z) : sysret :=
  if cur_is_user s then
    match process_exit pipe_wq wq_reap (sy_proc s) (s32 a1) with Some p => SGone (with_proc s p) | None => SFault end
  else SRet (mk_sys (sy_proc s) (g_syscalls s) 1 (g_syscall_frame s) (sy_net s)) (s32 a1).

(** [polled] are the keys of the USB drivers, as in [Fd.fd_read]. *)
Definition syscall_handler (s : sys) (num a1 a2 a3 : Z) (polled : nat -> list Z) : sysret :=
  let s := mk_sys (sy_proc s) (g_syscalls s +! 1) (g_user_exited s) (g_syscall_frame s) (sy_net s) in
  if num =? SYS_WRITE then sys_write s a1 a2 a3
  else if num =? SYS_READ then sys_read s a1 a2 a3 polled
  else if num =? SYS_OPEN then sys_open s a1 a2
  else if num =? SYS_CLOSE then sys_close s a1
  else if num =? SYS_PIPE then sys_pipe s a1
  else if num =? SYS_LSEEK then sys_lseek s a1 a2 a3
  else if num =? SYS_SOCKCALL then sys_sockcall s a1 a2
  else if num =? SYS_FORK then sys_fork s
  else if num =? SYS_WAITPID then sys_waitpid s a1 a2 a3
  else if num =? SYS_GETPID then sys_getpid s
  else if num =? SYS_EXIT then sys_exit s a1
  else SRet s (-1).
End Syscall.
