(* ===== verification/SyscallProps.v ===== *)
(** * SyscallProps: the system calls, proofs

    The check of user pointers is exact, and a system call with any arguments
    neither faults nor writes memory that the caller could not write itself. *)

From S2P Require Import Prelude Kstack Interfaces HeapAlloc Kmalloc Keyboard Pmm Paging Elf ElfLoad Space Sched Fd FdProps Task Proc Syscall.

(** ** User pointers *)

(** The page of the address [a] is mapped for the user, and writable if asked. *)
Definition user_byte (st : pg_state) (writable : bool) (a : Z) : Prop :=
  exists pte, view st (a / 4096) = Some pte /\ pte &! PTE_US <> 0 /\ (writable = true -> pte &! PTE_RW <> 0).

Definition user_range (st : pg_state) (va len : Z) (writable : bool) : Prop :=
  len = 0 \/ va + len < 2 ^ 32 /\ forall a, va <= a < va + len -> user_byte st writable a.

Lemma flag_land pte k : k &! 0xFFF = k -> pte &! 0xFFF &! k = pte &! k.
Proof. intros E. rewrite <- Z.land_assoc, (Z.land_comm 0xFFF), E. done. Qed.

Lemma range_pages_ok writable st last n : forall p, 0 <= p -> last = p + 4096 * Z.of_nat n -> last < 2 ^ 32 -> p mod 4096 = 0 ->
  range_pages (S n) st p last writable = true <-> forall q, p / 4096 <= q <= last / 4096 -> user_byte st writable (4096 * q).
Proof.
  induction n as [| n IH]; intros p Hp Hl Hb Ha; cbn [range_pages].
  all: assert (Hu : is_u32 p) by (unfold is_u32; lia).
  all: assert (P : (match paging_query st p with None => false | Some (_, flags) =>
      if flags &! PTE_US =? 0 then false else if writable && (flags &! PTE_RW =? 0) then false else true end = true) <-> user_byte st writable p).
  1, 3: rewrite paging_query_view by done; unfold user_byte; destruct (view st (p / 4096)) as [pte |]; [| split; [done | by intros (? & ? & _)]];
    rewrite !flag_land by done; split.
  1, 3: destruct (Z.eqb_spec (pte &! PTE_US) 0); [done |]; intros H; exists pte; split_and!; [done | done | intros ->; cbn [andb] in H; by destruct (Z.eqb_spec (pte &! PTE_RW) 0)].
  1, 2: intros (x & [= <-] & H1 & H2); rewrite (proj2 (Z.eqb_neq _ _)) by done; destruct writable; cbn [andb]; [by rewrite (proj2 (Z.eqb_neq _ _)) by auto | done].
  - rewrite (proj2 (Z.eqb_eq p last)) by lia. replace last with p by lia. rewrite P. split.
    + intros H q Hq. replace (4096 * q) with p by (Z.to_euclidean_division_equations; lia). done.
    + intros H. replace p with (4096 * (p / 4096)) by (Z.to_euclidean_division_equations; lia). apply H. lia.
  - rewrite (proj2 (Z.eqb_neq p last)) by lia. replace (p +! 0x1000) with (p + 4096) by (symmetry; apply u32_small; unfold is_u32; lia).
    assert (IH' := IH (p + 4096) ltac:(lia) ltac:(lia) ltac:(lia) ltac:(Z.to_euclidean_division_equations; lia)).
    transitivity (user_byte st writable p /\ forall q, (p + 4096) / 4096 <= q <= last / 4096 -> user_byte st writable (4096 * q)).
    + rewrite <- P, <- IH'. destruct (paging_query st p) as [[? flags] |]; [| split; [done | by intros [? _]]].
      destruct (flags &! PTE_US =? 0); [split; [done | by intros [? _]] |]. destruct (writable && _); [split; [done | by intros [? _]] |]. split; [auto | by intros [_ ?]].
    + split.
      * intros [H1 H2] q Hq. destruct (Z.eq_dec q (p / 4096)) as [-> |]; [| apply H2; Z.to_euclidean_division_equations; lia].
        replace (4096 * (p / 4096)) with p by (Z.to_euclidean_division_equations; lia). done.
      * intros H. split; [| intros q Hq; apply H; Z.to_euclidean_division_equations; lia].
        replace p with (4096 * (p / 4096)) by (Z.to_euclidean_division_equations; lia). apply H. Z.to_euclidean_division_equations; lia.
Qed.

Lemma user_byte_page st writable a : user_byte st writable (4096 * (a / 4096)) <-> user_byte st writable a.
Proof. unfold user_byte. replace (4096 * (a / 4096) / 4096) with (a / 4096) by (rewrite Z.mul_comm, Z.div_mul; lia). done. Qed.

Lemma user_range_spec st va len writable : is_u32 va -> is_u32 len -> user_range_ok st va len writable = true <-> user_range st va len writable.
Proof.
  intros Hv Hn. unfold user_range_ok, user_range. destruct (Z.eqb_spec len 0) as [-> |]; [split; [by left | done] |].
  destruct (Z.lt_ge_cases (va + len) (2 ^ 32)).
  - assert (E : va +! len = va + len) by (apply u32_small; unfold is_u32 in *; lia). rewrite E.
    rewrite (proj2 (Z.ltb_ge _ _)) by (unfold is_u32 in *; lia).
    assert (E1 : va + len -! 1 = va + len - 1) by (apply u32_small; unfold is_u32 in *; lia). rewrite E1.
    change 0xFFF with (4096 - 1). rewrite !align_down_4096 by (unfold is_u32 in *; lia).
    set (first := va - va mod 4096). set (last := va + len - 1 - (va + len - 1) mod 4096). cbv zeta.
    assert (Hm : exists n, last = first + 4096 * Z.of_nat n).
    { exists (Z.to_nat ((last - first) / 4096)). unfold is_u32, first, last in *. Z.to_euclidean_division_equations; lia. }
    destruct Hm as [m Hm]. replace (Z.to_nat ((last - first) / 4096 + 1)) with (S m) by (rewrite Hm; replace (first + 4096 * Z.of_nat m - first) with (Z.of_nat m * 4096) by lia; rewrite Z.div_mul by lia; lia).
    rewrite range_pages_ok; [| unfold first, is_u32 in *; Z.to_euclidean_division_equations; lia | done | unfold last, is_u32 in *; Z.to_euclidean_division_equations; lia | unfold first; Z.to_euclidean_division_equations; lia].
    assert (D1 : first / 4096 = va / 4096) by (unfold first; Z.to_euclidean_division_equations; lia).
    assert (D2 : last / 4096 = (va + len - 1) / 4096) by (unfold last; Z.to_euclidean_division_equations; lia). rewrite D1, D2. split.
    + intros Hq. right. split; [done |]. intros a Ha. apply user_byte_page, Hq. Z.to_euclidean_division_equations; lia.
    + intros [? | [_ Hq]]; [lia |]. intros q Hq'. destruct (Z.le_gt_cases va (4096 * q)).
      * apply Hq. unfold is_u32 in *. Z.to_euclidean_division_equations; lia.
      * replace q with (va / 4096) by (Z.to_euclidean_division_equations; lia). apply user_byte_page, Hq. unfold is_u32 in *. lia.
  - assert (E : va +! len = va + len - 2 ^ 32) by (unfold is_u32 in *; ulia). rewrite E, (proj2 (Z.ltb_lt _ _)) by (unfold is_u32 in *; lia).
    split; [done | intros [? | [? _]]; lia].
Qed.

Lemma view_of_byte st writable a : user_byte st writable a -> view st (a / 4096) <> None.
Proof. intros (pte & -> & _). done. Qed.

(** C40. The check of user pointers accepts a buffer exactly when it is empty or
    ends below 4 GB with every one of its bytes on a page that is present, belongs
    to the user and, if the kernel is going to write, is writable; the directory
    entries of an accepted buffer grant user access too. *)
Theorem user_range_ok_exact st va len writable (Hv : is_u32 va) (Hn : is_u32 len) :
  (user_range_ok st va len writable = true <-> user_range st va len writable) /\
  (pg_inv st -> user_range_ok st va len writable = true ->
   forall a, va <= a < va + len -> mem_rd (pmem st) (pd_active st + 4 * (a / 4096 / 1024)) &! PTE_US <> 0).
Proof.
  split; [by apply user_range_spec |]. intros Hi Hr a Ha. apply user_range_spec in Hr as [? | [Hb Hr]]; [lia | | done..].
  destruct (Hr a Ha) as (pte & V1 & V2 & _). unfold is_u32 in *.
  eapply (gi_us _ Hi); [unfold is_page; Z.to_euclidean_division_equations; lia | exact V1 | exact V2].
Qed.

(** ** User memory *)

Lemma vload_ok w a : 0 <= a < 2 ^ 32 -> view (m_pg w) (a / 4096) <> None -> exists b, vload w a = Some b.
Proof.
  intros Ha Hv. unfold vload. rewrite paging_query_view by done. destruct (view (m_pg w) (a / 4096)) as [pte |]; [| done]. by eexists.
Qed.
Lemma user_bytes_ok n w : forall va, 0 <= va -> va + Z.of_nat n <= 2 ^ 32 -> (forall a, va <= a < va + Z.of_nat n -> view (m_pg w) (a / 4096) <> None) ->
  exists l, user_bytes n w va = Some l /\ length l = n.
Proof.
  induction n as [| n IH]; intros va H0 H1 Hv; [by exists [] |]. cbn [user_bytes].
  destruct (vload_ok w va) as [b ->]; [lia | apply Hv; lia |]. cbn [mbind option_bind].
  destruct (IH (va + 1)) as (l & -> & Hl); [lia | lia | intros a Ha; apply Hv; lia |]. cbn [mbind option_bind]. exists (b :: l). split; [done |]. cbn [length]. by rewrite Hl.
Qed.
Lemma user_range_load w va n writable : is_u32 va -> is_u32 n -> user_range_ok (m_pg w) va n writable = true ->
  exists l, user_bytes (Z.to_nat n) w va = Some l /\ Z.of_nat (length l) = n.
Proof.
  intros Hv Hn H. apply user_range_spec in H; [| done..]. destruct H as [-> | [Hb H]]; [by exists [] |]. unfold is_u32 in *.
  destruct (user_bytes_ok (Z.to_nat n) w va) as (l & E & L); [lia | lia | |].
  - intros a Ha. eapply view_of_byte, H. lia.
  - exists l. split; [done | lia].
Qed.

Lemma copy_name_ok w n : forall u, is_u32 u -> copy_name n w u <> None.
Proof.
  induction n as [| n IH]; intros u Hu; [done |]. cbn [copy_name]. destruct (user_range_ok (m_pg w) u 1 false) eqn:E; cbn [negb]; [| done].
  apply user_range_spec in E; [| done | done]. destruct E as [? | [_ E]]; [done |].
  destruct (vload_ok w u Hu) as [c ->]; [eapply view_of_byte, E; lia |]. cbn [mbind option_bind]. destruct (c =? 0); [done |].
  specialize (IH (u +! 1) (u32_range _)). by destruct (copy_name n w (u +! 1)).
Qed.

(** The bytes of memory that a user program can write. *)
Definition own_byte (st : pg_state) (x : Z) : Prop :=
  exists a pte, 0 <= a < 2 ^ 32 /\ view st (a / 4096) = Some pte /\ pte &! PTE_US <> 0 /\ pte &! PTE_RW <> 0 /\ x = (pte &! 0xFFFFF000) + a mod 4096.

Lemma vcopy_own d : forall w va, 0 <= va -> va + Z.of_nat (length d) <= 2 ^ 32 ->
  (forall a, va <= a < va + Z.of_nat (length d) -> user_byte (m_pg w) true a) ->
  exists m, vcopy w va d = Some (mk_mach (m_pmm w) (m_pg w) m) /\ forall x, m !! x <> m_bytes w !! x -> own_byte (m_pg w) x.
Proof.
  induction d as [| b d IH]; intros w va H0 H1 H; cbn [vcopy length] in *.
  - exists (m_bytes w). split; [by destruct w | done].
  - destruct (H va ltac:(lia)) as (pte & V1 & V2 & V3). specialize (V3 eq_refl). unfold vstore.
    rewrite paging_query_view by (unfold is_u32; lia). rewrite V1. cbn [mbind option_bind].
    destruct (IH (mk_mach (m_pmm w) (m_pg w) (<[(pte &! 0xFFFFF000) + va mod 4096 := b]> (m_bytes w))) (va + 1)) as (m & E & Hm); [lia | lia | intros a Ha; apply H; lia |].
    exists m. split; [exact E |]. intros x Hx. destruct (decide (x = (pte &! 0xFFFFF000) + va mod 4096)) as [-> | Hne].
    + exists va, pte. split_and!; done || lia.
    + apply Hm. cbn [m_bytes]. by rewrite lookup_insert_ne.
Qed.

(** Different user pages are in different frames. *)
Definition frames_apart (st : pg_state) : Prop :=
  forall q q' pte pte', is_page q -> is_page q' -> view st q = Some pte -> view st q' = Some pte' ->
    pte &! PTE_US <> 0 -> pte' &! PTE_US <> 0 -> pte &! 0xFFFFF000 = pte' &! 0xFFFFF000 -> q = q'.

Lemma byte_frame st a pte b pte' : frames_apart st -> 0 <= a < 2 ^ 32 -> 0 <= b < 2 ^ 32 ->
  view st (a / 4096) = Some pte -> view st (b / 4096) = Some pte' -> pte &! PTE_US <> 0 -> pte' &! PTE_US <> 0 ->
  (pte &! 0xFFFFF000) + a mod 4096 = (pte' &! 0xFFFFF000) + b mod 4096 -> a = b.
Proof.
  intros Hf Ha Hb V1 V2 U1 U2 E. destruct (base_mask pte) as [B1 B2], (base_mask pte') as [B3 B4].
  assert (Ef : pte &! 0xFFFFF000 = pte' &! 0xFFFFF000).
  { set (x := pte &! 0xFFFFF000) in *. set (y := pte' &! 0xFFFFF000) in *. clearbody x y. Z.to_euclidean_division_equations; lia. }
  assert (Eq : a / 4096 = b / 4096) by (eapply Hf; [unfold is_page; Z.to_euclidean_division_equations; lia.. | done | done | done | done | done]).
  rewrite Ef in E. set (y := pte' &! 0xFFFFF000) in *. clearbody y. Z.to_euclidean_division_equations; lia.
Qed.

(** What is stored in a user buffer is read back from it. *)
Lemma vcopy_read d : forall w va w', frames_apart (m_pg w) -> 0 <= va -> va + Z.of_nat (length d) <= 2 ^ 32 ->
  (forall a, va <= a < va + Z.of_nat (length d) -> user_byte (m_pg w) true a) -> vcopy w va d = Some w' ->
  m_pg w' = m_pg w /\ user_bytes (length d) w' va = Some d /\
  forall b pte, 0 <= b < va -> view (m_pg w) (b / 4096) = Some pte -> pte &! PTE_US <> 0 -> vload w' b = vload w b.
Proof.
  induction d as [| x d IH]; intros w va w' Hf H0 H1 H; cbn [vcopy length user_bytes] in *; [by intros [= <-] |].
  destruct (H va ltac:(lia)) as (pte & V1 & V2 & V3). unfold vstore at 1.
  rewrite paging_query_view by (unfold is_u32; lia). rewrite V1. cbn [mbind option_bind]. intros E.
  set (w1 := mk_mach _ _ _) in E. destruct (IH w1 (va + 1) w') as (I1 & I2 & I3); [done | lia | lia | intros a Ha; apply H; lia | done |].
  split; [done |]. split.
  - rewrite (I3 va pte) by (done || lia). unfold vload. change (m_pg w1) with (m_pg w). rewrite paging_query_view by (unfold is_u32; lia). rewrite V1. cbn [mbind option_bind].
    unfold ld8 at 1. cbn [m_bytes w1]. rewrite lookup_insert_eq. cbn [default]. by rewrite I2.
  - intros b pte' Hb Vb Ub. rewrite (I3 b pte') by (done || lia). unfold vload. change (m_pg w1) with (m_pg w).
    rewrite paging_query_view by (unfold is_u32; lia). rewrite Vb. cbn [mbind option_bind]. f_equal. unfold ld8. cbn [m_bytes w1]. rewrite lookup_insert_ne; [done |].
    intros Ee. apply (byte_frame (m_pg w) va pte b pte') in Ee; done || lia.
Qed.

Section Safe.
Context {H F N : Type} `{HA : Allocator H} `{FS : FileSys F}.
Variables (pipe_wq : Z -> Z) (kb_wq wq_reap area trampoline : Z).
Notation sys := (@sys H F N).
Notation kern := (@kern H F).
Variable net_sockcall : sys -> Z -> list Z -> @sysret H F N.
Implicit Types s : sys.

Lemma fd_read_length (w : kern) ti fd n polled w' k d : 0 <= n -> fd_read pipe_wq kb_wq w ti fd n polled = Ret w' (k, d) -> Z.of_nat (length d) <= n.
Proof.
  intros Hn. assert (Hk : forall m i (w : kern), (length (snd (read_keys kb_wq m w polled i)) <= m)%nat).
  { induction m as [| m IH]; intros i w0; cbn [read_keys]; [done |]. destruct (keyboard_getchar _ _ _ _) as [[kb st] c]. destruct (c =? 0); [cbn; lia |].
    specialize (IH (S i) (set_sched (set_kbd w0 kb) st)). destruct (read_keys kb_wq m _ polled (S i)) as [w1 d1]. cbn [snd length] in *. lia. }
  unfold fd_read. destruct ((fd <? 0) || _); [by intros [= _ _ <-] |]. destruct (entry w ti fd) as [e |]; [| by intros [= _ _ <-]].
  destruct (e_type e); try by intros [= _ _ <-].
  - specialize (Hk (Z.to_nat n) 0%nat w). destruct (read_keys _ _ w polled 0) as [w1 d1]. cbn [snd] in Hk. destruct (_ && _); [done |]. intros [= _ _ <-]. lia.
  - destruct (e_size e <=? e_offset e); [by intros [= _ _ <-] |]. cbv zeta. unfold or_fault. destruct (buf_read _ _ _ _) as [d0 |] eqn:Er; [| done]. intros [= _ _ <-].
    unfold buf_read in Er. destruct (_ =? 0); [injection Er as <-; cbn; lia |]. destruct (e_data e); try done. destruct (k_bufs w !! a) as [l |]; [| done]. cbn [mbind option_bind] in Er.
    destruct (_ <=? _); [| done]. injection Er as <-. rewrite length_take. destruct (Z.ltb_spec n (e_size e - e_offset e)); lia.
  - destruct (e_data e); try done; [by intros [= _ _ <-] |]. destruct (e_writable e); [by intros [= _ _ <-] |]. destruct (n =? 0); [by intros [= _ _ <-] |]. cbv zeta.
    destruct (Z.ltb_spec 0 (p_count (pipe (cli w) i))).
    + unfold or_fault. destruct (k_bufs (cli w) !! _); [| done]. intros [= _ _ <-]. destruct (Z.ltb_spec n (p_count (pipe (cli w) i))); rewrite length_ring; lia.
    + destruct (_ =? 0); [by intros [= _ _ <-] | done].
Qed.

(** User pages lie between 4 MB and 8 MB. *)
Definition us_low (st : pg_state) : Prop := forall q pte, is_page q -> view st q = Some pte -> pte &! PTE_US <> 0 -> user_page q.

(** The descriptor layer is well-formed, none of the caller's entries lost its
    buffer, and its pages are in the user's part of the address space. *)
Record sys_ok s (o : list (Z * Z)) : Prop := {
  so_fd : fd_inv (sy_kern s) o;
  so_entries : forall cur fd e, task_current (ksched (sy_kern s)) = Some cur -> entry (sy_kern s) cur fd = Some e -> ~ hollow e;
  so_us : us_low (m_pg (sy_mach s));
}.

(** What a harmless call keeps. *)
Record kept s s' (o : list (Z * Z)) : Prop := {
  ke_fd : fd_inv (sy_kern s') o;
  ke_pg : m_pg (sy_mach s') = m_pg (sy_mach s);
  ke_pmm : m_pmm (sy_mach s') = m_pmm (sy_mach s);
  ke_bytes : forall x, m_bytes (sy_mach s') !! x <> m_bytes (sy_mach s) !! x -> own_byte (m_pg (sy_mach s)) x;
}.
Definition harmless s (o : list (Z * Z)) (r : @sysret H F N) : Prop :=
  match r with SRet s' _ => kept s s' o | SSleep s' => kept s s' o | SGone _ => False | SFault => False end.

Lemma kept_kern s k o : fd_inv k o -> kept s (set_kern s k) o.
Proof. by constructor. Qed.
Lemma of_outcome_harmless {A} s o (r : outcome A) f : post r (fun k => fd_inv k o) ->
  (forall k v, r = Ret k v -> fd_inv k o -> harmless s o (f (set_kern s k) v)) -> harmless s o (of_outcome s r f).
Proof. intros Hp Hf. destruct r as [k v | k |]; cbn in *; [by apply Hf | by apply kept_kern | done]. Qed.
Lemma with_cur_harmless s o f : fd_inv (sy_kern s) o -> (forall cur, task_current (ksched (sy_kern s)) = Some cur -> harmless s o (f cur)) -> harmless s o (with_cur s f).
Proof. intros Hi Hf. unfold with_cur. destruct (task_current _) as [cur |]; [by apply Hf | by constructor]. Qed.

Lemma store_user_harmless s k va d r o : fd_inv k o -> is_u32 va -> va + Z.of_nat (length d) < 2 ^ 32 \/ d = [] ->
  (forall a, va <= a < va + Z.of_nat (length d) -> user_byte (m_pg (sy_mach s)) true a) -> harmless s o (store_user (set_kern s k) va d r).
Proof.
  intros Hk Hv Hl Ha. unfold store_user. destruct (vcopy_own d (sy_mach s) va) as (m & E & Hm); [unfold is_u32 in *; lia | | done |].
  { unfold is_u32 in *. destruct Hl as [? | ->]; cbn [length] in *; lia. }
  change (sy_mach (set_kern s k)) with (sy_mach s). rewrite E. by constructor.
Qed.
Lemma store_range_harmless s k va n d r o : fd_inv k o -> is_u32 va -> is_u32 n -> user_range_ok (m_pg (sy_mach s)) va n true = true ->
  Z.of_nat (length d) <= n -> harmless s o (store_user (set_kern s k) va d r).
Proof.
  intros Hk Hv Hn Hr Hd. apply user_range_spec in Hr; [| done..]. destruct Hr as [-> | [Hb Hr]].
  - apply store_user_harmless; [done | done | right; destruct d; [done | cbn [length] in Hd; lia] | intros a Ha; lia].
  - apply store_user_harmless; [done | done | left; lia | intros a Ha; apply Hr; lia].
Qed.

(** *** The calls *)

Lemma low_range s o va n writable : sys_ok s o -> is_u32 va -> is_u32 n -> user_range_ok (m_pg (sy_mach s)) va n writable = true -> n <= 4096 * 1024.
Proof.
  intros Hs Hv Hn Hr. apply user_range_spec in Hr; [| done..]. unfold is_u32 in *. destruct Hr as [-> | [Hb Hr]]; [lia |].
  destruct (Z.eq_dec n 0); [lia |].
  assert (L : forall a, va <= a < va + n -> user_page (a / 4096)) by (intros a Ha; destruct (Hr a Ha) as (pte & E1 & E2 & _); eapply so_us; [done | | done | done]; unfold is_page; Z.to_euclidean_division_equations; lia).
  pose proof (L va ltac:(lia)) as L1. pose proof (L (va + n - 1) ltac:(lia)) as L2. unfold user_page in *. Z.to_euclidean_division_equations; lia.
Qed.

Lemma sys_write_harmless s o a1 a2 a3 : sys_ok s o -> is_u32 a2 -> is_u32 a3 -> harmless s o (sys_write pipe_wq s a1 a2 a3).
Proof.
  intros Hs H2 H3. pose proof (so_fd _ _ Hs) as Hi. unfold sys_write. destruct (user_range_ok _ a2 a3 false) eqn:E; cbn [negb]; [| by constructor].
  apply with_cur_harmless; [done |]. intros cur Hc. destruct (user_range_load _ _ _ _ H2 H3 E) as (l & -> & Hl).
  pose proof (low_range s o a2 a3 false Hs H2 H3 E). apply of_outcome_harmless; [| intros k v _ Hk; by apply kept_kern].
  apply fd_write_safe; [done | intros e He; by eapply so_entries | lia].
Qed.
Lemma sys_read_harmless s o a1 a2 a3 polled : sys_ok s o -> is_u32 a2 -> is_u32 a3 -> harmless s o (sys_read pipe_wq kb_wq s a1 a2 a3 polled).
Proof.
  intros Hs H2 H3. pose proof (so_fd _ _ Hs) as Hi. unfold sys_read. destruct (user_range_ok _ a2 a3 true) eqn:E; cbn [negb]; [| by constructor].
  apply with_cur_harmless; [done |]. intros cur Hc. unfold is_u32 in H3. apply of_outcome_harmless.
  - apply fd_read_safe; [done | intros e He; by eapply so_entries | lia].
  - intros k [c d] Er Hk. apply fd_read_length in Er; [| lia]. by apply (store_range_harmless s k a2 a3).
Qed.
Lemma sys_open_harmless s o a1 a2 : sys_ok s o -> is_u32 a1 -> harmless s o (sys_open s a1 a2).
Proof.
  intros Hs H1. pose proof (so_fd _ _ Hs) as Hi. unfold sys_open. pose proof (copy_name_ok (sy_mach s) (Z.to_nat (FD_MAX_NAME - 1)) a1 H1) as Hn.
  destruct (copy_name _ _ _) as [[nm |] |]; [| by constructor | done]. apply with_cur_harmless; [done |]. intros cur Hc.
  apply of_outcome_harmless; [by apply fd_open_safe | intros; by apply kept_kern].
Qed.
Lemma sys_close_harmless s o a1 : sys_ok s o -> harmless s o (sys_close pipe_wq s a1).
Proof.
  intros Hs. pose proof (so_fd _ _ Hs) as Hi. apply with_cur_harmless; [done |]. intros cur Hc.
  apply of_outcome_harmless; [| intros; by apply kept_kern]. apply fd_close_safe; [done | intros e He; by eapply so_entries].
Qed.
Lemma sys_pipe_harmless s o a1 : sys_ok s o -> is_u32 a1 -> harmless s o (sys_pipe pipe_wq s a1).
Proof.
  intros Hs H1. pose proof (so_fd _ _ Hs) as Hi. unfold sys_pipe. destruct (user_range_ok _ a1 8 true) eqn:E; cbn [negb]; [| by constructor].
  apply with_cur_harmless; [done |]. intros cur Hc. apply of_outcome_harmless; [by apply fd_pipe_safe |].
  intros k [[rfd wfd] |] _ Hk; [| by apply kept_kern]. by apply (store_range_harmless s k a1 8).
Qed.
Lemma sys_lseek_harmless s o a1 a2 a3 : sys_ok s o -> harmless s o (sys_lseek s a1 a2 a3).
Proof.
  intros Hs. pose proof (so_fd _ _ Hs) as Hi. apply with_cur_harmless; [done |]. intros cur Hc.
  pose proof (fd_lseek_safe (sy_kern s) cur (s32 a1) (s32 a2) (s32 a3) o Hi) as Hk. destruct (fd_lseek _ _ _ _ _) as [k r]. by apply kept_kern.
Qed.
Lemma sys_waitpid_harmless s o a1 a2 a3 : sys_ok s o -> is_u32 a2 -> harmless s o (sys_waitpid s a1 a2 a3).
Proof.
  intros Hs H2. pose proof (so_fd _ _ Hs) as Hi. unfold sys_waitpid.
  destruct (negb (a2 =? 0) && negb _) eqn:E; [by constructor |].
  destruct (task_wait_pid_opt _ _ _) as [st r]. assert (Hk : fd_inv (set_sched (sy_kern s) st) o) by by apply (fd_inv_ext (sy_kern s)).
  destruct r as [code |]; [| by apply kept_kern]. destruct (code =? -1); [by apply kept_kern |]. destruct (code =? -2); [by apply kept_kern |].
  destruct (negb (a2 =? 0)); [| by apply kept_kern]. cbn [andb] in E. apply negb_false_iff in E. by apply (store_range_harmless s _ a2 4).
Qed.

Definition confined_call (num : Z) : Prop := num <> SYS_FORK /\ num <> SYS_EXIT /\ num <> SYS_SOCKCALL.


(** A read that returns delivers exactly what the descriptor gave: the caller's
    buffer then starts with these bytes, and there are no more of them than it
    asked for. *)
Theorem sys_read_delivers s a1 a2 a3 polled s' r (Hf : frames_apart (m_pg (sy_mach s))) (H2 : is_u32 a2) (H3 : is_u32 a3)
  (Hr : sys_read pipe_wq kb_wq s a1 a2 a3 polled = SRet s' r) :
  (user_range_ok (m_pg (sy_mach s)) a2 a3 true = false \/ task_current (ksched (sy_kern s)) = None) /\ s' = s /\ r = -1 \/
  exists cur k d, fd_read pipe_wq kb_wq (sy_kern s) cur (s32 a1) a3 polled = Ret k (r, d) /\ sy_kern s' = k /\
    Z.of_nat (length d) <= a3 /\ user_bytes (length d) (sy_mach s') a2 = Some d.
Proof.
  unfold sys_read in Hr. destruct (user_range_ok _ a2 a3 true) eqn:E; cbn [negb] in Hr; [| injection Hr as <- <-; auto].
  unfold with_cur in Hr. destruct (task_current _) as [cur |]; [| injection Hr as <- <-; auto]. right.
  destruct (fd_read _ _ _ cur _ _ _) as [k [c d] | |] eqn:Er; cbn [of_outcome] in Hr; [| done | done].
  unfold is_u32 in H3. assert (Hl : Z.of_nat (length d) <= a3) by (eapply fd_read_length; [| exact Er]; lia).
  unfold store_user in Hr. change (sy_mach (set_kern s k)) with (sy_mach s) in Hr. destruct (vcopy (sy_mach s) a2 d) as [m |] eqn:Ev; [| done].
  injection Hr as <- <-. exists cur, k, d. split_and!; [done | done | done |]. apply user_range_spec in E; [| done | done]. unfold is_u32 in H2.
  destruct (vcopy_read d (sy_mach s) a2 m) as (_ & Hu & _); [done | lia | | | done | exact Hu].
  - destruct E as [-> | [Hb _]]; lia.
  - intros a Ha. destruct E as [-> | [_ E]]; [lia | apply E; lia].
Qed.

(** An exit code of -1 or -2 is taken for an error of the wait: the child is
    collected, and its parent is told that there is none or that it still runs. *)
Lemma wait_code_lost s a1 i code (st := ksched (sy_kern s)) (Hc : code = -1 \/ code = -2) (Hr : Sched.g_ready st = true) (Hp : 0 < s32 a1)
  (Hf : task_find st (s32 a1) = Some i) (Hz : state (task st i) = TASK_ZOMBIE) (Hx : exit_code (task st i) = code) :
  exists s', sys_waitpid s a1 0 0 = SRet s' (if code =? -1 then -1 else 0) /\ ksched (sy_kern s') = fst (wait_pass st (s32 a1) 0).
Proof.
  unfold sys_waitpid. cbn [Z.eqb negb andb]. unfold task_wait_pid_opt. fold st. rewrite Hr, (proj2 (Z.leb_gt _ _)) by done. cbn [negb orb].
  assert (E : wait_pass st (s32 a1) 0 = (fst (wait_pass st (s32 a1) 0), Some code)).
  { unfold wait_pass. rewrite Hf. unfold state_is. by rewrite Hz, bool_decide_eq_true_2, Hx by done. }
  change (s32 0) with 0. rewrite E. destruct Hc as [-> | ->]; cbn [Z.eqb]; by eexists.
Qed.
End Safe.

(** ** The small system of [Proc.v] *)

#[local] Existing Instance heap30.
#[local] Existing Instance fs64k.

Definition demo_sys : @sys km_state memfs unit := mk_sys demo_proc 0 0 0x90BFAC tt.
Definition no_net (s : @sys km_state memfs unit) (_ : Z) (_ : list Z) : @sysret km_state memfs unit := SRet s (-1).

Lemma demo_view q pte : is_page q -> view (m_pg demo_mach) q = Some pte -> q = 1024 /\ pte = 0xA02007 \/ q = 2047 /\ pte = 0xA03007.
Proof.
  intros Hq. destruct (pg_split q Hq) as [Q1 Q2]. unfold view, walk. change (pd_active (m_pg demo_mach)) with 0xA00000. change (pmem (m_pg demo_mach)) with demo_tables.
  rewrite demo_table by done. destruct (Z.eqb_spec (q / 1024) 1) as [E |]; [| done]. unfold entry_of, demo_tables. cbv zeta. rewrite !mem_rd_wr.
  destruct (Z.eqb_spec (0xA01000 + 4 * 1023) (0xA01000 + 4 * (q mod 1024))); [intros [= <-]; right; split; [Z.to_euclidean_division_equations; lia | done] |].
  destruct (Z.eqb_spec (0xA01000 + 4 * 0) (0xA01000 + 4 * (q mod 1024))); [intros [= <-]; left; split; [Z.to_euclidean_division_equations; lia | done] |].
  by destruct (Z.eqb_spec (0xA00000 + 4 * 1) (0xA01000 + 4 * (q mod 1024))); [lia |].
Qed.
Lemma demo_frames_apart : frames_apart (m_pg demo_mach).
Proof.
  intros q q' pte pte' Hq Hq' V V' _ _ E. apply demo_view in V, V'; [| done..].
  destruct V as [[-> ->] | [-> ->]], V' as [[-> ->] | [-> ->]]; done.
Qed.
Lemma demo_sys_ok : sys_ok demo_sys [].
Proof.
  constructor.
  - apply (fd_inv_ext fd_boot); [done.. | apply fd_boot_inv].
  - intros cur fd e _ He. unfold entry in He. change (sy_kern demo_sys) with (pr_kern demo_proc) in He.
    destruct (tabs (pr_kern demo_proc) !! Z.to_nat cur) as [t |] eqn:Et; [| done]. apply demo_tabs in Et as ->. cbn [mbind option_bind] in He.
    apply list_elem_of_lookup_2 in He. assert (Hall : Forall (fun e => ~ hollow e) fd_table_init) by (repeat constructor; by intros (? & ? & ?)).
    rewrite Forall_forall in Hall. by apply Hall.
  - intros q pte Hq Hv _. apply demo_view in Hv; [| done]. unfold user_page. lia.
Qed.

Lemma user_range_ok_exact_witness :
  user_range (m_pg demo_mach) 0x400FFE 2 true /\ ~ user_range (m_pg demo_mach) 0x400FFE 3 false.
Proof.
  split; [apply (user_range_ok_exact (m_pg demo_mach) 0x400FFE 2 true); [done | done | vm_compute; reflexivity] |].
  intros H. apply (user_range_ok_exact (m_pg demo_mach) 0x400FFE 3 false) in H; [vm_compute in H; discriminate | done | done].
Defined.

Notation demo_call := (syscall_handler test_wq 0x2000 0x2F00 demo_area 0x1234 no_net demo_sys).
Notation demo_write := (demo_call SYS_WRITE 1 0x400000 1 no_keys).

Definition one_key (n : nat) : list Z := [97].
Notation demo_read := (sys_read test_wq 0x2000 demo_sys 0 0x400010 1 one_key).
Lemma sys_read_delivers_witness :
  match demo_read with SRet s' r => r = 1 /\ exists d, Z.of_nat (length d) <= 1 /\ user_bytes (length d) (sy_mach s') 0x400010 = Some d | _ => False end.
Proof.
  destruct demo_read as [s' r | | |] eqn:E; [| vm_compute in E; discriminate..].
  destruct (sys_read_delivers test_wq 0x2000 demo_sys 0 0x400010 1 one_key s' r demo_frames_apart ltac:(done) ltac:(done) E) as [(_ & _ & ->) | (cur & k & d & E1 & E2 & E3 & E4)].
  - exfalso. vm_compute in E. discriminate.
  - split; [vm_compute in E; by injection E as _ <- | eauto].
Defined.
