(* ===== verification/Net.v ===== *)
(** * Net: frames, addresses and datagrams ([kernel/net.c], [kernel/rtl8139.c])

    The state of the network stack, its two construction buffers, the Internet
    checksum, ARP, the sending of IPv4 packets, ICMP echo and UDP.  The program
    text is a state monad that can fail at an access outside a buffer.  TCP is in [Tcp.v], DHCP and DNS are in
    [Dhcp.v] and [Dns.v], the dispatch of a frame and the calls are in
    [NetCalls.v]. *)

From S2P Require Import Prelude Disk.

Definition ETH_HDR_LEN : Z := 14.
Definition IP_HDR_MIN : Z := 20.
Definition UDP_HDR_LEN : Z := 8.
Definition TCP_HDR_MIN : Z := 20.
Definition NET_BUILD_MAX : Z := 1792.
Definition TCP_RTO_MS : Z := 200.
Definition TCP_RTX_MAX : Z := 5.
Definition TCP_RTX_BUF : Z := 1536.
Definition TCP_OOO_BUF : Z := 2048.
Definition TCP_TICK_MS : Z := 100.
Definition TCP_FIN : Z := 0x01.
Definition TCP_SYN : Z := 0x02.
Definition TCP_RST : Z := 0x04.
Definition TCP_PSH : Z := 0x08.
Definition TCP_ACK : Z := 0x10.
Definition NET_MAX_SOCKS : Z := 8.
Definition NET_SOCK_BUF : Z := 4096.
Definition NET_DEFAULT_WAIT_MS : Z := 10000.
Definition ARP_CACHE : Z := 4.
Definition SOCK_TYPE_UDP : Z := 0.
Definition SOCK_TYPE_TCP : Z := 1.
Definition ETH_FRAME_MAX : Z := 1514.

(** ** Byte buffers *)

Definition load (l : list Z) (i n : Z) : option (list Z) :=
  if (0 <=? i) && (i + n <=? Z.of_nat (length l)) then Some (slice l i n) else None.
Definition store (l : list Z) (i : Z) (b : list Z) : option (list Z) :=
  if (0 <=? i) && (i + Z.of_nat (length b) <=? Z.of_nat (length l)) then Some (splice l i b) else None.

Definition be16 (p : list Z) (i : Z) : option Z :=
  a ← rd8 p i; b ← rd8 p (i + 1); Some (Z.lor (Z.shiftl a 8) b).
Definition be32 (p : list Z) (i : Z) : option Z :=
  a ← rd8 p i; b ← rd8 p (i + 1); c ← rd8 p (i + 2); d ← rd8 p (i + 3);
  Some (Z.lor (Z.lor (Z.lor (Z.shiftl a 24) (Z.shiftl b 16)) (Z.shiftl c 8)) d).

(** What [put16], [put32] and [wr16le] store. *)
Definition put16 (v : Z) : list Z := [u8 (Z.shiftr v 8); u8 v].
Definition put32 (v : Z) : list Z := [u8 (Z.shiftr v 24); u8 (Z.shiftr v 16); u8 (Z.shiftr v 8); u8 v].
Definition wr16le (v : Z) : list Z := [u8 v; u8 (Z.shiftr v 8)].

(** ** The Internet checksum *)

Fixpoint sum16 (p : list Z) (s : Z) : Z :=
  match p with
  | a :: b :: p' => sum16 p' (s +! Z.lor (Z.shiftl a 8) b)
  | [a] => s +! Z.shiftl a 8
  | [] => s
  end.

(** [while (s >> 16) s = (s & 0xFFFF) + (s >> 16);] *)
Fixpoint fold16 (fuel : nat) (s : Z) : Z :=
  match fuel with
  | O => s
  | S k => if Z.shiftr s 16 =? 0 then s else fold16 k ((s &! 0xFFFF) +! Z.shiftr s 16)
  end.
Definition FOLD_FUEL : nat := 4.

Definition cksum_raw_c (p : list Z) : Z := fold16 FOLD_FUEL (sum16 p 0).
Definition cksum_c (p : list Z) : Z := u16 (Z.lnot (cksum_raw_c p)).

(** The implementation in use walks an index over the [n] bytes instead. *)
Fixpoint sum16_rs (fuel : nat) (p : list Z) (i left s : Z) : Z :=
  match fuel with
  | O => s
  | S k =>
      if 2 <=? left then sum16_rs k p (i + 2) (left - 2) (s +! Z.lor (Z.shiftl (aget 0 p i) 8) (aget 0 p (i + 1)))
      else if left =? 0 then s else s +! Z.shiftl (aget 0 p i) 8
  end.
Definition cksum_raw (p : list Z) : Z := fold16 FOLD_FUEL (sum16_rs (S (length p)) p 0 (Z.of_nat (length p)) 0).
Definition cksum (p : list Z) : Z := u16 (Z.lnot (cksum_raw p)).

(** ** The state *)

Inductive tcp_state :=
  TS_UNUSED | TS_LISTEN | TS_SYN_RCVD | TS_SYN_SENT | TS_ESTABLISHED | TS_CLOSE_WAIT | TS_LAST_ACK | TS_FIN_WAIT_1 | TS_FIN_WAIT_2.
#[export] Instance tcp_state_eq : EqDecision tcp_state.
Proof. solve_decision. Defined.

(** The receiving half of a socket: the ring, the sequence number expected
    next, and the out-of-order buffer.  A buffer that is not allocated is
    [None]. *)
Record rcv_t := mk_rcv {
  rx : option (list Z);
  rx_r : Z; rx_w : Z;
  rcv_nxt : Z;
  got_fin : bool;
  ooo : option (list Z);
  ooo_seq : Z; ooo_len : Z;
}.

(** The sending half: the one segment that is not acknowledged yet. *)
Record snd_t := mk_snd {
  snd_nxt : Z; snd_una : Z;
  rtx : option (list Z);
  rtx_len : Z; rto_tick : Z; rtx_tries : Z;
  syn_unacked : bool;
}.

Record sock_t := mk_sock {
  used : bool;
  type : Z;
  state : tcp_state;
  local_port : Z; peer_port : Z; peer_ip : Z;
  owner_pid : Z;
  parent : Z;
  rcv : rcv_t;
  snd : snd_t;
}.

Definition no_rcv : rcv_t := mk_rcv None 0 0 0 false None 0 0.
Definition no_snd : snd_t := mk_snd 0 0 None 0 0 0 false.
Definition no_sock : sock_t := mk_sock false 0 TS_UNUSED 0 0 0 0 0 no_rcv no_snd.

Definition with_state (s : sock_t) (t : tcp_state) : sock_t :=
  mk_sock (used s) (type s) t (local_port s) (peer_port s) (peer_ip s) (owner_pid s) (parent s) (rcv s) (snd s).
Definition with_rcv (s : sock_t) (r : rcv_t) : sock_t :=
  mk_sock (used s) (type s) (state s) (local_port s) (peer_port s) (peer_ip s) (owner_pid s) (parent s) r (snd s).
Definition with_snd (s : sock_t) (n : snd_t) : sock_t :=
  mk_sock (used s) (type s) (state s) (local_port s) (peer_port s) (peer_ip s) (owner_pid s) (parent s) (rcv s) n.
Definition with_used (s : sock_t) (b : bool) : sock_t :=
  mk_sock b (type s) (state s) (local_port s) (peer_port s) (peer_ip s) (owner_pid s) (parent s) (rcv s) (snd s).
Definition with_port (s : sock_t) (p : Z) : sock_t :=
  mk_sock (used s) (type s) (state s) p (peer_port s) (peer_ip s) (owner_pid s) (parent s) (rcv s) (snd s).
Definition with_parent (s : sock_t) (p : Z) : sock_t :=
  mk_sock (used s) (type s) (state s) (local_port s) (peer_port s) (peer_ip s) (owner_pid s) p (rcv s) (snd s).

(** The scalar statics of the file. *)
Inductive gvar :=
  | g_udp_rx | g_udp_tx | g_tcp_rx | g_tcp_tx | g_arp_replied | g_icmp_replied | g_ip_bad_csum | g_ip_frag_drop
  | g_tcp_rtx | g_ephemeral | g_ip_id | g_ping_reqs | g_ping_matched | seq_counter | last_tick
  | ping_active | ping_id | ping_seq | ping_got
  | dhcp_active | dhcp_got | dhcp_renewing | dhcp_xid | dhcp_msg_type | dhcp_yiaddr | dhcp_len
  | renew_active | renew_state | renew_t1 | renew_t2 | renew_expire | renew_next
  | lease_valid | lease_ip | lease_mask | lease_router | lease_dns | lease_server | lease_lease | lease_tick
  | g_dns_srv_n | g_dns_manual
  | dns_active | dns_got | dns_rcode | dns_id | dns_port | dns_len | g_dns_rr | g_dns_hits | id_counter
  | g_pit_ticks.
Scheme Boolean Equality for gvar.

(** An entry of the DNS cache; [name] is the whole array. *)
Record dns_entry := mk_dns { d_used : bool; d_name : list Z; d_ip : Z; d_expire : Z }.

(** [wire] lists the frames handed to the card so far; [polls], [sleeps],
    [sends] and [allocs] count the uses of the environment. *)
Record net := mk_net {
  gv : gvar -> Z;
  g_socks : list sock_t;
  g_build : option (list Z);
  g_frame : option (list Z);
  g_arp : list (Z * list Z);
  dhcp_buf : list Z;
  g_dns_srv : list Z;
  dns_buf : list Z;
  g_dns_cache : list dns_entry;
  g_ip : list Z;
  wire : list (list Z);
  polls : nat; sleeps : nat; sends : nat; allocs : nat;
}.

Definition set_gv (v : gvar) (x : Z) (st : net) : net :=
  mk_net (fun u => if gvar_beq v u then x else gv st u) (g_socks st) (g_build st) (g_frame st) (g_arp st) (dhcp_buf st) (g_dns_srv st)
    (dns_buf st) (g_dns_cache st) (g_ip st) (wire st) (polls st) (sleeps st) (sends st) (allocs st).
Definition set_socks (l : list sock_t) (st : net) : net :=
  mk_net (gv st) l (g_build st) (g_frame st) (g_arp st) (dhcp_buf st) (g_dns_srv st)
    (dns_buf st) (g_dns_cache st) (g_ip st) (wire st) (polls st) (sleeps st) (sends st) (allocs st).
Definition set_bufs (b f : option (list Z)) (st : net) : net :=
  mk_net (gv st) (g_socks st) b f (g_arp st) (dhcp_buf st) (g_dns_srv st)
    (dns_buf st) (g_dns_cache st) (g_ip st) (wire st) (polls st) (sleeps st) (sends st) (allocs st).
Definition set_arp (a : list (Z * list Z)) (st : net) : net :=
  mk_net (gv st) (g_socks st) (g_build st) (g_frame st) a (dhcp_buf st) (g_dns_srv st)
    (dns_buf st) (g_dns_cache st) (g_ip st) (wire st) (polls st) (sleeps st) (sends st) (allocs st).
Definition set_dhcp_buf (b : list Z) (st : net) : net :=
  mk_net (gv st) (g_socks st) (g_build st) (g_frame st) (g_arp st) b (g_dns_srv st)
    (dns_buf st) (g_dns_cache st) (g_ip st) (wire st) (polls st) (sleeps st) (sends st) (allocs st).
Definition set_dns_srv (l : list Z) (st : net) : net :=
  mk_net (gv st) (g_socks st) (g_build st) (g_frame st) (g_arp st) (dhcp_buf st) l
    (dns_buf st) (g_dns_cache st) (g_ip st) (wire st) (polls st) (sleeps st) (sends st) (allocs st).
Definition set_dns_buf (b : list Z) (st : net) : net :=
  mk_net (gv st) (g_socks st) (g_build st) (g_frame st) (g_arp st) (dhcp_buf st) (g_dns_srv st)
    b (g_dns_cache st) (g_ip st) (wire st) (polls st) (sleeps st) (sends st) (allocs st).
Definition set_dns_cache (c : list dns_entry) (st : net) : net :=
  mk_net (gv st) (g_socks st) (g_build st) (g_frame st) (g_arp st) (dhcp_buf st) (g_dns_srv st)
    (dns_buf st) c (g_ip st) (wire st) (polls st) (sleeps st) (sends st) (allocs st).
Definition set_ip (a : list Z) (st : net) : net :=
  mk_net (gv st) (g_socks st) (g_build st) (g_frame st) (g_arp st) (dhcp_buf st) (g_dns_srv st)
    (dns_buf st) (g_dns_cache st) a (wire st) (polls st) (sleeps st) (sends st) (allocs st).
Definition set_wire (w : list (list Z)) (st : net) : net :=
  mk_net (gv st) (g_socks st) (g_build st) (g_frame st) (g_arp st) (dhcp_buf st) (g_dns_srv st)
    (dns_buf st) (g_dns_cache st) (g_ip st) w (polls st) (sleeps st) (sends st) (allocs st).
Definition set_env (p s n a : nat) (st : net) : net :=
  mk_net (gv st) (g_socks st) (g_build st) (g_frame st) (g_arp st) (dhcp_buf st) (g_dns_srv st)
    (dns_buf st) (g_dns_cache st) (g_ip st) (wire st) p s n a.

(** The statics before the first call; the address is the one built in. *)
Definition net_boot : net :=
  mk_net (fun v => match v with g_ephemeral => 40000 | g_ip_id => 0x1000 | id_counter => 0x1234 | _ => 0 end)
    (replicate (Z.to_nat NET_MAX_SOCKS) no_sock) None None (replicate (Z.to_nat ARP_CACHE) (0, replicate 6 0))
    (replicate 512 0) (replicate 4 0) (replicate 512 0) (replicate 8 (mk_dns false (replicate 64 0) 0 0)) [10; 0; 2; 15] [] 0 0 0 0.

(** ** The environment

    The card: whether it is there, its hardware address, whether the [n]-th
    frame finds a free transmit descriptor, the frames that have arrived when
    it is polled for the [n]-th time; the clock after the [n]-th sleep of a
    task; the [n]-th block from the heap with its old content; which processes
    exist. *)
Class NetEnv := {
  nic_present : bool;
  nic_mac : list Z;
  nic_free : nat -> bool;
  arrivals : nat -> list (list Z);
  clock : nat -> Z;
  km_alloc : nat -> Z -> option (list Z);
  task_find : Z -> bool;
  nic_mac_ok : length nic_mac = 6%nat /\ Forall is_u8 nic_mac;
  arrivals_ok n : Forall (Forall is_u8) (arrivals n);
  clock_ok n : is_u32 (clock n);
  km_alloc_ok n sz l : km_alloc n sz = Some l -> length l = Z.to_nat sz /\ Forall is_u8 l;
}.

(** ** The monad *)

(** [Wild]: an access outside a buffer or through a null pointer; [Stuck]: the
    fuel of a wait is used up. *)
Inductive res (A : Type) : Type := Ok (a : A) (st : net) | Wild | Stuck.
#[global] Arguments Ok {A}.
#[global] Arguments Wild {A}.
#[global] Arguments Stuck {A}.

Definition M (A : Type) : Type := net -> res A.
#[export] Instance M_ret : MRet M := fun A a st => Ok a st.
#[export] Instance M_bind : MBind M := fun A B k m st =>
  match m st with Ok a st' => k a st' | Wild => Wild | Stuck => Stuck end.

Definition gets {A} (f : net -> A) : M A := fun st => Ok (f st) st.
Definition modify (f : net -> net) : M unit := fun st => Ok tt (f st).
Definition lift {A} (o : option A) : M A := fun st => match o with Some a => Ok a st | None => Wild end.
Definition wild {A} : M A := fun _ => Wild.
Definition stuck {A} : M A := fun _ => Stuck.
Notation "m ;; k" := (mbind (M := M) (fun _ : unit => k) m) (at level 100, k at level 200, right associativity).

Definition get (v : gvar) : M Z := gets (fun st => gv st v).
Definition set (v : gvar) (x : Z) : M unit := modify (set_gv v x).
(** [v++] on a counter of 32 bits, [v += x]. *)
Definition add (v : gvar) (x : Z) : M unit := modify (fun st => set_gv v (gv st v +! x) st).
Definition bump (v : gvar) : M unit := add v 1.

Definition get_sock (i : nat) : M sock_t := gets (fun st => nth i (g_socks st) no_sock).
Definition set_sock (i : nat) (s : sock_t) : M unit := modify (fun st => set_socks (<[i := s]> (g_socks st)) st).

Definition when (b : bool) (m : M unit) : M unit := if b then m else mret tt.

(** A store to a construction buffer. *)
Definition wr_build (i : Z) (b : list Z) : M unit :=
  l ← gets g_build; l' ← lift (l ≫= fun l => store l i b); modify (fun st => set_bufs (Some l') (g_frame st) st).
Definition wr_frame (i : Z) (b : list Z) : M unit :=
  l ← gets g_frame; l' ← lift (l ≫= fun l => store l i b); modify (fun st => set_bufs (g_build st) (Some l') st).
Definition rd_build (i n : Z) : M (list Z) := l ← gets g_build; lift (l ≫= fun l => load l i n).
Definition rd_frame (i n : Z) : M (list Z) := l ← gets g_frame; lift (l ≫= fun l => load l i n).

Section Net.
Context `{E : NetEnv}.

(** ** The card *)

Definition rtl8139_send (frame : option (list Z)) (len : Z) : M Z :=
  if negb nic_present || (len <? ETH_HDR_LEN) || (ETH_FRAME_MAX <? len) then mret (-1)
  else
    n ← gets sends;
    modify (fun st => set_env (polls st) (sleeps st) (S n) (allocs st) st);;
    if negb (nic_free n) then mret (-1)
    else
      b ← lift (frame ≫= fun l => load l 0 len);
      modify (fun st => set_wire (wire st ++ [b]) st);;
      mret 0.

Definition my_ip_be : M Z := a ← gets g_ip; lift (be32 a 0).

Definition kmalloc (sz : Z) : M (option (list Z)) :=
  n ← gets allocs;
  modify (fun st => set_env (polls st) (sleeps st) (sends st) (S n) st);;
  mret (km_alloc n sz).

Definition task_sleep (ms : Z) : M unit :=
  n ← gets sleeps;
  modify (fun st => set_env (polls st) (S n) (sends st) (allocs st) st);;
  set g_pit_ticks (clock n).

(** The missing buffers are allocated; false when one is still missing. *)
Definition build_ready : M bool :=
  b ← gets g_build; f ← gets g_frame;
  b ← (match b with Some _ => mret b | None => kmalloc (NET_BUILD_MAX + 16) end : M (option (list Z)));
  f ← (match f with Some _ => mret f | None => kmalloc (NET_BUILD_MAX + 16) end : M (option (list Z)));
  modify (set_bufs b f);;
  mret (match b, f with Some _, Some _ => true | _, _ => false end).

(** ** ARP *)

Definition arp_learn_in (ip : Z) (mac : list Z) (a : list (Z * list Z)) : list (Z * list Z) :=
  if ip =? 0 then a
  else match list_find (fun e => e.1 = ip) a with
       | Some (i, _) => <[i := (ip, mac)]> a
       | None =>
           let slot := match list_find (fun e => e.1 = 0) (drop 1 a) with Some (i, _) => S i | None => O end in
           <[slot := (ip, mac)]> a
       end.
Definition arp_learn (ip : Z) (mac : list Z) : M unit := modify (fun st => set_arp (arp_learn_in ip mac (g_arp st)) st).

Definition arp_lookup_in (ip : Z) (a : list (Z * list Z)) : option (list Z) :=
  match list_find (fun e => e.1 = ip) a with Some (_, e) => Some e.2 | None => None end.
Definition arp_lookup (ip : Z) : M (option (list Z)) := gets (fun st => arp_lookup_in ip (g_arp st)).

Definition arp_request (ip : Z) : M unit :=
  wr_build 0 (replicate 6 255);;
  wr_build 6 nic_mac;;
  wr_build 12 [0x08; 0x06];;
  wr_build 14 (put16 1);; wr_build 16 (put16 0x0800);; wr_build 18 [6; 4];;
  wr_build 20 (put16 1);;
  wr_build 22 nic_mac;;
  my ← my_ip_be;
  wr_build 28 (put32 my);;
  wr_build 32 (replicate 6 0);;
  wr_build 38 (put32 ip);;
  r ← gets g_build;
  _ ← rtl8139_send r (ETH_HDR_LEN + 28);
  mret tt.

(** ** Waiting

    Every wait of the file is this loop; [net_poll] is a parameter here because
    it processes frames, whose handlers may wait themselves. *)
Section Wait.
Variables (net_poll : M unit) (fuel : nat).

Fixpoint wait_for {A} (k : nat) (test : M (option A)) (deadline : Z) : M (option A) :=
  match k with
  | O => stuck
  | S k' =>
      net_poll;;
      r ← test;
      match r with
      | Some a => mret (Some a)
      | None =>
          now ← get g_pit_ticks;
          if 0 <=? s32 (now -! deadline) then mret None
          else task_sleep (deadline -! now);; wait_for k' test deadline
      end
  end.

Definition arp_resolve (ip timeout_ms : Z) : M (option (list Z)) :=
  m ← arp_lookup ip;
  match m with
  | Some m => mret (Some m)
  | None =>
      arp_request ip;;
      now ← get g_pit_ticks;
      wait_for fuel (arp_lookup ip) (now +! timeout_ms)
  end.

(** ** Sending IPv4 packets *)

(** [payload] is the buffer that the argument points to. *)
Definition ipv4_send_via (dst_ip hop_ip proto : Z) (payload : option (list Z)) (len : Z) : M Z :=
  if (len =? 0) || (NET_BUILD_MAX <? ETH_HDR_LEN + IP_HDR_MIN +! len) then mret (-1)
  else
    p ← lift (payload ≫= fun l => load l 0 len);
    wr_frame (ETH_HDR_LEN + IP_HDR_MIN) p;;
    mac ← arp_resolve hop_ip 3000;
    match mac with
    | None => mret (-1)
    | Some dst_mac =>
        wr_frame 0 dst_mac;;
        wr_frame 6 nic_mac;;
        wr_frame 12 [0x08; 0x00];;
        wr_frame 14 [0x45; 0];;
        wr_frame 16 (put16 (u16 (IP_HDR_MIN + len)));;
        id ← get g_ip_id;
        set g_ip_id (u16 (id + 1));;
        wr_frame 18 (put16 (u16 (id + 1)));;
        wr_frame 20 (put16 0);;
        wr_frame 22 [64; proto];;
        wr_frame 24 (put16 0);;
        my ← my_ip_be;
        wr_frame 26 (put32 my);;
        wr_frame 30 (put32 dst_ip);;
        h ← rd_frame ETH_HDR_LEN IP_HDR_MIN;
        wr_frame 24 (put16 (cksum h));;
        r ← gets g_frame;
        rtl8139_send r (ETH_HDR_LEN + IP_HDR_MIN + len)
    end.

Definition ipv4_send (dst_ip proto : Z) (payload : option (list Z)) (len : Z) : M Z :=
  ipv4_send_via dst_ip dst_ip proto payload len.

(** ** ICMP *)

(** [ip] is the packet from its header on. *)
Definition icmp_input (ip : list Z) (ihl : Z) : M unit :=
  let ic := drop (Z.to_nat ihl) ip in
  totlen ← lift (be16 ip 2);
  let iclen := totlen -! ihl in
  if (iclen <? 8) || (NET_BUILD_MAX <? iclen) then mret tt
  else
    t ← lift (rd8 ic 0); c ← lift (rd8 ic 1);
    a ← get ping_active; g ← get ping_got; pid ← get ping_id; pseq ← get ping_seq;
    id ← lift (be16 ic 4); sq ← lift (be16 ic 6);
    if (t =? 0) && (c =? 0) && negb (a =? 0) && (g =? 0) && (id =? pid) && (sq =? pseq) then
      set ping_got 1;; bump g_ping_matched
    else if negb (t =? 8) || negb (c =? 0) then mret tt
    else
      wr_build 0 [0; 0];;
      wr_build 2 (put16 0);;
      d ← lift (load ic 4 (iclen - 4));
      wr_build 4 d;;
      p ← rd_build 0 iclen;
      wr_build 2 (put16 (cksum p));;
      src ← lift (be32 ip 12);
      b ← gets g_build;
      r ← ipv4_send src 1 b iclen;
      when (r =? 0) (bump g_icmp_replied).

(** The result 0 carries the round-trip time. *)
Definition net_ping (dst_ip timeout_ms : Z) : M (Z * Z) :=
  ok ← build_ready;
  if negb ok then mret (-1, 0)
  else
    let id := 0x455A in
    sq ← get seq_counter;
    let sq := u16 (sq + 1) in
    set seq_counter sq;;
    wr_build 0 [8; 0];;
    wr_build 2 (put16 0);;
    wr_build 4 (put16 id);;
    wr_build 6 (put16 sq);;
    wr_build 8 (bytes "EZOSPING");;
    p ← rd_build 0 16;
    wr_build 2 (put16 (cksum p));;
    bump g_ping_reqs;;
    set ping_active 1;; set ping_id id;; set ping_seq sq;; set ping_got 0;;
    t0 ← get g_pit_ticks;
    b ← gets g_build;
    rc ← ipv4_send dst_ip 1 b 16;
    if rc =? 0 then
      r ← wait_for fuel (g ← get ping_got; if g =? 0 then mret None else (now ← get g_pit_ticks; mret (Some (now -! t0)))) (t0 +! timeout_ms);
      set ping_active 0;;
      mret (match r with Some rtt => (0, rtt) | None => (1, 0) end)
    else set ping_active 0;; mret (rc, 0).

(** ** Transport checksums *)

Definition pseudo (src_ip dst_ip proto n : Z) : list Z := put32 src_ip ++ put32 dst_ip ++ [0; proto] ++ put16 (u16 n).

Definition l4_sum (src_ip dst_ip proto : Z) (p : list Z) : Z :=
  fold16 FOLD_FUEL (cksum_raw (pseudo src_ip dst_ip proto (Z.of_nat (length p))) +! cksum_raw p).

Definition l4_checksum (src_ip dst_ip proto : Z) (p : list Z) : Z :=
  let c := u16 (Z.lnot (l4_sum src_ip dst_ip proto p)) in if c =? 0 then 0xFFFF else c.

Definition udp_checksum (src_ip dst_ip : Z) (p : list Z) : Z := l4_checksum src_ip dst_ip 17 p.

Definition l4_csum_ok (ip : list Z) (ihl totlen : Z) : option bool :=
  proto ← rd8 ip 9;
  let ln := totlen -! ihl in
  let l4 := drop (Z.to_nat ihl) ip in
  let check :=
    src ← be32 ip 12; dst ← be32 ip 16;
    p ← load l4 0 ln;
    Some (l4_sum src dst proto p =? 0xFFFF) in
  if proto =? 17 then
    if ln <? UDP_HDR_LEN then Some false
    else got ← be16 l4 6; if got =? 0 then Some true else check
  else if proto =? 6 then
    if ln <? TCP_HDR_MIN then Some false
    else got ← be16 l4 16; check
  else Some true.

(** ** UDP *)

(** Bytes written to a receive ring one after the other. *)
Fixpoint ring_put (l : list Z) (w : Z) (d : list Z) : option (list Z * Z) :=
  match d with
  | [] => Some (l, w)
  | x :: d' => l' ← store l w [x]; ring_put l' ((w +! 1) mod NET_SOCK_BUF) d'
  end.

Definition rx_space (r : rcv_t) : Z := (NET_SOCK_BUF - 1 +! rx_r r -! rx_w r) mod NET_SOCK_BUF.

Definition with_ring (r : rcv_t) (l : list Z) (w : Z) : rcv_t :=
  mk_rcv (Some l) (rx_r r) w (rcv_nxt r) (got_fin r) (ooo r) (ooo_seq r) (ooo_len r).
Definition with_rx_r (r : rcv_t) (p : Z) : rcv_t :=
  mk_rcv (rx r) p (rx_w r) (rcv_nxt r) (got_fin r) (ooo r) (ooo_seq r) (ooo_len r).

Definition rcv_put (r : rcv_t) (d : list Z) : option rcv_t :=
  match d with
  | [] => Some r
  | _ => l ← rx r; '(l', w) ← ring_put l (rx_w r) d; Some (with_ring r l' w)
  end.

Definition udp_deliver (src_ip src_port dst_port : Z) (data : list Z) : M unit :=
  l ← gets g_socks;
  match list_find (fun s => used s = true /\ type s = SOCK_TYPE_UDP /\ local_port s = dst_port) l with
  | None => mret tt
  | Some (i, s) =>
      let n := Z.of_nat (length data) in
      if rx_space (rcv s) <? 8 +! n then mret tt
      else
        r ← lift (rcv_put (rcv s) (put32 src_ip ++ wr16le src_port ++ wr16le (u16 n) ++ data));
        set_sock i (with_rcv s r)
  end.

Definition udp_input (ip : list Z) (ihl : Z) : M unit :=
  totlen ← lift (be16 ip 2);
  if totlen <? ihl +! UDP_HDR_LEN then mret tt
  else
    let u := drop (Z.to_nat ihl) ip in
    ulen ← lift (be16 u 4);
    if ulen <? UDP_HDR_LEN then mret tt
    else
      let dlen := ulen -! UDP_HDR_LEN in
      if totlen -! ihl -! UDP_HDR_LEN <? dlen then mret tt
      else
        bump g_udp_rx;;
        src ← lift (be32 ip 12); sport ← lift (be16 u 0); dport ← lift (be16 u 2);
        d ← lift (load u UDP_HDR_LEN dlen);
        udp_deliver src sport dport d.

(** [data] is the buffer of the caller. *)
Definition net_udp_send (dst_ip dst_port src_port : Z) (data : list Z) (n : Z) : M Z :=
  if NET_BUILD_MAX - IP_HDR_MIN - UDP_HDR_LEN <? n then mret (-1)
  else
    wr_build 0 (put16 src_port);;
    wr_build 2 (put16 dst_port);;
    wr_build 4 (put16 (u16 (UDP_HDR_LEN + n)));;
    wr_build 6 (put16 0);;
    d ← lift (load data 0 n);
    wr_build UDP_HDR_LEN d;;
    let need := UDP_HDR_LEN + n in
    my ← my_ip_be;
    p ← rd_build 0 need;
    wr_build 6 (put16 (udp_checksum my dst_ip p));;
    b ← gets g_build;
    r ← ipv4_send dst_ip 17 b need;
    if negb (r =? 0) then mret (-1)
    else bump g_udp_tx;; mret (s32 n).
End Wait.
End Net.
