(* ===== verification/Tcp.v ===== *)
(** * Tcp: the TCP part of [kernel/net.c]

    Sending and retransmitting the one outstanding segment, the reassembly of
    received data, the state machine [tcp_input], closing and the timer. *)

From S2P Require Import Prelude Disk Net.

(** [sock_free]: the buffers stay with the slot. *)
Definition sock_free_v (s : sock_t) : sock_t :=
  let n := snd s in let r := rcv s in
  mk_sock false (type s) TS_UNUSED (local_port s) (peer_port s) (peer_ip s) (owner_pid s) (parent s)
    (mk_rcv (rx r) (rx_r r) (rx_w r) (rcv_nxt r) (got_fin r) (ooo r) (ooo_seq r) 0)
    (mk_snd (snd_nxt n) (snd_una n) (rtx n) 0 0 0 false).
Definition sock_free (i : nat) : M unit := s ← get_sock i; set_sock i (sock_free_v s).

Definition set_nxt (n : snd_t) (q : Z) : snd_t := mk_snd q (snd_una n) (rtx n) (rtx_len n) (rto_tick n) (rtx_tries n) (syn_unacked n).
Definition set_timer (n : snd_t) (t tries : Z) : snd_t := mk_snd (snd_nxt n) (snd_una n) (rtx n) (rtx_len n) t tries (syn_unacked n).
Definition set_rtx (n : snd_t) (b : option (list Z)) (len : Z) : snd_t :=
  mk_snd (snd_nxt n) (snd_una n) b len (rto_tick n) (rtx_tries n) (syn_unacked n).
Definition set_rcv_nxt (r : rcv_t) (q : Z) : rcv_t := mk_rcv (rx r) (rx_r r) (rx_w r) q (got_fin r) (ooo r) (ooo_seq r) (ooo_len r).
Definition set_fin (r : rcv_t) : rcv_t := mk_rcv (rx r) (rx_r r) (rx_w r) (rcv_nxt r +! 1) true (ooo r) (ooo_seq r) (ooo_len r).
Definition set_ooo (r : rcv_t) (b : option (list Z)) (q len : Z) : rcv_t :=
  mk_rcv (rx r) (rx_r r) (rx_w r) (rcv_nxt r) (got_fin r) b q len.

(** ** Acknowledgements *)

(** [for (k = 0; k + off < len; k++) l[k] = l[k + off];] *)
Fixpoint move_down (fuel : nat) (l : list Z) (k off len : Z) : option (list Z) :=
  if k +! off <? len then
    match fuel with
    | O => None
    | S f => x ← rd8 l (k +! off); l' ← store l k [x]; move_down f l' (k +! 1) off len
    end
  else Some l.

Definition tcp_ack (now ack : Z) (n : snd_t) : option snd_t :=
  let una := snd_una n in
  if (0 <? s32 (ack -! una)) && (s32 (ack -! snd_nxt n) <=? 0) then
    let acked := ack -! una in
    if syn_unacked n then
      Some (mk_snd (snd_nxt n) ack (rtx n) (rtx_len n) (if rtx_len n =? 0 then 0 else rto_tick n) 0 false)
    else if rtx_len n <=? acked then
      Some (mk_snd (snd_nxt n) ack (rtx n) 0 0 0 false)
    else
      l ← rtx n;
      l' ← move_down (Z.to_nat (rtx_len n)) l 0 acked (rtx_len n);
      Some (mk_snd (snd_nxt n) ack (Some l') (rtx_len n -! acked) (now +! TCP_RTO_MS) 0 false)
  else Some n.

(** A new segment of data becomes the outstanding one. *)
Definition snd_queue (n : snd_t) (d : list Z) : option snd_t :=
  b ← rtx n; b' ← store b 0 d;
  let len := Z.of_nat (length d) in
  Some (set_nxt (set_rtx n (Some b') len) (snd_nxt n +! len)).

(** ** Reassembly *)

(** The run of buffered bytes that follows the stream is moved to the ring;
    the result also counts them. *)
Fixpoint ooo_drain (fuel : nat) (r : rcv_t) (cnt : Z) : option (rcv_t * Z) :=
  if negb (ooo_len r =? 0) && (ooo_seq r =? rcv_nxt r) then
    let space := rx_space r in
    let n := if ooo_len r <? space then ooo_len r else space in
    if n =? 0 then Some (r, cnt)
    else
      match fuel with
      | O => None
      | S f =>
          b ← ooo r;
          d ← load b 0 n;
          r1 ← rcv_put r d;
          b' ← move_down (Z.to_nat (ooo_len r)) b 0 n (ooo_len r);
          let nxt := rcv_nxt r1 +! n in
          ooo_drain f (set_ooo (set_rcv_nxt r1 nxt) (Some b') nxt (ooo_len r -! n)) (cnt +! n)
      end
  else Some (r, cnt).

Definition tcp_data (r : rcv_t) (seq : Z) (data : list Z) : option (rcv_t * Z) :=
  let dlen := Z.of_nat (length data) in
  if dlen =? 0 then Some (r, 0)
  else if s32 (seq -! rcv_nxt r) <? 0 then Some (r, 0)
  else if seq =? rcv_nxt r then
    let space := rx_space r in
    let n := if space <? dlen then space else dlen in
    r1 ← rcv_put r (take (Z.to_nat n) data);
    ooo_drain (Z.to_nat (ooo_len r)) (set_rcv_nxt r1 (rcv_nxt r1 +! n)) n
  else
    match ooo r with
    | None => Some (r, 0)
    | Some b =>
        if (ooo_len r +! dlen <=? TCP_OOO_BUF) && ((ooo_len r =? 0) || (seq =? ooo_seq r +! ooo_len r)) then
          b' ← store b (ooo_len r) data;
          Some (set_ooo r (Some b') (if ooo_len r =? 0 then seq else ooo_seq r) (ooo_len r +! dlen), 0)
        else Some (r, 0)
    end.

(** The FIN is accepted when everything before it has been. *)
Definition fin_now (r : rcv_t) (seq dlen : Z) : bool := seq +! dlen =? rcv_nxt r.

Section Tcp.
Context `{E : NetEnv}.

(** ** Sending a segment *)

Definition tcp_send_seg_ex (s : sock_t) (flags : Z) (data : option (list Z)) (n seq : Z) : M Z :=
  if NET_BUILD_MAX - IP_HDR_MIN - TCP_HDR_MIN <? n then mret (-1)
  else
    mac ← arp_lookup (peer_ip s);
    match mac with
    | None => mret (-1)
    | Some dst_mac =>
        wr_build 0 dst_mac;; wr_build 6 nic_mac;; wr_build 12 [0x08; 0x00];;
        let iplen := IP_HDR_MIN + TCP_HDR_MIN + n in
        wr_build 14 [0x45; 0];;
        wr_build 16 (put16 (u16 iplen));;
        id ← get g_ip_id;
        set g_ip_id (u16 (id + 1));;
        wr_build 18 (put16 (u16 (id + 1)));;
        wr_build 20 (put16 0);;
        wr_build 22 [64; 6];;
        wr_build 24 (put16 0);;
        my ← my_ip_be;
        wr_build 26 (put32 my);;
        wr_build 30 (put32 (peer_ip s));;
        wr_build 34 (put16 (local_port s));;
        wr_build 36 (put16 (peer_port s));;
        wr_build 38 (put32 seq);;
        wr_build 42 (put32 (rcv_nxt (rcv s)));;
        wr_build 46 [u8 (Z.shiftl TCP_HDR_MIN 2); flags];;
        wr_build 48 (put16 4096);;
        wr_build 50 (put16 0);; wr_build 52 (put16 0);;
        d ← (if n =? 0 then mret [] else lift (data ≫= fun l => load l 0 n) : M (list Z));
        wr_build 54 d;;
        let tlen := TCP_HDR_MIN + n in
        when (negb (tlen &! 1 =? 0)) (wr_build (34 + tlen) [0]);;
        t ← rd_build 34 (tlen + (tlen &! 1));
        let sum := fold16 FOLD_FUEL (cksum_raw (pseudo my (peer_ip s) 6 tlen) +! cksum_raw t) in
        wr_build 50 (put16 (u16 (Z.lnot sum)));;
        h ← rd_build ETH_HDR_LEN IP_HDR_MIN;
        wr_build 24 (put16 (cksum h));;
        r ← gets g_build;
        rc ← rtl8139_send r (ETH_HDR_LEN + iplen);
        if negb (rc =? 0) then mret (-1) else bump g_tcp_tx;; mret 0
    end.

Definition tcp_send_seg (s : sock_t) (flags : Z) (data : option (list Z)) (n : Z) : M Z :=
  tcp_send_seg_ex s flags data n (snd_nxt (snd s)).

(** ** The retransmission timer *)

Definition tcp_retransmit_check (i : nat) (now : Z) : M unit :=
  s ← get_sock i;
  let n := snd s in
  if bool_decide (state s = TS_UNUSED) || negb (type s =? SOCK_TYPE_TCP) then mret tt
  else if rto_tick n =? 0 then mret tt
  else if s32 (now -! rto_tick n) <? 0 then mret tt
  else if TCP_RTX_MAX <=? rtx_tries n then
    _ ← tcp_send_seg s (Z.lor TCP_RST TCP_ACK) None 0;
    sock_free i
  else
    let tries := u8 (rtx_tries n + 1) in
    let backoff := u32 (Z.shiftl TCP_RTO_MS (if 4 <? tries then 4 else tries)) in
    let s' := with_snd s (set_timer n (now +! backoff) tries) in
    set_sock i s';;
    bump g_tcp_rtx;;
    if syn_unacked n then
      _ ← tcp_send_seg_ex s' TCP_SYN None 0 (snd_una n); mret tt
    else if rtx_len n =? 0 then set_sock i (with_snd s (set_timer n 0 tries))
    else _ ← tcp_send_seg_ex s' (Z.lor TCP_PSH TCP_ACK) (rtx n) (rtx_len n) (snd_una n); mret tt.

(** The loop of [net_tick] over the sockets. *)
Fixpoint tcp_tick (k i : nat) (now : Z) : M unit :=
  match k with
  | O => mret tt
  | S k' =>
      s ← get_sock i;
      when (used s && (type s =? SOCK_TYPE_TCP) && negb (rto_tick (snd s) =? 0)) (tcp_retransmit_check i now);;
      tcp_tick k' (S i) now
  end.

(** ** Buffers and closing *)

Definition tcp_bufs (i : nat) : M bool :=
  s ← get_sock i;
  b ← (match rtx (snd s) with Some _ => mret (rtx (snd s)) | None => kmalloc TCP_RTX_BUF end : M (option (list Z)));
  set_sock i (with_snd s (set_rtx (snd s) b (rtx_len (snd s))));;
  match b with
  | None => mret false
  | Some _ =>
      s ← get_sock i;
      o ← (match ooo (rcv s) with Some _ => mret (ooo (rcv s)) | None => kmalloc TCP_OOO_BUF end : M (option (list Z)));
      set_sock i (with_rcv s (set_ooo (rcv s) o (ooo_seq (rcv s)) (ooo_len (rcv s))));;
      match o with
      | None => mret false
      | Some _ =>
          s ← get_sock i;
          set_sock i (with_rcv (with_snd s (mk_snd (snd_nxt (snd s)) (snd_una (snd s)) (rtx (snd s)) 0 0 0 false))
                               (set_ooo (rcv s) (ooo (rcv s)) 0 0));;
          mret true
      end
  end.

(** The children that nobody has accepted. *)
Fixpoint free_children (k i : nat) (p : Z) : M unit :=
  match k with
  | O => mret tt
  | S k' => s ← get_sock i; when (used s && (parent s =? p)) (sock_free i);; free_children k' (S i) p
  end.

Definition tcp_close (i : nat) : M Z :=
  s ← get_sock i;
  if (type s =? SOCK_TYPE_TCP) && (bool_decide (state s = TS_ESTABLISHED) || bool_decide (state s = TS_CLOSE_WAIT)) then
    let seq := snd_nxt (snd s) in
    let s' := with_snd s (set_nxt (snd s) (seq +! 1)) in
    set_sock i s';;
    rc ← tcp_send_seg_ex s' (Z.lor TCP_FIN TCP_ACK) None 0 seq;
    if negb (rc =? 0) then set_sock i (with_snd s (set_nxt (snd s) seq));; mret (-1)
    else
      set_sock i (with_state s' (if bool_decide (state s = TS_ESTABLISHED) then TS_FIN_WAIT_1 else TS_LAST_ACK));;
      mret 0
  else
    when ((type s =? SOCK_TYPE_TCP) && bool_decide (state s = TS_LISTEN)) (free_children (Z.to_nat NET_MAX_SOCKS) 0 (Z.of_nat i));;
    sock_free i;;
    mret 0.

(** ** Receiving a segment *)

(** The connection and the listener that a segment is for. *)
Fixpoint tcp_demux (l : list sock_t) (i : nat) (dport sport srcip : Z) (listener : option nat) : option nat * option nat :=
  match l with
  | [] => (None, listener)
  | s :: l' =>
      if negb (used s) || negb (type s =? SOCK_TYPE_TCP) then tcp_demux l' (S i) dport sport srcip listener
      else if negb (local_port s =? dport) then tcp_demux l' (S i) dport sport srcip listener
      else if bool_decide (state s = TS_LISTEN) then tcp_demux l' (S i) dport sport srcip (Some i)
      else if (peer_port s =? sport) && (peer_ip s =? srcip) then (Some i, listener)
      else tcp_demux l' (S i) dport sport srcip listener
  end.

Definition isn : M Z := t ← get g_tcp_tx; u ← get g_udp_rx; mret (0x1000 +! t *! 64000 +! u).

(** A connection request to the listener [li]. *)
Definition tcp_syn (li : nat) (dport sport srcip seq : Z) : M unit :=
  l ← gets g_socks;
  match list_find (fun s => used s = false) l with
  | None => mret tt
  | Some (i, s) =>
      ls ← get_sock li;
      let r := rcv s in
      set_sock i (mk_sock true SOCK_TYPE_TCP TS_SYN_RCVD dport sport srcip (owner_pid ls) (Z.of_nat li)
                    (mk_rcv (rx r) 0 0 (rcv_nxt r) false (ooo r) (ooo_seq r) (ooo_len r)) (snd s));;
      ok ← tcp_bufs i;
      if negb (ok : bool) then s ← get_sock i; set_sock i (with_used s false)
      else
        q ← isn;
        s ← get_sock i;
        let n := snd s in
        let s := with_rcv (with_snd s (mk_snd (q +! 1) q (rtx n) (rtx_len n) (rto_tick n) (rtx_tries n) (syn_unacked n)))
                          (set_rcv_nxt (rcv s) (seq +! 1)) in
        set_sock i s;;
        _ ← tcp_send_seg_ex s (Z.lor TCP_SYN TCP_ACK) None 0 q;
        mret tt
  end.

Definition has (flags f : Z) : bool := negb (flags &! f =? 0).

(** Data and FIN in the states that receive. *)
Definition tcp_receive (c : nat) (flags seq : Z) (data : list Z) : M unit :=
  let dlen := Z.of_nat (length data) in
  s ← get_sock c;
  '(r, n) ← lift (tcp_data (rcv s) seq data);
  add g_tcp_rx n;;
  let fin := has flags TCP_FIN && fin_now r seq dlen in
  let s := with_rcv s (if fin then set_fin r else r) in
  let s := if fin && bool_decide (state s = TS_ESTABLISHED) then with_state s TS_CLOSE_WAIT else s in
  set_sock c s;;
  if (0 <? dlen) || has flags TCP_FIN then _ ← tcp_send_seg s TCP_ACK None 0; mret tt else mret tt.

(** A FIN in the two states that wait for it. *)
Definition tcp_last_fin (c : nat) (seq dlen : Z) : M unit :=
  s ← get_sock c;
  let s := if fin_now (rcv s) seq dlen then with_rcv s (set_fin (rcv s)) else s in
  set_sock c s;;
  _ ← tcp_send_seg s TCP_ACK None 0;
  sock_free c.

Definition tcp_conn (c : nat) (flags seq ack : Z) (data : list Z) : M unit :=
  let dlen := Z.of_nat (length data) in
  if has flags TCP_RST then sock_free c
  else
    now ← get g_pit_ticks;
    s ← get_sock c;
    n ← lift (if has flags TCP_ACK then tcp_ack now ack (snd s) else Some (snd s));
    let s := with_snd s n in
    set_sock c s;;
    match state s with
    | TS_SYN_SENT =>
        if negb (has flags TCP_SYN) || negb (has flags TCP_ACK) then mret tt
        else if negb (ack =? snd_una n) then mret tt
        else
          let s := with_state (with_rcv (with_snd s (mk_snd (snd_nxt n) (snd_una n) (rtx n) (rtx_len n) 0 0 false))
                                        (set_rcv_nxt (rcv s) (seq +! 1))) TS_ESTABLISHED in
          set_sock c s;;
          _ ← tcp_send_seg s TCP_ACK None 0; mret tt
    | TS_SYN_RCVD =>
        if negb (has flags TCP_ACK) || negb (ack =? snd_nxt n) then mret tt
        else
          set_sock c (with_state s TS_ESTABLISHED);;
          if (dlen =? 0) && negb (has flags TCP_FIN) then mret tt else tcp_receive c flags seq data
    | TS_ESTABLISHED | TS_CLOSE_WAIT => tcp_receive c flags seq data
    | TS_LAST_ACK => when (has flags TCP_ACK && (ack =? snd_nxt n)) (sock_free c)
    | TS_FIN_WAIT_1 =>
        when (has flags TCP_ACK && (ack =? snd_nxt n)) (set_sock c (with_state s TS_FIN_WAIT_2));;
        when (has flags TCP_FIN) (tcp_last_fin c seq dlen)
    | TS_FIN_WAIT_2 => when (has flags TCP_FIN) (tcp_last_fin c seq dlen)
    | _ => mret tt
    end.

(** [ip] is the packet from its header on. *)
Definition tcp_input (ip : list Z) (ihl : Z) : M unit :=
  totlen ← lift (be16 ip 2);
  if totlen <? ihl +! TCP_HDR_MIN then mret tt
  else
    let t := drop (Z.to_nat ihl) ip in
    o ← lift (rd8 t 12);
    let doff := Z.shiftr o 4 *! 4 in
    if (doff <? TCP_HDR_MIN) || (totlen <? ihl +! doff) then mret tt
    else
      flags ← lift (rd8 t 13);
      seq ← lift (be32 t 4);
      ack ← lift (be32 t 8);
      let dlen := totlen -! ihl -! doff in
      dport ← lift (be16 t 2);
      sport ← lift (be16 t 0);
      srcip ← lift (be32 ip 12);
      l ← gets g_socks;
      match tcp_demux l 0 dport sport srcip None with
      | (None, None) => mret tt
      | (None, Some li) =>
          if negb (has flags TCP_SYN) || has flags TCP_ACK then mret tt else tcp_syn li dport sport srcip seq
      | (Some c, _) =>
          d ← lift (load t doff dlen);
          tcp_conn c flags seq ack d
      end.
End Tcp.
