(* ===== verification/Dhcp.v ===== *)
(** * Dhcp: the DHCP client of [kernel/net.c]

    The message it sends, the scan of options with the overload areas, the slot
    that receives an answer, the lease and the renewal timer of [net_tick].  The
    client's main loop [net_dhcp] waits for answers. *)

From S2P Require Import Prelude Disk Net.

Definition DHCP_SRV_PORT : Z := 67.
Definition DHCP_CLI_PORT : Z := 68.
Definition DHCP_MAGIC : Z := 0x63825363.
Definition BOOTP_FIXED : Z := 236.
Definition BOOTP_MIN : Z := 300.
Definition DHCP_BUF : Z := 512.
Definition DHCP_RENEW_RETRY_MIN : Z := 1000.
Definition DHCP_LEASE_MAX_SEC : Z := 100000.
Definition DNS_MAX_SRV : Z := 4.

(** ** Options *)

(** [dhcp_opt_in]: the first option [code] of the area, at most [max] bytes;
    [Some None] when there is none. *)
Fixpoint dhcp_opt_in (fuel : nat) (b : list Z) (i e code max : Z) : option (option (list Z)) :=
  if i +! 1 <? e then
    match fuel with
    | O => None
    | S f =>
        c ← rd8 b i;
        if c =? 0 then dhcp_opt_in f b (i +! 1) e code max
        else if c =? 255 then Some None
        else
          olen ← rd8 b (i +! 1);
          if e <? i +! 2 +! olen then Some None
          else if c =? code then
            d ← load b (i +! 2) (if olen <? max then olen else max); Some (Some d)
          else dhcp_opt_in f b (i +! (2 + olen)) e code max
    end
  else Some None.
Definition opt_scan (b : list Z) (i e code max : Z) : option (option (list Z)) := dhcp_opt_in (Z.to_nat e) b i e code max.

(** An option of length 0 counts as absent. *)
Definition nonempty (o : option (list Z)) : bool := match o with Some (_ :: _) => true | _ => false end.

Definition dhcp_opt_of (b : list Z) (dlen code max : Z) : option (option (list Z)) :=
  if dlen <? BOOTP_FIXED + 4 then Some None
  else
    r ← opt_scan b 240 dlen code max;
    if nonempty r then Some r
    else
      v ← opt_scan b 240 dlen 52 1;
      match v with
      | Some [ov] =>
          r1 ← (if negb (ov &! 1 =? 0) && (108 <? dlen) then opt_scan b 108 (if dlen <? 236 then dlen else 236) code max else Some None);
          if nonempty r1 then Some r1
          else
            r2 ← (if negb (ov &! 2 =? 0) && (44 <? dlen) then opt_scan b 44 (if dlen <? 108 then dlen else 108) code max else Some None);
            Some (if nonempty r2 then r2 else None)
      | _ => Some None
      end.

Definition dhcp_opt (code max : Z) : M (option (list Z)) :=
  b ← gets dhcp_buf; n ← get dhcp_len; lift (dhcp_opt_of b n code max).

(** The value of an option of four bytes. *)
Definition opt32 (code : Z) (dflt : Z) : M Z :=
  o ← dhcp_opt code 4;
  match o with
  | Some v => if Z.of_nat (length v) =? 4 then lift (be32 v 0) else mret dflt
  | None => mret dflt
  end.

(** The message type of a received message, 0 without one. *)
Fixpoint dhcp_type_in (fuel : nat) (b : list Z) (i dlen t : Z) : option Z :=
  if i +! 1 <? dlen then
    match fuel with
    | O => None
    | S f =>
        c ← rd8 b i;
        if c =? 0 then dhcp_type_in f b (i +! 1) dlen t
        else if c =? 255 then Some t
        else
          olen ← rd8 b (i +! 1);
          if dlen <? i +! 2 +! olen then Some t
          else
            t' ← (if (c =? 53) && (1 <=? olen) then rd8 b (i +! 2) else Some t);
            dhcp_type_in f b (i +! (2 + olen)) dlen t'
    end
  else Some t.

Section Dhcp.
Context `{E : NetEnv}.

Definition dhcp_new_xid : M Z :=
  now ← get g_pit_ticks;
  let x := foldl (fun x m => Z.lxor (Z.lxor (u32 (Z.shiftl x 5)) (Z.shiftr x 27)) m) (Z.lxor now 0x9E3779B9) nic_mac in
  mret (if x =? 0 then 0x5A5A5A5A else x).

(** The options of a request, from offset 240 of the message on. *)
Definition dhcp_options (msg_type req_ip server_id : Z) (bound : bool) : list Z :=
  [53; 1; msg_type] ++
  (if (msg_type =? 3) && negb bound then [50; 4] ++ put32 req_ip ++ [54; 4] ++ put32 server_id else []) ++
  [55; 4; 1; 3; 6; 51] ++
  [61; 7; 1] ++ nic_mac ++ [255].

Definition dhcp_send (msg_type req_ip server_id : Z) (bound : bool) : M Z :=
  wr_build 0 (replicate (Z.to_nat BOOTP_MIN) 0);;
  wr_build 0 [1; 1; 6; 0];;
  xid ← get dhcp_xid;
  wr_build 4 (put32 xid);;
  wr_build 8 (put16 0);;
  wr_build 10 (put16 0x8000);;
  wr_build 28 nic_mac;;
  lip ← get lease_ip;
  when bound (wr_build 12 (put32 lip));;
  wr_build 236 (put32 DHCP_MAGIC);;
  let opts := dhcp_options msg_type req_ip server_id bound in
  wr_build 240 opts;;
  if BOOTP_MIN <? 240 + Z.of_nat (length opts) then mret (-1)
  else
    mac ← (if bound && negb (server_id =? 0) then arp_lookup server_id else mret None : M (option (list Z)));
    let ip_dst := match mac with Some _ => server_id | None => 0xFFFFFFFF end in
    let udp_src_ip := if bound then lip else 0 in
    wr_frame 0 (match mac with Some m => m | None => replicate 6 0xFF end);;
    wr_frame 6 nic_mac;;
    wr_frame 12 [0x08; 0x00];;
    let ulen := UDP_HDR_LEN + BOOTP_MIN in
    wr_frame 34 (put16 DHCP_CLI_PORT);;
    wr_frame 36 (put16 DHCP_SRV_PORT);;
    wr_frame 38 (put16 (u16 ulen));;
    wr_frame 40 (put16 0);;
    p ← rd_build 0 BOOTP_MIN;
    wr_frame 42 p;;
    u ← rd_frame 34 ulen;
    wr_frame 40 (put16 (udp_checksum udp_src_ip ip_dst u));;
    wr_frame 14 [0x45; 0];;
    wr_frame 16 (put16 (u16 (IP_HDR_MIN + ulen)));;
    id ← get g_ip_id;
    set g_ip_id (u16 (id + 1));;
    wr_frame 18 (put16 (u16 (id + 1)));;
    wr_frame 20 (put16 0);;
    wr_frame 22 [64; 17];;
    wr_frame 24 (put16 0);;
    wr_frame 26 (put32 udp_src_ip);;
    wr_frame 30 (put32 ip_dst);;
    h ← rd_frame ETH_HDR_LEN IP_HDR_MIN;
    wr_frame 24 (put16 (cksum h));;
    bump g_udp_tx;;
    r ← gets g_frame;
    rtl8139_send r (ETH_HDR_LEN + IP_HDR_MIN + ulen).

(** A datagram for the DHCP client; [ip] is the packet from its header on. *)
Definition dhcp_input (ip : list Z) (ihl : Z) : M unit :=
  totlen ← lift (be16 ip 2);
  if totlen <? ihl +! UDP_HDR_LEN then mret tt
  else
    let u := drop (Z.to_nat ihl) ip in
    ulen ← lift (be16 u 4);
    if (ulen <? UDP_HDR_LEN) || (totlen -! ihl <? ulen) then mret tt
    else
      let dlen := ulen -! UDP_HDR_LEN in
      if (dlen <? BOOTP_FIXED + 4) || (DHCP_BUF <? dlen) then mret tt
      else
        let b := drop (Z.to_nat UDP_HDR_LEN) u in
        magic ← lift (be32 b 236);
        xid ← lift (be32 b 4);
        mine ← get dhcp_xid;
        if negb (magic =? DHCP_MAGIC) || negb (xid =? mine) then mret tt
        else
          t ← lift (dhcp_type_in (Z.to_nat dlen) b 240 dlen 0);
          if t =? 0 then mret tt
          else
            d ← lift (load b 0 dlen);
            old ← gets dhcp_buf;
            new ← lift (store old 0 d);
            modify (set_dhcp_buf new);;
            set dhcp_len dlen;;
            yi ← lift (be32 b 16);
            set dhcp_yiaddr yi;;
            set dhcp_msg_type t;;
            set dhcp_got 1.

(** The servers of option 6 that are not 0. *)
Fixpoint dns_fill (k : nat) (dv : list Z) (i : Z) : M unit :=
  match k with
  | O => mret tt
  | S k' =>
      n ← get g_dns_srv_n;
      if n <? DNS_MAX_SRV then
        a ← lift (be32 dv (i * 4));
        when (negb (a =? 0)) (l ← gets g_dns_srv; l' ← lift (store l n [a]); modify (set_dns_srv l');; set g_dns_srv_n (n +! 1));;
        dns_fill k' dv (i + 1)
      else mret tt
  end.

Definition dhcp_apply (ip server_id : Z) : M unit :=
  set lease_valid 0;; set renew_active 0;; set renew_state 0;;
  sid ← opt32 54 server_id;
  set lease_ip ip;;
  m ← opt32 1 0; set lease_mask m;;
  r ← opt32 3 0; set lease_router r;;
  set lease_server sid;;
  l ← opt32 51 0; set lease_lease l;;
  now ← get g_pit_ticks;
  set lease_tick now;;
  dv ← dhcp_opt 6 16;
  let dv := match dv with Some v => v | None => [] end in
  let dn := Z.of_nat (length dv) / 4 in
  man ← get g_dns_manual;
  (if negb (dn =? 0) then
     set g_dns_srv_n 0;; dns_fill (Z.to_nat dn) dv 0;; set g_dns_manual 0
   else when (man =? 0) (set g_dns_srv_n 0));;
  n ← get g_dns_srv_n;
  srv ← gets g_dns_srv;
  set lease_dns (if negb (n =? 0) then aget 0 srv 0 else 0);;
  when (negb (l =? 0) && (l <=? DHCP_LEASE_MAX_SEC))
    (let ms := l *! 1000 in
     set renew_t1 (now +! ms / 2);; set renew_t2 (now +! ms / 8 *! 7);; set renew_expire (now +! ms);;
     set renew_next 0;; set renew_active 1);;
  set dhcp_active 0;; set dhcp_got 0;; set dhcp_renewing 0;;
  modify (set_ip [Z.shiftr ip 24 &! 0xFF; Z.shiftr ip 16 &! 0xFF; Z.shiftr ip 8 &! 0xFF; ip &! 0xFF]);;
  set lease_valid 1.

(** The third part of [dhcp_renew_check]: one request in the state [state]. *)
Definition dhcp_renew_send (now state : Z) : M Z :=
  next ← get renew_next;
  if s32 (now -! next) <? 0 then mret 0
  else
    t1 ← get renew_t1; t2 ← get renew_t2;
    let retry := if t1 <? t2 then (t2 -! t1) / 2 else 0 in
    let retry := if retry <? DHCP_RENEW_RETRY_MIN then DHCP_RENEW_RETRY_MIN else retry in
    let retry := if 60000 <? retry then 60000 else retry in
    xid ← dhcp_new_xid;
    set dhcp_xid xid;; set dhcp_got 0;; set dhcp_msg_type 0;; set dhcp_active 1;; set dhcp_renewing 1;;
    ip ← get lease_ip; srv ← get lease_server;
    rc ← (if state =? 3 then dhcp_send 1 0 0 false else if state =? 1 then dhcp_send 3 ip srv true else dhcp_send 3 ip 0 true);
    when (negb (rc =? 0)) (set dhcp_active 0;; set dhcp_renewing 0);;
    set renew_next (now +! retry);;
    mret (if rc =? 0 then 1 else 0).

(** The second part: the state the clock asks for. *)
Definition dhcp_renew_step (now : Z) : M Z :=
  st ← get renew_state;
  t1 ← get renew_t1; t2 ← get renew_t2; ex ← get renew_expire;
  if st =? 0 then
    if s32 (now -! t1) <? 0 then mret 0
    else set renew_state 1;; set renew_next 0;; dhcp_renew_send now 1
  else if st =? 1 then
    if 0 <=? s32 (now -! t2) then set renew_state 2;; set renew_next 0;; dhcp_renew_send now 2
    else dhcp_renew_send now st
  else if (st =? 2) && (0 <=? s32 (now -! ex)) then
    set lease_valid 0;; set renew_state 3;; set renew_next 0;; dhcp_renew_send now 3
  else dhcp_renew_send now st.

Definition dhcp_renew_check (now : Z) : M Z :=
  a ← get renew_active; v ← get lease_valid;
  if (a =? 0) || (v =? 0) then mret 0
  else
    rn ← get dhcp_renewing; g ← get dhcp_got;
    if negb (rn =? 0) && negb (g =? 0) then
      t ← get dhcp_msg_type;
      set dhcp_got 0;;
      if t =? 5 then
        yi ← get dhcp_yiaddr; srv ← get lease_server;
        when (negb (yi =? 0)) (dhcp_apply yi srv);;
        mret 0
      else if t =? 6 then
        set lease_valid 0;; set renew_state 3;; dhcp_renew_step now
      else
        st ← get renew_state;
        if (t =? 2) && (st =? 3) then
          ip ← get dhcp_yiaddr;
          server ← opt32 54 0;
          rc ← (if negb (ip =? 0) then dhcp_send 3 ip server false else mret (-1) : M Z);
          if negb (ip =? 0) && (rc =? 0) then set renew_next (now +! DHCP_RENEW_RETRY_MIN);; mret 1
          else dhcp_renew_step now
        else dhcp_renew_step now
    else dhcp_renew_step now.

(** ** The client *)
Section Client.
Variables (net_poll : M unit) (fuel : nat).

Definition dhcp_wait (timeout_ms : Z) : M bool :=
  now ← get g_pit_ticks;
  r ← wait_for net_poll fuel (g ← get dhcp_got; mret (if g =? 0 then None else Some tt)) (now +! timeout_ms);
  mret (match r with Some _ => true | None => false end).

(** The attempts of one phase: [Some true] when an answer of type [want]
    came, [None] with the failed send, [Some false] when none did, and the type
    [nak] ends it. *)
Inductive phase := PhOk | PhNone | PhNak | PhSend.
Fixpoint dhcp_phase (k : nat) (send : M Z) (want nak timeout_ms : Z) : M phase :=
  match k with
  | O => mret PhNone
  | S k' =>
      set dhcp_got 0;; set dhcp_active 1;;
      rc ← send;
      if negb (rc =? 0) then mret PhSend
      else
        w ← dhcp_wait timeout_ms;
        t ← get dhcp_msg_type;
        if w && (t =? want) then mret PhOk
        else if w && (t =? nak) then mret PhNak
        else dhcp_phase k' send want nak timeout_ms
  end.

Definition net_dhcp (timeout_ms : Z) : M Z :=
  if negb nic_present then mret (-1)
  else
    ok ← build_ready;
    if negb ok then mret (-1)
    else
      let timeout_ms := if timeout_ms =? 0 then 2500 else timeout_ms in
      set lease_valid 0;;
      xid ← dhcp_new_xid;
      set dhcp_xid xid;;
      p1 ← dhcp_phase 3 (dhcp_send 1 0 0 false) 2 (-1) timeout_ms;
      match p1 with
      | PhSend => set dhcp_active 0;; mret (-1)
      | PhNone | PhNak => set dhcp_active 0;; mret 1
      | PhOk =>
          offer ← get dhcp_yiaddr;
          if offer =? 0 then set dhcp_active 0;; mret 2
          else
            server ← opt32 54 0;
            p2 ← dhcp_phase 3 (dhcp_send 3 offer server false) 5 6 timeout_ms;
            set dhcp_active 0;;
            match p2 with
            | PhSend => mret (-1)
            | PhNak => mret 2
            | PhNone => mret 1
            | PhOk =>
                ip ← get dhcp_yiaddr;
                if ip =? 0 then mret 2 else dhcp_apply ip server;; mret 0
            end
      end.
End Client.
End Dhcp.
