(* ===== verification/Dns.v ===== *)
(** * Dns: the resolver of [kernel/net.c]

    Encoding and skipping of names, the reading of an answer, the cache and the
    query loop.  A name given to the resolver is the list of its characters
    without the terminating NUL; the array of a cache entry is kept whole. *)

From S2P Require Import Prelude Disk Net.

Definition DNS_PORT : Z := 53.
Definition DNS_BUF : Z := 512.
Definition DNS_CACHE_MAX : Z := 8.
Definition DNS_NAME_MAX : Z := 64.
Definition DNS_TTL_MAX : Z := 86400.
Definition DNS_SRV_SLOTS : nat := 4.

Definition lower (c : Z) : Z := if (65 <=? c) && (c <=? 90) then c + 32 else c.

(** ** Names *)

(** The end of a list is read as NUL. *)
Fixpoint dns_name_eq (a b : list Z) : bool :=
  match a with
  | [] => lower (hd 0 b) =? 0
  | x :: a' =>
      if negb (lower x =? lower (hd 0 b)) then false
      else if lower x =? 0 then true
      else dns_name_eq a' (tl b)
  end.

(** The key of the cache; [None] for an empty name and one that does not fit. *)
Definition dns_name_copy (name : list Z) : option (list Z) :=
  if DNS_NAME_MAX <=? Z.of_nat (length name) then None
  else match name with [] => None | _ => Some (map lower name) end.

(** [out] is what has been written; [lab] is the offset of the length byte of
    the current label. *)
Fixpoint enc_from (name out : list Z) (lab : Z) : option (list Z) :=
  let w := Z.of_nat (length out) in
  let n := w - lab - 1 in
  match name with
  | [] => if (n =? 0) || (63 <? n) then None else Some (aset out lab (u8 n) ++ [0])
  | c :: name' =>
      if c =? 46 then
        if (n =? 0) || (63 <? n) then None
        else match name' with
             | [] => None
             | _ => enc_from name' (aset out lab (u8 n) ++ [0]) w
             end
      else
        if 255 <? w + 1 then None else enc_from name' (out ++ [u8 (lower c)]) lab
  end.
Definition dns_encode_name (name : list Z) : option (list Z) :=
  match name with [] => None | _ => enc_from name [0] 0 end.

(** The offset after a name, 0 when it is malformed. *)
Fixpoint dns_skip_name (fuel : nat) (p : list Z) (i n : Z) : option Z :=
  if n <=? i then Some 0
  else
    match fuel with
    | O => None
    | S f =>
        l ← rd8 p i;
        if l &! 0xC0 =? 0xC0 then Some (if i +! 2 <=? n then i +! 2 else 0)
        else if l =? 0 then Some (if i +! 1 <=? n then i +! 1 else 0)
        else if negb (l &! 0xC0 =? 0) then Some 0
        else dns_skip_name f p (i +! (1 + l)) n
    end.
Definition skip_name (p : list Z) (i n : Z) : option Z := dns_skip_name (Z.to_nat n) p i n.

(** ** Answers *)

(** The question section; 0 when it is malformed. *)
Fixpoint skip_questions (k : nat) (d : list Z) (i n : Z) : option Z :=
  match k with
  | O => Some i
  | S k' =>
      j ← skip_name d i n;
      if (j =? 0) || (n <? j +! 4) then Some 0 else skip_questions k' d (j +! 4) n
  end.

(** The first address record: the address and its time to live. *)
Fixpoint find_a (k : nat) (d : list Z) (i n : Z) : option (option (Z * Z)) :=
  match k with
  | O => Some None
  | S k' =>
      j ← skip_name d i n;
      if (j =? 0) || (n <? j +! 10) then Some None
      else
        ty ← be16 d j; cls ← be16 d (j +! 2); rdlen ← be16 d (j +! 8);
        let i := j +! 10 in
        if n <? i +! rdlen then Some None
        else if (ty =? 1) && (cls =? 1) && (rdlen =? 4) then
          ip ← be32 d i; ttl ← be32 d (i -! 6); Some (Some (ip, ttl))
        else find_a k' d (i +! rdlen) n
  end.

Definition dns_parse (d : list Z) (n : Z) : option (option (Z * Z)) :=
  qd ← be16 d 4; an ← be16 d 6;
  i ← skip_questions (Z.to_nat qd) d 12 n;
  if i =? 0 then Some None else find_a (Z.to_nat an) d i n.

(** ** The cache *)

Definition cache_find (name : list Z) (c : list dns_entry) : option (nat * dns_entry) :=
  list_find (fun e => d_used e = true /\ dns_name_eq name (d_name e) = true) c.

(** The address and whether it is there; an entry that has expired is dropped. *)
Definition net_dns_cache_lookup (name : list Z) : M (option Z) :=
  now ← get g_pit_ticks;
  c ← gets g_dns_cache;
  match cache_find name c with
  | None => mret None
  | Some (i, e) =>
      if 0 <=? s32 (now -! d_expire e) then
        modify (set_dns_cache (<[i := mk_dns false (d_name e) (d_ip e) (d_expire e)]> c));; mret None
      else bump g_dns_hits;; mret (Some (d_ip e))
  end.

(** The new entry; the key is copied without its NUL. *)
Definition cache_entry (e : dns_entry) (key : list Z) (ip expire : Z) : dns_entry :=
  mk_dns true (aset (splice (d_name e) 0 key) (DNS_NAME_MAX - 1) 0) ip expire.

Definition dns_cache_put (name : list Z) (ip ttl : Z) : M unit :=
  if ttl =? 0 then mret tt
  else
    let ttl := if DNS_TTL_MAX <? ttl then DNS_TTL_MAX else ttl in
    match dns_name_copy name with
    | None => mret tt
    | Some key =>
        c ← gets g_dns_cache;
        rr ← get g_dns_rr;
        slot ← (match list_find (fun e => d_used e = false \/ dns_name_eq key (d_name e) = true) c with
                | Some (i, _) => mret i
                | None => set g_dns_rr (rr +! 1);; mret (Z.to_nat (rr mod DNS_CACHE_MAX))
                end : M nat);
        now ← get g_pit_ticks;
        modify (set_dns_cache (alter (fun e => cache_entry e key ip (now +! ttl *! 1000)) slot c))
    end.

Definition net_dns_cache_clear : M unit :=
  c ← gets g_dns_cache;
  modify (set_dns_cache (map (fun e => mk_dns false (d_name e) (d_ip e) (d_expire e)) c));;
  set g_dns_rr 0.

Definition net_dns_cache_entries (st : net) : Z := Z.of_nat (length (filter (fun e => d_used e = true) (g_dns_cache st))).

Section Dns.
Context `{E : NetEnv}.

(** A datagram for the resolver: true when it takes it. *)
Definition dns_input (ip : list Z) (ihl : Z) : M bool :=
  act ← get dns_active;
  if act =? 0 then mret false
  else
    totlen ← lift (be16 ip 2);
    if totlen <? ihl +! UDP_HDR_LEN then mret false
    else
      let u := drop (Z.to_nat ihl) ip in
      ulen ← lift (be16 u 4);
      if (ulen <? UDP_HDR_LEN) || (totlen -! ihl <? ulen) then mret false
      else
        let dlen := ulen -! UDP_HDR_LEN in
        if (dlen <? 12) || (DNS_BUF <? dlen) then mret false
        else
          sport ← lift (be16 u 0); dport ← lift (be16 u 2); port ← get dns_port;
          if negb (sport =? DNS_PORT) || negb (dport =? port) then mret false
          else
            let d := drop (Z.to_nat UDP_HDR_LEN) u in
            id ← lift (be16 d 0); mine ← get dns_id;
            fl ← lift (rd8 d 2);
            if negb (id =? mine) || (fl &! 0x80 =? 0) then mret false
            else
              b ← lift (load d 0 dlen);
              old ← gets dns_buf;
              new ← lift (store old 0 b);
              modify (set_dns_buf new);;
              set dns_len dlen;;
              rc ← lift (rd8 d 3);
              set dns_rcode (rc &! 0x0F);;
              set dns_got 1;;
              mret true.

(** The servers set by hand, and the readers of the table. *)
Definition net_dns_set_server (be : Z) : M unit :=
  l ← gets g_dns_srv;
  modify (set_dns_srv (aset l 0 be));;
  set g_dns_srv_n (if negb (be =? 0) then 1 else 0);;
  set g_dns_manual 1.
Definition net_dns_server (st : net) : Z := if negb (gv st g_dns_srv_n =? 0) then aget 0 (g_dns_srv st) 0 else 0.
Definition net_dns_server_at (st : net) (i : Z) : Z := if i <? gv st g_dns_srv_n then aget 0 (g_dns_srv st) i else 0.

(** ** Queries *)
Section Query.
Variables (net_poll : M unit) (fuel : nat).

(** The next hop: the router when the server is on another network. *)
Definition dns_hop (my mask gw server : Z) : Z :=
  if negb (mask =? 0) && negb (gw =? 0) && negb (my &! mask =? server &! mask) && (gw &! mask =? my &! mask) then gw else server.

Definition dns_send (server : Z) (q : list Z) : M Z :=
  my ← my_ip_be;
  mask ← get lease_mask; gw ← get lease_router;
  let hop := dns_hop my mask gw server in
  let need := UDP_HDR_LEN + Z.of_nat (length q) in
  port ← get dns_port;
  wr_build 0 (put16 port);;
  wr_build 2 (put16 DNS_PORT);;
  wr_build 4 (put16 (u16 need));;
  wr_build 6 (put16 0);;
  wr_build UDP_HDR_LEN q;;
  p ← rd_build 0 need;
  wr_build 6 (put16 (udp_checksum my server p));;
  bump g_udp_tx;;
  b ← gets g_build;
  ipv4_send_via net_poll fuel server hop 17 b need.

Definition dns_wait (timeout_ms : Z) : M bool :=
  now ← get g_pit_ticks;
  r ← wait_for net_poll fuel (g ← get dns_got; mret (if g =? 0 then None else Some tt)) (now +! timeout_ms);
  mret (match r with Some _ => true | None => false end).

(** One round over the servers: [None] when a send fails. *)
Fixpoint ask_servers (k : nat) (s : Z) (q : list Z) (timeout_ms : Z) : M (option bool) :=
  n ← get g_dns_srv_n;
  if n <=? s then mret (Some false)
  else
    match k with
    | O => wild
    | S k' =>
        srv ← gets g_dns_srv;
        let server := aget 0 srv s in
        if server =? 0 then ask_servers k' (s + 1) q timeout_ms
        else
          set dns_got 0;; set dns_rcode 0;; set dns_active 1;;
          rc ← dns_send server q;
          if negb (rc =? 0) then set dns_active 0;; mret None
          else
            got ← dns_wait timeout_ms;
            if got : bool then mret (Some true) else ask_servers k' (s + 1) q timeout_ms
    end.

Fixpoint ask (attempts : nat) (q : list Z) (timeout_ms : Z) : M (option bool) :=
  match attempts with
  | O => mret (Some false)
  | S a => r ← ask_servers DNS_SRV_SLOTS 0 q timeout_ms;
      match r with Some false => ask a q timeout_ms | _ => mret r end
  end.

Definition dns_query (id : Z) (name : list Z) : list Z :=
  put16 id ++ put16 0x0100 ++ put16 1 ++ put16 0 ++ put16 0 ++ put16 0 ++ name ++ put16 1 ++ put16 1.

(** The result 0 carries the address. *)
Definition net_dns_resolve (name : list Z) (timeout_ms : Z) : M (Z * Z) :=
  n ← get g_dns_srv_n;
  if n =? 0 then mret (-3, 0)
  else
    hit ← net_dns_cache_lookup name;
    match hit with
    | Some ip => mret (0, ip)
    | None =>
        if negb nic_present then mret (-1, 0)
        else
          ok ← build_ready;
          if negb ok then mret (-1, 0)
          else
            let timeout_ms := if timeout_ms =? 0 then 2500 else timeout_ms in
            match dns_encode_name name with
            | None => mret (-1, 0)
            | Some enc =>
                if 320 <? 12 + Z.of_nat (length enc) + 4 then mret (-1, 0)
                else
                  c ← get id_counter;
                  let id := u16 (c + 1) in
                  set id_counter id;;
                  set dns_id id;;
                  set dns_port (u16 (40000 + (id &! 0x07FF)));;
                  r ← ask 2 (dns_query id enc) timeout_ms;
                  match r with
                  | None => mret (-1, 0)
                  | Some got =>
                      set dns_active 0;;
                      rc ← get dns_rcode;
                      if negb got then mret (1, 0)
                      else if negb (rc =? 0) then mret (-2, 0)
                      else
                        d ← gets dns_buf; len ← get dns_len;
                        a ← lift (dns_parse d len);
                        match a with
                        | None => mret (-2, 0)
                        | Some (ip, ttl) => dns_cache_put name ip ttl;; mret (0, ip)
                        end
                  end
            end
    end.
End Query.
End Dns.
