(* ===== verification/NetCalls.v ===== *)
(** * NetCalls: frames in, calls out ([kernel/net.c])

    [net_input] dispatches a received frame, [net_tick] runs the timers and
    [net_poll] does both; on top of them the socket calls of user programs
    ([net_sockcall]), the TCP client of the kernel and its small web server. *)

From S2P Require Import Prelude Disk Net Tcp Dhcp Dns.

Definition SC_SOCKET : Z := 0.
Definition SC_BIND : Z := 1.
Definition SC_LISTEN : Z := 2.
Definition SC_ACCEPT : Z := 3.
Definition SC_SENDTO : Z := 4.
Definition SC_RECVFROM : Z := 5.
Definition SC_CLOSE : Z := 6.
Definition SC_CONNECT : Z := 7.

Section Input.
Context `{E : NetEnv}.

(** ** A received frame *)
Section Frame.
Variables (net_poll : M unit) (fuel : nat).

(** The part of [net_input] for ARP; [a] is the frame after its header. *)
Definition arp_input (a : list Z) : M Z :=
  hw ← lift (be16 a 0); pr ← lift (be16 a 2); hl ← lift (rd8 a 4); pl ← lift (rd8 a 5);
  if negb (hw =? 1) || negb (pr =? 0x0800) || negb (hl =? 6) || negb (pl =? 4) then mret (-1)
  else
    spa ← lift (be32 a 14);
    sha ← lift (load a 8 6);
    arp_learn spa sha;;
    op ← lift (be16 a 6); tpa ← lift (be32 a 24); my ← my_ip_be;
    (if (op =? 1) && (tpa =? my) then
       wr_build 0 sha;; wr_build 6 nic_mac;; wr_build 12 [0x08; 0x06];;
       wr_build 14 (put16 1);; wr_build 16 (put16 0x0800);; wr_build 18 [6; 4];;
       wr_build 20 (put16 2);;
       wr_build 22 nic_mac;;
       wr_build 28 (put32 my);;
       wr_build 32 sha;;
       wr_build 38 (put32 spa);;
       r ← gets g_build;
       rc ← rtl8139_send r (ETH_HDR_LEN + 28);
       when (rc =? 0) (bump g_arp_replied)
     else mret tt);;
    mret 0.

(** A packet that has passed the checks: the protocols. *)
Definition ip_deliver (ip : list Z) (ihl : Z) : M Z :=
  dst ← lift (be32 ip 16); my ← my_ip_be; proto ← lift (rd8 ip 9);
  if negb (dst =? my) then mret (-1)
  else if proto =? 1 then icmp_input net_poll fuel ip ihl;; mret 0
  else if proto =? 17 then
    d ← dns_input ip ihl;
    if d : bool then mret 0 else udp_input ip ihl;; mret 0
  else if proto =? 6 then tcp_input ip ihl;; mret 0
  else mret 0.

(** The DHCP client takes a datagram whatever its destination address is. *)
Definition dhcp_wants (ip : list Z) (ihl totlen : Z) : M bool :=
  act ← get dhcp_active; proto ← lift (rd8 ip 9);
  if negb (act =? 0) && (proto =? 17) && (ihl +! UDP_HDR_LEN <=? totlen) then
    let u := drop (Z.to_nat ihl) ip in
    sp ← lift (be16 u 0); dp ← lift (be16 u 2);
    mret ((sp =? DHCP_SRV_PORT) && (dp =? DHCP_CLI_PORT))
  else mret false.

(** The part of [net_input] for IPv4; [ip] is the frame after its header and
    [src_mac] the sender. *)
Definition ip_input (ip src_mac : list Z) (len : Z) : M Z :=
  v ← lift (rd8 ip 0);
  if negb (Z.shiftr v 4 =? 4) then mret (-1)
  else
    let ihl := (v &! 0x0F) *! 4 in
    if (ihl <? IP_HDR_MIN) || (len <? ETH_HDR_LEN +! ihl) then mret (-1)
    else
      totlen ← lift (be16 ip 2);
      if (totlen <? ihl) || (1500 <? totlen) || (len <? ETH_HDR_LEN +! totlen) then mret (-1)
      else
        h ← lift (load ip 0 ihl);
        if negb (cksum h =? 0) then bump g_ip_bad_csum;; mret (-1)
        else
          frag ← lift (be16 ip 6);
          if negb (frag &! 0x1FFF =? 0) || negb (frag &! 0x2000 =? 0) then bump g_ip_frag_drop;; mret (-1)
          else
            proto ← lift (rd8 ip 9);
            ok ← (if (proto =? 17) || (proto =? 6) then lift (l4_csum_ok ip ihl totlen) else mret true : M bool);
            if negb ok then bump g_ip_bad_csum;; mret (-1)
            else
              src ← lift (be32 ip 12);
              arp_learn src src_mac;;
              w ← dhcp_wants ip ihl totlen;
              if w : bool then dhcp_input ip ihl;; mret 0 else ip_deliver ip ihl.

Definition net_input (f : list Z) : M Z :=
  let len := Z.of_nat (length f) in
  ok ← build_ready;
  if negb ok then mret (-1)
  else if len <? ETH_HDR_LEN then mret (-1)
  else
    et ← lift (be16 f 12);
    let p := drop (Z.to_nat ETH_HDR_LEN) f in
    if et =? 0x0806 then
      if len <? ETH_HDR_LEN + 28 then mret (-1) else arp_input p
    else if negb (et =? 0x0800) then mret (-1)
    else if len <? ETH_HDR_LEN + IP_HDR_MIN then mret (-1)
    else m ← lift (load f 6 6); ip_input p m len.
End Frame.

(** ** The timers and the poll *)

Definition net_tick : M unit :=
  now ← get g_pit_ticks; last ← get last_tick;
  if s32 (now -! last) <? TCP_TICK_MS then mret tt
  else
    set last_tick now;;
    _ ← dhcp_renew_check now;
    tcp_tick (Z.to_nat NET_MAX_SOCKS) 0 now.

Fixpoint input_all (poll : M unit) (fuel : nat) (fs : list (list Z)) : M unit :=
  match fs with [] => mret tt | f :: fs' => _ ← net_input poll fuel f; input_all poll fuel fs' end.

(** The frames that have arrived, then the timers.  The fuel bounds the depth of
    waits inside the handlers of frames. *)
Fixpoint net_poll (k : nat) : M unit :=
  match k with
  | O => stuck
  | S k' =>
      n ← gets polls;
      modify (fun st => set_env (S n) (sleeps st) (sends st) (allocs st) st);;
      when nic_present (input_all (net_poll k') k' (arrivals n));;
      net_tick
  end.

(** ** Sockets *)

Definition sock_get (idx : Z) : M (option nat) :=
  if NET_MAX_SOCKS <=? idx then mret None
  else s ← get_sock (Z.to_nat idx); mret (if used s then Some (Z.to_nat idx) else None).

(** Sockets of processes that are gone are released first. *)
Definition reclaim (l : list sock_t) : list sock_t :=
  map (fun s => if used s && negb (owner_pid s =? 0) && negb (task_find (s32 (owner_pid s))) then sock_free_v s else s) l.

Definition sock_alloc (ty pid : Z) : M (option nat) :=
  modify (fun st => set_socks (reclaim (g_socks st)) st);;
  l ← gets g_socks;
  match list_find (fun s => used s = false) l with
  | None => mret None
  | Some (i, s) =>
      let r := rcv s in let n := snd s in
      let s' b := mk_sock b ty TS_UNUSED 0 0 0 pid (-1) (mk_rcv (rx r) 0 0 0 false (ooo r) (ooo_seq r) (ooo_len r))
                    (mk_snd 0 (snd_una n) (rtx n) (rtx_len n) (rto_tick n) (rtx_tries n) (syn_unacked n)) in
      match rx r with
      | Some _ => set_sock i (s' true);; mret (Some i)
      | None =>
          b ← kmalloc NET_SOCK_BUF;
          match b with
          | None => set_sock i (s' false);; mret None
          | Some l => set_sock i (with_rcv (s' true) (with_ring (rcv (s' true)) l 0));; mret (Some i)
          end
      end
  end.

(** ** Conditions *)

Definition cond_rx (s : sock_t) : bool := negb (rx_r (rcv s) =? rx_w (rcv s)).
Definition cond_udp (i : nat) : M bool := s ← get_sock i; mret (cond_rx s).
Definition cond_tcp (i : nat) : M bool := s ← get_sock i; mret (cond_rx s || got_fin (rcv s)).
Definition cond_connected (i : nat) : M bool := s ← get_sock i; mret (bool_decide (state s = TS_ESTABLISHED)).
Definition cond_sent (i : nat) : M bool :=
  s ← get_sock i;
  mret ((rtx_len (snd s) =? 0) || bool_decide (state s = TS_FIN_WAIT_1) || bool_decide (state s = TS_FIN_WAIT_2)).
Definition accepted (l : nat) (st : net) : option (nat * sock_t) :=
  list_find (fun s => used s = true /\ parent s = Z.of_nat l /\ state s = TS_ESTABLISHED) (g_socks st).
Definition cond_accept (l : nat) : M bool := gets (fun st => match accepted l st with Some _ => true | None => false end).

(** ** Reading a ring *)

Fixpoint ring_get (k : nat) (l : list Z) (p : Z) : option (list Z * Z) :=
  match k with
  | O => Some ([], p)
  | S k' => x ← rd8 l p; '(d, p') ← ring_get k' l ((p +! 1) mod NET_SOCK_BUF); Some (x :: d, p')
  end.
Definition rcv_get (r : rcv_t) (k : Z) : option (list Z * rcv_t) :=
  if k =? 0 then Some ([], r)
  else l ← rx r; '(d, p) ← ring_get (Z.to_nat k) l (rx_r r); Some (d, with_rx_r r p).

(** At most [k] of the bytes available. *)
Fixpoint stream_get (k : nat) (r : rcv_t) : option (list Z * rcv_t) :=
  match k with
  | O => Some ([], r)
  | S k' =>
      if rx_r r =? rx_w r then Some ([], r)
      else
        l ← rx r; x ← rd8 l (rx_r r);
        '(d, r') ← stream_get k' (with_rx_r r ((rx_r r +! 1) mod NET_SOCK_BUF));
        Some (x :: d, r')
  end.

(** A datagram, cut to [max] bytes: its header and its data. *)
Definition udp_take (r : rcv_t) (max : Z) : option (list Z * list Z * rcv_t) :=
  '(h, r) ← rcv_get r 8;
  let dn := Z.lor (aget 0 h 6) (Z.shiftl (aget 0 h 7) 8) in
  let n := if max <? dn then max else dn in
  '(d, r) ← rcv_get r n;
  Some (h, d, with_rx_r r (Nat.iter (Z.to_nat (dn - n)) (fun p => (p +! 1) mod NET_SOCK_BUF) (rx_r r))).

(** ** Calls *)
Section Calls.
Variable fuel : nat.
Let poll : M unit := net_poll fuel.

Definition wait_cond (cond : M bool) (timeout_ms : Z) : M bool :=
  let timeout_ms := if timeout_ms =? 0 then NET_DEFAULT_WAIT_MS else timeout_ms in
  now ← get g_pit_ticks;
  r ← wait_for poll fuel (c ← cond; mret (if c : bool then Some tt else None)) (now +! timeout_ms);
  mret (match r with Some _ => true | None => false end).

(** The next free local port. *)
Fixpoint ephemeral_port (tries : nat) : M Z :=
  match tries with
  | O => mret 0
  | S t =>
      cand ← get g_ephemeral;
      set g_ephemeral (u16 (cand + 1));;
      when (cand <? 40000) (set g_ephemeral 40000);;
      l ← gets g_socks;
      if existsb (fun s => used s && (local_port s =? cand)) l || (cand =? 0) then ephemeral_port t else mret cand
  end.

(** An active open on the socket [i]; false when it fails. *)
Definition tcp_open (i : nat) (port dst dport timeout_ms : Z) : M bool :=
  q ← isn;
  s ← get_sock i;
  let r := rcv s in let n := snd s in
  set_sock i (mk_sock (used s) (type s) TS_SYN_SENT port dport dst (owner_pid s) (parent s)
                (mk_rcv (rx r) 0 0 0 false (ooo r) (ooo_seq r) (ooo_len r))
                (mk_snd q q (rtx n) (rtx_len n) (rto_tick n) (rtx_tries n) true));;
  m ← arp_resolve poll fuel dst 3000;
  match m with
  | None => sock_free i;; mret false
  | Some _ =>
      now ← get g_pit_ticks;
      s ← get_sock i;
      let n := set_timer (snd s) (now +! TCP_RTO_MS) 0 in
      let seq := snd_nxt n in
      let s := with_snd s (set_nxt n (seq +! 1)) in
      set_sock i s;;
      _ ← tcp_send_seg_ex s TCP_SYN None 0 seq;
      ok ← wait_cond (cond_connected i) timeout_ms;
      if ok : bool then mret true else sock_free i;; mret false
  end.

(** One segment of data on an open connection; false when it is refused. *)
Definition send_data (i : nat) (buf : option (list Z)) (d : list Z) : M bool :=
  s ← get_sock i;
  n' ← lift (snd_queue (snd s) d);
  let seq := snd_nxt (snd s) in
  let s' := with_snd s n' in
  set_sock i s';;
  rc ← tcp_send_seg_ex s' (Z.lor TCP_PSH TCP_ACK) (match buf with Some _ => buf | None => rtx n' end) (Z.of_nat (length d)) seq;
  if negb (rc =? 0) then
    set_sock i (with_snd s (set_nxt (set_rtx n' (rtx n') 0) seq));; mret false
  else
    now ← get g_pit_ticks;
    set_sock i (with_snd s' (set_timer n' (now +! TCP_RTO_MS) 0));; mret true.

Definition open_state (s : sock_t) : bool := bool_decide (state s = TS_ESTABLISHED) || bool_decide (state s = TS_CLOSE_WAIT).

(** The buffers of a socket that has none yet. *)
Definition need_bufs (i : nat) : M bool :=
  s ← get_sock i; match rtx (snd s) with Some _ => mret true | None => tcp_bufs i end.

(** *** System calls

    [uptr_ok va len rw] is the check of a user pointer, [uload va len] what user
    memory contains there.  The result comes with the stores to user memory. *)
Variables (uptr_ok : Z -> Z -> bool -> bool) (uload : Z -> Z -> list Z).

Definition ures : Type := Z * list (Z * list Z).
Definition fail : M ures := mret (-1, []).
Definition reply (r : Z) : M ures := mret (r, []).

Definition sc_bind (i : nat) (port : Z) : M ures :=
  s ← get_sock i;
  if (port =? 0) || (0xFFFF <? port) then fail
  else if (type s =? SOCK_TYPE_TCP) && negb (bool_decide (state s = TS_UNUSED)) then fail
  else
    l ← gets g_socks;
    if existsb (fun '(j, o) => used o && negb (j =? i)%nat && (local_port o =? u16 port)) (imap pair l) then fail
    else set_sock i (with_port s (u16 port));; reply 0.

Definition sc_listen (i : nat) : M ures :=
  s ← get_sock i;
  if negb (type s =? SOCK_TYPE_TCP) || (local_port s =? 0) then fail
  else set_sock i (with_state s TS_LISTEN);; reply 0.

Definition sc_accept (i : nat) (timeout_ms : Z) : M ures :=
  s ← get_sock i;
  if negb (type s =? SOCK_TYPE_TCP) || negb (bool_decide (state s = TS_LISTEN)) then fail
  else
    ok ← wait_cond (cond_accept i) timeout_ms;
    if negb ok then fail
    else
      c ← gets (accepted i);
      match c with
      | None => fail
      | Some (j, c) => set_sock j (with_parent c (-1));; reply (Z.of_nat j)
      end.

Definition sc_connect (i : nat) (dst dport timeout_ms : Z) : M ures :=
  s ← get_sock i;
  if negb (type s =? SOCK_TYPE_TCP) then fail
  else if negb (bool_decide (state s = TS_UNUSED)) || negb (local_port s =? 0) then fail
  else if (dst =? 0) || (dport =? 0) || (0xFFFF <? dport) then fail
  else
    port ← ephemeral_port 200;
    if port =? 0 then fail
    else
      ok ← tcp_bufs i;
      if negb ok then fail
      else
        ok ← tcp_open i port dst (u16 dport) timeout_ms;
        if ok : bool then reply 0 else fail.

Definition sc_sendto (i : nat) (va len dst dport : Z) : M ures :=
  s ← get_sock i;
  if len =? 0 then fail
  else if negb (uptr_ok va len false) then fail
  else
    let buf := uload va len in
    if type s =? SOCK_TYPE_UDP then
      if (local_port s =? 0) || (dport =? 0) || (0xFFFF <? dport) then fail
      else r ← net_udp_send poll fuel dst (u16 dport) (local_port s) buf len; reply r
    else if negb (open_state s) then fail
    else if negb (rtx_len (snd s) =? 0) then fail
    else if TCP_RTX_BUF <? len then fail
    else
      ok ← need_bufs i;
      if negb ok then fail
      else
        d ← lift (load buf 0 len);
        ok ← send_data i (Some buf) d;
        if ok : bool then reply (s32 len) else fail.

Definition sc_recvfrom (i : nat) (va len timeout_ms out : Z) : M ures :=
  s ← get_sock i;
  if len =? 0 then fail
  else if negb (uptr_ok va len true) then fail
  else
    let cond := if type s =? SOCK_TYPE_UDP then cond_udp i else cond_tcp i in
    now ← cond;
    ok ← (if now : bool then mret true else wait_cond cond timeout_ms : M bool);
    if negb ok then fail
    else
      s ← get_sock i;
      if type s =? SOCK_TYPE_UDP then
        '(h, d, r) ← lift (udp_take (rcv s) len);
        set_sock i (with_rcv s r);;
        let peer := [(out, rev (take 4 h) ++ [aget 0 h 4; aget 0 h 5; 0; 0])] in
        mret (Z.of_nat (length d), (va, d) :: if negb (out =? 0) && uptr_ok out 8 true then peer else [])
      else
        '(d, r) ← lift (stream_get (Z.to_nat len) (rcv s));
        set_sock i (with_rcv s r);;
        mret (Z.of_nat (length d), [(va, d)]).

(** [pid] is the caller and [a] its five arguments. *)
Definition net_sockcall (pid subcmd : Z) (a : list Z) : M ures :=
  let a i := aget 0 a i in
  ok ← build_ready;
  if negb ok then fail
  else if subcmd =? SC_SOCKET then
    if negb (a 0 =? SOCK_TYPE_UDP) && negb (a 0 =? SOCK_TYPE_TCP) then fail
    else r ← sock_alloc (a 0) pid; match r with Some i => reply (Z.of_nat i) | None => fail end
  else if (subcmd <? 0) || (SC_CONNECT <? subcmd) then fail
  else
    s ← sock_get (a 0);
    match s with
    | None => fail
    | Some i =>
        if subcmd =? SC_BIND then sc_bind i (a 1)
        else if subcmd =? SC_LISTEN then sc_listen i
        else if subcmd =? SC_ACCEPT then sc_accept i (a 1)
        else if subcmd =? SC_CONNECT then sc_connect i (a 1) (a 2) (a 3)
        else if subcmd =? SC_SENDTO then sc_sendto i (a 1) (a 2) (a 3) (a 4)
        else if subcmd =? SC_RECVFROM then sc_recvfrom i (a 1) (a 2) (a 3) (a 4)
        else r ← tcp_close i; reply r
    end.

(** *** The client of the kernel *)

Definition net_tcp_connect (dst port timeout_ms : Z) : M Z :=
  ok ← build_ready;
  if negb ok then mret (-1)
  else if (dst =? 0) || (port =? 0) then mret (-1)
  else
    s ← sock_alloc SOCK_TYPE_TCP 0;
    match s with
    | None => mret (-1)
    | Some i =>
        local ← ephemeral_port 200;
        if local =? 0 then sock_free i;; mret (-1)
        else
          ok ← tcp_bufs i;
          if negb ok then sock_free i;; mret (-1)
          else
            ok ← tcp_open i local dst port timeout_ms;
            mret (if ok : bool then Z.of_nat i else -1)
    end.

(** The rest of [buf] from [sent] on; every round sends at least one byte. *)
Fixpoint send_from (k i : nat) (buf : list Z) (sent timeout_ms : Z) : M Z :=
  let len := Z.of_nat (length buf) in
  if negb (sent <? len) then mret sent
  else
    match k with
    | O => stuck
    | S k' =>
        s ← get_sock i;
        ok ← (if rtx_len (snd s) =? 0 then mret true
              else
                w ← wait_cond (cond_sent i) timeout_ms;
                s ← get_sock i;
                mret (w && open_state s) : M bool);
        if negb ok then mret (-1)
        else
          let n := if TCP_RTX_BUF <? len - sent then TCP_RTX_BUF else len - sent in
          ok ← need_bufs i;
          if negb ok then mret (-1)
          else
            d ← lift (load buf sent n);
            ok ← send_data i None d;
            if ok : bool then send_from k' i buf (sent + n) timeout_ms else mret (-1)
    end.

Definition net_tcp_send (sid : Z) (buf : list Z) (timeout_ms : Z) : M Z :=
  s ← sock_get (u32 sid);
  match s with
  | None => mret (-1)
  | Some i =>
      s ← get_sock i;
      if (Z.of_nat (length buf) =? 0) || negb (type s =? SOCK_TYPE_TCP) || negb (open_state s) then mret (-1)
      else send_from (length buf) i buf 0 timeout_ms
  end.

Definition net_tcp_recv (sid max timeout_ms : Z) : M (Z * list Z) :=
  s ← sock_get (u32 sid);
  match s with
  | None => mret (-1, [])
  | Some i =>
      s ← get_sock i;
      if (max =? 0) || negb (type s =? SOCK_TYPE_TCP) then mret (-1, [])
      else
        now ← cond_tcp i;
        ok ← (if now : bool then mret true else wait_cond (cond_tcp i) timeout_ms : M bool);
        if negb ok then mret (-1, [])
        else
          s ← get_sock i;
          '(d, r) ← lift (stream_get (Z.to_nat max) (rcv s));
          set_sock i (with_rcv s r);;
          mret (Z.of_nat (length d), d)
  end.

Definition net_tcp_close (sid : Z) : M unit :=
  s ← sock_get (u32 sid);
  match s with
  | None => mret tt
  | Some i => s ← get_sock i; when (type s =? SOCK_TYPE_TCP) (_ ← tcp_close i; mret tt)
  end.

(** *** The web server *)

Definition crlf : list Z := [13; 10].
Definition httpd_resp (version : list Z) : list Z :=
  bytes "HTTP/1.0 200 OK" ++ crlf ++ bytes "Content-Type: text/html" ++ crlf ++ bytes "Connection: close" ++ crlf ++ crlf ++
  bytes "<html><head><title>Cerulia</title></head><body><h1>Cerulia " ++ version ++ bytes "</h1>" ++
  bytes "<p>Hello from a hand-written i686 kernel - TCP/IP stack included, no libc required.</p></body></html>".

(** The accepted connection is answered; the result is [rc]. *)
Definition httpd_serve (c : nat) (resp : list Z) : M Z :=
  s ← get_sock c;
  set_sock c (with_parent s (-1));;
  _ ← wait_cond (cond_tcp c) 5000;
  if TCP_RTX_BUF <? Z.of_nat (length resp) then mret (-1)
  else
    ok ← tcp_bufs c;
    if negb ok then mret (-1)
    else
      s ← get_sock c;
      n' ← lift (snd_queue (snd s) resp);
      let seq := snd_nxt (snd s) in
      let s := with_snd s n' in
      set_sock c s;;
      rc ← tcp_send_seg_ex s (Z.lor TCP_PSH TCP_ACK) (rtx n') (Z.of_nat (length resp)) seq;
      if negb (rc =? 0) then mret (-1)
      else
        now ← get g_pit_ticks;
        set_sock c (with_snd s (set_timer n' (now +! TCP_RTO_MS) (rtx_tries n')));; mret 0.

Definition net_httpd_once (version : list Z) : M Z :=
  ok ← build_ready;
  if negb ok then mret (-1)
  else
    l ← sock_alloc SOCK_TYPE_TCP 0;
    match l with
    | None => mret (-1)
    | Some l =>
        ok ← tcp_bufs l;
        if negb ok then sock_free l;; mret (-1)
        else
          s ← get_sock l;
          set_sock l (with_port s 80);;
          ss ← gets g_socks;
          if existsb (fun '(j, o) => used o && negb (j =? l)%nat && (local_port o =? 80)) (imap pair ss) then sock_free l;; mret (-1)
          else
            s ← get_sock l;
            set_sock l (with_state s TS_LISTEN);;
            ok ← wait_cond (cond_accept l) 30000;
            if negb ok then _ ← tcp_close l; mret 1
            else
              c ← gets (accepted l);
              match c with
              | None => _ ← tcp_close l; mret (-1)
              | Some (c, _) =>
                  rc ← httpd_serve c (httpd_resp version);
                  _ ← tcp_close l;
                  _ ← tcp_close c;
                  mret rc
              end
    end.
End Calls.
End Input.
