(* ===== verification/NetLab.v ===== *)
(** * NetLab: environments of the network stack for examples *)

From S2P Require Import Prelude Disk Net.

(** A card with the address [02:00:00:00:00:x] that always has a free
    descriptor; [arr] are the frames that successive polls find; a tick of
    [step] ms per sleep; blocks come from the heap with the bytes 170. *)
#[program] Definition lab (x : Z) (arr : list (list (list Z))) (step : Z) : NetEnv := {|
  nic_present := true;
  nic_mac := [2; 0; 0; 0; 0; u8 x];
  nic_free := fun _ => true;
  arrivals := fun n => map (map u8) (nth n arr []);
  clock := fun n => u32 (step * (Z.of_nat n + 1));
  km_alloc := fun _ sz => Some (replicate (Z.to_nat sz) 170);
  task_find := fun _ => true;
|}.
Next Obligation.
  intros x _ _. split; [done |]. pose proof (u8_range x). repeat apply Forall_cons_2; try (unfold is_u8; lia); [done | constructor].
Qed.
Next Obligation.
  intros _ arr _ n. cbn. apply Forall_map, Forall_forall. intros f _. apply Forall_map, Forall_forall. intros. apply u8_range.
Qed.
Next Obligation. intros. apply u32_range. Qed.
Next Obligation.
  intros _ _ _ _ sz l [= <-]. split; [apply length_replicate |]. apply Forall_replicate. unfold is_u8. lia.
Qed.

(** The state after a program that ends, [net_boot] otherwise. *)
Definition final {A} (r : res A) : net := match r with Ok _ st => st | _ => net_boot end.
Definition result {A} (r : res A) : option A := match r with Ok a _ => Some a | _ => None end.
