(* ===== verification/NetSum.v ===== *)
(** * NetSum: the Internet checksum and the construction of frames

    The sum of [kernel/net.c] against the sum of the 16-bit words modulo
    [2 ^ 16 - 1], the byte-order helpers, and the rules by which a header is
    written into a buffer from its start to its end. *)

From S2P Require Import Prelude Disk Net.

(** ** Big-endian fields *)

Lemma u16_val v : is_u16 v -> u8 (Z.shiftr v 8) = v / 256 /\ u8 v = v mod 256.
Proof. intros Hv. rewrite Z.shiftr_div_pow2 by lia. split; ulia. Qed.

Lemma put16_u8 v : Forall is_u8 (put16 v).
Proof. unfold put16. repeat constructor; apply u8_range. Qed.
Lemma put32_u8 v : Forall is_u8 (put32 v).
Proof. unfold put32. repeat constructor; apply u8_range. Qed.
Lemma wr16le_u8 v : Forall is_u8 (wr16le v).
Proof. unfold wr16le. repeat constructor; apply u8_range. Qed.
#[export] Hint Resolve put16_u8 put32_u8 wr16le_u8 : cint.

Definition word16 (a b : Z) : Z := 256 * a + b.

Lemma lor_word a b : is_u8 a -> is_u8 b -> Z.lor (Z.shiftl a 8) b = word16 a b.
Proof.
  intros Ha Hb. rewrite (lor_low_add _ _ 8); [| lia | | exact Hb].
  - rewrite Z.shiftl_mul_pow2 by lia. unfold word16. lia.
  - rewrite Z.shiftl_mul_pow2 by lia. apply Z.mod_mul. lia.
Qed.

Lemma put16_word v : is_u16 v -> word16 (u8 (Z.shiftr v 8)) (u8 v) = v.
Proof. intros Hv. destruct (u16_val v Hv) as [-> ->]. unfold word16. ulia. Qed.

Lemma put16_lor v : is_u16 v -> Z.lor (Z.shiftl (u8 (Z.shiftr v 8)) 8) (u8 v) = v.
Proof. intros Hv. rewrite lor_word by apply u8_range. by apply put16_word. Qed.

Lemma lor_word32 a b c d : is_u8 a -> is_u8 b -> is_u8 c -> is_u8 d ->
  Z.lor (Z.lor (Z.lor (Z.shiftl a 24) (Z.shiftl b 16)) (Z.shiftl c 8)) d = 16777216 * a + 65536 * b + 256 * c + d.
Proof.
  intros Ha Hb Hc Hd.
  rewrite (lor_low_add (Z.shiftl a 24) (Z.shiftl b 16) 24); [| lia | |].
  2:{ rewrite Z.shiftl_mul_pow2 by lia. apply Z.mod_mul. lia. }
  2:{ rewrite Z.shiftl_mul_pow2 by lia. unfold_u. lia. }
  rewrite !Z.shiftl_mul_pow2 by lia.
  rewrite (lor_low_add _ (c * 2 ^ 8) 16); [| lia | |].
  2:{ replace (a * 2 ^ 24 + b * 2 ^ 16) with ((a * 2 ^ 8 + b) * 2 ^ 16) by lia. apply Z.mod_mul. lia. }
  2:{ unfold_u. lia. }
  rewrite (lor_low_add _ d 8); [lia | lia | | exact Hd].
  replace (a * 2 ^ 24 + b * 2 ^ 16 + c * 2 ^ 8) with ((a * 2 ^ 16 + b * 2 ^ 8 + c) * 2 ^ 8) by lia. apply Z.mod_mul. lia.
Qed.

Lemma put32_lor v : is_u32 v ->
  Z.lor (Z.lor (Z.lor (Z.shiftl (u8 (Z.shiftr v 24)) 24) (Z.shiftl (u8 (Z.shiftr v 16)) 16)) (Z.shiftl (u8 (Z.shiftr v 8)) 8)) (u8 v) = v.
Proof.
  intros Hv. rewrite lor_word32 by apply u8_range. rewrite !Z.shiftr_div_pow2 by lia.
  change (2 ^ 24) with 16777216. change (2 ^ 16) with 65536. change (2 ^ 8) with 256. ulia.
Qed.

Lemma be16_some p i : Forall is_u8 p -> 0 <= i -> i + 2 <= Z.of_nat (length p) ->
  exists v, be16 p i = Some v /\ is_u16 v.
Proof.
  intros Hp Hi Hn. unfold be16. destruct (rd8_some p i Hp ltac:(lia)) as (a & -> & Ha).
  destruct (rd8_some p (i + 1) Hp ltac:(lia)) as (b & -> & Hb). cbn. eexists. split; [done |].
  rewrite lor_word by done. unfold word16. ulia.
Qed.

Lemma be32_some p i : Forall is_u8 p -> 0 <= i -> i + 4 <= Z.of_nat (length p) ->
  exists v, be32 p i = Some v /\ is_u32 v.
Proof.
  intros Hp Hi Hn. unfold be32.
  destruct (rd8_some p i Hp ltac:(lia)) as (a & -> & Ha). destruct (rd8_some p (i + 1) Hp ltac:(lia)) as (b & -> & Hb).
  destruct (rd8_some p (i + 2) Hp ltac:(lia)) as (c & -> & Hc). destruct (rd8_some p (i + 3) Hp ltac:(lia)) as (d & -> & Hd).
  cbn. eexists. split; [done |]. rewrite lor_word32 by done. ulia.
Qed.

(** ** The sum of the words *)

Fixpoint words (p : list Z) : Z :=
  match p with
  | a :: b :: p' => word16 a b + words p'
  | [a] => 256 * a
  | [] => 0
  end.

Lemma pair_ind (P : list Z -> Prop) : P [] -> (forall a, P [a]) -> (forall a b p, P p -> P (a :: b :: p)) -> forall p, P p.
Proof.
  intros H0 H1 H2. fix IH 1. intros [| a [| b p]]; [exact H0 | exact (H1 a) | exact (H2 a b p (IH p))].
Qed.

Lemma words_range p : Forall is_u8 p -> 0 <= words p <= 65535 * ((Z.of_nat (length p) + 1) / 2).
Proof.
  induction p as [| a | a b p IH] using pair_ind; intros Hp; cbn [words length].
  - done.
  - apply Forall_cons_1 in Hp as [Ha _]. change ((Z.of_nat 1 + 1) / 2) with 1. unfold_u. lia.
  - apply Forall_cons_1 in Hp as [Ha Hp]. apply Forall_cons_1 in Hp as [Hb Hp]. specialize (IH Hp).
    unfold word16. unfold_u. Z.to_euclidean_division_equations. lia.
Qed.

Lemma words_app a b : Nat.even (length a) = true -> words (a ++ b) = words a + words b.
Proof.
  induction a as [| x | x y a IH] using pair_ind; intros Ha; cbn [words app]; [lia | done |].
  rewrite IH by done. lia.
Qed.

Lemma sum16_words p : forall s, Forall is_u8 p -> sum16 p s = u32 (s + words p) \/ (p = [] /\ sum16 p s = s).
Proof.
  induction p as [| a | a b p IH] using pair_ind; intros s Hp; cbn [sum16 words].
  - by right.
  - left. rewrite Z.shiftl_mul_pow2 by lia. f_equal. lia.
  - left. apply Forall_cons_1 in Hp as [Ha Hp]. apply Forall_cons_1 in Hp as [Hb Hp].
    rewrite lor_word by done. destruct (IH (s +! word16 a b) Hp) as [-> | [-> ->]].
    + unfold u32. rewrite Zplus_mod_idemp_l. f_equal. lia.
    + cbn [words]. f_equal. lia.
Qed.

(** Buffers of the stack are far below the length at which the sum wraps. *)
Lemma sum16_exact p : Forall is_u8 p -> Z.of_nat (length p) <= 65536 -> sum16 p 0 = words p.
Proof.
  intros Hp Hl. pose proof (words_range p Hp) as Hw. destruct (sum16_words p 0 Hp) as [-> | [-> ->]]; [| done].
  apply u32_small. unfold_u. Z.to_euclidean_division_equations. lia.
Qed.

Lemma sum16_rs_eq fuel : forall p i left s, 0 <= i -> left = Z.of_nat (length p) - i -> 0 <= left < 2 * Z.of_nat fuel ->
  sum16_rs fuel p i left s = sum16 (drop (Z.to_nat i) p) s.
Proof.
  induction fuel as [| fuel IH]; intros p i left s Hi Hl Hf; [lia |]. cbn [sum16_rs].
  assert (Hd : forall k, 0 <= k -> nth (Z.to_nat k) (drop (Z.to_nat i) p) 0 = aget 0 p (i + k)).
  { intros k Hk. unfold aget. rewrite !nth_lookup, lookup_drop. do 2 f_equal. lia. }
  assert (Hlen : length (drop (Z.to_nat i) p) = Z.to_nat left) by (rewrite length_drop; lia).
  destruct (Z.leb_spec 2 left).
  - rewrite IH by lia. replace (Z.to_nat (i + 2)) with (2 + Z.to_nat i)%nat by lia. rewrite Nat.add_comm, <- drop_drop.
    destruct (drop (Z.to_nat i) p) as [| a [| b q]] eqn:Eq; cbn in Hlen; [lia | lia |].
    pose proof (Hd 0 ltac:(lia)) as H0. pose proof (Hd 1 ltac:(lia)) as H1. rewrite Z.add_0_r in H0. cbn in H0, H1.
    cbn [drop sum16]. by rewrite <- H0, <- H1.
  - destruct (Z.eqb_spec left 0).
    + destruct (drop (Z.to_nat i) p) as [| a q] eqn:Eq; cbn in Hlen; [done | lia].
    + destruct (drop (Z.to_nat i) p) as [| a [| b q]] eqn:Eq; cbn in Hlen; [lia | | lia].
      pose proof (Hd 0 ltac:(lia)) as H0. rewrite Z.add_0_r in H0. cbn in H0. cbn [sum16]. by rewrite <- H0.
Qed.

(** The checksum routine in use computes what the reference routine does. *)
Lemma cksum_raw_is_c p : cksum_raw p = cksum_raw_c p.
Proof. unfold cksum_raw, cksum_raw_c. rewrite sum16_rs_eq by lia. done. Qed.

(** ** Folding *)

Lemma fold_step s : is_u32 s -> (s &! 0xFFFF) +! Z.shiftr s 16 = s mod 65536 + s / 65536.
Proof.
  intros Hs. change 0xFFFF with (2 ^ 16 - 1). rewrite land_low_mask, Z.shiftr_div_pow2 by lia.
  change (2 ^ 16) with 65536. apply u32_small. ulia.
Qed.

Lemma fold16_spec s : is_u32 s ->
  let r := fold16 FOLD_FUEL s in
  0 <= r < 65536 /\ (exists k, 0 <= k /\ s = r + 65535 * k) /\ (r = 0 -> s = 0).
Proof.
  intros Hs. unfold FOLD_FUEL.
  assert (G : forall n s, 0 <= s < 2 ^ 32 -> (1 <= n)%nat /\ s < 65536 \/ (2 <= n)%nat /\ s < 131071 \/ (3 <= n)%nat ->
    0 <= fold16 n s < 65536 /\ (exists k, 0 <= k /\ s = fold16 n s + 65535 * k) /\ (fold16 n s = 0 -> s = 0)).
  { clear s Hs. induction n as [| n IH]; intros s Hs Hn; [lia |]. cbn [fold16].
    destruct (Z.eqb_spec (Z.shiftr s 16) 0) as [E | E]; rewrite Z.shiftr_div_pow2 in E by lia; change (2 ^ 16) with 65536 in E.
    - split; [Z.to_euclidean_division_equations; lia |]. split; [exists 0; split; lia | done].
    - rewrite fold_step by (unfold_u; lia).
      destruct (IH (s mod 65536 + s / 65536)) as (H1 & (k & Hk0 & Hk) & H3).
      + Z.to_euclidean_division_equations; lia.
      + Z.to_euclidean_division_equations. lia.
      + split; [done |]. split.
        * exists (k + s / 65536). split; Z.to_euclidean_division_equations; lia.
        * intros E0. specialize (H3 E0). Z.to_euclidean_division_equations. lia. }
  apply G; unfold_u; lia.
Qed.

Lemma lnot16 r : 0 <= r < 65536 -> u16 (Z.lnot r) = 65535 - r.
Proof. intros Hr. unfold Z.lnot. ulia. Qed.

(** Two folded sums with the same residue are equal, up to the two forms of 0. *)
Lemma fold16_full s k : is_u32 s -> s = 65535 * k -> 0 < s -> fold16 FOLD_FUEL s = 65535.
Proof.
  intros Hs Hk Hp. destruct (fold16_spec s Hs) as (H1 & (j & Hj0 & Hj) & H3). cbn zeta in *.
  set (r := fold16 FOLD_FUEL s) in *. assert (r <> 0) by (intros E; specialize (H3 E); lia). lia.
Qed.

Lemma cksum_raw_spec p : Forall is_u8 p -> Z.of_nat (length p) <= 65536 ->
  0 <= cksum_raw p < 65536 /\ (exists k, 0 <= k /\ words p = cksum_raw p + 65535 * k) /\ (cksum_raw p = 0 -> words p = 0).
Proof.
  intros Hp Hl. rewrite cksum_raw_is_c. unfold cksum_raw_c. rewrite sum16_exact by done.
  apply fold16_spec. pose proof (words_range p Hp). unfold_u. Z.to_euclidean_division_equations. lia.
Qed.

(** A checksum field filled with the complement of the sum over the rest makes
    the whole valid: [q] is the block with a zero field, [c] the field. *)
Lemma cksum_patch a b : Nat.even (length a) = true -> Forall is_u8 (a ++ b) -> Z.of_nat (length a + length b) <= 65534 ->
  cksum (a ++ put16 (cksum (a ++ put16 0 ++ b)) ++ b) = 0.
Proof.
  intros Ha Hab Hl. apply Forall_app in Hab as [Hpa Hpb].
  assert (Hq : Forall is_u8 (a ++ put16 0 ++ b)) by (rewrite !Forall_app; auto with cint).
  destruct (cksum_raw_spec (a ++ put16 0 ++ b) Hq) as (H1 & (k & Hk0 & Hk) & H3); [rewrite !length_app; cbn; lia |].
  set (c := cksum (a ++ put16 0 ++ b)).
  assert (Hc : c = 65535 - cksum_raw (a ++ put16 0 ++ b)) by (apply lnot16; lia).
  assert (Hw : forall v, is_u16 v -> words (a ++ put16 v ++ b) = words a + v + words b).
  { intros v Hv. rewrite words_app by done. cbn [put16 app words]. rewrite put16_word by done. lia. }
  assert (Hq' : Forall is_u8 (a ++ put16 c ++ b)) by (rewrite !Forall_app; auto with cint).
  rewrite (Hw 0) in Hk by ulia.
  assert (Hcr : is_u16 c) by (unfold_u; lia).
  unfold cksum at 1. rewrite cksum_raw_is_c. unfold cksum_raw_c.
  rewrite sum16_exact; [| done | rewrite !length_app; cbn; lia]. rewrite Hw by done.
  rewrite (fold16_full _ (k + 1)); [reflexivity | | lia |].
  - pose proof (words_range a Hpa). pose proof (words_range b Hpb). unfold_u. Z.to_euclidean_division_equations. lia.
  - destruct (Z.eq_dec c 0) as [E | E]; [| pose proof (words_range a Hpa); pose proof (words_range b Hpb); lia].
    rewrite E in Hc. assert (cksum_raw (a ++ put16 0 ++ b) = 65535) by lia. pose proof (words_range a Hpa). pose proof (words_range b Hpb).
    assert (0 <= words a + words b) by lia. rewrite (Hw 0) in * by ulia. lia.
Qed.

Lemma pseudo_u8 src dst proto n : is_u8 proto -> Forall is_u8 (pseudo src dst proto n).
Proof.
  intros Hp. unfold pseudo. do 2 (apply Forall_app_2; [apply put32_u8 |]). apply Forall_app_2; [| apply put16_u8].
  repeat apply Forall_cons_2; [unfold is_u8; lia | done | constructor].
Qed.

(** The same for the transport checksums, whose sum starts from a pseudo header. *)
Lemma l4_sum_spec src dst proto p : is_u8 proto -> Forall is_u8 p -> Z.of_nat (length p) <= 2000 ->
  let w := words (pseudo src dst proto (Z.of_nat (length p))) + words p in
  let r := l4_sum src dst proto p in
  0 <= r < 65536 /\ (exists k, 0 <= k /\ w = r + 65535 * k) /\ (r = 0 -> w = 0).
Proof.
  intros Hpr Hp Hl. cbn zeta. unfold l4_sum. set (ps := pseudo _ _ _ _).
  assert (Hps : Forall is_u8 ps) by (by apply pseudo_u8).
  destruct (cksum_raw_spec ps Hps ltac:(cbn; lia)) as (H1 & (k1 & Hk10 & Hk1) & H2).
  destruct (cksum_raw_spec p Hp ltac:(lia)) as (H3 & (k2 & Hk20 & Hk2) & H4).
  ured. destruct (fold16_spec (cksum_raw ps + cksum_raw p)) as (H5 & (k3 & Hk30 & Hk3) & H6); [unfold_u; lia |]. cbn zeta in *.
  split; [done |]. split; [exists (k1 + k2 + k3); split; lia |]. intros E. specialize (H6 E). rewrite H2, H4 by lia. lia.
Qed.

Lemma l4_sum_full src dst proto p k : is_u8 proto -> Forall is_u8 p -> Z.of_nat (length p) <= 2000 ->
  words (pseudo src dst proto (Z.of_nat (length p))) + words p = 65535 * k ->
  0 < words (pseudo src dst proto (Z.of_nat (length p))) + words p -> l4_sum src dst proto p = 65535.
Proof.
  intros Hpr Hp Hl Hk Hpos. destruct (l4_sum_spec src dst proto p Hpr Hp Hl) as (H1 & (j & Hj0 & Hj) & H3). cbn zeta in *.
  set (r := l4_sum src dst proto p) in *. assert (r <> 0) by (intros E; specialize (H3 E); lia). lia.
Qed.

Lemma l4_checksum_val src dst proto p : 0 <= l4_sum src dst proto p < 65536 ->
  l4_checksum src dst proto p = if l4_sum src dst proto p =? 65535 then 65535 else 65535 - l4_sum src dst proto p.
Proof.
  intros H. unfold l4_checksum. rewrite lnot16 by done. cbn zeta. generalize dependent (l4_sum src dst proto p). intros r Hr.
  destruct (Z.eqb_spec (65535 - r) 0), (Z.eqb_spec r 65535); lia.
Qed.

(** [put16 c] in a segment [a ++ put16 0 ++ b] whose checksum field is zero; for
    the sender's [c] the receiver's sum is all ones. *)
Lemma l4_patch_arith src dst proto a b c r k : is_u8 proto -> Nat.even (length a) = true -> Forall is_u8 (a ++ b) ->
  Z.of_nat (length a + length b) <= 1900 -> 0 <= r < 65536 ->
  words (pseudo src dst proto (Z.of_nat (length a + 2 + length b))) + (words a + words b) = r + 65535 * k ->
  is_u16 c -> c = 65535 - r \/ c = 65535 /\ r = 65535 -> 0 < proto ->
  l4_sum src dst proto (a ++ put16 c ++ b) = 65535.
Proof.
  intros Hpr Ha Hab Hl Hr Hk Hcr Hcv Hpos. pose proof Hab as Hab'. apply Forall_app in Hab' as [Hpa Hpb].
  assert (Hw : words (a ++ put16 c ++ b) = words a + c + words b).
  { rewrite words_app by done. cbn [put16 app words]. rewrite put16_word by done. lia. }
  assert (Hlc : Z.of_nat (length (a ++ put16 c ++ b)) = Z.of_nat (length a + 2 + length b)) by (rewrite !length_app; cbn; lia).
  assert (Hppos : 0 < words (pseudo src dst proto (Z.of_nat (length a + 2 + length b)))).
  { unfold pseudo. rewrite !words_app by reflexivity.
    pose proof (words_range (put32 src) (put32_u8 _)). pose proof (words_range (put32 dst) (put32_u8 _)).
    pose proof (words_range _ (put16_u8 (u16 (Z.of_nat (length a + 2 + length b))))). cbn [words]. unfold word16. lia. }
  pose proof (words_range a Hpa). pose proof (words_range b Hpb).
  assert (Hu : Forall is_u8 (a ++ put16 c ++ b)) by (rewrite !Forall_app; auto with cint).
  apply (l4_sum_full _ _ _ _ (if r =? 65535 then (if c =? 0 then k + 1 else k + 2) else k + 1)); [done | done | lia | |]; rewrite Hlc, Hw.
  - destruct (Z.eqb_spec r 65535), (Z.eqb_spec c 0); lia.
  - unfold is_u16 in Hcr. lia.
Qed.

Lemma l4_patch src dst proto a b c : is_u8 proto -> Nat.even (length a) = true -> Forall is_u8 (a ++ b) ->
  Z.of_nat (length a + length b) <= 1900 ->
  c = u16 (Z.lnot (l4_sum src dst proto (a ++ put16 0 ++ b))) \/ c = l4_checksum src dst proto (a ++ put16 0 ++ b) ->
  0 < proto ->
  l4_sum src dst proto (a ++ put16 c ++ b) = 65535.
Proof.
  intros Hpr Ha Hab Hl Hc Hpos. pose proof Hab as Hab'. apply Forall_app in Hab' as [Hpa Hpb].
  assert (Hq : Forall is_u8 (a ++ put16 0 ++ b)) by (rewrite !Forall_app; auto with cint).
  assert (Hlq : length (a ++ put16 0 ++ b) = (length a + 2 + length b)%nat) by (rewrite !length_app; cbn; lia).
  assert (Hw : words (a ++ put16 0 ++ b) = words a + words b).
  { rewrite words_app by done. cbn [put16 app words]. rewrite put16_word by ulia. lia. }
  destruct (l4_sum_spec src dst proto _ Hpr Hq ltac:(lia)) as (H1 & (k & Hk0 & Hk) & _). cbn zeta in *.
  rewrite (l4_checksum_val _ _ _ _ H1), (lnot16 _ H1) in Hc. rewrite Hlq, Hw in Hk.
  eapply (l4_patch_arith _ _ _ a b c _ k); [done | done | done | done | exact H1 | exact Hk | | | done].
  - destruct Hc as [-> | ->]; [unfold is_u16; lia |]. case_match; unfold is_u16; lia.
  - destruct Hc as [-> | ->]; [by left |]. case_match eqn:Er; [apply Z.eqb_eq in Er; right; lia | by left].
Qed.
