(* ===== verification/NetLogic.v ===== *)
(** * NetLogic: reasoning about the programs of the network stack

    [wp m Q st]: [m] runs from [st] to its end and the result satisfies [Q].
    [safe m Q st]: [m] makes no wild access from [st], and if it ends the result
    satisfies [Q].  Then the rules by which a header is written into a
    construction buffer from its start to its end. *)

From S2P Require Import Prelude Disk Net NetSum.

Section Logic.
Context {A B : Type}.

Definition wp (m : M A) (Q : A -> net -> Prop) (st : net) : Prop :=
  match m st with Ok a st' => Q a st' | _ => False end.
Definition safe (m : M A) (Q : A -> net -> Prop) (st : net) : Prop :=
  match m st with Ok a st' => Q a st' | Wild => False | Stuck => True end.
End Logic.

Section Rules.
Context {A B : Type}.
Implicit Types (m : M A) (k : A -> M B) (st : net).

Lemma wp_ret (a : A) (Q : A -> net -> Prop) st : Q a st -> wp (mret a) Q st.
Proof. done. Qed.
Lemma wp_bind m k Q st : wp m (fun a => wp (k a) Q) st -> wp (m ≫= k) Q st.
Proof. unfold wp, mbind, M_bind. by destruct (m st). Qed.
Lemma wp_mono m (Q Q' : A -> net -> Prop) st : wp m Q st -> (forall a st', Q a st' -> Q' a st') -> wp m Q' st.
Proof. unfold wp. destruct (m st); auto. Qed.
Lemma wp_gets (f : net -> A) (Q : A -> net -> Prop) st : Q (f st) st -> wp (gets f) Q st.
Proof. done. Qed.
Lemma wp_modify f (Q : unit -> net -> Prop) st : Q tt (f st) -> wp (modify f) Q st.
Proof. done. Qed.
Lemma wp_lift (o : option A) a (Q : A -> net -> Prop) st : o = Some a -> Q a st -> wp (lift o) Q st.
Proof. intros ->. done. Qed.
Lemma wp_ok m a st st' (Q : A -> net -> Prop) : m st = Ok a st' -> Q a st' -> wp m Q st.
Proof. unfold wp. by intros ->. Qed.
Lemma wp_inv m (Q : A -> net -> Prop) st : wp m Q st -> exists a st', m st = Ok a st' /\ Q a st'.
Proof. unfold wp. destruct (m st) as [a st' | |]; [eauto | done | done]. Qed.

Lemma safe_ret (a : A) (Q : A -> net -> Prop) st : Q a st -> safe (mret a) Q st.
Proof. done. Qed.
Lemma safe_bind m k Q st : safe m (fun a => safe (k a) Q) st -> safe (m ≫= k) Q st.
Proof. unfold safe, mbind, M_bind. by destruct (m st). Qed.
Lemma safe_mono m (Q Q' : A -> net -> Prop) st : safe m Q st -> (forall a st', Q a st' -> Q' a st') -> safe m Q' st.
Proof. unfold safe. destruct (m st); auto. Qed.
Lemma safe_gets (f : net -> A) (Q : A -> net -> Prop) st : Q (f st) st -> safe (gets f) Q st.
Proof. done. Qed.
Lemma safe_modify f (Q : unit -> net -> Prop) st : Q tt (f st) -> safe (modify f) Q st.
Proof. done. Qed.
Lemma safe_of (o : option A) a (Q : A -> net -> Prop) st : o = Some a -> Q a st -> safe (lift o) Q st.
Proof. intros ->. done. Qed.
Lemma safe_stuck (Q : A -> net -> Prop) st : safe stuck Q st.
Proof. done. Qed.
End Rules.

(** ** Running a program

    One step of a program whose first action is known. *)
Section Run.
Context {A B : Type}.
Implicit Types (m : M A) (k : A -> M B) (st : net).

Lemma bind_ok m k a st st' : m st = Ok a st' -> (m ≫= k) st = k a st'.
Proof. unfold mbind, M_bind. by intros ->. Qed.
Lemma bind_lift (o : option A) a k st : o = Some a -> (lift o ≫= k) st = k a st.
Proof. by intros ->. Qed.
Lemma bind_ret (a : A) k st : (mret a ≫= k) st = k a st.
Proof. done. Qed.
Lemma bind_gets (f : net -> A) k st : (gets f ≫= k) st = k (f st) st.
Proof. done. Qed.
Lemma bind_modify f (k : unit -> M B) st : (modify f ≫= k) st = k tt (f st).
Proof. done. Qed.
Lemma bind_get v (k : Z -> M B) st : (get v ≫= k) st = k (gv st v) st.
Proof. done. Qed.
Lemma bind_set v x (k : unit -> M B) st : (set v x ≫= k) st = k tt (set_gv v x st).
Proof. done. Qed.
Lemma bind_add v x (k : unit -> M B) st : (add v x ≫= k) st = k tt (set_gv v (gv st v +! x) st).
Proof. done. Qed.
Lemma bind_sock i (k : sock_t -> M B) st : (get_sock i ≫= k) st = k (nth i (g_socks st) no_sock) st.
Proof. done. Qed.
Lemma bind_set_sock i s (k : unit -> M B) st : (set_sock i s ≫= k) st = k tt (set_socks (<[i := s]> (g_socks st)) st).
Proof. done. Qed.
Lemma bind_assoc {C} (m : M A) k (h : B -> M C) st : ((m ≫= k) ≫= h) st = (m ≫= (fun a => k a ≫= h)) st.
Proof. unfold mbind, M_bind. by destruct (m st). Qed.
End Run.

(** [mstep H]: the next action is a [lift] of a known value; [mgo] the others. *)
Ltac mstep H := rewrite (bind_lift _ _ _ _ H).
Ltac mgo := first [rewrite bind_get | rewrite bind_set | rewrite bind_add | rewrite bind_sock | rewrite bind_set_sock
  | rewrite bind_gets | rewrite bind_modify | rewrite bind_ret].

(** ** Writing a header *)

Lemma store_front p g b i : i = Z.of_nat (length p) -> (length b <= length g)%nat ->
  store (p ++ g) i b = Some ((p ++ b) ++ drop (length b) g).
Proof.
  intros -> Hl. unfold store. rewrite length_app. destruct (Z.leb_spec 0 (Z.of_nat (length p))); [| lia]. cbn [andb].
  destruct (Z.leb_spec (Z.of_nat (length p) + Z.of_nat (length b)) (Z.of_nat (length p + length g))); [| lia].
  unfold splice. rewrite Nat2Z.id, take_app_length. f_equal. rewrite <- app_assoc. do 2 f_equal.
  rewrite drop_app_ge by lia. f_equal. lia.
Qed.

(** A field in the middle is written again. *)
Lemma store_mid p x g b i : i = Z.of_nat (length p) -> length b = length x ->
  store (p ++ x ++ g) i b = Some (p ++ b ++ g).
Proof.
  intros -> Hl. unfold store. rewrite !length_app. destruct (Z.leb_spec 0 (Z.of_nat (length p))); [| lia]. cbn [andb].
  destruct (Z.leb_spec (Z.of_nat (length p) + Z.of_nat (length b)) (Z.of_nat (length p + (length x + length g)))); [| lia].
  unfold splice. rewrite Nat2Z.id, take_app_length. do 3 f_equal.
  rewrite drop_app_ge by lia. rewrite drop_app_ge by lia.
  replace (length p + length b - length p - length x)%nat with O by lia. done.
Qed.

Lemma load_mid p x g i n : i = Z.of_nat (length p) -> n = Z.of_nat (length x) -> load (p ++ x ++ g) i n = Some x.
Proof.
  intros -> ->. unfold load. rewrite !length_app. destruct (Z.leb_spec 0 (Z.of_nat (length p))); [| lia]. cbn [andb].
  destruct (Z.leb_spec (Z.of_nat (length p) + Z.of_nat (length x)) (Z.of_nat (length p + (length x + length g)))); [| lia].
  unfold slice. rewrite !Nat2Z.id, drop_app_length, take_app_length. done.
Qed.

Lemma load_front x g n : n = Z.of_nat (length x) -> load (x ++ g) 0 n = Some x.
Proof. apply (load_mid [] x g 0 n). done. Qed.

Lemma load_back p x i n : i = Z.of_nat (length p) -> n = Z.of_nat (length x) -> load (p ++ x) i n = Some x.
Proof. intros Hi Hn. pose proof (load_mid p x [] i n Hi Hn) as H. by rewrite app_nil_r in H. Qed.

Lemma load_all x n : n = Z.of_nat (length x) -> load x 0 n = Some x.
Proof. apply (load_back [] x 0 n). done. Qed.

(** Frames are built in one of the two buffers; the rules are the same. *)
Lemma wp_wr_frame i b p g (Q : unit -> net -> Prop) st : g_frame st = Some (p ++ g) -> i = Z.of_nat (length p) -> (length b <= length g)%nat ->
  Q tt (set_bufs (g_build st) (Some ((p ++ b) ++ drop (length b) g)) st) -> wp (wr_frame i b) Q st.
Proof. intros Hf Hi Hb HQ. unfold wp, wr_frame, gets, modify, lift, mbind, M_bind. rewrite Hf. cbn [option_bind]. rewrite store_front by done. exact HQ. Qed.

Lemma wp_wr_build i b p g (Q : unit -> net -> Prop) st : g_build st = Some (p ++ g) -> i = Z.of_nat (length p) -> (length b <= length g)%nat ->
  Q tt (set_bufs (Some ((p ++ b) ++ drop (length b) g)) (g_frame st) st) -> wp (wr_build i b) Q st.
Proof. intros Hf Hi Hb HQ. unfold wp, wr_build, gets, modify, lift, mbind, M_bind. rewrite Hf. cbn [option_bind]. rewrite store_front by done. exact HQ. Qed.

Lemma wp_wr_frame_mid i b p x g (Q : unit -> net -> Prop) st : g_frame st = Some (p ++ x ++ g) -> i = Z.of_nat (length p) -> length b = length x ->
  Q tt (set_bufs (g_build st) (Some (p ++ b ++ g)) st) -> wp (wr_frame i b) Q st.
Proof. intros Hf Hi Hb HQ. unfold wp, wr_frame, gets, modify, lift, mbind, M_bind. rewrite Hf. cbn [option_bind]. rewrite store_mid by done. exact HQ. Qed.

Lemma wp_wr_build_mid i b p x g (Q : unit -> net -> Prop) st : g_build st = Some (p ++ x ++ g) -> i = Z.of_nat (length p) -> length b = length x ->
  Q tt (set_bufs (Some (p ++ b ++ g)) (g_frame st) st) -> wp (wr_build i b) Q st.
Proof. intros Hf Hi Hb HQ. unfold wp, wr_build, gets, modify, lift, mbind, M_bind. rewrite Hf. cbn [option_bind]. rewrite store_mid by done. exact HQ. Qed.

Lemma wp_rd_frame i n p x g (Q : list Z -> net -> Prop) st : g_frame st = Some (p ++ x ++ g) -> i = Z.of_nat (length p) -> n = Z.of_nat (length x) ->
  Q x st -> wp (rd_frame i n) Q st.
Proof. intros Hf Hi Hn HQ. unfold wp, rd_frame, gets, lift, mbind, M_bind. rewrite Hf. cbn [option_bind]. rewrite load_mid by done. exact HQ. Qed.

Lemma wp_rd_build i n p x g (Q : list Z -> net -> Prop) st : g_build st = Some (p ++ x ++ g) -> i = Z.of_nat (length p) -> n = Z.of_nat (length x) ->
  Q x st -> wp (rd_build i n) Q st.
Proof. intros Hf Hi Hn HQ. unfold wp, rd_build, gets, lift, mbind, M_bind. rewrite Hf. cbn [option_bind]. rewrite load_mid by done. exact HQ. Qed.

(** The same on a state that shows its buffers, which keeps the state small. *)
Lemma wp_wrb i b p g f (Q : unit -> net -> Prop) st : i = Z.of_nat (length p) -> (length b <= length g)%nat ->
  Q tt (set_bufs (Some ((p ++ b) ++ drop (length b) g)) f st) -> wp (wr_build i b) Q (set_bufs (Some (p ++ g)) f st).
Proof. intros Hi Hb HQ. by eapply wp_wr_build. Qed.
Lemma wp_setb v x b f (Q : unit -> net -> Prop) st : Q tt (set_bufs b f (set_gv v x st)) -> wp (set v x) Q (set_bufs b f st).
Proof. done. Qed.
Lemma set_bufs_same st : set_bufs (g_build st) (g_frame st) st = st.
Proof. by destruct st. Qed.

Lemma wp_get v (Q : Z -> net -> Prop) st : Q (gv st v) st -> wp (get v) Q st.
Proof. done. Qed.
Lemma wp_set v x (Q : unit -> net -> Prop) st : Q tt (set_gv v x st) -> wp (set v x) Q st.
Proof. done. Qed.
Lemma wp_add v x (Q : unit -> net -> Prop) st : Q tt (set_gv v (gv st v +! x) st) -> wp (add v x) Q st.
Proof. done. Qed.

(** [wsimpl]: projections of states that have been updated. *)
Ltac wsimpl := cbn [set_gv set_bufs set_socks set_arp set_env set_wire set_ip set_dns_buf set_dhcp_buf set_dns_srv set_dns_cache
  gv g_socks g_build g_frame g_arp dhcp_buf g_dns_srv dns_buf g_dns_cache g_ip wire polls sleeps sends allocs gvar_beq].
Ltac wnext := apply wp_bind.
(** Lengths of the parts of a header. *)
Ltac wlen := rewrite ?length_app, ?length_drop, ?length_app, ?length_replicate; cbn [length put16 put32]; lia.
Ltac wwrite := wnext; eapply wp_wr_frame; [wsimpl; reflexivity | wlen | wlen |]; wsimpl.
