(* ===== verification/NetRing.v ===== *)
(** * NetRing: the receive ring of a socket

    The bytes a ring holds, as a list: what [rcv_put], [rcv_get], [stream_get]
    and [udp_take] do to it; a UDP ring as a queue of datagrams. *)

From S2P Require Import Prelude Disk Net Tcp Dhcp Dns NetCalls NetSum.

Definition rx_used (r : rcv_t) : Z := (rx_w r - rx_r r) mod NET_SOCK_BUF.
Definition rx_bytes (r : rcv_t) : list Z :=
  match rx r with Some l => ring l NET_SOCK_BUF (rx_r r) (rx_used r) | None => [] end.

(** The ring is allocated and its indices are in range. *)
Definition ring_ok (r : rcv_t) : Prop :=
  (exists l, rx r = Some l /\ Z.of_nat (length l) = NET_SOCK_BUF) /\
  0 <= rx_r r < NET_SOCK_BUF /\ 0 <= rx_w r < NET_SOCK_BUF.

Lemma rx_used_range r : 0 <= rx_used r < NET_SOCK_BUF.
Proof. apply Z.mod_pos_bound. reflexivity. Qed.

Lemma length_rx_bytes r : ring_ok r -> Z.of_nat (length (rx_bytes r)) = rx_used r.
Proof. intros ((l & E & Hl) & _). unfold rx_bytes. rewrite E. apply length_ring. apply rx_used_range. Qed.

Lemma rx_space_used r : ring_ok r -> rx_space r = NET_SOCK_BUF - 1 - rx_used r.
Proof.
  intros (_ & Hr & Hw). unfold rx_space, rx_used, NET_SOCK_BUF in *. ulia.
Qed.

Lemma store_one l i x : 0 <= i < Z.of_nat (length l) -> store l i [x] = Some (aset l i x).
Proof.
  intros Hi. unfold store. cbn [length]. destruct (Z.leb_spec 0 i); [| lia]. cbn [andb].
  destruct (Z.leb_spec (i + Z.of_nat 1) (Z.of_nat (length l))); [| lia]. f_equal. apply aget_ext with (d := 0).
  - rewrite length_spliced, length_aset by (cbn; lia). done.
  - intros j Hj. rewrite length_spliced in Hj by (cbn; lia). rewrite aget_splice by (cbn; lia). cbn [length].
    destruct (Z.eq_dec i j) as [-> | Hn].
    + rewrite aget_aset_eq by lia. destruct (Z.leb_spec j j); [| lia]. destruct (Z.ltb_spec j (j + Z.of_nat 1)); [| lia].
      cbn [andb]. by rewrite Z.sub_diag.
    + rewrite aget_aset_ne by lia. destruct (Z.leb_spec i j), (Z.ltb_spec j (i + Z.of_nat 1)); try done. lia.
Qed.

Lemma ring_put_write d : forall l w, Z.of_nat (length l) = NET_SOCK_BUF -> 0 <= w < NET_SOCK_BUF ->
  ring_put l w d = Some (ring_write l NET_SOCK_BUF w d, (w + Z.of_nat (length d)) mod NET_SOCK_BUF).
Proof.
  induction d as [| x d IH]; intros l w Hl Hw; cbn [ring_put ring_write length].
  - rewrite Z.add_0_r, Z.mod_small by done. done.
  - rewrite store_one by lia. cbn [mbind option_bind].
    assert (Hn : (w +! 1) mod NET_SOCK_BUF = (w + 1) mod NET_SOCK_BUF) by (unfold NET_SOCK_BUF in *; ulia).
    rewrite Hn, IH; [| by rewrite length_aset | apply Z.mod_pos_bound; reflexivity].
    rewrite ring_write_mod by reflexivity. rewrite (Z.mod_small w) by done. rewrite Zplus_mod_idemp_l.
    do 3 f_equal. lia.
Qed.

(** Only the ring and its end change. *)
Definition same_rest (r r' : rcv_t) : Prop :=
  rcv_nxt r' = rcv_nxt r /\ got_fin r' = got_fin r /\ ooo r' = ooo r /\ ooo_seq r' = ooo_seq r /\ ooo_len r' = ooo_len r.

Lemma rcv_put_spec r d : ring_ok r -> Z.of_nat (length d) <= rx_space r ->
  exists r', rcv_put r d = Some r' /\ ring_ok r' /\ rx_bytes r' = rx_bytes r ++ d /\ same_rest r r'.
Proof.
  intros Hok Hd. rewrite rx_space_used in Hd by done. pose proof Hok as ((l & E & Hl) & Hr & Hw).
  pose proof (rx_used_range r) as Hu.
  destruct d as [| x d]; [exists r; cbn; rewrite app_nil_r; done |].
  cbn [rcv_put]. rewrite E. cbn [mbind option_bind]. rewrite ring_put_write by done. cbn [mbind option_bind]. set (dd := x :: d) in *.
  assert (Hmod : (rx_r r + rx_used r) mod NET_SOCK_BUF = rx_w r) by (by apply ring_end).
  destruct (ring_write_spec dd l NET_SOCK_BUF (rx_r r) (rx_used r)) as [H1 H2]; [reflexivity | done | lia | lia |].
  rewrite <- (ring_write_mod dd l NET_SOCK_BUF (rx_r r + rx_used r)), Hmod in H1, H2 by reflexivity.
  set (w := (rx_w r + Z.of_nat (length dd)) mod NET_SOCK_BUF) in *. set (l' := ring_write l NET_SOCK_BUF (rx_w r) dd) in *.
  assert (Hu2 : rx_used (with_ring r l' w) = rx_used r + Z.of_nat (length dd)).
  { unfold rx_used at 1. cbn [with_ring rx_w rx_r]. subst w. rewrite Zminus_mod_idemp_l.
    replace (rx_w r + Z.of_nat (length dd) - rx_r r) with (rx_w r - rx_r r + Z.of_nat (length dd)) by lia.
    rewrite <- Zplus_mod_idemp_l. apply Z.mod_small. fold (rx_used r). lia. }
  exists (with_ring r l' w). split; [done |]. split; [| split; [| done]].
  - split; [by exists l' |]. cbn [with_ring rx_w rx_r]. split; [done |]. apply Z.mod_pos_bound. reflexivity.
  - unfold rx_bytes. rewrite Hu2. cbn [with_ring rx rx_r]. rewrite E. exact H2.
Qed.

(** ** Reading *)

Lemma ring_step p : 0 <= p < NET_SOCK_BUF -> (p +! 1) mod NET_SOCK_BUF = (p + 1) mod NET_SOCK_BUF.
Proof. unfold NET_SOCK_BUF. intros. ulia. Qed.

Lemma rd8_in l p : 0 <= p < Z.of_nat (length l) -> rd8 l p = Some (aget 0 l p).
Proof. intros H. unfold rd8. destruct (Z.ltb_spec p 0); [lia |]. by apply lookup_aget. Qed.

Lemma with_rx_r_id r : with_rx_r r (rx_r r) = r.
Proof. by destruct r. Qed.

(** The head of the bytes held is the byte at the read index. *)
Lemma rx_bytes_cons r : ring_ok r -> 0 < rx_used r ->
  exists l x, rx r = Some l /\ rd8 l (rx_r r) = Some x /\
    let r' := with_rx_r r ((rx_r r +! 1) mod NET_SOCK_BUF) in
    ring_ok r' /\ rx_used r' = rx_used r - 1 /\ rx_bytes r = x :: rx_bytes r'.
Proof.
  intros ((l & E & Hl) & Hr & Hw) Hu. exists l, (aget 0 l (rx_r r)). split; [done |]. split; [apply rd8_in; lia |].
  cbn zeta. rewrite ring_step by done. split; [| split].
  - split; [by exists l |]. cbn. split; [apply Z.mod_pos_bound; reflexivity | done].
  - unfold rx_used in *. cbn. by apply ring_count_pred.
  - unfold rx_bytes. cbn. rewrite E. unfold rx_used at 2. cbn. rewrite ring_count_pred; [| reflexivity | done].
    fold (rx_used r). rewrite (ring_pop l) by (reflexivity || done). by rewrite (Z.mod_small (rx_r r)).
Qed.

Lemma ring_get_spec k : forall r, ring_ok r -> Z.of_nat k <= rx_used r ->
  exists l p, rx r = Some l /\ ring_get k l (rx_r r) = Some (take k (rx_bytes r), p) /\
    ring_ok (with_rx_r r p) /\ rx_used (with_rx_r r p) = rx_used r - Z.of_nat k /\ rx_bytes (with_rx_r r p) = drop k (rx_bytes r).
Proof.
  induction k as [| k IH]; intros r Hok Hk.
  - pose proof Hok as ((l & E & Hl) & H). exists l, (rx_r r). cbn [ring_get]. rewrite with_rx_r_id, take_0, drop_0.
    split; [done |]. split; [done |]. split; [done |]. split; [lia | done].
  - destruct (rx_bytes_cons r Hok ltac:(lia)) as (l & x & E & Hx & Hok' & Hu' & Hb). cbn zeta in *.
    destruct (IH _ Hok' ltac:(lia)) as (l' & p & E' & Hg & Hok2 & Hu2 & Hb2). cbn in E'. rewrite E in E'. injection E' as <-.
    exists l, p. split; [done |]. cbn [ring_get]. rewrite Hx. cbn [mbind option_bind]. cbn in Hg. rewrite Hg. cbn [mbind option_bind].
    rewrite Hb. cbn [take drop]. split; [done |]. split; [exact Hok2 |]. split; [change (rx_used (with_rx_r r p)) with (rx_used (with_rx_r (with_rx_r r ((rx_r r +! 1) mod NET_SOCK_BUF)) p)); lia | exact Hb2].
Qed.

Lemma rcv_get_spec r k : ring_ok r -> 0 <= k <= rx_used r ->
  exists p, rcv_get r k = Some (take (Z.to_nat k) (rx_bytes r), with_rx_r r p) /\
    ring_ok (with_rx_r r p) /\ rx_used (with_rx_r r p) = rx_used r - k /\ rx_bytes (with_rx_r r p) = drop (Z.to_nat k) (rx_bytes r).
Proof.
  intros Hok Hk. unfold rcv_get. destruct (Z.eqb_spec k 0) as [-> | Hn].
  - exists (rx_r r). rewrite with_rx_r_id. cbn [Z.to_nat]. rewrite take_0, drop_0. split; [done |]. split; [done |]. split; [lia | done].
  - destruct (ring_get_spec (Z.to_nat k) r Hok ltac:(lia)) as (l & p & E & Hg & H1 & H2 & H3). exists p. rewrite E. cbn [mbind option_bind].
    rewrite Hg. cbn [mbind option_bind]. split; [done |]. split; [done |]. split; [lia | done].
Qed.

Lemma iter_ring_step k p : 0 <= p < NET_SOCK_BUF ->
  Nat.iter k (fun p => (p +! 1) mod NET_SOCK_BUF) p = (p + Z.of_nat k) mod NET_SOCK_BUF.
Proof.
  intros Hp. induction k as [| k IH]; [by rewrite Z.add_0_r, Z.mod_small |]. cbn [Nat.iter nat_rect].
  change (nat_rect _ p _ k) with (Nat.iter k (fun p => (p +! 1) mod NET_SOCK_BUF) p). rewrite IH, ring_step.
  - rewrite Zplus_mod_idemp_l. f_equal. lia.
  - apply Z.mod_pos_bound. reflexivity.
Qed.

(** Bytes that are skipped. *)
Lemma skip_spec r k : ring_ok r -> 0 <= k <= rx_used r ->
  let r' := with_rx_r r (Nat.iter (Z.to_nat k) (fun p => (p +! 1) mod NET_SOCK_BUF) (rx_r r)) in
  ring_ok r' /\ rx_used r' = rx_used r - k /\ rx_bytes r' = drop (Z.to_nat k) (rx_bytes r).
Proof.
  intros ((l & E & Hl) & Hr & Hw) Hk. cbn zeta. rewrite iter_ring_step by done. replace (Z.of_nat (Z.to_nat k)) with k by lia.
  assert (Hu : rx_used (with_rx_r r ((rx_r r + k) mod NET_SOCK_BUF)) = rx_used r - k).
  { unfold rx_used in *. cbn. rewrite Zminus_mod_idemp_r. replace (rx_w r - (rx_r r + k)) with ((rx_w r - rx_r r) - k) by lia.
    rewrite <- Zminus_mod_idemp_l. apply Z.mod_small. pose proof (Z.mod_pos_bound (rx_w r - rx_r r) NET_SOCK_BUF ltac:(reflexivity)). lia. }
  split; [split; [by exists l |]; cbn; split; [apply Z.mod_pos_bound; reflexivity | done] |]. split; [done |].
  unfold rx_bytes. rewrite Hu. cbn. rewrite E, ring_mod by reflexivity.
  destruct (ring_split l NET_SOCK_BUF (rx_r r) k (rx_used r) Hk) as [_ <-]. done.
Qed.

Lemma rx_used_0 r : ring_ok r -> (rx_r r =? rx_w r) = (rx_used r =? 0).
Proof.
  intros (_ & Hr & Hw). unfold rx_used, NET_SOCK_BUF in *.
  destruct (Z.eqb_spec (rx_r r) (rx_w r)), (Z.eqb_spec ((rx_w r - rx_r r) mod 4096) 0); try done; Z.to_euclidean_division_equations; lia.
Qed.

Lemma stream_get_spec k : forall r, ring_ok r ->
  exists p, stream_get k r = Some (take k (rx_bytes r), with_rx_r r p) /\
    ring_ok (with_rx_r r p) /\ rx_bytes (with_rx_r r p) = drop k (rx_bytes r).
Proof.
  induction k as [| k IH]; intros r Hok; cbn [stream_get].
  - exists (rx_r r). rewrite with_rx_r_id, take_0, drop_0. done.
  - rewrite rx_used_0 by done. pose proof (rx_used_range r). destruct (Z.eqb_spec (rx_used r) 0) as [E0 | Hn].
    + exists (rx_r r). rewrite with_rx_r_id.
      pose proof (length_rx_bytes r Hok) as Hl. destruct (rx_bytes r); [done | cbn in Hl; lia].
    + destruct (rx_bytes_cons r Hok ltac:(lia)) as (l & x & E & Hx & Hok' & Hu' & Hb). cbn zeta in *.
      destruct (IH _ Hok') as (p & Hg & Hok2 & Hb2). exists p. rewrite E. cbn [mbind option_bind]. rewrite Hx. cbn [mbind option_bind].
      rewrite Hg. cbn [mbind option_bind]. rewrite Hb. cbn [take drop]. done.
Qed.

(** ** A UDP ring is a queue of datagrams *)

Record dgram := mk_dgram { dg_ip : Z; dg_port : Z; dg_data : list Z }.
Definition dg_ok (d : dgram) : Prop := is_u32 (dg_ip d) /\ is_u16 (dg_port d) /\ Z.of_nat (length (dg_data d)) < 4096.
Definition dg_hdr (d : dgram) : list Z := put32 (dg_ip d) ++ wr16le (dg_port d) ++ wr16le (u16 (Z.of_nat (length (dg_data d)))).
Definition dg_bytes (d : dgram) : list Z := dg_hdr d ++ dg_data d.

(** [holds r q]: the ring contains the datagrams [q], the oldest first. *)
Definition holds (r : rcv_t) (q : list dgram) : Prop := ring_ok r /\ Forall dg_ok q /\ rx_bytes r = concat (map dg_bytes q).

Lemma length_dg_hdr d : length (dg_hdr d) = 8%nat.
Proof. done. Qed.

Lemma wr16le_val v : is_u16 v -> Z.lor (u8 v) (Z.shiftl (u8 (Z.shiftr v 8)) 8) = v.
Proof. intros. rewrite Z.lor_comm. by apply put16_lor. Qed.

Lemma dg_len d : dg_ok d -> Z.lor (aget 0 (dg_hdr d) 6) (Z.shiftl (aget 0 (dg_hdr d) 7) 8) = Z.of_nat (length (dg_data d)).
Proof.
  intros (_ & _ & Hl). unfold dg_hdr. set (n := Z.of_nat (length (dg_data d))) in *.
  change (aget 0 _ 6) with (u8 (u16 n)). change (aget 0 _ 7) with (u8 (Z.shiftr (u16 n) 8)). rewrite wr16le_val by apply u16_range.
  subst n. ulia.
Qed.

Lemma udp_take_spec r d q max : holds r (d :: q) -> 0 <= max ->
  exists r', udp_take r max = Some (dg_hdr d, take (Z.to_nat max) (dg_data d), r') /\ holds r' q.
Proof.
  intros (Hok & Hq & Hb) Hmax. inversion Hq as [| ? ? Hd Hq']; subst. cbn [map concat] in Hb. unfold dg_bytes in Hb.
  pose proof (length_rx_bytes r Hok) as Hl. rewrite Hb, !length_app, length_dg_hdr in Hl.
  unfold udp_take. destruct (rcv_get_spec r 8 Hok ltac:(lia)) as (p & -> & Hok1 & Hu1 & Hb1). cbn [mbind option_bind].
  rewrite Hb in Hb1 |- *. rewrite <- !app_assoc in Hb1 |- *. change (Z.to_nat 8) with (length (dg_hdr d)) in Hb1 |- *.
  rewrite drop_app_length in Hb1. rewrite take_app_length. rewrite dg_len by done.
  set (n := Z.of_nat (length (dg_data d))). set (m := if max <? n then max else n).
  assert (Hm : 0 <= m <= n) by (subst m n; bcase; lia).
  destruct (rcv_get_spec _ m Hok1 ltac:(lia)) as (p2 & -> & Hok2 & Hu2 & Hb2). cbn [mbind option_bind].
  destruct (skip_spec _ (n - m) Hok2 ltac:(lia)) as (Hok3 & Hu3 & Hb3). cbn zeta in *.
  eexists. split.
  - do 2 f_equal. rewrite Hb1, take_app_le by lia. f_equal. subst m n. bcase.
    + done.
    + rewrite !take_ge by lia. done.
  - split; [exact Hok3 |]. split; [done |]. rewrite Hb3, Hb2, Hb1, drop_drop. apply drop_app_length'. subst n. lia.
Qed.
