(* ===== verification/NetUdp.v ===== *)
(** * NetUdp: a datagram from one kernel to another

    What [ipv4_send_via] and [net_udp_send] put on the wire, that [net_input] of
    the addressee accepts it, and that the receiver's socket gets exactly the
    datagram sent. *)

From S2P Require Import Prelude Disk Net Tcp Dhcp Dns NetCalls NetSum NetLogic NetRing NetLab.

(** ** Frames *)

Definition ip_hdr0 (my dst proto n id c : Z) : list Z :=
  [0x45; 0] ++ put16 (u16 (IP_HDR_MIN + n)) ++ put16 id ++ put16 0 ++ [64; proto] ++ put16 c ++ put32 my ++ put32 dst.
Definition ip_hdr (my dst proto n id : Z) : list Z := ip_hdr0 my dst proto n id (cksum (ip_hdr0 my dst proto n id 0)).
Definition ip_frame (dmac smac : list Z) (my dst proto id : Z) (pay : list Z) : list Z :=
  dmac ++ smac ++ [0x08; 0x00] ++ ip_hdr my dst proto (Z.of_nat (length pay)) id ++ pay.

Definition udp_hdr0 (sport dport n c : Z) : list Z := put16 sport ++ put16 dport ++ put16 (u16 (UDP_HDR_LEN + n)) ++ put16 c.
Definition udp_seg (my dst sport dport : Z) (d : list Z) : list Z :=
  udp_hdr0 sport dport (Z.of_nat (length d)) (udp_checksum my dst (udp_hdr0 sport dport (Z.of_nat (length d)) 0 ++ d)) ++ d.

Lemma length_ip_hdr my dst proto n id : length (ip_hdr my dst proto n id) = 20%nat.
Proof. done. Qed.
Lemma length_ip_frame dmac smac my dst proto id pay : length dmac = 6%nat -> length smac = 6%nat ->
  length (ip_frame dmac smac my dst proto id pay) = (34 + length pay)%nat.
Proof. intros H1 H2. unfold ip_frame. rewrite !length_app, length_ip_hdr. cbn [length]. lia. Qed.

(** The construction buffers are allocated. *)
Definition bufs_ok (st : net) : Prop :=
  (exists b, g_build st = Some b /\ length b = 1808%nat) /\ (exists f, g_frame st = Some f /\ length f = 1808%nat).

Section Send.
Context `{E : NetEnv}.
Implicit Types st : net.

Definition card_ready st : Prop := nic_present = true /\ nic_free (sends st) = true.

(** The state after a frame was sent from [g_frame]. *)
Definition sent st (f b : list Z) : net :=
  set_wire (wire st ++ [b]) (set_env (polls st) (sleeps st) (S (sends st)) (allocs st)
    (set_bufs (g_build st) (Some f) (set_gv g_ip_id (u16 (gv st g_ip_id + 1)) st))).

Lemma send_ready st l p g : card_ready st -> l = p ++ g -> 14 <= Z.of_nat (length p) <= 1514 ->
  forall n, n = Z.of_nat (length p) ->
  rtl8139_send (Some l) n st = Ok 0 (set_wire (wire st ++ [p]) (set_env (polls st) (sleeps st) (S (sends st)) (allocs st) st)).
Proof.
  intros [Hp Hf] -> Hl n ->. unfold rtl8139_send, ETH_HDR_LEN, ETH_FRAME_MAX. rewrite Hp. cbn [negb orb].
  destruct (Z.ltb_spec (Z.of_nat (length p)) 14); [lia |]. destruct (Z.ltb_spec 1514 (Z.of_nat (length p))); [lia |]. cbn [orb].
  unfold gets, modify, lift, mret, M_ret, mbind, M_bind. rewrite Hf. cbn [negb option_bind]. by rewrite load_front.
Qed.

Lemma arp_resolve_hit poll fuel ip t m st : arp_lookup_in ip (g_arp st) = Some m -> arp_resolve poll fuel ip t st = Ok (Some m) st.
Proof. intros H. unfold arp_resolve, arp_lookup, gets, mbind, M_bind. by rewrite H. Qed.

Lemma ipv4_send_ok poll fuel dst hop proto l n pay mac my f st :
  g_frame st = Some f -> length f = 1808%nat -> load l 0 n = Some pay -> n = Z.of_nat (length pay) -> 0 < n <= 1480 ->
  arp_lookup_in hop (g_arp st) = Some mac -> length mac = 6%nat -> be32 (g_ip st) 0 = Some my -> card_ready st ->
  exists f', length f' = 1808%nat /\
    ipv4_send_via poll fuel dst hop proto (Some l) n st =
      Ok 0 (sent st f' (ip_frame mac nic_mac my dst proto (u16 (gv st g_ip_id + 1)) pay)).
Proof.
  intros Hf Hlf Hload Hn Hr Harp Hmac Hmy Hcard. destruct nic_mac_ok as [Hnm _].
  assert (Ef : exists g0 g1 rest, f = g0 ++ g1 ++ rest /\ length g0 = 34%nat /\ length g1 = length pay).
  { exists (take 34 f), (take (length pay) (drop 34 f)), (drop (length pay) (drop 34 f)). rewrite !take_drop, !length_take, length_drop. split; [done | lia]. }
  destruct Ef as (g0 & g1 & rest & -> & Hg0 & Hg1).
  set (id := u16 (gv st g_ip_id + 1)).
  set (hd c := ip_hdr0 my dst proto n id c). set (eth := mac ++ nic_mac ++ [0x08; 0x00]).
  exists (ip_frame mac nic_mac my dst proto id pay ++ rest).
  pose proof (length_ip_frame mac nic_mac my dst proto id pay Hmac Hnm) as Hfl. rewrite !length_app in Hlf.
  split; [rewrite length_app; lia |].
  enough (W : wp (ipv4_send_via poll fuel dst hop proto (Some l) n)
                (fun r s => r = 0 /\ s = sent st (ip_frame mac nic_mac my dst proto id pay ++ rest) (ip_frame mac nic_mac my dst proto id pay)) st).
  { apply wp_inv in W as (a & s & E1 & -> & ->). exact E1. }
  unfold ipv4_send_via. destruct (Z.eqb_spec n 0); [lia |]. unfold NET_BUILD_MAX, ETH_HDR_LEN, IP_HDR_MIN. cbn [orb].
  ured. destruct (Z.ltb_spec 1792 (14 + 20 + n)); [lia |]. cbn [orb].
  wnext. eapply wp_lift; [exact Hload |]. wnext. eapply (wp_wr_frame_mid _ _ g0 g1 rest); [exact Hf | lia | done |].
  wnext. eapply wp_ok; [by apply arp_resolve_hit |].
  wnext. eapply (wp_wr_frame _ _ [] (g0 ++ pay ++ rest)); [done | done | rewrite !length_app; lia |]. wsimpl.
  do 4 wwrite. wnext. apply wp_get. wnext. apply wp_set. wsimpl. do 4 wwrite.
  wnext. eapply wp_ok; [unfold my_ip_be, gets, lift, mbind, M_bind; wsimpl; rewrite Hmy; done |].
  do 2 wwrite. fold id. rewrite !drop_drop.
  match goal with |- context [drop ?k (g0 ++ pay ++ rest)] =>
    replace (drop k (g0 ++ pay ++ rest)) with (pay ++ rest) by (rewrite drop_app_ge by wlen; replace (k - length g0)%nat with O by wlen; done) end.
  wnext. eapply (wp_rd_frame _ _ eth (hd 0) (pay ++ rest)).
  { wsimpl. unfold eth, hd, ip_hdr0. by rewrite <- ?app_assoc. } { unfold eth. wlen. } { done. }
  wnext. eapply (wp_wr_frame_mid _ _ (eth ++ take 10 (hd 0)) (put16 0) (drop 12 (hd 0) ++ pay ++ rest)).
  { wsimpl. unfold eth, hd, ip_hdr0. rewrite <- ?app_assoc. reflexivity. } { rewrite length_app. change (length (take 10 (hd 0))) with 10%nat. unfold eth. wlen. } { done. }
  assert (HL : (eth ++ take 10 (hd 0)) ++ put16 (cksum (hd 0)) ++ drop 12 (hd 0) ++ pay ++ rest = ip_frame mac nic_mac my dst proto id pay ++ rest).
  { unfold ip_frame, ip_hdr, hd, eth, ip_hdr0. rewrite <- Hn, <- ?app_assoc. reflexivity. }
  wnext. apply wp_gets. wsimpl. rewrite HL. eapply wp_ok.
  - eapply (send_ready _ _ (ip_frame mac nic_mac my dst proto id pay) rest); [exact Hcard | | |].
    + reflexivity.
    + lia.
    + lia.
  - split; [done |]. reflexivity.
Qed.
End Send.

Section SendUdp.
Context `{E : NetEnv}.
Implicit Types st : net.

Lemma length_udp_seg my dst sp dp d : length (udp_seg my dst sp dp d) = (8 + length d)%nat.
Proof. unfold udp_seg. rewrite length_app. done. Qed.

Lemma net_udp_send_ok poll fuel dst dport sport data n d mac my st :
  bufs_ok st -> load data 0 n = Some d -> n = Z.of_nat (length d) -> n <= 1472 ->
  arp_lookup_in dst (g_arp st) = Some mac -> length mac = 6%nat -> be32 (g_ip st) 0 = Some my -> card_ready st ->
  exists st', net_udp_send poll fuel dst dport sport data n st = Ok n st' /\
    wire st' = wire st ++ [ip_frame mac nic_mac my dst 17 (u16 (gv st g_ip_id + 1)) (udp_seg my dst sport dport d)].
Proof.
  intros [(b & Hb & Hlb) (f & Hf & Hlf)] Hload Hn Hr Harp Hmac Hmy Hcard.
  assert (Eb : exists g0 rest, b = g0 ++ rest /\ length g0 = (8 + length d)%nat).
  { exists (take (8 + length d) b), (drop (8 + length d) b). rewrite take_drop, length_take. split; [done | lia]. }
  destruct Eb as (g0 & rest & -> & Hg0). set (hd c := udp_hdr0 sport dport n c).
  set (seg := udp_seg my dst sport dport d).
  enough (W : wp (net_udp_send poll fuel dst dport sport data n)
     (fun r s => r = n /\ wire s = wire st ++ [ip_frame mac nic_mac my dst 17 (u16 (gv st g_ip_id + 1)) seg]) st).
  { apply wp_inv in W as (a & s & E1 & -> & E2). by exists s. }
  unfold net_udp_send, NET_BUILD_MAX, IP_HDR_MIN, UDP_HDR_LEN. destruct (Z.ltb_spec (1792 - 20 - 8) n); [lia |].
  wnext. eapply (wp_wr_build _ _ [] (g0 ++ rest)); [done | done | wlen |]. wsimpl.
  do 3 (wnext; eapply wp_wr_build; [wsimpl; reflexivity | wlen | wlen |]; wsimpl).
  wnext. eapply wp_lift; [exact Hload |].
  wnext; eapply wp_wr_build; [wsimpl; reflexivity | wlen | wlen |]; wsimpl. rewrite !drop_drop.
  match goal with |- context [drop ?k (g0 ++ rest)] =>
    replace (drop k (g0 ++ rest)) with rest by (rewrite drop_app_ge by wlen; replace (k - length g0)%nat with O by wlen; done) end.
  wnext. eapply wp_ok; [unfold my_ip_be, gets, lift, mbind, M_bind; wsimpl; rewrite Hmy; done |].
  wnext. eapply (wp_rd_build _ _ [] (hd 0 ++ d) rest).
  { wsimpl. unfold hd, udp_hdr0. by rewrite <- ?app_assoc. } { done. } { rewrite length_app. unfold hd. change (length (udp_hdr0 sport dport n 0)) with 8%nat. lia. }
  wnext. eapply (wp_wr_build_mid _ _ (take 6 (hd 0)) (put16 0) (d ++ rest)).
  { wsimpl. unfold hd, udp_hdr0. rewrite <- ?app_assoc. reflexivity. } { done. } { done. }
  assert (HL : take 6 (hd 0) ++ put16 (udp_checksum my dst (hd 0 ++ d)) ++ d ++ rest = seg ++ rest).
  { unfold seg, udp_seg, hd, udp_hdr0. rewrite <- Hn, <- ?app_assoc. reflexivity. }
  wnext. apply wp_gets. wsimpl. rewrite HL. wnext.
  match goal with |- wp _ _ ?s => destruct (ipv4_send_ok poll fuel dst dst 17 (seg ++ rest) (8 + n) seg mac my f s) as (f' & Hf' & E1) end.
  { done. } { done. } { apply load_front. unfold seg. rewrite length_udp_seg. lia. } { unfold seg. rewrite length_udp_seg. lia. }
  { lia. } { done. } { done. } { done. } { exact Hcard. }
  unfold ipv4_send. eapply wp_ok.
  - exact E1.
  - cbn [Z.eqb negb]. wnext. apply wp_add. apply wp_ret. split; [rewrite s32_small by lia; done | done].
Qed.
End SendUdp.

(** ** The addressee *)

Lemma drop_ip_hdr my dst proto n id pay : drop 20 (ip_hdr my dst proto n id ++ pay) = pay.
Proof. rewrite <- (length_ip_hdr my dst proto n id). apply drop_app_length. Qed.

Lemma ip_fields my dst proto id pay n : is_u32 my -> is_u32 dst -> n = Z.of_nat (length pay) -> n <= 1480 ->
  let ip := ip_hdr my dst proto n id ++ pay in
  rd8 ip 0 = Some 0x45 /\ be16 ip 2 = Some (20 + n) /\ be16 ip 6 = Some 0 /\ rd8 ip 9 = Some proto /\
  be32 ip 12 = Some my /\ be32 ip 16 = Some dst /\ load ip 0 20 = Some (ip_hdr my dst proto n id).
Proof.
  intros Hmy Hdst Hn Hle. cbn zeta. split; [reflexivity |]. split.
  { transitivity (Some (Z.lor (Z.shiftl (u8 (Z.shiftr (u16 (20 + n)) 8)) 8) (u8 (u16 (20 + n))))); [reflexivity |].
    rewrite put16_lor by apply u16_range. f_equal. ulia. }
  split; [reflexivity |]. split; [reflexivity |]. split.
  { exact (f_equal Some (put32_lor my Hmy)). }
  split.
  { exact (f_equal Some (put32_lor dst Hdst)). }
  apply load_front. by rewrite length_ip_hdr.
Qed.

Lemma ip_hdr_valid my dst proto n id : is_u8 proto -> cksum (ip_hdr my dst proto n id) = 0.
Proof.
  intros Hp. set (a := [0x45; 0] ++ put16 (u16 (IP_HDR_MIN + n)) ++ put16 id ++ put16 0 ++ [64; proto]).
  set (b := put32 my ++ put32 dst).
  assert (Ha : forall c, ip_hdr0 my dst proto n id c = a ++ put16 c ++ b).
  { intros c. unfold ip_hdr0, a, b. by rewrite <- ?app_assoc. }
  unfold ip_hdr. rewrite !Ha. apply cksum_patch; [done | | cbn; lia].
  assert (Hi : forall x y, is_u8 x -> is_u8 y -> Forall is_u8 [x; y]) by (intros; repeat apply Forall_cons_2; done).
  unfold a, b. repeat apply Forall_app_2; auto with cint; apply Hi; done.
Qed.

Section Receive.
Context `{E : NetEnv}.
Implicit Types st : net.

Lemma build_ready_ok st : bufs_ok st -> build_ready st = Ok true (set_bufs (g_build st) (g_frame st) st).
Proof.
  intros [(b & Hb & _) (f & Hf & _)]. unfold build_ready, gets, modify, mret, M_ret, mbind, M_bind. rewrite Hb, Hf. done.
Qed.

(** A frame built by [ipv4_send_via] passes every check. *)
Lemma net_input_ip poll fuel dmac smac my dst proto id pay st :
  bufs_ok st -> length dmac = 6%nat -> length smac = 6%nat -> is_u32 my -> is_u32 dst -> is_u8 proto ->
  Z.of_nat (length pay) <= 1480 ->
  let ip := ip_hdr my dst proto (Z.of_nat (length pay)) id ++ pay in
  ((proto =? 17) || (proto =? 6) = true -> l4_csum_ok ip 20 (20 + Z.of_nat (length pay)) = Some true) ->
  net_input poll fuel (ip_frame dmac smac my dst proto id pay) st =
    (arp_learn my smac;; w ← dhcp_wants ip 20 (20 + Z.of_nat (length pay));
     if (w : bool) then dhcp_input ip 20;; mret 0 else ip_deliver poll fuel ip 20) st.
Proof.
  intros Hb Hd Hs Hmy Hdst Hp Hl ip Hok. set (n := Z.of_nat (length pay)) in *.
  destruct (ip_fields my dst proto id pay n Hmy Hdst eq_refl Hl) as (F0 & F2 & F6 & F9 & F12 & F16 & Fh).
  fold ip in F0, F2, F6, F9, F12, F16, Fh.
  assert (Hlen : length ip = (20 + length pay)%nat) by (unfold ip; rewrite length_app, length_ip_hdr; done).
  assert (Hpair : ip_frame dmac smac my dst proto id pay = (dmac ++ smac ++ [0x08; 0x00]) ++ ip).
  { unfold ip_frame, ip. by rewrite <- !app_assoc. }
  assert (H14 : length (dmac ++ smac ++ [0x08; 0x00]) = 14%nat) by (rewrite !length_app; cbn; lia).
  assert (Het : be16 (ip_frame dmac smac my dst proto id pay) 12 = Some 0x0800).
  { assert (Hk : forall k, (k < 2)%nat -> ip_frame dmac smac my dst proto id pay !! (12 + k)%nat = [0x08; 0x00] !! k).
    { intros k Hk. unfold ip_frame. rewrite lookup_app_r, lookup_app_r by lia. rewrite Hd, Hs.
      replace (12 + k - 6 - 6)%nat with k by lia. by rewrite lookup_app_l by (cbn; lia). }
    pose proof (Hk 0%nat ltac:(lia)) as H0. pose proof (Hk 1%nat ltac:(lia)) as H1. cbn in H0, H1.
    unfold be16, rd8. change (12 <? 0) with false. change (12 + 1 <? 0) with false.
    change (Z.to_nat 12) with 12%nat. change (Z.to_nat (12 + 1)) with 13%nat. rewrite H0, H1. reflexivity. }
  assert (Hmac : load (ip_frame dmac smac my dst proto id pay) 6 6 = Some smac) by (apply load_mid; lia).
  rewrite Hpair in *. unfold net_input. rewrite length_app, H14, Hlen.
  rewrite (bind_ok _ _ _ _ _ (build_ready_ok _ Hb)), set_bufs_same. cbn [negb].
  unfold ETH_HDR_LEN, IP_HDR_MIN. destruct (Z.ltb_spec (Z.of_nat (14 + (20 + length pay))) 14); [lia |].
  mstep Het. change (0x0800 =? 0x0806) with false. change (0x0800 =? 0x0800) with true. cbn [negb].
  destruct (Z.ltb_spec (Z.of_nat (14 + (20 + length pay))) (14 + 20)); [lia |]. mstep Hmac.
  replace (Z.to_nat 14) with (length (dmac ++ smac ++ [0x08; 0x00])) by lia. rewrite drop_app_length.
  replace (Z.of_nat (14 + (20 + length pay))) with (34 + n) by lia.
  unfold ip_input, ETH_HDR_LEN, IP_HDR_MIN. mstep F0.
  change (Z.shiftr 69 4 =? 4) with true. change ((69 &! 15) *! 4) with 20. cbn [negb].
  ured. destruct (Z.ltb_spec 20 20); [lia |]. destruct (Z.ltb_spec (34 + n) (14 + 20)); [lia |]. cbn [orb]. mstep F2.
  destruct (Z.ltb_spec (20 + n) 20); [lia |]. destruct (Z.ltb_spec 1500 (20 + n)); [lia |]. ured.
  destruct (Z.ltb_spec (34 + n) (14 + (20 + n))); [lia |]. cbn [orb]. mstep Fh. rewrite ip_hdr_valid by done.
  change (0 =? 0) with true. cbn [negb]. mstep F6. change (0 &! 0x1FFF =? 0) with true. change (0 &! 0x2000 =? 0) with true. cbn [negb orb].
  mstep F9. destruct ((proto =? 17) || (proto =? 6)) eqn:Ep.
  - mstep (Hok eq_refl). cbn [negb]. mstep F12. reflexivity.
  - mgo. cbn [negb]. mstep F12. reflexivity.
Qed.
End Receive.

(** ** Delivery *)

Lemma l4_checksum_range src dst proto p : is_u8 proto -> Forall is_u8 p -> Z.of_nat (length p) <= 2000 ->
  0 < l4_checksum src dst proto p < 65536.
Proof.
  intros Hp Hu Hl. destruct (l4_sum_spec src dst proto p Hp Hu Hl) as (H1 & _). cbn zeta in H1.
  rewrite l4_checksum_val by done. case_match eqn:E; [lia |]. apply Z.eqb_neq in E. lia.
Qed.

Lemma udp_seg_accepted my dst sp dp id d : is_u32 my -> is_u32 dst -> Forall is_u8 d -> Z.of_nat (length d) <= 1472 ->
  let pay := udp_seg my dst sp dp d in
  l4_csum_ok (ip_hdr my dst 17 (Z.of_nat (length pay)) id ++ pay) 20 (20 + Z.of_nat (length pay)) = Some true.
Proof.
  intros Hmy Hdst Hd Hl pay. assert (Hlp : length pay = (8 + length d)%nat) by apply length_udp_seg.
  destruct (ip_fields my dst 17 id pay _ Hmy Hdst eq_refl ltac:(lia)) as (_ & _ & _ & F9 & F12 & F16 & _).
  set (a := put16 sp ++ put16 dp ++ put16 (u16 (UDP_HDR_LEN + Z.of_nat (length d)))).
  assert (Ha : forall c, udp_hdr0 sp dp (Z.of_nat (length d)) c ++ d = a ++ put16 c ++ d) by (intros c; unfold udp_hdr0, a; by rewrite <- ?app_assoc).
  assert (Hua : Forall is_u8 a) by (unfold a; repeat apply Forall_app_2; apply put16_u8).
  assert (Hu : Forall is_u8 (a ++ put16 0 ++ d)) by (repeat apply Forall_app_2; auto with cint).
  assert (Hpay : pay = a ++ put16 (l4_checksum my dst 17 (a ++ put16 0 ++ d)) ++ d).
  { unfold pay, udp_seg, udp_checksum. by rewrite !Ha. }
  unfold l4_csum_ok. rewrite F9. cbn [mbind option_bind]. change (17 =? 17) with true. cbn iota.
  replace (20 + Z.of_nat (length pay) -! 20) with (Z.of_nat (length pay)) by ulia.
  unfold UDP_HDR_LEN. destruct (Z.ltb_spec (Z.of_nat (length pay)) 8); [lia |].
  change (Z.to_nat 20) with 20%nat. rewrite drop_ip_hdr, F12, F16. cbn [mbind option_bind].
  assert (Hload : load pay 0 (Z.of_nat (length pay)) = Some pay) by (by apply load_all).
  rewrite Hload. cbn [mbind option_bind].
  assert (Hl0 : Z.of_nat (length (a ++ put16 0 ++ d)) <= 2000).
  { rewrite !length_app. change (length a) with 6%nat. change (length (put16 0)) with 2%nat. lia. }
  assert (H17 : is_u8 17) by (unfold is_u8; lia).
  destruct (l4_checksum_range my dst 17 (a ++ put16 0 ++ d) H17 Hu Hl0) as [Hc1 Hc2].
  set (c := l4_checksum my dst 17 (a ++ put16 0 ++ d)) in *.
  assert (Hgot : be16 pay 6 = Some c).
  { rewrite Hpay. transitivity (Some (Z.lor (Z.shiftl (u8 (Z.shiftr c 8)) 8) (u8 c))); [reflexivity |]. rewrite put16_lor by (unfold is_u16; lia). done. }
  rewrite Hgot. cbn [mbind option_bind]. destruct (Z.eqb_spec c 0); [lia |].
  rewrite Hpay, (l4_patch my dst 17 a d c); [done | done | done | by apply Forall_app_2 | cbn; lia | by right | lia].
Qed.

(** What [udp_deliver] does to the socket bound to the port. *)
Definition is_udp_port (dport : Z) (s : sock_t) : Prop := used s = true /\ type s = SOCK_TYPE_UDP /\ local_port s = dport.

Lemma udp_deliver_ok src sport dport d i s q st : list_find (is_udp_port dport) (g_socks st) = Some (i, s) ->
  holds (rcv s) q -> is_u32 src -> is_u16 sport -> 8 + Z.of_nat (length d) <= rx_space (rcv s) ->
  exists r, udp_deliver src sport dport d st = Ok tt (set_socks (<[i := with_rcv s r]> (g_socks st)) st) /\
    holds r (q ++ [mk_dgram src sport d]).
Proof.
  intros Hf (Hok & Hq & Hb) Hs Hp Hspace. pose proof (rx_used_range (rcv s)). pose proof (rx_space_used _ Hok) as Hsp.
  assert (Hd : dg_ok (mk_dgram src sport d)) by (split_and!; [done | done | cbn; unfold NET_SOCK_BUF in *; lia]).
  destruct (rcv_put_spec (rcv s) (dg_bytes (mk_dgram src sport d)) Hok) as (r & Hput & Hok' & Hb' & _).
  { unfold dg_bytes. rewrite length_app, length_dg_hdr. cbn [dg_data]. lia. }
  exists r. split.
  - unfold udp_deliver. mgo. unfold is_udp_port in Hf. rewrite Hf. unfold NET_SOCK_BUF in *. ured.
    destruct (Z.ltb_spec (rx_space (rcv s)) (8 + Z.of_nat (length d))); [lia |].
    unfold dg_bytes, dg_hdr in Hput. cbn [dg_ip dg_port dg_data] in Hput. rewrite <- !app_assoc in Hput. mstep Hput. reflexivity.
  - split; [done |]. split; [by apply Forall_app_2; [| constructor] |].
    rewrite map_app, concat_app, Hb', Hb. cbn [map concat]. by rewrite app_nil_r.
Qed.

Lemma udp_input_ok my dst sp dp id d st : is_u32 my -> is_u32 dst -> is_u16 sp -> is_u16 dp -> Z.of_nat (length d) <= 1472 ->
  let pay := udp_seg my dst sp dp d in
  udp_input (ip_hdr my dst 17 (Z.of_nat (length pay)) id ++ pay) 20 st = udp_deliver my sp dp d (set_gv g_udp_rx (gv st g_udp_rx +! 1) st).
Proof.
  intros Hmy Hdst Hsp Hdp Hl pay. assert (Hlp : length pay = (8 + length d)%nat) by apply length_udp_seg.
  destruct (ip_fields my dst 17 id pay _ Hmy Hdst eq_refl ltac:(lia)) as (_ & F2 & _ & _ & F12 & _ & _).
  assert (P4 : be16 pay 4 = Some (8 + Z.of_nat (length d))).
  { transitivity (Some (Z.lor (Z.shiftl (u8 (Z.shiftr (u16 (8 + Z.of_nat (length d))) 8)) 8) (u8 (u16 (8 + Z.of_nat (length d)))))); [reflexivity |].
    rewrite put16_lor by apply u16_range. f_equal. ulia. }
  assert (P0 : be16 pay 0 = Some sp) by exact (f_equal Some (put16_lor sp Hsp)).
  assert (P2 : be16 pay 2 = Some dp) by exact (f_equal Some (put16_lor dp Hdp)).
  assert (P8 : load pay 8 (Z.of_nat (length d)) = Some d).
  { unfold pay, udp_seg. by apply load_back. }
  unfold udp_input. mstep F2. unfold UDP_HDR_LEN. ured. destruct (Z.ltb_spec (20 + Z.of_nat (length pay)) (20 + 8)); [lia |].
  change (Z.to_nat 20) with 20%nat. rewrite drop_ip_hdr. mstep P4.
  destruct (Z.ltb_spec (8 + Z.of_nat (length d)) 8); [lia |]. ured.
  replace (8 + Z.of_nat (length d) - 8) with (Z.of_nat (length d)) by lia.
  destruct (Z.ltb_spec (20 + Z.of_nat (length pay) - 20 - 8) (Z.of_nat (length d))); [lia |].
  unfold bump. mgo. mstep F12. mstep P0. mstep P2. mstep P8. reflexivity.
Qed.

(** ** End to end *)

(** The receiving half: the frame of [udp_seg] reaches the bound socket. *)
Lemma udp_frame_received `{E : NetEnv} poll fuel dmac smac my dst sp dp id d i s q st :
  bufs_ok st -> length dmac = 6%nat -> length smac = 6%nat -> is_u32 my -> is_u32 dst -> is_u16 sp -> is_u16 dp ->
  Forall is_u8 d -> Z.of_nat (length d) <= 1472 ->
  be32 (g_ip st) 0 = Some dst -> gv st dhcp_active = 0 -> gv st dns_active = 0 ->
  list_find (is_udp_port dp) (g_socks st) = Some (i, s) -> holds (rcv s) q -> 8 + Z.of_nat (length d) <= rx_space (rcv s) ->
  exists st' r, net_input poll fuel (ip_frame dmac smac my dst 17 id (udp_seg my dst sp dp d)) st = Ok 0 st' /\
    g_socks st' = <[i := with_rcv s r]> (g_socks st) /\ holds r (q ++ [mk_dgram my sp d]) /\ wire st' = wire st.
Proof.
  intros Hb Hdm Hsm Hmy Hdst Hsp Hdp Hd Hl Hip Hdh Hdn Hf Hh Hsp'. set (pay := udp_seg my dst sp dp d).
  assert (Hlp : length pay = (8 + length d)%nat) by apply length_udp_seg.
  destruct (ip_fields my dst 17 id pay _ Hmy Hdst eq_refl ltac:(lia)) as (_ & _ & _ & F9 & _ & F16 & _).
  rewrite net_input_ip; [| done | done | done | done | done | done | lia | intros _; by apply udp_seg_accepted].
  set (ip := ip_hdr my dst 17 (Z.of_nat (length pay)) id ++ pay) in *.
  set (st1 := set_arp (arp_learn_in my smac (g_arp st)) st).
  destruct (udp_deliver_ok my sp dp d i s q (set_gv g_udp_rx (gv st1 g_udp_rx +! 1) st1) Hf Hh Hmy Hsp Hsp') as (r & Hdel & Hh').
  eexists _, r. split; [| split; [| split; [exact Hh' | shelve]]].
  - unfold arp_learn. mgo. fold st1. rewrite (bind_ok _ _ false st1 st1).
    2:{ unfold dhcp_wants. mgo. mstep F9. change (gv st1 dhcp_active) with (gv st dhcp_active). rewrite Hdh. reflexivity. }
    unfold ip_deliver. mstep F16. rewrite (bind_ok _ _ dst st1 st1).
    2:{ unfold my_ip_be. mgo. change (g_ip st1) with (g_ip st). by rewrite Hip. }
    mstep F9. rewrite Z.eqb_refl. cbn [negb]. change (17 =? 1) with false. change (17 =? 17) with true. cbn iota.
    rewrite (bind_ok _ _ false st1 st1).
    2:{ unfold dns_input. mgo. change (gv st1 dns_active) with (gv st dns_active). rewrite Hdn. reflexivity. }
    cbn iota. unfold ip, pay. rewrite (bind_ok _ _ tt st1 _ (eq_trans (udp_input_ok my dst sp dp id d st1 Hmy Hdst Hsp Hdp Hl) Hdel)). reflexivity.
  - done.
  Unshelve. done.
Qed.

(** C20. A datagram sent by one kernel arrives at another: [net_udp_send] hands
    one frame to the card, and when [net_input] of the addressee gets that frame it
    accepts it and appends exactly the sender's address, port and bytes to the queue
    of the socket bound to the port; no other socket changes. *)
Theorem udp_end_to_end (E1 E2 : NetEnv) poll1 fuel1 poll2 fuel2 st1 st2 my dst mac sport dport d i s q :
  bufs_ok st1 -> arp_lookup_in dst (g_arp st1) = Some mac -> length mac = 6%nat -> be32 (g_ip st1) 0 = Some my ->
  @card_ready E1 st1 -> is_u32 my -> is_u32 dst -> is_u16 sport -> is_u16 dport ->
  Forall is_u8 d -> Z.of_nat (length d) <= 1472 ->
  bufs_ok st2 -> be32 (g_ip st2) 0 = Some dst -> gv st2 dhcp_active = 0 -> gv st2 dns_active = 0 ->
  list_find (is_udp_port dport) (g_socks st2) = Some (i, s) -> holds (rcv s) q -> 8 + Z.of_nat (length d) <= rx_space (rcv s) ->
  exists st1' f st2' r,
    @net_udp_send E1 poll1 fuel1 dst dport sport d (Z.of_nat (length d)) st1 = Ok (Z.of_nat (length d)) st1' /\
    wire st1' = wire st1 ++ [f] /\
    @net_input E2 poll2 fuel2 f st2 = Ok 0 st2' /\
    g_socks st2' = <[i := with_rcv s r]> (g_socks st2) /\ holds r (q ++ [mk_dgram my sport d]).
Proof.
  intros Hb1 Harp Hmac Hmy Hc Hmyu Hdst Hsp Hdp Hd Hl Hb2 Hip Hdh Hdn Hf Hh Hs.
  destruct (@net_udp_send_ok E1 poll1 fuel1 dst dport sport d (Z.of_nat (length d)) d mac my st1) as (st1' & Hsend & Hw); try done.
  { by apply load_all. }
  destruct (@nic_mac_ok E1) as [Hn _].
  destruct (@udp_frame_received E2 poll2 fuel2 mac (@nic_mac E1) my dst sport dport (u16 (gv st1 g_ip_id + 1)) d i s q st2) as (st2' & r & Hin & Hso & Hr & _); try done.
  eexists st1', _, st2', r. split; [exact Hsend |]. split; [exact Hw |]. split; [exact Hin |]. done.
Qed.

(** C22. [recvfrom] on a UDP socket that holds datagrams takes exactly the oldest
    one: the caller's buffer gets its bytes (cut to the buffer's length, the rest
    is dropped, never left for the next call), the address buffer its sender, and
    the other datagrams stay. *)
Theorem recvfrom_takes_first `{E : NetEnv} fuel uptr_ok i va len timeout_ms out st s d q :
  nth i (g_socks st) no_sock = s -> type s = SOCK_TYPE_UDP -> holds (rcv s) (d :: q) ->
  0 < len -> uptr_ok va len true = true ->
  let got := take (Z.to_nat len) (dg_data d) in
  let addr := if negb (out =? 0) && uptr_ok out 8 true
              then [(out, rev (put32 (dg_ip d)) ++ [u8 (dg_port d); u8 (Z.shiftr (dg_port d) 8); 0; 0])] else [] in
  exists r, sc_recvfrom fuel uptr_ok i va len timeout_ms out st =
      Ok (Z.of_nat (length got), (va, got) :: addr) (set_socks (<[i := with_rcv s r]> (g_socks st)) st) /\
    holds r q.
Proof.
  intros Hs Hty Hh Hlen Hptr got addr. destruct (udp_take_spec (rcv s) d q len Hh ltac:(lia)) as (r & Htake & Hh').
  exists r. split; [| done]. destruct Hh as (Hok & _ & Hb). pose proof (length_rx_bytes _ Hok) as Hl.
  rewrite Hb in Hl. cbn [map concat] in Hl. unfold dg_bytes in Hl. rewrite !length_app, length_dg_hdr in Hl.
  unfold sc_recvfrom. mgo. rewrite Hs. destruct (Z.eqb_spec len 0); [lia |]. rewrite Hptr, Hty. cbn [negb].
  change (SOCK_TYPE_UDP =? SOCK_TYPE_UDP) with true. cbn iota. rewrite (bind_ok _ _ true st st).
  2:{ unfold cond_udp. mgo. rewrite Hs. unfold cond_rx. rewrite rx_used_0 by done. destruct (Z.eqb_spec (rx_used (rcv s)) 0); [lia | done]. }
  mgo. cbn [negb]. mgo. rewrite Hs, Hty. change (SOCK_TYPE_UDP =? SOCK_TYPE_UDP) with true. cbn iota.
  mstep Htake. reflexivity.
Qed.

(** ** Two machines *)

(** The machine [x] with the address [10.0.2.x], which knows the address of [y];
    a UDP socket of its own is bound to port [port]. *)
Definition machine (x y port : Z) : net :=
  let E := lab x [] 1 in
  final ((ok ← build_ready;
          modify (set_ip [10; 0; 2; x]);;
          arp_learn (0x0A000200 + y) [2; 0; 0; 0; 0; y];;
          s ← net_sockcall 1 (fun _ _ _ => true) (fun _ n => replicate (Z.to_nat n) 0) 7 SC_SOCKET [SOCK_TYPE_UDP; 0; 0; 0; 0];
          net_sockcall 1 (fun _ _ _ => true) (fun _ n => replicate (Z.to_nat n) 0) 7 SC_BIND [0; port; 0; 0; 0]) net_boot).

Lemma udp_end_to_end_witness :
  let msg := [72; 101; 108; 108; 111] in
  exists st1' f st2' r,
    @net_udp_send (lab 1 [] 1) (mret tt) 1 0x0A000202 7000 5000 msg 5 (machine 1 2 5000) = Ok 5 st1' /\
    wire st1' = wire (machine 1 2 5000) ++ [f] /\
    @net_input (lab 2 [] 1) (mret tt) 1 f (machine 2 1 7000) = Ok 0 st2' /\
    g_socks st2' = <[0%nat := with_rcv (nth 0 (g_socks (machine 2 1 7000)) no_sock) r]> (g_socks (machine 2 1 7000)) /\
    holds r ([] ++ [mk_dgram 0x0A000201 5000 msg]).
Proof.
  intros msg.
  apply (udp_end_to_end (lab 1 [] 1) (lab 2 [] 1) (mret tt) 1 (mret tt) 1 (machine 1 2 5000) (machine 2 1 7000)
           0x0A000201 0x0A000202 [2; 0; 0; 0; 0; 2] 5000 7000 msg 0 (nth 0 (g_socks (machine 2 1 7000)) no_sock) []).
  - split; eexists; split; vm_compute; reflexivity.
  - vm_compute. reflexivity.
  - reflexivity.
  - vm_compute. reflexivity.
  - split; vm_compute; reflexivity.
  - by split.
  - by split.
  - by split.
  - by split.
  - repeat apply Forall_cons_2; try (by split). constructor.
  - vm_compute. discriminate.
  - split; eexists; split; vm_compute; reflexivity.
  - vm_compute. reflexivity.
  - vm_compute. reflexivity.
  - vm_compute. reflexivity.
  - vm_compute. reflexivity.
  - split; [split; [eexists; split; vm_compute; reflexivity |] |]; [by vm_compute | split; [constructor | vm_compute; reflexivity]].
  - vm_compute. discriminate.
Defined.

(** Two datagrams are queued; the buffer is shorter than the first. *)
Definition two_queued : net :=
  final ((_ ← udp_deliver 0x0A000201 5000 7000 [1; 2; 3]; udp_deliver 0x0A000203 6000 7000 [4]) (machine 2 1 7000)).

Lemma recvfrom_takes_first_witness :
  let s := nth 0 (g_socks two_queued) no_sock in
  exists r, @sc_recvfrom (lab 2 [] 1) 1 (fun _ _ _ => true) 0 0x1000 2 0 0x2000 two_queued =
      Ok (2, [(0x1000, [1; 2]); (0x2000, rev (put32 0x0A000201) ++ [0x88; 0x13; 0; 0])]) (set_socks (<[0%nat := with_rcv s r]> (g_socks two_queued)) two_queued)
    /\ holds r [mk_dgram 0x0A000203 6000 [4]].
Proof.
  apply (@recvfrom_takes_first (lab 2 [] 1) 1 (fun _ _ _ => true) 0 0x1000 2 0 0x2000 two_queued _ (mk_dgram 0x0A000201 5000 [1; 2; 3]) [mk_dgram 0x0A000203 6000 [4]]).
  - reflexivity.
  - vm_compute. reflexivity.
  - split; [split; [eexists; split; vm_compute; reflexivity | by vm_compute] |].
    split; [| vm_compute; reflexivity].
    repeat apply Forall_cons_2; [unfold dg_ok, is_u32, is_u16; cbn; lia .. | constructor].
  - reflexivity.
  - reflexivity.
Defined.
