(* ===== verification/TcpProps.v ===== *)
(** * TcpProps: TCP as a reliable stream

    Sequence numbers, the reassembly of received data, acknowledgements; then
    two kernels joined by a network that loses, repeats and reorders segments. *)

From S2P Require Import Prelude Disk Net Tcp Dhcp Dns NetCalls NetSum NetRing.

(** ** Sequence numbers

    Positions in a stream shorter than [2 ^ 31] bytes that starts at the
    sequence number [b]. *)

Definition pos (x : Z) : Prop := 0 <= x < 2 ^ 31.

Lemma seq_diff b x y : pos x -> pos y -> s32 (u32 (b + x) -! u32 (b + y)) = x - y.
Proof.
  unfold pos. intros Hx Hy. unfold s32. rewrite u32_idemp.
  assert (E : u32 (u32 (b + x) - u32 (b + y)) = u32 (x - y)).
  { unfold u32. rewrite Zminus_mod_idemp_l, Zminus_mod_idemp_r. f_equal. lia. }
  rewrite E. destruct (Z.ltb_spec (u32 (x - y)) (2 ^ 31)); ulia.
Qed.

Lemma seq_inj b x y : pos x -> pos y -> u32 (b + x) = u32 (b + y) -> x = y.
Proof. intros Hx Hy E. pose proof (seq_diff b x y Hx Hy) as H. rewrite E, Z.sub_diag in H. change (s32 (u32 0)) with 0 in H. lia. Qed.

Lemma seq_eqb b x y : pos x -> pos y -> (u32 (b + x) =? u32 (b + y)) = (x =? y).
Proof.
  intros Hx Hy. destruct (Z.eqb_spec x y) as [-> | Hn]; [apply Z.eqb_refl |].
  apply Z.eqb_neq. intros E. apply Hn. by apply (seq_inj b).
Qed.

Lemma seq_add b x n : u32 (b + x) +! n = u32 (b + (x + n)).
Proof. unfold u32. rewrite Zplus_mod_idemp_l. f_equal. lia. Qed.

Lemma seq_sub b x y : pos x -> pos y -> y <= x -> u32 (b + x) -! u32 (b + y) = x - y.
Proof.
  unfold pos. intros Hx Hy Hle. unfold u32. rewrite Zminus_mod_idemp_l, Zminus_mod_idemp_r.
  replace (b + x - (b + y)) with (x - y) by lia. apply Z.mod_small. lia.
Qed.

(** ** Moving a buffer down *)

Lemma move_down_aget f : forall l k off len, 0 <= k -> 0 <= off -> len <= Z.of_nat (length l) -> len < 2 ^ 31 -> off < 2 ^ 31 ->
  len - off - k <= Z.of_nat f -> k <= len ->
  exists l', move_down f l k off len = Some l' /\ length l' = length l /\
    forall j, 0 <= j -> aget 0 l' j = if (k <=? j) && (j <? len - off) then aget 0 l (j + off) else aget 0 l j.
Proof.
  induction f as [| f IH]; intros l k off len Hk Ho Hl Hl31 Ho31 Hf Hkl; cbn [move_down]; ured.
  - destruct (Z.ltb_spec (k + off) len); [lia |]. exists l. split; [done |]. split; [done |]. intros j Hj.
    destruct (Z.leb_spec k j), (Z.ltb_spec j (len - off)); try done. lia.
  - destruct (Z.ltb_spec (k + off) len).
    + rewrite rd8_in by lia. cbn [mbind option_bind]. rewrite store_one by lia. cbn [mbind option_bind].
      destruct (IH (aset l k (aget 0 l (k + off))) (k + 1) off len) as (l' & E & Hlen & Hg); try lia; [by rewrite length_aset |].
      rewrite length_aset in Hlen. exists l'. ured. split; [exact E |]. split; [done |]. intros j Hj. rewrite Hg by done.
      destruct (Z.eq_dec k j) as [<- | Hn].
      * destruct (Z.leb_spec (k + 1) k); [lia |]. destruct (Z.leb_spec k k); [| lia]. destruct (Z.ltb_spec k (len - off)); [| lia]. cbn [andb].
        apply aget_aset_eq. lia.
      * destruct (Z.leb_spec (k + 1) j), (Z.leb_spec k j), (Z.ltb_spec j (len - off)); cbn [andb]; try lia; by rewrite aget_aset_ne by lia.
    + exists l. split; [done |]. split; [done |]. intros j Hj. destruct (Z.leb_spec k j), (Z.ltb_spec j (len - off)); try done. lia.
Qed.

Lemma slice_ext (l l' : list Z) i j n : 0 <= i -> 0 <= j -> 0 <= n -> i + n <= Z.of_nat (length l) -> j + n <= Z.of_nat (length l') ->
  (forall k, 0 <= k < n -> aget 0 l (i + k) = aget 0 l' (j + k)) -> slice l i n = slice l' j n.
Proof.
  intros Hi Hj Hn Hl Hl' H. apply aget_ext with (d := 0).
  - rewrite !length_slice by lia. done.
  - intros k Hk. rewrite length_slice in Hk by lia. rewrite !aget_slice by lia. apply H. lia.
Qed.

(** The bytes from [off] on end up at the front. *)
Lemma move_down_spec l off len : 0 <= off <= len -> len <= Z.of_nat (length l) -> len < 2 ^ 31 ->
  exists l', move_down (Z.to_nat len) l 0 off len = Some l' /\ length l' = length l /\ slice l' 0 (len - off) = slice l off (len - off).
Proof.
  intros Ho Hl H31. destruct (move_down_aget (Z.to_nat len) l 0 off len) as (l' & E & Hlen & Hg); try lia.
  exists l'. split; [done |]. split; [done |]. apply slice_ext; try lia. intros k Hk. rewrite Hg by lia. rewrite Z.add_0_l.
  destruct (Z.leb_spec 0 k); [| lia]. destruct (Z.ltb_spec k (len - off)); [| lia]. cbn [andb]. f_equal. lia.
Qed.

(** ** Slices of the stream *)

Lemma take_slice (l : list Z) n : 0 <= n -> take (Z.to_nat n) l = slice l 0 n.
Proof. intros. unfold slice. by rewrite drop_0. Qed.

Lemma slice_slice (l : list Z) i n j m : 0 <= i -> 0 <= j -> 0 <= m -> j + m <= n -> i + n <= Z.of_nat (length l) ->
  slice (slice l i n) j m = slice l (i + j) m.
Proof.
  intros. apply aget_ext with (d := 0).
  - rewrite !length_slice; try lia. rewrite length_slice; lia.
  - intros k Hk. rewrite length_slice in Hk; [| lia | lia | rewrite length_slice; lia]. rewrite !aget_slice by lia. f_equal. lia.
Qed.

Lemma slice_0_nil (l : list Z) i : slice l i 0 = [].
Proof. unfold slice. done. Qed.

Lemma slice_prefix (l l' : list Z) i n : 0 <= i -> 0 <= n -> i + n <= Z.of_nat (length l) -> slice (l ++ l') i n = slice l i n.
Proof.
  intros. unfold slice. rewrite drop_app_le by lia. rewrite take_app_le; [done |]. rewrite length_drop. lia.
Qed.

(** ** The receiving side *)

(** [r] has received the first [k] bytes of the stream [S], of which [rd] have
    been read; what waits out of order is a piece of the stream. *)
Record rcv_inv (S : list Z) (b : Z) (r : rcv_t) (k : Z) (rd : list Z) : Prop := {
  ri_ring : ring_ok r;
  ri_pos : 0 <= k <= Z.of_nat (length S);
  ri_data : rd ++ rx_bytes r = slice S 0 k;
  ri_nxt : rcv_nxt r = u32 (b + k);
  ri_ooo : 0 <= ooo_len r <= TCP_OOO_BUF /\
    (ooo_len r = 0 \/ exists l o, ooo r = Some l /\ Z.of_nat (length l) = TCP_OOO_BUF /\ 0 <= o /\
       o + ooo_len r <= Z.of_nat (length S) /\ ooo_seq r = u32 (b + o) /\ slice l 0 (ooo_len r) = slice S o (ooo_len r));
  ri_buf : forall l, ooo r = Some l -> Z.of_nat (length l) = TCP_OOO_BUF;
}.

Lemma rx_space_range r : ring_ok r -> 0 <= rx_space r < NET_SOCK_BUF.
Proof. intros H. rewrite rx_space_used by done. pose proof (rx_used_range r). unfold NET_SOCK_BUF in *. lia. Qed.

Lemma load_slice l i n : 0 <= i -> i + n <= Z.of_nat (length l) -> load l i n = Some (slice l i n).
Proof. intros. unfold load. destruct (Z.leb_spec 0 i); [| lia]. destruct (Z.leb_spec (i + n) (Z.of_nat (length l))); [done | lia]. Qed.

Lemma slice_join (S : list Z) k n : 0 <= k -> 0 <= n -> slice S 0 k ++ slice S k n = slice S 0 (k + n).
Proof. intros. rewrite slice_app by lia. do 2 f_equal. Qed.

Section Receive.
Context (S : list Z) (b : Z) (HS : Z.of_nat (length S) < 2 ^ 31).

(** A byte run of the stream is put into the ring. *)
Lemma put_inv r k rd n : rcv_inv S b r k rd -> 0 <= n <= rx_space r -> k + n <= Z.of_nat (length S) ->
  exists r', rcv_put r (slice S k n) = Some r' /\ rcv_inv S b (set_rcv_nxt r' (rcv_nxt r' +! n)) (k + n) rd /\ same_rest r r'.
Proof.
  intros [Hring Hpos Hdata Hnxt Hooo Hbuf] Hn Hk. pose proof (rx_space_range r Hring).
  destruct (rcv_put_spec r (slice S k n) Hring) as (r' & Hput & Hok & Hby & Hrest); [rewrite length_slice; lia |].
  exists r'. split; [done |]. split; [| done]. destruct Hrest as (R1 & R2 & R3 & R4 & R5). split.
  - exact Hok.
  - lia.
  - change (rx_bytes (set_rcv_nxt r' (rcv_nxt r' +! n))) with (rx_bytes r'). rewrite Hby, app_assoc, Hdata. apply slice_join; lia.
  - cbn [set_rcv_nxt rcv_nxt]. rewrite R1, Hnxt. apply seq_add.
  - cbn [set_rcv_nxt ooo ooo_seq ooo_len]. by rewrite R3, R4, R5.
  - cbn [set_rcv_nxt ooo]. by rewrite R3.
Qed.

(** The drain moves the run that follows the stream into the ring. *)
Lemma ooo_drain_inv f : forall r k rd cnt, rcv_inv S b r k rd -> ooo_len r <= Z.of_nat f ->
  exists r' k' c, ooo_drain f r cnt = Some (r', c) /\ rcv_inv S b r' k' rd /\ k <= k'.
Proof.
  induction f as [| f IH]; intros r k rd cnt Hinv Hf; cbn [ooo_drain].
  - destruct (ri_ooo _ _ _ _ _ Hinv) as [H0 _]. destruct (Z.eqb_spec (ooo_len r) 0); [| lia]. cbn [negb andb]. eexists _, k, _. split; [done |]. split; [done | lia].
  - destruct (negb (ooo_len r =? 0) && (ooo_seq r =? rcv_nxt r)) eqn:Ec; [| eexists _, k, _; split; [done |]; split; [done | lia]].
    apply andb_true_iff in Ec as [E1 E2]. apply negb_true_iff, Z.eqb_neq in E1. apply Z.eqb_eq in E2.
    destruct (ri_ooo _ _ _ _ _ Hinv) as [Hr [H0 | (l & o & El & Hll & Ho & Hol & Eseq & Hsl)]]; [lia |].
    pose proof (ri_pos _ _ _ _ _ Hinv) as Hpos. rewrite (ri_nxt _ _ _ _ _ Hinv), Eseq in E2.
    apply seq_inj in E2; [| unfold pos; lia | unfold pos; lia]. subst o.
    pose proof (rx_space_range r (ri_ring _ _ _ _ _ Hinv)) as Hsp. set (n := if ooo_len r <? rx_space r then ooo_len r else rx_space r).
    assert (Hn : 0 <= n <= rx_space r /\ n <= ooo_len r) by (subst n; bcase; lia).
    destruct (Z.eqb_spec n 0); [eexists _, k, _; split; [done |]; split; [done | lia] |].
    unfold TCP_OOO_BUF in *. rewrite El. cbn [mbind option_bind]. rewrite load_slice by lia. cbn [mbind option_bind].
    assert (Ed : slice l 0 n = slice S k n).
    { replace (slice l 0 n) with (slice (slice l 0 (ooo_len r)) 0 n) by (rewrite slice_slice by lia; done).
      rewrite Hsl, slice_slice by lia. f_equal. lia. }
    rewrite Ed. destruct (put_inv r k rd n Hinv ltac:(lia) ltac:(lia)) as (r1 & -> & Hinv1 & Hrest). cbn [mbind option_bind].
    destruct (move_down_spec l n (ooo_len r) ltac:(lia) ltac:(lia) ltac:(lia)) as (l' & -> & Hl' & Hsl'). cbn [mbind option_bind].
    destruct (IH (set_ooo (set_rcv_nxt r1 (rcv_nxt r1 +! n)) (Some l') (rcv_nxt r1 +! n) (ooo_len r -! n)) (k + n) rd (cnt +! n)) as (r' & k' & c & E & Hinv' & Hle).
    + destruct Hinv1 as [I1 I2 I3 I4 I5 I6]. ured. split; [exact I1 | exact I2 | exact I3 | exact I4 | |].
      * cbn [set_ooo ooo_len ooo ooo_seq]. unfold TCP_OOO_BUF. split; [lia |]. right. exists l', (k + n). split; [done |]. split; [lia |].
        split; [lia |]. split; [lia |]. split; [exact I4 |]. rewrite Hsl'.
        replace (slice l n (ooo_len r - n)) with (slice (slice l 0 (ooo_len r)) n (ooo_len r - n)) by (rewrite slice_slice by lia; done).
        rewrite Hsl, slice_slice by lia. done.
      * cbn [set_ooo ooo]. intros ? [= <-]. unfold TCP_OOO_BUF. lia.
    + cbn [set_ooo ooo_len]. ured. lia.
    + exists r', k', c. split; [exact E |]. split; [done | lia].
Qed.

(** Any segment of the stream, wherever it starts. *)
Lemma tcp_data_inv r k rd off n : rcv_inv S b r k rd -> 0 <= off -> 0 <= n < 2 ^ 16 -> off + n <= Z.of_nat (length S) ->
  exists r' k' c, tcp_data r (u32 (b + off)) (slice S off n) = Some (r', c) /\ rcv_inv S b r' k' rd /\ k <= k' /\
    (off = k -> n <= rx_space r -> k + n <= k').
Proof.
  intros Hinv Ho Hn Hon. pose proof (ri_pos _ _ _ _ _ Hinv) as Hpos. pose proof (rx_space_range r (ri_ring _ _ _ _ _ Hinv)) as Hsp.
  unfold tcp_data. rewrite length_slice, Z2Nat.id by lia.
  destruct (Z.eqb_spec n 0); [exists r, k, 0; split; [done |]; split; [done | lia] |].
  rewrite (ri_nxt _ _ _ _ _ Hinv), seq_diff, seq_eqb by (unfold pos; lia).
  destruct (Z.ltb_spec (off - k) 0); [exists r, k, 0; split; [done |]; split; [done | lia] |].
  destruct (Z.eqb_spec off k) as [-> | Hne].
  - set (m := if rx_space r <? n then rx_space r else n). assert (Hm : 0 <= m <= rx_space r /\ m <= n /\ (n <= rx_space r -> m = n)) by (subst m; bcase; lia).
    assert (Et : take (Z.to_nat m) (slice S k n) = slice S k m).
    { rewrite take_slice by lia. rewrite slice_slice by lia. f_equal. lia. }
    rewrite Et. destruct (put_inv r k rd m Hinv ltac:(lia) ltac:(lia)) as (r1 & -> & Hinv1 & Hrest). cbn [mbind option_bind].
    destruct (ooo_drain_inv (Z.to_nat (ooo_len r)) _ _ _ m Hinv1) as (r' & k' & c & E & Hinv' & Hle).
    { destruct Hrest as (_ & _ & _ & _ & R5). cbn [set_rcv_nxt ooo_len]. rewrite R5. destruct (ri_ooo _ _ _ _ _ Hinv). lia. }
    exists r', k', c. split; [exact E |]. split; [done |]. split; [lia |]. intros _ H1. lia.
  - destruct (ooo r) as [l |] eqn:El; [| exists r, k, 0; split; [done |]; split; [done |]; split; lia].
    destruct (ri_ooo _ _ _ _ _ Hinv) as [Hr Hrun]. rewrite El in Hrun. pose proof (ri_buf _ _ _ _ _ Hinv l El) as Hll. unfold TCP_OOO_BUF in *. ured.
    destruct ((ooo_len r + n <=? 2048) && ((ooo_len r =? 0) || (u32 (b + off) =? u32 (ooo_seq r + ooo_len r)))) eqn:Ec;
      [| exists r, k, 0; split; [done |]; split; [done |]; split; lia].
    apply andb_true_iff in Ec as [E1%Z.leb_le E2].
    unfold store. rewrite length_slice, Z2Nat.id by lia. destruct (Z.leb_spec 0 (ooo_len r)); [| lia]. cbn [andb].
    destruct (Z.leb_spec (ooo_len r + n) (Z.of_nat (length l))); [| lia]. cbn [mbind option_bind].
    eexists _, k, 0. split; [done |]. split; [| split; lia]. destruct Hinv as [I1 I2 I3 I4 I5 I6].
    assert (Hls : length (splice l (ooo_len r) (slice S off n)) = length l) by (rewrite length_spliced; [done | lia | rewrite length_slice; lia]).
    split; [exact I1 | exact I2 | exact I3 | exact I4 | |]; cbn [set_ooo ooo_len ooo ooo_seq].
    + ured. unfold TCP_OOO_BUF. split; [lia |]. right.
      assert (Hold : exists o, 0 <= o /\ o + (ooo_len r + n) <= Z.of_nat (length S) /\ (if ooo_len r =? 0 then u32 (b + off) else ooo_seq r) = u32 (b + o) /\
                       off = o + ooo_len r /\ slice l 0 (ooo_len r) = slice S o (ooo_len r)).
      { destruct (Z.eqb_spec (ooo_len r) 0) as [E0 | E0].
        - exists off. rewrite E0, !slice_0_nil. split_and!; try done; lia.
        - destruct Hrun as [| (l0 & o & [= <-] & _ & Ho1 & Ho2 & Es & Hsl)]; [lia |]. cbn [orb] in E2. apply Z.eqb_eq in E2.
          rewrite Es, seq_add in E2. apply seq_inj in E2; [| unfold pos; lia | unfold pos; lia].
          exists o. split_and!; try done; lia. }
      destruct Hold as (o & Ho0 & Ho1 & Es & Eoff & Hsl). exists (splice l (ooo_len r) (slice S off n)), o.
      split; [done |]. split; [lia |]. split; [done |]. split; [done |]. split; [done |].
      rewrite !slice_app by lia. f_equal.
      * rewrite <- Hsl. apply slice_ext; try lia. intros j Hj. rewrite aget_splice; [| lia | rewrite length_slice; lia | lia].
        rewrite length_slice by lia. destruct (Z.leb_spec (ooo_len r) (0 + j)); [lia | done].
      * apply slice_ext; try lia. intros j Hj. rewrite aget_splice; [| lia | rewrite length_slice; lia | lia].
        rewrite length_slice by lia. destruct (Z.leb_spec (ooo_len r) (0 + ooo_len r + j)); [| lia].
        destruct (Z.ltb_spec (0 + ooo_len r + j) (ooo_len r + Z.of_nat (Z.to_nat n))); [| lia]. cbn [andb]. rewrite aget_slice by lia. f_equal. lia.
    + intros ? [= <-]. unfold TCP_OOO_BUF. lia.
Qed.

(** The reader takes what is there. *)
Lemma read_inv r k rd max : rcv_inv S b r k rd ->
  exists r' d, stream_get max r = Some (d, r') /\ d = take max (rx_bytes r) /\ rcv_inv S b r' k (rd ++ d) /\ rx_bytes r' = drop max (rx_bytes r).
Proof.
  intros [I1 I2 I3 I4 I5 I6]. destruct (stream_get_spec max r I1) as (p & E & Hok & Hb).
  eexists _, _. split; [exact E |]. split; [done |]. split; [| exact Hb].
  split; [exact Hok | exact I2 | | exact I4 | exact I5 | exact I6]. rewrite Hb, <- app_assoc, take_drop. exact I3.
Qed.
End Receive.

(** ** The sending side *)

(** Everything of [S] up to [a] is acknowledged; the rest is in the
    retransmission buffer. *)
Record snd_inv (S : list Z) (b : Z) (n : snd_t) (a : Z) : Prop := {
  si_pos : 0 <= a <= Z.of_nat (length S);
  si_una : snd_una n = u32 (b + a);
  si_nxt : snd_nxt n = u32 (b + Z.of_nat (length S));
  si_len : rtx_len n = Z.of_nat (length S) - a /\ rtx_len n <= TCP_RTX_BUF;
  si_buf : exists l, rtx n = Some l /\ Z.of_nat (length l) = TCP_RTX_BUF /\ slice l 0 (rtx_len n) = slice S a (rtx_len n);
  si_syn : syn_unacked n = false;
}.

Section Send.
Context (S : list Z) (b : Z) (HS : Z.of_nat (length S) < 2 ^ 31).

Lemma tcp_ack_inv now n a x : snd_inv S b n a -> 0 <= x <= Z.of_nat (length S) ->
  exists n', tcp_ack now (u32 (b + x)) n = Some n' /\ snd_inv S b n' (Z.max a x).
Proof.
  intros [I1 I2 I3 [I4 I4'] (l & El & Hl & Hsl) I6] Hx. unfold tcp_ack. rewrite I2, I3, !seq_diff by (unfold pos; lia).
  destruct (Z.ltb_spec 0 (x - a)); cbn [andb].
  2:{ exists n. split; [done |]. rewrite Z.max_l by lia. split; [done | done | done | done | by exists l | done]. }
  destruct (Z.leb_spec (x - Z.of_nat (length S)) 0); [| lia]. cbn [andb]. rewrite I6, seq_sub by (unfold pos; lia).
  rewrite Z.max_r by lia. destruct (Z.leb_spec (rtx_len n) (x - a)).
  - eexists. split; [done |]. assert (x = Z.of_nat (length S)) by lia. subst x.
    split; cbn [snd_una snd_nxt rtx_len rtx syn_unacked]; [lia | done | done | unfold TCP_RTX_BUF; lia | | done].
    exists l. split; [done |]. split; [done |]. by rewrite !slice_0_nil.
  - rewrite El. cbn [mbind option_bind]. unfold TCP_RTX_BUF in *.
    destruct (move_down_spec l (x - a) (rtx_len n) ltac:(lia) ltac:(lia) ltac:(lia)) as (l' & -> & Hl' & Hsl'). cbn [mbind option_bind].
    eexists. split; [done |]. ured. split; cbn [snd_una snd_nxt rtx_len rtx syn_unacked]; [lia | done | done | unfold TCP_RTX_BUF; lia | | done].
    exists l'. split; [done |]. split; [unfold TCP_RTX_BUF; lia |]. rewrite Hsl'.
    replace (slice l (x - a) (rtx_len n - (x - a))) with (slice (slice l 0 (rtx_len n)) (x - a) (rtx_len n - (x - a))) by (rewrite slice_slice by lia; f_equal; lia).
    rewrite Hsl, slice_slice by lia. f_equal. lia.
Qed.
End Send.

Lemma snd_queue_inv S b n d : snd_inv S b n (Z.of_nat (length S)) -> Z.of_nat (length d) <= TCP_RTX_BUF ->
  exists n', snd_queue n d = Some n' /\ forall t tries, snd_inv (S ++ d) b (set_timer n' t tries) (Z.of_nat (length S)).
Proof.
  intros [I1 I2 I3 [I4 I4'] (l & El & Hl & Hsl) I6] Hd. unfold snd_queue. rewrite El. cbn [mbind option_bind].
  unfold store. cbn [Z.leb Z.compare andb]. destruct (Z.leb_spec (0 + Z.of_nat (length d)) (Z.of_nat (length l))); [| lia]. cbn [mbind option_bind].
  eexists. split; [done |]. intros t tries. rewrite I3.
  split; cbn [set_timer set_nxt set_rtx snd_una snd_nxt rtx_len rtx syn_unacked]; [rewrite length_app; lia | done | | rewrite length_app; lia | | done].
  - rewrite seq_add, length_app. do 2 f_equal. lia.
  - eexists. split; [done |]. rewrite length_spliced by lia. split; [done |].
    apply slice_ext; try lia; [rewrite length_spliced by lia; lia | rewrite length_app; lia |].
    intros k Hk. rewrite aget_splice by lia. rewrite Z.add_0_l, Z.sub_0_r. destruct (Z.leb_spec 0 k); [| lia].
    destruct (Z.ltb_spec k (0 + Z.of_nat (length d))); [| lia]. cbn [andb]. unfold aget. rewrite app_nth2 by lia. f_equal. lia.
Qed.

(** ** Two kernels and a network

    One direction of an open connection: the sender's half-socket, the
    receiver's, every segment and every acknowledgement that was ever put on the
    wire (a network may deliver any of them at any time, again, or never), what
    the application has sent and what the reader has got. *)
Record link := mk_link {
  l_snd : snd_t; l_rcv : rcv_t;
  l_segs : list (Z * list Z); l_acks : list Z;
  l_sent : list Z; l_got : list Z;
}.

Inductive link_step : link -> link -> Prop :=
  | ls_send n r segs acks sent got d n' t :
      rtx_len n = 0 -> Z.of_nat (length d) <= TCP_RTX_BUF -> Z.of_nat (length (sent ++ d)) < 2 ^ 31 -> snd_queue n d = Some n' ->
      link_step (mk_link n r segs acks sent got) (mk_link (set_timer n' t 0) r ((snd_nxt n, d) :: segs) acks (sent ++ d) got)
  | ls_retransmit n r segs acks sent got l d t tries :
      rtx_len n <> 0 -> rtx n = Some l -> load l 0 (rtx_len n) = Some d ->
      link_step (mk_link n r segs acks sent got) (mk_link (set_timer n t tries) r ((snd_una n, d) :: segs) acks sent got)
  | ls_segment n r segs acks sent got q d r' c :
      (q, d) ∈ segs -> tcp_data r q d = Some (r', c) ->
      link_step (mk_link n r segs acks sent got) (mk_link n r' segs (rcv_nxt r' :: acks) sent got)
  | ls_ack n r segs acks sent got now a n' :
      a ∈ acks -> tcp_ack now a n = Some n' ->
      link_step (mk_link n r segs acks sent got) (mk_link n' r segs acks sent got)
  | ls_read n r segs acks sent got max d r' :
      stream_get max r = Some (d, r') ->
      link_step (mk_link n r segs acks sent got) (mk_link n r' segs acks sent (got ++ d)).

(** An open connection on which nothing has been sent: both sides agree on the
    next sequence number [b]. *)
Definition link_open (b : Z) (l : link) : Prop :=
  is_u32 b /\ snd_inv [] b (l_snd l) 0 /\ rcv_inv [] b (l_rcv l) 0 [] /\ l_segs l = [] /\ l_acks l = [] /\ l_sent l = [] /\ l_got l = [].

Record link_inv (b : Z) (l : link) (a k : Z) : Prop := {
  li_bound : Z.of_nat (length (l_sent l)) < 2 ^ 31;
  li_snd : snd_inv (l_sent l) b (l_snd l) a;
  li_rcv : rcv_inv (l_sent l) b (l_rcv l) k (l_got l);
  li_acked : a <= k;
  li_segs : Forall (fun '(q, d) => exists off n, 0 <= off /\ 0 <= n < 2 ^ 16 /\ off + n <= Z.of_nat (length (l_sent l)) /\
                       q = u32 (b + off) /\ d = slice (l_sent l) off n) (l_segs l);
  li_acks : Forall (fun x => exists p, 0 <= p <= k /\ x = u32 (b + p)) (l_acks l);
}.

Lemma rcv_inv_app S b r k rd d : rcv_inv S b r k rd -> rcv_inv (S ++ d) b r k rd.
Proof.
  intros [I1 I2 I3 I4 [I5 I5'] I6]. split; [done | rewrite length_app; lia | | done | | done].
  - rewrite slice_prefix by lia. done.
  - split; [done |]. destruct I5' as [| (l & o & H1 & H2 & H3 & H4 & H5 & H6)]; [by left |]. right. exists l, o.
    split_and!; try done; [rewrite length_app; lia |]. rewrite slice_prefix by lia. done.
Qed.

Lemma link_step_inv b l l' a k : link_inv b l a k -> link_step l l' -> exists a' k', link_inv b l' a' k'.
Proof.
  intros [B1 Hs Hr Hak Hsegs Hacks] Hstep.
  destruct Hstep as [n r segs acks sent got d n' t H0 Hd Hb Hq | n r segs acks sent got l d t tries H0 El Hld
    | n r segs acks sent got q d r' c Hin Hdata | n r segs acks sent got now x n' Hin Hack | n r segs acks sent got max d r' Hget];
    cbn [l_snd l_rcv l_segs l_acks l_sent l_got] in *.
  - pose proof (si_len _ _ _ _ Hs). pose proof (si_pos _ _ _ _ Hs). assert (a = Z.of_nat (length sent)) by lia. subst a.
    destruct (snd_queue_inv sent b n d Hs Hd) as (n1 & E & Hs'). rewrite E in Hq. injection Hq as <-.
    exists (Z.of_nat (length sent)), k. split; cbn [l_snd l_rcv l_segs l_acks l_sent l_got]; [done | apply Hs' | by apply rcv_inv_app | done | | done].
    apply Forall_cons_2.
    + exists (Z.of_nat (length sent)), (Z.of_nat (length d)). rewrite length_app. unfold TCP_RTX_BUF in *. split_and!; try lia.
      * apply (si_nxt _ _ _ _ Hs).
      * unfold slice. rewrite !Nat2Z.id, drop_app_length. by rewrite take_ge by lia.
    + eapply Forall_impl; [exact Hsegs |]. intros [q e] (off & m & G1 & G2 & G3 & -> & ->). exists off, m. rewrite length_app.
      split_and!; try done; try lia. symmetry. apply slice_prefix; lia.
  - exists a, k. destruct Hs as [I1 I2 I3 [I4 I4'] (l0 & E0 & Hl & Hsl) I6]. rewrite E0 in El. injection El as <-.
    split; cbn [l_snd l_rcv l_segs l_acks l_sent l_got]; [done | | done | done | | done].
    + split; cbn [set_timer snd_una snd_nxt rtx_len rtx syn_unacked]; [done | done | done | done | by exists l0 | done].
    + apply Forall_cons_2; [| done]. unfold TCP_RTX_BUF in *. rewrite load_slice in Hld by lia. injection Hld as <-.
      exists a, (rtx_len n). split_and!; try done; lia.
  - rewrite Forall_forall in Hsegs. destruct (Hsegs _ Hin) as (off & m & H1 & H2 & H3 & -> & ->).
    destruct (tcp_data_inv sent b B1 r k got off m Hr H1 H2 H3) as (r1 & k1 & c1 & E & Hr' & Hle & _). rewrite E in Hdata. injection Hdata as <- <-.
    exists a, k1. split; cbn [l_snd l_rcv l_segs l_acks l_sent l_got]; [done | done | done | lia | by rewrite Forall_forall |].
    apply Forall_cons_2; [exists k1; split; [pose proof (ri_pos _ _ _ _ _ Hr'); lia | apply (ri_nxt _ _ _ _ _ Hr')] |].
    eapply Forall_impl; [exact Hacks |]. intros x (p & Hp & ->). exists p. split; [lia | done].
  - rewrite Forall_forall in Hacks. destruct (Hacks _ Hin) as (p & Hp & ->). pose proof (ri_pos _ _ _ _ _ Hr).
    destruct (tcp_ack_inv sent b B1 now n a p Hs ltac:(lia)) as (n1 & E & Hs'). rewrite E in Hack. injection Hack as <-.
    exists (Z.max a p), k. split; cbn [l_snd l_rcv l_segs l_acks l_sent l_got]; [done | done | done | lia | done | by rewrite Forall_forall].
  - destruct (read_inv sent b r k got max Hr) as (r1 & d1 & E & _ & Hr' & _). rewrite E in Hget. injection Hget as <- <-.
    exists a, k. split; done.
Qed.

Lemma link_reachable b l0 l : link_open b l0 -> rtc link_step l0 l -> exists a k, link_inv b l a k.
Proof.
  intros (Hb & Hs & Hr & E1 & E2 & E3 & E4) Hrtc.
  assert (H0 : exists a k, link_inv b l0 a k).
  { exists 0, 0. destruct l0. cbn in *. subst. split; cbn; [lia | done | done | lia | constructor | constructor]. }
  clear -H0 Hrtc. induction Hrtc as [| x y z Hstep _ IH]; [done |]. destruct H0 as (a & k & H). apply IH. by eapply link_step_inv.
Qed.

(** C13. Over a network that loses, repeats, delays and reorders segments and
    acknowledgements in any way, the reader gets what the application sent: the
    bytes read and those waiting in the ring are at every moment a prefix of the
    bytes sent; the part that the sender no longer keeps for retransmission has
    arrived; and no operation on either side touches memory outside its buffers. *)
Theorem tcp_transfer_reliable b l0 l : link_open b l0 -> rtc link_step l0 l ->
  (exists k, l_got l ++ rx_bytes (l_rcv l) = take k (l_sent l) /\
     (length (l_sent l) - Z.to_nat (rtx_len (l_snd l)) <= k <= length (l_sent l))%nat) /\
  (forall q d, (q, d) ∈ l_segs l -> is_Some (tcp_data (l_rcv l) q d)) /\
  (forall now x, x ∈ l_acks l -> is_Some (tcp_ack now x (l_snd l))) /\
  (forall max, is_Some (stream_get max (l_rcv l))) /\
  (forall d, rtx_len (l_snd l) = 0 -> Z.of_nat (length d) <= TCP_RTX_BUF -> is_Some (snd_queue (l_snd l) d)).
Proof.
  intros Ho Hrtc. destruct (link_reachable b l0 l Ho Hrtc) as (a & k & [B1 Hs Hr Hak Hsegs Hacks]).
  pose proof (ri_pos _ _ _ _ _ Hr). pose proof (si_len _ _ _ _ Hs). split_and!.
  - exists (Z.to_nat k). rewrite (ri_data _ _ _ _ _ Hr), take_slice by lia. split; [done | lia].
  - intros q d Hin. rewrite Forall_forall in Hsegs. destruct (Hsegs _ Hin) as (off & m & H1 & H2 & H3 & -> & ->).
    destruct (tcp_data_inv _ b B1 _ k _ off m Hr H1 H2 H3) as (r1 & k1 & c1 & -> & _). by eexists.
  - intros now x Hin. rewrite Forall_forall in Hacks. destruct (Hacks _ Hin) as (p & Hp & ->).
    destruct (tcp_ack_inv _ b B1 now _ a p Hs ltac:(lia)) as (n1 & -> & _). by eexists.
  - intros max. destruct (read_inv _ b _ k _ max Hr) as (r1 & d1 & -> & _). by eexists.
  - intros d Hz Hd. pose proof (si_pos _ _ _ _ Hs). assert (a = Z.of_nat (length (l_sent l))) by lia. subst a.
    destruct (snd_queue_inv _ b _ d Hs Hd) as (n1 & -> & _). by eexists.
Qed.

(** *** Progress *)

Lemma link_read_all b l a k : link_inv b l a k ->
  exists l', link_step l l' /\ link_inv b l' a k /\ l_sent l' = l_sent l /\ rx_bytes (l_rcv l') = [].
Proof.
  intros H. pose proof (li_rcv _ _ _ _ H) as Hr.
  destruct (read_inv _ b _ k _ (length (rx_bytes (l_rcv l))) Hr) as (r' & d & E & -> & Hr' & Hb).
  destruct l as [n r segs acks sent got]. cbn [l_rcv l_got l_sent] in *.
  eexists. split; [eapply ls_read; exact E |]. destruct H. cbn [l_snd l_rcv l_segs l_acks l_sent l_got] in *. split; [by split |].
  split; [done |]. by rewrite Hb, drop_all.
Qed.

(** One round: the outstanding bytes are sent again, arrive, and their
    acknowledgement comes back. *)
Lemma link_round b l a k : link_inv b l a k -> rx_bytes (l_rcv l) = [] -> a < Z.of_nat (length (l_sent l)) ->
  exists l' k', rtc link_step l l' /\ link_inv b l' k' k' /\ l_sent l' = l_sent l /\ k <= k' /\
    (a = k -> k' = Z.of_nat (length (l_sent l))).
Proof.
  intros [B1 Hs Hr Hak Hsegs Hacks] Hempty Ha. destruct l as [n r segs acks sent got]. cbn [l_snd l_rcv l_segs l_acks l_sent l_got] in *.
  pose proof (ri_pos _ _ _ _ _ Hr) as Hk. pose proof (si_len _ _ _ _ Hs) as [Hlen Hmax]. unfold TCP_RTX_BUF in Hmax.
  destruct (si_buf _ _ _ _ Hs) as (l & El & Hl & Hsl). unfold TCP_RTX_BUF in Hl.
  assert (Hld : load l 0 (rtx_len n) = Some (slice sent a (rtx_len n))) by (rewrite load_slice by lia; by rewrite Hsl).
  pose proof (ls_retransmit n r segs acks sent got l _ 0 0 ltac:(lia) El Hld) as S1.
  set (n1 := set_timer n 0 0) in *.
  assert (Hs1 : snd_inv sent b n1 a) by (destruct Hs; by split).
  destruct (tcp_data_inv sent b B1 r k got a (rtx_len n) Hr ltac:(pose proof (si_pos _ _ _ _ Hs); lia) ltac:(lia) ltac:(lia)) as (r' & k' & c & E & Hr' & Hle & Hfull).
  pose proof (si_una _ _ _ _ Hs) as Hu. rewrite Hu in S1.
  pose proof (ls_segment n1 r ((u32 (b + a), slice sent a (rtx_len n)) :: segs) acks sent got _ _ r' c ltac:(left) E) as S2.
  destruct (tcp_ack_inv sent b B1 0 n1 a k' Hs1 ltac:(pose proof (ri_pos _ _ _ _ _ Hr'); lia)) as (n' & E' & Hs').
  rewrite <- (ri_nxt _ _ _ _ _ Hr') in E'.
  pose proof (ls_ack n1 r' ((u32 (b + a), slice sent a (rtx_len n)) :: segs) (rcv_nxt r' :: acks) sent got 0 _ n' ltac:(left) E') as S3.
  eexists _, k'. split; [eapply rtc_l; [exact S1 |]; eapply rtc_l; [exact S2 |]; apply rtc_once; exact S3 |].
  assert (Hsp : rx_space r = 4095).
  { pose proof (length_rx_bytes r (ri_ring _ _ _ _ _ Hr)) as H1. rewrite Hempty in H1. cbn in H1.
    rewrite (rx_space_used r) by apply (ri_ring _ _ _ _ _ Hr). unfold NET_SOCK_BUF in *. lia. }
  split.
  - replace (Z.max a k') with k' in Hs' by lia. split; cbn [l_snd l_rcv l_segs l_acks l_sent l_got]; [done | done | done | lia | |].
    + apply Forall_cons_2; [| done]. exists a, (rtx_len n). split_and!; try done; pose proof (si_pos _ _ _ _ Hs); lia.
    + apply Forall_cons_2; [exists k'; split; [pose proof (ri_pos _ _ _ _ _ Hr'); lia | apply (ri_nxt _ _ _ _ _ Hr')] |].
      eapply Forall_impl; [exact Hacks |]. intros x (p & Hp & ->). exists p. split; [lia | done].
  - cbn [l_sent]. split; [done |]. split; [done |]. intros ->. pose proof (ri_pos _ _ _ _ _ Hr'). specialize (Hfull eq_refl ltac:(lia)). lia.
Qed.

(** C14. The transfer can always be completed: from every reachable state, however
    much has been lost, some further run delivers every byte sent to the reader and
    leaves nothing unacknowledged. *)
Theorem tcp_transfer_completes b l0 l : link_open b l0 -> rtc link_step l0 l ->
  exists l', rtc link_step l l' /\ l_sent l' = l_sent l /\ l_got l' = l_sent l /\ rtx_len (l_snd l') = 0.
Proof.
  intros Ho Hrtc. destruct (link_reachable b l0 l Ho Hrtc) as (a & k & H).
  assert (Hfin : forall l1 k1, link_inv b l1 k1 k1 -> k1 = Z.of_nat (length (l_sent l1)) ->
            exists l', rtc link_step l1 l' /\ l_sent l' = l_sent l1 /\ l_got l' = l_sent l1 /\ rtx_len (l_snd l') = 0).
  { intros l1 k1 H1 ->. destruct (link_read_all _ _ _ _ H1) as (l2 & St & H2 & E2 & Eb). exists l2. split; [by apply rtc_once |]. split; [done |].
    pose proof (ri_data _ _ _ _ _ (li_rcv _ _ _ _ H2)) as Hd. rewrite Eb, app_nil_r, E2 in Hd. split.
    - rewrite Hd, <- take_slice by lia. rewrite Nat2Z.id. apply take_ge. lia.
    - pose proof (si_len _ _ _ _ (li_snd _ _ _ _ H2)). rewrite E2 in *. lia. }
  destruct (link_read_all _ _ _ _ H) as (l1 & S1 & H1 & E1 & Eb1).
  pose proof (si_pos _ _ _ _ (li_snd _ _ _ _ H1)). pose proof (ri_pos _ _ _ _ _ (li_rcv _ _ _ _ H1)). pose proof (li_acked _ _ _ _ H1).
  destruct (Z.eq_dec a (Z.of_nat (length (l_sent l1)))) as [-> | Ha].
  { replace k with (Z.of_nat (length (l_sent l1))) in H1 by lia.
    destruct (Hfin l1 _ H1 eq_refl) as (l' & R & E & G & Z0). exists l'. rewrite E1 in E, G. split; [eapply rtc_l; done | done]. }
  destruct (link_round b l1 a k H1 Eb1 ltac:(lia)) as (l2 & k2 & R2 & HB & E2 & Hk2 & Hf2).
  destruct (link_read_all _ _ _ _ HB) as (l3 & S3 & HC & E3 & Eb3).
  assert (R3 : rtc link_step l l3) by (eapply rtc_l; [exact S1 |]; etrans; [exact R2 | by apply rtc_once]).
  pose proof (ri_pos _ _ _ _ _ (li_rcv _ _ _ _ HC)).
  destruct (Z.eq_dec k2 (Z.of_nat (length (l_sent l3)))) as [Ek | Ek].
  { destruct (Hfin l3 _ HC Ek) as (l' & R & E & G & Z0). exists l'. rewrite E3, E2, E1 in E, G. split; [by etrans | done]. }
  destruct (link_round b l3 k2 k2 HC Eb3 ltac:(lia)) as (l4 & k4 & R4 & HD & E4 & Hk4 & Hf4). specialize (Hf4 eq_refl). rewrite <- E4 in Hf4.
  destruct (Hfin l4 _ HD Hf4) as (l' & R & E & G & Z0). exists l'. rewrite E4, E3, E2, E1 in E, G.
  split; [etrans; [exact R3 |]; by etrans | done].
Qed.

(** *** An example: "abc" across the wrap of the sequence numbers *)

Definition quiet : link :=
  mk_link (mk_snd 4294967294 4294967294 (Some (replicate (Z.to_nat TCP_RTX_BUF) 0)) 0 0 0 false)
    (mk_rcv (Some (replicate (Z.to_nat NET_SOCK_BUF) 0)) 0 0 4294967294 false (Some (replicate (Z.to_nat TCP_OOO_BUF) 0)) 0 0) [] [] [] [].
Lemma quiet_open : link_open 4294967294 quiet.
Proof.
  split; [by split |]. split; [| split; [| done]].
  - split; cbn [quiet l_snd snd_una snd_nxt rtx_len rtx syn_unacked length]; [lia | done | done | done | | done].
    eexists. split; [done |]. split; [by rewrite length_replicate | done].
  - split; cbn [quiet l_rcv rx ooo ooo_len ooo_seq rcv_nxt]; [| cbn; lia | done | done | | ].
    + split; [| done]. eexists. split; [done |]. by rewrite length_replicate.
    + split; [done | by left].
    + intros l Hl. injection Hl as <-. vm_compute. reflexivity.
Qed.

(** "abc" is sent and arrives; the sender has not heard of it. *)
Definition half : link :=
  match snd_queue (l_snd quiet) [97; 98; 99], tcp_data (l_rcv quiet) 4294967294 [97; 98; 99] with
  | Some n, Some (r, _) => mk_link (set_timer n 1000 0) r [(4294967294, [97; 98; 99])] [rcv_nxt r] [97; 98; 99] []
  | _, _ => quiet
  end.
Lemma half_reached : rtc link_step quiet half.
Proof.
  destruct (snd_queue (l_snd quiet) [97; 98; 99]) as [n |] eqn:En; [| by vm_compute in En].
  destruct (tcp_data (l_rcv quiet) 4294967294 [97; 98; 99]) as [[r c] |] eqn:Er; [| by vm_compute in Er].
  unfold half. rewrite En, Er. unfold quiet in *. cbn [l_snd l_rcv] in *.
  eapply rtc_l; [eapply (ls_send _ _ _ _ _ _ [97; 98; 99] n 1000); [done | by vm_compute | by vm_compute | exact En] |].
  eapply rtc_l; [eapply ls_segment; [by left | exact Er] |]. apply rtc_refl.
Qed.

Lemma tcp_transfer_reliable_witness :
  exists k, l_got half ++ rx_bytes (l_rcv half) = take k [97; 98; 99] /\ (3 - 3 <= k <= 3)%nat.
Proof.
  destruct (tcp_transfer_reliable 4294967294 quiet half quiet_open half_reached) as [(k & H1 & H2) _].
  exists k. split; [exact H1 | exact H2].
Defined.

Lemma tcp_transfer_completes_witness :
  exists l', rtc link_step half l' /\ l_sent l' = [97; 98; 99] /\ l_got l' = [97; 98; 99] /\ rtx_len (l_snd l') = 0.
Proof. exact (tcp_transfer_completes 4294967294 quiet half quiet_open half_reached). Defined.
