(* ===== verification/TcpWire.v ===== *)
(** * TcpWire: a TCP segment from one kernel to another

    The frame that [tcp_send_seg_ex] builds, and that [net_input] of the
    addressee hands the same flags, numbers and bytes to its connection. *)

From S2P Require Import Prelude Disk Net Tcp Dhcp Dns NetCalls NetSum NetLogic NetRing NetLab NetUdp.

Definition tcp_hdr0 (sport dport seq ack flags c : Z) : list Z :=
  put16 sport ++ put16 dport ++ put32 seq ++ put32 ack ++ [u8 (Z.shiftl TCP_HDR_MIN 2); flags] ++ put16 4096 ++ put16 c ++ put16 0.
Definition tcp_sum (my dst sport dport seq ack flags : Z) (d : list Z) : Z :=
  u16 (Z.lnot (l4_sum my dst 6 (tcp_hdr0 sport dport seq ack flags 0 ++ d))).
Definition tcp_seg (my dst sport dport seq ack flags : Z) (d : list Z) : list Z :=
  tcp_hdr0 sport dport seq ack flags (tcp_sum my dst sport dport seq ack flags d) ++ d.

Lemma length_tcp_hdr0 sp dp q a fl c : length (tcp_hdr0 sp dp q a fl c) = 20%nat.
Proof. done. Qed.
Lemma length_tcp_seg my dst sp dp q a fl d : length (tcp_seg my dst sp dp q a fl d) = (20 + length d)%nat.
Proof. unfold tcp_seg. by rewrite length_app. Qed.

(** A zero after an odd number of bytes does not change the sum. *)
Lemma sum16_pad p : forall s, Nat.odd (length p) = true -> sum16 (p ++ [0]) s = sum16 p s.
Proof.
  induction p as [| a | a b p IH] using pair_ind; intros s Ho; [done | | by apply IH].
  cbn [sum16 app]. rewrite Z.lor_0_r. done.
Qed.
Lemma cksum_raw_pad p : Nat.odd (length p) = true -> cksum_raw (p ++ [0]) = cksum_raw p.
Proof. intros H. rewrite !cksum_raw_is_c. unfold cksum_raw_c. by rewrite sum16_pad. Qed.

Lemma odd_land n : (Z.of_nat n &! 1) = if Nat.odd n then 1 else 0.
Proof.
  rewrite land_1. destruct (Nat.Even_or_Odd n) as [[m ->] | [m ->]].
  - rewrite Nat.odd_mul. cbn [Nat.odd Nat.even negb andb]. Z.to_euclidean_division_equations. lia.
  - rewrite Nat.odd_add, Nat.odd_mul. cbn [Nat.odd Nat.even negb andb xorb]. Z.to_euclidean_division_equations. lia.
Qed.

Section Wire.
Context `{E : NetEnv}.
Implicit Types st : net.

Definition tcp_frame (mac : list Z) (my : Z) (s : sock_t) (flags seq : Z) (d : list Z) (st : net) : list Z :=
  ip_frame mac nic_mac my (peer_ip s) 6 (u16 (gv st g_ip_id + 1))
    (tcp_seg my (peer_ip s) (local_port s) (peer_port s) seq (rcv_nxt (rcv s)) flags d).

(** The tail of the header, the payload and its padding. *)
Lemma tcp_send_ok s flags data n seq d mac my st :
  (exists b, g_build st = Some b /\ length b = 1808%nat) ->
  n = Z.of_nat (length d) -> n <= 1460 -> (n = 0 \/ exists l, data = Some l /\ load l 0 n = Some d) ->
  arp_lookup_in (peer_ip s) (g_arp st) = Some mac -> length mac = 6%nat -> be32 (g_ip st) 0 = Some my -> card_ready st ->
  exists st', tcp_send_seg_ex s flags data n seq st = Ok 0 st' /\ wire st' = wire st ++ [tcp_frame mac my s flags seq d st] /\
    g_socks st' = g_socks st.
Proof.
  intros (b & Hb & Hlb) Hn Hle Hdata Harp Hmac Hmy Hcard. destruct nic_mac_ok as [Hnm _].
  set (g1 := drop 54 b). assert (Hlg1 : length g1 = 1754%nat) by (unfold g1; rewrite length_drop; lia).
  set (id := u16 (gv st g_ip_id + 1)). set (dst := peer_ip s) in *.
  set (eth := mac ++ nic_mac ++ [0x08; 0x00]). set (hd c := ip_hdr0 my dst 6 (20 + n) id c).
  set (th c := tcp_hdr0 (local_port s) (peer_port s) seq (rcv_nxt (rcv s)) flags c).
  set (seg := tcp_seg my dst (local_port s) (peer_port s) seq (rcv_nxt (rcv s)) flags d).
  assert (Hlseg : length seg = (20 + length d)%nat) by apply length_tcp_seg.
  enough (W : wp (tcp_send_seg_ex s flags data n seq)
    (fun r s' => r = 0 /\ wire s' = wire st ++ [ip_frame mac nic_mac my dst 6 id seg] /\ g_socks s' = g_socks st) st).
  { apply wp_inv in W as (a & s' & E1 & -> & E2). by exists s'. }
  unfold tcp_send_seg_ex, NET_BUILD_MAX, IP_HDR_MIN, TCP_HDR_MIN, ETH_HDR_LEN. destruct (Z.ltb_spec (1792 - 20 - 20) n); [lia |].
  replace (20 + 20 + n) with (20 + (20 + n)) by lia.
  wnext. apply wp_gets. fold dst. rewrite Harp.
  assert (Hd : (if n =? 0 then mret [] else lift (data ≫= fun l => load l 0 n) : M (list Z)) = mret d).
  { destruct Hdata as [-> | (l & -> & Hld)].
    - destruct d; [done | cbn in *; lia].
    - destruct (Z.eqb_spec n 0); [destruct d; [done | cbn in *; lia] |]. cbn [mbind option_bind]. by rewrite Hld. }
  rewrite Hd. rewrite <- (set_bufs_same st), Hb.
  wnext. eapply (wp_wrb _ _ [] b); [done | lia |].
  do 4 (wnext; eapply wp_wrb; [wlen | wlen |]).
  wnext. apply wp_get. wnext. apply wp_setb.
  do 4 (wnext; eapply wp_wrb; [wlen | wlen |]).
  wnext. eapply wp_ok; [unfold my_ip_be, gets, lift, mbind, M_bind; wsimpl; rewrite Hmy; done |].
  do 10 (wnext; eapply wp_wrb; [wlen | wlen |]).
  wnext. apply wp_ret.
  wnext; eapply wp_wrb; [wlen | wlen |]. wsimpl. fold id. rewrite !drop_drop.
  match goal with |- context [drop ?k b] => replace (drop k b) with (drop (length d) g1) by (unfold g1; rewrite drop_drop; f_equal; wlen) end.
  assert (Hodd : (20 + n) &! 1 = if Nat.odd (length d) then 1 else 0).
  { replace (20 + n) with (Z.of_nat (20 + length d)) by lia. rewrite odd_land. rewrite Nat.odd_add. done. }
  rewrite !Hodd.
  match goal with |- wp _ _ (set_bufs (Some ?L) _ _) =>
    replace L with ((eth ++ hd 0) ++ (th 0 ++ d) ++ drop (length d) g1) by (unfold eth, hd, th, ip_hdr0, tcp_hdr0; rewrite <- ?app_assoc; reflexivity) end.
  set (tail := drop (length d) g1). assert (Hltail : (200 <= length tail)%nat) by (unfold tail; rewrite length_drop; lia). clearbody tail.
  set (st1 := set_gv g_ip_id _ st). assert (Hst1 : wire st1 = wire st /\ g_socks st1 = g_socks st /\ sends st1 = sends st) by done. clearbody st1.
  assert (Hfin : forall pad tail, cksum_raw ((th 0 ++ d) ++ pad) = cksum_raw (th 0 ++ d) -> (length pad <= 1)%nat ->
    wp (t ← rd_build 34 (20 + n + Z.of_nat (length pad));
        wr_build 50 (put16 (u16 (Z.lnot (fold16 FOLD_FUEL (cksum_raw (pseudo my dst 6 (20 + n)) +! cksum_raw t)))));;
        h ← rd_build 14 20;
        wr_build 24 (put16 (cksum h));;
        r ← gets g_build;
        rc ← rtl8139_send r (14 + (20 + (20 + n)));
        if negb (rc =? 0) then mret (-1) else bump g_tcp_tx;; mret 0)
      (fun r s' => r = 0 /\ wire s' = wire st ++ [ip_frame mac nic_mac my dst 6 id seg] /\ g_socks s' = g_socks st)
      (set_bufs (Some ((eth ++ hd 0) ++ ((th 0 ++ d) ++ pad) ++ tail)) (g_frame st) st1)).
  { clear tail Hltail. intros pad tail Hpad Hlpad.
    assert (Hleth : length (eth ++ hd 0) = 34%nat) by (unfold eth; rewrite !length_app; change (length (hd 0)) with 20%nat; cbn [length]; lia).
    assert (Hlth : length (th 0) = 20%nat) by done.
    wnext. eapply (wp_rd_build _ _ (eth ++ hd 0) ((th 0 ++ d) ++ pad) tail); [done | lia | rewrite !length_app; lia |].
    rewrite Hpad.
    assert (Esum : u16 (Z.lnot (fold16 FOLD_FUEL (cksum_raw (pseudo my dst 6 (20 + n)) +! cksum_raw (th 0 ++ d)))) =
                   tcp_sum my dst (local_port s) (peer_port s) seq (rcv_nxt (rcv s)) flags d).
    { unfold tcp_sum, l4_sum. fold (th 0). rewrite length_app, Hlth, Hn, Nat2Z.inj_add. reflexivity. }
    rewrite Esum. set (cs := tcp_sum _ _ _ _ _ _ _ _) in *.
    wnext. eapply (wp_wr_build_mid _ _ ((eth ++ hd 0) ++ take 16 (th 0)) (put16 0) (put16 0 ++ (d ++ pad) ++ tail)).
    { wsimpl. unfold th, tcp_hdr0. rewrite <- ?app_assoc. reflexivity. } { rewrite length_app, Hleth. reflexivity. } { done. } wsimpl.
    wnext. eapply (wp_rd_build _ _ eth (hd 0) (take 16 (th 0) ++ put16 cs ++ put16 0 ++ (d ++ pad) ++ tail)).
    { wsimpl. by rewrite <- ?app_assoc. } { unfold eth. wlen. } { done. }
    wnext. eapply (wp_wr_build_mid _ _ (eth ++ take 10 (hd 0)) (put16 0) (drop 12 (hd 0) ++ take 16 (th 0) ++ put16 cs ++ put16 0 ++ (d ++ pad) ++ tail)).
    { wsimpl. unfold hd, ip_hdr0. rewrite <- ?app_assoc. reflexivity. }
    { rewrite length_app. change (length (take 10 (hd 0))) with 10%nat. unfold eth. wlen. } { done. } wsimpl.
    assert (HL : (eth ++ take 10 (hd 0)) ++ put16 (cksum (hd 0)) ++ drop 12 (hd 0) ++ take 16 (th 0) ++ put16 cs ++ put16 0 ++ (d ++ pad) ++ tail =
                 ip_frame mac nic_mac my dst 6 id seg ++ pad ++ tail).
    { assert (Hzs : Z.of_nat (length seg) = 20 + n) by lia. unfold ip_frame. rewrite Hzs.
      unfold ip_hdr, seg, tcp_seg, hd, eth, th, ip_hdr0, tcp_hdr0. fold cs. rewrite <- ?app_assoc. reflexivity. }
    wnext. apply wp_gets. wsimpl. rewrite HL. wnext. eapply wp_ok.
    - eapply (send_ready _ _ (ip_frame mac nic_mac my dst 6 id seg) (pad ++ tail)); [destruct Hst1 as (_ & _ & Hs1); destruct Hcard as [Hc1 Hc2]; split; [exact Hc1 | change (nic_free (sends st1) = true); by rewrite Hs1] | reflexivity | |];
        rewrite length_ip_frame; lia.
    - cbn [Z.eqb negb]. destruct Hst1 as (Hw1 & Hs1 & _). wnext. apply wp_add. apply wp_ret. wsimpl. split; [reflexivity |]. split; [by rewrite Hw1 | exact Hs1]. }
  destruct (Nat.odd (length d)) eqn:Eo.
  - change (negb (1 =? 0)) with true. cbn [when]. wnext.
    eapply (wp_wr_build _ _ ((eth ++ hd 0) ++ th 0 ++ d) tail); [wsimpl; by rewrite <- ?app_assoc | | cbn; lia |].
    { unfold eth. rewrite !length_app. change (length (hd 0)) with 20%nat. change (length (th 0)) with 20%nat. cbn [length]. lia. }
    wsimpl. specialize (Hfin [0] (drop (length [0]) tail)). cbn [length] in Hfin.
    match goal with |- wp _ _ (set_bufs (Some ?L) _ _) => replace L with ((eth ++ hd 0) ++ ((th 0 ++ d) ++ [0]) ++ drop (length [0]) tail) by (by rewrite <- ?app_assoc) end.
    apply Hfin; [| lia]. apply cksum_raw_pad. rewrite length_app. change (length (th 0)) with 20%nat. rewrite Nat.odd_add, Eo. done.
  - change (negb (0 =? 0)) with false. cbn [when]. wnext. apply wp_ret. specialize (Hfin [] tail). cbn [length] in Hfin.
    rewrite app_nil_r in Hfin. apply Hfin; [done | lia].
Qed.
End Wire.

(** ** The addressee *)

Section Accept.
Context (my dst sp dp q a fl id : Z) (d : list Z).
Context (Hmy : is_u32 my) (Hdst : is_u32 dst) (Hsp : is_u16 sp) (Hdp : is_u16 dp) (Hq : is_u32 q) (Ha : is_u32 a) (Hfl : is_u8 fl)
  (Hd : Forall is_u8 d) (Hl : Z.of_nat (length d) <= 1460).

Let seg := tcp_seg my dst sp dp q a fl d.
Let ip := ip_hdr my dst 6 (Z.of_nat (length seg)) id ++ seg.

Lemma tcp_seg_accepted : l4_csum_ok ip 20 (20 + Z.of_nat (length seg)) = Some true.
Proof.
  assert (Hlp : length seg = (20 + length d)%nat) by apply length_tcp_seg.
  destruct (ip_fields my dst 6 id seg _ Hmy Hdst eq_refl ltac:(lia)) as (_ & _ & _ & F9 & F12 & F16 & _). fold ip in F9, F12, F16.
  set (hd := put16 sp ++ put16 dp ++ put32 q ++ put32 a ++ [u8 (Z.shiftl TCP_HDR_MIN 2); fl] ++ put16 4096).
  assert (Hh : forall c, tcp_hdr0 sp dp q a fl c ++ d = hd ++ put16 c ++ (put16 0 ++ d)) by (intros c; unfold tcp_hdr0, hd; by rewrite <- ?app_assoc).
  assert (Hu : Forall is_u8 (hd ++ (put16 0 ++ d))).
  { unfold hd. repeat apply Forall_app_2; auto with cint. }
  unfold l4_csum_ok. rewrite F9. cbn [mbind option_bind]. change (6 =? 17) with false. change (6 =? 6) with true. cbn iota.
  replace (20 + Z.of_nat (length seg) -! 20) with (Z.of_nat (length seg)) by ulia.
  unfold TCP_HDR_MIN. destruct (Z.ltb_spec (Z.of_nat (length seg)) 20); [lia |].
  change (Z.to_nat 20) with 20%nat. unfold ip. rewrite drop_ip_hdr. fold ip. rewrite F12, F16. cbn [mbind option_bind].
  rewrite load_all by done. cbn [mbind option_bind].
  assert (Hgot : exists v, be16 seg 16 = Some v) by (eexists; reflexivity). destruct Hgot as [v ->]. cbn [mbind option_bind].
  assert (E : l4_sum my dst 6 seg = 65535); [| by rewrite E].
  unfold seg, tcp_seg, tcp_sum. rewrite !Hh.
  assert (H6 : is_u8 6) by (unfold is_u8; lia).
  apply (l4_patch my dst 6 hd (put16 0 ++ d)); [exact H6 | done | exact Hu | | by left | lia].
  rewrite length_app. change (length hd) with 16%nat. change (length (put16 0)) with 2%nat. lia.
Qed.

Lemma tcp_input_ok `{E : NetEnv} c lo st : tcp_demux (g_socks st) 0 dp sp my None = (Some c, lo) ->
  tcp_input ip 20 st = tcp_conn c fl q a d st.
Proof.
  intros Hdem. assert (Hlp : length seg = (20 + length d)%nat) by apply length_tcp_seg.
  destruct (ip_fields my dst 6 id seg _ Hmy Hdst eq_refl ltac:(lia)) as (_ & F2 & _ & _ & F12 & _ & _). fold ip in F2, F12.
  assert (T12 : rd8 seg 12 = Some 80) by reflexivity.
  assert (T13 : rd8 seg 13 = Some fl) by reflexivity.
  assert (T4 : be32 seg 4 = Some q) by exact (f_equal Some (put32_lor q Hq)).
  assert (T8 : be32 seg 8 = Some a) by exact (f_equal Some (put32_lor a Ha)).
  assert (T2 : be16 seg 2 = Some dp) by exact (f_equal Some (put16_lor dp Hdp)).
  assert (T0 : be16 seg 0 = Some sp) by exact (f_equal Some (put16_lor sp Hsp)).
  assert (Tl : load seg 20 (Z.of_nat (length d)) = Some d) by (unfold seg, tcp_seg; by apply load_back).
  unfold tcp_input. mstep F2. unfold TCP_HDR_MIN. ured. destruct (Z.ltb_spec (20 + Z.of_nat (length seg)) (20 + 20)); [lia |].
  change (Z.to_nat 20) with 20%nat. unfold ip at 1 2 3 4 5 6 7. rewrite drop_ip_hdr. fold ip.
  mstep T12. change (Z.shiftr 80 4 *! 4) with 20. change (20 +! 20) with 40. destruct (Z.ltb_spec 20 20); [lia |].
  destruct (Z.ltb_spec (20 + Z.of_nat (length seg)) 40); [lia |]. cbn [orb].
  mstep T13. mstep T4. mstep T8. mstep T2. mstep T0. mstep F12. mgo. rewrite Hdem.
  replace (20 + Z.of_nat (length seg) - 20 -! 20) with (Z.of_nat (length d)) by ulia. mstep Tl. reflexivity.
Qed.
End Accept.

(** C21. A segment sent by one kernel arrives at another: [tcp_send_seg_ex] hands
    one frame to the card, and [net_input] of the addressee, given that frame, accepts
    it and processes exactly the flags, sequence number, acknowledgement number and
    bytes sent on the connection between the two ports. *)
Theorem tcp_segment_end_to_end (E1 E2 : NetEnv) poll fuel st1 st2 my mac s flags data n seq d c lo :
  bufs_ok st1 -> n = Z.of_nat (length d) -> n <= 1460 -> (n = 0 \/ exists l, data = Some l /\ load l 0 n = Some d) ->
  arp_lookup_in (peer_ip s) (g_arp st1) = Some mac -> length mac = 6%nat -> be32 (g_ip st1) 0 = Some my -> @card_ready E1 st1 ->
  is_u32 my -> is_u32 (peer_ip s) -> is_u16 (local_port s) -> is_u16 (peer_port s) -> is_u32 seq -> is_u32 (rcv_nxt (rcv s)) ->
  is_u8 flags -> Forall is_u8 d ->
  bufs_ok st2 -> be32 (g_ip st2) 0 = Some (peer_ip s) ->
  tcp_demux (g_socks st2) 0 (peer_port s) (local_port s) my None = (Some c, lo) ->
  exists st1' f,
    @tcp_send_seg_ex E1 s flags data n seq st1 = Ok 0 st1' /\ wire st1' = wire st1 ++ [f] /\
    @net_input E2 poll fuel f st2 =
      (@tcp_conn E2 c flags seq (rcv_nxt (rcv s)) d;; mret 0) (set_arp (arp_learn_in my (@nic_mac E1) (g_arp st2)) st2).
Proof.
  intros [Hb1 _] Hn Hle Hdata Harp Hmac Hmy Hcard Hmyu Hdst Hsp Hdp Hq Ha Hfl Hd Hb2 Hip Hdem.
  destruct (@tcp_send_ok E1 s flags data n seq d mac my st1) as (st1' & Hsend & Hw & _); try done.
  eexists st1', _. split; [exact Hsend |]. split; [exact Hw |]. destruct (@nic_mac_ok E1) as [Hnm _]. unfold tcp_frame.
  set (seg := tcp_seg my (peer_ip s) (local_port s) (peer_port s) seq (rcv_nxt (rcv s)) flags d).
  assert (Hlseg : length seg = (20 + length d)%nat) by apply length_tcp_seg.
  rewrite (@net_input_ip E2); [| done | done | done | done | done | unfold is_u8; lia | lia | intros _; apply tcp_seg_accepted; try done; lia].
  unfold arp_learn. mgo. set (st2' := set_arp _ st2).
  destruct (ip_fields my (peer_ip s) 6 (u16 (gv st1 g_ip_id + 1)) seg _ Hmyu Hdst eq_refl ltac:(lia)) as (_ & _ & _ & F9 & _ & F16 & _).
  rewrite (bind_ok _ _ false st2' st2').
  2:{ unfold dhcp_wants. mgo. mstep F9. change (6 =? 17) with false. rewrite andb_false_r. reflexivity. }
  unfold ip_deliver. mstep F16. rewrite (bind_ok _ _ (peer_ip s) st2' st2').
  2:{ unfold my_ip_be. mgo. change (g_ip st2') with (g_ip st2). by rewrite Hip. }
  mstep F9. rewrite Z.eqb_refl. cbn [negb]. change (6 =? 1) with false. change (6 =? 17) with false. change (6 =? 6) with true. cbn iota.
  unfold mbind, M_bind. unfold seg.
  erewrite (tcp_input_ok my (peer_ip s) (local_port s) (peer_port s) seq (rcv_nxt (rcv s)) flags _ d); [reflexivity | first [done | lia | exact Hdem] ..].
Qed.

(** The client's socket and the server's, on the two machines of [NetUdp.v]. *)
Definition client_sock : sock_t :=
  mk_sock true SOCK_TYPE_TCP TS_ESTABLISHED 40001 80 0x0A000202 7 (-1) (with_rx_r (set_rcv_nxt no_rcv 900) 0) (mk_snd 100 100 None 0 0 0 false).
Definition server : net :=
  set_socks (<[0%nat := mk_sock true SOCK_TYPE_TCP TS_ESTABLISHED 80 40001 0x0A000201 7 (-1)
                          (set_rcv_nxt (rcv (nth 0 (g_socks (machine 2 1 7000)) no_sock)) 100) no_snd]> (g_socks (machine 2 1 7000))) (machine 2 1 7000).

Lemma tcp_segment_end_to_end_witness :
  let get := [71; 69; 84] in
  exists st1' f,
    @tcp_send_seg_ex (lab 1 [] 1) client_sock 0x18 (Some get) 3 100 (machine 1 2 5000) = Ok 0 st1' /\
    wire st1' = wire (machine 1 2 5000) ++ [f] /\
    @net_input (lab 2 [] 1) (mret tt) 1 f server =
      (@tcp_conn (lab 2 [] 1) 0 0x18 100 900 get;; mret 0) (set_arp (arp_learn_in 0x0A000201 [2; 0; 0; 0; 0; 1] (g_arp server)) server).
Proof.
  intros get.
  apply (tcp_segment_end_to_end (lab 1 [] 1) (lab 2 [] 1) (mret tt) 1 (machine 1 2 5000) server 0x0A000201 [2; 0; 0; 0; 0; 2]
           client_sock 0x18 (Some get) 3 100 get 0 None);
    try (by split); try (split; eexists; split; vm_compute; reflexivity); try (vm_compute; reflexivity).
  - vm_compute. discriminate.
  - right. exists get. split; reflexivity.
  - repeat apply Forall_cons_2; try (by split). constructor.
Defined.
