(* ===== verification/NetSafe.v ===== *)
(** * NetSafe: the network stack stays inside its buffers

    [net_ok] is the invariant of the state in which every socket slot has its
    receive ring.  [typed m R]: from such a state [m] makes no wild access, ends
    in such a state and returns a value in [R].  All handlers of frames, the
    timers and the socket calls are typed, whatever bytes arrive. *)

From S2P Require Import Prelude Disk Net Tcp Dhcp Dns NetCalls NetSum NetLogic NetRing TcpProps.

(** ** The invariant *)

Definition ooo_ok (r : rcv_t) : Prop :=
  0 <= ooo_len r <= TCP_OOO_BUF /\ (forall l, ooo r = Some l -> Z.of_nat (length l) = TCP_OOO_BUF) /\ (ooo r = None -> ooo_len r = 0).
Definition snd_ok (n : snd_t) : Prop :=
  0 <= rtx_len n <= TCP_RTX_BUF /\ (forall l, rtx n = Some l -> Z.of_nat (length l) = TCP_RTX_BUF) /\ (rtx n = None -> rtx_len n = 0).
Definition rcv_ok (r : rcv_t) : Prop := ring_ok r /\ ooo_ok r.
Definition sock_ok (s : sock_t) : Prop := rcv_ok (rcv s) /\ snd_ok (snd s).

Definition buf_ok (b : option (list Z)) : Prop := exists l, b = Some l /\ Z.of_nat (length l) = 1808.
Definition mac_ok (m : list Z) : Prop := length m = 6%nat.

Record net_ok (st : net) : Prop := {
  ok_socks : length (g_socks st) = 8%nat /\ Forall sock_ok (g_socks st);
  ok_bufs : buf_ok (g_build st) /\ buf_ok (g_frame st);
  ok_arp : Forall (fun e => mac_ok e.2) (g_arp st);
  ok_ip : length (g_ip st) = 4%nat /\ Forall is_u8 (g_ip st);
  ok_dhcp : length (dhcp_buf st) = 512%nat /\ Forall is_u8 (dhcp_buf st) /\ 0 <= gv st dhcp_len <= 512;
  ok_dns : length (dns_buf st) = 512%nat /\ Forall is_u8 (dns_buf st) /\ 0 <= gv st dns_len <= 512;
  ok_srv : length (g_dns_srv st) = 4%nat /\ 0 <= gv st g_dns_srv_n <= 4;
}.

Definition typed {A} (m : M A) (R : A -> Prop) : Prop := forall st, net_ok st -> safe m (fun a st' => R a /\ net_ok st') st.
Definition any {A} (_ : A) : Prop := True.

Section Typing.
Context {A B : Type}.

Lemma t_ret (a : A) (R : A -> Prop) : R a -> typed (mret a) R.
Proof. intros H st Hst. done. Qed.
Lemma t_bind (m : M A) (k : A -> M B) R R' : typed m R -> (forall a, R a -> typed (k a) R') -> typed (m ≫= k) R'.
Proof.
  intros Hm Hk st Hst. apply safe_bind. eapply safe_mono; [by apply Hm |]. intros a st' [Ha Hst']. by apply Hk.
Qed.
Lemma t_gets (f : net -> A) (R : A -> Prop) : (forall st, net_ok st -> R (f st)) -> typed (gets f) R.
Proof. intros H st Hst. split; [by apply H | done]. Qed.
Lemma t_modify f (R : unit -> Prop) : R tt -> (forall st, net_ok st -> net_ok (f st)) -> typed (modify f) R.
Proof. intros Ht H st Hst. split; [done | by apply H]. Qed.
Lemma t_lift (o : option A) (R : A -> Prop) : (exists a, o = Some a /\ R a) -> typed (lift o) R.
Proof. intros (a & -> & Ha) st Hst. done. Qed.
Lemma t_stuck (R : A -> Prop) : typed stuck R.
Proof. by intros st Hst. Qed.
Lemma t_mono (m : M A) (R R' : A -> Prop) : typed m R -> (forall a, R a -> R' a) -> typed m R'.
Proof. intros H Hi st Hst. eapply safe_mono; [by apply H |]. intros a st' [Ha Hst']. split; auto. Qed.
Lemma t_any (m : M A) (R : A -> Prop) : typed m R -> typed m any.
Proof. intros H. eapply t_mono; [exact H | done]. Qed.
Lemma t_if (b : bool) (m m' : M A) R : (b = true -> typed m R) -> (b = false -> typed m' R) -> typed (if b then m else m') R.
Proof. destruct b; auto. Qed.
(** A value that is computed from the state, when it matters which. *)
Lemma t_gets_bind (f : net -> A) (k : A -> M B) R : (forall st, net_ok st -> safe (k (f st)) (fun a st' => R a /\ net_ok st') st) -> typed (gets f ≫= k) R.
Proof. intros H st Hst. apply safe_bind. by apply H. Qed.
End Typing.

Lemma t_when b (m : M unit) : (b = true -> typed m any) -> typed (when b m) any.
Proof. intros H. destruct b; [by apply H | by apply t_ret]. Qed.

Lemma t_get v : typed (get v) any.
Proof. by apply t_gets. Qed.

(** The counters that no invariant speaks of. *)
Definition free_var (v : gvar) : bool := match v with dhcp_len | dns_len | g_dns_srv_n => false | _ => true end.
Lemma t_set v x : free_var v = true -> typed (set v x) any.
Proof.
  intros Hv. apply t_modify; [done |]. intros st [H1 H2 H3 H4 H5 H6 H7].
  split; cbn; try done; destruct v; done.
Qed.
Lemma t_add v x : free_var v = true -> typed (add v x) any.
Proof.
  intros Hv. apply t_modify; [done |]. intros st [H1 H2 H3 H4 H5 H6 H7].
  split; cbn; try done; destruct v; done.
Qed.
Lemma t_bump v : free_var v = true -> typed (bump v) any.
Proof. apply t_add. Qed.

Lemma sock_ok_nth st i : net_ok st -> (i < 8)%nat -> sock_ok (nth i (g_socks st) no_sock).
Proof.
  intros [[Hl Hs] _ _ _ _ _ _] Hi. rewrite Forall_forall in Hs. apply Hs. apply list_elem_of_In, nth_In. lia.
Qed.
Lemma t_get_sock i : (i < 8)%nat -> typed (get_sock i) sock_ok.
Proof. intros Hi. apply t_gets. intros st Hst. by apply sock_ok_nth. Qed.
Lemma t_set_sock i s : sock_ok s -> typed (set_sock i s) any.
Proof.
  intros Hs. apply t_modify; [done |]. intros st [[H1 H1'] H2 H3 H4 H5 H6 H7]. split; cbn; try done.
  split; [by rewrite length_insert | by apply Forall_insert].
Qed.

(** ** Buffers *)

Lemma store_in l i b n : Z.of_nat (length l) = n -> 0 <= i -> i + Z.of_nat (length b) <= n -> exists l', store l i b = Some l' /\ Z.of_nat (length l') = n.
Proof.
  intros Hl Hi Hb. unfold store. destruct (Z.leb_spec 0 i); [| lia]. destruct (Z.leb_spec (i + Z.of_nat (length b)) (Z.of_nat (length l))); [| lia].
  eexists. split; [done |]. rewrite length_spliced by lia. done.
Qed.
Lemma load_in l i n : 0 <= i -> 0 <= n -> i + n <= Z.of_nat (length l) -> exists d, load l i n = Some d /\ Z.of_nat (length d) = n /\ (Forall is_u8 l -> Forall is_u8 d).
Proof. intros. rewrite load_slice by lia. eexists. split; [done |]. rewrite length_slice by lia. split; [lia | apply Forall_slice]. Qed.

Lemma t_wr_build i b : 0 <= i -> i + Z.of_nat (length b) <= 1808 -> typed (wr_build i b) any.
Proof.
  intros Hi Hb. unfold wr_build. eapply t_bind with (R := buf_ok); [apply t_gets; intros st Hst; apply (ok_bufs _ Hst) |]. intros o (l & -> & Hl).
  eapply t_bind with (R := fun l => Z.of_nat (length l) = 1808).
  - apply t_lift. destruct (store_in l i b 1808 Hl Hi Hb) as (l' & E & Hl'). exists l'. done.
  - intros l' Hl'. apply t_modify; [done |]. intros st [H1 [H2 H2'] H3 H4 H5 H6 H7]. split; cbn; try done. split; [by exists l' | done].
Qed.
Lemma t_wr_frame i b : 0 <= i -> i + Z.of_nat (length b) <= 1808 -> typed (wr_frame i b) any.
Proof.
  intros Hi Hb. unfold wr_frame. eapply t_bind with (R := buf_ok); [apply t_gets; intros st Hst; apply (ok_bufs _ Hst) |]. intros o (l & -> & Hl).
  eapply t_bind with (R := fun l => Z.of_nat (length l) = 1808).
  - apply t_lift. destruct (store_in l i b 1808 Hl Hi Hb) as (l' & E & Hl'). exists l'. done.
  - intros l' Hl'. apply t_modify; [done |]. intros st [H1 [H2 H2'] H3 H4 H5 H6 H7]. split; cbn; try done. split; [done | by exists l'].
Qed.
Lemma t_rd_build i n : 0 <= i -> 0 <= n -> i + n <= 1808 -> typed (rd_build i n) (fun d => Z.of_nat (length d) = n).
Proof.
  intros Hi Hn Hb. unfold rd_build. eapply t_bind with (R := buf_ok); [apply t_gets; intros st Hst; apply (ok_bufs _ Hst) |]. intros o (l & -> & Hl).
  apply t_lift. cbn [mbind option_bind]. destruct (load_in l i n) as (d & E & Hd & _); [lia | lia | lia |]. by exists d.
Qed.
Lemma t_rd_frame i n : 0 <= i -> 0 <= n -> i + n <= 1808 -> typed (rd_frame i n) (fun d => Z.of_nat (length d) = n).
Proof.
  intros Hi Hn Hb. unfold rd_frame. eapply t_bind with (R := buf_ok); [apply t_gets; intros st Hst; apply (ok_bufs _ Hst) |]. intros o (l & -> & Hl).
  apply t_lift. cbn [mbind option_bind]. destruct (load_in l i n) as (d & E & Hd & _); [lia | lia | lia |]. by exists d.
Qed.
Lemma t_build : typed (gets g_build) buf_ok.
Proof. apply t_gets. intros st Hst. apply (ok_bufs _ Hst). Qed.
Lemma t_frame : typed (gets g_frame) buf_ok.
Proof. apply t_gets. intros st Hst. apply (ok_bufs _ Hst). Qed.

(** A field of a packet. *)
Lemma t_rd8 l i : Forall is_u8 l -> 0 <= i < Z.of_nat (length l) -> typed (lift (rd8 l i)) is_u8.
Proof. intros Hl Hi. apply t_lift. destruct (rd8_some l i Hl Hi) as (v & E & Hv). by exists v. Qed.
Lemma t_be16 l i : Forall is_u8 l -> 0 <= i -> i + 2 <= Z.of_nat (length l) -> typed (lift (be16 l i)) is_u16.
Proof. intros Hl Hi Hn. apply t_lift. destruct (be16_some l i Hl Hi Hn) as (v & E & Hv). by exists v. Qed.
Lemma t_be32 l i : Forall is_u8 l -> 0 <= i -> i + 4 <= Z.of_nat (length l) -> typed (lift (be32 l i)) is_u32.
Proof. intros Hl Hi Hn. apply t_lift. destruct (be32_some l i Hl Hi Hn) as (v & E & Hv). by exists v. Qed.
Lemma t_load l i n : Forall is_u8 l -> 0 <= i -> 0 <= n -> i + n <= Z.of_nat (length l) ->
  typed (lift (load l i n)) (fun d => Z.of_nat (length d) = n /\ Forall is_u8 d).
Proof. intros Hl Hi Hn Hb. apply t_lift. destruct (load_in l i n Hi Hn Hb) as (d & E & Hd & Hu). exists d. auto. Qed.

(** [tnext]: the next action, by the lemma for it; side conditions by [lia]. *)
Ltac tside := try (cbn; done); cbn [length put16 put32 wr16le]; rewrite ?length_replicate; lia.
Ltac tnext :=
  match goal with
  | |- typed (mret _) any => by apply t_ret
  | |- typed (mbind _ (get _)) _ => eapply t_bind; [apply t_get | intros ? _]
  | |- typed (mbind _ (set _ _)) _ => eapply t_bind; [by apply t_set | intros [] _]
  | |- typed (mbind _ (bump _)) _ => eapply t_bind; [by apply t_bump | intros [] _]
  | |- typed (mbind _ (add _ _)) _ => eapply t_bind; [by apply t_add | intros [] _]
  | |- typed (mbind _ (wr_build _ _)) _ => eapply t_bind; [apply t_wr_build; tside | intros [] _]
  | |- typed (mbind _ (wr_frame _ _)) _ => eapply t_bind; [apply t_wr_frame; tside | intros [] _]
  | |- typed (mbind _ (gets g_build)) _ => eapply t_bind; [apply t_build | intros ? ?]
  | |- typed (mbind _ (gets g_frame)) _ => eapply t_bind; [apply t_frame | intros ? ?]
  | |- typed (mbind _ (rd_build _ _)) _ => eapply t_bind; [apply t_rd_build; lia | intros ? ?]
  | |- typed (mbind _ (rd_frame _ _)) _ => eapply t_bind; [apply t_rd_frame; lia | intros ? ?]
  | |- typed (mbind _ (lift (rd8 _ _))) _ => eapply t_bind; [apply t_rd8; [done | lia] | intros ? ?]
  | |- typed (mbind _ (lift (be16 _ _))) _ => eapply t_bind; [apply t_be16; [done | lia | lia] | intros ? ?]
  | |- typed (mbind _ (lift (be32 _ _))) _ => eapply t_bind; [apply t_be32; [done | lia | lia] | intros ? ?]
  | |- typed (mbind _ (lift (load _ _ _))) _ => eapply t_bind; [apply t_load; [done | lia | lia | lia] | intros ? [? ?]]
  | |- typed (mbind _ (get_sock _)) _ => eapply t_bind; [by apply t_get_sock | intros ? ?]
  | |- typed (mbind _ (set_sock _ _)) _ => eapply t_bind; [apply t_set_sock | intros [] _]
  | |- typed (mbind _ (mret _)) _ => eapply t_bind; [by apply (t_ret _ any) | intros ? _]
  end.

Section Stack.
Context `{E : NetEnv}.

Lemma len_mac : length nic_mac = 6%nat.
Proof. by destruct nic_mac_ok. Qed.
Hint Rewrite len_mac : len.

Lemma t_env f : (forall st, exists p s n a, f st = set_env p s n a st) -> typed (modify f) any.
Proof.
  intros Hf. apply t_modify; [done |]. intros st Hst. destruct (Hf st) as (p & s & n & a & ->). by destruct Hst; split.
Qed.

Lemma t_send b n : buf_ok b -> typed (rtl8139_send b n) any.
Proof.
  intros (l & -> & Hl). unfold rtl8139_send. apply t_if; intros Hc; [by apply t_ret |].
  apply orb_false_iff in Hc as [Hc Hc3]. apply orb_false_iff in Hc as [Hc1 Hc2]. btrue. unfold ETH_HDR_LEN, ETH_FRAME_MAX in *.
  eapply t_bind; [by apply (t_gets _ any) |]. intros k _.
  eapply t_bind; [apply t_env; intros st; eauto |]. intros _ _. apply t_if; intros _; [by apply t_ret |].
  eapply t_bind with (R := any).
  - apply t_lift. cbn [mbind option_bind]. destruct (load_in l 0 n) as (d & -> & _); [lia | lia | lia |]. by exists d.
  - intros d _. eapply t_bind with (R := any); [| intros; by apply t_ret]. apply t_modify; [done |]. intros st Hst. by destruct Hst; split.
Qed.

Lemma t_my_ip : typed my_ip_be is_u32.
Proof.
  unfold my_ip_be. eapply t_bind with (R := fun a => length a = 4%nat /\ Forall is_u8 a); [apply t_gets; intros st Hst; apply (ok_ip _ Hst) |].
  intros a [Hl Ha]. apply t_be32; [done | lia | lia].
Qed.

Lemma t_kmalloc sz : typed (kmalloc sz) (fun o => forall l, o = Some l -> length l = Z.to_nat sz /\ Forall is_u8 l).
Proof.
  unfold kmalloc. eapply t_bind; [by apply (t_gets _ any) |]. intros k _. eapply t_bind; [apply t_env; intros st; eauto |]. intros _ _.
  apply t_ret. intros l. apply km_alloc_ok.
Qed.

Lemma t_sleep ms : typed (task_sleep ms) any.
Proof.
  unfold task_sleep. eapply t_bind; [by apply (t_gets _ any) |]. intros k _. eapply t_bind; [apply t_env; intros st; eauto |]. intros _ _. by apply t_set.
Qed.

Lemma t_build_ready : typed build_ready (fun b => b = true).
Proof.
  unfold build_ready. do 2 tnext. destruct H as (b & -> & Hb), H0 as (f & -> & Hf).
  eapply t_bind with (R := fun o => o = Some b); [by apply t_ret |]. intros ? ->.
  eapply t_bind with (R := fun o => o = Some f); [by apply t_ret |]. intros ? ->.
  eapply t_bind with (R := any); [| intros; by apply t_ret]. apply t_modify; [done |]. intros st Hst. destruct Hst; split; cbn; try done. split; eexists; done.
Qed.

(** ** ARP and IPv4 *)

Lemma t_arp_learn ip mac : mac_ok mac -> typed (arp_learn ip mac) any.
Proof.
  intros Hm. apply t_modify; [done |]. intros st Hst. destruct Hst; split; cbn; try done. unfold arp_learn_in.
  destruct (ip =? 0); [done |]. destruct (list_find _ _) as [[i x] |]; [by apply Forall_insert |].
  destruct (list_find _ _) as [[i x] |]; by apply Forall_insert.
Qed.

Lemma arp_lookup_in_ok ip a : Forall (fun e => mac_ok e.2) a -> forall m, arp_lookup_in ip a = Some m -> mac_ok m.
Proof.
  intros Ha m. unfold arp_lookup_in. destruct (list_find _ _) as [[i x] |] eqn:Ef; [| done]. intros [= <-].
  apply list_find_Some in Ef as (Hx & _). rewrite Forall_lookup in Ha. by eapply Ha.
Qed.
Lemma t_arp_lookup ip : typed (arp_lookup ip) (fun o => forall m, o = Some m -> mac_ok m).
Proof. apply t_gets. intros st Hst. apply arp_lookup_in_ok, (ok_arp _ Hst). Qed.

Lemma t_arp_request ip : typed (arp_request ip) any.
Proof.
  unfold arp_request, ETH_HDR_LEN. pose proof len_mac. repeat tnext. eapply t_bind; [apply t_my_ip | intros ? _]. repeat tnext.
  eapply t_bind; [by apply t_send | intros; by apply t_ret].
Qed.

(** A packet whose header has been checked, from its header on. *)
Definition pkt (ip : list Z) (ihl : Z) : Prop :=
  Forall is_u8 ip /\ 20 <= ihl <= 60 /\ exists t, be16 ip 2 = Some t /\ ihl <= t <= 1500 /\ t <= Z.of_nat (length ip).

Lemma t_totlen ip ihl : pkt ip ihl -> typed (lift (be16 ip 2)) (fun t => ihl <= t <= 1500 /\ t <= Z.of_nat (length ip)).
Proof. intros (_ & _ & t & Et & H). apply t_lift. by exists t. Qed.

Lemma drop_u8 k l : Forall is_u8 l -> Forall is_u8 (drop k l).
Proof. apply Forall_drop. Qed.

(** ** Handlers that may wait *)
Section Poll.
Variables (poll : M unit) (fuel : nat).
Context (Hpoll : typed poll any).

Lemma t_wait {A} k (test : M (option A)) (R : A -> Prop) d : typed test (fun o => forall a, o = Some a -> R a) ->
  typed (wait_for poll k test d) (fun o => forall a, o = Some a -> R a).
Proof.
  intros Ht. induction k as [| k IH]; cbn [wait_for]; [apply t_stuck |].
  eapply t_bind; [exact Hpoll | intros _ _]. eapply t_bind; [exact Ht |]. intros [a |] Ha.
  - apply t_ret. intros ? [= <-]. by apply Ha.
  - tnext. apply t_if; intros _; [by apply t_ret |]. eapply t_bind; [apply t_sleep | intros _ _; exact IH].
Qed.

Lemma t_arp_resolve ip t : typed (arp_resolve poll fuel ip t) (fun o => forall m, o = Some m -> mac_ok m).
Proof.
  unfold arp_resolve. eapply t_bind; [apply t_arp_lookup |]. intros [m |] Hm; [apply t_ret; auto |].
  eapply t_bind; [apply t_arp_request | intros _ _]. tnext. apply t_wait. apply t_arp_lookup.
Qed.

Lemma t_ipv4_via dst hop proto b n : buf_ok b -> 0 <= n <= 1800 -> typed (ipv4_send_via poll fuel dst hop proto b n) any.
Proof.
  intros (l & -> & Hl) Hn. pose proof len_mac as Hm. unfold ipv4_send_via, ETH_HDR_LEN, IP_HDR_MIN, NET_BUILD_MAX. apply t_if; intros Hc; [by apply t_ret |]. btrue. ured_in H0.
  eapply t_bind with (R := fun d => Z.of_nat (length d) = n).
  { apply t_lift. cbn [mbind option_bind]. destruct (load_in l 0 n) as (d & E1 & Hd & _); [lia | lia | lia |]. by exists d. }
  intros d Hd. tnext. eapply t_bind; [apply t_arp_resolve |]. intros [mac |] Hmac; [| by apply t_ret]. specialize (Hmac mac eq_refl). unfold mac_ok in Hmac.
  repeat tnext. eapply t_bind; [apply t_my_ip | intros ? _]. repeat tnext. by apply t_send.
Qed.
Lemma t_ipv4 dst proto b n : buf_ok b -> 0 <= n <= 1800 -> typed (ipv4_send poll fuel dst proto b n) any.
Proof. apply t_ipv4_via. Qed.

Lemma t_icmp ip ihl : pkt ip ihl -> typed (icmp_input poll fuel ip ihl) any.
Proof.
  intros Hp. pose proof Hp as (Hu & Hi & _). unfold icmp_input. eapply t_bind; [by apply t_totlen |]. intros t [Ht Htl]. ured.
  apply t_if; intros Hc; [by apply t_ret |]. btrue. pose proof (drop_u8 (Z.to_nat ihl) ip Hu) as Hd. unfold NET_BUILD_MAX in *.
  assert (Hl : Z.of_nat (length (drop (Z.to_nat ihl) ip)) = Z.of_nat (length ip) - ihl) by (rewrite length_drop; lia).
  repeat tnext. apply t_if; intros _.
  - tnext. by apply t_bump.
  - apply t_if; intros _; [by apply t_ret |]. repeat tnext. eapply t_bind; [apply t_ipv4; [done | lia] |]. intros r _. apply t_when. intros _. by apply t_bump.
Qed.

(** ** UDP *)

Lemma sock_ok_ring s r : sock_ok s -> ring_ok r -> same_rest (rcv s) r -> sock_ok (with_rcv s r).
Proof.
  intros [[_ Ho] Hn] Hr (R1 & R2 & R3 & R4 & R5). split; [| done]. split; [done |]. unfold ooo_ok in *. cbn. by rewrite R3, R5.
Qed.

Lemma list_find_sock (P : sock_t -> Prop) `{forall s, Decision (P s)} st i s :
  net_ok st -> list_find P (g_socks st) = Some (i, s) -> (i < 8)%nat /\ sock_ok s /\ nth i (g_socks st) no_sock = s.
Proof.
  intros [[Hl Hs] _ _ _ _ _ _] Hf. apply list_find_Some in Hf as (Hi & _). split; [apply lookup_lt_Some in Hi; lia |].
  split; [rewrite Forall_lookup in Hs; by eapply Hs |]. by apply nth_lookup_Some.
Qed.

Lemma t_udp_deliver src sp dp d : Z.of_nat (length d) <= 1500 -> typed (udp_deliver src sp dp d) any.
Proof.
  intros Hl. unfold udp_deliver. apply t_gets_bind. intros st Hst. destruct (list_find _ (g_socks st)) as [[i s] |] eqn:Ef; [| by apply t_ret].
  destruct (list_find_sock _ _ _ _ Hst Ef) as (Hi & Hs & _). pose proof Hs as [[Hring _] _]. ured.
  destruct (Z.ltb_spec (rx_space (rcv s)) (8 + Z.of_nat (length d))); [by apply t_ret |].
  destruct (rcv_put_spec (rcv s) (put32 src ++ wr16le sp ++ wr16le (u16 (Z.of_nat (length d))) ++ d) Hring) as (r & Hput & Hok & _ & Hrest).
  { rewrite !length_app. cbn [length put32 wr16le]. lia. }
  apply safe_bind. eapply safe_of; [exact Hput |]. apply t_set_sock; [by apply sock_ok_ring | done].
Qed.

Lemma t_udp_input ip ihl : pkt ip ihl -> typed (udp_input ip ihl) any.
Proof.
  intros Hp. pose proof Hp as (Hu & Hi & _). unfold udp_input, UDP_HDR_LEN. eapply t_bind; [by apply t_totlen |]. intros t [Ht Htl]. ured.
  apply t_if; intros Hc; [by apply t_ret |]. btrue. pose proof (drop_u8 (Z.to_nat ihl) ip Hu) as Hd.
  assert (Hl : Z.of_nat (length (drop (Z.to_nat ihl) ip)) = Z.of_nat (length ip) - ihl) by (rewrite length_drop; lia).
  tnext. unfold is_u16 in *. apply t_if; intros Hc2; [by apply t_ret |]. btrue. ured. apply t_if; intros Hc3; [by apply t_ret |]. btrue.
  repeat tnext. apply t_udp_deliver. lia.
Qed.

Lemma t_udp_send dst dp sp data n : Z.of_nat (length data) = n -> 0 <= n -> typed (net_udp_send poll fuel dst dp sp data n) any.
Proof.
  intros Hl Hn. unfold net_udp_send, NET_BUILD_MAX, IP_HDR_MIN, UDP_HDR_LEN. apply t_if; intros Hc; [by apply t_ret |]. btrue.
  repeat tnext. eapply t_bind with (R := fun d => Z.of_nat (length d) = n).
  { apply t_lift. destruct (load_in data 0 n) as (d & E1 & Hd & _); [lia | lia | lia |]. by exists d. }
  intros d Hd. tnext. eapply t_bind; [apply t_my_ip | intros ? _]. repeat tnext. eapply t_bind; [apply t_ipv4; [done | lia] |]. intros r _.
  apply t_if; intros _; [by apply t_ret |]. tnext. by apply t_ret.
Qed.
End Poll.
End Stack.
