(* ===== verification/NetSafeTcp.v ===== *)
(** * NetSafeTcp: TCP stays inside its buffers

    [NetSafe.typed] for the definitions of [Tcp.v]. *)

From S2P Require Import Prelude Disk Net Tcp Dhcp Dns NetCalls NetSum NetLogic NetRing TcpProps NetSafe.

(** ** The two halves of a connection *)

Lemma tcp_ack_ok now a n : snd_ok n -> exists n', tcp_ack now a n = Some n' /\ snd_ok n'.
Proof.
  intros (Hlen & Hbuf & Hnone). unfold tcp_ack. destruct (_ && _); [| exists n; done].
  pose proof (u32_range (a - snd_una n)) as Hu. set (acked := a -! snd_una n) in *. unfold TCP_RTX_BUF in *.
  destruct (syn_unacked n); [eexists; split; [done |]; split; done |].
  destruct (Z.leb_spec (rtx_len n) acked); [eexists; split; [done |]; split; cbn; unfold TCP_RTX_BUF; [lia |]; split; done |].
  destruct (rtx n) as [l |] eqn:El; [| unfold is_u32 in *; rewrite Hnone in * by done; lia]. cbn [mbind option_bind].
  specialize (Hbuf l eq_refl). unfold is_u32 in *. destruct (move_down_spec l acked (rtx_len n)) as (l' & -> & Hl' & _); [lia | lia | lia |].
  cbn [mbind option_bind]. eexists. split; [done |]. ured. split; cbn; unfold TCP_RTX_BUF; [lia |]. split; [intros ? [= <-]; lia | done].
Qed.

Lemma rcv_put_ok r d : rcv_ok r -> Z.of_nat (length d) <= rx_space r -> exists r', rcv_put r d = Some r' /\ rcv_ok r' /\ ooo_len r' = ooo_len r.
Proof.
  intros [Hr Ho] Hd. destruct (rcv_put_spec r d Hr Hd) as (r' & E & Hok & _ & (R1 & R2 & R3 & R4 & R5)).
  exists r'. split; [done |]. split; [| done]. split; [done |]. unfold ooo_ok in *. by rewrite R3, R5.
Qed.

Lemma ooo_drain_ok f : forall r cnt, rcv_ok r -> ooo_len r <= Z.of_nat f -> exists r' c, ooo_drain f r cnt = Some (r', c) /\ rcv_ok r'.
Proof.
  induction f as [| f IH]; intros r cnt Hok Hf; pose proof Hok as [Hring (Hlen & Hbuf & Hnone)]; cbn [ooo_drain].
  - destruct (Z.eqb_spec (ooo_len r) 0); [| lia]. by eexists _, _.
  - destruct (Z.eqb_spec (ooo_len r) 0) as [| Hne]; cbn [negb andb]; [by eexists _, _ |]. destruct (ooo_seq r =? rcv_nxt r); [| by eexists _, _].
    pose proof (rx_space_range r Hring) as Hsp. set (n := if ooo_len r <? rx_space r then ooo_len r else rx_space r).
    assert (Hn : 0 <= n <= rx_space r /\ n <= ooo_len r) by (subst n; bcase; lia).
    destruct (Z.eqb_spec n 0); [by eexists _, _ |]. unfold TCP_OOO_BUF in *.
    destruct (ooo r) as [l |] eqn:El; [| rewrite Hnone in * by done; lia]. cbn [mbind option_bind]. specialize (Hbuf l eq_refl).
    rewrite load_slice by lia. cbn [mbind option_bind].
    destruct (rcv_put_ok r (slice l 0 n) Hok) as (r1 & -> & Hok1 & Hl1); [rewrite length_slice; lia |]. cbn [mbind option_bind].
    destruct (move_down_spec l n (ooo_len r)) as (l' & -> & Hl' & _); [lia | lia | lia |]. cbn [mbind option_bind].
    apply IH; [| cbn [set_ooo ooo_len]; ured; lia]. destruct Hok1 as [Hr1 _]. split; [exact Hr1 |].
    unfold ooo_ok, TCP_OOO_BUF. cbn [set_ooo ooo ooo_len]. ured. split; [lia |]. split; [intros ? [= <-]; lia | done].
Qed.

Lemma tcp_data_ok r q d : rcv_ok r -> Z.of_nat (length d) < 2 ^ 16 -> exists r' c, tcp_data r q d = Some (r', c) /\ rcv_ok r'.
Proof.
  intros Hok Hd. pose proof Hok as [Hring (Hlen & Hbuf & Hnone)]. pose proof (rx_space_range r Hring) as Hsp. unfold tcp_data.
  destruct (Z.eqb_spec (Z.of_nat (length d)) 0) as [| Hne]; [by eexists _, _ |]. destruct (s32 (q -! rcv_nxt r) <? 0); [by eexists _, _ |].
  destruct (q =? rcv_nxt r).
  - set (n := if rx_space r <? Z.of_nat (length d) then rx_space r else Z.of_nat (length d)).
    assert (Hn : 0 <= n <= rx_space r /\ n <= Z.of_nat (length d)) by (subst n; bcase; lia).
    destruct (rcv_put_ok r (take (Z.to_nat n) d) Hok) as (r1 & -> & Hok1 & Hl1); [rewrite length_take; lia |]. cbn [mbind option_bind].
    apply ooo_drain_ok; [exact Hok1 |]. cbn [set_rcv_nxt ooo_len]. lia.
  - destruct (ooo r) as [l |] eqn:El; [| by eexists _, _]. specialize (Hbuf l eq_refl). unfold TCP_OOO_BUF in *. ured.
    destruct (Z.leb_spec (ooo_len r + Z.of_nat (length d)) 2048); cbn [andb]; [| by eexists _, _]. destruct (_ || _); [| by eexists _, _].
    destruct (store_in l (ooo_len r) d 2048) as (l' & -> & Hl'); [lia | lia | lia |]. cbn [mbind option_bind].
    eexists _, _. split; [done |]. split; [exact Hring |]. unfold ooo_ok, TCP_OOO_BUF. cbn [set_ooo ooo ooo_len]. split; [lia |]. split; [intros ? [= <-]; lia | done].
Qed.

Section Stack.
Context `{E : NetEnv}.

(** ** Sending and closing *)

Lemma t_tcp_send s fl data n q : 0 <= n -> (n = 0 \/ exists l, data = Some l /\ n <= Z.of_nat (length l)) -> typed (tcp_send_seg_ex s fl data n q) any.
Proof.
  intros Hn Hdata. pose proof len_mac as Hm. unfold tcp_send_seg_ex, NET_BUILD_MAX, IP_HDR_MIN, TCP_HDR_MIN, ETH_HDR_LEN.
  apply t_if; intros Hc; [by apply t_ret |]. btrue. eapply t_bind; [apply t_arp_lookup |]. intros [mac |] Hmac; [| by apply t_ret].
  specialize (Hmac mac eq_refl). unfold mac_ok in Hmac. repeat tnext. eapply t_bind; [apply t_my_ip | intros ? _]. repeat tnext.
  eapply t_bind with (R := fun d => Z.of_nat (length d) = n).
  { destruct (Z.eqb_spec n 0) as [-> |]; [by apply t_ret |]. destruct Hdata as [| (l & -> & Hl)]; [done |].
    apply t_lift. cbn [mbind option_bind]. destruct (load_in l 0 n) as (d & Ed & Hd & _); [lia | lia | lia |]. by exists d. }
  intros d Hd. tnext. pose proof (Z.mod_pos_bound (20 + n) 2 ltac:(lia)). rewrite land_1.
  eapply t_bind; [apply t_when; intros _; apply t_wr_build; tside | intros _ _]. repeat tnext.
  eapply t_bind; [by apply t_send |]. intros r _. apply t_if; intros _; [by apply t_ret |]. tnext. by apply t_ret.
Qed.
Lemma t_tcp_send0 s fl q : typed (tcp_send_seg_ex s fl None 0 q) any.
Proof. apply t_tcp_send; [lia | by left]. Qed.

Lemma sock_free_ok s : sock_ok s -> sock_ok (sock_free_v s).
Proof.
  intros [[Hr (Ho1 & Ho2 & Ho3)] (Hs1 & Hs2 & Hs3)]. unfold TCP_OOO_BUF, TCP_RTX_BUF in *.
  split; [split; [exact Hr |] |]; split; cbn; unfold TCP_OOO_BUF, TCP_RTX_BUF; (lia || done).
Qed.
Lemma t_sock_free i : (i < 8)%nat -> typed (sock_free i) any.
Proof. intros Hi. unfold sock_free. tnext. apply t_set_sock. by apply sock_free_ok. Qed.

Lemma with_snd_ok s n : sock_ok s -> snd_ok n -> sock_ok (with_snd s n).
Proof. intros [Hr _] Hn. by split. Qed.
Lemma with_rcv_ok s r : sock_ok s -> rcv_ok r -> sock_ok (with_rcv s r).
Proof. intros [_ Hn] Hr. by split. Qed.

Lemma t_retransmit i now : (i < 8)%nat -> typed (tcp_retransmit_check i now) any.
Proof.
  intros Hi. unfold tcp_retransmit_check. tnext. rename a into s, H into Hs. pose proof Hs as [_ Hn]. pose proof Hn as (Hl & Hb & Hnone).
  do 3 (apply t_if; intros ?; [by apply t_ret |]). apply t_if; intros _.
  - eapply t_bind; [apply t_tcp_send0 | intros _ _]. by apply t_sock_free.
  - assert (Hs' : forall t tr, sock_ok (with_snd s (set_timer (snd s) t tr))) by (intros; by apply with_snd_ok).
    tnext; [apply Hs' |]. tnext. apply t_if; intros _; [eapply t_bind; [apply t_tcp_send0 | intros; by apply t_ret] |].
    destruct (Z.eqb_spec (rtx_len (snd s)) 0); [apply t_set_sock, Hs' |].
    eapply t_bind; [| intros; by apply t_ret]. apply t_tcp_send; [lia |]. right.
    destruct (rtx (snd s)) as [l |] eqn:El; [| by rewrite Hnone in *]. exists l. split; [done |]. rewrite (Hb l eq_refl). lia.
Qed.

Lemma t_tcp_tick k : forall i now, (i + k <= 8)%nat -> typed (tcp_tick k i now) any.
Proof.
  induction k as [| k IH]; intros i now Hk; cbn [tcp_tick]; [by apply t_ret |].
  eapply t_bind; [apply t_get_sock; lia |]. intros s _. eapply t_bind; [apply t_when; intros _; apply t_retransmit; lia | intros _ _]. apply IH. lia.
Qed.

(** The outcome also says that the buffers are there. *)
Lemma t_tcp_bufs i : (i < 8)%nat -> typed (tcp_bufs i) any.
Proof.
  intros Hi. unfold tcp_bufs. tnext. rename a into s, H into Hs. pose proof Hs as [_ (Hl & Hb & Hnone)].
  eapply t_bind with (R := fun o => (forall l, o = Some l -> Z.of_nat (length l) = TCP_RTX_BUF) /\ (o = None -> rtx_len (snd s) = 0)).
  { destruct (rtx (snd s)) as [l |] eqn:El; [by apply t_ret |]. eapply t_mono; [apply t_kmalloc |]. cbn. intros o Ho. split; [| auto].
    intros l E1. destruct (Ho l E1). unfold TCP_RTX_BUF in *. lia. }
  intros b [Hb1 Hb2]. tnext. { apply with_snd_ok; [done |]. split; [done |]. by split. }
  destruct b as [b |]; [| by apply t_ret]. tnext. rename a into s2, H into Hs2. pose proof Hs2 as [[Hr2 (Ho1 & Ho2 & Ho3)] Hn2].
  eapply t_bind with (R := fun o => (forall l, o = Some l -> Z.of_nat (length l) = TCP_OOO_BUF) /\ (o = None -> ooo_len (rcv s2) = 0)).
  { destruct (ooo (rcv s2)) as [l |] eqn:El; [by apply t_ret |]. eapply t_mono; [apply t_kmalloc |]. cbn. intros o Ho. split; [| auto].
    intros l E1. destruct (Ho l E1). unfold TCP_OOO_BUF in *. lia. }
  intros o [Hoa Hob]. tnext. { apply with_rcv_ok; [done |]. split; [done |]. split; [done |]. by split. }
  destruct o as [o |]; [| by apply t_ret]. tnext. rename a into s3, H into Hs3. destruct Hs3 as [[Hr3 (Hp1 & Hp2 & Hp3)] (Hn1 & Hn3 & Hn4)].
  tnext. { split; [split; [exact Hr3 |] |]; split; cbn; unfold TCP_OOO_BUF, TCP_RTX_BUF in *; (lia || (split; done)). }
  by apply t_ret.
Qed.

Lemma t_free_children k : forall i p, (i + k <= 8)%nat -> typed (free_children k i p) any.
Proof.
  induction k as [| k IH]; intros i p Hk; cbn [free_children]; [by apply t_ret |].
  eapply t_bind; [apply t_get_sock; lia |]. intros s _. eapply t_bind; [apply t_when; intros _; apply t_sock_free; lia | intros _ _]. apply IH. lia.
Qed.

Lemma t_tcp_close i : (i < 8)%nat -> typed (tcp_close i) any.
Proof.
  intros Hi. unfold tcp_close. tnext. rename a into s, H into Hs. pose proof Hs as [Hr Hn]. apply t_if; intros _.
  - tnext; [by apply with_snd_ok |]. eapply t_bind; [apply t_tcp_send0 |]. intros rc _. apply t_if; intros _.
    + tnext; [by apply with_snd_ok |]. by apply t_ret.
    + tnext; [by destruct Hs |]. by apply t_ret.
  - eapply t_bind; [apply t_when; intros _; apply t_free_children; change (Z.to_nat NET_MAX_SOCKS) with 8%nat; lia | intros _ _].
    eapply t_bind; [by apply t_sock_free | intros _ _]. by apply t_ret.
Qed.

(** ** Receiving *)

Lemma t_isn : typed isn any.
Proof. unfold isn. repeat tnext. Qed.

Lemma t_tcp_syn li dp sp src q : (li < 8)%nat -> typed (tcp_syn li dp sp src q) any.
Proof.
  intros Hli. unfold tcp_syn. apply t_gets_bind. intros st Hst. destruct (list_find _ (g_socks st)) as [[i s] |] eqn:Ef; [| by apply t_ret].
  destruct (list_find_sock _ _ _ _ Hst Ef) as (Hi & Hs & _). revert st Hst Ef. intros st Hst _. revert st Hst.
  match goal with |- forall st, net_ok st -> safe ?m _ st => change (typed m any) end.
  tnext. rename a into ls. pose proof Hs as [[Hr Ho] Hn]. tnext.
  { destruct Hr as ((l & El & Hl) & _). split; [split |]; [| exact Ho | exact Hn]. split; [by exists l |]. cbn. unfold NET_SOCK_BUF. lia. }
  eapply t_bind; [by apply t_tcp_bufs |]. intros ok _. apply t_if; intros _.
  - tnext. apply t_set_sock. by destruct H0.
  - eapply t_bind; [apply t_isn | intros ? _]. tnext. rename a0 into s2. destruct H0 as [Hr2 Hn2]. tnext; [by split |].
    eapply t_bind; [apply t_tcp_send0 | intros; by apply t_ret].
Qed.

Lemma t_tcp_receive c fl q d : (c < 8)%nat -> Z.of_nat (length d) < 2 ^ 16 -> typed (tcp_receive c fl q d) any.
Proof.
  intros Hc Hd. unfold tcp_receive. tnext. rename a into s, H into Hs. pose proof Hs as [Hr Hn].
  destruct (tcp_data_ok (rcv s) q d Hr Hd) as (r & k & Edata & Hr'). eapply t_bind with (R := fun x => x = (r, k)); [apply t_lift; by exists (r, k) |].
  intros ? ->. tnext. set (fin := has fl TCP_FIN && fin_now r q (Z.of_nat (length d))).
  assert (Hs' : forall b : bool, sock_ok (let s := with_rcv s (if fin then set_fin r else r) in if b then with_state s TS_CLOSE_WAIT else s)).
  { intros b. assert (Hr2 : rcv_ok (if fin then set_fin r else r)) by (destruct fin; [destruct Hr' as [? ?]; by split | done]).
    cbn zeta. destruct b; by split. }
  tnext; [apply Hs' |]. apply t_if; intros _; [eapply t_bind; [apply t_tcp_send0 | intros; by apply t_ret] | by apply t_ret].
Qed.

Lemma t_last_fin c q n : (c < 8)%nat -> typed (tcp_last_fin c q n) any.
Proof.
  intros Hc. unfold tcp_last_fin. tnext. rename a into s, H into Hs. pose proof Hs as [[Hr Ho] Hn]. tnext.
  { destruct (fin_now _ _ _); by split. }
  eapply t_bind; [apply t_tcp_send0 | intros _ _]. by apply t_sock_free.
Qed.

Lemma t_tcp_conn c fl q ack d : (c < 8)%nat -> Z.of_nat (length d) < 2 ^ 16 -> typed (tcp_conn c fl q ack d) any.
Proof.
  intros Hc Hd. unfold tcp_conn. apply t_if; intros _; [by apply t_sock_free |]. tnext. tnext. rename a0 into s, H into Hs. pose proof Hs as [Hr Hn].
  eapply t_bind with (R := snd_ok).
  { apply t_lift. destruct (has fl TCP_ACK); [apply tcp_ack_ok; exact Hn | by eexists]. }
  intros n Hn'. assert (Hs' : sock_ok (with_snd s n)) by (by apply with_snd_ok). tnext; [done |].
  assert (Hst : forall t, sock_ok (with_state (with_snd s n) t)) by (intros; by destruct Hs'; split).
  cbn [with_snd state]. destruct (state s).
  - by apply t_ret.
  - by apply t_ret.
  - apply t_if; intros _; [by apply t_ret |]. tnext; [apply Hst |]. apply t_if; intros _; [by apply t_ret | by apply t_tcp_receive].
  - do 2 (apply t_if; intros _; [by apply t_ret |]). tnext.
    { split; [destruct Hr; by split |]. destruct Hn' as (? & ? & ?). by split. }
    eapply t_bind; [apply t_tcp_send0 | intros; by apply t_ret].
  - by apply t_tcp_receive.
  - by apply t_tcp_receive.
  - apply t_when. intros _. by apply t_sock_free.
  - eapply t_bind; [apply t_when; intros _; apply t_set_sock, Hst | intros _ _]. apply t_when. intros _. by apply t_last_fin.
  - apply t_when. intros _. by apply t_last_fin.
Qed.

Lemma tcp_demux_range l : forall i dp sp src lo c lo', tcp_demux l i dp sp src lo = (c, lo') ->
  (forall k, lo = Some k -> (k < i + length l)%nat) ->
  (forall k, c = Some k -> (k < i + length l)%nat) /\ (forall k, lo' = Some k -> (k < i + length l)%nat).
Proof.
  induction l as [| s l IH]; intros i dp sp src lo c lo'; cbn [tcp_demux length].
  - intros [= <- <-] H. split; [done | exact H].
  - intros E1 Hlo. replace (i + S (length l))%nat with (S i + length l)%nat by lia.
    destruct (_ || _); [eapply IH; [exact E1 |]; intros k Hk; specialize (Hlo k Hk); lia |].
    destruct (negb _); [eapply IH; [exact E1 |]; intros k Hk; specialize (Hlo k Hk); lia |].
    case_bool_decide; [eapply IH; [exact E1 |]; intros k [= <-]; lia |].
    destruct (_ && _); [injection E1 as <- <-; split; [intros k [= <-]; lia | intros k Hk; specialize (Hlo k Hk); lia] |].
    eapply IH; [exact E1 |]. intros k Hk. specialize (Hlo k Hk). lia.
Qed.

Lemma t_tcp_input ip ihl : pkt ip ihl -> typed (tcp_input ip ihl) any.
Proof.
  intros Hp. pose proof Hp as (Hu & Hi & _). unfold tcp_input, TCP_HDR_MIN. eapply t_bind; [by apply t_totlen |]. intros t [Ht Htl]. ured.
  apply t_if; intros Hc; [by apply t_ret |]. btrue. pose proof (drop_u8 (Z.to_nat ihl) ip Hu) as Hd.
  assert (Hl : Z.of_nat (length (drop (Z.to_nat ihl) ip)) = Z.of_nat (length ip) - ihl) by (rewrite length_drop; lia).
  tnext. assert (Ho : 0 <= Z.shiftr a 4 <= 15) by (rewrite Z.shiftr_div_pow2 by lia; unfold is_u8 in *; Z.to_euclidean_division_equations; lia).
  ured. apply t_if; intros Hc2; [by apply t_ret |]. btrue. do 6 tnext. ured.
  eapply t_bind with (R := fun l => length l = 8%nat); [apply t_gets; intros st Hst; apply (ok_socks _ Hst) |]. intros l H8.
  destruct (tcp_demux l 0 _ _ _ None) as [c li] eqn:Ed. destruct (tcp_demux_range _ _ _ _ _ _ _ _ Ed) as [Hr1 Hr2]; [done |]. rewrite H8 in Hr1, Hr2.
  destruct c as [c |]; [| destruct li as [li |]; [| by apply t_ret]].
  - tnext. apply t_tcp_conn; [by apply Hr1 | lia].
  - apply t_if; intros _; [by apply t_ret | apply t_tcp_syn; by apply Hr2].
Qed.
End Stack.
