(* ===== verification/NetSafeApp.v ===== *)
(** * NetSafeApp: DHCP and DNS stay inside their buffers

    [NetSafe.typed] for the definitions of [Dhcp.v] and [Dns.v], and for the
    calls that wait for an answer. *)

From S2P Require Import Prelude Disk Net Tcp Dhcp Dns NetCalls NetSum NetLogic NetRing TcpProps NetSafe NetSafeTcp.

(** ** DHCP *)

Lemma dhcp_opt_in_ok b code max f : forall i e, Forall is_u8 b -> 0 <= i < 2 ^ 31 -> e <= Z.of_nat (length b) <= 512 -> 0 <= max -> e - i <= Z.of_nat f ->
  exists r, dhcp_opt_in f b i e code max = Some r /\ forall d, r = Some d -> Z.of_nat (length d) <= max /\ Forall is_u8 d.
Proof.
  induction f as [| f IH]; intros i e Hb Hi He Hmax Hf; cbn [dhcp_opt_in].
  - destruct (Z.ltb_spec (i +! 1) e) as [Hlt |]; [| by eexists]. exfalso. unfold u32 in Hlt. rewrite Z.mod_small in Hlt by lia. lia.
  - destruct (Z.ltb_spec (i +! 1) e) as [Hlt |]; [| by eexists].
    ured_in Hlt. destruct (rd8_some b i Hb ltac:(lia)) as (c & -> & Hc). cbn [mbind option_bind]. ured.
    destruct (Z.eqb_spec c 0); [apply IH; (done || lia) |]. destruct (Z.eqb_spec c 255); [by eexists |].
    destruct (rd8_some b (i + 1) Hb ltac:(lia)) as (ol & -> & Hol). cbn [mbind option_bind]. unfold is_u8 in *. ured.
    destruct (Z.ltb_spec e (i + 2 + ol)); [by eexists |]. destruct (c =? code).
    + set (k := if ol <? max then ol else max). assert (Hn : 0 <= k <= ol /\ k <= max) by (subst k; bcase; lia).
      destruct (load_in b (i + 2) k) as (d & -> & Hd & Hu); [lia | lia | lia |]. cbn [mbind option_bind]. eexists. split; [done |]. intros ? [= <-]. split; [lia | by apply Hu].
    + apply IH; (done || lia).
Qed.

Lemma opt_scan_ok b i e code max : Forall is_u8 b -> 0 <= i < 2 ^ 31 -> e <= Z.of_nat (length b) <= 512 -> 0 <= max ->
  exists r, opt_scan b i e code max = Some r /\ forall d, r = Some d -> Z.of_nat (length d) <= max /\ Forall is_u8 d.
Proof.
  intros. unfold opt_scan. destruct (Z.le_gt_cases 0 e).
  - apply dhcp_opt_in_ok; (done || lia).
  - replace (Z.to_nat e) with O by lia. apply dhcp_opt_in_ok; (done || lia).
Qed.

(** What an option search returns: at most [max] bytes. *)
Definition opt_ok (max : Z) (o : option (list Z)) : Prop := forall d, o = Some d -> Z.of_nat (length d) <= max /\ Forall is_u8 d.

Lemma dhcp_opt_of_ok b n code max : Forall is_u8 b -> n <= Z.of_nat (length b) <= 512 -> 0 <= max ->
  exists r, dhcp_opt_of b n code max = Some r /\ opt_ok max r.
Proof.
  intros Hb Hn Hmax. unfold dhcp_opt_of, BOOTP_FIXED. destruct (Z.ltb_spec n (236 + 4)); [by eexists |].
  destruct (opt_scan_ok b 240 n code max) as (r & -> & Hr); [done | lia | lia | lia |]. cbn [mbind option_bind].
  destruct (nonempty r); [by exists r |].
  destruct (opt_scan_ok b 240 n 52 1) as (v & -> & Hv); [done | lia | lia | lia |]. cbn [mbind option_bind].
  destruct v as [[| ov [| ]] |]; try by eexists.
  set (e1 := if n <? 236 then n else 236). set (e2 := if n <? 108 then n else 108).
  assert (He : e1 <= n /\ e2 <= n) by (subst e1 e2; split; bcase; lia).
  assert (exists r1, (if negb (ov &! 1 =? 0) && (108 <? n) then opt_scan b 108 e1 code max else Some None) = Some r1 /\ opt_ok max r1) as (r1 & -> & Hr1).
  { destruct (_ && _); [apply opt_scan_ok; (done || lia) | by exists None]. }
  cbn [mbind option_bind]. destruct (nonempty r1); [by exists r1 |].
  assert (exists r2, (if negb (ov &! 2 =? 0) && (44 <? n) then opt_scan b 44 e2 code max else Some None) = Some r2 /\ opt_ok max r2) as (r2 & -> & Hr2).
  { destruct (_ && _); [apply opt_scan_ok; (done || lia) | by exists None]. }
  cbn [mbind option_bind]. destruct (nonempty r2); eexists; done.
Qed.

Lemma dhcp_type_ok b dlen f : forall i t, Forall is_u8 b -> 0 <= i < 2 ^ 31 -> dlen <= Z.of_nat (length b) -> dlen <= 512 -> dlen - i <= Z.of_nat f ->
  exists r, dhcp_type_in f b i dlen t = Some r.
Proof.
  induction f as [| f IH]; intros i t Hb Hi He He2 Hf; cbn [dhcp_type_in];
    (destruct (Z.ltb_spec (i +! 1) dlen) as [Hlt |]; [ured_in Hlt | by eexists]); [lia |].
  destruct (rd8_some b i Hb ltac:(lia)) as (c & -> & Hc). cbn [mbind option_bind]. ured.
  destruct (c =? 0); [apply IH; (done || lia) |]. destruct (c =? 255); [by eexists |].
  destruct (rd8_some b (i + 1) Hb ltac:(lia)) as (ol & -> & Hol). cbn [mbind option_bind]. unfold is_u8 in *. ured.
  destruct (Z.ltb_spec dlen (i + 2 + ol)); [by eexists |].
  assert (exists t', (if (c =? 53) && (1 <=? ol) then rd8 b (i + 2) else Some t) = Some t') as [t' ->].
  { destruct ((c =? 53) && _) eqn:Ec; [| by eexists]. btrue. destruct (rd8_some b (i + 2) Hb ltac:(lia)) as (x & -> & _). by eexists. }
  cbn [mbind option_bind]. apply IH; (done || lia).
Qed.

(** ** The statics with a bound *)

Lemma t_set_len v x : v = dhcp_len \/ v = dns_len -> 0 <= x <= 512 -> typed (set v x) any.
Proof.
  intros Hv Hx. apply t_modify; [done |]. intros st [H1 H2 H3 H4 H5 H6 H7].
  destruct H5 as (?&?&?), H6 as (?&?&?), H7. destruct Hv as [-> | ->]; by split.
Qed.
Lemma t_set_srv x : 0 <= x <= 4 -> typed (set g_dns_srv_n x) any.
Proof. intros Hx. apply t_modify; [done |]. intros st [H1 H2 H3 H4 H5 H6 [H7 _]]. by split. Qed.
Lemma t_srv_n : typed (get g_dns_srv_n) (fun n => 0 <= n <= 4).
Proof. apply t_gets. intros st Hst. apply (ok_srv _ Hst). Qed.
Lemma t_srv : typed (gets g_dns_srv) (fun l => length l = 4%nat).
Proof. apply t_gets. intros st Hst. apply (ok_srv _ Hst). Qed.
Lemma t_put_srv l : length l = 4%nat -> typed (modify (set_dns_srv l)) any.
Proof. intros Hl. apply t_modify; [done |]. intros st [H1 H2 H3 H4 H5 H6 [H7 H7']]. split; cbn; done. Qed.
Lemma t_put_dns l : length l = 512%nat -> Forall is_u8 l -> typed (modify (set_dns_buf l)) any.
Proof. intros Hl Hu. apply t_modify; [done |]. intros st [H1 H2 H3 H4 H5 (H6 & H6' & H6'') H7]. split; cbn; done. Qed.
Lemma t_put_dhcp l : length l = 512%nat -> Forall is_u8 l -> typed (modify (set_dhcp_buf l)) any.
Proof. intros Hl Hu. apply t_modify; [done |]. intros st [H1 H2 H3 H4 (H5 & H5' & H5'') H6 H7]. split; cbn; done. Qed.
Lemma t_dhcp_buf : typed (gets dhcp_buf) (fun l => length l = 512%nat /\ Forall is_u8 l).
Proof. apply t_gets. intros st Hst. destruct (ok_dhcp _ Hst) as (? & ? & ?). done. Qed.
Lemma t_dns_buf : typed (gets dns_buf) (fun l => length l = 512%nat /\ Forall is_u8 l).
Proof. apply t_gets. intros st Hst. destruct (ok_dns _ Hst) as (? & ? & ?). done. Qed.
Lemma store_u8 l i b n : Z.of_nat (length l) = n -> Forall is_u8 l -> Forall is_u8 b -> 0 <= i -> i + Z.of_nat (length b) <= n ->
  exists l', store l i b = Some l' /\ Z.of_nat (length l') = n /\ Forall is_u8 l'.
Proof.
  intros Hl Hu Hub Hi Hb. unfold store. destruct (Z.leb_spec 0 i); [| lia]. destruct (Z.leb_spec (i + Z.of_nat (length b)) (Z.of_nat (length l))); [| lia].
  eexists. split; [done |]. rewrite length_spliced by lia. split; [done |]. by apply Forall_splice.
Qed.

Lemma t_dhcp_opt code max : 0 <= max -> typed (dhcp_opt code max) (opt_ok max).
Proof.
  intros Hmax. unfold dhcp_opt. apply t_gets_bind. intros st Hst. pose proof (ok_dhcp _ Hst) as (Hl & Hu & Hn).
  destruct (dhcp_opt_of_ok (dhcp_buf st) (gv st dhcp_len) code max) as (r & Er & Hr); [done | lia | lia |].
  apply safe_bind. change (safe (lift (dhcp_opt_of (dhcp_buf st) (gv st dhcp_len) code max)) (fun a st' => opt_ok max a /\ net_ok st') st).
  by rewrite Er.
Qed.
Lemma t_opt32 code dflt : typed (opt32 code dflt) any.
Proof.
  unfold opt32. eapply t_bind; [by apply t_dhcp_opt |]. intros [v |] Hv; [| by apply t_ret]. destruct (Hv v eq_refl) as [Hl Hu].
  apply t_if; intros Hc; [| by apply t_ret]. btrue. eapply t_any. apply t_be32; (done || lia).
Qed.

(** [t_seq]: the next statement of a handler, its value of no further interest. *)
Ltac t_seq l := eapply t_bind; [eapply t_any; l | intros ? _].

Section Stack.
Context `{E : NetEnv}.
Hint Rewrite len_mac : len.

Lemma t_xid : typed dhcp_new_xid any.
Proof. unfold dhcp_new_xid. tnext. by apply t_ret. Qed.

Lemma length_options m r s b : 0 <= Z.of_nat (length (dhcp_options m r s b)) <= 31.
Proof.
  unfold dhcp_options. repeat rewrite length_app. rewrite len_mac.
  destruct (_ && _); cbn [length put32 app]; lia.
Qed.

Lemma t_dhcp_send m r s b : typed (dhcp_send m r s b) any.
Proof.
  pose proof len_mac as Hm. pose proof (length_options m r s b) as Ho. unfold dhcp_send, BOOTP_MIN, ETH_HDR_LEN, IP_HDR_MIN, UDP_HDR_LEN. do 8 tnext.
  eapply t_bind; [apply t_when; intros _; apply t_wr_build; tside | intros _ _]. do 2 tnext. apply t_if; intros _; [by apply t_ret |].
  eapply t_bind with (R := fun o => forall m, o = Some m -> mac_ok m).
  { apply t_if; intros _; [apply t_arp_lookup | by apply t_ret]. }
  intros mac Hmac.
  assert (Hl : length (match mac with Some m => m | None => replicate 6 0xFF end) = 6%nat).
  { destruct mac as [x |]; [by apply Hmac | done]. }
  repeat (tnext; cbn beta in *). by apply t_send.
Qed.

Lemma t_dhcp_input ip ihl : pkt ip ihl -> typed (dhcp_input ip ihl) any.
Proof.
  intros Hp. pose proof Hp as (Hu & Hi & _). unfold dhcp_input, UDP_HDR_LEN, BOOTP_FIXED, DHCP_BUF. eapply t_bind; [by apply t_totlen |]. intros t [Ht Htl]. ured.
  apply t_if; intros Hc; [by apply t_ret |]. btrue. pose proof (drop_u8 (Z.to_nat ihl) ip Hu) as Hd.
  assert (Hl : Z.of_nat (length (drop (Z.to_nat ihl) ip)) = Z.of_nat (length ip) - ihl) by (rewrite length_drop; lia).
  tnext. unfold is_u16 in *. ured. apply t_if; intros Hc2; [by apply t_ret |]. btrue. ured. apply t_if; intros Hc3; [by apply t_ret |]. btrue.
  set (b := drop (Z.to_nat 8) _). assert (Hb : Z.of_nat (length b) = Z.of_nat (length ip) - ihl - 8) by (subst b; rewrite length_drop; lia).
  assert (Hbu : Forall is_u8 b) by (by apply drop_u8). do 3 tnext. apply t_if; intros _; [by apply t_ret |].
  eapply t_bind with (R := any).
  { apply t_lift. destruct (dhcp_type_ok b (a - 8) (Z.to_nat (a - 8)) 240 0) as [r ->]; [done | lia | lia | lia | lia |]. by eexists. }
  intros ty _. apply t_if; intros _; [by apply t_ret |]. tnext. eapply t_bind; [apply t_dhcp_buf |]. intros old [Hol Hou].
  eapply t_bind with (R := fun l => length l = 512%nat /\ Forall is_u8 l).
  { apply t_lift. destruct (store_u8 old 0 a3 512) as (l' & -> & Hl' & Hu'); [lia | done | done | lia | lia |]. exists l'. split; [done |]. split; [lia | done]. }
  intros l' [Hl' Hu']. eapply t_bind; [by apply t_put_dhcp |]. intros _ _. eapply t_bind; [apply t_set_len; [by left | lia] |]. intros _ _.
  do 2 tnext. tnext. by apply t_set.
Qed.

Lemma t_dns_fill k dv : forall i, 0 <= i -> (i + Z.of_nat k) * 4 <= Z.of_nat (length dv) -> Forall is_u8 dv -> typed (dns_fill k dv i) any.
Proof.
  induction k as [| k IH]; intros i Hi Hl Hu; cbn [dns_fill]; [by apply t_ret |]. unfold DNS_MAX_SRV.
  eapply t_bind; [apply t_srv_n |]. intros n Hn. apply t_if; intros Hc; [| by apply t_ret]. btrue. tnext.
  eapply t_bind; [| intros _ _; apply IH; (done || lia)]. apply t_when. intros _.
  eapply t_bind; [apply t_srv |]. intros l Hl4.
  eapply t_bind with (R := fun l => length l = 4%nat).
  { cbn beta in *. apply t_lift. destruct (store_in l n [a] 4) as (l' & -> & Hl'); [lia | lia | cbn; lia |]. exists l'. split; [done | lia]. }
  intros l' Hl'. eapply t_bind; [by apply t_put_srv |]. intros _ _. apply t_set_srv. cbn beta in *. ured. lia.
Qed.

Lemma t_dhcp_apply ip server : typed (dhcp_apply ip server) any.
Proof.
  unfold dhcp_apply. do 3 tnext. eapply t_bind; [apply t_opt32 | intros ? _]. tnext.
  do 2 (eapply t_bind; [apply t_opt32 | intros ? _]; tnext). tnext.
  eapply t_bind; [apply t_opt32 | intros ? _]. do 3 tnext.
  eapply t_bind; [by apply t_dhcp_opt |]. intros dv Hdv. cbv zeta.
  assert (Hdv' : Forall is_u8 (match dv with Some v => v | None => [] end)).
  { destruct dv as [d |]; [by apply (Hdv d) | constructor]. }
  set (v := match dv with Some v => v | None => [] end) in *. tnext.
  eapply t_bind with (R := any).
  { apply t_if; intros _.
    - eapply t_bind; [by apply t_set_srv | intros _ _]. eapply t_bind with (R := any); [| intros _ _; by apply t_set].
      apply t_dns_fill; [lia | | done]. pose proof (Z.mul_div_le (Z.of_nat (length v)) 4 ltac:(lia)).
      assert (0 <= Z.of_nat (length v) / 4) by (apply Z.div_pos; lia). lia.
    - apply t_when. intros _. by apply t_set_srv. }
  intros _ _. eapply t_bind; [apply t_srv_n | intros ? _]. eapply t_bind; [apply t_srv | intros ? _]. tnext.
  eapply t_bind; [apply t_when; intros _; repeat tnext; by apply t_set | intros _ _]. do 3 tnext.
  eapply t_bind with (R := any); [| intros _ _; by apply t_set].
  apply t_modify; [done |]. intros st [H1 H2 H3 H4 H5 H6 H7]. split; cbn; try done. split; [done |].
  repeat apply Forall_cons_2; try (change 0xFF with (2 ^ 8 - 1); rewrite land_low_mask by lia; unfold is_u8; apply Z.mod_pos_bound; lia). constructor.
Qed.

Lemma t_renew_send now st : typed (dhcp_renew_send now st) any.
Proof.
  unfold dhcp_renew_send. tnext. apply t_if; intros _; [by apply t_ret |]. do 2 tnext.
  eapply t_bind; [apply t_xid | intros ? _]. do 7 tnext.
  eapply t_bind with (R := any); [repeat (apply t_if; intros _); apply t_dhcp_send | intros rc _].
  eapply t_bind; [apply t_when; intros _; tnext; by apply t_set | intros _ _]. tnext. by apply t_ret.
Qed.

Lemma t_renew_step now : typed (dhcp_renew_step now) any.
Proof.
  unfold dhcp_renew_step. do 4 tnext. repeat (apply t_if; intros _); try (by apply t_ret); repeat tnext; apply t_renew_send.
Qed.

Lemma t_renew_check now : typed (dhcp_renew_check now) any.
Proof.
  unfold dhcp_renew_check. do 2 tnext. apply t_if; intros _; [by apply t_ret |]. do 2 tnext.
  apply t_if; intros _; [| apply t_renew_step]. do 2 tnext. apply t_if; intros _.
  - do 2 tnext. eapply t_bind; [apply t_when; intros _; apply t_dhcp_apply | intros; by apply t_ret].
  - apply t_if; intros _; [do 2 tnext; apply t_renew_step |]. tnext. apply t_if; intros _; [| apply t_renew_step]. tnext.
    eapply t_bind; [apply t_opt32 | intros ? _].
    eapply t_bind with (R := any); [apply t_if; intros _; [apply t_dhcp_send | by apply t_ret] | intros ? _].
    apply t_if; intros _; [| apply t_renew_step]. tnext. by apply t_ret.
Qed.

(** ** DNS *)

Lemma skip_name_in f p : forall i n, Forall is_u8 p -> 0 <= i < 2 ^ 31 -> n <= Z.of_nat (length p) <= 512 -> n - i <= Z.of_nat f ->
  exists r, dns_skip_name f p i n = Some r /\ 0 <= r <= n \/ n <= i /\ dns_skip_name f p i n = Some 0.
Proof.
  induction f as [| f IH]; intros i n Hu Hi Hn Hf; cbn [dns_skip_name];
    (destruct (Z.leb_spec n i); [exists 0; by right |]); [lia |].
  destruct (rd8_some p i Hu ltac:(lia)) as (l & -> & Hl). cbn [mbind option_bind]. unfold is_u8 in *. ured.
  destruct (l &! 0xC0 =? 0xC0); [eexists; left; split; [done |]; bcase; lia |].
  destruct (l =? 0); [eexists; left; split; [done |]; bcase; lia |].
  destruct (negb _); [exists 0; left; split; [done | lia] |].
  destruct (IH (i + (1 + l)) n) as [r [H1 | [H1 H2]]]; [done | lia | lia | lia | exists r; by left |].
  exists 0. left. split; [done | lia].
Qed.
Lemma skip_name_ok p i n : Forall is_u8 p -> 0 <= i < 2 ^ 31 -> 0 <= n <= Z.of_nat (length p) -> Z.of_nat (length p) <= 512 ->
  exists r, skip_name p i n = Some r /\ 0 <= r <= n.
Proof.
  intros Hu Hi Hn Hp. unfold skip_name. destruct (skip_name_in (Z.to_nat n) p i n) as [r [[-> ?] | [? ->]]]; [done | lia | lia | lia | by exists r |].
  exists 0. split; [done | lia].
Qed.

Section Answer.
Variables (d : list Z) (n : Z).
Context (Hu : Forall is_u8 d) (Hd : Z.of_nat (length d) = 512) (Hn : 0 <= n <= 512).

Lemma skip_questions_ok k : forall i, 0 <= i < 2 ^ 31 -> exists r, skip_questions k d i n = Some r /\ 0 <= r < 2 ^ 31.
Proof.
  induction k as [| k IH]; intros i Hi; cbn [skip_questions]; [by exists i |].
  destruct (skip_name_ok d i n) as (j & -> & Hj); [done | lia | lia | lia |]. cbn [mbind option_bind]. ured.
  destruct (_ || _); [by exists 0 |]. apply IH. lia.
Qed.

Lemma find_a_ok k : forall i, 0 <= i < 2 ^ 31 -> exists r, find_a k d i n = Some r.
Proof.
  induction k as [| k IH]; intros i Hi; cbn [find_a]; [by eexists |].
  destruct (skip_name_ok d i n) as (j & -> & Hj); [done | lia | lia | lia |]. cbn [mbind option_bind]. ured.
  destruct (_ || _) eqn:Ec; [by eexists |]. apply orb_false_iff in Ec as [Ec1 Ec2]. btrue.
  destruct (be16_some d j Hu ltac:(lia) ltac:(lia)) as (ty & -> & _). destruct (be16_some d (j + 2) Hu ltac:(lia) ltac:(lia)) as (cl & -> & _).
  destruct (be16_some d (j + 8) Hu ltac:(lia) ltac:(lia)) as (rl & -> & Hrl). cbn [mbind option_bind]. unfold is_u16 in *. ured.
  destruct (Z.ltb_spec n (j + 10 + rl)); [by eexists |]. destruct (_ && _) eqn:Ef; [| apply IH; lia]. btrue.
  destruct (be32_some d (j + 10) Hu ltac:(lia) ltac:(lia)) as (ip & -> & _). ured. replace (j + 10 - 6) with (j + 4) by lia.
  destruct (be32_some d (j + 4) Hu ltac:(lia) ltac:(lia)) as (tt & -> & _). by eexists.
Qed.

Lemma dns_parse_ok : exists r, dns_parse d n = Some r.
Proof.
  unfold dns_parse. destruct (be16_some d 4 Hu ltac:(lia) ltac:(lia)) as (qd & -> & _). destruct (be16_some d 6 Hu ltac:(lia) ltac:(lia)) as (an & -> & _).
  cbn [mbind option_bind]. destruct (skip_questions_ok (Z.to_nat qd) 12) as (i & -> & Hi); [lia |]. cbn [mbind option_bind].
  destruct (i =? 0); [by eexists | by apply find_a_ok].
Qed.
End Answer.

Lemma t_dns_input ip ihl : pkt ip ihl -> typed (dns_input ip ihl) any.
Proof.
  intros Hp. pose proof Hp as (Hu & Hi & _). unfold dns_input, UDP_HDR_LEN, DNS_BUF. tnext. apply t_if; intros _; [by apply t_ret |].
  eapply t_bind; [by apply t_totlen |]. intros t [Ht Htl]. ured.
  apply t_if; intros Hc; [by apply t_ret |]. btrue. pose proof (drop_u8 (Z.to_nat ihl) ip Hu) as Hd.
  assert (Hl : Z.of_nat (length (drop (Z.to_nat ihl) ip)) = Z.of_nat (length ip) - ihl) by (rewrite length_drop; lia).
  tnext. unfold is_u16 in *. ured. apply t_if; intros Hc2; [by apply t_ret |]. btrue. ured. apply t_if; intros Hc3; [by apply t_ret |]. btrue.
  do 3 tnext. apply t_if; intros _; [by apply t_ret |].
  set (b := drop (Z.to_nat 8) _). assert (Hb : Z.of_nat (length b) = Z.of_nat (length ip) - ihl - 8) by (subst b; rewrite length_drop; lia).
  assert (Hbu : Forall is_u8 b) by (by apply drop_u8). do 3 tnext. apply t_if; intros _; [by apply t_ret |]. tnext. rename a7 into p.
  eapply t_bind; [apply t_dns_buf |]. intros old [Hol Hou].
  eapply t_bind with (R := fun l => length l = 512%nat /\ Forall is_u8 l).
  { apply t_lift. destruct (store_u8 old 0 p 512) as (l' & -> & Hl' & Hu'); [lia | done | done | lia | lia |]. exists l'. split; [done |]. split; [lia | done]. }
  intros l' [Hl' Hu']. eapply t_bind; [by apply t_put_dns |]. intros _ _. eapply t_bind; [apply t_set_len; [by right | lia] |]. intros _ _.
  do 3 tnext. by apply t_ret.
Qed.

Lemma t_cache c : typed (modify (set_dns_cache c)) any.
Proof. apply t_modify; [done |]. intros st [H1 H2 H3 H4 H5 H6 H7]. by split. Qed.
Lemma t_state {A} (f : net -> A) : typed (gets f) any.
Proof. by apply t_gets. Qed.

Lemma t_cache_lookup name : typed (net_dns_cache_lookup name) any.
Proof.
  unfold net_dns_cache_lookup. tnext. eapply t_bind; [apply t_state | intros c _]. destruct (cache_find name c) as [[i e] |]; [| by apply t_ret].
  apply t_if; intros _; [eapply t_bind; [apply t_cache | intros; by apply t_ret] | tnext; by apply t_ret].
Qed.
Lemma t_cache_put name ip ttl : typed (dns_cache_put name ip ttl) any.
Proof.
  unfold dns_cache_put. apply t_if; intros _; [by apply t_ret |]. destruct (dns_name_copy name); [| by apply t_ret].
  eapply t_bind; [apply t_state | intros c _]. tnext.
  eapply t_bind with (R := any); [destruct (list_find _ c) as [[? ?] |]; [by apply t_ret | tnext; by apply t_ret] | intros s _]. tnext. apply t_cache.
Qed.

(** ** Handlers that may wait *)
Section Poll.
Variables (poll : M unit) (fuel : nat).
Context (Hpoll : typed poll any).

Lemma t_wait_any {A} k (test : M (option A)) d : typed test any -> typed (wait_for poll k test d) any.
Proof. intros Ht. eapply t_any, t_wait; [exact Hpoll |]. eapply t_mono; [exact Ht |]. intros ? _ a _. exact (I : any a). Qed.

(** A flag that a handler of frames raises. *)
Lemma t_flag v d : typed (wait_for poll fuel (g ← get v; mret (if g =? 0 then None else Some tt)) d) any.
Proof. apply t_wait_any. tnext. by apply t_ret. Qed.

Lemma t_dhcp_wait ms : typed (dhcp_wait poll fuel ms) any.
Proof. unfold dhcp_wait. tnext. eapply t_bind; [apply t_flag | intros; by apply t_ret]. Qed.
Lemma t_dns_wait ms : typed (dns_wait poll fuel ms) any.
Proof. unfold dns_wait. tnext. eapply t_bind; [apply t_flag | intros; by apply t_ret]. Qed.

Lemma t_dhcp_phase k send want nak ms : typed send any -> typed (dhcp_phase poll fuel k send want nak ms) any.
Proof.
  intros Hs. induction k as [| k IH]; cbn [dhcp_phase]; [by apply t_ret |]. do 2 tnext. eapply t_bind; [exact Hs | intros rc _].
  apply t_if; intros _; [by apply t_ret |]. eapply t_bind; [apply t_dhcp_wait | intros w _]. tnext.
  repeat (apply t_if; intros _; [by apply t_ret |]). exact IH.
Qed.

Lemma t_net_dhcp ms : typed (net_dhcp poll fuel ms) any.
Proof.
  unfold net_dhcp. apply t_if; intros _; [by apply t_ret |]. eapply t_bind; [apply t_build_ready |]. intros ok _.
  apply t_if; intros _; [by apply t_ret |]. tnext. eapply t_bind; [apply t_xid | intros ? _]. tnext.
  eapply t_bind; [apply t_dhcp_phase, t_dhcp_send | intros p1 _]. destruct p1; try (tnext; by apply t_ret).
  tnext. apply t_if; intros _; [tnext; by apply t_ret |]. eapply t_bind; [apply t_opt32 | intros ? _].
  eapply t_bind; [apply t_dhcp_phase, t_dhcp_send | intros p2 _]. tnext. destruct p2; try (by apply t_ret).
  tnext. apply t_if; intros _; [by apply t_ret |]. eapply t_bind; [apply t_dhcp_apply | intros _ _]. by apply t_ret.
Qed.

Lemma t_dns_send server q : Z.of_nat (length q) <= 1000 -> typed (dns_send poll fuel server q) any.
Proof.
  intros Hq. unfold dns_send, UDP_HDR_LEN. eapply t_bind; [apply t_my_ip | intros ? _]. do 10 tnext. tnext. tnext.
  by apply t_ipv4_via; [| | lia].
Qed.

Lemma t_ask_servers k q ms : forall s, 0 <= s -> s + Z.of_nat k = 4 -> Z.of_nat (length q) <= 1000 -> typed (ask_servers poll fuel k s q ms) any.
Proof.
  induction k as [| k IH]; intros s Hs Hk Hq; cbn [ask_servers]; (eapply t_bind; [apply t_srv_n |]; intros n Hn; cbn beta in Hn);
    (apply t_if; intros Hc; [by apply t_ret |]); btrue; [lia |].
  eapply t_bind; [apply t_srv | intros srv _]. apply t_if; intros _; [apply IH; lia |]. do 3 tnext.
  eapply t_bind; [by apply t_dns_send | intros rc _]. apply t_if; intros _; [tnext; by apply t_ret |].
  eapply t_bind; [apply t_dns_wait | intros got _]. apply t_if; intros _; [by apply t_ret | apply IH; lia].
Qed.

Lemma t_ask k q ms : Z.of_nat (length q) <= 1000 -> typed (ask poll fuel k q ms) any.
Proof.
  intros Hq. induction k as [| k IH]; cbn [ask]; [by apply t_ret |].
  eapply t_bind; [apply (t_ask_servers DNS_SRV_SLOTS q ms 0); (done || lia) | intros r _].
  destruct r as [[] |]; (by apply t_ret) || exact IH.
Qed.

Lemma t_parse : typed (d ← gets dns_buf; len ← get dns_len; lift (dns_parse d len)) any.
Proof.
  apply t_gets_bind. intros st Hst. destruct (ok_dns _ Hst) as (Hl & Hu & Hn).
  destruct (dns_parse_ok (dns_buf st) (gv st dns_len) Hu ltac:(lia) Hn) as [r Hr].
  apply safe_bind. change (safe (lift (dns_parse (dns_buf st) (gv st dns_len))) (fun a st' => any a /\ net_ok st') st). by rewrite Hr.
Qed.

Lemma t_resolve name ms : typed (net_dns_resolve poll fuel name ms) any.
Proof.
  unfold net_dns_resolve. tnext. apply t_if; intros _; [by apply t_ret |]. eapply t_bind; [apply t_cache_lookup | intros hit _].
  destruct hit; [by apply t_ret |]. apply t_if; intros _; [by apply t_ret |]. eapply t_bind; [apply t_build_ready | intros ok _].
  apply t_if; intros _; [by apply t_ret |]. cbv zeta. destruct (dns_encode_name name) as [enc |]; [| by apply t_ret].
  apply t_if; intros Hc; [by apply t_ret |]. btrue. do 4 tnext.
  eapply t_bind; [apply t_ask; unfold dns_query; rewrite !length_app; cbn [length put16]; lia | intros r _].
  destruct r as [got |]; [| by apply t_ret]. do 2 tnext. do 2 (apply t_if; intros _; [by apply t_ret |]).
  assert (Hp : forall k : option (Z * Z) -> M (Z * Z), (forall a, typed (k a) any) -> typed (d ← gets dns_buf; len ← get dns_len; a ← lift (dns_parse d len); k a) any).
  { intros k Hk st Hst. specialize (t_parse st Hst) as H. unfold typed, safe, mbind, M_bind in *. cbn in *.
    destruct (lift _ _) as [o st1 | |]; [apply (Hk o st1), H | done | done]. }
  apply Hp. intros [[ip ttl] |]; [| by apply t_ret]. eapply t_bind; [apply t_cache_put | intros; by apply t_ret].
Qed.

Lemma t_ping dst ms : typed (net_ping poll fuel dst ms) any.
Proof.
  unfold net_ping. eapply t_bind; [apply t_build_ready | intros ok _]. apply t_if; intros _; [by apply t_ret |]. do 16 tnext.
  eapply t_bind; [by apply t_ipv4 | intros rc _]. apply t_if; intros _; [| tnext; by apply t_ret].
  eapply t_bind; [apply t_wait_any; tnext; apply t_if; intros _; [by apply t_ret | tnext; by apply t_ret] | intros r _]. tnext. by apply t_ret.
Qed.

End Poll.
End Stack.
