(* ===== verification/NetSafeAll.v ===== *)
(** * NetSafeAll: the whole network stack stays inside its buffers

    The dispatch of frames, the timers, the socket calls and the calls of the
    kernel on top of [NetSafe.v], [NetSafeTcp.v] and [NetSafeApp.v]; then any
    sequence of frames and calls. *)

From S2P Require Import Prelude Disk Net Tcp Dhcp Dns NetCalls NetSum NetLogic NetRing NetLab NetUdp TcpProps TcpWire NetSafe NetSafeTcp NetSafeApp.

Section Stack.
Context `{E : NetEnv}.

Section Poll.
Variables (poll : M unit) (fuel : nat).
Context (Hpoll : typed poll any).

(** ** A received frame *)

Lemma t_arp_input a : Forall is_u8 a -> 28 <= Z.of_nat (length a) -> typed (arp_input a) any.
Proof.
  intros Hu Hl. pose proof len_mac as Hm. unfold arp_input, ETH_HDR_LEN. do 4 tnext. apply t_if; intros _; [by apply t_ret |]. do 2 tnext.
  eapply t_bind; [apply t_arp_learn; unfold mac_ok; lia | intros _ _]. do 2 tnext. eapply t_bind; [apply t_my_ip | intros my _].
  eapply t_bind with (R := any); [| intros; by apply t_ret]. apply t_if; intros _; [| by apply t_ret]. repeat tnext.
  eapply t_bind; [by apply t_send |]. intros r _. apply t_when. intros _. by apply t_bump.
Qed.

Lemma t_ip_deliver ip ihl : pkt ip ihl -> typed (ip_deliver poll fuel ip ihl) any.
Proof.
  intros Hp. pose proof Hp as (Hu & Hi & t & _ & Ht & Htl). unfold ip_deliver. tnext. eapply t_bind; [apply t_my_ip | intros my _]. tnext.
  apply t_if; intros _; [by apply t_ret |]. apply t_if; intros _.
  { eapply t_bind; [by apply t_icmp | intros; by apply t_ret]. }
  apply t_if; intros _.
  { eapply t_bind; [by apply t_dns_input | intros d _]. apply t_if; intros _; [by apply t_ret |]. eapply t_bind; [by apply t_udp_input | intros; by apply t_ret]. }
  apply t_if; intros _; [| by apply t_ret]. eapply t_bind; [by apply t_tcp_input | intros; by apply t_ret].
Qed.

Lemma t_dhcp_wants ip ihl t : Forall is_u8 ip -> 20 <= ihl <= 60 -> ihl <= t <= 1500 -> t <= Z.of_nat (length ip) -> typed (dhcp_wants ip ihl t) any.
Proof.
  intros Hu Hi Ht Hl. unfold dhcp_wants, UDP_HDR_LEN. do 2 tnext. ured. apply t_if; intros Hc; [| by apply t_ret]. btrue.
  pose proof (drop_u8 (Z.to_nat ihl) ip Hu). assert (Z.of_nat (length (drop (Z.to_nat ihl) ip)) = Z.of_nat (length ip) - ihl) by (rewrite length_drop; lia).
  do 2 tnext. by apply t_ret.
Qed.

Lemma l4_csum_total ip ihl t : Forall is_u8 ip -> 20 <= ihl <= 60 -> ihl <= t <= 1500 -> t <= Z.of_nat (length ip) -> exists b, l4_csum_ok ip ihl t = Some b.
Proof.
  intros Hu Hi Ht Hl. unfold l4_csum_ok, UDP_HDR_LEN, TCP_HDR_MIN. ured. pose proof (drop_u8 (Z.to_nat ihl) ip Hu) as Hd.
  assert (Hdl : Z.of_nat (length (drop (Z.to_nat ihl) ip)) = Z.of_nat (length ip) - ihl) by (rewrite length_drop; lia).
  destruct (rd8_some ip 9 Hu ltac:(lia)) as (proto & -> & _). destruct (be32_some ip 12 Hu ltac:(lia) ltac:(lia)) as (src & -> & _).
  destruct (be32_some ip 16 Hu ltac:(lia) ltac:(lia)) as (dst & -> & _).
  destruct (load_in (drop (Z.to_nat ihl) ip) 0 (t - ihl)) as (p & -> & _); [lia | lia | lia |]. cbn [mbind option_bind].
  destruct (proto =? 17).
  - destruct (Z.ltb_spec (t - ihl) 8); [by eexists |]. destruct (be16_some (drop (Z.to_nat ihl) ip) 6 Hd ltac:(lia) ltac:(lia)) as (g & -> & _).
    cbn [mbind option_bind]. destruct (g =? 0); by eexists.
  - destruct (proto =? 6); [| by eexists]. destruct (Z.ltb_spec (t - ihl) 20); [by eexists |].
    destruct (be16_some (drop (Z.to_nat ihl) ip) 16 Hd ltac:(lia) ltac:(lia)) as (g & -> & _). by eexists.
Qed.

Lemma t_ip_input ip mac len : Forall is_u8 ip -> mac_ok mac -> 20 <= Z.of_nat (length ip) -> len = Z.of_nat (length ip) + 14 ->
  typed (ip_input poll fuel ip mac len) any.
Proof.
  intros Hu Hm H20 Hlen. unfold ip_input, IP_HDR_MIN, ETH_HDR_LEN. tnext. apply t_if; intros _; [by apply t_ret |].
  assert (Hv : 0 <= a &! 0x0F <= 15).
  { change 0x0F with (2 ^ 4 - 1). rewrite land_low_mask by lia. pose proof (Z.mod_pos_bound a (2 ^ 4) ltac:(lia)). lia. }
  ured. set (ihl := (a &! 0x0F) * 4) in *. apply t_if; intros Hc; [by apply t_ret |]. apply orb_false_iff in Hc as [Hc1 Hc2]. btrue.
  unfold UDP_HDR_LEN. eapply t_bind with (R := fun t => be16 ip 2 = Some t /\ is_u16 t).
  { apply t_lift. destruct (be16_some ip 2 Hu ltac:(lia) ltac:(lia)) as (t & -> & Ht). by exists t. }
  intros t [Et Ht]. unfold is_u16 in Ht. ured. apply t_if; intros Hc; [by apply t_ret |]. apply orb_false_iff in Hc as [Hc Hc5]. apply orb_false_iff in Hc as [Hc3 Hc4]. btrue.
  assert (Hp : pkt ip ihl). { split; [done |]. split; [lia |]. exists t. split; [done | lia]. }
  tnext. apply t_if; intros _; [tnext; by apply t_ret |]. tnext. apply t_if; intros _; [tnext; by apply t_ret |]. tnext.
  eapply t_bind with (R := any).
  { apply t_if; intros _; [| by apply t_ret]. apply t_lift. destruct (l4_csum_total ip ihl t) as [b ->]; [done | lia | lia | lia |]. by exists b. }
  intros ok _. apply t_if; intros _; [tnext; by apply t_ret |]. tnext. eapply t_bind; [by apply t_arp_learn | intros _ _].
  eapply t_bind; [apply t_dhcp_wants; (done || lia) | intros w _]. apply t_if; intros _; [| by apply t_ip_deliver].
  eapply t_bind; [by apply t_dhcp_input | intros; by apply t_ret].
Qed.

Lemma t_net_input f : Forall is_u8 f -> typed (net_input poll fuel f) any.
Proof.
  intros Hu. unfold net_input, ETH_HDR_LEN, IP_HDR_MIN. eapply t_bind; [apply t_build_ready | intros ok _]. apply t_if; intros _; [by apply t_ret |].
  apply t_if; intros Hc; [by apply t_ret |]. btrue. tnext. pose proof (drop_u8 (Z.to_nat 14) f Hu) as Hd.
  assert (Hl : Z.of_nat (length (drop (Z.to_nat 14) f)) = Z.of_nat (length f) - 14) by (rewrite length_drop; lia).
  apply t_if; intros _.
  - apply t_if; intros Hc'; [by apply t_ret |]. btrue. apply t_arp_input; [done | lia].
  - apply t_if; intros _; [by apply t_ret |]. apply t_if; intros Hc'; [by apply t_ret |]. btrue. tnext. apply t_ip_input; [done | unfold mac_ok; lia | lia | lia].
Qed.

Lemma t_input_all fs : Forall (Forall is_u8) fs -> typed (input_all poll fuel fs) any.
Proof.
  induction 1 as [| f fs Hf _ IH]; cbn [input_all]; [by apply t_ret |]. eapply t_bind; [by apply t_net_input | intros ? _]. exact IH.
Qed.
End Poll.

Lemma t_net_tick : typed net_tick any.
Proof.
  unfold net_tick. do 2 tnext. apply t_if; intros _; [by apply t_ret |]. tnext. eapply t_bind; [apply t_renew_check | intros ? _]. by apply t_tcp_tick.
Qed.

Lemma t_poll k : typed (net_poll k) any.
Proof.
  induction k as [| k IH]; cbn [net_poll]; [apply t_stuck |]. eapply t_bind; [apply t_state | intros n _].
  eapply t_bind; [apply t_env; intros st; eauto | intros _ _].
  eapply t_bind; [apply t_when; intros _; apply t_input_all; [exact IH | apply arrivals_ok] | intros _ _]. apply t_net_tick.
Qed.

(** ** Sockets *)

Lemma t_socks : typed (gets g_socks) (fun l => length l = 8%nat /\ Forall sock_ok l).
Proof. apply t_gets. intros st Hst. apply (ok_socks _ Hst). Qed.

Lemma sock_find_ok (P : sock_t -> Prop) `{forall s, Decision (P s)} l i s :
  length l = 8%nat -> Forall sock_ok l -> list_find P l = Some (i, s) -> (i < 8)%nat /\ sock_ok s.
Proof.
  intros Hl Hs Hf. apply list_find_Some in Hf as (Hi & _). split; [apply lookup_lt_Some in Hi; lia |]. rewrite Forall_lookup in Hs. by eapply Hs.
Qed.

Lemma t_sock_get idx : 0 <= idx -> typed (sock_get idx) (fun o => forall i, o = Some i -> (i < 8)%nat).
Proof.
  intros Hi. unfold sock_get, NET_MAX_SOCKS. apply t_if; intros Hc; [by apply t_ret |]. btrue.
  eapply t_bind; [apply t_get_sock; lia |]. intros s _. apply t_ret. destruct (used s); [| done]. intros i [= <-]. lia.
Qed.

Lemma t_sock_alloc ty pid : typed (sock_alloc ty pid) (fun o => forall i, o = Some i -> (i < 8)%nat).
Proof.
  unfold sock_alloc. eapply t_bind with (R := any).
  { apply t_modify; [done |]. intros st [[H1 H1'] H2 H3 H4 H5 H6 H7]. split; try done. cbn. unfold reclaim. rewrite length_map. split; [done |].
    apply Forall_map, (Forall_impl _ _ _ H1'). intros s Hs. destruct (_ && _); [by apply sock_free_ok | done]. }
  intros _ _. eapply t_bind; [apply t_socks |]. intros l [Hl Hs]. destruct (list_find _ l) as [[i s] |] eqn:Ef; [| by apply t_ret].
  destruct (sock_find_ok _ _ _ _ Hl Hs Ef) as [Hi [[(( b & Hb & Hbl) & _) Ho] Hn]]. cbv zeta. rewrite Hb.
  tnext; [| apply t_ret; by intros ? [= <-]].
  split; [split |]; [| exact Ho | exact Hn]. split; [by exists b |]. cbn. unfold NET_SOCK_BUF. lia.
Qed.

(** The first connection of a listening socket that has not been accepted. *)
Lemma t_accepted l : typed (gets (accepted l)) (fun o => forall j c, o = Some (j, c) -> (j < 8)%nat /\ sock_ok c).
Proof. apply t_gets. intros st Hst j c Hf. destruct (ok_socks _ Hst). by eapply sock_find_ok. Qed.

(** ** Reading a ring, whatever it holds *)

Lemma ring_get_total k l : Z.of_nat (length l) = NET_SOCK_BUF -> forall p, 0 <= p < NET_SOCK_BUF ->
  exists d p', ring_get k l p = Some (d, p') /\ 0 <= p' < NET_SOCK_BUF.
Proof.
  intros Hl. induction k as [| k IH]; intros p Hp; cbn [ring_get]; [by exists [], p |].
  assert (exists x, rd8 l p = Some x) as [x ->].
  { unfold rd8. destruct (Z.ltb_spec p 0); [lia |]. apply lookup_lt_is_Some_2. lia. }
  cbn [mbind option_bind]. destruct (IH ((p +! 1) mod NET_SOCK_BUF)) as (d & p' & -> & Hp'); [apply Z.mod_pos_bound; reflexivity |]. by eexists _, p'.
Qed.
Lemma ring_rx r p : ring_ok r -> 0 <= p < NET_SOCK_BUF -> ring_ok (with_rx_r r p).
Proof. intros ((l & Hl) & Hr & Hw) Hp. split; [by exists l | done]. Qed.
Lemma rcv_get_total r k : ring_ok r -> exists d p, rcv_get r k = Some (d, with_rx_r r p) /\ 0 <= p < NET_SOCK_BUF.
Proof.
  intros Hok. pose proof Hok as ((l & El & Hl) & Hr & Hw). unfold rcv_get. destruct (k =? 0); [exists [], (rx_r r); by rewrite with_rx_r_id |].
  rewrite El. cbn [mbind option_bind]. destruct (ring_get_total (Z.to_nat k) l Hl (rx_r r) Hr) as (d & p & -> & Hp). by exists d, p.
Qed.
Lemma iter_range k p : 0 <= p < NET_SOCK_BUF -> 0 <= Nat.iter k (fun p => (p +! 1) mod NET_SOCK_BUF) p < NET_SOCK_BUF.
Proof. intros Hp. destruct k as [| k]; [done |]. cbn. apply Z.mod_pos_bound. reflexivity. Qed.

Lemma same_ooo r p : ooo_ok r -> ooo_ok (with_rx_r r p).
Proof. done. Qed.
Lemma udp_take_total r max : rcv_ok r -> exists h d r', udp_take r max = Some (h, d, r') /\ rcv_ok r'.
Proof.
  intros [Hok Ho]. unfold udp_take. destruct (rcv_get_total r 8 Hok) as (h & p & -> & Hp). cbn [mbind option_bind].
  pose proof (ring_rx r p Hok Hp) as Hok1. cbv zeta.
  match goal with |- context [rcv_get (with_rx_r r p) ?n] => destruct (rcv_get_total _ n Hok1) as (d & p2 & -> & Hp2) end. cbn [mbind option_bind].
  eexists _, _, _. split; [done |]. split; [| exact Ho]. apply ring_rx; [by apply ring_rx | by apply iter_range].
Qed.
Lemma t_stream k r : rcv_ok r -> typed (lift (stream_get k r)) (fun '(_, r') => rcv_ok r').
Proof.
  intros [Hok Ho]. apply t_lift. destruct (stream_get_spec k r Hok) as (p & -> & Hok' & _). eexists. split; [done |]. by split.
Qed.

(** ** The buffers of a connection *)

Definition has_buf (i : nat) (st : net) : Prop := is_Some (rtx (snd (nth i (g_socks st) no_sock))).

Lemma nth_set (l : list sock_t) i s : (i < length l)%nat -> nth i (<[i := s]> l) no_sock = s.
Proof. intros Hi. apply nth_lookup_Some. by apply list_lookup_insert_eq. Qed.

Lemma tcp_bufs_has i st st' : (i < length (g_socks st))%nat -> tcp_bufs i st = Ok true st' -> has_buf i st'.
Proof.
  intros Hi. unfold tcp_bufs, kmalloc. rewrite bind_sock. set (s := nth i (g_socks st) no_sock).
  assert (Hk : forall (o : option (list Z)) (k : option (list Z) -> M bool) sz (st : net),
    (match o with Some _ => mret o | None => n ← gets allocs; modify (fun st => set_env (polls st) (sleeps st) (sends st) (S n) st);; mret (km_alloc n sz) end ≫= k) st
    = k (match o with Some _ => o | None => km_alloc (allocs st) sz end) (match o with Some _ => st | None => set_env (polls st) (sleeps st) (sends st) (S (allocs st)) st end)).
  { intros [] ? ? ?; done. }
  rewrite Hk. set (b := match rtx (snd s) with Some _ => _ | None => _ end). set (st1 := match rtx (snd s) with Some _ => st | None => _ end).
  assert (Hi1 : (i < length (g_socks st1))%nat) by (subst st1; by destruct (rtx (snd s))).
  rewrite bind_set_sock. destruct b as [b |]; [| done]. rewrite bind_sock. cbn [g_socks set_socks]. rewrite nth_set by done.
  rewrite Hk. set (o := match ooo _ with Some _ => _ | None => _ end). set (st2 := match ooo _ with Some _ => _ | None => _ end).
  rewrite bind_set_sock. destruct o as [o |]; [| done]. rewrite bind_sock. cbn [g_socks set_socks].
  assert (Hi2 : (i < length (g_socks st2))%nat) by (subst st2; destruct (ooo _); cbn; by rewrite length_insert).
  rewrite nth_set by done. rewrite bind_set_sock. intros [= <-]. unfold has_buf. cbn [g_socks set_socks]. rewrite nth_set by (by rewrite length_insert). by eexists.
Qed.

Lemma need_bufs_has {B} i (m m' : M B) R : (i < 8)%nat -> typed m' R ->
  (forall st, net_ok st -> has_buf i st -> safe m (fun a st' => R a /\ net_ok st') st) ->
  typed (ok ← need_bufs i; if negb ok then m' else m) R.
Proof.
  intros Hi Hm' Hm st Hst. destruct (ok_socks _ Hst) as [H8 _]. unfold need_bufs. apply safe_bind, safe_bind, safe_gets.
  destruct (rtx _) eqn:Er; [apply safe_ret, Hm; [done | unfold has_buf; by rewrite Er] |].
  pose proof (t_tcp_bufs i Hi st Hst) as Hb. pose proof (tcp_bufs_has i st) as Hh. unfold safe in *.
  destruct (tcp_bufs i st) as [ok st' | |]; [| done | done]. destruct Hb as [_ Hst']. destruct ok; cbn; [| by apply Hm'].
  apply Hm; [done |]. apply Hh; [lia | done].
Qed.

Lemma send_data_safe i buf d st : (i < 8)%nat -> net_ok st -> has_buf i st -> Z.of_nat (length d) <= TCP_RTX_BUF ->
  (forall l, buf = Some l -> Z.of_nat (length d) <= Z.of_nat (length l)) ->
  safe (send_data i buf d) (fun _ st' => any tt /\ net_ok st') st.
Proof.
  intros Hi Hst [b Hb] Hd Hbuf. pose proof (sock_ok_nth st i Hst Hi) as Hs. set (s := nth i (g_socks st) no_sock) in *. pose proof Hs as [Hr (Hn1 & Hn2 & Hn3)].
  unfold send_data. apply safe_bind, safe_gets. fold s. unfold snd_queue. rewrite Hb. cbn [mbind option_bind]. unfold TCP_RTX_BUF in *.
  destruct (store_in b 0 d 1536) as (b' & -> & Hb'); [by apply Hn2 | lia | lia |]. cbn [mbind option_bind]. apply safe_bind. eapply safe_of; [done |]. cbv zeta.
  set (n' := set_nxt (set_rtx (snd s) (Some b') _) _).
  assert (Hn' : snd_ok n').
  { split; cbn; unfold TCP_RTX_BUF; [lia |]. split; [intros ? [= <-]; lia | done]. }
  match goal with |- safe ?m _ _ => cut (typed m any); [intros Ht; exact (Ht st Hst) |] end.
  tnext; [apply with_snd_ok; [exact Hs | exact Hn'] |]. eapply t_bind with (R := any); [apply t_tcp_send; [lia |] |].
  - right. destruct buf as [l |]; [exists l; split; [done | by apply Hbuf] |]. exists b'. split; [done | lia].
  - intros rc _. apply t_if; intros _.
    + tnext; [| by apply t_ret]. apply with_snd_ok; [done |]. split; cbn; unfold TCP_RTX_BUF; [lia |]. split; [intros ? [= <-]; lia | done].
    + tnext. tnext; [| by apply t_ret]. apply with_snd_ok; [by apply with_snd_ok |]. destruct Hn' as (? & ? & ?). by split.
Qed.

(** ** Calls *)
Section Calls.
Variable fuel : nat.

Lemma t_wait_cond c ms : typed c any -> typed (wait_cond fuel c ms) any.
Proof.
  intros Hc. unfold wait_cond. tnext. eapply t_bind; [| intros; by apply t_ret]. apply t_wait_any; [apply t_poll |].
  eapply t_bind; [exact Hc | intros c0 _]. by apply t_ret.
Qed.

(** Conditions on one socket. *)
Lemma t_cond i (f : sock_t -> bool) : (i < 8)%nat -> typed (s ← get_sock i; mret (f s)) any.
Proof. intros Hi. tnext. by apply t_ret. Qed.

Lemma t_ephemeral k : typed (ephemeral_port k) any.
Proof.
  induction k as [| k IH]; cbn [ephemeral_port]; [by apply t_ret |]. do 2 tnext. eapply t_bind; [apply t_when; intros _; by apply t_set | intros _ _].
  eapply t_bind; [apply t_state | intros l _]. apply t_if; intros _; [exact IH | by apply t_ret].
Qed.

Lemma t_tcp_open i port dst dport ms : (i < 8)%nat -> typed (tcp_open fuel i port dst dport ms) any.
Proof.
  intros Hi. unfold tcp_open. eapply t_bind; [apply t_isn | intros q _]. tnext. rename a into s, H into Hs. destruct Hs as [[Hr Ho] Hn].
  tnext. { split; [split; [| done] |]; [| destruct Hn as (? & ? & ?); by split]. destruct Hr as (Hx & _ & _). split; [exact Hx |]. cbn. unfold NET_SOCK_BUF. lia. }
  eapply t_bind; [apply t_arp_resolve, t_poll |]. intros [m |] _; [| eapply t_bind; [by apply t_sock_free | intros; by apply t_ret]].
  do 2 tnext. rename a0 into s2, H into Hs2. cbv zeta.
  assert (Hs2' : forall n q0, sock_ok (with_snd s2 (set_nxt (set_timer (snd s2) n 0) q0))).
  { intros. destruct Hs2 as [Hr2 (? & ? & ?)]. by split. }
  tnext; [apply Hs2' |]. eapply t_bind; [apply t_tcp_send0 | intros _ _]. eapply t_bind; [apply t_wait_cond; by apply t_cond | intros ok _].
  apply t_if; intros _; [by apply t_ret |]. eapply t_bind; [by apply t_sock_free | intros; by apply t_ret].
Qed.

Section Users.
Variables (uptr_ok : Z -> Z -> bool -> bool) (uload : Z -> Z -> list Z).
Context (Hload : forall va n, 0 <= n -> Z.of_nat (length (uload va n)) = n).

Lemma t_fail : typed fail any.
Proof. by apply t_ret. Qed.

Lemma with_port_ok s p : sock_ok s -> sock_ok (with_port s p).
Proof. done. Qed.
Lemma with_state_ok s t : sock_ok s -> sock_ok (with_state s t).
Proof. done. Qed.
Lemma with_parent_ok s p : sock_ok s -> sock_ok (with_parent s p).
Proof. done. Qed.

Lemma t_bind_call i p : (i < 8)%nat -> typed (sc_bind i p) any.
Proof.
  intros Hi. unfold sc_bind. tnext. do 2 (apply t_if; intros _; [apply t_fail |]). eapply t_bind; [apply t_state | intros l _].
  apply t_if; intros _; [apply t_fail |]. tnext; [by apply with_port_ok | by apply t_ret].
Qed.
Lemma t_listen i : (i < 8)%nat -> typed (sc_listen i) any.
Proof. intros Hi. unfold sc_listen. tnext. apply t_if; intros _; [apply t_fail |]. tnext; [by apply with_state_ok | by apply t_ret]. Qed.

Lemma t_accept i ms : (i < 8)%nat -> typed (sc_accept fuel i ms) any.
Proof.
  intros Hi. unfold sc_accept. tnext. apply t_if; intros _; [apply t_fail |]. eapply t_bind; [apply t_wait_cond, t_state | intros ok _].
  apply t_if; intros _; [apply t_fail |]. eapply t_bind; [apply t_accepted |]. intros [[j c] |] Hj; [| apply t_fail].
  destruct (Hj j c eq_refl). tnext; [by apply with_parent_ok | by apply t_ret].
Qed.

Lemma t_connect i dst dport ms : (i < 8)%nat -> typed (sc_connect fuel i dst dport ms) any.
Proof.
  intros Hi. unfold sc_connect. tnext. do 3 (apply t_if; intros _; [apply t_fail |]). eapply t_bind; [apply t_ephemeral | intros port _].
  apply t_if; intros _; [apply t_fail |]. eapply t_bind; [by apply t_tcp_bufs | intros ok _]. apply t_if; intros _; [apply t_fail |].
  eapply t_bind; [by apply t_tcp_open | intros ok2 _]. apply t_if; intros _; by apply t_ret.
Qed.

Lemma t_sendto i va n dst dport : (i < 8)%nat -> 0 <= n -> typed (sc_sendto fuel uptr_ok uload i va n dst dport) any.
Proof.
  intros Hi Hn. unfold sc_sendto. tnext. apply t_if; intros _; [apply t_fail |]. apply t_if; intros _; [apply t_fail |]. cbv zeta. apply t_if; intros _.
  - apply t_if; intros _; [apply t_fail |]. eapply t_bind; [apply t_udp_send; [apply t_poll | by apply Hload | done] | intros; by apply t_ret].
  - do 3 (apply t_if; intros ?; [apply t_fail |]). btrue. apply need_bufs_has; [done | apply t_fail |]. intros st Hst Hb.
    destruct (load_in (uload va n) 0 n) as (d & Ed & Hd & _); [lia | lia | rewrite Hload; lia |]. apply safe_bind. eapply safe_of; [exact Ed |].
    apply safe_bind. eapply safe_mono; [apply send_data_safe; [done | done | done | lia |] |].
    { intros l [= <-]. rewrite Hload by lia. lia. }
    intros ok st' [_ Hst']. destruct ok; done.
Qed.

Lemma t_recvfrom i va n ms out : (i < 8)%nat -> typed (sc_recvfrom fuel uptr_ok i va n ms out) any.
Proof.
  intros Hi. unfold sc_recvfrom. tnext. rename a into s0. do 2 (apply t_if; intros _; [apply t_fail |]). cbv zeta.
  assert (Hc : typed (if type s0 =? SOCK_TYPE_UDP then cond_udp i else cond_tcp i) any) by (destruct (_ =? _); by apply t_cond).
  eapply t_bind; [exact Hc | intros now _]. eapply t_bind with (R := any); [apply t_if; intros _; [by apply t_ret | by apply t_wait_cond] | intros ok _].
  apply t_if; intros _; [apply t_fail |]. tnext. rename a into s, H0 into Hs. pose proof Hs as [Hr _]. apply t_if; intros _.
  - destruct (udp_take_total (rcv s) n Hr) as (h & d & r & E1 & Hr'). rewrite E1. eapply t_bind with (R := fun x => x = (h, d, r)).
    { apply t_lift. by eexists. } intros ? ->. tnext; [by apply with_rcv_ok | by apply t_ret].
  - eapply t_bind; [apply t_stream; exact Hr |]. intros [d r] Hr'. tnext; [by apply with_rcv_ok | by apply t_ret].
Qed.

Lemma t_sockcall pid cmd a : Forall is_u32 a -> typed (net_sockcall fuel uptr_ok uload pid cmd a) any.
Proof.
  intros Ha. assert (Hu : forall i, 0 <= aget 0 a i).
  { intros i. unfold aget. destruct (nth_in_or_default (Z.to_nat i) a 0) as [Hin | ->]; [| lia]. rewrite Forall_forall in Ha.
    apply list_elem_of_In in Hin. destruct (Ha _ Hin). lia. }
  unfold net_sockcall. eapply t_bind; [apply t_build_ready | intros ok _]. apply t_if; intros _; [apply t_fail |]. apply t_if; intros _.
  - apply t_if; intros _; [apply t_fail |]. eapply t_bind; [apply t_sock_alloc |]. intros [i |] _; by apply t_ret.
  - apply t_if; intros _; [apply t_fail |]. eapply t_bind; [by apply t_sock_get |]. intros [i |] Hi; [| apply t_fail]. specialize (Hi i eq_refl).
    apply t_if; intros _; [by apply t_bind_call |]. apply t_if; intros _; [by apply t_listen |]. apply t_if; intros _; [by apply t_accept |].
    apply t_if; intros _; [by apply t_connect |]. apply t_if; intros _; [by apply t_sendto |]. apply t_if; intros _; [by apply t_recvfrom |].
    eapply t_bind; [by apply t_tcp_close | intros; by apply t_ret].
Qed.
End Users.

(** *** The client of the kernel and the web server *)

Lemma t_tcp_connect dst port ms : typed (net_tcp_connect fuel dst port ms) any.
Proof.
  unfold net_tcp_connect. eapply t_bind; [apply t_build_ready | intros ok _]. do 2 (apply t_if; intros _; [by apply t_ret |]).
  eapply t_bind; [apply t_sock_alloc |]. intros [i |] Hi; [| by apply t_ret]. specialize (Hi i eq_refl).
  eapply t_bind; [apply t_ephemeral | intros local _]. apply t_if; intros _; [eapply t_bind; [by apply t_sock_free | intros; by apply t_ret] |].
  eapply t_bind; [by apply t_tcp_bufs | intros ok2 _]. apply t_if; intros _; [eapply t_bind; [by apply t_sock_free | intros; by apply t_ret] |].
  eapply t_bind; [by apply t_tcp_open | intros; by apply t_ret].
Qed.

Lemma t_send_from k i buf ms : (i < 8)%nat -> forall sent, 0 <= sent -> typed (send_from fuel k i buf sent ms) any.
Proof.
  intros Hi. induction k as [| k IH]; intros sent Hsent; cbn [send_from]; (apply t_if; intros Hc; [by apply t_ret |]); [apply t_stuck |]. btrue.
  tnext. eapply t_bind with (R := any).
  { apply t_if; intros _; [by apply t_ret |]. eapply t_bind; [apply t_wait_cond; by apply t_cond | intros w _]. tnext. by apply t_ret. }
  intros ok _. apply t_if; intros _; [by apply t_ret |]. cbv zeta. set (n := if _ <? _ then _ else _).
  assert (Hn : 0 <= n <= TCP_RTX_BUF /\ sent + n <= Z.of_nat (length buf)) by (subst n; unfold TCP_RTX_BUF; bcase; lia).
  apply need_bufs_has; [done | by apply t_ret |]. intros st Hst Hb.
  destruct (load_in buf sent n) as (d & Ed & Hd & _); [lia | lia | lia |]. apply safe_bind. eapply safe_of; [exact Ed |].
  apply safe_bind. eapply safe_mono; [apply send_data_safe; [done | done | done | lia | done] |].
  intros ok2 st' [_ Hst']. destruct ok2; [apply IH; [lia | done] | done].
Qed.

Lemma t_tcp_send_call sid buf ms : typed (net_tcp_send fuel sid buf ms) any.
Proof.
  unfold net_tcp_send. eapply t_bind; [apply t_sock_get, u32_range |]. intros [i |] Hi; [| by apply t_ret]. specialize (Hi i eq_refl). tnext.
  apply t_if; intros _; [by apply t_ret | by apply t_send_from].
Qed.

Lemma t_tcp_recv sid max ms : typed (net_tcp_recv fuel sid max ms) any.
Proof.
  unfold net_tcp_recv. eapply t_bind; [apply t_sock_get, u32_range |]. intros [i |] Hi; [| by apply t_ret]. specialize (Hi i eq_refl). tnext.
  apply t_if; intros _; [by apply t_ret |]. eapply t_bind; [by apply t_cond | intros now _].
  eapply t_bind with (R := any); [apply t_if; intros _; [by apply t_ret | apply t_wait_cond; by apply t_cond] | intros ok _].
  apply t_if; intros _; [by apply t_ret |]. tnext. rename a0 into s, H0 into Hs. pose proof Hs as [Hr _].
  eapply t_bind; [apply t_stream; exact Hr |]. intros [d r] Hr'. tnext; [by apply with_rcv_ok | by apply t_ret].
Qed.

Lemma t_tcp_close_call sid : typed (net_tcp_close sid) any.
Proof.
  unfold net_tcp_close. eapply t_bind; [apply t_sock_get, u32_range |]. intros [i |] Hi; [| by apply t_ret]. specialize (Hi i eq_refl). tnext.
  apply t_when. intros _. eapply t_bind; [by apply t_tcp_close | intros; by apply t_ret].
Qed.

(** The reply is queued and sent; [bufs] has succeeded. *)
Lemma t_serve c resp : (c < 8)%nat -> typed (httpd_serve fuel c resp) any.
Proof.
  intros Hc. unfold httpd_serve. tnext. rename a into s0, H into Hs0. tnext; [by apply with_parent_ok |].
  eapply t_bind; [apply t_wait_cond; by apply t_cond | intros ? _]. apply t_if; intros Hl; [by apply t_ret |]. btrue.
  intros st Hst. apply safe_bind. pose proof (t_tcp_bufs c Hc st Hst) as Hb. pose proof (tcp_bufs_has c st) as Hh. unfold safe at 1. unfold safe in Hb.
  destruct (tcp_bufs c st) as [ok st' | |]; [| done | done]. destruct Hb as [_ Hst']. destruct ok; cbn [negb]; [| done].
  destruct (Hh st') as [b Hb]; [destruct (ok_socks _ Hst); lia | done |]. pose proof (sock_ok_nth st' c Hst' Hc) as Hs. set (s := nth c (g_socks st') no_sock) in *.
  pose proof Hs as [_ (Hn1 & Hn2 & Hn3)]. apply safe_bind, safe_gets. fold s. unfold snd_queue. rewrite Hb. cbn [mbind option_bind]. unfold TCP_RTX_BUF in *.
  destruct (store_in b 0 resp 1536) as (b' & -> & Hb'); [by apply Hn2 | lia | lia |]. cbn [mbind option_bind]. apply safe_bind. eapply safe_of; [done |]. cbv zeta.
  set (n' := set_nxt (set_rtx (snd s) (Some b') _) _).
  assert (Hn' : snd_ok n').
  { split; cbn; unfold TCP_RTX_BUF; [lia |]. split; [intros ? [= <-]; lia | done]. }
  assert (Ht : forall t k, snd_ok (set_timer n' t k)) by (intros; destruct Hn' as (? & ? & ?); by split).
  match goal with |- safe ?m _ _ => cut (typed m any); [intros Hm; exact (Hm st' Hst') |] end.
  tnext; [apply with_snd_ok; [exact Hs | exact Hn'] |]. eapply t_bind with (R := any); [apply t_tcp_send; [lia |] |].
  - right. exists b'. split; [done | lia].
  - intros rc _. apply t_if; intros _; [by apply t_ret |]. tnext. tnext; [| by apply t_ret]. apply with_snd_ok; [by apply with_snd_ok | apply Ht].
Qed.

Lemma t_httpd v : typed (net_httpd_once fuel v) any.
Proof.
  unfold net_httpd_once. eapply t_bind; [apply t_build_ready | intros ok _]. apply t_if; intros _; [by apply t_ret |].
  eapply t_bind; [apply t_sock_alloc |]. intros [l |] Hl; [| by apply t_ret]. specialize (Hl l eq_refl).
  eapply t_bind; [by apply t_tcp_bufs | intros ok2 _]. apply t_if; intros _; [eapply t_bind; [by apply t_sock_free | intros; by apply t_ret] |].
  tnext. tnext; [by apply with_port_ok |]. eapply t_bind; [apply t_state | intros ss _].
  apply t_if; intros _; [eapply t_bind; [by apply t_sock_free | intros; by apply t_ret] |]. tnext. tnext; [by apply with_state_ok |].
  eapply t_bind; [apply t_wait_cond, t_state | intros ok3 _]. apply t_if; intros _; [eapply t_bind; [by apply t_tcp_close | intros; by apply t_ret] |].
  eapply t_bind; [apply t_accepted |]. intros [[c cs] |] Hc; [| eapply t_bind; [by apply t_tcp_close | intros; by apply t_ret]].
  destruct (Hc c cs eq_refl) as [Hc8 _]. eapply t_bind; [by apply t_serve | intros rc _].
  do 2 (eapply t_bind; [by apply t_tcp_close | intros ? _]). by apply t_ret.
Qed.
End Calls.

(** ** Everything that enters the network stack *)

Section Run.
Variable fuel : nat.
Variables (uptr_ok : Z -> Z -> bool -> bool) (uload : Z -> Z -> list Z).

(** A frame from the card, the poll of the idle loop, a socket call of a user
    program, and the calls of the kernel itself. *)
Inductive event :=
  | EFrame (f : list Z)
  | EPoll
  | ECall (pid cmd : Z) (args : list Z)
  | EPing (dst ms : Z)
  | EDhcp (ms : Z)
  | EResolve (name : list Z) (ms : Z)
  | EConnect (dst port ms : Z)
  | ESend (sid : Z) (buf : list Z) (ms : Z)
  | ERecv (sid max ms : Z)
  | EClose (sid : Z)
  | EHttpd (version : list Z).

Definition handle (e : event) : M unit :=
  match e with
  | EFrame f => _ ← net_input (net_poll fuel) fuel f; mret tt
  | EPoll => net_poll fuel
  | ECall pid cmd args => _ ← net_sockcall fuel uptr_ok uload pid cmd args; mret tt
  | EPing dst ms => _ ← net_ping (net_poll fuel) fuel dst ms; mret tt
  | EDhcp ms => _ ← net_dhcp (net_poll fuel) fuel ms; mret tt
  | EResolve name ms => _ ← net_dns_resolve (net_poll fuel) fuel name ms; mret tt
  | EConnect dst port ms => _ ← net_tcp_connect fuel dst port ms; mret tt
  | ESend sid buf ms => _ ← net_tcp_send fuel sid buf ms; mret tt
  | ERecv sid max ms => _ ← net_tcp_recv fuel sid max ms; mret tt
  | EClose sid => net_tcp_close sid
  | EHttpd v => _ ← net_httpd_once fuel v; mret tt
  end.
Fixpoint run (es : list event) : M unit :=
  match es with [] => mret tt | e :: es' => handle e;; run es' end.

(** Frames are bytes and arguments words. *)
Definition event_ok (e : event) : Prop :=
  match e with EFrame f => Forall is_u8 f | ECall _ _ args => Forall is_u32 args | _ => True end.

Context (Hload : forall va n, 0 <= n -> Z.of_nat (length (uload va n)) = n).

Lemma t_handle e : event_ok e -> typed (handle e) any.
Proof.
  intros He. destruct e; cbn [handle]; try (eapply t_bind; [| intros ? _; by apply t_ret]).
  - apply t_net_input; [apply t_poll | exact He].
  - apply t_poll.
  - by apply t_sockcall.
  - apply t_ping, t_poll.
  - apply t_net_dhcp, t_poll.
  - apply t_resolve, t_poll.
  - apply t_tcp_connect.
  - apply t_tcp_send_call.
  - apply t_tcp_recv.
  - apply t_tcp_close_call.
  - apply t_httpd.
Qed.

(** C12. The network stack never touches memory outside its buffers: from a
    state in which every socket slot has its receive ring, whatever bytes arrive
    and whatever calls are made, in any order, no handler reads or writes outside
    a buffer or through a null pointer, and the invariant of all buffers, rings,
    lengths and tables holds again afterwards. *)
Theorem net_stack_safe es st : Forall event_ok es -> net_ok st ->
  match run es st with Ok _ st' => net_ok st' | Wild => False | Stuck => True end.
Proof.
  intros Hes Hst. assert (Ht : typed (run es) any).
  { induction Hes as [| e es He _ IH]; cbn [run]; [by apply t_ret |]. eapply t_bind; [by apply t_handle | intros _ _; exact IH]. }
  specialize (Ht st Hst). unfold safe in Ht. destruct (run es st); [apply Ht | done | done].
Qed.
End Run.
End Stack.

(** ** The invariant decided, and two runs *)

Definition len_is {A} (n : Z) (o : option (list A)) (none : bool) : bool := match o with Some l => Z.of_nat (length l) =? n | None => none end.
Definition within (lo hi x : Z) : bool := (lo <=? x) && (x <=? hi).
Definition sock_okb (s : sock_t) : bool :=
  let r := rcv s in let n := snd s in
  len_is NET_SOCK_BUF (rx r) false && within 0 4095 (rx_r r) && within 0 4095 (rx_w r) &&
  within 0 TCP_OOO_BUF (ooo_len r) && len_is TCP_OOO_BUF (ooo r) (ooo_len r =? 0) &&
  within 0 TCP_RTX_BUF (rtx_len n) && len_is TCP_RTX_BUF (rtx n) (rtx_len n =? 0).
Definition bytes_okb (n : Z) (l : list Z) : bool := (Z.of_nat (length l) =? n) && forallb (within 0 255) l.
Definition net_okb (st : net) : bool :=
  (length (g_socks st) =? 8)%nat && forallb sock_okb (g_socks st) && len_is 1808 (g_build st) false && len_is 1808 (g_frame st) false &&
  forallb (fun e => (length e.2 =? 6)%nat) (g_arp st) && bytes_okb 4 (g_ip st) && bytes_okb 512 (dhcp_buf st) && within 0 512 (gv st dhcp_len) &&
  bytes_okb 512 (dns_buf st) && within 0 512 (gv st dns_len) && (length (g_dns_srv st) =? 4)%nat && within 0 4 (gv st g_dns_srv_n).

Lemma within_ok lo hi x : within lo hi x = true -> lo <= x <= hi.
Proof. unfold within. intros H. btrue. lia. Qed.
Lemma len_is_ok {A} n (o : option (list A)) b : len_is n o b = true ->
  (forall l, o = Some l -> Z.of_nat (length l) = n) /\ (o = None -> b = true).
Proof. destruct o as [l |]; cbn; intros H; [btrue; split; [by intros ? [= <-] | done] | split; [done |]; by intros _]. Qed.
Lemma len_some {A} n (o : option (list A)) : len_is n o false = true -> exists l, o = Some l /\ Z.of_nat (length l) = n.
Proof. destruct o as [l |]; cbn; intros H; [btrue; by exists l | done]. Qed.
Lemma bytes_ok n l : bytes_okb n l = true -> Z.of_nat (length l) = n /\ Forall is_u8 l.
Proof.
  unfold bytes_okb. intros H. apply andb_true_iff in H as [H1 H2]. btrue. split; [done |]. apply Forall_forall. intros x Hx.
  apply list_elem_of_In in Hx. apply forallb_forall with (x := x) in H2; [| done]. apply within_ok in H2. unfold is_u8. lia.
Qed.
Lemma forallb_Forall {A} (f : A -> bool) (P : A -> Prop) l : forallb f l = true -> (forall x, f x = true -> P x) -> Forall P l.
Proof. intros H Hi. apply Forall_forall. intros x Hx. apply Hi. apply list_elem_of_In in Hx. by apply forallb_forall with (x := x) in H. Qed.

Lemma sock_okb_ok s : sock_okb s = true -> sock_ok s.
Proof.
  unfold sock_okb. cbv zeta. rewrite !andb_true_iff. intros [[[[[[H1 H2] H3] H4] H5] H6] H7]. apply len_some in H1. apply within_ok in H2, H3, H4, H6.
  apply len_is_ok in H5 as [H5 H5'], H7 as [H7 H7']. unfold NET_SOCK_BUF in *.
  split; [split; [split; [done | split; unfold NET_SOCK_BUF; lia] |] |]; (split; [done |]; split; [done |]; intros Hn); [apply H5' in Hn | apply H7' in Hn]; by btrue.
Qed.
Lemma net_okb_ok st : net_okb st = true -> net_ok st.
Proof.
  unfold net_okb. rewrite !andb_true_iff. intros [[[[[[[[[[[H1 H2] H3] H4] H5] H6] H7] H8] H9] H10] H11] H12].
  apply Nat.eqb_eq in H1, H11. apply bytes_ok in H6 as [H6 H6'], H7 as [H7 H7'], H9 as [H9 H9']. apply within_ok in H8, H10, H12.
  split.
  - split; [done |]. eapply forallb_Forall; [exact H2 | apply sock_okb_ok].
  - split; by apply len_some.
  - eapply forallb_Forall; [exact H5 |]. intros x Hx. by apply Nat.eqb_eq.
  - split; [lia | done].
  - split; [lia | done].
  - split; [lia | done].
  - done.
Qed.

(** All eight slots have been used once by the process 7 and closed again. *)
Definition sys (cmd : Z) (args : list Z) : event := ECall 7 cmd args.
Definition any_ptr (_ _ : Z) (_ : bool) : bool := true.
Definition zeros (_ n : Z) : list Z := replicate (Z.to_nat n) 0.
Definition warm : net :=
  let E := lab 2 [] 1 in
  final (run 3 any_ptr zeros (map (fun _ => sys SC_SOCKET [SOCK_TYPE_TCP; 0; 0; 0; 0]) (seq 0 8) ++
                              map (fun i => sys SC_CLOSE [Z.of_nat i; 0; 0; 0; 0]) (seq 0 8)) net_boot).

(** A listener on port 80, a connection to it from port 4000, a request; an ARP
    packet; a runt and a frame of noise. *)
Definition tcp_in (seq ack flags : Z) (d : list Z) : list Z :=
  ip_frame [2; 0; 0; 0; 0; 2] [2; 0; 0; 0; 0; 1] 0x0A000201 0x0A00020F 6 7 (tcp_seg 0x0A000201 0x0A00020F 4000 80 seq ack flags d).
Definition listen80 : list event :=
  [sys SC_SOCKET [SOCK_TYPE_TCP; 0; 0; 0; 0]; sys SC_BIND [0; 80; 0; 0; 0]; sys SC_LISTEN [0; 0; 0; 0; 0]].
Definition request (isn : Z) : list event :=
  [EFrame (tcp_in 500 0 TCP_SYN []); EFrame (tcp_in 501 (isn +! 1) TCP_ACK []); EFrame (tcp_in 501 (isn +! 1) (Z.lor TCP_PSH TCP_ACK) [71; 69; 84])].
Definition traffic : list event :=
  listen80 ++ request 0x1000 ++ [EFrame (replicate 60 8); EFrame [1; 2; 3]; sys SC_ACCEPT [0; 1; 0; 0; 0]; EPoll].

Lemma warm_ok : net_ok warm.
Proof. apply net_okb_ok. vm_compute. reflexivity. Qed.

(** The connection is accepted and its bytes arrive. *)
Lemma net_stack_safe_witness :
  net_ok warm /\
  match @run (lab 2 [] 1) 40 any_ptr zeros traffic warm with
  | Ok _ st' => net_ok st' /\ rx_bytes (rcv (nth 1 (g_socks st') no_sock)) = [71; 69; 84]
  | Wild | Stuck => False
  end.
Proof.
  split; [apply warm_ok |].
  assert (Ht : Forall event_ok traffic).
  { repeat apply Forall_cons_2; try constructor; cbn [event_ok sys]; try (apply (bytes_ok 60); vm_compute; reflexivity);
      try (apply (bytes_ok 57); vm_compute; reflexivity); try (apply (bytes_ok 54); vm_compute; reflexivity);
      try (apply (bytes_ok 3); vm_compute; reflexivity); repeat apply Forall_cons_2; try constructor; by vm_compute. }
  pose proof (@net_stack_safe (lab 2 [] 1) 40 any_ptr zeros ltac:(intros va n Hn; unfold zeros; rewrite length_replicate; lia) traffic warm Ht warm_ok) as H.
  assert (Hr : match @run (lab 2 [] 1) 40 any_ptr zeros traffic warm with
               | Ok _ st' => rx_bytes (rcv (nth 1 (g_socks st') no_sock)) = [71; 69; 84] | Wild | Stuck => False end) by (vm_compute; reflexivity).
  destruct (run _ _ _ _ _) as [? st' | |]; [by split | done | done].
Defined.

(** The hypothesis is needed: a passive connection takes a slot without giving it
    a ring, and the first bytes that arrive are stored through a null pointer. *)
Example passive_open_null_write : @run (lab 2 [] 1) 40 any_ptr zeros (listen80 ++ request 0x1000) net_boot = Wild.
Proof. vm_compute. reflexivity. Qed.
